(* ===== verification/_CoqProject ===== *)
-Q . S2P
Prelude.v
CString.v
Quad.v
QuadProofs.v
Ed.v
EdRegex.v
EdCompile.v
EdLines.v
EdSubst.v
EdSession.v
KList.v
KMem.v
UMalloc.v
UMallocChunks.v
UMallocRuns.v
Printf.v
Scanf.v
Strtol.v
Sh.v
ShFiles.v
ShParse.v
PrintfProofs.v
ScanfProofs.v
Timer.v
TimerTheorems.v
Page.v
PageTree.v
PageProofs.v
PageAllocProofs.v
PageTheorems.v
Pagetable.v
PagetableProofs.v
PagetableMap.v
PagetableTheorems.v
Slab.v
SlabProofs.v
SlabHeap.v
SlabTheorems.v
Kmalloc.v
KmallocTheorems.v
Btree.v
BtreeProofs.v
Mobj.v
Vnode.v
File.v
Namev.v
VfsSyscall.v
Ramfs.v
S5Disk.v
Fsmaker.v
FsmakerProofs.v
FsmakerFormat.v
FsmakerRoot.v
S5File.v
S5fs.v
MobjProofs.v
VfsSpec.v
VnodeProofs.v
FileProofs.v
FdProofs.v
NamevProofs.v
VfsNameProofs.v
VfsDirProofs.v
RamfsProofs.v
RamfsFileProofs.v
RamfsDirProofs.v
VfsRwProofs.v
VfsSystem.v
VfsTheorems.v
VfsExamples.v
ShKernel.v
S5DiskProofs.v
S5MetaProofs.v
S5AllocProofs.v
S5MapProofs.v
S5PageProofs.v
S5RwProofs.v
S5SyncProofs.v
S5DirProofs.v
FsmakerTheorems.v
