(* ===== verification/Prelude.v ===== *)
(** Verification of a Weenix kernel with its file systems, user programs and
    disk tools.

    * The program and the files that model it

    Paths are below src/; kernel files are named without the leading kernel/.

    - Strings and formatting.  util/string.c is [CString]; util/printf.c and
      user/lib/libc/vsnprintf.c are [Printf] and [Scanf], with proofs in
      [PrintfProofs] and [ScanfProofs]; [strtol] of the user library is [Strtol].
    - Lists, timers and the clock.  util/list.c and include/util/list.h are
      [KList], which is written over any state with a heap of links; util/timer.c
      and util/time.c are [Timer] and [TimerTheorems].
    - Physical memory.  mm/page.c is [Page] with [PageTree] (the nodes of the
      tree), [PageProofs], [PageAllocProofs] and [PageTheorems]; mm/pagetable.c is
      [Pagetable], [PagetableProofs], [PagetableMap] and [PagetableTheorems]; the
      byte memory is [KMem]; mm/slab.c is [Slab] and [Kmalloc], with [SlabProofs],
      [SlabHeap], [SlabTheorems] and [KmallocTheorems].
    - Memory objects.  util/btree.c is [Btree] and [BtreeProofs]; mm/mobj.c and
      mm/pframe.c, which keep page frames in that tree, are [Mobj] and
      [MobjProofs].
    - The virtual file system.  fs/vnode.c and fs/vnode_specials.c are [Vnode],
      fs/file.c is [File], fs/namev.c is [Namev], fs/vfs_syscall.c, fs/open.c and
      fs/vfs.c are [VfsSyscall].  [VfsSpec] states the system invariant and what
      the layer expects of a file system as the classes [FsData], [FsVops],
      [FsFiles] and [FsDirs]; [VnodeProofs], [FileProofs], [FdProofs],
      [NamevProofs], [VfsNameProofs], [VfsDirProofs] and [VfsRwProofs] prove the
      calls against the classes.
    - ramfs.  fs/ramfs/ramfs.c is [Ramfs]; [RamfsProofs], [RamfsFileProofs] and
      [RamfsDirProofs] are the instances of the four classes.  [VfsSystem] and
      [VfsTheorems] put the system together from boot, [VfsExamples] has runs.
    - s5fs.  fs/s5fs/s5fs_subr.c and fs/s5fs/s5fs.c are [S5Disk] (structures on
      disk, metadata cache, allocators), [S5File] (block map, pages, bytes,
      directory entries) and [S5fs] (operations); proofs in [S5DiskProofs],
      [S5MetaProofs], [S5AllocProofs], [S5MapProofs], [S5PageProofs],
      [S5RwProofs], [S5SyncProofs] and [S5DirProofs].
    - The disk image maker.  tools/fsmaker/api.py is [Fsmaker], with
      [FsmakerProofs], [FsmakerFormat], [FsmakerRoot]; [FsmakerTheorems] joins it
      with the kernel's s5fs.
    - User programs.  user/bin/ed.c is [Ed], with [EdRegex], [EdCompile],
      [EdLines], [EdSubst] and [EdSession]; user/bin/sh.c is [Sh], with
      [ShFiles] (the interface to the files), [ShParse] and [ShKernel], which
      shows that the VFS keeps that interface; the 64-bit division of
      user/lib/libc/quad.c is [Quad] and [QuadProofs]; the allocator
      user/lib/libc/malloc.c is [UMalloc], with [UMallocChunks] (bitmaps and
      small blocks) and [UMallocRuns] (free runs of pages).

    * How the code is represented

    A C function is a computation in the monad [M St A] below: it returns a value
    and the new state, or fails.  [Assert] is a failed assertion, a panic or an
    abort; [Fault] is a null pointer or an access outside an object; [Stuck] is
    fuel that ran out, or a wait that only another thread could end.  [wp] is a
    total weakest precondition: a theorem of that form says that the function
    returns.  Integers are [Z], with the conversions [u32], [u64], [s8], [s16],
    [s32] and [s64] where the source narrows a value or a sum can leave its type.
    Bytes are [Z] in lists or in the memory of [KMem]; heap objects are records in
    a [gmap] from addresses.  A function that takes a pointer to a part of a
    structure is written over a lens or a [zoom].

    Code outside the repository, and the parts whose source is not there, are
    class parameters: the block device ([BlockDev], with [BlockDevLaws]; a write
    may fail, and touches its own block only), device drivers ([Drivers]), the
    result of the allocator ([Memory]), contents of fresh pages ([Pages]),
    addresses chosen by the linker ([KernelImage], [KernelData], [TimerLists]),
    the files of the editor ([EdFiles]), the system calls of the shell ([Posix],
    with [FileModel] and [FileLaws]: paths that may lead to the same inode,
    descriptors that may share an open file, calls that may fail) and those of
    the user allocator ([Os], [MallocData]).  Each class of laws has an
    instance; that of [FileLaws] is the VFS over any file system with the four
    classes.

    * What the theorems show

    - Every call of every sequence of open, close, dup, dup2, read, write,
      lseek, mknod, mkdir, unlink and chdir on the root file system, within the
      conditions [call_ok], returns and keeps the system invariant
      ([vfs_calls_safe]); opening, reading, writing, making and removing files
      and directories do what is documented on the tree of the file system,
      errors included; path resolution ends with the directory that the walk of
      the components reaches.
    - s5fs reads and writes the bytes of a file whatever is cached, and reports
      a full disk and a file that is too large; directories are lists of
      entries; flushing puts cached pages and metadata on the device, and what a
      failed write leaves out stays dirty; structures decode to what was
      encoded.  A disk that the tool formats has the free lists and the root
      directory that these theorems start from.
    - The B-tree refines a finite map.  The page allocator refines a set of free
      pages, and freeing undoes allocating; [kmalloc] returns memory that overlaps
      nothing in use, [kfree] gives it back, a double free is caught; page tables
      refine a translation of addresses.
    - [vsnprintf] writes the text that the format denotes within the buffer, and
      [sscanf] reads printed numbers back; [strtok] gives the maximal runs; a
      timer runs at the first tick from its expiry on that may run timers; the
      clock is the calendar's modulo 2^32; the division of the user library is
      that of the 128-bit numbers whose upper word it leaves uninitialised, and
      of the integers when that word is 0.
    - The editor's substitution and moving of lines; the shell's lines of words
      and redirections, and copying of a file by [cat] with its output
      redirected, on any kernel with the [FileLaws].
    - The user allocator: a small block is the least free chunk of its bucket and
      freeing it undoes the allocation; a freed run of pages joins its neighbours
      on the list, which stays ordered and covers what is free.
    - Two examples are runs in which the code departs from its purpose: a page
      of a hole that is written reaches the super block
      ([hole_write_hits_super_block]), and the editor loses the first line of a
      long text ([long_text_lost]).

    * Fuel and bounds

    A loop over a structure recurses on the structure where it can.  Otherwise
    it has fuel, and the theorem either gives enough fuel as a hypothesis that
    its witness discharges or the definition computes it: the loops over a path
    use its length, those over a line of the shell [LINEBUF_SIZE + 1], the walks
    through lists the number of cells, the levels of a B-tree its height.
    Running out of fuel is a failure, so a theorem that a function returns says
    that its loops end.

    * Not modelled

    - Processes, threads, the scheduler and the device drivers: the repository has
      only the assembly that a compiler generated for them.  The kernel has one
      thread in the model; a wait for another thread is a failure.
    - Virtual memory and pipes (vm/, fs/pipe.c): every function is a stub.
      Program loading, system-call entry and user memory (api/): the permission
      checks are not implemented and refuse every address, and the rest depends on
      the stubs of vm/.
    - Mounting and getcwd: built only with options that are off.
    - Boot, interrupts, descriptor tables (main/, boot/, entry/): privileged
      instructions and device registers.  util/math.c is inside #if 0, init.c is
      called nowhere, debug.c prints.
    - Test programs, the kernel shell, the small user programs, the rest of the
      user library, the dynamic linker, sh.py of the disk tool, and the scripts
      for the debugger.
    - In the modelled files: the printers of statistics of the allocators, the
      page-fault handler, [do_usleep], signals of the editor. *)

From Stdlib Require Export ZArith Lia.
From stdpp Require Export strings gmap numbers.
From stdpp Require Export base list.

#[global] Open Scope Z_scope.

(** * Machine integers

    Values of a C integer type are kept as [Z]; the conversions below are the
    reductions the source performs when it stores into a narrower or unsigned
    type ([uint32_t], [size_t], [off_t], [int]). *)

Definition u32 (z : Z) : Z := z mod 2 ^ 32.
Definition u64 (z : Z) : Z := z mod 2 ^ 64.
(** Conversion to [signed char], [int] and [long]. *)
Definition s8 (z : Z) : Z := (z + 128) mod 256 - 128.
Definition s32 (z : Z) : Z := (z + 2 ^ 31) mod 2 ^ 32 - 2 ^ 31.
Definition s16 (z : Z) : Z := (z + 2 ^ 15) mod 2 ^ 16 - 2 ^ 15.
Definition s64 (z : Z) : Z := (z + 2 ^ 63) mod 2 ^ 64 - 2 ^ 63.

Definition PAGE_SIZE : Z := 4096.
Definition NAME_LEN : Z := 28.
Definition NFILES : Z := 32.

Lemma u64_id z : 0 <= z < 2 ^ 64 -> u64 z = z.
Proof. apply Z.mod_small. Qed.

Lemma u32_id z : 0 <= z < 2 ^ 32 -> u32 z = z.
Proof. apply Z.mod_small. Qed.

Lemma u64_range z : 0 <= u64 z < 2 ^ 64.
Proof. apply Z.mod_pos_bound. lia. Qed.

Lemma u32_range z : 0 <= u32 z < 2 ^ 32.
Proof. apply Z.mod_pos_bound. lia. Qed.

Lemma s64_id z : - 2 ^ 63 <= z < 2 ^ 63 -> s64 z = z.
Proof. intros H. unfold s64. rewrite Z.mod_small; lia. Qed.

Lemma s16_id z : - 2 ^ 15 <= z < 2 ^ 15 -> s16 z = z.
Proof. intros H. unfold s16. rewrite Z.mod_small; lia. Qed.

Lemma s32_id z : - 2 ^ 31 <= z < 2 ^ 31 -> s32 z = z.
Proof. intros H. unfold s32. rewrite Z.mod_small; lia. Qed.

Lemma s64_range z : - 2 ^ 63 <= s64 z < 2 ^ 63.
Proof. unfold s64. pose proof (Z.mod_pos_bound (z + 2 ^ 63) (2 ^ 64)). lia. Qed.

Lemma s64_u64 z : s64 (u64 z) = s64 z.
Proof. unfold s64, u64. f_equal. rewrite Z.add_mod_idemp_l by lia. done. Qed.

(** * errno.h *)

Definition EPERM : Z := 1.
Definition ENOENT : Z := 2.
Definition ENXIO : Z := 6.
Definition EBADF : Z := 9.
Definition ENOMEM : Z := 12.
Definition EBUSY : Z := 16.
Definition EEXIST : Z := 17.
Definition ENOTDIR : Z := 20.
Definition EISDIR : Z := 21.
Definition EINVAL : Z := 22.
Definition EMFILE : Z := 24.
Definition EFBIG : Z := 27.
Definition ENOSPC : Z := 28.
Definition ENAMETOOLONG : Z := 36.
Definition ENOTEMPTY : Z := 39.
Definition ENOTSUP : Z := 95.

(** * Outcomes and the kernel monad

    A kernel function either returns, with the state it leaves, or fails.
    [Assert] is a [KASSERT] that does not hold or a [panic]; [Fault] is an
    access the C source makes outside an object it owns (a null dereference or
    an out-of-range write); [Stuck] is a wait that only another thread could
    end, or a loop that exhausts the fuel the model gives it. *)

Inductive failure : Type := Assert | Fault | Stuck.

Inductive outcome (St A : Type) : Type :=
| Done (a : A) (s : St)
| Failed (f : failure).
Arguments Done {St A} a s.
Arguments Failed {St A} f.

Definition M (St A : Type) : Type := St -> outcome St A.

Definition ret {St A} (a : A) : M St A := fun s => Done a s.

Definition fail {St A} (f : failure) : M St A := fun _ => Failed f.

Definition bind {St A B} (m : M St A) (k : A -> M St B) : M St B :=
  fun s => match m s with Done a s' => k a s' | Failed f => Failed f end.

Definition get {St} : M St St := fun s => Done s s.

Definition gets {St A} (f : St -> A) : M St A := fun s => Done (f s) s.

Definition put {St} (s : St) : M St unit := fun _ => Done tt s.

Definition modify {St} (f : St -> St) : M St unit := fun s => Done tt (f s).

(** [KASSERT(b)] *)
Definition kassert {St} (b : bool) : M St unit := if b then ret tt else fail Assert.

(** Dereference: [None] is a pointer to nothing. *)
Definition deref {St A} (o : option A) : M St A :=
  match o with Some a => ret a | None => fail Fault end.

Declare Scope kernel_scope.
Delimit Scope kernel_scope with kernel.

Notation "'let!' x ':=' m 'in' k" := (bind m (fun x => k))
  (at level 10, x pattern, m at level 100, k at level 200,
   format "'[v' 'let!'  x  ':='  m  'in' '/' k ']'") : kernel_scope.
Notation "'do!' m ';' k" := (bind m (fun _ => k))
  (at level 10, m at level 100, k at level 200,
   format "'[v' 'do!'  m ';' '/' k ']'") : kernel_scope.
#[global] Open Scope kernel_scope.

(** [for] over the listed values of the loop variable. *)
Fixpoint for_each {St A} (l : list A) (body : A -> M St unit) : M St unit :=
  match l with
  | [] => ret tt
  | a :: l => do! body a; for_each l body
  end.

(** Run a computation on a part of the state: the C source passes a pointer to
    the part. *)
Definition zoom {St T A} (sel : St -> T) (upd : T -> St -> St) (m : M T A) : M St A :=
  fun s => match m (sel s) with
           | Done a t => Done a (upd t s)
           | Failed f => Failed f
           end.

(** ** Total weakest preconditions *)

Definition wp {St A} (m : M St A) (Q : A -> St -> Prop) (s : St) : Prop :=
  match m s with Done a s' => Q a s' | Failed _ => False end.

Section wp_rules.
Context {St A B : Type}.
Implicit Types (m : M St A) (k : A -> M St B).

Lemma wp_done m Q s : wp m Q s <-> exists a s', m s = Done a s' /\ Q a s'.
Proof.
  unfold wp. destruct (m s); split; [eauto| |done|]; intros (? & ? & [=] & ?); by subst.
Qed.

Lemma wp_run m Q s : wp m Q s -> exists a s', m s = Done a s' /\ Q a s'.
Proof. apply wp_done. Qed.

(** An execution that a weakest precondition describes. *)
Lemma wp_result m a (P : St -> Prop) s :
  wp m (fun a' s' => a' = a /\ P s') s -> exists s', m s = Done a s' /\ P s'.
Proof. unfold wp. destruct (m s) as [a' s'|]; [|done]. intros [-> ?]. eauto. Qed.

Lemma wp_bind m k Q s : wp m (fun a => wp (k a) Q) s -> wp (bind m k) Q s.
Proof. unfold wp, bind. destruct (m s); naive_solver. Qed.

Lemma wp_mono m (Q R : A -> St -> Prop) s :
  wp m Q s -> (forall a s', Q a s' -> R a s') -> wp m R s.
Proof. unfold wp. destruct (m s); naive_solver. Qed.

Lemma wp_conj m (Q R : A -> St -> Prop) s :
  wp m Q s -> wp m R s -> wp m (fun a s' => Q a s' /\ R a s') s.
Proof. unfold wp. destruct (m s); naive_solver. Qed.

Lemma wp_ret (Q : A -> St -> Prop) a s : Q a s -> wp (ret a) Q s.
Proof. done. Qed.

Lemma wp_get (Q : St -> St -> Prop) s : Q s s -> wp get Q s.
Proof. done. Qed.

Lemma wp_gets (Q : A -> St -> Prop) f s : Q (f s) s -> wp (gets f) Q s.
Proof. done. Qed.

Lemma wp_put (Q : unit -> St -> Prop) s s' : Q tt s' -> wp (put s') Q s.
Proof. done. Qed.

Lemma wp_modify (Q : unit -> St -> Prop) f s : Q tt (f s) -> wp (modify f) Q s.
Proof. done. Qed.

Lemma wp_kassert (Q : unit -> St -> Prop) b s : b = true -> Q tt s -> wp (kassert b) Q s.
Proof. intros ->. done. Qed.

Lemma wp_deref (Q : A -> St -> Prop) o a s : o = Some a -> Q a s -> wp (deref o) Q s.
Proof. intros ->. done. Qed.

Lemma bind_Done m k s b s' :
  bind m k s = Done b s' <-> exists a s1, m s = Done a s1 /\ k a s1 = Done b s'.
Proof.
  unfold bind. destruct (m s); split; [eauto| |done|]; intros (? & ? & [=] & ?); by subst.
Qed.
End wp_rules.

(** The first step of a computation. *)
Lemma bind_done {St A B} (m : M St A) (f : A -> M St B) s a s' : m s = Done a s' -> bind m f s = f a s'.
Proof. unfold bind. by intros ->. Qed.

Lemma bind_failed {St A B} (m : M St A) (f : A -> M St B) s e : m s = Failed e -> bind m f s = Failed e.
Proof. unfold bind. by intros ->. Qed.

(** Two steps as one. *)
Lemma wp_assoc {St A B C} (m : M St A) (f : A -> M St B) (k : B -> M St C) Q s :
  wp (bind (bind m f) k) Q s -> wp (bind m (fun a => bind (f a) k)) Q s.
Proof. unfold wp, bind. by destruct (m s). Qed.

Lemma wp_assoc3 {St A B C E} (m : M St A) (f : A -> M St B) (g : B -> M St C) (k : C -> M St E) Q s :
  wp (bind (bind m (fun a => bind (f a) g)) k) Q s ->
  wp (bind m (fun a => bind (f a) (fun b => bind (g b) k))) Q s.
Proof. unfold wp, bind. destruct (m s) as [a s'|]; [|done]. by destruct (f a s'). Qed.

Lemma wp_zoom {St T A} (sel : St -> T) (upd : T -> St -> St) (m : M T A) Q s :
  wp m (fun a t => Q a (upd t s)) (sel s) -> wp (zoom sel upd m) Q s.
Proof. unfold wp, zoom. destruct (m (sel s)); done. Qed.

(** [wp_steps] runs the administrative steps of a computation; it stops at the
    first call of a component's operation. *)
Ltac wp_step :=
  lazymatch goal with
  | |- wp (bind _ _) _ _ => apply wp_bind
  | |- wp (ret _) _ _ => apply wp_ret
  | |- wp get _ _ => apply wp_get
  | |- wp (gets _) _ _ => apply wp_gets
  | |- wp (put _) _ _ => apply wp_put
  | |- wp (modify _) _ _ => apply wp_modify
  end.
Ltac wp_red := cbn beta iota zeta delta [negb].
Ltac wp_steps := wp_red; repeat (wp_step; wp_red).

(** [wp_use rule] reaches the next call and applies a rule to it. *)
Tactic Notation "wp_use" uconstr(rule) := wp_steps; eapply rule.

(** [run_step H] turns an execution [bind m k s = Done b s'] into the
    executions of [m] and of its continuation. *)
Ltac run_step H :=
  let a := fresh "a" in let s1 := fresh "s" in let H1 := fresh "Hrun" in
  apply bind_Done in H as (a & s1 & H1 & H).

(** * Bytes, slices and little-endian words *)

Definition slice {A} (l : list A) (off n : nat) : list A := take n (drop off l).

(** [memcpy] of [d] to offset [off] of an object of the size of [l]. *)
Definition splice {A} (l : list A) (off : nat) (d : list A) : list A :=
  take off l ++ d ++ drop (off + length d) l.

Section slices.
Context {A : Type}.
Implicit Types l d : list A.

Lemma length_slice l off n :
  (off + n <= length l)%nat -> length (slice l off n) = n.
Proof. intros. unfold slice. rewrite length_take, length_drop. lia. Qed.

Lemma length_splice l off d :
  (off + length d <= length l)%nat -> length (splice l off d) = length l.
Proof.
  intros. unfold splice. rewrite !length_app, length_take, length_drop. lia.
Qed.

Lemma lookup_slice l off n i :
  (i < n)%nat -> slice l off n !! i = l !! (off + i)%nat.
Proof. intros. unfold slice. rewrite lookup_take_lt by lia. apply lookup_drop. Qed.

Lemma lookup_splice_in l off d i :
  (off <= length l)%nat -> (off <= i < off + length d)%nat ->
  splice l off d !! i = d !! (i - off)%nat.
Proof.
  intros. unfold splice. rewrite lookup_app_r by (rewrite length_take; lia).
  rewrite length_take, Nat.min_l by lia. by rewrite lookup_app_l by lia.
Qed.

Lemma lookup_splice_out l off d i :
  (off + length d <= length l)%nat -> (i < off \/ off + length d <= i)%nat ->
  splice l off d !! i = l !! i.
Proof.
  intros ? [?|?]; unfold splice.
  - rewrite lookup_app_l by (rewrite length_take; lia). by apply lookup_take_lt.
  - rewrite lookup_app_r by (rewrite length_take; lia).
    rewrite lookup_app_r by (rewrite length_take; lia).
    rewrite lookup_drop, length_take. f_equal. lia.
Qed.

Lemma slice_splice_same l off d n :
  n = length d -> (off + length d <= length l)%nat -> slice (splice l off d) off n = d.
Proof.
  intros -> ?. unfold slice, splice. rewrite drop_app_length' by (rewrite length_take; lia).
  by rewrite take_app_length.
Qed.

Lemma slice_splice_other l off d off' n :
  (off + length d <= length l)%nat ->
  (off' + n <= off \/ off + length d <= off')%nat ->
  slice (splice l off d) off' n = slice l off' n.
Proof.
  intros ? Hd. apply list_eq. intros i.
  destruct (decide (i < n)%nat).
  - rewrite !lookup_slice by lia. apply lookup_splice_out; lia.
  - unfold slice. by rewrite !lookup_take_ge by lia.
Qed.

Lemma splice_all l d : length d = length l -> splice l 0 d = d.
Proof. intros. unfold splice. rewrite take_0, drop_ge by lia. by rewrite app_nil_r. Qed.

Lemma slice_all l n : n = length l -> slice l 0 n = l.
Proof. intros ->. unfold slice. rewrite drop_0. by apply take_ge. Qed.

Lemma Forall_slice (P : A -> Prop) l off n : Forall P l -> Forall P (slice l off n).
Proof. intros. by apply Forall_take, Forall_drop. Qed.

Lemma Forall_splice (P : A -> Prop) l off d :
  Forall P l -> Forall P d -> Forall P (splice l off d).
Proof.
  intros. unfold splice. apply Forall_app; split; [by apply Forall_take|].
  apply Forall_app; split; [done|by apply Forall_drop].
Qed.
End slices.

Fixpoint le_of_Z (n : nat) (z : Z) : list Z :=
  match n with
  | O => []
  | S n => z mod 256 :: le_of_Z n (z / 256)
  end.

Fixpoint Z_of_le (l : list Z) : Z :=
  match l with
  | [] => 0
  | b :: l => b + 256 * Z_of_le l
  end.

Lemma length_le_of_Z n z : length (le_of_Z n z) = n.
Proof. revert z. induction n; intros; simpl; [done|]. by rewrite IHn. Qed.

Lemma Z_of_le_of_Z n z : Z_of_le (le_of_Z n z) = z mod 256 ^ Z.of_nat n.
Proof.
  revert z. induction n as [|n IH]; intros z.
  - cbn. by rewrite Z.mod_1_r.
  - cbn [le_of_Z Z_of_le]. rewrite IH, Nat2Z.inj_succ, Z.pow_succ_r by lia.
    rewrite (Z.rem_mul_r z 256 (256 ^ Z.of_nat n)) by lia. done.
Qed.

Lemma Z_of_le_range l :
  Forall (fun b => 0 <= b < 256) l -> 0 <= Z_of_le l < 256 ^ Z.of_nat (length l).
Proof.
  induction 1 as [|b l Hb _ IH]; [cbn; lia|].
  cbn [Z_of_le length]. rewrite Nat2Z.inj_succ, Z.pow_succ_r by lia. lia.
Qed.

Lemma le_of_Z_of_le l :
  Forall (fun b => 0 <= b < 256) l -> le_of_Z (length l) (Z_of_le l) = l.
Proof.
  induction 1 as [|b l Hb Hl IH]; [done|]. cbn [length Z_of_le le_of_Z].
  replace (b + 256 * Z_of_le l) with (b + Z_of_le l * 256) by lia.
  rewrite Z.mod_add, Z.div_add by lia.
  rewrite Z.mod_small, Z.div_small by lia. by rewrite Z.add_0_l, IH.
Qed.

Lemma le_of_Z_bytes n z : Forall (fun b => 0 <= b < 256) (le_of_Z n z).
Proof.
  revert z. induction n; intros; constructor; [|done].
  apply Z.mod_pos_bound. lia.
Qed.

(** The [i]-th [uint32_t] of an object viewed as an array of them. *)
Definition get32 (l : list Z) (i : nat) : Z := Z_of_le (slice l (4 * i) 4).
Definition put32 (l : list Z) (i : nat) (v : Z) : list Z := splice l (4 * i) (le_of_Z 4 v).

Lemma length_put32 l i v : (4 * i + 4 <= length l)%nat -> length (put32 l i v) = length l.
Proof. intros. unfold put32. apply length_splice. rewrite length_le_of_Z. lia. Qed.

Lemma get32_put32_eq l i v :
  (4 * i + 4 <= length l)%nat -> get32 (put32 l i v) i = u32 v.
Proof.
  intros. unfold get32, put32.
  rewrite slice_splice_same by (rewrite length_le_of_Z; lia).
  rewrite Z_of_le_of_Z. done.
Qed.

Lemma get32_put32_ne l i j v :
  (4 * i + 4 <= length l)%nat -> i <> j -> get32 (put32 l i v) j = get32 l j.
Proof.
  intros. unfold get32, put32.
  rewrite slice_splice_other; [done|rewrite length_le_of_Z; lia..].
Qed.

Lemma get32_range l i :
  Forall (fun b => 0 <= b < 256) l -> (4 * i + 4 <= length l)%nat -> 0 <= get32 l i < 2 ^ 32.
Proof.
  intros Hb ?. unfold get32.
  pose proof (Z_of_le_range (slice l (4 * i) 4) (Forall_slice _ _ _ _ Hb)) as Hr.
  rewrite length_slice in Hr by lia. done.
Qed.

(** * The memory environment

    Whether [kmalloc], [slab_obj_alloc] and [page_alloc] still find memory is a
    condition of the environment, constant during a call. *)
Class Memory := oom : bool.

(** * C strings as byte lists

    A [const char *] is the list of the bytes from the pointer to the
    terminating NUL, which is not in the list; a character array is the list of
    all its bytes. *)
Definition str (x : String.string) : list Z :=
  map (fun c => Z.of_nat (Ascii.nat_of_ascii c)) (String.list_ascii_of_string x).
Arguments str x%_string.

(** The maximal non-empty runs of bytes that are not separators. *)
Fixpoint words (sep : Z -> bool) (s : list Z) : list (list Z) :=
  match s with
  | [] => []
  | c :: s' =>
      if sep c then words sep s'
      else match words sep s' with
           | w :: ws => if default true (sep <$> head s') then [c] :: w :: ws else (c :: w) :: ws
           | [] => [[c]]
           end
  end.

(** A suffix at which a word ends. *)
Definition at_boundary (sep : Z -> bool) (s : list Z) : Prop :=
  match s with [] => True | c :: _ => sep c = true end.

Lemma words_skip sep a s :
  Forall (fun c => sep c = true) a -> words sep (a ++ s) = words sep s.
Proof. induction 1 as [|c a Hc _ IH]; [done|]. simpl. by rewrite Hc. Qed.

Lemma words_word sep w s :
  w <> [] -> Forall (fun c => sep c = false) w -> at_boundary sep s ->
  words sep (w ++ s) = w :: words sep s.
Proof.
  intros Hne Hw Hs. induction Hw as [|c w Hc Hw IH]; [done|].
  cbn [app words]. rewrite Hc. destruct w as [|c' w].
  - destruct s as [|x s]; [done|]. cbn in Hs |- *. rewrite Hs.
    by destruct (words sep s).
  - rewrite IH by done. cbn. inversion_clear Hw as [|? ? Hc' _]. by rewrite Hc'.
Qed.

(** Words are not empty and have no separator. *)
Lemma words_ok sep s :
  Forall (fun w => w <> [] /\ Forall (fun c => sep c = false) w) (words sep s).
Proof.
  induction s as [|c s IH]; [constructor|]. cbn [words]. destruct (sep c) eqn:E; [done|].
  destruct (words sep s) as [|w ws]; [by repeat constructor|].
  apply Forall_cons_iff in IH as [[Hne Hw] IH].
  destruct (default true _); repeat (apply Forall_cons_2; [split; [done|]|]); try done;
    by repeat constructor.
Qed.

Lemma words_Forall (P : Z -> Prop) sep s : Forall P s -> Forall (Forall P) (words sep s).
Proof.
  induction 1 as [|c s Hc Hs IH]; [constructor|]. cbn [words]. destruct (sep c); [done|].
  destruct (words sep s) as [|w ws]; [by repeat constructor|].
  apply Forall_cons_iff in IH as [Hw IH].
  destruct (default true _); repeat (apply Forall_cons_2; [|]); try done; by repeat constructor.
Qed.

(** Every string is a run of separators, a word, and the rest. *)
Lemma words_split sep s :
  exists a w r, s = a ++ w ++ r /\ Forall (fun c => sep c = true) a
                /\ Forall (fun c => sep c = false) w /\ at_boundary sep r
                /\ (w = [] -> r = []).
Proof.
  induction s as [|c s (a & w & r & -> & Ha & Hw & Hr & He)].
  - by exists [], [], [].
  - destruct (sep c) eqn:Hc; [by exists (c :: a), w, r; auto|].
    destruct a as [|x a].
    + exists [], (c :: w), r. naive_solver.
    + exists [], [c], (x :: a ++ w ++ r). inversion Ha; subst.
      split_and!; [done|done|by constructor|done|done].
Qed.

Create HintDb kernel.
Create Rewrite HintDb kernel.
#[export] Hint Resolve le_of_Z_bytes Forall_slice Forall_splice : kernel.
#[export] Hint Rewrite length_le_of_Z : kernel.
