(* ===== verification/CString.v ===== *)
(** The kernel's C string library, [util/string.c], and the [name_match] macro
    of [include/fs/vfs.h].

    A [const char *] is the list of the bytes from the pointer on; the end of
    the list is the terminating NUL.  A function that returns a pointer into
    its argument returns the suffix of the list, [NULL] is [None].  A
    destination buffer is the list of its bytes, and a write past its end is
    [None]. *)

From S2P Require Import Prelude.

(** [*p] and [p + 1] *)
Definition chr (p : list Z) : Z := match p with [] => 0 | c :: _ => c end.
Definition adv (p : list Z) : list Z := tail p.

(** ** Comparison *)

(** [repe cmpsb]: the loop stops at the first difference or after [count]
    bytes; [ZF] and [SF] of the last byte difference give the result. *)
Fixpoint memcmp (cs ct : list Z) (count : nat) {struct count} : Z :=
  match count with
  | O => 0
  | S n =>
      let d := (chr cs - chr ct) mod 256 in
      if d =? 0 then memcmp (adv cs) (adv ct) n
      else if Z.testbit d 7 then -1 else 1
  end.

Fixpoint strncmp_loop (cs ct : list Z) (count : nat) (__res : Z) {struct count} : Z :=
  match count with
  | O => __res
  | S n =>
      let __res := s8 (chr cs - chr ct) in
      if negb (__res =? 0) || (chr cs =? 0) then __res
      else strncmp_loop (adv cs) (adv ct) n __res
  end.

Definition strncmp (cs ct : list Z) (count : nat) : Z := strncmp_loop cs ct count 0.

Fixpoint strcmp (cs ct : list Z) : Z :=
  let __res := s8 (chr cs - chr ct) in
  match cs with
  | [] => __res
  | c :: cs => if negb (__res =? 0) || (c =? 0) then __res else strcmp cs (adv ct)
  end.

(** ** Copying *)

Fixpoint memcpy (dest src : list Z) (count : nat) {struct count} : option (list Z) :=
  match count with
  | O => Some dest
  | S n =>
      match dest, src with
      | _ :: dest, c :: src => cons c <$> memcpy dest src n
      | _, _ => None
      end
  end.

Fixpoint memset (s : list Z) (c : Z) (count : nat) {struct count} : option (list Z) :=
  match count with
  | O => Some s
  | S n =>
      match s with
      | _ :: s => cons (c mod 256) <$> memset s c n
      | [] => None
      end
  end.

Fixpoint strcpy (dest src : list Z) : option (list Z) :=
  match dest with
  | [] => None
  | _ :: dest =>
      match src with
      | [] => Some (0 :: dest)
      | c :: src => if c =? 0 then Some (0 :: dest) else cons c <$> strcpy dest src
      end
  end.

Fixpoint strncpy (dest src : list Z) (count : nat) {struct count} : option (list Z) :=
  match count with
  | O => Some dest
  | S n =>
      match dest with
      | [] => None
      | _ :: dest =>
          cons (chr src) <$>
            strncpy dest (if chr src =? 0 then src else adv src) n
      end
  end.

Fixpoint strcat (dest src : list Z) : option (list Z) :=
  match dest with
  | [] => None
  | d :: dest' =>
      if d =? 0 then strcpy dest src
      else cons d <$> strcat dest' src
  end.

(** ** Lengths and searches *)

Fixpoint strnlen (s : list Z) (count : nat) {struct count} : Z :=
  match count with
  | O => 0
  | S n => if chr s =? 0 then 0 else 1 + strnlen (adv s) n
  end.

Fixpoint strlen (s : list Z) : Z :=
  match s with
  | [] => 0
  | c :: s => if c =? 0 then 0 else 1 + strlen s
  end.

(** [(char)c] is the byte the character is compared with. *)
Fixpoint strchr (s : list Z) (c : Z) : option (list Z) :=
  if chr s =? c mod 256 then Some s
  else match s with
       | [] => None
       | x :: s => if x =? 0 then None else strchr s c
       end.

Fixpoint strrchr_loop (s : list Z) (c : Z) (r : option (list Z)) : option (list Z) :=
  match s with
  | [] => r
  | x :: s' =>
      if x =? 0 then r
      else strrchr_loop s' c (if x =? c mod 256 then Some s else r)
  end.

Definition strrchr (s : list Z) (c : Z) : option (list Z) := strrchr_loop s c None.

(** The loop of [strstr] runs [l1 - l2 + 1] times. *)
Fixpoint strstr_loop (iters : nat) (l2 : Z) (s1 s2 : list Z) : option (list Z) :=
  match iters with
  | O => None
  | S n =>
      if memcmp s1 s2 (Z.to_nat (u64 l2)) =? 0 then Some s1
      else strstr_loop n l2 (adv s1) s2
  end.

Definition strstr (s1 s2 : list Z) : option (list Z) :=
  let l2 := s32 (strlen s2) in
  if l2 =? 0 then Some s1
  else
    let l1 := s32 (strlen s1) in
    strstr_loop (Z.to_nat (l1 - l2 + 1)) l2 s1 s2.

(** The inner loop shared by [strpbrk] and [strspn]:
    [for (p = set; *p != 0 && *p != c; ++p);], true if it stops before the
    terminator of the set. *)
Fixpoint in_set (set : list Z) (c : Z) : bool :=
  match set with
  | [] => false
  | p :: set => if p =? 0 then false else if p =? c then true else in_set set c
  end.

Fixpoint strpbrk (s brkset : list Z) : option (list Z) :=
  if in_set brkset (chr s) then Some s
  else match s with
       | [] => None
       | c :: s => if c =? 0 then None else strpbrk s brkset
       end.

Fixpoint strspn (s charset : list Z) : Z :=
  match s with
  | [] => 0
  | c :: s =>
      if c =? 0 then 0
      else if in_set charset c then 1 + strspn s charset else 0
  end.

(** ** [strtok]

    The static [savept] and the string it points into: [strtok] writes a NUL
    over the separator that ends the token.  The string is the buffer
    [tok_buf]; pointers into it are offsets. *)
Record strtok_state : Type := StrtokState {
  tok_buf : list Z;
  savept : option nat;
}.

Definition strtok (string : option (list Z)) (sepset : list Z) : M strtok_state (option nat) :=
  fun st =>
    let buf := match string with Some b => b | None => tok_buf st end in
    let p := match string with Some _ => Some O | None => savept st end in
    match p with
    | None => Done None (StrtokState buf (savept st))
    | Some p =>
        let q := (p + Z.to_nat (strspn (drop p buf) sepset))%nat in
        if chr (drop q buf) =? 0 then Done None (StrtokState buf (savept st))
        else match strpbrk (drop q buf) sepset with
             | None => Done (Some q) (StrtokState buf None)
             | Some r =>
                 let i := (length buf - length r)%nat in
                 Done (Some q) (StrtokState (<[i := 0]> buf) (Some (S i)))
             end
    end.

(** ** [name_match] of [include/fs/vfs.h] *)

Definition name_match (fname name : list Z) (namelen : Z) : bool :=
  (strlen fname =? namelen) && (strncmp fname name (Z.to_nat namelen) =? 0).

(** * Properties *)

(** A C string: its bytes, none of them the terminator. *)
Definition nonul (s : list Z) : Prop := Forall (fun c => 0 < c < 256) s.

Lemma s8_zero a b : 0 <= a < 256 -> 0 <= b < 256 -> s8 (a - b) = 0 <-> a = b.
Proof.
  intros Ha Hb. unfold s8. split; [|intros ->; by rewrite Z.sub_diag].
  intros H. assert (Hm : (a - b + 128) mod 256 = 128) by lia.
  destruct (decide (a - b + 128 < 0)).
  - rewrite <- (Z.mod_add _ 1) in Hm by lia. rewrite Z.mod_small in Hm; lia.
  - destruct (decide (256 <= a - b + 128)).
    + rewrite <- (Z.mod_add _ (-1)) in Hm by lia. rewrite Z.mod_small in Hm; lia.
    + rewrite Z.mod_small in Hm; lia.
Qed.

Lemma mod256_sub_zero a b : 0 <= a < 256 -> 0 <= b < 256 -> (a - b) mod 256 = 0 <-> a = b.
Proof.
  intros Ha Hb. split; [|intros ->; by rewrite Z.sub_diag].
  intros [k Hk]%Z.mod_divide; lia.
Qed.

Lemma nonul_cons c s : nonul (c :: s) <-> 0 < c < 256 /\ nonul s.
Proof. apply Forall_cons_iff. Qed.

Lemma nonul_chr s : nonul s -> 0 <= chr s < 256.
Proof. destruct 1; cbn; lia. Qed.

Lemma nonul_chr_nil s : nonul s -> chr s = 0 <-> s = [].
Proof. destruct 1 as [|c s Hc _]; cbn; [done|]. split; [lia|done]. Qed.

Lemma nonul_adv s : nonul s -> nonul (adv s).
Proof. destruct 1; [constructor|done]. Qed.

Lemma nonul_take s n : nonul s -> nonul (take n s).
Proof. apply Forall_take. Qed.

Lemma nonul_drop s n : nonul s -> nonul (drop n s).
Proof. apply Forall_drop. Qed.

Lemma nonul_app s t : nonul (s ++ t) <-> nonul s /\ nonul t.
Proof. apply Forall_app. Qed.

#[export] Hint Resolve nonul_chr nonul_adv nonul_take nonul_drop : kernel.

Lemma strlen_length s : nonul s -> strlen s = Z.of_nat (length s).
Proof.
  induction 1 as [|c s Hc _ IH]; [done|]. cbn [strlen length].
  rewrite IH. destruct (Z.eqb_spec c 0); lia.
Qed.

Lemma strncmp_loop_zero cs ct n :
  nonul cs -> nonul ct -> strncmp_loop cs ct n 0 = 0 <-> take n cs = take n ct.
Proof.
  revert cs ct. induction n as [|n IH]; intros cs ct Hcs Hct; [done|].
  cbn [strncmp_loop].
  destruct (Z.eqb_spec (s8 (chr cs - chr ct)) 0) as [Hz|Hz]; cbn [negb orb].
  - rewrite Hz. rewrite s8_zero in Hz by auto with kernel.
    destruct cs as [|c cs], ct as [|c' ct]; cbn in Hz |- *; [done|..].
    + apply nonul_cons in Hct; lia.
    + apply nonul_cons in Hcs; lia.
    + subst c'. destruct (Z.eqb_spec c 0); [apply nonul_cons in Hcs; lia|].
      apply nonul_cons in Hcs as [_ Hcs], Hct as [_ Hct].
      rewrite IH by done. split; [by intros ->|by intros [= ]].
  - split; [done|]. intros Heq. exfalso. apply Hz, s8_zero; [auto with kernel..|].
    destruct cs, ct; cbn in Heq |- *; naive_solver.
Qed.

Lemma strcmp_zero cs ct : nonul cs -> nonul ct -> strcmp cs ct = 0 <-> cs = ct.
Proof.
  intros Hcs. revert ct. induction Hcs as [|c cs Hc Hcs IH]; intros ct Hct; cbn [strcmp chr].
  - rewrite s8_zero by (auto with kernel; lia). pose proof (nonul_chr_nil ct Hct).
    naive_solver.
  - destruct (Z.eqb_spec (s8 (c - chr ct)) 0) as [Hz|Hz]; cbn [negb orb].
    + rewrite s8_zero in Hz by (auto with kernel; lia).
      destruct (Z.eqb_spec c 0); [lia|]. destruct ct as [|c' ct]; cbn in Hz; [lia|subst c'].
      apply nonul_cons in Hct as [_ Hct]. cbn. rewrite IH by done.
      split; [by intros ->|by intros [= ]].
    + split; [done|intros <-]. exfalso. apply Hz, s8_zero; cbn; lia.
Qed.

Lemma memcmp_zero cs ct n :
  nonul cs -> nonul ct -> memcmp cs ct n = 0 <-> take n cs = take n ct.
Proof.
  revert cs ct. induction n as [|n IH]; intros cs ct Hcs Hct; [done|]. cbn [memcmp].
  destruct (Z.eqb_spec ((chr cs - chr ct) mod 256) 0) as [Hz|Hz].
  - rewrite mod256_sub_zero in Hz by auto with kernel.
    rewrite IH by auto with kernel.
    destruct cs as [|c cs], ct as [|c' ct]; cbn in Hz |- *; [by rewrite take_nil|..].
    + apply nonul_cons in Hct; lia.
    + apply nonul_cons in Hcs; lia.
    + subst c'. split; [by intros ->|by intros [= ]].
  - split; [by destruct (Z.testbit _ 7)|]. intros Heq. exfalso.
    apply Hz, mod256_sub_zero; [auto with kernel..|].
    destruct cs, ct; cbn in Heq |- *; naive_solver.
Qed.

(** The directory-entry comparison both file systems use is equality with the
    first [namelen] bytes of [name], whatever follows them there (the rest of
    the path). *)
Lemma name_match_iff fname name namelen :
  nonul fname -> nonul name -> 0 <= namelen <= Z.of_nat (length name) ->
  name_match fname name namelen = true <-> fname = take (Z.to_nat namelen) name.
Proof.
  intros Hf Hn Hlen. unfold name_match, strncmp.
  rewrite andb_true_iff, !Z.eqb_eq, strlen_length, strncmp_loop_zero by done. split.
  - intros [Hl <-]. symmetry. apply take_ge. lia.
  - intros ->. rewrite length_take, take_take. split; [lia|f_equal; lia].
Qed.

(** [strncpy] writes exactly [count] bytes: the string cut or padded with NULs. *)
Lemma strncpy_spec dest src count :
  nonul src -> (count <= length dest)%nat ->
  strncpy dest src count = Some (take count (src ++ replicate count 0) ++ drop count dest).
Proof.
  revert dest src. induction count as [|n IH]; intros dest src Hs Hd; [by rewrite take_0|].
  destruct dest as [|d dest]; cbn in Hd; [lia|]. cbn [strncpy drop].
  destruct (Z.eqb_spec (chr src) 0) as [Hz|Hz].
  - rewrite nonul_chr_nil in Hz by done. subst src. rewrite IH by (done || lia).
    cbn. by rewrite !take_ge by (rewrite length_replicate; lia).
  - destruct src as [|c src]; [done|]. apply nonul_cons in Hs as [_ Hs]. cbn [adv tail chr].
    rewrite IH by (done || lia). cbn. do 3 f_equal.
    change (0 :: replicate n 0) with (replicate (S n) 0).
    rewrite !take_app, !take_replicate. do 2 f_equal. lia.
Qed.

Lemma strstr_loop_spec iters s1 s2 :
  nonul s1 -> nonul s2 -> Z.of_nat (length s2) < 2 ^ 31 ->
  (length s1 + 1 <= iters + length s2)%nat ->
  match strstr_loop iters (Z.of_nat (length s2)) s1 s2 with
  | Some p => exists a, s1 = a ++ p /\ s2 `prefix_of` p
                /\ forall a' p', s1 = a' ++ p' -> s2 `prefix_of` p' -> (length a <= length a')%nat
  | None => forall a' p', s1 = a' ++ p' -> ~ s2 `prefix_of` p'
  end.
Proof.
  intros H1 H2 Hlen. revert s1 H1. induction iters as [|n IH]; intros s1 H1 Hit; cbn [strstr_loop].
  - intros a p -> [k ->]. rewrite !length_app in Hit. lia.
  - rewrite u64_id, Nat2Z.id by lia.
    destruct (Z.eqb_spec (memcmp s1 s2 (length s2)) 0) as [Hz|Hz].
    + rewrite memcmp_zero, (take_ge s2) in Hz by done. exists []. split_and!; [done| |cbn; lia].
      exists (drop (length s2) s1). by rewrite <- Hz at 1; rewrite take_drop.
    + rewrite memcmp_zero, (take_ge s2) in Hz by done.
      assert (Hno : ~ s2 `prefix_of` s1) by (intros [k ->]; by rewrite take_app_length in Hz).
      destruct s1 as [|c s1]; cbn [adv tail].
      * destruct n; cbn in Hit; [|destruct s2; [by destruct Hno; exists []|]].
        -- intros [|] ? [= <-]; done.
        -- specialize (IH [] H1). destruct (strstr_loop _ _ _ _) as [p|] eqn:Hp.
           ++ destruct IH as ([|] & [= <-] & Hpre & _); [cbn; lia|done].
           ++ intros [|] ? [= <-]; done.
      * apply nonul_cons in H1 as [_ H1]. specialize (IH s1 H1).
        destruct (strstr_loop _ _ _ _) as [p|].
        -- destruct IH as (a & -> & Hpre & Hmin); [cbn in Hit; lia|].
           exists (c :: a). split_and!; [done..|]. intros [|x a'] p'; cbn.
           ++ by intros <-.
           ++ intros [= <- Heq] Hp'. specialize (Hmin _ _ Heq Hp'). lia.
        -- intros [|x a'] p'; cbn; [by intros <-|].
           intros [= <- Heq]. apply (IH ltac:(cbn in Hit; lia) _ _ Heq).
Qed.

(** ** [strtok] against [words] *)

Lemma in_set_zero set : in_set set 0 = false.
Proof. induction set as [|p set IH]; [done|]. cbn. by destruct (Z.eqb_spec p 0). Qed.

Lemma strspn_app set a s :
  nonul a -> Forall (fun c => in_set set c = true) a ->
  default true (negb ∘ in_set set <$> head s) = true ->
  strspn (a ++ s) set = Z.of_nat (length a).
Proof.
  intros Ha Hs Hb. induction Hs as [|c a Hc _ IH].
  - destruct s as [|c s]; [done|]. cbn in Hb |- *.
    by destruct (c =? 0), (in_set set c).
  - apply nonul_cons in Ha as [Hc0 Ha]. cbn [app strspn length].
    rewrite Hc, IH by done. destruct (Z.eqb_spec c 0); lia.
Qed.

Lemma strpbrk_app set w s :
  nonul w -> Forall (fun c => in_set set c = false) w -> at_boundary (in_set set) s ->
  strpbrk (w ++ s) set = match s with [] => None | _ => Some s end.
Proof.
  intros Hw Hs Hb. induction Hs as [|c w Hc _ IH]; cbn [app].
  - destruct s as [|c s]; cbn in Hb |- *; [by rewrite in_set_zero|by rewrite Hb].
  - apply nonul_cons in Hw as [Hc0 Hw]. cbn. rewrite Hc.
    destruct (Z.eqb_spec c 0); [lia|]. by apply IH.
Qed.

(** The C string at a pointer into a buffer. *)
Definition cstr (p : list Z) : list Z := take (Z.to_nat (strlen p)) p.

Lemma cstr_nul w s : nonul w -> cstr (w ++ 0 :: s) = w.
Proof.
  intros Hw. unfold cstr. assert (Hl : strlen (w ++ 0 :: s) = Z.of_nat (length w)).
  { induction Hw as [|c w Hc _ IH]; [done|]. cbn [app strlen length]. rewrite IH.
    destruct (Z.eqb_spec c 0); lia. }
  by rewrite Hl, Nat2Z.id, take_app_length.
Qed.

Lemma cstr_nonul w : nonul w -> cstr w = w.
Proof. intros Hw. unfold cstr. rewrite strlen_length, Nat2Z.id by done. by apply take_ge. Qed.

Lemma strlen_nul w p : nonul w -> strlen (w ++ 0 :: p) = Z.of_nat (length w).
Proof.
  induction 1 as [|c w Hc _ IH]; [done|]. cbn [app strlen length]. rewrite (proj2 (Z.eqb_neq c 0)) by lia. lia.
Qed.

Lemma strncmp_prefix w p ct n r :
  nonul w -> (n <= length w)%nat -> strncmp_loop (w ++ p) ct n r = strncmp_loop w ct n r.
Proof.
  intros Hw. revert ct n r. induction Hw as [|c w Hc _ IH]; intros ct n r Hn; (destruct n as [|n]; [done|]).
  - cbn in Hn. lia.
  - cbn in Hn |- *. destruct (negb _ || _); [done|]. apply IH. lia.
Qed.

(** A name in an array and a name of the caller. *)
Lemma name_match_array w p name namelen :
  nonul w -> nonul name -> 0 <= namelen <= Z.of_nat (length name) ->
  name_match (w ++ 0 :: p) name namelen = bool_decide (cstr (w ++ 0 :: p) = take (Z.to_nat namelen) name).
Proof.
  intros Hnw Hn Hlen. rewrite cstr_nul by done.
  pose proof (name_match_iff w name namelen Hnw Hn Hlen) as Hiff.
  assert (Heq : name_match (w ++ 0 :: p) name namelen = name_match w name namelen).
  { unfold name_match, strncmp. rewrite strlen_nul, strlen_length by done.
    destruct (Z.eqb_spec (Z.of_nat (length w)) namelen) as [<-|]; [|done]. cbn [andb].
    by rewrite strncmp_prefix by (done || lia). }
  rewrite Heq. apply eq_bool_prop_intro. rewrite Is_true_true, Hiff. by rewrite bool_decide_spec.
Qed.

(** The loop of a client: tokens until [strtok] returns [NULL]. *)
Fixpoint strtok_loop (n : nat) (string : option (list Z)) (sepset : list Z) (st : strtok_state) :
    list (list Z) :=
  match n with
  | O => []
  | S n =>
      match strtok string sepset st with
      | Done (Some q) st' => cstr (drop q (tok_buf st')) :: strtok_loop n None sepset st'
      | _ => []
      end
  end.

Lemma strtok_step sep buf p a w r :
  drop p buf = a ++ w ++ r -> nonul (a ++ w ++ r) ->
  Forall (fun c => in_set sep c = true) a -> Forall (fun c => in_set sep c = false) w ->
  at_boundary (in_set sep) r -> w <> [] -> 
  let q := (p + length a)%nat in
  strtok None sep (StrtokState buf (Some p)) =
  Done (Some q)
    match r with
    | [] => StrtokState buf None
    | _ => StrtokState (<[(q + length w)%nat := 0]> buf) (Some (S (q + length w)))
    end.
Proof.
  intros Hdrop Hnn Ha Hw Hr Hne q. unfold strtok. cbn [tok_buf savept].
  apply nonul_app in Hnn as [Hna Hnn]. apply nonul_app in Hnn as [Hnw Hnr].
  destruct w as [|c w]; [done|].
  apply Forall_cons_iff in Hw as [Hc Hw].
  rewrite Hdrop, strspn_app, Nat2Z.id by (done || (cbn; by rewrite Hc)).
  replace (drop (p + length a) buf) with ((c :: w) ++ r)
    by (rewrite <- drop_drop, Hdrop; by rewrite drop_app_length).
  pose proof (proj1 (nonul_cons _ _) Hnw) as [Hc0 _]. cbn [chr app].
  destruct (Z.eqb_spec c 0); [lia|].
  change (c :: w ++ r) with ((c :: w) ++ r).
  rewrite (strpbrk_app sep (c :: w) r) by (done || by constructor).
  destruct r as [|d r]; [done|].
  assert (Hlen : (length buf - length (d :: r) = q + length (c :: w))%nat).
  { assert (Hl := f_equal length Hdrop). rewrite length_drop, !length_app in Hl.
    cbn in Hl |- *. subst q. lia. }
  by rewrite Hlen.
Qed.

Lemma strtok_loop_None n buf p sep :
  nonul (drop p buf) -> (length (drop p buf) < n)%nat ->
  strtok_loop n None sep (StrtokState buf (Some p)) = words (in_set sep) (drop p buf).
Proof.
  revert buf p. induction n as [|n IH]; intros buf p Hnn Hlen; [lia|].
  destruct (words_split (in_set sep) (drop p buf)) as (a & w & r & Heq & Ha & Hw & Hr & He).
  rewrite Heq in Hnn, Hlen |- *. rewrite words_skip by done. cbn [strtok_loop].
  destruct (decide (w = [])) as [->|Hne].
  - specialize (He eq_refl). subst r. cbn [app] in *. rewrite app_nil_r in Heq, Hnn.
    pose proof (strspn_app sep a [] Hnn Ha eq_refl) as Hspn. rewrite app_nil_r in Hspn.
    unfold strtok; cbn [tok_buf savept].
    by rewrite <- drop_drop, Heq, Hspn, Nat2Z.id, drop_ge by lia.
  - rewrite (strtok_step sep buf p a w r), words_word by done.
    apply nonul_app in Hnn as [Hna Hnn]. apply nonul_app in Hnn as [Hnw Hnr].
    assert (Hq : drop (p + length a) buf = w ++ r).
    { rewrite <- drop_drop, Heq. apply drop_app_length. }
    destruct r as [|d r]; cbn [tok_buf].
    + rewrite Hq, app_nil_r, cstr_nonul by done. f_equal. by destruct n.
    + apply nonul_cons in Hnr as [Hd Hnr].
      set (i := (p + length a + length w)%nat).
      assert (Hi : drop (S i) (<[i := 0]> buf) = r).
      { rewrite drop_insert_lt by lia. replace (S i) with (p + length a + (length w + 1))%nat by lia.
        rewrite <- drop_drop, Hq, <- drop_drop, drop_app_length. done. }
      rewrite IH; rewrite Hi; [|done|rewrite !length_app in Hlen; cbn in Hlen; lia].
      f_equal; [|cbn; cbn in Hr; by rewrite Hr].
      replace (drop (p + length a) (<[i:=0]> buf)) with (w ++ 0 :: r); [by apply cstr_nul|].
      rewrite drop_insert_ge by lia. rewrite Hq, insert_app_r_alt by lia. f_equal.
      by replace (i - (p + length a) - length w)%nat with 0%nat by lia.
Qed.

(** C39: a client that calls [strtok(s, sep)] and then [strtok(NULL, sep)] until
    it returns [NULL] reads exactly the maximal runs of non-separator bytes of
    the string, in order, and then stops. *)
Theorem strtok_tokens s sep st n :
  nonul s -> (length s < n)%nat ->
  strtok_loop n (Some s) sep st = words (in_set sep) s.
Proof.
  intros Hs Hn. change s with (drop 0 s) at 2.
  rewrite <- (strtok_loop_None n s 0 sep) by done.
  destruct n; [done|]. cbn [strtok_loop]. unfold strtok; cbn [tok_buf savept].
  destruct (chr (drop _ s) =? 0); [done|].
  destruct (strpbrk _ _); done.
Qed.

Lemma strtok_tokens_witness :
  strtok_loop 20 (Some (str "  ls  -l /bin")) (str " ") (StrtokState [] None) =
  [str "ls"; str "-l"; str "/bin"].
Proof.
  rewrite strtok_tokens; [reflexivity|..].
  - apply (bool_decide_unpack _). vm_compute. exact I.
  - vm_compute. lia.
Defined.
