(* ===== verification/Quad.v ===== *)
(** Division of 64-bit integers in user space (user/lib/libc/quad.c): Knuth's
    algorithm D on digits of [HALF_BITS] bits.

    [long] has 64 bits on this machine, so a digit is 32 bits wide and the two
    words of [union uu] are 128 bits: the stores to [uq] fill the lower word
    only.  [h] is what the upper word holds, which C leaves unspecified when
    only [q] is initialised, and [g] is what the arrays hold before they are
    filled. *)

From S2P Require Import Prelude.

Definition HALF_BITS : Z := 32.
Definition HHALF (x : Z) : Z := Z.shiftr x HALF_BITS.
Definition LHALF (x : Z) : Z := Z.land x (2 ^ HALF_BITS - 1).
Definition B : Z := 2 ^ HALF_BITS.
Definition COMBINE (a b : Z) : Z := Z.lor (u64 (Z.shiftl a HALF_BITS)) b.

(** The three arrays; a pointer into one is an index. *)
Record digits : Type := Digits { uspace : list Z; vspace : list Z; qspace : list Z }.

Definition set_uspace (x : list Z) (s : digits) : digits := Digits x (vspace s) (qspace s).
Definition set_vspace (x : list Z) (s : digits) : digits := Digits (uspace s) x (qspace s).
Definition set_qspace (x : list Z) (s : digits) : digits := Digits (uspace s) (vspace s) x.

Inductive space : Type := U | V | Q.

Definition space_of (a : space) (s : digits) : list Z :=
  match a with U => uspace s | V => vspace s | Q => qspace s end.
Definition set_space (a : space) (x : list Z) (s : digits) : digits :=
  match a with U => set_uspace x s | V => set_vspace x s | Q => set_qspace x s end.

Definition digit (a : space) (i : nat) : M digits Z := let! s := get in deref (space_of a s !! i).
Definition set_digit (a : space) (i : nat) (x : Z) : M digits unit :=
  let! s := get in do! deref (space_of a s !! i); put (set_space a (<[i := x]> (space_of a s)) s).

Fixpoint shl_loop (a : space) (p : nat) (sh : Z) (len : nat) : M digits unit :=
  match len with
  | O => let! x := digit a p in set_digit a p (LHALF (u64 (Z.shiftl x sh)))
  | S len =>
      let! x := digit a p in
      let! y := digit a (p + 1) in
      do! set_digit a p (Z.lor (LHALF (u64 (Z.shiftl x sh))) (Z.shiftr y (HALF_BITS - sh)));
      shl_loop a (p + 1) sh len
  end.

Definition shl (a : space) (p len : nat) (sh : Z) : M digits unit := shl_loop a p sh len.

(** The division by one digit. *)
Definition short_division (u v : nat) (arq : bool) : M digits (Z * option Z) :=
  let! t := digit V (v + 2) in
  let! u1 := digit U (u + 1) in
  let! u2 := digit U (u + 2) in
  let! u3 := digit U (u + 3) in
  let! u4 := digit U (u + 4) in
  let rbj := COMBINE (u1 mod t) u2 in
  let rbj' := COMBINE (rbj mod t) u3 in
  let q3 := rbj' / t in
  let rbj'' := COMBINE (rbj' mod t) u4 in
  let q4 := rbj'' / t in
  ret (COMBINE q3 q4, if arq then Some (rbj'' mod t) else None).

(** [for (n = 4; v[1] == 0; v++)]: the number of digits of the divisor and the
    pointer to it, or nothing when it has one digit. *)
Fixpoint count_v (n v : nat) : M digits (option nat * nat) :=
  let! v1 := digit V (v + 1) in
  if v1 =? 0 then
    match n with
    | S n => if (n =? 1)%nat then ret (None, v) else count_v n (v + 1)
    | O => ret (None, v)
    end
  else ret (Some n, v).

(** [for (m = 4 - n; u[1] == 0; u++)], with the places left as fuel. *)
Fixpoint count_u (fuel : nat) (m : Z) (u : nat) : M digits (Z * nat) :=
  let! u1 := digit U (u + 1) in
  if u1 =? 0 then
    match fuel with
    | S fuel => count_u fuel (m - 1) (u + 1)
    | O => fail Fault
    end
  else ret (m, u).

(** D1: the shift that makes the first digit of the divisor large. *)
Fixpoint normal_shift (fuel : nat) (t d : Z) : Z :=
  if t <? B / 2 then match fuel with S fuel => normal_shift fuel (u64 (Z.shiftl t 1)) (d + 1) | O => d end else d.

(** D3: the loop that corrects [qhat]; it stops when [rhat] is no digit. *)
Fixpoint correct_qhat (fuel : nat) (v1 v2 uj2 qhat rhat : Z) : Z :=
  if u64 (v2 * qhat) >? COMBINE rhat uj2 then
    match fuel with
    | S fuel =>
        let qhat := u64 (qhat - 1) in
        let rhat := u64 (rhat + v1) in
        if rhat >=? B then qhat else correct_qhat fuel v1 v2 uj2 qhat rhat
    | O => qhat
    end
  else qhat.

Definition estimate (v1 v2 uj0 uj1 uj2 : Z) : Z :=
  if uj0 =? v1 then
    let qhat := u64 (B - 1) in
    let rhat := u64 (uj1 + v1) in
    if rhat >=? B then qhat else correct_qhat 3 v1 v2 uj2 qhat rhat
  else
    let nn := COMBINE uj0 uj1 in
    correct_qhat 3 v1 v2 uj2 (nn / v1) (nn mod v1).

(** D4: multiply and subtract, from digit [i] of the divisor down; returns the
    borrow. *)
Fixpoint mul_sub (u v : nat) (qhat : Z) (i : nat) (t : Z) : M digits Z :=
  match i with
  | O => ret t
  | S i' =>
      let! x := digit U (u + i) in
      let! y := digit V (v + i) in
      let t := u64 (x - y * qhat - t) in
      do! set_digit U (u + i) (LHALF t);
      mul_sub u v qhat i' (Z.land (u64 (B - HHALF t)) (B - 1))
  end.

(** D6: add the divisor back; returns the carry. *)
Fixpoint add_back (u v i : nat) (t : Z) : M digits Z :=
  match i with
  | O => ret t
  | S i' =>
      let! x := digit U (u + i) in
      let! y := digit V (v + i) in
      let t := u64 (t + x + y) in
      do! set_digit U (u + i) (LHALF t);
      add_back u v i' (HHALF t)
  end.

(** D3 to D6 for the digit [j] of the quotient; [u] points to [u[j]]. *)
Definition quotient_digit (u v n : nat) (v1 v2 : Z) : M digits Z :=
  let! uj0 := digit U u in
  let! uj1 := digit U (u + 1) in
  let! uj2 := digit U (u + 2) in
  let qhat := estimate v1 v2 uj0 uj1 uj2 in
  let! t := mul_sub u v qhat n 0 in
  let! x := digit U u in
  let t := u64 (x - t) in
  do! set_digit U u (LHALF t);
  if HHALF t =? 0 then ret qhat
  else
    let! t := add_back u v n 0 in
    let! x := digit U u in
    do! set_digit U u (LHALF (u64 (x + t)));
    ret (u64 (qhat - 1)).

(** D7: [k] digits more after the digit [j]. *)
Fixpoint division_loop (u v q n : nat) (v1 v2 : Z) (j k : nat) : M digits unit :=
  let! qhat := quotient_digit (u + j) v n v1 v2 in
  do! set_digit Q (q + j) qhat;
  match k with
  | O => ret tt
  | S k => division_loop u v q n v1 v2 (S j) k
  end.

(** The remainder: [i] digits from [u[m]] shifted back. *)
Fixpoint unshift (u : nat) (d : Z) (m i : nat) : M digits unit :=
  match i with
  | O => set_digit U (u + m) 0
  | S i' =>
      let! x := digit U (u + m + i) in
      let! y := digit U (u + m + i') in
      do! set_digit U (u + m + i) (Z.lor (Z.shiftr x d) (LHALF (u64 (Z.shiftl y (HALF_BITS - d)))));
      unshift u d m i'
  end.

Definition long_division (n v : nat) (arq : bool) : M digits (Z * option Z) :=
  let! mu := count_u 4 (4 - Z.of_nat n) 0 in
  let m := mu.1 in let u := mu.2 in
  do! for_each (seq 0 (Z.to_nat (4 - m))) (fun i => set_digit Q i 0);
  let q := Z.to_nat (4 - m) in
  let! t := digit V (v + 1) in
  let d := normal_shift 32 t 0 in
  do! (if d >? 0 then
         do! shl U u (Z.to_nat m + n) d;
         shl V (v + 1) (n - 1) d
       else ret tt);
  let! v1 := digit V (v + 1) in
  let! v2 := digit V (v + 2) in
  do! division_loop u v q n v1 v2 0 (Z.to_nat m);
  let! r :=
    (if arq then
       do! (if negb (d =? 0) then unshift u d (Z.to_nat m) n else ret tt);
       let! u3 := digit U 3 in
       let! u4 := digit U 4 in
       ret (Some (COMBINE u3 u4))
     else ret None) in
  let! q3 := digit Q 3 in
  let! q4 := digit Q 4 in
  ret (COMBINE q3 q4, r).

Section quad.
Context {St : Type} (h g : Z).

(** The digits of a [union uu] whose [uq] is [x], in an array whose first
    element is [first]. *)
Definition split_digits (first x : Z) : list Z := [first; HHALF h; LHALF h; HHALF x; LHALF x].

Definition __qdivrem (uq vq : Z) (arq : bool) : M St (Z * option Z) :=
  if vq =? 0 then fail Fault
  else if uq <? vq then ret (0, if arq then Some uq else None)
  else
    let divide :=
      let! nv := count_v 4 0 in
      match nv.1 with
      | None => short_division 0 nv.2 arq
      | Some n => long_division n nv.2 arq
      end in
    fun s => match divide (Digits (split_digits 0 uq) (split_digits g vq) (replicate 5 g)) with
             | Done r _ => Done r s
             | Failed f => Failed f
             end.

Definition __divdi3 (a b : Z) : M St Z :=
  let ua := if a <? 0 then u64 (- u64 a) else a in
  let ub := if b <? 0 then u64 (- u64 b) else b in
  let neg := xorb (a <? 0) (b <? 0) in
  let! r := __qdivrem ua ub false in
  ret (s64 (if neg then u64 (- r.1) else r.1)).

Definition __udivdi3 (a b : Z) : M St Z := let! r := __qdivrem a b false in ret r.1.

Definition __umoddi3 (a b : Z) : M St Z := let! r := __qdivrem a b true in deref r.2.
End quad.
