(* ===== verification/QuadProofs.v ===== *)
(** The division of Quad.v is the division of integers. *)

From S2P Require Import Prelude Quad.

(** * Digits *)

Definition val (l : list Z) : Z := fold_left (fun a d => a * B + d) l 0.
Definition is_digit (x : Z) : Prop := 0 <= x < B.

Lemma B_pos : 0 < B. Proof. done. Qed.

Lemma fold_val l a : fold_left (fun a d => a * B + d) l a = a * B ^ Z.of_nat (length l) + val l.
Proof.
  revert a. unfold val. induction l as [|x l IH]; intros a; [cbn; lia|]. cbn [fold_left length].
  rewrite (IH (a * B + x)), (IH (0 * B + x)), Nat2Z.inj_succ, Z.pow_succ_r by lia. lia.
Qed.

Lemma val_cons x l : val (x :: l) = x * B ^ Z.of_nat (length l) + val l.
Proof. unfold val at 1. cbn [fold_left]. rewrite fold_val. lia. Qed.

Lemma val_snoc l x : val (l ++ [x]) = val l * B + x.
Proof. unfold val. by rewrite fold_left_app. Qed.

Lemma val_range l : Forall is_digit l -> 0 <= val l < B ^ Z.of_nat (length l).
Proof.
  induction l as [|x l IH] using rev_ind; [cbn; lia|]. intros [Hl [Hx _]%Forall_cons_iff]%Forall_app. specialize (IH Hl). unfold is_digit in Hx.
  rewrite val_snoc, length_app, Nat2Z.inj_add, Z.pow_add_r by lia. change (B ^ Z.of_nat (length [x])) with B. nia.
Qed.

Lemma LHALF_mod x : LHALF x = x mod B.
Proof. unfold LHALF. change (2 ^ HALF_BITS - 1) with (Z.ones 32). by rewrite Z.land_ones. Qed.

Lemma HHALF_div x : HHALF x = x / B.
Proof. unfold HHALF. by rewrite Z.shiftr_div_pow2. Qed.

(** Bits below and above a power of two. *)
Lemma lor_add a b k : 0 <= k -> 0 <= b < 2 ^ k -> Z.lor (a * 2 ^ k) b = a * 2 ^ k + b.
Proof.
  intros Hk Hb. rewrite <- Z.shiftl_mul_pow2 by done. assert (Z.land (Z.shiftl a k) b = 0) as H; [|rewrite <- Z.lxor_lor by done; symmetry; by apply Z.add_nocarry_lxor].
  apply Z.bits_inj'. intros i Hi. rewrite Z.bits_0, Z.land_spec.
  destruct (Z.ltb_spec i k).
  - rewrite Z.shiftl_spec_low by done. done.
  - destruct (decide (b = 0)) as [->|]; [by rewrite Z.bits_0, andb_false_r|]. rewrite (Z.bits_above_log2 b i), andb_false_r; [done|lia|].
    apply Z.log2_lt_pow2; [lia|]. enough (2 ^ k <= 2 ^ i) by lia. apply Z.pow_le_mono_r; lia.
Qed.

Lemma COMBINE_eq a b : is_digit a -> is_digit b -> COMBINE a b = a * B + b.
Proof.
  unfold is_digit, COMBINE. intros Ha Hb. rewrite Z.shiftl_mul_pow2 by done. change (2 ^ HALF_BITS) with B. rewrite u64_id by (change (2 ^ 64) with (B * B); nia).
  apply lor_add; done.
Qed.

(** * The estimate of a digit *)

(** [q] is the largest digit whose product with the first two digits of the
    divisor is not above the first three digits of the dividend. *)
Definition largest (v1 v2 u0 u1 u2 q : Z) : Prop :=
  is_digit q /\ q * (v1 * B + v2) <= u0 * B * B + u1 * B + u2
  /\ forall q', q < q' < B -> u0 * B * B + u1 * B + u2 < q' * (v1 * B + v2).

Lemma correct_qhat_largest v1 v2 u0 u1 u2 fuel qhat rhat :
  B / 2 <= v1 < B -> is_digit v2 -> is_digit u2 ->
  is_digit qhat -> is_digit rhat -> qhat * v1 + rhat = u0 * B + u1 -> B <= rhat + Z.of_nat fuel * v1 ->
  (forall q', qhat < q' < B -> u0 * B * B + u1 * B + u2 < q' * (v1 * B + v2)) -> largest v1 v2 u0 u1 u2 (correct_qhat fuel v1 v2 u2 qhat rhat).
Proof.
  intros Hv1 Hv2 Hu2. revert qhat rhat. unfold is_digit in *. change (B / 2) with (2 ^ 31) in Hv1. induction fuel as [|fuel IH]; intros qhat rhat Hq Hr He Hf Hmax; cbn [correct_qhat].
  - change (Z.of_nat 0) with 0 in Hf. lia.
  - rewrite COMBINE_eq by done. rewrite (u64_id (v2 * qhat)) by (change (2 ^ 64) with (B * B); nia).
    rewrite Z.gtb_ltb. destruct (Z.ltb_spec (rhat * B + u2) (v2 * qhat)) as [Hlt|Hge].
    + assert (0 < qhat) by nia. change B with (2 ^ 32) in *. rewrite !u64_id by lia. rewrite Z.geb_leb.
      assert (forall q', qhat - 1 < q' < 2 ^ 32 -> u0 * 2 ^ 32 * 2 ^ 32 + u1 * 2 ^ 32 + u2 < q' * (v1 * 2 ^ 32 + v2)) as Hmax'.
      { intros q' Hq'. destruct (decide (q' = qhat)) as [->|]; [|apply Hmax; lia]. nia. }
      destruct (Z.leb_spec (2 ^ 32) (rhat + v1)).
      * split; [unfold is_digit; change B with (2 ^ 32); lia|]. split; [change B with (2 ^ 32); nia|done].
      * apply IH; [lia|lia|lia|lia|done].
    + split; [done|]. split; [nia|done].
Qed.

Lemma estimate_largest v1 v2 u0 u1 u2 :
  B / 2 <= v1 < B -> is_digit v2 -> 0 <= u0 <= v1 -> is_digit u1 -> is_digit u2 -> largest v1 v2 u0 u1 u2 (estimate v1 v2 u0 u1 u2).
Proof.
  intros Hv1 Hv2 Hu0 Hu1 Hu2. unfold estimate. unfold is_digit in *. change (B / 2) with (2 ^ 31) in *. destruct (Z.eqb_spec u0 v1) as [->|Hne].
  - change B with (2 ^ 32) in *. rewrite !u64_id by lia. rewrite Z.geb_leb. destruct (Z.leb_spec (2 ^ 32) (u1 + v1)).
    + split; [unfold is_digit; change B with (2 ^ 32); lia|]. split; [change B with (2 ^ 32); nia|]. change B with (2 ^ 32). lia.
    + apply correct_qhat_largest; unfold is_digit; change (B / 2) with (2 ^ 31); change B with (2 ^ 32); lia.
  - rewrite COMBINE_eq by (unfold is_digit; lia). pose proof (Z.div_mod (u0 * B + u1) v1). pose proof (Z.mod_pos_bound (u0 * B + u1) v1).
    apply correct_qhat_largest; unfold is_digit; [done..| | | | |].
    + split; [apply Z.div_pos; nia|apply Z.div_lt_upper_bound; nia].
    + lia.
    + lia.
    + change B with (2 ^ 32) in *. lia.
    + intros q' Hq'. assert (0 <= (u0 * B + u1) / v1) by (apply Z.div_pos; nia). assert ((u0 * B + u1) < v1 * q').
      2: { assert (0 <= q' * v2) by nia. assert ((u0 * B + u1 + 1) * B <= v1 * q' * B) by (apply Z.mul_le_mono_nonneg_r; lia). lia. }
      assert ((u0 * B + u1) / v1 + 1 <= q') by lia. nia.
Qed.

(** The estimate is the digit or one more. *)
Lemma largest_digit v1 v2 u0 u1 u2 q k x y (W := (v1 * B + v2) * B ^ k + y) (R := (u0 * B * B + u1 * B + u2) * B ^ k + x) :
  0 <= k -> B / 2 <= v1 -> 0 <= v2 -> 0 <= x < B ^ k -> 0 <= y < B ^ k -> 0 <= R < W * B ->
  largest v1 v2 u0 u1 u2 q -> R / W <= q <= R / W + 1.
Proof.
  intros Hk Hv1 Hv2 Hx Hy HR (Hq & Hle & Hmax). unfold is_digit in Hq. assert (0 < B ^ k) as HB by (apply Z.pow_pos_nonneg; [done|lia]).
  assert (B <= v1 * B + v2) as HV by (change (B / 2) with (2 ^ 31) in Hv1; nia). assert (0 < W) as HW by (unfold W; nia).
  pose proof (Z.div_mod R W ltac:(lia)) as Hd. pose proof (Z.mod_pos_bound R W HW) as Hm. set (q0 := R / W) in *. set (r0 := R mod W) in *. split.
  - destruct (Z.le_gt_cases q0 q) as [|Hgt]; [done|]. assert (q0 < B) by nia. specialize (Hmax q0 ltac:(lia)).
    assert ((u0 * B * B + u1 * B + u2 + 1) * B ^ k <= q0 * (v1 * B + v2) * B ^ k) by nia. unfold W, R in *. nia.
  - assert (q * W < (q0 + 2) * W); [|nia]. assert (q * y <= W) by (unfold W; nia). unfold W, R in *. nia.
Qed.

(** * Arrays *)

Lemma wp_digit a i x Q s : space_of a s !! i = Some x -> Q x s -> wp (digit a i) Q s.
Proof. intros Hx HQ. unfold digit. wp_use wp_deref; [exact Hx|done]. Qed.

Lemma wp_set_digit a i x y Q s : space_of a s !! i = Some y -> Q tt (set_space a (<[i := x]> (space_of a s)) s) -> wp (set_digit a i x) Q s.
Proof. intros Hx HQ. unfold set_digit. wp_use wp_deref; [exact Hx|]. wp_steps. done. Qed.

Lemma space_set a x s : space_of a (set_space a x s) = x.
Proof. by destruct a. Qed.

Lemma set_space_twice a x y s : set_space a x (set_space a y s) = set_space a x s.
Proof. by destruct a. Qed.

Lemma set_space_same a s : set_space a (space_of a s) s = s.
Proof. by destruct a, s. Qed.

Lemma set_uspace_other x s : vspace (set_space U x s) = vspace s.
Proof. done. Qed.

(** ** Shifts *)

Lemma shift_digit x y sh : is_digit x -> is_digit y -> 0 < sh < 32 ->
  Z.lor (LHALF (u64 (Z.shiftl x sh))) (Z.shiftr y (HALF_BITS - sh)) = (x * 2 ^ sh) mod B + y * 2 ^ sh / B.
Proof.
  unfold is_digit. intros Hx Hy Hsh. rewrite LHALF_mod, Z.shiftl_mul_pow2, Z.shiftr_div_pow2 by (unfold HALF_BITS; lia). unfold HALF_BITS.
  assert (2 ^ (32 - sh) * 2 ^ sh = B) as HB by (rewrite <- Z.pow_add_r by lia; unfold B, HALF_BITS; f_equal; lia).
  assert (0 < 2 ^ sh) by (apply Z.pow_pos_nonneg; lia). assert (0 < 2 ^ (32 - sh)) by (apply Z.pow_pos_nonneg; lia).
  assert (y * 2 ^ sh / B = y / 2 ^ (32 - sh)) as -> by (rewrite <- HB, Z.div_mul_cancel_r; lia).
  rewrite u64_id by (assert (2 ^ sh <= B) by (rewrite <- HB; nia); change (2 ^ 64) with (B * B); nia).
  assert ((x * 2 ^ sh) mod B = x mod 2 ^ (32 - sh) * 2 ^ sh) as -> by (rewrite <- HB, Z.mul_mod_distr_r by lia; done).
  apply lor_add; [lia|]. split; [apply Z.div_pos; lia|]. apply Z.div_lt_upper_bound; nia.
Qed.

Lemma shift_low x sh : is_digit x -> 0 < sh < 32 -> LHALF (u64 (Z.shiftl x sh)) = (x * 2 ^ sh) mod B.
Proof.
  intros Hx Hsh. pose proof (shift_digit x 0 sh Hx ltac:(done) Hsh) as H. rewrite Z.shiftr_0_l, Z.lor_0_r in H. rewrite H.
  change (0 * 2 ^ sh / B) with 0. lia.
Qed.

Lemma shift_digit_range x y sh : is_digit x -> is_digit y -> 0 < sh < 32 -> is_digit ((x * 2 ^ sh) mod B + y * 2 ^ sh / B).
Proof.
  unfold is_digit. intros Hx Hy Hsh. assert (2 ^ (32 - sh) * 2 ^ sh = B) as HB by (rewrite <- Z.pow_add_r by lia; unfold B, HALF_BITS; f_equal; lia).
  assert (0 < 2 ^ sh) by (apply Z.pow_pos_nonneg; lia). assert (0 < 2 ^ (32 - sh)) by (apply Z.pow_pos_nonneg; lia).
  assert (0 <= y * 2 ^ sh / B < 2 ^ sh). { split; [apply Z.div_pos; nia|apply Z.div_lt_upper_bound; nia]. }
  assert ((x * 2 ^ sh) mod B = x mod 2 ^ (32 - sh) * 2 ^ sh) as -> by (rewrite <- HB, Z.mul_mod_distr_r by lia; done).
  pose proof (Z.mod_pos_bound x (2 ^ (32 - sh))). nia.
Qed.

(** Shifting a number digit by digit. *)
Lemma shift_val x y l l' sh (K := B ^ Z.of_nat (S (length l))) :
  0 < sh < 32 -> is_digit x -> Forall is_digit (y :: l) -> val l' = (val (y :: l) * 2 ^ sh) mod K -> length l' = S (length l) ->
  val (((x * 2 ^ sh) mod B + y * 2 ^ sh / B) :: l') = (val (x :: y :: l) * 2 ^ sh) mod (B * K).
Proof.
  intros Hsh Hx Hd Hv' Hl. pose proof (val_range _ Hd) as Hr. apply Forall_cons_iff in Hd as [Hy Hd]. pose proof (val_range _ Hd) as Hrl.
  rewrite (val_cons _ l'), Hl, (val_cons x). cbn [length] in *. fold K in Hr |- *. set (R := val (y :: l)) in *.
  assert (0 < K) as HK by (apply Z.pow_pos_nonneg; done || lia). assert (0 < B ^ Z.of_nat (length l)) by (apply Z.pow_pos_nonneg; done || lia).
  assert (K = B * B ^ Z.of_nat (length l)) as EK by (unfold K; rewrite Nat2Z.inj_succ, Z.pow_succ_r by lia; done).
  assert (2 ^ (32 - sh) * 2 ^ sh = B) as HB by (rewrite <- Z.pow_add_r by lia; unfold B, HALF_BITS; f_equal; lia).
  assert (0 < 2 ^ sh) by (apply Z.pow_pos_nonneg; lia). assert (0 < 2 ^ (32 - sh)) by (apply Z.pow_pos_nonneg; lia).
  assert (y * 2 ^ sh / B = R * 2 ^ sh / K) as Hc.
  { rewrite EK. assert (R / B ^ Z.of_nat (length l) = y) as HR by (unfold R; rewrite val_cons, Z.div_add_l, Z.div_small by lia; lia).
    set (P := B ^ Z.of_nat (length l)) in *. rewrite <- HB. rewrite Z.div_mul_cancel_r by lia. replace (2 ^ (32 - sh) * 2 ^ sh * P) with (P * 2 ^ (32 - sh) * 2 ^ sh) by lia.
    rewrite Z.div_mul_cancel_r by lia. rewrite <- Zdiv.Zdiv_Zdiv by lia. by rewrite HR. }
  pose proof (shift_digit_range x y sh Hx Hy Hsh) as Hx'. set (x' := (x * 2 ^ sh) mod B + _) in *. unfold is_digit in Hx'.
  apply (Z.mod_unique_pos _ _ (x * 2 ^ sh / B)).
  - pose proof (Z.mod_pos_bound (R * 2 ^ sh) K HK). rewrite Hv'. nia.
  - rewrite Hv'. pose proof (Z.div_mod (R * 2 ^ sh) K ltac:(lia)). pose proof (Z.div_mod (x * 2 ^ sh) B ltac:(done)). unfold x'. rewrite Hc. nia.
Qed.

Lemma wp_shl_loop a p sh l pre post len Q s :
  0 < sh < 32 -> space_of a s = pre ++ l ++ post -> p = length pre -> length l = S len -> Forall is_digit l ->
  (forall l', length l' = S len -> Forall is_digit l' -> val l' = (val l * 2 ^ sh) mod B ^ Z.of_nat (S len) ->
     Q tt (set_space a (pre ++ l' ++ post) s)) ->
  wp (shl_loop a p sh len) Q s.
Proof.
  intros Hsh. revert p l pre Q s. induction len as [|len IH]; intros p l pre Q s Hs -> Hl Hd HQ.
  - destruct l as [|x [|]]; [done| |done]. apply Forall_cons_iff in Hd as [Hx _]. cbn [shl_loop]. cbn [app] in Hs. wp_steps.
    apply (wp_digit a _ x); [by rewrite Hs, list_lookup_middle|]. apply (wp_set_digit a _ _ x); [by rewrite Hs, list_lookup_middle|].
    rewrite Hs. rewrite insert_app_r_alt, Nat.sub_diag by done. apply (HQ [_]).
    + done.
    + constructor; [|done]. rewrite LHALF_mod. unfold is_digit. apply Z.mod_pos_bound. done.
    + cbn. rewrite shift_low by done. change (B ^ 1) with B. done.
  - destruct l as [|x [|y l]]; [done|done|]. apply Forall_cons_iff in Hd as [Hx Hd]. pose proof Hd as [Hy _]%Forall_cons_iff. cbn [shl_loop]. cbn [app] in Hs. wp_steps.
    apply (wp_digit a _ x); [by rewrite Hs, list_lookup_middle|]. wp_steps.
    apply (wp_digit a _ y); [by rewrite Hs, lookup_app_r, Nat.add_comm, Nat.add_sub by lia|]. wp_steps.
    apply (wp_set_digit a _ _ x); [by rewrite Hs, list_lookup_middle|]. rewrite Hs, insert_app_r_alt, Nat.sub_diag by done. cbn [insert list_insert app].
    rewrite shift_digit by done. set (x' := _ mod B + _).
    apply (IH _ (y :: l) (pre ++ [x'])); [by rewrite space_set, <- app_assoc|rewrite length_app; done|by injection Hl as <-|done|].
    intros l' Hl' Hd' Hv'. rewrite set_space_twice, <- app_assoc. injection Hl as Hl.
    apply (HQ (x' :: l')); [by rewrite <- Hl'|constructor; [by apply shift_digit_range|done]|].
    subst len. rewrite Nat2Z.inj_succ, Z.pow_succ_r by lia. by apply shift_val.
Qed.

(** ** Multiply and subtract, add back *)

(** A step of the subtraction: a digit and the borrow. *)
Lemma sub_digit x y q t : is_digit x -> is_digit y -> is_digit q -> is_digit t ->
  let z := x - y * q - t in
  LHALF (u64 z) = z mod B /\ Z.land (u64 (B - HHALF (u64 z))) (B - 1) = - (z / B) /\ is_digit (- (z / B)).
Proof.
  intros Hx Hy Hq Ht z. unfold is_digit in *. assert (- (B * B - B) <= z < B) as Hz by (unfold z; nia).
  assert (- (B - 1) <= z / B <= 0) as Hd. { split; [apply Z.div_le_lower_bound; lia|]. enough (z / B < 1) by lia. apply Z.div_lt_upper_bound; lia. }
  assert (u64 z mod B = z mod B) as Hm.
  { unfold u64. change (2 ^ 64) with (B * B). rewrite Z.rem_mul_r, Z.mul_comm, Z.mod_add, Z.mod_mod by done. done. }
  rewrite LHALF_mod, HHALF_div. split; [done|]. split; [|lia].
  change (Z.land (u64 (B - u64 z / B)) (B - 1)) with (LHALF (u64 (B - u64 z / B))). rewrite LHALF_mod.
  assert (u64 z / B = if decide (0 <= z) then 0 else z / B + B) as ->.
  { unfold u64. change (2 ^ 64) with (B * B). case_decide.
    - rewrite (Z.mod_small z) by nia. apply Z.div_small. lia.
    - rewrite <- (Z.mod_unique_pos z (B * B) (-1) (z + B * B)) by lia. rewrite Z.div_add by done. done. }
  case_decide.
  - rewrite (Z.div_small z) by lia. done.
  - assert (z / B <= -1) by (enough (z / B < 0) by lia; apply Z.div_lt_upper_bound; lia).
    replace (B - (z / B + B)) with (- (z / B)) by lia. change B with (2 ^ 32) in *. rewrite u64_id by lia. apply Z.mod_small. lia.
Qed.

Lemma wp_mul_sub q : is_digit q -> forall i u v xs ys pre post pre' post' t Q s,
  uspace s = pre ++ xs ++ post -> vspace s = pre' ++ ys ++ post' -> length pre = S u -> length pre' = S v -> length xs = i -> length ys = i ->
  Forall is_digit xs -> Forall is_digit ys -> is_digit t ->
  (forall xs' t', length xs' = i -> Forall is_digit xs' -> is_digit t' ->
     val xs' - t' * B ^ Z.of_nat i = val xs - q * val ys - t -> Q t' (set_uspace (pre ++ xs' ++ post) s)) ->
  wp (mul_sub u v q i t) Q s.
Proof.
  intros Hq i. induction i as [|i IH]; intros u v xs ys pre post pre' post' t Q s Hu Hv Hpre Hpre' Hxs Hys Hdx Hdy Ht HQ.
  - destruct xs, ys; [|done..]. cbn [mul_sub]. wp_steps. specialize (HQ [] t eq_refl (Forall_nil_2 _) Ht). cbn [app] in HQ, Hu. rewrite <- Hu in HQ.
    destruct s. apply HQ. cbn. lia.
  - destruct xs as [|x xs _] using rev_ind; [done|]. destruct ys as [|y ys _] using rev_ind; [done|]. rewrite length_app in Hxs, Hys. cbn [length] in Hxs, Hys.
    apply Forall_app in Hdx as [Hdx [Hx _]%Forall_cons_iff]. apply Forall_app in Hdy as [Hdy [Hy _]%Forall_cons_iff]. rewrite <- app_assoc in Hu, Hv. cbn [app] in Hu, Hv.
    assert (length (pre ++ xs) = (u + S i)%nat) as Hlu by (rewrite length_app; lia). assert (length (pre' ++ ys) = (v + S i)%nat) as Hlv by (rewrite length_app; lia).
    cbn [mul_sub]. wp_steps. apply (wp_digit U _ x); [cbn; by rewrite Hu, app_assoc, <- Hlu, list_lookup_middle|]. wp_steps.
    apply (wp_digit V _ y); [cbn; by rewrite Hv, app_assoc, <- Hlv, list_lookup_middle|]. wp_steps.
    apply (wp_set_digit U _ _ x); [cbn; by rewrite Hu, app_assoc, <- Hlu, list_lookup_middle|].
    destruct (sub_digit x y q t Hx Hy Hq Ht) as (E1 & E2 & E3). rewrite E1, E2. set (z := x - y * q - t) in *.
    apply (IH u v xs ys pre (z mod B :: post) pre' (y :: post')); [|exact Hv|done|done|lia|lia|done|done|done|].
    + cbn [space_of set_space set_uspace uspace]. rewrite Hu, app_assoc, insert_app_r_alt, Hlu, Nat.sub_diag by lia. cbn. by rewrite <- app_assoc.
    + intros xs' t' Hl' Hd' Ht' Hval. specialize (HQ (xs' ++ [z mod B]) t'). rewrite <- app_assoc in HQ. apply HQ.
      * rewrite length_app. cbn. lia.
      * apply Forall_app. split; [done|]. constructor; [|done]. unfold is_digit. by apply Z.mod_pos_bound.
      * done.
      * rewrite !val_snoc, Nat2Z.inj_succ, Z.pow_succ_r by lia. pose proof (Z.div_mod z B ltac:(done)). unfold z in *. nia.
Qed.

Lemma wp_add_back i : forall u v xs ys pre post pre' post' t Q s,
  uspace s = pre ++ xs ++ post -> vspace s = pre' ++ ys ++ post' -> length pre = S u -> length pre' = S v -> length xs = i -> length ys = i ->
  Forall is_digit xs -> Forall is_digit ys -> 0 <= t <= 1 ->
  (forall xs' t', length xs' = i -> Forall is_digit xs' -> 0 <= t' <= 1 ->
     val xs' + t' * B ^ Z.of_nat i = val xs + val ys + t -> Q t' (set_uspace (pre ++ xs' ++ post) s)) ->
  wp (add_back u v i t) Q s.
Proof.
  induction i as [|i IH]; intros u v xs ys pre post pre' post' t Q s Hu Hv Hpre Hpre' Hxs Hys Hdx Hdy Ht HQ.
  - destruct xs, ys; [|done..]. cbn [add_back]. wp_steps. specialize (HQ [] t eq_refl (Forall_nil_2 _) Ht). cbn [app] in HQ, Hu. rewrite <- Hu in HQ.
    destruct s. apply HQ. cbn. lia.
  - destruct xs as [|x xs _] using rev_ind; [done|]. destruct ys as [|y ys _] using rev_ind; [done|]. rewrite length_app in Hxs, Hys. cbn [length] in Hxs, Hys.
    apply Forall_app in Hdx as [Hdx [Hx _]%Forall_cons_iff]. apply Forall_app in Hdy as [Hdy [Hy _]%Forall_cons_iff]. rewrite <- app_assoc in Hu, Hv. cbn [app] in Hu, Hv.
    assert (length (pre ++ xs) = (u + S i)%nat) as Hlu by (rewrite length_app; lia). assert (length (pre' ++ ys) = (v + S i)%nat) as Hlv by (rewrite length_app; lia).
    cbn [add_back]. wp_steps. apply (wp_digit U _ x); [cbn; by rewrite Hu, app_assoc, <- Hlu, list_lookup_middle|]. wp_steps.
    apply (wp_digit V _ y); [cbn; by rewrite Hv, app_assoc, <- Hlv, list_lookup_middle|]. wp_steps.
    apply (wp_set_digit U _ _ x); [cbn; by rewrite Hu, app_assoc, <- Hlu, list_lookup_middle|].
    unfold is_digit in Hx, Hy. rewrite u64_id by (change B with (2 ^ 32) in *; lia). rewrite LHALF_mod, HHALF_div. set (z := t + x + y) in *.
    assert (0 <= z / B <= 1). { split; [apply Z.div_pos; lia|]. enough (z / B < 2) by lia. apply Z.div_lt_upper_bound; lia. }
    apply (IH u v xs ys pre (z mod B :: post) pre' (y :: post')); [|exact Hv|done|done|lia|lia|done|done|done|].
    + cbn [space_of set_space set_uspace uspace]. rewrite Hu, app_assoc, insert_app_r_alt, Hlu, Nat.sub_diag by lia. cbn. by rewrite <- app_assoc.
    + intros xs' t' Hl' Hd' Ht' Hval. specialize (HQ (xs' ++ [z mod B]) t'). rewrite <- app_assoc in HQ. apply HQ.
      * rewrite length_app. cbn. lia.
      * apply Forall_app. split; [done|]. constructor; [|done]. unfold is_digit. by apply Z.mod_pos_bound.
      * done.
      * rewrite !val_snoc, Nat2Z.inj_succ, Z.pow_succ_r by lia. pose proof (Z.div_mod z B ltac:(done)). unfold z in *. nia.
Qed.

(** ** The remainder *)

Lemma unshift_digit x y d : is_digit x -> is_digit y -> 0 < d < 32 ->
  Z.lor (Z.shiftr x d) (LHALF (u64 (Z.shiftl y (HALF_BITS - d)))) = ((y * B + x) / 2 ^ d) mod B.
Proof.
  intros Hx Hy Hd. unfold HALF_BITS. rewrite Z.lor_comm, shift_low, Z.shiftr_div_pow2 by (done || lia). unfold is_digit in *.
  assert (2 ^ (32 - d) * 2 ^ d = B) as HB by (rewrite <- Z.pow_add_r by lia; unfold B, HALF_BITS; f_equal; lia).
  assert (0 < 2 ^ d) by (apply Z.pow_pos_nonneg; lia). assert (0 < 2 ^ (32 - d)) by (apply Z.pow_pos_nonneg; lia).
  assert (0 <= x / 2 ^ d < 2 ^ (32 - d)) as Hq by (split; [apply Z.div_pos; lia|apply Z.div_lt_upper_bound; nia]).
  assert ((y * 2 ^ (32 - d)) mod B = y mod 2 ^ d * 2 ^ (32 - d)) as -> by (rewrite <- HB, (Z.mul_comm (2 ^ (32 - d))), Z.mul_mod_distr_r by lia; done).
  rewrite lor_add by (lia || done). replace (y * B + x) with (y * 2 ^ (32 - d) * 2 ^ d + x) by (rewrite <- HB; lia). rewrite Z.div_add_l by lia.
  pose proof (Z.div_mod y (2 ^ d) ltac:(lia)). pose proof (Z.mod_pos_bound y (2 ^ d)).
  apply (Z.mod_unique_pos _ _ (y / 2 ^ d)); [nia|]. rewrite <- HB. nia.
Qed.

Lemma val_last l i y : length l = S i -> l !! i = Some y -> exists z, val l = z * B + y.
Proof.
  intros Hl Hy. destruct l as [|y' l _] using rev_ind; [done|]. rewrite length_app in Hl. cbn [length] in Hl.
  replace i with (length l) in Hy by lia. rewrite list_lookup_middle in Hy by done. injection Hy as ->. rewrite val_snoc. eauto.
Qed.

Lemma unshift_val z y x d : is_digit x -> is_digit y -> 0 < d < 32 ->
  (z * B + y) / 2 ^ d * B + ((y * B + x) / 2 ^ d) mod B = ((z * B + y) * B + x) / 2 ^ d.
Proof.
  unfold is_digit. intros Hx Hy Hd. set (e := 2 ^ d). set (f := 2 ^ (32 - d)).
  assert (f * e = B) as HB by (unfold e, f; rewrite <- Z.pow_add_r by lia; unfold B, HALF_BITS; f_equal; lia).
  assert (0 < e) by (apply Z.pow_pos_nonneg; lia). assert (0 < f) by (apply Z.pow_pos_nonneg; lia).
  assert (0 <= x / e < f) as Hq by (split; [apply Z.div_pos; lia|apply Z.div_lt_upper_bound; nia]).
  replace (z * B + y) with (z * f * e + y) by (rewrite <- HB; lia). rewrite Z.div_add_l by lia.
  replace (y * B + x) with (y * f * e + x) by (rewrite <- HB; lia). rewrite Z.div_add_l by lia.
  replace ((z * f * e + y) * B + x) with ((z * f * e + y) * f * e + x) by (rewrite <- HB; lia). rewrite Z.div_add_l by lia.
  pose proof (Z.div_mod y e ltac:(lia)). pose proof (Z.mod_pos_bound y e).
  rewrite <- (Z.mod_unique_pos (y * f + x / e) B (y / e) (y mod e * f + x / e)) by (rewrite <- ?HB; nia). rewrite <- HB. nia.
Qed.

Lemma wp_unshift u d m i : 0 < d < 32 -> forall w ws pre post Q s,
  uspace s = pre ++ (w :: ws) ++ post -> length pre = (u + m)%nat -> length ws = i -> Forall is_digit (w :: ws) -> w < 2 ^ d ->
  (forall ws', length ws' = i -> Forall is_digit ws' -> val ws' = val (w :: ws) / 2 ^ d -> Q tt (set_uspace (pre ++ (0 :: ws') ++ post) s)) ->
  wp (unshift u d m i) Q s.
Proof.
  intros Hd. assert (0 < 2 ^ d) as Hp by (apply Z.pow_pos_nonneg; lia).
  induction i as [|i IH]; intros w ws pre post Q s Hu Hpre Hws Hdig Hw HQ; apply Forall_cons_iff in Hdig as [Hdw Hdig]; cbn [app] in Hu.
  - destruct ws; [|done]. cbn [unshift]. apply (wp_set_digit U _ _ w); [cbn; by rewrite Hu, <- Hpre, list_lookup_middle|].
    cbn. rewrite Hu, insert_app_r_alt, Hpre, Nat.sub_diag by lia. apply (HQ []); [done|done|]. cbn. unfold is_digit in Hdw. rewrite Z.div_small by lia. done.
  - destruct ws as [|x ws _] using rev_ind; [done|]. rewrite length_app in Hws. cbn [length] in Hws. apply Forall_app in Hdig as [Hdws [Hx _]%Forall_cons_iff].
    rewrite <- app_assoc in Hu. cbn [app] in Hu. assert (length (pre ++ w :: ws) = (u + m + S i)%nat) as Hl by (rewrite length_app; cbn [length]; lia).
    cbn [unshift]. wp_steps. apply (wp_digit U _ x); [cbn; by rewrite Hu, app_comm_cons, app_assoc, <- Hl, list_lookup_middle|]. wp_steps.
    assert (exists y, (w :: ws) !! i = Some y) as [y Hy] by (apply lookup_lt_is_Some; cbn [length]; lia).
    assert (is_digit y) as Hdy by (apply (Forall_lookup_1 _ (w :: ws) i y); [by constructor|done]).
    apply (wp_digit U _ y).
    { cbn. rewrite Hu, lookup_app_r, Hpre by lia. replace (u + m + i - (u + m))%nat with i by lia. rewrite app_comm_cons, lookup_app_l by (cbn [length]; lia). done. }
    wp_steps. apply (wp_set_digit U _ _ x); [cbn; by rewrite Hu, app_comm_cons, app_assoc, <- Hl, list_lookup_middle|]. rewrite unshift_digit by done.
    destruct (val_last (w :: ws) i y) as [z Hz]; [cbn [length]; lia|done|].
    apply (IH w ws pre (((y * B + x) / 2 ^ d) mod B :: post)).
    + cbn. rewrite Hu, app_comm_cons, app_assoc, insert_app_r_alt, Hl, Nat.sub_diag by lia. cbn. by rewrite <- app_assoc.
    + done.
    + lia.
    + by constructor.
    + done.
    + intros ws' Hl' Hd' Hval. specialize (HQ (ws' ++ [((y * B + x) / 2 ^ d) mod B])). cbn [app] in HQ. rewrite <- app_assoc in HQ. apply HQ.
      * rewrite length_app. cbn. lia.
      * apply Forall_app. split; [done|]. constructor; [|done]. unfold is_digit. by apply Z.mod_pos_bound.
      * rewrite app_comm_cons, !val_snoc, Hval, Hz. by apply unshift_val.
Qed.

(** * A digit of the quotient *)

Lemma first_digit w v1 vs us :
  Forall is_digit (v1 :: vs) -> Forall is_digit us -> length us = S (length vs) -> val (w :: us) < val (v1 :: vs) * B -> w <= v1.
Proof.
  intros Hv Hu Hl Hlt. apply Forall_cons_iff in Hv as [_ Hv]. pose proof (val_range _ Hv) as Hrv. pose proof (val_range _ Hu) as Hru.
  rewrite !val_cons, Hl in *. rewrite Nat2Z.inj_succ, Z.pow_succ_r in * by lia.
  destruct (Z.le_gt_cases w v1) as [|Hgt]; [done|]. exfalso. assert (0 < B ^ Z.of_nat (length vs)) by (apply Z.pow_pos_nonneg; done || lia). 
  assert (0 < B) by done. nia.
Qed.

Lemma estimate_digit v1 v2 vs u0 u1 u2 us :
  Forall is_digit (v1 :: v2 :: vs) -> Forall is_digit (u0 :: u1 :: u2 :: us) -> length us = length vs -> B / 2 <= v1 ->
  val (u0 :: u1 :: u2 :: us) < val (v1 :: v2 :: vs) * B ->
  let q := val (u0 :: u1 :: u2 :: us) / val (v1 :: v2 :: vs) in
  is_digit (estimate v1 v2 u0 u1 u2) /\ q <= estimate v1 v2 u0 u1 u2 <= q + 1.
Proof.
  intros Hv Hu Hl Hv1 Hlt. pose proof (val_range _ Hu) as Hr0. assert (u0 <= v1) as Hu0.
  { apply (first_digit _ _ (v2 :: vs) (u1 :: u2 :: us)); [done|by apply Forall_cons_iff in Hu as [_ Hu]|cbn [length]; lia|done]. }
  apply Forall_cons_iff in Hv as [Hd1 [Hd2 Hvs]%Forall_cons_iff]. apply Forall_cons_iff in Hu as [Hw0 [Hw1 [Hw2 Hus]%Forall_cons_iff]%Forall_cons_iff].
  pose proof (val_range _ Hvs) as Hrv. pose proof (val_range _ Hus) as Hru. unfold is_digit in Hd1, Hw0. cbn [is_digit] in Hd2.
  assert (largest v1 v2 u0 u1 u2 (estimate v1 v2 u0 u1 u2)) as Hmax by (apply estimate_largest; [lia|done|lia|done|done]).
  split; [apply Hmax|]. pose proof (largest_digit v1 v2 u0 u1 u2 (estimate v1 v2 u0 u1 u2) (Z.of_nat (length vs)) (val us) (val vs) ltac:(lia) Hv1 ltac:(unfold is_digit in Hd2; lia)) as H.
  assert (val (u0 :: u1 :: u2 :: us) = (u0 * B * B + u1 * B + u2) * B ^ Z.of_nat (length vs) + val us) as E1.
  { rewrite !val_cons. cbn [length]. rewrite Hl, !Nat2Z.inj_succ, !Z.pow_succ_r by lia. lia. }
  assert (val (v1 :: v2 :: vs) = (v1 * B + v2) * B ^ Z.of_nat (length vs) + val vs) as E2.
  { rewrite !val_cons. cbn [length]. rewrite !Nat2Z.inj_succ, !Z.pow_succ_r by lia. lia. }
  cbv zeta. rewrite E1, E2 in *. apply H; [by rewrite <- Hl|done|lia|done].
Qed.

(** D5 and D6: [us] and the borrow [t] are left by the subtraction of [q] times
    the divisor from the dividend [R]. *)
Lemma wp_test_remainder u v n w us t q vs pre post pre' post' Q s (P := B ^ Z.of_nat n) (W := val vs) (R := q * W + (w - t) * P + val us) :
  uspace s = pre ++ (w :: us) ++ post -> vspace s = pre' ++ vs ++ post' -> length pre = u -> length pre' = S v ->
  length us = n -> length vs = n -> Forall is_digit (w :: us) -> Forall is_digit vs -> is_digit t -> is_digit q -> 0 < W -> 0 <= R -> R / W <= q <= R / W + 1 ->
  (forall us', length us' = n -> Forall is_digit us' -> val us' = R mod W -> Q (R / W) (set_uspace (pre ++ (0 :: us') ++ post) s)) ->
  wp (let! x := digit U u in
      let t := u64 (x - t) in
      do! set_digit U u (LHALF t);
      if HHALF t =? 0 then ret q
      else
        let! t := add_back u v n 0 in
        let! x := digit U u in
        do! set_digit U u (LHALF (u64 (x + t)));
        ret (u64 (q - 1))) Q s.
Proof.
  intros Hu Hv <- Hpre' Hus Hvs Hd Hdv Ht Hq HW HR Hest HQ. apply Forall_cons_iff in Hd as [Hw Hd]. cbn [app] in Hu.
  assert (R = q * W + (w - t) * P + val us) as ER by done. clearbody R.
  pose proof (Z.div_mod R W ltac:(lia)) as HRW. pose proof (Z.mod_pos_bound R W HW) as Hmod.
  wp_steps. apply (wp_digit U _ w); [cbn; by rewrite Hu, list_lookup_middle|]. wp_steps.
  apply (wp_set_digit U _ _ w); [cbn; by rewrite Hu, list_lookup_middle|]. cbn [space_of set_space set_uspace uspace vspace qspace].
  rewrite Hu, insert_app_r_alt, Nat.sub_diag by done. cbn [insert list_insert]. wp_steps.
  pose proof (val_range _ Hd) as Hr'. pose proof (val_range _ Hdv) as HWP. rewrite Hus in Hr'. rewrite Hvs in HWP. fold P in Hr', HWP. fold W in HWP.
  unfold is_digit in Hw, Ht, Hq. destruct (Z.le_gt_cases t w) as [Hle|Hgt].
  - assert (0 <= (w - t) * P) by nia. assert (q <= R / W) by (apply Z.div_le_lower_bound; lia). assert (q = R / W) as Eq by lia.
    assert (R mod W = (w - t) * P + val us) as Er by (rewrite <- Eq in HRW; lia). assert (w - t = 0) as E0 by nia.
    rewrite E0. change (HHALF (u64 0) =? 0) with true. change (LHALF (u64 0)) with 0. wp_steps. rewrite Eq. apply (HQ us); [done|done|lia].
  - assert ((w - t) * P <= - P) by nia. assert (R / W < q) by (apply Z.div_lt_upper_bound; lia). assert (q = R / W + 1) as Eq by lia. assert ((HHALF (u64 (w - t)) =? 0) = false) as ->.
    { apply Z.eqb_neq. rewrite HHALF_div. unfold u64. change (2 ^ 64) with (B * B). rewrite <- (Z.mod_unique_pos (w - t) (B * B) (-1) (w - t + B * B)) by nia.
      assert (1 <= (w - t + B * B) / B) by (apply Z.div_le_lower_bound; [done|nia]). lia. }
    wp_steps. eapply (wp_add_back n (length pre) v us vs (pre ++ [LHALF (u64 (w - t))]) post pre' post');
      [by rewrite <- app_assoc|done|rewrite length_app; cbn; lia|done|done|done|done|done|lia|].
    intros us2 c Hl2 Hd2 Hc Hval2. fold W P in Hval2. pose proof (val_range _ Hd2) as Hr2. rewrite Hl2 in Hr2. fold P in Hr2.
    assert (R mod W = (w - t + c) * P + val us2) as Er by (replace (R / W) with (q - 1) in HRW by lia; lia). assert (w - t + c = 0) as E0 by nia. assert (w - t = -1) as E1 by lia. assert (c = 1) as -> by lia.
    wp_steps. rewrite <- app_assoc. cbn [app]. apply (wp_digit U _ (LHALF (u64 (w - t)))); [cbn; by rewrite list_lookup_middle|]. wp_steps.
    eapply (wp_set_digit U); [cbn; by rewrite list_lookup_middle|]. cbn [space_of set_space set_uspace uspace vspace qspace].
    rewrite insert_app_r_alt, Nat.sub_diag by done. cbn [insert list_insert]. rewrite E1. change (LHALF (u64 (LHALF (u64 (-1)) + 1))) with 0. wp_steps.
    assert (0 <= R / W) by (apply Z.div_pos; lia). rewrite Eq, u64_id by (change (2 ^ 64) with (B * B); nia). replace (R / W + 1 - 1) with (R / W) by lia. apply (HQ us2); [done|done|lia].
Qed.

Lemma wp_quotient_digit u v n w us v1 v2 vs pre post pre' post' Q s :
  uspace s = pre ++ (w :: us) ++ post -> vspace s = pre' ++ (v1 :: v2 :: vs) ++ post' -> length pre = u -> length pre' = S v ->
  length us = n -> n = S (S (length vs)) -> Forall is_digit (w :: us) -> Forall is_digit (v1 :: v2 :: vs) -> B / 2 <= v1 ->
  let R := val (w :: us) in let W := val (v1 :: v2 :: vs) in
  R < W * B ->
  (forall us', length us' = n -> Forall is_digit us' -> val us' = R mod W -> Q (R / W) (set_uspace (pre ++ (0 :: us') ++ post) s)) ->
  wp (quotient_digit u v n v1 v2) Q s.
Proof.
  intros Hu Hv <- Hpre' Hus Hn Hd Hdv Hv1 R W Hlt HQ. destruct us as [|u1 [|u2 us]]; [cbn in *; lia..|]. cbn [length] in Hus.
  destruct (estimate_digit v1 v2 vs w u1 u2 us) as [Hq Hest]; [done|done|lia|done|done|]. pose proof (val_range _ Hd) as HR. cbv zeta in Hest. fold R W in Hest, HR. 
  pose proof Hd as [Hw Hdu]%Forall_cons_iff. unfold quotient_digit. cbn [app] in Hu. wp_steps.
  apply (wp_digit U _ w); [cbn; by rewrite Hu, list_lookup_middle|]. wp_steps.
  apply (wp_digit U _ u1); [cbn; by rewrite Hu, lookup_app_r, Nat.add_comm, Nat.add_sub by lia|]. wp_steps.
  apply (wp_digit U _ u2); [cbn; by rewrite Hu, lookup_app_r, Nat.add_comm, Nat.add_sub by lia|]. wp_steps. set (q := estimate v1 v2 w u1 u2) in *.
  assert (0 < W) as HW. { unfold W. rewrite val_cons. change (B / 2) with (2 ^ 31) in Hv1. apply Forall_cons_iff in Hdv as [_ Hdv].
    pose proof (val_range _ Hdv). assert (0 < B ^ Z.of_nat (length (v2 :: vs))) by (apply Z.pow_pos_nonneg; done || lia). nia. }
  eapply (wp_mul_sub q Hq n (length pre) v (u1 :: u2 :: us) (v1 :: v2 :: vs) (pre ++ [w]) post pre' post');
    [by rewrite Hu, <- app_assoc|done|rewrite length_app; cbn; lia|done|done|done|done|done|done|].
  intros us' t Hl' Hd' Ht Hval. rewrite <- app_assoc. cbn [app].
  assert (R = q * W + (w - t) * B ^ Z.of_nat n + val us') as ER.
  { fold W in Hval. unfold R. rewrite val_cons. cbn [length]. rewrite Hus. lia. }
  eapply (wp_test_remainder _ v n w us' t q (v1 :: v2 :: vs) pre post pre' post'); fold W; rewrite <- ?ER;
    [done|done|done|done|done|done|by constructor|done|done|done|done|lia|done|exact HQ].
Qed.

(** * The normalised divisor *)

Lemma normal_shift_spec fuel t d : 0 < t < B -> B / 2 <= t * 2 ^ Z.of_nat fuel ->
  exists k, normal_shift fuel t d = d + k /\ 0 <= k <= Z.of_nat fuel /\ B / 2 <= t * 2 ^ k < B.
Proof.
  revert t d. induction fuel as [|fuel IH]; intros t d Ht Hf; cbn [normal_shift].
  - change (2 ^ Z.of_nat 0) with 1 in Hf. rewrite (proj2 (Z.ltb_ge t (B / 2))) by lia. exists 0. change (2 ^ 0) with 1. lia.
  - destruct (Z.ltb_spec t (B / 2)) as [Hlt|Hge].
    + rewrite Z.shiftl_mul_pow2 by lia. change (2 ^ 1) with 2. assert (t * 2 < B) by (change (B / 2) with (2 ^ 31) in Hlt; change B with (2 ^ 32); lia).
      rewrite u64_id by (change B with (2 ^ 32) in *; lia). rewrite Nat2Z.inj_succ, Z.pow_succ_r in Hf by lia.
      destruct (IH (t * 2) (d + 1)) as (k & -> & Hk & Hb); [lia|lia|]. exists (k + 1). rewrite Z.pow_add_r by lia. change (2 ^ 1) with 2. lia.
    + exists 0. change (2 ^ 0) with 1. lia.
Qed.

Lemma leading_digit c x r y t K : 0 < K -> 0 <= r < K -> 0 <= t -> c <= y -> x * K + r = y * K + t -> c <= x.
Proof. intros HK Hr Ht Hc E. assert (c * K <= y * K) by (apply Z.mul_le_mono_nonneg_r; lia). assert (c * K < (x + 1) * K) by lia. nia. Qed.

Lemma shifted_fits v y K d : 0 < K -> 0 <= d <= 32 -> 0 <= v -> v * 2 ^ d < B -> 0 <= y < K -> 0 <= (v * K + y) * 2 ^ d < B * K.
Proof.
  intros HK Hd Hv Hlt Hy. assert (2 ^ (32 - d) * 2 ^ d = B) as HB by (rewrite <- Z.pow_add_r by lia; unfold B, HALF_BITS; f_equal; lia).
  assert (0 < 2 ^ d) by (apply Z.pow_pos_nonneg; lia). assert (v < 2 ^ (32 - d)) by (apply (Z.mul_lt_mono_pos_r (2 ^ d)); lia).
  assert ((v + 1) * 2 ^ d <= B) by (rewrite <- HB; apply Z.mul_le_mono_nonneg_r; lia). clear HB. nia.
Qed.

Lemma wp_normalise n us v1 vs pre pre' d Q s :
  uspace s = pre ++ (0 :: us) -> vspace s = pre' ++ (v1 :: vs) -> length us = n -> length vs = (n - 1)%nat -> (1 <= n)%nat ->
  Forall is_digit us -> Forall is_digit (v1 :: vs) -> 0 <= d < 32 -> B / 2 <= v1 * 2 ^ d < B ->
  (forall w us' v1' vs', length us' = n -> length vs' = (n - 1)%nat -> Forall is_digit (w :: us') -> Forall is_digit (v1' :: vs') ->
     val (w :: us') = val us * 2 ^ d -> val (v1' :: vs') = val (v1 :: vs) * 2 ^ d -> B / 2 <= v1' ->
     Q tt (Digits (pre ++ (w :: us')) (pre' ++ (v1' :: vs')) (qspace s))) ->
  wp (if d >? 0 then
        do! shl U (length pre) n d;
        shl V (length pre') (n - 1) d
      else ret tt) Q s.
Proof.
  intros Hu Hv Hus Hvs Hn Hdu Hdv Hd Hv1 HQ. rewrite Z.gtb_ltb. destruct (Z.ltb_spec 0 d).
  - assert (0 < B ^ Z.of_nat (n - 1)) as HP by (apply Z.pow_pos_nonneg; done || lia). assert (0 < B ^ Z.of_nat n) as HP' by (apply Z.pow_pos_nonneg; done || lia).
    assert (B ^ Z.of_nat n = B * B ^ Z.of_nat (n - 1)) as EP by (rewrite <- Z.pow_succ_r by lia; f_equal; lia).
    pose proof (val_range _ Hdu) as Hru. rewrite Hus in Hru. pose proof Hdv as [Hdv1 Hdvs]%Forall_cons_iff. pose proof (val_range _ Hdvs) as Hrvs. rewrite Hvs in Hrvs.
    pose proof (shifted_fits 0 (val us) (B ^ Z.of_nat n) d HP' ltac:(lia) ltac:(done) ltac:(done) Hru) as HX. rewrite Z.mul_0_l, Z.add_0_l in HX.
    pose proof (shifted_fits v1 (val vs) _ d HP ltac:(lia) (proj1 Hdv1) (proj2 Hv1) Hrvs) as HV. replace (v1 * B ^ Z.of_nat (n - 1)) with (v1 * B ^ Z.of_nat (length vs)) in HV by (by rewrite Hvs).
    rewrite <- val_cons, <- EP in HV.
    wp_steps. apply (wp_shl_loop U _ d (0 :: us) pre []); [lia|by rewrite app_nil_r|done|cbn; lia|by constructor|].
    intros l' Hl' Hd' Hval. destruct l' as [|w us']; [done|]. rewrite app_nil_r.
    apply (wp_shl_loop V _ d (v1 :: vs) pre' []); [lia|by rewrite app_nil_r|done|cbn; lia|done|].
    intros l2 Hl2 Hd2 Hval2. destruct l2 as [|v1' vs']; [done|]. rewrite app_nil_r. injection Hl' as Hl'. injection Hl2 as Hl2.
    replace (S (n - 1)) with n in Hval2 by (clear -Hn; lia). rewrite Z.mod_small in Hval2 by exact HV.
    rewrite (val_cons 0), Z.mul_0_l, Z.add_0_l, Nat2Z.inj_succ, Z.pow_succ_r, Z.mod_small in Hval by (exact HX || apply Nat2Z.is_nonneg).
    apply HQ; [done|done|done|done|done|done|].
    apply Forall_cons_iff in Hd2 as [Hd2 Hd3]. pose proof (val_range _ Hd3) as Hr3. rewrite !val_cons, Hl2, Hvs in *.
    apply (leading_digit (B / 2) v1' (val vs') (v1 * 2 ^ d) (val vs * 2 ^ d) (B ^ Z.of_nat (n - 1))); [done|done| |apply Hv1|rewrite Hval2; ring].
    apply Z.mul_nonneg_nonneg; [apply Hrvs|apply Z.pow_nonneg; done].
  - assert (d = 0) as -> by lia. change (2 ^ 0) with 1 in *. wp_steps. destruct s as [us0 vs0 qs0]. cbn [uspace vspace qspace] in *. subst us0 vs0.
    apply HQ; [done|done|by constructor|done| |lia|lia]. rewrite val_cons. lia.
Qed.

Lemma last_two l n : length l = S (S n) -> Forall is_digit l ->
  exists a b, l !! n = Some a /\ l !! S n = Some b /\ is_digit a /\ is_digit b /\ u64 (val l) = COMBINE a b.
Proof.
  intros Hl Hd. destruct l as [|b l _] using rev_ind; [done|]. destruct l as [|a l _] using rev_ind; [done|]. rewrite !length_app in Hl. cbn [length] in Hl.
  apply Forall_app in Hd as [Hd [Hb _]%Forall_cons_iff]. apply Forall_app in Hd as [Hd [Ha _]%Forall_cons_iff]. exists a, b. split_and!; [..|done|done|].
  - rewrite <- app_assoc. cbn [app]. replace n with (length l) by lia. by rewrite list_lookup_middle.
  - rewrite list_lookup_middle by (rewrite length_app; cbn; lia). done.
  - rewrite COMBINE_eq, !val_snoc by done. unfold u64. change (2 ^ 64) with (B * B). symmetry. apply (Z.mod_unique_pos _ _ (val l)); [|lia].
    unfold is_digit in Ha, Hb. nia.
Qed.

(** * Division *)

(** The quotient has one digit. *)
Lemma wp_division_digit n us v1 v2 vs pre pre' w q0 q1 q2 q3 q4 Q s :
  s = Digits (pre ++ (w :: us)) (pre' ++ (v1 :: v2 :: vs)) [q0; q1; q2; q3; q4] -> length pre' = S (length pre) ->
  length us = n -> n = S (S (length vs)) -> Forall is_digit (w :: us) -> Forall is_digit (v1 :: v2 :: vs) -> B / 2 <= v1 ->
  let R := val (w :: us) in let W := val (v1 :: v2 :: vs) in
  R < W * B ->
  (forall us', length us' = n -> Forall is_digit us' -> val us' = R mod W ->
     Q tt (Digits (pre ++ (0 :: us')) (pre' ++ (v1 :: v2 :: vs)) [q0; q1; q2; q3; R / W])) ->
  wp (division_loop (length pre) (length pre) 4 n v1 v2 0 0) Q s.
Proof.
  intros -> Hpre' Hus Hn Hd Hdv Hv1 R W Hlt HQ. cbn [division_loop]. wp_steps. rewrite Nat.add_0_r.
  apply (wp_quotient_digit _ _ n w us v1 v2 vs pre [] pre' []); [by rewrite app_nil_r|by rewrite app_nil_r|done|done|done|done|done|done|done|done|].
  intros us' Hl' Hd' Hval. rewrite app_nil_r. wp_steps. eapply (wp_set_digit Quad.Q); [done|]. cbn. wp_steps. by apply HQ.
Qed.

(** The remainder of the divided number. *)
Lemma wp_remainder n us pre vs qs (arq : bool) d r (Q : option Z -> digits -> Prop) :
  length us = S (S n) -> length pre = (2 - n)%nat -> (n <= 2)%nat -> Forall is_digit us -> 0 <= d < 32 -> val us = r * 2 ^ d -> 0 <= r ->
  (forall s, qspace s = qs -> Q (if arq then Some (u64 r) else None) s) ->
  wp (if arq then
        do! (if negb (d =? 0) then unshift (length pre) d 0 (S (S n)) else ret tt);
        let! u3 := digit U 3 in
        let! u4 := digit U 4 in
        ret (Some (COMBINE u3 u4))
      else ret None) Q (Digits (pre ++ (0 :: us)) vs qs).
Proof.
  intros Hus Hpre Hn Hd Hdd Hval Hr HQ. destruct arq; [|wp_steps; by apply HQ].
  assert (forall us', length us' = S (S n) -> Forall is_digit us' -> val us' = r ->
    wp (let! u3 := digit U 3 in let! u4 := digit U 4 in ret (Some (COMBINE u3 u4))) Q (Digits (pre ++ (0 :: us')) vs qs)) as Hlast.
  { intros us' Hl' Hd' Hv'. destruct (last_two us' n Hl' Hd') as (a & b & Ha & Hb & Hda & Hdb & E). rewrite Hv' in E.
    assert (forall k y, us' !! k = Some y -> (k = n \/ k = S n) -> (pre ++ (0 :: us')) !! (3 - n + k)%nat = Some y) as Hlk.
    { intros k y Hk Hkn. rewrite lookup_app_r by lia. replace (3 - n + k - length pre)%nat with (S k) by lia. done. }
    wp_steps. apply (wp_digit U _ a); [cbn; replace 3%nat with (3 - n + n)%nat by lia; apply Hlk; [done|by left]|]. wp_steps.
    apply (wp_digit U _ b); [cbn; replace 4%nat with (3 - n + S n)%nat by lia; apply Hlk; [done|by right]|]. wp_steps. rewrite <- E. by apply HQ. }
  wp_steps. destruct (Z.eqb_spec d 0) as [->|Hd0]; cbn [negb].
  - apply wp_ret. apply Hlast; [done|done|]. change (2 ^ 0) with 1 in Hval. lia.
  - assert (0 < 2 ^ d) by (apply Z.pow_pos_nonneg; lia).
    apply (wp_unshift _ d 0 (S (S n)) ltac:(lia) 0 us pre []); [by rewrite app_nil_r|lia|done|constructor; done|lia|].
    intros ws' Hl' Hd' Hv'. rewrite app_nil_r. apply (Hlast ws'); [done|done|]. rewrite Hv', val_cons, Hval, Z.mul_0_l, Z.add_0_l. apply Z.div_mul. lia.
Qed.

Lemma wp_clear a b q0 q1 q2 q3 q4 (Q : unit -> digits -> Prop) :
  Q tt (Digits a b [0; 0; 0; 0; q4]) -> wp (for_each (seq 0 4) (fun i => set_digit Quad.Q i 0)) Q (Digits a b [q0; q1; q2; q3; q4]).
Proof. done. Qed.

Lemma wp_long_division k us v1 v2 vs pre pre' qs (arq : bool) (Q : Z * option Z -> digits -> Prop) :
  (k <= 2)%nat -> length pre = (2 - k)%nat -> length pre' = (3 - k)%nat -> length us = S (S k) -> length vs = k -> length qs = 5%nat ->
  Forall is_digit us -> Forall is_digit (v1 :: v2 :: vs) -> v1 <> 0 -> let s := Digits (pre ++ (0 :: us)) (pre' ++ (v1 :: v2 :: vs)) qs in
  count_u 4 (4 - Z.of_nat (S (S k))) 0 s = Done (0, length pre) s ->
  let X := val us in let W := val (v1 :: v2 :: vs) in
  (forall s, Q (u64 (X / W), if arq then Some (u64 (X mod W)) else None) s) ->
  wp (long_division (S (S k)) (length pre) arq) Q s.
Proof.
  intros Hk Hpre Hpre' Hus Hvs Hqs Hdu Hdv Hv1 s Hcount X W HQ. destruct qs as [|q0 [|q1 [|q2 [|q3 [|q4 [|]]]]]]; try done.
  pose proof (val_range _ Hdu) as HX. rewrite Hus in HX. pose proof Hdv as [Hdv1 Hdvs]%Forall_cons_iff. pose proof (val_range _ Hdvs) as Hrvs. unfold is_digit in Hdv1.
  set (P := B ^ Z.of_nat (S k)) in *. assert (0 < P) as HP by (apply Z.pow_pos_nonneg; done || lia).
  assert (W = v1 * P + val (v2 :: vs)) as EW by (unfold W; rewrite val_cons; cbn [length]; by rewrite Hvs).
  assert (B ^ Z.of_nat (S (S k)) = B * P) as EP by (unfold P; rewrite <- Z.pow_succ_r by lia; f_equal; lia). rewrite EP in HX.
  assert (0 < W /\ X < W * B) as [HW Hlt] by (unfold X; nia).
  destruct (normal_shift_spec 32 v1 0) as (d & Ed & Hd & Hnorm); [lia|change (2 ^ Z.of_nat 32) with B; change (B / 2) with (2 ^ 31); change B with (2 ^ 32); lia|].
  assert (0 < 2 ^ d) as Hp by (apply Z.pow_pos_nonneg; lia). assert (d < 32) as Hd32.
  { destruct (Z.eq_dec d 32) as [->|]; [|lia]. change (2 ^ 32) with B in Hnorm. nia. }
  unfold long_division. wp_steps. unfold wp at 1. rewrite Hcount. cbn [fst snd]. change (Z.to_nat (4 - 0)) with 4%nat. change (Z.to_nat 0) with 0%nat.
  wp_steps. apply wp_clear. wp_steps.
  assert (forall x y ys, (pre' ++ x :: y :: ys) !! (length pre') = Some x /\ (pre' ++ x :: y :: ys) !! (length pre + 2)%nat = Some y) as Hlk.
  { intros x y ys. split; [by rewrite list_lookup_middle|]. rewrite lookup_app_r by lia. replace (length pre + 2 - length pre')%nat with 1%nat by lia. done. }
  assert ((length pre + 1)%nat = length pre') as Epre by lia. rewrite !Epre. apply (wp_digit V _ v1); [apply Hlk|]. wp_steps. rewrite Ed, Z.add_0_l. change (0 + S (S k))%nat with (S (S k)).
  apply (wp_normalise (S (S k)) us v1 (v2 :: vs) pre pre' d); [done|done|done|cbn [length]; lia|lia|done|done|lia|done|].
  intros w us' v1' vs' Hl' Hlv' Hdu' Hdv' EX' EW' Hv1'. destruct vs' as [|v2' vs']; [cbn in Hlv'; lia|]. cbn [length] in Hlv'. cbn [qspace].
  wp_steps. apply (wp_digit V _ v1'); [apply Hlk|]. wp_steps. apply (wp_digit V _ v2'); [apply Hlk|]. wp_steps.
  fold X in EX'. fold W in EW'. eapply (wp_division_digit (S (S k)) us' v1' v2' vs'); [done|lia|done|lia|done|done|done|rewrite EX', EW'; nia|].
  intros us2 Hl2 Hd2 Hval2. rewrite EX', EW' in Hval2 |- *. rewrite Z.mul_mod_distr_r in Hval2 by lia. rewrite Z.div_mul_cancel_r by lia.
  wp_steps. eapply (wp_remainder k us2 pre _ _ arq d (X mod W)); [done|done|done|done|lia|done|apply Z.mod_pos_bound; lia|].
  intros s' Hq. wp_steps. eapply (wp_digit Quad.Q); [cbn; by rewrite Hq|]. wp_steps. eapply (wp_digit Quad.Q); [cbn; by rewrite Hq|]. wp_steps.
  assert (is_digit (X / W)) as Hdq by (split; [apply Z.div_pos; lia|apply Z.div_lt_upper_bound; lia]).
  assert (COMBINE 0 (X / W) = u64 (X / W)) as E; [|unfold W in E; rewrite E; apply HQ].
  rewrite COMBINE_eq by done. unfold is_digit in Hdq. rewrite u64_id by (change B with (2 ^ 32) in Hdq; lia). lia.
Qed.

Lemma half_digits x : 0 <= x < 2 ^ 64 -> is_digit (HHALF x) /\ is_digit (LHALF x) /\ HHALF x * B + LHALF x = x.
Proof.
  intros Hx. rewrite HHALF_div, LHALF_mod. pose proof (Z.div_mod x B ltac:(done)). pose proof (Z.mod_pos_bound x B ltac:(done)). unfold is_digit.
  split_and!; [apply Z.div_pos; [lia|done]|apply Z.div_lt_upper_bound; [done|change (B * B) with (2 ^ 64); lia]|lia|lia|lia].
Qed.

Lemma wp_short_division u3 u4 t a b c d qs (arq : bool) (Q : Z * option Z -> digits -> Prop) :
  is_digit u3 -> is_digit u4 -> 0 < t < B -> let s := Digits [0; 0; 0; u3; u4] [a; b; c; d; t] qs in
  Q ((u3 * B + u4) / t, if arq then Some ((u3 * B + u4) mod t) else None) s -> wp (short_division 0 2 arq) Q s.
Proof.
  intros Hu3 Hu4 Ht s HQ. unfold short_division. wp_steps. do 5 (eapply wp_digit; [done|]; wp_steps).
  rewrite Z.mod_0_l by lia. change (COMBINE 0 0) with 0. rewrite (COMBINE_eq 0 u3) by done. rewrite Z.mul_0_l, Z.add_0_l.
  pose proof (Z.div_mod u3 t ltac:(lia)) as E3. pose proof (Z.mod_pos_bound u3 t ltac:(lia)) as R3. unfold is_digit in Hu3, Hu4.
  rewrite (COMBINE_eq (u3 mod t) u4) by (unfold is_digit; lia). set (r := u3 mod t * B + u4).
  pose proof (Z.div_mod r t ltac:(lia)) as E4. pose proof (Z.mod_pos_bound r t ltac:(lia)) as R4.
  assert (u3 * B + u4 = u3 / t * B * t + r) as E by (unfold r; nia). rewrite E, Z.div_add_l, (Z.add_comm _ r), Z.mod_add in HQ by lia.
  rewrite COMBINE_eq; [done|split; [apply Z.div_pos; lia|apply Z.div_lt_upper_bound; nia]|].
  split; [apply Z.div_pos; unfold r; nia|apply Z.div_lt_upper_bound; unfold r; nia].
Qed.

Lemma count_v_run us g a b c d qs (s := Digits us [g; a; b; c; d] qs) :
  count_v 4 0 s = Done (if a =? 0 then if b =? 0 then if c =? 0 then (None, 2%nat) else (Some 2%nat, 2%nat) else (Some 3%nat, 1%nat) else (Some 4%nat, 0%nat)) s.
Proof. unfold s. cbv -[Z.eqb]. destruct (a =? 0); [|done]. cbv -[Z.eqb]. destruct (b =? 0); [|done]. cbv -[Z.eqb]. by destruct (c =? 0). Qed.

Lemma count_u_run a b c d vs qs n (s := Digits [0; a; b; c; d] vs qs) :
  (n = 4 /\ a <> 0) \/ (n = 3 /\ a = 0 /\ b <> 0) \/ (n = 2 /\ a = 0 /\ b = 0 /\ c <> 0) -> count_u 4 (4 - n) 0 s = Done (0, Z.to_nat (4 - n)) s.
Proof.
  intros [[-> Ha]|[(-> & -> & Hb)|(-> & -> & -> & Hc)]]; unfold s.
  - apply Z.eqb_neq in Ha. cbv -[Z.eqb]. by rewrite Ha.
  - apply Z.eqb_neq in Hb. cbv -[Z.eqb]. change (0 =? 0) with true. cbv -[Z.eqb]. by rewrite Hb.
  - apply Z.eqb_neq in Hc. cbv -[Z.eqb]. do 2 (change (0 =? 0) with true; cbv -[Z.eqb]). by rewrite Hc.
Qed.

Ltac digits_ok := repeat (apply Forall_cons_2; [done|]); apply Forall_nil_2.

(** The division of the 128-bit numbers with upper word [h]. *)
Lemma qdivrem_words {St} h g uq vq arq (s : St) :
  0 <= h < 2 ^ 64 -> 0 <= uq < 2 ^ 64 -> 0 < vq < 2 ^ 64 -> let X := h * 2 ^ 64 + uq in let W := h * 2 ^ 64 + vq in
  __qdivrem h g uq vq arq s = Done (u64 (X / W), if arq then Some (u64 (X mod W)) else None) s.
Proof.
  intros Hh Hu Hv X W. unfold __qdivrem. rewrite (proj2 (Z.eqb_neq vq 0)) by lia. destruct (Z.ltb_spec uq vq) as [Hlt|Hge].
  { rewrite Z.div_small, Z.mod_small by (unfold X, W; lia). unfold X, ret. assert (u64 (h * 2 ^ 64 + uq) = uq) as ->; [|done]. unfold u64. rewrite Z.add_comm, Z.mod_add, Z.mod_small by lia. done. }
  destruct (half_digits h Hh) as (H1 & H2 & EH). destruct (half_digits uq ltac:(lia)) as (U3 & U4 & EU). destruct (half_digits vq ltac:(lia)) as (V3 & V4 & EV).
  match goal with |- match ?m ?s0 with _ => _ end = Done ?r _ => assert (wp m (fun a _ => a = r) s0) as Hwp end.
  2: { unfold wp in Hwp. by destruct (_ : outcome digits _) as [a s'|]; [subst a|]. }
  assert (forall x, val [HHALF h; LHALF h; HHALF x; LHALF x] = h * 2 ^ 64 + (HHALF x * B + LHALF x)) as Hval by (intros x; rewrite <- EH at 3; cbn; change (2 ^ 64) with (B * B); lia).
  unfold split_digits. apply wp_bind. unfold wp at 1. rewrite count_v_run. assert (length (replicate 5 g) = 5%nat) as Hq by done.
  assert (X = val [HHALF h; LHALF h; HHALF uq; LHALF uq] /\ W = val [HHALF h; LHALF h; HHALF vq; LHALF vq]) as [EX EW] by (rewrite !Hval, EU, EV; done).
  destruct (Z.eqb_spec (HHALF h) 0) as [E1|N1]; [destruct (Z.eqb_spec (LHALF h) 0) as [E2|N2]; [destruct (Z.eqb_spec (HHALF vq) 0) as [E3|N3]|]|]; cbn [fst snd].
  - assert (h = 0) as -> by lia. unfold is_digit in V4. apply wp_short_division; [done|done|lia|]. unfold X, W. assert (LHALF vq = vq) as Evq by lia.
    rewrite Z.mul_0_l, !Z.add_0_l, EU, Evq in *.
    rewrite !u64_id; [done|split; [apply Z.mod_pos_bound; lia|]|split; [apply Z.div_pos; lia|apply Z.div_lt_upper_bound; nia]].
    pose proof (Z.mod_pos_bound uq vq). lia.
  - rewrite E1, E2 in *. eapply (wp_long_division 0 [HHALF uq; LHALF uq] (HHALF vq) (LHALF vq) [] [0; 0] [g; 0; 0]); try done; [lia|digits_ok|digits_ok| |by rewrite EX, EW].
    apply (count_u_run _ _ _ _ _ _ 2). right. right. split_and!; [done..|]. unfold is_digit in *. intros E. rewrite E in EU. nia.
  - rewrite E1 in *. eapply (wp_long_division 1 [LHALF h; HHALF uq; LHALF uq] (LHALF h) (HHALF vq) [LHALF vq] [0] [g; 0]); try done; [lia|digits_ok|digits_ok| |by rewrite EX, EW].
    apply (count_u_run _ _ _ _ _ _ 3). right. left. done.
  - eapply (wp_long_division 2 [HHALF h; LHALF h; HHALF uq; LHALF uq] (HHALF h) (LHALF h) [HHALF vq; LHALF vq] [] [g]); try done; [digits_ok|digits_ok| |by rewrite EX, EW].
    apply (count_u_run _ _ _ _ _ _ 4). left. done.
Qed.

(** * The library functions *)

Lemma magnitude a : - 2 ^ 63 <= a < 2 ^ 63 -> (if a <? 0 then u64 (- u64 a) else a) = Z.abs a.
Proof.
  intros Ha. destruct (Z.ltb_spec a 0); [|lia]. unfold u64. rewrite <- (Z.mod_unique_pos a (2 ^ 64) (-1) (a + 2 ^ 64)) by lia.
  rewrite <- (Z.mod_unique_pos (- (a + 2 ^ 64)) (2 ^ 64) (-1) (- a)) by lia. lia.
Qed.

Lemma quot_sign a b : b <> 0 -> Z.quot a b = if xorb (a <? 0) (b <? 0) then - (Z.abs a / Z.abs b) else Z.abs a / Z.abs b.
Proof.
  intros Hb. rewrite Z.quot_div by done. destruct (Z.eq_dec a 0) as [->|]; [cbn; destruct (b <? 0); by rewrite Z.div_0_l by lia|].
  destruct (Z.ltb_spec a 0), (Z.ltb_spec b 0); cbn [xorb]; rewrite ?(Z.sgn_neg a), ?(Z.sgn_neg b), ?(Z.sgn_pos a), ?(Z.sgn_pos b) by lia; lia.
Qed.

(** The signed quotient, with the upper word of the union cleared. *)
Lemma divdi3_quot {St} g a b (s : St) :
  0 <= a < 2 ^ 64 -> 0 < b < 2 ^ 64 -> __divdi3 0 g (s64 a) (s64 b) s = Done (s64 (Z.quot (s64 a) (s64 b))) s.
Proof.
  intros Ha Hb. pose proof (s64_range a). pose proof (s64_range b). assert (s64 b <> 0) as Hb0.
  { unfold s64. intros E. assert ((b + 2 ^ 63) mod 2 ^ 64 = 2 ^ 63) as Em by lia. pose proof (Z.div_mod (b + 2 ^ 63) (2 ^ 64) ltac:(lia)). lia. }
  unfold __divdi3, bind. rewrite !magnitude, qdivrem_words by lia. cbn [fst]. rewrite !Z.mul_0_l, !Z.add_0_l, quot_sign by done. unfold ret. f_equal.
  rewrite (u64_id (Z.abs (s64 a) / Z.abs (s64 b))); [by destruct (xorb _ _); rewrite ?s64_u64|].
  split; [apply Z.div_pos; lia|]. apply Z.div_lt_upper_bound; nia.
Qed.

(** C24: the division functions of the C library, whatever the upper word [h] of
    the union and the arrays hold at the start: a divisor 0 traps; otherwise
    [__udivdi3] and [__umoddi3] return the lower 64 bits of the quotient and of
    the remainder of the 128-bit numbers with upper word [h].  When the upper
    word is cleared these are the quotient and the remainder of the arguments,
    and [__divdi3] returns the quotient of the signed numbers with the same bits,
    rounded towards zero and reduced to 64 bits.  No access is outside the
    arrays. *)
Theorem division_correct {St} h g a b (s : St) :
  0 <= h < 2 ^ 64 -> 0 <= a < 2 ^ 64 -> 0 <= b < 2 ^ 64 ->
  if b =? 0 then
    __udivdi3 h g a b s = Failed Fault /\ __umoddi3 h g a b s = Failed Fault /\ __divdi3 h g (s64 a) (s64 b) s = Failed Fault
  else
    __udivdi3 h g a b s = Done (u64 ((h * 2 ^ 64 + a) / (h * 2 ^ 64 + b))) s
    /\ __umoddi3 h g a b s = Done (u64 ((h * 2 ^ 64 + a) mod (h * 2 ^ 64 + b))) s
    /\ (h = 0 -> __udivdi3 h g a b s = Done (a / b) s /\ __umoddi3 h g a b s = Done (a mod b) s
                 /\ __divdi3 h g (s64 a) (s64 b) s = Done (s64 (Z.quot (s64 a) (s64 b))) s).
Proof.
  intros Hh Ha Hb. destruct (Z.eqb_spec b 0) as [->|Hb0].
  { unfold __udivdi3, __umoddi3, __divdi3, bind, __qdivrem. done. }
  pose proof (fun arq => qdivrem_words (St := St) h g a b arq s Hh Ha ltac:(lia)) as Hq. cbv zeta in Hq.
  assert (Hd : __udivdi3 h g a b s = Done (u64 ((h * 2 ^ 64 + a) / (h * 2 ^ 64 + b))) s) by (unfold __udivdi3, bind; by rewrite Hq).
  assert (Hm : __umoddi3 h g a b s = Done (u64 ((h * 2 ^ 64 + a) mod (h * 2 ^ 64 + b))) s) by (unfold __umoddi3, bind; by rewrite Hq).
  split; [exact Hd|]. split; [exact Hm|]. intros ->. rewrite Hd, Hm, !Z.mul_0_l, !Z.add_0_l.
  rewrite !u64_id by (pose proof (Z.mod_pos_bound a b); pose proof (Z.div_le_upper_bound a b a); pose proof (Z.div_pos a b); nia).
  split; [done|]. split; [done|]. apply divdi3_quot; lia.
Qed.

Lemma division_correct_witness :
  __udivdi3 0 7 (2 ^ 64 - 1) (2 ^ 40 + 3) tt = Done ((2 ^ 64 - 1) / (2 ^ 40 + 3)) tt
  /\ __udivdi3 1 7 100 7 tt = Done 1 tt /\ __umoddi3 0 7 100 0 tt = Failed Fault.
Proof.
  split; [|split].
  - apply (division_correct 0 7 (2 ^ 64 - 1) (2 ^ 40 + 3) tt); lia.
  - apply (division_correct 1 7 100 7 tt); lia.
  - apply (division_correct 0 7 100 0 tt); lia.
Defined.
