(* ===== verification/Ed.v ===== *)
(** The line editor of user/bin/ed.c.

    The global variables are the fields of [ed], grouped by what they are for.
    A pointer into one of the character arrays is an index, an access outside
    the array is [Fault]; [char] is signed.  The array of lines that starts at
    [zero] is [core]: a pointer to a line is the index from [zero], the null
    pointer is [None].  [errfunc] returns to its caller: the call of [reset]
    that ended the command is commented out in the source.

    The input of descriptor 0 is a list of bytes, what is written to
    descriptor 1 is collected in [out], and the files that are read and written
    are the environment [EdFiles].  Signals, [fork] and [execve] are left out,
    and so is the store to [*corep] in [append], which goes to the eight bytes
    below the array of lines. *)

From S2P Require Import Prelude.

Definition FNSIZE : Z := 64.
Definition LBSIZE : Z := 512.
Definition ESIZE : Z := 128.
Definition GBSIZE : Z := 256.
Definition NBRA : Z := 5.
Definition CBRA : Z := 1.
Definition CCHR : Z := 2.
Definition CDOT : Z := 4.
Definition CCL : Z := 6.
Definition NCCL : Z := 8.
Definition CDOL : Z := 10.
Definition CEOF : Z := 11.
Definition CKET : Z := 12.
Definition STAR : Z := 1.
Definition EOF : Z := -1.

Class EdFiles : Type := {
  file_bytes : list Z -> option (list Z);     (* [open] for reading *)
  may_create : list Z -> bool;                (* [open] for writing *)
  may_grow : bool;                            (* [sbrk] *)
}.

Record chars : Type := Chars { peekc : Z; lastc : Z; globp : option (list Z); input : list Z }.
Definition set_peekc (x : Z) (s : chars) : chars := Chars x (lastc s) (globp s) (input s).
Definition set_lastc (x : Z) (s : chars) : chars := Chars (peekc s) x (globp s) (input s).
Definition set_globp (x : option (list Z)) (s : chars) : chars := Chars (peekc s) (lastc s) x (input s).
Definition set_input (x : list Z) (s : chars) : chars := Chars (peekc s) (lastc s) (globp s) x.

Record screen : Type := Screen { out : list Z; linp : list Z; listf : Z; col : Z }.
Definition set_out (x : list Z) (s : screen) : screen := Screen x (linp s) (listf s) (col s).
Definition set_linp (x : list Z) (s : screen) : screen := Screen (out s) x (listf s) (col s).
Definition set_listf (x : Z) (s : screen) : screen := Screen (out s) (linp s) x (col s).
Definition set_col (x : Z) (s : screen) : screen := Screen (out s) (linp s) (listf s) x.

Record text : Type := Text { core : list Z; dot : Z; dol : Z; names : list Z }.
Definition set_core (x : list Z) (s : text) : text := Text x (dot s) (dol s) (names s).
Definition set_dot (x : Z) (s : text) : text := Text (core s) x (dol s) (names s).
Definition set_dol (x : Z) (s : text) : text := Text (core s) (dot s) x (names s).
Definition set_names (x : list Z) (s : text) : text := Text (core s) (dot s) (dol s) x.

Record matched : Type := Matched { circfl : Z; loc1 : Z; loc2 : Z; locs : option Z; linebp : option Z; braslist : list Z; braelist : list Z }.
Definition set_circfl (x : Z) (s : matched) : matched := Matched x (loc1 s) (loc2 s) (locs s) (linebp s) (braslist s) (braelist s).
Definition set_loc1 (x : Z) (s : matched) : matched := Matched (circfl s) x (loc2 s) (locs s) (linebp s) (braslist s) (braelist s).
Definition set_loc2 (x : Z) (s : matched) : matched := Matched (circfl s) (loc1 s) x (locs s) (linebp s) (braslist s) (braelist s).
Definition set_locs (x : option Z) (s : matched) : matched := Matched (circfl s) (loc1 s) (loc2 s) x (linebp s) (braslist s) (braelist s).
Definition set_linebp (x : option Z) (s : matched) : matched := Matched (circfl s) (loc1 s) (loc2 s) (locs s) x (braslist s) (braelist s).
Definition set_braslist (x : list Z) (s : matched) : matched := Matched (circfl s) (loc1 s) (loc2 s) (locs s) (linebp s) x (braelist s).
Definition set_braelist (x : list Z) (s : matched) : matched := Matched (circfl s) (loc1 s) (loc2 s) (locs s) (linebp s) (braslist s) x.

Record tmpfile : Type := Tmpfile { tmp : list Z; tline : Z; iblock : Z; oblock : Z; ichanged : Z; nleft : Z }.
Definition set_tmp (x : list Z) (s : tmpfile) : tmpfile := Tmpfile x (tline s) (iblock s) (oblock s) (ichanged s) (nleft s).
Definition set_tline (x : Z) (s : tmpfile) : tmpfile := Tmpfile (tmp s) x (iblock s) (oblock s) (ichanged s) (nleft s).
Definition set_iblock (x : Z) (s : tmpfile) : tmpfile := Tmpfile (tmp s) (tline s) x (oblock s) (ichanged s) (nleft s).
Definition set_oblock (x : Z) (s : tmpfile) : tmpfile := Tmpfile (tmp s) (tline s) (iblock s) x (ichanged s) (nleft s).
Definition set_ichanged (x : Z) (s : tmpfile) : tmpfile := Tmpfile (tmp s) (tline s) (iblock s) (oblock s) x (nleft s).
Definition set_nleft (x : Z) (s : tmpfile) : tmpfile := Tmpfile (tmp s) (tline s) (iblock s) (oblock s) (ichanged s) x.

Record command : Type := Command { addr1 : option Z; addr2 : option Z; pflag : Z; vflag : Z; count : Z; io : option (list Z); ninbuf : Z; nextip : Z }.
Definition set_addr1 (x : option Z) (s : command) : command := Command x (addr2 s) (pflag s) (vflag s) (count s) (io s) (ninbuf s) (nextip s).
Definition set_addr2 (x : option Z) (s : command) : command := Command (addr1 s) x (pflag s) (vflag s) (count s) (io s) (ninbuf s) (nextip s).
Definition set_pflag (x : Z) (s : command) : command := Command (addr1 s) (addr2 s) x (vflag s) (count s) (io s) (ninbuf s) (nextip s).
Definition set_vflag (x : Z) (s : command) : command := Command (addr1 s) (addr2 s) (pflag s) x (count s) (io s) (ninbuf s) (nextip s).
Definition set_count (x : Z) (s : command) : command := Command (addr1 s) (addr2 s) (pflag s) (vflag s) x (io s) (ninbuf s) (nextip s).
Definition set_io (x : option (list Z)) (s : command) : command := Command (addr1 s) (addr2 s) (pflag s) (vflag s) (count s) x (ninbuf s) (nextip s).
Definition set_ninbuf (x : Z) (s : command) : command := Command (addr1 s) (addr2 s) (pflag s) (vflag s) (count s) (io s) x (nextip s).
Definition set_nextip (x : Z) (s : command) : command := Command (addr1 s) (addr2 s) (pflag s) (vflag s) (count s) (io s) (ninbuf s) x.

Record bufs : Type := Bufs { linebuf : list Z; rhsbuf : list Z; expbuf : list Z; genbuf : list Z; ibuff : list Z; obuff : list Z; savedfile : list Z; filebuf : list Z }.
Definition set_linebuf (x : list Z) (s : bufs) : bufs := Bufs x (rhsbuf s) (expbuf s) (genbuf s) (ibuff s) (obuff s) (savedfile s) (filebuf s).
Definition set_rhsbuf (x : list Z) (s : bufs) : bufs := Bufs (linebuf s) x (expbuf s) (genbuf s) (ibuff s) (obuff s) (savedfile s) (filebuf s).
Definition set_expbuf (x : list Z) (s : bufs) : bufs := Bufs (linebuf s) (rhsbuf s) x (genbuf s) (ibuff s) (obuff s) (savedfile s) (filebuf s).
Definition set_genbuf (x : list Z) (s : bufs) : bufs := Bufs (linebuf s) (rhsbuf s) (expbuf s) x (ibuff s) (obuff s) (savedfile s) (filebuf s).
Definition set_ibuff (x : list Z) (s : bufs) : bufs := Bufs (linebuf s) (rhsbuf s) (expbuf s) (genbuf s) x (obuff s) (savedfile s) (filebuf s).
Definition set_obuff (x : list Z) (s : bufs) : bufs := Bufs (linebuf s) (rhsbuf s) (expbuf s) (genbuf s) (ibuff s) x (savedfile s) (filebuf s).
Definition set_savedfile (x : list Z) (s : bufs) : bufs := Bufs (linebuf s) (rhsbuf s) (expbuf s) (genbuf s) (ibuff s) (obuff s) x (filebuf s).
Definition set_filebuf (x : list Z) (s : bufs) : bufs := Bufs (linebuf s) (rhsbuf s) (expbuf s) (genbuf s) (ibuff s) (obuff s) (savedfile s) x.

Record ed : Type := Ed { chars_of : chars; screen_of : screen; text_of : text; matched_of : matched; tmpfile_of : tmpfile; command_of : command; bufs_of : bufs; written : list (list Z * list Z) }.
Definition up_chars (f : chars -> chars) (s : ed) : ed := Ed (f (chars_of s)) (screen_of s) (text_of s) (matched_of s) (tmpfile_of s) (command_of s) (bufs_of s) (written s).
Definition up_screen (f : screen -> screen) (s : ed) : ed := Ed (chars_of s) (f (screen_of s)) (text_of s) (matched_of s) (tmpfile_of s) (command_of s) (bufs_of s) (written s).
Definition up_text (f : text -> text) (s : ed) : ed := Ed (chars_of s) (screen_of s) (f (text_of s)) (matched_of s) (tmpfile_of s) (command_of s) (bufs_of s) (written s).
Definition up_matched (f : matched -> matched) (s : ed) : ed := Ed (chars_of s) (screen_of s) (text_of s) (f (matched_of s)) (tmpfile_of s) (command_of s) (bufs_of s) (written s).
Definition up_tmpfile (f : tmpfile -> tmpfile) (s : ed) : ed := Ed (chars_of s) (screen_of s) (text_of s) (matched_of s) (f (tmpfile_of s)) (command_of s) (bufs_of s) (written s).
Definition up_command (f : command -> command) (s : ed) : ed := Ed (chars_of s) (screen_of s) (text_of s) (matched_of s) (tmpfile_of s) (f (command_of s)) (bufs_of s) (written s).
Definition up_bufs (f : bufs -> bufs) (s : ed) : ed := Ed (chars_of s) (screen_of s) (text_of s) (matched_of s) (tmpfile_of s) (command_of s) (f (bufs_of s)) (written s).
Definition up_written (f : list (list Z * list Z) -> list (list Z * list Z)) (s : ed) : ed := Ed (chars_of s) (screen_of s) (text_of s) (matched_of s) (tmpfile_of s) (command_of s) (bufs_of s) (f (written s)).
Inductive buf : Type := LINEBUF | RHSBUF | EXPBUF | GENBUF | IBUFF | OBUFF | SAVEDFILE | FILEBUF.

Definition buf_of (b : buf) (s : bufs) : list Z :=
  match b with
  | LINEBUF => linebuf s | RHSBUF => rhsbuf s | EXPBUF => expbuf s | GENBUF => genbuf s
  | IBUFF => ibuff s | OBUFF => obuff s | SAVEDFILE => savedfile s | FILEBUF => filebuf s
  end.
Definition set_buf (b : buf) (x : list Z) (s : bufs) : bufs :=
  match b with
  | LINEBUF => set_linebuf x s | RHSBUF => set_rhsbuf x s | EXPBUF => set_expbuf x s | GENBUF => set_genbuf x s
  | IBUFF => set_ibuff x s | OBUFF => set_obuff x s | SAVEDFILE => set_savedfile x s | FILEBUF => set_filebuf x s
  end.

(** Element [i] of an array, nothing outside of it. *)
Definition elem (l : list Z) (i : Z) : option Z := if i <? 0 then None else l !! Z.to_nat i.

Definition peek (b : buf) (i : Z) : M ed Z := let! s := get in deref (elem (buf_of b (bufs_of s)) i).
Definition poke (b : buf) (i x : Z) : M ed unit :=
  let! s := get in
  do! deref (elem (buf_of b (bufs_of s)) i);
  modify (up_bufs (fun t => set_buf b (<[Z.to_nat i := s8 x]> (buf_of b t)) t)).

(** The string at [i] of an array, up to its terminator. *)
Fixpoint until_nul (l : list Z) : list Z :=
  match l with
  | [] => []
  | c :: l => if c =? 0 then [] else c :: until_nul l
  end.
Definition string_at (b : buf) (i : Z) : M ed (list Z) :=
  let! s := get in ret (until_nul (drop (Z.to_nat i) (buf_of b (bufs_of s)))).

(** [while ((p[i]++ = q[j]++))]; returns the first index after the copy. *)
Fixpoint copy_str (fuel : nat) (p : buf) (i : Z) (q : buf) (j : Z) : M ed Z :=
  match fuel with
  | O => fail Stuck
  | S fuel =>
      let! c := peek q j in
      do! poke p i c;
      if c =? 0 then ret (i + 1) else copy_str fuel p (i + 1) q (j + 1)
  end.

Definition line_at (a : Z) : M ed Z := let! s := get in deref (elem (core (text_of s)) a).
Definition set_line (a x : Z) : M ed unit :=
  let! s := get in
  do! deref (elem (core (text_of s)) a);
  modify (up_text (fun t => set_core (<[Z.to_nat a := x]> (core t)) t)).

(** * Terminal *)

Definition getchar : M ed Z :=
  let! s := get in
  let c := chars_of s in
  if negb (peekc c =? 0) then
    do! modify (up_chars (fun c => set_peekc 0 (set_lastc (peekc c) c)));
    ret (peekc c)
  else match globp c with
  | Some g =>
      match g with
      | x :: g' =>
          if negb (x =? 0) then
            do! modify (up_chars (fun c => set_globp (Some g') (set_lastc x c)));
            ret x
          else
            do! modify (up_chars (fun c => set_globp None (set_lastc 0 c)));
            ret EOF
      | [] => fail Fault
      end
  | None =>
      match input c with
      | [] =>
          do! modify (up_chars (set_lastc EOF));
          ret EOF
      | x :: l =>
          let x := Z.land (s8 x) 127 in
          do! modify (up_chars (fun c => set_lastc x (set_input l c)));
          ret x
      end
  end.

(** The characters that are still to come, with the one that was put back. *)
Definition pending (s : ed) : nat :=
  let c := chars_of s in (1 + length (default [] (globp c)) + length (input c))%nat.

Definition set_peek (c : Z) : M ed unit := modify (up_chars (set_peekc (s8 c))).

(** [putchar]: the characters that one character becomes, and the new column. *)
Definition shown (listf col c : Z) : list Z * Z :=
  if listf =? 0 then ([c], col)
  else
    let col := col + 1 in
    let wrap := if 72 <=? col then [92; 10] else [] in
    let col := if 72 <=? col then 0 else col in
    if c =? 9 then (wrap ++ [45; 8; 62], col)
    else if c =? 8 then (wrap ++ [45; 8; 60], col)
    else if (c <? 32) && negb (c =? 10) then (wrap ++ [92; Z.shiftr c 3 + 48; Z.land c 7 + 48], col + 2)
    else (wrap ++ [c], col).

(** The character [c] that [putchar] tests for the end of the line; the
    escapes of tab and backspace replace it. *)
Definition shown_char (listf c : Z) : Z :=
  if listf =? 0 then c else if c =? 9 then 62 else if c =? 8 then 60 else c.

Definition putchar (ac : Z) : M ed unit :=
  modify (up_screen (fun t =>
    let r := shown (listf t) (col t) (s8 ac) in
    let lp := linp t ++ r.1 in
    let t := set_col r.2 t in
    if (shown_char (listf t) (s8 ac) =? 10) || (64 <=? Z.of_nat (length lp)) then set_linp [] (set_out (out t ++ lp) t)
    else set_linp lp t)).

Definition puts (l : list Z) : M ed unit :=
  do! modify (up_screen (set_col 0));
  do! for_each l putchar;
  putchar 10.

Fixpoint decimal (fuel : nat) (n : Z) : list Z :=
  match fuel with
  | O => []
  | S fuel => (if n <? 10 then [] else decimal fuel (n / 10)) ++ [n mod 10 + 48]
  end.

(** [printf("%d", count[1])] *)
Definition putd : M ed unit :=
  modify (fun s =>
    let n := count (command_of s) in
    let l := if n <? 0 then 45 :: decimal 10 (- n) else decimal 10 n in
    up_screen (fun t => set_out (out t ++ l) t) s).

(** [while ((c = getchar()) != '\n' && c != EOF)] *)
Fixpoint skip_line (fuel : nat) : M ed unit :=
  match fuel with
  | O => fail Stuck
  | S fuel => let! c := getchar in if (c =? 10) || (c =? EOF) then ret tt else skip_line fuel
  end.

Definition errfunc : M ed unit :=
  do! modify (up_screen (set_listf 0));
  do! puts (str "?");
  do! modify (up_command (set_pflag 0));
  do! modify (up_chars (fun c => match globp c with Some _ => set_lastc 10 c | None => c end));
  do! modify (up_chars (set_globp None));
  do! modify (up_chars (fun c => set_peekc (lastc c) c));
  let! s := get in
  do! skip_line (S (pending s));
  modify (up_command (set_io None)).

(** * Regular expressions *)

Definition cerror : M ed unit :=
  do! poke EXPBUF 0 0;
  errfunc.

(** The characters of a class, from [c] on; [None] is the jump to [cerror]. *)
Fixpoint class_chars (fuel : nat) (c ep cclcnt : Z) : M ed (option (Z * Z)) :=
  match fuel with
  | O => fail Stuck
  | S fuel =>
      if c =? 10 then ret None
      else
        do! poke EXPBUF ep c;
        if ESIZE <=? ep + 1 then ret None
        else
          let! c := getchar in
          if c =? 93 then ret (Some (ep + 1, cclcnt + 1))
          else class_chars fuel c (ep + 1) (cclcnt + 1)
  end.

Definition emit2 (ep op x : Z) : M ed unit :=
  do! poke EXPBUF ep op;
  poke EXPBUF (ep + 1) x.

(** The loop of [compile]: [br] holds the open brackets, the last one first. *)
Fixpoint compile_loop (fuel : nat) (eof ep lastep nbra : Z) (br : list Z) : M ed unit :=
  match fuel with
  | O => fail Stuck
  | S fuel =>
      if ESIZE <=? ep then cerror
      else
        let! c := getchar in
        if c =? eof then poke EXPBUF ep CEOF
        else
          let lastep := if negb (c =? 42) then ep else lastep in
          let defchar := do! emit2 ep CCHR c; compile_loop fuel eof (ep + 2) lastep nbra br in
          if c =? 92 then
            let! c := getchar in
            if c =? 40 then
              if NBRA <=? nbra then cerror
              else
                do! emit2 ep CBRA nbra;
                compile_loop fuel eof (ep + 2) lastep (nbra + 1) (nbra :: br)
            else if c =? 41 then
              match br with
              | [] => cerror
              | n :: br =>
                  do! emit2 ep CKET n;
                  compile_loop fuel eof (ep + 2) lastep nbra br
              end
            else
              do! poke EXPBUF ep CCHR;
              if c =? 10 then cerror
              else
                do! poke EXPBUF (ep + 1) c;
                compile_loop fuel eof (ep + 2) lastep nbra br
          else if c =? 46 then
            do! poke EXPBUF ep CDOT;
            compile_loop fuel eof (ep + 1) lastep nbra br
          else if c =? 10 then cerror
          else if c =? 42 then
            let! x := peek EXPBUF lastep in
            do! (if (x =? CBRA) || (x =? CKET) then errfunc else ret tt);
            let! x := peek EXPBUF lastep in
            do! poke EXPBUF lastep (Z.lor x STAR);
            compile_loop fuel eof ep lastep nbra br
          else if c =? 36 then
            let! p := getchar in
            do! set_peek p;
            if negb (p =? eof) then defchar
            else
              do! poke EXPBUF ep CDOL;
              compile_loop fuel eof (ep + 1) lastep nbra br
          else if c =? 91 then
            do! emit2 ep CCL 0;
            let! c := getchar in
            let! c :=
              (if c =? 94 then
                 let! c := getchar in
                 do! poke EXPBUF ep NCCL;
                 ret c
               else ret c) in
            let! r := class_chars 140 c (ep + 2) 1 in
            match r with
            | None => cerror
            | Some (ep, cclcnt) =>
                do! poke EXPBUF (lastep + 1) cclcnt;
                compile_loop fuel eof ep lastep nbra br
            end
          else defchar
  end.

Definition compile (aeof : Z) : M ed unit :=
  let! c := getchar in
  if c =? aeof then
    let! x := peek EXPBUF 0 in
    if x =? 0 then errfunc else ret tt
  else
    do! modify (up_matched (set_circfl 0));
    let! c :=
      (if c =? 94 then
         let! c := getchar in
         do! modify (up_matched (set_circfl 1));
         ret c
       else ret c) in
    if c =? 42 then cerror
    else
      do! set_peek c;
      let! s := get in
      compile_loop (pending s + Z.to_nat ESIZE + 2) aeof 0 0 0 [].

(** [n] more characters of the set at [set]. *)
Fixpoint class_loop (n : nat) (set c : Z) : M ed bool :=
  match n with
  | O => ret false
  | S n =>
      let! x := peek EXPBUF set in
      if x =? c then ret true else class_loop n (set + 1) c
  end.

Definition cclass (aset ac : Z) (af : bool) : M ed bool :=
  if s8 ac =? 0 then ret false
  else
    let! n := peek EXPBUF aset in
    if n <=? 0 then fail Stuck
    else
      let! r := class_loop (Z.to_nat (n - 1)) (aset + 1) (s8 ac) in
      ret (if r then af else negb af).

(** [while (test( *lp++ ))]: the index after the first character that fails. *)
Fixpoint scan (fuel : nat) (test : Z -> M ed bool) (lp : Z) : M ed Z :=
  match fuel with
  | O => fail Stuck
  | S fuel =>
      let! c := peek LINEBUF lp in
      let! r := test c in
      if r then scan fuel test (lp + 1) else ret (lp + 1)
  end.

(** The loop at the label [star], [n] characters above [curlp]. *)
Fixpoint star (n : nat) (adv : Z -> M ed bool) (lp : Z) : M ed bool :=
  match n with
  | O => ret false
  | S n =>
      let lp := lp - 1 in
      let! s := get in
      if bool_decide (locs (matched_of s) = Some lp) then ret false
      else
        let! r := adv lp in
        if r then ret true else star n adv lp
  end.

Definition set_nth (l : list Z) (i x : Z) : option (list Z) :=
  if (i <? 0) || (Z.of_nat (length l) <=? i) then None else Some (<[Z.to_nat i := x]> l).

Definition scan_size : nat := S (Z.to_nat LBSIZE).

Fixpoint advance (fuel : nat) (lp ep : Z) : M ed bool :=
  match fuel with
  | O => fail Stuck
  | S fuel =>
      let! op := peek EXPBUF ep in
      let ep := ep + 1 in
      let from curlp test next :=
        let! lp := scan scan_size test curlp in
        star (Z.to_nat (lp - curlp)) (fun lp => advance fuel lp next) lp in
      if op =? CCHR then
        let! x := peek EXPBUF ep in
        let! y := peek LINEBUF lp in
        if x =? y then advance fuel (lp + 1) (ep + 1) else ret false
      else if op =? CDOT then
        let! y := peek LINEBUF lp in
        if negb (y =? 0) then advance fuel (lp + 1) ep else ret false
      else if op =? CDOL then
        let! y := peek LINEBUF lp in
        if y =? 0 then advance fuel lp ep else ret false
      else if op =? CEOF then
        do! modify (up_matched (set_loc2 lp));
        ret true
      else if (op =? CCL) || (op =? NCCL) then
        let! y := peek LINEBUF lp in
        let! r := cclass ep y (op =? CCL) in
        if r then
          let! n := peek EXPBUF ep in
          advance fuel (lp + 1) (ep + n)
        else ret false
      else if op =? CBRA then
        let! n := peek EXPBUF ep in
        let! s := get in
        let! l := deref (set_nth (braslist (matched_of s)) n lp) in
        do! modify (up_matched (set_braslist l));
        advance fuel lp (ep + 1)
      else if op =? CKET then
        let! n := peek EXPBUF ep in
        let! s := get in
        let! l := deref (set_nth (braelist (matched_of s)) n lp) in
        do! modify (up_matched (set_braelist l));
        advance fuel lp (ep + 1)
      else if op =? Z.lor CDOT STAR then
        from lp (fun c => ret (negb (c =? 0))) ep
      else if op =? Z.lor CCHR STAR then
        from lp (fun c => let! x := peek EXPBUF ep in ret (c =? x)) (ep + 1)
      else if (op =? Z.lor CCL STAR) || (op =? Z.lor NCCL STAR) then
        let! n := peek EXPBUF ep in
        from lp (fun c => cclass ep c (op =? Z.lor CCL STAR)) (ep + n)
      else
        do! errfunc;
        advance fuel lp ep
  end.

Definition advance_all : Z -> Z -> M ed bool := advance (Z.to_nat (ESIZE + 5)).

(** The search for a match that starts with [c], when it is known. *)
Fixpoint search (fuel : nat) (first : option Z) (p1 : Z) : M ed bool :=
  match fuel with
  | O => fail Stuck
  | S fuel =>
      let! x := peek LINEBUF p1 in
      let! r :=
        (if match first with Some c => negb (x =? c) | None => false end then ret false
         else advance_all p1 0) in
      if r then
        do! modify (up_matched (set_loc1 p1));
        ret true
      else
        let! x := peek LINEBUF p1 in
        if x =? 0 then ret false else search fuel first (p1 + 1)
  end.

(** * The temporary file *)

Inductive mode : Type := READ | WRITE.

(** [blkio]: 512 bytes of the file from byte [b] on. *)
Definition blkio (b : Z) (p : buf) (m : mode) : M ed unit :=
  let! s := get in
  let t := tmp (tmpfile_of s) in
  let i := Z.to_nat b in
  let data := buf_of p (bufs_of s) in
  match m with
  | READ =>
      let got := take 512 (drop i t) in
      do! modify (up_bufs (set_buf p (got ++ drop (length got) data)));
      if (length got =? 512)%nat then ret tt
      else
        do! puts (str "TMP");
        errfunc
  | WRITE =>
      let t := t ++ replicate (i - length t) 0 in
      modify (up_tmpfile (set_tmp (take i t ++ data ++ drop (i + 512) t)))
  end.

(** [getblock]: the buffer of the block and the index in it. *)
Definition getblock (atl : Z) (iof : mode) : M ed (buf * Z) :=
  let bno := Z.land (Z.shiftr atl 8) 255 in
  let off := Z.land (Z.shiftl atl 1) 508 in
  do! (if 255 <=? bno then
         do! puts (str "TMP");
         errfunc
       else ret tt);
  do! modify (up_tmpfile (set_nleft (512 - off)));
  let! s := get in
  let t := tmpfile_of s in
  if bno =? iblock t then
    do! modify (up_tmpfile (fun t => set_ichanged (match iof with READ => ichanged t | WRITE => 1 end) t));
    ret (IBUFF, off)
  else if bno =? oblock t then ret (OBUFF, off)
  else match iof with
  | READ =>
      do! (if negb (ichanged t =? 0) then blkio (iblock t) IBUFF WRITE else ret tt);
      do! modify (up_tmpfile (fun t => set_iblock bno (set_ichanged 0 t)));
      do! blkio bno IBUFF READ;
      ret (IBUFF, off)
  | WRITE =>
      do! (if 0 <=? oblock t then blkio (oblock t) OBUFF WRITE else ret tt);
      do! modify (up_tmpfile (set_oblock bno));
      ret (OBUFF, off)
  end.

Definition low_block (tl : Z) : Z := Z.land tl (-256).

(** The loop of [getline]: copies the line whose next byte is at [bp]. *)
Fixpoint getline_loop (fuel : nat) (lp : Z) (b : buf) (bp nl tl : Z) : M ed unit :=
  match fuel with
  | O => fail Stuck
  | S fuel =>
      let! c := peek b bp in
      do! poke LINEBUF lp c;
      if c =? 0 then ret tt
      else if nl - 1 =? 0 then
        let tl := tl + 256 in
        let! p := getblock tl READ in
        let! s := get in
        getline_loop fuel (lp + 1) p.1 p.2 (nleft (tmpfile_of s)) tl
      else getline_loop fuel (lp + 1) b (bp + 1) (nl - 1) tl
  end.

Definition getline (tl : Z) : M ed unit :=
  let! p := getblock tl READ in
  let! s := get in
  getline_loop scan_size 0 p.1 p.2 (nleft (tmpfile_of s)) (low_block tl).

(** The loop of [putline]; returns [lp]. *)
Fixpoint putline_loop (fuel : nat) (lp : Z) (b : buf) (bp nl tl : Z) : M ed Z :=
  match fuel with
  | O => fail Stuck
  | S fuel =>
      let! c := peek LINEBUF lp in
      do! poke b bp c;
      let lp := lp + 1 in
      if c =? 0 then ret lp
      else if c =? 10 then
        do! poke b bp 0;
        do! modify (up_matched (set_linebp (Some lp)));
        ret lp
      else if nl - 1 =? 0 then
        let tl := tl + 256 in
        let! p := getblock tl WRITE in
        let! s := get in
        putline_loop fuel lp p.1 p.2 (nleft (tmpfile_of s)) tl
      else putline_loop fuel lp b (bp + 1) (nl - 1) tl
  end.

Definition putline : M ed Z :=
  let! s := get in
  let tl := tline (tmpfile_of s) in
  let! p := getblock tl WRITE in
  let! s := get in
  let! lp := putline_loop scan_size 0 p.1 p.2 (nleft (tmpfile_of s)) (low_block tl) in
  do! modify (up_tmpfile (fun t => set_tline (tline t + Z.land (Z.shiftr (lp + 3) 1) 32766) t));
  ret tl.

(** The part of [execute] after the line is in [linebuf]. *)
Definition find_match (p1 : Z) : M ed bool :=
  let! s := get in
  if negb (circfl (matched_of s) =? 0) then
    do! modify (up_matched (set_loc1 p1));
    advance_all p1 0
  else
    let! op := peek EXPBUF 0 in
    let! c := peek EXPBUF 1 in
    search scan_size (if op =? CCHR then Some c else None) p1.

(** [execute]: [gf] with the address of a line. *)
Definition execute (gf : bool) (addr : option Z) : M ed bool :=
  let! s := get in
  if gf then
    if negb (circfl (matched_of s) =? 0) then ret false
    else
      do! copy_str scan_size LINEBUF 0 GENBUF 0;
      let p1 := loc2 (matched_of s) in
      do! modify (up_matched (set_locs (Some p1)));
      find_match p1
  else if bool_decide (addr = Some 0) then ret false
  else
    let! a := deref addr in
    let! tl := line_at a in
    do! getline tl;
    do! modify (up_matched (set_locs None));
    find_match 0.

(** * Lines *)

(** [while (a1 > rdot) *--a2 = *--a1] with [a2 = a1 + 1] *)
Fixpoint shift_up (n : nat) (a1 : Z) : M ed unit :=
  match n with
  | O => ret tt
  | S n =>
      let! x := line_at (a1 - 1) in
      do! set_line a1 x;
      shift_up n (a1 - 1)
  end.

Section files.
Context {files : EdFiles}.

(** One line of [append]: [f] has put it into [linebuf]. *)
Definition append_line : M ed unit :=
  do! (if may_grow then modify (up_text (fun t => set_core (core t ++ replicate 256 0) t)) else errfunc);
  let! tl := putline in
  do! modify (up_text (fun t => set_dot (dot t + 1) (set_dol (dol t + 1) t)));
  let! s := get in
  let t := text_of s in
  do! shift_up (Z.to_nat (dol t - dot t)) (dol t);
  set_line (dot t) tl.

Fixpoint append_loop (fuel : nat) (f : M ed Z) (nline : Z) : M ed Z :=
  match fuel with
  | O => fail Stuck
  | S fuel =>
      let! c := f in
      if c =? 0 then
        do! append_line;
        append_loop fuel f (nline + 1)
      else ret nline
  end.

Definition append (fuel : nat) (f : M ed Z) (a : Z) : M ed Z :=
  do! modify (up_text (set_dot a));
  append_loop fuel f 0.
End files.

Definition error_if (b : bool) : M ed unit := if b then errfunc else ret tt.

(** Pointers compared as addresses, null before every line. *)
Definition ptr (a : option Z) : Z := default (-2 ^ 62) a.

Definition setdot : M ed unit :=
  let! s := get in
  do! (if bool_decide (addr2 (command_of s) = None)
       then modify (up_command (fun c => set_addr1 (Some (dot (text_of s))) (set_addr2 (Some (dot (text_of s))) c)))
       else ret tt);
  let! s := get in
  let c := command_of s in
  error_if (ptr (addr2 c) <? ptr (addr1 c)).

Definition setall : M ed unit :=
  let! s := get in
  let last := dol (text_of s) in
  do! (if bool_decide (addr2 (command_of s) = None)
       then modify (up_command (fun c => set_addr1 (Some (if last =? 0 then 0 else 1)) (set_addr2 (Some last) c)))
       else ret tt);
  setdot.

Definition setnoaddr : M ed unit :=
  let! s := get in
  error_if (bool_decide (addr2 (command_of s) <> None)).

Definition nonzero : M ed unit :=
  let! s := get in
  let c := command_of s in
  error_if ((ptr (addr1 c) <=? 0) || (dol (text_of s) <? ptr (addr2 c))).

Definition newline : M ed unit :=
  let! c := getchar in
  if c =? 10 then ret tt
  else if (c =? 112) || (c =? 108) then
    do! modify (up_command (fun t => set_pflag (pflag t + 1) t));
    do! (if c =? 108 then modify (up_screen (fun t => set_listf (listf t + 1) t)) else ret tt);
    let! c := getchar in
    if c =? 10 then ret tt else errfunc
  else errfunc.

(** * Reading and writing lines *)

Fixpoint gettty_loop (fuel : nat) (gf : bool) (p : Z) : M ed Z :=
  match fuel with
  | O => fail Stuck
  | S fuel =>
      let! c := getchar in
      if c =? 10 then
        do! poke LINEBUF p 0;
        let! a := peek LINEBUF 0 in
        let! b := peek LINEBUF 1 in
        ret (if (a =? 46) && (b =? 0) then EOF else 0)
      else if c =? EOF then
        do! (if gf then set_peek c else ret tt);
        ret c
      else
        let c := Z.land c 127 in
        if c =? 0 then gettty_loop fuel gf p
        else
          do! poke LINEBUF p c;
          do! error_if (LBSIZE - 2 <=? p + 1);
          gettty_loop fuel gf (p + 1)
  end.

Definition gettty : M ed Z :=
  let! s := get in
  gettty_loop (S (pending s)) (bool_decide (globp (chars_of s) <> None)) 0.

(** [read(io, genbuf, LBSIZE)] *)
Definition read_io : M ed Z :=
  let! s := get in
  match io (command_of s) with
  | None => ret (-1)
  | Some l =>
      let got := s8 <$> take 512 l in
      do! modify (up_bufs (fun t => set_genbuf (got ++ drop (length got) (genbuf t)) t));
      do! modify (up_command (set_io (Some (drop 512 l))));
      ret (Z.of_nat (length got))
  end.

Fixpoint getfile_loop (fuel : nat) (lp fp : Z) : M ed Z :=
  match fuel with
  | O => fail Stuck
  | S fuel =>
      let! s := get in
      let n := ninbuf (command_of s) - 1 in
      do! modify (up_command (set_ninbuf n));
      let! fp :=
        (if n <? 0 then
           let! r := read_io in
           do! modify (up_command (set_ninbuf (r - 1)));
           ret (if r - 1 <? 0 then None else Some 0)
         else ret (Some fp)) in
      match fp with
      | None => ret EOF
      | Some fp =>
          do! error_if (LBSIZE <=? lp);
          let! x := peek GENBUF fp in
          let c := Z.land x 127 in
          do! poke LINEBUF lp c;
          if c =? 0 then getfile_loop fuel lp (fp + 1)
          else
            do! modify (up_command (fun t => set_count (count t + 1) t));
            if c =? 10 then
              do! poke LINEBUF lp 0;
              do! modify (up_command (set_nextip (fp + 1)));
              ret 0
            else getfile_loop fuel (lp + 1) (fp + 1)
      end
  end.

Definition getfile : M ed Z :=
  let! s := get in
  getfile_loop (Z.to_nat (Z.max 0 (ninbuf (command_of s))) + length (default [] (io (command_of s))) + 2) 0 (nextip (command_of s)).

(** [write(io, genbuf, n)] *)
Definition write_io (n : Z) : M ed unit :=
  let! s := get in
  match io (command_of s), rev (written s) with
  | Some _, (name, l) :: rest =>
      modify (up_written (fun _ => rev rest ++ [(name, l ++ take (Z.to_nat n) (genbuf (bufs_of s)))]))
  | _, _ => ret tt
  end.

(** The characters of one line, from [lp] of [linebuf] to [fp] of [genbuf];
    returns [fp] and [nib]. *)
Fixpoint putfile_line (fuel : nat) (lp fp nib : Z) : M ed (Z * Z) :=
  match fuel with
  | O => fail Stuck
  | S fuel =>
      let nib := nib - 1 in
      do! (if nib <? 0 then write_io fp else ret tt);
      let fp := if nib <? 0 then 0 else fp in
      let nib := if nib <? 0 then 511 else nib in
      do! modify (up_command (fun t => set_count (count t + 1) t));
      let! c := peek LINEBUF lp in
      do! poke GENBUF fp c;
      if c =? 0 then
        do! poke GENBUF fp 10;
        ret (fp + 1, nib)
      else putfile_line fuel (lp + 1) (fp + 1) nib
  end.

(** [n] lines more after the line [a1]. *)
Fixpoint putfile_loop (n : nat) (a1 fp nib : Z) : M ed Z :=
  let! tl := line_at a1 in
  do! getline tl;
  let! r := putfile_line scan_size 0 fp nib in
  match n with
  | O => ret r.1
  | S n => putfile_loop n (a1 + 1) r.1 r.2
  end.

Definition putfile : M ed unit :=
  let! s := get in
  let c := command_of s in
  let! a1 := deref (addr1 c) in
  let! fp := putfile_loop (Z.to_nat (ptr (addr2 c) - a1)) a1 0 512 in
  write_io fp.

Definition exfile : M ed unit :=
  do! modify (up_command (set_io None));
  let! s := get in
  if negb (vflag (command_of s) =? 0) then
    do! putd;
    putchar 10
  else ret tt.

(** [while ((c = getchar()) == ' ')] *)
Fixpoint skip_spaces (fuel : nat) : M ed Z :=
  match fuel with
  | O => fail Stuck
  | S fuel => let! c := getchar in if c =? 32 then skip_spaces fuel else ret c
  end.

Fixpoint filename_loop (fuel : nat) (p1 c : Z) : M ed unit :=
  match fuel with
  | O => fail Stuck
  | S fuel =>
      do! poke FILEBUF p1 c;
      let! c := getchar in
      if c =? 10 then poke FILEBUF (p1 + 1) 0 else filename_loop fuel (p1 + 1) c
  end.

Definition filename : M ed unit :=
  do! modify (up_command (set_count 0));
  let! c := getchar in
  if (c =? 10) || (c =? EOF) then
    let! x := peek SAVEDFILE 0 in
    do! error_if (x =? 0);
    do! copy_str 65 FILEBUF 0 SAVEDFILE 0;
    ret tt
  else
    do! error_if (negb (c =? 32));
    let! s := get in
    let! c := skip_spaces (S (pending s)) in
    do! error_if (c =? 10);
    do! filename_loop 65 0 c;
    let! x := peek SAVEDFILE 0 in
    if x =? 0 then do! copy_str 65 SAVEDFILE 0 FILEBUF 0; ret tt
    else ret tt.

(** * Addresses *)

(** The digits of a number after [c]; returns it and the next character. *)
Fixpoint number_loop (fuel : nat) (n c : Z) : M ed (Z * Z) :=
  match fuel with
  | O => fail Stuck
  | S fuel =>
      let n := s32 (n * 10 + (c - 48)) in
      let! c := getchar in
      if (48 <=? c) && (c <=? 57) then number_loop fuel n c else ret (n, c)
  end.

(** The lines after [a1], up or down and around, until one matches. *)
Fixpoint search_line (fuel : nat) (up : bool) (a1 : Z) : M ed Z :=
  match fuel with
  | O => fail Stuck
  | S fuel =>
      let! s := get in
      let last := dol (text_of s) in
      let a1 := if up then (if last <? a1 + 1 then 0 else a1 + 1) else (if a1 - 1 <? 0 then last else a1 - 1) in
      let! r := execute false (Some a1) in
      if r then ret a1
      else
        let! s := get in
        do! error_if (a1 =? dot (text_of s));
        search_line fuel up a1
  end.

(** The first line whose mark is [mark], from [a1] on. *)
Fixpoint find_mark (n : nat) (a1 mark : Z) : M ed Z :=
  match n with
  | O => ret a1
  | S n =>
      let! x := line_at a1 in
      if mark =? Z.lor x 1 then ret a1 else find_mark n (a1 + 1) mark
  end.

(** [fuel] bounds the characters read and, in [search_line], the lines tried:
    the search does not stop at [dot], since [errfunc] returns. *)
Fixpoint address_loop (fuel : nat) (a1 : option Z) (minus : Z) : M ed (option Z) :=
  match fuel with
  | O => fail Stuck
  | S fuel =>
      let! c := getchar in
      let! s := get in
      if (48 <=? c) && (c <=? 57) then
        let! r := number_loop (S (pending s)) 0 c in
        do! set_peek r.2;
        address_loop fuel (Some (default 0 a1 + (if minus <? 0 then - r.1 else r.1))) 0
      else
        let relerr := bool_decide (a1 <> None) || negb (minus =? 0) in
        let found a := do! error_if relerr; address_loop fuel (Some a) minus in
        if (c =? 32) || (c =? 9) then address_loop fuel a1 minus
        else if c =? 43 then address_loop fuel (Some (default (dot (text_of s)) a1)) (minus + 1)
        else if (c =? 45) || (c =? 94) then address_loop fuel (Some (default (dot (text_of s)) a1)) (minus - 1)
        else if (c =? 63) || (c =? 47) then
          do! compile c;
          let! s := get in
          let! a := search_line fuel (c =? 47) (dot (text_of s)) in
          found a
        else if c =? 36 then found (dol (text_of s))
        else if c =? 46 then found (dot (text_of s))
        else if c =? 39 then
          let! c := getchar in
          do! error_if ((c <? 97) || (122 <? c));
          let! s := get in
          let! mark := deref (elem (names (text_of s)) (c - 97)) in
          let! a := find_mark (Z.to_nat (dol (text_of s) + 1)) 0 mark in
          found a
        else
          do! set_peek c;
          match a1 with
          | None => ret None
          | Some a =>
              let a := a + minus in
              do! error_if ((a <? 0) || (dol (text_of s) <? a));
              ret (Some a)
          end
  end.

Definition address (fuel : nat) : M ed (option Z) := address_loop fuel None 0.

(** * Deleting and moving lines *)

(** [do *a1++ = *a2++; while (a2 <= a3)]: [n] lines more after the first. *)
Fixpoint shift_down (n : nat) (a1 a2 : Z) : M ed unit :=
  let! x := line_at a2 in
  do! set_line a1 x;
  match n with
  | O => ret tt
  | S n => shift_down n (a1 + 1) (a2 + 1)
  end.

(** [delete] after its checks. *)
Definition delete_lines (a1 a2 : Z) : M ed unit :=
  let! s := get in
  let a3 := dol (text_of s) in
  do! modify (up_text (set_dol (a3 - (a2 + 1 - a1))));
  do! shift_down (Z.to_nat (a3 - (a2 + 1))) a1 (a2 + 1);
  modify (up_text (fun t => set_dot (if dol t <? a1 then dol t else a1) t)).

Definition delete : M ed unit :=
  do! setdot;
  do! newline;
  do! nonzero;
  let! s := get in
  let! a1 := deref (addr1 (command_of s)) in
  let! a2 := deref (addr2 (command_of s)) in
  delete_lines a1 a2.

(** [reverse]: the lines from [a1] up to [a2], which is not included. *)
Fixpoint reverse (fuel : nat) (a1 a2 : Z) : M ed unit :=
  match fuel with
  | O => fail Stuck
  | S fuel =>
      let a2 := a2 - 1 in
      let! t := line_at a2 in
      if a2 <=? a1 then ret tt
      else
        let! x := line_at a1 in
        do! set_line a2 x;
        do! set_line a1 t;
        reverse fuel (a1 + 1) a2
  end.

Definition reverse_lines (a1 a2 : Z) : M ed unit := reverse (Z.to_nat (a2 - a1) + 2) a1 a2.

Section files.
Context {files : EdFiles}.

Definition getcopy : M ed Z :=
  let! s := get in
  let c := command_of s in
  if ptr (addr2 c) <? ptr (addr1 c) then ret EOF
  else
    let! a := deref (addr1 c) in
    let! tl := line_at a in
    do! getline tl;
    do! modify (up_command (set_addr1 (Some (a + 1))));
    ret 0.

(** The lines from [ad1] up to [ad2] go after the line [adt]. *)
Definition move_lines (ad1 ad2 adt : Z) : M ed unit :=
  if adt <? ad1 then
    do! modify (up_text (set_dot (adt + (ad2 - ad1))));
    let adt := adt + 1 in
    if adt =? ad1 then ret tt
    else
      do! reverse_lines adt ad1;
      do! reverse_lines ad1 ad2;
      reverse_lines adt ad2
  else if ad2 <=? adt then
    do! modify (up_text (set_dot adt));
    let adt := adt + 1 in
    do! reverse_lines ad1 ad2;
    do! reverse_lines ad2 adt;
    reverse_lines ad1 adt
  else errfunc.

Definition move (fuel : nat) (cflag : bool) : M ed unit :=
  do! setdot;
  do! nonzero;
  let! adt := address fuel in
  do! error_if (bool_decide (adt = None));
  do! newline;
  let! s := get in
  let c := command_of s in
  let! ad1 := deref (addr1 c) in
  let! ad2 := deref (addr2 c) in
  let! adt := deref adt in
  if cflag then
    let last := dol (text_of s) in
    do! append fuel getcopy last;
    let! s := get in
    move_lines (last + 1) (dol (text_of s) + 1) adt
  else move_lines ad1 (ad2 + 1) adt.

(** * Substitution *)

Fixpoint place_loop (n : nat) (sp l1 : Z) : M ed Z :=
  match n with
  | O => ret sp
  | S n =>
      let! c := peek LINEBUF l1 in
      do! poke GENBUF sp c;
      do! error_if (LBSIZE <=? sp + 1);
      place_loop n (sp + 1) (l1 + 1)
  end.

Definition place (asp al1 al2 : Z) : M ed Z := place_loop (Z.to_nat (al2 - al1)) asp al1.

(** The replacement from [rp] on. *)
Fixpoint replace_loop (fuel : nat) (rp sp : Z) : M ed Z :=
  match fuel with
  | O => fail Stuck
  | S fuel =>
      let! c := peek RHSBUF rp in
      if c =? 0 then ret sp
      else
        let! s := get in
        let m := matched_of s in
        let rp := rp + 1 in
        if c =? 38 then
          let! sp := place sp (loc1 m) (loc2 m) in
          replace_loop fuel rp sp
        else
          let d := Z.land c 127 in
          if (c <? 0) && (49 <=? d) && (d <? NBRA + 49) then
            let! a := deref (elem (braslist m) (d - 49)) in
            let! b := deref (elem (braelist m) (d - 49)) in
            let! sp := place sp a b in
            replace_loop fuel rp sp
          else
            do! poke GENBUF sp d;
            do! error_if (LBSIZE <=? sp + 1);
            replace_loop fuel rp (sp + 1)
  end.

(** [while (( *sp++ = *lp++ )) if (sp >= &genbuf[LBSIZE]) error] *)
Fixpoint tail_loop (fuel : nat) (sp lp : Z) : M ed unit :=
  match fuel with
  | O => fail Stuck
  | S fuel =>
      let! c := peek LINEBUF lp in
      do! poke GENBUF sp c;
      if c =? 0 then ret tt
      else
        do! error_if (LBSIZE <=? sp + 1);
        tail_loop fuel (sp + 1) (lp + 1)
  end.

(** [while (lp < loc1) *sp++ = *lp++] *)
Fixpoint head_loop (n : nat) (i : Z) : M ed unit :=
  match n with
  | O => ret tt
  | S n =>
      let! c := peek LINEBUF i in
      do! poke GENBUF i c;
      head_loop n (i + 1)
  end.

Definition dosub : M ed unit :=
  let! s := get in
  let m := matched_of s in
  do! head_loop (Z.to_nat (loc1 m)) 0;
  let! sp := replace_loop 257 0 (Z.max 0 (loc1 m)) in
  let! s := get in
  let lp := loc2 (matched_of s) in
  do! modify (up_matched (set_loc2 sp));
  do! tail_loop scan_size sp lp;
  do! copy_str scan_size LINEBUF 0 GENBUF 0;
  ret tt.

Fixpoint compsub_loop (fuel : nat) (seof p : Z) : M ed unit :=
  match fuel with
  | O => fail Stuck
  | S fuel =>
      let! c := getchar in
      let! c := (if c =? 92 then let! c := getchar in ret (Z.lor c 128) else ret c) in
      do! error_if (c =? 10);
      if c =? seof then poke RHSBUF p 0
      else
        do! poke RHSBUF p c;
        do! error_if (LBSIZE / 2 <=? p + 1);
        compsub_loop fuel seof (p + 1)
  end.

Definition compsub : M ed bool :=
  let! seof := getchar in
  do! error_if (seof =? 10);
  do! compile seof;
  do! compsub_loop 257 seof 0;
  let! c := getchar in
  do! set_peek c;
  if c =? 103 then
    do! modify (up_chars (set_peekc 0));
    do! newline;
    ret true
  else
    do! newline;
    ret false.

Definition getsub : M ed Z :=
  let! s := get in
  match linebp (matched_of s) with
  | None => ret EOF
  | Some p2 =>
      do! copy_str scan_size LINEBUF 0 LINEBUF p2;
      do! modify (up_matched (set_linebp None));
      ret 0
  end.

(** [while ( *loc2 )] of a global substitution. *)
Fixpoint gsub_loop (fuel : nat) : M ed unit :=
  match fuel with
  | O => fail Stuck
  | S fuel =>
      let! s := get in
      let! c := peek LINEBUF (loc2 (matched_of s)) in
      if c =? 0 then ret tt
      else
        let! r := execute true None in
        if r then
          do! dosub;
          gsub_loop fuel
        else ret tt
  end.

(** The lines from [a1] on; returns whether one was changed. *)
Fixpoint substitute_loop (fuel : nat) (gsubf : bool) (a1 : Z) (inglob : bool) : M ed bool :=
  match fuel with
  | O => fail Stuck
  | S fuel =>
      let! s := get in
      if ptr (addr2 (command_of s)) <? a1 then ret inglob
      else
        let! r := execute false (Some a1) in
        if r then
          do! dosub;
          do! (if gsubf then gsub_loop scan_size else ret tt);
          let! tl := putline in
          do! set_line a1 tl;
          let! nl := append fuel getsub a1 in
          do! modify (up_command (fun c => set_addr2 (option_map (Z.add nl) (addr2 c)) c));
          substitute_loop fuel gsubf (a1 + nl + 1) true
        else substitute_loop fuel gsubf (a1 + 1) inglob
  end.

Definition substitute (fuel : nat) (inglob : bool) : M ed unit :=
  let! gsubf := compsub in
  let! s := get in
  let! a1 := deref (addr1 (command_of s)) in
  let! changed := substitute_loop fuel gsubf a1 inglob in
  error_if (negb changed).

(** * Commands *)

(** [init] after the temporary file is opened; the file keeps its bytes, [creat]
    does not truncate it. *)
Definition init : M ed unit :=
  do! modify (up_tmpfile (fun t => set_ichanged 0 (set_oblock (-1) (set_iblock (-1) (set_tline 0 t)))));
  modify (up_text (fun t => set_core [] (set_dol 0 (set_dot 0 t)))).

(** The command of [global], into [globuf]. *)
Fixpoint globuf_loop (fuel : nat) (gp : list Z) : M ed (list Z) :=
  match fuel with
  | O => fail Stuck
  | S fuel =>
      let! c := getchar in
      if c =? 10 then ret (gp ++ [10; 0])
      else
        do! error_if (c =? EOF);
        let! gp :=
          (if c =? 92 then
             let! c := getchar in
             ret (if c =? 10 then gp ++ [c] else gp ++ [92; s8 c])
           else ret (gp ++ [s8 c])) in
        do! error_if (GBSIZE - 2 <=? Z.of_nat (length gp));
        if GBSIZE <? Z.of_nat (length gp) then fail Fault else globuf_loop fuel gp
  end.

(** The lines from [a1] on are marked. *)
Fixpoint mark_loop (n : nat) (k : bool) (a1 : Z) : M ed unit :=
  match n with
  | O => ret tt
  | S n =>
      let! x := line_at a1 in
      do! set_line a1 (Z.land x (-2));
      let! s := get in
      let c := command_of s in
      do! (if (ptr (addr1 c) <=? a1) && (a1 <=? ptr (addr2 c)) then
             let! r := execute false (Some a1) in
             if Bool.eqb r k then
               let! x := line_at a1 in
               set_line a1 (Z.lor x 1)
             else ret tt
           else ret tt);
      mark_loop n k (a1 + 1)
  end.

(** The marked lines from [a1] on; [run] is the call of [commands], which
    returns whether the program has ended. *)
Fixpoint global_loop (fuel : nat) (run : M ed bool) (globuf : list Z) (a1 : Z) : M ed bool :=
  match fuel with
  | O => fail Stuck
  | S fuel =>
      let! s := get in
      if dol (text_of s) <? a1 then ret false
      else
        let! x := line_at a1 in
        if negb (Z.land x 1 =? 0) then
          do! set_line a1 (Z.land x (-2));
          do! modify (up_text (set_dot a1));
          do! modify (up_chars (set_globp (Some globuf)));
          let! quit := run in
          if quit then ret true else global_loop fuel run globuf 1
        else global_loop fuel run globuf (a1 + 1)
  end.

Definition global (fuel : nat) (run : M ed bool) (k : bool) : M ed bool :=
  let! s := get in
  do! error_if (bool_decide (globp (chars_of s) <> None));
  do! setall;
  do! nonzero;
  let! c := getchar in
  do! error_if (c =? 10);
  do! compile c;
  let! s := get in
  let! globuf := globuf_loop (pending s + 300) [] in
  let! s := get in
  do! mark_loop (Z.to_nat (dol (text_of s) + 1)) k 0;
  global_loop fuel run globuf 0.

(** [print]: the lines from [a1] to [a2] *)
Fixpoint print_loop (n : nat) (a1 : Z) : M ed unit :=
  let! tl := line_at a1 in
  do! getline tl;
  let! l := string_at LINEBUF 0 in
  do! puts l;
  match n with
  | O => ret tt
  | S n => print_loop n (a1 + 1)
  end.

Definition print : M ed unit :=
  do! setdot;
  do! nonzero;
  let! s := get in
  let! a1 := deref (addr1 (command_of s)) in
  let! a2 := deref (addr2 (command_of s)) in
  do! print_loop (Z.to_nat (a2 - a1)) a1;
  do! modify (up_text (set_dot a2));
  modify (up_screen (set_listf 0)).

(** The addresses before a command; returns the command. *)
Fixpoint addresses (fuel : nat) : M ed Z :=
  match fuel with
  | O => fail Stuck
  | S fuel =>
      do! modify (up_command (fun c => set_addr1 (addr2 c) c));
      let! a1 := address fuel in
      match a1 with
      | None => getchar
      | Some a =>
          do! modify (up_command (set_addr2 (Some a)));
          let! c := getchar in
          if c =? 59 then
            do! modify (up_text (set_dot a));
            addresses fuel
          else if c =? 44 then addresses fuel
          else ret c
      end
  end.

Definition read_file (fuel : nat) : M ed unit :=
  do! filename;
  let! name := string_at FILEBUF 0 in
  do! modify (up_command (set_io (file_bytes name)));
  do! (match file_bytes name with
       | None => do! modify (up_chars (set_lastc 10)); errfunc
       | Some _ => ret tt
       end);
  do! setall;
  do! modify (up_command (set_ninbuf 0));
  let! s := get in
  let! a := deref (addr2 (command_of s)) in
  do! append (length (default [] (file_bytes name)) + 2) getfile a;
  exfile.

Definition write_file : M ed unit :=
  do! setall;
  do! nonzero;
  do! filename;
  let! name := string_at FILEBUF 0 in
  do! (if may_create name then
         do! modify (up_command (set_io (Some [])));
         modify (up_written (fun w => w ++ [(name, [])]))
       else
         do! modify (up_command (set_io None));
         errfunc);
  do! putfile;
  exfile.

(** One command, when [run] runs the commands of a [global]; [None] is the end
    of the input. *)
Definition command_step (fuel : nat) (run : M ed bool) (c : Z) : M ed (option bool) :=
  let continue m := do! m; ret (Some false) in
  let! s := get in
  if c =? 97 then                                   (* a *)
    continue (do! setdot; do! newline; let! s := get in let! a := deref (addr2 (command_of s)) in do! append (S (pending s)) gettty a; ret tt)
  else if c =? 99 then                              (* c *)
    continue (do! delete; let! s := get in let! a := deref (addr1 (command_of s)) in do! append (S (pending s)) gettty (a - 1); ret tt)
  else if c =? 100 then continue delete             (* d *)
  else if c =? 101 then                             (* e *)
    continue (do! setnoaddr; let! p := getchar in do! set_peek p; do! error_if (negb (p =? 32)); do! poke SAVEDFILE 0 0; do! init;
              do! modify (up_command (set_addr2 (Some 0))); read_file fuel)
  else if c =? 102 then                             (* f *)
    continue (do! setnoaddr; let! c := getchar in
              do! (if negb (c =? 10) then do! set_peek c; do! poke SAVEDFILE 0 0; filename else ret tt);
              let! l := string_at SAVEDFILE 0 in puts l)
  else if c =? 103 then let! q := global fuel run true in ret (Some q)    (* g *)
  else if c =? 105 then                             (* i *)
    continue (do! setdot; do! nonzero; do! newline; let! s := get in let! a := deref (addr2 (command_of s)) in do! append (S (pending s)) gettty (a - 1); ret tt)
  else if c =? 107 then                             (* k *)
    continue (let! c := getchar in do! error_if ((c <? 97) || (122 <? c)); do! newline; do! setdot; do! nonzero;
              let! s := get in let! a := deref (addr2 (command_of s)) in let! x := line_at a in
              let! l := deref (set_nth (names (text_of s)) (c - 97) (Z.lor x 1)) in modify (up_text (set_names l)))
  else if c =? 109 then continue (move fuel false)  (* m *)
  else if c =? 10 then
    continue (do! (match addr2 (command_of s) with
                   | None => modify (up_command (set_addr2 (Some (dot (text_of s) + 1))))
                   | Some _ => ret tt
                   end);
              do! modify (up_command (fun c => set_addr1 (addr2 c) c)); print)
  else if c =? 108 then                             (* l *)
    continue (do! modify (up_screen (fun t => set_listf (listf t + 1) t)); do! newline; print)
  else if c =? 112 then continue (do! newline; print)       (* p *)
  else if c =? 113 then do! setnoaddr; do! newline; ret (Some true)       (* q *)
  else if c =? 114 then continue (read_file fuel)   (* r *)
  else if c =? 115 then                             (* s *)
    continue (do! setdot; do! nonzero; let! s := get in substitute fuel (bool_decide (globp (chars_of s) <> None)))
  else if c =? 116 then continue (move fuel true)   (* t *)
  else if c =? 118 then let! q := global fuel run false in ret (Some q)   (* v *)
  else if c =? 119 then continue write_file         (* w *)
  else if c =? 61 then                              (* = *)
    continue (do! setall; do! newline; let! s := get in
              do! modify (up_command (fun t => set_count (Z.land (ptr (addr2 t)) 32767) t)); do! putd; putchar 10)
  else if c =? EOF then ret None
  else continue errfunc.

(** [commands] without [!]; returns whether [q] has ended the program. *)
Fixpoint commands (fuel : nat) : M ed bool :=
  match fuel with
  | O => fail Stuck
  | S fuel =>
      let! s := get in
      if negb (pflag (command_of s) =? 0) then
        do! modify (up_command (fun c => set_addr2 (Some (dot (text_of s))) (set_addr1 (Some (dot (text_of s))) (set_pflag 0 c))));
        do! print;
        commands fuel
      else
        do! modify (up_command (fun c => set_addr2 None (set_addr1 None c)));
        let! c := addresses fuel in
        do! modify (up_command (fun c => match addr1 c with None => set_addr1 (addr2 c) c | Some _ => c end));
        let! r := command_step fuel (commands fuel) c in
        match r with
        | None => ret false
        | Some true => ret true
        | Some false => commands fuel
        end
  end.
End files.

(** The globals at the start, with the file named in the arguments. *)
Definition start (input : list Z) (name : option (list Z)) : ed :=
  Ed (Chars 0 0 (match name with Some _ => Some [114; 0] | None => None end) input) (Screen [] [] 0 0) (Text [] 0 0 (replicate 26 0))
     (Matched 0 0 0 None None (replicate 5 0) (replicate 5 0)) (Tmpfile [] 0 (-1) (-1) 0 0)
     (Command None None 0 1 0 None 0 0)
     (Bufs (replicate 512 0) (replicate 256 0) (replicate 132 0) (replicate 512 0) (replicate 512 0) (replicate 512 0)
           (take 64 (default [] name ++ replicate 64 0)) (replicate 64 0))
     [].

Definition main {files : EdFiles} (fuel : nat) : M ed bool := do! init; commands fuel.
