(* ===== verification/EdRegex.v ===== *)
(** The regular expressions of the editor: [compile] translates a pattern into
    the code in [expbuf], and [advance] and [search] find the leftmost match,
    its stars as long as possible. *)

From S2P Require Import Prelude Ed.

(** * Arrays *)

Lemma s8_id z : - 2 ^ 7 <= z < 2 ^ 7 -> s8 z = z.
Proof. intros H. unfold s8. rewrite Z.mod_small; lia. Qed.

Lemma wp_peek b i x Q s : elem (buf_of b (bufs_of s)) i = Some x -> Q x s -> wp (peek b i) Q s.
Proof. intros Hx HQ. unfold peek. wp_use wp_deref; [exact Hx|done]. Qed.

Lemma wp_poke b i x y Q s :
  elem (buf_of b (bufs_of s)) i = Some y -> Q tt (up_bufs (fun t => set_buf b (<[Z.to_nat i := s8 x]> (buf_of b t)) t) s) -> wp (poke b i x) Q s.
Proof. intros Hx HQ. unfold poke. wp_use wp_deref; [exact Hx|]. wp_steps. done. Qed.

Lemma elem_nat l i : elem l (Z.of_nat i) = l !! i.
Proof. unfold elem. destruct (Z.ltb_spec (Z.of_nat i) 0); [lia|]. by rewrite Nat2Z.id. Qed.

(** * Syntax *)

Inductive atom : Type := AChar (c : Z) | ADot | AClass (neg : bool) (cs : list Z).

Inductive item : Type := IOne (a : atom) | IStar (a : atom) | IEnd | IBra (n : Z) | IKet (n : Z).

Definition accepts (a : atom) (c : Z) : bool :=
  negb (c =? 0) &&
  match a with
  | AChar x => c =? x
  | ADot => true
  | AClass neg cs => xorb neg (bool_decide (c ∈ cs))
  end.

Definition char7 (c : Z) : Prop := 0 < c < 128.

Definition atom_ok (a : atom) : Prop :=
  match a with
  | AChar c => char7 c
  | ADot => True
  | AClass _ cs => cs <> [] /\ Forall char7 cs /\ (length cs < 127)%nat
  end.

Definition item_ok (x : item) : Prop :=
  match x with
  | IOne a | IStar a => atom_ok a
  | IEnd => True
  | IBra n | IKet n => 0 <= n < NBRA
  end.

(** The code of a pattern. *)
Definition atom_code (star : Z) (a : atom) : list Z :=
  match a with
  | AChar c => [Z.lor CCHR star; c]
  | ADot => [Z.lor CDOT star]
  | AClass neg cs => Z.lor (if neg then NCCL else CCL) star :: (1 + Z.of_nat (length cs)) :: cs
  end.

Definition item_code (x : item) : list Z :=
  match x with
  | IOne a => atom_code 0 a
  | IStar a => atom_code STAR a
  | IEnd => [CDOL]
  | IBra n => [CBRA; n]
  | IKet n => [CKET; n]
  end.

Definition code (r : list item) : list Z := concat (map item_code r) ++ [CEOF].

(** * Matches *)

(** A bracket that was passed: its kind, number and position. *)
Definition capture : Type := bool * Z * nat.

(** [matches w locs r i j cs]: the pattern [r] matches the line [w] from [i] to
    [j] and passes the brackets [cs].  A star does not end at [locs]. *)
Inductive matches (w : list Z) (locs : option Z) : list item -> nat -> nat -> list capture -> Prop :=
| m_nil i : matches w locs [] i i []
| m_one a r i j c cs :
    w !! i = Some c -> accepts a c = true -> matches w locs r (S i) j cs -> matches w locs (IOne a :: r) i j cs
| m_star a r i k j cs :
    (i <= k <= length w)%nat -> (forall n c, (i <= n < k)%nat -> w !! n = Some c -> accepts a c = true) ->
    locs <> Some (Z.of_nat k) -> matches w locs r k j cs -> matches w locs (IStar a :: r) i j cs
| m_end r i j cs : i = length w -> matches w locs r i j cs -> matches w locs (IEnd :: r) i j cs
| m_bra n r i j cs : matches w locs r i j cs -> matches w locs (IBra n :: r) i j ((true, n, i) :: cs)
| m_ket n r i j cs : matches w locs r i j cs -> matches w locs (IKet n :: r) i j ((false, n, i) :: cs).

(** The number of characters from [i] on that are accepted. *)
Fixpoint run (a : atom) (l : list Z) : nat :=
  match l with
  | [] => O
  | c :: l => if accepts a c then S (run a l) else O
  end.

(** The matches in the order in which they are tried: a star takes as many
    characters as it can first. *)
Fixpoint ways (w : list Z) (locs : option Z) (r : list item) (i : nat) : list (nat * list capture) :=
  match r with
  | [] => [(i, [])]
  | IOne a :: r =>
      match w !! i with
      | Some c => if accepts a c then ways w locs r (S i) else []
      | None => []
      end
  | IStar a :: r =>
      let n := run a (drop i w) in
      (fix down (n : nat) : list (nat * list capture) :=
         if bool_decide (locs = Some (Z.of_nat (i + n))) then []
         else ways w locs r (i + n) ++ match n with O => [] | S n => down n end) n
  | IEnd :: r => if (i =? length w)%nat then ways w locs r i else []
  | IBra n :: r => (fun p => (p.1, (true, n, i) :: p.2)) <$> ways w locs r i
  | IKet n :: r => (fun p => (p.1, (false, n, i) :: p.2)) <$> ways w locs r i
  end.

(** The matches of the rest after a star that takes at most [n] characters. *)
Fixpoint down (w : list Z) (locs : option Z) (r : list item) (i n : nat) : list (nat * list capture) :=
  if bool_decide (locs = Some (Z.of_nat (i + n))) then []
  else ways w locs r (i + n) ++ match n with O => [] | S n => down w locs r i n end.

Lemma ways_star w locs a r i : ways w locs (IStar a :: r) i = down w locs r i (run a (drop i w)).
Proof. cbn [ways]. induction (run a (drop i w)) as [|n IH]; cbn [down]; [done|]. by rewrite IH. Qed.

Lemma run_length a l : (run a l <= length l)%nat.
Proof. induction l as [|c l IH]; cbn; [lia|]. destruct (accepts a c); lia. Qed.

Lemma run_accepts a l n c : (n < run a l)%nat -> l !! n = Some c -> accepts a c = true.
Proof.
  revert n. induction l as [|x l IH]; intros n Hn Hc; [cbn in Hn; lia|]. cbn [run] in Hn. destruct (accepts a x) eqn:E; [|lia].
  destruct n as [|n]; [by injection Hc as <-|]. apply (IH n); [lia|done].
Qed.

Lemma run_max a l k : (k <= length l)%nat -> (forall n c, (n < k)%nat -> l !! n = Some c -> accepts a c = true) -> (k <= run a l)%nat.
Proof.
  revert k. induction l as [|x l IH]; intros k Hk Ha; [cbn in *; lia|]. destruct k as [|k]; [lia|]. cbn [run].
  rewrite (Ha O x) by (done || lia). cbn [length] in Hk. enough (k <= run a l)%nat by lia. apply IH; [lia|]. intros n c Hn. apply (Ha (S n)). lia.
Qed.

Lemma elem_down w locs r i n x :
  (forall z, locs = Some z -> z <= Z.of_nat i) ->
  x ∈ down w locs r i n <-> exists k, (i <= k <= i + n)%nat /\ locs <> Some (Z.of_nat k) /\ x ∈ ways w locs r k.
Proof.
  intros Hl. induction n as [|n IH]; cbn [down]; case_bool_decide as E.
  - split; [set_solver|]. intros (k & Hk & Hne & _). destruct Hne. rewrite E. do 2 f_equal. lia.
  - rewrite app_nil_r. split; [intros Hx; exists (i + 0)%nat; split_and!; (lia || done)|]. intros (k & Hk & _ & Hx). by replace (i + 0)%nat with k by lia.
  - apply Hl in E. lia.
  - rewrite elem_of_app, IH. split.
    + intros [Hx|(k & Hk & Hne & Hx)]; [exists (i + S n)%nat; split_and!; (lia || done)|]. exists k. split_and!; (lia || done).
    + intros (k & Hk & Hne & Hx). destruct (decide (k = i + S n)%nat) as [->|]; [by left|]. right. exists k. split_and!; (lia || done).
Qed.

Lemma star_run w a i k :
  (i <= length w)%nat ->
  ((i <= k <= length w)%nat /\ (forall n c, (i <= n < k)%nat -> w !! n = Some c -> accepts a c = true)) <-> (i <= k <= i + run a (drop i w))%nat.
Proof.
  intros Hi. pose proof (run_length a (drop i w)) as Hr. rewrite length_drop in Hr. split.
  - intros [Hk Ha]. split; [lia|]. enough (k - i <= run a (drop i w))%nat by lia. apply run_max; [rewrite length_drop; lia|].
    intros n c Hn. rewrite lookup_drop. apply Ha. lia.
  - intros Hk. split; [lia|]. intros n c Hn Hc. apply (run_accepts a (drop i w) (n - i)); [lia|]. rewrite lookup_drop. by replace (i + (n - i))%nat with n by lia.
Qed.

(** [ways] lists the matches. *)
Lemma ways_matches w locs r i j cs :
  (forall z, locs = Some z -> z <= Z.of_nat i) -> (i <= length w)%nat ->
  (j, cs) ∈ ways w locs r i <-> matches w locs r i j cs.
Proof.
  revert i j cs. induction r as [|x r IH]; intros i j cs Hl Hi.
  { cbn. rewrite list_elem_of_singleton. split; [intros [= -> ->]; constructor|]. by inversion 1. }
  destruct x as [a|a| |n|n].
  - cbn [ways]. split.
    + destruct (w !! i) as [c|] eqn:E; [|set_solver]. destruct (accepts a c) eqn:Ea; [|set_solver]. pose proof (lookup_lt_Some _ _ _ E) as Hlt.
      intros Hx. apply (m_one w locs a r i j c cs E Ea). apply IH; [intros z Hz; apply Hl in Hz; lia|lia|done].
    + inversion 1 as [|? ? ? ? c ? E Ea Hm| | | |]; subst. rewrite E, Ea. pose proof (lookup_lt_Some _ _ _ E) as Hlt.
      apply IH; [intros z Hz; apply Hl in Hz; lia|lia|done].
  - rewrite ways_star, elem_down by done. split.
    + intros (k & Hk & Hne & Hx). apply star_run in Hk as [Hk Ha]; [|done]. apply (m_star w locs a r i k j cs Hk Ha Hne).
      apply IH; [intros z Hz; apply Hl in Hz; lia|lia|done].
    + inversion 1 as [| |? ? ? k ? ? Hk Ha Hne Hm| | |]; subst. exists k. split_and!; [lia|by apply (star_run w a i k)|done|].
      apply IH; [intros z Hz; apply Hl in Hz; lia|lia|done].
  - cbn [ways]. destruct (Nat.eqb_spec i (length w)) as [E|E]; split; try set_solver.
    + intros Hx. apply m_end; [done|]. by apply IH.
    + inversion 1; subst. by apply IH.
    + by inversion 1.
  - cbn [ways]. rewrite list_elem_of_fmap. split.
    + intros ([j' cs'] & [= -> ->] & Hx). constructor. by apply IH.
    + inversion 1 as [| | | |? ? ? ? cs' Hm|]; subst. exists (j, cs'). split; [done|]. by apply IH.
  - cbn [ways]. rewrite list_elem_of_fmap. split.
    + intros ([j' cs'] & [= -> ->] & Hx). constructor. by apply IH.
    + inversion 1 as [| | | | |? ? ? ? cs' Hm]; subst. exists (j, cs'). split; [done|]. by apply IH.
Qed.

(** * The state of a match *)

Definition nums (b : bool) (r : list item) : list Z :=
  omap (fun x => match x with IBra n => if b then Some n else None | IKet n => if b then None else Some n | _ => None end) r.

Definition brackets (b : bool) (m : matched) : list Z := if b then braslist m else braelist m.

(** A step of the matcher leaves all but [loc2] and the brackets of [r]. *)
Definition kept (r : list item) (s s' : ed) : Prop :=
  exists l2 bs be,
    s' = up_matched (fun m => Matched (circfl m) (loc1 m) l2 (locs m) (linebp m) bs be) s /\
    length bs = length (braslist (matched_of s)) /\ length be = length (braelist (matched_of s)) /\
    (forall b n, 0 <= n -> n ∉ nums b r -> (if b then bs else be) !! Z.to_nat n = brackets b (matched_of s) !! Z.to_nat n).

Definition holds (s : ed) (c : capture) : Prop := brackets c.1.1 (matched_of s) !! Z.to_nat c.1.2 = Some (Z.of_nat c.2).

(** What the matcher returns: whether there is a match, and the first one. *)
Definition outcome_of (found : option (nat * list capture)) (b : bool) (s : ed) : Prop :=
  match found with
  | Some (j, cs) => b = true /\ loc2 (matched_of s) = Z.of_nat j /\ Forall (holds s) cs
  | None => b = false
  end.

Lemma kept_refl r s : kept r s s.
Proof. exists (loc2 (matched_of s)), (braslist (matched_of s)), (braelist (matched_of s)). split_and!; try done. by destruct s as [? ? ? [] ? ? ? ?]. Qed.

Lemma kept_trans r s1 s2 s3 : kept r s1 s2 -> kept r s2 s3 -> kept r s1 s3.
Proof.
  intros (l & bs & be & -> & H1 & H2 & H3) (l' & bs' & be' & -> & H4 & H5 & H6). exists l', bs', be'. cbn in *. split_and!; try congruence; [done|].
  intros b n Hn Hr. rewrite (H6 b n Hn Hr), <- (H3 b n Hn Hr). by destruct b.
Qed.

Lemma kept_cons x r s s' : kept r s s' -> kept (x :: r) s s'.
Proof.
  intros (l & bs & be & -> & H1 & H2 & H3). exists l, bs, be. split_and!; try done. intros b n Hn Hr. apply H3; [done|].
  intros Hin. apply Hr. unfold nums. cbn [omap list_omap]. destruct x as [| | |m|m], b; try done; by right.
Qed.

Lemma kept_same r s s' : kept r s s' -> bufs_of s' = bufs_of s /\ locs (matched_of s') = locs (matched_of s) /\ length (braslist (matched_of s')) = length (braslist (matched_of s)) /\ length (braelist (matched_of s')) = length (braelist (matched_of s)).
Proof. intros (l & bs & be & -> & H1 & H2 & H3). done. Qed.

(** * The matcher *)

Definition char8 (c : Z) : Prop := c <> 0 /\ - 2 ^ 7 <= c < 2 ^ 7.

(** [linebuf] holds the line [w]. *)
Definition line_is (w : list Z) (s : ed) : Prop :=
  Forall char8 w /\ (length w < Z.to_nat LBSIZE)%nat /\ exists rest, linebuf (bufs_of s) = w ++ 0 :: rest.

(** [expbuf] holds [l] at [ep]. *)
Definition code_at (ep : nat) (l : list Z) (s : ed) : Prop := l `prefix_of` drop ep (expbuf (bufs_of s)).

Lemma line_peek w s i : line_is w s -> (i <= length w)%nat -> elem (buf_of LINEBUF (bufs_of s)) (Z.of_nat i) = Some (default 0 (w !! i)).
Proof.
  intros (_ & _ & rest & E) Hi. rewrite elem_nat. cbn [buf_of]. rewrite E. destruct (w !! i) as [c|] eqn:Ec.
  - by rewrite lookup_app_l by (by eapply lookup_lt_Some).
  - apply lookup_ge_None in Ec. replace i with (length w) by lia. by rewrite lookup_app_r, Nat.sub_diag by lia.
Qed.

Lemma code_peek ep l s n x : code_at ep l s -> l !! n = Some x -> elem (buf_of EXPBUF (bufs_of s)) (Z.of_nat (ep + n)) = Some x.
Proof. intros [k E] Hx. rewrite elem_nat. cbn [buf_of]. rewrite <- lookup_drop, E. rewrite lookup_app_l by (by eapply lookup_lt_Some). done. Qed.

Lemma code_at_app ep l1 l2 s : code_at ep (l1 ++ l2) s -> code_at ep l1 s /\ code_at (ep + length l1) l2 s.
Proof.
  intros [k E]. split; [exists (l2 ++ k); by rewrite E, <- app_assoc|]. exists k.
  rewrite <- drop_drop, E, <- app_assoc. by rewrite drop_app_length.
Qed.

Lemma code_at_cons ep x l s : code_at ep (x :: l) s -> code_at (S ep) l s.
Proof. intros H. apply (code_at_app ep [x] l) in H as [_ H]. by rewrite Nat.add_1_r in H. Qed.

Lemma code_head ep x l s : code_at ep (x :: l) s -> elem (buf_of EXPBUF (bufs_of s)) (Z.of_nat ep) = Some x.
Proof. intros H. rewrite <- (Nat.add_0_r ep). by apply (code_peek _ _ _ _ _ H). Qed.

Lemma line_is_kept r w s s' : kept r s s' -> line_is w s -> line_is w s'.
Proof. intros H. unfold line_is. by rewrite (proj1 (kept_same _ _ _ H)). Qed.

Lemma code_at_kept r ep l s s' : kept r s s' -> code_at ep l s -> code_at ep l s'.
Proof. intros H. unfold code_at. by rewrite (proj1 (kept_same _ _ _ H)). Qed.

Lemma line_char w s i : line_is w s -> - 2 ^ 7 <= default 0 (w !! i) < 2 ^ 7.
Proof. intros (H & _). destruct (w !! i) as [c|] eqn:E; cbn; [|lia]. by apply (Forall_lookup_1 _ _ _ _ H) in E as []. Qed.

Lemma wp_class_loop cs c ep s Q :
  code_at ep cs s -> Q (bool_decide (c ∈ cs)) s -> wp (class_loop (length cs) (Z.of_nat ep) c) Q s.
Proof.
  revert ep. induction cs as [|x cs IH]; intros ep Hc HQ; cbn [class_loop length].
  { wp_steps. by rewrite bool_decide_eq_false_2 in HQ by set_solver. }
  wp_use wp_peek; [by eapply code_head|]. destruct (Z.eqb_spec x c) as [->|Hne]; wp_steps.
  { by rewrite bool_decide_eq_true_2 in HQ by set_solver. }
  replace (Z.of_nat ep + 1) with (Z.of_nat (S ep)) by lia. apply IH; [by eapply code_at_cons|].
  erewrite bool_decide_ext; [exact HQ|]. set_solver.
Qed.

Lemma wp_cclass neg cs c ep s Q :
  code_at ep (1 + Z.of_nat (length cs) :: cs) s -> - 2 ^ 7 <= c < 2 ^ 7 -> Q (accepts (AClass neg cs) c) s ->
  wp (cclass (Z.of_nat ep) c (negb neg)) Q s.
Proof.
  intros Hc Hr HQ. unfold cclass, accepts in *. rewrite s8_id by done. destruct (c =? 0) eqn:E; wp_steps; [done|].
  wp_use wp_peek; [by eapply code_head|]. destruct (Z.leb_spec (1 + Z.of_nat (length cs)) 0); [lia|]. wp_steps.
  replace (Z.to_nat (1 + Z.of_nat (length cs) - 1)) with (length cs) by lia. replace (Z.of_nat ep + 1) with (Z.of_nat (S ep)) by lia.
  apply wp_class_loop; [by eapply code_at_cons|]. wp_steps. by destruct (bool_decide (c ∈ cs)), neg.
Qed.

Lemma accepts_nul a : accepts a 0 = false.
Proof. done. Qed.

(** The scan over the characters that a starred atom accepts. *)
Lemma wp_scan w a (test : Z -> M ed bool) fuel i s Q :
  line_is w s -> (i <= length w)%nat -> (run a (drop i w) < fuel)%nat ->
  (forall c R, - 2 ^ 7 <= c < 2 ^ 7 -> R (accepts a c) s -> wp (test c) R s) ->
  Q (Z.of_nat (i + run a (drop i w)) + 1) s -> wp (scan fuel test (Z.of_nat i)) Q s.
Proof.
  intros Hw. revert i. induction fuel as [|fuel IH]; intros i Hi Hf Ht HQ; [lia|]. cbn [scan].
  wp_use wp_peek; [by apply (line_peek w)|]. wp_steps. apply Ht; [by eapply line_char|]. destruct (w !! i) as [c|] eqn:E; cbn [from_option id].
  - pose proof (lookup_lt_Some _ _ _ E) as Hlt. rewrite (drop_S _ _ _ E) in *. cbn [run] in *. destruct (accepts a c) eqn:Ea; wp_steps.
    + replace (Z.of_nat i + 1) with (Z.of_nat (S i)) by lia. apply IH; [lia|lia|done|]. by replace (S i + run a (drop (S i) w))%nat with (i + S (run a (drop (S i) w)))%nat by lia.
    + by replace (i + 0)%nat with i in HQ by lia.
  - rewrite accepts_nul. wp_steps. rewrite (drop_ge w i) in HQ by (by apply lookup_ge_None). cbn [run] in HQ. by rewrite Nat.add_0_r in HQ.
Qed.

(** What the matcher promises of the pattern [r] at [k]. *)
Definition finds (w : list Z) (r : list item) (k : nat) (s : ed) (b : bool) (s' : ed) : Prop :=
  kept r s s' /\ outcome_of (head (ways w (locs (matched_of s)) r k)) b s'.

Lemma outcome_first l1 l2 s : outcome_of (head l1) true s -> outcome_of (head (l1 ++ l2)) true s.
Proof. by destruct l1 as [|[j cs] l1]. Qed.

Lemma outcome_next l1 l2 b s s' : outcome_of (head l1) false s -> outcome_of (head l2) b s' -> outcome_of (head (l1 ++ l2)) b s'.
Proof. destruct l1 as [|[j cs] l1]; cbn; [done|]. by intros []. Qed.

(** The loop tries the positions from the last one down. *)
Lemma wp_star w r i (adv : Z -> M ed bool) n s :
  (forall k s1, kept r s s1 -> (i <= k <= i + n)%nat -> wp (adv (Z.of_nat k)) (finds w r k s1) s1) ->
  wp (star (S n) adv (Z.of_nat (i + n) + 1)) (fun b s' => kept r s s' /\ outcome_of (head (down w (locs (matched_of s)) r i n)) b s') s.
Proof.
  revert s. induction n as [|n IH]; intros s Ha; cbn [star down]; wp_steps.
  - replace (Z.of_nat (i + 0) + 1 - 1) with (Z.of_nat (i + 0)) by lia. case_bool_decide; wp_steps; [by split; [apply kept_refl|]|].
    wp_use wp_mono; [apply Ha; [apply kept_refl|lia]|]. intros b s' [Hk Ho]. rewrite app_nil_r. destruct b; wp_steps; [by split|]. cbn [star]. wp_steps. by split.
  - replace (Z.of_nat (i + S n) + 1 - 1) with (Z.of_nat (i + S n)) by lia. case_bool_decide; wp_steps; [by split; [apply kept_refl|]|].
    wp_use wp_mono; [apply Ha; [apply kept_refl|lia]|]. intros b s' [Hk Ho]. destruct b; wp_steps; [by split; [|apply outcome_first]|].
    replace (Z.of_nat (i + S n)) with (Z.of_nat (i + n) + 1) by lia. eapply wp_mono; [apply IH|].
    + intros k s1 Hk1 Hin. apply Ha; [by eapply kept_trans|lia].
    + intros b s2 [Hk2 Ho2]. rewrite (proj1 (proj2 (kept_same _ _ _ Hk))) in Ho2. split; [by eapply kept_trans|]. by eapply outcome_next.
Qed.

Definition brackets_ok (s : ed) : Prop := length (braslist (matched_of s)) = Z.to_nat NBRA /\ length (braelist (matched_of s)) = Z.to_nat NBRA.

Definition regex_ok (r : list item) : Prop := Forall item_ok r /\ NoDup (nums true r) /\ NoDup (nums false r).

Lemma brackets_ok_kept r s s' : kept r s s' -> brackets_ok s -> brackets_ok s'.
Proof. intros H. unfold brackets_ok. destruct (kept_same _ _ _ H) as (_ & _ & -> & ->). done. Qed.

Lemma regex_ok_cons x r : regex_ok (x :: r) -> item_ok x /\ regex_ok r.
Proof.
  intros (H1 & H2 & H3). apply Forall_cons in H1 as [Hx Hr]. split; [done|]. unfold nums in *. cbn [omap list_omap] in *.
  split_and!; [done| |]; destruct x; try done; by eapply NoDup_cons.
Qed.

Lemma finds_cons w x r k k' s b s' :
  (kept r s s' -> outcome_of (head (ways w (locs (matched_of s)) r k)) b s' -> outcome_of (head (ways w (locs (matched_of s)) (x :: r) k')) b s') ->
  finds w r k s b s' -> finds w (x :: r) k' s b s'.
Proof. intros Hi [Hk Ho]. split; [by apply kept_cons|auto]. Qed.

Lemma finds_none w r k s : ways w (locs (matched_of s)) r k = [] -> finds w r k s false s.
Proof. intros E. split; [apply kept_refl|by rewrite E]. Qed.

(** A bracket is stored before the rest is matched, which leaves it. *)
Lemma bracket_finds (b : bool) n w r k s s0 v s' :
  let x := if b then IBra n else IKet n in
  0 <= n < NBRA -> brackets_ok s -> n ∉ nums b r ->
  s0 = up_matched (fun m => if b then set_braslist (<[Z.to_nat n := Z.of_nat k]> (braslist m)) m else set_braelist (<[Z.to_nat n := Z.of_nat k]> (braelist m)) m) s ->
  finds w r k s0 v s' -> finds w (x :: r) k s v s'.
Proof.
  intros x Hn [Hl1 Hl2] Hnum -> [Hk Ho]. assert (Hlen : (Z.to_nat n < Z.to_nat NBRA)%nat) by lia.
  assert (Hw : ways w (locs (matched_of s)) (x :: r) k = (fun p => (p.1, (b, n, k) :: p.2)) <$> ways w (locs (matched_of s)) r k) by (by destruct b).
  split.
  - destruct Hk as (l2 & bs & be & -> & H1 & H2 & H3). exists l2, bs, be. subst x. destruct b; cbn in *; rewrite ?length_insert in *; (split_and!; [done..|]).
    + intros b m Hm Hr. rewrite (H3 b m Hm). 2:{ destruct b; set_solver. } destruct b; cbn; [|done]. rewrite list_lookup_insert_ne; [done|]. set_solver by lia.
    + intros b m Hm Hr. rewrite (H3 b m Hm). 2:{ destruct b; set_solver. } destruct b; cbn; [done|]. rewrite list_lookup_insert_ne; [done|]. set_solver by lia.
  - rewrite Hw. replace (locs (matched_of (up_matched _ s))) with (locs (matched_of s)) in Ho by (by destruct b).
    destruct (ways w (locs (matched_of s)) r k) as [|[j cs] l]; [done|]. cbn [fmap list_fmap head outcome_of fst snd] in *. destruct Ho as (-> & Hl & Hc).
    split_and!; try done. constructor; [|done]. destruct Hk as (l2 & bs & be & -> & H1 & H2 & H3). unfold holds. cbn [fst snd].
    specialize (H3 b n ltac:(lia) Hnum). destruct b; cbn in *; rewrite H3, list_lookup_insert_eq; (done || lia).
Qed.

(** The operation codes are distinct. *)
Ltac pick_op := repeat match goal with |- context [?a =? ?b] => let v := eval vm_compute in (a =? b) in change (a =? b) with v end; cbn [orb]; wp_red.

Lemma set_nth_ok l n x : 0 <= n < Z.of_nat (length l) -> set_nth l n x = Some (<[Z.to_nat n := x]> l).
Proof. intros H. unfold set_nth. destruct (Z.ltb_spec n 0), (Z.leb_spec (Z.of_nat (length l)) n); cbn; (done || lia). Qed.

Lemma succ_of_nat n : Z.of_nat n + 1 = Z.of_nat (S n).
Proof. lia. Qed.

(** The matcher at a starred atom, from what it does with the rest. *)
Lemma wp_from w a r i fuel next (test : Z -> M ed bool) s :
  line_is w s -> (i <= length w)%nat ->
  (forall c R, - 2 ^ 7 <= c < 2 ^ 7 -> R (accepts a c) s -> wp (test c) R s) ->
  (forall k s1, kept r s s1 -> (k <= length w)%nat -> wp (advance fuel (Z.of_nat k) next) (finds w r k s1) s1) ->
  wp (let! lp := scan scan_size test (Z.of_nat i) in star (Z.to_nat (lp - Z.of_nat i)) (fun lp => advance fuel lp next) lp) (finds w (IStar a :: r) i s) s.
Proof.
  intros Hw Hi Ht Ha. pose proof (run_length a (drop i w)) as Hr. rewrite length_drop in Hr. wp_use wp_scan; [exact Hw|done| |exact Ht|].
  { destruct Hw as (_ & Hl & _). unfold scan_size. lia. }
  replace (Z.to_nat _) with (S (run a (drop i w))) by lia. eapply wp_mono; [apply (wp_star w r)|].
  - intros k s1 Hk Hin. apply Ha; [done|lia].
  - intros b s' [Hk Ho]. split; [by apply kept_cons|]. by rewrite ways_star.
Qed.

Section advance.
Variables (w : list Z) (r : list item) (fuel : nat).
Hypothesis IH : forall i ep s,
  line_is w s -> brackets_ok s -> (i <= length w)%nat -> code_at ep (code r) s -> wp (advance fuel (Z.of_nat i) (Z.of_nat ep)) (finds w r i s) s.
Variables (i ep : nat) (s : ed).
Hypotheses (Hw : line_is w s) (Hb : brackets_ok s) (Hi : (i <= length w)%nat).

Lemma advance_rest k ep' s1 : kept r s s1 -> (k <= length w)%nat -> code_at ep' (code r) s -> wp (advance fuel (Z.of_nat k) (Z.of_nat ep')) (finds w r k s1) s1.
Proof using IH Hw Hb. intros Hk Hle Hc. apply IH; [by eapply line_is_kept|by eapply brackets_ok_kept|done|by eapply code_at_kept]. Qed.

(** After an atom that accepts the character, or refuses it. *)
Lemma advance_one a (t : bool) ep' :
  code_at ep' (code r) s -> accepts a (default 0 (w !! i)) = t ->
  wp (if t then advance fuel (Z.of_nat (S i)) (Z.of_nat ep') else ret false) (finds w (IOne a :: r) i s) s.
Proof using IH Hw Hb Hi.
  intros Hc Ht. destruct t; wp_steps.
  - destruct (w !! i) as [c|] eqn:E; [|done]. pose proof (lookup_lt_Some _ _ _ E).
    eapply wp_mono; [apply advance_rest; [apply kept_refl|lia|done]|]. intros b s'. apply finds_cons. intros _ Ho. cbn [ways from_option id] in *. by rewrite E, Ht.
  - apply finds_none. cbn [ways]. destruct (w !! i); [|done]. cbn [from_option id] in Ht. by rewrite Ht.
Qed.

(** The operation code at [ep] is read first. *)
Ltac start_op Hc := apply code_at_app in Hc as [Hx Hc]; cbn [advance]; wp_use wp_peek; [by eapply code_head|]; wp_red; rewrite ?succ_of_nat; cbn [item_code atom_code length] in *; apply code_at_cons in Hx.

Lemma wp_advance_one a : atom_ok a -> code_at ep (item_code (IOne a) ++ code r) s -> wp (advance (S fuel) (Z.of_nat i) (Z.of_nat ep)) (finds w (IOne a :: r) i s) s.
Proof using IH Hw Hb Hi.
  intros Hok Hc. pose proof (line_peek _ _ _ Hw Hi) as Hp. pose proof (line_char w s i Hw) as H8. destruct a as [c| |neg cs]; start_op Hc.
  - pick_op. wp_use wp_peek; [by eapply code_head|]. wp_use wp_peek; [exact Hp|]. wp_red. replace (ep + 2)%nat with (S (S ep)) in Hc by lia.
    apply (advance_one (AChar c)); [done|]. unfold accepts. destruct Hok as [Hok _]. rewrite (Z.eqb_sym c).
    destruct (Z.eqb_spec (default 0 (w !! i)) c), (Z.eqb_spec (default 0 (w !! i)) 0); cbn; (done || lia).
  - pick_op. wp_use wp_peek; [exact Hp|]. rewrite Nat.add_1_r in Hc. apply (advance_one ADot); [done|]. unfold accepts. by rewrite andb_true_r.
  - assert (Hend : Z.of_nat (S ep) + (1 + Z.of_nat (length cs)) = Z.of_nat (ep + S (S (length cs)))) by lia.
    assert (Hgo : wp (let! r := cclass (Z.of_nat (S ep)) (default 0 (w !! i)) (negb neg) in if r then let! n := peek EXPBUF (Z.of_nat (S ep)) in advance fuel (Z.of_nat (S i)) (Z.of_nat (S ep) + n) else ret false) (finds w (IOne (AClass neg cs) :: r) i s) s).
    { wp_use (wp_cclass neg cs); [done|done|]. destruct (accepts (AClass neg cs) (default 0 (w !! i))) eqn:Ea; wp_red.
      - wp_use wp_peek; [by eapply code_head|]. wp_red. rewrite Hend. by apply (advance_one (AClass neg cs) true).
      - by apply (advance_one (AClass neg cs) false _ Hc). }
    destruct neg; pick_op; (wp_use wp_peek; [exact Hp|]); exact Hgo.
Qed.

Lemma wp_advance_star a : atom_ok a -> code_at ep (item_code (IStar a) ++ code r) s -> wp (advance (S fuel) (Z.of_nat i) (Z.of_nat ep)) (finds w (IStar a :: r) i s) s.
Proof using IH Hw Hb Hi.
  intros Hok Hc. destruct a as [c| |neg cs]; start_op Hc.
  - pick_op. apply (wp_from w (AChar c)); [done|done| |].
    + intros y R Hy HR. wp_use wp_peek; [by eapply code_head|]. wp_steps. enough (accepts (AChar c) y = (y =? c)) as <- by done. destruct Hok. unfold accepts.
      destruct (Z.eqb_spec y c), (Z.eqb_spec y 0); cbn; (done || lia).
    + intros k s1 Hk Hle. apply advance_rest; [done|done|]. by replace (S (S ep)) with (ep + 2)%nat by lia.
  - pick_op. apply (wp_from w ADot); [done|done| |].
    + intros y R Hy HR. wp_steps. unfold accepts in HR. by rewrite andb_true_r in HR.
    + intros k s1 Hk Hle. apply advance_rest; [done|done|]. by replace (S ep) with (ep + 1)%nat by lia.
  - assert (Hgo : wp (let! lp := scan scan_size (fun c => cclass (Z.of_nat (S ep)) c (negb neg)) (Z.of_nat i) in star (Z.to_nat (lp - Z.of_nat i)) (fun lp => advance fuel lp (Z.of_nat (ep + S (S (length cs))))) lp) (finds w (IStar (AClass neg cs) :: r) i s) s).
    { apply wp_from; [done|done| |]; [by intros; eapply wp_cclass|]. intros k s1 Hk Hle. by apply advance_rest. }
    destruct neg; pick_op; (wp_use wp_peek; [by eapply code_head|]); wp_red;
      (replace (Z.of_nat (S ep) + (1 + Z.of_nat (length cs))) with (Z.of_nat (ep + S (S (length cs)))) by lia); exact Hgo.
Qed.

Lemma wp_advance_bracket (b : bool) n :
  0 <= n < NBRA -> n ∉ nums b r -> code_at ep (item_code (if b then IBra n else IKet n) ++ code r) s ->
  wp (advance (S fuel) (Z.of_nat i) (Z.of_nat ep)) (finds w ((if b then IBra n else IKet n) :: r) i s) s.
Proof using IH Hw Hb Hi.
  intros Hn Hnum Hc. pose proof Hb as [Hl1 Hl2]. destruct b; start_op Hc; pick_op; (wp_use wp_peek; [by eapply code_head|]); wp_red; rewrite ?succ_of_nat; replace (ep + 2)%nat with (S (S ep)) in Hc by lia.
  - wp_use wp_deref; [apply set_nth_ok; unfold NBRA in *; lia|]. wp_steps. eapply wp_mono; [apply IH; [done| |done|done]|].
    + split; cbn; [by rewrite length_insert|done].
    + intros v s'. by apply (bracket_finds true).
  - wp_use wp_deref; [apply set_nth_ok; unfold NBRA in *; lia|]. wp_steps. eapply wp_mono; [apply IH; [done| |done|done]|].
    + split; cbn; [done|by rewrite length_insert].
    + intros v s'. by apply (bracket_finds false).
Qed.

Lemma wp_advance_end : code_at ep (item_code IEnd ++ code r) s -> wp (advance (S fuel) (Z.of_nat i) (Z.of_nat ep)) (finds w (IEnd :: r) i s) s.
Proof using IH Hw Hb Hi.
  intros Hc. start_op Hc. pick_op. wp_use wp_peek; [by apply (line_peek w)|]. rewrite Nat.add_1_r in Hc. pose proof Hw as (H8 & _).
  destruct (w !! i) as [c|] eqn:E; cbn [from_option id].
  - apply (Forall_lookup_1 _ _ _ _ H8) in E as Hne. destruct (Z.eqb_spec c 0); [by destruct Hne|]. wp_steps. apply finds_none. cbn [ways].
    apply lookup_lt_Some in E. destruct (Nat.eqb_spec i (length w)); [lia|done].
  - apply lookup_ge_None in E. wp_red. change (0 =? 0) with true. wp_red. eapply wp_mono; [by apply IH|]. intros b s'. apply finds_cons. intros _ Ho. cbn [ways].
    destruct (Nat.eqb_spec i (length w)); [done|lia].
Qed.
End advance.

(** [advance] finds the first match of the pattern at [i], when there is one. *)
Lemma wp_advance_code w r fuel i ep s :
  (length r < fuel)%nat -> regex_ok r -> line_is w s -> brackets_ok s -> (i <= length w)%nat -> code_at ep (code r) s ->
  wp (advance fuel (Z.of_nat i) (Z.of_nat ep)) (finds w r i s) s.
Proof.
  revert fuel i ep s. induction r as [|x r IH]; intros fuel i ep s Hf Hr Hw Hb Hi Hc; (destruct fuel as [|fuel]; [cbn in Hf; lia|]).
  { cbn [advance]. change (code_at ep [CEOF] s) in Hc. wp_use wp_peek; [by eapply code_head|]. pick_op. wp_steps. split; [|by split_and!].
    exists (Z.of_nat i), (braslist (matched_of s)), (braelist (matched_of s)). by split_and!. }
  pose proof (regex_ok_cons _ _ Hr) as [Hx Hr']. unfold code in Hc. cbn [map concat] in Hc. rewrite <- app_assoc in Hc. change (code_at ep (item_code x ++ code r) s) in Hc.
  assert (IH' : forall i ep s, line_is w s -> brackets_ok s -> (i <= length w)%nat -> code_at ep (code r) s -> wp (advance fuel (Z.of_nat i) (Z.of_nat ep)) (finds w r i s) s).
  { intros. apply IH; try done. cbn in Hf. lia. }
  destruct Hr as (_ & N1 & N2). unfold nums in N1, N2. cbn [omap list_omap] in N1, N2. destruct x as [a|a| |n|n].
  - by apply wp_advance_one.
  - by apply wp_advance_star.
  - by apply wp_advance_end.
  - apply NoDup_cons in N1 as [N1 _]. by apply (wp_advance_bracket w r fuel IH' i ep s Hw Hb Hi true).
  - apply NoDup_cons in N2 as [N2 _]. by apply (wp_advance_bracket w r fuel IH' i ep s Hw Hb Hi false).
Qed.

(** * The search *)

(** A search changes [loc1] as well. *)
Definition searched (r : list item) (s s' : ed) : Prop := exists p s1, kept r s s1 /\ s' = up_matched (set_loc1 p) s1.

(** The leftmost match from [i] on, the one that is tried first. *)
Definition leftmost (w : list Z) (r : list item) (i : nat) (s : ed) (b : bool) (s' : ed) : Prop :=
  let l := locs (matched_of s) in
  if b then
    exists p j cs,
      (i <= p <= length w)%nat /\ head (ways w l r p) = Some (j, cs) /\ (forall p', (i <= p' < p)%nat -> ways w l r p' = []) /\
      loc1 (matched_of s') = Z.of_nat p /\ loc2 (matched_of s') = Z.of_nat j /\ Forall (holds s') cs
  else forall p, (i <= p <= length w)%nat -> ways w l r p = [].

Lemma code_length r : (length r < length (code r))%nat.
Proof.
  unfold code. rewrite length_app. enough (length r <= length (concat (map item_code r)))%nat by (cbn; lia).
  induction r as [|x r IH]; cbn [map concat length]; [lia|]. rewrite length_app. enough (1 <= length (item_code x))%nat by lia. destruct x as [[]|[]| | |]; cbn; lia.
Qed.

Lemma code_fits ep l s : code_at ep l s -> (ep <= length (expbuf (bufs_of s)) -> ep + length l <= length (expbuf (bufs_of s)))%nat.
Proof. intros [k E] Hep. apply (f_equal length) in E. rewrite length_drop, length_app in E. lia. Qed.

Definition code_size : Z := ESIZE + 4.

(** The first character of the matches, when it is known. *)
Definition starts_with (first : option Z) (w : list Z) (l : option Z) (r : list item) : Prop :=
  forall c k, first = Some c -> default 0 (w !! k) <> c -> ways w l r k = [].

Lemma advance_all_finds w r i s :
  length (expbuf (bufs_of s)) = Z.to_nat code_size -> regex_ok r -> line_is w s -> brackets_ok s -> (i <= length w)%nat -> code_at 0 (code r) s ->
  wp (advance_all (Z.of_nat i) 0) (finds w r i s) s.
Proof.
  intros He Hr Hw Hb Hi Hc. unfold advance_all. change 0 with (Z.of_nat 0). apply wp_advance_code; try done.
  pose proof (code_fits _ _ _ Hc ltac:(lia)) as Hlen. pose proof (code_length r). unfold code_size in He. lia.
Qed.

Lemma search_next w r i s1 s2 b s' :
  kept r s1 s2 -> ways w (locs (matched_of s1)) r i = [] -> (i < length w)%nat ->
  searched r s2 s' /\ leftmost w r (S i) s2 b s' -> searched r s1 s' /\ leftmost w r i s1 b s'.
Proof.
  intros Hk Hn Hi [(p & s3 & Hk3 & ->) Hl]. split; [exists p, s3; split; [by eapply kept_trans|done]|].
  unfold leftmost in *. rewrite (proj1 (proj2 (kept_same _ _ _ Hk))) in Hl. destruct b.
  - destruct Hl as (q & j & cs & Hq & Hh & Hall & H1 & H2 & H3). exists q, j, cs. split_and!; try done; [lia|lia|]. intros p' Hp'.
    destruct (decide (p' = i)) as [->|]; [done|]. apply Hall. lia.
  - intros q Hq. destruct (decide (q = i)) as [->|]; [done|]. apply Hl. lia.
Qed.

Lemma holds_loc1 p s c : holds s c -> holds (up_matched (set_loc1 p) s) c.
Proof. by destruct c as [[[] n] k]. Qed.

Lemma searched_refl r s s' : kept r s s' -> searched r s s'.
Proof. intros H. exists (loc1 (matched_of s')), s'. split; [done|]. by destruct s' as [? ? ? [] ? ? ? ?]. Qed.

Lemma wp_search w r first fuel i s :
  length (expbuf (bufs_of s)) = Z.to_nat code_size -> regex_ok r -> line_is w s -> brackets_ok s -> code_at 0 (code r) s ->
  starts_with first w (locs (matched_of s)) r -> (i <= length w)%nat -> (length w - i < fuel)%nat ->
  wp (search fuel first (Z.of_nat i)) (fun b s' => searched r s s' /\ leftmost w r i s b s') s.
Proof.
  revert i s. induction fuel as [|fuel IH]; intros i s He Hr Hw Hb Hc Hs Hi Hf; [lia|]. cbn [search].
  wp_use wp_peek; [by apply (line_peek w)|]. wp_steps.
  apply (wp_mono _ (finds w r i s)).
  { destruct first as [c|]; [|by apply advance_all_finds]. destruct (Z.eqb_spec (default 0 (w !! i)) c) as [_|Hne]; wp_red; [by apply advance_all_finds|].
    wp_steps. apply finds_none. by apply (Hs c). }
  intros b s1 [Hk Ho]. destruct b; wp_steps.
  - destruct (ways w (locs (matched_of s)) r i) as [|[j cs] l] eqn:E; [done|]. destruct Ho as (_ & H2 & H3). split; [by exists (Z.of_nat i), s1|].
    exists i, j, cs. split_and!; [lia|lia|by rewrite E|intros; lia|done|done|]. eapply Forall_impl; [exact H3|]. intros x. apply holds_loc1.
  - assert (En : ways w (locs (matched_of s)) r i = []) by (by destruct (ways w (locs (matched_of s)) r i) as [|[j cs] l]; [|destruct Ho]).
    wp_use wp_peek; [apply (line_peek w); [by eapply line_is_kept|done]|]. wp_red. destruct (w !! i) as [c|] eqn:E; cbn [from_option id].
    + pose proof Hw as (H8 & _). apply (Forall_lookup_1 _ _ _ _ H8) in E as Hne. apply lookup_lt_Some in E. destruct (Z.eqb_spec c 0); [by destruct Hne|]. rewrite succ_of_nat.
      destruct (kept_same _ _ _ Hk) as (Hbufs & Hlocs & _). eapply wp_mono; [apply IH|intros b s'; by apply search_next].
      all: first [done|lia|by rewrite Hbufs|by eapply line_is_kept|by eapply brackets_ok_kept|by eapply code_at_kept|by rewrite Hlocs].
    + apply lookup_ge_None in E. wp_steps. split; [by apply searched_refl|]. intros p Hp. by replace p with i by lia.
Qed.

(** A pattern that starts with a character is searched for by that character. *)
Lemma starts_with_code w l r op c rest :
  op :: c :: rest = code r ++ drop (length (code r)) (op :: c :: rest) -> Forall item_ok r -> starts_with (if op =? CCHR then Some c else None) w l r.
Proof.
  intros E Hr c' k. destruct (Z.eqb_spec op CCHR) as [->|]; [|done]. intros [= ->] Hne. destruct r as [|x r]; [done|].
  unfold code in E. cbn [map concat] in E. rewrite <- !app_assoc in E.
  destruct x as [a|a| |n|n]; cbn [item_code] in E; try (by injection E); (destruct a as [y| |[] cs]; cbn in E; try (by injection E)).
  injection E as -> _. cbn [ways]. destruct (w !! k) as [z|]; [|done]. unfold accepts. cbn [from_option id] in Hne. destruct (Z.eqb_spec z y); [done|]. by rewrite andb_false_r.
Qed.

(** [find_match] with the pattern [r], that starts the line when [circfl] is set. *)
Definition found (w : list Z) (r : list item) (i : nat) (s : ed) (b : bool) (s' : ed) : Prop :=
  searched r s s' /\
  if circfl (matched_of s) =? 0 then leftmost w r i s b s'
  else loc1 (matched_of s') = Z.of_nat i /\ outcome_of (head (ways w (locs (matched_of s)) r i)) b s'.

Lemma wp_find_match w r i s :
  length (expbuf (bufs_of s)) = Z.to_nat code_size -> regex_ok r -> line_is w s -> brackets_ok s -> code_at 0 (code r) s -> (i <= length w)%nat ->
  wp (find_match (Z.of_nat i)) (found w r i s) s.
Proof.
  intros He Hr Hw Hb Hc Hi. unfold find_match, found. wp_steps. destruct (Z.eqb_spec (circfl (matched_of s)) 0) as [Ez|Hnz]; wp_steps.
  - destruct (expbuf (bufs_of s)) as [|op [|c rest]] eqn:Ee; [done..|].
    wp_use wp_peek; [cbn [buf_of]; by rewrite Ee|]. wp_use wp_peek; [cbn [buf_of]; by rewrite Ee|]. wp_red.
    apply wp_search; try done; [by rewrite Ee| |].
    + apply (starts_with_code _ _ _ _ _ rest); [|by destruct Hr]. destruct Hc as [k E]. rewrite Ee in E. cbn [drop] in E. rewrite E. by rewrite drop_app_length.
    + destruct Hw as (_ & Hl & _). unfold scan_size. lia.
  - eapply wp_mono; [by apply advance_all_finds|]. intros b s' [Hk Ho]. cbn in Ho. split_and!; [|by destruct Hk as (? & ? & ? & -> & _)|done].
    destruct Hk as (l2 & bs & be & -> & Hk). exists (Z.of_nat i), (up_matched (fun m => Matched (circfl m) (loc1 m) l2 (locs m) (linebp m) bs be) s). split; [|done]. by exists l2, bs, be.
Qed.
