(* ===== verification/EdCompile.v ===== *)
(** The compiler of the editor's patterns: the text of a pattern is read into
    the code that the matcher of EdRegex runs; together they find the leftmost
    match of the pattern that was typed. *)

From S2P Require Import Prelude Ed EdRegex.

(** * The text of a pattern *)

Definition special (eof c : Z) : bool := bool_decide (c ∈ [92; 46; 42; 36; 91; 94; eof]).

Definition atom_text (eof : Z) (a : atom) : list Z :=
  match a with
  | AChar c => if special eof c then [92; c] else [c]
  | ADot => [46]
  | AClass neg cs => 91 :: (if neg then [94] else []) ++ cs ++ [93]
  end.

Definition item_text (eof : Z) (x : item) : list Z :=
  match x with
  | IOne a => atom_text eof a
  | IStar a => atom_text eof a ++ [42]
  | IEnd => [36]
  | IBra _ => [92; 40]
  | IKet _ => [92; 41]
  end.

Definition pattern_text (eof : Z) (r : list item) : list Z := concat (map (item_text eof) r).

(** The atoms that can be written: a newline ends the command, a class ends at
    the first bracket after its first character. *)
Definition atom_writable (a : atom) : Prop :=
  match a with
  | AChar c => c <> 10
  | ADot => True
  | AClass neg cs => 10 ∉ cs /\ 93 ∉ tail cs /\ (neg = false -> head cs <> Some 94)
  end.

Definition item_writable (x : item) : Prop :=
  match x with
  | IOne a | IStar a => atom_ok a /\ atom_writable a
  | _ => True
  end.

(** Brackets are numbered as they open, [n] the next number and [br] those
    that are open, and [$] stands only at the end. *)
Fixpoint numbered (n : Z) (br : list Z) (r : list item) : Prop :=
  match r with
  | [] => True
  | IBra m :: r => m = n /\ n < NBRA /\ numbered (n + 1) (n :: br) r
  | IKet m :: r => match br with [] => False | k :: br => m = k /\ numbered n br r end
  | IEnd :: r => r = []
  | _ :: r => numbered n br r
  end.

(** A delimiter: [/] in a search, any character after [s]. *)
Definition delimiter (eof : Z) : Prop := char7 eof /\ eof ∉ [10; 36; 40; 41; 42; 46; 91; 92; 93; 94].

(** A pattern that fits into [expbuf]. *)
Definition pattern_ok (r : list item) : Prop :=
  Forall item_writable r /\ numbered 0 [] r /\ (length (code r) <= Z.to_nat ESIZE)%nat.

(** * Reading *)

(** The characters that [getchar] will return. *)
Definition unread (c : chars) : list Z := (if peekc c =? 0 then [] else [peekc c]) ++ input c.

Definition reads (c : chars) (l : list Z) : Prop := globp c = None /\ unread c = l.

(** The state while a pattern is compiled. *)
Definition at_ (s : ed) (c : chars) (e : list Z) : ed := up_chars (fun _ => c) (up_bufs (set_expbuf e) s).

Lemma land_127 x : char7 x -> Z.land (s8 x) 127 = x.
Proof.
  intros H. unfold char7 in H. rewrite s8_id by lia. change 127 with (Z.ones 7). rewrite Z.land_ones by lia. apply Z.mod_small. lia.
Qed.

Lemma reads_peek c' x l' : reads c' l' -> peekc c' = 0 -> char7 x -> reads (set_peekc (s8 x) c') (x :: l').
Proof.
  intros [Hg Hu] Hz Hx. split; [done|]. unfold unread, char7 in *. rewrite s8_id by lia. cbn [peekc set_peekc input]. rewrite Hz in Hu. cbn in Hu. destruct (Z.eqb_spec x 0); [lia|]. by rewrite Hu.
Qed.

Section compile.
Variable s : ed.

Lemma wp_getchar c e x l Q :
  reads c (x :: l) -> char7 x -> (forall c', reads c' l -> peekc c' = 0 -> Q x (at_ s c' e)) -> wp getchar Q (at_ s c e).
Proof.
  intros [Hg Hu] Hx HQ. unfold getchar. wp_steps. cbn [chars_of at_ up_chars]. unfold unread in Hu.
  destruct (Z.eqb_spec (peekc c) 0) as [Ez|Hnz]; wp_red.
  - rewrite Hg. cbn [app] in Hu. rewrite Hu. wp_steps. rewrite land_127 by done.
    apply (HQ (set_lastc x (set_input l c))); [|done]. split; [done|]. unfold unread. cbn. by rewrite Ez.
  - wp_steps. injection Hu as -> Hu. apply (HQ (set_peekc 0 (set_lastc (peekc c) c))); [|done]. split; [done|]. cbn. done.
Qed.

Lemma wp_put_code c e (i : nat) x Q :
  (i < length e)%nat -> - 2 ^ 7 <= x < 2 ^ 7 -> Q tt (at_ s c (<[i := x]> e)) -> wp (poke EXPBUF (Z.of_nat i) x) Q (at_ s c e).
Proof.
  intros Hi Hx HQ. destruct (lookup_lt_is_Some_2 _ _ Hi) as [y Hy]. eapply wp_poke; [rewrite elem_nat; exact Hy|].
  rewrite Nat2Z.id, s8_id by done. exact HQ.
Qed.

Lemma prefix_put (pre e : list Z) x :
  pre `prefix_of` e -> (length pre < length e)%nat -> (pre ++ [x]) `prefix_of` <[length pre := x]> e.
Proof.
  intros [k ->] Hl. rewrite length_app in Hl. destruct k as [|y k]; [cbn in Hl; lia|]. exists k.
  rewrite insert_app_r_alt, Nat.sub_diag by lia. cbn. by rewrite <- app_assoc.
Qed.

(** The next code is appended. *)
Lemma wp_emit c e pre x Q :
  pre `prefix_of` e -> (length pre < length e)%nat -> - 2 ^ 7 <= x < 2 ^ 7 ->
  (forall e', length e' = length e -> (pre ++ [x]) `prefix_of` e' -> Q tt (at_ s c e')) -> wp (poke EXPBUF (Z.of_nat (length pre)) x) Q (at_ s c e).
Proof. intros Hp Hl Hx HQ. apply wp_put_code; [done|done|]. apply HQ; [by rewrite length_insert|by apply prefix_put]. Qed.

(** A code that was written is replaced. *)
Lemma wp_replace c e pre y post x Q :
  (pre ++ y :: post) `prefix_of` e -> - 2 ^ 7 <= x < 2 ^ 7 ->
  (forall e', length e' = length e -> (pre ++ x :: post) `prefix_of` e' -> Q tt (at_ s c e')) -> wp (poke EXPBUF (Z.of_nat (length pre)) x) Q (at_ s c e).
Proof.
  intros [k ->] Hx HQ. apply wp_put_code; [rewrite !length_app; cbn; lia|done|]. apply HQ; [by rewrite length_insert|]. exists k.
  rewrite <- !app_assoc. rewrite insert_app_r_alt, Nat.sub_diag by lia. done.
Qed.

Lemma length_snoc (pre : list Z) x : Z.of_nat (length (pre ++ [x])) = Z.of_nat (length pre) + 1.
Proof. rewrite length_app. cbn. lia. Qed.

Lemma wp_emit2 c e pre op x Q :
  pre `prefix_of` e -> (length pre + 1 < length e)%nat -> - 2 ^ 7 <= op < 2 ^ 7 -> - 2 ^ 7 <= x < 2 ^ 7 ->
  (forall e', length e' = length e -> (pre ++ [op; x]) `prefix_of` e' -> Q tt (at_ s c e')) -> wp (emit2 (Z.of_nat (length pre)) op x) Q (at_ s c e).
Proof.
  intros Hp Hl Ho Hx HQ. unfold emit2. wp_use wp_emit; [exact Hp|lia|done|]. intros e1 H1 Hp1. wp_red. rewrite <- (length_snoc pre op).
  apply wp_emit; [done|rewrite length_app; cbn; lia|done|]. intros e2 H2 Hp2. apply HQ; [lia|]. by rewrite <- app_assoc in Hp2.
Qed.

(** The characters of a class. *)
Lemma wp_class_chars fuel c e pre x cs n l Q :
  (length cs < fuel)%nat -> pre `prefix_of` e -> Forall char7 (x :: cs) -> 10 ∉ x :: cs -> 93 ∉ cs ->
  (length pre + length cs + 1 < Z.to_nat ESIZE)%nat -> (Z.to_nat ESIZE <= length e)%nat -> reads c (cs ++ 93 :: l) ->
  (forall c' e', reads c' l -> length e' = length e -> (pre ++ x :: cs) `prefix_of` e' -> Q (Some (Z.of_nat (length pre + length cs + 1), n + Z.of_nat (length cs) + 1)) (at_ s c' e')) ->
  wp (class_chars fuel x (Z.of_nat (length pre)) n) Q (at_ s c e).
Proof.
  revert fuel c e pre x n. induction cs as [|y cs IH]; intros fuel c e pre x n Hf Hp H7 H10 H93 Hsz He Hrd HQ; (destruct fuel as [|fuel]; [cbn in Hf; lia|]); cbn [class_chars];
    (destruct (Z.eqb_spec x 10); [set_solver|]); apply Forall_cons in H7 as [Hx H7]; cbn [length] in *;
    (wp_use wp_emit; [exact Hp|lia|unfold char7 in Hx; lia|]); intros e1 H1 Hp1; wp_red; (destruct (Z.leb_spec ESIZE (Z.of_nat (length pre) + 1)); [lia|]).
  - wp_use wp_getchar; [exact Hrd|unfold char7; lia|]. intros c1 Hc1 _. wp_red. change (93 =? 93) with true. wp_steps.
    specialize (HQ c1 e1 Hc1 H1 Hp1). by replace (Z.of_nat (length pre) + 1, n + 1) with (Z.of_nat (length pre + 0 + 1), n + Z.of_nat 0 + 1) by (f_equal; lia).
  - wp_use wp_getchar; [exact Hrd|by apply Forall_cons in H7 as []|]. intros c1 Hc1 _. wp_red. destruct (Z.eqb_spec y 93); [set_solver|].
    rewrite <- (length_snoc pre x). apply IH; try done; [lia|set_solver|set_solver|rewrite length_app; cbn; lia|lia|].
    intros c' e' Hc' He' Hp'. rewrite length_app. cbn [length]. replace (length pre + 1 + length cs + 1)%nat with (length pre + S (length cs) + 1)%nat by lia.
    replace (n + 1 + Z.of_nat (length cs) + 1) with (n + Z.of_nat (S (length cs)) + 1) by lia. apply HQ; [done|lia|]. by rewrite <- app_assoc in Hp'.
Qed.

(** * One step of the loop *)

Ltac not_eq a b := let H := fresh in destruct (Z.eqb_spec a b) as [H|H]; [exfalso; revert H; (done || lia || set_solver)|clear H]; wp_red.

(** Comparisons of constants. *)
Ltac known := repeat match goal with |- context [?a =? ?b] => let v := eval vm_compute in (a =? b) in lazymatch v with true => idtac | false => idtac end; change (a =? b) with v end; wp_red.

Section step.
Variables (eof : Z) (fuel : nat) (nbra : Z) (br : list Z) (Q : unit -> ed -> Prop).
Hypothesis Hdel : delimiter eof.
Variables (pre : list Z) (c : chars) (e : list Z) (lastep : Z) (l : list Z).
Hypotheses (Hp : pre `prefix_of` e) (He : length e = Z.to_nat code_size).

(** The loop goes on after the codes [new]. *)
Definition goes_on (new : list Z) (last : Z) (nbra : Z) (br : list Z) : Prop :=
  forall c' e', reads c' l -> length e' = length e -> (pre ++ new) `prefix_of` e' ->
    wp (compile_loop fuel eof (Z.of_nat (length (pre ++ new))) last nbra br) Q (at_ s c' e').

Lemma goes_on_at new last n b c' e' z :
  goes_on new last n b -> reads c' l -> length e' = length e -> (pre ++ new) `prefix_of` e' -> z = Z.of_nat (length pre) + Z.of_nat (length new) ->
  wp (compile_loop fuel eof z last n b) Q (at_ s c' e').
Proof using. intros H H1 H2 H3 ->. rewrite <- Nat2Z.inj_add, <- length_app. by apply H. Qed.

Ltac start_step Hrd := cbn [compile_loop]; (destruct (Z.leb_spec ESIZE (Z.of_nat (length pre))); [unfold ESIZE in *; lia|]); wp_use wp_getchar; [exact Hrd| |let c1 := fresh "c" in let H := fresh "Hrd" in intros c1 H _; wp_red].
Ltac delim := unfold delimiter, char7 in *; set_solver by lia.

Lemma step_char x :
  char7 x -> x <> 10 -> (length pre + 2 < Z.to_nat ESIZE)%nat -> reads c (atom_text eof (AChar x) ++ l) ->
  goes_on [CCHR; x] (Z.of_nat (length pre)) nbra br -> wp (compile_loop (S fuel) eof (Z.of_nat (length pre)) lastep nbra br) Q (at_ s c e).
Proof using Hdel Hp He.
  intros Hx H10 Hsz Hrd Hgo. unfold code_size, ESIZE in *. cbn [atom_text] in Hrd. destruct Hdel as [He7 Hne]. unfold special in Hrd. case_bool_decide as Hs; cbn [app] in Hrd.
  - start_step Hrd; [unfold char7; lia|]. not_eq 92 eof. known. wp_use wp_getchar; [exact Hrd0|done|]. intros c1 Hc1 _. wp_red.
    not_eq x 40. not_eq x 41. wp_use wp_emit; [exact Hp|lia|done|]. intros e1 H1 Hp1. wp_red. not_eq x 10. wp_steps. rewrite <- (length_snoc pre CCHR).
    wp_use wp_emit; [exact Hp1|rewrite length_app; cbn; lia|unfold char7 in Hx; lia|]. intros e2 H2 Hp2. wp_red.
    eapply goes_on_at; [exact Hgo|done|lia|by rewrite <- app_assoc in Hp2|cbn; lia].
  - start_step Hrd; [done|]. not_eq x eof. known. not_eq x 42. not_eq x 92. not_eq x 46. not_eq x 10. not_eq x 36. not_eq x 91.
    wp_use wp_emit2; [exact Hp|lia|done|unfold char7 in Hx; lia|]. intros e1 H1 Hp1. wp_red. eapply goes_on_at; [exact Hgo|done|lia|done|cbn; lia].
Qed.

Lemma step_dot :
  (length pre + 1 < Z.to_nat ESIZE)%nat -> reads c (46 :: l) ->
  goes_on [CDOT] (Z.of_nat (length pre)) nbra br -> wp (compile_loop (S fuel) eof (Z.of_nat (length pre)) lastep nbra br) Q (at_ s c e).
Proof using Hdel Hp He.
  intros Hsz Hrd Hgo. unfold code_size, ESIZE in *. destruct Hdel as [He7 Hne]. start_step Hrd; [unfold char7; lia|]. not_eq 46 eof. known.
  wp_use wp_emit; [exact Hp|lia|done|]. intros e1 H1 Hp1. wp_red. eapply goes_on_at; [exact Hgo|done|lia|done|cbn; lia].
Qed.

Lemma step_class neg cs :
  atom_ok (AClass neg cs) -> atom_writable (AClass neg cs) -> (length pre + length cs + 2 < Z.to_nat ESIZE)%nat -> reads c (atom_text eof (AClass neg cs) ++ l) ->
  goes_on (atom_code 0 (AClass neg cs)) (Z.of_nat (length pre)) nbra br -> wp (compile_loop (S fuel) eof (Z.of_nat (length pre)) lastep nbra br) Q (at_ s c e).
Proof using Hdel Hp He.
  intros (Hnil & H7 & Hlen) (H10 & H93 & H94) Hsz Hrd Hgo. unfold code_size, ESIZE in *. destruct Hdel as [He7 Hne].
  destruct cs as [|x cs]; [done|]. cbn [tail head length] in *.
  replace (atom_text eof (AClass neg (x :: cs)) ++ l) with (91 :: (if neg then [94] else []) ++ x :: cs ++ 93 :: l) in Hrd by (cbn; by rewrite <- !app_assoc, <- app_comm_cons, <- app_assoc).
  start_step Hrd; [unfold char7; lia|]. not_eq 91 eof. known.
  wp_use wp_emit2; [exact Hp|lia|done|done|]. intros e1 H1 Hp1. wp_red. set (op := if neg then NCCL else CCL).
  assert (Hclass : forall c2 e2, reads c2 (cs ++ 93 :: l) -> length e2 = length e -> (pre ++ [op; 0]) `prefix_of` e2 ->
    wp (class_chars 140 x (Z.of_nat (length pre) + 2) 1)
      (fun r => wp match r with
        | Some (ep, cclcnt) => do! poke EXPBUF (Z.of_nat (length pre) + 1) cclcnt; compile_loop fuel eof ep (Z.of_nat (length pre)) nbra br
        | None => cerror
        end Q) (at_ s c2 e2)).
  { intros c2 e2 Hc2 He2 Hp2. replace (Z.of_nat (length pre) + 2) with (Z.of_nat (length (pre ++ [op; 0]))) by (rewrite length_app; cbn; lia).
    wp_use wp_class_chars; [|exact Hp2|done|done|done| | |exact Hc2|]; [lia|rewrite length_app; unfold ESIZE; cbn; lia|unfold ESIZE; lia|].
    intros c3 e3 Hc3 He3 Hp3. wp_red. rewrite <- (length_snoc pre op). rewrite <- app_assoc in Hp3. change ([op; 0] ++ x :: cs) with ([op] ++ 0 :: x :: cs) in Hp3.
    rewrite app_assoc in Hp3. wp_use wp_replace; [exact Hp3|lia|]. intros e4 He4 Hp4. wp_red. rewrite <- app_assoc in Hp4. cbn [app] in Hp4.
    assert (Ecode : atom_code 0 (AClass neg (x :: cs)) = op :: 1 + Z.of_nat (length cs) + 1 :: x :: cs).
    { cbn [atom_code length]. f_equal; [by destruct neg|f_equal; lia]. }
    eapply goes_on_at; [exact Hgo|done|lia|by rewrite Ecode|rewrite length_app; cbn [length atom_code]; lia]. }
  destruct neg; cbn [app] in Hrd0.
  - wp_use wp_getchar; [exact Hrd0|unfold char7; lia|]. intros c2 Hc2 _. known. wp_use wp_getchar; [exact Hc2|by apply Forall_cons in H7 as []|]. intros c3 Hc3 _. wp_red.
    wp_use wp_replace; [exact Hp1|done|]. intros e2 He2 Hp2. wp_steps. apply Hclass; [done|lia|done].
  - wp_use wp_getchar; [exact Hrd0|by apply Forall_cons in H7 as []|]. intros c2 Hc2 _. wp_red.
    destruct (Z.eqb_spec x 94) as [->|]; [by destruct H94|]. wp_steps. apply Hclass; [done|lia|done].
Qed.

Lemma step_atom a :
  atom_ok a -> atom_writable a -> (length pre + length (atom_code 0 a) < Z.to_nat ESIZE)%nat -> reads c (atom_text eof a ++ l) ->
  goes_on (atom_code 0 a) (Z.of_nat (length pre)) nbra br -> wp (compile_loop (S fuel) eof (Z.of_nat (length pre)) lastep nbra br) Q (at_ s c e).
Proof using Hdel Hp He.
  intros Ha Hwr Hsz Hrd Hgo. destruct a as [x| |neg cs]; cbn [atom_code length] in Hsz; [by apply (step_char x)|by apply step_dot|apply (step_class neg cs); (done || lia)].
Qed.

(** A star changes the code of the atom before it. *)
Lemma step_star pre' a :
  pre = pre' ++ atom_code 0 a -> lastep = Z.of_nat (length pre') -> (length pre < Z.to_nat ESIZE)%nat -> reads c (42 :: l) ->
  (forall c' e', reads c' l -> length e' = length e -> (pre' ++ atom_code STAR a) `prefix_of` e' ->
     wp (compile_loop fuel eof (Z.of_nat (length (pre' ++ atom_code STAR a))) lastep nbra br) Q (at_ s c' e')) ->
  wp (compile_loop (S fuel) eof (Z.of_nat (length pre)) lastep nbra br) Q (at_ s c e).
Proof using Hdel Hp He.
  intros Epre -> Hsz Hrd Hgo. unfold code_size, ESIZE in *. destruct Hdel as [He7 Hne]. start_step Hrd; [unfold char7; lia|]. not_eq 42 eof. known.
  assert (Hop : exists op rest, atom_code 0 a = op :: rest /\ atom_code STAR a = Z.lor op STAR :: rest /\ op ∈ [CCHR; CDOT; CCL; NCCL]).
  { destruct a as [x| |[] cs]; eexists _, _; (split; [done|]); (split; [done|]); set_solver. }
  destruct Hop as (op & rest & E0 & E1 & Hop). rewrite Epre, E0 in Hp. destruct Hp as [k Ee].
  assert (Hpk : elem (buf_of EXPBUF (bufs_of (at_ s c0 e))) (Z.of_nat (length pre')) = Some op).
  { rewrite elem_nat. cbn. rewrite Ee, <- app_assoc, lookup_app_r, Nat.sub_diag by lia. done. }
  wp_use wp_peek; [exact Hpk|]. assert (Hnb : (op =? CBRA) || (op =? CKET) = false) by (unfold CCHR, CDOT, CCL, NCCL in Hop; rewrite !elem_of_cons, elem_of_nil in Hop; by destruct Hop as [->|[->|[->|[->|[]]]]]).
  wp_red. rewrite Hnb. wp_steps. wp_use wp_peek; [exact Hpk|]. wp_use wp_replace; [exists k; exact Ee| |].
  { rewrite !elem_of_cons, elem_of_nil in Hop. by destruct Hop as [->|[->|[->|[->|[]]]]]. }
  intros e1 H1 Hp1. wp_red. rewrite <- E1 in Hp1. replace (length pre) with (length (pre' ++ atom_code STAR a)) by (rewrite Epre, E0, E1, !length_app; done). by apply Hgo.
Qed.

Lemma step_bra :
  0 <= nbra < NBRA -> (length pre + 2 < Z.to_nat ESIZE)%nat -> reads c (92 :: 40 :: l) ->
  goes_on [CBRA; nbra] (Z.of_nat (length pre)) (nbra + 1) (nbra :: br) -> wp (compile_loop (S fuel) eof (Z.of_nat (length pre)) lastep nbra br) Q (at_ s c e).
Proof using Hdel Hp He.
  intros Hn Hsz Hrd Hgo. unfold code_size, ESIZE in *. destruct Hdel as [He7 Hne]. start_step Hrd; [unfold char7; lia|]. not_eq 92 eof. known.
  wp_use wp_getchar; [exact Hrd0|unfold char7; lia|]. intros c1 Hc1 _. known. destruct (Z.leb_spec NBRA nbra); [lia|]. wp_red.
  wp_use wp_emit2; [exact Hp|lia|done|unfold NBRA in Hn; lia|]. intros e1 H1 Hp1. wp_red. eapply goes_on_at; [exact Hgo|done|lia|done|cbn; lia].
Qed.

Lemma step_ket n br' :
  br = n :: br' -> 0 <= n < NBRA -> (length pre + 2 < Z.to_nat ESIZE)%nat -> reads c (92 :: 41 :: l) ->
  goes_on [CKET; n] (Z.of_nat (length pre)) nbra br' -> wp (compile_loop (S fuel) eof (Z.of_nat (length pre)) lastep nbra br) Q (at_ s c e).
Proof using Hdel Hp He.
  intros -> Hn Hsz Hrd Hgo. unfold code_size, ESIZE in *. destruct Hdel as [He7 Hne]. start_step Hrd; [unfold char7; lia|]. not_eq 92 eof. known.
  wp_use wp_getchar; [exact Hrd0|unfold char7; lia|]. intros c1 Hc1 _. known.
  wp_use wp_emit2; [exact Hp|lia|done|unfold NBRA in Hn; lia|]. intros e1 H1 Hp1. wp_red. eapply goes_on_at; [exact Hgo|done|lia|done|cbn; lia].
Qed.

(** The end of the pattern. *)
Lemma step_eof :
  (length pre < Z.to_nat ESIZE)%nat -> reads c (eof :: l) ->
  (forall c' e', reads c' l -> length e' = length e -> (pre ++ [CEOF]) `prefix_of` e' -> Q tt (at_ s c' e')) ->
  wp (compile_loop (S fuel) eof (Z.of_nat (length pre)) lastep nbra br) Q (at_ s c e).
Proof using Hdel Hp He.
  intros Hsz Hrd HQ. unfold code_size, ESIZE in *. destruct Hdel as [He7 Hne]. start_step Hrd; [done|]. rewrite Z.eqb_refl.
  apply wp_emit; [done|lia|done|]. intros e1 H1 Hp1. by apply HQ.
Qed.

Lemma step_dol l' :
  l = eof :: l' -> (length pre + 1 < Z.to_nat ESIZE)%nat -> reads c (36 :: l) ->
  goes_on [CDOL] (Z.of_nat (length pre)) nbra br -> wp (compile_loop (S fuel) eof (Z.of_nat (length pre)) lastep nbra br) Q (at_ s c e).
Proof using Hdel Hp He.
  intros Hl Hsz Hrd Hgo. rewrite Hl in Hrd. unfold code_size, ESIZE in *. pose proof Hdel as [He7 Hne]. start_step Hrd; [unfold char7; lia|]. not_eq 36 eof. known.
  wp_use wp_getchar; [exact Hrd0|done|]. intros c1 Hc1 Hz. unfold set_peek. wp_steps. rewrite Z.eqb_refl. wp_red.
  change (up_chars (set_peekc (s8 eof)) (at_ s c1 e)) with (at_ s (set_peekc (s8 eof) c1) e).
  wp_use wp_emit; [exact Hp|lia|done|]. intros e1 H1 Hp1. wp_red. eapply goes_on_at; [exact Hgo|rewrite Hl; by apply reads_peek|lia|done|cbn; lia].
Qed.
End step.

(** * The loop *)

Lemma code_cons x r : code (x :: r) = item_code x ++ code r.
Proof. unfold code. cbn. by rewrite <- app_assoc. Qed.

Lemma compile_loop_correct eof r :
  delimiter eof -> forall fuel n br pre lastep c e l Q,
  Forall item_writable r -> numbered n br r -> 0 <= n -> Forall (fun k => 0 <= k < NBRA) br ->
  pre `prefix_of` e -> length e = Z.to_nat code_size -> (length pre + length (code r) <= Z.to_nat ESIZE)%nat ->
  reads c (pattern_text eof r ++ eof :: l) -> (length (pattern_text eof r) < fuel)%nat ->
  (forall c' e', reads c' l -> length e' = length e -> (pre ++ code r) `prefix_of` e' -> Q tt (at_ s c' e')) ->
  wp (compile_loop fuel eof (Z.of_nat (length pre)) lastep n br) Q (at_ s c e).
Proof using.
  intros Hdel. induction r as [|x r IH]; intros fuel n br pre lastep c e l Q Hwr Hnum Hn Hbr Hp He Hsz Hrd Hf HQ; (destruct fuel as [|fuel]; [lia|]).
  { cbn in Hrd. by apply (step_eof eof fuel n br Q Hdel pre c e lastep l Hp He); [cbn in Hsz; lia| |]. }
  apply Forall_cons in Hwr as [Hx Hwr]. unfold pattern_text in Hrd, Hf. cbn [map concat] in Hrd, Hf. rewrite <- app_assoc in Hrd. change (concat (map (item_text eof) r)) with (pattern_text eof r) in *.
  rewrite length_app in Hf. pose proof (code_length r) as Hlen. rewrite code_cons, length_app in Hsz.
  assert (Hgo : forall fuel last n br, (length (pattern_text eof r) < fuel)%nat -> numbered n br r -> 0 <= n -> Forall (fun k => 0 <= k < NBRA) br ->
    forall c' e', reads c' (pattern_text eof r ++ eof :: l) -> length e' = length e -> (pre ++ item_code x) `prefix_of` e' ->
    wp (compile_loop fuel eof (Z.of_nat (length (pre ++ item_code x))) last n br) Q (at_ s c' e')).
  { intros f last n' br' Hf' Hnum' Hn' Hbr' c' e' Hc' He' Hp'. eapply IH; try done; [lia|rewrite length_app; lia|].
    intros c2 e2 H2 H3 H4. apply HQ; [done|lia|]. by rewrite code_cons, app_assoc. }
  destruct x as [a|a| |m|m]; cbn [item_code item_text numbered] in *.
  - eapply (step_atom eof fuel n br Q Hdel pre c e lastep _ Hp He a); [by destruct Hx|by destruct Hx|lia|exact Hrd|].
    intros c' e'. apply Hgo; try done. assert (1 <= length (atom_text eof a))%nat by (destruct a; cbn; try case_match; cbn; lia). lia.
  - rewrite length_app in Hf. cbn [length] in Hf. assert (1 <= length (atom_text eof a))%nat by (destruct a; cbn; try case_match; cbn; lia).
    rewrite <- app_assoc in Hrd. cbn [app] in Hrd.
    assert (Hl : length (atom_code 0 a) = length (atom_code STAR a)) by (by destruct a).
    eapply (step_atom eof fuel n br Q Hdel pre c e lastep _ Hp He a); [by destruct Hx|by destruct Hx|lia|exact Hrd|].
    intros c1 e1 Hc1 He1 Hp1. destruct fuel as [|fuel]; [lia|].
    eapply (step_star eof fuel n br Q Hdel _ c1 e1 _ _ Hp1); [lia|done|done|rewrite length_app; lia|exact Hc1|].
    intros c2 e2 Hc2 He2 Hp2. apply Hgo; (done || lia).
  - subst r. apply (step_dol eof fuel n br Q Hdel pre c e lastep (eof :: l) Hp He l); try done; [cbn in Hsz; lia|]. intros c' e'. apply Hgo; (done || cbn in *; lia).
  - destruct Hnum as (-> & Hlt & Hnum). eapply (step_bra eof fuel n br Q Hdel pre c e lastep _ Hp He); [lia|cbn in Hsz; lia|exact Hrd|].
    intros c' e'. apply Hgo; [cbn in Hf; lia|done|lia|constructor; [lia|done]].
  - destruct br as [|k br]; [done|]. destruct Hnum as [-> Hnum]. apply Forall_cons in Hbr as [Hk Hbr].
    eapply (step_ket eof fuel n _ Q Hdel pre c e lastep _ Hp He k br); [done|done|cbn in Hsz; lia|exact Hrd|]. intros c' e'. apply Hgo; [cbn in Hf; lia|done|lia|done].
Qed.
End compile.

(** * The whole pattern *)

Lemma text_head eof r l :
  delimiter eof -> Forall item_writable r -> numbered 0 [] r ->
  exists x l', pattern_text eof r ++ eof :: l = x :: l' /\ char7 x /\ x <> 42 /\ x <> 94 /\ (r <> [] -> x <> eof).
Proof.
  intros [He Hne] Hwr Hnum. destruct r as [|x r]; [exists eof, l; split_and!; (done || (unfold char7; lia) || set_solver)|]. apply Forall_cons in Hwr as [Hx _].
  assert (Ht : exists y t, item_text eof x = y :: t /\ char7 y /\ y <> 42 /\ y <> 94 /\ y <> eof).
  { assert (Ha : forall a, atom_ok a -> exists y t, atom_text eof a = y :: t /\ char7 y /\ y <> 42 /\ y <> 94 /\ y <> eof).
    { intros [c| |neg cs] Ha; cbn [atom_text].
      - unfold special. case_bool_decide as Hs; (eexists _, _; split_and!; [done|..]); (done || (unfold char7; lia) || set_solver).
      - eexists _, _; split_and!; (done || (unfold char7; lia) || set_solver).
      - eexists _, _; split_and!; (done || (unfold char7; lia) || set_solver). }
    destruct x as [a|a| |m|m]; cbn [item_text item_writable] in *; [apply Ha, Hx| | | |]; [|eexists _, _; split_and!; (done || (unfold char7; lia) || set_solver)..].
    destruct (Ha a (proj1 Hx)) as (y & t & -> & H). by exists y, (t ++ [42]). }
  destruct Ht as (y & t & E & H7 & H42 & H94 & Heof). exists y, (t ++ pattern_text eof r ++ eof :: l). split_and!; try done.
  unfold pattern_text. cbn [map concat]. rewrite E. cbn. by rewrite <- app_assoc.
Qed.

(** [compile] leaves the code of the pattern in [expbuf]. *)
Definition compiled (circ : bool) (r : list item) (rest : list Z) (s s' : ed) : Prop :=
  exists c e,
    s' = at_ (up_matched (set_circfl (if circ then 1 else 0)) s) c e /\
    reads c rest /\ length e = Z.to_nat code_size /\ code r `prefix_of` e.

Definition typed (eof : Z) (circ : bool) (r : list item) (rest : list Z) : list Z := (if circ then [94] else []) ++ pattern_text eof r ++ eof :: rest.

Lemma wp_compile eof circ r rest s :
  delimiter eof -> pattern_ok r -> (circ = false -> r <> []) -> reads (chars_of s) (typed eof circ r rest) ->
  length (expbuf (bufs_of s)) = Z.to_nat code_size -> wp (compile eof) (fun _ => compiled circ r rest s) s.
Proof.
  intros Hdel (Hwr & Hnum & Hsz) Hne Hrd He. cut (wp (compile eof) (fun _ => compiled circ r rest s) (at_ s (chars_of s) (expbuf (bufs_of s)))); [by destruct s as [? ? ? ? ? ? [] ?]|].
  destruct (text_head eof r rest Hdel Hwr Hnum) as (x & l' & E & H7 & H42 & H94 & Heof). pose proof Hdel as [He7 Hsp]. unfold typed in Hrd. rewrite E in Hrd.
  assert (Hloop : forall c b, reads c l' -> peekc c = 0 -> wp (compile_loop (pending (at_ s (set_peekc (s8 x) c) (expbuf (bufs_of s))) + Z.to_nat ESIZE + 2) eof 0 0 0 [])
    (fun _ s' => compiled b r rest s s') (at_ (up_matched (set_circfl (if b then 1 else 0)) s) (set_peekc (s8 x) c) (expbuf (bufs_of s)))).
  { intros c b Hc Hz. change 0 with (Z.of_nat (length (@nil Z))) at 1.
    eapply (compile_loop_correct _ eof r Hdel); [done|done|done|constructor|by exists (expbuf (bufs_of s))|done|cbn; lia|rewrite E; by apply reads_peek| |].
    - unfold pending. cbn. destruct Hc as [-> Hu]. unfold unread in Hu. rewrite Hz in Hu. cbn in Hu. rewrite Hu. apply (f_equal length) in E. rewrite length_app in E. cbn in *. lia.
    - intros c' e' H1 H2 H3. exists c', e'. split_and!; (done || congruence). }
  unfold compile. destruct circ; cbn [app] in Hrd.
  - wp_use wp_getchar; [exact Hrd|unfold char7; lia|]. intros c1 Hc1 _. wp_red. destruct (Z.eqb_spec 94 eof) as [<-|]; [by destruct Hsp; do 9 right; left|]. wp_steps. change (94 =? 94) with true. wp_red.
    change (up_matched (set_circfl 0) (at_ s c1 (expbuf (bufs_of s)))) with (at_ (up_matched (set_circfl 0) s) c1 (expbuf (bufs_of s))).
    wp_use wp_getchar; [exact Hc1|done|]. intros c2 Hc2 Hz. wp_steps. destruct (Z.eqb_spec x 42); [done|]. unfold set_peek. wp_steps. by apply (Hloop c2 true).
  - wp_use wp_getchar; [exact Hrd|done|]. intros c1 Hc1 Hz. wp_red. destruct (Z.eqb_spec x eof); [by destruct (Heof (Hne eq_refl))|]. wp_steps.
    destruct (Z.eqb_spec x 94); [done|]. wp_steps. destruct (Z.eqb_spec x 42); [done|]. unfold set_peek. wp_steps. by apply (Hloop c1 false).
Qed.

(** The brackets of a pattern have distinct numbers. *)
Lemma numbered_nums n br r :
  numbered n br r -> 0 <= n -> Forall (fun k => 0 <= k < n) br -> NoDup br -> Forall item_writable r -> n <= NBRA ->
  Forall item_ok r /\ NoDup (nums true r) /\ NoDup (nums false r) /\
  Forall (fun k => n <= k) (nums true r) /\ Forall (fun k => k ∈ br \/ n <= k) (nums false r).
Proof.
  revert n br. induction r as [|x r IH]; intros n br Hnum Hn Hbr Hnd Hwr Hle; [by split_and!; constructor|]. apply Forall_cons in Hwr as [Hx Hwr].
  destruct x as [a|a| |m|m]; cbn [numbered] in Hnum; cbn [nums omap list_omap].
  - destruct (IH _ _ Hnum Hn Hbr Hnd Hwr Hle) as (H & H'). split; [|done]. constructor; [by destruct Hx|done].
  - destruct (IH _ _ Hnum Hn Hbr Hnd Hwr Hle) as (H & H'). split; [|done]. constructor; [by destruct Hx|done].
  - subst r. by split_and!; repeat constructor.
  - destruct Hnum as (-> & Hlt & Hnum).
    assert (Hbr' : Forall (fun k => 0 <= k < n + 1) (n :: br)) by (constructor; [lia|eapply Forall_impl; [exact Hbr|cbn; intros; lia]]).
    assert (Hnd' : NoDup (n :: br)). { constructor; [|done]. intros Hin. eapply Forall_forall in Hbr; [|exact Hin]. cbn in Hbr. lia. }
    destruct (IH _ _ Hnum ltac:(lia) Hbr' Hnd' Hwr ltac:(lia)) as (H1 & H2 & H3 & H4 & H5).
    split_and!; [by constructor| |done| |].
    + constructor; [|done]. intros Hin. eapply Forall_forall in H4; [|exact Hin]. cbn in H4. lia.
    + constructor; [lia|]. eapply Forall_impl; [exact H4|cbn; intros; lia].
    + eapply Forall_impl; [exact H5|]. cbn. intros k [[->|]%elem_of_cons|]; [right; lia|by left|right; lia].
  - destruct br as [|k br]; [done|]. destruct Hnum as [-> Hnum]. apply Forall_cons in Hbr as [Hk Hbr]. apply NoDup_cons in Hnd as [Hni Hnd].
    destruct (IH _ _ Hnum Hn Hbr Hnd Hwr Hle) as (H1 & H2 & H3 & H4 & H5). split_and!; [constructor; [cbn; lia|done]|done| |done|].
    + constructor; [|done]. intros Hin. eapply Forall_forall in H5; [|exact Hin]. cbn in H5. destruct H5; [done|lia].
    + constructor; [left; left|]. eapply Forall_impl; [exact H5|]. cbn. intros j [|]; [by left; right|by right].
Qed.

Lemma pattern_regex r : pattern_ok r -> regex_ok r.
Proof.
  intros (Hwr & Hnum & _). destruct (numbered_nums 0 [] r Hnum) as (H1 & H2 & H3 & _); try done. by constructor.
Qed.

(** The match that [find_match] reports in [loc1], [loc2] and the brackets. *)
Definition reported (s : ed) (p j : nat) (cs : list capture) : Prop :=
  loc1 (matched_of s) = Z.of_nat p /\ loc2 (matched_of s) = Z.of_nat j /\ Forall (holds s) cs.

(** The starts that are tried: only [i] after [^]. *)
Definition start_ok (w : list Z) (circ : bool) (i p : nat) : Prop := (i <= p <= length w)%nat /\ (circ = true -> p = i).

Lemma found_match w r i s b s' :
  (forall z, locs (matched_of s) = Some z -> z <= Z.of_nat i) -> (i <= length w)%nat -> found w r i s b s' ->
  let l := locs (matched_of s) in
  let circ := negb (circfl (matched_of s) =? 0) in
  if b then
    exists p j cs,
      start_ok w circ i p /\ matches w l r p j cs /\ head (ways w l r p) = Some (j, cs) /\
      (forall p' j' cs', start_ok w circ i p' -> (p' < p)%nat -> ~ matches w l r p' j' cs') /\ reported s' p j cs
  else forall p j cs, start_ok w circ i p -> ~ matches w l r p j cs.
Proof.
  intros Hl Hi [_ Hf] l circ. subst circ l.
  assert (Hways : forall p j cs, (i <= p <= length w)%nat -> (j, cs) ∈ ways w (locs (matched_of s)) r p <-> matches w (locs (matched_of s)) r p j cs).
  { intros p j cs Hp. apply ways_matches; [intros z Hz; apply Hl in Hz; lia|lia]. }
  assert (Hnone : forall p, (i <= p <= length w)%nat -> ways w (locs (matched_of s)) r p = [] -> forall j cs, ~ matches w (locs (matched_of s)) r p j cs).
  { intros p Hp E j cs Hm. apply Hways in Hm; [|done]. rewrite E in Hm. set_solver. }
  assert (Hhead : forall p j cs, (i <= p <= length w)%nat -> head (ways w (locs (matched_of s)) r p) = Some (j, cs) -> matches w (locs (matched_of s)) r p j cs).
  { intros p j cs Hp E. apply Hways; [done|]. destruct (ways w (locs (matched_of s)) r p); [done|]. injection E as ->. left. }
  unfold start_ok. destruct (circfl (matched_of s) =? 0); cbn [negb].
  - destruct b; [|intros p j cs [Hp _]; apply Hnone; [done|by apply Hf]]. destruct Hf as (p & j & cs & Hp & E & Hall & H1).
    exists p, j, cs. split_and!; [lia|lia|done|by apply Hhead|done| |by apply H1..]. intros p' j' cs' [Hp' _] Hlt. apply Hnone; [done|apply Hall; lia].
  - destruct Hf as [H1 Ho]. destruct (ways w (locs (matched_of s)) r i) as [|[j cs] t] eqn:E; cbn in Ho.
    + subst b. intros p j cs [Hp Heq]. rewrite (Heq eq_refl). apply Hnone; [lia|done].
    + destruct Ho as (-> & H2 & H3). exists i, j, cs. split_and!; [lia|lia|done|apply Hhead; [lia|by rewrite E]|by rewrite E|intros; lia|done..].
Qed.

(** [compile] reads a pattern as it is typed, [find_match] then reports in
    [loc1], [loc2] and the brackets a match of that pattern in the line: the
    leftmost one from [i] on (the one at [i] after a caret), with the stars as
    long as possible from left to right.  It reports no match only when the
    pattern matches nowhere.  Both calls return, and the text after the
    delimiter is left unread. *)
Theorem pattern_search_correct eof circ r rest w i s :
  delimiter eof -> pattern_ok r -> (circ = false -> r <> []) -> reads (chars_of s) (typed eof circ r rest) ->
  length (expbuf (bufs_of s)) = Z.to_nat code_size -> brackets_ok s -> line_is w s -> (i <= length w)%nat ->
  (forall z, locs (matched_of s) = Some z -> z <= Z.of_nat i) ->
  let l := locs (matched_of s) in
  wp (do! compile eof; find_match (Z.of_nat i)) (fun b s' =>
    reads (chars_of s') rest /\
    if b then
      exists p j cs,
        start_ok w circ i p /\ matches w l r p j cs /\ head (ways w l r p) = Some (j, cs) /\
        (forall p' j' cs', start_ok w circ i p' -> (p' < p)%nat -> ~ matches w l r p' j' cs') /\ reported s' p j cs
    else forall p j cs, start_ok w circ i p -> ~ matches w l r p j cs) s.
Proof.
  intros Hdel Hok Hne Hrd He Hb Hw Hi Hl l. wp_use wp_mono; [by apply wp_compile|]. intros [] s1 (c & e & -> & Hrest & Hlen & Hcode). wp_red.
  eapply wp_mono; [apply (wp_find_match w r); try done; by apply pattern_regex|]. intros b s' Hf. split.
  - destruct Hf as [(p & s2 & (l2 & bs & be & -> & _) & ->) _]. done.
  - pose proof (found_match w r i (at_ (up_matched (set_circfl (if circ then 1 else 0)) s) c e) b s' Hl Hi Hf) as H. by destruct circ.
Qed.

(** [/a*b$/] on the line [xaab]. *)
Lemma pattern_search_correct_witness :
  let s := up_bufs (set_linebuf (str "xaab" ++ 0 :: replicate 507 0)) (start (str "a*b$/p") None) in
  wp (do! compile 47; find_match 0) (fun b s' =>
    reads (chars_of s') (str "p") /\
    (b = true -> exists p j cs, matches (str "xaab") None [IStar (AChar 97); IOne (AChar 98); IEnd] p j cs /\ reported s' p j cs)) s.
Proof.
  intros s. eapply wp_mono; [apply (pattern_search_correct 47 false [IStar (AChar 97); IOne (AChar 98); IEnd] (str "p") (str "xaab") 0 s)|].
  - split; [unfold char7; lia|set_solver].
  - split_and!; [|done|vm_compute; lia]. repeat (apply Forall_cons_2; [by repeat split|]). constructor.
  - done.
  - by split.
  - done.
  - by split.
  - split_and!; [|vm_compute; lia|by exists (replicate 507 0)]. repeat (apply Forall_cons_2; [split; vm_compute; (done || split; done)|]). constructor.
  - vm_compute. lia.
  - done.
  - intros b s' [Hr Hb]. split; [done|]. intros ->. destruct Hb as (p & j & cs & _ & Hm & _ & _ & Hrep). by exists p, j, cs.
Defined.
