(* ===== verification/EdLines.v ===== *)
(** The lines of the editor: lines are inserted, deleted and moved in [core],
    and the text of a line is rewritten by a substitution. *)

From S2P Require Import Prelude Ed EdRegex EdCompile.

(** * The array of lines *)

(** The state with the lines [l]. *)
Definition with_core (l : list Z) (s : ed) : ed := up_text (set_core l) s.

Lemma wp_line_at l s (i : nat) x Q : l !! i = Some x -> Q x (with_core l s) -> wp (line_at (Z.of_nat i)) Q (with_core l s).
Proof. intros Hx HQ. unfold line_at. wp_use wp_deref; [rewrite elem_nat; exact Hx|done]. Qed.

Lemma wp_set_line l s (i : nat) x Q : (i < length l)%nat -> Q tt (with_core (<[i := x]> l) s) -> wp (set_line (Z.of_nat i) x) Q (with_core l s).
Proof.
  intros Hi HQ. destruct (lookup_lt_is_Some_2 _ _ Hi) as [y Hy]. unfold set_line. wp_use wp_deref; [rewrite elem_nat; exact Hy|]. wp_steps. by rewrite Nat2Z.id.
Qed.

Lemma lookup_middle {A} (pre : list A) x post : (pre ++ x :: post) !! length pre = Some x.
Proof. by rewrite lookup_app_r, Nat.sub_diag by lia. Qed.

Lemma insert_middle {A} (pre : list A) x y post : <[length pre := y]> (pre ++ x :: post) = pre ++ y :: post.
Proof. by rewrite insert_app_r_alt, Nat.sub_diag by lia. Qed.

(** * Reversal and moves *)

(** A list is empty, a single line, or has a first and a last line. *)
Lemma ends_ind (P : list Z -> Prop) : P [] -> (forall x, P [x]) -> (forall x l y, P l -> P (x :: l ++ [y])) -> forall l, P l.
Proof.
  intros H0 H1 H2 l. remember (length l) as n eqn:E. revert l E. induction (lt_wf n) as [n _ IH]; intros l ->.
  destruct l as [|x l]; [done|]. destruct l as [|y l] using rev_ind; [done|]. apply H2. eapply IH; [|done]. rewrite length_cons, length_app. cbn. lia.
Qed.

Lemma wp_reverse mid fuel pre post s Q :
  (mid <> [] \/ pre <> []) -> (length mid < fuel)%nat -> Q tt (with_core (pre ++ rev mid ++ post) s) ->
  wp (reverse fuel (Z.of_nat (length pre)) (Z.of_nat (length pre + length mid))) Q (with_core (pre ++ mid ++ post) s).
Proof.
  revert fuel pre post Q. induction mid as [|x|x mid y IH] using ends_ind; intros fuel pre post Q Hne Hf HQ; (destruct fuel as [|fuel]; [cbn in Hf; lia|]); cbn [reverse].
  - destruct pre as [|z pre _] using rev_ind; [by destruct Hne|]. cbn [rev app] in *. rewrite <- app_assoc in *. cbn [app] in *. rewrite length_app. cbn [length].
    replace (Z.of_nat (length pre + 1 + 0) - 1) with (Z.of_nat (length pre)) by lia. wp_use wp_line_at; [apply lookup_middle|]. wp_red.
    destruct (Z.leb_spec (Z.of_nat (length pre)) (Z.of_nat (length pre + 1))); [|lia]. wp_steps. done.
  - cbn [length]. replace (Z.of_nat (length pre + 1) - 1) with (Z.of_nat (length pre)) by lia. wp_use wp_line_at; [apply lookup_middle|]. wp_red. rewrite Z.leb_refl. wp_steps. done.
  - rewrite length_cons, length_app in *. cbn [length] in *. replace (Z.of_nat (length pre + S (length mid + 1)) - 1) with (Z.of_nat (length (pre ++ x :: mid))) by (rewrite length_app; cbn; lia).
    replace (pre ++ (x :: mid ++ [y]) ++ post) with ((pre ++ x :: mid) ++ y :: post) by (by rewrite <- !app_assoc, <- !app_comm_cons, <- app_assoc).
    wp_use wp_line_at; [apply lookup_middle|]. wp_red. destruct (Z.leb_spec (Z.of_nat (length (pre ++ x :: mid))) (Z.of_nat (length pre))) as [Hle|_]; [rewrite length_app in Hle; cbn in Hle; lia|].
    wp_use wp_line_at; [rewrite <- app_assoc; apply lookup_middle|]. wp_red. wp_use wp_set_line; [rewrite !length_app; cbn; lia|]. wp_red. rewrite insert_middle.
    wp_use wp_set_line; [rewrite !length_app; cbn; lia|]. wp_red. rewrite <- app_assoc. cbn [app]. rewrite insert_middle. rewrite succ_of_nat.
    replace (pre ++ y :: mid ++ x :: post) with ((pre ++ [y]) ++ mid ++ x :: post) by (by rewrite <- app_assoc).
    replace (S (length pre)) with (length (pre ++ [y])) by (rewrite length_app; cbn; lia). replace (length (pre ++ x :: mid)) with (length (pre ++ [y]) + length mid)%nat by (rewrite !length_app; cbn; lia).
    apply IH; [by right; destruct pre|lia|]. cbn [rev] in HQ. rewrite rev_app_distr in HQ. cbn in HQ. by rewrite <- !app_assoc in *.
Qed.

Lemma wp_reverse_lines mid pre post s z1 z2 Q :
  mid <> [] -> z1 = Z.of_nat (length pre) -> z2 = Z.of_nat (length pre + length mid) ->
  Q tt (with_core (pre ++ rev mid ++ post) s) -> wp (reverse_lines z1 z2) Q (with_core (pre ++ mid ++ post) s).
Proof. intros Hne -> -> HQ. apply wp_reverse; [by left|lia|done]. Qed.

(** Two neighbouring blocks are exchanged by three reversals. *)
Lemma wp_exchange pre b1 b2 post s z1 z2 z3 Q :
  b1 <> [] -> b2 <> [] -> z1 = Z.of_nat (length pre) -> z2 = Z.of_nat (length (pre ++ b1)) -> z3 = Z.of_nat (length (pre ++ b1 ++ b2)) ->
  Q tt (with_core (pre ++ b2 ++ b1 ++ post) s) ->
  wp (do! reverse_lines z1 z2; do! reverse_lines z2 z3; reverse_lines z1 z3) Q (with_core (pre ++ b1 ++ b2 ++ post) s).
Proof.
  intros H1 H2 -> -> -> HQ. rewrite !length_app. wp_use wp_reverse_lines; [done|done|done|]. wp_red.
  rewrite app_assoc. wp_use wp_reverse_lines; [done|rewrite length_app, length_rev; done|rewrite length_app, length_rev; lia|]. wp_red.
  rewrite <- app_assoc. rewrite (app_assoc (rev b1)). apply wp_reverse_lines; [|done|rewrite length_app, !length_rev; lia|].
  - intros E. apply (f_equal length) in E. rewrite length_app, !length_rev in E. destruct b1; [done|cbn in E; lia].
  - rewrite rev_app_distr, !rev_involutive. by rewrite <- app_assoc.
Qed.

Lemma wp_eq {St A} (m : M St A) a s s1 : wp m (fun a' s' => a' = a /\ s' = s1) s -> m s = Done a s1.
Proof. intros H. apply wp_result in H as (s' & E & ->). done. Qed.

(** C30: [move] takes a block of lines out and puts it after the line [adt],
    below or above it; the other lines keep their order and the current line
    becomes the last one that was moved. *)
Theorem move_lines_correct pre block between post s :
  pre <> [] -> block <> [] -> between <> [] ->
  let n := Z.of_nat (length pre) in
  let b := Z.of_nat (length block) in
  let m := Z.of_nat (length between) in
  move_lines n (n + b) (n + b + m - 1) (with_core (pre ++ block ++ between ++ post) s) =
    Done tt (up_text (set_dot (n + b + m - 1)) (with_core (pre ++ between ++ block ++ post) s)) /\
  move_lines (n + m) (n + m + b) (n - 1) (with_core (pre ++ between ++ block ++ post) s) =
    Done tt (up_text (set_dot (n + b - 1)) (with_core (pre ++ block ++ between ++ post) s)).
Proof.
  intros Hpre Hbl Hbt n b m. assert (0 < m) by (destruct between; [done|cbn in *; lia]). assert (0 < b) by (destruct block; [done|cbn in *; lia]). split.
  - apply wp_eq. unfold move_lines. destruct (Z.ltb_spec (n + b + m - 1) n); [lia|]. destruct (Z.leb_spec (n + b) (n + b + m - 1)); [|lia].
    apply wp_bind, wp_modify, (wp_exchange pre block between post (up_text (set_dot (n + b + m - 1)) s)); try done; rewrite ?length_app; lia.
  - apply wp_eq. unfold move_lines. destruct (Z.ltb_spec (n - 1) (n + m)); [|lia]. apply wp_bind, wp_modify. destruct (Z.eqb_spec (n - 1 + 1) (n + m)); [lia|].
    apply (wp_exchange pre between block post (up_text (set_dot (n - 1 + (n + m + b - (n + m)))) s)); try done; rewrite ?length_app; try lia.
    split; [done|]. by replace (n - 1 + (n + m + b - (n + m))) with (n + b - 1) by lia.
Qed.

(** Lines 2 and 3 go after line 4, and back after line 1. *)
Lemma move_lines_correct_witness :
  exists s, move_lines 2 4 4 (with_core [0; 10; 20; 30; 40; 50] s) = Done tt (up_text (set_dot 4) (with_core [0; 10; 40; 20; 30; 50] s)) /\
            move_lines 3 5 1 (with_core [0; 10; 40; 20; 30; 50] s) = Done tt (up_text (set_dot 3) (with_core [0; 10; 20; 30; 40; 50] s)).
Proof. exists (start [] None). by apply (move_lines_correct [0; 10] [20; 30] [40] [50]). Defined.
