(* ===== verification/EdSubst.v ===== *)
(** The substitution of the editor: the command [s] with a pattern and a
    replacement rewrites the leftmost match of the pattern in a line. *)

From S2P Require Import Prelude Ed EdRegex EdCompile.

(** * Copying into the line that is built *)

Definition slice (w : list Z) (a b : nat) : list Z := take (b - a) (drop a w).

(** The state with [g] in [genbuf]. *)
Definition gen (g : list Z) (s : ed) : ed := up_bufs (set_genbuf g) s.

Definition size : nat := Z.to_nat LBSIZE.

Lemma line_is_gen w g s : line_is w (gen g s) <-> line_is w s.
Proof. done. Qed.

Lemma wp_gen s g pre x Q :
  pre `prefix_of` g -> (length pre < length g)%nat -> - 2 ^ 7 <= x < 2 ^ 7 ->
  (forall g', length g' = length g -> (pre ++ [x]) `prefix_of` g' -> Q tt (gen g' s)) -> wp (poke GENBUF (Z.of_nat (length pre)) x) Q (gen g s).
Proof.
  intros Hp Hl Hx HQ. destruct (lookup_lt_is_Some_2 _ _ Hl) as [y Hy]. eapply wp_poke; [rewrite elem_nat; exact Hy|].
  rewrite Nat2Z.id, s8_id by done. apply (HQ (<[length pre := x]> g)); [by rewrite length_insert|by apply prefix_put].
Qed.

Lemma line_lookup w s i : line_is w s -> (i < length w)%nat -> exists c, w !! i = Some c /\ elem (buf_of LINEBUF (bufs_of s)) (Z.of_nat i) = Some c /\ char8 c.
Proof.
  intros Hw Hi. destruct (lookup_lt_is_Some_2 _ _ Hi) as [c Hc]. exists c. split_and!; [done|rewrite (line_peek w) by (done || lia); by rewrite Hc|].
  destruct Hw as (H8 & _). by eapply Forall_lookup_1.
Qed.

Lemma take_drop_S (w : list Z) l c n : w !! l = Some c -> take (S n) (drop l w) = c :: take n (drop (S l) w).
Proof. intros E. by rewrite (drop_S _ _ _ E). Qed.

Section copy.
Variables (w : list Z) (s : ed).
Hypothesis Hw : line_is w s.

Lemma wp_place_loop n l g pre Q :
  (l + n <= length w)%nat -> pre `prefix_of` g -> length g = size -> (length pre + n < size)%nat ->
  (forall g', length g' = size -> (pre ++ take n (drop l w)) `prefix_of` g' -> Q (Z.of_nat (length (pre ++ take n (drop l w)))) (gen g' s)) ->
  wp (place_loop n (Z.of_nat (length pre)) (Z.of_nat l)) Q (gen g s).
Proof using Hw.
  revert l g pre. induction n as [|n IH]; intros l g pre Hl Hp Hg Hsz HQ; cbn [place_loop].
  { wp_steps. cbn [take] in HQ. rewrite app_nil_r in HQ. by apply HQ. }
  destruct (line_lookup w s l Hw) as (c & Ec & Hc & H8); [lia|]. wp_use wp_peek; [exact Hc|]. wp_red. wp_use wp_gen; [exact Hp|lia|by destruct H8|].
  intros g1 Hg1 Hp1. wp_red. unfold error_if. destruct (Z.leb_spec LBSIZE (Z.of_nat (length pre) + 1)); [unfold size in *; lia|]. wp_steps.
  rewrite <- (length_snoc pre c), succ_of_nat. rewrite (take_drop_S _ _ _ _ Ec) in HQ.
  apply IH; [lia|done|lia|rewrite length_app; cbn; lia|]. intros g2 Hg2 Hp2. specialize (HQ g2 Hg2). rewrite <- app_assoc in *. by apply HQ.
Qed.

Lemma wp_place a b g pre Q :
  (b <= length w)%nat -> pre `prefix_of` g -> length g = size -> (length pre + length (slice w a b) < size)%nat ->
  (forall g', length g' = size -> (pre ++ slice w a b) `prefix_of` g' -> Q (Z.of_nat (length (pre ++ slice w a b))) (gen g' s)) ->
  wp (place (Z.of_nat (length pre)) (Z.of_nat a) (Z.of_nat b)) Q (gen g s).
Proof using Hw.
  intros Hb Hp Hg Hsz HQ. unfold place. replace (Z.to_nat (Z.of_nat b - Z.of_nat a)) with (b - a)%nat by lia. unfold slice in *. destruct (decide (a <= b)%nat).
  - apply wp_place_loop; try done; [lia|]. rewrite length_take, length_drop in Hsz. lia.
  - replace (b - a)%nat with O in * by lia. cbn [place_loop take] in *. wp_steps. rewrite app_nil_r in HQ. by apply HQ.
Qed.

Lemma wp_head_loop n i g Q :
  (i + n <= length w)%nat -> take i w `prefix_of` g -> length g = size -> (i + n < size)%nat ->
  (forall g', length g' = size -> take (i + n) w `prefix_of` g' -> Q tt (gen g' s)) -> wp (head_loop n (Z.of_nat i)) Q (gen g s).
Proof using Hw.
  revert i g. induction n as [|n IH]; intros i g Hl Hp Hg Hsz HQ; cbn [head_loop].
  { wp_steps. rewrite Nat.add_0_r in HQ. by apply HQ. }
  destruct (line_lookup w s i Hw) as (c & Ec & Hc & H8); [lia|]. wp_use wp_peek; [exact Hc|]. wp_red.
  assert (El : length (take i w) = i) by (rewrite length_take; lia). rewrite <- El at 1. wp_use wp_gen; [exact Hp|lia|by destruct H8|].
  intros g1 Hg1 Hp1. wp_red. rewrite succ_of_nat. apply IH; [lia|by rewrite (take_S_r _ _ _ Ec)|lia|lia|]. by rewrite <- Nat.add_succ_comm in HQ.
Qed.

(** The rest of the line with its terminator. *)
Lemma wp_tail_loop fuel l g pre Q :
  (l <= length w)%nat -> pre `prefix_of` g -> length g = size -> (length pre + length (drop l w) < size)%nat -> (length (drop l w) < fuel)%nat ->
  (forall g', length g' = size -> (pre ++ drop l w ++ [0]) `prefix_of` g' -> Q tt (gen g' s)) ->
  wp (tail_loop fuel (Z.of_nat (length pre)) (Z.of_nat l)) Q (gen g s).
Proof using Hw.
  revert fuel g pre. remember (drop l w) as t eqn:Et. revert l Et. induction t as [|c t IH]; intros l Et fuel g pre Hl Hp Hg Hsz Hf HQ; (destruct fuel as [|fuel]; [cbn in Hf; lia|]); cbn [tail_loop length] in *.
  - wp_use wp_peek; [by apply (line_peek w)|]. rewrite (lookup_ge_None_2 w l) by (apply (f_equal length) in Et; rewrite length_drop in Et; cbn in Et; lia).
    wp_red. cbn [from_option id]. wp_use wp_gen; [exact Hp|lia|done|]. intros g1 Hg1 Hp1. wp_red. change (0 =? 0) with true. wp_steps. apply HQ; [lia|done].
  - destruct (line_lookup w s l Hw) as (c' & Ec & Hc & H8); [apply (f_equal length) in Et; rewrite length_drop in Et; cbn in Et; lia|].
    rewrite (drop_S _ _ _ Ec) in Et. injection Et as -> Et. wp_use wp_peek; [exact Hc|]. wp_red. wp_use wp_gen; [exact Hp|lia|by destruct H8|].
    intros g1 Hg1 Hp1. wp_red. destruct (Z.eqb_spec c' 0); [by destruct H8|]. unfold error_if. destruct (Z.leb_spec LBSIZE (Z.of_nat (length pre) + 1)); [unfold size in *; lia|]. wp_steps.
    rewrite <- (length_snoc pre c'), succ_of_nat. apply lookup_lt_Some in Ec. apply IH; try done; [lia|rewrite length_app; cbn; lia|lia|].
    intros g2 Hg2 Hp2. apply HQ; [done|]. by rewrite <- app_assoc in Hp2.
Qed.
End copy.

(** * The replacement *)

(** A character, with or without a backslash, the match or a bracket of it. *)
Inductive rep : Type := RChar (quoted : bool) (c : Z) | RMatch | RGroup (n : Z).

Definition rep_code (x : rep) : Z :=
  match x with
  | RChar quoted c => if quoted then c - 128 else c
  | RMatch => 38
  | RGroup n => 49 + n - 128
  end.

Definition rep_ok (x : rep) : Prop :=
  match x with
  | RChar true c => char7 c /\ ~ 49 <= c < 54
  | RChar false c => char7 c /\ c <> 38
  | RMatch => True
  | RGroup n => 0 <= n < NBRA
  end.

(** What a part of the replacement stands for; [pos] are the brackets. *)
Definition expand (w : list Z) (p j : nat) (pos : bool -> Z -> nat) (x : rep) : list Z :=
  match x with
  | RChar _ c => [c]
  | RMatch => slice w p j
  | RGroup n => slice w (pos true n) (pos false n)
  end.

Definition expansion (w : list Z) (p j : nat) (pos : bool -> Z -> nat) (rs : list rep) : list Z := concat (map (expand w p j pos) rs).

(** The line after the substitution. *)
Definition replaced (w : list Z) (p j : nat) (pos : bool -> Z -> nat) (rs : list rep) : list Z :=
  take p w ++ expansion w p j pos rs ++ drop j w.

Definition rhs_is (rp : nat) (l : list Z) (s : ed) : Prop := l `prefix_of` drop rp (rhsbuf (bufs_of s)).

Lemma rhs_head rp x l s : rhs_is rp (x :: l) s -> elem (buf_of RHSBUF (bufs_of s)) (Z.of_nat rp) = Some x /\ rhs_is (S rp) l s.
Proof.
  intros [k E]. rewrite elem_nat. cbn [buf_of]. split; [by rewrite <- (Nat.add_0_r rp), <- lookup_drop, E|]. exists k.
  rewrite <- Nat.add_1_r, <- drop_drop, E. done.
Qed.

Lemma land_quoted c : char7 c -> Z.land (c - 128) 127 = c.
Proof. intros H. unfold char7 in H. change 127 with (Z.ones 7). rewrite Z.land_ones by lia. change (2 ^ 7) with 128. replace (c - 128) with (c + -1 * 128) by lia. rewrite Z_mod_plus_full. apply Z.mod_small. lia. Qed.

(** The positions of the match are in the variables. *)
Definition match_at (w : list Z) (p j : nat) (pos : bool -> Z -> nat) (rs : list rep) (s : ed) : Prop :=
  loc1 (matched_of s) = Z.of_nat p /\ loc2 (matched_of s) = Z.of_nat j /\ (p <= length w)%nat /\ (j <= length w)%nat /\
  forall n, RGroup n ∈ rs -> (forall b, brackets b (matched_of s) !! Z.to_nat n = Some (Z.of_nat (pos b n))) /\ (pos false n <= length w)%nat.

Lemma match_at_cons w p j pos x rs s : match_at w p j pos (x :: rs) s -> match_at w p j pos rs s.
Proof. intros (H1 & H2 & H3 & H4 & H5). split_and!; try done. intros n Hn. apply H5. by right. Qed.

Lemma wp_replace_loop w s p j pos rs fuel rp g pre Q :
  line_is w s -> match_at w p j pos rs s -> Forall rep_ok rs -> rhs_is rp (map rep_code rs ++ [0]) s -> (length rs < fuel)%nat ->
  pre `prefix_of` g -> length g = size -> (length pre + length (expansion w p j pos rs) < size)%nat ->
  (forall g', length g' = size -> (pre ++ expansion w p j pos rs) `prefix_of` g' -> Q (Z.of_nat (length (pre ++ expansion w p j pos rs))) (gen g' s)) ->
  wp (replace_loop fuel (Z.of_nat rp) (Z.of_nat (length pre))) Q (gen g s).
Proof.
  intros Hw. revert fuel rp g pre. induction rs as [|x rs IH]; intros fuel rp g pre Hm Hok Hr Hf Hp Hg Hsz HQ; (destruct fuel as [|fuel]; [cbn in Hf; lia|]); cbn [replace_loop map app] in *.
  { apply rhs_head in Hr as [Hr _]. wp_use wp_peek; [exact Hr|]. wp_red. change (0 =? 0) with true. wp_steps. cbn in HQ. rewrite app_nil_r in HQ. by apply HQ. }
  apply rhs_head in Hr as [Hx Hr]. apply Forall_cons in Hok as [Hxok Hok]. pose proof (match_at_cons _ _ _ _ _ _ _ Hm) as Hm'. destruct Hm as (H1 & H2 & H3 & H4 & H5).
  unfold expansion in Hsz, HQ. cbn [map concat] in Hsz, HQ. change (concat (map (expand w p j pos) rs)) with (expansion w p j pos rs) in *. rewrite length_app in Hsz.
  assert (Hgo : forall g', length g' = size -> (pre ++ expand w p j pos x) `prefix_of` g' -> wp (replace_loop fuel (Z.of_nat (S rp)) (Z.of_nat (length (pre ++ expand w p j pos x)))) Q (gen g' s)).
  { intros g' Hg' Hp'. cbn [length] in Hf. apply IH; try done; [lia|rewrite length_app; lia|]. intros g2 Hg2 Hp2. rewrite <- app_assoc in *. by apply HQ. }
  wp_use wp_peek; [exact Hx|]. wp_steps. rewrite succ_of_nat. destruct x as [quoted c| |n]; cbn [rep_code expand rep_ok] in *.
  - set (x := if quoted then c - 128 else c) in *. assert (Hland : Z.land x 127 = c).
    { subst x. destruct quoted; [apply land_quoted, Hxok|]. destruct Hxok as [Hc _]. rewrite <- (land_127 c) at 2 by done. unfold char7 in Hc. by rewrite s8_id by lia. }
    assert (Hx0 : (x =? 0) = false /\ (x =? 38) = false /\ (x <? 0) && (49 <=? c) && (c <? NBRA + 49) = false /\ - 2 ^ 7 <= c < 2 ^ 7).
    { subst x. unfold char7, NBRA in *. destruct quoted; split_and!; try lia; (destruct (Z.ltb_spec (c - 128) 0), (Z.leb_spec 49 c), (Z.ltb_spec c (5 + 49)); cbn; lia). }
    destruct Hx0 as (-> & -> & E & Hc8). wp_red. rewrite Hland, E. wp_red. wp_use wp_gen; [exact Hp|cbn in Hsz; lia|done|].
    intros g1 Hg1 Hp1. wp_red. unfold error_if. destruct (Z.leb_spec LBSIZE (Z.of_nat (length pre) + 1)); [unfold size in *; cbn in Hsz; lia|]. wp_steps. rewrite <- (length_snoc pre c). apply Hgo; [lia|done].
  - change (38 =? 0) with false. change (38 =? 38) with true. wp_steps. cbn [gen up_bufs matched_of]. rewrite H1, H2. wp_use wp_place; [exact Hw|done|exact Hp|done|lia|]. exact Hgo.
  - assert (Hland : Z.land (49 + n - 128) 127 = 49 + n) by (apply land_quoted; unfold char7, NBRA in *; lia). unfold NBRA in *.
    destruct (Z.eqb_spec (49 + n - 128) 0), (Z.eqb_spec (49 + n - 128) 38); try lia. wp_red. rewrite Hland.
    destruct (Z.ltb_spec (49 + n - 128) 0), (Z.leb_spec 49 (49 + n)), (Z.ltb_spec (49 + n) (5 + 49)); try lia. cbn [andb]. wp_red.
    destruct (H5 n ltac:(left)) as [Hpos Hle]. replace (49 + n - 49) with (Z.of_nat (Z.to_nat n)) by lia.
    wp_use wp_deref; [rewrite elem_nat; apply (Hpos true)|]. wp_use wp_deref; [rewrite elem_nat; apply (Hpos false)|]. wp_use wp_place; [exact Hw|done|exact Hp|done|lia|]. exact Hgo.
Qed.

(** * The new line *)

(** A string is copied over the line. *)
Lemma wp_copy_line fuel l g pre e Q s :
  (pre ++ l ++ [0]) `prefix_of` g -> Forall char8 l -> pre `prefix_of` e -> length e = size -> (length pre + length l < size)%nat -> (length l < fuel)%nat ->
  (forall e' z, length e' = size -> (pre ++ l ++ [0]) `prefix_of` e' -> Q z (up_bufs (set_linebuf e') (gen g s))) ->
  wp (copy_str fuel LINEBUF (Z.of_nat (length pre)) GENBUF (Z.of_nat (length pre))) Q (up_bufs (set_linebuf e) (gen g s)).
Proof.
  revert fuel pre e. induction l as [|c l IH]; intros fuel pre e Hg H8 Hp He Hsz Hf HQ; (destruct fuel as [|fuel]; [cbn in Hf; lia|]); cbn [copy_str app length] in *.
  all: assert (Hin : (length pre < length e)%nat) by lia; destruct (lookup_lt_is_Some_2 _ _ Hin) as [y Hy].
  - pose proof Hg as [k Ek]. rewrite <- app_assoc in Ek. wp_use wp_peek; [rewrite elem_nat; cbn; rewrite Ek; by apply list_lookup_middle|].
    wp_use wp_poke; [rewrite elem_nat; exact Hy|]. wp_red. change (0 =? 0) with true. wp_steps. rewrite Nat2Z.id. apply (HQ (<[length pre := 0]> e)); [by rewrite length_insert|by apply prefix_put].
  - pose proof Hg as [k Ek]. rewrite <- app_assoc in Ek. apply Forall_cons in H8 as [Hc H8]. wp_use wp_peek; [rewrite elem_nat; cbn; rewrite Ek; by apply list_lookup_middle|].
    wp_use wp_poke; [rewrite elem_nat; exact Hy|]. wp_red. destruct (Z.eqb_spec c 0); [by destruct Hc|]. rewrite Nat2Z.id, s8_id by (by destruct Hc).
    rewrite <- (length_snoc pre c). change (up_bufs _ _) with (up_bufs (set_linebuf (<[length pre := c]> e)) (gen g s)).
    apply IH; [by rewrite <- app_assoc|done|by apply prefix_put|by rewrite length_insert|rewrite length_app; cbn; lia|lia|].
    intros e' z He' Hp'. apply HQ; [done|]. by rewrite <- app_assoc in Hp'.
Qed.

Lemma char8_replaced w p j pos rs : Forall char8 w -> Forall rep_ok rs -> Forall char8 (replaced w p j pos rs).
Proof.
  intros Hw Hr. unfold replaced. apply Forall_app. split; [by apply Forall_take|]. apply Forall_app. split; [|by apply Forall_drop].
  unfold expansion. apply Forall_concat, Forall_map. eapply Forall_impl; [exact Hr|]. intros [quoted c| |n] Hx; cbn [expand]; [|by apply Forall_take, Forall_drop..].
  constructor; [|constructor]. unfold char8. cbn [rep_ok] in Hx. destruct quoted; destruct Hx as [Hx _]; unfold char7 in Hx; lia.
Qed.

(** The new line is in [linebuf] and [loc2] is after the replacement. *)
Definition substituted (w : list Z) (p j : nat) (pos : bool -> Z -> nat) (rs : list rep) (s s' : ed) : Prop :=
  line_is (replaced w p j pos rs) s' /\ loc2 (matched_of s') = Z.of_nat (p + length (expansion w p j pos rs)) /\
  exists e g, s' = up_matched (set_loc2 (loc2 (matched_of s'))) (up_bufs (fun b => set_linebuf e (set_genbuf g b)) s).

Lemma wp_dosub w p j pos rs s :
  line_is w s -> length (linebuf (bufs_of s)) = size -> length (genbuf (bufs_of s)) = size -> match_at w p j pos rs s -> Forall rep_ok rs -> rhs_is 0 (map rep_code rs ++ [0]) s ->
  (length rs < 256)%nat -> (length (replaced w p j pos rs) < size)%nat ->
  wp dosub (fun _ => substituted w p j pos rs s) s.
Proof.
  intros Hw Hl Hg Hm Hok Hr Hlen Hsz. pose proof Hm as (H1 & H2 & H3 & H4 & H5). pose proof Hw as (H8 & Hwl & _). pose proof Hsz as Hsz'. unfold replaced in Hsz'. rewrite !length_app, length_take, Nat.min_l in Hsz' by lia.
  cut (wp dosub (fun _ => substituted w p j pos rs s) (gen (genbuf (bufs_of s)) s)); [by destruct s as [? ? ? ? ? ? [] ?]|].
  unfold dosub. wp_steps. cbn [gen up_bufs matched_of]. rewrite H1. replace (Z.to_nat (Z.of_nat p)) with p by lia. replace (Z.max 0 (Z.of_nat p)) with (Z.of_nat (length (take p w))) by (rewrite length_take; lia).
  change 0 with (Z.of_nat 0) at 1. eapply (wp_head_loop w s Hw p 0); [lia|apply prefix_nil|done|unfold size; lia|]. intros g1 Hg1 Hp1. wp_red.
  change 0 with (Z.of_nat 0) at 1. wp_use (wp_replace_loop w s p j pos rs); [done|done|done|done|lia|exact Hp1|done|rewrite length_take; lia|]. intros g2 Hg2 Hp2. wp_steps.
  cbn [gen up_bufs matched_of]. rewrite H2. set (sp := Z.of_nat _). change (up_matched (set_loc2 sp) (gen g2 s)) with (gen g2 (up_matched (set_loc2 sp) s)).
  wp_use wp_tail_loop; [exact Hw|done|exact Hp2|done|rewrite length_app, length_take; lia|rewrite length_drop; unfold scan_size, size in *; lia|]. intros g3 Hg3 Hp3. wp_red.
  cut (wp (copy_str scan_size LINEBUF 0 GENBUF 0) (fun _ => substituted w p j pos rs s) (up_bufs (set_linebuf (linebuf (bufs_of s))) (gen g3 (up_matched (set_loc2 sp) s)))).
  { intros H. wp_steps. apply (wp_mono _ (fun _ => substituted w p j pos rs s)); [by destruct s as [? ? ? ? ? ? [] ?]|]. intros z s' Hs. wp_steps. exact Hs. }
  change 0 with (Z.of_nat (length (@nil Z))). eapply (wp_copy_line _ (replaced w p j pos rs)); [|by apply char8_replaced|apply prefix_nil|done|done|unfold scan_size, size in *; lia|].
  - unfold replaced. rewrite <- !app_assoc in *. done.
  - intros e z He Hpe. cbn in Hpe. split_and!; [split_and!; [by apply char8_replaced|done|]|cbn; subst sp; rewrite length_app, length_take; lia|by exists e, g3].
    destruct Hpe as [k ->]. exists k. cbn. by rewrite <- !app_assoc.
Qed.

(** * Reading the command *)

Definition rep_text (x : rep) : list Z :=
  match x with
  | RChar quoted c => if quoted then [92; c] else [c]
  | RMatch => [38]
  | RGroup n => [92; 49 + n]
  end.

Definition rep_writable (eof : Z) (x : rep) : Prop :=
  match x with
  | RChar false c => c <> 92 /\ c <> 10 /\ c <> eof
  | RMatch => eof <> 38
  | _ => True
  end.

(** The replacement as it is typed. *)
Definition rep_typed (eof : Z) (rs : list rep) (rest : list Z) : list Z := concat (map rep_text rs) ++ eof :: rest.

(** The state while the replacement is read. *)
Definition rhs (b : list Z) (s : ed) : ed := up_bufs (set_rhsbuf b) s.

Lemma wp_rhs s c e b pre x Q :
  pre `prefix_of` b -> (length pre < length b)%nat ->
  (forall b', length b' = length b -> (pre ++ [s8 x]) `prefix_of` b' -> Q tt (at_ (rhs b' s) c e)) -> wp (poke RHSBUF (Z.of_nat (length pre)) x) Q (at_ (rhs b s) c e).
Proof.
  intros Hp Hl HQ. destruct (lookup_lt_is_Some_2 _ _ Hl) as [y Hy]. eapply wp_poke; [rewrite elem_nat; exact Hy|].
  rewrite Nat2Z.id. exact (HQ (<[length pre := s8 x]> b) (length_insert _ _ _) (prefix_put _ _ _ Hp Hl)).
Qed.

Lemma lor_128 c : char7 c -> Z.lor c 128 = c + 128.
Proof.
  intros Hc. unfold char7 in Hc. rewrite <- Z.lxor_lor, Z.add_nocarry_lxor; [done|..]; change 128 with (2 ^ 7);
    (apply Z.bits_inj'; intros n Hn; rewrite Z.land_spec, Z.pow2_bits_eqb, Z.bits_0 by lia; destruct (Z.eqb_spec 7 n) as [<-|]; [|by rewrite andb_false_r]; rewrite Z.bits_above_log2; [done|lia|apply Z.log2_lt_pow2; lia]).
Qed.

Lemma s8_quoted c : char7 c -> s8 (c + 128) = c - 128.
Proof. intros Hc. unfold char7, s8 in *. replace (c + 128 + 128) with (c + 1 * 256) by lia. rewrite Z_mod_plus_full, Z.mod_small; lia. Qed.

(** A character after a backslash. *)
Lemma quoted_code x c : x = RChar true c \/ (exists n, x = RGroup n /\ c = 49 + n) -> rep_ok x -> char7 c /\ rep_text x = [92; c] /\ rep_code x = c - 128.
Proof. intros [->|(n & -> & ->)] Hok; [by destruct Hok|]. cbn in Hok. unfold char7, NBRA in *. split_and!; (done || lia). Qed.

Lemma wp_compsub_loop eof rs :
  delimiter eof -> forall fuel s c e b pre l Q, Forall rep_ok rs -> Forall (rep_writable eof) rs -> (length rs < fuel)%nat ->
  pre `prefix_of` b -> length b = 256%nat -> (length pre + length rs < 256)%nat -> reads c (rep_typed eof rs l) ->
  (forall c' b', reads c' l -> peekc c' = 0 -> length b' = 256%nat -> (pre ++ map rep_code rs ++ [0]) `prefix_of` b' -> Q tt (at_ (rhs b' s) c' e)) ->
  wp (compsub_loop fuel eof (Z.of_nat (length pre))) Q (at_ (rhs b s) c e).
Proof.
  intros [He Hne]. induction rs as [|x rs IH]; intros fuel s c e b pre l Q Hok Hwr Hf Hp Hb Hsz Hrd HQ; (destruct fuel as [|fuel]; [cbn in Hf; lia|]); cbn [compsub_loop length map app] in *.
  { cbn in Hrd. wp_use wp_getchar; [exact Hrd|done|]. intros c1 Hc1 Hz. wp_red. destruct (Z.eqb_spec eof 92); [set_solver|]. wp_steps. unfold error_if. destruct (Z.eqb_spec eof 10); [set_solver|]. wp_steps.
    rewrite Z.eqb_refl. apply wp_rhs; [done|lia|]. intros b1 Hb1 Hp1. apply HQ; (done || lia). }
  apply Forall_cons in Hok as [Hx Hok]. apply Forall_cons in Hwr as [Hxw Hwr]. unfold rep_typed in Hrd. cbn [map concat] in Hrd. rewrite <- app_assoc in Hrd. change (concat (map rep_text rs) ++ eof :: l) with (rep_typed eof rs l) in Hrd.
  assert (Hgo : forall y c1, s8 y = rep_code x -> y <> 10 -> y <> eof -> reads c1 (rep_typed eof rs l) ->
    wp (do! error_if (y =? 10); if y =? eof then poke RHSBUF (Z.of_nat (length pre)) 0 else do! poke RHSBUF (Z.of_nat (length pre)) y; do! error_if (LBSIZE / 2 <=? Z.of_nat (length pre) + 1); compsub_loop fuel eof (Z.of_nat (length pre) + 1)) Q (at_ (rhs b s) c1 e)).
  { intros y c1 Hy H10 Heof Hc1. unfold error_if. destruct (Z.eqb_spec y 10); [done|]. wp_steps. destruct (Z.eqb_spec y eof); [done|]. wp_use wp_rhs; [exact Hp|lia|]. intros b1 Hb1 Hp1. wp_red. rewrite Hy in Hp1.
    destruct (Z.leb_spec (LBSIZE / 2) (Z.of_nat (length pre) + 1)) as [Hle|_]; [change (LBSIZE / 2) with 256 in Hle; lia|]. wp_steps. rewrite <- (length_snoc pre (rep_code x)).
    eapply (IH fuel s c1 e b1 (pre ++ [rep_code x]) l); try done; [lia|lia|rewrite length_app; cbn; lia|]. intros c' b' H1 H2 H3 H4. apply HQ; try done. by rewrite <- app_assoc in H4. }
  assert (Hq : forall y, x = RChar true y \/ (exists n, x = RGroup n /\ y = 49 + n) ->
    wp (let! c := getchar in let! c := (if c =? 92 then let! c := getchar in ret (Z.lor c 128) else ret c) in
        do! error_if (c =? 10); if c =? eof then poke RHSBUF (Z.of_nat (length pre)) 0 else do! poke RHSBUF (Z.of_nat (length pre)) c; do! error_if (LBSIZE / 2 <=? Z.of_nat (length pre) + 1); compsub_loop fuel eof (Z.of_nat (length pre) + 1)) Q (at_ (rhs b s) c e)).
  { intros y Hy. destruct (quoted_code x y Hy Hx) as (Hc & Et & Ec). rewrite Et in Hrd. cbn [app] in Hrd. wp_use wp_getchar; [exact Hrd|unfold char7; lia|]. intros c1 Hc1 _. wp_red. change (92 =? 92) with true. wp_red.
    wp_use wp_getchar; [exact Hc1|done|]. intros c2 Hc2 _. apply wp_ret. rewrite lor_128 by done. apply Hgo; [rewrite s8_quoted by done; by rewrite Ec|unfold char7 in *; lia..|done]. }
  destruct x as [[] y| |n]; [by apply (Hq y); left| | |by apply (Hq (49 + n)); right; eexists].
  - cbn in Hrd, Hx, Hxw. wp_use wp_getchar; [exact Hrd|by destruct Hx|]. intros c1 Hc1 _. wp_red. destruct (Z.eqb_spec y 92); [by destruct Hxw|]. apply wp_bind, wp_ret. apply Hgo; [|by destruct Hxw as (_ & ? & ?)..|done]. destruct Hx as [Hx _]. unfold char7 in Hx. cbn. apply s8_id. lia.
  - cbn in Hrd, Hxw. wp_use wp_getchar; [exact Hrd|unfold char7; lia|]. intros c1 Hc1 _. wp_red. change (38 =? 92) with false. apply wp_bind, wp_ret. by apply Hgo.
Qed.

(** The command after [s], up to the end of its line. *)
Definition command_typed (eof : Z) (circ : bool) (r : list item) (rs : list rep) (glob : bool) (rest : list Z) : list Z :=
  eof :: typed eof circ r (rep_typed eof rs ((if glob then [103] else []) ++ 10 :: rest)).

Lemma wp_newline s c e rest Q : reads c (10 :: rest) -> (forall c', reads c' rest -> Q tt (at_ s c' e)) -> wp newline Q (at_ s c e).
Proof. intros Hr HQ. unfold newline. wp_use wp_getchar; [exact Hr|unfold char7; lia|]. intros c' Hc' _. wp_red. change (10 =? 10) with true. wp_steps. by apply HQ. Qed.

Definition buffers_ok (s : ed) : Prop :=
  length (linebuf (bufs_of s)) = size /\ length (genbuf (bufs_of s)) = size /\ length (rhsbuf (bufs_of s)) = 256%nat /\
  length (expbuf (bufs_of s)) = Z.to_nat code_size /\ brackets_ok s.

(** The code of the pattern and of the replacement are in the buffers. *)
Definition command_read (circ : bool) (r : list item) (rs : list rep) (rest : list Z) (s s' : ed) : Prop :=
  exists c e b,
    s' = at_ (rhs b (up_matched (set_circfl (if circ then 1 else 0)) s)) c e /\ reads c rest /\ length e = Z.to_nat code_size /\ code r `prefix_of` e /\
    length b = 256%nat /\ (map rep_code rs ++ [0]) `prefix_of` b.

Lemma at_eta s : at_ (rhs (rhsbuf (bufs_of s)) s) (chars_of s) (expbuf (bufs_of s)) = s.
Proof. by destruct s as [? ? ? ? ? ? [] ?]. Qed.

Lemma wp_compsub eof circ r rs glob rest s :
  delimiter eof -> pattern_ok r -> (circ = false -> r <> []) -> Forall rep_ok rs -> Forall (rep_writable eof) rs -> (length rs < 256)%nat ->
  buffers_ok s -> reads (chars_of s) (command_typed eof circ r rs glob rest) ->
  wp compsub (fun g s' => g = glob /\ command_read circ r rs rest s s') s.
Proof.
  intros Hdel Hok Hne Hr Hw Hlen (_ & _ & Hrb & He & _) Hrd. pose proof Hdel as [He7 Hsp]. unfold command_typed in Hrd.
  set (b := rhsbuf (bufs_of s)) in *. set (e := expbuf (bufs_of s)) in *. set (Q := fun g s' => g = glob /\ command_read circ r rs rest s s').
  rewrite <- (at_eta s). fold b e. unfold compsub. wp_use wp_getchar; [exact Hrd|done|]. intros c1 Hc1 _. wp_red.
  assert (Hnl : error_if (eof =? 10) = ret tt) by (destruct (Z.eqb_spec eof 10); [set_solver|done]). rewrite Hnl. wp_steps.
  eapply wp_mono; [eapply (wp_compile eof circ r _ (at_ (rhs b s) c1 e)); [done|done|done|exact Hc1|done]|]. intros [] s1 (c2 & e2 & -> & Hc2 & He2 & Hp2). wp_red.
  change (at_ (up_matched _ _) c2 e2) with (at_ (rhs b (up_matched (set_circfl (if circ then 1 else 0)) s)) c2 e2).
  change 0 with (Z.of_nat (length (@nil Z))) at 1. wp_use wp_compsub_loop; [exact Hdel|exact Hr|exact Hw|lia|apply prefix_nil|done|cbn; lia|exact Hc2|].
  intros c3 b3 Hc3 Hz Hb3 Hp3. wp_red. assert (HQ : forall c', reads c' rest -> Q glob (at_ (rhs b3 (up_matched (set_circfl (if circ then 1 else 0)) s)) c' e2)) by (intros c' Hc'; split; [done|]; by exists c', e2, b3).
  destruct glob; cbn [app] in Hc3.
  - wp_use wp_getchar; [exact Hc3|unfold char7; lia|]. intros c4 Hc4 Hz4. unfold set_peek. wp_steps. change (103 =? 103) with true. wp_steps.
    change (up_chars (set_peekc 0) _) with (at_ (rhs b3 (up_matched (set_circfl (if circ then 1 else 0)) s)) (set_peekc 0 c4) e2).
    wp_use wp_newline; [|intros c' Hc'; wp_steps; by apply HQ]. destruct Hc4 as [Hg Hu]. split; [done|]. unfold unread in *. by rewrite Hz4 in Hu.
  - wp_use wp_getchar; [exact Hc3|unfold char7; lia|]. intros c4 Hc4 Hz4. unfold set_peek. wp_steps. change (10 =? 103) with false. wp_steps.
    change (up_chars (set_peekc (s8 10)) _) with (at_ (rhs b3 (up_matched (set_circfl (if circ then 1 else 0)) s)) (set_peekc (s8 10) c4) e2).
    wp_use wp_newline; [by apply (reads_peek c4 10); [..|unfold char7; lia]|intros c' Hc'; wp_steps; by apply HQ].
Qed.

(** * The whole substitution *)

(** The position of a bracket among those that a match passed. *)
Fixpoint pos_of (cs : list capture) (b : bool) (n : Z) : nat :=
  match cs with
  | [] => O
  | (b', n', k) :: cs => if bool_decide (b' = b) && bool_decide (n' = n) then k else pos_of cs b n
  end.

Lemma pos_of_elem cs b n k : (b, n, k) ∈ cs -> (b, n, pos_of cs b n) ∈ cs.
Proof.
  induction cs as [|[[b' n'] k'] cs IH]; [set_solver|]. intros Hin. cbn [pos_of]. case_bool_decide as Hb; cbn; [|right; apply IH; set_solver].
  case_bool_decide as Hn; [subst; left|]. right. apply IH. set_solver.
Qed.

(** A match ends in the line, its brackets are in the line, and all brackets of
    the pattern are passed. *)
Lemma matches_inside w l r i j cs :
  matches w l r i j cs -> (i <= length w)%nat ->
  (j <= length w)%nat /\ Forall (fun c => (c.2 <= length w)%nat) cs /\ forall b n, n ∈ nums b r -> exists k, (b, n, k) ∈ cs.
Proof.
  induction 1 as [i|a r i j c cs E _ _ IH|a r i k j cs Hk _ _ _ IH|r i j cs E _ IH|n r i j cs _ IH|n r i j cs _ IH]; intros Hi.
  - split_and!; [done|constructor|]. by intros [] n Hn%elem_of_nil.
  - apply lookup_lt_Some in E. destruct IH as (H1 & H2 & H3); [lia|]. by split_and!.
  - destruct IH as (H1 & H2 & H3); [lia|]. by split_and!.
  - destruct IH as (H1 & H2 & H3); [lia|]. by split_and!.
  - destruct IH as (H1 & H2 & H3); [lia|]. split_and!; [done|by constructor|]. intros [] m Hm; [|destruct (H3 false m Hm) as [k Hin]; exists k; by right].
    unfold nums in Hm. cbn in Hm. apply elem_of_cons in Hm as [->|Hm]; [exists i; left|]. destruct (H3 true m Hm) as [k Hin]. exists k. by right.
  - destruct IH as (H1 & H2 & H3); [lia|]. split_and!; [done|by constructor|]. intros [] m Hm; [destruct (H3 true m Hm) as [k Hin]; exists k; by right|].
    unfold nums in Hm. cbn in Hm. apply elem_of_cons in Hm as [->|Hm]; [exists i; left|]. destruct (H3 false m Hm) as [k Hin]. exists k. by right.
Qed.

(** The brackets that the replacement names are in the pattern. *)
Definition refs_ok (r : list item) (rs : list rep) : Prop := forall n, RGroup n ∈ rs -> forall b, n ∈ nums b r.

Lemma reported_match w l r rs p j cs s :
  matches w l r p j cs -> (p <= length w)%nat -> refs_ok r rs -> reported s p j cs -> match_at w p j (pos_of cs) rs s.
Proof.
  intros Hm Hp Hrefs (H1 & H2 & H3). destruct (matches_inside _ _ _ _ _ _ Hm Hp) as (Hj & Hin & Hall). split_and!; try done.
  assert (Hpos : forall b n, RGroup n ∈ rs -> (b, n, pos_of cs b n) ∈ cs) by (intros b n Hn; destruct (Hall b n (Hrefs n Hn b)) as [k Hk]; by eapply pos_of_elem).
  intros n Hn. split.
  - intros b. apply (proj1 (Forall_forall _ _) H3 _ (Hpos b n Hn)).
  - apply (proj1 (Forall_forall _ _) Hin _ (Hpos false n Hn)).
Qed.

Lemma searched_same r s s' : searched r s s' -> bufs_of s' = bufs_of s /\ chars_of s' = chars_of s.
Proof. intros (p & s1 & (l2 & bs & be & -> & _) & ->). done. Qed.

Lemma replaced_length w p j pos rs : (length (replaced w p j pos rs) <= 2 * length w + length rs * S (length w))%nat.
Proof.
  unfold replaced. rewrite !length_app, length_take, length_drop. enough (length (expansion w p j pos rs) <= length rs * S (length w))%nat by lia.
  unfold expansion. induction rs as [|x rs IH]; [done|]. cbn [map concat length]. rewrite length_app. enough (length (expand w p j pos x) <= S (length w))%nat by lia.
  destruct x; cbn [expand]; unfold slice; rewrite ?length_take, ?length_drop; cbn; lia.
Qed.

(** C29: the command [s] reads a pattern and a replacement, finds the match in
    the line and rewrites it: what stands before the leftmost match, the
    replacement with [&] as the matched text and a quoted digit as the text of
    a bracket, and what stands after the match.  When the pattern matches
    nowhere the line is kept.  Every call returns, and the flag [g] and the rest
    of the input are as typed. *)
Theorem substitution_correct eof circ r rs glob rest w s :
  delimiter eof -> pattern_ok r -> (circ = false -> r <> []) -> Forall rep_ok rs -> Forall (rep_writable eof) rs -> (length rs < 256)%nat -> refs_ok r rs ->
  buffers_ok s -> reads (chars_of s) (command_typed eof circ r rs glob rest) -> line_is w s -> locs (matched_of s) = None ->
  (forall p j cs, matches w None r p j cs -> (length (replaced w p j (pos_of cs) rs) < size)%nat) ->
  wp (let! g := compsub in let! b := find_match 0 in do! (if b then dosub else ret tt); ret (g, b)) (fun gb s' =>
    gb.1 = glob /\ reads (chars_of s') rest /\
    if gb.2 then
      exists p j cs,
        start_ok w circ 0 p /\ matches w None r p j cs /\ head (ways w None r p) = Some (j, cs) /\
        (forall p' j' cs', start_ok w circ 0 p' -> (p' < p)%nat -> ~ matches w None r p' j' cs') /\
        line_is (replaced w p j (pos_of cs) rs) s'
    else (forall p j cs, start_ok w circ 0 p -> ~ matches w None r p j cs) /\ line_is w s') s.
Proof.
  intros Hdel Hok Hne Hr Hw Hlen Hrefs Hb Hrd Hl Hn Hfit. wp_use wp_mono; [by apply (wp_compsub eof circ r rs glob rest)|].
  intros g s1 (-> & c & e & b & Es1 & Hc & He & Hcode & Hbl & Hrhs). wp_red. change 0 with (Z.of_nat 0). destruct Hb as (Hb1 & Hb2 & _ & _ & Hbr).
  assert (Hl1 : line_is w s1) by (by subst s1). assert (Hn1 : locs (matched_of s1) = None) by (by subst s1).
  wp_use wp_mono; [apply (wp_find_match w r 0 s1); [by subst s1|by apply pattern_regex|done|by subst s1|by subst s1|lia]|]. intros found s2 Hf. wp_red.
  pose proof (found_match w r 0 s1 found s2 ltac:(by rewrite Hn1) ltac:(lia) Hf) as Hm. destruct Hf as [Hs _]. apply searched_same in Hs as [Ebufs Echars].
  assert (Hl2 : line_is w s2) by (unfold line_is; by rewrite Ebufs). assert (Hrest : reads (chars_of s2) rest) by (rewrite Echars; by subst s1).
  assert (Ecirc : negb (circfl (matched_of s1) =? 0) = circ) by (subst s1; by destruct circ). rewrite Hn1 in Hm. cbv zeta in Hm. rewrite Ecirc in Hm. destruct found; wp_red.
  - destruct Hm as (p & j & cs & H1 & H2 & H3 & H4 & H5). wp_use wp_mono.
    + apply (wp_dosub w p j (pos_of cs) rs s2 Hl2); [by rewrite Ebufs; subst s1|by rewrite Ebufs; subst s1| |done|unfold rhs_is; by rewrite Ebufs; subst s1|done|by apply Hfit].
      eapply reported_match; [done|by destruct H1 as [[_ ?] _]|done|done].
    + intros [] s3 (H6 & _ & e3 & g3 & E3). wp_steps. split_and!; [done|rewrite E3; exact Hrest|]. by exists p, j, cs.
  - wp_steps. by split_and!.
Qed.

(** [s/\(a*\)b/&-\1/] on the line [xaab]. *)
Lemma substitution_correct_witness :
  let s := up_bufs (set_linebuf (str "xaab" ++ 0 :: replicate 507 0)) (start (str "/\(a*\)b/&-\1/" ++ [10]) None) in
  wp (let! g := compsub in let! b := find_match 0 in do! (if b then dosub else ret tt); ret (g, b)) (fun gb s' => gb.1 = false /\ reads (chars_of s') []) s.
Proof.
  intros s. eapply wp_mono.
  - apply (substitution_correct 47 false [IBra 0; IStar (AChar 97); IKet 0; IOne (AChar 98)] [RMatch; RChar false 45; RGroup 0] false [] (str "xaab") s).
    + split; [unfold char7; lia|set_solver].
    + split_and!; [|done|vm_compute; lia]. repeat (apply Forall_cons_2; [by repeat split|]). constructor.
    + done.
    + repeat (apply Forall_cons_2; [by repeat split|]). constructor.
    + repeat (apply Forall_cons_2; [by repeat split|]). constructor.
    + cbn. lia.
    + intros n Hn b. rewrite !elem_of_cons, elem_of_nil in Hn. destruct Hn as [|[|[[= ->]|[]]]]; [done..|]. destruct b; left.
    + by repeat split.
    + by split.
    + split_and!; [|vm_compute; lia|by exists (replicate 507 0)]. repeat (apply Forall_cons_2; [split; vm_compute; (done || split; done)|]). constructor.
    + done.
    + intros p j cs _. eapply Nat.le_lt_trans; [apply replaced_length|]. vm_compute. lia.
  - intros [g b] s' (H1 & H2 & _). by split.
Defined.
