(* ===== verification/EdSession.v ===== *)
(** Sessions of the editor, run from the start: a text that fits into one block
    of the temporary file is edited as it should be, the first line of a longer
    one is lost. *)

From S2P Require Import Prelude Ed.

(** No file exists; every file can be created. *)
#[local] Instance no_files : EdFiles := {| file_bytes := fun _ => None; may_create := fun _ => true; may_grow := true |}.

(** What a session prints. *)
Definition session (input : list Z) : option (list Z) :=
  match main 200 (start input None) with
  | Done _ s => Some (out (screen_of s))
  | Failed _ => None
  end.

(** Lines of 43 characters below a first line, which is then printed. *)
Definition typed_lines (n : nat) : list Z := str "a" ++ [10] ++ str "first line" ++ [10] ++ concat (replicate n (replicate 43 120 ++ [10])) ++ str "." ++ [10].

Definition print_first : list Z := str "1p" ++ [10] ++ str "q" ++ [10].

(** The temporary file is read and written at byte [b] where block [b] is
    meant: with ten lines below it the first line is printed as it was typed,
    with thirty lines, more than a block, its text has been overwritten by that
    of another line. *)
Example long_text_lost :
  session (typed_lines 10 ++ print_first) = Some (str "first line" ++ [10]) /\
  session (typed_lines 30 ++ print_first) = Some (102 :: replicate 27 120 ++ [10]).
Proof. split; vm_compute; reflexivity. Qed.

(** A session that appends, substitutes, moves, searches, marks for a
    global command and deletes lines prints what these commands mean. *)
Example edit_session :
  session (str "a" ++ [10] ++ str "hello world" ++ [10] ++ str "foo bar" ++ [10] ++ str "baz" ++ [10] ++ str "." ++ [10] ++
           str "1s/o/0/g" ++ [10] ++ str "2m0" ++ [10] ++ str "1,$p" ++ [10] ++ str "/b.z/p" ++ [10] ++
           str "g/a/s/a/[&]/" ++ [10] ++ str "2d" ++ [10] ++ str "1,$p" ++ [10] ++ str "q" ++ [10]) =
  Some (str "foo bar" ++ [10] ++ str "hell0 w0rld" ++ [10] ++ str "baz" ++ [10] ++ str "baz" ++ [10] ++ str "foo b[a]r" ++ [10] ++ str "b[a]z" ++ [10]).
Proof. vm_compute. reflexivity. Qed.
