(* ===== verification/KList.v ===== *)
(** The circular doubly linked lists of util/list.c and include/util/list.h.

    A [list_t] or [list_link_t] is a cell of a heap of links, keyed by its
    address; a read through a null or dangling pointer is a [Fault].  [ring h
    ys] says that the cells [ys] form one circle in that order, and [is_list h
    l xs] that [xs] are the links on the list [l].  The operations are written
    over any state that has such a heap. *)

From S2P Require Import Prelude.

Record link : Type := Link { l_next : Z; l_prev : Z }.

Notation links := (gmap Z link).

(** A state with links in it. *)
Class HasLinks (St : Type) : Type := {
  links_of : St -> links;
  set_links : links -> St -> St;
}.

#[export] Instance links_links : HasLinks links := {| links_of h := h; set_links h _ := h |}.

Section operations.
Context {St : Type} {HL : HasLinks St}.

Definition get_link (a : Z) : M St link := let! s := get in deref (links_of s !! a).

(** A store to a cell; the null pointer is not one. *)
Definition set_link (a : Z) (l : link) : M St unit :=
  if a =? 0 then fail Fault else modify (fun s => set_links (<[a := l]> (links_of s)) s).

Definition set_next (a next : Z) : M St unit := let! l := get_link a in set_link a (Link next (l_prev l)).
Definition set_prev (a prev : Z) : M St unit := let! l := get_link a in set_link a (Link (l_next l) prev).

Definition list_init (list : Z) : M St unit := set_link list (Link list list).

Definition list_link_init (link : Z) : M St unit := set_link link (Link 0 0).

Definition list_link_is_linked (link : Z) : M St bool :=
  let! l := get_link link in ret (negb (l_next l =? 0) && negb (l_prev l =? 0)).

Definition list_empty (list : Z) : M St bool := let! l := get_link list in ret (l_next l =? list).

Definition list_assert_sanity (list : Z) : M St unit :=
  let! l := get_link list in
  do! kassert (negb (l_next l =? 0));
  let! n := get_link (l_next l) in
  do! kassert (negb (l_prev n =? 0));
  do! kassert (negb (l_prev l =? 0));
  let! p := get_link (l_prev l) in
  kassert (negb (l_next p =? 0)).

Definition list_insert_before (link to_insert : Z) : M St unit :=
  let! l := get_link link in
  do! set_link to_insert (Link link (l_prev l));
  let! l := get_link link in
  do! set_next (l_prev l) to_insert;
  set_prev link to_insert.

Definition list_insert_head (list link : Z) : M St unit :=
  let! l := get_link list in list_insert_before (l_next l) link.

Definition list_insert_tail (list link : Z) : M St unit := list_insert_before list link.

Definition list_remove (link : Z) : M St unit :=
  let! ll := get_link link in
  do! set_next (l_prev ll) (l_next ll);
  do! set_prev (l_next ll) (l_prev ll);
  set_link link (Link 0 0).

(** [list_iterate]: the link after the current one is read before the body of
    the current one runs.  [acc] is a local variable that the body updates. *)
Fixpoint iterate_loop {A} (fuel : nat) (list var next : Z) (body : Z -> A -> M St A) (acc : A) : M St A :=
  if var =? list then ret acc
  else
    match fuel with
    | O => fail Stuck
    | S fuel =>
        let! acc := body var acc in
        let! l := get_link next in
        iterate_loop fuel list next (l_next l) body acc
    end.

Definition list_iterate {A} (list : Z) (body : Z -> A -> M St A) (acc : A) : M St A :=
  let! s := get in
  let! l := get_link list in
  let! n := get_link (l_next l) in
  iterate_loop (size (links_of s)) list (l_next l) (l_next n) body acc.
End operations.

(** ** Circles *)

(** The cells of [ys] in order, the first after [p] and the last before [e]. *)
Fixpoint dseg (h : links) (p : Z) (ys : list Z) (e : Z) : Prop :=
  match ys with
  | [] => True
  | y :: ys => h !! y = Some (Link (hd e ys) p) /\ dseg h y ys e
  end.

Lemma dseg_app h p ys zs e : dseg h p (ys ++ zs) e <-> dseg h p ys (hd e zs) /\ dseg h (List.last ys p) zs e.
Proof.
  revert p. induction ys as [|y ys IH]; intros p; [simpl; tauto|].
  change ((y :: ys) ++ zs) with (y :: (ys ++ zs)). cbn [dseg]. rewrite IH.
  assert (hd e (ys ++ zs) = hd (hd e zs) ys) as -> by (by destruct ys). assert (List.last (y :: ys) p = List.last ys y) as ->; [|tauto].
  destruct ys as [|y' ys]; [done|]. cbn [List.last]. clear IH. revert y'. induction ys as [|z ys IH]; intros y'; [done|]. apply (IH z).
Qed.

Lemma dseg_frame h h' p ys e : (forall y, y ∈ ys -> h' !! y = h !! y) -> dseg h p ys e -> dseg h' p ys e.
Proof.
  revert p. induction ys as [|y ys IH]; intros p Hs; [done|]. cbn [dseg]. intros [H1 H2]. split.
  - rewrite Hs; [done|left].
  - apply IH; [|done]. intros z Hz. apply Hs. by right.
Qed.

Definition ring (h : links) (ys : list Z) : Prop := NoDup ys /\ dseg h (List.last ys 0) ys (hd 0 ys).

Lemma last_app_cons {A} (l : list A) x l' d : List.last (l ++ x :: l') d = List.last (x :: l') d.
Proof. induction l as [|a l IH]; [done|]. simpl. destruct (l ++ x :: l') eqn:E; [by destruct l|]. exact IH. Qed.

Lemma last_default {A} (l : list A) d d' : l <> [] -> List.last l d = List.last l d'.
Proof. induction l as [|a l IH]; [done|]. intros _. destruct l; [done|]. simpl in *. by apply IH. Qed.

(** A circle may be read from any of its cells. *)
Lemma ring_rotate h ys zs : ring h (ys ++ zs) -> ring h (zs ++ ys).
Proof.
  intros [Hnd Hd]. split; [by rewrite Permutation_app_comm|]. destruct ys as [|y ys]; [by rewrite app_nil_r in *|].
  destruct zs as [|z zs]; [by rewrite app_nil_r in *|]. rewrite dseg_app in Hd. rewrite last_app_cons in Hd.
  rewrite dseg_app, last_app_cons. destruct Hd as [H1 H2]. split.
  - rewrite (last_default _ _ 0) in H2 by done. exact H2.
  - rewrite (last_default _ _ 0) by done. exact H1.
Qed.

Lemma ring_frame h h' ys : (forall y, y ∈ ys -> h' !! y = h !! y) -> ring h ys -> ring h' ys.
Proof. intros Hs [? ?]. split; [done|]. by eapply dseg_frame. Qed.

(** The link [y] of a circle and its neighbours. *)
Lemma ring_head h y zs : ring h (y :: zs) -> h !! y = Some (Link (hd y zs) (List.last (y :: zs) 0)).
Proof. intros [_ [H _]]. done. Qed.

Lemma ring_tail_prev h y zs p : ring h (y :: zs ++ [p]) -> h !! p = Some (Link y (List.last (y :: zs) 0)).
Proof.
  intros H. apply (ring_rotate h (y :: zs) [p]), ring_head in H. cbn [app hd] in H. exact H.
Qed.

Lemma dseg_prev h p p' y zs e :
  y ∉ zs -> dseg h p (y :: zs) e -> dseg (<[y := Link (hd e zs) p']> h) p' (y :: zs) e.
Proof.
  intros Hy [_ H]. split; [apply lookup_insert_eq|]. eapply dseg_frame; [|exact H].
  intros z Hz. apply lookup_insert_ne. set_solver.
Qed.

Lemma dseg_next h p ys y e e' :
  y ∉ ys -> dseg h p (ys ++ [y]) e -> dseg (<[y := Link e' (List.last ys p)]> h) p (ys ++ [y]) e'.
Proof.
  intros Hy. rewrite !dseg_app. intros [H1 [H2 _]]. split; [|split; [apply lookup_insert_eq|done]].
  eapply dseg_frame; [|exact H1]. intros z Hz. apply lookup_insert_ne. set_solver.
Qed.

(** ** The operations on circles *)

Class LinksLaws (St : Type) {HL : HasLinks St} : Prop := {
  links_set : forall h (s : St), links_of (set_links h s) = h;
  set_set : forall h h' (s : St), set_links h (set_links h' s) = set_links h s;
  set_same : forall s : St, set_links (links_of s) s = s;
}.

#[export] Instance links_laws : LinksLaws links.
Proof. by split. Qed.

Section rules.
Context {St : Type} {HL : HasLinks St} {LL : LinksLaws St}.
Implicit Types (s : St) (h : links).

Lemma wp_get_link a l Q s : links_of s !! a = Some l -> Q l s -> wp (get_link a) Q s.
Proof. intros H HQ. unfold get_link. wp_steps. by eapply wp_deref. Qed.

Lemma wp_set_link a l Q s : a <> 0 -> Q tt (set_links (<[a := l]> (links_of s)) s) -> wp (set_link a l) Q s.
Proof. intros Ha HQ. unfold set_link. rewrite (proj2 (Z.eqb_neq _ _)) by done. by wp_steps. Qed.

Lemma wp_set_next a l n Q s :
  a <> 0 -> links_of s !! a = Some l -> Q tt (set_links (<[a := Link n (l_prev l)]> (links_of s)) s) -> wp (set_next a n) Q s.
Proof. intros Ha H HQ. unfold set_next. apply wp_bind. eapply wp_get_link; [exact H|]. by apply wp_set_link. Qed.

Lemma wp_set_prev a l n Q s :
  a <> 0 -> links_of s !! a = Some l -> Q tt (set_links (<[a := Link (l_next l) n]> (links_of s)) s) -> wp (set_prev a n) Q s.
Proof. intros Ha H HQ. unfold set_prev. apply wp_bind. eapply wp_get_link; [exact H|]. by apply wp_set_link. Qed.

(** The heap of a circle that has changed at no other cell. *)
Definition only (ys : list Z) h h' : Prop := forall a, a ∉ ys -> h' !! a = h !! a.

Lemma wp_insert_before y zs n Q s :
  ring (links_of s) (y :: zs) -> n ∉ y :: zs -> 0 ∉ n :: y :: zs ->
  (forall h', ring h' (n :: y :: zs) -> only (n :: y :: zs) (links_of s) h' -> Q tt (set_links h' s)) ->
  wp (list_insert_before y n) Q s.
Proof.
  intros Hr Hn H0 HQ. pose proof (ring_head _ _ _ Hr) as Hy. set (h := links_of s) in *.
  apply not_elem_of_cons in Hn as [Hny Hnz]. rewrite !not_elem_of_cons in H0. destruct H0 as (H0n & H0y & H0z).
  unfold list_insert_before. apply wp_bind. eapply wp_get_link; [exact Hy|]. cbn [l_prev]. apply wp_bind, wp_set_link; [done|].
  apply wp_bind. eapply wp_get_link; [by rewrite links_set, lookup_insert_ne|]. cbn [l_prev]. apply wp_bind.
  destruct zs as [|p zs _] using rev_ind.
  - cbn [List.last]. eapply wp_set_next; [done|by rewrite links_set, lookup_insert_ne|]. rewrite !links_set, !set_set. cbn [l_prev List.last].
    eapply wp_set_prev; [done|by rewrite links_set, lookup_insert_eq|]. rewrite !links_set, !set_set. cbn [l_next].
    apply HQ.
    + split; [apply NoDup_cons; split; [set_solver|apply NoDup_singleton]|]. cbn [List.last hd dseg].
      by rewrite !lookup_insert_ne, !lookup_insert_eq by congruence.
    + intros a Ha. rewrite !lookup_insert_ne; set_solver.
  - pose proof (ring_tail_prev _ _ _ _ Hr) as Hp. destruct Hr as [Hnd Hd].
    assert (p <> y /\ p <> n /\ p <> 0 /\ p ∉ zs /\ y ∉ zs) as (Hpy & Hpn & Hp0 & Hpz & Hyz).
    { apply NoDup_cons in Hnd as [Hyn Hnd]. apply NoDup_app in Hnd as (_ & Hdis & _). set_solver. }
    rewrite app_comm_cons, last_app_cons in *. change (List.last [p] 0) with p in *.
    eapply wp_set_next; [done|by rewrite links_set, lookup_insert_ne|]. rewrite !links_set, !set_set. cbn [l_prev].
    eapply wp_set_prev; [done|by rewrite links_set, !lookup_insert_ne|]. rewrite !links_set, !set_set. cbn [l_next].
    apply HQ; [|intros a Ha; rewrite !lookup_insert_ne; set_solver].
    split; [apply NoDup_cons; split; [set_solver|done]|]. change (n :: (y :: zs) ++ [p]) with ((n :: y :: zs) ++ [p]). rewrite last_app_cons.
    change (List.last [p] 0) with p. cbn [app hd] in *. split; [by rewrite !lookup_insert_ne, lookup_insert_eq by congruence|].
    assert (hd y (zs ++ [p]) = hd n (zs ++ [p])) as -> by (by destruct zs). apply (dseg_prev _ p); [set_solver|].
    rewrite app_comm_cons. assert (List.last (y :: zs) 0 = List.last (y :: zs) p) as -> by (by apply last_default).
    apply (dseg_next _ _ _ _ y); [set_solver|]. eapply dseg_frame; [|exact Hd]. intros z Hz. rewrite lookup_insert_ne; [done|]. set_solver.
Qed.

Lemma wp_remove x z zs Q s :
  ring (links_of s) (x :: z :: zs) -> 0 ∉ x :: z :: zs ->
  (forall h', ring h' (z :: zs) -> only (x :: z :: zs) (links_of s) h' -> h' !! x = Some (Link 0 0) -> Q tt (set_links h' s)) ->
  wp (list_remove x) Q s.
Proof.
  intros Hr H0 HQ. pose proof (ring_head _ _ _ Hr) as Hx. set (h := links_of s) in *.
  rewrite !not_elem_of_cons in H0. destruct H0 as (H0x & H0z & H0zs).
  unfold list_remove. apply wp_bind. eapply wp_get_link; [exact Hx|]. cbn [l_prev l_next hd]. apply wp_bind.
  destruct zs as [|p zs _] using rev_ind.
  - pose proof (ring_tail_prev _ x [] z Hr) as Hz. cbn [List.last] in *. destruct Hr as [Hnd Hd].
    assert (x <> z) by (apply NoDup_cons in Hnd; set_solver).
    eapply wp_set_next; [done|exact Hz|]. cbn [l_prev]. apply wp_bind.
    eapply wp_set_prev; [done|by rewrite links_set, lookup_insert_eq|]. rewrite !links_set, !set_set. cbn [l_next].
    apply wp_set_link; [done|]. rewrite !links_set, !set_set. apply HQ; [|intros a Ha; rewrite !lookup_insert_ne; set_solver|by rewrite lookup_insert_eq].
    split; [apply NoDup_singleton|]. cbn [List.last hd dseg]. by rewrite lookup_insert_ne, lookup_insert_eq.
  - pose proof (ring_tail_prev _ x (z :: zs) p Hr) as Hp. destruct Hr as [Hnd Hd].
    assert (p <> x /\ p <> z /\ p <> 0 /\ p ∉ zs /\ x <> z /\ x ∉ zs /\ z ∉ zs) as (Hpx & Hpz & Hp0 & Hpzs & Hxz & Hxzs & Hzzs).
    { apply NoDup_cons in Hnd as [Hxn Hnd]. apply NoDup_cons in Hnd as [Hzn Hnd]. apply NoDup_app in Hnd as (_ & Hdis & _). set_solver. }
    change (x :: z :: zs ++ [p]) with ((x :: z :: zs) ++ [p]) in Hd |- *. rewrite last_app_cons in Hd |- *.
    change (List.last [p] 0) with p in Hd |- *. cbn [app hd] in Hd. destruct Hd as [_ Hd].
    assert (h !! z = Some (Link (hd x (zs ++ [p])) x)) as Hz by exact (proj1 Hd).
    eapply wp_set_next; [done|exact Hp|]. cbn [l_prev]. apply wp_bind.
    eapply wp_set_prev; [done|by rewrite links_set, lookup_insert_ne|]. rewrite !links_set, !set_set. cbn [l_next].
    apply wp_set_link; [done|]. rewrite !links_set, !set_set. apply HQ; [|intros a Ha; rewrite !lookup_insert_ne; set_solver|by rewrite lookup_insert_eq].
    split; [by apply NoDup_cons in Hnd as [_ Hnd]|]. rewrite app_comm_cons, last_app_cons. change (List.last [p] 0) with p. cbn [app hd].
    eapply (dseg_frame (<[z := Link (hd x (zs ++ [p])) p]> (<[p := Link z (List.last (x :: z :: zs) 0)]> h))).
    { intros a Ha. rewrite (lookup_insert_ne _ x); [done|]. set_solver. }
    assert (hd x (zs ++ [p]) = hd z (zs ++ [p])) as -> by (by destruct zs). apply (dseg_prev _ x); [set_solver|].
    change (List.last (x :: z :: zs) 0) with (List.last (z :: zs) 0). rewrite app_comm_cons. rewrite (last_default (z :: zs) 0 x) by done.
    by apply (dseg_next _ _ _ _ x); [set_solver|].
Qed.

(** ** Lists *)

Definition is_list h (l : Z) (xs : list Z) : Prop := ring h (l :: xs) /\ 0 ∉ l :: xs.

Lemma is_list_frame h h' l xs : (forall y, y ∈ l :: xs -> h' !! y = h !! y) -> is_list h l xs -> is_list h' l xs.
Proof. intros Hs [? ?]. split; [by eapply ring_frame|done]. Qed.

Lemma is_list_nodup h l xs : is_list h l xs -> NoDup (l :: xs).
Proof. by intros [[? _] _]. Qed.

Lemma wp_list_init l Q s :
  l <> 0 -> (forall h', is_list h' l [] -> only [l] (links_of s) h' -> Q tt (set_links h' s)) -> wp (list_init l) Q s.
Proof.
  intros Hl HQ. apply wp_set_link; [done|]. apply HQ.
  - split; [|set_solver]. split; [apply NoDup_singleton|]. cbn. by rewrite lookup_insert_eq.
  - intros a Ha. apply lookup_insert_ne. set_solver.
Qed.

Lemma wp_insert_head l xs n Q s :
  is_list (links_of s) l xs -> n ∉ l :: xs -> n <> 0 ->
  (forall h', is_list h' l (n :: xs) -> only (n :: l :: xs) (links_of s) h' -> Q tt (set_links h' s)) ->
  wp (list_insert_head l n) Q s.
Proof.
  intros [Hr H0] Hn Hn0 HQ. unfold list_insert_head. apply wp_bind. eapply wp_get_link; [by apply ring_head|]. cbn [l_next].
  destruct xs as [|x xs].
  - cbn [hd]. apply (wp_insert_before l []); [done|done|set_solver|]. intros h' Hr' Ho. apply HQ; [|exact Ho].
    split; [by apply (ring_rotate _ [n] [l])|set_solver].
  - cbn [hd]. apply (ring_rotate _ [l] (x :: xs)) in Hr. apply (wp_insert_before x (xs ++ [l])); [exact Hr|set_solver|set_solver|].
    intros h' Hr' Ho. apply HQ.
    + split; [by apply (ring_rotate _ (n :: x :: xs) [l])|set_solver].
    + intros a Ha. apply Ho. set_solver.
Qed.

Lemma wp_insert_tail l xs n Q s :
  is_list (links_of s) l xs -> n ∉ l :: xs -> n <> 0 ->
  (forall h', is_list h' l (xs ++ [n]) -> only (n :: l :: xs) (links_of s) h' -> Q tt (set_links h' s)) ->
  wp (list_insert_tail l n) Q s.
Proof.
  intros [Hr H0] Hn Hn0 HQ. unfold list_insert_tail. apply (wp_insert_before l xs); [done|done|set_solver|].
  intros h' Hr' Ho. apply HQ; [|exact Ho]. split; [by apply (ring_rotate _ [n] (l :: xs))|set_solver].
Qed.

(** The comment of [list_remove]: the link leaves its list and is unlinked. *)
Lemma wp_list_remove l xs x ys Q s :
  is_list (links_of s) l (xs ++ x :: ys) ->
  (forall h', is_list h' l (xs ++ ys) -> only (l :: xs ++ x :: ys) (links_of s) h' -> h' !! x = Some (Link 0 0) -> Q tt (set_links h' s)) ->
  wp (list_remove x) Q s.
Proof.
  intros [Hr H0] HQ. apply (ring_rotate _ (l :: xs) (x :: ys)) in Hr.
  assert (exists z zs, ys ++ l :: xs = z :: zs) as (z & zs & E) by (destruct ys; eauto).
  change ((x :: ys) ++ l :: xs) with (x :: (ys ++ l :: xs)) in Hr. rewrite E in Hr.
  assert (forall a, a ∈ x :: z :: zs <-> a ∈ l :: xs ++ x :: ys) as Hsame by (rewrite <- E; set_solver).
  apply (wp_remove x z zs); [done|by rewrite Hsame|]. intros h' Hr' Ho Hx. apply HQ; [|intros a Ha; apply Ho; by rewrite Hsame|done].
  rewrite <- E in Hr'. apply (ring_rotate _ ys (l :: xs)) in Hr'. split; [exact Hr'|]. set_solver.
Qed.

Lemma wp_list_empty l xs Q s :
  is_list (links_of s) l xs -> Q (bool_decide (xs = [])) s -> wp (list_empty l) Q s.
Proof.
  intros [Hr H0] HQ. unfold list_empty. apply wp_bind. eapply wp_get_link; [by apply ring_head|]. apply wp_ret. cbn [l_next].
  destruct xs as [|x xs]; cbn [hd]; [by rewrite Z.eqb_refl|]. rewrite (proj2 (Z.eqb_neq _ _)); [done|].
  destruct Hr as [Hnd _]. apply NoDup_cons in Hnd as [? _]. set_solver.
Qed.

Lemma ring_lookup h ys y : ring h ys -> y ∈ ys -> exists n p, h !! y = Some (Link n p) /\ n ∈ ys /\ p ∈ ys.
Proof.
  intros Hr (xs & zs & ->)%list_elem_of_split. apply ring_rotate, ring_head in Hr. exists (hd y (zs ++ xs)), (List.last (y :: zs ++ xs) 0). split; [exact Hr|]. split.
  - destruct zs as [|z zs]; [|set_solver]. destruct xs; set_solver.
  - destruct (exists_last (l := y :: zs ++ xs)) as (w & v & E); [done|]. rewrite E, last_app_cons. cbn [List.last].
    assert (v ∈ y :: zs ++ xs) by (rewrite E; set_solver). set_solver.
Qed.

(** The sanity assertion holds of every list. *)
Lemma wp_assert_sanity l xs Q s : is_list (links_of s) l xs -> Q tt s -> wp (list_assert_sanity l) Q s.
Proof.
  intros [Hr H0] HQ. assert (forall a, a ∈ l :: xs -> (a =? 0) = false) as Hne by (intros a Ha; apply Z.eqb_neq; intros ->; done).
  destruct (ring_lookup _ _ l Hr ltac:(left)) as (n & p & Hl & Hn & Hp).
  destruct (ring_lookup _ _ n Hr Hn) as (nn & np & Hln & _ & Hnp). destruct (ring_lookup _ _ p Hr Hp) as (pn & pp & Hlp & Hpn & _).
  unfold list_assert_sanity. apply wp_bind. eapply wp_get_link; [exact Hl|]. cbn [l_next l_prev].
  apply wp_bind, wp_kassert; [by rewrite Hne|]. apply wp_bind. eapply wp_get_link; [exact Hln|].
  do 2 (apply wp_bind, wp_kassert; [by rewrite Hne|]). apply wp_bind. eapply wp_get_link; [exact Hlp|]. apply wp_kassert; [by rewrite Hne|done].
Qed.

Lemma wp_linked h ys y Q s : links_of s = h -> ring h ys -> 0 ∉ ys -> y ∈ ys -> Q true s -> wp (list_link_is_linked y) Q s.
Proof.
  intros <- Hr H0 Hy HQ. destruct (ring_lookup _ _ y Hr Hy) as (n & p & Hl & Hn & Hp).
  unfold list_link_is_linked. apply wp_bind. eapply wp_get_link; [exact Hl|]. apply wp_ret. cbn [l_next l_prev].
  rewrite !(proj2 (Z.eqb_neq _ 0)) by congruence. done.
Qed.

Lemma wp_not_linked y Q s : links_of s !! y = Some (Link 0 0) -> Q false s -> wp (list_link_is_linked y) Q s.
Proof. intros Hl HQ. unfold list_link_is_linked. apply wp_bind. by eapply wp_get_link. Qed.

(** ** Iteration

    [Inv rest s] holds with the links [rest] still to come.  The body may do
    anything to the lists as long as the links to come stay linked in this
    order. *)
Section iterate.
Context {A : Type} (l : Z) (body : Z -> A -> M St A) (Inv : list Z -> A -> St -> Prop).
Context (Hnext : forall rest acc s, Inv rest acc s ->
           exists lk, links_of s !! hd l rest = Some lk /\ (rest <> [] -> l_next lk = hd l (tl rest))).

Lemma wp_iterate_loop fuel rest acc Q s :
  (length rest <= fuel)%nat -> l ∉ rest -> Inv rest acc s ->
  (forall x rest acc s, Inv (x :: rest) acc s -> wp (body x acc) (Inv rest) s) ->
  (forall acc s', Inv [] acc s' -> Q acc s') -> forall nx, (rest <> [] -> nx = hd l (tl rest)) ->
  wp (iterate_loop fuel l (hd l rest) nx body acc) Q s.
Proof using Hnext LL.
  intros Hfuel Hl HI Hbody HQ. revert fuel acc s Hfuel Hl HI. induction rest as [|x rest IH]; intros fuel acc s Hfuel Hl HI nx Hnx.
  - destruct fuel; cbn [hd iterate_loop]; rewrite Z.eqb_refl; by apply HQ.
  - destruct fuel as [|fuel]; [cbn in Hfuel; lia|]. cbn [hd tl iterate_loop] in *. rewrite (proj2 (Z.eqb_neq x l)) by set_solver.
    apply wp_bind. eapply wp_mono; [by apply Hbody|]. intros acc' s' HI'. cbv beta. rewrite (Hnx ltac:(done)).
    destruct (Hnext _ _ _ HI') as (lk & Hlk & Hnn). apply wp_bind. eapply wp_get_link; [exact Hlk|].
    apply IH; [cbn in Hfuel; lia|set_solver|done|done].
Qed.
End iterate.

(** The links of a list from some place on, as iteration meets them. *)
Lemma is_list_next h l xs ys :
  is_list h l (xs ++ ys) -> exists lk, h !! hd l ys = Some lk /\ (ys <> [] -> l_next lk = hd l (tl ys)).
Proof.
  intros [Hr _]. destruct ys as [|y ys].
  - rewrite app_nil_r in Hr. eexists. split; [by apply ring_head|done].
  - apply (ring_rotate h (l :: xs) (y :: ys)), ring_head in Hr. eexists. split; [exact Hr|]. intros _. cbn [tl l_next]. by destruct ys.
Qed.

Lemma list_length_size h l xs : is_list h l xs -> (length xs <= size h)%nat.
Proof.
  intros [Hr _]. pose proof Hr as [Hnd _]. rewrite <- (size_dom h). apply NoDup_cons in Hnd as [_ Hnd'].
  rewrite <- (size_list_to_set (C := gset Z) xs Hnd'). apply subseteq_size. intros y Hy. apply elem_of_list_to_set in Hy.
  destruct (ring_lookup h (l :: xs) y Hr ltac:(by right)) as (n & p & Hl & _). by eapply elem_of_dom_2.
Qed.

Lemma wp_list_iterate {A} l xs (body : Z -> A -> M St A) (Inv : list Z -> A -> St -> Prop) acc Q s :
  is_list (links_of s) l xs -> Inv xs acc s ->
  (forall rest acc s, Inv rest acc s -> exists lk, links_of s !! hd l rest = Some lk /\ (rest <> [] -> l_next lk = hd l (tl rest))) ->
  (forall x rest acc s, Inv (x :: rest) acc s -> wp (body x acc) (Inv rest) s) ->
  (forall acc s', Inv [] acc s' -> Q acc s') -> wp (list_iterate l body acc) Q s.
Proof.
  intros Hl HI Hnext Hbody HQ. pose proof (list_length_size _ _ _ Hl) as Hsz. pose proof (is_list_nodup _ _ _ Hl) as [Hnl _]%NoDup_cons.
  unfold list_iterate. wp_steps. eapply wp_get_link; [apply ring_head, Hl|]. cbn [l_next]. wp_steps.
  destruct (Hnext _ _ _ HI) as (lk & Hlk & Hn). eapply wp_get_link; [exact Hlk|]. by eapply wp_iterate_loop.
Qed.
End rules.
