(* ===== verification/KMem.v ===== *)
(** The kernel's byte-addressable memory, as the allocators that keep their
    data inside the memory they hand out see it.  Pointers and [size_t] are
    64-bit little-endian words; all of physical memory is mapped, so every
    address can be read. *)

From S2P Require Import Prelude.

Abbreviation memory := (gmap Z Z).

Definition load8 (m : memory) (a : Z) : Z := default 0 (m !! a).
Definition store8 (m : memory) (a v : Z) : memory := <[a := v]> m.

Fixpoint store_bytes (m : memory) (a : Z) (bs : list Z) : memory :=
  match bs with
  | [] => m
  | b :: bs => store_bytes (store8 m a b) (a + 1) bs
  end.

Fixpoint load_bytes (m : memory) (a : Z) (n : nat) : list Z :=
  match n with
  | O => []
  | S n => load8 m a :: load_bytes m (a + 1) n
  end.

Definition load64 (m : memory) (a : Z) : Z := Z_of_le (load_bytes m a 8).
Definition store64 (m : memory) (a v : Z) : memory := store_bytes m a (le_of_Z 8 v).

(** ** Reading what was written *)

Lemma load8_store8 m a v : load8 (store8 m a v) a = v.
Proof. unfold load8, store8. by rewrite lookup_insert_eq. Qed.

Lemma load8_store8_ne m a v b : a <> b -> load8 (store8 m a v) b = load8 m b.
Proof. intros. unfold load8, store8. by rewrite lookup_insert_ne. Qed.

Lemma load8_store_bytes_out m a bs x :
  x < a \/ a + Z.of_nat (length bs) <= x -> load8 (store_bytes m a bs) x = load8 m x.
Proof.
  revert m a. induction bs as [|b bs IH]; intros m a Hx; [done|]. cbn [store_bytes length] in *.
  rewrite IH by lia. apply load8_store8_ne. lia.
Qed.

Lemma load_bytes_ext m m' a n :
  (forall x, a <= x < a + Z.of_nat n -> load8 m x = load8 m' x) -> load_bytes m a n = load_bytes m' a n.
Proof.
  revert a. induction n as [|n IH]; intros a H; [done|]. cbn [load_bytes].
  rewrite (H a), (IH (a + 1)); [done| |lia]. intros. apply H. lia.
Qed.

Lemma load_bytes_store_bytes m a bs : load_bytes (store_bytes m a bs) a (length bs) = bs.
Proof.
  revert m a. induction bs as [|b bs IH]; intros m a; [done|]. cbn [store_bytes load_bytes length].
  rewrite IH. f_equal. rewrite load8_store_bytes_out by lia. apply load8_store8.
Qed.

Lemma load64_ext m m' a :
  (forall x, a <= x < a + 8 -> load8 m x = load8 m' x) -> load64 m a = load64 m' a.
Proof. intros H. unfold load64. f_equal. apply load_bytes_ext. intros. apply H. lia. Qed.

Lemma load8_store64_ne m a v x : x < a \/ a + 8 <= x -> load8 (store64 m a v) x = load8 m x.
Proof. intros. apply load8_store_bytes_out. rewrite length_le_of_Z. lia. Qed.

Lemma load64_store64 m a v : 0 <= v < 2 ^ 64 -> load64 (store64 m a v) a = v.
Proof.
  intros Hv. unfold load64, store64.
  replace 8%nat with (length (le_of_Z 8 v)) at 2 by apply length_le_of_Z.
  rewrite load_bytes_store_bytes, Z_of_le_of_Z. apply Z.mod_small. done.
Qed.

Lemma load64_store64_ne m a v b : b + 8 <= a \/ a + 8 <= b -> load64 (store64 m a v) b = load64 m b.
Proof. intros. apply load64_ext. intros. apply load8_store64_ne. lia. Qed.

Lemma load64_store8_ne m a v b : b + 8 <= a \/ a < b -> load64 (store8 m a v) b = load64 m b.
Proof. intros. apply load64_ext. intros. apply load8_store8_ne. lia. Qed.

Lemma load64_store_bytes_ne m a bs b :
  b + 8 <= a \/ a + Z.of_nat (length bs) <= b -> load64 (store_bytes m a bs) b = load64 m b.
Proof. intros. apply load64_ext. intros. apply load8_store_bytes_out. lia. Qed.

Lemma load8_store_bytes_in m a bs k b : bs !! k = Some b -> load8 (store_bytes m a bs) (a + Z.of_nat k) = b.
Proof.
  revert m a k. induction bs as [|b' bs IH]; intros m a [|k] Hk; cbn in Hk; [done|done| |].
  - injection Hk as ->. cbn [store_bytes]. rewrite load8_store_bytes_out by lia. rewrite Z.add_0_r. apply load8_store8.
  - cbn [store_bytes]. replace (a + Z.of_nat (S k)) with (a + 1 + Z.of_nat k) by lia. by apply IH.
Qed.

Lemma load64_zero m a : (forall x, a <= x < a + 8 -> load8 m x = 0) -> load64 m a = 0.
Proof. intros H. rewrite (load64_ext m ∅ a); [done|]. intros x Hx. rewrite H by done. by unfold load8. Qed.
