(* ===== verification/UMalloc.v ===== *)
(** The allocator of the user library ([user/lib/libc/malloc.c]).

    Whole pages are kept in a directory with an entry for each page above the
    first break; runs of free pages are on a list ordered by address.  Smaller
    requests are rounded to a power of two and taken from a page of chunks that
    has a bitmap of the free ones.  The descriptions of the runs, and those of
    the pages of larger chunks, are themselves allocated chunks.

    The descriptions are records that the state maps from their addresses, the
    directory is the list of its entries, and [mem] has the bytes of the blocks.
    [abort] is [Assert]. *)

From S2P Require Import Prelude CString KMem.

(** * Parameters of the system *)

(** The break, mapped memory, and the standard error. *)
Class Os (O : Type) : Type := {
  sbrk0 : O -> Z;                              (* [sbrk(0)] *)
  os_brk : Z -> O -> Z * O;
  os_mmap : Z -> O -> Z * O;                   (* of [/dev/zero]: pages of zeroes *)
  os_munmap : Z -> O -> O;
  os_open_zero : O -> Z * O;
  os_write_err : list Z -> O -> O;
}.

(** [&free_list], [malloc_options] (empty for null), and what memory that is
    used as a bitmap holds before. *)
Class MallocData : Type := {
  free_list : Z;
  malloc_options : list Z;
  raw_word : Z -> nat -> Z;
}.

(** * Data *)

Definition malloc_pageshift : Z := 12.
Definition malloc_minsize : Z := 16.
Definition malloc_pagesize : Z := 4096.
Definition malloc_maxsize : Z := 2048.
Definition SOME_JUNK : Z := 0xd0.
Definition MALLOC_BITS : Z := 32.

Definition MALLOC_NOT_MINE : Z := 0.
Definition MALLOC_FREE : Z := 1.
Definition MALLOC_FIRST : Z := 2.
Definition MALLOC_FOLLOW : Z := 3.
Definition MALLOC_MAGIC : Z := 4.

Record pginfo : Type := Pginfo {
  pi_next : Z; pi_page : Z; pi_size : Z; pi_shift : Z; pi_free : Z; pi_total : Z; pi_bits : list Z
}.
Record pgfree : Type := Pgfree { pf_next : Z; pf_prev : Z; pf_page : Z; pf_end : Z; pf_size : Z }.

Definition sizeof_pgfree : Z := 40.
Definition offsetof_bits : Z := 24.

Definition set_pi_next n x := Pginfo n (pi_page x) (pi_size x) (pi_shift x) (pi_free x) (pi_total x) (pi_bits x).
Definition set_pi_free n x := Pginfo (pi_next x) (pi_page x) (pi_size x) (pi_shift x) n (pi_total x) (pi_bits x).
Definition set_pi_bits b x := Pginfo (pi_next x) (pi_page x) (pi_size x) (pi_shift x) (pi_free x) (pi_total x) b.
Definition set_pf_next n x := Pgfree n (pf_prev x) (pf_page x) (pf_end x) (pf_size x).
Definition set_pf_prev n x := Pgfree (pf_next x) n (pf_page x) (pf_end x) (pf_size x).
Definition set_pf_run p e n x := Pgfree (pf_next x) (pf_prev x) p e n.

Record options : Type := Options {
  malloc_abort : bool; malloc_hint : bool; malloc_realloc : bool; malloc_junk : bool; malloc_sysv : bool; malloc_xmalloc : bool; malloc_zero : bool
}.

Record heap (O : Type) : Type := Heap {
  os : O;
  mem : memory;
  infos : gmap Z pginfo;
  frees : gmap Z pgfree;                       (* [free_list] among them *)
  page_dir : list Z;
  malloc_ninfo : Z;
  malloc_origo : Z;
  last_index : Z;
  malloc_brk : Z;
  px : Z;
  malloc_cache : Z;
  malloc_started : Z;
  malloc_active : Z;
  suicide : bool;
  opts : options;
  malloc_func : list Z;
}.
Arguments Heap {O}. Arguments os {O}. Arguments mem {O}. Arguments infos {O}. Arguments frees {O}. Arguments page_dir {O}. Arguments malloc_ninfo {O}.
Arguments malloc_origo {O}. Arguments last_index {O}. Arguments malloc_brk {O}. Arguments px {O}. Arguments malloc_cache {O}. Arguments malloc_started {O}.
Arguments malloc_active {O}. Arguments suicide {O}. Arguments opts {O}. Arguments malloc_func {O}.

Section malloc.
Context {O : Type} {sys : Os O} {data : MallocData}.
Abbreviation H := (heap O).

Definition set_os o (h : H) : H := Heap o (mem h) (infos h) (frees h) (page_dir h) (malloc_ninfo h) (malloc_origo h) (last_index h) (malloc_brk h) (px h) (malloc_cache h) (malloc_started h) (malloc_active h) (suicide h) (opts h) (malloc_func h).
Definition set_mem m (h : H) : H := Heap (os h) m (infos h) (frees h) (page_dir h) (malloc_ninfo h) (malloc_origo h) (last_index h) (malloc_brk h) (px h) (malloc_cache h) (malloc_started h) (malloc_active h) (suicide h) (opts h) (malloc_func h).
Definition set_infos i (h : H) : H := Heap (os h) (mem h) i (frees h) (page_dir h) (malloc_ninfo h) (malloc_origo h) (last_index h) (malloc_brk h) (px h) (malloc_cache h) (malloc_started h) (malloc_active h) (suicide h) (opts h) (malloc_func h).
Definition set_frees f (h : H) : H := Heap (os h) (mem h) (infos h) f (page_dir h) (malloc_ninfo h) (malloc_origo h) (last_index h) (malloc_brk h) (px h) (malloc_cache h) (malloc_started h) (malloc_active h) (suicide h) (opts h) (malloc_func h).
Definition set_page_dir d (h : H) : H := Heap (os h) (mem h) (infos h) (frees h) d (malloc_ninfo h) (malloc_origo h) (last_index h) (malloc_brk h) (px h) (malloc_cache h) (malloc_started h) (malloc_active h) (suicide h) (opts h) (malloc_func h).
Definition set_ninfo n (h : H) : H := Heap (os h) (mem h) (infos h) (frees h) (page_dir h) n (malloc_origo h) (last_index h) (malloc_brk h) (px h) (malloc_cache h) (malloc_started h) (malloc_active h) (suicide h) (opts h) (malloc_func h).
Definition set_origo n (h : H) : H := Heap (os h) (mem h) (infos h) (frees h) (page_dir h) (malloc_ninfo h) n (last_index h) (malloc_brk h) (px h) (malloc_cache h) (malloc_started h) (malloc_active h) (suicide h) (opts h) (malloc_func h).
(** [last_index] and [malloc_brk] are stored together. *)
Definition set_last i b (h : H) : H := Heap (os h) (mem h) (infos h) (frees h) (page_dir h) (malloc_ninfo h) (malloc_origo h) i b (px h) (malloc_cache h) (malloc_started h) (malloc_active h) (suicide h) (opts h) (malloc_func h).
Definition set_px p (h : H) : H := Heap (os h) (mem h) (infos h) (frees h) (page_dir h) (malloc_ninfo h) (malloc_origo h) (last_index h) (malloc_brk h) p (malloc_cache h) (malloc_started h) (malloc_active h) (suicide h) (opts h) (malloc_func h).
Definition set_cache n (h : H) : H := Heap (os h) (mem h) (infos h) (frees h) (page_dir h) (malloc_ninfo h) (malloc_origo h) (last_index h) (malloc_brk h) (px h) n (malloc_started h) (malloc_active h) (suicide h) (opts h) (malloc_func h).
Definition set_started n (h : H) : H := Heap (os h) (mem h) (infos h) (frees h) (page_dir h) (malloc_ninfo h) (malloc_origo h) (last_index h) (malloc_brk h) (px h) (malloc_cache h) n (malloc_active h) (suicide h) (opts h) (malloc_func h).
Definition set_active n (h : H) : H := Heap (os h) (mem h) (infos h) (frees h) (page_dir h) (malloc_ninfo h) (malloc_origo h) (last_index h) (malloc_brk h) (px h) (malloc_cache h) (malloc_started h) n (suicide h) (opts h) (malloc_func h).
Definition set_suicide b (h : H) : H := Heap (os h) (mem h) (infos h) (frees h) (page_dir h) (malloc_ninfo h) (malloc_origo h) (last_index h) (malloc_brk h) (px h) (malloc_cache h) (malloc_started h) (malloc_active h) b (opts h) (malloc_func h).
Definition set_opts o (h : H) : H := Heap (os h) (mem h) (infos h) (frees h) (page_dir h) (malloc_ninfo h) (malloc_origo h) (last_index h) (malloc_brk h) (px h) (malloc_cache h) (malloc_started h) (malloc_active h) (suicide h) o (malloc_func h).
Definition set_func f (h : H) : H := Heap (os h) (mem h) (infos h) (frees h) (page_dir h) (malloc_ninfo h) (malloc_origo h) (last_index h) (malloc_brk h) (px h) (malloc_cache h) (malloc_started h) (malloc_active h) (suicide h) (opts h) f.

(** * Access to the data *)

Definition os_call {A} (f : O -> A * O) : M H A :=
  let! h := get in
  let '(a, o) := f (os h) in
  do! modify (set_os o);
  ret a.

(** [page_dir[i]] *)
Definition dir (i : Z) : M H Z := let! h := get in deref (if i <? 0 then None else page_dir h !! Z.to_nat i).
Definition set_dir (i v : Z) : M H unit := do! dir i; modify (fun h => set_page_dir (<[Z.to_nat i := v]> (page_dir h)) h).

Definition info_at (a : Z) : M H pginfo := let! h := get in deref (infos h !! a).
(** A store through a pointer that is not null. *)
Definition put_info (a : Z) (x : pginfo) : M H unit := if a =? 0 then fail Fault else modify (fun h => set_infos (<[a := x]> (infos h)) h).
Definition free_at (a : Z) : M H pgfree := let! h := get in deref (frees h !! a).
Definition upd_free (a : Z) (f : pgfree -> pgfree) : M H unit := let! x := free_at a in modify (fun h => set_frees (<[a := f x]> (frees h)) h).
(** The run of a description that may be new. *)
Definition put_run (a p e n : Z) : M H unit :=
  if a =? 0 then fail Fault
  else modify (fun h => set_frees (<[a := set_pf_run p e n (default (Pgfree 0 0 0 0 0) (frees h !! a))]> (frees h)) h).

(** [memset] and [memcpy] on blocks *)
Definition mem_set (a c n : Z) : M H unit := modify (fun h => set_mem (store_bytes (mem h) a (replicate (Z.to_nat n) c)) h).
Definition mem_copy (dst src n : Z) : M H unit := modify (fun h => set_mem (store_bytes (mem h) dst (load_bytes (mem h) src (Z.to_nat n))) h).

Definition pageround (x : Z) : Z := let y := u64 (x + (malloc_pagesize - 1)) in y - y mod malloc_pagesize.
Definition ptr2index (h : H) (a : Z) : Z := u64 (a / malloc_pagesize - malloc_origo h).

(** * Messages

    [__progname] is the empty string, and writing it writes nothing. *)

Definition write_err (l : list Z) : M H unit := os_call (fun o => (tt, os_write_err l o)).

Definition wrterror {A} (p : list Z) : M H A :=
  let! h := get in
  do! write_err (malloc_func h);
  do! write_err (str " error: ");
  do! write_err p;
  do! modify (set_suicide true);
  fail Assert.

Definition wrtwarning (p : list Z) : M H unit :=
  let! h := get in
  do! (if malloc_abort (opts h) then wrterror p else ret tt);
  do! write_err (malloc_func h);
  do! write_err (str " warning: ");
  write_err p.

(** * Pages from the system *)

Definition extend_pgdir (index : Z) : M H Z :=
  let i := s32 (index * 8) in
  let i := s32 (s32 (u64 i / malloc_pagesize) + 2) in
  let! h := get in
  let! new := os_call (os_mmap (u64 (i * malloc_pagesize))) in
  if new =? -1 then ret 0
  else
    let ninfo := u32 (u64 (i * malloc_pagesize) / 8) in
    do! (if ninfo <? malloc_ninfo h then fail Fault else ret tt);
    do! modify (fun h => set_page_dir (page_dir h ++ replicate (Z.to_nat ninfo - length (page_dir h)) 0) h);
    do! modify (set_ninfo ninfo);
    do! modify (fun h' => set_os (os_munmap (malloc_ninfo h * 8) (os h')) h');
    ret 1.

(** [pages] is an [int], and so is the number of bytes. *)
Definition map_pages (pages : Z) : M H Z :=
  let! h := get in
  let result := pageround (sbrk0 (os h)) in
  let tail := u64 (result + s32 (pages * malloc_pagesize)) in
  let! r := os_call (os_brk tail) in
  if negb (r =? 0) then ret 0
  else
    let! h := get in
    do! modify (set_last (u64 (ptr2index h tail - 1)) tail);
    let! h := get in
    if malloc_ninfo h <=? u64 (last_index h + 1) then
      let! ok := extend_pgdir (last_index h) in
      if ok =? 0 then ret 0 else ret result
    else ret result.

(** * Allocation *)

(** Bit [i] of the bitmap. *)
Definition word_of (i : Z) : nat := Z.to_nat (i / MALLOC_BITS).
Definition bit_mask (i : Z) : Z := Z.shiftl 1 (i mod MALLOC_BITS).
Definition test_bit (bits : list Z) (i : Z) : M H bool := let! w := deref (bits !! word_of i) in ret (negb (Z.land w (bit_mask i) =? 0)).
(** [bits[i / MALLOC_BITS] |= ...] and [&= ~...] *)
Definition set_bit (bits : list Z) (i : Z) : M H (list Z) := let! w := deref (bits !! word_of i) in ret (<[word_of i := Z.lor w (bit_mask i)]> bits).
Definition clear_bit (bits : list Z) (i : Z) : M H (list Z) := let! w := deref (bits !! word_of i) in ret (<[word_of i := Z.ldiff w (bit_mask i)]> bits).

(** The loops over the bits of a new bitmap. *)
Fixpoint set_bits (l : list Z) (bits : list Z) : M H (list Z) :=
  match l with
  | [] => ret bits
  | i :: l => let! bits := set_bit bits i in set_bits l bits
  end.

(** The chunks that the description takes, [for (i = 0; l > 0; i++)]: the bitmap
    and their number. *)
Fixpoint steal (fuel : nat) (size l i : Z) (bits : list Z) : M H (list Z * Z) :=
  if l <=? 0 then ret (bits, i)
  else
    match fuel with
    | Datatypes.O => fail Stuck
    | S fuel => let! bits := clear_bit bits i in steal fuel size (l - size) (i + 1) bits
    end.

(** [while (i >>= 1) j++] *)
Fixpoint bucket_loop (fuel : nat) (i j : Z) : Z :=
  match fuel with
  | Datatypes.O => j
  | S fuel => let i := i / 2 in if i =? 0 then j else bucket_loop fuel i (j + 1)
  end.
Definition bucket (size : Z) : Z := bucket_loop 32 (size - 1) 1.

(** The first word of the bitmap that is not zero, and its lowest bit. *)
Fixpoint first_word (bits : list Z) (n : nat) : M H (nat * Z) :=
  match bits with
  | [] => fail Fault
  | w :: bits => if w =? 0 then first_word bits (S n) else ret (n, w)
  end.
Fixpoint first_bit (fuel : nat) (w u k : Z) : M H (Z * Z) :=
  match fuel with
  | Datatypes.O => fail Stuck
  | S fuel => if Z.land w u =? 0 then first_bit fuel w (u32 (u + u)) (k + 1) else ret (u, k)
  end.

(** The loop over the free list.  The first run that is large enough is taken or
    cut: the pages, and the description that is no longer needed. *)
Fixpoint find_run (fuel : nat) (pf size : Z) : M H (Z * Z) :=
  if pf =? 0 then ret (0, 0)
  else
    match fuel with
    | Datatypes.O => fail Stuck
    | S fuel =>
        let! x := free_at pf in
        if pf_size x <? size then find_run fuel (pf_next x) size
        else if pf_size x =? size then
          do! (if pf_next x =? 0 then ret tt else upd_free (pf_next x) (set_pf_prev (pf_prev x)));
          do! upd_free (pf_prev x) (set_pf_next (pf_next x));
          ret (pf_page x, pf)
        else
          do! upd_free pf (set_pf_run (pf_page x + size) (pf_end x) (pf_size x - size));
          ret (pf_page x, 0)
    end.

Section rec.
(** The allocator calls itself for its descriptions; [walk] bounds the loops over
    the lists. *)
Variable walk : nat.
Variable imalloc : Z -> M H Z.
Variable ifree : Z -> M H unit.

Definition malloc_pages (size : Z) : M H Z :=
  let size := pageround size in
  let! l := free_at free_list in
  let! r := find_run walk (pf_next l) size in
  let size := size / malloc_pagesize in
  let! p := (if r.1 =? 0 then map_pages (s32 size) else ret r.1) in
  do! (if p =? 0 then ret tt
       else
         let! h := get in
         let index := ptr2index h p in
         do! set_dir index MALLOC_FIRST;
         do! for_each (seqZ 1 (size - 1)) (fun i => set_dir (index + i) MALLOC_FOLLOW);
         if malloc_junk (opts h) then mem_set p SOME_JUNK (size * malloc_pagesize) else ret tt);
  do! (if r.2 =? 0 then ret tt
       else
         let! h := get in
         if px h =? 0 then modify (set_px r.2) else ifree r.2);
  ret p.

Definition malloc_make_chunks (bits : Z) : M H Z :=
  let! pp := malloc_pages malloc_pagesize in
  if pp =? 0 then ret 0
  else
    let size := Z.shiftl 1 bits in
    let k := Z.shiftr malloc_pagesize bits in
    let words := (k + MALLOC_BITS - 1) / MALLOC_BITS in
    let l := offsetof_bits + 4 * words in
    let! bp := (if size <=? l + l then ret pp else imalloc l) in
    if bp =? 0 then do! ifree pp; ret 0
    else
      let full := k / MALLOC_BITS in
      let raw := replicate (Z.to_nat full) (2 ^ 32 - 1) ++ map (fun n => u32 (raw_word bp n)) (seq (Z.to_nat full) (Z.to_nat (words - full))) in
      let! bm := set_bits (seqZ (full * MALLOC_BITS) (k - full * MALLOC_BITS)) raw in
      let! s := (if bp =? pp then steal (Z.to_nat l) size l 0 bm else ret (bm, 0)) in
      let! h := get in
      do! set_dir (ptr2index h pp) bp;
      let! next := dir bits in
      do! put_info bp (Pginfo next pp size bits (k - s.2) (k - s.2) s.1);
      do! set_dir bits bp;
      ret 1.

Definition malloc_bytes (size : Z) : M H Z :=
  let size := if size <? malloc_minsize then malloc_minsize else size in
  let j := bucket size in
  let! head := dir j in
  let! ok := (if head =? 0 then malloc_make_chunks j else ret 1) in
  if ok =? 0 then ret 0
  else
    let! bp := dir j in
    let! x := info_at bp in
    let! w := first_word (pi_bits x) 0 in
    let! b := first_bit 32 w.2 1 0 in
    let x := set_pi_free (pi_free x - 1) (set_pi_bits (<[w.1 := Z.lxor w.2 b.1]> (pi_bits x)) x) in
    do! (if pi_free x =? 0 then
           do! set_dir j (pi_next x);
           put_info bp (set_pi_next 0 x)
         else put_info bp x);
    let k := Z.shiftl (b.2 + Z.of_nat w.1 * MALLOC_BITS) (pi_shift x) in
    let! h := get in
    do! (if malloc_junk (opts h) then mem_set (pi_page x + k) SOME_JUNK (pi_size x) else ret tt);
    ret (pi_page x + k).

Definition imalloc_body (size : Z) : M H Z :=
  let! h := get in
  if suicide h then fail Assert
  else
    let! result :=
      (if u64 (size + malloc_pagesize) <? size then ret 0
       else if size <=? malloc_maxsize then malloc_bytes size
       else malloc_pages size) in
    let! h := get in
    do! (if malloc_abort (opts h) && (result =? 0) then wrterror (str "allocation failed." ++ [10]) else ret tt);
    do! (if malloc_zero (opts h) && negb (result =? 0) then mem_set result 0 size else ret tt);
    ret result.

(** * Release *)

(** The pages after the first one are marked free; their number and one. *)
Fixpoint mark_free (fuel : nat) (index i : Z) : M H Z :=
  let! e := dir (index + i) in
  if e =? MALLOC_FOLLOW then
    match fuel with
    | Datatypes.O => fail Stuck
    | S fuel => do! set_dir (index + i) MALLOC_FREE; mark_free fuel index (i + 1)
    end
  else ret i.

(** [for (pf = free_list.next; pf->end < ptr && pf->next; pf = pf->next)] *)
Fixpoint find_place (fuel : nat) (pf ptr : Z) : M H Z :=
  let! x := free_at pf in
  if (pf_end x <? ptr) && negb (pf_next x =? 0) then
    match fuel with
    | Datatypes.O => fail Stuck
    | S fuel => find_place fuel (pf_next x) ptr
    end
  else ret pf.

(** The run [ptr] .. [tail] of [l] bytes goes on the list, in the description
    [px] or in that of a run beside it: the entry that has it, and a description
    that is no longer needed. *)
Definition insert_run (ptr tail l : Z) : M H (Z * Z) :=
  let! h := get in
  let p := px h in
  let! head := free_at free_list in
  if pf_next head =? 0 then
    do! upd_free p (fun y => set_pf_prev free_list (set_pf_next 0 y));
    do! upd_free free_list (set_pf_next p);
    do! modify (set_px 0);
    ret (p, 0)
  else
    let! pf := find_place walk (pf_next head) ptr in
    let! x := free_at pf in
    if tail <? pf_page x then
      do! upd_free p (fun y => set_pf_prev (pf_prev x) (set_pf_next pf y));
      do! upd_free pf (set_pf_prev p);
      do! upd_free (pf_prev x) (set_pf_next p);
      do! modify (set_px 0);
      ret (p, 0)
    else if pf_end x =? ptr then
      let e := pf_end x + l in
      let n := pf_size x + l in
      if pf_next x =? 0 then do! upd_free pf (set_pf_run (pf_page x) e n); ret (pf, 0)
      else
        let! y := free_at (pf_next x) in
        if e =? pf_page y then
          do! upd_free pf (fun x => set_pf_next (pf_next y) (set_pf_run (pf_page x) (pf_end y) (n + pf_size y) x));
          do! (if pf_next y =? 0 then ret tt else upd_free (pf_next y) (set_pf_prev pf));
          ret (pf, pf_next x)
        else do! upd_free pf (set_pf_run (pf_page x) e n); ret (pf, 0)
    else if pf_page x =? tail then
      do! upd_free pf (set_pf_run ptr (pf_end x) (pf_size x + l));
      ret (pf, 0)
    else if pf_next x =? 0 then
      do! upd_free p (fun y => set_pf_prev pf (set_pf_next 0 y));
      do! upd_free pf (set_pf_next p);
      do! modify (set_px 0);
      ret (p, 0)
    else wrterror (str "freelist is destroyed." ++ [10]).

(** The end of the last run is given back to the system when the run is larger
    than the cache.  The loop that should clear the directory starts past its
    end. *)
Definition shrink (pf : Z) : M H unit :=
  let! x := free_at pf in
  let! h := get in
  if (pf_next x =? 0) && (malloc_cache h <? pf_size x) && (pf_end x =? malloc_brk h) && (malloc_brk h =? sbrk0 (os h)) then
    let e := pf_page x + malloc_cache h in
    do! upd_free pf (set_pf_run (pf_page x) e (malloc_cache h));
    do! os_call (os_brk e);
    let index := s32 (ptr2index h e) in
    let last := u64 (index - 1) in
    do! modify (set_last last e);
    for_each (seqZ (u32 index) (last - u32 index + 1)) (fun i => set_dir i MALLOC_NOT_MINE)
  else ret tt.

Definition free_pages (ptr index info : Z) : M H unit :=
  if info =? MALLOC_FREE then wrtwarning (str "page is already free." ++ [10])
  else if negb (info =? MALLOC_FIRST) then wrtwarning (str "pointer to wrong page." ++ [10])
  else if negb (ptr mod malloc_pagesize =? 0) then wrtwarning (str "modified (page-) pointer." ++ [10])
  else
    do! set_dir index MALLOC_FREE;
    let! n := mark_free walk index 1 in
    let l := u32 (n * malloc_pagesize) in
    let! h := get in
    do! (if malloc_junk (opts h) then mem_set ptr SOME_JUNK l else ret tt);
    do! (if px h =? 0 then let! p := imalloc sizeof_pgfree in modify (set_px p) else ret tt);
    let! h := get in
    do! put_run (px h) ptr (ptr + l) l;
    let! r := insert_run ptr (ptr + l) l in
    do! shrink r.1;
    if r.2 =? 0 then ret tt else ifree r.2.

(** A slot of the queue of a bucket is the entry of the directory ([prev] is 0)
    or the [next] field of the description [prev]. *)
Definition store_slot (shift prev v : Z) : M H unit :=
  if prev =? 0 then set_dir shift v
  else let! x := info_at prev in put_info prev (set_pi_next v x).

(** [while ( *mp && ( *mp )->next && ( *mp )->next->page < info->page )]: the slot
    and what it holds *)
Fixpoint find_slot (fuel : nat) (prev cur page : Z) : M H (Z * Z) :=
  if cur =? 0 then ret (prev, cur)
  else
    let! x := info_at cur in
    if pi_next x =? 0 then ret (prev, cur)
    else
      let! y := info_at (pi_next x) in
      if pi_page y <? page then
        match fuel with
        | Datatypes.O => fail Stuck
        | S fuel => find_slot fuel cur (pi_next x) page
        end
      else ret (prev, cur).

(** [while ( *mp != info )]: the slot *)
Fixpoint slot_of (fuel : nat) (prev cur info : Z) : M H Z :=
  if cur =? info then ret prev
  else
    match fuel with
    | Datatypes.O => fail Stuck
    | S fuel => let! x := info_at cur in slot_of fuel cur (pi_next x) info
    end.

Definition free_bytes (ptr index info : Z) : M H unit :=
  let! x := info_at info in
  let i := Z.shiftr (ptr mod malloc_pagesize) (pi_shift x) in
  if negb (Z.land ptr (pi_size x - 1) =? 0) then wrtwarning (str "modified (chunk-) pointer." ++ [10])
  else
    let! b := test_bit (pi_bits x) i in
    if b then wrtwarning (str "chunk is already free." ++ [10])
    else
      let! h := get in
      do! (if malloc_junk (opts h) then mem_set ptr SOME_JUNK (pi_size x) else ret tt);
      let! bits := set_bit (pi_bits x) i in
      let x := set_pi_free (pi_free x + 1) (set_pi_bits bits x) in
      do! put_info info x;
      let! head := dir (pi_shift x) in
      if pi_free x =? 1 then
        let! s := find_slot walk 0 head (pi_page x) in
        do! put_info info (set_pi_next s.2 x);
        store_slot (pi_shift x) s.1 info
      else if negb (pi_free x =? pi_total x) then ret tt
      else
        let! prev := slot_of walk 0 head info in
        do! store_slot (pi_shift x) prev (pi_next x);
        let! h := get in
        do! set_dir (ptr2index h (pi_page x)) MALLOC_FIRST;
        do! (if pi_page x =? info then ret tt else ifree info);
        ifree (pi_page x).

Definition ifree_body (ptr : Z) : M H unit :=
  if ptr =? 0 then ret tt
  else
    let! h := get in
    if malloc_started h =? 0 then wrtwarning (str "malloc() has never been called." ++ [10])
    else if suicide h then ret tt
    else
      let index := u32 (ptr2index h ptr) in
      if index <? malloc_pageshift then wrtwarning (str "junk pointer, too low to make sense." ++ [10])
      else if last_index h <? index then wrtwarning (str "junk pointer, too high to make sense." ++ [10])
      else
        let! info := dir index in
        if info <? MALLOC_MAGIC then free_pages ptr (s32 index) info else free_bytes ptr (s32 index) info.
End rec.

(** The two call each other: [fuel] bounds the depth of the calls. *)
Fixpoint imalloc (walk fuel : nat) (size : Z) : M H Z :=
  match fuel with
  | Datatypes.O => fail Stuck
  | S fuel => imalloc_body walk (imalloc walk fuel) (ifree walk fuel) size
  end
with ifree (walk fuel : nat) (ptr : Z) : M H unit :=
  match fuel with
  | Datatypes.O => fail Stuck
  | S fuel => ifree_body walk (imalloc walk fuel) (ifree walk fuel) ptr
  end.

(** * The interface *)

Section interface.
Variables walk fuel : nat.

(** One character of the options. *)
Definition option_char (c : Z) : M H unit :=
  let! h := get in
  let o := opts h in
  let set a hi r j v x z := modify (set_opts (Options a hi r j v x z)) in
  let '(Options a hi r j v x z) := o in
  if c =? 62 then modify (set_cache (u32 (malloc_cache h * 2)))
  else if c =? 60 then modify (set_cache (malloc_cache h / 2))
  else if c =? 97 then set false hi r j v x z
  else if c =? 65 then set true hi r j v x z
  else if c =? 104 then set a false r j v x z
  else if c =? 72 then set a true r j v x z
  else if c =? 114 then set a hi false j v x z
  else if c =? 82 then set a hi true j v x z
  else if c =? 106 then set a hi r false v x z
  else if c =? 74 then set a hi r true v x z
  else if c =? 118 then set a hi r j false x z
  else if c =? 86 then set a hi r j true x z
  else if c =? 120 then set a hi r j v false z
  else if c =? 88 then set a hi r j v true z
  else if c =? 122 then set a hi r j v x false
  else if c =? 90 then set a hi r j v x true
  else
    do! set false hi r j v x z;
    do! wrtwarning (str "unknown char in MALLOC_OPTIONS" ++ [10]);
    set a hi r j v x z.

Definition malloc_init : M H unit :=
  let! fd := os_call os_open_zero in
  do! (if fd =? -1 then wrterror (str "open of /dev/zero") else ret tt);
  do! for_each malloc_options option_char;
  let! h := get in
  let o := opts h in
  let junk := malloc_junk o || malloc_zero o in
  do! modify (set_opts (Options (malloc_abort o) (malloc_hint o) (malloc_realloc o || junk) junk (malloc_sysv o) (malloc_xmalloc o) (malloc_zero o)));
  let! d := os_call (os_mmap malloc_pagesize) in
  do! (if d =? -1 then wrterror (str "mmap(2) failed, check limits" ++ [10]) else ret tt);
  do! modify (set_page_dir (replicate 512 0));
  do! modify (fun h => set_origo (u64 (pageround (sbrk0 (os h)) / malloc_pagesize - malloc_pageshift)) h);
  do! modify (set_ninfo 512);
  do! modify (fun h => set_cache (if malloc_cache h =? 0 then 1 else malloc_cache h) h);
  do! modify (fun h => set_cache (u32 (malloc_cache h * malloc_pagesize)) h);
  let! p := imalloc walk fuel sizeof_pgfree in
  do! modify (set_px p);
  modify (fun h => set_started (malloc_started h + 1) h).

(** [for (osize = malloc_pagesize; *++mp == MALLOC_FOLLOW;)] *)
Fixpoint run_size (n : nat) (i osize : Z) : M H Z :=
  let! e := dir i in
  if e =? MALLOC_FOLLOW then
    match n with
    | Datatypes.O => fail Stuck
    | S n => run_size n (i + 1) (osize + malloc_pagesize)
    end
  else ret osize.

(** The end of [irealloc]: a new block, and what fits of the old one. *)
Definition move_block (ptr size osize : Z) : M H Z :=
  let! p := imalloc walk fuel size in
  if p =? 0 then ret 0
  else
    do! (if (size =? 0) || (osize =? 0) then ret tt
         else if osize <? size then mem_copy p ptr osize
         else mem_copy p ptr size);
    do! ifree walk fuel ptr;
    ret p.

Definition irealloc (ptr size : Z) : M H Z :=
  let! h := get in
  if suicide h then fail Assert
  else
    let index := ptr2index h ptr in
    let warn p := do! wrtwarning (p ++ [10]); ret 0 in
    if index <? malloc_pageshift then warn (str "junk pointer, too low to make sense.")
    else if last_index h <? index then warn (str "junk pointer, too high to make sense.")
    else
      let! e := dir index in
      if e =? MALLOC_FIRST then
        if negb (ptr mod malloc_pagesize =? 0) then warn (str "modified (page-) pointer.")
        else
          let! osize := run_size walk (index + 1) malloc_pagesize in
          if negb (malloc_realloc (opts h)) && (size <=? osize) && (osize - malloc_pagesize <? size) then ret ptr
          else move_block ptr size osize
      else if MALLOC_MAGIC <=? e then
        let! x := info_at e in
        if negb (Z.land ptr (pi_size x - 1) =? 0) then warn (str "modified (chunk-) pointer.")
        else
          let! b := test_bit (pi_bits x) (Z.shiftr (ptr mod malloc_pagesize) (pi_shift x)) in
          if b then warn (str "chunk is already free.")
          else
            let osize := pi_size x in
            if negb (malloc_realloc (opts h)) && (size <? osize) && ((osize / 2 <? size) || (osize =? malloc_minsize)) then ret ptr
            else move_block ptr size osize
      else warn (str "pointer to wrong page.").

(** A call of the interface: it is refused inside another one. *)
Definition guarded {A} (name : list Z) (refused : A) (body : M H A) : M H A :=
  do! modify (set_func name);
  let! h := get in
  do! modify (set_active (malloc_active h + 1));
  if negb (malloc_active h =? 0) then
    do! wrtwarning (str "recursive call." ++ [10]);
    do! modify (fun h => set_active (malloc_active h - 1) h);
    ret refused
  else
    let! r := body in
    do! modify (fun h => set_active (malloc_active h - 1) h);
    ret r.

Definition start : M H unit := let! h := get in if malloc_started h =? 0 then malloc_init else ret tt.

(** [xmalloc] behaviour *)
Definition check_null (active : bool) (r : Z) : M H Z :=
  let! h := get in
  if active && malloc_xmalloc (opts h) && (r =? 0) then wrterror (str "out of memory." ++ [10]) else ret r.

Definition malloc (size : Z) : M H Z :=
  let! h := get in
  let! r := guarded (str " in malloc():") 0
    (do! start;
     let! h := get in
     if malloc_sysv (opts h) && (size =? 0) then ret 0 else imalloc walk fuel size) in
  check_null (malloc_active h =? 0) r.

Definition free (ptr : Z) : M H unit := guarded (str " in free():") tt (ifree walk fuel ptr).

Definition realloc (ptr size : Z) : M H Z :=
  let! h := get in
  let! r := guarded (str " in realloc():") 0
    (let! h := get in
     let! ptr := (if negb (ptr =? 0) && (malloc_started h =? 0) then
                    do! wrtwarning (str "malloc() has never been called." ++ [10]);
                    ret 0
                  else ret ptr) in
     do! start;
     let! h := get in
     if malloc_sysv (opts h) && (size =? 0) then do! ifree walk fuel ptr; ret 0
     else if ptr =? 0 then imalloc walk fuel size
     else irealloc ptr size) in
  check_null (malloc_active h =? 0) r.

(** The product wraps around. *)
Definition calloc (nelem elsize : Z) : M H Z :=
  let n := u64 (nelem * elsize) in
  let! tmp := malloc n in
  if tmp =? 0 then ret 0
  else
    do! mem_set tmp 0 n;
    ret tmp.
End interface.
End malloc.
