(* ===== verification/UMallocChunks.v ===== *)
(** Small blocks of the user allocator: the bitmaps of the pages of chunks, and a
    chunk of a page that has free ones allocated and released. *)

From S2P Require Import Prelude CString KMem UMalloc.

(** * Bits of a bitmap *)

(** Bit [c] of a bitmap. *)
Definition bit (bits : list Z) (c : Z) : bool := Z.testbit (nth (word_of c) bits 0) (c mod MALLOC_BITS).

(** The words of a bitmap. *)
Definition words_ok (bits : list Z) : Prop := Forall (fun w => 0 <= w < 2 ^ 32) bits.

Lemma word_index c : 0 <= c -> c = Z.of_nat (word_of c) * MALLOC_BITS + c mod MALLOC_BITS /\ 0 <= c mod MALLOC_BITS < MALLOC_BITS.
Proof. intros Hc. unfold word_of, MALLOC_BITS. pose proof (Z.div_mod c 32). pose proof (Z.mod_pos_bound c 32). pose proof (Z.div_pos c 32). lia. Qed.

Lemma word_of_lt c (n : nat) : 0 <= c < Z.of_nat n * MALLOC_BITS -> (word_of c < n)%nat.
Proof. intros Hc. destruct (word_index c ltac:(lia)) as [E ?]. unfold MALLOC_BITS in *. lia. Qed.

Lemma land_mask w k : 0 <= k -> Z.land w (Z.shiftl 1 k) = if Z.testbit w k then 2 ^ k else 0.
Proof.
  intros Hk. rewrite Z.shiftl_1_l. apply Z.bits_inj'. intros n Hn. rewrite Z.land_spec, Z.pow2_bits_eqb by lia.
  destruct (Z.eqb_spec k n) as [->|Hne].
  - rewrite andb_true_r. destruct (Z.testbit w n); [by rewrite Z.pow2_bits_true|by rewrite Z.bits_0].
  - rewrite andb_false_r. destruct (Z.testbit w k); [by rewrite Z.pow2_bits_false|by rewrite Z.bits_0].
Qed.

Section bits.
Context {O : Type} {sys : Os O} {data : MallocData}.

Lemma bit_insert bits n w c : (n < length bits)%nat -> 0 <= c ->
  bit (<[n := w]> bits) c = if decide (word_of c = n) then Z.testbit w (c mod MALLOC_BITS) else bit bits c.
Proof.
  intros Hn Hc. unfold bit. rewrite !nth_lookup. case_decide as E.
  - subst n. by rewrite list_lookup_insert_eq.
  - by rewrite list_lookup_insert_ne by done.
Qed.

Lemma same_word_bit c d : 0 <= c -> 0 <= d -> word_of c = word_of d -> c mod MALLOC_BITS = d mod MALLOC_BITS -> c = d.
Proof. intros Hc Hd E1 E2. destruct (word_index c Hc), (word_index d Hd). rewrite E1, E2 in *. lia. Qed.

(** A bit is tested, set and cleared; the others stay. *)
Lemma wp_test_bit (h : heap O) bits c Q : (word_of c < length bits)%nat -> Q (bit bits c) h -> wp (test_bit bits c) Q h.
Proof.
  intros Hc HQ. unfold test_bit. wp_steps. destruct (lookup_lt_is_Some_2 bits (word_of c) Hc) as [w Hw]. eapply wp_deref; [done|]. wp_steps.
  unfold bit in HQ. rewrite (nth_lookup_Some _ _ _ _ Hw) in HQ. unfold bit_mask. rewrite land_mask by (pose proof (Z.mod_pos_bound c MALLOC_BITS); unfold MALLOC_BITS in *; lia).
  destruct (Z.testbit w (c mod MALLOC_BITS)); [|done]. destruct (Z.eqb_spec (2 ^ (c mod MALLOC_BITS)) 0) as [E|]; [|done]. pose proof (Z.pow_pos_nonneg 2 (c mod MALLOC_BITS)). pose proof (Z.mod_pos_bound c MALLOC_BITS). unfold MALLOC_BITS in *. lia.
Qed.

(** A bitmap where the bit [c] is [b], and the others as before. *)
Definition bit_set (bits : list Z) (c : Z) (b : bool) (bits' : list Z) : Prop :=
  length bits' = length bits /\ words_ok bits' /\ forall d, 0 <= d -> bit bits' d = if decide (d = c) then b else bit bits d.

Lemma word_range w : (forall n, 32 <= n -> Z.testbit w n = false) -> 0 <= w < 2 ^ 32.
Proof.
  intros Hn. assert (E : w = w mod 2 ^ 32); [|rewrite E; apply Z.mod_pos_bound; lia].
  apply Z.bits_inj'. intros n Hn0. destruct (Z.ltb_spec n 32); [by rewrite Z.mod_pow2_bits_low|]. rewrite Z.mod_pow2_bits_high by lia. by apply Hn.
Qed.

Lemma bitmap_high w n : 0 <= w < 2 ^ 32 -> 32 <= n -> Z.testbit w n = false.
Proof. intros Hw Hn. rewrite <- (Z.mod_small w (2 ^ 32)) by done. by rewrite Z.mod_pow2_bits_high by lia. Qed.

(** Replacing the word of bit [c] by one that differs there only. *)
Lemma bit_set_word bits c w w' b :
  0 <= c -> words_ok bits -> bits !! word_of c = Some w ->
  (forall n, 0 <= n -> Z.testbit w' n = if decide (n = c mod MALLOC_BITS) then b else Z.testbit w n) -> bit_set bits c b (<[word_of c := w']> bits).
Proof.
  intros Hc Hok Hw Hbits. pose proof (lookup_lt_Some _ _ _ Hw) as Hlt. destruct (word_index c Hc) as [_ Hm]. split_and!; [apply length_insert| |].
  - apply Forall_insert; [done|]. apply word_range. intros n Hn. rewrite Hbits by lia. case_decide; [unfold MALLOC_BITS in *; lia|]. apply bitmap_high; [|done]. by apply (Forall_lookup_1 _ _ _ _ Hok Hw).
  - intros d Hd. rewrite bit_insert by done. destruct (word_index d Hd) as [_ Hm']. case_decide as E1.
    + rewrite Hbits by lia. destruct (decide (d mod MALLOC_BITS = c mod MALLOC_BITS)) as [E2|E2].
      * rewrite decide_True; [done|]. by apply same_word_bit.
      * rewrite decide_False by (intros ->; done). unfold bit. by rewrite E1, (nth_lookup_Some _ _ _ _ Hw).
    + rewrite decide_False; [done|]. intros ->. done.
Qed.

Lemma mask_bits c n : 0 <= n -> Z.testbit (bit_mask c) n = bool_decide (n = c mod MALLOC_BITS).
Proof.
  intros Hn. unfold bit_mask. rewrite Z.shiftl_1_l. pose proof (Z.mod_pos_bound c MALLOC_BITS). unfold MALLOC_BITS in *. rewrite Z.pow2_bits_eqb by lia.
  destruct (Z.eqb_spec (c mod 32) n); [by rewrite bool_decide_eq_true_2|rewrite bool_decide_eq_false_2; congruence].
Qed.

Lemma wp_set_bit (h : heap O) bits c Q :
  0 <= c -> (word_of c < length bits)%nat -> words_ok bits -> (forall bits', bit_set bits c true bits' -> Q bits' h) -> wp (set_bit bits c) Q h.
Proof.
  intros Hc Hlt Hok HQ. unfold set_bit. wp_steps. destruct (lookup_lt_is_Some_2 bits (word_of c) Hlt) as [w Hw]. eapply wp_deref; [done|]. wp_steps. apply HQ.
  apply (bit_set_word _ _ w); try done. intros n Hn. rewrite Z.lor_spec, mask_bits by done. case_bool_decide; case_decide; try done; [apply orb_true_r|apply orb_false_r].
Qed.

Lemma wp_clear_bit (h : heap O) bits c Q :
  0 <= c -> (word_of c < length bits)%nat -> words_ok bits -> (forall bits', bit_set bits c false bits' -> Q bits' h) -> wp (clear_bit bits c) Q h.
Proof.
  intros Hc Hlt Hok HQ. unfold clear_bit. wp_steps. destruct (lookup_lt_is_Some_2 bits (word_of c) Hlt) as [w Hw]. eapply wp_deref; [done|]. wp_steps. apply HQ.
  apply (bit_set_word _ _ w); try done. intros n Hn. rewrite Z.ldiff_spec, mask_bits by done. case_bool_decide; case_decide; try done; [apply andb_false_r|apply andb_true_r].
Qed.

(** The lowest bit of the first word that is not zero. *)
Lemma first_word_run (h : heap O) bits n c0 :
  0 <= c0 -> words_ok bits -> bit bits c0 = true ->
  exists m w, first_word bits n h = Done ((n + m)%nat, w) h /\ bits !! m = Some w /\ w <> 0 /\ (m <= word_of c0)%nat /\ forall j, (j < m)%nat -> bits !! j = Some 0.
Proof.
  revert n c0. induction bits as [|v bits IH]; intros n c0 Hc Hok Hb.
  - unfold bit in Hb. destruct (word_of c0); cbn in Hb; by rewrite Z.bits_0 in Hb.
  - cbn [first_word]. apply Forall_cons in Hok as [Hv Hok]. destruct (Z.eqb_spec v 0) as [->|Hne].
    + assert (Hw : (0 < word_of c0)%nat) by (destruct (word_of c0) eqn:E; [unfold bit in Hb; rewrite E in Hb; cbn in Hb; by rewrite Z.bits_0 in Hb|lia]).
      destruct (word_index c0 Hc) as [E Hm]. destruct (IH (S n) (c0 - MALLOC_BITS)) as (m & w & Er & Hm' & Hw0 & Hle & Hz); [unfold MALLOC_BITS in *; lia|done| |].
      * unfold bit, word_of in *. replace (c0 - MALLOC_BITS) with (c0 + (-1) * MALLOC_BITS) by lia. rewrite Z.div_add, Z_mod_plus_full by done.
        replace (Z.to_nat (c0 / MALLOC_BITS + -1)) with (pred (Z.to_nat (c0 / MALLOC_BITS))) by lia. destruct (Z.to_nat (c0 / MALLOC_BITS)); [lia|done].
      * exists (S m), w. split_and!; [rewrite Er; do 2 f_equal; lia|done|done| |].
        -- unfold word_of in *. replace (c0 - MALLOC_BITS) with (c0 + (-1) * MALLOC_BITS) in Hle by lia. rewrite Z.div_add in Hle by done. lia.
        -- intros [|j] Hj; [done|]. apply Hz. lia.
    + exists 0%nat, v. split_and!; [rewrite Nat.add_0_r; done|done|done|lia|lia].
Qed.

Lemma first_bit_run (h : heap O) w m : forall k fuel,
  0 <= m < 32 -> Z.testbit w m = true -> 0 <= k <= m -> (forall j, 0 <= j < k -> Z.testbit w j = false) -> (Z.to_nat (m - k) < fuel)%nat ->
  exists b, first_bit fuel w (2 ^ k) k h = Done (2 ^ b, b) h /\ k <= b <= m /\ Z.testbit w b = true /\ forall j, 0 <= j < b -> Z.testbit w j = false.
Proof.
  intros k fuel Hm Ht. revert k. induction fuel as [|fuel IH]; intros k Hk Hlow Hf; [lia|]. cbn [first_bit].
  rewrite <- Z.shiftl_1_l, land_mask by lia. destruct (Z.testbit w k) eqn:E.
  - destruct (Z.eqb_spec (2 ^ k) 0) as [E0|_]; [pose proof (Z.pow_pos_nonneg 2 k); lia|]. exists k. rewrite Z.shiftl_1_l. split_and!; [done|lia|lia|done|done].
  - rewrite Z.eqb_refl. assert (k <> m) by congruence. destruct (IH (k + 1)) as (b & Eb & Hb & Htb & Hlow'); [lia| |lia|].
    + intros j Hj. destruct (decide (j = k)) as [->|]; [done|]. apply Hlow. lia.
    + exists b. split_and!; [|lia|lia|done|done]. rewrite <- Eb. f_equal. rewrite Z.shiftl_1_l, Z.pow_add_r by lia.
      assert (2 ^ (k + 1) <= 2 ^ 31) by (apply Z.pow_le_mono_r; lia). rewrite Z.pow_add_r in * by lia. unfold u32. rewrite Z.mod_small; [lia|]. pose proof (Z.pow_pos_nonneg 2 k). lia.
Qed.

(** The least bit that is set. *)
Lemma least_bit (h : heap O) bits c0 :
  0 <= c0 -> words_ok bits -> bit bits c0 = true ->
  exists n w b c, first_word bits 0 h = Done (n, w) h /\ first_bit 32 w 1 0 h = Done (2 ^ b, b) h /\ c = b + Z.of_nat n * MALLOC_BITS /\
    0 <= c <= c0 /\ bit bits c = true /\ (forall d, 0 <= d < c -> bit bits d = false) /\ bit_set bits c false (<[n := Z.lxor w (2 ^ b)]> bits).
Proof.
  intros Hc0 Hok Hb. destruct (first_word_run h bits 0 c0 Hc0 Hok Hb) as (n & w & E1 & Hw & Hne & Hle & Hz). cbn in E1.
  assert (Hwr : 0 <= w < 2 ^ 32) by apply (Forall_lookup_1 _ _ _ _ Hok Hw).
  assert (Hm : exists m, 0 <= m < 32 /\ Z.testbit w m = true /\ (word_of c0 = n -> m <= c0 mod MALLOC_BITS)).
  { destruct (word_index c0 Hc0) as [_ Hm0]. destruct (decide (word_of c0 = n)) as [En|En].
    - exists (c0 mod MALLOC_BITS). unfold bit in Hb. rewrite En, (nth_lookup_Some _ _ _ _ Hw) in Hb. unfold MALLOC_BITS in *. split_and!; [lia|lia|done|lia].
    - exists (Z.log2 w). split_and!; [apply Z.log2_nonneg|apply Z.log2_lt_pow2; lia|apply Z.bit_log2; lia|done]. }
  destruct Hm as (m & Hm & Htm & Hmle). destruct (first_bit_run h w m 0 32 Hm Htm ltac:(lia) ltac:(lia) ltac:(lia)) as (b & E2 & Hbm & Htb & Hlow).
  set (c := b + Z.of_nat n * MALLOC_BITS). assert (Hcw : word_of c = n /\ c mod MALLOC_BITS = b).
  { subst c. unfold word_of, MALLOC_BITS in *. rewrite Z.div_add, Z_mod_plus_full, Z.div_small, Z.mod_small by lia. lia. }
  destruct Hcw as [Hcn Hcb]. assert (Hc : 0 <= c) by (unfold c, MALLOC_BITS; lia). exists n, w, b, c. split_and!; try done.
  - destruct (word_index c0 Hc0) as [E0 ?]. destruct (decide (word_of c0 = n)) as [En|En]; unfold c, MALLOC_BITS in *; [rewrite En in *; specialize (Hmle eq_refl); lia|lia].
  - unfold bit. by rewrite Hcn, Hcb, (nth_lookup_Some _ _ _ _ Hw).
  - intros d Hd. destruct (word_index d ltac:(lia)) as [Ed Hmd]. unfold bit. destruct (decide (word_of d = n)) as [En|En].
    + rewrite En, (nth_lookup_Some _ _ _ _ Hw). apply Hlow. rewrite En in Ed. unfold c in Hd. lia.
    + assert (Hdn : (word_of d < n)%nat) by (unfold c, MALLOC_BITS in *; lia). rewrite (nth_lookup_Some _ _ _ _ (Hz _ Hdn)). apply Z.bits_0.
  - rewrite <- Hcn. apply (bit_set_word _ _ w); [done|done|by rewrite Hcn|]. intros j Hj. rewrite Hcb, Z.lxor_spec, Z.pow2_bits_eqb by lia.
    destruct (Z.eqb_spec b j) as [->|Hne']; [rewrite decide_True by done; by rewrite Htb|rewrite decide_False by congruence; apply xorb_false_r].
Qed.
End bits.

(** The number of bits that are set below [n]. *)
Definition count (bits : list Z) (n : nat) : Z := Z.of_nat (length (filter (fun c => bit bits c = true) (seqZ 0 (Z.of_nat n)))).

Lemma count_pos bits n : 0 < count bits n -> exists c, 0 <= c < Z.of_nat n /\ bit bits c = true.
Proof.
  unfold count. intros H. destruct (filter _ _) as [|c l] eqn:E; [cbn in H; lia|]. assert (Hc : c ∈ filter (fun c => bit bits c = true) (seqZ 0 (Z.of_nat n))) by (rewrite E; left).
  apply list_elem_of_filter in Hc as [? Hc]. apply elem_of_seqZ in Hc. exists c. split; [lia|done].
Qed.

(** Changing one bit changes the number by one. *)
Lemma count_set bits c b bits' n :
  bit_set bits c b bits' -> 0 <= c < Z.of_nat n -> bit bits c = negb b -> count bits' n = count bits n + (if b then 1 else -1).
Proof.
  intros (_ & _ & Hb) Hc Hold. unfold count.
  assert (E : seqZ 0 (Z.of_nat n) = seqZ 0 c ++ c :: seqZ (c + 1) (Z.of_nat n - c - 1)).
  { replace (Z.of_nat n) with (c + (1 + (Z.of_nat n - c - 1))) at 1 by lia. rewrite seqZ_app by lia. f_equal. rewrite seqZ_app by lia. done. }
  rewrite E, !filter_app, !length_app, !filter_cons.
  assert (Hout : forall m k, (forall d, d ∈ seqZ m k -> 0 <= d /\ d <> c) -> filter (fun d => bit bits' d = true) (seqZ m k) = filter (fun d => bit bits d = true) (seqZ m k)).
  { intros m k. generalize (seqZ m k). intros l H. induction l as [|d l IH]; [done|]. rewrite !filter_cons, IH by (intros; apply H; by right).
    destruct (H d ltac:(left)). rewrite Hb by done. by rewrite (decide_False (P := d = c)) by done. }
  rewrite (Hout 0 c), (Hout (c + 1)) by (intros d Hd; apply elem_of_seqZ in Hd; lia). rewrite (Hb c) by lia. rewrite (decide_True (P := c = c)) by done. rewrite Hold. destruct b; cbn [negb]; repeat case_decide; try done; cbn [length]; lia.
Qed.

(** * Bitmaps as lists *)

Lemma bits_ext bits bits' :
  length bits = length bits' -> words_ok bits -> words_ok bits' -> (forall c, 0 <= c -> bit bits c = bit bits' c) -> bits = bits'.
Proof.
  intros Hl Hok Hok' Hb. apply list_eq. intros n. destruct (bits !! n) as [w|] eqn:E.
  - destruct (lookup_lt_is_Some_2 bits' n) as [w' E']; [rewrite <- Hl; by eapply lookup_lt_Some|]. rewrite E'. f_equal. apply Z.bits_inj'. intros k Hk.
    destruct (Z.ltb_spec k 32) as [Hlt|Hge].
    + specialize (Hb (k + Z.of_nat n * MALLOC_BITS)). unfold bit, word_of, MALLOC_BITS in Hb. rewrite Z.div_add, Z_mod_plus_full, Z.div_small, Z.mod_small in Hb by lia.
      rewrite Z.add_0_l, Nat2Z.id, (nth_lookup_Some _ _ _ _ E), (nth_lookup_Some _ _ _ _ E') in Hb. apply Hb. lia.
    + by rewrite !bitmap_high by (first [done|apply (Forall_lookup_1 _ _ _ _ Hok E)|apply (Forall_lookup_1 _ _ _ _ Hok' E')]).
  - symmetry. apply lookup_ge_None. rewrite <- Hl. by apply lookup_ge_None.
Qed.

(** A bit that is cleared and set again. *)
Lemma bit_set_back bits c bits' bits'' :
  words_ok bits -> bit bits c = true -> 0 <= c -> bit_set bits c false bits' -> bit_set bits' c true bits'' -> bits'' = bits.
Proof.
  intros Hok Hb Hc (Hl1 & _ & H1) (Hl2 & Hok2 & H2). apply bits_ext; [congruence|done|done|]. intros d Hd. rewrite H2 by done. destruct (decide (d = c)) as [->|Hne]; [done|]. rewrite H1 by done. by rewrite decide_False.
Qed.

Lemma least_chunk_unique bits c d :
  0 <= c -> 0 <= d -> bit bits c = true -> (forall e, 0 <= e < c -> bit bits e = false) -> bit bits d = true -> (forall e, 0 <= e < d -> bit bits e = false) -> c = d.
Proof. intros Hc Hd Hbc Hlc Hbd Hld. destruct (Z.lt_trichotomy c d) as [H|[H|H]]; [|done|]; [rewrite Hld in Hbc by lia|rewrite Hlc in Hbd by lia]; done. Qed.

(** * The sizes of chunks *)

Lemma bucket_loop_log fuel i j : 0 < i < 2 ^ Z.of_nat fuel -> bucket_loop fuel i j = j + Z.log2 i.
Proof.
  revert i j. induction fuel as [|fuel IH]; intros i j Hi; [cbn in Hi; lia|]. cbn [bucket_loop]. rewrite Nat2Z.inj_succ, Z.pow_succ_r in Hi by lia.
  destruct (Z.eqb_spec (i / 2) 0) as [E|E].
  - assert (i = 1) as -> by (apply Z.div_small_iff in E; lia). cbn. lia.
  - assert (0 < i / 2) by (pose proof (Z.div_pos i 2); lia). rewrite IH by (split; [done|apply Z.div_lt_upper_bound; lia]).
    pose proof (Z.log2_shiftr i 1). rewrite Z.shiftr_div_pow2 in * by lia. change (2 ^ 1) with 2 in *.
    assert (1 <= Z.log2 i) by (apply Z.log2_le_pow2; [lia|]; destruct (decide (i = 1)) as [->|]; [done|lia]). lia.
Qed.

(** The bucket of a size is the least power of two that is not smaller. *)
Lemma bucket_spec size : 1 < size <= 2 ^ 31 -> 2 ^ (bucket size - 1) < size <= 2 ^ bucket size.
Proof.
  intros Hs. unfold bucket. rewrite bucket_loop_log by (change (2 ^ Z.of_nat 32) with (2 ^ 32); lia). pose proof (Z.log2_spec (size - 1) ltac:(lia)).
  replace (1 + Z.log2 (size - 1) - 1) with (Z.log2 (size - 1)) by lia. rewrite Z.add_1_l. lia.
Qed.

Lemma bucket_range size : 16 <= size <= 2048 -> 4 <= bucket size <= 11.
Proof.
  intros Hs. pose proof (bucket_spec size ltac:(lia)) as [H1 H2]. set (j := bucket size) in *. assert (0 <= j) by (destruct (Z.ltb_spec j 0); [rewrite Z.pow_neg_r in H2 by lia; lia|lia]). split.
  - destruct (Z.ltb_spec j 4); [|done]. assert (2 ^ j <= 2 ^ 3) by (apply Z.pow_le_mono_r; lia). lia.
  - destruct (Z.ltb_spec 11 j); [|done]. assert (2 ^ 11 <= 2 ^ (j - 1)) by (apply Z.pow_le_mono_r; lia). lia.
Qed.

(** * Pages of chunks *)

Definition nchunks (x : pginfo) : nat := Z.to_nat (2 ^ (malloc_pageshift - pi_shift x)).

Definition page_ok (x : pginfo) : Prop :=
  4 <= pi_shift x <= 11 /\ pi_size x = 2 ^ pi_shift x /\ (malloc_pagesize | pi_page x) /\ 0 < pi_page x /\
  words_ok (pi_bits x) /\ (nchunks x <= length (pi_bits x) * 32)%nat /\ pi_free x = count (pi_bits x) (nchunks x).

(** The same page, but for its place on the queue. *)
Definition same_page (x y : pginfo) : Prop := y = set_pi_next (pi_next y) x.

Section queue.
Variables (j : Z) (f : gmap Z pginfo).

(** The pages of a queue, from [cur] on. *)
Fixpoint qchain (cur : Z) (l : list Z) : Prop :=
  match l with
  | [] => cur = 0
  | a :: l => cur = a /\ a <> 0 /\ exists x, f !! a = Some x /\ pi_shift x = j /\ qchain (pi_next x) l
  end.

Lemma qchain_app cur l1 a l2 : qchain cur (l1 ++ a :: l2) -> exists x, f !! a = Some x /\ a <> 0 /\ pi_shift x = j /\ qchain (pi_next x) l2.
Proof. revert cur. induction l1 as [|b l1 IH]; intros cur; cbn; [intros (_ & ? & x & ? & ? & ?); by exists x|]. intros (_ & _ & x & _ & _ & H). eauto. Qed.
End queue.

(** A page that is not on the queue may change. *)
Lemma qchain_insert j f cur l b y : b ∉ l -> qchain j f cur l -> qchain j (<[b := y]> f) cur l.
Proof.
  revert cur. induction l as [|a l IH]; intros cur Hb; cbn; [done|]. rewrite not_elem_of_cons in Hb. destruct Hb as [Hne Hb]. intros (-> & Ha & x & Hx & Hj & H).
  split_and!; [done|done|]. exists x. rewrite lookup_insert_ne by done. eauto.
Qed.

(** A page on the queue may change but for its links. *)
Lemma qchain_update j f cur l b x y : f !! b = Some x -> pi_next y = pi_next x -> pi_shift y = pi_shift x -> qchain j f cur l -> qchain j (<[b := y]> f) cur l.
Proof.
  intros Hb Hn Hs. revert cur. induction l as [|a l IH]; intros cur; cbn; [done|]. intros (-> & Ha & z & Hz & Hj & H). split_and!; [done|done|].
  destruct (decide (a = b)) as [->|]; [exists y; rewrite lookup_insert_eq|exists z; rewrite lookup_insert_ne by done; eauto].
  rewrite Hb in Hz. injection Hz as <-. split_and!; [done|congruence|]. rewrite Hn. eauto.
Qed.

(** The slot after [l1]: the directory's, or that of the last page. *)
Definition slot_after (l1 : list Z) : Z := List.last l1 0.

(** A page is put between [l1] and [l2]. *)
Lemma qchain_link j f cur l1 l2 b y head :
  qchain j f cur (l1 ++ l2) -> NoDup (l1 ++ l2) -> b ∉ l1 ++ l2 -> b <> 0 -> pi_shift y = j -> pi_next y = head -> head = default 0 (list.head l2) ->
  match list.last l1 with
  | None => qchain j (<[b := y]> f) b (b :: l2)
  | Some a => exists x, f !! a = Some x /\ qchain j (<[a := set_pi_next b x]> (<[b := y]> f)) cur (l1 ++ b :: l2)
  end.
Proof.
  intros Hq Hnd Hb Hb0 Hj Hn Hh. destruct l1 as [|a l1 _] using rev_ind.
  - cbn [app list.last qchain] in *. split; [done|]. split; [done|]. exists y. rewrite lookup_insert_eq. split; [done|]. split; [done|]. rewrite Hn.
    assert (cur = head) as <- by (destruct l2; cbn in *; [by subst|destruct Hq as (-> & _); by subst]). by apply qchain_insert.
  - rewrite last_snoc. rewrite <- !app_assoc in *. cbn [app] in *. destruct (qchain_app j f cur l1 a l2 Hq) as (x & Hx & Ha & Hxj & Hl2). exists x. split; [done|].
    assert (Hhead : pi_next x = head) by (destruct l2; cbn in *; [congruence|destruct Hl2 as [? _]; congruence]).
    apply NoDup_app in Hnd as (Hnd1 & Hdis & Hnd2). apply NoDup_cons in Hnd2 as [Ha2 Hnd2]. rewrite not_elem_of_app, not_elem_of_cons in Hb. destruct Hb as (Hb1 & Hba & Hb2).
    revert cur Hq. induction l1 as [|c l1 IH]; intros cur Hq; cbn [app qchain] in *.
    + destruct Hq as (-> & _ & _). split; [done|]. split; [done|]. exists (set_pi_next b x). rewrite lookup_insert_eq. split; [done|]. split; [done|]. cbn [pi_next set_pi_next]. split; [done|]. split; [done|]. exists y.
      rewrite lookup_insert_ne, lookup_insert_eq by done. split; [done|]. split; [done|]. rewrite Hn, <- Hhead. by do 2 (apply qchain_insert; [done|]).
    + destruct Hq as (-> & Hc & z & Hz & Hzj & Hq). rewrite not_elem_of_cons in Hb1. destruct Hb1 as [Hcb Hb1]. assert (Hca : c <> a) by (intros ->; by apply (Hdis a); [left|left]).
      split; [done|]. split; [done|]. exists z. rewrite !lookup_insert_ne by done. split; [done|]. split; [done|]. apply IH; [by apply NoDup_cons in Hnd1 as [_ ?]| |done|done]. intros e He. apply Hdis. by right.
Qed.

(** A page is taken off the front. *)
Lemma qchain_cons j f a l : qchain j f a (a :: l) -> exists x, f !! a = Some x /\ pi_shift x = j /\ a <> 0 /\ qchain j f (pi_next x) l.
Proof. cbn. intros (_ & ? & x & ? & ? & ?). by exists x. Qed.

(** * The operations on chunks *)

Section chunks.
Context {O : Type} {sys : Os O} {data : MallocData}.
Implicit Types (h : heap O).

Lemma wp_dir h i v Q : 0 <= i -> page_dir h !! Z.to_nat i = Some v -> Q v h -> wp (dir i) Q h.
Proof. intros Hi Hv HQ. unfold dir. wp_steps. destruct (Z.ltb_spec i 0); [lia|]. by apply (wp_deref _ _ v). Qed.

Lemma wp_set_dir h i u v Q : 0 <= i -> page_dir h !! Z.to_nat i = Some u -> Q tt (set_page_dir (<[Z.to_nat i := v]> (page_dir h)) h) -> wp (set_dir i v) Q h.
Proof. intros Hi Hu HQ. unfold set_dir. wp_use wp_dir; [done|done|]. wp_steps. done. Qed.

Lemma wp_info_at h a x Q : infos h !! a = Some x -> Q x h -> wp (info_at a) Q h.
Proof. intros Hx HQ. unfold info_at. wp_steps. by apply (wp_deref _ _ x). Qed.

Lemma wp_put_info h a x Q : a <> 0 -> Q tt (set_infos (<[a := x]> (infos h)) h) -> wp (put_info a x) Q h.
Proof. intros Ha HQ. unfold put_info. destruct (Z.eqb_spec a 0); [done|]. wp_steps. done. Qed.

(** The place of a page on its queue. *)
Lemma find_slot_run h j page l : forall fuel prev cur,
  qchain j (infos h) cur l -> (length l <= fuel)%nat ->
  exists l1 l2, l = l1 ++ l2 /\ find_slot fuel prev cur page h = Done (default prev (list.last l1), default 0 (list.head l2)) h.
Proof.
  induction l as [|a l IH]; intros fuel prev cur Hq Hf.
  - cbn in Hq. subst cur. exists [], []. split; [done|]. by destruct fuel.
  - cbn in Hq. destruct Hq as (-> & Ha & x & Hx & _ & Hq). assert (Hstop : exists l1 l2, a :: l = l1 ++ l2 /\ Done (prev, a) h = Done (default prev (list.last l1), default 0 (list.head l2)) h) by (by exists [], (a :: l)).
    destruct fuel as [|fuel]; [cbn in Hf; lia|]. cbn [find_slot]. destruct (Z.eqb_spec a 0); [done|].
    unfold info_at, bind, get. rewrite Hx. cbn [deref ret]. destruct (Z.eqb_spec (pi_next x) 0) as [E|E]; [exact Hstop|].
    destruct l as [|b l]; [cbn in Hq; done|]. pose proof Hq as (Eb & Hb & y & Hy & _). rewrite Eb, Hy. cbn [deref ret]. destruct (pi_page y <? page); [|exact Hstop].
    rewrite Eb in Hq. destruct (IH fuel a b Hq) as (l1 & l2 & El & Er); [cbn in *; lia|]. exists (a :: l1), l2. rewrite El. split; [done|].
    change (find_slot fuel a b page h = Done (default prev (list.last (a :: l1)), default 0 (list.head l2)) h). rewrite Er, last_cons. by destruct (list.last l1).
Qed.

(** The least free chunk of the first page of the bucket is taken. *)
Definition taken (x : pginfo) (bits : list Z) : pginfo := set_pi_free (pi_free x - 1) (set_pi_bits bits x).
Definition given (x : pginfo) (bits : list Z) : pginfo := set_pi_free (pi_free x + 1) (set_pi_bits bits x).

Definition after_take h (j bp : Z) (x : pginfo) (bits : list Z) : heap O :=
  if decide (pi_free x = 1) then set_infos (<[bp := set_pi_next 0 (taken x bits)]> (infos h)) (set_page_dir (<[Z.to_nat j := pi_next x]> (page_dir h)) h)
  else set_infos (<[bp := taken x bits]> (infos h)) h.

Lemma chunk_taken walk im ifr size h bp x :
  let j := bucket (Z.max malloc_minsize size) in
  size <= malloc_maxsize -> malloc_junk (opts h) = false -> page_dir h !! Z.to_nat j = Some bp -> bp <> 0 -> infos h !! bp = Some x -> pi_shift x = j -> page_ok x -> 0 < pi_free x ->
  exists c bits, malloc_bytes walk im ifr size h = Done (pi_page x + c * 2 ^ j) (after_take h j bp x bits) /\ 0 <= c < Z.of_nat (nchunks x) /\
    bit (pi_bits x) c = true /\ (forall d, 0 <= d < c -> bit (pi_bits x) d = false) /\ bit_set (pi_bits x) c false bits.
Proof.
  intros j Hs Hjunk Hd Hbp Hx Hj (Hsh & Hsz & Hal & Hpg & Hok & Hlen & Hfree) Hpos.
  assert (Hb : 4 <= j <= 11) by lia. rewrite Hfree in Hpos. destruct (count_pos _ _ Hpos) as (c0 & Hc0 & Hbit0).
  destruct (least_bit h (pi_bits x) c0 ltac:(lia) Hok Hbit0) as (n & w & b & c & E1 & E2 & Ec & Hc & Hbit & Hlow & Hset).
  exists c, (<[n := Z.lxor w (2 ^ b)]> (pi_bits x)). assert (Hgoal : wp (malloc_bytes walk im ifr size) (fun r h' => r = pi_page x + c * 2 ^ j /\ h' = after_take h j bp x (<[n := Z.lxor w (2 ^ b)]> (pi_bits x))) h).
  2: { apply wp_run in Hgoal as (r & h' & E & -> & ->). split_and!; try done; lia. }
  unfold malloc_bytes. replace (if size <? malloc_minsize then malloc_minsize else size) with (Z.max malloc_minsize size) by (destruct (Z.ltb_spec size malloc_minsize); lia). fold j.
  wp_use wp_dir; [lia|done|]. wp_red. destruct (Z.eqb_spec bp 0); [done|]. wp_steps. destruct (Z.eqb_spec 1 0); [done|]. wp_use wp_dir; [lia|done|]. wp_red. wp_use wp_info_at; [done|]. wp_steps.
  apply wp_done. eexists _, h. split; [exact E1|]. wp_steps. apply wp_done. eexists _, h. split; [exact E2|]. wp_steps. cbn [fst snd].
  assert (Ek : Z.shiftl (b + Z.of_nat n * MALLOC_BITS) (pi_shift x) = c * 2 ^ j) by (rewrite Z.shiftl_mul_pow2, Hj, Ec by lia; done).
  cbn [pi_free set_pi_free set_pi_bits pi_next pi_shift pi_page]. rewrite Ek. unfold after_take. destruct (Z.eqb_spec (pi_free x - 1) 0) as [Ef|Ef].
  - rewrite decide_True by lia. wp_use wp_set_dir; [lia|done|]. wp_red. apply wp_put_info; [done|]. wp_steps. cbn [set_infos set_page_dir opts]. rewrite Hjunk. wp_steps. split; [done|]. reflexivity.
  - rewrite decide_False by lia. apply wp_put_info; [done|]. wp_steps. cbn [set_infos opts]. rewrite Hjunk. wp_steps. done.
Qed.

(** The number of a chunk, from its address. *)
Lemma chunk_index x c :
  page_ok x -> 0 <= c < Z.of_nat (nchunks x) ->
  let p := pi_page x + c * pi_size x in
  Z.shiftr (p mod malloc_pagesize) (pi_shift x) = c /\ Z.land p (pi_size x - 1) = 0 /\ p / malloc_pagesize = pi_page x / malloc_pagesize /\ (word_of c < length (pi_bits x))%nat.
Proof.
  intros (Hsh & Hsz & [q Hq] & Hpg & _ & Hlen & _) Hc p. unfold nchunks, malloc_pageshift, malloc_pagesize in *.
  assert (Hpow : 2 ^ (12 - pi_shift x) * 2 ^ pi_shift x = 4096) by (rewrite <- Z.pow_add_r by lia; by replace (12 - pi_shift x + pi_shift x) with 12 by lia).
  assert (0 < 2 ^ pi_shift x /\ 0 < 2 ^ (12 - pi_shift x)) as [H1 H2] by (split; apply Z.pow_pos_nonneg; lia). rewrite Z2Nat.id in Hc by lia.
  assert (Hk : 0 <= c * 2 ^ pi_shift x < 4096) by nia. subst p. rewrite Hsz, Hq in *. split_and!.
  - rewrite Z.add_comm, Z_mod_plus_full, Z.mod_small, Z.shiftr_div_pow2 by lia. by apply Z.div_mul; lia.
  - replace (2 ^ pi_shift x - 1) with (Z.ones (pi_shift x)) by (rewrite Z.ones_equiv; lia). rewrite Z.land_ones by lia. rewrite <- Hpow, Z.mul_assoc, <- Z.mul_add_distr_r. apply Z.mod_mul. lia.
  - rewrite Z.add_comm, Z.div_add, Z.div_mul, Z.div_small by lia. lia.
  - apply word_of_lt. unfold MALLOC_BITS. lia.
Qed.

(** What a release leaves: the pages as in [f], but for their links. *)
Definition relinked h (j : Z) (f : gmap Z pginfo) (l : list Z) (h' : heap O) : Prop :=
  exists f' head, h' = set_infos f' (set_page_dir (<[Z.to_nat j := head]> (page_dir h)) h) /\ qchain j f' head l /\ forall a, option_Forall2 same_page (f !! a) (f' !! a).

Lemma same_page_refl x : same_page x x.
Proof. by destruct x. Qed.

Lemma same_pages_refl (f : gmap Z pginfo) a : option_Forall2 same_page (f !! a) (f !! a).
Proof. destruct (f !! a); constructor. apply same_page_refl. Qed.

(** Taking a slot: the directory's, or the link of a page. *)
Lemma store_slot_run h j l1 l2 f0 b y head :
  4 <= j <= 11 -> page_dir h !! Z.to_nat j = Some head -> qchain j f0 head (l1 ++ l2) -> NoDup (l1 ++ l2) -> b ∉ l1 ++ l2 -> b <> 0 -> pi_shift y = j ->
  infos h = <[b := set_pi_next (default 0 (list.head l2)) y]> f0 ->
  wp (store_slot j (default 0 (list.last l1)) b) (fun _ => relinked h j (<[b := y]> f0) (l1 ++ b :: l2)) h.
Proof.
  intros Hj Hd Hq Hnd Hb Hb0 Hyj Hinf. assert (Hlink := qchain_link j f0 head l1 l2 b (set_pi_next (default 0 (list.head l2)) y) _ Hq Hnd Hb Hb0 Hyj eq_refl eq_refl).
  assert (Hsame : forall a, option_Forall2 same_page (<[b := y]> f0 !! a) (<[b := set_pi_next (default 0 (list.head l2)) y]> f0 !! a)).
  { intros a. destruct (decide (a = b)) as [->|]; [rewrite !lookup_insert_eq; by constructor|rewrite !lookup_insert_ne by done; apply same_pages_refl]. }
  unfold store_slot. destruct (list.last l1) as [a|] eqn:El; cbn [from_option id].
  - destruct Hlink as (x & Hx & Hlink). apply last_Some in El as [l1' ->]. assert (Ha : a <> 0 /\ a <> b).
    { rewrite <- app_assoc in Hq. destruct (qchain_app j f0 head l1' a _ Hq) as (? & _ & ? & _). split; [done|]. intros ->. apply Hb. rewrite elem_of_app, elem_of_app. left. right. by left. }
    destruct Ha as [Ha0 Hab]. destruct (Z.eqb_spec a 0); [done|]. wp_use wp_info_at; [rewrite Hinf; by rewrite lookup_insert_ne|]. wp_red. apply wp_put_info; [done|].
    exists (<[a := set_pi_next b x]> (infos h)), head. split_and!; [by rewrite list_insert_id|by rewrite Hinf|]. intros c. rewrite Hinf. destruct (decide (c = a)) as [->|]; [|by rewrite (lookup_insert_ne _ a)].
    rewrite lookup_insert_ne, lookup_insert_eq, Hx by done. by constructor.
  - apply last_None in El as ->. cbn [app] in *. wp_use wp_set_dir; [lia|done|]. exists (infos h), b. split_and!; [reflexivity|by rewrite Hinf|by rewrite Hinf].
Qed.

(** A chunk is released on a page that stays in use. *)
Lemma chunk_given walk ifr index h info x c l head :
  page_ok x -> infos h !! info = Some x -> info <> 0 -> 0 <= c < Z.of_nat (nchunks x) -> bit (pi_bits x) c = false -> malloc_junk (opts h) = false ->
  page_dir h !! Z.to_nat (pi_shift x) = Some head -> qchain (pi_shift x) (infos h) head l -> NoDup l -> (length l <= walk)%nat -> pi_free x + 1 < pi_total x -> (pi_free x = 0 -> info ∉ l) ->
  wp (free_bytes walk ifr (pi_page x + c * pi_size x) index info)
     (fun _ h' => exists bits l', bit_set (pi_bits x) c true bits /\ relinked h (pi_shift x) (<[info := given x bits]> (infos h)) l' h' /\
        l' ≡ₚ (if decide (pi_free x = 0) then info :: l else l)) h.
Proof.
  intros Hpok Hx Hi Hc Hbit Hjunk Hd Hq Hnd Hwalk Htot Hout. destruct (chunk_index x c Hpok Hc) as (Eidx & Eal & _ & Hw). pose proof Hpok as (Hsh & Hsz & _ & _ & Hok & _ & Hfree).
  unfold free_bytes. wp_use wp_info_at; [done|]. wp_red. rewrite Eal, Eidx. cbn [Z.eqb]. wp_red. wp_use wp_test_bit; [done|]. rewrite Hbit. wp_steps. rewrite Hjunk. wp_steps.
  apply wp_set_bit; [lia|done|done|]. intros bits Hset. wp_steps. apply wp_put_info; [done|]. wp_red. fold (given x bits). wp_use wp_dir; [cbn; lia|done|]. wp_red.
  change (pi_free (given x bits)) with (pi_free x + 1). change (pi_shift (given x bits)) with (pi_shift x). change (pi_page (given x bits)) with (pi_page x). change (pi_total (given x bits)) with (pi_total x).
  destruct (Z.eqb_spec (pi_free x + 1) 1) as [E1|E1].
  - assert (E0 : pi_free x = 0) by lia. specialize (Hout E0). assert (Hq' := qchain_insert _ _ _ _ info (given x bits) Hout Hq).
    destruct (find_slot_run (set_infos (<[info := given x bits]> (infos h)) h) (pi_shift x) (pi_page x) l walk 0 head Hq' Hwalk) as (l1 & l2 & -> & Efs).
    wp_steps. apply wp_done. eexists _, _. split; [exact Efs|]. wp_steps. cbn [fst snd]. apply wp_put_info; [done|]. wp_red.
    eapply wp_mono; [eapply (store_slot_run _ (pi_shift x) l1 l2 (infos h) info (given x bits) head); try done; cbn [infos set_infos]; by rewrite insert_insert_eq|].
    cbn beta. intros _ h' (f' & hd & -> & Hf' & Hsame). exists bits, (l1 ++ info :: l2). split_and!; [done| |rewrite decide_True by done; by rewrite Permutation_middle].
    exists f', hd. by split_and!.
  - destruct (Z.eqb_spec (pi_free x + 1) (pi_total x)); [lia|]. wp_steps. exists bits, l. rewrite decide_False by lia. split_and!; [done| |done].
    exists (<[info := given x bits]> (infos h)), head. split_and!; [rewrite list_insert_id by done; reflexivity|by apply (qchain_update _ _ _ _ _ x)|apply same_pages_refl].
Qed.
End chunks.

(** * The interface *)

Definition default_options : options := Options false false false false false false false.

Section interface.
Context {O : Type} {sys : Os O} {data : MallocData}.
Implicit Types (h : heap O).

(** Between two calls of the interface, after the first. *)
Definition quiet h : Prop := malloc_active h = 0 /\ malloc_started h <> 0 /\ suicide h = false /\ opts h = default_options.

(** The page [x] that [bp] describes is in the directory. *)
Definition listed h (bp : Z) (x : pginfo) : Prop :=
  MALLOC_MAGIC <= bp /\ malloc_pageshift <= ptr2index h (pi_page x) <= last_index h /\ last_index h < 2 ^ 31 /\ page_dir h !! Z.to_nat (ptr2index h (pi_page x)) = Some bp.

(** Inside a call. *)
Definition inside (name : list Z) h : heap O := set_active 1 (set_func name h).

Lemma guarded_run {A} name (r0 r : A) body h h' :
  malloc_active h = 0 -> body (inside name h) = Done r h' -> malloc_active h' = 1 -> guarded name r0 body h = Done r (set_active 0 h').
Proof. intros Ha Hb Ha'. unfold guarded, bind, modify, get. cbn [malloc_active set_func]. rewrite Ha. cbn [Z.eqb negb]. change (set_active (0 + 1) (set_func name h)) with (inside name h). rewrite Hb, Ha'. done. Qed.

Lemma leave_same name h : malloc_active h = 0 -> set_active 0 (inside name h) = set_func name h.
Proof. destruct h. cbn. by intros ->. Qed.

Lemma malloc_chunk walk fuel size h bp x :
  let j := bucket (Z.max malloc_minsize size) in
  quiet h -> 0 <= size <= malloc_maxsize -> page_dir h !! Z.to_nat j = Some bp -> bp <> 0 -> infos h !! bp = Some x -> pi_shift x = j -> page_ok x -> 0 < pi_free x ->
  exists c bits, malloc walk (S fuel) size h = Done (pi_page x + c * 2 ^ j) (set_func (str " in malloc():") (after_take h j bp x bits)) /\ 0 <= c < Z.of_nat (nchunks x) /\
    bit (pi_bits x) c = true /\ (forall d, 0 <= d < c -> bit (pi_bits x) d = false) /\ bit_set (pi_bits x) c false bits.
Proof.
  intros j (Ha & Hst & Hsu & Hop) Hs Hd Hbp Hx Hj Hok Hpos. set (hi := inside (str " in malloc():") h).
  destruct (chunk_taken walk (imalloc walk fuel) (ifree walk fuel) size hi bp x) as (c & bits & E & Hc & Hrest); try done; [lia|by unfold hi; cbn; rewrite Hop|].
  exists c, bits. split; [|done]. fold j in E.
  assert (Hp : pi_page x + c * 2 ^ j <> 0) by (destruct Hok as (_ & _ & _ & ? & _); pose proof (Z.pow_pos_nonneg 2 j); assert (0 <= c * 2 ^ j) by (apply Z.mul_nonneg_nonneg; [lia|apply Z.pow_nonneg; lia]); lia).
  set (h1 := after_take hi j bp x bits) in *. assert (Ho1 : opts h1 = default_options) by (unfold h1, after_take; destruct (decide _); exact Hop).
  assert (Eim : imalloc walk (S fuel) size hi = Done (pi_page x + c * 2 ^ j) h1).
  { change (imalloc walk (S fuel) size hi) with (imalloc_body walk (imalloc walk fuel) (ifree walk fuel) size hi). unfold imalloc_body, bind, get. change (suicide hi) with (suicide h). rewrite Hsu. unfold u64. rewrite Z.mod_small by (unfold malloc_maxsize, malloc_pagesize in *; lia).
    destruct (Z.ltb_spec (size + malloc_pagesize) size); [unfold malloc_pagesize in *; lia|]. destruct (Z.leb_spec size malloc_maxsize); [|lia]. by rewrite E, Ho1. }
  assert (Ebody : (do! start walk (S fuel); let! h := get in if malloc_sysv (opts h) && (size =? 0) then ret 0 else imalloc walk (S fuel) size) hi = Done (pi_page x + c * 2 ^ j) h1).
  { unfold start, bind at 1 2, get at 1. change (malloc_started hi) with (malloc_started h). destruct (Z.eqb_spec (malloc_started h) 0); [done|]. unfold ret at 1, bind at 1, get at 1.
    change (opts hi) with (opts h). rewrite Hop. exact Eim. }
  unfold malloc, bind at 1, get at 1. rewrite (bind_done _ _ _ _ _ (guarded_run (str " in malloc():") 0 _ _ h h1 Ha Ebody ltac:(unfold h1, after_take; by destruct (decide _)))).
  unfold check_null, bind, get. cbn [opts set_active]. rewrite Ho1. cbn [malloc_xmalloc default_options]. rewrite andb_false_r. cbn [andb]. unfold ret. f_equal.
  unfold h1, after_take, hi. destruct h; cbn in *; subst. by destruct (decide _).
Qed.

Lemma free_chunk walk fuel h bp x c l head :
  quiet h -> listed h bp x -> page_ok x -> infos h !! bp = Some x -> 0 <= c < Z.of_nat (nchunks x) -> bit (pi_bits x) c = false ->
  page_dir h !! Z.to_nat (pi_shift x) = Some head -> qchain (pi_shift x) (infos h) head l -> NoDup l -> (length l <= walk)%nat -> pi_free x + 1 < pi_total x -> (pi_free x = 0 -> bp ∉ l) ->
  exists bits l' h', free walk (S fuel) (pi_page x + c * pi_size x) h = Done tt (set_func (str " in free():") h') /\ bit_set (pi_bits x) c true bits /\
    relinked h (pi_shift x) (<[bp := given x bits]> (infos h)) l' h' /\ l' ≡ₚ (if decide (pi_free x = 0) then bp :: l else l).
Proof.
  intros (Ha & Hst & Hsu & Hop) (Hbp & Hidx & Hlast & Hdir) Hok Hx Hc Hbit Hd Hq Hnd Hwalk Htot Hout. set (hi := inside (str " in free():") h). set (p := pi_page x + c * pi_size x).
  assert (Hjunk : malloc_junk (opts hi) = false) by (unfold hi; cbn; by rewrite Hop).
  assert (Hwp := chunk_given walk (ifree walk fuel) (s32 (u32 (ptr2index h p))) hi bp x c l head Hok Hx ltac:(unfold MALLOC_MAGIC in *; lia) Hc Hbit Hjunk Hd Hq Hnd Hwalk Htot Hout).
  apply wp_run in Hwp as ([] & h' & E & bits & l' & Hset & Hrel & Hperm). fold p in E. destruct (chunk_index x c Hok Hc) as (_ & _ & Ediv & _). fold p in Ediv.
  assert (Ep : ptr2index h p = ptr2index h (pi_page x)) by (unfold ptr2index; by rewrite Ediv).
  assert (Hp0 : p <> 0).
  { destruct Hok as (? & Hsz & _ & Hpg & _). unfold p. assert (0 <= c * pi_size x) by (rewrite Hsz; apply Z.mul_nonneg_nonneg; [lia|apply Z.pow_nonneg; lia]). lia. }
  assert (Eif : ifree walk (S fuel) p hi = Done tt h').
  { change (ifree walk (S fuel) p hi) with (ifree_body walk (imalloc walk fuel) (ifree walk fuel) p hi). unfold ifree_body. destruct (Z.eqb_spec p 0); [done|].
    unfold bind at 1, get at 1. change (malloc_started hi) with (malloc_started h). change (suicide hi) with (suicide h). change (ptr2index hi p) with (ptr2index h p). change (last_index hi) with (last_index h).
    rewrite Hsu. destruct (Z.eqb_spec (malloc_started h) 0); [done|]. rewrite Ep in *. unfold u32 in *. rewrite (Z.mod_small (ptr2index h (pi_page x))) in * by (unfold malloc_pageshift in *; lia).
    destruct (Z.ltb_spec (ptr2index h (pi_page x)) malloc_pageshift); [lia|]. destruct (Z.ltb_spec (last_index h) (ptr2index h (pi_page x))); [lia|].
    assert (Ed : dir (ptr2index h (pi_page x)) hi = Done bp hi) by (unfold dir, bind, get; destruct (Z.ltb_spec (ptr2index h (pi_page x)) 0); [unfold malloc_pageshift in *; lia|]; change (page_dir hi) with (page_dir h); by rewrite Hdir).
    rewrite (bind_done _ _ _ _ _ Ed). destruct (Z.ltb_spec bp MALLOC_MAGIC); [lia|]. exact E. }
  destruct Hrel as (f' & hd & -> & Hq' & Hsame). exists bits, l', (set_infos f' (set_page_dir (<[Z.to_nat (pi_shift x) := hd]> (page_dir h)) h)). split_and!; [|done| |done].
  - unfold free. rewrite (guarded_run (str " in free():") tt tt _ h _ Ha Eif eq_refl). f_equal. unfold hi. destruct h; cbn in *; by subst.
  - by exists f', hd.
Qed.

Lemma given_taken x bits : given (taken x bits) (pi_bits x) = x.
Proof. destruct x as [n p z sh f t b]. unfold given, taken. cbn. by replace (f - 1 + 1) with f by lia. Qed.

Lemma same_page_trans x y z : same_page x y -> same_page y z -> same_page x z.
Proof. unfold same_page. intros -> ->. done. Qed.

(** C27: A small block: [malloc] returns the least free chunk of the first page of
    the bucket whose chunks are the least power of two that is large enough, and
    marks this chunk used and no other; [free] of it gives back every page's
    bitmap and counts and the pages of the queue, though perhaps in another
    order. *)
Theorem malloc_free_chunk walk fuel size h bp x l :
  let j := bucket (Z.max malloc_minsize size) in
  quiet h -> 0 <= size <= malloc_maxsize -> page_dir h !! Z.to_nat j = Some bp -> qchain j (infos h) bp (bp :: l) -> NoDup (bp :: l) -> (length l < walk)%nat ->
  infos h !! bp = Some x -> page_ok x -> 0 < pi_free x < pi_total x -> listed h bp x ->
  exists c h1 h2, malloc walk (S fuel) size h = Done (pi_page x + c * 2 ^ j) h1 /\ free walk (S fuel) (pi_page x + c * 2 ^ j) h1 = Done tt h2 /\
    2 ^ (j - 1) < Z.max malloc_minsize size <= 2 ^ j /\ 0 <= c < Z.of_nat (nchunks x) /\ (forall d, 0 <= d < c -> bit (pi_bits x) d = false) /\ bit (pi_bits x) c = true /\
    (exists x1, infos h1 !! bp = Some x1 /\ forall d, 0 <= d -> bit (pi_bits x1) d = if decide (d = c) then false else bit (pi_bits x) d) /\
    exists f' head l', h2 = set_func (str " in free():") (set_infos f' (set_page_dir (<[Z.to_nat j := head]> (page_dir h)) h)) /\
      qchain j f' head l' /\ l' ≡ₚ bp :: l /\ forall a, option_Forall2 same_page (infos h !! a) (f' !! a).
Proof.
  intros j Hquiet Hs Hd Hq Hnd Hwalk Hx Hok Hfree Hlisted. destruct (qchain_cons _ _ _ _ Hq) as (x' & Hx' & Hj & Hbp & Hql). rewrite Hx in Hx'. injection Hx' as <-.
  assert (Hjr : 4 <= j <= 11) by (rewrite <- Hj; apply Hok). pose proof (bucket_spec (Z.max malloc_minsize size) ltac:(unfold malloc_minsize, malloc_maxsize in *; lia)) as Hbk. fold j in Hbk.
  destruct (malloc_chunk walk fuel size h bp x Hquiet Hs Hd Hbp Hx Hj Hok ltac:(lia)) as (c & bits & E1 & Hc & Hbit & Hlow & Hset). fold j in E1. pose proof Hset as (Hl1 & Hok1 & Hb1).
  set (x1 := if decide (pi_free x = 1) then set_pi_next 0 (taken x bits) else taken x bits). set (h1 := set_func (str " in malloc():") (after_take h j bp x bits)) in *.
  apply NoDup_cons in Hnd as Hnd'. destruct Hnd' as [Hbpl Hndl].
  assert (Hx1 : infos h1 !! bp = Some x1) by (unfold h1, after_take, x1; destruct (decide _); cbn; by rewrite lookup_insert_eq).
  assert (Hbits1 : pi_bits x1 = bits) by (unfold x1; by destruct (decide _)). assert (Hsh1 : pi_shift x1 = j) by (unfold x1; by destruct (decide _)).
  assert (Hpg1 : pi_page x1 = pi_page x /\ pi_size x1 = pi_size x /\ nchunks x1 = nchunks x /\ pi_free x1 = pi_free x - 1 /\ pi_total x1 = pi_total x) by (unfold x1; by destruct (decide _)).
  destruct Hpg1 as (Hpg & Hsz & Hn & Hf1 & Ht1). pose proof Hok as (Hr & Hsize & Hal & Hp0 & Hwords & Hlen & Hcnt).
  assert (Hok1' : page_ok x1).
  { unfold page_ok. rewrite Hpg, Hsz, Hn, Hsh1, Hbits1, Hf1. split_and!; try done; try lia; [by rewrite Hsize, Hj|].
    rewrite (count_set (pi_bits x) c false bits (nchunks x) Hset Hc) by (by rewrite Hbit). lia. }
  set (l1 := if decide (pi_free x = 1) then l else bp :: l). set (head1 := if decide (pi_free x = 1) then pi_next x else bp).
  assert (Hd1 : page_dir h1 !! Z.to_nat j = Some head1) by (unfold h1, after_take, head1; destruct (decide _); cbn; [by rewrite list_lookup_insert_eq by (by eapply lookup_lt_Some)|done]).
  assert (Hq1 : qchain j (infos h1) head1 l1) by (unfold h1, after_take, head1, l1; destruct (decide _); cbn [infos set_func set_infos]; [by apply qchain_insert|by apply (qchain_update _ _ _ _ _ x)]).
  assert (Hquiet1 : quiet h1) by (unfold h1, after_take; by destruct (decide _)).
  assert (Hlisted1 : listed h1 bp x1).
  { destruct Hlisted as (? & Hi & ? & Hdi). unfold listed. rewrite Hpg. assert (Ei : ptr2index h1 (pi_page x) = ptr2index h (pi_page x) /\ last_index h1 = last_index h) by (unfold h1, after_take; by destruct (decide _)).
    destruct Ei as [-> ->]. split_and!; try done; try lia. unfold h1, after_take. destruct (decide _); cbn [page_dir set_func set_infos set_page_dir]; [|done]. rewrite list_lookup_insert_ne; [done|]. unfold malloc_pageshift in *. lia. }
  destruct (free_chunk walk fuel h1 bp x1 c l1 head1) as (bits' & l' & h2 & E2 & Hset' & (f' & hd & -> & Hq' & Hsame) & Hperm); try done; try lia.
  { by rewrite Hbits1, Hb1, decide_True by lia. }
  { by rewrite Hsh1. } { by rewrite Hsh1. } { unfold l1. by destruct (decide _). } { unfold l1. destruct (decide _); cbn; lia. } { unfold l1. rewrite Hf1. intros E0. by rewrite decide_True by lia. }
  rewrite Hpg, Hsz, Hsize, Hj in E2. rewrite Hbits1 in Hset'. rewrite Hsh1 in *. exists c, h1. eexists. split_and!; [exact E1|exact E2|lia|lia|lia|lia|done|done| |].
  - exists x1. split; [done|]. by rewrite Hbits1.
  - exists f', hd, l'. split_and!; [|done| |].
    + unfold h1, after_take. destruct (decide _); cbn; [by rewrite list_insert_insert_eq|done].
    + rewrite Hperm, Hf1. unfold l1. destruct (decide (pi_free x = 1)); [by rewrite decide_True by lia|by rewrite decide_False by lia].
    + intros a. specialize (Hsame a). destruct (decide (a = bp)) as [->|Hne].
      * rewrite lookup_insert_eq in Hsame. rewrite Hx. destruct (f' !! bp) as [y|]; [|by inversion Hsame]. assert (Hy : same_page (given x1 bits') y) by (by inversion Hsame). constructor. eapply same_page_trans; [|exact Hy].
        assert (bits' = pi_bits x) as -> by (by apply (bit_set_back _ c bits); [..|lia| |]). unfold x1. destruct (decide (pi_free x = 1)); [change (given (set_pi_next 0 (taken x bits)) (pi_bits x)) with (set_pi_next 0 (given (taken x bits) (pi_bits x)))|]; rewrite given_taken; [done|apply same_page_refl].
      * rewrite lookup_insert_ne in Hsame by done. unfold h1, after_take in Hsame. destruct (decide _); cbn in Hsame; by rewrite lookup_insert_ne in Hsame.
Qed.
End interface.

(** * A heap *)

(** A system whose break can be moved anywhere. *)
#[local] Instance plain_os : Os Z := {|
  sbrk0 o := o; os_brk t o := (0, t); os_mmap n o := (0x7000000, o); os_munmap n o := o; os_open_zero o := (3, o); os_write_err l o := o
|}.
#[local] Instance plain_data : MallocData := {| free_list := 0x500; malloc_options := []; raw_word a n := 0xffffffff |}.

(** The variables before the first call. *)
Definition empty_heap : heap Z :=
  Heap 0x10100 ∅ ∅ {[0x500 := Pgfree 0 0 0 0 0]} [] 0 0 0 0 0 16 0 0 false default_options [].

(** After one block of ten bytes. *)
Definition one_block : heap Z := match malloc 10 10 10 empty_heap with Done _ h => h | Failed _ => empty_heap end.

Definition first_page : pginfo := default (Pginfo 0 0 0 0 0 0 []) (infos one_block !! 73728).

Lemma malloc_free_chunk_witness :
  exists h1 h2, malloc 10 1 16 one_block = Done 73808 h1 /\ free 10 1 73808 h1 = Done tt h2 /\ forall a, option_Forall2 same_page (infos one_block !! a) (infos h2 !! a).
Proof.
  destruct (malloc_free_chunk 10 0 16 one_block 73728 first_page []) as (c & h1 & h2 & E1 & E2 & Hr & Hc & Hlow & Hbit & _ & f' & hd & l' & -> & _ & _ & Hsame).
  - split; [|split; [|split]]; vm_compute; congruence.
  - vm_compute. split; congruence.
  - vm_compute. reflexivity.
  - cbn [qchain]. split; [reflexivity|]. split; [discriminate|]. exists first_page. split; [|split]; vm_compute; reflexivity.
  - constructor; [apply not_elem_of_nil|constructor].
  - cbn. lia.
  - vm_compute. reflexivity.
  - split; [vm_compute; split; congruence|]. split; [vm_compute; reflexivity|]. split; [exists 18; vm_compute; reflexivity|]. split; [vm_compute; reflexivity|].
    split; [|split; [vm_compute; lia|vm_compute; reflexivity]]. refine (bool_decide_unpack _ _). vm_compute. exact I.
  - vm_compute. split; congruence.
  - split; [|split; [split|split]]; vm_compute; congruence.
  - assert (c = 5) as ->.
    { assert (bit (pi_bits first_page) 5 = true /\ forall d, 0 <= d < 5 -> bit (pi_bits first_page) d = false) as [H5 Hl5].
      { split; [vm_compute; reflexivity|]. intros d Hd. assert (d = 0 \/ d = 1 \/ d = 2 \/ d = 3 \/ d = 4) as [->|[->|[->|[->| ->]]]] by lia; vm_compute; reflexivity. }
      exact (least_chunk_unique _ c 5 (proj1 Hc) ltac:(lia) Hbit Hlow H5 Hl5). }
    assert (Hp : pi_page first_page + 5 * 2 ^ bucket (Z.max malloc_minsize 16) = 73808) by (vm_compute; reflexivity). rewrite Hp in E1, E2. exists h1. eexists. split; [exact E1|]. split; [exact E2|]. exact Hsame.
Defined.
