(* ===== verification/UMallocRuns.v ===== *)
(** Free pages of the user allocator: the list of the runs of free pages is
    ordered by address, and two runs never touch; pages are taken from it and
    put back. *)

From S2P Require Import Prelude CString KMem UMalloc.

(** The address of a description, and the run it has. *)
Abbreviation run := (Z * (Z * Z))%type.

(** * Doubly linked lists *)

Section lists.
Implicit Types (f : gmap Z pgfree) (l : list run).

(** From [cur], which comes after [prev], up to [nx]. *)
Fixpoint seg f (prev cur : Z) l (nx : Z) : Prop :=
  match l with
  | [] => cur = nx
  | (a, (p, e)) :: l => cur = a /\ a <> 0 /\ exists n, f !! a = Some (Pgfree n prev p e (e - p)) /\ seg f a n l nx
  end.

Definition lastp (prev : Z) l : Z := List.last l.*1 prev.

Lemma lastp_cons prev r l : lastp prev (r :: l) = lastp r.1 l.
Proof. unfold lastp. cbn. destruct l as [|s l]; [done|]. cbn. clear. revert s. induction l as [|t l IH]; intros s; [done|]. cbn in *. apply IH. Qed.

Lemma lastp_snoc prev l r : lastp prev (l ++ [r]) = r.1.
Proof. unfold lastp. rewrite fmap_app. cbn. apply last_last. Qed.

Lemma lastp_elem prev l : lastp prev l ∈ prev :: l.*1.
Proof. destruct l as [|r l _] using rev_ind; [left|]. rewrite lastp_snoc, fmap_app. right. apply elem_of_app. right. left. Qed.

Lemma seg_app f prev cur l1 l2 nx : seg f prev cur (l1 ++ l2) nx <-> exists m, seg f prev cur l1 m /\ seg f (lastp prev l1) m l2 nx.
Proof.
  revert prev cur. induction l1 as [|[a [p e]] l1 IH]; intros prev cur; cbn [app seg].
  - split; [intros H; by exists cur|intros (m & -> & H); done].
  - rewrite lastp_cons. cbn [fst]. split.
    + intros (-> & Ha & n & Hf & H). apply IH in H as (m & H1 & H2). exists m. eauto 10.
    + intros (m & (-> & Ha & n & Hf & H1) & H2). split_and!; [done|done|]. exists n. split; [done|]. apply IH. eauto.
Qed.

Lemma seg_ext f f' prev cur l nx : (forall a, a ∈ l.*1 -> f' !! a = f !! a) -> seg f prev cur l nx -> seg f' prev cur l nx.
Proof.
  revert prev cur. induction l as [|[a [p e]] l IH]; intros prev cur Hf; cbn [seg]; [done|]. intros (-> & Ha & n & Hn & H). split_and!; [done|done|]. exists n.
  rewrite Hf by left. split; [done|]. apply IH; [|done]. intros b Hb. apply Hf. by right.
Qed.

Lemma seg_insert f b y prev cur l nx : b ∉ l.*1 -> seg f prev cur l nx -> seg (<[b := y]> f) prev cur l nx.
Proof. intros Hb. apply seg_ext. intros a Ha. rewrite lookup_insert_ne; [done|]. by intros ->. Qed.

Lemma seg_nonnull f prev l nx : seg f prev 0 l nx -> l = [].
Proof. destruct l as [|[a [p e]] l]; [done|]. cbn. by intros (<- & ? & _). Qed.

(** The first of the list gets another predecessor. *)
Lemma seg_set_prev f prev prev' b p e l n :
  f !! b = Some (Pgfree n prev p e (e - p)) -> b <> 0 -> b ∉ l.*1 -> seg f b n l 0 ->
  seg (<[b := Pgfree n prev' p e (e - p)]> f) prev' b ((b, (p, e)) :: l) 0.
Proof. intros Hf Hb Hl H. cbn [seg]. split_and!; [done|done|]. exists n. rewrite lookup_insert_eq. split; [done|]. by apply seg_insert. Qed.
End lists.

Section runs.
Context {data : MallocData}.
Implicit Types (f : gmap Z pgfree) (l : list run).

(** The list up to [m], the description after [l]. *)
Definition list_to f l (m : Z) : Prop := exists x, f !! free_list = Some x /\ seg f free_list (pf_next x) l m.

Lemma list_to_app f l1 l2 m : list_to f (l1 ++ l2) m <-> exists n, list_to f l1 n /\ seg f (lastp free_list l1) n l2 m.
Proof.
  unfold list_to. split.
  - intros (x & Hx & H). apply seg_app in H as (n & H1 & H2). exists n. split; [by exists x|done].
  - intros (n & (x & Hx & H1) & H2). exists x. split; [done|]. apply seg_app. by exists n.
Qed.

Lemma list_to_ext f f' l m : (forall a, a ∈ free_list :: l.*1 -> f' !! a = f !! a) -> list_to f l m -> list_to f' l m.
Proof. intros Hf (x & Hx & H). exists x. rewrite Hf by left. split; [done|]. apply (seg_ext f); [|done]. intros a Ha. apply Hf. by right. Qed.

Lemma list_to_insert f b y l m : b ∉ free_list :: l.*1 -> list_to f l m -> list_to (<[b := y]> f) l m.
Proof. intros Hb. apply list_to_ext. intros a Ha. rewrite lookup_insert_ne; [done|]. by intros ->. Qed.

(** The end of the list gets another successor. *)
Lemma list_to_set_next f l m m' :
  NoDup (free_list :: l.*1) -> list_to f l m -> exists y, f !! lastp free_list l = Some y /\ list_to (<[lastp free_list l := set_pf_next m' y]> f) l m'.
Proof.
  intros Hnd H. destruct l as [|[a [p e]] l _] using rev_ind.
  - destruct H as (x & Hx & _). exists x. split; [done|]. exists (set_pf_next m' x). change (lastp free_list []) with free_list. by rewrite lookup_insert_eq.
  - rewrite lastp_snoc. cbn [fst]. apply list_to_app in H as (n & H1 & H2). cbn [seg] in H2. destruct H2 as (-> & Ha & k & Hk & _). rewrite fmap_app in Hnd. cbn in Hnd.
    exists (Pgfree k (lastp free_list l) p e (e - p)). split; [done|]. apply list_to_app. exists a. split.
    + apply list_to_insert; [|done]. intros Hin. change (free_list :: l.*1 ++ [a]) with ((free_list :: l.*1) ++ [a]) in Hnd. apply NoDup_app in Hnd as (_ & Hd & _). apply (Hd a Hin). left.
    + cbn [seg]. split_and!; [done|done|]. exists m'. by rewrite lookup_insert_eq.
Qed.

(** Ordered runs above [lo] that do not touch. *)
Fixpoint ordered (lo : Z) l : Prop :=
  match l with
  | [] => True
  | (_, (p, e)) :: l => lo < p /\ p < e /\ ordered e l
  end.

(** The addresses in the runs. *)
Definition covered l (x : Z) : Prop := exists r, r ∈ l /\ r.2.1 <= x < r.2.2.

Record runs_ok f l : Prop := RunsOk { ro_list : list_to f l 0; ro_nodup : NoDup (free_list :: l.*1); ro_ordered : ordered 0 l }.

Lemma covered_app l1 l2 x : covered (l1 ++ l2) x <-> covered l1 x \/ covered l2 x.
Proof. unfold covered. split; [intros (r & [H|H]%elem_of_app & ?); [left|right]; by exists r|intros [(r & H & ?)|(r & H & ?)]; exists r; rewrite elem_of_app; auto]. Qed.

Lemma covered_cons a p e l x : covered ((a, (p, e)) :: l) x <-> p <= x < e \/ covered l x.
Proof. unfold covered. split; [intros (r & [->|H]%elem_of_cons & ?); [by left|right; by exists r]|intros [H|(r & H & ?)]; [exists (a, (p, e)); split; [left|done]|exists r; split; [by right|done]]]. Qed.

(** The largest address before what follows [l]. *)
Definition top (lo : Z) l : Z := match list.last l with Some r => r.2.2 | None => lo end.

Lemma ordered_app lo l1 l2 : ordered lo (l1 ++ l2) <-> ordered lo l1 /\ ordered (top lo l1) l2.
Proof.
  revert lo. induction l1 as [|[a [p e]] l1 IH]; intros lo; cbn [app ordered]; [unfold top; cbn; tauto|]. rewrite IH.
  assert (top e l1 = top lo ((a, (p, e)) :: l1)) as -> by (unfold top; rewrite last_cons; by destruct (list.last l1)). tauto.
Qed.

Lemma ordered_mono lo lo' l : lo' <= lo -> ordered lo l -> ordered lo' l.
Proof. destruct l as [|[a [p e]] l]; cbn; [done|]. intros ? (? & ? & ?). split_and!; [lia|done|done]. Qed.

Lemma ordered_top lo l : ordered lo l -> lo <= top lo l.
Proof.
  revert lo. induction l as [|[a [p e]] l IH]; intros lo; cbn [ordered]; [unfold top; cbn; lia|]. intros (? & ? & H). specialize (IH e H).
  replace (top lo ((a, (p, e)) :: l)) with (top e l) by (unfold top; rewrite last_cons; by destruct (list.last l)). lia.
Qed.
End runs.

(** * Taking pages *)

Section ops.
Context {O : Type} {sys : Os O} {data : MallocData}.
Implicit Types (h : heap O) (l : list run).

Lemma wp_free_at h a x Q : frees h !! a = Some x -> Q x h -> wp (free_at a) Q h.
Proof. intros Hx HQ. unfold free_at. wp_steps. by apply (wp_deref _ _ x). Qed.

Lemma wp_upd_free h a g x Q : frees h !! a = Some x -> Q tt (set_frees (<[a := g x]> (frees h)) h) -> wp (upd_free a g) Q h.
Proof. intros Hx HQ. unfold upd_free. wp_use wp_free_at; [done|]. wp_steps. done. Qed.

Lemma nodup_mid (l1 : list run) a pe l2 : NoDup (free_list :: (l1 ++ (a, pe) :: l2).*1) ->
  NoDup (free_list :: (l1 ++ l2).*1) /\ (a ∉ free_list :: (l1 ++ l2).*1) /\ NoDup (free_list :: l1.*1) /\ (forall b, b ∈ free_list :: l1.*1 -> b ∉ a :: l2.*1).
Proof.
  rewrite !fmap_app. cbn [fmap list_fmap fst]. intros H. change (free_list :: l1.*1 ++ a :: l2.*1) with ((free_list :: l1.*1) ++ a :: l2.*1) in H.
  change (free_list :: l1.*1 ++ l2.*1) with ((free_list :: l1.*1) ++ l2.*1). apply NoDup_app in H as (H1 & Hd & H2). apply NoDup_cons in H2 as [Ha H2]. split_and!.
  - apply NoDup_app. split_and!; [done| |done]. intros b Hb Hb2. apply (Hd b Hb). by right.
  - rewrite elem_of_app. intros [H|H]; [apply (Hd a H); left|done].
  - done.
  - done.
Qed.

(** What taking [size] bytes leaves of the list: the description that is free. *)
Definition cut_run (size : Z) l1 a p e l2 (f' : gmap Z pgfree) (r : Z * Z) : Prop :=
  if decide (e - p = size) then r = (p, a) /\ runs_ok f' (l1 ++ l2)
  else r = (p, 0) /\ runs_ok f' (l1 ++ (a, (p + size, e)) :: l2).

Lemma cut_first h l1 a p e l2 size Q :
  runs_ok (frees h) (l1 ++ (a, (p, e)) :: l2) -> 0 < size <= e - p ->
  (forall f' r, cut_run size l1 a p e l2 f' r -> (forall b, b ∉ free_list :: (l1 ++ (a, (p, e)) :: l2).*1 -> f' !! b = frees h !! b) -> Q r (set_frees f' h)) ->
  forall fuel, wp (find_run (S fuel) a size) Q h.
Proof.
  intros [Hlist Hnd Hord] Hsz HQ fuel. apply list_to_app in Hlist as (m & Hl1 & Hseg). cbn [seg] in Hseg. destruct Hseg as (-> & Ha & n & Hn & Hseg).
  destruct (nodup_mid _ _ _ _ Hnd) as (Hnd' & Hna & Hnd1 & Hdis). apply ordered_app in Hord as Hord'. destruct Hord' as [Ho1 Ho2]. cbn [ordered] in Ho2. destruct Ho2 as (Hlo & Hpe & Ho2).
  cbn [find_run]. destruct (Z.eqb_spec a 0); [done|]. wp_use wp_free_at; [done|]. wp_red. cbn [pf_size pf_next pf_prev pf_page pf_end].
  destruct (Z.ltb_spec (e - p) size); [lia|]. set (q := lastp free_list l1) in *. assert (Hq : q ∈ free_list :: l1.*1) by apply lastp_elem.
  destruct (Z.eqb_spec (e - p) size) as [E|E].
  - assert (Hstep : exists f1, wp (if n =? 0 then ret tt else upd_free n (set_pf_prev q)) (fun _ h' => h' = set_frees f1 h) h /\ list_to f1 l1 a /\ seg f1 q n l2 0 /\ (forall b, b ∉ l2.*1 -> f1 !! b = frees h !! b)).
    { destruct l2 as [|[b [p2 e2]] l2].
      - cbn in Hseg. subst n. exists (frees h). split_and!; [wp_steps; by destruct h|done|done|done].
      - cbn [seg] in Hseg. destruct Hseg as (-> & Hb & n2 & Hn2 & Hseg). destruct (Z.eqb_spec b 0); [done|]. exists (<[b := Pgfree n2 q p2 e2 (e2 - p2)]> (frees h)).
        assert (Hb1 : b ∉ free_list :: l1.*1) by (intros Hin; apply (Hdis b Hin); right; left).
        assert (Hb2 : b ∉ l2.*1) by (rewrite fmap_app in Hnd'; apply NoDup_cons in Hnd' as [_ Hx]; apply NoDup_app in Hx as (_ & _ & Hx); by apply NoDup_cons in Hx as [? _]).
        split_and!; [by wp_use wp_upd_free|by apply list_to_insert|by apply (seg_set_prev _ a)|]. intros c Hc. rewrite lookup_insert_ne; [done|]. intros ->. apply Hc. left. }
    destruct Hstep as (f1 & Hwp & Hl1' & Hs1 & Hout). wp_steps. eapply wp_mono; [exact Hwp|]. intros _ h1 ->. destruct (list_to_set_next f1 l1 a n Hnd1 Hl1') as (y & Hy & Hnew). fold q in Hy, Hnew.
    wp_use wp_upd_free; [exact Hy|]. wp_steps. cbn [frees set_frees]. change (set_frees (<[q := set_pf_next n y]> f1) (set_frees f1 h)) with (set_frees (<[q := set_pf_next n y]> f1) h). apply HQ.
    + unfold cut_run. rewrite decide_True by done. split; [done|]. split; [|done|].
      * apply list_to_app. exists n. split; [done|]. apply seg_insert; [|done]. intros Hin. apply (Hdis q Hq). by right.
      * apply ordered_app. split; [done|]. apply (ordered_mono e); [lia|done].
    + intros b Hb. rewrite fmap_app in Hb. cbn in Hb. rewrite lookup_insert_ne; [apply Hout; intros Hin; apply Hb; right; apply elem_of_app; right; by right|].
      intros ->. apply Hb. apply elem_of_cons in Hq as [Hq|Hq]; [rewrite Hq; left|right; apply elem_of_app; by left].
  - wp_use wp_upd_free; [exact Hn|]. wp_steps. cbn [set_pf_run pf_next pf_prev]. apply HQ.
    + unfold cut_run. rewrite decide_False by done. split; [done|]. split.
      * apply list_to_app. exists a. split; [apply list_to_insert; [|done]; intros Hin; apply (Hdis a Hin); left|]. cbn [seg]. split_and!; [done|done|]. exists n. rewrite lookup_insert_eq.
        split; [by replace (e - (p + size)) with (e - p - size) by lia|]. apply seg_insert; [|done]. intros Hin. apply Hna. rewrite fmap_app. right. apply elem_of_app. by right.
      * rewrite fmap_app in Hnd |- *. exact Hnd.
      * apply ordered_app. split; [done|]. cbn [ordered]. split_and!; [lia|lia|done].
    + intros b Hb. rewrite lookup_insert_ne; [done|]. intros ->. apply Hb. rewrite fmap_app. right. apply elem_of_app. right. left.
Qed.

Definition headp l : Z := match l with [] => 0 | r :: _ => r.1 end.

Lemma seg_head f prev cur l : seg f prev cur l 0 -> cur = headp l.
Proof. destruct l as [|[a [p e]] l]; [done|]. by intros [-> _]. Qed.

(** The first run that is large enough is cut, or none is. *)
Lemma find_run_spec h size l : forall fuel l1,
  runs_ok (frees h) (l1 ++ l) -> 0 < size -> (length l <= fuel)%nat ->
  wp (find_run fuel (headp l) size)
     (fun r h' => r = (0, 0) /\ h' = h /\ Forall (fun x : run => x.2.2 - x.2.1 < size) l \/
        exists l2 a p e l3 f', l = l2 ++ (a, (p, e)) :: l3 /\ Forall (fun x : run => x.2.2 - x.2.1 < size) l2 /\ size <= e - p /\ h' = set_frees f' h /\ cut_run size (l1 ++ l2) a p e l3 f' r /\
          forall b, b ∉ free_list :: (l1 ++ l).*1 -> f' !! b = frees h !! b) h.
Proof.
  induction l as [|[a [p e]] l IH]; intros fuel l1 Hok Hsz Hf; cbn [headp fst].
  - destruct fuel; cbn [find_run Z.eqb]; wp_steps; by left.
  - destruct fuel as [|fuel]; [cbn in Hf; lia|]. destruct (Z.leb_spec size (e - p)) as [Hle|Hgt].
    + apply (cut_first h l1 a p e l size); [done|lia|]. intros f' r Hcut Hout. right. exists [], a, p, e, l, f'. rewrite app_nil_r. split_and!; [done|constructor|lia|done|done|done].
    + pose proof (ro_list _ _ Hok) as Hl. apply list_to_app in Hl as (m & _ & Hseg). cbn [seg] in Hseg. destruct Hseg as (-> & Ha & n & Hn & Hseg).
      cbn [find_run]. destruct (Z.eqb_spec a 0); [done|]. wp_use wp_free_at; [done|]. wp_red. cbn [pf_size pf_next]. destruct (Z.ltb_spec (e - p) size); [|lia]. rewrite (seg_head _ _ _ _ Hseg).
      eapply wp_mono; [apply (IH fuel (l1 ++ [(a, (p, e))])); [by rewrite <- app_assoc|done|cbn in Hf; lia]|]. cbn beta.
      intros r h' [(-> & -> & Hall)|(l2 & b & p2 & e2 & l3 & f' & -> & Hall & Hle & -> & Hcut & Hout)]; [left; split_and!; [done|done|by constructor]|right].
      exists ((a, (p, e)) :: l2), b, p2, e2, l3, f'. rewrite <- !app_assoc in *. split_and!; [done|by constructor|done|done|done|done].
Qed.

(** * Putting pages back *)

(** A description is linked in after [l1]. *)
Lemma link_run f l1 l2 q ptr tail :
  list_to f (l1 ++ l2) 0 -> NoDup (free_list :: (l1 ++ l2).*1) -> q ∉ free_list :: (l1 ++ l2).*1 -> q <> 0 ->
  let prev := lastp free_list l1 in
  let f1 := <[q := Pgfree (headp l2) prev ptr tail (tail - ptr)]> f in
  exists f2 y, (match l2 with [] => f2 = f1 | (b, _) :: _ => exists x, f1 !! b = Some x /\ f2 = <[b := set_pf_prev q x]> f1 end) /\
    f2 !! prev = Some y /\ list_to (<[prev := set_pf_next q y]> f2) (l1 ++ (q, (ptr, tail)) :: l2) 0.
Proof.
  intros Hl Hnd Hq Hq0 prev f1. apply list_to_app in Hl as (m & Hl1 & Hseg). fold prev in Hseg. rewrite fmap_app in Hnd, Hq.
  change (free_list :: l1.*1 ++ l2.*1) with ((free_list :: l1.*1) ++ l2.*1) in Hnd, Hq. apply NoDup_app in Hnd as (Hnd1 & Hdis & Hnd2). rewrite elem_of_app in Hq.
  assert (Hq1 : q ∉ free_list :: l1.*1) by tauto. assert (Hq2 : q ∉ l2.*1) by tauto. assert (Hprev : prev ∈ free_list :: l1.*1) by apply lastp_elem.
  assert (Hqp : prev <> q) by (intros <-; done).
  assert (Hf2 : exists f2, (match l2 with [] => f2 = f1 | (b, _) :: _ => exists x, f1 !! b = Some x /\ f2 = <[b := set_pf_prev q x]> f1 end) /\
    list_to f2 l1 m /\ f2 !! q = Some (Pgfree (headp l2) prev ptr tail (tail - ptr)) /\ seg f2 q (headp l2) l2 0).
  { destruct l2 as [|[b [p e]] l2]; cbn [headp fst] in *.
    - exists f1. split_and!; [done|by apply list_to_insert|apply lookup_insert_eq|done].
    - cbn [seg] in Hseg. destruct Hseg as (-> & Hb & n & Hn & Hseg). apply NoDup_cons in Hnd2 as [Hb2 Hnd2]. assert (Hbq : q <> b) by (intros ->; apply Hq2; left).
      assert (Hf1b : f1 !! b = Some (Pgfree n prev p e (e - p))) by (unfold f1; by rewrite lookup_insert_ne).
      exists (<[b := Pgfree n q p e (e - p)]> f1). split_and!; [by eexists|apply list_to_insert; [intros Hin; apply (Hdis b Hin); left|by apply list_to_insert]|unfold f1; by rewrite lookup_insert_ne, lookup_insert_eq|].
      apply (seg_set_prev _ prev); [done|done|done|]. apply seg_insert; [|done]. intros Hin. apply Hq2. by right. }
  destruct Hf2 as (f2 & Hspec & Hl2 & Hf2q & Hs2). destruct (list_to_set_next f2 l1 m q Hnd1 Hl2) as (y & Hy & Hnew). fold prev in Hy, Hnew. exists f2, y. split_and!; [done|done|].
  apply list_to_app. exists q. split; [done|]. fold prev. cbn [seg]. split_and!; [done|done|]. exists (headp l2). rewrite lookup_insert_ne by done. split; [done|].
  apply seg_insert; [|done]. intros Hin. by apply (Hdis prev Hprev).
Qed.

(** The first run that does not end before [ptr], or the last one. *)
Lemma find_place_spec h ptr l : forall fuel l1,
  runs_ok (frees h) (l1 ++ l) -> l <> [] -> (length l <= fuel)%nat ->
  exists l2 r l3, l = l2 ++ r :: l3 /\ Forall (fun x : run => x.2.2 < ptr) l2 /\ (ptr <= r.2.2 \/ l3 = []) /\ find_place fuel (headp l) ptr h = Done r.1 h.
Proof.
  induction l as [|[a [p e]] l IH]; intros fuel l1 Hok Hne Hf; [done|]. pose proof (ro_list _ _ Hok) as Hl. apply list_to_app in Hl as (m & _ & Hseg). cbn [seg] in Hseg.
  destruct Hseg as (-> & Ha & n & Hn & Hseg). destruct fuel as [|fuel]; [cbn in Hf; lia|]. cbn [headp fst find_place]. unfold free_at, bind, get. rewrite Hn. cbn [deref ret pf_end pf_next].
  destruct (Z.ltb_spec e ptr) as [Hlt|Hge]; cbn [andb]; [|exists [], (a, (p, e)), l; split_and!; [done|constructor|by left|done]].
  destruct (Z.eqb_spec n 0) as [->|Hn0]; cbn [negb]; [apply seg_nonnull in Hseg as ->; exists [], (a, (p, e)), []; split_and!; [done|constructor|by right|done]|].
  assert (Hl0 : l <> []) by (intros ->; by cbn in Hseg). destruct (IH fuel (l1 ++ [(a, (p, e))])) as (l2 & r & l3 & -> & Hall & Hr & E); [by rewrite <- app_assoc|done|cbn in Hf; lia|].
  rewrite (seg_head _ _ _ _ Hseg). exists ((a, (p, e)) :: l2), r, l3. split_and!; [done|by constructor|done|exact E].
Qed.

Definition spare (a : Z) : list Z := if a =? 0 then [] else [a].

(** What putting back the run from [ptr] to [tail] leaves: the runs cover it too,
    and every description is in use, kept in [px] or returned. *)
Definition put_back h l q ptr tail (r : Z * Z) (h' : heap O) : Prop :=
  exists l' f' p', h' = set_px p' (set_frees f' h) /\ runs_ok f' l' /\ (forall x, covered l' x <-> covered l x \/ ptr <= x < tail) /\
    r.1 ∈ l'.*1 /\ l'.*1 ++ spare p' ++ spare r.2 ≡ₚ q :: l.*1.

Lemma top_before l1 l2 ptr : Forall (fun x : run => x.2.2 < ptr) l1 -> 0 < ptr -> ordered 0 (l1 ++ l2) -> top 0 l1 < ptr.
Proof. intros Hall Hp _. unfold top. destruct (list.last l1) as [r|] eqn:E; [|done]. apply last_Some in E as [k ->]. apply Forall_app in Hall as [_ H]. by apply Forall_inv in H. Qed.

(** A new entry between [l1] and [l2]. *)
Lemma link_back h l1 l2 q ptr tail h' :
  runs_ok (frees h) (l1 ++ l2) -> q ∉ free_list :: (l1 ++ l2).*1 -> q <> 0 -> top 0 l1 < ptr < tail -> (match l2 with [] => True | r :: _ => tail < r.2.1 end) ->
  (exists f', h' = set_px 0 (set_frees f' h) /\ list_to f' (l1 ++ (q, (ptr, tail)) :: l2) 0) -> put_back h (l1 ++ l2) q ptr tail (q, 0) h'.
Proof.
  intros [Hl Hnd Hord] Hq Hq0 Hptr Hl2 (f' & -> & Hlist). exists (l1 ++ (q, (ptr, tail)) :: l2), f', 0. rewrite !fmap_app. cbn [fmap list_fmap fst snd]. rewrite fmap_app in Hnd, Hq. split_and!.
  - done.
  - split; [done| |].
    + rewrite fmap_app. cbn [fmap list_fmap fst]. rewrite <- Permutation_middle, Permutation_swap. apply NoDup_cons. split; [|done]. intros Hin. by apply Hq.
    + apply ordered_app in Hord as [Ho1 Ho2]. apply ordered_app. split; [done|]. cbn [ordered]. split_and!; [lia|lia|]. destruct l2 as [|[b [p e]] l2]; [done|]. cbn in *. split_and!; [lia|tauto|tauto].
  - intros x. rewrite !covered_app, covered_cons. tauto.
  - apply elem_of_app. right. left.
  - cbn [spare Z.eqb app]. rewrite app_nil_r. by rewrite <- Permutation_middle.
Qed.

(** An entry that is changed in place. *)
Lemma seg_mid_update f l1 a p e l2 p' e' n s :
  list_to f (l1 ++ (a, (p, e)) :: l2) 0 -> NoDup (free_list :: (l1 ++ (a, (p, e)) :: l2).*1) -> f !! a = Some (Pgfree n (lastp free_list l1) p e (e - p)) -> s = e' - p' ->
  list_to (<[a := Pgfree n (lastp free_list l1) p' e' s]> f) (l1 ++ (a, (p', e')) :: l2) 0.
Proof.
  intros Hl Hnd Hn ->. apply list_to_app in Hl as (m & Hl1 & Hseg). cbn [seg] in Hseg. destruct Hseg as (-> & Ha & k & Hk & Hseg). rewrite Hn in Hk. injection Hk as <-.
  destruct (nodup_mid _ _ _ _ Hnd) as (_ & Hna & _ & Hdis). apply list_to_app. exists a. split; [apply list_to_insert; [|done]; intros Hin; apply (Hdis a Hin); left|].
  cbn [seg]. split_and!; [done|done|]. exists n. rewrite lookup_insert_eq. split; [done|]. apply seg_insert; [|done]. intros Hin. apply Hna. rewrite fmap_app. right. apply elem_of_app. by right.
Qed.

(** The run that is put back, in the description that is kept in [px]. *)
Record kept h l q ptr n : Prop := Kept {
  kept_runs : runs_ok (frees h) l;
  kept_px : px h = q;
  kept_null : q <> 0;
  kept_new : q ∉ free_list :: l.*1;
  kept_desc : exists y, frees h !! q = Some y /\ pf_page y = ptr /\ pf_end y = ptr + n /\ pf_size y = n;
  kept_size : 0 < n;
  kept_ptr : 0 < ptr;
  kept_apart : forall x, ptr <= x < ptr + n -> ~ covered l x;
}.

Lemma wp_desc h l q ptr n a b Q :
  kept h l q ptr n -> Q tt (set_frees (<[q := Pgfree a b ptr (ptr + n) (ptr + n - ptr)]> (frees h)) h) -> wp (upd_free q (fun y => set_pf_prev b (set_pf_next a y))) Q h.
Proof.
  intros [_ _ _ _ (y & Hy & <- & He & Hs)] HQ. wp_use wp_upd_free; [exact Hy|]. unfold set_pf_prev, set_pf_next. cbn. rewrite He, Hs. by replace (pf_page y + n - pf_page y) with n in HQ by lia.
Qed.

(** Disjoint runs: which side. *)
Lemma apart h l1 a p e l2 q ptr n : kept h (l1 ++ (a, (p, e)) :: l2) q ptr n -> e <= ptr \/ ptr + n <= p.
Proof.
  intros [[_ _ Ho] _ _ _ _ Hn _ Hap]. apply ordered_app in Ho as [_ Ho]. cbn in Ho. destruct Ho as (_ & Hpe & _). destruct (Z.leb_spec e ptr); [by left|right]. destruct (Z.leb_spec (ptr + n) p); [done|].
  exfalso. apply (Hap (Z.max p ptr)); [lia|]. apply covered_app. right. apply covered_cons. left. lia.
Qed.

Lemma apart_next h l1 a p e b p2 e2 l2 q ptr n : kept h (l1 ++ (a, (p, e)) :: (b, (p2, e2)) :: l2) q ptr n -> e = ptr -> ptr + n <= p2.
Proof.
  intros Hk He. destruct (apart h (l1 ++ [(a, (p, e))]) b p2 e2 l2 q ptr n) as [H|H]; [by rewrite <- app_assoc| |done]. pose proof (ro_ordered _ _ (kept_runs _ _ _ _ _ Hk)) as Ho.
  apply ordered_app in Ho as [_ Ho]. cbn in Ho. lia.
Qed.

(** The run goes before an entry. *)
Lemma put_before h l1 a p e l2 q ptr n :
  kept h (l1 ++ (a, (p, e)) :: l2) q ptr n -> Forall (fun x : run => x.2.2 < ptr) l1 -> ptr + n < p ->
  wp (do! upd_free q (fun y => set_pf_prev (lastp free_list l1) (set_pf_next a y)); do! upd_free a (set_pf_prev q); do! upd_free (lastp free_list l1) (set_pf_next q); do! modify (set_px 0); ret (q, 0))
     (put_back h (l1 ++ (a, (p, e)) :: l2) q ptr (ptr + n)) h.
Proof.
  intros Hk Hl1 Hp. pose proof Hk as [[Hl Hnd Ho] _ Hq0 Hq _ Hn Hptr _]. destruct (link_run (frees h) l1 ((a, (p, e)) :: l2) q ptr (ptr + n) Hl Hnd Hq Hq0) as (f2 & z & (x & Hx & ->) & Hz & Hnew).
  cbn [headp fst] in *. wp_steps. eapply wp_desc; [exact Hk|]. wp_steps. wp_use wp_upd_free; [exact Hx|]. wp_steps. wp_use wp_upd_free; [exact Hz|]. wp_steps.
  apply link_back; try done; [pose proof (top_before l1 _ ptr Hl1 Hptr Ho); lia|]. eexists. split; [|exact Hnew]. reflexivity.
Qed.

(** The run goes at the end, after [l1]. *)
Lemma put_last h l1 q ptr n :
  kept h l1 q ptr n -> Forall (fun x : run => x.2.2 < ptr) l1 ->
  wp (do! upd_free q (fun y => set_pf_prev (lastp free_list l1) (set_pf_next 0 y)); do! upd_free (lastp free_list l1) (set_pf_next q); do! modify (set_px 0); ret (q, 0))
     (put_back h l1 q ptr (ptr + n)) h.
Proof.
  intros Hk Hl1. pose proof Hk as [[Hl Hnd Ho] _ Hq0 Hq _ Hn Hptr _]. rewrite <- (app_nil_r l1) in Hl, Hnd, Hq, Ho. destruct (link_run (frees h) l1 [] q ptr (ptr + n) Hl Hnd Hq Hq0) as (f2 & z & -> & Hz & Hnew).
  cbn [headp] in *. wp_steps. eapply wp_desc; [exact Hk|]. wp_steps. wp_use wp_upd_free; [exact Hz|]. wp_steps.
  assert (H := link_back h l1 [] q ptr (ptr + n)). rewrite app_nil_r in H, Hq. apply H; try done; [apply Hk|pose proof (top_before l1 [] ptr Hl1 Hptr Ho); lia|]. eexists. split; [|exact Hnew]. reflexivity.
Qed.

(** An entry grows: the description in [px] is kept. *)
Lemma grow_back h l1 a p e l2 q ptr n p' e' f' :
  kept h (l1 ++ (a, (p, e)) :: l2) q ptr n -> top 0 l1 < p' < e' -> (match l2 with [] => True | r :: _ => e' < r.2.1 end) -> (forall x, p' <= x < e' <-> p <= x < e \/ ptr <= x < ptr + n) ->
  list_to f' (l1 ++ (a, (p', e')) :: l2) 0 -> put_back h (l1 ++ (a, (p, e)) :: l2) q ptr (ptr + n) (a, 0) (set_frees f' h).
Proof.
  intros [[Hl Hnd Hord] Hpx Hq0 Hq _ _ _ _] Hp' He' Hcov Hlist. exists (l1 ++ (a, (p', e')) :: l2), f', q. rewrite !fmap_app in *. cbn [fmap list_fmap fst snd] in *. split_and!.
  - destruct h. cbn in *. by subst.
  - split; [done|by rewrite fmap_app|]. apply ordered_app in Hord as [Ho1 Ho2]. apply ordered_app. split; [done|]. cbn [ordered] in *. split_and!; [lia|lia|].
    destruct l2 as [|[b [p2 e2]] l2]; [done|]. cbn in *. split_and!; [lia|tauto|tauto].
  - intros x. rewrite !covered_app, !covered_cons, Hcov. tauto.
  - apply elem_of_app. right. left.
  - unfold spare. destruct (Z.eqb_spec q 0); [done|]. cbn [Z.eqb app]. by rewrite ?app_nil_r, Permutation_app_comm.
Qed.

(** The run joins two entries: the description of the second is free. *)
Lemma merge_back h l1 a p e b p2 e2 l2 q ptr n x n2 :
  kept h (l1 ++ (a, (p, e)) :: (b, (p2, e2)) :: l2) q ptr n -> e = ptr -> ptr + n = p2 -> x = Pgfree b (lastp free_list l1) p e (e - p) -> frees h !! b = Some (Pgfree n2 a p2 e2 (e2 - p2)) ->
  wp (do! upd_free a (fun x => set_pf_next n2 (set_pf_run (pf_page x) e2 (e - p + n + (e2 - p2)) x)); do! (if n2 =? 0 then ret tt else upd_free n2 (set_pf_prev a)); ret (a, b))
     (put_back h (l1 ++ (a, (p, e)) :: (b, (p2, e2)) :: l2) q ptr (ptr + n)) h.
Proof.
  intros [[Hl Hnd Hord] Hpx Hq0 Hq _ Hn _ _] -> <- -> Hb. apply list_to_app in Hl as (m & Hl1 & Hseg). cbn [seg] in Hseg.
  destruct Hseg as (-> & Ha & b' & Ha' & -> & Hb0 & n2' & Hb' & Hseg). rewrite Hb in Hb'. injection Hb' as <-.
  destruct (nodup_mid _ _ _ _ Hnd) as (Hnd2 & Hna & Hnd1 & Hdis). destruct (nodup_mid _ _ _ _ Hnd2) as (Hnd3 & Hnb & _ & Hdis2).
  assert (Ha2 : a ∉ l2.*1) by (intros Hin; apply Hna; rewrite fmap_app; right; apply elem_of_app; right; by right).
  set (f1 := <[a := Pgfree n2 (lastp free_list l1) p e2 (e2 - p)]> (frees h)).
  assert (Hf2 : exists f2, wp (if n2 =? 0 then ret tt else upd_free n2 (set_pf_prev a)) (fun _ h' => h' = set_frees f2 h) (set_frees f1 h) /\ list_to f2 (l1 ++ (a, (p, e2)) :: l2) 0).
  { assert (Hl1' : list_to f1 l1 a) by (apply list_to_insert; [intros Hin; apply (Hdis a Hin); left|done]). destruct l2 as [|[c [p3 e3]] l2].
    - cbn in Hseg. subst n2. exists f1. split; [wp_steps; done|]. apply list_to_app. exists a. split; [done|]. cbn [seg]. split_and!; [done|done|]. exists 0. unfold f1. by rewrite lookup_insert_eq.
    - cbn [seg] in Hseg. destruct Hseg as (-> & Hc0 & n3 & Hc & Hseg). destruct (Z.eqb_spec c 0); [done|]. cbn in Ha2. apply not_elem_of_cons in Ha2 as [Hac Ha2].
      assert (Hc1 : c ∉ free_list :: l1.*1) by (intros Hin; apply (Hdis2 c Hin); right; left). rewrite fmap_app in Hnd3. apply NoDup_cons in Hnd3 as [_ Hx]. apply NoDup_app in Hx as (_ & _ & Hx). apply NoDup_cons in Hx as [Hc2 _].
      assert (Hf1c : f1 !! c = Some (Pgfree n3 b p3 e3 (e3 - p3))) by (unfold f1; by rewrite lookup_insert_ne). exists (<[c := Pgfree n3 a p3 e3 (e3 - p3)]> f1). split; [by wp_use wp_upd_free|].
      apply list_to_app. exists a. split; [by apply list_to_insert|]. split_and!; [done|done|]. exists c. rewrite lookup_insert_ne by done. unfold f1 at 1. rewrite lookup_insert_eq. split; [done|].
      apply (seg_set_prev _ b); [done|done|done|]. by apply seg_insert. }
  destruct Hf2 as (f2 & Hwp & Hlist). wp_steps. wp_use wp_upd_free; [exact Ha'|]. unfold set_pf_next, set_pf_run. cbn [pf_next pf_prev pf_page pf_end pf_size].
  replace (ptr - p + n + (e2 - (ptr + n))) with (e2 - p) by lia. wp_steps. eapply wp_mono; [exact Hwp|]. intros _ h' ->. wp_steps.
  exists (l1 ++ (a, (p, e2)) :: l2), f2, q. rewrite !fmap_app in *. cbn [fmap list_fmap fst snd] in *. apply ordered_app in Hord as [Ho1 Ho2]. cbn [ordered] in Ho2. split_and!.
  - destruct h. cbn in *. by subst.
  - split; [done| |].
    + rewrite fmap_app. cbn [fmap list_fmap fst]. change (free_list :: l1.*1 ++ a :: l2.*1) with ((free_list :: l1.*1) ++ a :: l2.*1). rewrite <- Permutation_middle. apply NoDup_cons. split; [|exact Hnd3].
      intros Hin. apply Hna. apply elem_of_cons in Hin as [->|Hin]; [left|]. right. apply elem_of_app in Hin as [?|?]; apply elem_of_app; [by left|right; by right].
    + apply ordered_app. split; [done|]. cbn [ordered]. split_and!; [lia|lia|tauto].
  - intros x. rewrite !covered_app, !covered_cons. assert (p <= x < e2 <-> (p <= x < ptr \/ ptr + n <= x < e2) \/ ptr <= x < ptr + n) by lia. tauto.
  - apply elem_of_app. right. left.
  - unfold spare. destruct (Z.eqb_spec q 0); [done|]. destruct (Z.eqb_spec b 0); [done|]. cbn [app]. rewrite (Permutation_app_comm (l1.*1 ++ _)). cbn [app]. constructor. rewrite (perm_swap b a). apply Permutation_middle.
Qed.

(** C28: The run of pages from [ptr] on, which is free now, is put on the list of
    free runs, alone or joined with the runs that it touches: afterwards the
    runs are ordered, linked in both directions and do not touch, they cover
    what they covered and the new run and nothing else, and every description is
    on the list, kept for the next time, or handed back to be released; the
    error for a destroyed list is never reached. *)
Theorem insert_run_correct walk h l q ptr n :
  kept h l q ptr n -> (length l <= walk)%nat -> wp (insert_run walk ptr (ptr + n) n) (put_back h l q ptr (ptr + n)) h.
Proof.
  intros Hk Hwalk. pose proof (kept_runs _ _ _ _ _ Hk) as Hok. destruct (ro_list _ _ Hok) as (hd & Hhd & Hseg). unfold insert_run. wp_steps. rewrite (kept_px _ _ _ _ _ Hk). wp_use wp_free_at; [exact Hhd|]. wp_red.
  pose proof (seg_head _ _ _ _ Hseg) as Eh. rewrite Eh in Hseg |- *. destruct (Z.eqb_spec (headp l) 0) as [E|E].
  { rewrite E in Hseg. apply seg_nonnull in Hseg as ->. apply (put_last h [] q ptr n Hk). constructor. }
  assert (Hne : l <> []) by (by intros ->). destruct (find_place_spec h ptr l walk [] Hok Hne Hwalk) as (l1 & [a [p e]] & l2 & -> & Hall & Hr & Efp). cbn [fst snd] in *.
  wp_steps. apply wp_done. eexists _, h. split; [exact Efp|]. wp_steps. pose proof (ro_list _ _ Hok) as Hl. apply list_to_app in Hl as (m & _ & Hs). cbn [seg] in Hs. destruct Hs as (-> & Ha & nx & Hna & Hs).
  pose proof (apart _ _ _ _ _ _ _ _ _ Hk) as Hap. pose proof (ro_ordered _ _ Hok) as Hord. apply ordered_app in Hord as Hord'. destruct Hord' as [_ Hord2]. cbn [ordered] in Hord2. destruct Hord2 as (Hlo & Hpe & Hord2).
  pose proof (kept_size _ _ _ _ _ Hk) as Hn. wp_use wp_free_at; [exact Hna|]. wp_red. cbn [pf_page pf_end pf_size pf_next pf_prev].
  destruct (Z.ltb_spec (ptr + n) p); [by apply put_before|]. destruct (Z.eqb_spec e ptr) as [Ee|Ee].
  - destruct l2 as [|[b [p2 e2]] l2].
    + cbn in Hs. subst nx. cbn [Z.eqb]. wp_steps. wp_use wp_upd_free; [exact Hna|]. wp_steps. apply (grow_back h l1 a p e [] q ptr n p (e + n)); [done|lia|done|lia|].
      apply (seg_mid_update _ l1 a p e); [apply Hok|apply Hok|done|lia].
    + pose proof (apart_next _ _ _ _ _ _ _ _ _ _ _ _ Hk Ee) as Hp2. cbn [seg] in Hs. destruct Hs as (-> & Hb0 & n2 & Hb & Hs). destruct (Z.eqb_spec b 0); [done|]. wp_use wp_free_at; [exact Hb|]. wp_red.
      cbn [pf_page pf_end pf_size pf_next]. destruct (Z.eqb_spec (e + n) p2) as [E2|E2].
      * apply (merge_back h l1 a p e b p2 e2 l2 q ptr n (Pgfree b (lastp free_list l1) p e (e - p)) n2); [done|done|lia|done|done].
      * wp_steps. wp_use wp_upd_free; [exact Hna|]. wp_steps. apply (grow_back h l1 a p e _ q ptr n p (e + n)); [done|lia|cbn; lia|lia|]. apply (seg_mid_update _ l1 a p e); [apply Hok|apply Hok|done|lia].
  - destruct (Z.eqb_spec p (ptr + n)) as [Ep|Ep].
    + wp_steps. wp_use wp_upd_free; [exact Hna|]. wp_steps. pose proof (top_before l1 _ ptr Hall (kept_ptr _ _ _ _ _ Hk) Hord).
      apply (grow_back h l1 a p e l2 q ptr n ptr e); [done|lia|destruct l2 as [|[b [p2 e2]] l2]; [done|cbn in *; lia]|lia|]. apply (seg_mid_update _ l1 a p e); [apply Hok|apply Hok|done|lia].
    + assert (l2 = []) as -> by (destruct Hr as [?|?]; [lia|done]). cbn in Hs. subst nx. cbn [Z.eqb]. assert (Hlast := put_last h (l1 ++ [(a, (p, e))]) q ptr n Hk). rewrite lastp_snoc in Hlast. apply Hlast.
      apply Forall_app. split; [done|]. repeat constructor. cbn. lia.
Qed.
End ops.

(** * A list of two runs *)

#[local] Instance two_os : Os Z := {| sbrk0 o := o; os_brk t o := (0, t); os_mmap n o := (-1, o); os_munmap n o := o; os_open_zero o := (3, o); os_write_err l o := o |}.
#[local] Instance two_data : MallocData := {| free_list := 0x500; malloc_options := []; raw_word a n := 0 |}.

(** Two runs, and a description kept for the run between them. *)
Definition two_runs : heap Z :=
  Heap 0 ∅ ∅ {[0x500 := Pgfree 0x1000 0 0 0 0; 0x1000 := Pgfree 0x1040 0x500 0x10000 0x12000 0x2000; 0x1040 := Pgfree 0 0x1000 0x13000 0x14000 0x1000; 0x1080 := Pgfree 0 0 0x12000 0x13000 0x1000]}
    [] 0 0 0 0 0x1080 16 1 1 false (Options false false false false false false false) [].

Lemma two_runs_kept : kept two_runs [(0x1000, (0x10000, 0x12000)); (0x1040, (0x13000, 0x14000))] 0x1080 0x12000 0x1000.
Proof.
  split; [split| | | | | | |].
  - exists (Pgfree 0x1000 0 0 0 0). split; [reflexivity|]. cbn [seg]. split; [done|]. split; [done|]. exists 0x1040. split; [reflexivity|]. split; [done|]. split; [done|]. exists 0. by split.
  - refine (bool_decide_unpack _ _). vm_compute. exact I.
  - cbn. lia.
  - done.
  - done.
  - refine (bool_decide_unpack _ _). vm_compute. exact I.
  - eexists. split; [reflexivity|]. by split_and!.
  - lia.
  - lia.
  - intros x Hx (r & Hr & Hin). apply elem_of_cons in Hr as [->|Hr]; [cbn in Hin; lia|]. apply list_elem_of_singleton in Hr as ->. cbn in Hin. lia.
Qed.

(** The three runs become one, and the description of the last is handed back. *)
Lemma insert_run_correct_witness :
  wp (insert_run 2 0x12000 (0x12000 + 0x1000) 0x1000) (put_back two_runs [(0x1000, (0x10000, 0x12000)); (0x1040, (0x13000, 0x14000))] 0x1080 0x12000 (0x12000 + 0x1000)) two_runs /\
  match insert_run 2 0x12000 0x13000 0x1000 two_runs with Done r h => r = (0x1000, 0x1040) /\ frees h !! 0x1000 = Some (Pgfree 0 0x500 0x10000 0x14000 0x4000) | Failed _ => False end.
Proof. split; [exact (insert_run_correct 2 two_runs _ _ _ _ two_runs_kept ltac:(cbn; lia))|]. vm_compute. split; reflexivity. Defined.
