(* ===== verification/Printf.v ===== *)
(** Formatted output and input: [util/printf.c] of the kernel, the character
    classes of [include/ctype.h] it uses, and [vsnprintf] of the user library
    ([user/lib/libc/vsnprintf.c]), a copy of the kernel's that refuses
    floating-point conversions.

    Format and input strings are lists of bytes as in [CString].  The output
    buffer lies in the byte memory.  A [va_list] is the list of the arguments
    still to be taken: integers and pointers as 64-bit words, [char *]
    arguments of [%s] as the string they point to. *)

From S2P Require Import Prelude CString KMem.

(** ** [ctype.h] *)

Module Ctype.
Definition _U : Z := 0x01.
Definition _L : Z := 0x02.
Definition _D : Z := 0x04.
Definition _C : Z := 0x08.
Definition _P : Z := 0x10.
Definition _S : Z := 0x20.
Definition _X : Z := 0x40.
Definition _SP : Z := 0x80.

Definition _ctype : list Z :=
  replicate 9 _C ++ replicate 5 (Z.lor _C _S) ++ replicate 18 _C        (* 0-31 *)
  ++ [Z.lor _S _SP] ++ replicate 15 _P ++ replicate 10 _D ++ replicate 7 _P   (* 32-64 *)
  ++ replicate 6 (Z.lor _U _X) ++ replicate 20 _U ++ replicate 6 _P     (* 65-96 *)
  ++ replicate 6 (Z.lor _L _X) ++ replicate 20 _L ++ replicate 4 _P ++ [_C]   (* 97-127 *)
  ++ replicate 32 0 ++ [Z.lor _S _SP] ++ replicate 31 _P                 (* 128-191 *)
  ++ replicate 23 _U ++ [_P] ++ replicate 7 _U                          (* 192-222 *)
  ++ replicate 24 _L ++ [_P] ++ replicate 8 _L.                         (* 223-255 *)

Definition __ismask (c : Z) : Z := nth (Z.to_nat (c mod 256)) _ctype 0.
Definition isdigit (c : Z) : bool := negb (Z.land (__ismask c) _D =? 0).
Definition islower (c : Z) : bool := negb (Z.land (__ismask c) _L =? 0).
Definition isspace (c : Z) : bool := negb (Z.land (__ismask c) _S =? 0).
Definition isxdigit (c : Z) : bool := negb (Z.land (__ismask c) (Z.lor _D _X) =? 0).
Definition __toupper (c : Z) : Z := if islower c then c - 32 else c.
End Ctype.
Export Ctype.

(** ** Numbers out of strings *)

(** The byte a character constant stands for. *)
Definition ch (s : string) : Z :=
  match s with String a _ => Z.of_nat (Ascii.nat_of_ascii a) | EmptyString => 0 end.

Definition digit_value (c : Z) : Z := if isdigit c then c - ch "0" else __toupper c - ch "A" + 10.

Fixpoint strtoul_loop (cp : list Z) (base result : Z) : Z * list Z :=
  match cp with
  | [] => (result, cp)
  | c :: cp' =>
      if isxdigit c && (digit_value c <? base) then strtoul_loop cp' base (u64 (result * base + digit_value c))
      else (result, cp)
  end.

(** The result and [*endp]. *)
Definition simple_strtoul (cp : list Z) (base : Z) : Z * list Z :=
  let '(base, cp) :=
    if base =? 0 then
      if chr cp =? ch "0" then
        let cp := adv cp in
        if (chr cp =? ch "x") && isxdigit (chr (adv cp)) then (16, adv cp) else (8, cp)
      else (10, cp)
    else (base, cp) in
  strtoul_loop cp base 0.

Definition simple_strtol (cp : list Z) (base : Z) : Z * list Z :=
  if chr cp =? ch "-" then
    let '(v, next) := simple_strtoul (adv cp) base in (s64 (- v), next)
  else
    let '(v, next) := simple_strtoul cp base in (s64 v, next).

(** [unsigned long long] has the width of [unsigned long]; the digits are
    valued in the same way. *)
Definition simple_strtoull (cp : list Z) (base : Z) : Z * list Z := simple_strtoul cp base.
Definition simple_strtoll (cp : list Z) (base : Z) : Z * list Z := simple_strtol cp base.

Fixpoint skip_atoi_loop (s : list Z) (i : Z) : Z * list Z :=
  match s with
  | [] => (i, s)
  | c :: s' => if isdigit c then skip_atoi_loop s' (s32 (i * 10 + c - ch "0")) else (i, s)
  end.

Definition skip_atoi (s : list Z) : Z * list Z := skip_atoi_loop s 0.

(** ** Output *)

Inductive varg : Type :=
| va_word (w : Z)
| va_string (s : option (list Z)).

Record out : Type := Out {
  o_str : Z;                        (* the local variable [str] *)
  o_mem : memory;
  o_args : list varg;
}.

Definition next_word : M out Z :=
  let! o := get in
  match o_args o with
  | va_word w :: args => do! put (Out (o_str o) (o_mem o) args); ret w
  | _ => fail Fault
  end.

Definition next_string : M out (option (list Z)) :=
  let! o := get in
  match o_args o with
  | va_string s :: args => do! put (Out (o_str o) (o_mem o) args); ret s
  | _ => fail Fault
  end.

(** [va_arg(args, int)] *)
Definition next_int : M out Z := let! w := next_word in ret (s32 w).

(** [if (str <= end) *str = c; ++str;] *)
Definition putch (end_ c : Z) : M out unit :=
  modify (fun o => Out (o_str o + 1) (if o_str o <=? end_ then store8 (o_mem o) (o_str o) c else o_mem o) (o_args o)).

Fixpoint put_n (n : nat) (end_ c : Z) : M out unit :=
  match n with
  | O => ret tt
  | S n => do! putch end_ c; put_n n end_ c
  end.

(** [while (size-- > 0)], with the value of [size] behind the loop. *)
Definition pad_loop (size end_ c : Z) : M out Z :=
  do! put_n (Z.to_nat size) end_ c;
  ret (if 0 <? size then -1 else size - 1).

Definition ZEROPAD : Z := 1.
Definition SIGN : Z := 2.
Definition PLUS : Z := 4.
Definition SPACE : Z := 8.
Definition LEFT : Z := 16.
Definition SPECIAL : Z := 32.
Definition LARGE : Z := 64.

Definition flag (type f : Z) : bool := negb (Z.land type f =? 0).

Definition small_digits : string := "0123456789abcdefghijklmnopqrstuvwxyz".
Definition large_digits : string := "0123456789ABCDEFGHIJKLMNOPQRSTUVWXYZ".

Definition digit_char (digits : string) (d : Z) : Z :=
  match String.get (Z.to_nat d) digits with Some a => Z.of_nat (Ascii.nat_of_ascii a) | None => 0 end.

(** The digits in [tmp], the least significant one first; 64 divisions reach 0. *)
Fixpoint digits_loop (fuel : nat) (digits : string) (num2 base2 : Z) : list Z :=
  if num2 =? 0 then []
  else match fuel with
       | O => []
       | S fuel => digit_char digits (num2 mod base2) :: digits_loop fuel digits (num2 / base2) base2
       end.

Definition number (end_ num base size precision type : Z) : M out unit :=
  let digits := if flag type LARGE then large_digits else small_digits in
  let type := if flag type LEFT then Z.ldiff type ZEROPAD else type in
  if (base <? 2) || (36 <? base) then ret tt
  else
    let c := if flag type ZEROPAD then ch "0" else ch " " in
    let '(sign, num, size) :=
      if flag type SIGN then
        if num <? 0 then (ch "-", s64 (- num), size - 1)
        else if flag type PLUS then (ch "+", num, size - 1)
        else if flag type SPACE then (ch " ", num, size - 1)
        else (0, num, size)
      else (0, num, size) in
    let size :=
      if flag type SPECIAL then
        if base =? 16 then size - 2 else if base =? 8 then size - 1 else size
      else size in
    let tmp := if num =? 0 then [ch "0"] else digits_loop 64 digits (u64 num) base in
    let i := Z.of_nat (length tmp) in
    let precision := if precision <? i then i else precision in
    let size := size - precision in
    let! size := (if flag type (ZEROPAD + LEFT) then ret size else pad_loop size end_ (ch " ")) in
    do! (if sign =? 0 then ret tt else putch end_ sign);
    do! (if flag type SPECIAL then
           if base =? 8 then putch end_ (ch "0")
           else if base =? 16 then do! putch end_ (ch "0"); putch end_ (digit_char digits 33)
           else ret tt
         else ret tt);
    let! size := (if flag type LEFT then ret size else pad_loop size end_ c) in
    do! put_n (Z.to_nat (precision - i)) end_ (ch "0");
    do! for_each (rev tmp) (putch end_);
    let! _ := pad_loop size end_ (ch " ") in
    ret tt.

(** ** [vsnprintf] *)

(** The flags, from the character after [%]. *)
Fixpoint scan_flags (fmt : list Z) (flags : Z) : Z * list Z :=
  match fmt with
  | [] => (flags, fmt)
  | c :: fmt' =>
      if c =? ch "-" then scan_flags fmt' (Z.lor flags LEFT)
      else if c =? ch "+" then scan_flags fmt' (Z.lor flags PLUS)
      else if c =? ch " " then scan_flags fmt' (Z.lor flags SPACE)
      else if c =? ch "#" then scan_flags fmt' (Z.lor flags SPECIAL)
      else if c =? ch "0" then scan_flags fmt' (Z.lor flags ZEROPAD)
      else (flags, fmt)
  end.

Definition scan_width (fmt : list Z) (flags : Z) : M out (Z * Z * list Z) :=
  if isdigit (chr fmt) then
    let '(w, fmt) := skip_atoi fmt in ret (flags, w, fmt)
  else if chr fmt =? ch "*" then
    let! w := next_int in
    if w <? 0 then ret (Z.lor flags LEFT, s32 (- w), adv fmt) else ret (flags, w, adv fmt)
  else ret (flags, -1, fmt).

Definition scan_precision (fmt : list Z) : M out (Z * list Z) :=
  if chr fmt =? ch "." then
    let fmt := adv fmt in
    let! r :=
      (if isdigit (chr fmt) then ret (skip_atoi fmt)
       else if chr fmt =? ch "*" then let! p := next_int in ret (p, adv fmt)
       else ret (-1, fmt)) in
    ret (if r.1 <? 0 then 0 else r.1, r.2)
  else ret (-1, fmt).

(** The qualifier, or -1. *)
Definition scan_qualifier (fmt : list Z) : Z * list Z :=
  let c := chr fmt in
  let '(q, fmt) :=
    if (c =? ch "h") || (c =? ch "l") || (c =? ch "L") || (c =? ch "Z") then
      let fmt := adv fmt in
      if (c =? ch "l") && (chr fmt =? ch "l") then (ch "L", adv fmt) else (c, fmt)
    else (-1, fmt) in
  if chr fmt =? ch "q" then (ch "L", adv fmt) else (q, fmt).

(** The argument of an integer conversion, as the [unsigned long long] [num]. *)
Definition get_num (qualifier flags : Z) : M out Z :=
  let! w := next_word in
  if qualifier =? ch "L" then ret (u64 w)
  else if qualifier =? ch "l" then ret (u64 (if flag flags SIGN then s64 w else w))
  else if qualifier =? ch "Z" then ret (u64 w)
  else if qualifier =? ch "h" then
    let num := w mod 2 ^ 16 in ret (u64 (if flag flags SIGN then s16 num else num))
  else
    let num := u32 w in ret (u64 (if flag flags SIGN then s32 num else num)).

(** A conversion, from the character after [%] on: what is left of the format,
    or [None] for a conversion that makes the function return -1. *)
Section vsnprintf.
Context (refused : Z -> bool) (buf end_ : Z).

Definition convert (fmt : list Z) : M out (option (list Z)) :=
  let '(flags, fmt) := scan_flags fmt 0 in
  let! r := scan_width fmt flags in
  let '(flags, field_width, fmt) := r in
  let! r := scan_precision fmt in
  let '(precision, fmt) := r in
  let '(qualifier, fmt) := scan_qualifier fmt in
  let c := chr fmt in
  let integer (base flags : Z) : M out (option (list Z)) :=
    let! num := get_num qualifier flags in
    do! number end_ (s64 num) base field_width precision flags;
    ret (Some (adv fmt)) in
  if c =? ch "c" then
    do! (if flag flags LEFT then ret tt else put_n (Z.to_nat (field_width - 1)) end_ (ch " "));
    let! x := next_int in
    do! putch end_ (x mod 256);
    do! (if flag flags LEFT then put_n (Z.to_nat (field_width - 1)) end_ (ch " ") else ret tt);
    ret (Some (adv fmt))
  else if c =? ch "s" then
    let! s := next_string in
    let s := default (str "<NULL>") s in
    let len := strnlen s (if precision =? -1 then length s else Z.to_nat precision) in
    do! (if flag flags LEFT then ret tt else put_n (Z.to_nat (field_width - len)) end_ (ch " "));
    do! for_each (take (Z.to_nat len) s) (putch end_);
    do! (if flag flags LEFT then put_n (Z.to_nat (field_width - len)) end_ (ch " ") else ret tt);
    ret (Some (adv fmt))
  else if c =? ch "p" then
    let! w := next_word in
    do! (if field_width =? -1 then number end_ (s64 w) 16 16 precision (Z.lor flags ZEROPAD)
         else number end_ (s64 w) 16 field_width precision flags);
    ret (Some (adv fmt))
  else if c =? ch "n" then
    let! ip := next_word in
    do! modify (fun o =>
      let n := o_str o - buf in
      let w := if (qualifier =? ch "l") || (qualifier =? ch "Z") then 8%nat else 4%nat in
      Out (o_str o) (store_bytes (o_mem o) ip (le_of_Z w n)) (o_args o));
    ret (Some (adv fmt))
  else if c =? ch "%" then do! putch end_ (ch "%"); ret (Some (adv fmt))
  else if c =? ch "o" then integer 8 flags
  else if c =? ch "X" then integer 16 (Z.lor flags LARGE)
  else if c =? ch "x" then integer 16 flags
  else if (c =? ch "d") || (c =? ch "i") then integer 10 (Z.lor flags SIGN)
  else if c =? ch "u" then integer 10 flags
  else if refused c then ret None
  else
    do! putch end_ (ch "%");
    if c =? 0 then ret (Some fmt)
    else do! putch end_ c; ret (Some (adv fmt)).

(** The loop over the format; every turn takes at least one character.  False
    when a conversion was refused. *)
Fixpoint format_loop (fuel : nat) (fmt : list Z) : M out bool :=
  if chr fmt =? 0 then ret true
  else match fuel with
       | O => fail Stuck
       | S fuel =>
           if chr fmt =? ch "%" then
             let! r := convert (adv fmt) in
             match r with Some fmt => format_loop fuel fmt | None => ret false end
           else do! putch end_ (chr fmt); format_loop fuel (adv fmt)
       end.
End vsnprintf.

(** The end of the buffer and the size, made to fit the address space. *)
Definition buffer_end (buf size : Z) : Z * Z :=
  let end_ := u64 (buf + size - 1) in
  if end_ <? u64 (buf - 1) then (2 ^ 64 - 1, u64 (2 ^ 64 - buf)) else (end_, size).

Definition vsnprintf_with (refused : Z -> bool) (buf size : Z) (fmt : list Z) (args : list varg) (m : memory) :
    outcome memory Z :=
  let '(end_, size) := buffer_end buf size in
  match format_loop refused buf end_ (length fmt) fmt (Out buf m args) with
  | Done true o =>
      let m := if o_str o <=? end_ then store8 (o_mem o) (o_str o) 0
               else if 0 <? size then store8 (o_mem o) end_ 0 else o_mem o in
      Done (s32 (o_str o - buf)) m
  | Done false o => Done (-1) (o_mem o)
  | Failed f => Failed f
  end.

Definition vsnprintf (buf size : Z) (fmt : list Z) (args : list varg) : M memory Z :=
  vsnprintf_with (fun _ => false) buf size fmt args.

Definition snprintf := vsnprintf.

(** [iprintf]: what [*str] and [*size] become, and the result. *)
Definition iprintf (s size : Z) (fmt : list Z) (args : list varg) : M memory (Z * Z * Z) :=
  let! len := vsnprintf s size fmt args in
  do! kassert (0 <=? len);
  let len := Z.min len (s32 (size - 1)) in
  ret (s + len, u64 (size - len), u64 (size - len - 1)).

(** The user library refuses floating-point conversions. *)
Definition user_vsnprintf (buf size : Z) (fmt : list Z) (args : list varg) : M memory Z :=
  vsnprintf_with (fun c => (c =? ch "f") || (c =? ch "F") || (c =? ch "g") || (c =? ch "G")) buf size fmt args.
