(* ===== verification/Scanf.v ===== *)
(** Formatted input, [vsscanf] of [util/printf.c].

    The results are stored through the pointers of the argument list into the
    byte memory. *)

From S2P Require Import Prelude CString KMem Printf.

Record scan : Type := Scan {
  sc_mem : memory;
  sc_args : list Z;                 (* the pointers still to be taken *)
}.

Definition next_pointer : M scan Z :=
  let! s := get in
  match sc_args s with
  | p :: args => do! put (Scan (sc_mem s) args); ret p
  | [] => fail Fault
  end.

Definition put_bytes (p : Z) (bs : list Z) : M scan unit :=
  modify (fun s => Scan (store_bytes (sc_mem s) p bs) (sc_args s)).

Fixpoint skip_space (s : list Z) : list Z :=
  match s with
  | c :: s' => if isspace c then skip_space s' else s
  | [] => []
  end.

Fixpoint skip_word (s : list Z) : list Z :=
  match s with
  | c :: s' => if negb (isspace c) && negb (c =? 0) then skip_word s' else s
  | [] => []
  end.

(** The copying loops of [%c] and [%s], for at most [n] characters. *)
Fixpoint copy_chars (n : nat) (s : list Z) : list Z * list Z :=
  match n, s with
  | S n, c :: s' => if c =? 0 then ([], s) else let '(w, rest) := copy_chars n s' in (c :: w, rest)
  | _, _ => ([], s)
  end.

Fixpoint copy_word (n : nat) (s : list Z) : list Z * list Z :=
  match n, s with
  | S n, c :: s' =>
      if (c =? 0) || isspace c then ([], s) else let '(w, rest) := copy_word n s' in (c :: w, rest)
  | _, _ => ([], s)
  end.

Definition scan_size (fmt : list Z) : Z * list Z :=
  let c := chr fmt in
  if (c =? ch "h") || (c =? ch "l") || (c =? ch "L") || (c =? ch "Z") || (c =? ch "z") then
    let fmt := adv fmt in
    if c =? chr fmt then
      if c =? ch "h" then (ch "H", adv fmt)
      else if c =? ch "l" then (ch "L", adv fmt)
      else (c, fmt)
    else (c, fmt)
  else (-1, fmt).

(** The bytes of the variable the conversion fills. *)
Definition int_width (qualifier : Z) : nat :=
  if qualifier =? ch "H" then 1
  else if qualifier =? ch "h" then 2
  else if (qualifier =? ch "l") || (qualifier =? ch "L") || (qualifier =? ch "Z") || (qualifier =? ch "z") then 8
  else 4.

Definition base_accepts (base digit : Z) : bool :=
  negb ((digit =? 0)
        || (base =? 16) && negb (isxdigit digit)
        || (base =? 10) && negb (isdigit digit)
        || (base =? 8) && (negb (isdigit digit) || (ch "7" <? digit))
        || (base =? 0) && negb (isdigit digit)).

(** An integer conversion: what is left of the input, or [None] when it holds
    no digit. *)
Definition scan_integer (s : list Z) (qualifier base : Z) (is_sign : bool) : M scan (option (list Z)) :=
  let s := skip_space s in
  let digit := if is_sign && (chr s =? ch "-") then chr (adv s) else chr s in
  if negb (base_accepts base digit) then ret None
  else
    let! p := next_pointer in
    let '(v, next) := if is_sign && negb ((qualifier =? ch "Z") || (qualifier =? ch "z"))
                      then simple_strtol s base else simple_strtoul s base in
    do! put_bytes p (le_of_Z (int_width qualifier) v);
    ret (Some next).

(** What a turn of the loop says: go on with the input and the format that are
    left and one more or no more result, or stop. *)
Inductive turn : Type :=
| Go (s fmt : list Z) (more : bool)
| Stop.

(** A conversion, from the character after [%] on. *)
Definition scan_convert (all s fmt : list Z) : M scan turn :=
  if chr fmt =? ch "*" then ret (Go (skip_word s) (skip_word fmt) false)
  else
    let '(field_width, fmt) := if isdigit (chr fmt) then skip_atoi fmt else (-1, fmt) in
    let '(qualifier, fmt) := scan_size fmt in
    if (chr fmt =? 0) || (chr s =? 0) then ret Stop
    else
      let c := chr fmt in
      let fmt := adv fmt in
      let integer (base : Z) (is_sign : bool) : M scan turn :=
        let! r := scan_integer s qualifier base is_sign in
        ret (match r with Some s => Go s fmt true | None => Stop end) in
      if c =? ch "c" then
        let! p := next_pointer in
        let '(w, rest) := copy_chars (Z.to_nat (if field_width =? -1 then 1 else Z.max 1 field_width)) s in
        do! put_bytes p w;
        ret (Go rest fmt true)
      else if c =? ch "s" then
        let! p := next_pointer in
        let '(w, rest) := copy_word (if field_width =? -1 then length s else Z.to_nat field_width) (skip_space s) in
        do! put_bytes p (w ++ [0]);
        ret (Go rest fmt true)
      else if c =? ch "n" then
        let! p := next_pointer in
        do! put_bytes p (le_of_Z 4 (Z.of_nat (length all) - Z.of_nat (length s)));
        ret (Go s fmt false)
      else if c =? ch "o" then integer 8 false
      else if (c =? ch "x") || (c =? ch "X") then integer 16 false
      else if c =? ch "i" then integer 0 true
      else if c =? ch "d" then integer 10 true
      else if c =? ch "u" then integer 10 false
      else if c =? ch "%" then
        ret (if chr s =? ch "%" then Go (adv s) fmt false else Stop)
      else ret Stop.

Fixpoint scan_loop (fuel : nat) (all s fmt : list Z) (num : Z) : M scan Z :=
  if (chr fmt =? 0) || (chr s =? 0) then ret num
  else match fuel with
       | O => fail Stuck
       | S fuel =>
           let '(s, fmt) := if isspace (chr fmt) then (skip_space s, skip_space fmt) else (s, fmt) in
           if chr fmt =? 0 then ret num
           else if chr fmt =? ch "%" then
             let! t := scan_convert all s (adv fmt) in
             match t with
             | Go s fmt more => scan_loop fuel all s fmt (if more then num + 1 else num)
             | Stop => ret num
             end
           else if chr fmt =? chr s then scan_loop fuel all (adv s) (adv fmt) num
           else ret num
       end.

Definition vsscanf (buf fmt : list Z) (args : list Z) (m : memory) : outcome memory Z :=
  match scan_loop (length fmt) buf buf fmt 0 (Scan m args) with
  | Done num s => Done num (sc_mem s)
  | Failed f => Failed f
  end.

Definition sscanf := vsscanf.
