(* ===== verification/Strtol.v ===== *)
(** [strtol] of the user library ([user/lib/libc/strtol.c]): the number at the
    start of a string, kept in the range of [long]. *)

From S2P Require Import Prelude CString Printf.

Definition LONG_MAX : Z := 2 ^ 63 - 1.
Definition LONG_MIN : Z := - 2 ^ 63.
Definition ERANGE : Z := 34.

(** [do c = *s++; while (isspace(c))]: the character and the string after it *)
Fixpoint skip_space (s : list Z) : Z * list Z :=
  match s with
  | [] => (0, [])
  | c :: s => if isspace c then skip_space s else (c, s)
  end.

Definition is_hex (c : Z) : bool :=
  ((48 <=? c) && (c <=? 57)) || ((65 <=? c) && (c <=? 70)) || ((97 <=? c) && (c <=? 102)).

(** The digit that a character stands for. *)
Definition digit (c : Z) : option Z :=
  let c := s8 c in
  if (48 <=? c) && (c <=? 57) then Some (c - 48)
  else if (65 <=? c) && (c <=? 90) then Some (c - 55)
  else if (97 <=? c) && (c <=? 122) then Some (c - 87)
  else None.

(** [s - 1] after [c = *s++] *)
Definition before (c : Z) (s : list Z) : list Z := if c =? 0 then [] else c :: s.

(** The loop over the digits, from the character [c] on; [any] is -1 after an
    overflow.  Returns [acc], [any] and [s - 1]. *)
Fixpoint digits_loop (base cutoff cutlim : Z) (c : Z) (s : list Z) (acc any : Z) : Z * Z * list Z :=
  match digit c with
  | None => (acc, any, before c s)
  | Some d =>
      if base <=? d then (acc, any, before c s)
      else
        let over := (any <? 0) || (cutoff <? acc) || ((acc =? cutoff) && (cutlim <? d)) in
        let acc := if over then acc else u64 (acc * base + d) in
        let any := if over then -1 else 1 in
        match s with
        | [] => (acc, any, [])
        | c :: s => digits_loop base cutoff cutlim c s acc any
        end
  end.

Record strtol_result : Type := StrtolResult { value : Z; rest : option (list Z); error : option Z }.

(** The part after the sign, from the character [c] on: the value, [*endptr]
    ([None] for [nptr]) and what is stored in [errno]. *)
Definition convert (neg : bool) (c : Z) (s : list Z) (base : Z) : strtol_result :=
  let hex := ((base =? 0) || (base =? 16)) && (c =? 48) && ((chr s =? 120) || (chr s =? 88)) && is_hex (chr (adv s)) in
  let '(c, s, base) := if hex then (chr (adv s), adv (adv s), 16) else (c, s, base) in
  let base := if base =? 0 then (if c =? 48 then 8 else 10) else base in
  if (base <? 2) || (36 <? base) then StrtolResult 0 None (Some EINVAL)
  else
    let limit := if neg then 2 ^ 63 else LONG_MAX in
    let '(acc, any, s) := digits_loop base (limit / base) (limit mod base) c s 0 0 in
    if any <? 0 then StrtolResult (if neg then LONG_MIN else LONG_MAX) (Some s) (Some ERANGE)
    else if any =? 0 then StrtolResult 0 None (Some EINVAL)
    else StrtolResult (s64 (if neg then - acc else acc)) (Some s) None.

Definition strtol (nptr : list Z) (base : Z) : strtol_result :=
  let '(c, s) := skip_space nptr in
  if c =? 45 then convert true (chr s) (adv s) base
  else if c =? 43 then convert false (chr s) (adv s) base
  else convert false c s base.

(** * The number that a string denotes *)

(** The number that digits denote, after [acc]. *)
Fixpoint number (base : Z) (ds : list Z) (acc : Z) : Z :=
  match ds with
  | [] => acc
  | d :: ds => number base ds (acc * base + d)
  end.

Definition clamp (z : Z) : Z := Z.max LONG_MIN (Z.min LONG_MAX z).

(** A character that stands for the digit [d]. *)
Definition digit_char (c d : Z) : Prop := digit c = Some d.

Lemma number_ge base ds acc : 1 <= base -> 0 <= acc -> Forall (fun d => 0 <= d) ds -> acc <= number base ds acc.
Proof.
  intros Hb. revert acc. induction ds as [|d ds IH]; intros acc Ha Hd; cbn [number]; [lia|]. apply Forall_cons in Hd as [H1 H2].
  etransitivity; [|apply IH; [nia|done]]. nia.
Qed.

(** The test before a digit is added is exact. *)
Lemma cutoff_exact limit base acc d : 0 < base -> 0 <= d < base -> limit / base < acc \/ acc = limit / base /\ limit mod base < d <-> limit < acc * base + d.
Proof.
  intros Hb Hd. pose proof (Z.div_mod limit base ltac:(lia)) as E. pose proof (Z.mod_pos_bound limit base Hb). split.
  - intros [H1|[-> H1]]; nia.
  - intros H1. destruct (Z.lt_trichotomy acc (limit / base)) as [H2|[H2|H2]]; [|right; nia|by left]. nia.
Qed.

(** A string that does not go on with a digit. *)
Definition stops (base : Z) (r : list Z) : Prop :=
  match r with
  | [] => True
  | c :: _ => c <> 0 /\ match digit c with Some d => base <= d | None => True end
  end.

Lemma digit_range c d : digit c = Some d -> 0 <= d < 36 /\ c <> 0.
Proof.
  unfold digit. destruct (decide (c = 0)) as [->|]; [done|].
  destruct ((48 <=? s8 c) && (s8 c <=? 57)) eqn:E1; [intros [= <-]; lia|]. destruct ((65 <=? s8 c) && (s8 c <=? 90)) eqn:E2; [intros [= <-]; lia|].
  destruct ((97 <=? s8 c) && (s8 c <=? 122)) eqn:E3; [intros [= <-]; lia|done].
Qed.

Lemma digits_loop_stops base limit c r acc any :
  stops base (c :: r) -> digits_loop base (limit / base) (limit mod base) c r acc any = (acc, any, c :: r).
Proof.
  intros [Hc H]. assert (Hb : before c r = c :: r) by (unfold before; by destruct (Z.eqb_spec c 0)).
  destruct r; cbn [digits_loop]; (destruct (digit c) as [d|]; [destruct (Z.leb_spec base d); [by rewrite Hb|lia]|by rewrite Hb]).
Qed.

(** The state of the loop after the digits so far, which denote [n]. *)
Definition summed (limit n acc any : Z) : Prop := (n <= limit /\ acc = n /\ any = 1) \/ (limit < n /\ any = -1).

Definition over (limit base acc any d : Z) : bool := (any <? 0) || (limit / base <? acc) || ((acc =? limit / base) && (limit mod base <? d)).

Lemma summed_step limit base n acc any d :
  2 <= base -> 0 <= limit < 2 ^ 64 -> 0 <= d < base -> 0 <= n -> summed limit n acc any \/ (n = 0 /\ acc = 0 /\ any = 0) ->
  summed limit (n * base + d) (if over limit base acc any d then acc else u64 (acc * base + d)) (if over limit base acc any d then -1 else 1).
Proof.
  intros Hb Hl Hd Hn Hs. pose proof (cutoff_exact limit base acc d ltac:(lia) ltac:(lia)) as Hcut. unfold summed, over in *.
  assert (Hs' : (n <= limit /\ acc = n /\ 0 <= any) \/ (limit < n /\ any = -1)) by lia. clear Hs. destruct (_ || _) eqn:E; [right|left].
  - split; [|done]. rewrite !orb_true_iff, andb_true_iff, !Z.ltb_lt, Z.eqb_eq in E. destruct Hs' as [(H1 & <- & H3)|(H1 & H3)]; [apply Hcut; lia|nia].
  - rewrite !orb_false_iff, andb_false_iff, !Z.ltb_ge, Z.eqb_neq in E. destruct Hs' as [(H1 & <- & H3)|(H1 & H3)]; [|lia].
    assert (acc * base + d <= limit) by lia. split_and!; [lia| |done]. unfold u64. rewrite Z.mod_small; nia.
Qed.

Lemma digits_loop_number base limit c cs d ds r n acc any :
  2 <= base -> 0 <= limit < 2 ^ 64 -> Forall2 digit_char (c :: cs) (d :: ds) -> Forall (fun d => d < base) (d :: ds) -> stops base r ->
  0 <= n -> summed limit n acc any \/ (n = 0 /\ acc = 0 /\ any = 0) ->
  exists acc' any', digits_loop base (limit / base) (limit mod base) c (cs ++ r) acc any = (acc', any', r) /\ summed limit (number base (d :: ds) n) acc' any'.
Proof.
  intros Hb Hl. revert c d ds n acc any. induction cs as [|c' cs IH]; intros c d ds n acc any Hcs Hlt Hr Hn Hs.
  all: apply Forall2_cons in Hcs as [Hc Hcs]; apply Forall_cons in Hlt as [Hd Hlt]; pose proof (digit_range _ _ Hc) as [Hd0 _].
  all: pose proof (summed_step limit base n acc any d Hb Hl ltac:(lia) Hn Hs) as Hsum.
  - apply Forall2_nil_inv_l in Hcs as ->. cbn [app number]. unfold digit_char in Hc. destruct r as [|x r]; cbn [digits_loop]; rewrite Hc; (destruct (Z.leb_spec base d); [lia|]).
    + eexists _, _. split; [done|]. exact Hsum.
    + eexists _, _. split; [|exact Hsum]. rewrite digits_loop_stops by done. done.
  - destruct ds as [|d' ds]; [by apply Forall2_cons_nil_inv in Hcs|]. unfold digit_char in Hc. cbn [app digits_loop]. rewrite Hc. destruct (Z.leb_spec base d); [lia|]. cbn [number].
    apply (IH c' d' ds (n * base + d)); try done; [nia|by left].
Qed.

Definition sign_text (sign : option bool) : list Z := match sign with Some true => [45] | Some false => [43] | None => [] end.

Definition signed (sign : option bool) (n : Z) : Z := match sign with Some true => - n | _ => n end.

Lemma skip_spaces_text sp c s : Forall (fun c => isspace c = true) sp -> isspace c = false -> skip_space (sp ++ c :: s) = (c, s).
Proof. intros Hs Hc. induction Hs as [|x sp Hx Hsp IH]; cbn; [by rewrite Hc|]. by rewrite Hx. Qed.

Lemma digit_not_space c d : digit c = Some d -> isspace c = false.
Proof.
  intros Hc. assert (Hz : 48 <= c mod 256 <= 122).
  { assert (E : c mod 256 = s8 c mod 256) by (unfold s8; rewrite Zminus_mod_idemp_l; f_equal; lia).
    assert (48 <= s8 c <= 122) by (unfold digit in Hc; repeat case_match; try done; lia). rewrite E, Z.mod_small; lia. }
  assert (Hall : Forall (fun z => negb (Z.land (nth (Z.to_nat z) _ctype 0) _S =? 0) = false) (seqZ 48 75)) by (by vm_compute; repeat constructor).
  apply (proj1 (Forall_forall _ _) Hall). apply elem_of_seqZ. lia.
Qed.

(** The digits are converted and kept in range. *)
Lemma convert_number (neg : bool) c cs d ds r base :
  Forall2 digit_char (c :: cs) (d :: ds) -> Forall (fun d => d < base) (d :: ds) -> stops base r -> 2 <= base <= 36 -> base <> 16 ->
  let n := if neg then - number base (d :: ds) 0 else number base (d :: ds) 0 in
  convert neg c (cs ++ r) base = StrtolResult (clamp n) (Some r) (if bool_decide (LONG_MIN <= n <= LONG_MAX) then None else Some ERANGE).
Proof.
  intros Hcs Hlt Hr Hb H16 n. set (limit := if neg then 2 ^ 63 else LONG_MAX).
  destruct (digits_loop_number base limit c cs d ds r 0 0 0) as (acc & any & E & Hs); try done; [lia|subst limit; unfold LONG_MAX; destruct neg; lia|by right|].
  assert (Hn : 0 <= number base (d :: ds) 0).
  { apply number_ge; [lia|lia|]. clear -Hcs. remember (c :: cs) as l eqn:El. clear El. induction Hcs as [|x y l k Hx _ IH]; constructor; [|done]. apply digit_range in Hx. lia. }
  unfold convert. destruct (Z.eqb_spec base 0), (Z.eqb_spec base 16); try lia. cbn beta iota zeta delta [orb andb].
  destruct (Z.eqb_spec base 0), (Z.ltb_spec base 2), (Z.ltb_spec 36 base); try lia. cbn beta iota zeta delta [orb]. fold limit. rewrite E.
  unfold summed, clamp, LONG_MIN, LONG_MAX in *. destruct Hs as [(H1 & -> & ->)|(H1 & ->)]; cbn [Z.ltb Z.eqb Z.compare]; subst limit n.
  - rewrite bool_decide_eq_true_2 by (destruct neg; lia). f_equal. unfold s64. destruct neg; rewrite Z.mod_small; lia.
  - rewrite bool_decide_eq_false_2 by (destruct neg; lia). f_equal. destruct neg; lia.
Qed.

(** [strtol] skips white space, takes a sign and the digits of the base and
    returns the number they denote; a number outside the range of [long] gives
    the nearest end of the range and [ERANGE].  The end pointer is after the
    last digit. *)
Theorem strtol_correct sp sign c cs d ds r base :
  Forall (fun c => isspace c = true) sp -> Forall2 digit_char (c :: cs) (d :: ds) -> Forall (fun d => d < base) (d :: ds) -> stops base r ->
  2 <= base <= 36 -> base <> 16 ->
  let n := signed sign (number base (d :: ds) 0) in
  strtol (sp ++ sign_text sign ++ c :: cs ++ r) base =
    StrtolResult (clamp n) (Some r) (if bool_decide (LONG_MIN <= n <= LONG_MAX) then None else Some ERANGE).
Proof.
  intros Hsp Hcs Hlt Hr Hb H16 n. assert (Hc : digit c = Some d) by (by apply Forall2_cons in Hcs as [? _]). unfold strtol.
  destruct sign as [[]|]; cbn [sign_text app]; rewrite (skip_spaces_text sp) by (done || by eapply digit_not_space).
  - by apply (convert_number true c cs d ds).
  - by apply (convert_number false c cs d ds).
  - destruct (Z.eqb_spec c 45) as [->|]; [done|]. destruct (Z.eqb_spec c 43) as [->|]; [done|]. by apply (convert_number false c cs d ds).
Qed.

(** The least number, and one below it. *)
Lemma strtol_limits :
  strtol (str " -9223372036854775808;") 10 = StrtolResult LONG_MIN (Some (str ";")) None /\
  strtol (str "-9223372036854775809") 10 = StrtolResult LONG_MIN (Some []) (Some ERANGE).
Proof.
  split.
  - apply (strtol_correct (str " ") (Some true) 57 (str "223372036854775808") 9 [2;2;3;3;7;2;0;3;6;8;5;4;7;7;5;8;0;8] (str ";") 10); try done.
    all: by repeat constructor.
  - apply (strtol_correct [] (Some true) 57 (str "223372036854775809") 9 [2;2;3;3;7;2;0;3;6;8;5;4;7;7;5;8;0;9] [] 10); try done.
    all: by repeat constructor.
Defined.
