(* ===== verification/Sh.v ===== *)
(** The shell of user/bin/sh.c: the parser of a command line with its
    redirections, the built-in commands and the checks of the operating system.

    The system calls, the stream library, the memory of the process and the
    processes it makes are the interface [Posix]; a system call returns what the
    library function returns and leaves the error number in [errno].  The line
    buffers are arrays of characters that the parser edits in place; a pointer
    into one is an index. *)

From S2P Require Import Prelude CString Printf Strtol.

Definition LINEBUF_SIZE : Z := 1024.
Definition ARGV_MAX : Z := 256.
Definition REDIR_MAX : Z := 10.

Definition U_RDONLY : Z := 0.
Definition U_WRONLY : Z := 1.
Definition U_RDWR : Z := 2.
Definition U_CREAT : Z := 0x100.
Definition U_TRUNC : Z := 0x200.
Definition U_APPEND : Z := 0x400.
Definition U_SEEK_SET : Z := 0.
Definition PROT_READ : Z := 1.
Definition PROT_WRITE : Z := 2.
Definition MAP_FAILED : Z := -1.
Definition MAP_SHARED : Z := 1.
Definition MAP_PRIVATE : Z := 2.
Definition EFAULT : Z := 14.

(** How a process that [fork] made ends: it runs another program, or exits. *)
Inductive ending : Type := Replaced | Exited (status : Z).

Class Posix (K : Type) : Type := {
  errno : K -> Z;
  strerror : Z -> list Z;
  sys_open : list Z -> Z -> M K Z;
  sys_close : Z -> M K Z;
  sys_read : Z -> Z -> M K (Z * list Z);             (* the number and the bytes *)
  sys_write : Z -> list Z -> M K Z;
  sys_lseek : Z -> Z -> Z -> M K Z;
  sys_dup : Z -> M K Z;
  sys_dup2 : Z -> Z -> M K Z;
  sys_link : list Z -> list Z -> M K Z;
  sys_rename : list Z -> list Z -> M K Z;
  sys_unlink : list Z -> M K Z;
  sys_mkdir : list Z -> M K Z;
  sys_rmdir : list Z -> M K Z;
  sys_chdir : list Z -> M K Z;
  sys_sync : M K unit;
  sys_time : M K Z;
  sys_mmap : Z -> Z -> Z -> Z -> M K Z;              (* length, protection, flags, descriptor *)
  sys_munmap : Z -> Z -> M K Z;
  sys_sbrk : Z -> M K Z;
  malloc : Z -> M K Z;
  free : Z -> M K unit;
  load : Z -> Z -> M K Z;                            (* size and address *)
  store : Z -> Z -> Z -> M K unit;
  fputs : Z -> list Z -> M K unit;                   (* [fprintf] to a stream *)
  sys_fork : M K ending -> M K Z;                    (* what the child runs *)
  sys_execve : list Z -> list (list Z) -> M K bool;  (* whether the program was replaced *)
  sys_wait : M K (Z * Z);                            (* the process and its status *)
  envp : K -> list (list Z);
}.

(** A command returns a status or ends the shell. *)
Inductive flow : Type := Status (n : Z) | Exit (n : Z).

Definition NL : list Z := [10].

Fixpoint dec_loop (fuel : nat) (n : Z) : list Z :=
  match fuel with
  | O => []
  | S fuel => (if n <? 10 then [] else dec_loop fuel (n / 10)) ++ [n mod 10 + 48]
  end.
(** [%d] *)
Definition dec (n : Z) : list Z := if n <? 0 then 45 :: dec_loop 20 (- n) else dec_loop 20 n.

(** [%20s] *)
Definition pad (width : nat) (s : list Z) : list Z := replicate (width - length s) 32 ++ s.

Record redirect : Type := Redirect { r_sfd : Z; r_dfd : Z }.

(** [rm_redir] up to [rm_nfds] *)
Abbreviation redirect_map := (list redirect).

Record ioenv : Type := Ioenv { io_map_fd : list Z }.

Section sh.
Context {K : Type} {posix : Posix K}.

Definition stdout : Z := 1.
Definition stderr : Z := 2.

(** [strerror(errno)] *)
Definition error_text : M K (list Z) := let! s := get in ret (strerror (errno s)).

Definition complain (l : list Z) : M K unit := fputs stderr l.

(** The text and the message of the error number. *)
Definition complain_errno (l : list Z) : M K unit :=
  let! e := error_text in
  complain (l ++ str ": " ++ e ++ NL).

Definition check_failed (test cmd : list Z) : M K Z :=
  do! complain_errno (test ++ str ": " ++ cmd ++ str " failed");
  ret 1.

Definition check_exists (file : list Z) : M K Z :=
  let! fd := sys_open file U_RDONLY in
  if 0 <=? fd then
    do! sys_close fd;
    ret 1
  else ret 0.

(** The end of a check: the descriptor is closed. *)
Definition out_close (test : list Z) (fd error : Z) : M K Z :=
  let! r := sys_close fd in
  if r <? 0 then check_failed test (str "close") else ret error.

Definition out_unmap (test : list Z) (addr len error : Z) : M K Z :=
  let! r := sys_munmap addr len in
  if r <? 0 then check_failed test (str "munmap") else ret error.

Definition out_unlink (test tmpfile : list Z) (error : Z) : M K Z :=
  let! r := sys_unlink tmpfile in
  if r <? 0 then check_failed test (str "unlink") else ret error.

(** The addresses [a], [a + step], ... and the values stored there: whether all
    have them. *)
Fixpoint verify (n : nat) (size a : Z) (v : Z -> Z) (i : Z) : M K (option Z) :=
  match n with
  | O => ret None
  | S n =>
      let! x := load size a in
      if x =? v i then verify n size (a + size) v (i + 1) else ret (Some a)
  end.

Fixpoint fill (n : nat) (size a : Z) (v : Z -> Z) (i : Z) : M K unit :=
  match n with
  | O => ret tt
  | S n =>
      do! store size a (v i);
      fill n size (a + size) v (i + 1)
  end.

Definition load_bytes (n : nat) (a : Z) : M K (list Z) :=
  foldr (fun i m => let! x := load 1 (a + Z.of_nat i) in let! l := m in ret (x :: l)) (ret []) (seq 0 n).

(** ** The checks *)

(** [%lx] *)
Fixpoint hex_loop (fuel : nat) (n : Z) : list Z :=
  match fuel with
  | O => []
  | S fuel => (if n <? 16 then [] else hex_loop fuel (n / 16)) ++ [let d := n mod 16 in if d <? 10 then d + 48 else d + 87]
  end.

Definition TMP : list Z := str "/tmp".

(** The part of [chk_priv] while the file is mapped. *)
Definition priv_mapped (test text : list Z) (fd addr : Z) : M K Z :=
  let len := Z.of_nat (length text) in
  let! got := load_bytes (length text) addr in
  if negb (strncmp got text (length text) =? 0) then
    do! complain (test ++ str ": file doesn't have string" ++ NL);
    ret 1
  else
    do! fill (length text) 1 addr (fun _ => 0) 0;
    let! bad := verify (length text) 1 addr (fun _ => 0) 0 in
    match bad with
    | Some _ =>
        do! complain (test ++ str ": didn't write to mapping" ++ NL);
        ret 1
    | None =>
        let! r := sys_lseek fd 0 U_SEEK_SET in
        if negb (r =? 0) then check_failed test (str "lseek")
        else
          let! r := sys_read fd 256 in
          if negb (u32 r.1 =? len) then
            do! complain (test ++ str ": read returned " ++ dec r.1 ++ str ", expecting " ++ dec len ++ str "." ++ NL);
            ret 1
          else if negb (strncmp r.2 text (length text) =? 0) then
            do! complain (test ++ str ": file was changed by MAP_PRIVATE?!" ++ NL);
            ret 1
          else ret 0
    end.

Definition cmd_chk_priv (test : list Z) : M K Z :=
  let tmpfile := TMP ++ str "/priv" in
  let text := str "Hello there." ++ NL in
  let len := Z.of_nat (length text) in
  let! e := check_exists tmpfile in
  if negb (e =? 0) then
    do! complain (test ++ str ": file exists: " ++ tmpfile ++ NL);
    ret 1
  else
    let! fd := sys_open tmpfile (Z.lor U_CREAT U_RDWR) in
    if fd <? 0 then check_failed test (str "open")
    else
      let! n := sys_write fd text in
      let! error :=
        (if negb (n =? len) then check_failed test (str "write")
         else
           let! addr := sys_mmap len (Z.lor PROT_READ PROT_WRITE) MAP_PRIVATE fd in
           if addr =? MAP_FAILED then check_failed test (str "mmap")
           else
             let! error := priv_mapped test text fd addr in
             out_unmap test addr len error) in
      let! error := out_close test fd error in
      out_unlink test tmpfile error.

Definition cmd_chk_null (test : list Z) : M K Z :=
  let! fd := sys_open (str "/dev/null") U_RDWR in
  if fd <? 0 then check_failed test (str "open")
  else
    let! n := sys_write fd (replicate 256 0xCC) in
    let! error :=
      (if negb (n =? 256) then check_failed test (str "write")
       else
         let! r := sys_read fd 256 in
         if negb (r.1 =? 0) then check_failed test (str "read") else ret 0) in
    out_close test fd error.

(** The part of [chk_zero] while the device is mapped. *)
Definition zero_mapped (test : list Z) (addr len : Z) : M K Z :=
  let! bad := verify (Z.to_nat len) 1 addr (fun _ => 0) 0 in
  match bad with
  | Some _ => check_failed test (str "verify mmap zeros")
  | None =>
      do! fill (Z.to_nat (len / 8)) 8 addr (fun i => i) 0;
      let! bad := verify (Z.to_nat (len / 8)) 8 addr (fun i => i) 0 in
      match bad with
      | Some _ => check_failed test (str "verify map write")
      | None => ret 0
      end
  end.

Definition cmd_chk_zero (test : list Z) : M K Z :=
  let len := 8192 * 5 in
  let! fd := sys_open (str "/dev/zero") U_RDWR in
  if fd <? 0 then check_failed test (str "open")
  else
    let! r := sys_read fd 256 in
    let! error :=
      (if negb (r.1 =? 256) then check_failed test (str "read")
       else if negb (forallb (fun c => c =? 0) (take 256 (r.2 ++ replicate 256 0xCC))) then check_failed test (str "verify read")
       else
         let! addr := sys_mmap len (Z.lor PROT_READ PROT_WRITE) MAP_PRIVATE fd in
         if addr =? MAP_FAILED then check_failed test (str "mmap")
         else
           let! error := zero_mapped test addr len in
           out_unmap test addr len error) in
    out_close test fd error.

(** The numbers 0, 1, ... are stored as [int]s and read back; the address after
    the first one that differs. *)
Definition ints_at (addr len : Z) : M K (option Z) :=
  do! fill (Z.to_nat (len / 4)) 4 addr (fun i => i) 0;
  let! bad := verify (Z.to_nat (len / 4)) 4 addr (fun i => i) 0 in
  ret (Z.add 4 <$> bad).

Definition verify_failed (test : list Z) (a : Z) : M K unit :=
  complain (test ++ str ": verify failed at 0x" ++ hex_loop 16 a ++ NL).

Definition cmd_chk_malloc (test : list Z) : M K Z :=
  let len := 8192 + 128 in
  let! addr := malloc len in
  if addr =? 0 then check_failed test (str "malloc")
  else
    let! bad := ints_at addr len in
    let! error := match bad with Some a => do! verify_failed test a; ret 1 | None => ret 0 end in
    do! free addr;
    ret error.

Definition cmd_chk_sbrk (test : list Z) : M K Z :=
  let len := 8192 * 5 + 128 in
  let! oldbrk1 := sys_sbrk len in
  if oldbrk1 =? -1 then check_failed test (str "sbrk alloc")
  else
    let! bad := ints_at oldbrk1 len in
    match bad with
    | Some a => do! verify_failed test a; ret 1
    | None =>
        let! oldbrk2 := sys_sbrk (- len) in
        if oldbrk2 =? -1 then check_failed test (str "sbrk dealloc")
        else if u64 oldbrk2 <? u64 (oldbrk1 + len) then
          do! complain (test ++ str ": sbrk didn't return old brk??" ++ NL);
          ret 1
        else ret 0
    end.

Definition cmd_chk_wrnoent (test : list Z) : M K Z :=
  let tmpfile := TMP ++ str "/chk_wrnoent" in
  let teststr := str "Hello World!" in
  let len := Z.of_nat (length teststr) in
  let! e := check_exists tmpfile in
  if negb (e =? 0) then
    do! complain (test ++ str ": tmpfile exists" ++ NL);
    ret 1
  else
    let! fd := sys_open tmpfile (Z.lor U_CREAT U_RDWR) in
    if fd <? 0 then check_failed test (str "create")
    else
      let! error := sys_unlink tmpfile in
      let! error :=
        (if error <? 0 then check_failed test (str "unlink")
         else
           let! nfd := sys_open tmpfile U_RDONLY in
           if 0 <=? nfd then check_failed test (str "open nonexistent")
           else
             let! n := sys_write fd teststr in
             if negb (n =? len) then check_failed test (str "write teststr")
             else
               let! n := sys_lseek fd 0 U_SEEK_SET in
               if negb (n =? 0) then check_failed test (str "lseek begin")
               else
                 let! r := sys_read fd len in
                 if negb (r.1 =? len) then check_failed test (str "read teststr")
                 else if negb (strncmp r.2 teststr (length teststr) =? 0) then
                   do! complain (test ++ str ": verify string failed" ++ NL);
                   ret 1
                 else ret 0) in
      out_close test fd error.

Definition cmd_chk_unlink (test : list Z) : M K Z :=
  let tmpfile := TMP ++ str "/chk_unlink" in
  let! e := check_exists tmpfile in
  if negb (e =? 0) then
    do! complain (test ++ str ": tmpfile exists" ++ NL);
    ret 1
  else
    let! fd := sys_open tmpfile (Z.lor U_CREAT U_RDONLY) in
    if fd <? 0 then check_failed test (str "create")
    else
      let! error := sys_unlink tmpfile in
      let! error :=
        (if error <? 0 then check_failed test (str "unlink")
         else
           let! nfd := sys_open tmpfile U_RDONLY in
           if 0 <=? nfd then check_failed test (str "open nonexistent") else ret 0) in
      out_close test fd error.

(** The part of [chk_sparse] from the mapping on. *)
Definition sparse_mapped (test teststr : list Z) (fd len map : Z) : M K Z :=
  do! fill (length teststr) 1 map (fun i => nth (Z.to_nat i) teststr 0) 0;
  do! out_unmap test map len 0;
  let! n := sys_lseek fd 0 U_SEEK_SET in
  if negb (n =? 0) then check_failed test (str "lseek begin")
  else
    let! r := sys_read fd (Z.of_nat (length teststr)) in
    if negb (r.1 =? Z.of_nat (length teststr)) then check_failed test (str "read teststr")
    else if negb (strcmp teststr r.2 =? 0) then
      do! complain (test ++ str ": verify data failed" ++ NL);
      do! complain (test ++ str ": teststr " ++ [34] ++ teststr ++ [34] ++ str ", buf " ++ [34] ++ r.2 ++ [34] ++ NL);
      ret 1
    else ret 0.

Definition cmd_chk_sparse (test : list Z) : M K Z :=
  let tmpfile := TMP ++ str "/chk_sparse" in
  let len := 5 * 8192 in
  let teststr := str "Hello there?" in
  let! e := check_exists tmpfile in
  if negb (e =? 0) then
    do! complain (test ++ str ": tmpfile exists" ++ NL);
    ret 1
  else
    let! fd := sys_open tmpfile (Z.lor U_CREAT U_RDWR) in
    if fd <? 0 then check_failed test (str "create")
    else
      let! seek := sys_lseek fd len U_SEEK_SET in
      let! error :=
        (if negb (seek =? len) then check_failed test (str "lseek len")
         else
           let! n := sys_write fd [fd mod 256] in
           if n <? 0 then check_failed test (str "write")
           else
             let! seek := sys_lseek fd 0 U_SEEK_SET in
             if negb (seek =? 0) then check_failed test (str "lseek begin")
             else
               let! r := sys_read fd (Z.of_nat (length teststr)) in
               if negb (r.1 =? Z.of_nat (length teststr)) then check_failed test (str "read zeros")
               else if negb (forallb (fun c => c =? 0) (take (length teststr) r.2)) then
                 do! complain (test ++ str ": verify zeros failed" ++ NL);
                 ret 1
               else
                 let! map := sys_mmap len (Z.lor PROT_READ PROT_WRITE) MAP_SHARED fd in
                 if map =? MAP_FAILED then check_failed test (str "mmap")
                 else sparse_mapped test teststr fd len map) in
      let! error := out_close test fd error in
      out_unlink test tmpfile error.

(** A command with its name and its help text. *)
Record cmd : Type := Cmd { cmd_name : list Z; cmd_func : list (list Z) -> ioenv -> M K flow; cmd_helptext : list Z }.

(** The name a check is called with is its first argument. *)
Definition check_cmd (name : string) (f : list Z -> M K Z) (help : string) : cmd :=
  Cmd (str name) (fun argv _ => let! r := f (nth 0 argv []) in ret (Status r)) (str help).

Definition check_cmds : list cmd :=
  [check_cmd "null" cmd_chk_null "read and write /dev/null";
   check_cmd "sbrk" cmd_chk_sbrk "memory allocation - sbrk";
   check_cmd "sparse" cmd_chk_sparse "sparse mmap writes";
   check_cmd "unlink" cmd_chk_unlink "create and unlink a file";
   check_cmd "wrnoent" cmd_chk_wrnoent "write to an unlinked file";
   check_cmd "zero" cmd_chk_zero "read and map /dev/zero";
   check_cmd "priv" cmd_chk_priv "writes to MAP_PRIVATE mapping";
   check_cmd "malloc" cmd_chk_malloc "memory allocation - malloc"].

(** The number a command returns; a command that ends the shell returns nothing. *)
Definition status (f : flow) : Z := match f with Status n => n | Exit n => n end.

Definition check_run_one (c : cmd) (io : ioenv) : M K Z :=
  do! fputs stdout (pad 10 (cmd_name c) ++ str " ... ");
  let! r := cmd_func c [cmd_name c] io in
  do! fputs stdout (str (if status r =? 0 then "SUCCESS" else "FAILED") ++ NL);
  ret (status r).

(** The first command of the table that has the name. *)
Definition find_cmd (name : list Z) (table : list cmd) : option cmd :=
  find (fun c => strcmp (cmd_name c) name =? 0) table.

Fixpoint sum_of {A} (l : list A) (f : A -> M K Z) : M K Z :=
  match l with
  | [] => ret 0
  | x :: l => let! n := f x in let! m := sum_of l f in ret (n + m)
  end.

Definition help_line (c : list Z * list Z) : list Z := pad 20 c.1 ++ str " - " ++ c.2 ++ NL.

Definition cmd_check (argv : list (list Z)) (io : ioenv) : M K flow :=
  if (length argv <? 2)%nat then
    do! complain (str "usage: check <test> [...]" ++ NL ++ NL);
    do! complain (str "Where <test> is either " ++ [34] ++ str "all" ++ [34] ++ str " or one of:" ++ NL);
    do! for_each check_cmds (fun c => complain (help_line (cmd_name c, cmd_helptext c)));
    do! complain NL;
    ret (Status 1)
  else
    do! fputs stdout (str "Running tests:" ++ NL);
    let! errors :=
      (if (length argv =? 2)%nat && (strcmp (nth 1 argv []) (str "all") =? 0) then sum_of check_cmds (fun c => check_run_one c io)
       else sum_of (tail argv) (fun test =>
         match find_cmd test check_cmds with
         | None =>
             do! complain (str "Unknown test: " ++ test ++ NL);
             ret 1
         | Some c => check_run_one c io
         end)) in
    ret (Status errors).

(** ** Built-in commands *)

Definition is_std_stream (fd : Z) : bool := (0 <=? fd) && (fd <=? 2).

Definition map_fd (io : ioenv) (fd : Z) : Z := nth (Z.to_nat fd) (io_map_fd io) 0.

(** [while ((nbytes_in = read(...)) > 0)]: whether all was copied. *)
Fixpoint cp_loop (fuel : nat) (cmd in_file : list Z) (in_fd : Z) (out_file : list Z) (out_fd : Z) : M K Z :=
  match fuel with
  | O => fail Stuck
  | S fuel =>
      let! r := sys_read in_fd 32768 in
      if 0 <? r.1 then
        let! n := sys_write out_fd r.2 in
        if n <? 0 then
          do! complain_errno (cmd ++ str ": unable to write to " ++ out_file);
          ret 0
        else cp_loop fuel cmd in_file in_fd out_file out_fd
      else if r.1 <? 0 then
        do! complain_errno (cmd ++ str ": unable to read from " ++ in_file);
        ret 0
      else ret 1
  end.

Definition do_cp (fuel : nat) (io : ioenv) (cmd in_file : list Z) (in_fd : Z) (out_file : list Z) (out_fd : Z) : M K Z :=
  let in_fd := if is_std_stream in_fd then map_fd io in_fd else in_fd in
  let out_fd := if is_std_stream out_fd then map_fd io out_fd else out_fd in
  cp_loop fuel cmd in_file in_fd out_file out_fd.

(** [argv[i]] *)
Definition arg (argv : list (list Z)) (i : nat) : list Z := nth i argv [].

Definition argc (argv : list (list Z)) : Z := Z.of_nat (length argv).

Definition usage (l : list Z) : M K flow := do! complain (str "usage: " ++ l ++ NL); ret (Status 1).

Definition cmd_env (argv : list (list Z)) (io : ioenv) : M K flow :=
  let! s := get in
  do! for_each (envp s) (fun e => fputs stdout (str "env: " ++ e ++ NL));
  ret (Status 0).

Definition cmd_sync (argv : list (list Z)) (io : ioenv) : M K flow := do! sys_sync; ret (Status 0).

Definition cmd_cp (fuel : nat) (argv : list (list Z)) (io : ioenv) : M K flow :=
  if negb (argc argv =? 3) then usage (str "cp <src> <dest>")
  else
    let src := arg argv 1 in
    let dest := arg argv 2 in
    let! src_fd := sys_open src U_RDONLY in
    if src_fd <? 0 then
      do! complain_errno (str "cp: unable to open " ++ src);
      ret (Status 1)
    else
      let! dest_fd := sys_open dest (Z.lor (Z.lor U_WRONLY U_CREAT) U_TRUNC) in
      if dest_fd <? 0 then
        do! complain_errno (str "cp: unable to open " ++ dest);
        ret (Status 1)
      else
        let! ok := do_cp fuel io (str "cp") src src_fd dest dest_fd in
        let error := if ok =? 0 then 1 else 0 in
        do! sys_close src_fd;
        do! sys_close dest_fd;
        ret (Status error).

(** The arguments of [echo], the last one with a newline. *)
Fixpoint echo_loop (out_fd : Z) (args : list (list Z)) : M K flow :=
  match args with
  | [] => ret (Status 0)
  | a :: args =>
      let buf := take 127 (a ++ match args with [] => NL | _ => str " " end) in
      let! error := sys_write out_fd buf in
      if error <? 0 then
        do! complain (str "echo: unable to write `" ++ buf ++ str "`" ++ NL);
        ret (Status error)
      else echo_loop out_fd args
  end.

Definition cmd_echo (argv : list (list Z)) (io : ioenv) : M K flow :=
  let out_fd := map_fd io 1 in
  if argc argv =? 1 then
    let! error := sys_write out_fd NL in
    if error <? 0 then
      do! complain (str "echo: unable to write `\n`" ++ NL);
      ret (Status error)
    else ret (Status 0)
  else echo_loop out_fd (tail argv).

Fixpoint cat_loop (fuel : nat) (io : ioenv) (files : list (list Z)) (error : Z) : M K Z :=
  match files with
  | [] => ret error
  | file :: files =>
      let! fd := sys_open file U_RDONLY in
      if fd <? 0 then
        do! complain_errno (str "cat: unable to open " ++ file);
        cat_loop fuel io files 1
      else
        let! ok := do_cp fuel io (str "cat") file fd (str "<stdout>") 1 in
        do! sys_close fd;
        cat_loop fuel io files (if ok =? 0 then 1 else error)
  end.

Definition cmd_cat (fuel : nat) (argv : list (list Z)) (io : ioenv) : M K flow :=
  if argc argv =? 1 then
    let! ok := do_cp fuel io (str "cat") (str "<stdin>") 0 (str "<stdout>") 1 in
    ret (Status (if ok =? 0 then 1 else 0))
  else
    let! error := cat_loop fuel io (tail argv) 0 in
    ret (Status error).

Definition cmd_mv (argv : list (list Z)) (io : ioenv) : M K flow :=
  if negb (argc argv =? 3) then usage (str "mv <src> <dest>")
  else
    let! r := sys_rename (arg argv 1) (arg argv 2) in
    if r <? 0 then
      do! complain_errno (str "mv: unable to move " ++ arg argv 1 ++ str " to " ++ arg argv 2);
      ret (Status 1)
    else ret (Status 0).

Fixpoint rm_loop (files : list (list Z)) (error : Z) : M K Z :=
  match files with
  | [] => ret error
  | file :: files =>
      let! r := sys_unlink file in
      if r <? 0 then
        do! complain_errno (str "rm: unable to remove " ++ file);
        rm_loop files 1
      else rm_loop files error
  end.

Definition cmd_rm (argv : list (list Z)) (io : ioenv) : M K flow :=
  if argc argv =? 1 then usage (str "rm <file> [...]")
  else
    let! error := rm_loop (tail argv) 0 in
    ret (Status error).

Definition cmd_ln (argv : list (list Z)) (io : ioenv) : M K flow :=
  if negb (argc argv =? 3) then usage (str "ln <src> <dest>")
  else
    let! r := sys_link (arg argv 1) (arg argv 2) in
    if r <? 0 then
      do! complain_errno (str "ln: couldn't link " ++ arg argv 2 ++ str " to " ++ arg argv 1);
      ret (Status 1)
    else ret (Status 0).

Definition cmd_mkdir (argv : list (list Z)) (io : ioenv) : M K flow :=
  if negb (argc argv =? 2) then usage (str "mkdir <directory>")
  else
    let! r := sys_mkdir (arg argv 1) in
    if r <? 0 then
      do! complain_errno (str "mkdir: couldn't create " ++ arg argv 1);
      ret (Status 1)
    else ret (Status 0).

Definition cmd_clear (argv : list (list Z)) (io : ioenv) : M K flow :=
  do! fputs stdout ([27] ++ str "[H" ++ [27] ++ str "[J");
  ret (Status 0).

Definition cmd_rmdir (argv : list (list Z)) (io : ioenv) : M K flow :=
  if negb (argc argv =? 2) then usage (str "rmdir <directory>")
  else
    let! r := sys_rmdir (arg argv 1) in
    if r <? 0 then
      do! complain_errno (str "rmdir: couldn't remove " ++ arg argv 1);
      ret (Status 1)
    else ret (Status 0).

Definition cmd_exit (argv : list (list Z)) (io : ioenv) : M K flow := ret (Exit 0).

Definition cmd_cd (argv : list (list Z)) (io : ioenv) : M K flow :=
  if 2 <? argc argv then usage (str "cd <dir>")
  else
    let dir := if argc argv =? 1 then str "/." else arg argv 1 in
    let! r := sys_chdir dir in
    if r <? 0 then
      do! complain_errno (str "sh: couldn't cd to " ++ dir);
      ret (Status 1)
    else ret (Status 0).

(** ** Running a command *)

Definition add_redirect (map : redirect_map) (sfd dfd : Z) : M K redirect_map :=
  if REDIR_MAX <=? Z.of_nat (length map) then fail Fault
  else ret (map ++ [Redirect sfd dfd]).

Fixpoint do_redirect (map : redirect_map) : M K Z :=
  match map with
  | [] => ret 0
  | r :: map =>
      let! n := sys_dup2 (r_sfd r) (r_dfd r) in
      if n <? 0 then
        do! complain_errno (str "do_redirect: dup2() failed");
        ret (-1)
      else
        do! sys_close (r_sfd r);
        do_redirect map
  end.

Definition cleanup_redirects (map : redirect_map) : M K unit :=
  for_each map (fun r => do! sys_close (r_sfd r); ret tt).

Definition build_ioenv (map : redirect_map) : ioenv :=
  Ioenv (foldl (fun l r => if (0 <=? r_dfd r) && (r_dfd r <=? 2) then <[Z.to_nat (r_dfd r) := r_sfd r]> l else l) [0; 1; 2] map).

(** The standard descriptors of the command, duplicated; [bad] is called with the
    descriptor and the result when one cannot be. *)
Fixpoint dup_std (io : ioenv) (fds : list Z) (map : redirect_map) (bad : Z -> Z -> M K flow) (k : redirect_map -> M K flow) : M K flow :=
  match fds with
  | [] => k map
  | i :: fds =>
      let! fd := sys_dup (map_fd io i) in
      if fd <? 0 then bad (map_fd io i) fd
      else
        let! map := add_redirect map fd i in
        dup_std io fds map bad k
  end.

Section run.
(** [execute] *)
Variable run : list (list Z) -> redirect_map -> M K flow.

Fixpoint repeat_loop (ntimes : nat) (argv : list (list Z)) (io : ioenv) : M K flow :=
  match ntimes with
  | O => ret (Status 0)
  | S ntimes =>
      dup_std io [0; 1; 2] []
        (fun i _ => let! e := error_text in do! complain (str "repeat: dup(" ++ dec i ++ str ") failed: " ++ e ++ NL); ret (Status 1))
        (fun map =>
           let! r := run argv map in
           match r with
           | Exit n => ret (Exit n)
           | Status _ => repeat_loop ntimes argv io
           end)
  end.

Definition cmd_repeat (argv : list (list Z)) (io : ioenv) : M K flow :=
  if argc argv <? 3 then usage (str "repeat <ntimes> command [args ...]")
  else
    let ntimes := value (strtol (arg argv 1) 10) in
    if ntimes <=? 0 then
      do! complain (str "repeat: <ntimes> must be non-zero" ++ NL);
      ret (Status 1)
    else repeat_loop (Z.to_nat ntimes) (drop 2 argv) io.

(** The commands between the separators; [None] when one is empty.  The arrays
    have 32 elements, and the 33rd is stored before the number is checked. *)
Fixpoint split_cmds (args cur : list (list Z)) (cmds : list (list (list Z))) : M K (option (list (list (list Z)))) :=
  match args with
  | [] =>
      match cur with
      | [] => ret None
      | _ => if (32 <=? length cmds)%nat then fail Fault else ret (Some (cmds ++ [cur]))
      end
  | a :: args =>
      if strcmp a (str "--") =? 0 then
        match cur with
        | [] => ret None
        | _ => if (32 <=? length cmds)%nat then fail Fault else split_cmds args [] (cmds ++ [cur])
        end
      else split_cmds args (cur ++ [a]) cmds
  end.

Definition parallel_child (io : ioenv) (argv : list (list Z)) : M K ending :=
  let! r :=
    dup_std io [0; 1; 2] [] (fun _ _ => ret (Exit 1)) (fun map => run argv map) in
  ret (Exited (status r)).

Fixpoint wait_loop (n : nat) (st : Z) : M K Z :=
  match n with
  | O => ret st
  | S n => let! w := sys_wait in wait_loop n w.2
  end.

Definition cmd_parallel (argv : list (list Z)) (io : ioenv) : M K flow :=
  if argc argv <? 2 then usage (str "parallel <cmd1> [args] -- <cmd2> [args] [-- ...]")
  else
    let! cmds := split_cmds (tail argv) [] [] in
    match cmds with
    | None =>
        do! complain (str "empty command" ++ NL);
        ret (Status 1)
    | Some cmds =>
        do! for_each cmds (fun c => do! sys_fork (parallel_child io c); ret tt);
        let! st := wait_loop (length cmds) 0 in
        ret (Status st)
    end.

Definition cmd_time (argv : list (list Z)) (io : ioenv) : M K flow :=
  if argc argv <? 1 then usage (str "time [cmd]")
  else if argc argv =? 1 then
    let! t := sys_time in
    do! fputs stdout (str "time: " ++ dec t ++ str " units" ++ NL);
    ret (Status 0)
  else
    dup_std io [0; 1; 2] [] (fun _ fd => ret (Exit fd)) (fun map =>
      let! start := sys_time in
      let! r := run (tail argv) map in
      match r with
      | Exit n => ret (Exit n)
      | Status n =>
          let! finish := sys_time in
          do! fputs stdout (str "time: " ++ dec (u64 (finish - start)) ++ str " units" ++ NL);
          ret (Status n)
      end).

Definition builtin_help : list (list Z * list Z) :=
  [(str "?", str "list shell commands"); (str "cat", str "display file"); (str "env", str "display environment");
   (str "cd", str "change directory"); (str "check", str "test operating system"); (str "clear", str "clear screen");
   (str "cp", str "copy file"); (str "echo", str "print arguments"); (str "exit", str "exit shell");
   (str "help", str "list shell commands"); (str "ln", str "link file"); (str "mkdir", str "create a directory");
   (str "mv", str "move file"); (str "quit", str "exit shell"); (str "rm", str "remove file(s)");
   (str "rmdir", str "remove a directory"); (str "sync", str "sync filesystems"); (str "repeat", str "repeat a command");
   (str "parallel", str "run multiple commands in parallel"); (str "time", str "time a command")].

Definition cmd_help (argv : list (list Z)) (io : ioenv) : M K flow :=
  do! fputs stdout (str "Shell commands:" ++ NL);
  do! for_each builtin_help (fun c => fputs stdout (help_line c));
  ret (Status 0).

Definition builtin_cmds (fuel : nat) : list cmd :=
  zip_with (fun h f => Cmd h.1 f h.2) builtin_help
    [cmd_help; cmd_cat fuel; cmd_env; cmd_cd; cmd_check; cmd_clear; cmd_cp fuel; cmd_echo; cmd_exit; cmd_help; cmd_ln; cmd_mkdir; cmd_mv;
     cmd_exit; cmd_rm; cmd_rmdir; cmd_sync; cmd_repeat; cmd_parallel; cmd_time].
End run.

(** The directories are tried while the program does not exist; whether one was
    found. *)
Fixpoint exec_search (dirs : list (list Z)) (argv : list (list Z)) : M K bool :=
  match dirs with
  | [] => ret false
  | d :: dirs =>
      let! s := get in
      if errno s =? ENOENT then
        let! r := sys_execve (take 255 (d ++ str "/" ++ arg argv 0)) argv in
        if r then ret true else exec_search dirs argv
      else ret false
  end.

Definition exec_child (argv : list (list Z)) (map : redirect_map) : M K ending :=
  let! r := do_redirect map in
  if r <? 0 then ret (Exited 1)
  else
    let! r := sys_execve (arg argv 0) argv in
    if r then ret Replaced
    else
      let! r := exec_search [str "/usr/bin/"; str "/bin/"; str "/sbin/"] argv in
      if r then ret Replaced
      else
        let! s := get in
        do! (if errno s =? ENOENT then complain (str "sh: command not found: " ++ arg argv 0 ++ NL)
             else complain_errno (str "sh: exec failed for " ++ arg argv 0));
        let! s := get in
        ret (Exited (errno s)).

Fixpoint execute (fuel : nat) (argv : list (list Z)) (map : redirect_map) : M K flow :=
  match fuel with
  | O => fail Stuck
  | S fuel' =>
      match find_cmd (arg argv 0) (builtin_cmds (execute fuel') fuel) with
      | Some c =>
          let! r := cmd_func c argv (build_ioenv map) in
          match r with
          | Exit n => ret (Exit n)
          | Status _ => do! cleanup_redirects map; ret (Status 0)
          end
      | None =>
          let! pid := sys_fork (exec_child argv map) in
          do! (if pid <? 0 then let! s := get in complain (str "sh: fork failed errno = " ++ dec (errno s) ++ NL) else ret tt);
          do! cleanup_redirects map;
          let! w := sys_wait in
          do! (if w.2 =? EFAULT then complain (str "sh: child process accessed invalid memory" ++ NL) else ret tt);
          ret (Status w.1)
      end
  end.
End sh.

(** * The parser *)

(** The line buffers; [at_prev] tells which one the argument [line] points to. *)
Record shell (K : Type) : Type := Shell { kern : K; linebuf : list Z; prev_linebuf : list Z; at_prev : bool }.
Arguments Shell {K} kern linebuf prev_linebuf at_prev.
Arguments kern {K}.
Arguments linebuf {K}.
Arguments prev_linebuf {K}.
Arguments at_prev {K}.

Section parse.
Context {K : Type} {posix : Posix K}.
Abbreviation S := (shell K).

Definition lift {A} (m : M K A) : M S A :=
  zoom kern (fun k s => Shell k (linebuf s) (prev_linebuf s) (at_prev s)) m.

Definition line (s : S) : list Z := if at_prev s then prev_linebuf s else linebuf s.

Definition set_line (l : list Z) (s : S) : S :=
  if at_prev s then Shell (kern s) (linebuf s) l true else Shell (kern s) l (prev_linebuf s) false.

(** [line[i]] *)
Definition peek (i : Z) : M S Z := let! s := get in deref (if i <? 0 then None else line s !! Z.to_nat i).

Definition poke (i c : Z) : M S unit := do! peek i; modify (fun s => set_line (<[Z.to_nat i := c]> (line s)) s).

(** The string at [i]. *)
Fixpoint until_nul (l : list Z) : list Z :=
  match l with
  | [] => []
  | c :: l => if c =? 0 then [] else c :: until_nul l
  end.
Definition string_at (i : Z) : M S (list Z) := let! s := get in ret (until_nul (drop (Z.to_nat i) (line s))).

(** The loops that move a pointer stay inside the array. *)
Definition scan_fuel : nat := Z.to_nat (LINEBUF_SIZE + 1).

(** [while ( *p && test( *p )) p++] *)
Fixpoint skip (fuel : nat) (test : Z -> bool) (p : Z) : M S Z :=
  match fuel with
  | O => fail Stuck
  | Datatypes.S fuel =>
      let! c := peek p in
      if negb (c =? 0) && test c then skip fuel test (p + 1) else ret p
  end.

(** [while (p != line && test( *p )) p--] *)
Fixpoint skip_back (fuel : nat) (test : Z -> bool) (p : Z) : M S Z :=
  match fuel with
  | O => fail Stuck
  | Datatypes.S fuel =>
      if p =? 0 then ret p
      else
        let! c := peek p in
        if test c then skip_back fuel test (p - 1) else ret p
  end.

Definition sh_isredirect (c : Z) : bool := (c =? 62) || (c =? 60).

(** The descriptor and the new [*start_p]. *)
Definition parse_redirect_dfd (start : Z) : M S (Z * Z) :=
  if start =? 0 then ret (-1, start)
  else
    do! poke start 0;
    let! p := skip_back scan_fuel isspace (start - 1) in
    if p =? 0 then ret (-1, start)
    else
      let! p := skip_back scan_fuel isdigit p in
      let! c := peek p in
      if negb (isspace c || isdigit c) then ret (-1, start)
      else
        let! l := string_at p in
        ret (s32 (value (strtol l 10)), p).

Definition redirect_default_fd (type : Z) : M S Z :=
  if type =? 60 then ret 0
  else if type =? 62 then ret 1
  else
    do! lift (complain (str "redirect_default_fd: Eh?" ++ NL));
    ret (-1).

(** The new map and [*end_p], nothing after an error. *)
Definition parse_redirect_dup (map : redirect_map) (dfd start : Z) : M S (option (redirect_map * Z)) :=
  let! p := skip scan_fuel isspace start in
  let! c := peek p in
  if c =? 0 then
    do! lift (complain (str "sh: bad redirect at end of line" ++ NL));
    ret None
  else if negb (isdigit c) then
    do! lift (complain (str "sh: parse error in dup redirect: 1" ++ NL));
    ret None
  else
    let! q := skip scan_fuel isdigit p in
    let! c := peek q in
    if negb (c =? 0) && negb (isspace c) then
      do! lift (complain (str "sh: parse error in dup redirect: 2" ++ NL));
      ret None
    else
      do! poke q 0;
      let! l := string_at p in
      let real_sfd := s32 (value (strtol l 10)) in
      let! sfd := lift (sys_dup real_sfd) in
      if sfd <? 0 then
        do! lift (complain (str "sh: invalid file descriptor: " ++ dec real_sfd ++ NL));
        ret None
      else
        let! map := lift (add_redirect map sfd dfd) in
        ret (Some (map, q + 1)).

Definition parse_redirect_norm (map : redirect_map) (dfd mode start : Z) : M S (option (redirect_map * Z)) :=
  let! p := skip scan_fuel isspace start in
  let! c := peek p in
  if c =? 0 then
    do! lift (complain (str "sh: bad redirect at end of line" ++ NL));
    ret None
  else
    let! q := skip scan_fuel (fun c => negb (isspace c)) p in
    do! poke q 0;
    let! path := string_at p in
    let! sfd := lift (sys_open path mode) in
    if sfd <? 0 then
      do! lift (complain_errno (str "sh: unable to open " ++ path));
      ret None
    else
      let! map := lift (add_redirect map sfd dfd) in
      ret (Some (map, q + 1)).

(** [while (start < end) *start++ = ' '] *)
Fixpoint blank (n : nat) (p : Z) : M S unit :=
  match n with
  | O => ret tt
  | Datatypes.S n => do! poke p 32; blank n (p + 1)
  end.

(** A redirection after its descriptor [dfd] is known; it is cleared from
    [start] on. *)
Definition redirect_rest (map : redirect_map) (tmp type start dfd : Z) : M S (option (redirect_map * Z)) :=
  let tmp := tmp + 1 in
  let! c := peek tmp in
  if (c =? 62) && negb (type =? 62) then
    do! lift (complain (str "sh: parse error at " ++ [type; c] ++ NL));
    ret None
  else
    let append := c =? 62 in
    let tmp := if append then tmp + 1 else tmp in
    let! c := peek tmp in
    let dup := c =? 38 in
    let tmp := if dup then tmp + 1 else tmp in
    let mode :=
      if type =? 60 then U_RDONLY
      else Z.lor (Z.lor U_WRONLY U_CREAT) (if append then U_APPEND else U_TRUNC) in
    let! r := (if dup then parse_redirect_dup map dfd tmp else parse_redirect_norm map dfd mode tmp) in
    match r with
    | None => ret None
    | Some (map, stop) =>
        do! blank (Z.to_nat (stop - start)) start;
        ret (Some (map, stop))
    end.

(** One redirection, whose symbol [type] is at [tmp]: the new map and the place
    after it, nothing after an error. *)
Definition one_redirect (map : redirect_map) (tmp type : Z) : M S (option (redirect_map * Z)) :=
  let! d := parse_redirect_dfd tmp in
  let! dfd := (if d.1 <? 0 then redirect_default_fd type else ret d.1) in
  redirect_rest map tmp type d.2 dfd.

Fixpoint redirects_loop (fuel : nat) (map : redirect_map) (tmp : Z) : M S (option redirect_map) :=
  match fuel with
  | O => fail Stuck
  | Datatypes.S fuel =>
      let! tmp := skip scan_fuel (fun c => negb (sh_isredirect c)) tmp in
      let! type := peek tmp in
      if type =? 0 then ret (Some map)
      else
        let! r := one_redirect map tmp type in
        match r with
        | None => ret None
        | Some (map, stop) => redirects_loop fuel map stop
        end
  end.

Definition parse_redirects : M S (option redirect_map) := redirects_loop scan_fuel [] 0.

(** The tokens from [tmp] on; [argv] has room for [ARGV_MAX] pointers. *)
Fixpoint tokens_loop (fuel : nat) (tmp : Z) (argv : list Z) : M S (list Z) :=
  match fuel with
  | O => fail Stuck
  | Datatypes.S fuel =>
      let! tmp := skip scan_fuel isspace tmp in
      let! c := peek tmp in
      if c =? 0 then ret argv
      else if ARGV_MAX <=? Z.of_nat (length argv) then fail Fault
      else
        let argv := argv ++ [tmp] in
        let! tmp := skip scan_fuel (fun c => negb (isspace c)) tmp in
        let! c := peek tmp in
        if c =? 0 then ret argv
        else
          do! poke tmp 0;
          tokens_loop fuel (tmp + 1) argv
  end.

Fixpoint strings_at (ps : list Z) : M S (list (list Z)) :=
  match ps with
  | [] => ret []
  | p :: ps => let! l := string_at p in let! ls := strings_at ps in ret (l :: ls)
  end.

Definition parse (fuel : nat) : M S flow :=
  let! l := string_at 0 in
  let len := Z.of_nat (length l) in
  let! c := peek (len - 1) in
  do! (if c =? 10 then poke (len - 1) 0 else ret tt);
  let! map := parse_redirects in
  match map with
  | None => ret (Status 0)
  | Some map =>
      let! ps := tokens_loop scan_fuel 0 [] in
      if ARGV_MAX <=? Z.of_nat (length ps) then fail Fault
      else
        match ps with
        | [] => ret (Status 0)
        | _ =>
            let! argv := strings_at ps in
            lift (execute fuel argv map)
        end
  end.

Definition prompt : M S unit := lift (fputs stdout (str "weenix -> ")).

(** [parse] of one of the buffers. *)
Definition parse_buf (fuel : nat) (prev : bool) : M S flow :=
  do! modify (fun s => Shell (kern s) (linebuf s) (prev_linebuf s) prev);
  parse fuel.

(** A line was read; returns whether the shell has ended. *)
Definition run_line (fuel : nat) (nbytes : Z) (bytes : list Z) : M S flow :=
  do! modify (fun s => Shell (kern s) (bytes ++ drop (length bytes) (linebuf s)) (prev_linebuf s) false);
  do! poke nbytes 0;
  if (nbytes =? 3) && bool_decide (bytes = [33; 33; 10]) then
    let! s := get in
    do! lift (fputs stdout (until_nul (prev_linebuf s) ++ NL));
    parse_buf fuel true
  else
    let! r := parse_buf fuel false in
    match r with
    | Exit n => ret (Exit n)
    | Status n =>
        do! modify (fun s => Shell (kern s) (prev_linebuf s) (linebuf s) false);
        ret (Status n)
    end.

(** [fuel] bounds the number of lines and the work of a command. *)
Fixpoint main_loop (fuel : nat) : M S Z :=
  match fuel with
  | O => fail Stuck
  | Datatypes.S fuel =>
      let! r := lift (sys_read 0 LINEBUF_SIZE) in
      if 0 <? r.1 then
        let! f := run_line fuel r.1 r.2 in
        match f with
        | Exit n => ret n
        | Status _ => do! prompt; main_loop fuel
        end
      else
        do! lift (fputs stdout (str "exit" ++ NL));
        ret 0
  end.

Definition main (fuel : nat) : M S Z :=
  do! prompt;
  main_loop fuel.

(** The buffers at the start. *)
Definition shell_start (k : K) : S := Shell k (replicate (Z.to_nat LINEBUF_SIZE) 0) (replicate (Z.to_nat LINEBUF_SIZE) 0) false.
End parse.
