(* ===== verification/ShFiles.v ===== *)
(** The files that the commands of the shell work on: what the shell relies on
    when it opens, reads, writes and closes a regular file, the copying loop of
    [cp] and [cat] against it, and a small kernel for examples. *)

From S2P Require Import Prelude CString Printf Strtol Sh.

(** * What the shell relies on *)

Abbreviation path := (list Z) (only parsing).

(** An open file: its inode, its position and what it may be used for. *)
Record ofile : Type := OFile { o_ino : Z; o_pos : nat; o_read : bool; o_write : bool; o_append : bool }.

(** Paths lead to inodes, several to the same one if there are links; descriptors
    lead to open files, several to the same one after a [dup].  Any call may fail;
    the laws say what a successful [open] has done, and that a read or write of a
    regular file completes when it is allowed and there is room.  A read may
    return less than was asked for. *)
Class FileModel (K : Type) : Type := {
  kernel_ok : K -> Prop;                                  (* the kernel's invariant; its disks answer *)
  leads : K -> path -> option Z;                     (* the inode a path leads to *)
  contents : K -> Z -> option (list Z);              (* the bytes of a regular file *)
  fds : K -> Z -> option Z;                          (* the open file of a descriptor *)
  files : K -> Z -> option ofile;
  room : K -> nat;                                   (* bytes that can still be written *)
  max_file : nat;                                    (* the largest size of a file *)
  nameable : path -> Prop;                           (* the path can be that of a new file *)
}.
Arguments max_file K {_}.
Arguments nameable K {_}.

Section view.
Context {K : Type} {view : FileModel K}.

(** No name is lost, and no file with a name but [x] changes. *)
Definition keeps_files (x : option Z) (k k' : K) : Prop :=
  forall q i, leads k q = Some i -> leads k' q = Some i /\ (Some i <> x -> contents k' i = contents k i).

(** The descriptor [fd], free before, is that of a new open file. *)
Definition opens (fd : Z) (x : ofile) (k k' : K) : Prop :=
  fds k fd = None /\ exists g, (forall fd', fds k fd' <> Some g) /\ files k' g = Some x
    /\ (forall fd', fds k' fd' = if decide (fd' = fd) then Some g else fds k fd')
    /\ (forall g', g' <> g -> files k' g' = files k g').

(** The open file [g] becomes [x], and nothing else of the descriptors changes. *)
Definition moves (g : Z) (x : ofile) (k k' : K) : Prop :=
  files k' g = Some x /\ (forall fd, fds k' fd = fds k fd) /\ (forall g', g' <> g -> files k' g' = files k g').

(** Every descriptor is open on the same file, at the same position. *)
Definition same_fds (k k' : K) : Prop :=
  (forall fd, fds k' fd = fds k fd) /\ (forall fd g, fds k fd = Some g -> files k' g = files k g).
End view.

Class FileLaws (K : Type) {posix : Posix K} {view : FileModel K} : Prop := {
  max_file_range : Z.of_nat (max_file K) < 2 ^ 62;
  open_read k p i data fd k' :
    kernel_ok k -> leads k p = Some i -> contents k i = Some data -> sys_open p U_RDONLY k = Done fd k' -> 0 <= fd ->
    kernel_ok k' /\ keeps_files None k k' /\ opens fd (OFile i 0 true false false) k k';
  open_write k p fd k' :
    kernel_ok k -> nameable K p -> (forall i, leads k p = Some i -> is_Some (contents k i)) ->
    sys_open p (Z.lor (Z.lor U_WRONLY U_CREAT) U_TRUNC) k = Done fd k' -> 0 <= fd ->
    exists i, kernel_ok k' /\ keeps_files (Some i) k k' /\ opens fd (OFile i 0 false true false) k k'
      /\ leads k' p = Some i /\ contents k' i = Some [] /\ (leads k p = Some i \/ forall q, leads k q <> Some i);
  read_file k fd g i pos w a data n :
    kernel_ok k -> fds k fd = Some g -> files k g = Some (OFile i pos true w a) -> contents k i = Some data ->
    (pos <= length data)%nat -> 0 < n -> Z.of_nat pos + n < 2 ^ 63 ->
    exists bs rest k', sys_read fd n k = Done (Z.of_nat (length bs), bs) k' /\ drop pos data = bs ++ rest
      /\ Z.of_nat (length bs) <= n /\ (bs = [] -> rest = [])
      /\ kernel_ok k' /\ keeps_files None k k' /\ moves g (OFile i (pos + length bs) true w a) k k' /\ (room k <= room k')%nat;
  write_file k fd g i pos r data bs :
    kernel_ok k -> fds k fd = Some g -> files k g = Some (OFile i pos r true false) -> contents k i = Some data ->
    (pos <= length data)%nat -> (pos + length bs <= max_file K)%nat -> (length bs <= room k)%nat ->
    exists k', sys_write fd bs k = Done (Z.of_nat (length bs)) k'
      /\ contents k' i = Some (take pos data ++ bs ++ drop (pos + length bs) data)
      /\ kernel_ok k' /\ keeps_files (Some i) k k' /\ moves g (OFile i (pos + length bs) r true false) k k'
      /\ (room k <= room k' + length bs)%nat;
  close_file k fd g :
    kernel_ok k -> fds k fd = Some g ->
    exists k', sys_close fd k = Done 0 k' /\ kernel_ok k' /\ keeps_files None k k'
      /\ (forall fd', fds k' fd' = if decide (fd' = fd) then None else fds k fd')
      /\ (forall fd' g', fds k' fd' = Some g' -> files k' g' = files k g');
}.

(** * The copying loop *)

Section files.
Context {K : Type} {posix : Posix K} {view : FileModel K} {laws : FileLaws K}.
Implicit Types (k : K) (x : option Z).

Lemma keeps_files_trans x k1 k2 k3 : keeps_files x k1 k2 -> keeps_files x k2 k3 -> keeps_files x k1 k3.
Proof.
  intros H12 H23 q i Hq. destruct (H12 q i Hq) as [Hq2 E2]. destruct (H23 q i Hq2) as [Hq3 E3].
  split; [done|]. intros Hx. by rewrite E3, E2.
Qed.

Lemma keeps_files_None x k k' : keeps_files None k k' -> keeps_files x k k'.
Proof. intros H q i Hq. destruct (H q i Hq) as [? E]. split; [done|]. intros _. by apply E. Qed.

Lemma keeps_files_contents k k' q i data : keeps_files None k k' -> leads k q = Some i -> contents k i = Some data -> contents k' i = Some data.
Proof. intros H Hq Hd. destruct (H q i Hq) as [_ E]. by rewrite E. Qed.

(** Two files being copied from one into the other. *)
Record copying (src dst : path) (ifd ofd gi go i j : Z) (pos : nat) (data out : list Z) (k : K) : Prop := Copying {
  cp_good : kernel_ok k;
  cp_src : leads k src = Some i;
  cp_dst : leads k dst = Some j;
  cp_in : fds k ifd = Some gi;
  cp_out : fds k ofd = Some go;
  cp_infile : files k gi = Some (OFile i pos true false false);
  cp_outfile : files k go = Some (OFile j (length out) false true false);
  cp_data : contents k i = Some data;
  cp_copy : contents k j = Some out;
  cp_pos : (pos <= length data)%nat;
}.

(** A read and a write of what was read. *)
Lemma copying_read src dst ifd ofd gi go i j pos data out k :
  copying src dst ifd ofd gi go i j pos data out k -> gi <> go -> (length data <= max_file K)%nat ->
  exists bs rest k', sys_read ifd 32768 k = Done (Z.of_nat (length bs), bs) k' /\ drop pos data = bs ++ rest /\ (bs = [] -> rest = [])
    /\ copying src dst ifd ofd gi go i j (pos + length bs) data out k'
    /\ keeps_files (Some j) k k' /\ (forall fd, fds k' fd = fds k fd) /\ (forall g, g <> gi -> files k' g = files k g) /\ (room k <= room k')%nat.
Proof.
  intros [] Hg Hlen. pose proof max_file_range as Hmax. destruct (read_file k ifd gi i pos false false data 32768) as (bs & rest & k' & E & Ed & _ & Hend & Hgood & Hk & (Hf & Hfd & Ho) & Hr); try done; [lia|].
  exists bs, rest, k'. split_and!; try done; [|by apply keeps_files_None].
  assert (length (drop pos data) = length (bs ++ rest)) as El by by rewrite Ed. rewrite length_drop, length_app in El.
  split; rewrite ?Hfd, ?Ho by done; try done; try (by eapply keeps_files_contents); try (by apply Hk). lia.
Qed.

Lemma copying_write src dst ifd ofd gi go i j pos data out bs k :
  copying src dst ifd ofd gi go i j pos data out k -> gi <> go -> i <> j ->
  (length out + length bs <= max_file K)%nat -> (length bs <= room k)%nat ->
  exists k', sys_write ofd bs k = Done (Z.of_nat (length bs)) k'
    /\ copying src dst ifd ofd gi go i j pos data (out ++ bs) k'
    /\ keeps_files (Some j) k k' /\ (forall fd, fds k' fd = fds k fd) /\ (forall g, g <> go -> files k' g = files k g)
    /\ (room k <= room k' + length bs)%nat.
Proof.
  intros [] Hg Hij Hmax Hroom. destruct (write_file k ofd go j (length out) false out bs) as (k' & E & Hc & Hgood & Hk & (Hf & Hfd & Ho) & Hr); try done.
  exists k'. split_and!; try done. rewrite take_ge, drop_ge, app_nil_r in Hc by lia.
  split; rewrite ?Hfd, ?Ho, ?length_app by done; try done; try (by apply (Hk _ _ cp_src0)); try (by apply (Hk _ _ cp_dst0)).
  destruct (Hk _ _ cp_src0) as [_ Ei]. rewrite Ei; [done|]. congruence.
Qed.

(** A loop that has copied up to the same place of both files goes on to the end
    of the first one. *)
Lemma cp_loop_run cmd in_file out_file src dst ifd ofd gi go i j data n : forall fuel k pos out,
  (length (drop pos data) <= n)%nat -> (n < fuel)%nat -> gi <> go -> i <> j ->
  copying src dst ifd ofd gi go i j pos data out k ->
  (length data <= max_file K)%nat -> (length out + length (drop pos data) <= max_file K)%nat -> (length (drop pos data) <= room k)%nat ->
  exists k' ipos, cp_loop fuel cmd in_file ifd out_file ofd k = Done 1 k'
    /\ copying src dst ifd ofd gi go i j ipos data (out ++ drop pos data) k'
    /\ keeps_files (Some j) k k' /\ (forall fd, fds k' fd = fds k fd)
    /\ (forall g, g <> gi -> g <> go -> files k' g = files k g).
Proof.
  induction n as [|n IH]; intros fuel k pos out Hn Hf Hg Hij Hc Hlen Hmax Hroom; (destruct fuel as [|fuel]; [lia|]); cbn [cp_loop].
  all: destruct (copying_read _ _ _ _ _ _ _ _ _ _ _ _ Hc Hg Hlen) as (bs & rest & k1 & Er & Ed & Hend & Hc1 & Hk1 & Hfd1 & Ho1 & Hr1).
  all: unfold bind at 1; rewrite Er; cbn [fst snd]; rewrite Ed, length_app in Hn, Hroom, Hmax; destruct bs as [|b bs].
  1,3: rewrite (Hend eq_refl) in Ed; cbn in Ed; exists k1, (pos + 0)%nat; rewrite Ed, app_nil_r; split_and!; try done; intros; by apply Ho1.
  - cbn in Hn. lia.
  - cbn [length] in *. destruct (Z.ltb_spec 0 (Z.of_nat (S (length bs)))); [|lia].
    destruct (copying_write _ _ _ _ _ _ _ _ _ _ _ (b :: bs) _ Hc1 Hg Hij) as (k2 & Ew & Hc2 & Hk2 & Hfd2 & Ho2 & Hr2); [cbn [length]; lia..|].
    unfold bind at 1. rewrite Ew. destruct (Z.ltb_spec (Z.of_nat (length (b :: bs))) 0); [lia|].
    assert (Edrop : drop (pos + S (length bs)) data = rest) by (rewrite <- drop_drop, Ed; exact (drop_app_length (b :: bs) rest)).
    cbn [length] in Hr2. destruct (IH fuel k2 (pos + S (length bs))%nat (out ++ b :: bs)) as (k' & ipos & E & Hc' & Hk' & Hfd' & Ho'); try done.
    all: rewrite ?Edrop, ?length_app; cbn [length]; try lia.
    exists k', ipos. split; [done|]. rewrite Edrop, <- app_assoc in Hc'. rewrite Ed. split_and!; [done| | |].
    + by eapply keeps_files_trans, keeps_files_trans.
    + intros fd. by rewrite Hfd', Hfd2, Hfd1.
    + intros g Hgi Hgo. by rewrite Ho', Ho2, Ho1.
Qed.

Lemma not_std k fd : (forall n, 0 <= n <= 2 -> is_Some (fds k n)) -> 0 <= fd -> fds k fd = None -> is_std_stream fd = false.
Proof. intros Hstd Hfd Hnone. unfold is_std_stream. destruct (Z.leb_spec 0 fd), (Z.leb_spec fd 2); try done. destruct (Hstd fd ltac:(lia)). congruence. Qed.

(** [cat] of a file with its output redirected to an open, empty file: the copy
    is made, and both descriptors are closed. *)
Lemma cat_run fuel k k1 ofd go ifd src dst i j data :
  kernel_ok k -> leads k src = Some i -> contents k i = Some data -> leads k dst = Some j -> contents k j = Some [] -> i <> j ->
  fds k ofd = Some go -> files k go = Some (OFile j 0 false true false) -> (forall n, 0 <= n <= 2 -> is_Some (fds k n)) ->
  sys_open src U_RDONLY k = Done ifd k1 -> 0 <= ifd -> (length data < fuel)%nat -> (length data <= max_file K)%nat -> (length data <= room k1)%nat ->
  exists k', execute (S fuel) [str "cat"; src] [Redirect ofd 1] k = Done (Status 0) k' /\ kernel_ok k' /\ leads k' dst = Some j /\ contents k' j = Some data
    /\ keeps_files (Some j) k k' /\ (forall fd, fds k' fd = if decide (fd = ofd) then None else fds k fd)
    /\ (forall fd g, fd <> ofd -> fds k fd = Some g -> g <> go -> files k' g = files k g).
Proof.
  intros Hgood Hsrc Hdata Hdst Hempty Hij Hofd Hgo Hstd E1 Hi0 Hf Hmax Hroom. cbn [execute arg nth].
  replace (find_cmd (str "cat") _) with (Some (Cmd (str "cat") (cmd_cat (S fuel)) (str "display file"))) by reflexivity.
  cbn [cmd_func]. set (io := build_ioenv _).
  destruct (open_read k src i data ifd k1) as (Hg1 & Hk1 & Hfree & gi & Hnew & Hgi & Hfd1 & Ho1); try done.
  assert (gi <> go) as Hg by (intros ->; by apply (Hnew ofd)). assert (ofd <> ifd) as Hio by (intros ->; congruence).
  assert (copying src dst ifd ofd gi go i j 0 data [] k1) as Hc1.
  { split; rewrite ?Hfd1, ?decide_True, ?decide_False, ?Ho1 by done; try done; try (by apply Hk1); try (by eapply keeps_files_contents). lia. }
  destruct (cp_loop_run (str "cat") src (str "<stdout>") src dst ifd ofd gi go i j data (length data) (S fuel) k1 0 []) as (k2 & ipos & E2 & Hc2 & Hk2 & Hfd2 & Ho2); rewrite ?drop_0; try done; [lia|].
  rewrite drop_0 in Hc2. cbn [app] in Hc2.
  destruct (close_file k2 ifd gi) as (k3 & E3 & Hg3 & Hk3 & Hfd3 & Ho3); [apply Hc2..|].
  assert (Hcat : cmd_cat (S fuel) [str "cat"; src] io k = Done (Status 0) k3).
  { unfold cmd_cat. replace (argc _ =? 1) with false by reflexivity. cbn [tail cat_loop]. unfold bind at 1 2. rewrite E1. destruct (Z.ltb_spec ifd 0); [lia|].
    unfold do_cp. rewrite (not_std k ifd) by done. replace (if is_std_stream 1 then map_fd io 1 else 1) with ofd by reflexivity. by rewrite (bind_done _ _ _ _ _ E2), (bind_done _ _ _ _ _ E3). }
  rewrite (bind_done _ _ _ _ _ Hcat). unfold cleanup_redirects. cbn [for_each r_sfd].
  destruct (close_file k3 ofd go) as (k4 & E4 & Hg4 & Hk4 & Hfd4 & Ho4); [done|rewrite Hfd3, decide_False by done; apply Hc2|].
  exists k4. split; [unfold bind; by rewrite E4|]. destruct Hc2.
  assert (keeps_files None k2 k4) as Hk24 by by eapply keeps_files_trans. split_and!; [done|by apply Hk24|by eapply keeps_files_contents| | |].
  - eapply keeps_files_trans; [by apply keeps_files_None|]. eapply keeps_files_trans; [done|by apply keeps_files_None].
  - intros fd. rewrite Hfd4, Hfd3, Hfd2, Hfd1. repeat case_decide; try done. by subst.
  - intros fd g Hfd Hfg Hgg. assert (fd <> ifd) as Hfi by (intros ->; congruence).
    assert (g <> gi) as Hgi' by (intros ->; by apply (Hnew fd)).
    assert (fds k3 fd = Some g) as H3 by (by rewrite Hfd3, decide_False, Hfd2, Hfd1, decide_False).
    rewrite (Ho4 fd), (Ho3 fd), Ho2, Ho1 by (rewrite ?Hfd4, ?decide_False; done). done.
Qed.
End files.
(** * A kernel with files in memory *)

Record ram : Type := Ram { ram_files : gmap path (list Z); ram_fds : gmap Z (path * nat); ram_free : nat; ram_errno : Z }.

Section ram.
Definition ram_error {A} (e : Z) (a : A) : M ram A := do! modify (fun k => Ram (ram_files k) (ram_fds k) (ram_free k) e); ret a.

(** A descriptor above all that are in use. *)
Definition ram_fresh (k : ram) : Z := foldr (fun x m => Z.max (x.1 + 1) m) 0 (map_to_list (ram_fds k)).

Definition ram_install (x : path * nat) : M ram Z :=
  let! k := get in
  let fd := ram_fresh k in
  do! modify (fun k => Ram (ram_files k) (<[fd := x]> (ram_fds k)) (ram_free k) (ram_errno k));
  ret fd.

Definition ram_open (p : path) (mode : Z) : M ram Z :=
  let! k := get in
  match ram_files k !! p with
  | None => if Z.land mode U_CREAT =? 0 then ram_error ENOENT (-1) else
      do! modify (fun k => Ram (<[p := []]> (ram_files k)) (ram_fds k) (ram_free k) (ram_errno k));
      ram_install (p, 0%nat)
  | Some _ =>
      do! (if Z.land mode U_TRUNC =? 0 then ret tt else modify (fun k => Ram (<[p := []]> (ram_files k)) (ram_fds k) (ram_free k) (ram_errno k)));
      ram_install (p, 0%nat)
  end.

Definition ram_close (fd : Z) : M ram Z :=
  let! k := get in
  match ram_fds k !! fd with
  | None => ram_error EBADF (-1)
  | Some _ => do! modify (fun k => Ram (ram_files k) (delete fd (ram_fds k)) (ram_free k) (ram_errno k)); ret 0
  end.

(** The open file [fd]. *)
Definition ram_file (fd : Z) (k : ram) : option (path * nat * list Z) :=
  x ← ram_fds k !! fd; data ← ram_files k !! x.1; Some (x, data).

Definition ram_read (fd n : Z) : M ram (Z * list Z) :=
  let! k := get in
  match ram_file fd k with
  | None => ram_error EBADF (-1, [])
  | Some (p, pos, data) =>
      let bs := take (Z.to_nat n) (drop pos data) in
      do! modify (fun k => Ram (ram_files k) (<[fd := (p, (pos + length bs)%nat)]> (ram_fds k)) (ram_free k) (ram_errno k));
      ret (Z.of_nat (length bs), bs)
  end.

Definition ram_write (fd : Z) (bs : list Z) : M ram Z :=
  let! k := get in
  match ram_file fd k with
  | None => ram_error EBADF (-1)
  | Some (p, pos, data) =>
      if (length bs <=? ram_free k)%nat then
        do! put (Ram (<[p := take pos data ++ bs ++ drop (pos + length bs) data]> (ram_files k)) (<[fd := (p, (pos + length bs)%nat)]> (ram_fds k)) (ram_free k - length bs) (ram_errno k));
        ret (Z.of_nat (length bs))
      else ram_error ENOSPC (-1)
  end.

Definition ram_dup (fd : Z) : M ram Z :=
  let! k := get in
  match ram_fds k !! fd with
  | None => ram_error EBADF (-1)
  | Some x => ram_install x
  end.
End ram.

(** It has files only: no directories, processes or memory to map. *)
#[export] Instance ram_posix : Posix ram := {
  errno := ram_errno;
  strerror e := str "error";
  sys_open := ram_open;
  sys_close := ram_close;
  sys_read := ram_read;
  sys_write := ram_write;
  sys_lseek _ _ _ := ram_error EBADF (-1);
  sys_dup := ram_dup;
  sys_dup2 _ _ := ram_error EBADF (-1);
  sys_link _ _ := ram_error ENOENT (-1);
  sys_rename _ _ := ram_error ENOENT (-1);
  sys_unlink _ := ram_error ENOENT (-1);
  sys_mkdir _ := ram_error ENOENT (-1);
  sys_rmdir _ := ram_error ENOENT (-1);
  sys_chdir _ := ram_error ENOENT (-1);
  sys_sync := ret tt;
  sys_time := ret 0;
  sys_mmap _ _ _ _ := ram_error EBADF (-1);
  sys_munmap _ _ := ram_error EBADF (-1);
  sys_sbrk _ := ram_error EBADF (-1);
  malloc _ := ret 0;
  free _ := ret tt;
  load _ _ := fail Fault;
  store _ _ _ := fail Fault;
  fputs fd l := do! ram_write fd l; ret tt;
  sys_fork _ := ram_error EBADF (-1);
  sys_execve _ _ := ram_error ENOENT false;
  sys_wait := ram_error EBADF (-1, 0);
  envp _ := [];
}.
