(* ===== verification/ShParse.v ===== *)
(** The parser of the shell: a command line of words and redirections is run as
    its parts say, the files opened from left to right and the words passed as
    the arguments of the command. *)

From S2P Require Import Prelude CString Printf Strtol Sh ShFiles.

(** * The syntax of a line *)

(** A word; a redirection of the descriptor [fd] (the standard one when it is
    empty) from or to a file, or to a duplicate of another descriptor. *)
Inductive piece : Type :=
| PWord (w : list Z)
| PFile (fd : list Z) (out app : bool) (sp path : list Z)
| PDup (fd : list Z) (out : bool) (sp ds : list Z).

Definition symbol (out : bool) : Z := if out then 62 else 60.

Definition piece_text (p : piece) : list Z :=
  match p with
  | PWord w => w
  | PFile fd out app sp path => fd ++ symbol out :: (if app then [62] else []) ++ sp ++ path
  | PDup fd out sp ds => fd ++ symbol out :: 38 :: sp ++ ds
  end.

(** A line: the white space before each piece, and the piece. *)
Definition line_text (ps : list (list Z * piece)) : list Z := concat (map (fun x => x.1 ++ piece_text x.2) ps).

Definition space (c : Z) : Prop := c <> 0 /\ isspace c = true /\ sh_isredirect c = false.
Definition graphic (c : Z) : Prop := c <> 0 /\ isspace c = false /\ sh_isredirect c = false.
Definition decimal (c : Z) : Prop := 48 <= c <= 57.

(** The number that decimal digits denote. *)
Definition num (ds : list Z) : Z := number 10 (map (fun c => c - 48) ds) 0.

Definition fd_ok (fd : list Z) : Prop := Forall decimal fd /\ num fd < 2 ^ 31.

(** A word that is a number would be taken for a descriptor by a redirection
    after it. *)
Definition piece_ok (p : piece) : Prop :=
  match p with
  | PWord w => Forall graphic w /\ Exists (fun c => isdigit c = false) w
  | PFile fd out app sp path =>
      fd_ok fd /\ (app = true -> out = true) /\ Forall space sp /\ Forall graphic path /\ exists c path', path = c :: path' /\ c <> 38
  | PDup fd out sp ds => fd_ok fd /\ Forall space sp /\ fd_ok ds /\ ds <> []
  end.

Definition is_word (p : piece) : bool := match p with PWord _ => true | _ => false end.

(** The white space before a piece; only a first word needs none. *)
Definition seps_ok (ps : list (list Z * piece)) : Prop :=
  Forall (fun x => Forall space x.1) ps /\
  match ps with
  | [] => True
  | x :: ps => (x.1 <> [] \/ is_word x.2 = true) /\ Forall (fun x => x.1 <> []) ps
  end.

Definition words_of (ps : list (list Z * piece)) : list (list Z) :=
  omap (fun x => match x.2 with PWord w => Some w | _ => None end) ps.

(** * What a line means *)

Section meaning.
Context {K : Type} {posix : Posix K}.

Definition fd_of (fd : list Z) (out : bool) : Z := match fd with [] => if out then 1 else 0 | _ => num fd end.

Definition mode_of (out app : bool) : Z :=
  if out then Z.lor (Z.lor U_WRONLY U_CREAT) (if app then U_APPEND else U_TRUNC) else U_RDONLY.

(** A redirection; one that fails is reported. *)
Definition redirection (p : piece) (map : redirect_map) : M K (option redirect_map) :=
  match p with
  | PWord _ => ret (Some map)
  | PFile fd out app _ path =>
      let! sfd := sys_open path (mode_of out app) in
      if sfd <? 0 then
        do! complain_errno (str "sh: unable to open " ++ path);
        ret None
      else
        let! map := add_redirect map sfd (fd_of fd out) in
        ret (Some map)
  | PDup fd out _ ds =>
      let! sfd := sys_dup (num ds) in
      if sfd <? 0 then
        do! complain (str "sh: invalid file descriptor: " ++ dec (num ds) ++ NL);
        ret None
      else
        let! map := add_redirect map sfd (fd_of fd out) in
        ret (Some map)
  end.

(** The redirections are made from left to right, up to the first that fails. *)
Fixpoint redirections (ps : list (list Z * piece)) (map : redirect_map) : M K (option redirect_map) :=
  match ps with
  | [] => ret (Some map)
  | x :: ps =>
      let! r := redirection x.2 map in
      match r with
      | None => ret None
      | Some map => redirections ps map
      end
  end.

Definition meaning (fuel : nat) (ps : list (list Z * piece)) : M K flow :=
  let! map := redirections ps [] in
  match map, words_of ps with
  | None, _ | _, [] => ret (Status 0)
  | Some map, argv => execute fuel argv map
  end.
End meaning.

(** * The array that is parsed *)

Section parse_proofs.
Context {K : Type} {posix : Posix K}.
Implicit Types (k : K) (l : list Z).

(** The shell with the kernel [k] and the line [l]. *)
Definition at_line (s : shell K) k l : shell K :=
  if at_prev s then Shell k (linebuf s) l true else Shell k l (prev_linebuf s) false.

Lemma line_at_line s k l : line (at_line s k l) = l.
Proof. unfold line, at_line. by destruct (at_prev s). Qed.

Lemma lift_at_line {A} (m : M K A) s k l : lift m (at_line s k l) = match m k with Done a k' => Done a (at_line s k' l) | Failed f => Failed f end.
Proof. unfold lift, zoom, at_line. by destruct (at_prev s); cbn; destruct (m k). Qed.

Lemma peek_at s k l (i : nat) c : l !! i = Some c -> peek (Z.of_nat i) (at_line s k l) = Done c (at_line s k l).
Proof. intros Hc. unfold peek, bind, get. rewrite line_at_line. destruct (Z.ltb_spec (Z.of_nat i) 0); [lia|]. by rewrite Nat2Z.id, Hc. Qed.

Lemma poke_at s k l (i : nat) c : (i < length l)%nat -> poke (Z.of_nat i) c (at_line s k l) = Done tt (at_line s k (<[i := c]> l)).
Proof.
  intros Hi. destruct (lookup_lt_is_Some_2 _ _ Hi) as [x Hx]. unfold poke. rewrite (bind_done _ _ _ _ _ (peek_at s k l i x Hx)). unfold modify, set_line. rewrite line_at_line, Nat2Z.id.
  unfold at_line. by destruct (at_prev s).
Qed.

Lemma string_at_line s k l (i : nat) : string_at (Z.of_nat i) (at_line s k l) = Done (until_nul (drop i l)) (at_line s k l).
Proof. unfold string_at, bind, get, ret. by rewrite line_at_line, Nat2Z.id. Qed.

Lemma until_nul_app (t r : list Z) : Forall (fun c => c <> 0) t -> until_nul (t ++ 0 :: r) = t.
Proof. induction 1 as [|c t Hc Ht IH]; cbn; [done|]. destruct (Z.eqb_spec c 0); [done|]. by rewrite IH. Qed.

(** A pointer that moves over [t] and stops at [c]. *)
Lemma skip_run fuel test s k (pre t : list Z) c r :
  Forall (fun x => x <> 0 /\ test x = true) t -> c = 0 \/ test c = false -> (length t < fuel)%nat ->
  skip fuel test (Z.of_nat (length pre)) (at_line s k (pre ++ t ++ c :: r)) = Done (Z.of_nat (length (pre ++ t))) (at_line s k (pre ++ t ++ c :: r)).
Proof.
  intros Ht Hc. revert fuel pre. induction Ht as [|x t [Hx Htx] Ht IH]; intros fuel pre Hf; (destruct fuel as [|fuel]; [cbn in Hf; lia|]); cbn [skip app].
  - rewrite (bind_done _ _ _ _ _ (peek_at s k _ _ c (list_lookup_middle _ _ _ _ eq_refl))). rewrite app_nil_r.
    destruct Hc as [->|Hc]; [done|]. by rewrite Hc, andb_false_r.
  - rewrite (bind_done _ _ _ _ _ (peek_at s k _ _ x (list_lookup_middle _ _ _ _ eq_refl))). destruct (Z.eqb_spec x 0); [done|]. rewrite Htx. cbn [negb andb].
    replace (Z.of_nat (length pre) + 1) with (Z.of_nat (length (pre ++ [x]))) by (rewrite length_app; cbn; lia).
    replace (pre ++ x :: t ++ c :: r) with ((pre ++ [x]) ++ t ++ c :: r) by (by rewrite <- app_assoc). rewrite IH by (cbn in Hf; lia). by rewrite <- !app_assoc.
Qed.

(** A pointer that moves back over [t] and stops at the character before it, or
    at the start. *)
Lemma skip_back_run fuel test s k (pre t r : list Z) :
  Forall (fun x => test x = true) t -> t <> [] -> (length t < fuel)%nat ->
  (exists a x, pre = a ++ [x] /\ test x = false) ->
  skip_back fuel test (Z.of_nat (length pre + length t) - 1) (at_line s k (pre ++ t ++ r)) = Done (Z.of_nat (length pre) - 1) (at_line s k (pre ++ t ++ r)).
Proof.
  intros Ht Hne Hf (a & x & -> & Hx). revert fuel r Hne Hf. induction t as [|y t IH] using rev_ind; intros fuel r Hne Hf; [done|]. apply Forall_app in Ht as [Ht Hy]. apply Forall_cons in Hy as [Hy _].
  destruct fuel as [|fuel]; [lia|]. cbn [skip_back]. rewrite !length_app in *. cbn [length] in *. destruct (Z.eqb_spec (Z.of_nat (length a + 1 + (length t + 1)) - 1) 0); [lia|].
  replace (Z.of_nat (length a + 1 + (length t + 1)) - 1) with (Z.of_nat (length ((a ++ [x]) ++ t))) by (rewrite !length_app; cbn; lia).
  replace ((a ++ [x]) ++ (t ++ [y]) ++ r) with (((a ++ [x]) ++ t) ++ y :: r) by (by rewrite <- !app_assoc).
  rewrite (bind_done _ _ _ _ _ (peek_at s k _ _ y (list_lookup_middle _ _ _ _ eq_refl))), Hy. destruct t as [|z t].
  - rewrite app_nil_r in *. replace (Z.of_nat (length (a ++ [x])) - 1) with (Z.of_nat (length a)) by (rewrite length_app; cbn; lia). cbn [length] in Hf.
    destruct fuel as [|fuel]; [lia|]. replace (Z.of_nat (length a + 1) - 1) with (Z.of_nat (length a)) by lia. cbn [skip_back]. destruct (Z.eqb_spec (Z.of_nat (length a)) 0); [done|].
    rewrite <- app_assoc. cbn [app]. rewrite (bind_done _ _ _ _ _ (peek_at s k _ _ x (list_lookup_middle _ _ _ _ eq_refl))), Hx. done.
  - replace (Z.of_nat (length ((a ++ [x]) ++ z :: t)) - 1) with (Z.of_nat (length a + 1 + length (z :: t)) - 1) by (rewrite !length_app; cbn; lia).
    rewrite <- app_assoc. rewrite (IH Ht fuel (y :: r)) by (done || lia). done.
Qed.

Lemma skip_back_stop fuel test s k l (i : nat) c : l !! i = Some c -> test c = false -> skip_back (S fuel) test (Z.of_nat i) (at_line s k l) = Done (Z.of_nat i) (at_line s k l).
Proof. intros Hc Ht. cbn [skip_back]. destruct (Z.eqb_spec (Z.of_nat i) 0); [done|]. by rewrite (bind_done _ _ _ _ _ (peek_at s k l i c Hc)), Ht. Qed.

Lemma skip_back_all fuel test s k (t r : list Z) (i : nat) :
  Forall (fun x => test x = true) t -> (i < length t)%nat -> (i < fuel)%nat -> skip_back fuel test (Z.of_nat i) (at_line s k (t ++ r)) = Done 0 (at_line s k (t ++ r)).
Proof.
  intros Ht. revert fuel. induction i as [|i IH]; intros fuel Hi Hf; (destruct fuel as [|fuel]; [lia|]); cbn [skip_back]; [done|].
  destruct (Z.eqb_spec (Z.of_nat (S i)) 0); [lia|]. destruct (lookup_lt_is_Some_2 t (S i) Hi) as [c Hc].
  assert (Hc' : (t ++ r) !! S i = Some c) by (by rewrite lookup_app_l by lia). rewrite (bind_done _ _ _ _ _ (peek_at s k _ _ c Hc')), (Forall_lookup_1 _ _ _ _ Ht Hc).
  replace (Z.of_nat (S i) - 1) with (Z.of_nat i) by lia. apply IH; lia.
Qed.

(** What stands before a redirection without a descriptor: no number. *)
Definition no_number (A : list Z) : Prop :=
  exists b sp, A = b ++ sp /\ Forall (fun c => isspace c = true) sp /\
    (b = [] \/ exists b' x ds, b = b' ++ x :: ds /\ isdigit x = false /\ isspace x = false /\ Forall (fun c => isdigit c = true) ds).

Lemma digit_no_space c : isdigit c = true -> isspace c = false.
Proof.
  unfold isdigit, isspace, __ismask. set (z := Z.to_nat (c mod 256)). assert (Hz : (z < 256)%nat) by (pose proof (Z.mod_pos_bound c 256 ltac:(lia)); subst z; lia). clearbody z.
  assert (Hall : forallb (fun n => implb (negb (Z.land (nth n _ctype 0) _D =? 0)) (Z.land (nth n _ctype 0) _S =? 0)) (seq 0 256) = true) by (vm_compute; reflexivity).
  rewrite forallb_forall in Hall. specialize (Hall z ltac:(apply in_seq; lia)). cbv beta in Hall. intros Hd. rewrite Hd in Hall. destruct (Z.land (nth z _ctype 0) _S =? 0); [done|discriminate Hall].
Qed.

Lemma insert_mid {A} (pre : list A) x y post : <[length pre := y]> (pre ++ x :: post) = pre ++ y :: post.
Proof. by rewrite insert_app_r_alt, Nat.sub_diag by lia. Qed.

Definition short (l : list Z) : Prop := (length l <= Z.to_nat LINEBUF_SIZE)%nat.

Lemma dfd_default s k A ty B :
  no_number A -> short (A ++ ty :: B) -> exists x, parse_redirect_dfd (Z.of_nat (length A)) (at_line s k (A ++ ty :: B)) = Done (-1, Z.of_nat (length A)) (at_line s k (A ++ x :: B)).
Proof.
  intros (b & sp & -> & Hsp & Hb) Hsh. unfold parse_redirect_dfd, short in *. rewrite !length_app in Hsh. cbn [length] in Hsh.
  destruct (Z.eqb_spec (Z.of_nat (length (b ++ sp))) 0) as [E|E]; [by exists ty|]. exists 0. rewrite length_app in E.
  rewrite (bind_done _ _ _ tt _ (poke_at s k ((b ++ sp) ++ ty :: B) (length (b ++ sp)) 0 ltac:(rewrite !length_app; cbn; lia))), insert_mid.
  destruct Hb as [->|(b' & x & ds & -> & Hxd & Hxs & Hds)].
  { cbn [app length] in *. replace (Z.of_nat (length sp) - 1) with (Z.of_nat (length sp - 1)) by lia.
    rewrite (bind_done _ _ _ _ _ (skip_back_all scan_fuel isspace s k sp (0 :: B) (length sp - 1) Hsp ltac:(lia) ltac:(unfold scan_fuel; lia))). done. }
  assert (Hback : skip_back scan_fuel isspace (Z.of_nat (length ((b' ++ x :: ds) ++ sp)) - 1) (at_line s k (((b' ++ x :: ds) ++ sp) ++ 0 :: B)) =
    Done (Z.of_nat (length (b' ++ x :: ds)) - 1) (at_line s k (((b' ++ x :: ds) ++ sp) ++ 0 :: B))).
  { assert (Hlast : exists a y, b' ++ x :: ds = a ++ [y] /\ isspace y = false).
    { destruct ds as [|d ds _] using rev_ind; [by exists b', x|]. exists (b' ++ x :: ds), d. split; [by rewrite <- app_assoc|]. apply Forall_app in Hds as [_ Hd]. apply digit_no_space. by inversion Hd. }
    destruct sp as [|c sp].
    - rewrite !app_nil_r. destruct Hlast as (a & y & -> & Hy). replace (Z.of_nat (length (a ++ [y])) - 1) with (Z.of_nat (length a)) by (rewrite length_app; cbn; lia).
      rewrite <- app_assoc. by apply (skip_back_stop _ _ _ _ _ _ y); [by apply list_lookup_middle|].
    - rewrite length_app, <- app_assoc. apply skip_back_run; [done|done|unfold scan_fuel; rewrite !length_app in *; cbn in *; lia|done]. }
  rewrite (bind_done _ _ _ _ _ Hback). destruct (Z.eqb_spec (Z.of_nat (length (b' ++ x :: ds)) - 1) 0) as [E0|E0]; [done|].
  assert (Hdig : skip_back scan_fuel isdigit (Z.of_nat (length (b' ++ x :: ds)) - 1) (at_line s k (((b' ++ x :: ds) ++ sp) ++ 0 :: B)) =
    Done (Z.of_nat (length b')) (at_line s k (((b' ++ x :: ds) ++ sp) ++ 0 :: B))).
  { destruct ds as [|d ds].
    - replace (Z.of_nat (length (b' ++ [x])) - 1) with (Z.of_nat (length b')) by (rewrite length_app; cbn; lia). rewrite <- !app_assoc. by apply (skip_back_stop _ _ _ _ _ _ x); [by apply list_lookup_middle|].
    - replace (((b' ++ x :: d :: ds) ++ sp) ++ 0 :: B) with ((b' ++ [x]) ++ (d :: ds) ++ sp ++ 0 :: B) by (by rewrite <- !app_assoc).
      replace (Z.of_nat (length (b' ++ x :: d :: ds)) - 1) with (Z.of_nat (length (b' ++ [x]) + length (d :: ds)) - 1) by (rewrite !length_app; cbn; lia).
      replace (Z.of_nat (length b')) with (Z.of_nat (length (b' ++ [x])) - 1) by (rewrite length_app; cbn; lia).
      apply skip_back_run; [done|done|unfold scan_fuel; rewrite !length_app in *; cbn in *; lia|by exists b', x]. }
  rewrite (bind_done _ _ _ _ _ Hdig). rewrite <- !app_assoc. cbn [app].
  rewrite (bind_done _ _ _ _ _ (peek_at s k _ _ x (list_lookup_middle _ _ _ _ eq_refl))). by rewrite Hxs, Hxd.
Qed.

Lemma decimal_digit c : decimal c -> digit c = Some (c - 48) /\ isdigit c = true /\ c <> 0.
Proof.
  intros Hc. unfold decimal in Hc. assert (c ∈ seqZ 48 10) as Hin by (apply elem_of_seqZ; lia). vm_compute in Hin.
  repeat (apply elem_of_cons in Hin as [->|Hin]; [by vm_compute|]). by apply elem_of_nil in Hin.
Qed.

Lemma strtol_num sp ds r :
  Forall (fun c => isspace c = true) sp -> ds <> [] -> Forall decimal ds -> num ds < 2 ^ 31 -> r = [] \/ (exists c r', r = c :: r' /\ c <> 0 /\ digit c = None) ->
  s32 (value (strtol (sp ++ ds ++ r) 10)) = num ds.
Proof.
  intros Hsp Hne Hds Hlt Hr. destruct ds as [|c cs]; [done|].
  assert (H2 : Forall2 digit_char (c :: cs) (map (fun c => c - 48) (c :: cs))).
  { clear -Hds. induction Hds as [|x l Hx Hl IH]; constructor; [by apply decimal_digit|done]. }
  assert (Hpos : 0 <= num (c :: cs)).
  { apply number_ge; [lia|lia|]. apply Forall_map. eapply Forall_impl; [exact Hds|]. intros x Hx. unfold decimal in Hx. lia. }
  change (sp ++ (c :: cs) ++ r) with (sp ++ sign_text None ++ c :: cs ++ r).
  rewrite (strtol_correct sp None c cs (c - 48) (map (fun c => c - 48) cs) r 10); try done.
  - cbn [value signed]. change (number 10 (c - 48 :: map (fun c => c - 48) cs) 0) with (num (c :: cs)). unfold clamp, LONG_MIN, LONG_MAX, s32. rewrite Z.mod_small; lia.
  - apply (Forall_map (fun c => c - 48) (fun d => d < 10) (c :: cs)). eapply Forall_impl; [exact Hds|]. intros x Hx. unfold decimal in Hx. lia.
  - destruct Hr as [->|(x & r' & -> & Hx & Hd)]; [done|]. cbn. by rewrite Hd.
Qed.

Lemma dfd_explicit s k A c ds ty B :
  isspace c = true -> ds <> [] -> Forall decimal ds -> num ds < 2 ^ 31 -> c <> 0 -> short ((A ++ c :: ds) ++ ty :: B) ->
  parse_redirect_dfd (Z.of_nat (length (A ++ c :: ds))) (at_line s k ((A ++ c :: ds) ++ ty :: B)) = Done (num ds, Z.of_nat (length A)) (at_line s k ((A ++ c :: ds) ++ 0 :: B)).
Proof.
  intros Hc Hne Hds Hlt Hc0 Hsh. unfold parse_redirect_dfd, short in *. rewrite !length_app in Hsh. cbn [length] in Hsh. assert (1 <= length ds)%nat by (destruct ds; [done|cbn; lia]).
  destruct (Z.eqb_spec (Z.of_nat (length (A ++ c :: ds))) 0) as [E|_]; [rewrite length_app in E; cbn in E; lia|].
  rewrite (bind_done _ _ _ tt _ (poke_at s k ((A ++ c :: ds) ++ ty :: B) (length (A ++ c :: ds)) 0 ltac:(rewrite !length_app; cbn; lia))), insert_mid.
  assert (Hdig : Forall (fun c => isdigit c = true) ds) by (eapply Forall_impl; [exact Hds|]; intros x Hx; by apply decimal_digit).
  destruct ds as [|d ds _] using rev_ind; [done|]. set (L := (A ++ c :: ds ++ [d]) ++ 0 :: B).
  assert (EL : L = (A ++ c :: ds) ++ d :: 0 :: B) by (subst L; by rewrite <- !app_assoc, <- !app_comm_cons, <- app_assoc).
  assert (Hback : skip_back scan_fuel isspace (Z.of_nat (length (A ++ c :: ds ++ [d])) - 1) (at_line s k L) = Done (Z.of_nat (length (A ++ c :: ds))) (at_line s k L)).
  { replace (Z.of_nat (length (A ++ c :: ds ++ [d])) - 1) with (Z.of_nat (length (A ++ c :: ds))) by (rewrite !length_app; cbn; rewrite length_app; cbn; lia).
    apply (skip_back_stop _ _ _ _ _ _ d); [rewrite EL; by apply list_lookup_middle|]. apply digit_no_space. apply Forall_app in Hdig as [_ Hd]. by inversion Hd. }
  rewrite (bind_done _ _ _ _ _ Hback). destruct (Z.eqb_spec (Z.of_nat (length (A ++ c :: ds))) 0) as [E|_]; [rewrite length_app in E; cbn in E; lia|].
  assert (Hback2 : skip_back scan_fuel isdigit (Z.of_nat (length (A ++ c :: ds))) (at_line s k L) = Done (Z.of_nat (length A)) (at_line s k L)).
  { replace (Z.of_nat (length (A ++ c :: ds))) with (Z.of_nat (length (A ++ [c]) + length (ds ++ [d])) - 1) by (rewrite !length_app; cbn; lia).
    replace L with ((A ++ [c]) ++ (ds ++ [d]) ++ 0 :: B) by (subst L; rewrite <- !app_assoc; cbn [app]; by rewrite <- !app_assoc). replace (Z.of_nat (length A)) with (Z.of_nat (length (A ++ [c])) - 1) by (rewrite length_app; cbn; lia).
    apply skip_back_run; [done|done|unfold scan_fuel; rewrite length_app in *; cbn in *; lia|]. exists A, c. split; [done|]. destruct (isdigit c) eqn:Ed; [|done]. apply digit_no_space in Ed. congruence. }
  rewrite (bind_done _ _ _ _ _ Hback2). subst L. rewrite <- !app_assoc. cbn [app]. rewrite (bind_done _ _ _ _ _ (peek_at s k _ _ c (list_lookup_middle _ _ _ _ eq_refl))). rewrite Hc. cbn [orb negb].
  rewrite (bind_done _ _ _ _ _ (string_at_line s k _ (length A))), drop_app_length. change (c :: (ds ++ [d]) ++ 0 :: B) with ((c :: ds ++ [d]) ++ 0 :: B). rewrite until_nul_app.
  - unfold ret. do 2 f_equal. rewrite <- (app_nil_r (c :: ds ++ [d])). apply (strtol_num [c] (ds ++ [d]) []); [by constructor|done|done|done|by left].
  - constructor; [done|]. eapply Forall_impl; [exact Hds|]. intros x Hx. by apply decimal_digit.
Qed.

(** The loop that blanks a redirection. *)
Lemma blank_run s k (pre t post : list Z) :
  blank (length t) (Z.of_nat (length pre)) (at_line s k (pre ++ t ++ post)) = Done tt (at_line s k (pre ++ replicate (length t) 32 ++ post)).
Proof.
  revert pre. induction t as [|c t IH]; intros pre; cbn [length blank replicate app]; [done|].
  rewrite (bind_done _ _ _ tt _ (poke_at s k (pre ++ c :: t ++ post) (length pre) 32 ltac:(rewrite length_app; cbn; lia))), insert_mid.
  replace (Z.of_nat (length pre) + 1) with (Z.of_nat (length (pre ++ [32]))) by (rewrite length_app; cbn; lia).
  replace (pre ++ 32 :: t ++ post) with ((pre ++ [32]) ++ t ++ post) by (by rewrite <- app_assoc). rewrite IH. by rewrite <- app_assoc.
Qed.

(** The outcome of a kernel call with the line [L]. *)
Definition onto {A B} (s : shell K) (L : list Z) (f : A -> B) (o : outcome K A) : outcome (shell K) B :=
  match o with
  | Done a k => Done (f a) (at_line s k L)
  | Failed e => Failed e
  end.

Lemma bind_lift {A B} (m : M K A) (f : A -> M (shell K) B) s k L :
  bind (lift m) f (at_line s k L) = match m k with Done a k' => f a (at_line s k' L) | Failed e => Failed e end.
Proof. unfold bind. rewrite lift_at_line. by destruct (m k). Qed.

Lemma onto_bind {A B C} (m : M K A) (g : A -> M K B) (f : B -> C) s k L :
  onto s L f ((let! a := m in g a) k) = match m k with Done a k' => onto s L f (g a k') | Failed e => Failed e end.
Proof. unfold bind. by destruct (m k). Qed.

(** What [parse_redirect_norm] and [parse_redirect_dup] do in the kernel. *)
Definition redirected (r : option redirect_map) (stop : Z) : option (redirect_map * Z) := (fun map => (map, stop)) <$> r.

Definition spaces (t : list Z) : Prop := Forall space t.

Lemma spaces_run t : spaces t -> Forall (fun x => x <> 0 /\ isspace x = true) t.
Proof. intros H. eapply Forall_impl; [exact H|]. by intros x (? & ? & _). Qed.

Lemma graphic_run t : Forall graphic t -> Forall (fun x => x <> 0 /\ negb (isspace x) = true) t.
Proof. intros H. eapply Forall_impl; [exact H|]. intros x (? & Hs & _). by rewrite Hs. Qed.

Definition ends_word (e : Z) : Prop := e = 0 \/ space e.

Lemma ends_word_stop e : ends_word e -> e = 0 \/ negb (isspace e) = false.
Proof. intros [->|(_ & Hs & _)]; [by left|right]. by rewrite Hs. Qed.

Lemma norm_run map dfd mode s k (P sp path R : list Z) e :
  spaces sp -> Forall graphic path -> path <> [] -> ends_word e -> short (P ++ sp ++ path ++ e :: R) ->
  parse_redirect_norm map dfd mode (Z.of_nat (length P)) (at_line s k (P ++ sp ++ path ++ e :: R)) =
  onto s (P ++ sp ++ path ++ 0 :: R) (fun r => redirected r (Z.of_nat (length (P ++ sp ++ path)) + 1))
    ((let! sfd := sys_open path mode in
      if sfd <? 0 then do! complain_errno (str "sh: unable to open " ++ path); ret None
      else let! map := add_redirect map sfd dfd in ret (Some map)) k).
Proof.
  intros Hsp Hpath Hne He Hsh. unfold short in Hsh. rewrite !length_app in Hsh. cbn [length] in Hsh. destruct path as [|c path]; [done|]. unfold parse_redirect_norm.
  pose proof (Forall_inv Hpath) as (Hc0 & Hcs & _).
  assert (H1 := skip_run scan_fuel isspace s k P sp c (path ++ e :: R) (spaces_run _ Hsp) (or_intror Hcs) ltac:(unfold scan_fuel; lia)).
  rewrite <- app_comm_cons. rewrite (bind_done _ _ _ _ _ H1). rewrite app_assoc. rewrite (bind_done _ _ _ _ _ (peek_at s k _ _ c (list_lookup_middle _ _ _ _ eq_refl))).
  destruct (Z.eqb_spec c 0); [done|]. cbn [length] in Hsh.
  assert (H2 := skip_run scan_fuel (fun c => negb (isspace c)) s k (P ++ sp) (c :: path) e R (graphic_run _ Hpath) (ends_word_stop _ He) ltac:(unfold scan_fuel; cbn; lia)).
  cbn [app] in H2. rewrite (bind_done _ _ _ _ _ H2). rewrite app_comm_cons, app_assoc.
  rewrite (bind_done _ _ _ tt _ (poke_at s k (((P ++ sp) ++ c :: path) ++ e :: R) (length ((P ++ sp) ++ c :: path)) 0 ltac:(rewrite !length_app; cbn; lia))), insert_mid.
  rewrite (bind_done _ _ _ _ _ (string_at_line s k _ (length (P ++ sp)))). rewrite <- (app_assoc (P ++ sp)), drop_app_length, until_nul_app by (eapply Forall_impl; [exact Hpath|]; by intros x (? & _)).
  rewrite bind_lift, onto_bind. rewrite <- !app_assoc. destruct (sys_open (c :: path) mode k) as [sfd k'|f]; [|done]. destruct (sfd <? 0).
  - rewrite bind_lift, onto_bind. by destruct (complain_errno _ k').
  - rewrite bind_lift, onto_bind. by destruct (add_redirect map sfd dfd k').
Qed.

Lemma decimal_run ds : Forall decimal ds -> Forall (fun x => x <> 0 /\ isdigit x = true) ds.
Proof. intros H. eapply Forall_impl; [exact H|]. intros x Hx. by destruct (decimal_digit x Hx) as (_ & ? & ?). Qed.

Lemma dup_run map dfd s k (P sp ds R : list Z) e :
  spaces sp -> Forall decimal ds -> num ds < 2 ^ 31 -> ds <> [] -> ends_word e -> short (P ++ sp ++ ds ++ e :: R) ->
  parse_redirect_dup map dfd (Z.of_nat (length P)) (at_line s k (P ++ sp ++ ds ++ e :: R)) =
  onto s (P ++ sp ++ ds ++ 0 :: R) (fun r => redirected r (Z.of_nat (length (P ++ sp ++ ds)) + 1))
    ((let! sfd := sys_dup (num ds) in
      if sfd <? 0 then do! complain (str "sh: invalid file descriptor: " ++ dec (num ds) ++ NL); ret None
      else let! map := add_redirect map sfd dfd in ret (Some map)) k).
Proof.
  intros Hsp Hds Hlt Hne He Hsh. unfold short in Hsh. rewrite !length_app in Hsh. cbn [length] in Hsh.
  assert (Hnum := strtol_num [] ds [] ltac:(constructor) Hne Hds Hlt ltac:(by left)). cbn [app] in Hnum. rewrite app_nil_r in Hnum.
  destruct ds as [|c ds]; [done|]. unfold parse_redirect_dup. destruct (decimal_digit c (Forall_inv Hds)) as (_ & Hcd & Hc0).
  assert (H1 := skip_run scan_fuel isspace s k P sp c (ds ++ e :: R) (spaces_run _ Hsp) (or_intror (digit_no_space c Hcd)) ltac:(unfold scan_fuel; lia)).
  rewrite <- app_comm_cons. rewrite (bind_done _ _ _ _ _ H1). rewrite app_assoc. rewrite (bind_done _ _ _ _ _ (peek_at s k _ _ c (list_lookup_middle _ _ _ _ eq_refl))).
  destruct (Z.eqb_spec c 0); [done|]. rewrite Hcd. cbn [negb length] in *.
  assert (Hstop : e = 0 \/ isdigit e = false) by (destruct He as [->|(_ & Hs & _)]; [by left|right]; destruct (isdigit e) eqn:Ed; [apply digit_no_space in Ed; congruence|done]).
  assert (H2 := skip_run scan_fuel isdigit s k (P ++ sp) (c :: ds) e R (decimal_run _ Hds) Hstop ltac:(unfold scan_fuel; cbn; lia)).
  cbn [app] in H2. rewrite (bind_done _ _ _ _ _ H2). rewrite app_comm_cons, app_assoc.
  rewrite (bind_done _ _ _ _ _ (peek_at s k _ _ e (list_lookup_middle _ _ _ _ eq_refl))).
  assert (Hnb : negb (e =? 0) && negb (isspace e) = false) by (destruct (ends_word_stop e He) as [->| ->]; [done|apply andb_false_r]). rewrite Hnb.
  rewrite (bind_done _ _ _ tt _ (poke_at s k (((P ++ sp) ++ c :: ds) ++ e :: R) (length ((P ++ sp) ++ c :: ds)) 0 ltac:(rewrite !length_app; cbn; lia))), insert_mid.
  rewrite (bind_done _ _ _ _ _ (string_at_line s k _ (length (P ++ sp)))). rewrite <- (app_assoc (P ++ sp)), drop_app_length, until_nul_app by (eapply Forall_impl; [apply (decimal_run _ Hds)|]; by intros x (? & _)).
  rewrite bind_lift, onto_bind. rewrite <- !app_assoc. cbv zeta. rewrite Hnum. destruct (sys_dup (num (c :: ds)) k) as [sfd k'|f]; [|done]. destruct (sfd <? 0).
  - rewrite bind_lift, onto_bind. by destruct (complain _ k').
  - rewrite bind_lift, onto_bind. by destruct (add_redirect map sfd dfd k').
Qed.

(** * One redirection *)

Definition piece_fd (p : piece) : list Z := match p with PWord _ => [] | PFile fd _ _ _ _ | PDup fd _ _ _ => fd end.
Definition piece_out (p : piece) : bool := match p with PWord _ => false | PFile _ out _ _ _ | PDup _ out _ _ => out end.

(** The text before a redirection. *)
Definition before_ok (A fd : list Z) : Prop := match fd with [] => no_number A | _ => exists A' c, A = A' ++ [c] /\ space c end.

(** The text before it without the blank that is cleared with it. *)
Definition kept_before (A fd A1 : list Z) : Prop := match fd with [] => A1 = A | _ => exists c, space c /\ A = A1 ++ [c] end.

Lemma num_nonneg ds : Forall decimal ds -> 0 <= num ds.
Proof. intros H. apply number_ge; [lia|lia|]. apply Forall_map. eapply Forall_impl; [exact H|]. intros x Hx. unfold decimal in Hx. lia. Qed.

(** The descriptor of a redirection, and where the text to be cleared starts. *)
Lemma dfd_run {B} s k A fd (out : bool) T (f : Z -> Z -> M (shell K) B) :
  before_ok A fd -> fd_ok fd -> short ((A ++ fd) ++ symbol out :: T) ->
  exists A1 x, kept_before A fd A1 /\
    (let! d := parse_redirect_dfd (Z.of_nat (length (A ++ fd))) in
     let! dfd := (if d.1 <? 0 then redirect_default_fd (symbol out) else ret d.1) in f d.2 dfd) (at_line s k ((A ++ fd) ++ symbol out :: T)) =
    f (Z.of_nat (length A1)) (fd_of fd out) (at_line s k ((A ++ fd) ++ x :: T)).
Proof.
  intros Hb [Hd Hlt] Hsh. destruct fd as [|c fd].
  - rewrite app_nil_r in *. destruct (dfd_default s k A (symbol out) T Hb Hsh) as [x E]. exists A, x. split; [done|]. rewrite (bind_done _ _ _ _ _ E). cbn [fst snd Z.ltb Z.compare].
    destruct out; done.
  - destruct Hb as (A' & b & -> & Hb). exists A', 0. split; [by exists b|]. rewrite <- (app_assoc A') in *. cbn [app] in *. pose proof Hb as (Hb0 & Hbs & _).
    rewrite (bind_done _ _ _ _ _ (dfd_explicit s k A' b (c :: fd) (symbol out) T Hbs ltac:(done) Hd Hlt Hb0 Hsh)). cbn [fst snd]. pose proof (num_nonneg _ Hd). destruct (Z.ltb_spec (num (c :: fd)) 0); [lia|]. done.
Qed.

(** The text of a redirection is replaced by blanks. *)
Lemma clear_run s k A fd A1 x body R :
  kept_before A fd A1 ->
  let n := (length (A ++ fd ++ x :: body) + 1 - length A1)%nat in
  blank (Z.to_nat (Z.of_nat (length (A ++ fd ++ x :: body)) + 1 - Z.of_nat (length A1))) (Z.of_nat (length A1)) (at_line s k (A ++ fd ++ x :: body ++ 0 :: R)) =
  Done tt (at_line s k (A1 ++ replicate n 32 ++ R)).
Proof.
  intros HA n. set (t := drop (length A1) A ++ fd ++ x :: body ++ [0]).
  assert (EA : A = A1 ++ drop (length A1) A).
  { destruct fd; cbn in HA; [subst; by rewrite drop_all, app_nil_r|]. destruct HA as (c & _ & ->). by rewrite drop_app_length. }
  assert (El : length t = n).
  { subst t n. pose proof (f_equal length EA) as El. rewrite length_app in El. rewrite !length_app. cbn [length]. rewrite !length_app. cbn. lia. }
  replace (Z.to_nat _) with (length t) by (rewrite El; subst n; lia). replace (A ++ fd ++ x :: body ++ 0 :: R) with (A1 ++ t ++ R).
  - rewrite blank_run. by rewrite El.
  - assert (E2 : A1 ++ t ++ R = (A1 ++ drop (length A1) A) ++ fd ++ x :: body ++ 0 :: R) by (subst t; rewrite <- !app_assoc; cbn [app]; by rewrite <- !app_assoc). by rewrite E2, <- EA.
Qed.

(** The flags of a file to be opened. *)
Lemma mode_symbol (out app : bool) :
  (app = true -> out = true) -> (if symbol out =? 60 then U_RDONLY else Z.lor (Z.lor U_WRONLY U_CREAT) (if app then U_APPEND else U_TRUNC)) = mode_of out app.
Proof. by destruct out. Qed.

(** What a redirection leaves: [text] is what stood between [A] and [R]. *)
Definition cleared (s : shell K) (A1 text R : list Z) (A : list Z) (o : outcome K (option redirect_map)) (r : outcome (shell K) (option (redirect_map * Z))) : Prop :=
  let n := (length (A ++ text) + 1 - length A1)%nat in
  match o with
  | Done (Some map) k => r = Done (Some (map, Z.of_nat (length (A1 ++ replicate n 32)))) (at_line s k (A1 ++ replicate n 32 ++ R))
  | Done None k => exists L, r = Done None (at_line s k L)
  | Failed f => r = Failed f
  end.

Lemma kept_length A fd A1 : kept_before A fd A1 -> (length A1 <= length A)%nat.
Proof. destruct fd; cbn; [by intros ->|]. intros (c & _ & ->). rewrite length_app. lia. Qed.

Lemma finish_run (m : M (shell K) (option (redirect_map * Z))) s k st A fd A1 x body R (o : outcome K (option redirect_map)) :
  kept_before A fd A1 ->
  m st = onto s (A ++ fd ++ x :: body ++ 0 :: R) (fun r => redirected r (Z.of_nat (length (A ++ fd ++ x :: body)) + 1)) o ->
  cleared s A1 (fd ++ x :: body) R A o
    ((let! r := m in
      match r with
      | None => ret None
      | Some (map, stop) => do! blank (Z.to_nat (stop - Z.of_nat (length A1))) (Z.of_nat (length A1)); ret (Some (map, stop))
      end) st).
Proof.
  intros HA E. unfold bind at 1. rewrite E. unfold cleared. destruct o as [[map'|] k'|f]; cbn [onto redirected fmap option_fmap option_map]; [|by eexists|done].
  rewrite (bind_done _ _ _ _ _ (clear_run s k' A fd A1 x body R HA)). apply kept_length in HA.
  assert (Hstop : Z.of_nat (length (A ++ fd ++ x :: body)) + 1 = Z.of_nat (length (A1 ++ replicate (length (A ++ fd ++ x :: body) + 1 - length A1) 32))).
  { rewrite (length_app A1), length_replicate, (length_app A). lia. }
  by rewrite Hstop.
Qed.

(** The character [y] after the symbols tells a file from a descriptor. *)
Lemma rest_symbols map s k A fd x out apnd y T start dfd :
  (apnd = true -> out = true) -> y <> 62 ->
  let a := if apnd then [62] else [] in
  let L := (A ++ fd) ++ x :: a ++ y :: T in
  redirect_rest map (Z.of_nat (length (A ++ fd))) (symbol out) start dfd (at_line s k L) =
  (let! r := (if y =? 38 then parse_redirect_dup map dfd (Z.of_nat (length ((A ++ fd) ++ x :: a)) + 1)
              else parse_redirect_norm map dfd (mode_of out apnd) (Z.of_nat (length ((A ++ fd) ++ x :: a)))) in
   match r with
   | None => ret None
   | Some (map, stop) => do! blank (Z.to_nat (stop - start)) start; ret (Some (map, stop))
   end) (at_line s k L).
Proof.
  intros Happ Hy a L. unfold redirect_rest. replace (Z.of_nat (length (A ++ fd)) + 1) with (Z.of_nat (length ((A ++ fd) ++ [x]))) by (rewrite (length_app _ [x]); cbn; lia).
  assert (Hpeek : L !! length ((A ++ fd) ++ x :: a) = Some y).
  { subst L. replace ((A ++ fd) ++ x :: a ++ y :: T) with (((A ++ fd) ++ x :: a) ++ y :: T) by (rewrite <- !app_assoc; cbn [app]; by rewrite <- ?app_assoc). by apply list_lookup_middle. }
  destruct apnd; subst a; cbn [app] in *.
  - rewrite (Happ eq_refl). replace (length ((A ++ fd) ++ [x; 62])) with (length (((A ++ fd) ++ [x]) ++ [62])) in * by (rewrite <- !app_assoc; done).
    assert (H1 : L !! length ((A ++ fd) ++ [x]) = Some 62) by (subst L; replace ((A ++ fd) ++ x :: 62 :: y :: T) with (((A ++ fd) ++ [x]) ++ 62 :: y :: T) by (by rewrite <- (app_assoc (A ++ fd))); by apply list_lookup_middle).
    rewrite (bind_done _ _ _ _ _ (peek_at s k _ _ _ H1)). cbn [Z.eqb Pos.eqb symbol negb andb]. cbv zeta.
    replace (Z.of_nat (length ((A ++ fd) ++ [x])) + 1) with (Z.of_nat (length (((A ++ fd) ++ [x]) ++ [62]))) by (rewrite (length_app _ [62]); cbn; lia).
    rewrite (bind_done _ _ _ _ _ (peek_at s k _ _ _ Hpeek)). by destruct (y =? 38).
  - rewrite (bind_done _ _ _ _ _ (peek_at s k _ _ _ Hpeek)). apply Z.eqb_neq in Hy. rewrite Hy. cbn [andb]. cbv zeta.
    rewrite (bind_done _ _ _ _ _ (peek_at s k _ _ _ Hpeek)). by destruct out, (y =? 38).
Qed.

Lemma rest_file map s k A fd A1 x out apnd sp path e R :
  piece_ok (PFile fd out apnd sp path) -> kept_before A fd A1 -> ends_word e -> short (A ++ fd ++ x :: (if apnd then [62] else []) ++ sp ++ path ++ e :: R) ->
  cleared s A1 (fd ++ x :: (if apnd then [62] else []) ++ sp ++ path) R A (redirection (PFile fd out apnd sp path) map k)
    (redirect_rest map (Z.of_nat (length (A ++ fd))) (symbol out) (Z.of_nat (length A1)) (fd_of fd out) (at_line s k ((A ++ fd) ++ x :: (if apnd then [62] else []) ++ sp ++ path ++ e :: R))).
Proof.
  intros (Hfd & Happ & Hsp & Hpath & c0 & path' & Ep & Hamp) HA He Hsh. set (a := if apnd then [62] else []) in *.
  (* the character after the symbols *)
  assert (Hnext : exists y t, sp ++ path = y :: t /\ y <> 62 /\ y <> 38).
  { destruct sp as [|y sp]; [exists c0, path'|exists y, (sp ++ path)].
    - split_and!; [by rewrite Ep| |done]. rewrite Ep in Hpath. destruct (Forall_inv Hpath) as (_ & _ & Hr). unfold sh_isredirect in Hr. intros ->. done.
    - destruct (Forall_inv Hsp) as (_ & Hs & Hr). split_and!; [done|intros ->; done|intros ->; vm_compute in Hs; done]. }
  destruct Hnext as (y & t & Eyt & H62 & H38).
  set (L := (A ++ fd) ++ x :: a ++ sp ++ path ++ e :: R).
  assert (Hbody : parse_redirect_norm map (fd_of fd out) (mode_of out apnd) (Z.of_nat (length ((A ++ fd) ++ x :: a))) (at_line s k L) =
    onto s (A ++ fd ++ x :: (a ++ sp ++ path) ++ 0 :: R) (fun r => redirected r (Z.of_nat (length (A ++ fd ++ x :: a ++ sp ++ path)) + 1)) (redirection (PFile fd out apnd sp path) map k)).
  { assert (EL : L = ((A ++ fd) ++ x :: a) ++ sp ++ path ++ e :: R) by (subst L; rewrite <- !app_assoc; cbn [app]; by rewrite <- ?app_assoc). rewrite EL, norm_run; try done.
    - assert (E1 : ((A ++ fd) ++ x :: a) ++ sp ++ path ++ 0 :: R = A ++ fd ++ x :: (a ++ sp ++ path) ++ 0 :: R) by (rewrite <- !app_assoc; cbn [app]; by rewrite <- ?app_assoc).
      assert (E2 : ((A ++ fd) ++ x :: a) ++ sp ++ path = A ++ fd ++ x :: a ++ sp ++ path) by (rewrite <- !app_assoc; cbn [app]; by rewrite <- ?app_assoc). by rewrite E1, E2.
    - by rewrite Ep.
    - rewrite <- EL. subst L. by rewrite <- app_assoc. }
  assert (Hfin := finish_run _ s k (at_line s k L) A fd A1 x (a ++ sp ++ path) R _ HA Hbody).
  assert (EL : L = (A ++ fd) ++ x :: a ++ y :: t ++ e :: R) by (subst L; change (y :: t ++ e :: R) with ((y :: t) ++ e :: R); rewrite <- Eyt; by rewrite <- !app_assoc).
  rewrite EL in Hfin |- *. assert (E := rest_symbols map s k A fd x out apnd y (t ++ e :: R) (Z.of_nat (length A1)) (fd_of fd out) Happ H62). cbv zeta in E. fold a in E. rewrite E.
  apply Z.eqb_neq in H38. by rewrite H38.
Qed.

Lemma rest_dup map s k A fd A1 x out sp ds e R :
  piece_ok (PDup fd out sp ds) -> kept_before A fd A1 -> ends_word e -> short (A ++ fd ++ x :: 38 :: sp ++ ds ++ e :: R) ->
  cleared s A1 (fd ++ x :: 38 :: sp ++ ds) R A (redirection (PDup fd out sp ds) map k)
    (redirect_rest map (Z.of_nat (length (A ++ fd))) (symbol out) (Z.of_nat (length A1)) (fd_of fd out) (at_line s k ((A ++ fd) ++ x :: 38 :: sp ++ ds ++ e :: R))).
Proof.
  intros (Hfd & Hsp & [Hds Hlt] & Hne) HA He Hsh.
  assert (E := rest_symbols map s k A fd x out false 38 (sp ++ ds ++ e :: R) (Z.of_nat (length A1)) (fd_of fd out) ltac:(done) ltac:(done)). cbv zeta in E. cbn [app Z.eqb Pos.eqb] in E. rewrite E. clear E.
  replace (Z.of_nat (length ((A ++ fd) ++ [x])) + 1) with (Z.of_nat (length ((A ++ fd) ++ [x; 38]))) by (rewrite !(length_app _ (x :: _)); cbn; lia).
  assert (EL : (A ++ fd) ++ x :: 38 :: sp ++ ds ++ e :: R = ((A ++ fd) ++ [x; 38]) ++ sp ++ ds ++ e :: R) by (by rewrite <- (app_assoc (A ++ fd))).
  apply (finish_run _ s k _ A fd A1 x (38 :: sp ++ ds) R _ HA). rewrite EL, dup_run; try done.
  - assert (E1 : ((A ++ fd) ++ [x; 38]) ++ sp ++ ds ++ 0 :: R = A ++ fd ++ x :: (38 :: sp ++ ds) ++ 0 :: R) by (rewrite <- !app_assoc; cbn [app]; by rewrite <- ?app_assoc).
    assert (E2 : ((A ++ fd) ++ [x; 38]) ++ sp ++ ds = A ++ fd ++ x :: 38 :: sp ++ ds) by (by rewrite <- !app_assoc). by rewrite E1, E2.
  - rewrite <- EL. by rewrite <- app_assoc.
Qed.

(** A redirection is made, and what stands for it in the line is blanked. *)
Lemma one_redirect_run map s k A p e R :
  is_word p = false -> piece_ok p -> before_ok A (piece_fd p) -> ends_word e -> short (A ++ piece_text p ++ e :: R) ->
  exists A1, kept_before A (piece_fd p) A1 /\
    cleared s A1 (piece_text p) R A (redirection p map k)
      (one_redirect map (Z.of_nat (length (A ++ piece_fd p))) (symbol (piece_out p)) (at_line s k (A ++ piece_text p ++ e :: R))).
Proof.
  intros Hw Hok Hb He Hsh. unfold one_redirect. destruct p as [w|fd out apnd sp path|fd out sp ds]; [done| |]; cbn [piece_fd piece_out piece_text] in *.
  - set (a := if apnd then [62] else []) in *.
    assert (EL : A ++ (fd ++ symbol out :: a ++ sp ++ path) ++ e :: R = (A ++ fd) ++ symbol out :: a ++ sp ++ path ++ e :: R) by (rewrite <- !app_assoc; cbn [app]; by rewrite <- !app_assoc).
    rewrite EL in *. destruct (dfd_run s k A fd out (a ++ sp ++ path ++ e :: R) (redirect_rest map (Z.of_nat (length (A ++ fd))) (symbol out)) Hb (proj1 Hok) Hsh) as (A1 & x & HA & E).
    exists A1. split; [done|]. rewrite E.
    assert (Hc := rest_file map s k A fd A1 x out apnd sp path e R Hok HA He). fold a in Hc. unfold cleared in *. rewrite !length_app in *. cbn [length] in *. apply Hc.
    unfold short in *. rewrite !length_app in *. cbn [length] in *. rewrite !length_app in *. lia.
  - assert (EL : A ++ (fd ++ symbol out :: 38 :: sp ++ ds) ++ e :: R = (A ++ fd) ++ symbol out :: 38 :: sp ++ ds ++ e :: R) by (rewrite <- !app_assoc; cbn [app]; by rewrite <- !app_assoc).
    rewrite EL in *. destruct (dfd_run s k A fd out (38 :: sp ++ ds ++ e :: R) (redirect_rest map (Z.of_nat (length (A ++ fd))) (symbol out)) Hb (proj1 Hok) Hsh) as (A1 & x & HA & E).
    exists A1. split; [done|]. rewrite E.
    assert (Hc := rest_dup map s k A fd A1 x out sp ds e R Hok HA He). unfold cleared in *. rewrite !length_app in *. cbn [length] in *. apply Hc.
    unfold short in *. rewrite !length_app in *. cbn [length] in *. lia.
Qed.
(** * The redirections of a line *)

(** The words that stand before a place of the line. *)
Definition words_text (ws : list (list Z * list Z)) : list Z := concat (map (fun x => x.1 ++ x.2) ws).

Definition word_ok (x : list Z * list Z) : Prop := spaces x.1 /\ Forall graphic x.2 /\ Exists (fun c => isdigit c = false) x.2.

Definition words_ok (ws : list (list Z * list Z)) : Prop := Forall word_ok ws /\ match ws with [] => True | _ :: ws => Forall (fun x => x.1 <> []) ws end.

Lemma words_text_snoc ws x : words_text (ws ++ [x]) = words_text ws ++ x.1 ++ x.2.
Proof. unfold words_text. rewrite map_app, concat_app. cbn. by rewrite app_nil_r. Qed.

Lemma last_nondigit w :
  Exists (fun c => isdigit c = false) w -> exists a x ds, w = a ++ x :: ds /\ isdigit x = false /\ Forall (fun c => isdigit c = true) ds.
Proof.
  induction w as [|c w IH] using rev_ind; intros H; [by inversion H|]. destruct (isdigit c) eqn:Ec.
  - apply Exists_app in H as [H|H]; [|inversion H as [? ? H1|? ? H1]; subst; [congruence|by inversion H1]].
    destruct (IH H) as (a & x & ds & -> & Hx & Hds). exists a, x, (ds ++ [c]). split_and!; [by rewrite <- app_assoc|done|]. apply Forall_app. split; [done|by constructor].
  - by exists w, c, [].
Qed.

(** No word before a redirection is a number. *)
Lemma words_no_number ws sp : words_ok ws -> spaces sp -> no_number (words_text ws ++ sp).
Proof.
  intros [Hws _] Hsp. exists (words_text ws), sp. split_and!; [done|eapply Forall_impl; [exact Hsp|]; by intros c (_ & ? & _)|].
  destruct ws as [|[sw w] ws _] using rev_ind; [by left|right]. apply Forall_app in Hws as [_ Hw]. destruct (Forall_inv Hw) as (_ & Hg & He). cbn [fst snd] in *.
  destruct (last_nondigit w He) as (a & x & ds & -> & Hx & Hds). exists (words_text ws ++ sw ++ a), x, ds. rewrite words_text_snoc. cbn [fst snd]. rewrite <- !app_assoc. split_and!; [done|done| |done].
  apply Forall_app in Hg as [_ Hg]. by destruct (Forall_inv Hg) as (_ & ? & _).
Qed.

Lemma words_plain ws sp : words_ok ws -> spaces sp -> Forall (fun c => c <> 0 /\ negb (sh_isredirect c) = true) (words_text ws ++ sp).
Proof.
  intros [Hws _] Hsp. assert (Hspace : forall t, spaces t -> Forall (fun c => c <> 0 /\ negb (sh_isredirect c) = true) t).
  { intros t Ht. eapply Forall_impl; [exact Ht|]. intros c (? & _ & Hr). by rewrite Hr. }
  apply Forall_app. split; [|by apply Hspace]. unfold words_text. apply Forall_concat, Forall_map. eapply Forall_impl; [exact Hws|]. intros [a w] (Ha & Hg & _). cbn in *.
  apply Forall_app. split; [by apply Hspace|]. eapply Forall_impl; [exact Hg|]. intros c (? & _ & Hr). by rewrite Hr.
Qed.

Lemma words_ok_snoc ws sp w : words_ok ws -> word_ok (sp, w) -> sp <> [] \/ ws = [] -> words_ok (ws ++ [(sp, w)]).
Proof.
  intros [Hws Hsep] Hw Hne. split; [apply Forall_app; split; [done|by constructor]|]. destruct ws as [|x ws]; [by constructor|]. cbn. apply Forall_app. split; [done|].
  constructor; [|done]. by destruct Hne.
Qed.

(** What is left of the words, when the blank before a descriptor is cleared. *)
Lemma kept_words ws sp fd A1 : (fd <> [] -> sp <> []) -> kept_before (words_text ws ++ sp) fd A1 -> spaces sp -> exists sp1, A1 = words_text ws ++ sp1 /\ spaces sp1.
Proof.
  intros Hne HA Hsp. destruct fd as [|d fd]; cbn in HA; [by exists sp|]. destruct HA as (c & _ & E). destruct sp as [|b sp _] using rev_ind; [by destruct Hne|].
  rewrite app_assoc in E. apply app_inj_tail in E as [<- _]. exists sp. split; [done|]. by apply Forall_app in Hsp as [? _].
Qed.
(** The text of the line after the redirections: the words, and blanks. *)
Definition only_words (s : shell K) (n : nat) (words : list (list Z)) (o : outcome K (option redirect_map)) (r : outcome (shell K) (option redirect_map)) : Prop :=
  match o with
  | Done (Some map) k => exists ws sp T, r = Done (Some map) (at_line s k (words_text ws ++ sp ++ 0 :: T)) /\ words_ok ws /\ spaces sp /\ ws.*2 = words /\
      length (words_text ws ++ sp ++ 0 :: T) = n
  | Done None k => exists L, r = Done None (at_line s k L)
  | Failed f => r = Failed f
  end.

(** The pieces from a place on; [sp] are the blanks before it, and [ws] the words. *)
Definition pieces_ok (ws : list (list Z * list Z)) (sp : list Z) (ps : list (list Z * piece)) : Prop :=
  Forall (fun x => spaces x.1 /\ piece_ok x.2) ps /\
  match ps with
  | [] => True
  | x :: ps => (sp ++ x.1 <> [] \/ ws = [] /\ is_word x.2 = true) /\ Forall (fun x => x.1 <> []) ps
  end.

Lemma piece_symbol p : is_word p = false -> exists t, piece_text p = piece_fd p ++ symbol (piece_out p) :: t.
Proof. destruct p; [done| |]; intros _; by eexists. Qed.

Lemma piece_fd_ok p : is_word p = false -> piece_ok p -> fd_ok (piece_fd p).
Proof. destruct p; [done| |]; intros _; cbn; tauto. Qed.

(** The loop up to the symbol of the next redirection. *)
Lemma loop_step fuel map s k P1 P2 p U :
  is_word p = false -> fd_ok (piece_fd p) -> Forall (fun c => c <> 0 /\ negb (sh_isredirect c) = true) P2 -> short ((P1 ++ P2) ++ piece_text p ++ U) ->
  redirects_loop (S fuel) map (Z.of_nat (length P1)) (at_line s k ((P1 ++ P2) ++ piece_text p ++ U)) =
  (let! r := one_redirect map (Z.of_nat (length ((P1 ++ P2) ++ piece_fd p))) (symbol (piece_out p)) in
   match r with
   | None => ret None
   | Some (map, stop) => redirects_loop fuel map stop
   end) (at_line s k ((P1 ++ P2) ++ piece_text p ++ U)).
Proof.
  intros Hw [Hfd _] HP2 Hsh. destruct (piece_symbol p Hw) as [t Et]. cbn [redirects_loop].
  assert (EL : (P1 ++ P2) ++ piece_text p ++ U = P1 ++ (P2 ++ piece_fd p) ++ symbol (piece_out p) :: t ++ U) by (rewrite Et; rewrite <- !app_assoc; cbn [app]; by rewrite <- ?app_assoc).
  assert (Hplain : Forall (fun c => c <> 0 /\ negb (sh_isredirect c) = true) (P2 ++ piece_fd p)).
  { apply Forall_app. split; [done|]. eapply Forall_impl; [exact Hfd|]. intros c Hc. unfold decimal in Hc. unfold sh_isredirect. split; [lia|]. destruct (Z.eqb_spec c 62), (Z.eqb_spec c 60); lia. }
  assert (Hstop : symbol (piece_out p) = 0 \/ negb (sh_isredirect (symbol (piece_out p))) = false) by (right; by destruct (piece_out p)).
  assert (Hlen : (length (P2 ++ piece_fd p) < scan_fuel)%nat).
  { rewrite EL in Hsh. unfold short, scan_fuel in *. rewrite (length_app P1), (length_app (P2 ++ _)) in Hsh. cbn in Hsh. lia. }
  assert (H1 := skip_run scan_fuel (fun c => negb (sh_isredirect c)) s k P1 (P2 ++ piece_fd p) (symbol (piece_out p)) (t ++ U) Hplain Hstop Hlen). rewrite <- EL in H1.
  rewrite (bind_done _ _ _ _ _ H1). rewrite app_assoc.
  assert (H2 : ((P1 ++ P2) ++ piece_text p ++ U) !! length ((P1 ++ P2) ++ piece_fd p) = Some (symbol (piece_out p))).
  { rewrite EL. replace (P1 ++ (P2 ++ piece_fd p) ++ symbol (piece_out p) :: t ++ U) with (((P1 ++ P2) ++ piece_fd p) ++ symbol (piece_out p) :: t ++ U) by (by rewrite <- !app_assoc). by apply list_lookup_middle. }
  rewrite (bind_done _ _ _ _ _ (peek_at s k _ _ _ H2)). by destruct (piece_out p).
Qed.

(** The end of the loop. *)
Lemma loop_end fuel map s k P1 P2 T :
  Forall (fun c => c <> 0 /\ negb (sh_isredirect c) = true) P2 -> short ((P1 ++ P2) ++ 0 :: T) ->
  redirects_loop (S fuel) map (Z.of_nat (length P1)) (at_line s k ((P1 ++ P2) ++ 0 :: T)) = Done (Some map) (at_line s k ((P1 ++ P2) ++ 0 :: T)).
Proof.
  intros HP2 Hsh. cbn [redirects_loop]. unfold short in Hsh. rewrite !length_app in Hsh. cbn [length] in Hsh.
  assert (H1 := skip_run scan_fuel (fun c => negb (sh_isredirect c)) s k P1 P2 0 T HP2 ltac:(by left) ltac:(unfold scan_fuel; lia)). rewrite app_assoc in H1.
  rewrite (bind_done _ _ _ _ _ H1). by rewrite (bind_done _ _ _ _ _ (peek_at s k _ _ 0 (list_lookup_middle _ _ _ _ eq_refl))).
Qed.

(** What follows a redirection: the end of its text, and the rest of the line. *)
Lemma after_piece ws sp x ps T :
  pieces_ok ws sp (x :: ps) -> (exists T', T = 0 :: T') ->
  exists e R ps' T', line_text ps ++ 0 :: T = e :: R /\ R = line_text ps' ++ 0 :: T' /\ ends_word e /\ length ps' = length ps /\ words_of ps' = words_of ps /\ redirections ps' = redirections ps /\
    (ps' = [] \/ exists T'', T' = 0 :: T'') /\ (forall sp', sp' <> [] -> pieces_ok ws sp' ps').
Proof.
  intros [Hok [_ Hne]] [T' ->]. apply Forall_cons in Hok as [_ Hok]. destruct ps as [|[sep p] ps].
  - exists 0, (0 :: T'), [], T'. split_and!; try done; [by left|by left].
  - apply Forall_cons in Hne as [Hsep Hne]. apply Forall_cons in Hok as [[Hs Hp] Hok]. cbn [fst snd] in *. destruct sep as [|c sep]; [done|]. apply Forall_cons in Hs as [Hc Hs].
    exists c, (line_text ((sep, p) :: ps) ++ 0 :: 0 :: T'), ((sep, p) :: ps), (0 :: T'). split_and!; try done; [by right|right; by eexists|].
    intros sp' Hsp'. split; [by constructor|]. split; [left; by destruct sp'|done].
Qed.
Lemma line_text_cons sep p ps : line_text ((sep, p) :: ps) = sep ++ piece_text p ++ line_text ps.
Proof. unfold line_text. cbn. by rewrite <- app_assoc. Qed.

(** A redirection: the loop goes on after it. *)
Lemma redirect_run fuel map s k ws sp P1 P2 sep p ps T :
  words_ok ws -> spaces sp -> pieces_ok ws sp ((sep, p) :: ps) -> is_word p = false -> (exists T', T = 0 :: T') ->
  words_text ws ++ sp = P1 ++ P2 -> Forall (fun c => c <> 0 /\ negb (sh_isredirect c) = true) P2 ->
  short ((P1 ++ P2) ++ line_text ((sep, p) :: ps) ++ 0 :: T) ->
  (forall map k sp' ps' T',
    spaces sp' -> pieces_ok ws sp' ps' -> length ps' = length ps -> words_of ps' = words_of ps -> redirections ps' = redirections ps -> (ps' = [] \/ exists T'', T' = 0 :: T'') ->
    length ((words_text ws ++ sp') ++ line_text ps' ++ 0 :: T') = length ((P1 ++ P2) ++ line_text ((sep, p) :: ps) ++ 0 :: T) ->
    only_words s (length ((P1 ++ P2) ++ line_text ((sep, p) :: ps) ++ 0 :: T)) (ws.*2 ++ words_of ps) (redirections ps map k)
      (redirects_loop fuel map (Z.of_nat (length (words_text ws ++ sp'))) (at_line s k ((words_text ws ++ sp') ++ line_text ps' ++ 0 :: T')))) ->
  only_words s (length ((P1 ++ P2) ++ line_text ((sep, p) :: ps) ++ 0 :: T)) (ws.*2 ++ words_of ps) (redirections ((sep, p) :: ps) map k)
    (redirects_loop (S fuel) map (Z.of_nat (length P1)) (at_line s k ((P1 ++ P2) ++ line_text ((sep, p) :: ps) ++ 0 :: T))).
Proof.
  intros Hws Hsp Hps Hw HT EP HP2 Hsh IH. pose proof Hps as [Hok [Hedge _]]. apply Forall_cons in Hok as [[Hsep Hp] _]. cbn [fst snd] in *.
  destruct (after_piece ws sp (sep, p) ps T Hps HT) as (e & R & ps' & T' & Ee & ER & He & Hlen & Hwords & Hred & HT' & Hps').
  set (n := length ((P1 ++ P2) ++ line_text ((sep, p) :: ps) ++ 0 :: T)) in *.
  assert (EL : (P1 ++ P2) ++ line_text ((sep, p) :: ps) ++ 0 :: T = (P1 ++ (P2 ++ sep)) ++ piece_text p ++ e :: R) by (rewrite line_text_cons, <- !app_assoc; by rewrite <- Ee).
  assert (EA : P1 ++ P2 ++ sep = words_text ws ++ sp ++ sep) by (rewrite !app_assoc; by rewrite EP).
  assert (Hsp2 : spaces (sp ++ sep)) by (by apply Forall_app). assert (Hne : sp ++ sep <> []) by (destruct Hedge as [?|[_ ?]]; [done|congruence]).
  assert (HP2' : Forall (fun c => c <> 0 /\ negb (sh_isredirect c) = true) (P2 ++ sep)) by (apply Forall_app; split; [done|by apply (words_plain [] sep); [split; constructor|]]).
  rewrite EL in Hsh |- *. rewrite (loop_step fuel map s k P1 (P2 ++ sep) p (e :: R) Hw (piece_fd_ok _ Hw Hp) HP2' Hsh). rewrite EA in *.
  assert (Hb : before_ok (words_text ws ++ sp ++ sep) (piece_fd p)).
  { unfold before_ok. destruct (piece_fd p); [by apply words_no_number|]. destruct (sp ++ sep) as [|b t _] using rev_ind; [done|]. exists (words_text ws ++ t), b. split; [by rewrite app_assoc|]. apply Forall_app in Hsp2 as [_ H]. by inversion H. }
  destruct (one_redirect_run map s k _ p e R Hw Hp Hb He Hsh) as (A1 & HA & Hc).
  destruct (kept_words ws (sp ++ sep) (piece_fd p) A1 (fun _ => Hne) HA Hsp2) as (sp1 & -> & Hsp1). apply kept_length in HA.
  unfold cleared in Hc. cbn [redirections snd]. unfold bind. destruct (redirection p map k) as [[map'|] k'|f]; cbn [only_words]; rewrite ?Hc; [|destruct Hc as [L ->]; by exists L|done].
  set (b := replicate _ 32) in *. assert (Hb1 : spaces b) by (apply Forall_replicate; split_and!; done).
  rewrite ER, app_assoc. rewrite <- (app_assoc _ sp1). apply IH; try done.
  - by apply Forall_app.
  - apply Hps'. subst b. rewrite !length_app in *. replace (_ + 1 - _)%nat with (S (length (words_text ws) + (length sp + length sep) + length (piece_text p) - (length (words_text ws) + length sp1))) by lia. by destruct sp1.
  - subst n. rewrite EL, <- ER. subst b. rewrite !length_app, length_replicate in *. cbn [length]. apply (f_equal length) in EA. rewrite !length_app in EA. lia.
Qed.

(** The redirections of the line are made as [redirections] says. *)
Lemma redirects_run s n ps : forall fuel map k ws sp P1 P2 T,
  (length ps <= n)%nat -> (n < fuel)%nat -> words_ok ws -> spaces sp -> pieces_ok ws sp ps -> (ps = [] \/ exists T', T = 0 :: T') ->
  words_text ws ++ sp = P1 ++ P2 -> Forall (fun c => c <> 0 /\ negb (sh_isredirect c) = true) P2 -> short ((P1 ++ P2) ++ line_text ps ++ 0 :: T) ->
  only_words s (length ((P1 ++ P2) ++ line_text ps ++ 0 :: T)) (ws.*2 ++ words_of ps) (redirections ps map k)
    (redirects_loop fuel map (Z.of_nat (length P1)) (at_line s k ((P1 ++ P2) ++ line_text ps ++ 0 :: T))).
Proof.
  revert ps. induction n as [|n IH]; intros ps fuel map k ws sp P1 P2 T Hn Hf Hws Hsp Hps HT EP HP2 Hsh; (destruct fuel as [|fuel]; [lia|]).
  all: destruct ps as [|[sep p] ps]; [change (line_text [] ++ 0 :: T) with (0 :: T) in *; rewrite loop_end by done; exists ws, sp, T; rewrite <- EP, app_nil_r, <- app_assoc; done|cbn in Hn; try lia].
  destruct HT as [HT|HT]; [done|]. destruct (is_word p) eqn:Ew.
  - destruct p as [w| |]; [|done..]. pose proof Hps as [Hok [Hedge Hne]]. apply Forall_cons in Hok as [[Hsep [Hg Hex]] Hok]. cbn [fst snd is_word] in *.
    assert (EL : (P1 ++ P2) ++ line_text ((sep, PWord w) :: ps) ++ 0 :: T = (P1 ++ P2 ++ sep ++ w) ++ line_text ps ++ 0 :: T) by (rewrite line_text_cons; cbn [piece_text]; by rewrite <- !app_assoc).
    rewrite EL in *. assert (Hwo : word_ok (sp ++ sep, w)) by (split_and!; [by apply Forall_app|done|done]).
    assert (Hws' : words_ok (ws ++ [(sp ++ sep, w)])) by (apply words_ok_snoc; [done|done|]; destruct Hedge as [?|[? _]]; [by left|by right]).
    assert (Hpl : Forall (fun c => c <> 0 /\ negb (sh_isredirect c) = true) (P2 ++ sep ++ w)).
    { apply Forall_app. split; [done|]. assert (H := words_plain [(sep, w)] [] ltac:(split; [by repeat constructor|constructor]) ltac:(constructor)). cbn in H. by rewrite !app_nil_r in H. }
    assert (EP' : words_text (ws ++ [(sp ++ sep, w)]) ++ [] = P1 ++ P2 ++ sep ++ w) by (rewrite app_nil_r, words_text_snoc; cbn [fst snd]; rewrite <- app_assoc, !app_assoc; by rewrite EP).
    assert (Hps' : pieces_ok (ws ++ [(sp ++ sep, w)]) [] ps).
    { split; [done|]. destruct ps as [|[sep' p'] ps]; [done|]. apply Forall_cons in Hne as [? ?]. split; [by left|done]. }
    specialize (IH ps (S fuel) map k _ [] P1 (P2 ++ sep ++ w) T ltac:(lia) ltac:(lia) Hws' ltac:(constructor) Hps' (or_intror HT) EP' Hpl Hsh).
    rewrite fmap_app, <- (app_assoc ws.*2) in IH. exact IH.
  - assert (Hw : words_of ((sep, p) :: ps) = words_of ps) by (by destruct p). rewrite Hw. apply (redirect_run fuel map s k ws sp P1 P2 sep p ps T); try done.
    intros map' k' sp' ps' T' Hsp' Hps' Hlen Hwords Hred HT' HL. rewrite <- HL, <- Hwords, <- Hred.
    assert (H := IH ps' fuel map' k' ws sp' (words_text ws ++ sp') [] T' ltac:(lia) ltac:(lia) Hws Hsp' Hps' HT'). rewrite !app_nil_r in H. apply H; [done|constructor|]. unfold short in *. lia.
Qed.
(** * The words of a line *)

Definition ptrs (qs : list nat) : list Z := map Z.of_nat qs.

(** The words from a place on: the blanks before the first may be missing. *)
Definition tokens_ok (ws : list (list Z * list Z)) : Prop :=
  Forall (fun x => spaces x.1 /\ Forall graphic x.2 /\ x.2 <> []) ws /\ match ws with [] => True | _ :: ws => Forall (fun x => x.1 <> []) ws end.

Lemma words_tokens ws : words_ok ws -> tokens_ok ws.
Proof. intros [H1 H2]. split; [|done]. eapply Forall_impl; [exact H1|]. intros [a w] (? & ? & He). split_and!; [done|done|]. cbn in *. intros ->. by inversion He. Qed.

(** What follows a word of the line. *)
Lemma after_word x ws sp T :
  tokens_ok (x :: ws) -> spaces sp ->
  (ws = [] /\ sp = []) \/
  exists e ws' sp', space e /\ words_text ws ++ sp ++ 0 :: T = e :: words_text ws' ++ sp' ++ 0 :: T /\ tokens_ok ws' /\ spaces sp' /\ ws'.*2 = ws.*2 /\ length ws' = length ws.
Proof.
  intros [Hok Hne] Hsp. apply Forall_cons in Hok as [_ Hok]. destruct ws as [|[a w] ws].
  - destruct sp as [|e sp]; [by left|right]. apply Forall_cons in Hsp as [He Hsp]. exists e, [], sp. split_and!; done.
  - right. apply Forall_cons in Hne as [Ha Hne]. apply Forall_cons in Hok as [(Hs & Hw & Hw0) Hok]. cbn [fst snd] in *. destruct a as [|e a]; [done|]. apply Forall_cons in Hs as [He Hs].
    exists e, ((a, w) :: ws), sp. split_and!; try done. split; [by constructor|done].
Qed.

(** A word at [q], in a line that has not changed up to the end of the word. *)
Lemma word_at (pre w L : list Z) : Forall graphic w -> until_nul (drop (length pre) (pre ++ w ++ 0 :: L)) = w.
Proof. intros Hw. rewrite drop_app_length, until_nul_app; [done|]. eapply Forall_impl; [exact Hw|]. by intros c (? & _). Qed.

Lemma tokens_run s k T n : forall ws fuel pre argv sp,
  (length ws <= n)%nat -> (n < fuel)%nat -> tokens_ok ws -> spaces sp -> Z.of_nat (length argv + length ws) < ARGV_MAX -> short (pre ++ words_text ws ++ sp ++ 0 :: T) ->
  exists L qs, tokens_loop fuel (Z.of_nat (length pre)) argv (at_line s k (pre ++ words_text ws ++ sp ++ 0 :: T)) = Done (argv ++ ptrs qs) (at_line s k (pre ++ L)) /\
    map (fun q => until_nul (drop q (pre ++ L))) qs = ws.*2.
Proof.
  induction n as [|n IH]; intros ws fuel pre argv sp Hn Hf Hok Hsp Hlt Hsh; (destruct fuel as [|fuel]; [lia|]); cbn [tokens_loop].
  all: destruct ws as [|[a w] ws]; [|cbn in Hn; try lia].
  1,2: exists (sp ++ 0 :: T), []; assert (H1 := skip_run scan_fuel isspace s k pre sp 0 T (spaces_run _ Hsp) ltac:(by left) ltac:(unfold short, scan_fuel in *; rewrite !length_app in Hsh; cbn in *; lia));
    change (words_text [] ++ sp ++ 0 :: T) with (sp ++ 0 :: T); rewrite (bind_done _ _ _ _ _ H1), app_assoc, (bind_done _ _ _ _ _ (peek_at s k _ _ 0 (list_lookup_middle _ _ _ _ eq_refl)));
    cbn [Z.eqb ptrs map]; by rewrite app_nil_r.
  pose proof Hok as [Hall _]. apply Forall_cons in Hall as [(Ha & Hw & Hw0) _]. cbn [fst snd] in *. destruct w as [|c w]; [done|]. pose proof (Forall_inv Hw) as (Hc0 & Hcs & _).
  set (rest := words_text ws ++ sp ++ 0 :: T) in *.
  assert (EL : pre ++ words_text ((a, c :: w) :: ws) ++ sp ++ 0 :: T = pre ++ a ++ c :: w ++ rest) by (unfold words_text; cbn; subst rest; rewrite <- !app_assoc; cbn [app]; by rewrite <- ?app_assoc).
  rewrite EL in *. assert (Hlen : (length (pre ++ a ++ c :: w ++ rest) <= Z.to_nat LINEBUF_SIZE)%nat) by exact Hsh. rewrite !length_app in Hlen. cbn [length] in Hlen. rewrite !length_app in Hlen.
  assert (H1 := skip_run scan_fuel isspace s k pre a c (w ++ rest) (spaces_run _ Ha) (or_intror Hcs) ltac:(unfold scan_fuel; lia)).
  rewrite (bind_done _ _ _ _ _ H1), app_assoc, (bind_done _ _ _ _ _ (peek_at s k _ _ c (list_lookup_middle _ _ _ _ eq_refl))). destruct (Z.eqb_spec c 0); [done|].
  destruct (Z.leb_spec ARGV_MAX (Z.of_nat (length argv))); [cbn in Hlt; lia|]. cbv zeta.
  destruct (after_word (a, c :: w) ws sp T Hok Hsp) as [[-> ->]|(e & ws' & sp' & He & Er & Hok' & Hsp' & Hw2 & Hl2)].
  - assert (H2 := skip_run scan_fuel (fun c => negb (isspace c)) s k (pre ++ a) (c :: w) 0 T (graphic_run _ Hw) ltac:(by left) ltac:(unfold scan_fuel; cbn [length]; lia)).
    change (c :: w ++ rest) with ((c :: w) ++ 0 :: T). rewrite (bind_done _ _ _ _ _ H2), app_assoc, (bind_done _ _ _ _ _ (peek_at s k _ _ 0 (list_lookup_middle _ _ _ _ eq_refl))).
    exists (a ++ (c :: w) ++ 0 :: T), [length (pre ++ a)]. split; [by rewrite <- !app_assoc|]. cbn [map fmap list_fmap snd]. rewrite (app_assoc pre), word_at; done.
  - assert (Er' : rest = e :: words_text ws' ++ sp' ++ 0 :: T) by done. rewrite Er' in *. clear Er Er'.
    assert (H2 := skip_run scan_fuel (fun c => negb (isspace c)) s k (pre ++ a) (c :: w) e (words_text ws' ++ sp' ++ 0 :: T) (graphic_run _ Hw) (ends_word_stop e (or_intror He)) ltac:(unfold scan_fuel; cbn [length]; lia)).
    rewrite (app_comm_cons w _ c), (bind_done _ _ _ _ _ H2), app_assoc, (bind_done _ _ _ _ _ (peek_at s k _ _ e (list_lookup_middle _ _ _ _ eq_refl))).
    destruct He as (He0 & _). destruct (Z.eqb_spec e 0); [done|]. rewrite (bind_done _ _ _ tt _ (poke_at s k (((pre ++ a) ++ c :: w) ++ e :: words_text ws' ++ sp' ++ 0 :: T) (length ((pre ++ a) ++ c :: w)) 0 ltac:(rewrite !length_app; cbn; lia))), insert_mid.
    set (pre' := ((pre ++ a) ++ c :: w) ++ [0]).
    replace (Z.of_nat (length ((pre ++ a) ++ c :: w)) + 1) with (Z.of_nat (length pre')) by (subst pre'; rewrite (length_app _ [0]); cbn; lia).
    replace (((pre ++ a) ++ c :: w) ++ 0 :: words_text ws' ++ sp' ++ 0 :: T) with (pre' ++ words_text ws' ++ sp' ++ 0 :: T) by (subst pre'; by rewrite <- app_assoc).
    destruct (IH ws' fuel pre' (argv ++ [Z.of_nat (length (pre ++ a))]) sp' ltac:(lia) ltac:(lia) Hok' Hsp') as (L & qs & E & Eq).
    { rewrite length_app. cbn [length] in *. lia. }
    { subst pre'. unfold short. rewrite !length_app in *. cbn [length] in *. rewrite ?length_app in *. cbn [length] in *. lia. }
    rewrite E. exists (a ++ (c :: w) ++ 0 :: L), (length (pre ++ a) :: qs).
    assert (EP : pre' ++ L = pre ++ a ++ (c :: w) ++ 0 :: L) by (subst pre'; by rewrite <- !app_assoc). rewrite <- EP. split; [by rewrite <- app_assoc|].
    cbn [map fmap list_fmap snd]. rewrite Eq, Hw2. f_equal. rewrite EP, (app_assoc pre), word_at; done.
Qed.

Lemma strings_run s k L qs : strings_at (ptrs qs) (at_line s k L) = Done (map (fun q => until_nul (drop q L)) qs) (at_line s k L).
Proof. induction qs as [|q qs IH]; cbn [ptrs map strings_at]; [done|]. rewrite (bind_done _ _ _ _ _ (string_at_line s k L q)). by rewrite (bind_done _ _ _ _ _ IH). Qed.
(** * The whole line *)

Lemma line_nonzero ps : Forall (fun x => spaces x.1 /\ piece_ok x.2) ps -> Forall (fun c => c <> 0) (line_text ps).
Proof.
  assert (Hs : forall t, spaces t -> Forall (fun c => c <> 0) t) by (intros t Ht; eapply Forall_impl; [exact Ht|]; by intros c (? & _)).
  assert (Hg : forall t, Forall graphic t -> Forall (fun c => c <> 0) t) by (intros t Ht; eapply Forall_impl; [exact Ht|]; by intros c (? & _)).
  assert (Hd : forall t, Forall decimal t -> Forall (fun c => c <> 0) t) by (intros t Ht; eapply Forall_impl; [exact Ht|]; unfold decimal; intros c ?; lia).
  intros H. unfold line_text. apply Forall_concat, Forall_map. eapply Forall_impl; [exact H|]. intros [sep p] [Hsep Hp]. cbn [fst snd] in *. apply Forall_app. split; [by apply Hs|].
  destruct p as [w|fd out apnd sp path|fd out sp ds]; cbn in *; [by apply Hg, Hp|destruct Hp as ([? _] & _ & ? & ? & _)|destruct Hp as ([? _] & ? & [? _] & _)].
  - apply Forall_app. split; [by apply Hd|]. constructor; [by destruct out|]. apply Forall_app. split; [destruct apnd; by repeat constructor|]. apply Forall_app. split; [by apply Hs|by apply Hg].
  - apply Forall_app. split; [by apply Hd|]. constructor; [by destruct out|]. constructor; [done|]. apply Forall_app. split; [by apply Hs|by apply Hd].
Qed.

Lemma pieces_count ps : Forall (fun x => spaces x.1 /\ piece_ok x.2) ps -> (length ps <= length (line_text ps))%nat.
Proof.
  induction 1 as [|[sep p] ps [_ Hp] _ IH]; [done|]. rewrite line_text_cons, !length_app. cbn [length fst snd] in *.
  assert (1 <= length (piece_text p))%nat; [|lia].
  destruct p as [w|fd out apnd sp path|fd out sp ds]; cbn in *; rewrite ?length_app; cbn [length]; [|lia..]. destruct Hp as [_ He]. destruct w; [by inversion He|cbn; lia].
Qed.

Lemma words_count ws : words_ok ws -> (length ws <= length (words_text ws))%nat.
Proof.
  intros [H _]. induction H as [|[a w] ws (_ & _ & He) _ IH]; [done|]. unfold words_text in *. cbn in *. rewrite !length_app. assert (w <> []) by (intros ->; by inversion He).
  destruct w; [done|cbn; lia].
Qed.

(** The outcome of a kernel call, with some line. *)
Definition runs {A} (s : shell K) (o : outcome K A) (r : outcome (shell K) A) : Prop :=
  match o with
  | Done a k => exists L, r = Done a (at_line s k L)
  | Failed f => r = Failed f
  end.

Lemma parse_run fuel s k ps rest :
  Forall (fun x => piece_ok x.2) ps -> seps_ok ps -> Z.of_nat (length (words_of ps)) < ARGV_MAX -> short (line_text ps ++ 10 :: 0 :: rest) ->
  runs s (meaning fuel ps k) (parse fuel (at_line s k (line_text ps ++ 10 :: 0 :: rest))).
Proof.
  intros Hp [Hsep Hne] Hcount Hsh. assert (Hok : Forall (fun x => spaces x.1 /\ piece_ok x.2) ps) by (apply Forall_and; by split).
  set (t := line_text ps) in *. unfold parse. rewrite (bind_done _ _ _ _ _ (string_at_line s k _ 0)), drop_0. change (t ++ 10 :: 0 :: rest) with (t ++ [10] ++ 0 :: rest). rewrite app_assoc, until_nul_app.
  2: { apply Forall_app. split; [by apply line_nonzero|by repeat constructor]. }
  rewrite <- app_assoc. cbn [app]. cbv zeta. replace (Z.of_nat (length (t ++ [10])) - 1) with (Z.of_nat (length t)) by (rewrite length_app; cbn; lia).
  rewrite (bind_done _ _ _ _ _ (peek_at s k _ _ 10 (list_lookup_middle _ _ _ _ eq_refl))). cbn [Z.eqb Pos.eqb].
  rewrite (bind_done _ _ _ tt _ (poke_at s k (t ++ 10 :: 0 :: rest) (length t) 0 ltac:(rewrite length_app; cbn; lia))), insert_mid.
  assert (Hlen : length (t ++ 0 :: 0 :: rest) = length (t ++ 10 :: 0 :: rest)) by (by rewrite !length_app).
  assert (Hpk : pieces_ok [] [] ps) by (split; [done|]; destruct ps as [|x ps]; [done|]; destruct Hne as [[?|?] ?]; (split; [|done]); [by left|by right]).
  assert (Hps := pieces_count ps Hok). fold t in Hps.
  assert (H := redirects_run s (length ps) ps scan_fuel [] k [] [] [] [] (0 :: rest) ltac:(done) ltac:(unfold short, scan_fuel in *; rewrite length_app in Hsh; cbn [length] in Hsh; lia) ltac:(split; constructor) ltac:(constructor) Hpk
    ltac:(right; by eexists) eq_refl ltac:(constructor) ltac:(cbn [app]; unfold short in *; fold t; lia)).
  cbn [app length fmap list_fmap] in H. fold t in H. unfold parse_redirects, meaning. change (Z.of_nat 0) with 0 in H. unfold only_words in H.
  destruct (redirections ps [] k) as [[rm|] k'|f] eqn:Er; [rewrite (bind_done _ _ _ _ _ Er)|rewrite (bind_done _ _ _ _ _ Er); destruct H as [L H]; rewrite (bind_done _ _ _ _ _ H); by exists L|rewrite (bind_failed _ _ _ _ Er); by apply bind_failed].
  destruct H as (ws & sp & T & H & Hws & Hsp & Ew & El). rewrite (bind_done _ _ _ _ _ H), <- Ew in *.
  assert (Hwc := words_count ws Hws). rewrite length_fmap in Hcount. assert (El' := El). rewrite !length_app in El'. cbn [length] in El'.
  destruct (tokens_run s k' T (length ws) ws scan_fuel [] [] sp) as (L & qs & E & Eq); [done|unfold short, scan_fuel in *; rewrite length_app in Hsh; cbn [length] in Hsh; lia|by apply words_tokens|done|done|unfold short in *; cbn [app]; lia|].
  cbn [length app] in E, Eq. change (Z.of_nat 0) with 0 in E. rewrite (bind_done _ _ _ _ _ E).
  assert (Hql : length (ptrs qs) = length ws) by (unfold ptrs; rewrite length_map; apply (f_equal length) in Eq; by rewrite length_map, length_fmap in Eq).
  rewrite Hql. destruct (Z.leb_spec ARGV_MAX (Z.of_nat (length ws))); [lia|]. rewrite <- Eq. destruct qs as [|q qs]; [by exists L|].
  change (ptrs (q :: qs)) with (Z.of_nat q :: ptrs qs). cbv beta iota zeta. change (Z.of_nat q :: ptrs qs) with (ptrs (q :: qs)).
  rewrite (bind_done _ _ _ _ _ (strings_run s k' L (q :: qs))). rewrite lift_at_line. unfold runs. change (map (fun q0 => until_nul (drop q0 L)) (q :: qs)) with (until_nul (drop q L) :: map (fun q0 => until_nul (drop q0 L)) qs).
  cbv beta iota. destruct (execute _ _ _ k'); [by eexists|done].
Qed.
(** The bytes of a line that was read, and how many there are. *)
Definition typed (ps : list (list Z * piece)) : list Z := line_text ps ++ [10].
Definition ntyped (ps : list (list Z * piece)) : Z := Z.of_nat (length (typed ps)).

(** What reading a line leaves: the buffers are exchanged, unless the shell ends. *)
Definition ran (s : shell K) (o : outcome K flow) (r : outcome (shell K) flow) : Prop :=
  match o with
  | Done (Status n) k => exists L, r = Done (Status n) (Shell k (prev_linebuf s) L false)
  | Done (Exit n) k => exists L, r = Done (Exit n) (Shell k L (prev_linebuf s) false)
  | Failed f => r = Failed f
  end.

(** A line that fits in its buffer, and is not the one that repeats the last. *)
Definition line_ok (s : shell K) (ps : list (list Z * piece)) : Prop :=
  Forall (fun x => piece_ok x.2) ps /\ seps_ok ps /\ Z.of_nat (length (words_of ps)) < ARGV_MAX /\
  Z.of_nat (length (linebuf s)) = LINEBUF_SIZE /\ ntyped ps < LINEBUF_SIZE /\ typed ps <> [33; 33; 10].

Lemma line_run fuel s ps : line_ok s ps -> ran s (meaning fuel ps (kern s)) (run_line fuel (ntyped ps) (typed ps) s).
Proof.
  intros (Hp & Hsep & Hcount & Hbuf & Hfit & Hbang). unfold run_line. set (L := typed ps ++ drop (length (typed ps)) (linebuf s)). unfold ntyped in *.
  destruct (lookup_lt_is_Some_2 (linebuf s) (length (typed ps))) as [c Hc]; [lia|].
  assert (EL : L = typed ps ++ c :: drop (S (length (typed ps))) (linebuf s)) by (subst L; by rewrite (drop_S _ _ _ Hc)).
  unfold bind at 1, modify at 1. fold L. set (s1 := Shell (kern s) L (prev_linebuf s) false). assert (Es : s1 = at_line s1 (kern s) L) by done.
  rewrite Es, EL. rewrite (bind_done _ _ _ tt _ (poke_at s1 (kern s) (typed ps ++ c :: drop (S (length (typed ps))) (linebuf s)) (length (typed ps)) 0 ltac:(rewrite length_app; cbn; lia))), insert_mid.
  rewrite bool_decide_eq_false_2, andb_false_r by done. unfold typed at 1. rewrite <- app_assoc. cbn [app]. set (rest := drop (S (length (typed ps))) (linebuf s)).
  assert (Hsh : short (line_text ps ++ 10 :: 0 :: rest)).
  { unfold short. subst rest. rewrite length_app. cbn [length]. rewrite length_drop. unfold typed in *. rewrite length_app in *. cbn [length] in *. lia. }
  assert (Hrun := parse_run fuel s1 (kern s) ps rest Hp Hsep Hcount Hsh). unfold runs, parse_buf in *. unfold bind at 1 2, modify at 1.
  replace (Shell _ _ _ false) with (at_line s1 (kern s) (line_text ps ++ 10 :: 0 :: rest)) by done.
  destruct (meaning fuel ps (kern s)) as [[n|n] k'|f]; cbn [ran]; [destruct Hrun as [L' ->]; by exists L'..|by rewrite Hrun].
Qed.

(** C25: A line of words and redirections that the shell reads is run as its parts
    say: the files are opened and the descriptors duplicated from left to right,
    each with the mode of its symbol, for the descriptor before the symbol or the
    standard one; the words are the arguments of the command, which runs with
    these redirections; a redirection that fails ends the line. Then the buffer
    becomes that of the previous line. *)
Theorem line_correct fuel s ps : line_ok s ps -> ran s (meaning fuel ps (kern s)) (run_line fuel (ntyped ps) (typed ps) s).
Proof. apply line_run. Qed.
End parse_proofs.

(** * A line *)

Definition tty : path * nat := (str "/dev/tty0", 0%nat).

(** A kernel with the file [a], and the terminal for the standard descriptors. *)
Definition demo : shell ram :=
  Shell (Ram (<[str "a" := str "two words"]> (<[str "/dev/tty0" := []]> ∅)) (<[0 := tty]> (<[1 := tty]> (<[2 := tty]> ∅))) 100 0)
    (replicate (Z.to_nat LINEBUF_SIZE) 0) (replicate (Z.to_nat LINEBUF_SIZE) 0) false.

(** [echo hi >> f 2>&1] *)
Definition demo_line : list (list Z * piece) :=
  [([], PWord (str "echo")); (str " ", PWord (str "hi")); (str " ", PFile [] true true (str " ") (str "f")); (str " ", PDup (str "2") true [] (str "1"))].

Ltac decided := refine (bool_decide_unpack _ _); vm_compute; exact I.
Ltac line_ok_tac :=
  split_and!; [|split; [|split]| | | |]; repeat first [apply Forall_cons; split | apply Forall_nil; exact I]; cbn [fst snd piece_ok is_word]; unfold fd_ok, graphic, space, decimal;
  split_and?; try done; try decided; try (by right); try (by eexists _, _).

Lemma demo_line_ok : line_ok demo demo_line.
Proof. line_ok_tac. Qed.

Lemma line_correct_witness :
  line_ok demo demo_line /\ ran demo (meaning 5 demo_line (kern demo)) (run_line 5 (ntyped demo_line) (typed demo_line) demo) /\
  (match run_line 5 (ntyped demo_line) (typed demo_line) demo with Done _ s => ram_files (kern s) !! str "f" | Failed _ => None end) = Some (str "hi" ++ [10]).
Proof. split; [exact demo_line_ok|]. split; [exact (line_correct 5 demo demo_line demo_line_ok)|]. vm_compute. reflexivity. Defined.
