(* ===== verification/PrintfProofs.v ===== *)
(** What [vsnprintf] writes: the text of the format, cut to the buffer and
    terminated ([util/printf.c]). *)

From S2P Require Import Prelude CString KMem Printf.

(** ** The text of a format

    The text that the format describes, without buffer or pointers; [None] when
    the arguments do not fit the conversions, and for [%n]. *)

Definition spaces (n : Z) : list Z := replicate (Z.to_nat n) (ch " ").
Definition zeros (n : Z) : list Z := replicate (Z.to_nat n) (ch "0").

Definition sign_text (num type : Z) : list Z :=
  if flag type SIGN then
    if num <? 0 then [ch "-"]
    else if flag type PLUS then [ch "+"]
    else if flag type SPACE then [ch " "] else []
  else [].

Definition digits_of (type : Z) : string := if flag type LARGE then large_digits else small_digits.

Definition prefix_text (base type : Z) : list Z :=
  if flag type SPECIAL then
    if base =? 16 then [ch "0"; digit_char (digits_of type) 33] else if base =? 8 then [ch "0"] else []
  else [].

(** The digits of a number, the most significant one first. *)
Definition digits_text (digits : string) (n base : Z) : list Z :=
  if n =? 0 then [ch "0"] else rev (digits_loop 64 digits n base).

(** The number that is printed: the absolute value of a signed one. *)
Definition magnitude (num type : Z) : Z := if flag type SIGN && (num <? 0) then - num else u64 num.

Definition number_text (num base size precision type : Z) : list Z :=
  let ds := digits_text (digits_of type) (magnitude num type) base in
  let body := zeros (precision - Z.of_nat (length ds)) ++ ds in
  let head := sign_text num type ++ prefix_text base type in
  let fill := size - Z.of_nat (length head) - Z.of_nat (length body) in
  if flag type LEFT then head ++ body ++ spaces fill
  else if flag type ZEROPAD then head ++ zeros fill ++ body
  else spaces fill ++ head ++ body.

Definition take_word (args : list varg) : option (Z * list varg) :=
  match args with va_word w :: args => Some (w, args) | _ => None end.

Definition width_text (fmt : list Z) (flags : Z) (args : list varg) : option (Z * Z * list Z * list varg) :=
  if isdigit (chr fmt) then
    let '(w, fmt) := skip_atoi fmt in Some (flags, w, fmt, args)
  else if chr fmt =? ch "*" then
    '(w, args) ← take_word args;
    Some (if s32 w <? 0 then (Z.lor flags LEFT, s32 (- s32 w), adv fmt, args) else (flags, s32 w, adv fmt, args))
  else Some (flags, -1, fmt, args).

Definition precision_text (fmt : list Z) (args : list varg) : option (Z * list Z * list varg) :=
  if chr fmt =? ch "." then
    let fmt := adv fmt in
    '(p, fmt, args) ←
      (if isdigit (chr fmt) then Some (skip_atoi fmt, args)
       else if chr fmt =? ch "*" then '(w, args) ← take_word args; Some (s32 w, adv fmt, args)
       else Some (-1, fmt, args));
    Some (Z.max 0 p, fmt, args)
  else Some (-1, fmt, args).

(** The value an integer conversion prints. *)
Definition num_text (qualifier flags w : Z) : Z :=
  let signed := flag flags SIGN in
  if (qualifier =? ch "L") || (qualifier =? ch "l") || (qualifier =? ch "Z") then s64 w
  else if qualifier =? ch "h" then if signed then s16 w else w mod 2 ^ 16
  else if signed then s32 w else u32 w.

Definition field_text (flags width : Z) (t : list Z) : list Z :=
  let fill := spaces (width - Z.of_nat (length t)) in
  if flag flags LEFT then t ++ fill else fill ++ t.

(** The text of a conversion, what is left of the format and the arguments. *)
Definition conversion_text (fmt : list Z) (args : list varg) : option (list Z * list Z * list varg) :=
  let '(flags, fmt) := scan_flags fmt 0 in
  '(flags, width, fmt, args) ← width_text fmt flags args;
  '(precision, fmt, args) ← precision_text fmt args;
  let '(qualifier, fmt) := scan_qualifier fmt in
  let c := chr fmt in
  let integer (base flags : Z) :=
    '(w, args) ← take_word args;
    Some (number_text (num_text qualifier flags w) base width precision flags, adv fmt, args) in
  if c =? ch "c" then
    '(w, args) ← take_word args; Some (field_text flags width [w mod 256], adv fmt, args)
  else if c =? ch "s" then
    match args with
    | va_string s :: args =>
        let s := default (str "<NULL>") s in
        let len := strnlen s (if precision =? -1 then length s else Z.to_nat precision) in
        Some (field_text flags width (take (Z.to_nat len) s), adv fmt, args)
    | _ => None
    end
  else if c =? ch "p" then
    '(w, args) ← take_word args;
    Some (if width =? -1 then number_text (s64 w) 16 16 precision (Z.lor flags ZEROPAD)
          else number_text (s64 w) 16 width precision flags, adv fmt, args)
  else if c =? ch "n" then None
  else if c =? ch "%" then Some ([ch "%"], adv fmt, args)
  else if c =? ch "o" then integer 8 flags
  else if c =? ch "X" then integer 16 (Z.lor flags LARGE)
  else if c =? ch "x" then integer 16 flags
  else if (c =? ch "d") || (c =? ch "i") then integer 10 (Z.lor flags SIGN)
  else if c =? ch "u" then integer 10 flags
  else if c =? 0 then Some ([ch "%"], fmt, args)
  else Some ([ch "%"; c], adv fmt, args).

Fixpoint text_loop (fuel : nat) (fmt : list Z) (args : list varg) : option (list Z) :=
  if chr fmt =? 0 then Some []
  else match fuel with
       | O => None
       | S fuel =>
           if chr fmt =? ch "%" then
             '(t, fmt, args) ← conversion_text (adv fmt) args;
             app t <$> text_loop fuel fmt args
           else cons (chr fmt) <$> text_loop fuel (adv fmt) args
       end.

Definition format_text (fmt : list Z) (args : list varg) : option (list Z) := text_loop (length fmt) fmt args.

(** ** Output to the buffer *)

(** The flags are bits. *)
Lemma flag_bit type k : 0 <= k -> flag type (2 ^ k) = Z.testbit type k.
Proof.
  intros Hk. unfold flag. destruct (Z.testbit type k) eqn:E.
  - apply negb_true_iff, Z.eqb_neq. intros H. assert (Z.testbit (Z.land type (2 ^ k)) k = true) as Ht.
    { rewrite Z.land_spec, E, Z.pow2_bits_true by lia. done. }
    rewrite H, Z.bits_0 in Ht. done.
  - apply negb_false_iff, Z.eqb_eq, Z.bits_inj'. intros n Hn. rewrite Z.land_spec, Z.bits_0.
    destruct (decide (n = k)) as [->|]; [by rewrite E|]. rewrite Z.pow2_bits_false by lia. apply andb_false_r.
Qed.

Lemma flag_ldiff type k : 0 < k -> flag (Z.ldiff type ZEROPAD) (2 ^ k) = flag type (2 ^ k).
Proof.
  intros Hk. rewrite !flag_bit, Z.ldiff_spec by lia. change ZEROPAD with (2 ^ 0). rewrite Z.pow2_bits_false by lia.
  apply andb_true_r.
Qed.

Lemma flag_lor type f k : 0 <= k -> flag (Z.lor type f) (2 ^ k) = flag type (2 ^ k) || flag f (2 ^ k).
Proof. intros Hk. by rewrite !flag_bit, Z.lor_spec by lia. Qed.

Lemma flag_pad type : flag type (ZEROPAD + LEFT) = flag type ZEROPAD || flag type LEFT.
Proof.
  unfold flag. change (ZEROPAD + LEFT) with (Z.lor ZEROPAD LEFT). rewrite Z.land_lor_distr_r, <- negb_andb. f_equal.
  destruct (Z.land type ZEROPAD =? 0) eqn:E1; destruct (Z.land type LEFT =? 0) eqn:E2; cbn [andb];
    rewrite ?Z.eqb_eq, ?Z.eqb_neq in *; rewrite Z.lor_eq_0_iff; tauto.
Qed.

Section emit.
Context (end_ : Z).

(** The state after the bytes [bs] were put. *)
Definition emit (bs : list Z) (args : list varg) (o : out) : out :=
  Out (o_str o + Z.of_nat (length bs))
      (store_bytes (o_mem o) (o_str o) (take (Z.to_nat (end_ + 1 - o_str o)) bs)) args.

Lemma emit_nil o : emit [] (o_args o) o = o.
Proof. destruct o. unfold emit. cbn. rewrite take_nil. cbn. f_equal. lia. Qed.

Lemma store_bytes_app m a b1 b2 :
  store_bytes m a (b1 ++ b2) = store_bytes (store_bytes m a b1) (a + Z.of_nat (length b1)) b2.
Proof.
  revert m a. induction b1 as [|b b1 IH]; intros m a; cbn [app store_bytes length].
  - f_equal. lia.
  - rewrite IH. f_equal. lia.
Qed.

Lemma emit_app b1 b2 a1 a2 o : emit b2 a2 (emit b1 a1 o) = emit (b1 ++ b2) a2 o.
Proof.
  unfold emit. cbn [o_str o_mem]. rewrite length_app. f_equal; [lia|].
  rewrite take_app, store_bytes_app, length_take.
  destruct (decide (length b1 <= Z.to_nat (end_ + 1 - o_str o))%nat).
  - rewrite Nat.min_r by lia. f_equal. f_equal. lia.
  - replace (Z.to_nat (end_ + 1 - (o_str o + Z.of_nat (length b1)))) with 0%nat by lia.
    replace (Z.to_nat (end_ + 1 - o_str o) - length b1)%nat with 0%nat by lia. done.
Qed.

Lemma wp_putch c Q o : Q tt (emit [c] (o_args o) o) -> wp (putch end_ c) Q o.
Proof.
  intros HQ. unfold putch. apply wp_modify. revert HQ. unfold emit. cbn [length].
  destruct (Z.leb_spec (o_str o) end_).
  - destruct (Z.to_nat (end_ + 1 - o_str o)) eqn:E; [lia|]. cbn [take store_bytes]. rewrite take_nil. cbn. done.
  - replace (Z.to_nat (end_ + 1 - o_str o)) with 0%nat by lia. done.
Qed.

Lemma wp_for_put bs Q o : Q tt (emit bs (o_args o) o) -> wp (for_each bs (putch end_)) Q o.
Proof.
  revert o. induction bs as [|b bs IH]; intros o HQ; cbn [for_each].
  - apply wp_ret. by rewrite emit_nil in HQ.
  - apply wp_bind, wp_putch, IH. cbn [o_args emit]. by rewrite emit_app.
Qed.

Lemma wp_put_n n c Q o : Q tt (emit (replicate n c) (o_args o) o) -> wp (put_n n end_ c) Q o.
Proof.
  revert o. induction n as [|n IH]; intros o HQ; cbn [put_n replicate] in *.
  - apply wp_ret. by rewrite emit_nil in HQ.
  - apply wp_bind, wp_putch, IH. cbn [o_args emit]. by rewrite emit_app.
Qed.

Lemma wp_pad_loop n c Q o :
  (forall r, r < 0 -> Q r (emit (replicate (Z.to_nat n) c) (o_args o) o)) -> wp (pad_loop n end_ c) Q o.
Proof.
  intros HQ. unfold pad_loop. apply wp_bind, wp_put_n, wp_ret, HQ. destruct (Z.ltb_spec 0 n); lia.
Qed.

(** The sign, the number without it and the width that is left. *)
Lemma sign_case num size type :
  - 2 ^ 63 <= num < 2 ^ 63 ->
  exists sign n,
    (if flag type SIGN then
       if num <? 0 then (ch "-", s64 (- num), size - 1)
       else if flag type PLUS then (ch "+", num, size - 1)
       else if flag type SPACE then (ch " ", num, size - 1)
       else (0, num, size)
     else (0, num, size)) = (sign, n, size - Z.of_nat (length (sign_text num type)))
    /\ u64 n = magnitude num type /\ (n =? 0) = (magnitude num type =? 0)
    /\ (if sign =? 0 then [] else [sign]) = sign_text num type.
Proof.
  intros Hn. unfold sign_text, magnitude. assert (forall z, - 2 ^ 63 <= z < 2 ^ 63 -> (z =? 0) = (u64 z =? 0)) as H0.
  { intros z Hz. unfold u64. destruct (Z.eqb_spec z 0) as [->|]; [done|]. symmetry. apply Z.eqb_neq.
    destruct (decide (0 <= z)); [rewrite Z.mod_small; lia|]. rewrite <- (Z.mod_add z 1), Z.mod_small; lia. }
  destruct (flag type SIGN); cbn [andb]; [destruct (Z.ltb_spec num 0)|].
  - exists (ch "-"), (s64 (- num)). split_and!; [done| | |done].
    + unfold s64, u64. destruct (decide (num = - 2 ^ 63)) as [->|]; [done|]. rewrite (Z.mod_small (- num + 2 ^ 63)) by lia.
      rewrite Z.mod_small; lia.
    + destruct (decide (num = - 2 ^ 63)) as [->|]; [done|]. rewrite s64_id by lia. done.
  - destruct (flag type PLUS); [|destruct (flag type SPACE)]; eexists _, num;
      (split_and!; [cbn [length]; repeat f_equal; lia|done|by apply H0|done]).
  - exists 0, num. split_and!; [cbn [length]; repeat f_equal; lia|done|by apply H0|done].
Qed.

Lemma wp_sign sign Q o :
  Q tt (emit (if sign =? 0 then [] else [sign]) (o_args o) o) -> wp (if sign =? 0 then ret tt else putch end_ sign) Q o.
Proof. destruct (sign =? 0); [by rewrite emit_nil|]. apply wp_putch. Qed.

Lemma wp_prefix base type Q o :
  Q tt (emit (prefix_text base type) (o_args o) o) ->
  wp (if flag type SPECIAL then
        if base =? 8 then putch end_ (ch "0")
        else if base =? 16 then do! putch end_ (ch "0"); putch end_ (digit_char (digits_of type) 33)
        else ret tt
      else ret tt) Q o.
Proof.
  unfold prefix_text. destruct (flag type SPECIAL); [|by rewrite emit_nil].
  destruct (Z.eqb_spec base 8) as [->|]; [apply wp_putch|]. destruct (base =? 16); [|by rewrite emit_nil].
  intros HQ. apply wp_bind, wp_putch, wp_putch. cbn [o_args emit]. by rewrite emit_app.
Qed.

(** [emit] of the empty padding of an exhausted width. *)
Lemma replicate_neg n (c : Z) : n < 0 -> replicate (Z.to_nat n) c = [].
Proof. intros Hn. by replace (Z.to_nat n) with 0%nat by lia. Qed.

Lemma wp_number num base size precision type Q o :
  2 <= base <= 36 -> - 2 ^ 63 <= num < 2 ^ 63 ->
  Q tt (emit (number_text num base size precision type) (o_args o) o) ->
  wp (number end_ num base size precision type) Q o.
Proof.
  intros Hb Hn HQ. unfold number. rewrite (proj2 (Z.ltb_ge base 2)), (proj2 (Z.ltb_ge 36 base)) by lia. cbn [orb].
  set (type' := if flag type LEFT then _ else _).
  assert (forall k, 0 < k -> flag type' (2 ^ k) = flag type (2 ^ k)) as Hf.
  { intros k Hk. unfold type'. destruct (flag type LEFT); [by apply flag_ldiff|done]. }
  assert (flag type' ZEROPAD = negb (flag type LEFT) && flag type ZEROPAD) as Hz.
  { unfold type'. destruct (flag type LEFT); [|done]. change ZEROPAD with (2 ^ 0).
    rewrite flag_bit, Z.ldiff_spec by lia. rewrite Z.pow2_bits_true by lia. apply andb_false_r. }
  assert (flag type' SIGN = flag type SIGN) as -> by (by apply (Hf 1)).
  assert (flag type' PLUS = flag type PLUS) as -> by (by apply (Hf 2)).
  assert (flag type' SPACE = flag type SPACE) as -> by (by apply (Hf 3)).
  assert (flag type' SPECIAL = flag type SPECIAL) as -> by (by apply (Hf 5)).
  rewrite flag_pad, Hz. assert (flag type' LEFT = flag type LEFT) as -> by (by apply (Hf 4)).
  destruct (sign_case num size type Hn) as (sign & n & -> & Hu & H0 & Hsign). rewrite Hu, H0.
  set (ds := if magnitude num type =? 0 then _ else _).
  assert (rev ds = digits_text (digits_of type) (magnitude num type) base) as Hds.
  { unfold ds, digits_text. by destruct (magnitude num type =? 0). }
  set (sz := if flag type SPECIAL then _ else _).
  assert (sz = size - Z.of_nat (length (sign_text num type ++ prefix_text base type))) as Hsz.
  { unfold sz, prefix_text. rewrite length_app. destruct (flag type SPECIAL); [|cbn; lia].
    destruct (base =? 16); [cbn; lia|]. destruct (base =? 8); cbn; lia. }
  clearbody sz. set (prec := if precision <? _ then _ else _). set (k := Z.of_nat (length ds)) in *.
  assert (Z.to_nat (prec - k) = Z.to_nat (precision - k)) as -> by (unfold prec; destruct (Z.ltb_spec precision k); lia).
  assert (sz - prec = size - Z.of_nat (length (sign_text num type ++ prefix_text base type))
    - Z.of_nat (length (zeros (precision - k) ++ rev ds))) as ->.
  { rewrite Hsz, (length_app (zeros _)), length_rev. unfold zeros. rewrite length_replicate. fold k. unfold prec. destruct (Z.ltb_spec precision k); lia. }
  unfold number_text in HQ. rewrite <- Hds in HQ. rewrite length_rev in HQ. fold k in HQ. fold (digits_of type).
  set (fill := size - _ - _) in *. clearbody fill. clear sz Hsz prec Hz Hf.
  destruct (flag type LEFT); [|destruct (flag type ZEROPAD)]; cbn [negb andb orb].
  - apply wp_bind, wp_ret, wp_bind, wp_sign. rewrite Hsign. apply wp_bind, wp_prefix, wp_bind, wp_ret, wp_bind, wp_put_n.
    apply wp_bind, wp_for_put, wp_bind, wp_pad_loop. intros r _. apply wp_ret. cbn [o_args emit]. rewrite !emit_app.
    fold (zeros (precision - k)) (spaces fill). by rewrite <- !app_assoc in *.
  - apply wp_bind, wp_ret, wp_bind, wp_sign. rewrite Hsign. apply wp_bind, wp_prefix, wp_bind, wp_pad_loop. intros r Hr.
    apply wp_bind, wp_put_n, wp_bind, wp_for_put, wp_bind, wp_pad_loop. intros _ _. apply wp_ret. cbn [o_args emit].
    rewrite !emit_app, (replicate_neg r) by done. fold (zeros (precision - k)) (zeros fill).
    by rewrite app_nil_r, <- !app_assoc in *.
  - apply wp_bind, wp_pad_loop. intros r Hr. apply wp_bind, wp_sign. rewrite Hsign. apply wp_bind, wp_prefix, wp_bind, wp_pad_loop.
    intros r' Hr'. apply wp_bind, wp_put_n, wp_bind, wp_for_put, wp_bind, wp_pad_loop. intros _ _. apply wp_ret.
    cbn [o_args emit]. rewrite !emit_app, (replicate_neg r), (replicate_neg r') by done.
    fold (zeros (precision - k)) (spaces fill). by rewrite !app_nil_r, <- !app_assoc in *.
Qed.

(** ** Arguments *)

Lemma emit_none args o : emit [] args o = Out (o_str o) (o_mem o) args.
Proof. unfold emit. cbn. rewrite take_nil. cbn. f_equal. lia. Qed.

Lemma wp_next_word w args Q o :
  take_word (o_args o) = Some (w, args) -> Q w (emit [] args o) -> wp next_word Q o.
Proof.
  intros Ht HQ. unfold next_word. rewrite emit_none in HQ. wp_steps. destruct (o_args o) as [|[w'|] args']; cbn in Ht; [done| |done].
  injection Ht as -> ->. by wp_steps.
Qed.

Lemma wp_next_string x args Q o :
  o_args o = va_string x :: args -> Q x (emit [] args o) -> wp next_string Q o.
Proof.
  intros Ht HQ. unfold next_string. rewrite emit_none in HQ. wp_steps. rewrite Ht. by wp_steps.
Qed.

Lemma wp_scan_width fmt flags flags' w fmt' args Q o :
  width_text fmt flags (o_args o) = Some (flags', w, fmt', args) -> Q (flags', w, fmt') (emit [] args o) ->
  wp (scan_width fmt flags) Q o.
Proof.
  unfold width_text, scan_width. intros Ht HQ. destruct (isdigit (chr fmt)).
  { destruct (skip_atoi fmt) as [w1 fmt1]. injection Ht as <- <- <- <-. rewrite emit_nil in HQ. by apply wp_ret. }
  destruct (chr fmt =? ch "*").
  - destruct (take_word (o_args o)) as [[w1 args1]|] eqn:E; [|done]. cbn in Ht. unfold next_int.
    apply wp_bind, wp_bind, (wp_next_word w1 args1); [done|]. apply wp_ret.
    destruct (s32 w1 <? 0); injection Ht as <- <- <- <-; by apply wp_ret.
  - injection Ht as <- <- <- <-. rewrite emit_nil in HQ. by apply wp_ret.
Qed.

Lemma wp_scan_precision fmt p fmt' args Q o :
  precision_text fmt (o_args o) = Some (p, fmt', args) -> Q (p, fmt') (emit [] args o) -> wp (scan_precision fmt) Q o.
Proof.
  unfold precision_text, scan_precision. intros Ht HQ. destruct (chr fmt =? ch ".").
  2: { injection Ht as <- <- <-. rewrite emit_nil in HQ. by apply wp_ret. }
  assert (forall x, (if x <? 0 then 0 else x) = Z.max 0 x) as Hmax by (intros x; destruct (Z.ltb_spec x 0); lia).
  destruct (isdigit (chr (adv fmt))).
  { destruct (skip_atoi (adv fmt)) as [p1 fmt1]. cbn in Ht. injection Ht as <- <- <-. rewrite emit_nil in HQ.
    apply wp_bind, wp_ret, wp_ret. cbn. by rewrite Hmax. }
  destruct (chr (adv fmt) =? ch "*").
  - destruct (take_word (o_args o)) as [[w1 args1]|] eqn:E; [|done]. cbn in Ht. injection Ht as <- <- <-. unfold next_int.
    apply wp_bind, wp_bind, wp_bind, (wp_next_word w1 args1); [done|]. apply wp_ret, wp_ret, wp_ret. cbn. by rewrite Hmax.
  - cbn in Ht. injection Ht as <- <- <-. rewrite emit_nil in HQ. by apply wp_bind, wp_ret, wp_ret.
Qed.

Lemma wp_get_num qualifier flags w args Q o :
  take_word (o_args o) = Some (w, args) ->
  (forall num, s64 num = num_text qualifier flags w -> Q num (emit [] args o)) -> wp (get_num qualifier flags) Q o.
Proof.
  intros Ht HQ. unfold get_num. apply wp_bind, (wp_next_word w args); [done|]. unfold num_text in HQ.
  assert (s16 (w mod 2 ^ 16) = s16 w) as E16 by (unfold s16; rewrite Z.add_mod_idemp_l; done || lia).
  assert (s32 (u32 w) = s32 w) as E32 by (unfold s32, u32; rewrite Z.add_mod_idemp_l; done || lia).
  pose proof (Z.mod_pos_bound w (2 ^ 16) ltac:(lia)). pose proof (u32_range w).
  assert (- 2 ^ 15 <= s16 w < 2 ^ 15) by (unfold s16; pose proof (Z.mod_pos_bound (w + 2 ^ 15) (2 ^ 16)); lia).
  assert (- 2 ^ 31 <= s32 w < 2 ^ 31) by (unfold s32; pose proof (Z.mod_pos_bound (w + 2 ^ 31) (2 ^ 32)); lia).
  destruct (qualifier =? ch "L"); [apply wp_ret, HQ, s64_u64|]. destruct (qualifier =? ch "l"); cbn [orb] in *.
  { apply wp_ret, HQ. rewrite s64_u64. destruct (flag flags SIGN); [apply s64_id, s64_range|done]. }
  destruct (qualifier =? ch "Z"); [apply wp_ret, HQ, s64_u64|].
  destruct (qualifier =? ch "h"); apply wp_ret, HQ; rewrite s64_u64, s64_id; rewrite ?E16, ?E32; try done;
    destruct (flag flags SIGN); lia.
Qed.

(** ** Conversions *)

Lemma strnlen_range s n : 0 <= strnlen s n <= Z.of_nat (length s).
Proof.
  revert s. induction n as [|n IH]; intros s; cbn [strnlen]; [lia|]. destruct s as [|c s]; cbn [chr]; [done|].
  destruct (c =? 0); [cbn [length]; lia|]. specialize (IH s). cbn [adv tail length]. lia.
Qed.

Lemma take_strnlen s n : Z.of_nat (length (take (Z.to_nat (strnlen s n)) s)) = strnlen s n.
Proof. rewrite length_take. pose proof (strnlen_range s n). lia. Qed.

Section convert.
Context (buf : Z).

Lemma wp_integer base qualifier flags width precision (rest : list Z) w args Q o :
  2 <= base <= 36 -> take_word (o_args o) = Some (w, args) ->
  Q (Some rest) (emit (number_text (num_text qualifier flags w) base width precision flags) args o) ->
  wp (let! num := get_num qualifier flags in
      do! number end_ (s64 num) base width precision flags;
      ret (Some rest)) Q o.
Proof.
  intros Hb Ht HQ. apply wp_bind, (wp_get_num _ _ _ _ _ _ Ht). intros num Hnum.
  apply wp_bind, wp_number; [done|apply s64_range|]. rewrite Hnum. apply wp_ret. cbn [o_args emit]. by rewrite emit_app.
Qed.

Lemma wp_char flags width w args (rest : list Z) Q o :
  take_word (o_args o) = Some (w, args) -> Q (Some rest) (emit (field_text flags width [w mod 256]) args o) ->
  wp (do! (if flag flags LEFT then ret tt else put_n (Z.to_nat (width - 1)) end_ (ch " "));
      let! x := next_int in
      do! putch end_ (x mod 256);
      do! (if flag flags LEFT then put_n (Z.to_nat (width - 1)) end_ (ch " ") else ret tt);
      ret (Some rest)) Q o.
Proof.
  intros Ht HQ. unfold field_text, next_int in *. cbn [length] in HQ. change (Z.of_nat 1) with 1 in HQ.
  assert (s32 w mod 256 = w mod 256) as Hw.
  { unfold s32. rewrite Zminus_mod. replace ((w + 2 ^ 31) mod 2 ^ 32 mod 256) with ((w + 2 ^ 31) mod 256).
    - rewrite <- Zminus_mod. f_equal. lia.
    - change (2 ^ 32) with (256 * 2 ^ 24). rewrite Z.rem_mul_r, Z.add_comm, (Z.mul_comm 256), Z_mod_plus_full by lia. by rewrite Z.mod_mod. }
  destruct (flag flags LEFT).
  - apply wp_bind, wp_ret, wp_bind, wp_bind, (wp_next_word w args); [done|]. apply wp_ret, wp_bind, wp_putch, wp_bind, wp_put_n, wp_ret.
    cbn [o_args emit]. by rewrite !emit_app, Hw.
  - apply wp_bind, wp_put_n, wp_bind, wp_bind, (wp_next_word w args); [done|]. apply wp_ret, wp_bind, wp_putch, wp_bind, wp_ret, wp_ret.
    cbn [o_args emit]. by rewrite !emit_app, Hw.
Qed.

Lemma wp_string flags width t n (rest : list Z) Q o :
  Z.of_nat (length t) = n -> Q (Some rest) (emit (field_text flags width t) (o_args o) o) ->
  wp (do! (if flag flags LEFT then ret tt else put_n (Z.to_nat (width - n)) end_ (ch " "));
      do! for_each t (putch end_);
      do! (if flag flags LEFT then put_n (Z.to_nat (width - n)) end_ (ch " ") else ret tt);
      ret (Some rest)) Q o.
Proof.
  unfold field_text. intros <- HQ. destruct (flag flags LEFT).
  - apply wp_bind, wp_ret, wp_bind, wp_for_put, wp_bind, wp_put_n, wp_ret. cbn [o_args emit]. by rewrite emit_app.
  - apply wp_bind, wp_put_n, wp_bind, wp_for_put, wp_bind, wp_ret, wp_ret. cbn [o_args emit]. by rewrite emit_app.
Qed.

Lemma wp_convert fmt t rest args Q o :
  conversion_text fmt (o_args o) = Some (t, rest, args) -> Q (Some rest) (emit t args o) ->
  wp (convert (fun _ => false) buf end_ fmt) Q o.
Proof.
  unfold conversion_text, convert. intros Ht HQ. destruct (scan_flags fmt 0) as [flags1 fmt1].
  destruct (width_text fmt1 flags1 (o_args o)) as [[[[flags width] fmt2] args2]|] eqn:Ew; [|done]. cbn [mbind option_bind] in Ht.
  eapply wp_bind, wp_scan_width; [exact Ew|].
  destruct (precision_text fmt2 args2) as [[[prec fmt3] args3]|] eqn:Ep; [|done]. cbn [mbind option_bind] in Ht.
  eapply wp_bind, wp_scan_precision; [exact Ep|]. rewrite emit_app. cbn [app].
  destruct (scan_qualifier fmt3) as [q fmt4]. set (c := chr fmt4) in *.
  assert (forall base fl, 2 <= base <= 36 -> ('(w, args) ← take_word args3;
            Some (number_text (num_text q fl w) base width prec fl, adv fmt4, args)) = Some (t, rest, args) ->
          wp (let! num := get_num q fl in
              do! number end_ (s64 num) base width prec fl;
              ret (Some (adv fmt4))) Q (emit [] args3 o)) as Hint.
  { intros base fl Hb E. destruct (take_word args3) as [[w args4]|] eqn:Et; [|done]. cbn in E. injection E as <- <- <-.
    eapply wp_integer; [done|exact Et|]. by rewrite emit_app. }
  destruct (c =? ch "c").
  { destruct (take_word args3) as [[w args4]|] eqn:Et; [|done]. cbn in Ht. injection Ht as <- <- <-.
    eapply wp_char; [exact Et|]. by rewrite emit_app. }
  destruct (c =? ch "s").
  { destruct args3 as [|[|x] args4]; [done|done|]. injection Ht as <- <- <-.
    eapply wp_bind, wp_next_string; [done|]. rewrite emit_app. cbv zeta.
    apply wp_string; [apply take_strnlen|]. by rewrite emit_app. }
  destruct (c =? ch "p").
  { destruct (take_word args3) as [[w args4]|] eqn:Et; [|done]. cbn in Ht. injection Ht as <- <- <-.
    eapply wp_bind, wp_next_word; [exact Et|]. rewrite emit_app.
    destruct (width =? -1); apply wp_bind, wp_number; [lia|apply s64_range| |lia|apply s64_range|];
      cbn [o_args emit]; rewrite emit_app; by apply wp_ret. }
  destruct (c =? ch "n"); [done|]. destruct (c =? ch "%").
  { injection Ht as <- <- <-. apply wp_bind, wp_putch, wp_ret. by rewrite emit_app. }
  destruct (c =? ch "o"); [apply Hint; [lia|done]|]. destruct (c =? ch "X"); [apply Hint; [lia|done]|].
  destruct (c =? ch "x"); [apply Hint; [lia|done]|]. destruct ((c =? ch "d") || (c =? ch "i")); [apply Hint; [lia|done]|].
  destruct (c =? ch "u"); [apply Hint; [lia|done]|].
  destruct (c =? 0); injection Ht as <- <- <-; apply wp_bind, wp_putch; [|apply wp_bind, wp_putch];
    apply wp_ret; cbn [o_args emit]; by rewrite ?emit_app.
Qed.

Lemma wp_format_loop fuel fmt t Q o :
  text_loop fuel fmt (o_args o) = Some t -> (forall args, Q true (emit t args o)) ->
  wp (format_loop (fun _ => false) buf end_ fuel fmt) Q o.
Proof.
  revert fmt t Q o. induction fuel as [|fuel IH]; intros fmt t Q o Ht HQ; cbn [text_loop format_loop] in *;
    (destruct (chr fmt =? 0); [injection Ht as <-; apply wp_ret; specialize (HQ (o_args o)); by rewrite emit_nil in HQ|]); [done|].
  destruct (chr fmt =? ch "%").
  - destruct (conversion_text (adv fmt) (o_args o)) as [[[t1 fmt1] args1]|] eqn:Ec; [|done]. cbn [mbind option_bind] in Ht.
    apply fmap_Some in Ht as (t2 & Ht & ->). eapply wp_bind, wp_convert; [exact Ec|]. apply IH with t2; [done|].
    intros args. by rewrite emit_app.
  - apply fmap_Some in Ht as (t2 & Ht & ->). apply wp_bind, wp_putch, IH with t2; [done|]. intros args. by rewrite emit_app.
Qed.
End convert.
End emit.

(** ** The buffer *)

(** What the buffer of [size] bytes holds at the end. *)
Definition printed (m : memory) (buf size : Z) (t : list Z) : memory :=
  if size =? 0 then m else store_bytes m buf (take (Z.to_nat (size - 1)) t ++ [0]).

Lemma store_bytes_last m a bs b c : store8 (store_bytes m a (bs ++ [b])) (a + Z.of_nat (length bs)) c = store_bytes m a (bs ++ [c]).
Proof. rewrite !store_bytes_app. cbn [store_bytes]. unfold store8. by rewrite insert_insert_eq. Qed.

Lemma vsnprintf_text buf size fmt args t m :
  0 < buf -> 0 <= size -> buf + size <= 2 ^ 64 -> format_text fmt args = Some t -> Z.of_nat (length t) < 2 ^ 31 ->
  vsnprintf buf size fmt args m = Done (Z.of_nat (length t)) (printed m buf size t).
Proof.
  intros Hbuf Hsize Hend Ht Hlen. unfold vsnprintf, vsnprintf_with, buffer_end.
  rewrite !u64_id by lia. rewrite (proj2 (Z.ltb_ge _ _)) by lia.
  destruct (wp_run (format_loop (fun _ => false) buf (buf + size - 1) (length fmt) fmt)
    (fun r o => r = true /\ o_str o = buf + Z.of_nat (length t) /\ o_mem o = store_bytes m buf (take (Z.to_nat size) t))
    (Out buf m args)) as (r & o & -> & -> & Hs & Hm).
  { apply (wp_format_loop _ _ _ _ t); [done|]. intros args'. cbn. by replace (buf + size - 1 + 1 - buf) with size by lia. }
  rewrite Hs, Hm. replace (buf + Z.of_nat (length t) - buf) with (Z.of_nat (length t)) by lia. rewrite s32_id by lia. f_equal.
  unfold printed. destruct (Z.leb_spec (buf + Z.of_nat (length t)) (buf + size - 1)).
  - rewrite (proj2 (Z.eqb_neq size 0)), !take_ge by lia. by rewrite store_bytes_app.
  - destruct (Z.ltb_spec 0 size); [|by assert (size = 0) as -> by lia].
    rewrite (proj2 (Z.eqb_neq size 0)) by lia. destruct (lookup_lt_is_Some_2 t (Z.to_nat (size - 1))) as [x Hx]; [lia|].
    replace (Z.to_nat size) with (S (Z.to_nat (size - 1))) by lia. rewrite (take_S_r _ _ _ Hx).
    rewrite <- (store_bytes_last _ _ _ x 0).
    replace (buf + Z.of_nat (length (take (Z.to_nat (size - 1)) t))) with (buf + size - 1); [done|].
    rewrite length_take. lia.
Qed.

(** ** The text in the buffer *)

(** C20: [vsnprintf] on any buffer returns the length of the text of the format,
    leaves the text, cut to [size - 1] bytes, and a NUL in the buffer, and
    writes nowhere else; it always returns. *)
Theorem vsnprintf_correct buf size fmt args t m :
  0 < buf -> 0 <= size -> buf + size <= 2 ^ 64 -> format_text fmt args = Some t -> Z.of_nat (length t) < 2 ^ 31 ->
  exists m', vsnprintf buf size fmt args m = Done (Z.of_nat (length t)) m'
    /\ (0 < size -> let shown := take (Z.to_nat (size - 1)) t in load_bytes m' buf (S (length shown)) = shown ++ [0])
    /\ forall x, ~ (buf <= x < buf + size) -> load8 m' x = load8 m x.
Proof.
  intros Hbuf Hsize Hend Ht Hlen. exists (printed m buf size t). split_and!; [by apply vsnprintf_text| |].
  - intros Hs shown. unfold printed. rewrite (proj2 (Z.eqb_neq size 0)) by lia. fold shown.
    replace (S (length shown)) with (length (shown ++ [0])) by (rewrite length_app; cbn; lia). apply load_bytes_store_bytes.
  - intros x Hx. unfold printed. destruct (Z.eqb_spec size 0); [done|]. apply load8_store_bytes_out.
    rewrite length_app, length_take. cbn. lia.
Qed.

Lemma vsnprintf_correct_witness :
  exists m', vsnprintf 4096 8 (str "%s=%04x;") [va_string (Some (str "mode")); va_word 493] ∅ = Done 10 m'
    /\ (0 < 8 -> let shown := take 7 (str "mode=01ed;") in load_bytes m' 4096 (S (length shown)) = shown ++ [0])
    /\ forall x, ~ (4096 <= x < 4096 + 8) -> load8 m' x = load8 ∅ x.
Proof.
  apply (vsnprintf_correct 4096 8 (str "%s=%04x;") [va_string (Some (str "mode")); va_word 493] (str "mode=01ed;") ∅);
    [lia|lia|lia|vm_compute; reflexivity|vm_compute; reflexivity].
Defined.
