(* ===== verification/ScanfProofs.v ===== *)
(** Reading back what was printed: [simple_strtoul] and [vsscanf] on the digits
    that [number] and [vsnprintf] write ([util/printf.c]). *)

From S2P Require Import Prelude CString KMem Printf Scanf PrintfProofs.

(** ** Digits *)

Definition digit_strings : list string := [small_digits; large_digits].

(** Facts on the digits below 16 that evaluation settles. *)
Lemma digit_table (P : string -> Z -> bool) digits d :
  digits ∈ digit_strings -> 0 <= d < 16 ->
  forallb (fun ds => forallb (fun k => P ds (Z.of_nat k)) (seq 0 16)) digit_strings = true -> P digits d = true.
Proof.
  intros Hds Hd HP. rewrite forallb_forall in HP. specialize (HP digits ltac:(by apply list_elem_of_In)).
  rewrite forallb_forall in HP. rewrite <- (Z2Nat.id d) by lia. apply HP, list_elem_of_In, elem_of_seq. lia.
Qed.

Lemma digit_char_value digits d :
  digits ∈ digit_strings -> 0 <= d < 16 -> isxdigit (digit_char digits d) = true /\ digit_value (digit_char digits d) = d.
Proof.
  intros Hds Hd.
  pose proof (digit_table (fun ds k => isxdigit (digit_char ds k) && (digit_value (digit_char ds k) =? k)) digits d Hds Hd
    ltac:(vm_compute; reflexivity)) as H. apply andb_true_iff in H as [? ?%Z.eqb_eq]. done.
Qed.

Lemma digit_accepted digits d base :
  digits ∈ digit_strings -> base ∈ [8; 10; 16] -> 0 <= d < base ->
  base_accepts base (digit_char digits d) = true /\ digit_char digits d <> 0 /\ isspace (digit_char digits d) = false
  /\ digit_char digits d <> ch "-".
Proof.
  intros Hds Hb Hd. assert (base <= 16) as Hle by (rewrite !elem_of_cons, elem_of_nil in Hb; lia).
  pose proof (digit_table (fun ds k => let c := digit_char ds k in
    negb (c =? 0) && negb (isspace c) && negb (c =? ch "-")
    && forallb (fun b => (b <=? k) || base_accepts b c) [8; 10; 16]) digits d Hds ltac:(lia)
    ltac:(vm_compute; reflexivity)) as H. cbv zeta in H. rewrite !andb_true_iff, !negb_true_iff, !Z.eqb_neq in H.
  destruct H as [[[H1 H2] H3] H4]. split_and!; [|done..]. rewrite forallb_forall in H4.
  specialize (H4 base ltac:(by apply list_elem_of_In)). apply orb_true_iff in H4 as [?%Z.leb_le|]; [lia|done].
Qed.

Section digits.
Context (digits : string) (base : Z) (Hds : digits ∈ digit_strings) (Hb : 2 <= base <= 16).

Lemma strtoul_digits fuel n rest :
  0 <= n < 2 ^ 64 -> n < base ^ Z.of_nat fuel ->
  strtoul_loop (rev (digits_loop fuel digits n base) ++ rest) base 0 = strtoul_loop rest base n.
Proof using Hds Hb.
  revert n rest. induction fuel as [|fuel IH]; intros n rest Hn Hf.
  { assert (n = 0) as -> by (cbn in Hf; lia). done. }
  cbn [digits_loop]. destruct (Z.eqb_spec n 0) as [->|]; [done|]. cbn [rev]. rewrite <- app_assoc.
  pose proof (Z.mod_pos_bound n base ltac:(lia)). pose proof (Z.div_mod n base ltac:(lia)).
  rewrite IH.
  - destruct (digit_char_value digits (n mod base) Hds ltac:(lia)) as [Hx Hv]. cbn [app strtoul_loop].
    rewrite Hx, Hv, (proj2 (Z.ltb_lt _ _)) by lia. cbn [andb]. f_equal. rewrite u64_id; lia.
  - split; [apply Z.div_pos; lia|]. apply Z.div_lt_upper_bound; nia.
  - apply Z.div_lt_upper_bound; [lia|]. by rewrite Nat2Z.inj_succ, Z.pow_succ_r in Hf by lia.
Qed.

Lemma digits_fuel n : 0 <= n < 2 ^ 64 -> n < base ^ Z.of_nat 64.
Proof using Hb. intros Hn. eapply Z.lt_le_trans; [apply Hn|]. apply Z.pow_le_mono_l. lia. Qed.

Lemma digits_all fuel n : 0 <= n -> Forall (fun c => exists d, 0 <= d < base /\ c = digit_char digits d) (digits_loop fuel digits n base).
Proof using Hb.
  revert n. induction fuel as [|fuel IH]; intros n Hn; cbn [digits_loop]; destruct (n =? 0); try constructor.
  - exists (n mod base). split; [apply Z.mod_pos_bound; lia|done].
  - apply IH, Z.div_pos; lia.
Qed.

Lemma digits_text_first n :
  0 <= n < 2 ^ 64 -> exists d rest, 0 <= d < base /\ digits_text digits n base = digit_char digits d :: rest.
Proof using Hds Hb.
  intros Hn. unfold digits_text. destruct (Z.eqb_spec n 0) as [->|Hne].
  { exists 0, []. split; [lia|]. f_equal.
    pose proof (digit_table (fun ds k => negb (k =? 0) || (ch "0" =? digit_char ds k)) digits 0 Hds ltac:(lia)
      ltac:(vm_compute; reflexivity)) as H%Z.eqb_eq. done. }
  pose proof (digits_all 64 n ltac:(lia)) as Hall. apply Forall_rev in Hall.
  destruct (rev (digits_loop 64 digits n base)) as [|c rest] eqn:E.
  - exfalso. apply (f_equal length) in E. rewrite length_rev in E. cbn [digits_loop] in E.
    destruct (Z.eqb_spec n 0); [lia|]. done.
  - inversion Hall as [|? ? (d & Hd & ->)]; subst. by exists d, rest.
Qed.
End digits.

(** ** Reading back *)

(** The conversions of [long]s: format, base, signedness and flags. *)
Record long_conversion : Type := LongConversion {
  lc_char : Z;
  lc_base : Z;
  lc_signed : bool;
  lc_flags : Z;
}.

Definition long_conversions : list long_conversion :=
  [LongConversion (ch "d") 10 true SIGN; LongConversion (ch "u") 10 false 0; LongConversion (ch "o") 8 false 0;
   LongConversion (ch "x") 16 false 0; LongConversion (ch "X") 16 false LARGE].

Definition lc_format (lc : long_conversion) : list Z := [ch "%"; ch "l"; lc_char lc].

Definition lc_range (lc : long_conversion) (n : Z) : Prop :=
  if lc_signed lc then - 2 ^ 63 <= n < 2 ^ 63 else 0 <= n < 2 ^ 64.

Lemma long_cases (P : long_conversion -> Prop) lc :
  lc ∈ long_conversions -> Forall P long_conversions -> P lc.
Proof. intros Hin HP. rewrite Forall_forall in HP. by apply HP. Qed.

Lemma long_text lc w :
  lc ∈ long_conversions ->
  format_text (lc_format lc) [va_word w] =
    Some (number_text (num_text (ch "l") (lc_flags lc) w) (lc_base lc) (-1) (-1) (lc_flags lc)).
Proof.
  intros Hlc. rewrite <- (app_nil_r (number_text _ _ _ _ _)). pattern lc.
  apply (long_cases _ lc Hlc). repeat constructor.
Qed.

Lemma number_text_plain num lc :
  lc ∈ long_conversions ->
  number_text num (lc_base lc) (-1) (-1) (lc_flags lc) =
    (if lc_signed lc && (num <? 0) then [ch "-"] else [])
    ++ digits_text (digits_of (lc_flags lc)) (if lc_signed lc && (num <? 0) then - num else u64 num) (lc_base lc).
Proof.
  intros Hlc. unfold number_text.
  assert (flag (lc_flags lc) LEFT = false /\ flag (lc_flags lc) ZEROPAD = false /\ prefix_text (lc_base lc) (lc_flags lc) = []
    /\ flag (lc_flags lc) SIGN = lc_signed lc /\ flag (lc_flags lc) PLUS = false /\ flag (lc_flags lc) SPACE = false)
    as (-> & -> & -> & Hs & Hp & Hsp).
  { pattern lc. apply (long_cases _ lc Hlc). repeat constructor. }
  unfold sign_text, magnitude. rewrite Hs, Hp, Hsp, app_nil_r. unfold spaces, zeros.
  set (ds := digits_text _ _ _). rewrite (replicate_neg (-1 - Z.of_nat (length ds))), (replicate_neg (-1 - _ - _)) by lia.
  destruct (lc_signed lc); [destruct (num <? 0)|]; done.
Qed.

Lemma scan_long lc c s v m p :
  lc ∈ long_conversions -> c <> 0 -> isspace c = false ->
  base_accepts (lc_base lc) (if lc_signed lc && (c =? ch "-") then chr s else c) = true ->
  (if lc_signed lc then simple_strtol (c :: s) (lc_base lc) else simple_strtoul (c :: s) (lc_base lc)) = (v, []) ->
  vsscanf (c :: s) (lc_format lc) [p] m = Done 1 (store_bytes m p (le_of_Z 8 v)).
Proof.
  intros Hlc Hc Hsp Hacc Hv. assert (skip_space (c :: s) = c :: s) as Hskip by (cbn; by rewrite Hsp).
  assert (scan_integer (c :: s) (ch "l") (lc_base lc) (lc_signed lc) (Scan m [p])
          = Done (Some []) (Scan (store_bytes m p (le_of_Z 8 v)) [])) as Hint.
  { unfold scan_integer. rewrite Hskip. cbn [chr adv tail]. rewrite Hacc. cbn [negb].
    change ((ch "l" =? ch "Z") || (ch "l" =? ch "z")) with false. cbn [negb]. rewrite andb_true_r, Hv. done. }
  unfold vsscanf, lc_format. cbn [length scan_loop chr].
  change (ch "%" =? 0) with false. change (isspace (ch "%")) with false. change (ch "%" =? ch "%") with true.
  rewrite (proj2 (Z.eqb_neq c 0)) by done. cbn [orb adv tail].
  assert (scan_convert (c :: s) (c :: s) [ch "l"; lc_char lc] (Scan m [p])
          = Done (Go [] [] true) (Scan (store_bytes m p (le_of_Z 8 v)) [])) as Hconv.
  { revert Hint. pattern lc. apply (long_cases _ lc Hlc).
    repeat (apply Forall_cons; split); try apply Forall_nil_2; unfold scan_convert; cbn [chr];
      rewrite (proj2 (Z.eqb_neq c 0)) by done; cbv -[scan_integer store_bytes le_of_Z]; by intros ->. }
  cbn [chr]. change (ch "%" =? 0) with false. change (ch "%" =? ch "%") with true. unfold bind at 1. by rewrite Hconv.
Qed.

Lemma u64_s64 z : u64 (s64 z) = u64 z.
Proof. unfold u64, s64. rewrite Zminus_mod_idemp_l. f_equal. lia. Qed.

Lemma le_of_Z_low n z : le_of_Z n (z mod 256 ^ Z.of_nat n) = le_of_Z n z.
Proof.
  revert z. induction n as [|n IH]; intros z; [done|]. cbn [le_of_Z]. rewrite Nat2Z.inj_succ, Z.pow_succ_r by lia.
  rewrite Z.rem_mul_r, (Z.mul_comm 256) by lia. f_equal.
  - by rewrite Z_mod_plus_full, Z.mod_mod.
  - rewrite Z.add_comm, Z.div_add_l, (Z.div_small (z mod 256)), Z.add_0_r by (apply Z.mod_pos_bound || idtac; lia). apply IH.
Qed.

Lemma le_of_Z_u64 z : le_of_Z 8 (u64 z) = le_of_Z 8 z.
Proof. apply (le_of_Z_low 8). Qed.

Lemma digits_length digits n base : 0 <= n -> 2 <= base -> (length (digits_text digits n base) <= 64)%nat.
Proof.
  intros Hn Hb. unfold digits_text. destruct (n =? 0); [cbn; lia|]. rewrite length_rev.
  assert (forall fuel k, length (digits_loop fuel digits k base) <= fuel)%nat as H; [|apply H].
  induction fuel as [|fuel IH]; intros k; cbn [digits_loop]; destruct (k =? 0); cbn [length]; try lia.
  specialize (IH (k / base)). lia.
Qed.

Lemma lc_facts lc : lc ∈ long_conversions -> lc_base lc ∈ [8; 10; 16] /\ digits_of (lc_flags lc) ∈ digit_strings /\ lc_base lc <> 0.
Proof. intros Hlc. pattern lc. apply (long_cases _ lc Hlc). repeat constructor; set_solver. Qed.

(** The digits as [simple_strtoul] reads them. *)
Lemma strtoul_text digits n base :
  digits ∈ digit_strings -> 2 <= base <= 16 -> 0 <= n < 2 ^ 64 -> simple_strtoul (digits_text digits n base) base = (n, []).
Proof.
  intros Hds Hb Hn. unfold simple_strtoul. rewrite (proj2 (Z.eqb_neq base 0)) by lia. unfold digits_text.
  destruct (Z.eqb_spec n 0) as [->|].
  - cbn [strtoul_loop]. change (isxdigit (ch "0")) with true. change (digit_value (ch "0")) with 0.
    rewrite (proj2 (Z.ltb_lt _ _)) by lia. done.
  - rewrite <- (app_nil_r (rev _)), strtoul_digits; [done|done|done|done|]. by apply digits_fuel.
Qed.

(** A number that was printed with a [long] conversion is read back with it. *)
Lemma scan_printed lc n m p :
  lc ∈ long_conversions -> lc_range lc n ->
  exists t, format_text (lc_format lc) [va_word (u64 n)] = Some t /\ (length t <= 65)%nat
    /\ vsscanf t (lc_format lc) [p] m = Done 1 (store64 m p n).
Proof.
  intros Hlc Hn. destruct (lc_facts lc Hlc) as (Hbase & Hds & Hb0).
  assert (8 <= lc_base lc <= 16) as Hb by (rewrite !elem_of_cons, elem_of_nil in Hbase; lia).
  rewrite long_text by done. eexists. split; [done|]. rewrite number_text_plain by done.
  set (num := num_text _ _ _). set (neg := lc_signed lc && (num <? 0)). set (k := if neg then - num else u64 num).
  assert (num = s64 n) as Hnum by apply s64_u64.
  assert (0 <= k < 2 ^ 64 /\ u64 (if neg then - k else k) = u64 n) as [Hk Hu].
  { unfold k, neg, lc_range in *. pose proof (s64_range n). rewrite Hnum. destruct (lc_signed lc); cbn [andb].
    - rewrite s64_id by lia. destruct (Z.ltb_spec n 0); [split; [lia|f_equal; lia]|]. rewrite u64_id by lia. split; [lia|].
      by rewrite u64_id by lia.
    - rewrite u64_s64, u64_id by lia. split; [lia|]. by rewrite u64_id by lia. }
  pose proof (digits_length (digits_of (lc_flags lc)) k (lc_base lc) ltac:(lia) ltac:(lia)) as Hlen.
  split; [rewrite length_app; destruct neg; cbn [length]; lia|].
  destruct (digits_text_first _ (lc_base lc) Hds ltac:(lia) k Hk) as (d & rest & Hd & Ek).
  destruct (digit_accepted _ d (lc_base lc) Hds Hbase Hd) as (Hacc & Hc0 & Hsp & Hdash).
  pose proof (strtoul_text _ k (lc_base lc) Hds ltac:(lia) Hk) as Hread. rewrite Ek in *.
  unfold store64. rewrite <- (le_of_Z_u64 n), <- Hu, le_of_Z_u64. destruct neg eqn:Eneg; cbn [app].
  - apply andb_true_iff in Eneg as [Hsg _]. rewrite (scan_long lc _ _ (s64 (- k))); [|done|done|done| |].
    + f_equal. by rewrite <- (le_of_Z_u64 (s64 _)), u64_s64, le_of_Z_u64.
    + by rewrite Hsg.
    + rewrite Hsg. unfold simple_strtol. cbn [chr adv tail]. by rewrite Z.eqb_refl, Hread.
  - rewrite (scan_long lc _ _ (if lc_signed lc then s64 k else k)); [|done|done|done| |].
    + f_equal. destruct (lc_signed lc); [|done]. by rewrite <- (le_of_Z_u64 (s64 _)), u64_s64, le_of_Z_u64.
    + by rewrite (proj2 (Z.eqb_neq _ _) Hdash), andb_false_r.
    + destruct (lc_signed lc); [|done]. unfold simple_strtol. cbn [chr]. by rewrite (proj2 (Z.eqb_neq _ _) Hdash), Hread.
Qed.

(** ** Printed and read back *)

(** C21: what [vsnprintf] prints of a [long] with [%ld], [%lu], [%lo], [%lx] or
    [%lX], [vsscanf] reads back with the same conversion. *)
Theorem print_scan_roundtrip lc n buf m p m2 :
  lc ∈ long_conversions -> lc_range lc n -> 0 < buf -> buf + 66 <= 2 ^ 64 ->
  exists t m', vsnprintf buf 66 (lc_format lc) [va_word (u64 n)] m = Done (Z.of_nat (length t)) m'
    /\ load_bytes m' buf (S (length t)) = t ++ [0]
    /\ vsscanf t (lc_format lc) [p] m2 = Done 1 (store64 m2 p n).
Proof.
  intros Hlc Hn Hb Hend. destruct (scan_printed lc n m2 p Hlc Hn) as (t & Ht & Hlen & Hscan).
  exists t, (printed m buf 66 t). split_and!; [apply vsnprintf_text; (done || lia)| |done].
  unfold printed. cbn [Z.eqb]. rewrite take_ge by lia.
  replace (S (length t)) with (length (t ++ [0])) by (rewrite length_app; cbn; lia). apply load_bytes_store_bytes.
Qed.

Lemma print_scan_roundtrip_witness :
  exists t m', vsnprintf 4096 66 (str "%ld") [va_word (u64 (-1234))] ∅ = Done (Z.of_nat (length t)) m'
    /\ load_bytes m' 4096 (S (length t)) = t ++ [0] /\ vsscanf t (str "%ld") [64] ∅ = Done 1 (store64 ∅ 64 (-1234)).
Proof.
  apply (print_scan_roundtrip (LongConversion (ch "d") 10 true SIGN) (-1234) 4096 ∅ 64 ∅); [left|split; lia|lia|lia].
Defined.
