(* ===== verification/Timer.v ===== *)
(** The timers of util/timer.c and the clock of util/time.c.

    A timer is a structure at an address with its link 24 bytes into it
    ([list_item] subtracts the offset); the two lists of pending timers are
    those of KList.v.  The function of a timer is an argument of the
    operations that run it: the source keeps a pointer to it.  The calls made
    are recorded in [t_trace]. *)

From S2P Require Import Prelude KList KMem Printf.

(** [timer_t] without its link *)
Record timer : Type := Timer { t_function : Z; t_data : Z; t_expires : Z }.

Definition LINK_OFFSET : Z := 24.
Definition link_at (timer : Z) : Z := timer + LINK_OFFSET.
Definition timer_of (link : Z) : Z := link - LINK_OFFSET.

Record timer_st : Type := TimerSt {
  t_links : links;
  timers : gmap Z timer;
  timer_running : Z;
  timer_next_expiry : Z;
  timers_firing : bool;
  jiffies : Z;
  timer_tickcount : Z;
  idle_count : Z;
  not_preempted_count : Z;
  kernel_preempted_count : Z;
  user_preempted_count : Z;
  t_trace : list (Z * Z * Z);         (* timer, function, data *)
}.

Definition set_t_links (x : links) (s : timer_st) : timer_st :=
  TimerSt x (timers s) (timer_running s) (timer_next_expiry s) (timers_firing s) (jiffies s) (timer_tickcount s)
    (idle_count s) (not_preempted_count s) (kernel_preempted_count s) (user_preempted_count s) (t_trace s).
Definition set_timers (x : gmap Z timer) (s : timer_st) : timer_st :=
  TimerSt (t_links s) x (timer_running s) (timer_next_expiry s) (timers_firing s) (jiffies s) (timer_tickcount s)
    (idle_count s) (not_preempted_count s) (kernel_preempted_count s) (user_preempted_count s) (t_trace s).
Definition set_timer_running (x : Z) (s : timer_st) : timer_st :=
  TimerSt (t_links s) (timers s) x (timer_next_expiry s) (timers_firing s) (jiffies s) (timer_tickcount s)
    (idle_count s) (not_preempted_count s) (kernel_preempted_count s) (user_preempted_count s) (t_trace s).
Definition set_timer_next_expiry (x : Z) (s : timer_st) : timer_st :=
  TimerSt (t_links s) (timers s) (timer_running s) x (timers_firing s) (jiffies s) (timer_tickcount s)
    (idle_count s) (not_preempted_count s) (kernel_preempted_count s) (user_preempted_count s) (t_trace s).
Definition set_timers_firing (x : bool) (s : timer_st) : timer_st :=
  TimerSt (t_links s) (timers s) (timer_running s) (timer_next_expiry s) x (jiffies s) (timer_tickcount s)
    (idle_count s) (not_preempted_count s) (kernel_preempted_count s) (user_preempted_count s) (t_trace s).
Definition set_clock (j t : Z) (s : timer_st) : timer_st :=
  TimerSt (t_links s) (timers s) (timer_running s) (timer_next_expiry s) (timers_firing s) j t
    (idle_count s) (not_preempted_count s) (kernel_preempted_count s) (user_preempted_count s) (t_trace s).
Definition set_counts (i n : Z) (s : timer_st) : timer_st :=
  TimerSt (t_links s) (timers s) (timer_running s) (timer_next_expiry s) (timers_firing s) (jiffies s) (timer_tickcount s)
    i n (kernel_preempted_count s) (user_preempted_count s) (t_trace s).
Definition set_t_trace (x : list (Z * Z * Z)) (s : timer_st) : timer_st :=
  TimerSt (t_links s) (timers s) (timer_running s) (timer_next_expiry s) (timers_firing s) (jiffies s) (timer_tickcount s)
    (idle_count s) (not_preempted_count s) (kernel_preempted_count s) (user_preempted_count s) x.

#[export] Instance timer_links : HasLinks timer_st := {| links_of := t_links; set_links := set_t_links |}.
#[export] Instance timer_laws : LinksLaws timer_st.
Proof. split; [done|done|]. by intros []. Qed.

Definition get_timer (t : Z) : M timer_st timer := let! s := get in deref (timers s !! t).

(** ** util/timer.c *)

(** Where the two list heads are. *)
Class TimerLists : Type := { timers_primary : Z; timers_secondary : Z }.

Section timers.
Context {TL : TimerLists}.

Definition timer_init (timer : Z) : M timer_st unit :=
  let! t := get_timer timer in
  do! modify (fun s => set_timers (<[timer := Timer (t_function t) (t_data t) (u64 (-1))]> (timers s)) s);
  list_link_init (link_at timer).

Definition __timer_del (timer : Z) : M timer_st Z :=
  let! linked := list_link_is_linked (link_at timer) in
  if linked then do! list_remove (link_at timer); ret 1 else ret 0.

Definition timer_del (timer : Z) : M timer_st Z := __timer_del timer.

Definition __timer_add (timer : Z) : M timer_st unit :=
  let! linked := list_link_is_linked (link_at timer) in
  do! kassert (negb linked);
  let! firing := gets timers_firing in
  list_insert_head (if firing then timers_secondary else timers_primary) (link_at timer).

(** The parameter [expires] is an [int], which the 64-bit field extends. *)
Definition timer_mod (timer expires : Z) : M timer_st Z :=
  let e := u64 (s32 expires) in
  let! t := get_timer timer in
  do! modify (fun s => set_timers (<[timer := Timer (t_function t) (t_data t) e]> (timers s)) s);
  let! r := __timer_del timer in
  do! __timer_add timer;
  do! modify (fun s => set_timer_next_expiry (Z.min (timer_next_expiry s) e) s);
  ret r.

Definition timer_add (timer : Z) : M timer_st unit :=
  let! t := get_timer timer in
  do! timer_mod timer (t_expires t);
  ret tt.

Definition timer_pending (timer : Z) : M timer_st bool := list_link_is_linked (link_at timer).

(** The wait is for another thread to finish the timer's function. *)
Definition timer_del_sync (timer : Z) : M timer_st Z :=
  let! running := gets timer_running in
  if running =? timer then fail Stuck else __timer_del timer.

Context (run : Z -> Z -> M timer_st unit).

(** The turns of the two loops; [min_expiry] is a local of [__timers_fire]. *)
Definition fire_one (link min_expiry : Z) : M timer_st Z :=
  let! s := get in
  let! t := get_timer (timer_of link) in
  if t_expires t <=? jiffies s then
    do! list_remove link;
    do! modify (set_timer_running (timer_of link));
    do! modify (fun s => set_t_trace (t_trace s ++ [(timer_of link, t_function t, t_data t)]) s);
    do! run (t_function t) (t_data t);
    do! modify (set_timer_running 0);
    ret min_expiry
  else ret (Z.min min_expiry (t_expires t)).

Definition migrate_one (link min_expiry : Z) : M timer_st Z :=
  let! t := get_timer (timer_of link) in
  do! list_remove link;
  do! list_insert_head timers_primary link;
  ret (Z.min min_expiry (t_expires t)).

(** [preemption] is false when a thread runs with preemption disabled. *)
Definition __timers_fire (preemption : bool) : M timer_st unit :=
  if negb preemption then ret tt
  else
    do! modify (set_timers_firing true);
    let! s := get in
    if jiffies s <? timer_next_expiry s then modify (set_timers_firing false)
    else
      let! min_expiry := list_iterate timers_primary fire_one 0 in
      let! min_expiry := list_iterate timers_secondary migrate_one min_expiry in
      do! modify (set_timer_next_expiry min_expiry);
      modify (set_timers_firing false).

(** ** util/time.c *)

(** [timer_tick_handler] of a kernel that is not preemptive; [running] tells
    whether a thread runs on the core, [core] is the core's number. *)
Definition timer_tick_handler (core : Z) (running preemption : bool) : M timer_st Z :=
  do! modify (fun s => set_clock (jiffies s) (u64 (timer_tickcount s + 1)) s);
  do! (if core =? 0 then
         do! modify (fun s => set_clock (timer_tickcount s) (timer_tickcount s) s);
         __timers_fire (negb running || preemption)
       else ret tt);
  do! modify (fun s => if running then set_counts (idle_count s) (u64 (not_preempted_count s + 1)) s
                       else set_counts (u64 (idle_count s + 1)) (not_preempted_count s) s);
  ret 0.
End timers.

Definition TIME_APIC_TICK_FREQUENCY : Z := 16.
Definition MICROSECONDS_PER_APIC_TICK : Z := 16 * 1000 / TIME_APIC_TICK_FREQUENCY.

Definition core_uptime (s : timer_st) : Z := u64 (MICROSECONDS_PER_APIC_TICK * timer_tickcount s) / 1000.

(** The time of the CMOS clock; the driver reads it. *)
Record rtc_time : Type := RtcTime { second : Z; minute : Z; hour : Z; day : Z; month : Z; year : Z }.

Definition mdays : list Z := [0; 31; 59; 90; 120; 151; 181; 212; 243; 273; 304; 334].

Definition leap (y : Z) : bool := ((y mod 4 =? 0) && negb (y mod 100 =? 0)) || (y mod 400 =? 0).

(** The sum is made of [unsigned int]s, as the year is one. *)
Definition do_time (tm : rtc_time) : Z :=
  let yday := nth (Z.to_nat (month tm - 1)) mdays 0 + day tm - 1 in
  let yday := if (3 <=? month tm) && leap (year tm) then yday + 1 else yday in
  let y := u32 (year tm - 1900) in
  u32 (second tm + minute tm * 60 + hour tm * 3600 + yday * 86400 + u32 (y - 70) * 31536000
       + u32 (y - 69) / 4 * 86400 - u32 (y - 1) / 100 * 86400 + u32 (y + 299) / 400 * 86400).

(** *** Statistics *)

(** The C string literals, with the escapes [\n] and [\t]. *)
Definition NL : Z := 10.
Definition TAB : Z := 9.

(** The parameter [ticks] is not used by the source. *)
Definition human_readable_format (s : timer_st) (buf size ticks : Z) : M memory Z :=
  let milliseconds := core_uptime s in
  let minutes := milliseconds / (60 * 1000) in
  let milliseconds := u64 (milliseconds - minutes * 60 * 1000) in
  let seconds := milliseconds / 1000 in
  let milliseconds := u64 (milliseconds - seconds * 1000) in
  snprintf buf size (str "%lu min, %lu sec, %lu ms") [va_word minutes; va_word seconds; va_word milliseconds].

Definition percentage (buf size numerator denominator : Z) : M memory Z :=
  let new_numerator := u64 (numerator * 10000) in
  if new_numerator <? numerator then snprintf buf size (str "N/A") []
  else
    let result := if denominator =? 0 then 0 else new_numerator / denominator in
    snprintf buf size (str "%lu.%02lu%%") [va_word (result / 100); va_word (result mod 100)].

(** [off += f(buf + off, len - off, ...)] *)
Definition append (buf len : Z) (f : Z -> Z -> M memory Z) (off : Z) : M memory Z :=
  let! n := f (buf + off) (u64 (len - off)) in ret (u64 (off + n)).

Definition text (fmt : list Z) (args : list varg) (buf size : Z) : M memory Z := snprintf buf size fmt args.

(** A count and its share of the ticks. *)
Definition count_line (s : timer_st) (buf len : Z) (title : list Z) (count off : Z) : M memory Z :=
  let! off := append buf len (text title [va_word count]) off in
  let! off := append buf len (text [TAB] []) off in
  append buf len (fun b n => percentage b n count (timer_tickcount s)) off.

Definition time_stats (s : timer_st) (buf len : Z) : M memory Z :=
  let! off := append buf len (text (str "core uptime:" ++ [TAB]) []) 0 in
  let! off := append buf len (fun b n => human_readable_format s b n (timer_tickcount s)) off in
  let! off := append buf len (text (NL :: str "idle time:" ++ [TAB]) []) off in
  let! off := append buf len (fun b n => human_readable_format s b n (idle_count s)) off in
  let! off := append buf len (text [TAB] []) off in
  let! off := append buf len (fun b n => percentage b n (idle_count s) (timer_tickcount s)) off in
  do! kassert (u64 (not_preempted_count s + user_preempted_count s + kernel_preempted_count s + idle_count s
                    - timer_tickcount s) <=? 2);
  let! off := append buf len (text (NL :: NL :: str "total tick count       = %lu") [va_word (timer_tickcount s)]) off in
  let! off := count_line s buf len (NL :: str "idle count             = %lu") (idle_count s) off in
  let! off := count_line s buf len (NL :: str "kernel preempted count = %lu") (kernel_preempted_count s) off in
  let! off := count_line s buf len (NL :: str "user preempted count   = %lu") (user_preempted_count s) off in
  count_line s buf len (NL :: str "not preempted count    = %lu") (not_preempted_count s) off.
