(* ===== verification/TimerTheorems.v ===== *)
(** The timers: every operation keeps the two lists well formed, and a pending
    timer's function is called at the first tick from its expiry on that may run
    timers, not before. *)

From S2P Require Import Prelude KList KMem Printf Timer.

(** ** Two lists of timers

    The timers [P] are on the list [l1], [S] on the list [l2]. *)

Record two_lists (l1 l2 : Z) (P S : list Z) (s : timer_st) : Prop := TwoLists {
  tl_first : is_list (t_links s) l1 (map link_at P);
  tl_second : is_list (t_links s) l2 (map link_at S);
  tl_apart : NoDup (l1 :: l2 :: map link_at (P ++ S));
  tl_timers : forall t, t ∈ P ++ S -> exists x, timers s !! t = Some x /\ 0 <= t_expires x < 2 ^ 64;
}.

Lemma timer_of_link t : timer_of (link_at t) = t.
Proof. unfold timer_of, link_at. lia. Qed.

#[export] Instance link_at_inj : Inj eq eq link_at.
Proof. intros t t'. unfold link_at. lia. Qed.

Lemma elem_link t P : link_at t ∈ map link_at P <-> t ∈ P.
Proof. exact (list_elem_of_fmap_inj link_at P t). Qed.

Section two_lists.
Context {l1 l2 : Z}.

Lemma two_lists_sym P S s : two_lists l1 l2 P S s -> two_lists l2 l1 S P s.
Proof.
  intros [H1 H2 Hnd Ht]. split; [done|done| |].
  - eapply NoDup_Permutation_proper; [|exact Hnd]. rewrite perm_swap. by rewrite (Permutation_app_comm S P).
  - intros t Hin. apply Ht. set_solver.
Qed.

(** The links of the second list are not on the first one. *)
Lemma apart_second P S s y : two_lists l1 l2 P S s -> y ∈ l2 :: map link_at S -> y ∉ l1 :: map link_at P.
Proof.
  intros [_ _ Hnd _]. rewrite map_app in Hnd. rewrite !NoDup_cons, NoDup_app in Hnd. destruct Hnd as (H1 & H2 & H3 & H4 & H5).
  intros Hy Hy'. set_solver.
Qed.

Lemma two_lists_nodup P S s : two_lists l1 l2 P S s -> NoDup (P ++ S).
Proof. intros [_ _ Hnd _]. rewrite !NoDup_cons in Hnd. destruct Hnd as (_ & _ & H). by eapply NoDup_fmap_1. Qed.

Lemma wp_remove_first K t R S Q s :
  two_lists l1 l2 (K ++ t :: R) S s ->
  (forall h, two_lists l1 l2 (K ++ R) S (set_t_links h s) -> h !! link_at t = Some (Link 0 0) -> Q tt (set_t_links h s)) ->
  wp (list_remove (link_at t)) Q s.
Proof.
  intros Hok HQ. pose proof Hok as [Hp Hs Hnd Ht]. rewrite map_app in Hp. cbn [map] in Hp.
  eapply (wp_list_remove (HL := timer_links) l1 _ _ _ Q s Hp). intros h Hl Ho Hx. apply HQ; [|done]. split; cbn [t_links set_t_links timers].
  - by rewrite map_app.
  - eapply is_list_frame; [|exact Hs]. intros y Hy. apply Ho. intros Hy'. apply (apart_second _ _ _ _ Hok Hy).
    by rewrite map_app.
  - rewrite !map_app in *. cbn [map] in Hnd. eapply sublist_NoDup; [exact Hnd|]. repeat apply sublist_skip.
    apply sublist_app; [|done]. apply sublist_app; [done|]. by apply sublist_cons.
  - intros t' Ht'. apply Ht. set_solver.
Qed.

(** The address of a timer that is on neither list. *)
Definition loose (P S : list Z) (t : Z) : Prop := t ∉ P ++ S /\ link_at t <> l1 /\ link_at t <> l2 /\ link_at t <> 0.

Lemma wp_insert_first P t S Q s :
  two_lists l1 l2 P S s -> loose P S t -> (exists x, timers s !! t = Some x /\ 0 <= t_expires x < 2 ^ 64) ->
  (forall h, two_lists l1 l2 (t :: P) S (set_t_links h s) -> Q tt (set_t_links h s)) ->
  wp (list_insert_head l1 (link_at t)) Q s.
Proof.
  intros Hok (Hn & H1 & H2 & H0) Hx HQ. pose proof Hok as [Hp Hs Hnd Ht].
  eapply (wp_insert_head (HL := timer_links) l1 _ _ Q s Hp); [|done|].
  { rewrite not_elem_of_cons, elem_link. set_solver. }
  intros h Hl Ho. apply HQ. split; cbn [t_links set_t_links timers]; [done| | |].
  - eapply is_list_frame; [|exact Hs]. intros y Hy. apply Ho. intros Hy'. pose proof (apart_second _ _ _ _ Hok Hy) as Hap.
    apply elem_of_cons in Hy' as [->|Hy']; [|done]. apply elem_of_cons in Hy as [E|Hy]; [congruence|]. rewrite elem_link in Hy. set_solver.
  - apply (NoDup_Permutation_proper _ (link_at t :: l1 :: l2 :: map link_at (P ++ S))).
    + cbn [app map]. etrans; [apply perm_skip, perm_swap|apply perm_swap].
    + apply NoDup_cons. split; [|done]. rewrite !not_elem_of_cons, elem_link. done.
  - intros t' [->|Ht']%elem_of_cons; [done|]. by apply Ht.
Qed.
End two_lists.

(** ** The operations *)

Definition without (t : Z) (P : list Z) : list Z := filter (fun t' => t' <> t) P.

Lemma without_not t P : t ∉ P -> without t P = P.
Proof.
  induction P as [|x P IH]; [done|]. intros [Hx HP]%not_elem_of_cons. unfold without. rewrite filter_cons_True by done.
  f_equal. by apply IH.
Qed.

Lemma without_in K t R : t ∉ K -> t ∉ R -> without t (K ++ t :: R) = K ++ R.
Proof.
  intros HK HR. unfold without. rewrite filter_app, filter_cons_False by (by intros []). f_equal; by apply without_not.
Qed.

Section timers.
Context {TL : TimerLists}.

Abbreviation lists_ok := (two_lists timers_primary timers_secondary).

(** [timer_next_expiry] is not after the expiry of a pending timer. *)
Definition expiry_ok (P : list Z) (s : timer_st) : Prop :=
  forall t x, t ∈ P -> timers s !! t = Some x -> timer_next_expiry s <= t_expires x.

Definition unlinked (P S : list Z) (t : Z) (s : timer_st) : Prop :=
  loose (l1 := timers_primary) (l2 := timers_secondary) P S t /\ t_links s !! link_at t = Some (Link 0 0).

Lemma lists_links P S h s : lists_ok P S (set_t_links h s) -> forall s', t_links s' = h -> timers s' = timers s -> lists_ok P S s'.
Proof. intros [H1 H2 H3 H4] s' <- E. split; cbn in *; [done..|]. by rewrite E. Qed.

(** A pending timer comes off its list. *)
Lemma wp_remove_pending P S t Q s :
  lists_ok P S s -> t ∈ P ++ S ->
  (forall h, lists_ok (without t P) (without t S) (set_t_links h s) -> h !! link_at t = Some (Link 0 0) -> Q tt (set_t_links h s)) ->
  wp (list_remove (link_at t)) Q s.
Proof.
  intros Hok Ht HQ. pose proof (two_lists_nodup _ _ _ Hok) as Hnd. apply NoDup_app in Hnd as (HP & Hdis & HS).
  apply elem_of_app in Ht as [(K & R & ->)%list_elem_of_split|(K & R & ->)%list_elem_of_split].
  - apply NoDup_app in HP as (_ & H1 & [H2 _]%NoDup_cons). assert (t ∉ K) by (intros ?; eapply H1; [done|left]).
    assert (t ∉ S) by (apply Hdis; set_solver). rewrite without_in, (without_not t S) in HQ by done.
    by apply (wp_remove_first (l1 := timers_primary) (l2 := timers_secondary) K t R S).
  - apply NoDup_app in HS as (_ & H1 & [H2 _]%NoDup_cons). assert (t ∉ K) by (intros ?; eapply H1; [done|left]).
    assert (t ∉ P) by (intros HtP; apply (Hdis t HtP); set_solver). rewrite without_in, (without_not t P) in HQ by done.
    apply two_lists_sym in Hok. apply (wp_remove_first (l1 := timers_secondary) (l2 := timers_primary) K t R P); [done|]. intros h Hl%two_lists_sym. by apply HQ.
Qed.

Lemma wp_timer_del P S t Q s :
  lists_ok P S s -> t ∈ P ++ S \/ unlinked P S t s ->
  (forall h, lists_ok (without t P) (without t S) (set_t_links h s) -> h !! link_at t = Some (Link 0 0) ->
     Q (if bool_decide (t ∈ P ++ S) then 1 else 0) (set_t_links h s)) ->
  wp (__timer_del t) Q s.
Proof.
  intros Hok Ht HQ. unfold __timer_del. apply wp_bind. destruct Ht as [Ht|[[Hn _] Hl]].
  - rewrite bool_decide_true in HQ by done. assert (wp (list_link_is_linked (link_at t)) (fun a s' => a = true /\ s' = s) s) as Hlk.
    { destruct Hok as [[H1 H10] [H2 H20] _ _]. apply elem_of_app in Ht as [Ht|Ht].
      - eapply (wp_linked (HL := timer_links)); [done|exact H1|done|right; by apply elem_link|done].
      - eapply (wp_linked (HL := timer_links)); [done|exact H2|done|right; by apply elem_link|done]. }
    eapply wp_mono; [exact Hlk|]. intros ? ? [-> ->]. apply wp_bind, (wp_remove_pending P S); [done|done|]. intros h Hh Hx. by apply wp_ret, HQ.
  - rewrite bool_decide_false in HQ by done. eapply (wp_not_linked (HL := timer_links)); [exact Hl|]. apply wp_ret.
    assert (s = set_t_links (t_links s) s) as E by (by destruct s). rewrite E. apply HQ; [|done]. rewrite <- E.
    rewrite !without_not by set_solver. done.
Qed.

(** The lists of the pending timers after [timer_mod]. *)
Definition moved (firing : bool) (P S : list Z) (t : Z) : list Z * list Z :=
  if firing then (without t P, t :: without t S) else (t :: without t P, without t S).

Lemma loose_without P S t :
  NoDup (P ++ S) -> link_at t <> timers_primary -> link_at t <> timers_secondary -> link_at t <> 0 ->
  loose (l1 := timers_primary) (l2 := timers_secondary) (without t P) (without t S) t.
Proof.
  intros Hnd H1 H2 H0. split; [|done]. rewrite elem_of_app. unfold without. rewrite !list_elem_of_filter. naive_solver.
Qed.

(** The link of a timer is neither list head. *)
Lemma link_not_head P S t s : lists_ok P S s -> t ∈ P ++ S ->
  link_at t <> timers_primary /\ link_at t <> timers_secondary /\ link_at t <> 0.
Proof.
  intros [[_ H1] [_ H2] Hnd _] Ht. apply elem_link in Ht as Hl. rewrite !NoDup_cons, !not_elem_of_cons in Hnd.
  destruct Hnd as ([_ H3] & H4 & _). split_and!; [by intros E; rewrite E in Hl..|]. rewrite map_app, elem_of_app in Hl.
  intros E. rewrite E in Hl. set_solver.
Qed.

Lemma wp_timer_mod P S t x e Q s :
  lists_ok P S s -> t ∈ P ++ S \/ unlinked P S t s -> timers s !! t = Some x ->
  (forall h, let s' := set_timer_next_expiry (Z.min (timer_next_expiry s) (u64 (s32 e)))
                         (set_t_links h (set_timers (<[t := Timer (t_function x) (t_data x) (u64 (s32 e))]> (timers s)) s)) in
     lists_ok (moved (timers_firing s) P S t).1 (moved (timers_firing s) P S t).2 s' ->
     Q (if bool_decide (t ∈ P ++ S) then 1 else 0) s') ->
  wp (timer_mod t e) Q s.
Proof.
  intros Hok Ht Hx HQ. unfold timer_mod, get_timer. wp_steps. eapply wp_deref; [exact Hx|]. wp_steps.
  set (x' := Timer (t_function x) (t_data x) (u64 (s32 e))). set (s1 := set_timers (<[t := x']> (timers s)) s).
  assert (lists_ok P S s1) as Hok1.
  { destruct Hok as [H1 H2 H3 H4]. split; [done..|]. intros t' Ht'. cbn. destruct (decide (t' = t)) as [->|].
    - rewrite lookup_insert_eq. eexists. split; [done|]. apply u64_range.
    - rewrite lookup_insert_ne by done. by apply H4. }
  assert (link_at t <> timers_primary /\ link_at t <> timers_secondary /\ link_at t <> 0) as (N1 & N2 & N0).
  { destruct Ht as [Ht|[(_ & ? & ? & ?) _]]; [by eapply link_not_head|done]. }
  apply (wp_timer_del P S); [done|done|]. intros h Hh Hl. unfold __timer_add. wp_steps.
  eapply (wp_not_linked (HL := timer_links)); [exact Hl|]. wp_steps. apply wp_kassert; [done|]. wp_steps.
  assert (exists y, timers (set_t_links h s1) !! t = Some y /\ 0 <= t_expires y < 2 ^ 64) as Hy.
  { exists x'. split; [by cbn; rewrite lookup_insert_eq|apply u64_range]. }
  pose proof (loose_without P S t (two_lists_nodup _ _ _ Hok) N1 N2 N0) as Hlo. change (timers_firing (set_t_links h s1)) with (timers_firing s).
  unfold moved in HQ. destruct (timers_firing s).
  - apply two_lists_sym in Hh. apply (wp_insert_first (l1 := timers_secondary) (l2 := timers_primary) (without t S) t (without t P)); [done| |done|].
    { destruct Hlo as (? & ? & ? & ?). split; [|done]. set_solver. }
    intros h' Hh'%two_lists_sym. wp_steps. apply HQ. by eapply lists_links; [exact Hh'|..].
  - apply (wp_insert_first (l1 := timers_primary) (l2 := timers_secondary) (without t P) t (without t S)); [done..|].
    intros h' Hh'. wp_steps. apply HQ. by eapply lists_links; [exact Hh'|..].
Qed.

(** ** Firing *)

Definition due (s : timer_st) (t : Z) : bool :=
  match timers s !! t with Some x => t_expires x <=? jiffies s | None => false end.

(** The calls of the functions of the timers [L]. *)
Definition calls (s : timer_st) (L : list Z) : list (Z * Z * Z) :=
  map (fun t => match timers s !! t with Some x => (t, t_function x, t_data x) | None => (t, 0, 0) end) L.

(** What a timer's function leaves as it was: the timers [P] and the clock. *)
Record quiet (P : list Z) (s s' : timer_st) : Prop := Quiet {
  q_timers : forall t, t ∈ P -> timers s' !! t = timers s !! t;
  q_firing : timers_firing s' = timers_firing s;
  q_jiffies : jiffies s' = jiffies s;
  q_ticks : timer_tickcount s' = timer_tickcount s;
  q_trace : t_trace s' = t_trace s;
}.

(** A timer's function may add timers, which go to the secondary list while
    the timers fire, and leaves the pending ones alone. *)
Definition polite (run : Z -> Z -> M timer_st unit) : Prop :=
  forall f d P S s, timers_firing s = true -> lists_ok P S s ->
    wp (run f d) (fun _ s' => exists S', lists_ok P S' s' /\ quiet P s s') s.

Section fire.
Context (run : Z -> Z -> M timer_st unit) (Hrun : polite run).

(** The state in the loop over the primary list of [s0], after the timers [D]. *)
Definition firing (P : list Z) (s0 : timer_st) (rest : list Z) (acc : Z) (s : timer_st) : Prop :=
  exists D R S, P = D ++ R /\ rest = map link_at R /\ acc = 0
    /\ lists_ok (filter (fun t => due s0 t = false) D ++ R) S s
    /\ (forall t, t ∈ filter (fun t => due s0 t = false) D ++ R -> timers s !! t = timers s0 !! t)
    /\ timers_firing s = true /\ jiffies s = jiffies s0 /\ timer_tickcount s = timer_tickcount s0
    /\ t_trace s = t_trace s0 ++ calls s0 (filter (fun t => due s0 t = true) D).

Lemma wp_fire_one P s0 x rest acc s :
  firing P s0 (x :: rest) acc s -> wp (fire_one run x acc) (firing P s0 rest) s.
Proof using Hrun.
  intros (D & R & S & HP & HR & -> & Hok & Hsame & Hf & Hj & Ht & Htr). destruct R as [|t R]; [done|]. injection HR as -> ->.
  set (K := filter (fun t => due s0 t = false) D) in *. unfold fire_one, get_timer. rewrite timer_of_link. wp_steps.
  destruct (tl_timers _ _ _ _ _ Hok t ltac:(set_solver)) as (y & Hy & Hexp). eapply wp_deref; [exact Hy|]. wp_steps.
  assert (timers s0 !! t = Some y) as Hy0 by (rewrite <- Hsame; [done|set_solver]).
  assert (due s0 t = (t_expires y <=? jiffies s)) as Hdue by (unfold due; by rewrite Hy0, Hj). rewrite <- Hdue.
  destruct (due s0 t) eqn:Ed.
  - apply wp_bind, (wp_remove_first (l1 := timers_primary) (l2 := timers_secondary) K t R S); [done|]. intros h Hh Hl. wp_steps.
    eapply wp_mono; [apply (Hrun _ _ (K ++ R) S); [exact Hf|]|].
    { by eapply lists_links; [exact Hh|..]. }
    intros _ s' (S' & Hok' & [Q1 Q2 Q3 Q4 Q5]). wp_steps. exists (D ++ [t]), R, S'.
    rewrite !filter_app, (filter_cons_False _ t), (filter_cons_True (fun t => due s0 t = true)), app_nil_r by (done || by rewrite Ed).
    split_and!; [by rewrite <- app_assoc|done|done|by destruct Hok'; split| |exact (eq_trans Q2 Hf)|exact (eq_trans Q3 Hj)|exact (eq_trans Q4 Ht)|].
    + intros t' Ht'. cbn. rewrite Q1 by done. apply Hsame. set_solver.
    + cbn in Q5 |- *. rewrite Q5, Htr. unfold calls. rewrite map_app, <- app_assoc. cbn. by rewrite Hy0.
  - wp_steps. exists (D ++ [t]), R, S.
    rewrite !filter_app, (filter_cons_True _ t), (filter_cons_False (fun t => due s0 t = true)), app_nil_r, <- !app_assoc by (done || by rewrite Ed).
    split_and!; [done|done|lia|done..].
Qed.

(** The state in the loop that moves the timers [S] of the secondary list to the
    primary list [P]. *)
Definition migrating (P S : list Z) (s0 : timer_st) (rest : list Z) (acc : Z) (s : timer_st) : Prop :=
  exists D R, S = D ++ R /\ rest = map link_at R /\ acc = 0 /\ lists_ok (reverse D ++ P) R s
    /\ exists h, s = set_t_links h s0.

Lemma wp_migrate_one P S s0 x rest acc s :
  migrating P S s0 (x :: rest) acc s -> wp (migrate_one x acc) (migrating P S s0 rest) s.
Proof.
  intros (D & R & HS & HR & -> & Hok & h0 & Es). destruct R as [|t R]; [done|]. injection HR as -> ->.
  unfold migrate_one, get_timer. rewrite timer_of_link. wp_steps.
  destruct (tl_timers _ _ _ _ _ Hok t ltac:(set_solver)) as (y & Hy & Hexp). eapply wp_deref; [exact Hy|]. wp_steps.
  pose proof (two_lists_nodup _ _ _ Hok) as Hnd. destruct (link_not_head _ _ t _ Hok ltac:(set_solver)) as (N1 & N2 & N0).
  apply two_lists_sym in Hok. apply (wp_remove_first (l1 := timers_secondary) (l2 := timers_primary) [] t R (reverse D ++ P)); [done|].
  intros h Hh%two_lists_sym _. wp_steps.
  apply (wp_insert_first (l1 := timers_primary) (l2 := timers_secondary) (reverse D ++ P) t R); [done| |by exists y|].
  { split; [|done]. apply NoDup_app in Hnd as (_ & H1 & [H2 _]%NoDup_cons). rewrite elem_of_app. intros [Hin|Hin]; [|done].
    apply (H1 t Hin). left. }
  intros h' Hh'. wp_steps. exists (D ++ [t]), R. split_and!; [by rewrite <- app_assoc|done|lia|by rewrite reverse_app|].
  exists h'. by rewrite Es.
Qed.

(** What one firing of the timers does: [N] were added by the functions. *)
Record fired (P : list Z) (s s' : timer_st) : Prop := Fired {
  f_lists : exists N, lists_ok (N ++ filter (fun t => due s t = false) P) [] s'
                      /\ expiry_ok (N ++ filter (fun t => due s t = false) P) s';
  f_timers : forall t, t ∈ filter (fun t => due s t = false) P -> timers s' !! t = timers s !! t;
  f_firing : timers_firing s' = false;
  f_jiffies : jiffies s' = jiffies s;
  f_ticks : timer_tickcount s' = timer_tickcount s;
  f_trace : t_trace s' = t_trace s ++ calls s (filter (fun t => due s t = true) P);
}.

Lemma filter_none_due P s : Forall (fun t => due s t = false) P ->
  filter (fun t => due s t = true) P = [] /\ filter (fun t => due s t = false) P = P.
Proof.
  induction 1 as [|t P Ht _ [IH1 IH2]]; [done|]. rewrite filter_cons_False, filter_cons_True by (done || by rewrite Ht).
  by rewrite IH1, IH2.
Qed.

Lemma none_due P s : lists_ok P [] s -> expiry_ok P s -> jiffies s < timer_next_expiry s -> Forall (fun t => due s t = false) P.
Proof.
  intros Hok Hexp Hj. apply Forall_forall. intros t Ht.
  destruct (tl_timers _ _ _ _ _ Hok t ltac:(set_solver)) as (x & Hx & _). unfold due. rewrite Hx.
  apply Z.leb_gt. specialize (Hexp t x Ht Hx). lia.
Qed.

Lemma lists_expiry P S s : lists_ok P S s -> expiry_ok P (set_timers_firing false (set_timer_next_expiry 0 s)).
Proof.
  intros Hok t x Ht Hx. destruct (tl_timers _ _ _ _ _ Hok t ltac:(set_solver)) as (y & Hy & ?). cbn in *. rewrite Hy in Hx.
  injection Hx as <-. lia.
Qed.

Lemma wp_timers_fire P s :
  lists_ok P [] s -> expiry_ok P s -> wp (__timers_fire run true) (fun _ s' => fired P s s') s.
Proof using Hrun.
  intros Hok Hexp. unfold __timers_fire. wp_steps. change (jiffies (set_timers_firing true s)) with (jiffies s).
  change (timer_next_expiry (set_timers_firing true s)) with (timer_next_expiry s). destruct (Z.ltb_spec (jiffies s) (timer_next_expiry s)) as [Hlt|Hge].
  - wp_steps. destruct (filter_none_due P s (none_due P s Hok Hexp Hlt)) as [E1 E2]. split; rewrite ?E1, ?E2; [|done..|by rewrite app_nil_r].
    exists []. split; [by destruct Hok; split|done].
  - set (s1 := set_timers_firing true s). wp_steps.
    apply (wp_list_iterate timers_primary (map link_at P) _ (firing P s)).
    + apply Hok.
    + exists [], P, []. split_and!; [done|done|done|by destruct Hok; split|done..|by rewrite app_nil_r].
    + intros rest acc s2 (D & R & S & _ & -> & _ & Hl & _). destruct Hl as [Hl _ _ _]. rewrite map_app in Hl. by apply is_list_next in Hl.
    + intros x rest acc s2 Hf. by apply wp_fire_one.
    + intros acc s2 (D & R & S & HP & HR & -> & Hok2 & Hsame & Hf2 & Hj2 & Ht2 & Htr2). destruct R; [|done].
      rewrite app_nil_r in HP. subst D. rewrite app_nil_r in Hok2, Hsame. wp_steps.
      apply (wp_list_iterate timers_secondary (map link_at S) _ (migrating (filter (fun t => due s t = false) P) S s2)).
      * apply Hok2.
      * exists [], S. split_and!; [done..|]. exists (t_links s2). by destruct s2.
      * intros rest acc s3 (D & R & _ & -> & _ & Hl & _). destruct Hl as [_ Hl _ _]. by apply (is_list_next _ _ []) in Hl.
      * intros x rest acc s3 Hm. by apply wp_migrate_one.
      * intros acc s3 (D & R & HS & HR' & -> & Hok3 & h & ->). destruct R; [|done]. wp_steps.
        split; [|done..]. exists (reverse D). split; [by destruct Hok3; split|]. by eapply lists_expiry.
Qed.

(** ** Ticks of the clock *)

Definition pending (P : list Z) (s : timer_st) : Prop := lists_ok P [] s /\ expiry_ok P s.

(** Ticks of core 0; each comes while no thread runs or while preemption is
    enabled, or not. *)
Fixpoint ticks (l : list (bool * bool)) : M timer_st unit :=
  match l with
  | [] => ret tt
  | (running, preemption) :: l => do! timer_tick_handler run 0 running preemption; ticks l
  end.

Definition may_fire (a : bool * bool) : bool := negb a.1 || a.2.

Definition clock (s : timer_st) : timer_st := set_clock (timer_tickcount s + 1) (timer_tickcount s + 1) s.

Lemma wp_tick P a Q s :
  pending P s -> may_fire a = true -> 0 <= timer_tickcount s < 2 ^ 64 - 1 -> (forall r s', fired P (clock s) s' -> Q r s') ->
  wp (timer_tick_handler run 0 a.1 a.2) Q s.
Proof using Hrun.
  intros [Hok Hexp] Ha Hc HQ. unfold timer_tick_handler, may_fire in *. rewrite Ha. wp_steps. cbn [timer_tickcount jiffies set_clock].
  rewrite u64_id by lia. eapply wp_mono; [apply (wp_timers_fire P)|]; [by destruct Hok; split|done|].
  intros _ s' [F1 F2 F3 F4 F5 F6]. wp_steps. apply HQ. destruct a as [[] b]; cbn [fst]; (split; [|done..]);
    destruct F1 as (N & HN & HE); exists N; (split; [by destruct HN; split|done]).
Qed.

(** A tick that comes while a thread runs with preemption disabled only counts. *)
Lemma wp_tick_skipped P a Q s :
  pending P s -> may_fire a = false -> 0 <= timer_tickcount s < 2 ^ 64 - 1 ->
  (forall r s', pending P s' -> timers s' = timers s -> timer_tickcount s' = timer_tickcount s + 1 -> t_trace s' = t_trace s -> Q r s') ->
  wp (timer_tick_handler run 0 a.1 a.2) Q s.
Proof.
  intros [Hok Hexp] Ha Hc HQ. unfold timer_tick_handler, may_fire in *. rewrite Ha. wp_steps. cbn [timer_tickcount jiffies set_clock].
  rewrite u64_id by lia. unfold __timers_fire. wp_steps. apply HQ; destruct a as [[] b]; try done; (split; [by destruct Hok; split|done]).
Qed.

(** The timer [t] is pending. *)
Definition waits (t : Z) (x : timer) (s : timer_st) : Prop :=
  exists P, pending P s /\ t ∈ P /\ timers s !! t = Some x /\ 0 <= timer_tickcount s.

Lemma due_clock s t x : timers s !! t = Some x -> due (clock s) t = (t_expires x <=? timer_tickcount s + 1).
Proof. intros Hx. unfold due. cbn. by rewrite Hx. Qed.

Lemma calls_in s L t f d : (t, f, d) ∈ calls s L -> t ∈ L.
Proof. intros (t' & E & H)%list_elem_of_fmap. destruct (timers s !! t'); by injection E as -> _ _. Qed.

Lemma wp_tick_waits t x a Q s :
  waits t x s -> (may_fire a = true -> timer_tickcount s + 1 < t_expires x) -> timer_tickcount s + 1 < 2 ^ 64 ->
  (forall r s', waits t x s' -> timer_tickcount s' = timer_tickcount s + 1 ->
     (exists new, t_trace s' = t_trace s ++ new /\ forall f d, (t, f, d) ∉ new) -> Q r s') ->
  wp (timer_tick_handler run 0 a.1 a.2) Q s.
Proof using Hrun.
  intros (P & Hp & Ht & Hx & Hc) He Hmax HQ. destruct (may_fire a) eqn:Ha; cycle 1.
  { apply (wp_tick_skipped P); [done|done|lia|]. intros r s' Hp' E1 E2 E3. apply HQ; [|done|].
    - exists P. rewrite E1, E2. split_and!; [done|done|done|lia].
    - exists []. rewrite app_nil_r. split; [done|set_solver]. }
  specialize (He eq_refl). pose proof (due_clock s t x Hx) as Hdue. rewrite (proj2 (Z.leb_gt _ _)) in Hdue by lia.
  assert (t ∈ filter (fun t => due (clock s) t = false) P) as Hin by (by apply list_elem_of_filter).
  apply (wp_tick P); [done|done|lia|]. intros r s' [(N & HN & HE) F2 _ _ F5 F6]. cbn in F5. apply HQ; [|done|].
  - exists (N ++ filter (fun t => due (clock s) t = false) P). split; [done|]. split; [set_solver|]. rewrite F2, F5 by done. split; [done|lia].
  - eexists. split; [exact F6|]. intros f d Hin'%calls_in. apply list_elem_of_filter in Hin' as [E _]. congruence.
Qed.

Lemma wp_tick_fires t x a Q s :
  waits t x s -> may_fire a = true -> t_expires x <= timer_tickcount s + 1 < 2 ^ 64 ->
  (forall r s' P', pending P' s' -> timer_tickcount s' = timer_tickcount s + 1 ->
     (exists new, t_trace s' = t_trace s ++ new /\ (t, t_function x, t_data x) ∈ new) -> Q r s') ->
  wp (timer_tick_handler run 0 a.1 a.2) Q s.
Proof using Hrun.
  intros (P & Hp & Ht & Hx & Hc) Ha He HQ.
  pose proof (due_clock s t x Hx) as Hdue. rewrite (proj2 (Z.leb_le _ _)) in Hdue by lia.
  apply (wp_tick P); [done|done|lia|]. intros r s' [(N & HN & HE) F2 _ _ F5 F6]. cbn in F5. eapply HQ; [by split|done|].
  eexists. split; [exact F6|]. apply list_elem_of_fmap. exists t. split; [by cbn; rewrite Hx|]. by apply list_elem_of_filter.
Qed.

(** Ticks from number [n + 1] on at which a timer for tick [e] is not called: the
    tick is before [e], or a thread runs with preemption disabled. *)
Definition too_early (e n : Z) (l : list (bool * bool)) : Prop :=
  forall k a, l !! k = Some a -> may_fire a = true -> n + Z.of_nat k + 1 < e.

Lemma wp_ticks_wait t x l Q s :
  waits t x s -> too_early (t_expires x) (timer_tickcount s) l -> timer_tickcount s + Z.of_nat (length l) < 2 ^ 64 ->
  (forall s', waits t x s' -> timer_tickcount s' = timer_tickcount s + Z.of_nat (length l) ->
     (exists new, t_trace s' = t_trace s ++ new /\ forall f d, (t, f, d) ∉ new) -> Q tt s') ->
  wp (ticks l) Q s.
Proof using Hrun.
  revert s. induction l as [|[b1 b2] l IH]; intros s Hw Hl He HQ; cbn [ticks length] in *.
  - apply wp_ret, HQ; [done|lia|]. exists []. rewrite app_nil_r. split; [done|set_solver].
  - apply wp_bind, (wp_tick_waits t x (b1, b2)); [done| |lia|].
    { intros Ha. specialize (Hl 0%nat _ eq_refl Ha). lia. }
    intros r s' Hw' Hc' (new & Htr & Hnew). apply IH; [done| |lia|].
    { intros k a Hk Ha. specialize (Hl (S k) a Hk Ha). lia. }
    intros s2 Hw2 Hc2 (new2 & Htr2 & Hnew2).
    apply HQ; [done|lia|]. exists (new ++ new2). split; [by rewrite Htr2, Htr, app_assoc|]. intros f d. specialize (Hnew f d). specialize (Hnew2 f d). set_solver.
Qed.

(** The timer's function is called at the first tick that is not too early. *)
Lemma ticks_fire t x l a s :
  waits t x s -> too_early (t_expires x) (timer_tickcount s) l -> may_fire a = true ->
  t_expires x <= timer_tickcount s + Z.of_nat (length l) + 1 < 2 ^ 64 ->
  exists s1 s2 new1 new2, ticks l s = Done tt s1 /\ waits t x s1
    /\ t_trace s1 = t_trace s ++ new1 /\ (forall f d, (t, f, d) ∉ new1)
    /\ ticks [a] s1 = Done tt s2 /\ timer_tickcount s2 = timer_tickcount s + Z.of_nat (length l) + 1
    /\ t_trace s2 = t_trace s1 ++ new2 /\ (t, t_function x, t_data x) ∈ new2.
Proof using Hrun.
  intros Hw Hl Ha He.
  destruct (wp_run (ticks l) (fun _ s1 => waits t x s1 /\ timer_tickcount s1 = timer_tickcount s + Z.of_nat (length l)
    /\ exists new, t_trace s1 = t_trace s ++ new /\ forall f d, (t, f, d) ∉ new) s) as ([] & s1 & E1 & Hw1 & Hc1 & new1 & Htr1 & Hn1).
  { apply (wp_ticks_wait t x); [done|done|lia|]. naive_solver. }
  destruct (wp_run (ticks [a]) (fun _ s2 => timer_tickcount s2 = timer_tickcount s1 + 1
    /\ exists new, t_trace s2 = t_trace s1 ++ new /\ (t, t_function x, t_data x) ∈ new) s1) as ([] & s2 & E2 & Hc2 & new2 & Htr2 & Hn2).
  { destruct a as [b1 b2]. cbn [ticks]. apply wp_bind, (wp_tick_fires t x (b1, b2)); [exact Hw1|exact Ha|lia|]. intros r s' P' _ Hc' Hn. by apply wp_ret. }
  exists s1, s2, new1, new2. split_and!; try done. lia.
Qed.

(** [timer_add] makes a timer wait. *)
Lemma wp_timer_add P t x Q s :
  pending P s -> timers_firing s = false -> unlinked P [] t s -> timers s !! t = Some x ->
  0 <= timer_tickcount s -> 0 <= t_expires x < 2 ^ 31 ->
  (forall s', waits t x s' -> timer_tickcount s' = timer_tickcount s -> t_trace s' = t_trace s -> Q tt s') -> wp (timer_add t) Q s.
Proof using Hrun.
  intros [Hok Hexp] Hf Hu Hx Hc Hlt HQ. unfold timer_add, get_timer. wp_steps. eapply wp_deref; [exact Hx|]. wp_steps.
  pose proof Hu as [[Hn _] _]. rewrite app_nil_r in Hn.
  apply (wp_timer_mod P [] t x); [done|by right|done|]. rewrite s32_id, u64_id by lia. intros h s' Hl. rewrite Hf in Hl. cbn [moved fst snd] in Hl.
  rewrite !without_not in Hl by set_solver. wp_steps.
  assert (timers s' !! t = Some x) as Hx' by (subst s'; cbn; rewrite lookup_insert_eq; by destruct x).
  apply HQ; [|done|done]. exists (t :: P). split_and!; [|left|exact Hx'|apply Hc].
  split; [done|]. intros t' y Ht' Hy. change (timer_next_expiry s') with (Z.min (timer_next_expiry s) (t_expires x)).
  apply elem_of_cons in Ht' as [->|Ht']; [rewrite Hx' in Hy; injection Hy as <-; lia|].
  assert (timers s !! t' = Some y) as Hy'; [|specialize (Hexp t' y Ht' Hy'); lia].
  subst s'. cbn in Hy. rewrite lookup_insert_ne in Hy; [done|]. intros ->. done.
Qed.

(** C22: a timer that [timer_add] takes on with an expiry [e] below 2^31 is called
    with its data at the first tick from [e] on that does not find a thread
    running with preemption disabled, and not before: up to then it stays
    pending.  The functions that run meanwhile may add timers, and leave the
    pending ones alone. *)
Theorem timer_add_fires P t x l a s :
  pending P s -> timers_firing s = false -> unlinked P [] t s -> timers s !! t = Some x ->
  0 <= timer_tickcount s -> 0 <= t_expires x < 2 ^ 31 ->
  too_early (t_expires x) (timer_tickcount s) l -> may_fire a = true ->
  t_expires x <= timer_tickcount s + Z.of_nat (length l) + 1 < 2 ^ 64 ->
  exists s0 s1 s2 new1 new2, timer_add t s = Done tt s0 /\ ticks l s0 = Done tt s1 /\ waits t x s1
    /\ t_trace s1 = t_trace s ++ new1 /\ (forall f d, (t, f, d) ∉ new1)
    /\ ticks [a] s1 = Done tt s2 /\ timer_tickcount s2 = timer_tickcount s + Z.of_nat (length l) + 1
    /\ t_trace s2 = t_trace s1 ++ new2 /\ (t, t_function x, t_data x) ∈ new2.
Proof using Hrun.
  intros Hp Hf Hu Hx Hc Hlt Hl Ha He.
  destruct (wp_run (timer_add t) (fun _ s' => waits t x s' /\ timer_tickcount s' = timer_tickcount s /\ t_trace s' = t_trace s) s)
    as ([] & s0 & E0 & Hw & Hc0 & Htr). { apply (wp_timer_add P t x); done. }
  destruct (ticks_fire t x l a s0 Hw ltac:(by rewrite Hc0) Ha ltac:(lia)) as (s1 & s2 & new1 & new2 & H). rewrite Htr, Hc0 in H. by exists s0, s1, s2, new1, new2.
Qed.
End fire.
End timers.

(** ** A kernel with one thread asleep *)

#[local] Instance example_lists : TimerLists := {| timers_primary := 0x1000; timers_secondary := 0x2000 |}.

Definition example_timers : timer_st :=
  TimerSt {[0x1000 := Link 0x1000 0x1000; 0x2000 := Link 0x2000 0x2000; 0x5018 := Link 0 0]} {[0x5000 := Timer 7 8 3]}
    0 (2 ^ 64 - 1) false 0 0 0 0 0 0 [].

Lemma example_pending : pending [] example_timers.
Proof.
  split; [|by intros t x H%elem_of_nil]. split; [..|by intros t H%elem_of_nil].
  - split; [|set_solver by done]. split; [apply NoDup_singleton|]. done.
  - split; [|set_solver by done]. split; [apply NoDup_singleton|]. done.
  - apply (bool_decide_eq_true_1 _). by vm_compute.
Qed.

(** The timer for tick 3 is called at tick 4: tick 3 comes while preemption is
    disabled. *)
Lemma timer_add_fires_witness :
  exists s0 s1 s2 new1 new2, timer_add 0x5000 example_timers = Done tt s0
    /\ ticks (fun _ _ => ret tt) [(true, true); (false, false); (true, false)] s0 = Done tt s1 /\ waits 0x5000 (Timer 7 8 3) s1
    /\ t_trace s1 = t_trace example_timers ++ new1 /\ (forall f d, (0x5000, f, d) ∉ new1)
    /\ ticks (fun _ _ => ret tt) [(false, true)] s1 = Done tt s2 /\ timer_tickcount s2 = 4
    /\ t_trace s2 = t_trace s1 ++ new2 /\ (0x5000, 7, 8) ∈ new2.
Proof.
  apply (timer_add_fires (fun _ _ => ret tt)
           ltac:(intros f d P S s Hf Hok; exists S; split; [done|by split]) [] 0x5000 (Timer 7 8 3)).
  - exact example_pending.
  - reflexivity.
  - split; [|reflexivity]. split; [by intros H%elem_of_nil|done].
  - reflexivity.
  - done.
  - done.
  - intros [|[|[|k]]] [r b] E Ha; cbn in E; simplify_eq; cbn; lia.
  - reflexivity.
  - done.
Defined.

(** ** Seconds since the epoch *)

(** The days of the Gregorian calendar. *)
Definition days_in_year (y : Z) : Z := if leap y then 366 else 365.

Definition days_in_month (y m : Z) : Z :=
  if m =? 2 then if leap y then 29 else 28
  else if (m =? 4) || (m =? 6) || (m =? 9) || (m =? 11) then 30 else 31.

Definition sum (l : list Z) : Z := foldr Z.add 0 l.

Definition days_before_year (y : Z) : Z := sum (map days_in_year (seqZ 1970 (y - 1970))).
Definition days_before_month (y m : Z) : Z := sum (map (days_in_month y) (seqZ 1 (m - 1))).

Definition seconds_since_epoch (tm : rtc_time) : Z :=
  (days_before_year (year tm) + days_before_month (year tm) (month tm) + (day tm - 1)) * 86400
  + hour tm * 3600 + minute tm * 60 + second tm.

(** The year of the clock is an [unsigned int]. *)
Definition valid_time (tm : rtc_time) : Prop :=
  1970 <= year tm < 2 ^ 32 /\ 1 <= month tm <= 12 /\ 1 <= day tm <= 31
  /\ 0 <= hour tm < 24 /\ 0 <= minute tm < 60 /\ 0 <= second tm < 61.

Lemma sum_app l l' : sum (l ++ l') = sum l + sum l'.
Proof. unfold sum. induction l as [|x l IH]; cbn; lia. Qed.

Lemma days_before_next y : 1970 <= y -> days_before_year (y + 1) = days_before_year y + days_in_year y.
Proof.
  intros Hy. unfold days_before_year. replace (y + 1 - 1970) with ((y - 1970) + 1) by lia.
  rewrite seqZ_app, map_app, sum_app by lia. replace (1970 + (y - 1970)) with y by lia.
  rewrite (seqZ_cons y 1), (seqZ_nil _ (Z.pred 1)) by lia. cbn. lia.
Qed.

Lemma year_formula y : 1970 <= y ->
  days_before_year y = 365 * (y - 1970) + (y - 1969) / 4 - (y - 1901) / 100 + (y - 1601) / 400.
Proof.
  intros Hy. replace y with (1970 + (y - 1970)) by lia. assert (Hd : 0 <= y - 1970) by lia. clear Hy. revert Hd. generalize (y - 1970). clear y.
  apply natlike_ind; [by vm_compute|]. intros d Hd IH. unfold Z.succ. rewrite Z.add_assoc, days_before_next, IH by lia. clear IH.
  unfold days_in_year, leap.
  destruct (Z.eqb_spec ((1970 + d) mod 4) 0), (Z.eqb_spec ((1970 + d) mod 100) 0), (Z.eqb_spec ((1970 + d) mod 400) 0); cbn [andb orb negb]; Z.div_mod_to_equations; lia.
Qed.

Lemma month_table m : 1 <= m <= 12 -> forall y, 0 <= days_before_month y m <= 335 /\
  days_before_month y m = nth (Z.to_nat (m - 1)) mdays 0 + (if (3 <=? m) && leap y then 1 else 0).
Proof.
  intros Hm y. unfold days_before_month, days_in_month. assert (m = 1 \/ m = 2 \/ m = 3 \/ m = 4 \/ m = 5 \/ m = 6 \/ m = 7 \/ m = 8 \/ m = 9 \/ m = 10 \/ m = 11 \/ m = 12) as Hd by lia.
  destruct (leap y); repeat (destruct Hd as [->|Hd]; [by vm_compute|]); subst; by vm_compute.
Qed.

(** C23: [do_time] is the number of seconds from the start of 1970 to the time
    of the clock in the Gregorian calendar, reduced to 32 bits, for every date
    from 1970 on; up to the end of 2105 it is the number itself. *)
Theorem do_time_correct tm :
  valid_time tm -> do_time tm = u32 (seconds_since_epoch tm) /\ (year tm <= 2105 -> do_time tm = seconds_since_epoch tm).
Proof.
  intros (Hy & Hm & Hd & Hh & Hmi & Hs). pose proof (year_formula (year tm) ltac:(lia)) as Ey.
  destruct (month_table (month tm) Hm (year tm)) as [Bm Em]. assert (E : do_time tm = u32 (seconds_since_epoch tm)).
  { unfold do_time, seconds_since_epoch. rewrite (u32_id (year tm - 1900)) by lia.
    rewrite !(u32_id (year tm - 1900 - _)), (u32_id (year tm - 1900 + _)) by lia.
    replace (year tm - 1900 - 69) with (year tm - 1969) by lia. replace (year tm - 1900 - 1) with (year tm - 1901) by lia.
    replace (year tm - 1900 + 299) with (year tm - 1601) by lia. f_equal. destruct ((3 <=? month tm) && leap (year tm)); lia. }
  split; [done|]. intros Hle. rewrite E. apply u32_id. unfold seconds_since_epoch. rewrite Ey.
  Z.div_mod_to_equations. lia.
Qed.

Lemma do_time_correct_witness :
  do_time (RtcTime 59 59 23 29 2 2024) = 1709251199 /\ do_time (RtcTime 0 0 0 1 1 2200) = 7258118400 mod 2 ^ 32.
Proof.
  split.
  - rewrite (proj2 (do_time_correct (RtcTime 59 59 23 29 2 2024) ltac:(done))) by done. reflexivity.
  - rewrite (proj1 (do_time_correct (RtcTime 0 0 0 1 1 2200) ltac:(done))). reflexivity.
Defined.
