(* ===== verification/Page.v ===== *)
(** The physical page allocator: [mm/page.c].

    A complete binary tree over the pages, one availability bit per node in an
    array of 64-bit words, most significant bit first; the root has index 0, the
    nodes of order [o], blocks of [2^o] pages, are a row of the tree.  A count
    and the least index of the available nodes are kept for each order.

    The multiboot information is a list of tags; addresses are physical, as the
    tree is read through the same array before and after [page_init_finish]. *)

From S2P Require Import Prelude.

Definition PAGE_SHIFT : Z := 12.
Definition PHYS_OFFSET : Z := 0xffff880000000000.
Definition BTREE_NUM_BITS : Z := 64.

Record page_st : Type := PageSt {
  max_pages : Z;
  max_order : nat;
  page_btree : list Z;                          (* btree, of 64-bit words *)
  min_available_idx_by_order : list Z;
  count_available_by_order : list Z;
  page_freecount : Z;
}.

Definition set_page_btree (x : list Z) (s : page_st) : page_st :=
  PageSt (max_pages s) (max_order s) x (min_available_idx_by_order s)
    (count_available_by_order s) (page_freecount s).
Definition set_min_available (x : list Z) (s : page_st) : page_st :=
  PageSt (max_pages s) (max_order s) (page_btree s) x (count_available_by_order s) (page_freecount s).
Definition set_count_available (x : list Z) (s : page_st) : page_st :=
  PageSt (max_pages s) (max_order s) (page_btree s) (min_available_idx_by_order s) x (page_freecount s).
Definition set_page_freecount (x : Z) (s : page_st) : page_st :=
  PageSt (max_pages s) (max_order s) (page_btree s) (min_available_idx_by_order s)
    (count_available_by_order s) x.

Abbreviation P := page_st.

(** ** Indices *)

(** [1 << order], which is an [int] in most places of the source: orders are
    at most 30, which is what the proofs assume of [max_order]. *)
Definition pow2 (order : nat) : Z := Z.shiftl 1 (Z.of_nat order).

Definition BTREE_ROW_START_INDEX (s : P) (order : nat) : Z := pow2 (max_order s - order) - 1.
Definition BTREE_ROW_END_INDEX (s : P) (order : nat) : Z :=
  Z.lor (Z.shiftl (BTREE_ROW_START_INDEX s order) 1) 1.
Definition BTREE_INDEX_TO_ADDR (s : P) (idx : Z) (order : nat) : Z :=
  Z.shiftl (pow2 order * (idx - BTREE_ROW_START_INDEX s order)) PAGE_SHIFT.
Definition BTREE_ADDR_TO_INDEX (s : P) (addr : Z) (order : nat) : Z :=
  BTREE_ROW_START_INDEX s order + Z.shiftr addr PAGE_SHIFT / pow2 order.

Definition BTREE_WORD_POS (idx : Z) : Z := idx / BTREE_NUM_BITS.
Definition BTREE_BIT_POS (idx : Z) : Z := Z.land idx (BTREE_NUM_BITS - 1).
Definition BTREE_AVAILABILITY_MASK (idx : Z) : Z := Z.shiftl 1 (BTREE_NUM_BITS - 1 - BTREE_BIT_POS idx).

Definition BTREE_SIBLING (idx : Z) : Z := idx - 1 + Z.shiftl (Z.land idx 1) 1.
Definition BTREE_LEFT_SIBLING (idx : Z) : Z := idx + (Z.land idx 1 - 1).
Definition BTREE_PARENT (idx : Z) : Z := Z.shiftr (idx - 1) 1.
Definition BTREE_LEFT_CHILD (idx : Z) : Z := Z.shiftl idx 1 + 1.
Definition BTREE_IS_LEFT_CHILD (idx : Z) : bool := negb (Z.land idx 1 =? 0).

(** ** Access to the arrays *)

Definition word (i : Z) : M P Z := let! s := get in deref (page_btree s !! Z.to_nat i).
Definition set_word (i w : Z) : M P unit :=
  let! _ := word i in modify (fun s => set_page_btree (<[Z.to_nat i := w]> (page_btree s)) s).

Definition BTREE_IS_AVAILABLE (idx : Z) : M P bool :=
  let! w := word (BTREE_WORD_POS idx) in
  ret (negb (Z.land w (BTREE_AVAILABILITY_MASK idx) =? 0)).
Definition BTREE_MARK_AVAILABLE (idx : Z) : M P unit :=
  let! w := word (BTREE_WORD_POS idx) in
  set_word (BTREE_WORD_POS idx) (Z.lor w (BTREE_AVAILABILITY_MASK idx)).
Definition BTREE_MARK_UNAVAILABLE (idx : Z) : M P unit :=
  let! w := word (BTREE_WORD_POS idx) in
  set_word (BTREE_WORD_POS idx) (Z.land w (Z.lnot (BTREE_AVAILABILITY_MASK idx))).

Definition count_at (order : nat) : M P Z := let! s := get in deref (count_available_by_order s !! order).
Definition set_count_at (order : nat) (n : Z) : M P unit :=
  let! _ := count_at order in
  modify (fun s => set_count_available (<[order := n]> (count_available_by_order s)) s).
Definition min_at (order : nat) : M P Z := let! s := get in deref (min_available_idx_by_order s !! order).
Definition set_min_at (order : nat) (idx : Z) : M P unit :=
  let! _ := min_at order in
  modify (fun s => set_min_available (<[order := idx]> (min_available_idx_by_order s)) s).

(** [count_available_by_order[order] += n] *)
Definition add_count (order : nat) (n : Z) : M P unit :=
  let! c := count_at order in set_count_at order (u64 (c + n)).

(** [if (idx < min_available_idx_by_order[order]) ... = idx] *)
Definition lower_min (order : nat) (idx : Z) : M P unit :=
  let! m := min_at order in if idx <? m then set_min_at order idx else ret tt.

(** ** Metadata *)

(** [while (copy != 0 && bit_idx > lim) { bit_idx--; copy = copy >> 1; }]; a word
    is zero after 64 steps. *)
Fixpoint shift_out (fuel : nat) (copy bit_idx lim : Z) : Z :=
  match fuel with
  | O => bit_idx
  | S fuel =>
      if negb (copy =? 0) && (lim <? bit_idx) then shift_out fuel (Z.shiftr copy 1) (bit_idx - 1) lim
      else bit_idx
  end.

(** [while (!btree[word_idx]) word_idx++;] *)
Fixpoint skip_zero_words (fuel : nat) (word_idx : Z) : M P Z :=
  let! w := word word_idx in
  if w =? 0 then
    match fuel with
    | O => fail Stuck
    | S fuel => skip_zero_words fuel (word_idx + 1)
    end
  else ret word_idx.

(** The search in the words from [word_idx] on. *)
Definition next_available (order : nat) (word_idx : Z) : M P unit :=
  let! s := get in
  let! word_idx := skip_zero_words (length (page_btree s)) word_idx in
  let! copy := word word_idx in
  let bit_idx := shift_out 64 copy BTREE_NUM_BITS (-1) in
  let min_available := word_idx * BTREE_NUM_BITS + bit_idx in
  set_min_at order (if BTREE_ROW_END_INDEX s order <? min_available
                    then BTREE_ROW_END_INDEX s order else min_available).

(** The shift count of the mask is taken modulo 64, as the processor does. *)
Definition _btree_update_metadata_after_removal (order : nat) (idx : Z) : M P unit :=
  let! c := count_at order in
  let! s := get in
  if negb (c =? 0) then
    let! m := min_at order in
    if idx =? m then
      let word_idx := BTREE_WORD_POS idx in
      let! w := word word_idx in
      if negb (w =? 0) && (word_idx =? BTREE_WORD_POS (BTREE_ROW_START_INDEX s order)) then
        let copy := Z.land w (Z.shiftl 1 ((BTREE_NUM_BITS - BTREE_BIT_POS idx) mod 64) - 1) in
        let bit_idx := shift_out 64 copy BTREE_NUM_BITS (BTREE_BIT_POS idx) in
        let! a := BTREE_IS_AVAILABLE (word_idx * BTREE_NUM_BITS + bit_idx) in
        if a then set_min_at order (word_idx * BTREE_NUM_BITS + bit_idx)
        else next_available order (word_idx + 1)
      else next_available order word_idx
    else ret tt
  else set_min_at order (BTREE_ROW_END_INDEX s order).

(** ** Making pages available *)

(** The [while] loop: buddies are merged up the tree. *)
Fixpoint merge_loop (fuel : nat) (idx : Z) (order : nat) : M P unit :=
  if 0 <? idx then
    let! a := BTREE_IS_AVAILABLE (BTREE_SIBLING idx) in
    if a then
      match fuel with
      | O => fail Stuck
      | S fuel =>
          do! BTREE_MARK_UNAVAILABLE idx;
          do! BTREE_MARK_UNAVAILABLE (BTREE_SIBLING idx);
          do! add_count order (-2);
          do! _btree_update_metadata_after_removal order (BTREE_LEFT_SIBLING idx);
          let idx := BTREE_PARENT idx in
          do! BTREE_MARK_AVAILABLE idx;
          do! add_count (S order) 1;
          do! lower_min (S order) idx;
          merge_loop fuel idx (S order)
      end
    else ret tt
  else ret tt.

Definition _btree_mark_available (idx : Z) (order : nat) : M P unit :=
  let! a := BTREE_IS_AVAILABLE idx in
  do! kassert (negb a);
  do! BTREE_MARK_AVAILABLE idx;
  let! s := get in
  do! kassert (negb ((BTREE_INDEX_TO_ADDR s idx order <=? 0xb1000)
                     && (0xb1000 <? BTREE_INDEX_TO_ADDR s (idx + 1) order)));
  do! add_count order 1;
  do! lower_min order idx;
  merge_loop (max_order s) idx order.

(** The inner loop of [_btree_mark_range_available]. *)
Fixpoint climb (fuel : nat) (idx : Z) (order : nat) (npages : Z) : M P (Z * nat) :=
  if BTREE_IS_LEFT_CHILD idx && (Z.shiftl 2 (Z.of_nat order) <=? npages) then
    match fuel with
    | O => fail Stuck
    | S fuel => climb fuel (BTREE_PARENT idx) (S order) npages
    end
  else ret (idx, order).

Fixpoint mark_range_loop (fuel : nat) (leaf_idx npages : Z) : M P unit :=
  if npages =? 0 then ret tt
  else
    match fuel with
    | O => fail Stuck
    | S fuel =>
        let! s := get in
        let! r := climb (S (max_order s)) leaf_idx 0 npages in
        do! _btree_mark_available r.1 r.2;
        mark_range_loop fuel (leaf_idx + pow2 r.2) (npages - pow2 r.2)
    end.

Definition _btree_mark_range_available (leaf_idx npages : Z) : M P unit :=
  mark_range_loop (Z.to_nat npages) leaf_idx npages.

Definition PAGE_ALIGN_DOWN (x : Z) : Z := Z.land x (u64 (Z.shiftl (2 ^ 64 - 1) PAGE_SHIFT)).
Definition PAGE_ALIGN_UP (x : Z) : Z := PAGE_ALIGN_DOWN (u64 (x + (PAGE_SIZE - 1))).
Definition PAGE_ALIGNED (x : Z) : bool := Z.land x (PAGE_SIZE - 1) =? 0.

Definition page_add_range (start end_ : Z) : M P unit :=
  do! kassert (start <? end_);
  let start' := if start =? 0 then PAGE_ALIGN_UP 1 else start in
  if (start =? 0) && (end_ <=? start') then ret tt
  else
    let start := PAGE_ALIGN_UP start' in
    let end_ := PAGE_ALIGN_DOWN end_ in
    let npages := Z.shiftr (u64 (end_ - start)) PAGE_SHIFT in
    let! s := get in
    do! _btree_mark_range_available (BTREE_ADDR_TO_INDEX s start 0) npages;
    modify (fun s => set_page_freecount (page_freecount s + npages) s).

(** ** Allocation *)

(** The split loop of [_btree_alloc]: the index of the block of the wanted order. *)
Fixpoint split_loop (steps : nat) (idx : Z) (actual_order : nat) : M P Z :=
  match steps with
  | O => ret idx
  | S steps =>
      do! BTREE_MARK_UNAVAILABLE idx;
      do! add_count actual_order (-1);
      do! _btree_update_metadata_after_removal actual_order idx;
      let idx := BTREE_LEFT_CHILD idx in
      do! BTREE_MARK_AVAILABLE idx;
      do! BTREE_MARK_AVAILABLE (BTREE_SIBLING idx);
      let actual_order := pred actual_order in
      do! add_count actual_order 2;
      do! lower_min actual_order idx;
      split_loop steps idx actual_order
  end.

(** [while (allocated_order-- > 0) allocated_idx = BTREE_LEFT_CHILD(allocated_idx)] *)
Fixpoint leftmost_leaf (order : nat) (idx : Z) : Z :=
  match order with
  | O => idx
  | S order => leftmost_leaf order (BTREE_LEFT_CHILD idx)
  end.

Definition _btree_alloc (npages idx : Z) (smallest_order actual_order : nat) : M P Z :=
  let! idx := split_loop (actual_order - smallest_order) idx actual_order in
  do! BTREE_MARK_UNAVAILABLE idx;
  do! add_count smallest_order (-1);
  do! _btree_update_metadata_after_removal smallest_order idx;
  let allocated_idx := leftmost_leaf smallest_order idx in
  let! s := get in
  do! kassert (negb (BTREE_INDEX_TO_ADDR s allocated_idx 0 =? 0));
  do! _btree_mark_range_available (allocated_idx + npages) (pow2 smallest_order - npages);
  do! modify (fun s => set_page_freecount (page_freecount s - npages) s);
  ret (BTREE_INDEX_TO_ADDR s allocated_idx 0 + PHYS_OFFSET).

(** [while ((1UL << smallest_order) < npages) smallest_order++;] *)
Fixpoint order_for (fuel : nat) (order : nat) (npages : Z) : M P nat :=
  if pow2 order <? npages then
    match fuel with
    | O => fail Stuck
    | S fuel => order_for fuel (S order) npages
    end
  else ret order.

Definition physmap_end (s : P) : Z := PHYS_OFFSET + Z.shiftl (max_pages s) PAGE_SHIFT.

(** The [for] loop over the orders; the null pointer is 0. *)
Fixpoint alloc_loop (orders : list nat) (npages max_page_number : Z) (smallest_order : nat) : M P Z :=
  match orders with
  | [] => ret 0
  | actual_order :: orders =>
      let! c := count_at actual_order in
      if c =? 0 then alloc_loop orders npages max_page_number smallest_order
      else
        let! idx := min_at actual_order in
        let! s := get in
        do! kassert ((BTREE_ROW_START_INDEX s actual_order <=? idx)
                     && (idx <? BTREE_ROW_END_INDEX s actual_order));
        let first := (idx - BTREE_ROW_START_INDEX s actual_order) * pow2 actual_order in
        if first <? max_page_number then
          do! kassert (first <? max_pages s);
          let! r := _btree_alloc npages idx smallest_order actual_order in
          do! kassert (r + Z.shiftl npages PAGE_SHIFT <=? physmap_end s);
          ret r
        else alloc_loop orders npages max_page_number smallest_order
  end.

Definition page_alloc_n_bounded (npages max_paddr : Z) : M P Z :=
  let! s := get in
  do! kassert ((0 <? npages) && (npages <=? pow2 (max_order s)));
  if page_freecount s <? npages then ret 0
  else
    let max_page_number := u64 (Z.shiftr max_paddr PAGE_SHIFT - npages + 1) in
    let! smallest_order := order_for (S (max_order s)) 0 npages in
    alloc_loop (seq smallest_order (S (max_order s) - smallest_order)) npages max_page_number smallest_order.

Definition page_alloc_n (npages : Z) : M P Z := page_alloc_n_bounded npages (2 ^ 64 - 1).
Definition page_alloc : M P Z := page_alloc_n 1.
Definition page_alloc_bounded (max_paddr : Z) : M P Z := page_alloc_n_bounded 1 max_paddr.

(** ** Freeing *)

Definition page_free_n (addr npages : Z) : M P unit :=
  let! s := get in
  do! kassert ((0 <? npages) && (npages <=? pow2 (max_order s)) && PAGE_ALIGNED addr);
  let idx := BTREE_ADDR_TO_INDEX s (u64 (addr - PHYS_OFFSET)) 0 in
  do! kassert (idx + npages - BTREE_ROW_START_INDEX s 0 <=? max_pages s);
  do! _btree_mark_range_available idx npages;
  modify (fun s => set_page_freecount (page_freecount s + npages) s).

Definition page_free (addr : Z) : M P unit := page_free_n addr 1.

(** [while (idx && !BTREE_IS_AVAILABLE(idx)) { idx = BTREE_PARENT(idx); order++; }] *)
Fixpoint find_available (fuel : nat) (idx : Z) (order : nat) : M P (Z * nat) :=
  if idx =? 0 then ret (idx, order)
  else
    let! a := BTREE_IS_AVAILABLE idx in
    if a then ret (idx, order)
    else match fuel with
         | O => fail Stuck
         | S fuel => find_available fuel (BTREE_PARENT idx) (S order)
         end.

Definition page_mark_reserved (paddr : Z) : M P unit :=
  let! s := get in
  if Z.shiftl (max_pages s) PAGE_SHIFT <? paddr then ret tt
  else
    do! kassert (PAGE_ALIGNED paddr);
    let! r := find_available (S (max_order s)) (BTREE_ADDR_TO_INDEX s paddr 0) 0 in
    let idx := r.1 in
    let order := r.2 in
    let! a := BTREE_IS_AVAILABLE idx in
    if negb a then ret tt
    else
      do! BTREE_MARK_UNAVAILABLE idx;
      do! add_count order (-1);
      do! _btree_update_metadata_after_removal order idx;
      let unavailable := BTREE_ADDR_TO_INDEX s paddr 0 in
      let start := BTREE_ADDR_TO_INDEX s (BTREE_INDEX_TO_ADDR s idx order) 0 in
      let end_ := BTREE_ADDR_TO_INDEX s (BTREE_INDEX_TO_ADDR s (idx + 1) order) 0 in
      do! _btree_mark_range_available start (unavailable - start);
      do! _btree_mark_range_available (unavailable + 1) (end_ - unavailable - 1);
      modify (fun s => set_page_freecount (page_freecount s - 1) s).

Definition page_free_count : M P Z := let! s := get in ret (page_freecount s).

(** ** Initialisation *)

Record mmap_entry : Type := MmapEntry { mm_addr : Z; mm_len : Z; mm_type : Z }.

Inductive multiboot_tag : Type :=
| TagMmap (entries : list mmap_entry)
| TagOther.

Definition MULTIBOOT_MEMORY_AVAILABLE : Z := 1.

Definition available_entries (tags : list multiboot_tag) : list mmap_entry :=
  filter (fun e => mm_type e = MULTIBOOT_MEMORY_AVAILABLE)
    (mjoin ((fun t => match t with TagMmap l => l | TagOther => [] end) <$> tags)).

(** [kernel_phys_base] and [kernel_phys_end] are symbols of the linker. *)
Class KernelImage : Type := { KERNEL_PHYS_BASE : Z; KERNEL_PHYS_END : Z }.

Section init.
Context {image : KernelImage}.

(** The amount of RAM, and of memory that follows the kernel. *)
Definition scan_entry (acc : Z * Z) (e : mmap_entry) : Z * Z :=
  let e_end := u64 (mm_addr e + mm_len e) in
  (Z.max (acc.1) e_end,
   if (mm_addr e <? KERNEL_PHYS_END) && (KERNEL_PHYS_END <? e_end) then e_end - KERNEL_PHYS_END
   else acc.2).

Fixpoint bits_of (fuel : nat) (n : Z) : nat :=
  match fuel with
  | O => O
  | S fuel => if n =? 0 then O else S (bits_of fuel (Z.shiftr n 1))
  end.

Definition btree_size (order : nat) : Z := Z.shiftl 1 (Z.of_nat order - 2).
Definition metadata_size (order : nat) : Z := 8 * (Z.of_nat order + 1) + 8 * (Z.of_nat order + 1).

(** [while (max_order) { ... max_order--; max_pages = 1UL << max_order; }] *)
Fixpoint shrink (order : nat) (pages avail : Z) : nat * Z :=
  match order with
  | O => (O, pages)
  | S order' =>
      if btree_size order + metadata_size order <=? avail then (order, pages)
      else shrink order' (pow2 order') avail
  end.

Definition empty_state (order : nat) (pages : Z) : P :=
  let s := PageSt pages order (replicate (Z.to_nat (btree_size order / 8)) 0) [] (replicate (S order) 0) 0 in
  set_min_available (BTREE_ROW_END_INDEX s <$> seq 0 (S order)) s.

(** The part of an entry that the kernel and the tree do not use. *)
Definition clip (reserved_end : Z) (e : mmap_entry) : option (Z * Z) :=
  let inside := (KERNEL_PHYS_BASE <=? mm_addr e) && (mm_addr e <? reserved_end) in
  let over := reserved_end - mm_addr e in
  if inside && (mm_len e <=? over) then None
  else
    let addr := if inside then reserved_end else mm_addr e in
    let len := if inside then mm_len e - over else mm_len e in
    if addr <? KERNEL_PHYS_BASE then None else Some (addr, len).

Fixpoint add_entries (reserved_end : Z) (l : list mmap_entry) : M P unit :=
  match l with
  | [] => ret tt
  | e :: l =>
      do! (match clip reserved_end e with
           | Some (addr, len) => page_add_range addr (u64 (addr + len))
           | None => ret tt
           end);
      add_entries reserved_end l
  end.

Definition page_init (tags : list multiboot_tag) : M P unit :=
  let l := available_entries tags in
  let '(ram, avail) := foldl scan_entry (0, 0) l in
  let pages := Z.shiftr ram PAGE_SHIFT in
  let '(order, pages) := shrink (bits_of 64 pages) pages avail in
  do! put (empty_state order pages);
  let reserved_end := KERNEL_PHYS_END + PAGE_SIZE + btree_size order + metadata_size order in
  do! add_entries reserved_end l;
  page_mark_reserved 0.
End init.
