(* ===== verification/PageTree.v ===== *)
(** The nodes of the tree of [mm/page.c] as pairs of an order and a position in
    its row, and the canonical set of available nodes of a set of free pages:
    the blocks that are free and whose parent is not. *)

From S2P Require Import Prelude Page.

(** ** Powers of two *)

Lemma pow2_eq n : pow2 n = 2 ^ Z.of_nat n.
Proof. unfold pow2. apply Z.shiftl_1_l. Qed.

Lemma pow2_S n : pow2 (S n) = 2 * pow2 n.
Proof. rewrite !pow2_eq, Nat2Z.inj_succ, Z.pow_succ_r; lia. Qed.

Lemma pow2_pos n : 0 < pow2 n.
Proof. rewrite pow2_eq. lia. Qed.

Lemma pow2_add m n : pow2 (m + n) = pow2 m * pow2 n.
Proof. rewrite !pow2_eq, Nat2Z.inj_add, Z.pow_add_r; lia. Qed.

Lemma pow2_le m n : (m <= n)%nat -> pow2 m <= pow2 n.
Proof. intros. rewrite !pow2_eq. apply Z.pow_le_mono_r; lia. Qed.

Lemma pow2_lt m n : (m < n)%nat -> pow2 m < pow2 n.
Proof. intros. rewrite !pow2_eq. apply Z.pow_lt_mono_r; lia. Qed.

Lemma pow2_split m o : (o <= m)%nat -> pow2 m = pow2 (m - o) * pow2 o.
Proof. intros. rewrite <- pow2_add. f_equal. lia. Qed.

(** ** Nodes *)

Definition valid (m o : nat) (k : Z) : Prop := (o <= m)%nat /\ 0 <= k < pow2 (m - o).

Definition node (m o : nat) (k : Z) : Z := pow2 (m - o) - 1 + k.

Definition sib (k : Z) : Z := if Z.even k then k + 1 else k - 1.

Lemma land_1 z : Z.land z 1 = z mod 2.
Proof. change 1 with (Z.ones 1) at 1. rewrite Z.land_ones by lia. done. Qed.

Lemma even_mod z : z mod 2 = if Z.even z then 0 else 1.
Proof. rewrite Zmod_even. done. Qed.

(** The rows but the first start at an odd index. *)
Lemma node_odd m o k : (o < m)%nat -> node m o k mod 2 = if Z.even k then 1 else 0.
Proof.
  intros Ho. unfold node. replace (m - o)%nat with (S (m - S o)) by lia. rewrite pow2_S.
  pose proof (even_mod k) as E. destruct (Z.even k); [|];
    rewrite (Z.div_mod k 2) by lia; rewrite E.
  - replace (2 * pow2 (m - S o) - 1 + (2 * (k / 2) + 0)) with (1 + (pow2 (m - S o) - 1 + k / 2) * 2) by lia.
    by rewrite Z.mod_add.
  - replace (2 * pow2 (m - S o) - 1 + (2 * (k / 2) + 1)) with (0 + (pow2 (m - S o) + k / 2) * 2) by lia.
    by rewrite Z.mod_add.
Qed.

Lemma sibling_node m o k : (o < m)%nat -> BTREE_SIBLING (node m o k) = node m o (sib k).
Proof.
  intros Ho. unfold BTREE_SIBLING, sib. rewrite land_1, node_odd by done.
  unfold node. destruct (Z.even k); [change (Z.shiftl 1 1) with 2|change (Z.shiftl 0 1) with 0]; lia.
Qed.

Lemma left_sibling_node m o k : (o < m)%nat -> BTREE_LEFT_SIBLING (node m o k) = node m o (2 * (k / 2)).
Proof.
  intros Ho. unfold BTREE_LEFT_SIBLING. rewrite land_1, node_odd by done.
  pose proof (even_mod k) as E. unfold node. rewrite (Z.div_mod k 2) at 1 by lia.
  destruct (Z.even k); rewrite E; lia.
Qed.

Lemma parent_node m o k : (o < m)%nat -> BTREE_PARENT (node m o k) = node m (S o) (k / 2).
Proof.
  intros Ho. unfold BTREE_PARENT, node. rewrite Z.shiftr_div_pow2 by lia.
  replace (m - o)%nat with (S (m - S o)) by lia. rewrite pow2_S.
  replace (2 * pow2 (m - S o) - 1 + k - 1) with (k + (pow2 (m - S o) - 1) * 2) by lia.
  change (2 ^ 1) with 2. rewrite Z.div_add by lia. lia.
Qed.

Lemma left_child_node m o k : (S o <= m)%nat -> BTREE_LEFT_CHILD (node m (S o) k) = node m o (2 * k).
Proof.
  intros Ho. unfold BTREE_LEFT_CHILD, node. rewrite Z.shiftl_mul_pow2 by lia.
  replace (m - o)%nat with (S (m - S o)) by lia. rewrite pow2_S. lia.
Qed.

Lemma is_left_child_node m o k : (o < m)%nat -> BTREE_IS_LEFT_CHILD (node m o k) = Z.even k.
Proof. intros Ho. unfold BTREE_IS_LEFT_CHILD. rewrite land_1, node_odd by done. by destruct (Z.even k). Qed.

Lemma row_start_node s o : BTREE_ROW_START_INDEX s o = node (max_order s) o 0.
Proof. unfold BTREE_ROW_START_INDEX, node. lia. Qed.

Lemma row_end_eq s o : BTREE_ROW_END_INDEX s o = 2 * pow2 (max_order s - o) - 1.
Proof.
  unfold BTREE_ROW_END_INDEX, BTREE_ROW_START_INDEX. pose proof (pow2_pos (max_order s - o)).
  set (a := pow2 _ - 1). assert (0 <= a) by lia.
  assert (Z.lor (Z.shiftl a 1) 1 = 2 * a + 1) as ->; [|lia].
  rewrite Z.shiftl_mul_pow2 by lia. change (2 ^ 1) with 2. rewrite Z.mul_comm.
  destruct a as [|p|p]; [done|done|lia].
Qed.

(** A node has one order and one position. *)
Lemma node_inj m o k o' k' :
  valid m o k -> valid m o' k' -> node m o k = node m o' k' -> o = o' /\ k = k'.
Proof.
  intros [Ho Hk] [Ho' Hk'] E. unfold node in E. destruct (lt_eq_lt_dec o o') as [[H| ->]|H]; [|lia|].
  - pose proof (pow2_le (S (m - o')) (m - o)). rewrite pow2_S in *. lia.
  - pose proof (pow2_le (S (m - o)) (m - o')). rewrite pow2_S in *. lia.
Qed.

Lemma node_range m o k : valid m o k -> 0 <= node m o k < 2 * pow2 m - 1.
Proof.
  intros [Ho Hk]. unfold node. pose proof (pow2_pos (m - o)). pose proof (pow2_le (m - o) m). lia.
Qed.

(** ** Blocks

    Page [p] is in the block of node [(o, k)] when [p / 2^o = k]. *)

Lemma page_in_block o k p : p / pow2 o = k <-> k * pow2 o <= p < (k + 1) * pow2 o.
Proof.
  pose proof (pow2_pos o). split.
  - intros <-. pose proof (Z.div_mod p (pow2 o)). pose proof (Z.mod_pos_bound p (pow2 o)). nia.
  - intros. symmetry. apply (Z.div_unique_pos p (pow2 o) k (p - k * pow2 o)); lia.
Qed.

Lemma block_up o d p : p / pow2 (o + d) = p / pow2 o / pow2 d.
Proof. pose proof (pow2_pos o). pose proof (pow2_pos d). rewrite pow2_add, Z.div_div by lia. done. Qed.

Definition block (o : nat) (k : Z) : gset Z := list_to_set (seqZ (k * pow2 o) (pow2 o)).

Lemma elem_of_block o k p : p ∈ block o k <-> p / pow2 o = k.
Proof.
  unfold block. rewrite elem_of_list_to_set, elem_of_seqZ, page_in_block. pose proof (pow2_pos o). lia.
Qed.

Definition full (F : gset Z) (o : nat) (k : Z) : bool :=
  bool_decide (Forall (fun p => p ∈ F) (seqZ (k * pow2 o) (pow2 o))).

Lemma full_spec F o k : full F o k = true <-> forall p, p / pow2 o = k -> p ∈ F.
Proof.
  unfold full. rewrite bool_decide_eq_true, Forall_forall. setoid_rewrite elem_of_seqZ.
  setoid_rewrite page_in_block. pose proof (pow2_pos o). split; intros H' p Hp; apply H'; lia.
Qed.

Lemma full_false F o k : full F o k = false <-> exists p, p / pow2 o = k /\ p ∉ F.
Proof.
  split.
  - intros H. unfold full in H. apply bool_decide_eq_false in H. apply not_Forall_Exists in H; [|intros ?; apply _].
    apply Exists_exists in H as (p & Hp & Hn). exists p. apply elem_of_seqZ in Hp. rewrite page_in_block.
    pose proof (pow2_pos o). split; [lia|done].
  - intros (p & Hp & Hn). destruct (full F o k) eqn:E; [|done]. by rewrite full_spec in E; apply E in Hp.
Qed.

(** The available nodes for a set of free pages. *)
Definition canon (m : nat) (F : gset Z) (o : nat) (k : Z) : bool :=
  full F o k && ((m =? o)%nat || negb (full F (S o) (k / 2))).

Definition upd (A : nat -> Z -> bool) (o : nat) (k : Z) (b : bool) (o' : nat) (k' : Z) : bool :=
  if decide (o' = o /\ k' = k) then b else A o' k'.

Lemma upd_eq A o k b : upd A o k b o k = b.
Proof. unfold upd. by rewrite decide_True. Qed.

Lemma upd_ne A o k b o' k' : o' <> o \/ k' <> k -> upd A o k b o' k' = A o' k'.
Proof. intros. unfold upd. rewrite decide_False; [done|naive_solver]. Qed.

(** Two blocks are nested or disjoint. *)
Inductive related (o : nat) (k : Z) (o' : nat) (k' : Z) : Prop :=
| Disjoint (H : forall p, p / pow2 o = k -> p / pow2 o' = k' -> False)
| Inside (Hle : (o' <= o)%nat) (H : forall p, p / pow2 o' = k' -> p / pow2 o = k)
| Above (Hlt : (o < o')%nat) (H : forall p, p / pow2 o = k -> p / pow2 o' = k').

Lemma blocks_related o k o' k' : related o k o' k'.
Proof.
  destruct (le_lt_dec o' o) as [Hle|Hlt].
  - destruct (decide (k' / pow2 (o - o') = k)) as [E|E].
    + apply Inside; [done|]. intros p <-. rewrite <- E. replace o with (o' + (o - o'))%nat at 1 by lia.
      apply block_up.
    + apply Disjoint. intros p <- <-. apply E. symmetry.
      replace o with (o' + (o - o'))%nat at 1 by lia. apply block_up.
  - destruct (decide (k / pow2 (o' - o) = k')) as [E|E].
    + apply Above; [done|]. intros p <-. rewrite <- E. replace o' with (o + (o' - o))%nat at 1 by lia.
      apply block_up.
    + apply Disjoint. intros p <- <-. apply E. symmetry.
      replace o' with (o + (o' - o))%nat at 1 by lia. apply block_up.
Qed.

Lemma block_witness o k : (k * pow2 o) / pow2 o = k.
Proof. pose proof (pow2_pos o). apply Z.div_mul. lia. Qed.

Lemma parent_block o k p : p / pow2 o = k -> p / pow2 (S o) = k / 2.
Proof. intros <-. rewrite <- Nat.add_1_r, block_up. done. Qed.

Lemma sib_block o k p : p / pow2 o = sib k -> p / pow2 (S o) = k / 2 /\ p / pow2 o <> k.
Proof.
  intros Hp. split; [|unfold sib in Hp; destruct (Z.even k); lia].
  rewrite (parent_block _ _ _ Hp). unfold sib. pose proof (even_mod k) as E.
  destruct (Z.even k).
  - symmetry. apply (Z.div_unique (k + 1) 2 (k / 2) 1); [lia|]. pose proof (Z.div_mod k 2). lia.
  - symmetry. apply (Z.div_unique (k - 1) 2 (k / 2) 0); [lia|]. pose proof (Z.div_mod k 2). lia.
Qed.

(** What contains a block properly contains its parent. *)
Lemma parent_above o k o1 k1 p :
  (o < o1)%nat -> (forall p, p / pow2 o = k -> p / pow2 o1 = k1) ->
  p / pow2 (S o) = k / 2 -> p / pow2 o1 = k1.
Proof.
  intros Ho H Hp. pose proof (block_witness o k) as E.
  replace o1 with (S o + (o1 - S o))%nat by lia. rewrite block_up, Hp.
  rewrite <- (parent_block o k (k * pow2 o)) by done. rewrite <- block_up.
  replace (S o + (o1 - S o))%nat with o1 by lia. by apply H.
Qed.

(** How the full blocks change when the pages of a block are set or cleared. *)
Lemma full_same F F' o k :
  (forall p, p / pow2 o = k -> p ∈ F <-> p ∈ F') -> full F o k = full F' o k.
Proof.
  intros H. apply eq_true_iff_eq. rewrite !full_spec. split; intros H' p Hp; by apply H, H'.
Qed.

Section change.
Context (m : nat) (F : gset Z) (o : nat) (k : Z).

(** [F'] differs from [F] in the block only. *)
Variable F' : gset Z.
Hypothesis outside : forall p, p / pow2 o <> k -> p ∈ F' <-> p ∈ F.

(** The blocks above are full neither before nor after. *)
Hypothesis above : forall o' k', (o < o' <= m)%nat -> (forall p, p / pow2 o = k -> p / pow2 o' = k') ->
  full F o' k' = false /\ full F' o' k' = false.

Lemma canon_outside o' k' :
  valid m o' k' -> (forall p, p / pow2 o = k -> p / pow2 o' = k' -> False) ->
  canon m F' o' k' = canon m F o' k'.
Proof.
  intros [Ho' Hk'] Hd. unfold canon.
  assert (full F' o' k' = full F o' k') as -> by (apply full_same; intros p Hp; apply outside; naive_solver).
  destruct (Nat.eqb_spec m o') as [->|Hne]; [by rewrite !orb_true_l|]. cbn [orb].
  destruct (blocks_related o k (S o') (k' / 2)) as [H|Hle H|Hlt H].
  - do 2 f_equal. apply full_same. intros p Hp. apply outside. naive_solver.
  - exfalso. pose proof (block_witness o' k') as E. apply (Hd (k' * pow2 o')); [|done].
    apply H. by apply parent_block.
  - assert (full F (S o') (k' / 2) = false /\ full F' (S o') (k' / 2) = false) as [-> ->]; [|done].
    apply above; [lia|done].
Qed.

Lemma canon_above o' k' :
  valid m o' k' -> (o < o')%nat -> (forall p, p / pow2 o = k -> p / pow2 o' = k') ->
  canon m F' o' k' = canon m F o' k'.
Proof. intros [Ho' _] Hlt H. unfold canon. destruct (above o' k') as [-> ->]; [lia|done|done]. Qed.
End change.

(** A free block is added: a block with no free page, whose buddy is not free. *)
Lemma canon_add m F o k o' k' :
  valid m o k -> (forall p, p / pow2 o = k -> p ∉ F) -> o = m \/ full F o (sib k) = false ->
  valid m o' k' ->
  canon m (F ∪ block o k) o' k' = upd (canon m F) o k true o' k'.
Proof.
  intros Hv Hd Hs Hv'.
  assert (forall p, p / pow2 o <> k -> p ∈ F ∪ block o k <-> p ∈ F) as Hout.
  { intros p Hp. rewrite elem_of_union, elem_of_block. naive_solver. }
  assert (full (F ∪ block o k) o k = true) as Hfull.
  { apply full_spec. intros p Hp. apply elem_of_union. right. by apply elem_of_block. }
  assert (forall o1 k1, (o < o1 <= m)%nat -> (forall p, p / pow2 o = k -> p / pow2 o1 = k1) ->
            full F o1 k1 = false /\ full (F ∪ block o k) o1 k1 = false) as Habove.
  { intros o1 k1 Ho1 H. pose proof (block_witness o k) as E.
    split; apply full_false; [exists (k * pow2 o); naive_solver|].
    destruct Hs as [->|(p & Hp & Hn)%full_false]; [lia|]. destruct (sib_block _ _ _ Hp) as [Hp1 Hp2].
    exists p. split.
    - eapply parent_above; [|done|done]. lia.
    - rewrite elem_of_union, elem_of_block. naive_solver. }
  unfold upd. case_decide as Eq.
  { destruct Eq as [-> ->]. unfold canon. rewrite Hfull. cbn [andb].
    destruct (Nat.eqb_spec m o) as [->|]; [done|]. cbn [orb].
    destruct Hv as [? _]. destruct (Habove (S o) (k / 2)) as [_ ->]; [lia|intros p; apply parent_block|done]. }
  destruct (blocks_related o k o' k') as [H|Hle H|Hlt H].
  - apply (canon_outside m F o k); done.
  - unfold canon. assert (full F o' k' = false) as ->.
    { apply full_false. exists (k' * pow2 o'). pose proof (block_witness o' k') as E. naive_solver. }
    cbn [andb]. destruct (decide (o' = o)) as [->|].
    { destruct Eq. split; [done|]. rewrite <- (block_witness o k'). by apply H, block_witness. }
    destruct Hv' as [Ho' _], Hv as [Ho _]. rewrite (proj2 (Nat.eqb_neq m o')) by lia. cbn [orb].
    assert (full (F ∪ block o k) (S o') (k' / 2) = true) as ->; [|by rewrite andb_false_r].
    apply full_spec. intros p Hp. apply elem_of_union. right. apply elem_of_block.
    eapply parent_above; [|done|done]. lia.
  - apply (canon_above m F o k); done.
Qed.

(** An available block is cleared. *)
Lemma canon_del m F o k o' k' :
  valid m o k -> canon m F o k = true -> valid m o' k' ->
  canon m (F ∖ block o k) o' k' = upd (canon m F) o k false o' k'.
Proof.
  intros Hv Hc Hv'. apply andb_true_iff in Hc as [Hfull Hpar].
  assert (forall p, p / pow2 o <> k -> p ∈ F ∖ block o k <-> p ∈ F) as Hout.
  { intros p Hp. rewrite elem_of_difference, elem_of_block. naive_solver. }
  assert (forall o1 k1, (o < o1 <= m)%nat -> (forall p, p / pow2 o = k -> p / pow2 o1 = k1) ->
            full F o1 k1 = false /\ full (F ∖ block o k) o1 k1 = false) as Habove.
  { intros o1 k1 Ho1 H. pose proof (block_witness o k) as E. split; apply full_false.
    - destruct (Nat.eqb_spec m o) as [->|]; [lia|]. cbn [orb] in Hpar. apply negb_true_iff in Hpar.
      apply full_false in Hpar as (p & Hp & Hn). exists p. split; [|done].
      eapply parent_above; [|done|done]. lia.
    - exists (k * pow2 o). split; [by apply H|]. rewrite elem_of_difference, elem_of_block. naive_solver. }
  assert (forall o1 k1, (forall p, p / pow2 o1 = k1 -> p / pow2 o = k) -> full (F ∖ block o k) o1 k1 = false) as Hin.
  { intros o1 k1 H. apply full_false. exists (k1 * pow2 o1). pose proof (block_witness o1 k1) as E.
    split; [done|]. rewrite elem_of_difference, elem_of_block. naive_solver. }
  unfold upd. case_decide as Eq; [destruct Eq as [-> ->]; unfold canon; by rewrite Hin|].
  destruct (blocks_related o k o' k') as [H|Hle H|Hlt H].
  - apply (canon_outside m F o k); done.
  - unfold canon. rewrite (Hin o' k') by done. cbn [andb]. destruct (decide (o' = o)) as [->|].
    { destruct Eq. split; [done|]. rewrite <- (block_witness o k'). by apply H, block_witness. }
    destruct Hv' as [Ho' _], Hv as [Ho _]. rewrite (proj2 (Nat.eqb_neq m o')) by lia. cbn [orb].
    assert (full F (S o') (k' / 2) = true) as ->; [|by rewrite andb_false_r].
    apply full_spec. intros p Hp. rewrite full_spec in Hfull. apply Hfull.
    eapply parent_above; [|done|done]. lia.
  - apply (canon_above m F o k); done.
Qed.
