(* ===== verification/PageProofs.v ===== *)
(** The page allocator keeps the tree canonical: the available nodes are those
    of [canon] for the set of free pages, and the counts and the least indices
    agree with it ([mm/page.c]). *)

From S2P Require Import Prelude Page PageTree.

(** ** Bits of the tree *)

Definition availb (ws : list Z) (idx : Z) : bool :=
  match ws !! Z.to_nat (idx / 64) with
  | Some w => Z.testbit w (63 - idx mod 64)
  | None => false
  end.

Lemma land_63 z : Z.land z 63 = z mod 64.
Proof. change 63 with (Z.ones 6). rewrite Z.land_ones by lia. done. Qed.

Lemma mask_eq idx : BTREE_AVAILABILITY_MASK idx = 2 ^ (63 - idx mod 64).
Proof.
  unfold BTREE_AVAILABILITY_MASK, BTREE_BIT_POS, BTREE_NUM_BITS. rewrite land_63, Z.shiftl_1_l.
  done.
Qed.

Lemma land_pow2 w j : 0 <= j -> negb (Z.land w (2 ^ j) =? 0) = Z.testbit w j.
Proof.
  intros Hj. destruct (Z.testbit w j) eqn:E.
  - apply negb_true_iff, Z.eqb_neq. intros H. apply (f_equal (fun z => Z.testbit z j)) in H.
    rewrite Z.land_spec, E, Z.pow2_bits_true, Z.bits_0 in H by lia. done.
  - apply negb_false_iff, Z.eqb_eq. apply Z.bits_inj'. intros n Hn.
    rewrite Z.land_spec, Z.bits_0, Z.pow2_bits_eqb by lia. destruct (Z.eqb_spec j n) as [<-|]; [by rewrite E|].
    apply andb_false_r.
Qed.

Lemma testbit_lor_pow2 w i j : 0 <= i -> 0 <= j ->
  Z.testbit (Z.lor w (2 ^ i)) j = (i =? j) || Z.testbit w j.
Proof. intros. rewrite Z.lor_spec, Z.pow2_bits_eqb by lia. apply orb_comm. Qed.

Lemma testbit_clear_pow2 w i j : 0 <= i -> 0 <= j ->
  Z.testbit (Z.land w (Z.lnot (2 ^ i))) j = negb (i =? j) && Z.testbit w j.
Proof.
  intros. rewrite Z.land_spec, Z.lnot_spec, Z.pow2_bits_eqb by lia. apply andb_comm.
Qed.

(** The bit of one index. *)
Lemma bit_index idx idx' :
  idx / 64 = idx' / 64 -> 63 - idx mod 64 = 63 - idx' mod 64 -> idx = idx'.
Proof. intros. rewrite (Z.div_mod idx 64), (Z.div_mod idx' 64) by lia. lia. Qed.

Definition word64 (w : Z) : Prop := 0 <= w < 2 ^ 64.

Lemma word64_bits w : word64 w <-> 0 <= w /\ forall j, 64 <= j -> Z.testbit w j = false.
Proof.
  unfold word64. split.
  - intros [H0 H1]. split; [done|]. intros j Hj. destruct (decide (w = 0)) as [->|]; [apply Z.bits_0|].
    apply Z.bits_above_log2; [done|]. apply Z.log2_lt_pow2; [lia|].
    eapply Z.lt_le_trans; [exact H1|]. apply Z.pow_le_mono_r; lia.
  - intros [H0 Hb]. split; [done|]. destruct (decide (w = 0)) as [->|]; [lia|].
    apply Z.log2_lt_pow2; [lia|]. destruct (decide (Z.log2 w < 64)) as [|Hge]; [done|].
    specialize (Hb (Z.log2 w) ltac:(lia)). rewrite Z.bit_log2 in Hb by lia. done.
Qed.

Lemma word64_set w i : word64 w -> 0 <= i < 64 -> word64 (Z.lor w (2 ^ i)).
Proof.
  rewrite !word64_bits. intros [H0 Hb] Hi. split; [apply Z.lor_nonneg; lia|].
  intros j Hj. rewrite testbit_lor_pow2, Hb by lia. rewrite (proj2 (Z.eqb_neq i j)) by lia. done.
Qed.

Lemma word64_clear w i : word64 w -> 0 <= i -> word64 (Z.land w (Z.lnot (2 ^ i))).
Proof.
  rewrite !word64_bits. intros [H0 Hb] Hi. split; [apply Z.land_nonneg; lia|].
  intros j Hj. rewrite testbit_clear_pow2, Hb by lia. apply andb_false_r.
Qed.

(** A word of which one bit changes. *)
Lemma availb_set ws i w w' b idx :
  ws !! Z.to_nat (idx / 64) = Some w -> 0 <= idx -> i = Z.to_nat (idx / 64) ->
  (forall j, 0 <= j -> Z.testbit w' j = if decide (j = 63 - idx mod 64) then b else Z.testbit w j) ->
  forall idx', 0 <= idx' -> availb (<[i := w']> ws) idx' = if decide (idx' = idx) then b else availb ws idx'.
Proof.
  intros Hw Hi -> Hbits idx' Hi'. unfold availb. pose proof (Z.mod_pos_bound idx' 64).
  assert (0 <= idx / 64 /\ 0 <= idx' / 64) as [? ?] by (split; apply Z.div_pos; lia).
  destruct (decide (idx / 64 = idx' / 64)) as [E|E].
  - rewrite <- E, list_lookup_insert_eq, Hw by by eapply lookup_lt_Some. rewrite Hbits by lia.
    destruct (decide (idx' = idx)) as [->|Hne]; [by rewrite decide_True|].
    rewrite decide_False; [done|]. intros H'. apply Hne. symmetry. by apply bit_index.
  - rewrite list_lookup_insert_ne by lia. rewrite decide_False; [done|]. congruence.
Qed.

(** ** Searching for a bit *)

Definition bitlen (c : Z) : Z := if c =? 0 then 0 else Z.log2 c + 1.

Lemma shift_out_spec n copy b lim :
  0 <= copy < 2 ^ Z.of_nat n -> bitlen copy <= b - lim -> shift_out n copy b lim = b - bitlen copy.
Proof.
  revert copy b. induction n as [|n IH]; intros copy b Hc Hb.
  { cbn [shift_out]. change (2 ^ Z.of_nat 0) with 1 in Hc. replace copy with 0 by lia. cbn. lia. }
  cbn [shift_out]. unfold bitlen in Hb |- *. destruct (Z.eqb_spec copy 0) as [->|Hne]; cbn [negb andb]; [lia|].
  pose proof (Z.log2_nonneg copy). rewrite (proj2 (Z.ltb_lt lim b)) by lia.
  rewrite Nat2Z.inj_succ, Z.pow_succ_r in Hc by lia.
  assert (bitlen (Z.shiftr copy 1) = Z.log2 copy) as Hs.
  { unfold bitlen. rewrite Z.log2_shiftr by lia. rewrite Z.shiftr_div_pow2 by lia. change (2 ^ 1) with 2.
    destruct (Z.eqb_spec (copy / 2) 0) as [E|E].
    - assert (copy = 1) as -> by (pose proof (Z.div_mod copy 2); pose proof (Z.mod_pos_bound copy 2); lia). done.
    - assert (2 <= copy) by (destruct (decide (copy = 1)) as [->|]; [done|lia]).
      pose proof (Z.log2_le_mono 2 copy). change (Z.log2 2) with 1 in *. lia. }
  rewrite IH; [lia| |lia]. rewrite Z.shiftr_div_pow2 by lia. change (2 ^ 1) with 2.
  split; [apply Z.div_pos; lia|apply Z.div_lt_upper_bound; lia].
Qed.

(** The first bit of a word, most significant first. *)
Lemma bitlen_spec w :
  word64 w -> w <> 0 -> exists p, 0 <= p < 64 /\ 64 - bitlen w = p /\ Z.testbit w (63 - p) = true
                           /\ forall q, 0 <= q < p -> Z.testbit w (63 - q) = false.
Proof.
  intros Hw Hne. unfold bitlen. rewrite (proj2 (Z.eqb_neq w 0)) by done.
  pose proof (Z.log2_nonneg w). destruct Hw as [H0 H1].
  assert (Z.log2 w < 64) by (apply Z.log2_lt_pow2; lia).
  exists (63 - Z.log2 w). split_and!; [lia|lia|lia| |].
  - replace (63 - (63 - Z.log2 w)) with (Z.log2 w) by lia. apply Z.bit_log2. lia.
  - intros q Hq. apply Z.bits_above_log2; lia.
Qed.

Lemma word_zero w : word64 w -> (forall p, 0 <= p < 64 -> Z.testbit w (63 - p) = false) -> w = 0.
Proof.
  intros Hw Hp. destruct (decide (w = 0)) as [|Hne]; [done|].
  destruct (bitlen_spec w Hw Hne) as (p & Hr & _ & Ht & _). rewrite Hp in Ht; done.
Qed.

Lemma div_64 i q : 0 <= q < 64 -> (64 * i + q) / 64 = i /\ (64 * i + q) mod 64 = q.
Proof.
  intros. split; [symmetry; apply (Z.div_unique _ _ _ q)|symmetry; apply (Z.mod_unique _ _ i)]; lia.
Qed.

Lemma wp_word i w Q s : page_btree s !! Z.to_nat i = Some w -> Q w s -> wp (word i) Q s.
Proof. intros E HQ. unfold word. wp_steps. by eapply wp_deref. Qed.

Section search.
Context (ws : list Z) (W t : Z).
Hypothesis Hws : Forall word64 ws.
Hypothesis HW : 0 <= 64 * W <= t.
Hypothesis Ht : availb ws t = true.
Hypothesis Hbefore : forall i, 64 * W <= i < t -> availb ws i = false.

Lemma search_word i w q :
  ws !! Z.to_nat i = Some w -> 0 <= i -> 0 <= q < 64 -> availb ws (64 * i + q) = Z.testbit w (63 - q).
Proof. intros Hw Hi Hq. unfold availb. destruct (div_64 i q Hq) as [-> ->]. by rewrite Hw. Qed.

Lemma search_target : exists w, ws !! Z.to_nat (t / 64) = Some w /\ word64 w /\ w <> 0 /\ 64 * (t / 64) + (64 - bitlen w) = t.
Proof.
  pose proof Ht as Ht'. unfold availb in Ht'. destruct (ws !! Z.to_nat (t / 64)) as [w|] eqn:Ew; [|done].
  assert (word64 w) as Hw by (rewrite Forall_forall in Hws; eapply Hws, list_elem_of_lookup_2, Ew).
  assert (w <> 0) as Hne by (intros ->; rewrite Z.bits_0 in Ht'; done).
  exists w. split_and!; [done|done|done|]. destruct (bitlen_spec w Hw Hne) as (p & Hr & -> & Hp & Hl).
  pose proof (Z.mod_pos_bound t 64) as Hmod. pose proof (Z.div_mod t 64) as Hdm.
  assert (0 <= t / 64) by (apply Z.div_pos; lia).
  destruct (decide (t mod 64 < p)); [by rewrite Hl in Ht' by lia|].
  destruct (decide (64 * (t / 64) + p < t)); [|lia].
  rewrite <- (search_word _ w) in Hp by done. rewrite Hbefore in Hp; [done|].
  assert (W <= t / 64) by (apply Z.div_le_lower_bound; lia). lia.
Qed.

Lemma wp_skip_zero_words fuel i Q s :
  page_btree s = ws -> W <= i <= t / 64 -> t / 64 - i <= Z.of_nat fuel -> Q (t / 64) s ->
  wp (skip_zero_words fuel i) Q s.
Proof.
  intros Hs. destruct search_target as (wt & Et & _ & Hnt & _).
  revert i. induction fuel as [|fuel IH]; intros i Hi Hf HQ; cbn [skip_zero_words];
    destruct (decide (i = t / 64)) as [->|Hne]; try lia;
    try (apply wp_bind, (wp_word _ wt); [by rewrite Hs|]; rewrite (proj2 (Z.eqb_neq wt 0)) by done; by apply wp_ret).
  destruct (lookup_lt_is_Some_2 ws (Z.to_nat i)) as [w Ew].
  { apply lookup_lt_Some in Et. lia. }
  apply wp_bind, (wp_word _ w); [by rewrite Hs|].
  assert (w = 0) as ->; [|apply IH; (done || lia)].
  apply word_zero; [rewrite Forall_forall in Hws; eapply Hws, list_elem_of_lookup_2, Ew|].
  intros p Hp. rewrite <- (search_word i) by (done || lia). apply Hbefore.
  pose proof (Z.mul_div_le t 64). lia.
Qed.
End search.

(** The search in the word of [idx] itself, the bits before it masked. *)
Lemma masked_search ws idx t w :
  Forall word64 ws -> 0 <= idx <= t -> 0 < idx mod 64 -> availb ws t = true ->
  (forall i, idx <= i < t -> availb ws i = false) -> ws !! Z.to_nat (idx / 64) = Some w ->
  let copy := Z.land w (Z.shiftl 1 ((64 - idx mod 64) mod 64) - 1) in
  let r := idx / 64 * 64 + shift_out 64 copy 64 (idx mod 64) in
  0 <= r <= t /\ (availb ws r = true -> r = t) /\ (availb ws r = false -> 64 * (idx / 64 + 1) <= t).
Proof.
  intros Hws Hi Hpos Ht Hb Ew copy r. pose proof (Z.mod_pos_bound idx 64) as Hpos'.
  assert (word64 w) as Hw by (rewrite Forall_forall in Hws; eapply Hws, list_elem_of_lookup_2, Ew).
  assert (0 <= idx / 64) as Hd by (apply Z.div_pos; lia). pose proof (Z.div_mod idx 64) as Hdm.
  assert (copy = w mod 2 ^ (64 - idx mod 64)) as Hcopy.
  { subst copy. rewrite (Z.mod_small (64 - _)), Z.shiftl_1_l by lia. rewrite <- Z.land_ones by lia.
    by rewrite Z.ones_equiv, <- Z.sub_1_r. }
  assert (0 <= copy < 2 ^ (64 - idx mod 64)) as Hr by (rewrite Hcopy; apply Z.mod_pos_bound; lia).
  assert (forall q, idx mod 64 <= q < 64 -> Z.testbit copy (63 - q) = availb ws (64 * (idx / 64) + q)) as Hin.
  { intros q Hq. rewrite (search_word _ _ w) by (done || lia). rewrite Hcopy, Z.mod_pow2_bits_low by lia. done. }
  assert (word64 copy) as Hcw.
  { split; [lia|]. eapply Z.lt_le_trans; [apply Hr|]. apply Z.pow_le_mono_r; lia. }
  assert (forall q, q < idx mod 64 -> Z.testbit copy (63 - q) = false) as Hout.
  { intros q Hq. rewrite Hcopy. apply Z.mod_pow2_bits_high. lia. }
  assert (forall q, idx mod 64 <= q < 64 -> t < 64 * (idx / 64) + q -> Z.testbit copy (63 - (t - 64 * (idx / 64))) = true) as Hthere.
  { intros q Hq Hlt. rewrite Hin by lia. rewrite <- Ht. f_equal. lia. }
  destruct (decide (copy = 0)) as [E0|E0].
  - assert (r = 64 * (idx / 64) + 64) as Er by (unfold r; rewrite E0; change (shift_out 64 0 64 (idx mod 64)) with 64; lia).
    assert (r <= t).
    { destruct (decide (r <= t)) as [|Hgt]; [done|]. exfalso.
      assert (Z.testbit copy (63 - (t - 64 * (idx / 64))) = true) as Hbad.
      { rewrite Hin by lia. rewrite <- Ht. f_equal. lia. }
      by rewrite E0, Z.bits_0 in Hbad. }
    split_and!; [lia|done| |lia]. intros Ha. destruct (decide (r < t)); [|lia]. rewrite Hb in Ha; [done|lia].
  - destruct (bitlen_spec copy Hcw E0) as (p & Hp & Ep & Hpt & Hpl).
    assert (idx mod 64 <= p) as Hge.
    { destruct (decide (p < idx mod 64)); [|lia]. by rewrite Hout in Hpt. }
    assert (r = 64 * (idx / 64) + p) as Er.
    { unfold r. rewrite shift_out_spec by (done || lia). lia. }
    rewrite Hin, <- Er in Hpt by lia.
    assert (r = t) as Ert; [|rewrite Ert in *; split_and!; [lia|lia|done|congruence]].
    destruct (Z.lt_trichotomy r t) as [Hlt|[|Hgt]]; [by rewrite Hb in Hpt by lia|done|].
    specialize (Hthere p ltac:(lia) ltac:(lia)). rewrite Hpl in Hthere; [done|lia].
Qed.

(** ** The representation of a set of available nodes *)

Section rep.
Context (m : nat).
Abbreviation nodes := (nat -> Z -> bool).
Implicit Types (A B : nodes) (s : P) (o : nat) (k : Z).

Definition row o : list Z := seqZ 0 (pow2 (m - o)).

Definition cnt A o : Z := Z.of_nat (length (filter (fun k => A o k = true) (row o))).

(** [v] is the least index of an available node of the row, or its end. *)
Definition least A o (v : Z) : Prop :=
  (exists k, valid m o k /\ v = node m o k /\ A o k = true /\ forall k', 0 <= k' < k -> A o k' = false)
  \/ v = node m o (pow2 (m - o)) /\ forall k, valid m o k -> A o k = false.

Record bits A s : Prop := Bits {
  bt_order : max_order s = m;
  bt_max : (m <= 30)%nat;
  bt_len : 64 * Z.of_nat (length (page_btree s)) = 2 * pow2 m;
  bt_words : Forall word64 (page_btree s);
  bt_avail : forall o k, valid m o k -> availb (page_btree s) (node m o k) = A o k;
  bt_last : availb (page_btree s) (2 * pow2 m - 1) = false;
}.

Record rep A s : Prop := Rep {
  rp_bits : bits A s;
  rp_lengths : length (count_available_by_order s) = S m /\ length (min_available_idx_by_order s) = S m;
  rp_count : forall o, (o <= m)%nat -> count_available_by_order s !! o = Some (cnt A o);
  rp_min : forall o, (o <= m)%nat -> exists v, min_available_idx_by_order s !! o = Some v /\ least A o v;
}.

(** What the operations on the tree leave alone. *)
Definition frame s s' : Prop :=
  max_pages s' = max_pages s /\ max_order s' = max_order s /\ page_freecount s' = page_freecount s.

#[export] Instance frame_preorder : PreOrder frame.
Proof. split; [done|]. intros s1 s2 s3 (? & ? & ?) (? & ? & ?). split_and!; congruence. Qed.

Lemma elem_of_row o k : (o <= m)%nat -> k ∈ row o <-> valid m o k.
Proof. intros Ho. unfold row, valid. rewrite elem_of_seqZ. split; [intros; split; [done|lia]|lia]. Qed.

Lemma row_NoDup o : NoDup (row o).
Proof. apply NoDup_seqZ. Qed.

Lemma cnt_ext A B o : (o <= m)%nat -> (forall k, valid m o k -> A o k = B o k) -> cnt A o = cnt B o.
Proof.
  intros Ho H. unfold cnt. do 2 f_equal.
  assert (forall l : list Z, (forall k, k ∈ l -> A o k = B o k) ->
            filter (fun k => A o k = true) l = filter (fun k => B o k = true) l) as Hl.
  { induction l as [|k l IH]; intros Hin; [done|]. rewrite !filter_cons, (Hin k), IH; [done| |left].
    intros k' Hk'. apply Hin. by right. }
  apply Hl. intros k Hk. apply H. by apply elem_of_row.
Qed.

Lemma least_ext A B o v :
  (o <= m)%nat -> (forall k, valid m o k -> A o k = B o k) -> least A o v -> least B o v.
Proof.
  intros Ho H [(k & Hv & -> & Ha & Hl)|[-> Hn]].
  - left. exists k. split_and!; [done|done|by rewrite <- H|]. intros k' Hk'.
    rewrite <- H; [by apply Hl|]. destruct Hv. split; [done|lia].
  - right. split; [done|]. intros k Hk. rewrite <- H; auto.
Qed.

Lemma rep_ext A B s : (forall o k, valid m o k -> A o k = B o k) -> rep A s -> rep B s.
Proof.
  intros H [[] Hl Hc Hm]. split; [|done| |].
  - split; try done. intros o k Hv. rewrite <- H by done. auto.
  - intros o Ho. rewrite <- (cnt_ext A) by auto. auto.
  - intros o Ho. destruct (Hm o Ho) as (v & ? & ?). exists v. split; [done|].
    apply (least_ext A); auto.
Qed.

Lemma cnt_upd A o k b :
  valid m o k -> cnt (upd A o k b) o = cnt A o - (if A o k then 1 else 0) + (if b then 1 else 0).
Proof.
  intros [Ho Hk]. unfold cnt. pose proof (row_NoDup o) as Hnd.
  assert (k ∈ row o) as Hin by by apply elem_of_row.
  assert (forall l : list Z, k ∉ l -> filter (fun k' => upd A o k b o k' = true) l = filter (fun k' => A o k' = true) l) as Hl.
  { induction l as [|k' l IH]; intros Hn; [done|]. apply not_elem_of_cons in Hn as [Hne Hn].
    rewrite !filter_cons, IH by done. rewrite upd_ne by naive_solver. done. }
  apply list_elem_of_split in Hin as (l1 & l2 & E). rewrite E in Hnd |- *.
  apply NoDup_app in Hnd as (_ & H1 & [H2 _]%NoDup_cons).
  rewrite !filter_app, !length_app, Hl by (intros H%H1; apply not_elem_of_cons in H as []; done).
  rewrite !filter_cons, Hl, upd_eq by done.
  destruct b, (A o k) eqn:Ek; repeat case_decide; try congruence; cbn [length]; lia.
Qed.

Lemma cnt_range A o : (o <= m)%nat -> 0 <= cnt A o <= pow2 m.
Proof.
  intros Ho. unfold cnt. split; [lia|].
  pose proof (length_filter (fun k => A o k = true) (row o)) as H.
  unfold row in H at 2. rewrite length_seqZ in H. pose proof (pow2_le (m - o) m). pose proof (pow2_pos (m - o)). lia.
Qed.

Lemma cnt_zero A o : (o <= m)%nat -> cnt A o = 0 <-> forall k, valid m o k -> A o k = false.
Proof.
  intros Ho. unfold cnt. split.
  - intros H k Hv. destruct (A o k) eqn:E; [|done].
    assert (k ∈ filter (fun k => A o k = true) (row o)) as Hin
      by (apply list_elem_of_filter; split; [done|by apply elem_of_row]).
    destruct (filter _ _); [by apply not_elem_of_nil in Hin|cbn in H; lia].
  - intros H. assert (filter (fun k => A o k = true) (row o) = []) as ->; [|done].
    destruct (filter _ _) as [|k l] eqn:E; [done|].
    assert (k ∈ filter (fun k => A o k = true) (row o)) as Hk by (rewrite E; left).
    apply list_elem_of_filter in Hk as [Hk Hin%elem_of_row]; [|done]. rewrite H in Hk; done.
Qed.

(** ** Bits *)

Lemma word_of A s o k :
  bits A s -> valid m o k -> exists w, page_btree s !! Z.to_nat (node m o k / 64) = Some w /\ word64 w.
Proof.
  intros [_ _ Hl Hw _ _] Hv. pose proof (node_range m o k Hv) as Hr.
  assert (0 <= node m o k / 64) by (apply Z.div_pos; lia).
  destruct (lookup_lt_is_Some_2 (page_btree s) (Z.to_nat (node m o k / 64))) as [w Ew].
  { pose proof (Z.mul_div_le (node m o k) 64). lia. }
  exists w. split; [done|]. rewrite Forall_forall in Hw. eapply Hw, list_elem_of_lookup_2, Ew.
Qed.

Lemma wp_is_available A o k Q s :
  bits A s -> valid m o k -> Q (A o k) s -> wp (BTREE_IS_AVAILABLE (node m o k)) Q s.
Proof.
  intros Hb Hv HQ. destruct (word_of A s o k) as (w & Ew & _); [done|done|].
  unfold BTREE_IS_AVAILABLE. apply wp_bind, (wp_word _ w); [done|]. apply wp_ret.
  rewrite mask_eq, land_pow2 by (pose proof (Z.mod_pos_bound (node m o k) 64); lia).
  rewrite <- (bt_avail A s Hb o k Hv) in HQ. unfold availb in HQ. by rewrite Ew in HQ.
Qed.

(** One bit is written. *)
Lemma bits_set A s o k w w' b :
  bits A s -> valid m o k -> page_btree s !! Z.to_nat (node m o k / 64) = Some w -> word64 w' ->
  (forall j, 0 <= j -> Z.testbit w' j = if decide (j = 63 - node m o k mod 64) then b else Z.testbit w j) ->
  bits (upd A o k b) (set_page_btree (<[Z.to_nat (node m o k / 64) := w']> (page_btree s)) s).
Proof.
  intros [Hm Hmx Hl Hw Ha Hz] Hv Ew Hw' Hj.
  split; cbn; [done|done|by rewrite length_insert|by apply Forall_insert| |].
  2: { pose proof (node_range m o k Hv). rewrite (availb_set _ _ w w' b (node m o k)) by (done || lia).
       rewrite decide_False; [done|lia]. }
  intros o' k' Hv'. pose proof (node_range m o k Hv). pose proof (node_range m o' k' Hv').
  rewrite (availb_set _ _ w w' b (node m o k)) by (done || lia). unfold upd.
  destruct (decide (node m o' k' = node m o k)) as [E|E].
  - apply node_inj in E as [-> ->]; [|done|done]. by rewrite decide_True.
  - rewrite decide_False; [by apply Ha|]. intros [-> ->]. done.
Qed.

Lemma wp_mark A o k b (f : Z -> Z -> Z) Q s :
  bits A s -> valid m o k ->
  (forall w i, word64 w -> 0 <= i < 64 -> word64 (f w (2 ^ i)) /\
     forall j, 0 <= j -> Z.testbit (f w (2 ^ i)) j = if decide (j = i) then b else Z.testbit w j) ->
  (forall ws, bits (upd A o k b) (set_page_btree ws s) -> Q tt (set_page_btree ws s)) ->
  wp (let! w := word (BTREE_WORD_POS (node m o k)) in
      set_word (BTREE_WORD_POS (node m o k)) (f w (BTREE_AVAILABILITY_MASK (node m o k)))) Q s.
Proof.
  intros Hb Hv Hf HQ. destruct (word_of A s o k) as (w & Ew & Hw); [done|done|].
  apply wp_bind, (wp_word _ w); [done|]. unfold set_word. apply wp_bind, (wp_word _ w); [done|].
  apply wp_modify, HQ. rewrite mask_eq. pose proof (Z.mod_pos_bound (node m o k) 64).
  destruct (Hf w (63 - node m o k mod 64)) as [? ?]; [done|lia|]. apply (bits_set _ _ _ _ w); done.
Qed.

Lemma wp_mark_available A o k Q s :
  bits A s -> valid m o k ->
  (forall ws, bits (upd A o k true) (set_page_btree ws s) -> Q tt (set_page_btree ws s)) ->
  wp (BTREE_MARK_AVAILABLE (node m o k)) Q s.
Proof.
  intros Hb Hv HQ. apply (wp_mark A o k true Z.lor); [done|done| |done]. intros w i Hw Hi.
  split; [by apply word64_set|]. intros j Hj. rewrite testbit_lor_pow2 by lia.
  case_decide; [subst; by rewrite Z.eqb_refl|]. by rewrite (proj2 (Z.eqb_neq i j)) by lia.
Qed.

Lemma wp_mark_unavailable A o k Q s :
  bits A s -> valid m o k ->
  (forall ws, bits (upd A o k false) (set_page_btree ws s) -> Q tt (set_page_btree ws s)) ->
  wp (BTREE_MARK_UNAVAILABLE (node m o k)) Q s.
Proof.
  intros Hb Hv HQ. apply (wp_mark A o k false (fun w i => Z.land w (Z.lnot i))); [done|done| |done].
  intros w i Hw Hi. split; [apply word64_clear; [done|lia]|]. intros j Hj.
  rewrite testbit_clear_pow2 by lia.
  case_decide; [subst; by rewrite Z.eqb_refl|]. by rewrite (proj2 (Z.eqb_neq i j)) by lia.
Qed.

(** ** Counts and least indices *)

Lemma wp_count_at o c Q s : count_available_by_order s !! o = Some c -> Q c s -> wp (count_at o) Q s.
Proof. intros E HQ. unfold count_at. wp_steps. by eapply wp_deref. Qed.

Lemma wp_min_at o v Q s : min_available_idx_by_order s !! o = Some v -> Q v s -> wp (min_at o) Q s.
Proof. intros E HQ. unfold min_at. wp_steps. by eapply wp_deref. Qed.

Lemma wp_set_min_at o v v' Q s :
  min_available_idx_by_order s !! o = Some v ->
  Q tt (set_min_available (<[o := v']> (min_available_idx_by_order s)) s) -> wp (set_min_at o v') Q s.
Proof. intros E HQ. unfold set_min_at. apply wp_bind, (wp_min_at _ v); [done|]. by apply wp_modify. Qed.

Lemma wp_add_count o c n Q s :
  count_available_by_order s !! o = Some c -> 0 <= c + n < 2 ^ 64 ->
  Q tt (set_count_available (<[o := c + n]> (count_available_by_order s)) s) -> wp (add_count o n) Q s.
Proof.
  intros E Hr HQ. unfold add_count. apply wp_bind, (wp_count_at _ c); [done|].
  unfold set_count_at. apply wp_bind, (wp_count_at _ c); [done|]. apply wp_modify. by rewrite u64_id.
Qed.

Lemma wp_lower_min o v idx Q s :
  min_available_idx_by_order s !! o = Some v ->
  Q tt (set_min_available (<[o := Z.min idx v]> (min_available_idx_by_order s)) s) ->
  wp (lower_min o idx) Q s.
Proof.
  intros E HQ. unfold lower_min. apply wp_bind, (wp_min_at _ v); [done|].
  destruct (Z.ltb_spec idx v).
  - apply (wp_set_min_at _ v); [done|]. by rewrite Z.min_l in HQ by lia.
  - apply wp_ret. rewrite Z.min_r, list_insert_id in HQ by (done || lia). by destruct s.
Qed.

Lemma row_end_node s o : max_order s = m -> BTREE_ROW_END_INDEX s o = node m o (pow2 (m - o)).
Proof. intros <-. rewrite row_end_eq. unfold node. lia. Qed.

Lemma least_exists A o :
  (o <= m)%nat -> cnt A o <> 0 ->
  exists k, valid m o k /\ A o k = true /\ forall k', 0 <= k' < k -> A o k' = false.
Proof.
  intros Ho Hc.
  assert (exists k, valid m o k /\ A o k = true) as (k & [_ Hk] & Ha).
  { unfold cnt in Hc. destruct (filter _ _) as [|k l] eqn:E; [done|]. exists k.
    assert (k ∈ filter (fun k => A o k = true) (row o)) as Hk by (rewrite E; left).
    apply list_elem_of_filter in Hk as [Hk Hin%elem_of_row]; done. }
  assert (exists n : nat, Z.of_nat n < pow2 (m - o) /\ A o (Z.of_nat n) = true) as Hex.
  { exists (Z.to_nat k). rewrite Z2Nat.id by lia. split; [lia|done]. }
  clear k Hk Ha. destruct Hex as [n Hn]. induction n as [n IH] using lt_wf_ind.
  destruct (decide (Exists (fun i => A o (Z.of_nat i) = true) (seq 0 n))) as [He|He].
  - apply Exists_exists in He as (i & Hi%elem_of_seq & Ha). apply (IH i); [lia|]. split; [lia|done].
  - exists (Z.of_nat n). split_and!; [split; [done|lia]|apply Hn|]. intros k' Hk'.
    destruct (A o k') eqn:E; [|done]. destruct He. apply Exists_exists. exists (Z.to_nat k').
    rewrite elem_of_seq, Z2Nat.id by lia. split; [lia|done].
Qed.

(** An index between two nodes of a row. *)
Lemma row_avail A s o k i k' :
  bits A s -> (o <= m)%nat -> i = node m o k' -> 0 <= k' <= k -> valid m o k -> availb (page_btree s) i = A o k'.
Proof. intros Hb Ho -> Hk' [_ Hk]. apply bt_avail; [done|]. split; [done|lia]. Qed.

Lemma wp_next_available A o W k v Q s :
  bits A s -> valid m o k -> A o k = true -> 0 <= 64 * W <= node m o k ->
  (forall i, 64 * W <= i < node m o k -> availb (page_btree s) i = false) ->
  min_available_idx_by_order s !! o = Some v ->
  Q tt (set_min_available (<[o := node m o k]> (min_available_idx_by_order s)) s) ->
  wp (next_available o W) Q s.
Proof.
  intros Hb Hv Ha HW Hbefore Hmin HQ. pose proof (bt_words _ _ Hb) as Hws.
  assert (availb (page_btree s) (node m o k) = true) as Ht by (by rewrite (bt_avail A)).
  destruct (search_target _ W _ Hws HW Ht Hbefore) as (w & Ew & Hw & Hne & Hidx).
  unfold next_available. wp_steps.
  apply (wp_skip_zero_words (page_btree s) W (node m o k)); [done|done|done|done|done| | |].
  { split; [lia|]. apply Z.div_le_lower_bound; lia. }
  { pose proof (lookup_lt_Some _ _ _ Ew). lia. }
  apply wp_bind, (wp_word _ w); [done|]. unfold BTREE_NUM_BITS.
  rewrite shift_out_spec; [|exact Hw|].
  2: { destruct (bitlen_spec w Hw Hne) as (p & ? & ? & _). lia. }
  replace (node m o k / 64 * 64 + (64 - bitlen w)) with (node m o k) by lia.
  rewrite row_end_node by apply Hb. rewrite (proj2 (Z.ltb_ge _ _)); [by apply (wp_set_min_at _ v)|].
  destruct Hv. unfold node. lia.
Qed.

Lemma wp_is_available_at A idx t Q s :
  bits A s -> 0 <= idx <= t -> availb (page_btree s) t = true ->
  Q (availb (page_btree s) idx) s -> wp (BTREE_IS_AVAILABLE idx) Q s.
Proof.
  intros Hb Hi Ht HQ.
  assert (exists w, page_btree s !! Z.to_nat (idx / 64) = Some w) as (w & Ew).
  { apply lookup_lt_is_Some_2. unfold availb in Ht. destruct (_ !! Z.to_nat (t / 64)) eqn:E; [|done].
    apply lookup_lt_Some in E. pose proof (Z.div_le_mono idx t 64).
    assert (0 <= idx / 64) by (apply Z.div_pos; lia). lia. }
  unfold BTREE_IS_AVAILABLE. apply wp_bind, (wp_word _ w); [done|]. apply wp_ret.
  rewrite mask_eq, land_pow2 by (pose proof (Z.mod_pos_bound idx 64); lia).
  unfold availb in HQ. by rewrite Ew in HQ.
Qed.

(** The least index after the available node [k0] of the row, and perhaps some
    after it, was removed. *)
Section removal.
Context (A A' : nodes) (o : nat) (k0 v : Z) (s : P).
Hypothesis Hb : bits A' s.
Hypothesis Hv : valid m o k0.
Hypothesis Hmin : min_available_idx_by_order s !! o = Some v.
Hypothesis Hleast : least A o v.
Hypothesis HA : A o k0 = true.
Hypothesis HA' : A' o k0 = false.
Hypothesis Hsub : forall k, valid m o k -> A' o k = true -> A o k = true.
Hypothesis Hkept : forall k, valid m o k -> A o k = true -> A' o k = true \/ k0 <= k.

(** The minimum stays. *)
Lemma removal_other : node m o k0 <> v -> least A' o v.
Proof.
  intros Hne. destruct Hleast as [(k & Hk & -> & Ha & Hl)|[_ Hn]]; [|by rewrite Hn in HA].
  left. exists k. assert (k < k0).
  { destruct (Z.lt_trichotomy k k0) as [|[->|]]; [done|done|]. destruct Hv. rewrite Hl in HA; [done|lia]. }
  split_and!; [done|done| |].
  - destruct (Hkept k Hk Ha); [done|lia].
  - intros k' Hk'. destruct (A' o k') eqn:E; [|done]. destruct Hk.
    rewrite <- (Hl k' Hk'). symmetry. apply Hsub; [split; [done|lia]|done].
Qed.

(** The minimum was the node: the indices up to the next one. *)
Lemma removal_gap k :
  node m o k0 = v -> valid m o k -> A' o k = true -> (forall k', 0 <= k' < k -> A' o k' = false) ->
  k0 < k /\ forall i, node m o 0 <= i < node m o k -> availb (page_btree s) i = false.
Proof.
  intros Ev Hk Ha Hl. destruct Hv as [Ho Hk0]. destruct Hk as [_ Hk]. split.
  - destruct Hleast as [(k1 & Hk1 & E1 & _ & Hl1)|[_ Hn]]; [|rewrite Hn in HA; done].
    assert (k1 = k0) as -> by (unfold node in *; lia).
    destruct (Z.lt_trichotomy k k0) as [|[->|]]; [|congruence|done].
    exfalso. assert (A o k = true) as Hak by (apply Hsub; [split; [done|lia]|done]).
    rewrite Hl1 in Hak; [done|lia].
  - intros i Hi. unfold node in Hi.
    replace i with (node m o (i - (pow2 (m - o) - 1))) by (unfold node; lia).
    rewrite (bt_avail _ _ Hb) by (split; [done|lia]). apply Hl. lia.
Qed.

(** The first node of a word is the first of its row in row [m] only. *)
Lemma removal_pos k :
  valid m o k -> k0 < k -> node m o k0 / 64 = node m o 0 / 64 -> 0 < node m o k0 mod 64.
Proof.
  intros [Ho Hk] Hlt Hw. destruct Hv as [_ Hk0]. pose proof (Z.mod_pos_bound (node m o k0) 64).
  destruct (decide (node m o k0 mod 64 = 0)) as [E|]; [|lia]. exfalso.
  pose proof (Z.div_mod (node m o k0) 64). pose proof (Z.div_mod (node m o 0) 64).
  pose proof (Z.mod_pos_bound (node m o 0) 64). unfold node in *.
  assert ((pow2 (m - o) - 1 + 0) mod 64 = 0) as E0 by lia.
  destruct (le_lt_dec 6 (m - o)) as [H6|H6].
  - replace (m - o)%nat with (6 + (m - o - 6))%nat in E0 by lia. rewrite pow2_add in E0.
    change (pow2 6) with 64 in E0. replace (64 * pow2 (m - o - 6) - 1 + 0) with (63 + (pow2 (m - o - 6) - 1) * 64) in E0 by lia.
    by rewrite Z.mod_add in E0.
  - destruct (m - o)%nat as [|[|[|[|[|[|]]]]]]; try lia; try (by vm_compute in E0).
    change (pow2 0) with 1 in *. lia.
Qed.

Lemma least_node B k : valid m o k -> B o k = true -> (forall k', 0 <= k' < k -> B o k' = false) -> least B o (node m o k).
Proof. intros. left. by exists k. Qed.

(** The minimum was the node: the search finds the next one. *)
Lemma wp_update_search k Q :
  node m o k0 = v -> valid m o k -> A' o k = true -> (forall k', 0 <= k' < k -> A' o k' = false) ->
  Q tt (set_min_available (<[o := node m o k]> (min_available_idx_by_order s)) s) ->
  let word_idx := BTREE_WORD_POS v in
  wp (let! w := word word_idx in
      if negb (w =? 0) && (word_idx =? BTREE_WORD_POS (BTREE_ROW_START_INDEX s o)) then
        let copy := Z.land w (Z.shiftl 1 ((BTREE_NUM_BITS - BTREE_BIT_POS v) mod 64) - 1) in
        let bit_idx := shift_out 64 copy BTREE_NUM_BITS (BTREE_BIT_POS v) in
        let! a := BTREE_IS_AVAILABLE (word_idx * BTREE_NUM_BITS + bit_idx) in
        if a then set_min_at o (word_idx * BTREE_NUM_BITS + bit_idx)
        else next_available o (word_idx + 1)
      else next_available o word_idx) Q s.
Proof.
  intros Ev Hk Ha Hl HQ. destruct (removal_gap k Ev Hk Ha Hl) as [Hlt Hgap].
  unfold BTREE_WORD_POS, BTREE_BIT_POS, BTREE_NUM_BITS. cbn zeta. change (64 - 1) with 63. rewrite land_63.
  rewrite row_start_node, (bt_order _ _ Hb), <- Ev. pose proof (node_range m o k0 Hv) as Hr0.
  assert (node m o 0 <= node m o k0 < node m o k) as Hord by (destruct Hv; unfold node; lia).
  assert (availb (page_btree s) (node m o k) = true) as Ht by by rewrite (bt_avail _ _ Hb).
  destruct (word_of A' s o k0) as (w & Ew & Hw); [done|done|].
  apply wp_bind, (wp_word _ w); [done|].
  pose proof (Z.mul_div_le (node m o k0) 64) as Hmul. assert (0 <= node m o k0 / 64) by (apply Z.div_pos; lia).
  destruct (Z.eqb_spec w 0) as [->|Hne]; cbn [negb andb]; [|destruct (Z.eqb_spec (node m o k0 / 64) (node m o 0 / 64)) as [Eq|Eq]].
  - apply (wp_next_available A' o _ k v); [done|done|done|lia| |done|done]. intros i Hi.
    destruct (decide (node m o k0 <= i)); [apply Hgap; lia|]. unfold availb.
    assert (i / 64 = node m o k0 / 64) as ->; [|by rewrite Ew, Z.bits_0].
    apply Z.le_antisymm; [apply Z.div_le_mono; lia|]. apply Z.div_le_lower_bound; lia.
  - destruct (masked_search (page_btree s) (node m o k0) (node m o k) w) as (Hrange & Hyes & Hno);
      [apply Hb|lia|by apply (removal_pos k)|done|intros; apply Hgap; lia|done|].
    apply wp_bind, (wp_is_available_at A' _ (node m o k)); [done|done|done|].
    clear Ht. match goal with |- wp (if ?b then _ else _) _ _ => destruct b end.
    + rewrite (Hyes eq_refl). by apply (wp_set_min_at _ v).
    + apply (wp_next_available A' o _ k v); [done|done|done|lia| |done|done]. intros i Hi. apply Hgap.
      pose proof (Z.mul_succ_div_gt (node m o k0) 64). specialize (Hno eq_refl). lia.
  - apply (wp_next_available A' o _ k v); [done|done|done|lia| |done|done]. intros i Hi. apply Hgap.
    split; [|lia]. destruct (decide (node m o 0 <= i)); [done|]. exfalso. apply Eq.
    apply Z.le_antisymm; [|apply Z.div_le_mono; lia]. apply Z.div_le_lower_bound; lia.
Qed.

Lemma wp_update_metadata Q :
  count_available_by_order s !! o = Some (cnt A' o) ->
  (forall v', least A' o v' -> Q tt (set_min_available (<[o := v']> (min_available_idx_by_order s)) s)) ->
  wp (_btree_update_metadata_after_removal o (node m o k0)) Q s.
Proof.
  intros Hc HQ. pose proof Hv as [Ho _]. unfold _btree_update_metadata_after_removal.
  apply wp_bind, (wp_count_at _ (cnt A' o)); [done|]. wp_steps.
  destruct (Z.eqb_spec (cnt A' o) 0) as [E0|E0]; cbn [negb].
  - apply (wp_set_min_at _ v); [done|]. apply HQ. rewrite row_end_node by apply Hb. right. split; [done|].
    by apply cnt_zero.
  - apply wp_bind, (wp_min_at _ v); [done|]. destruct (Z.eqb_spec (node m o k0) v) as [Ev|Ev].
    + destruct (least_exists A' o) as (k & Hk & Ha & Hl); [done|done|]. rewrite Ev.
      apply (wp_update_search k); [done|done|done|done|]. by apply HQ, least_node.
    + apply wp_ret. specialize (HQ v (removal_other Ev)). rewrite list_insert_id in HQ by done. by destruct s.
Qed.
End removal.

(** ** Nodes of one row are added or removed *)

Lemma least_le A o v k : least A o v -> valid m o k -> A o k = true -> v <= node m o k.
Proof.
  intros [(k1 & _ & -> & _ & Hl)|[_ Hn]] Hk Ha; [|by rewrite Hn in Ha].
  destruct (decide (k < k1)); [|unfold node; lia]. destruct Hk. rewrite Hl in Ha; [done|lia].
Qed.

Section change_row.
Context (A A' : nodes) (o : nat) (k n : Z) (ws : list Z) (s : P).
Hypothesis Hr : rep A s.
Hypothesis Hb : bits A' (set_page_btree ws s).
Hypothesis Hv : valid m o k.
Hypothesis Hrows : forall o' k', valid m o' k' -> o' <> o -> A' o' k' = A o' k'.
Hypothesis Hn : cnt A' o = cnt A o + n.

Lemma change_row v :
  least A' o v ->
  rep A' (set_min_available (<[o := v]> (min_available_idx_by_order s))
           (set_count_available (<[o := cnt A o + n]> (count_available_by_order s)) (set_page_btree ws s))).
Proof.
  intros Hl. destruct Hr as [_ Hlen Hc Hm]. destruct Hv as [Ho _]. destruct Hb. split; cbn.
  - by split.
  - by rewrite !length_insert.
  - intros o' Ho'. destruct (decide (o' = o)) as [->|Hne].
    + rewrite list_lookup_insert_eq by (eapply lookup_lt_Some, Hc; done). by rewrite Hn.
    + rewrite list_lookup_insert_ne by done. rewrite Hc by done. f_equal. apply cnt_ext; [done|].
      intros k' Hk'. symmetry. auto.
  - intros o' Ho'. destruct (Hm o' Ho') as (v' & Ev' & Hv'). destruct (decide (o' = o)) as [->|Hne].
    + exists v. split; [|done]. apply list_lookup_insert_eq. by eapply lookup_lt_Some.
    + exists v'. split; [by rewrite list_lookup_insert_ne|]. eapply least_ext; [done| |done].
      intros k' Hk'. symmetry. auto.
Qed.

Lemma change_row_count : 0 <= cnt A o + n < 2 ^ 64.
Proof.
  destruct Hv as [Ho _]. rewrite <- Hn. pose proof (cnt_range A' o Ho). pose proof (bt_max _ _ Hb) as Hmx.
  pose proof (pow2_le m 30 Hmx). change (pow2 30) with (2 ^ 30) in *. lia.
Qed.

Lemma wp_note_added {R} (cont : M P R) Q :
  A' o k = true -> (forall k', valid m o k' -> A o k' = true -> A' o k' = true) ->
  (forall k', valid m o k' -> A' o k' = true -> A o k' = true \/ k <= k') ->
  (forall s', rep A' s' -> frame s s' -> wp cont Q s') ->
  wp (do! add_count o n; do! lower_min o (node m o k); cont) Q (set_page_btree ws s).
Proof.
  intros Hk Hsub Hnew HQ. pose proof Hv as [Ho _]. destruct (rp_min _ _ Hr o Ho) as (v & Ev & Hl).
  apply wp_bind, (wp_add_count _ (cnt A o)); [by apply Hr|apply change_row_count|].
  apply wp_bind, (wp_lower_min _ v); [done|]. apply HQ; [|done]. apply change_row.
  destruct Hl as [(k1 & Hk1 & -> & Ha1 & Hl1)|[-> Hno]].
  - destruct (decide (k <= k1)) as [Hle|Hgt].
    + rewrite Z.min_l by (unfold node; lia). apply least_node; [done|done|]. intros k' Hk'.
      destruct (A' o k') eqn:E; [|done]. destruct Hv, Hk1. destruct (Hnew k') as [Hold|]; [split; [done|lia]|done| |lia].
      rewrite Hl1 in Hold; [done|lia].
    + rewrite Z.min_r by (unfold node; lia). apply least_node; [done|by apply Hsub|]. intros k' Hk'.
      destruct (A' o k') eqn:E; [|done]. destruct Hk1. destruct (Hnew k') as [Hold|]; [split; [done|lia]|done| |lia].
      rewrite Hl1 in Hold; done.
  - rewrite Z.min_l by (destruct Hv; unfold node; lia). apply least_node; [done|done|]. intros k' Hk'.
    destruct (A' o k') eqn:E; [|done]. destruct Hv.
    destruct (Hnew k') as [Hold|]; [split; [done|lia]|done| |lia]. rewrite Hno in Hold; [done|split; [done|lia]].
Qed.

Lemma wp_note_removed {R} (cont : M P R) Q :
  A o k = true -> A' o k = false -> (forall k', valid m o k' -> A' o k' = true -> A o k' = true) ->
  (forall k', valid m o k' -> A o k' = true -> A' o k' = true \/ k <= k') ->
  (forall s', rep A' s' -> frame s s' -> wp cont Q s') ->
  wp (do! add_count o n; do! _btree_update_metadata_after_removal o (node m o k); cont) Q (set_page_btree ws s).
Proof.
  intros Hk Hk' Hsub Hnew HQ. pose proof Hv as [Ho _]. destruct (rp_min _ _ Hr o Ho) as (v & Ev & Hl).
  apply wp_bind, (wp_add_count _ (cnt A o)); [by apply Hr|apply change_row_count|].
  apply wp_bind, (wp_update_metadata A A' o k v); [by destruct Hb; split|done|done|done|done|done|done|done| |].
  - cbn. rewrite list_lookup_insert_eq by (eapply lookup_lt_Some, Hr; done). by rewrite Hn.
  - intros v' Hl'. apply HQ; [by apply change_row|done].
Qed.
End change_row.
End rep.
