(* ===== verification/PageAllocProofs.v ===== *)
(** The operations of the page allocator on the set of free pages: merging,
    splitting, allocation and freeing ([mm/page.c]). *)

From S2P Require Import Prelude Page PageTree PageProofs.

Section ops.
Context (m : nat).
Implicit Types (F G : gset Z) (s : P) (o : nat) (k : Z).

Abbreviation holds F s := (rep m (canon m F) s).

(** ** Buddies *)

Lemma sib_parent k : sib k / 2 = k / 2.
Proof.
  unfold sib. pose proof (even_mod k) as E. pose proof (Z.div_mod k 2).
  destruct (Z.even k); symmetry; [apply (Z.div_unique _ 2 _ 1)|apply (Z.div_unique _ 2 _ 0)]; lia.
Qed.

Lemma valid_sib o k : (o < m)%nat -> valid m o k -> valid m o (sib k).
Proof.
  intros Hlt [Ho Hk]. split; [done|]. replace (m - o)%nat with (S (m - S o)) in * by lia.
  rewrite pow2_S in *. unfold sib. pose proof (even_mod k) as E. pose proof (Z.div_mod k 2).
  destruct (Z.even k); lia.
Qed.

Lemma valid_parent o k : (o < m)%nat -> valid m o k -> valid m (S o) (k / 2).
Proof.
  intros Hlt [Ho Hk]. split; [lia|]. replace (m - o)%nat with (S (m - S o)) in * by lia.
  rewrite pow2_S in *. split; [apply Z.div_pos; lia|]. apply Z.div_lt_upper_bound; lia.
Qed.

Lemma left_cases k : (2 * (k / 2) = k /\ sib k = k + 1) \/ (2 * (k / 2) = sib k /\ k = sib k + 1).
Proof.
  unfold sib. pose proof (even_mod k) as E. pose proof (Z.div_mod k 2). destruct (Z.even k); lia.
Qed.

Lemma parent_split o k p : p / pow2 (S o) = k / 2 -> p / pow2 o = k \/ p / pow2 o = sib k.
Proof.
  rewrite <- Nat.add_1_r, block_up. change (pow2 1) with 2. intros H.
  pose proof (Z.div_mod (p / pow2 o) 2). pose proof (Z.mod_pos_bound (p / pow2 o) 2).
  destruct (left_cases k); lia.
Qed.

Lemma merge_set G o k :
  (forall p, p / pow2 o = k -> p ∉ G) -> full G o (sib k) = true ->
  G ∖ block o (sib k) ∪ block (S o) (k / 2) = G ∪ block o k.
Proof.
  intros Hd Hs. rewrite full_spec in Hs. apply set_eq. intros p.
  rewrite !elem_of_union, elem_of_difference, !elem_of_block. split.
  - intros [[Hp _]|Hp]; [by left|]. destruct (parent_split o k p Hp) as [|Hp']; [by right|left; auto].
  - intros [Hp|Hp].
    + destruct (decide (p / pow2 o = sib k)) as [E|E]; [right|by left].
      rewrite (parent_block _ _ _ E). apply sib_parent.
    + right. by apply parent_block.
Qed.

Lemma canon_not_full F o k p : p / pow2 o = k -> p ∉ F -> canon m F o k = false.
Proof. intros Hp Hn. unfold canon. rewrite (proj2 (full_false F o k)); [done|by exists p]. Qed.

Lemma canon_sib G o k :
  (o < m)%nat -> (forall p, p / pow2 o = k -> p ∉ G) -> canon m G o (sib k) = full G o (sib k).
Proof.
  intros Ho Hd. unfold canon. rewrite sib_parent. rewrite (proj2 (full_false G (S o) (k / 2))).
  - by rewrite orb_true_r, andb_true_r.
  - exists (k * pow2 o). split; [by apply parent_block, block_witness|apply Hd, block_witness].
Qed.

Lemma node_pos o k : valid m o k -> (0 <? node m o k) = (o <? m)%nat.
Proof.
  intros [Ho Hk]. unfold node. destruct (Nat.ltb_spec o m).
  - apply Z.ltb_lt. pose proof (pow2_lt 0 (m - o)). change (pow2 0) with 1 in *. lia.
  - apply Z.ltb_ge. replace (m - o)%nat with O in * by lia. change (pow2 0) with 1 in *. lia.
Qed.

Lemma block_node_disjoint F o k : canon m F o k = true -> forall p, p / pow2 o = k -> p ∈ F.
Proof. intros [H _]%andb_true_iff. by apply full_spec. Qed.

(** ** One node, or two buddies, are marked *)

Lemma wp_note_one {R} (cont : M P R) A o k ws Q s :
  rep m A s -> valid m o k -> A o k = false -> bits m (upd A o k true) (set_page_btree ws s) ->
  (forall s', rep m (upd A o k true) s' -> frame s s' -> wp cont Q s') ->
  wp (do! add_count o 1; do! lower_min o (node m o k); cont) Q (set_page_btree ws s).
Proof.
  intros Hr Hv Ha Hb HQ. apply (wp_note_added m A (upd A o k true)); [done|done|done| | | | | |done].
  - intros. apply upd_ne. by left.
  - rewrite cnt_upd, Ha by done. lia.
  - apply upd_eq.
  - intros k' _ Hk'. unfold upd. by case_decide.
  - intros k' _. unfold upd. case_decide; [right; lia|by left].
Qed.

Lemma wp_add_node {R} (cont : M P R) A o k Q s :
  rep m A s -> valid m o k -> A o k = false ->
  (forall s', rep m (upd A o k true) s' -> frame s s' -> wp cont Q s') ->
  wp (do! BTREE_MARK_AVAILABLE (node m o k); do! add_count o 1; do! lower_min o (node m o k); cont) Q s.
Proof.
  intros Hr Hv Ha HQ. apply wp_bind, (wp_mark_available m A); [apply Hr|done|]. intros ws Hb.
  by apply (wp_note_one _ A).
Qed.

Lemma wp_remove_node {R} (cont : M P R) A o k Q s :
  rep m A s -> valid m o k -> A o k = true ->
  (forall s', rep m (upd A o k false) s' -> frame s s' -> wp cont Q s') ->
  wp (do! BTREE_MARK_UNAVAILABLE (node m o k); do! add_count o (-1);
      do! _btree_update_metadata_after_removal o (node m o k); cont) Q s.
Proof.
  intros Hr Hv Ha HQ. apply wp_bind, (wp_mark_unavailable m A); [apply Hr|done|]. intros ws Hb.
  apply (wp_note_removed m A (upd A o k false)); [done|done|done| | |done| | | |done].
  - intros. apply upd_ne. by left.
  - rewrite cnt_upd, Ha by done. lia.
  - apply upd_eq.
  - intros k' _. unfold upd. by case_decide.
  - intros k' _ Hk'. unfold upd. case_decide; [right; lia|by left].
Qed.

Definition upd2 A o k (b : bool) := upd (upd A o k b) o (sib k) b.

Lemma upd2_row A o k b k' :
  upd2 A o k b o k' = if decide (k' = k \/ k' = sib k) then b else A o k'.
Proof. unfold upd2, upd. repeat case_decide; naive_solver. Qed.

Lemma upd2_ne A o k b o' k' : o' <> o -> upd2 A o k b o' k' = A o' k'.
Proof. intros. unfold upd2. rewrite !upd_ne by by left. done. Qed.

Lemma sib_ne k : sib k <> k.
Proof. destruct (left_cases k); lia. Qed.

Lemma sib_sib k : sib (sib k) = k.
Proof.
  unfold sib. destruct (Z.even k) eqn:E.
  - rewrite Z.even_add, E. cbn. lia.
  - rewrite Z.even_sub, E. cbn. lia.
Qed.

Lemma cnt_upd2 A o k b :
  valid m o k -> (o < m)%nat -> A o k = negb b -> A o (sib k) = negb b ->
  cnt m (upd2 A o k b) o = cnt m A o + (if b then 2 else -2).
Proof.
  intros Hv Ho Hk Hs. unfold upd2. pose proof (sib_ne k).
  rewrite cnt_upd, upd_ne, Hs, cnt_upd, Hk by (done || (by right) || by apply valid_sib). destruct b; cbn; lia.
Qed.

Lemma left_valid o k : (o < m)%nat -> valid m o k -> valid m o (2 * (k / 2)).
Proof. intros Ho Hv. destruct (left_cases k) as [[-> _]|[-> _]]; [done|by apply valid_sib]. Qed.

Lemma left_either k : 2 * (k / 2) = k \/ 2 * (k / 2) = sib k.
Proof. destruct (left_cases k); naive_solver. Qed.

Lemma wp_remove_pair {R} (cont : M P R) A o k Q s :
  rep m A s -> valid m o k -> (o < m)%nat -> A o k = true -> A o (sib k) = true ->
  (forall s', rep m (upd2 A o k false) s' -> frame s s' -> wp cont Q s') ->
  wp (do! BTREE_MARK_UNAVAILABLE (node m o k); do! BTREE_MARK_UNAVAILABLE (node m o (sib k));
      do! add_count o (-2); do! _btree_update_metadata_after_removal o (node m o (2 * (k / 2))); cont) Q s.
Proof.
  intros Hr Hv Ho Hk Hs HQ.
  apply wp_bind, (wp_mark_unavailable m A); [apply Hr|done|]. intros ws1 Hb1.
  apply wp_bind. eapply wp_mark_unavailable; [exact Hb1|by apply valid_sib|]. intros ws Hb.
  apply (wp_note_removed m A (upd2 A o k false) o _ _ ws s); [done|exact Hb|by apply left_valid| | | | | | |done].
  - intros. by apply upd2_ne.
  - by rewrite cnt_upd2.
  - destruct (left_either k) as [El|El]; by rewrite El.
  - rewrite upd2_row, decide_True; [done|]. apply left_either.
  - intros k' _. rewrite upd2_row. by case_decide.
  - intros k' _ Hk'. rewrite upd2_row. case_decide; [right|by left]. destruct (left_cases k); lia.
Qed.

Lemma wp_add_pair {R} (cont : M P R) A o k Q s :
  rep m A s -> valid m o k -> (o < m)%nat -> 2 * (k / 2) = k -> A o k = false -> A o (sib k) = false ->
  (forall s', rep m (upd2 A o k true) s' -> frame s s' -> wp cont Q s') ->
  wp (do! BTREE_MARK_AVAILABLE (node m o k); do! BTREE_MARK_AVAILABLE (node m o (sib k));
      do! add_count o 2; do! lower_min o (node m o k); cont) Q s.
Proof.
  intros Hr Hv Ho Hleft Hk Hs HQ.
  apply wp_bind, (wp_mark_available m A); [apply Hr|done|]. intros ws1 Hb1.
  apply wp_bind. eapply wp_mark_available; [exact Hb1|by apply valid_sib|]. intros ws Hb.
  apply (wp_note_added m A (upd2 A o k true) o _ _ ws s); [done|exact Hb|done| | | | | |done].
  - intros. by apply upd2_ne.
  - by rewrite cnt_upd2.
  - rewrite upd2_row, decide_True; [done|by left].
  - intros k' _ Hk'. rewrite upd2_row. by case_decide.
  - intros k' _. rewrite upd2_row. case_decide; [right|by left]. destruct (left_cases k); lia.
Qed.

(** ** Merging *)

Lemma merge_nodes G o k o' k' :
  valid m o k -> (o < m)%nat -> (forall p, p / pow2 o = k -> p ∉ G) -> full G o (sib k) = true ->
  valid m o' k' ->
  upd2 (upd (canon m G) o k true) o k false o' k' = canon m (G ∖ block o (sib k)) o' k'.
Proof.
  intros Hv Ho Hd Hs Hv'. rewrite canon_del; [|by apply valid_sib|by rewrite canon_sib|done].
  pose proof (canon_not_full G o k (k * pow2 o) (block_witness o k) (Hd _ (block_witness o k))).
  pose proof (sib_ne k). unfold upd2, upd. repeat case_decide; naive_solver.
Qed.

Lemma wp_merge_loop fuel G o k Q s :
  rep m (upd (canon m G) o k true) s -> valid m o k -> (forall p, p / pow2 o = k -> p ∉ G) ->
  (m - o <= fuel)%nat ->
  (forall s', holds (G ∪ block o k) s' -> frame s s' -> Q tt s') ->
  wp (merge_loop fuel (node m o k) o) Q s.
Proof.
  revert G o k s. induction fuel as [|fuel IH]; intros G o k s Hr Hv Hd Hf HQ; cbn [merge_loop];
    rewrite node_pos by done; destruct (Nat.ltb_spec o m) as [Ho|Ho]; try lia.
  1, 3: apply wp_ret, HQ; [|done]; eapply rep_ext; [|done]; intros o' k' Hv'; symmetry;
        apply canon_add; [done|done|left; destruct Hv; lia|done].
  pose proof (sib_ne k) as Hne. pose proof (valid_sib o k Ho Hv) as Hvs.
  rewrite sibling_node by done. apply wp_bind, (wp_is_available m (upd (canon m G) o k true)); [apply Hr|done|].
  rewrite upd_ne, canon_sib by (done || by right). destruct (full G o (sib k)) eqn:Hs.
  2: { apply wp_ret, HQ; [|done]. eapply rep_ext; [|done]. intros o' k' Hv'. symmetry.
       apply canon_add; [done|done|by right|done]. }
  rewrite left_sibling_node, parent_node by done. pose proof (valid_parent o k Ho Hv) as Hvp.
  apply (wp_remove_pair _ (upd (canon m G) o k true)); [done|done|done|apply upd_eq| |].
  { rewrite upd_ne, canon_sib by (done || by right). done. }
  intros s1 Hr1 Hf1. eapply rep_ext in Hr1; [|intros; by apply merge_nodes].
  assert (forall p, p / pow2 (S o) = k / 2 -> p ∉ G ∖ block o (sib k)) as Hd'.
  { intros p Hp. rewrite elem_of_difference, elem_of_block. destruct (parent_split o k p Hp); naive_solver. }
  apply (wp_add_node _ (canon m (G ∖ block o (sib k)))); [done|done| |].
  { eapply canon_not_full; [apply block_witness|]. apply Hd', block_witness. }
  intros s2 Hr2 Hf2. apply (IH (G ∖ block o (sib k))); [done|done|done|lia|]. intros s3 Hr3 Hf3.
  apply HQ; [|by do 2 (etrans; [done|])]. by rewrite merge_set in Hr3.
Qed.

(** ** A block becomes available *)

Definition low_page : Z := 177.

Lemma index_to_addr s o k : max_order s = m -> BTREE_INDEX_TO_ADDR s (node m o k) o = pow2 o * k * 4096.
Proof.
  intros Hs. unfold BTREE_INDEX_TO_ADDR. rewrite row_start_node, Hs, Z.shiftl_mul_pow2 by done.
  unfold node. change (2 ^ PAGE_SHIFT) with 4096. lia.
Qed.

Lemma wp_mark_block F o k Q s :
  holds F s -> valid m o k -> (forall p, p / pow2 o = k -> p ∉ F) -> low_page / pow2 o <> k ->
  (forall s', holds (F ∪ block o k) s' -> frame s s' -> Q tt s') ->
  wp (_btree_mark_available (node m o k) o) Q s.
Proof.
  intros Hr Hv Hd Hlow HQ. pose proof (rp_bits _ _ _ Hr) as Hb. pose proof (bt_order _ _ _ Hb) as Hm.
  assert (canon m F o k = false) as Hc by (eapply canon_not_full; [|apply Hd]; apply block_witness).
  unfold _btree_mark_available. apply wp_bind, (wp_is_available m (canon m F)); [done|done|]. rewrite Hc.
  wp_steps. apply wp_bind, (wp_mark_available m (canon m F)); [done|done|]. intros ws Hb'. wp_steps.
  replace (node m o k + 1) with (node m o (k + 1)) by (unfold node; lia). rewrite !index_to_addr by done.
  apply wp_kassert.
  { apply negb_true_iff, andb_false_iff. rewrite page_in_block in Hlow. unfold low_page in Hlow.
    rewrite Z.leb_gt, Z.ltb_ge. lia. }
  apply (wp_note_one _ (canon m F)); [done|done|done|done|]. intros s1 Hr1 Hf1.
  apply (wp_merge_loop _ F); [done|done|done|cbn; lia|]. intros s2 Hr2 Hf2. apply HQ; [done|by etrans].
Qed.

(** ** A range of pages becomes available *)

Definition range (p n : Z) : gset Z := list_to_set (seqZ p n).

Lemma elem_of_range p n q : q ∈ range p n <-> p <= q < p + n.
Proof. unfold range. rewrite elem_of_list_to_set, elem_of_seqZ. done. Qed.

Lemma is_left_child_root k : valid m m k -> BTREE_IS_LEFT_CHILD (node m m k) = false.
Proof.
  intros [_ Hk]. unfold node. rewrite Nat.sub_diag in *. change (pow2 0) with 1 in *.
  by replace k with 0 by lia.
Qed.

Lemma shiftl_2 o : Z.shiftl 2 (Z.of_nat o) = pow2 (S o).
Proof. rewrite Z.shiftl_mul_pow2, pow2_S, pow2_eq by lia. done. Qed.

(** The climb stays on blocks that start at the leaf and fit in the range. *)
Lemma wp_climb fuel o k n Q s :
  valid m o k -> pow2 o <= n -> (m - o <= fuel)%nat ->
  (forall o' k', valid m o' k' -> k' * pow2 o' = k * pow2 o -> pow2 o' <= n -> Q (node m o' k', o') s) ->
  wp (climb fuel (node m o k) o n) Q s.
Proof.
  revert o k. induction fuel as [|fuel IH]; intros o k Hv Hn Hf HQ; cbn [climb]; rewrite shiftl_2;
    destruct (decide (o = m)) as [->|Hne].
  1, 3: rewrite is_left_child_root by done; cbn [andb]; apply wp_ret, HQ; done.
  { destruct Hv. lia. }
  assert (o < m)%nat as Ho by (destruct Hv; lia).
  rewrite is_left_child_node by done. destruct (Z.even k) eqn:Hk; cbn [andb]; [|by apply wp_ret, HQ].
  destruct (Z.leb_spec (pow2 (S o)) n); [|by apply wp_ret, HQ].
  rewrite parent_node by done. apply IH; [by apply valid_parent|done|lia|].
  intros o' k' Hv' Hp Hn'. apply HQ; [done| |done]. rewrite Hp, pow2_S. pose proof (even_mod k) as E.
  rewrite Hk in E. pose proof (Z.div_mod k 2). nia.
Qed.

Lemma block_range o k : block o k = range (k * pow2 o) (pow2 o).
Proof. done. Qed.

Lemma range_app p n n' : 0 <= n' <= n -> range p n' ∪ range (p + n') (n - n') = range p n.
Proof. intros. apply set_eq. intros q. rewrite elem_of_union, !elem_of_range. lia. Qed.

Lemma wp_mark_range_loop fuel F p n Q s :
  holds F s -> 0 <= p -> 0 <= n <= Z.of_nat fuel -> p + n <= pow2 m -> range p n ## F -> low_page ∉ range p n ->
  (forall s', holds (F ∪ range p n) s' -> frame s s' -> Q tt s') ->
  wp (mark_range_loop fuel (node m 0 p) n) Q s.
Proof.
  revert F p n s. induction fuel as [|fuel IH]; intros F p n s Hr Hp Hn Hpm Hd Hlow HQ; cbn [mark_range_loop];
    destruct (Z.eqb_spec n 0) as [E0|E0]; try lia.
  1, 2: apply wp_ret, HQ; [|done]; subst n; unfold range; rewrite seqZ_nil by lia; cbn; by rewrite union_empty_r_L.
  wp_steps. pose proof (bt_order _ _ _ (rp_bits _ _ _ Hr)) as Hm. rewrite Hm.
  apply wp_climb; [split; [lia|rewrite Nat.sub_0_r; lia]|change (pow2 0) with 1; lia|lia|].
  intros o k Hv Hk Ho. change (pow2 0) with 1 in Hk. rewrite Z.mul_1_r in Hk. cbn [fst snd].
  pose proof (pow2_pos o). pose proof (range_app p n (pow2 o) ltac:(lia)) as Happ.
  assert (block o k = range p (pow2 o)) as Hblk by (rewrite block_range; by f_equal).
  apply wp_bind, (wp_mark_block F); [done|done| | |].
  { intros q Hq. apply elem_of_block in Hq. rewrite Hblk in Hq. set_solver. }
  { rewrite <- elem_of_block, Hblk. set_solver. }
  intros s1 Hr1 Hf1. replace (node m 0 p + pow2 o) with (node m 0 (p + pow2 o)) by (unfold node; lia).
  rewrite Hblk in Hr1. apply (IH (F ∪ range p (pow2 o))); [done|lia|lia|lia| | |].
  { apply elem_of_disjoint. intros q Hq. rewrite elem_of_union. intros [HF|Hq2].
    - apply (Hd q); [|done]. rewrite <- Happ. set_solver.
    - rewrite elem_of_range in *. lia. }
  { rewrite <- Happ in Hlow. set_solver. }
  intros s2 Hr2 Hf2. apply HQ; [|by etrans]. by rewrite <- Happ, (assoc_L (∪)).
Qed.

Lemma wp_mark_range F p n Q s :
  holds F s -> 0 <= p -> 0 <= n -> p + n <= pow2 m -> range p n ## F -> low_page ∉ range p n ->
  (forall s', holds (F ∪ range p n) s' -> frame s s' -> Q tt s') ->
  wp (_btree_mark_range_available (node m 0 p) n) Q s.
Proof. intros. apply (wp_mark_range_loop _ F); (done || lia). Qed.

(** ** Splitting *)

(** The nodes while a block is split: those of the other pages, and the block. *)
Lemma split_nodes G o k o' k' :
  valid m (S o) k -> (forall p, p / pow2 (S o) = k -> p ∉ G) -> valid m o' k' ->
  upd2 (upd (upd (canon m G) (S o) k true) (S o) k false) o (2 * k) true o' k'
  = upd (canon m (G ∪ block o (sib (2 * k)))) o (2 * k) true o' k'.
Proof.
  intros Hv Hd Hv'. assert (o < m)%nat as Ho by (destruct Hv; lia).
  assert (2 * k / 2 = k) as Hhalf by (rewrite Z.mul_comm; apply Z.div_mul; lia).
  assert (valid m o (2 * k)) as Hvc.
  { destruct Hv as [? Hk]. split; [lia|]. replace (m - o)%nat with (S (m - S o)) by lia. rewrite pow2_S. lia. }
  assert (forall p, p / pow2 o = 2 * k \/ p / pow2 o = sib (2 * k) -> p ∉ G) as Hdc.
  { intros p Hp. apply Hd. destruct Hp as [Hp|Hp]; rewrite (parent_block _ _ _ Hp); [|rewrite sib_parent]; done. }
  pose proof (canon_not_full G (S o) k _ (block_witness _ _) (Hd _ (block_witness _ _))) as Hc.
  pose proof (sib_ne (2 * k)) as Hne.
  unfold upd at 3. case_decide as E1.
  - destruct E1 as [-> ->]. rewrite upd2_row, decide_True; [done|by left].
  - rewrite canon_add; [| | | |done].
    + unfold upd2, upd. repeat case_decide; naive_solver.
    + by apply valid_sib.
    + intros p Hp. apply Hdc. by right.
    + right. rewrite sib_sib. apply full_false. exists (2 * k * pow2 o).
      split; [|apply Hdc; left]; apply block_witness.
Qed.

Lemma wp_split_loop steps G a k Q s :
  rep m (upd (canon m G) a k true) s -> valid m a k -> (forall p, p / pow2 a = k -> p ∉ G) -> (steps <= a)%nat ->
  (forall G' s', let o := (a - steps)%nat in let k' := k * pow2 steps in
     rep m (upd (canon m G') o k' true) s' -> frame s s' -> valid m o k' ->
     (forall p, p / pow2 o = k' -> p ∉ G') -> G' ∪ block o k' = G ∪ block a k -> Q (node m o k') s') ->
  wp (split_loop steps (node m a k) a) Q s.
Proof.
  revert G a k s. induction steps as [|steps IH]; intros G a k s Hr Hv Hd Hst HQ; cbn [split_loop].
  { apply wp_ret. specialize (HQ G s). cbn zeta in HQ. rewrite Nat.sub_0_r in HQ.
    change (pow2 0) with 1 in HQ. rewrite Z.mul_1_r in HQ. by apply HQ. }
  destruct a as [|a]; [lia|]. assert (a < m)%nat as Ha by (destruct Hv; lia).
  assert (2 * k / 2 = k) as Hhalf by (rewrite Z.mul_comm; apply Z.div_mul; lia).
  pose proof (canon_not_full G (S a) k _ (block_witness _ _) (Hd _ (block_witness _ _))) as Hc.
  assert (valid m a (2 * k)) as Hvc.
  { destruct Hv as [? Hk]. split; [lia|]. replace (m - a)%nat with (S (m - S a)) by lia. rewrite pow2_S. lia. }
  assert (forall p, p / pow2 a = 2 * k \/ p / pow2 a = sib (2 * k) -> p ∉ G) as Hdc.
  { intros p Hp. apply Hd. destruct Hp as [Hp|Hp]; rewrite (parent_block _ _ _ Hp); [|rewrite sib_parent]; done. }
  apply (wp_remove_node _ (upd (canon m G) (S a) k true)); [done|done|apply upd_eq|]. intros s1 Hr1 Hf1.
  rewrite left_child_node, sibling_node by done. cbn [Nat.pred].
  apply (wp_add_pair _ (upd (upd (canon m G) (S a) k true) (S a) k false)); [done|done|done|by rewrite Hhalf| | |].
  1, 2: rewrite !upd_ne by (left; lia); eapply canon_not_full; [apply block_witness|];
        apply Hdc; rewrite block_witness; naive_solver.
  intros s2 Hr2 Hf2. eapply rep_ext in Hr2; [|intros; by apply split_nodes].
  apply (IH (G ∪ block a (sib (2 * k)))); [done|done| |lia|].
  { intros p Hp. rewrite elem_of_union, elem_of_block. pose proof (sib_ne (2 * k)).
    intros [HG|HG]; [|congruence]. by apply (Hdc p); [left|]. }
  intros G' s3 o k' Hr3 Hf3 Hv3 Hd3 Hset. specialize (HQ G' s3). cbn zeta in HQ. rewrite pow2_S in HQ.
  replace (k * (2 * pow2 steps)) with k' in HQ by (unfold k'; lia). cbn [Nat.sub] in HQ.
  apply HQ; [done|by do 2 (etrans; [done|])|done|done|]. etrans; [exact Hset|]. apply set_eq. intros p.
  rewrite !elem_of_union, !elem_of_block. split.
  - intros [[?|Hp]|Hp]; [by left|right|right]; rewrite (parent_block _ _ _ Hp); [rewrite sib_parent|]; done.
  - intros [?|Hp]; [by left; left|]. destruct (parent_split a (2 * k) p); [congruence|by right|by left; right].
Qed.

Lemma leftmost_leaf_node o k : (o <= m)%nat -> leftmost_leaf o (node m o k) = node m 0 (k * pow2 o).
Proof.
  revert k. induction o as [|o IH]; intros k Ho; cbn [leftmost_leaf].
  - change (pow2 0) with 1. by rewrite Z.mul_1_r.
  - rewrite left_child_node, IH, pow2_S by lia. f_equal. lia.
Qed.

(** A free block, or the start of it, is taken. *)
Lemma wp_btree_alloc F n o a k Q s :
  holds F s -> valid m a k -> canon m F a k = true -> (o <= a)%nat -> 0 < n <= pow2 o ->
  0 ∉ F -> low_page ∉ F ->
  (forall s' c, let p := k * pow2 a in
     holds (F ∖ range p n) s' -> frame s s' -> c = page_freecount s - n ->
     Q (p * 4096 + PHYS_OFFSET) (set_page_freecount c s')) ->
  wp (_btree_alloc n (node m a k) o a) Q s.
Proof.
  intros Hr Hv Hc Hoa Hn H0 Hlow HQ. pose proof (block_node_disjoint F a k Hc) as Hin.
  unfold _btree_alloc. apply wp_bind, (wp_split_loop _ (F ∖ block a k)); [|done| |lia|].
  { eapply rep_ext; [|exact Hr]. intros o' k' Hv'. unfold upd. case_decide as E; [by destruct E as [-> ->]|].
    rewrite canon_del by done. unfold upd. by rewrite decide_False. }
  { intros p Hp. rewrite elem_of_difference, elem_of_block. naive_solver. }
  intros G s1 o' k' Hr1 Hf1 Hv1 Hd1 Hset. replace o' with o in * by (unfold o'; lia). clear o'.
  assert (k' * pow2 o = k * pow2 a) as Hfirst.
  { unfold k'. replace a with ((a - o) + o)%nat at 2 by lia. rewrite pow2_add. lia. }
  clearbody k'. assert (o <= m)%nat as Hom by (destruct Hv; lia).
  pose proof (canon_not_full G o k' _ (block_witness _ _) (Hd1 _ (block_witness _ _))) as Hcg.
  apply (wp_remove_node _ (upd (canon m G) o k' true)); [done|done|apply upd_eq|]. intros s2 Hr2 Hf2.
  eapply (rep_ext _ _ (canon m G)) in Hr2; [|intros; unfold upd; repeat case_decide; naive_solver].
  pose proof (bt_order _ _ _ (rp_bits _ _ _ Hr2)) as Hm2.
  wp_steps. rewrite leftmost_leaf_node, index_to_addr, Hfirst by done. change (pow2 0) with 1. rewrite Z.mul_1_l.
  set (p := k * pow2 a) in *. assert (p / pow2 a = k) as Hpa by apply block_witness.
  assert (p <> 0) as Hp0 by (intros E; apply H0; rewrite <- E; by apply Hin).
  assert (0 <= p) by (unfold p; destruct Hv; pose proof (pow2_pos a); nia).
  apply wp_kassert; [by apply negb_true_iff, Z.eqb_neq; lia|].
  assert (forall q, q ∈ F <-> q ∈ G \/ p <= q < p + pow2 o) as HF.
  { intros q. transitivity (q ∈ F ∖ block a k ∪ block a k).
    - rewrite elem_of_union, elem_of_difference, elem_of_block. destruct (decide (q / pow2 a = k)); naive_solver.
    - rewrite <- Hset, elem_of_union, elem_of_block, page_in_block, <- Hfirst. clear. pose proof (pow2_pos o).
      split; (intros [?|?]; [by left|right; lia]). }
  assert (forall q, p <= q < p + pow2 o -> q ∉ G) as HG.
  { intros q Hq. apply Hd1. apply page_in_block. lia. }
  replace (node m 0 p + n) with (node m 0 (p + n)) by (unfold node; lia).
  apply wp_bind, (wp_mark_range G); [done|lia|lia| | | |].
  { destruct Hv1 as [_ Hk']. rewrite (pow2_split m o) by done. pose proof (pow2_pos o). nia. }
  { apply elem_of_disjoint. intros q Hq. rewrite elem_of_range in Hq. apply HG. lia. }
  { rewrite elem_of_range. intros Hq. apply Hlow, HF. right. lia. }
  intros s3 Hr3 Hf3. wp_steps. specialize (HQ s3 (page_freecount s3 - n)). apply HQ; [| |].
  - replace (F ∖ range p n) with (G ∪ range (p + n) (pow2 o - n)); [done|]. apply set_eq. intros q.
    rewrite elem_of_union, elem_of_difference, !elem_of_range, HF. split.
    + intros [Hq|Hq]; [|lia]. split; [by left|]. intros ?. apply (HG q); [lia|done].
    + intros [[?|?] ?]; [by left|right; lia].
  - do 3 (etrans; [done|]). done.
  - destruct Hf1 as (_ & _ & <-), Hf2 as (_ & _ & <-), Hf3 as (_ & _ & <-). done.
Qed.
End ops.
