(* ===== verification/PageTheorems.v ===== *)
(** The page allocator as a set of free pages: what allocation, freeing,
    reservation and initialisation do to it ([mm/page.c]). *)

From S2P Require Import Prelude Page PageTree PageProofs PageAllocProofs.

(** The state represents the set [F] of free pages. *)
Record free_pages (F : gset Z) (s : P) : Prop := PagesOk {
  pg_rep : rep (max_order s) (canon (max_order s) F) s;
  pg_range : forall p, p ∈ F -> 0 < p < max_pages s;
  pg_low : low_page ∉ F;
  pg_max : max_pages s <= pow2 (max_order s);
  pg_count : page_freecount s = Z.of_nat (size F);
}.

(** ** One state for a set *)

Lemma words_inj ws ws' :
  Forall word64 ws -> Forall word64 ws' -> length ws = length ws' ->
  (forall idx, 0 <= idx < 64 * Z.of_nat (length ws) -> availb ws idx = availb ws' idx) -> ws = ws'.
Proof.
  intros Hw Hw' Hl Ha. apply (list_eq_same_length _ _ (length ws)); [done|done|]. intros i x y Hi Hx Hy.
  rewrite Forall_forall in Hw, Hw'. pose proof (Hw x (list_elem_of_lookup_2 _ _ _ Hx)) as Hwx.
  pose proof (Hw' y (list_elem_of_lookup_2 _ _ _ Hy)) as Hwy. apply word64_bits in Hwx as [_ Hbx], Hwy as [_ Hby].
  apply Z.bits_inj'. intros j Hj. destruct (decide (64 <= j)); [by rewrite Hbx, Hby|].
  specialize (Ha (64 * Z.of_nat i + (63 - j)) ltac:(lia)).
  rewrite (search_word ws (Z.of_nat i) x), (search_word ws' (Z.of_nat i) y) in Ha by (rewrite ?Nat2Z.id; done || lia).
  by replace (63 - (63 - j)) with j in Ha by lia.
Qed.

Lemma least_unique m A o v v' : least m A o v -> least m A o v' -> v = v'.
Proof.
  intros [(k & Hk & -> & Ha & Hl)|[-> Hn]] [(k' & Hk' & -> & Ha' & Hl')|[-> Hn']];
    [|by rewrite Hn' in Ha|by rewrite Hn in Ha'|done].
  f_equal. destruct Hk, Hk'. destruct (Z.lt_trichotomy k k') as [Hkk|[Hkk|Hkk]]; [|done|].
  - rewrite Hl' in Ha; [done|lia].
  - rewrite Hl in Ha'; [done|lia].
Qed.

(** Every index but the last is a node. *)
Lemma index_node m idx : 0 <= idx < 2 * pow2 m - 1 -> exists o k, valid m o k /\ idx = node m o k.
Proof.
  induction m as [|m IH]; intros Hi.
  - change (pow2 0) with 1 in Hi. exists O, 0. unfold valid, node. change (pow2 (0 - 0)) with 1. lia.
  - rewrite pow2_S in Hi. destruct (decide (idx < 2 * pow2 m - 1)) as [Hlt|Hge].
    + destruct IH as (o & k & [Ho Hk] & E); [lia|]. exists (S o), k. split; [by split; [lia|]|done].
    + exists O, (idx - (2 * pow2 m - 1)). unfold valid, node. rewrite Nat.sub_0_r, pow2_S. lia.
Qed.

Lemma rep_unique m A s s' : rep m A s -> rep m A s' -> frame s s' -> s = s'.
Proof.
  intros [Hb [Hl1 Hl2] Hc Hm] [Hb' [Hl1' Hl2'] Hc' Hm'] (E1 & E2 & E3).
  assert (page_btree s = page_btree s') as Ew.
  { destruct Hb as [_ _ Hlen Hw Ha Hz], Hb' as [_ _ Hlen' Hw' Ha' Hz']. apply words_inj; [done|done|lia|].
    intros idx Hi. destruct (decide (idx = 2 * pow2 m - 1)) as [->|]; [congruence|].
    destruct (index_node m idx) as (o & k & Hv & ->); [lia|]. rewrite Ha, Ha' by done. done. }
  assert (min_available_idx_by_order s = min_available_idx_by_order s') as Emin.
  { apply (list_eq_same_length _ _ (S m)); [done|done|]. intros o x y Ho Hx Hy.
    destruct (Hm o) as (v & Hv & Hl); [lia|]. destruct (Hm' o) as (v' & Hv' & Hl'); [lia|].
    simplify_eq. by eapply least_unique. }
  assert (count_available_by_order s = count_available_by_order s') as Ec.
  { apply (list_eq_same_length _ _ (S m)); [done|done|]. intros o x y Ho Hx Hy.
    rewrite Hc in Hx by lia. rewrite Hc' in Hy by lia. congruence. }
  destruct s, s'; cbn in *; congruence.
Qed.

Lemma pages_unique F s s' :
  free_pages F s -> free_pages F s' -> max_pages s' = max_pages s -> max_order s' = max_order s -> s = s'.
Proof.
  intros [Hr _ _ _ Hc] [Hr' _ _ _ Hc'] E1 E2. rewrite E2 in Hr'.
  apply (rep_unique (max_order s) (canon (max_order s) F)); [done|done|]. split_and!; congruence.
Qed.

(** ** Sizes *)

Lemma size_range p n : 0 <= n -> Z.of_nat (size (range p n)) = n.
Proof. intros. unfold range. rewrite size_list_to_set by apply NoDup_seqZ. rewrite length_seqZ. lia. Qed.

Lemma range_subset p n F : (forall q, p <= q < p + n -> q ∈ F) -> range p n ⊆ F.
Proof. intros H q Hq. apply H. by apply elem_of_range. Qed.

Lemma size_taken F p n : 0 <= n -> range p n ⊆ F -> Z.of_nat (size (F ∖ range p n)) = Z.of_nat (size F) - n.
Proof.
  intros Hn Hsub. rewrite size_difference by done. pose proof (size_range p n Hn).
  pose proof (subseteq_size _ _ Hsub). lia.
Qed.

Lemma size_given F p n : 0 <= n -> range p n ## F -> Z.of_nat (size (F ∪ range p n)) = Z.of_nat (size F) + n.
Proof. intros Hn Hd. rewrite size_union by done. pose proof (size_range p n Hn). lia. Qed.

(** ** The order of an allocation *)

Lemma wp_order_for fuel o n Q s :
  n <= pow2 (o + fuel) ->
  (forall o', (o <= o' <= o + fuel)%nat -> n <= pow2 o' -> (forall i, (o <= i < o')%nat -> pow2 i < n) -> Q o' s) ->
  wp (order_for fuel o n) Q s.
Proof.
  revert o. induction fuel as [|fuel IH]; intros o Hn HQ; cbn [order_for]; destruct (Z.ltb_spec (pow2 o) n) as [Hlt|Hge].
  - rewrite Nat.add_0_r in Hn. lia.
  - apply wp_ret, HQ; [lia|done|intros; lia].
  - apply IH; [by rewrite Nat.add_succ_comm|]. intros o' Ho Hn' Hmin. apply HQ; [lia|done|].
    intros i Hi. destruct (decide (i = o)) as [->|]; [done|]. apply Hmin. lia.
  - apply wp_ret, HQ; [lia|done|intros; lia].
Qed.

(** A free block lies in an available one. *)
Lemma canon_ancestor m F d o p :
  (o + d = m)%nat -> full F o (p / pow2 o) = true ->
  exists o', (o <= o' <= m)%nat /\ canon m F o' (p / pow2 o') = true.
Proof.
  revert o. induction d as [|d IH]; intros o Hd Hf.
  - exists o. split; [lia|]. unfold canon. rewrite Hf, (proj2 (Nat.eqb_eq m o)) by lia. done.
  - destruct (canon m F o (p / pow2 o)) eqn:Hc; [exists o; split; (done || lia)|].
    unfold canon in Hc. rewrite Hf in Hc. cbn [andb] in Hc. apply orb_false_iff in Hc as [_ Hc%negb_false_iff].
    rewrite <- (parent_block o (p / pow2 o) p) in Hc by done.
    destruct (IH (S o)) as (o' & Ho & Hc'); [lia|done|]. exists o'. split; [lia|done].
Qed.

Lemma page_valid m p o : (o <= m)%nat -> 0 <= p < pow2 m -> valid m o (p / pow2 o).
Proof.
  intros Ho Hp. split; [done|]. rewrite (pow2_split m o) in Hp by done. pose proof (pow2_pos o).
  split; [apply Z.div_pos; lia|]. apply Z.div_lt_upper_bound; lia.
Qed.

(** The state determines the set. *)
Lemma free_pages_sub F F' s : free_pages F s -> free_pages F' s -> F ⊆ F'.
Proof.
  intros [Hr Hrange _ Hmax _] [Hr' _ _ _ _] p Hp. pose proof (Hrange p Hp) as Hpr.
  destruct (canon_ancestor (max_order s) F (max_order s) 0 p) as (o & Ho & Hc); [done| |].
  { apply full_spec. change (pow2 0) with 1. intros q. rewrite !Z.div_1_r. by intros ->. }
  assert (valid (max_order s) o (p / pow2 o)) as Hv by (apply page_valid; lia).
  rewrite <- (bt_avail _ _ _ (rp_bits _ _ _ Hr) _ _ Hv), (bt_avail _ _ _ (rp_bits _ _ _ Hr') _ _ Hv) in Hc.
  by apply (block_node_disjoint _ _ _ _ Hc).
Qed.

Lemma free_pages_unique F F' s : free_pages F s -> free_pages F' s -> F = F'.
Proof. intros H H'. apply (anti_symm (⊆)); by eapply free_pages_sub. Qed.

(** ** Allocation *)

Definition same_tree (s s' : P) : Prop := max_pages s' = max_pages s /\ max_order s' = max_order s.

Lemma pages_of_rep F s s' c :
  rep (max_order s) (canon (max_order s) F) s' -> frame s s' -> (forall p, p ∈ F -> 0 < p < max_pages s) ->
  low_page ∉ F -> max_pages s <= pow2 (max_order s) -> c = Z.of_nat (size F) ->
  free_pages F (set_page_freecount c s').
Proof.
  intros Hr (E1 & E2 & E3) Hrange Hlow Hmax ->. split; cbn; rewrite ?E1, ?E2; try done.
  destruct Hr as [Hb Hl Hc Hm]. split; [|done|done|done]. destruct Hb. by split.
Qed.

Section alloc.
Context (F : gset Z) (s : P).
Hypothesis Hok : free_pages F s.
Abbreviation m := (max_order s).

Lemma pages_low p o k : canon m F o k = true -> p / pow2 o = k -> p ∈ F.
Proof. intros Hc. by apply (block_node_disjoint m). Qed.

Lemma block_first F' o k n :
  canon m F' o k = true -> n <= pow2 o -> range (k * pow2 o) n ⊆ F'.
Proof.
  intros Hc Hn. apply range_subset. intros q Hq. apply (block_node_disjoint m F' o k Hc). apply page_in_block. lia.
Qed.

Lemma wp_alloc_loop orders n bound o Q :
  0 < n <= pow2 o -> (forall a, a ∈ orders -> (o <= a <= m)%nat) ->
  (forall p s', 0 < p < bound -> range p n ⊆ F -> free_pages (F ∖ range p n) s' -> same_tree s s' ->
     Q (p * 4096 + PHYS_OFFSET) s') ->
  ((forall a k, a ∈ orders -> valid m a k -> canon m F a k = true -> bound <= k * pow2 a) -> Q 0 s) ->
  wp (alloc_loop orders n bound o) Q s.
Proof.
  intros Hn. destruct Hok as [Hr Hrange Hlow Hmax Hcount].
  induction orders as [|a orders IH]; intros Ho Halloc Hnone; cbn [alloc_loop].
  { apply wp_ret, Hnone. intros a k Ha. by apply not_elem_of_nil in Ha. }
  assert (o <= a <= m)%nat as Ha by (apply Ho; left).
  apply wp_bind, (wp_count_at _ (cnt m (canon m F) a)); [apply (rp_count _ _ _ Hr); lia|].
  destruct (Z.eqb_spec (cnt m (canon m F) a) 0) as [E0|E0].
  { apply IH; [intros; apply Ho; by right|done|]. intros Hno. apply Hnone. intros a' k Ha' Hv Hc.
    apply elem_of_cons in Ha' as [->|Ha']; [|by apply (Hno a' k)]. rewrite cnt_zero in E0 by lia.
    by rewrite E0 in Hc. }
  destruct (rp_min _ _ _ Hr a) as (v & Ev & Hl); [lia|].
  destruct Hl as [(k & Hv & -> & Hc & Hl)|[_ Hz]]; [|exfalso; apply E0, cnt_zero; [lia|done]].
  apply wp_bind, (wp_min_at _ (node m a k)); [done|]. wp_steps.
  assert (0 <= k < pow2 (m - a)) as Hk by by destruct Hv.
  apply wp_kassert.
  { rewrite (row_end_node m), row_start_node by done. apply andb_true_iff. rewrite Z.leb_le, Z.ltb_lt. unfold node. lia. }
  replace (node m a k - BTREE_ROW_START_INDEX s a) with k by (rewrite row_start_node; unfold node; lia).
  assert (n <= pow2 a) as Hna by (etrans; [apply Hn|]; apply pow2_le; lia).
  assert (k * pow2 a ∈ F) as HpF by (eapply pages_low; [done|apply block_witness]).
  pose proof (Hrange _ HpF) as Hp. destruct (Z.ltb_spec (k * pow2 a) bound) as [Hb|Hb].
  - apply wp_bind, wp_kassert; [apply Z.ltb_lt; lia|].
    pose proof (block_first F a k n Hc Hna) as Hsub.
    assert (k * pow2 a + n <= max_pages s) as Hend.
    { assert (k * pow2 a + n - 1 ∈ F) as Hlast%Hrange by (apply Hsub, elem_of_range; lia). lia. }
    apply wp_bind, (wp_btree_alloc m F); [done|done|done|lia|done| |done|].
    { intros H0%Hrange. lia. }
    intros s' c p Hr' Hf' ->. wp_steps. apply wp_kassert.
    { unfold physmap_end. apply Z.leb_le. rewrite !Z.shiftl_mul_pow2 by done. change (2 ^ PAGE_SHIFT) with 4096.
      unfold p. lia. }
    apply wp_ret, Halloc; [unfold p; lia|done| |by destruct Hf' as (? & ? & _)].
    apply (pages_of_rep _ s); [done|done| |set_solver|done|by rewrite size_taken, Hcount by (done || lia)].
    intros q Hq. apply Hrange. set_solver.
  - apply IH; [intros; apply Ho; by right|done|]. intros Hno. apply Hnone. intros a' k1 Ha' Hv1 Hc1.
    apply elem_of_cons in Ha' as [->|Ha']; [|by apply (Hno a' k1)].
    destruct (decide (k1 < k)); [|pose proof (pow2_pos a); nia]. rewrite Hl in Hc1; [done|destruct Hv1; lia].
Qed.
End alloc.

(** What an allocation of [n] pages below the page number [bound] does: it takes
    the first [n] pages of an aligned free block, or there is no free aligned
    block of at least [n] pages that starts below the bound. *)
Definition alloc_post (F : gset Z) (n bound : Z) (s : P) (r : Z) (s' : P) : Prop :=
  (r = 0 /\ s' = s /\
   forall o k, (o <= max_order s)%nat -> n <= pow2 o -> 0 <= k -> full F o k = true -> bound <= k * pow2 o)
  \/ exists p, r = p * 4096 + PHYS_OFFSET /\ 0 < p < bound /\ range p n ⊆ F /\
               free_pages (F ∖ range p n) s' /\ same_tree s s'.

Lemma full_size F o k n : full F o k = true -> n <= pow2 o -> n <= Z.of_nat (size F).
Proof.
  intros Hf Hn. rewrite full_spec in Hf. assert (range (k * pow2 o) (pow2 o) ⊆ F) as Hs.
  { apply range_subset. intros q Hq. apply Hf, page_in_block. lia. }
  pose proof (subseteq_size _ _ Hs). pose proof (size_range (k * pow2 o) (pow2 o)). pose proof (pow2_pos o). lia.
Qed.

Lemma wp_page_alloc F n max_paddr s :
  free_pages F s -> 0 < n <= pow2 (max_order s) ->
  wp (page_alloc_n_bounded n max_paddr) (alloc_post F n (u64 (Z.shiftr max_paddr PAGE_SHIFT - n + 1)) s) s.
Proof.
  intros Hok Hn. unfold page_alloc_n_bounded. wp_steps. apply wp_kassert.
  { apply andb_true_iff. rewrite Z.ltb_lt, Z.leb_le. lia. }
  destruct (Z.ltb_spec (page_freecount s) n) as [Hlt|Hge].
  { apply wp_ret. left. split_and!; [done|done|]. intros o k Ho Hno Hk Hf.
    pose proof (full_size F o k n Hf Hno). rewrite (pg_count _ _ Hok) in Hlt. lia. }
  apply wp_bind, wp_order_for.
  { etrans; [apply Hn|]. apply pow2_le. lia. }
  intros o Ho Hno Hmin. apply (wp_alloc_loop F s Hok); [lia| | |].
  - intros a [? ?]%elem_of_seq. lia.
  - intros p s' Hp Hsub Hok' Hsame. right. exists p. done.
  - intros Hnone. left. split_and!; [done|done|]. intros o' k Ho' Hno' Hk Hf.
    pose proof (block_witness o' k) as Hk'.
    destruct (canon_ancestor (max_order s) F (max_order s - o') o' (k * pow2 o')) as (o1 & Ho1 & Hc1);
      [lia|by rewrite Hk'|].
    pose proof (Z.mul_div_le (k * pow2 o') (pow2 o1) (pow2_pos o1)) as Hle.
    rewrite Z.mul_comm in Hle. etrans; [|exact Hle]. apply Hnone; [| |done].
    + apply elem_of_seq. assert (o <= o')%nat; [|lia]. destruct (le_lt_dec o o'); [done|].
      specialize (Hmin o' ltac:(lia)). lia.
    + apply page_valid; [lia|]. pose proof Hok as [_ Hrange _ Hmax _].
      rewrite full_spec in Hf. specialize (Hf _ Hk'). apply Hrange in Hf. lia.
Qed.

(** ** Freeing *)

Lemma land_mask12 x : Z.land x (PAGE_SIZE - 1) = x mod 4096.
Proof. change (PAGE_SIZE - 1) with (Z.ones 12). by rewrite Z.land_ones by lia. Qed.

Lemma page_aligned p : PAGE_ALIGNED (p * 4096) = true.
Proof. unfold PAGE_ALIGNED. rewrite land_mask12, Z.mod_mul by lia. done. Qed.

Lemma page_aligned_phys p : PAGE_ALIGNED (p * 4096 + PHYS_OFFSET) = true.
Proof.
  replace (p * 4096 + PHYS_OFFSET) with ((p + PHYS_OFFSET / 4096) * 4096); [apply page_aligned|].
  by rewrite Z.mul_add_distr_r.
Qed.

Lemma addr_to_index s p o : BTREE_ADDR_TO_INDEX s (p * 4096) o = node (max_order s) o (p / pow2 o).
Proof.
  unfold BTREE_ADDR_TO_INDEX. rewrite row_start_node, Z.shiftr_div_pow2 by done.
  change (2 ^ PAGE_SHIFT) with 4096. rewrite Z.div_mul by lia. unfold node. lia.
Qed.

Lemma max_pages_small F s : free_pages F s -> max_pages s <= 2 ^ 30.
Proof.
  intros [Hr _ _ Hmax _]. pose proof (bt_max _ _ _ (rp_bits _ _ _ Hr)) as Hm.
  pose proof (pow2_le _ _ Hm). change (pow2 30) with (2 ^ 30) in *. lia.
Qed.

Lemma wp_page_free F p n s :
  free_pages F s -> 0 < n -> 0 < p -> p + n <= max_pages s -> range p n ## F -> low_page ∉ range p n ->
  wp (page_free_n (p * 4096 + PHYS_OFFSET) n) (fun _ s' => free_pages (F ∪ range p n) s' /\ same_tree s s') s.
Proof.
  intros Hok Hn Hp Hend Hd Hlow. pose proof (max_pages_small F s Hok) as Hsmall.
  pose proof Hok as [Hr Hrange Hlow' Hmax Hcount].
  unfold page_free_n. wp_steps. rewrite page_aligned_phys. apply wp_kassert.
  { rewrite !andb_true_iff, Z.ltb_lt, Z.leb_le. split_and!; [lia|lia|done]. }
  replace (p * 4096 + PHYS_OFFSET - PHYS_OFFSET) with (p * 4096) by lia.
  rewrite u64_id, addr_to_index by lia. change (pow2 0) with 1. rewrite Z.div_1_r. wp_steps. apply wp_kassert.
  { apply Z.leb_le. rewrite row_start_node. unfold node. lia. }
  apply wp_bind, (wp_mark_range (max_order s) F); [done|lia|lia|lia|done|done|].
  intros s' Hr' Hf'. apply wp_modify. pose proof Hf' as (E1 & E2 & E3). split; [|done].
  apply (pages_of_rep _ s); [done|done| |set_solver|done|].
  - intros q [Hq|Hq]%elem_of_union; [by apply Hrange|]. apply elem_of_range in Hq. lia.
  - rewrite size_given by (done || lia). lia.
Qed.

(** ** Reserving a page *)

Lemma wp_find_available F p fuel o Q s :
  free_pages F s -> 0 <= p < max_pages s -> (o <= max_order s)%nat -> (max_order s - o <= fuel)%nat ->
  (forall o', (o <= o' <= max_order s)%nat ->
     canon (max_order s) F o' (p / pow2 o') = true \/
       o' = max_order s /\ (forall i, (o <= i < max_order s)%nat -> canon (max_order s) F i (p / pow2 i) = false) ->
     Q (node (max_order s) o' (p / pow2 o'), o') s) ->
  wp (find_available fuel (node (max_order s) o (p / pow2 o)) o) Q s.
Proof.
  intros Hok Hp. pose proof (pg_max _ _ Hok). set (m := max_order s) in *.
  revert o. induction fuel as [|fuel IH]; intros o Ho Hf HQ; cbn [find_available];
    pose proof (page_valid m p o Ho ltac:(lia)) as Hv; pose proof (node_pos m o _ Hv) as Hpos;
    pose proof (node_range m o _ Hv); destruct (Nat.ltb_spec o m) as [Hlt|Hge]; try lia;
    [apply Z.ltb_ge in Hpos|apply Z.ltb_lt in Hpos|apply Z.ltb_ge in Hpos].
  1, 3: rewrite (proj2 (Z.eqb_eq _ _)) by lia; apply wp_ret, HQ; [lia|right; split; [lia|intros; lia]].
  rewrite (proj2 (Z.eqb_neq _ _)) by lia.
  apply wp_bind, (wp_is_available m (canon m F)); [apply Hok|done|]. destruct (canon m F o _) eqn:Hc.
  { apply wp_ret, HQ; [lia|by left]. }
  rewrite parent_node, <- (parent_block o (p / pow2 o) p) by done. apply IH; [lia|lia|].
  intros o' Ho' Hcase. apply HQ; [lia|]. destruct Hcase as [?|[-> Hno]]; [by left|right]. split; [done|].
  intros i Hi. destruct (decide (i = o)) as [->|]; [done|]. apply Hno. lia.
Qed.

Lemma remove_middle F p o k :
  (forall q, q / pow2 o = k -> q ∈ F) -> p / pow2 o = k ->
  F ∖ block o k ∪ range (k * pow2 o) (p - k * pow2 o) ∪ range (p + 1) ((k + 1) * pow2 o - p - 1) = F ∖ {[p]}.
Proof.
  intros Hin Hp. apply page_in_block in Hp. apply set_eq. intros q.
  rewrite !elem_of_union, !elem_of_difference, !elem_of_range, elem_of_singleton, elem_of_block.
  specialize (Hin q). rewrite page_in_block in *. split.
  - intros [[[? ?]|?]|?]; (split; [(done || apply Hin; lia)|intros ->; lia]).
  - intros [Hq Hne]. destruct (decide (k * pow2 o <= q < (k + 1) * pow2 o)); [|by left; left].
    destruct (decide (q < p)); [left; right|right]; lia.
Qed.

(** The block of the page is removed and the rest of it put back. *)
Lemma wp_punch F p o s :
  let m := max_order s in let k := p / pow2 o in
  free_pages F s -> valid m o k -> canon m F o k = true ->
  wp (do! BTREE_MARK_UNAVAILABLE (node m o k);
      do! add_count o (-1);
      do! _btree_update_metadata_after_removal o (node m o k);
      do! _btree_mark_range_available (node m 0 (k * pow2 o)) (p - k * pow2 o);
      do! _btree_mark_range_available (node m 0 (p + 1)) ((k + 1) * pow2 o - p - 1);
      modify (fun s => set_page_freecount (page_freecount s - 1) s))
    (fun _ s' => free_pages (F ∖ {[p]}) s' /\ same_tree s s') s.
Proof.
  intros m k Hok Hv Hc. pose proof Hok as [Hr Hrange Hlow Hmax Hcount]. fold m in Hr, Hmax.
  pose proof (block_node_disjoint m F o k Hc) as Hin.
  assert (k * pow2 o <= p < (k + 1) * pow2 o) as Hpk by by apply page_in_block.
  apply (wp_remove_node m _ (canon m F)); [done|done|done|]. intros s1 Hr1 Hf1.
  eapply (rep_ext m _ (canon m (F ∖ block o k))) in Hr1; [|intros; symmetry; by apply canon_del].
  assert ((k + 1) * pow2 o <= pow2 m /\ 0 <= k * pow2 o) as [? ?].
  { destruct Hv. rewrite (pow2_split m o) by done. pose proof (pow2_pos o). nia. }
  assert (forall q, k * pow2 o <= q < (k + 1) * pow2 o -> q ∈ F /\ q ∉ F ∖ block o k) as Hq.
  { intros q Hq%page_in_block. split; [by apply Hin|]. rewrite elem_of_difference, elem_of_block. naive_solver. }
  apply wp_bind, (wp_mark_range m (F ∖ block o k)); [done|lia|lia|lia| | |].
  { apply elem_of_disjoint. intros q Hqr%elem_of_range. apply Hq. lia. }
  { rewrite elem_of_range. intros Hl. apply Hlow, Hq. lia. }
  intros s2 Hr2 Hf2.
  apply wp_bind, (wp_mark_range m (F ∖ block o k ∪ range (k * pow2 o) (p - k * pow2 o))); [done|lia|lia|lia| | |].
  { apply elem_of_disjoint. intros q Hqr%elem_of_range. rewrite elem_of_union, elem_of_range.
    intros [?|?]; [|lia]. destruct (Hq q); [lia|done]. }
  { rewrite elem_of_range. intros Hl. apply Hlow, Hq. lia. }
  intros s3 Hr3 Hf3. rewrite remove_middle in Hr3 by done. apply wp_modify.
  assert (frame s s3) as Hf by (do 2 (etrans; [done|]); done). pose proof Hf as (E1 & E2 & E3). split; [|done].
  assert (p ∈ F) as HpF by (apply Hq; lia).
  apply (pages_of_rep _ s); [done|done| |set_solver|done|].
  - intros q Hqf. apply Hrange. set_solver.
  - rewrite size_difference, size_singleton by set_solver.
    assert (size F <> 0)%nat by (intros ?%size_empty_inv; set_solver). lia.
Qed.

Lemma wp_mark_reserved F p s :
  free_pages F s -> 0 <= p < max_pages s ->
  wp (page_mark_reserved (p * 4096)) (fun _ s' => free_pages (F ∖ {[p]}) s' /\ same_tree s s') s.
Proof.
  intros Hok Hp. pose proof Hok as [Hr Hrange Hlow Hmax Hcount]. set (m := max_order s) in *.
  unfold page_mark_reserved. wp_steps. rewrite Z.shiftl_mul_pow2 by done. change (2 ^ PAGE_SHIFT) with 4096.
  rewrite (proj2 (Z.ltb_ge _ _)), page_aligned by lia. apply wp_bind, wp_kassert; [done|].
  rewrite !addr_to_index. apply wp_bind, (wp_find_available F); [done|done|lia|lia|]. fold m.
  intros o Ho Hcase. cbn [fst snd]. pose proof (page_valid m p o ltac:(lia) ltac:(lia)) as Hv.
  apply wp_bind, (wp_is_available m (canon m F)); [apply Hok|done|]. destruct (canon m F o _) eqn:Hc; cbn [negb].
  2: { apply wp_ret. split; [|done]. replace (F ∖ {[p]}) with F; [done|].
       destruct Hcase as [?|[-> Hno]]; [done|].
       assert (p ∉ F) as HpF; [|set_solver]. intros HpF.
       destruct (canon_ancestor m F m 0 p) as (o' & Ho' & Hc'); [lia| |].
       - apply full_spec. change (pow2 0) with 1. intros q. rewrite !Z.div_1_r. by intros ->.
       - destruct (decide (o' = m)) as [->|]; [congruence|]. rewrite Hno in Hc'; [done|lia]. }
  set (k := p / pow2 o) in *.
  replace (node m o k + 1) with (node m o (k + 1)) by (unfold node; lia).
  rewrite !(index_to_addr m) by done. rewrite !addr_to_index. change (pow2 0) with 1. rewrite !Z.div_1_r.
  fold m. replace (node m 0 p - node m 0 (pow2 o * k)) with (p - k * pow2 o) by (unfold node; lia).
  replace (node m 0 (pow2 o * (k + 1)) - node m 0 p - 1) with ((k + 1) * pow2 o - p - 1) by (unfold node; lia).
  replace (node m 0 p + 1) with (node m 0 (p + 1)) by (unfold node; lia). rewrite (Z.mul_comm (pow2 o) k).
  by apply wp_punch.
Qed.

(** ** Adding a range of memory *)

Lemma align_down x : 0 <= x < 2 ^ 64 -> PAGE_ALIGN_DOWN x = x / 4096 * 4096.
Proof.
  intros Hx. unfold PAGE_ALIGN_DOWN. change (u64 (Z.shiftl (2 ^ 64 - 1) PAGE_SHIFT)) with (2 ^ 64 - 2 ^ 12).
  apply Z.bits_inj'. intros j Hj. rewrite Z.land_spec. change 4096 with (2 ^ 12).
  assert (Z.testbit (2 ^ 64 - 2 ^ 12) j = (12 <=? j) && (j <? 64)) as ->.
  { change (2 ^ 64 - 2 ^ 12) with (Z.shiftl (Z.ones 52) 12). rewrite Z.shiftl_spec by done.
    destruct (Z.leb_spec 12 j); [|by rewrite Z.testbit_neg_r by lia]. rewrite Z.testbit_ones by lia.
    rewrite (proj2 (Z.leb_le 0 (j - 12))) by lia. cbn [andb].
    destruct (Z.ltb_spec j 64); [apply Z.ltb_lt|apply Z.ltb_ge]; lia. }
  rewrite Z.mul_pow2_bits by lia. destruct (Z.leb_spec 12 j); cbn [andb].
  - rewrite Z.div_pow2_bits by lia. replace (j - 12 + 12) with j by lia.
    destruct (Z.ltb_spec j 64); [apply andb_true_r|]. rewrite andb_false_r. symmetry.
    apply (proj1 (word64_bits x) Hx). lia.
  - rewrite andb_false_r, Z.testbit_neg_r by lia. done.
Qed.

Lemma align_up x : 0 <= x < 2 ^ 64 - 4096 -> PAGE_ALIGN_UP x = (x + 4095) / 4096 * 4096.
Proof.
  intros Hx. unfold PAGE_ALIGN_UP. change (PAGE_SIZE - 1) with 4095. rewrite u64_id, align_down by lia. done.
Qed.

(** The whole pages of [[start, end)] but page 0. *)
Definition first_page (start : Z) : Z := if start =? 0 then 1 else (start + 4095) / 4096.
Definition region_pages (start end_ : Z) : gset Z := range (first_page start) (end_ / 4096 - first_page start).

Lemma wp_page_add_range F start end_ s :
  free_pages F s -> 0 <= start < end_ -> end_ < 2 ^ 64 - 4096 -> first_page start <= end_ / 4096 <= max_pages s ->
  region_pages start end_ ## F -> low_page ∉ region_pages start end_ ->
  wp (page_add_range start end_) (fun _ s' => free_pages (F ∪ region_pages start end_) s' /\ same_tree s s') s.
Proof.
  intros Hok Hse Hend Hpages Hd Hlow. pose proof Hok as [Hr Hrange Hlow' Hmax Hcount].
  assert (0 < first_page start) as Hfirst.
  { unfold first_page. destruct (Z.eqb_spec start 0); [lia|]. assert (1 <= (start + 4095) / 4096); [|lia].
    apply Z.div_le_lower_bound; lia. }
  unfold page_add_range. wp_steps. apply wp_kassert; [apply Z.ltb_lt; lia|].
  set (start' := if start =? 0 then PAGE_ALIGN_UP 1 else start).
  assert (PAGE_ALIGN_UP start' = first_page start * 4096) as Eup.
  { unfold start', first_page. destruct (Z.eqb_spec start 0); [done|]. apply align_up. lia. }
  assert ((start =? 0) && (end_ <=? start') = true -> end_ / 4096 = first_page start) as Hskip.
  { unfold start', first_page in *. destruct (Z.eqb_spec start 0); cbn [andb]; [|done]. rewrite Z.leb_le.
    change (PAGE_ALIGN_UP 1) with 4096. intros. assert (end_ / 4096 <= 1); [|lia]. apply Z.div_le_upper_bound; lia. }
  destruct ((start =? 0) && (end_ <=? start')).
  { apply wp_ret. split; [|done]. unfold region_pages. rewrite Hskip by done. rewrite Z.sub_diag.
    change (range _ 0) with (∅ : gset Z). by rewrite union_empty_r_L. }
  rewrite Eup, align_down by lia. set (p := first_page start) in *. set (n := end_ / 4096 - p) in *.
  assert (Z.shiftr (u64 (end_ / 4096 * 4096 - p * 4096)) PAGE_SHIFT = n) as ->.
  { pose proof (Z.mul_div_le end_ 4096). rewrite u64_id by lia. rewrite Z.shiftr_div_pow2 by done.
    change (2 ^ PAGE_SHIFT) with 4096. replace (_ - _) with (n * 4096) by (unfold n; lia). apply Z.div_mul. lia. }
  wp_steps. rewrite addr_to_index. change (pow2 0) with 1. rewrite Z.div_1_r.
  apply (wp_mark_range (max_order s) F); [done|lia|lia|lia|done|done|].
  intros s' Hr' Hf'. apply wp_modify. pose proof Hf' as (E1 & E2 & E3). split; [|done].
  apply (pages_of_rep _ s); [done|done| |set_solver|done|].
  - intros q [Hq|Hq]%elem_of_union; [by apply Hrange|]. apply elem_of_range in Hq. lia.
  - unfold region_pages. rewrite size_given by (done || lia). lia.
Qed.

(** ** Initialisation *)

Lemma bits_of_spec fuel n : 0 <= n < 2 ^ Z.of_nat fuel -> n < pow2 (bits_of fuel n).
Proof.
  revert n. induction fuel as [|fuel IH]; intros n Hn; cbn [bits_of].
  { change (2 ^ Z.of_nat 0) with 1 in Hn. change (pow2 0) with 1. lia. }
  destruct (Z.eqb_spec n 0) as [->|]; [done|]. rewrite Nat2Z.inj_succ, Z.pow_succ_r in Hn by lia.
  rewrite Z.shiftr_div_pow2 by lia. change (2 ^ 1) with 2. rewrite pow2_S.
  specialize (IH (n / 2)). pose proof (Z.div_mod n 2). pose proof (Z.mod_pos_bound n 2).
  assert (0 <= n / 2 < 2 ^ Z.of_nat fuel); [|lia]. split; [apply Z.div_pos; lia|apply Z.div_lt_upper_bound; lia].
Qed.

Lemma shrink_le order pages avail : pages <= pow2 order -> (shrink order pages avail).2 <= pow2 (shrink order pages avail).1.
Proof.
  revert pages. induction order as [|order IH]; intros pages Hp; [done|]. cbn [shrink].
  destruct (_ <=? avail); [done|]. by apply IH.
Qed.

Lemma availb_zero n idx : availb (replicate n 0) idx = false.
Proof.
  unfold availb. destruct (replicate n 0 !! _) as [w|] eqn:E; [|done].
  apply lookup_replicate in E as [-> _]. apply Z.bits_0.
Qed.

Lemma canon_empty m o k : canon m ∅ o k = false.
Proof. eapply canon_not_full; [apply block_witness|]. set_solver. Qed.

Lemma empty_state_ok order pages :
  (5 <= order <= 30)%nat -> pages <= pow2 order -> free_pages ∅ (empty_state order pages).
Proof.
  intros Ho Hp. set (s0 := empty_state order pages). split; [|set_solver|set_solver|done|done].
  change (max_order s0) with order.
  assert (forall o, cnt order (canon order ∅) o = 0 \/ (order < o)%nat) as Hcnt.
  { intros o. destruct (le_lt_dec o order); [left|by right]. apply cnt_zero; [done|]. intros. apply canon_empty. }
  split.
  - split; [done|lia| | | |].
    + cbn. rewrite length_replicate. unfold btree_size. rewrite Z.shiftl_1_l, pow2_eq.
      replace (Z.of_nat order) with (Z.of_nat order - 5 + 5) by lia.
      replace (Z.of_nat order - 5 + 5 - 2) with (Z.of_nat order - 5 + 3) by lia.
      rewrite !Z.pow_add_r by lia. change (2 ^ 3) with 8. rewrite Z.div_mul by lia.
      change (2 ^ 5) with 32. rewrite Z2Nat.id by lia. lia.
    + apply Forall_replicate. unfold word64. lia.
    + intros o k _. rewrite canon_empty. apply availb_zero.
    + apply availb_zero.
  - cbn. rewrite length_replicate, length_fmap, length_seq. done.
  - intros o Hle. cbn [count_available_by_order s0 empty_state set_min_available].
    rewrite lookup_replicate_2 by lia. destruct (Hcnt o) as [->|]; [done|lia].
  - intros o Hle. eexists. split.
    + cbn [min_available_idx_by_order s0 empty_state set_min_available].
      rewrite list_lookup_fmap, lookup_seq_lt by lia. cbn. reflexivity.
    + rewrite (row_end_node order) by done. right. split; [done|]. intros. apply canon_empty.
Qed.

Section init.
Context {image : KernelImage}.

(** The regions, the part of each memory map entry that is added, are disjoint
    and hold at least as many whole pages as their bounds. *)
Fixpoint regions_ok (pages : Z) (F : gset Z) (l : list (Z * Z)) : Prop :=
  match l with
  | [] => True
  | (addr, len) :: l =>
      0 <= addr < addr + len /\ addr + len < 2 ^ 64 - 4096 /\
      first_page addr <= (addr + len) / 4096 <= pages /\
      region_pages addr (addr + len) ## F /\ low_page ∉ region_pages addr (addr + len) /\
      regions_ok pages (F ∪ region_pages addr (addr + len)) l
  end.

Definition region_union (F : gset Z) (l : list (Z * Z)) : gset Z :=
  foldl (fun F r => F ∪ region_pages r.1 (r.1 + r.2)) F l.

Lemma wp_add_entries reserved_end l F s :
  free_pages F s -> regions_ok (max_pages s) F (omap (clip reserved_end) l) ->
  wp (add_entries reserved_end l)
    (fun _ s' => free_pages (region_union F (omap (clip reserved_end) l)) s' /\ same_tree s s') s.
Proof.
  revert F s. induction l as [|e l IH]; intros F s Hok Hreg; cbn [add_entries omap list_omap]; [by apply wp_ret|].
  cbn [omap list_omap] in Hreg. destruct (clip reserved_end e) as [[addr len]|] eqn:E.
  - destruct Hreg as (Ha & Hlim & Hp & Hd & Hlow & Hreg). rewrite u64_id by lia.
    apply wp_bind. eapply wp_mono; [apply (wp_page_add_range F); (done || lia)|].
    intros [] s1 [Hok1 [E1 E2]]. eapply wp_mono; [apply (IH _ _ Hok1); by rewrite E1|].
    intros [] s2 [Hok2 [E3 E4]]. split; [done|]. split; congruence.
  - apply wp_bind, wp_ret. by apply IH.
Qed.

Lemma scan_range l acc : 0 <= acc.1 < 2 ^ 64 -> 0 <= (foldl scan_entry acc l).1 < 2 ^ 64.
Proof.
  revert acc. induction l as [|e l IH]; intros acc Hacc; [done|]. cbn [foldl]. apply IH. cbn.
  pose proof (u64_range (mm_addr e + mm_len e)). lia.
Qed.

(** What [page_init] finds: the order and the number of pages of the tree, and
    the end of the memory it reserves. *)
Definition init_size (tags : list multiboot_tag) : nat * Z :=
  let acc := foldl scan_entry (0, 0) (available_entries tags) in
  shrink (bits_of 64 (Z.shiftr acc.1 PAGE_SHIFT)) (Z.shiftr acc.1 PAGE_SHIFT) acc.2.

Definition init_regions (tags : list multiboot_tag) : list (Z * Z) :=
  let order := (init_size tags).1 in
  omap (clip (KERNEL_PHYS_END + PAGE_SIZE + btree_size order + metadata_size order)) (available_entries tags).

Lemma wp_page_init tags s0 :
  (5 <= (init_size tags).1 <= 30)%nat -> 0 < (init_size tags).2 ->
  regions_ok (init_size tags).2 ∅ (init_regions tags) ->
  wp (page_init tags)
    (fun _ s => free_pages (region_union ∅ (init_regions tags)) s
                /\ max_order s = (init_size tags).1 /\ max_pages s = (init_size tags).2) s0.
Proof.
  unfold page_init, init_regions, init_size. pose proof (scan_range (available_entries tags) (0, 0) ltac:(cbn; lia)) as Hram.
  destruct (foldl scan_entry (0, 0) (available_entries tags)) as [ram avail]. cbn [fst snd] in *.
  assert (Z.shiftr ram PAGE_SHIFT <= pow2 (bits_of 64 (Z.shiftr ram PAGE_SHIFT))) as Hbits.
  { apply Z.lt_le_incl, bits_of_spec. rewrite Z.shiftr_div_pow2 by done. change (2 ^ PAGE_SHIFT) with 4096.
    split; [apply Z.div_pos; lia|]. apply Z.div_lt_upper_bound; lia. }
  pose proof (shrink_le _ _ avail Hbits) as Hle.
  destruct (shrink _ _ _) as [order pages]. cbn [fst snd] in *. intros Ho Hpos Hreg.
  wp_steps. pose proof (empty_state_ok order pages Ho Hle) as Hok.
  eapply wp_mono; [apply (wp_add_entries _ _ ∅ _ Hok Hreg)|]. intros [] s1 [Hok1 [E1 E2]].
  eapply wp_mono; [apply (wp_mark_reserved _ 0 _ Hok1); rewrite E1; cbn; lia|]. cbn beta.
  intros _ s2 [Hok2 [E3 E4]]. split; [|rewrite E3, E4, E1, E2; done].
  replace (region_union _ _) with (region_union ∅
    (omap (clip (KERNEL_PHYS_END + PAGE_SIZE + btree_size order + metadata_size order)) (available_entries tags)) ∖ {[0]});
    [done|].
  apply set_eq. intros p. rewrite elem_of_difference, elem_of_singleton. split; [by intros []|].
  intros Hp. split; [done|]. apply (pg_range _ _ Hok1) in Hp. lia.
Qed.
End init.

(** ** The operations *)

Lemma wp_page_alloc_free F n max_paddr s :
  free_pages F s -> 0 < n <= pow2 (max_order s) ->
  wp (page_alloc_n_bounded n max_paddr)
    (fun r s' => r = 0 /\ s' = s \/ exists p, r = p * 4096 + PHYS_OFFSET /\ page_free_n r n s' = Done tt s) s.
Proof.
  intros Hok Hn. eapply wp_mono; [by apply (wp_page_alloc F)|]. intros r s1 [(-> & -> & _)|(p & -> & Hp & Hsub & Hok1 & E1 & E2)];
    [by left|right]. exists p. split; [done|]. pose proof Hok as [_ Hrange Hlow _ _].
  assert (p + n <= max_pages s1) as Hend.
  { assert (p + n - 1 ∈ F) as Hlast%Hrange by (apply Hsub, elem_of_range; lia). lia. }
  assert (wp (page_free_n (p * 4096 + PHYS_OFFSET) n)
            (fun _ s' => free_pages (F ∖ range p n ∪ range p n) s' /\ same_tree s1 s') s1) as Hf.
  { apply wp_page_free; [done|lia|lia|done|set_solver|]. intros Hl. by apply Hlow, Hsub. }
  apply wp_run in Hf as ([] & s2 & E & Hok2 & E3 & E4). rewrite E. f_equal. symmetry.
  apply (pages_unique F); [done| |congruence|congruence].
  replace F with (F ∖ range p n ∪ range p n); [done|]. apply set_eq. intros q.
  destruct (decide (q ∈ range p n)); set_solver.
Qed.


(** C6: [page_alloc_n_bounded] always returns.  It returns the address of [n]
    consecutive pages that were free and start below the bound, and these are
    then no longer free, every other page keeping its status; or it returns null
    and leaves the state alone, and then no aligned free block of at least [n]
    pages starts below the bound.  The bound is the unsigned 64-bit value that
    the code computes from the greatest address. *)
Theorem page_alloc_n_bounded_correct F n max_paddr s :
  free_pages F s -> 0 < n <= pow2 (max_order s) ->
  exists r s', page_alloc_n_bounded n max_paddr s = Done r s'
               /\ alloc_post F n (u64 (Z.shiftr max_paddr PAGE_SHIFT - n + 1)) s r s'.
Proof. intros Hok Hn. apply wp_run. by apply wp_page_alloc. Qed.

(** C7: freeing what was allocated restores the allocator's state exactly, the
    tree of availability bits, the counts and the least indices included: the
    blocks that were split are merged again. *)
Theorem page_alloc_free F n max_paddr s :
  free_pages F s -> 0 < n <= pow2 (max_order s) ->
  exists r s', page_alloc_n_bounded n max_paddr s = Done r s'
               /\ (r = 0 /\ s' = s \/ exists p, r = p * 4096 + PHYS_OFFSET /\ page_free_n r n s' = Done tt s).
Proof. intros Hok Hn. apply wp_run. by apply (wp_page_alloc_free F). Qed.

(** [page_mark_reserved] removes one page from the free pages, whatever the
    size of the free block it lies in, and does nothing if it is not free. *)
Theorem page_mark_reserved_correct F p s :
  free_pages F s -> 0 <= p < max_pages s ->
  exists s', page_mark_reserved (p * 4096) s = Done tt s' /\ free_pages (F ∖ {[p]}) s'
             /\ max_pages s' = max_pages s /\ max_order s' = max_order s.
Proof.
  intros Hok Hp. destruct (wp_run _ _ _ (wp_mark_reserved F p s Hok Hp)) as ([] & s' & E & Hpost). by exists s'.
Qed.

(** ** A machine with two megabytes of memory *)

Definition small_image : KernelImage := {| KERNEL_PHYS_BASE := 0x100000; KERNEL_PHYS_END := 0x120000 |}.
Definition small_map : list multiboot_tag :=
  [TagOther; TagMmap [MmapEntry 0 0x9fc00 1; MmapEntry 0x9fc00 0x400 2; MmapEntry 0x100000 0x100000 1]].
Definition no_state : P := PageSt 0 0 [] [] [] 0.
Definition small_state : P :=
  match page_init (image := small_image) small_map no_state with Done _ s => s | Failed _ => no_state end.
Definition small_pages : gset Z := region_union ∅ (init_regions (image := small_image) small_map).

Lemma small_ok :
  (5 <= (init_size (image := small_image) small_map).1 <= 30)%nat /\
  0 < (init_size (image := small_image) small_map).2 /\
  regions_ok (init_size (image := small_image) small_map).2 ∅ (init_regions (image := small_image) small_map).
Proof.
  assert (init_size (image := small_image) small_map = (10%nat, 512)) as -> by (vm_compute; reflexivity).
  assert (init_regions (image := small_image) small_map = [(1184176, 912976)]) as -> by (vm_compute; reflexivity).
  cbn [fst snd]. split_and!; [lia|lia|lia|]. unfold regions_ok. split_and!; [lia|lia|lia|done|done|set_solver| |done].
  unfold region_pages. rewrite elem_of_range. change (first_page 1184176) with 290. unfold low_page. lia.
Qed.

Lemma small_state_ok : free_pages small_pages small_state.
Proof.
  destruct small_ok as (Ho & Hp & Hreg).
  destruct (wp_run _ _ _ (wp_page_init (image := small_image) small_map no_state Ho Hp Hreg)) as (? & s & E & Hok & _).
  unfold small_state. by rewrite E.
Qed.


Lemma page_alloc_n_bounded_correct_witness :
  exists r s', page_alloc_n_bounded 3 0x1fffff small_state = Done r s'
               /\ alloc_post small_pages 3 (u64 (Z.shiftr 0x1fffff PAGE_SHIFT - 3 + 1)) small_state r s'.
Proof.
  apply (page_alloc_n_bounded_correct small_pages 3 0x1fffff small_state); [exact small_state_ok|].
  split; [lia|vm_compute; discriminate].
Defined.

Lemma page_alloc_free_witness :
  exists r s', page_alloc_n_bounded 3 0x1fffff small_state = Done r s'
               /\ (r = 0 /\ s' = small_state \/ exists p, r = p * 4096 + PHYS_OFFSET /\ page_free_n r 3 s' = Done tt small_state).
Proof.
  apply (page_alloc_free small_pages 3 0x1fffff small_state); [exact small_state_ok|].
  split; [lia|vm_compute; discriminate].
Defined.

Lemma page_mark_reserved_correct_witness :
  exists s', page_mark_reserved (300 * 4096) small_state = Done tt s' /\ free_pages (small_pages ∖ {[300]}) s'
             /\ max_pages s' = max_pages small_state /\ max_order s' = max_order small_state.
Proof.
  apply (page_mark_reserved_correct small_pages 300 small_state); [exact small_state_ok|].
  split; [lia|vm_compute; reflexivity].
Defined.
