(* ===== verification/Pagetable.v ===== *)
(** The page tables, [mm/pagetable.c] with the macros of [include/mm/pagetable.h]
    and [include/mm/page.h].

    A table is a page of 512 words in the memory that the page allocator hands
    out; [pt], [pd], [pdp] and [pml4] tables have the same layout.  The fields
    of the state are the globals of the file and the register [cr3].  The boot
    page tables map the low memory to itself, so that a table that [pt_init]
    reaches through its physical address [p] is the memory at
    [p + PHYS_OFFSET]. *)

From S2P Require Import Prelude Page KMem.

Record pt_st : Type := PtSt {
  pt_pages : page_st;
  pt_mem : memory;
  cr3 : Z;
  global_kernel_only_pml4 : Z;
  pt_inited : bool;                 (* the static variable of [pt_init] *)
}.

Definition set_pt_pages (x : page_st) (s : pt_st) : pt_st :=
  PtSt x (pt_mem s) (cr3 s) (global_kernel_only_pml4 s) (pt_inited s).
Definition set_pt_mem (x : memory) (s : pt_st) : pt_st :=
  PtSt (pt_pages s) x (cr3 s) (global_kernel_only_pml4 s) (pt_inited s).
Definition set_cr3 (x : Z) (s : pt_st) : pt_st :=
  PtSt (pt_pages s) (pt_mem s) x (global_kernel_only_pml4 s) (pt_inited s).

Abbreviation T := pt_st.

Definition on_pages {A} (m : M page_st A) : M T A := zoom pt_pages set_pt_pages m.

(** ** Words and addresses *)

Definition PT_PRESENT : Z := 0x001.
Definition PT_WRITE : Z := 0x002.
Definition PT_USER : Z := 0x004.
Definition PT_WRITE_THROUGH : Z := 0x008.
Definition PT_CACHE_DISABLED : Z := 0x010.
Definition PT_SIZE : Z := 0x080.
Definition PT_GLOBAL : Z := 0x100.

Definition PT_ENTRY_COUNT : Z := PAGE_SIZE / 8.
Definition PT_VADDR_SIZE : Z := PAGE_SIZE * PT_ENTRY_COUNT.
Definition PD_VADDR_SIZE : Z := PAGE_SIZE * PT_ENTRY_COUNT * PT_ENTRY_COUNT.
Definition PDP_VADDR_SIZE : Z := PAGE_SIZE * PT_ENTRY_COUNT * PT_ENTRY_COUNT * PT_ENTRY_COUNT.

Definition INDEX_MASK : Z := 0x1ff.
Definition PML4E (x : Z) : Z := Z.land (Z.shiftr x 39) INDEX_MASK.
Definition PDPE (x : Z) : Z := Z.land (Z.shiftr x 30) INDEX_MASK.
Definition PDE (x : Z) : Z := Z.land (Z.shiftr x 21) INDEX_MASK.
Definition PTE (x : Z) : Z := Z.land (Z.shiftr x 12) INDEX_MASK.

Definition has_flag (e f : Z) : bool := negb (Z.land e f =? 0).
Definition IS_PRESENT (e : Z) : bool := has_flag e PT_PRESENT.
Definition IS_2MB_PAGE (e : Z) : bool := has_flag e PT_SIZE.
Definition IS_1GB_PAGE (e : Z) : bool := has_flag e PT_SIZE.

(** The macros of the pages of [2 ^ shift] bytes: 12, 21 (2MB), 30 (1GB) and 39
    (512GB). *)
Definition page_mask (shift : Z) : Z := u64 (Z.shiftl (2 ^ 64 - 1) shift).
Definition page_size (shift : Z) : Z := Z.shiftl 1 shift.
Definition page_align_down (shift x : Z) : Z := Z.land x (page_mask shift).
Definition page_align_up (shift x : Z) : Z := u64 (page_align_down shift (u64 (x - 1)) + page_size shift).
Definition page_offset (shift x : Z) : Z := Z.land x (Z.lxor (page_mask shift) (2 ^ 64 - 1)).
Definition page_aligned (shift x : Z) : bool := x =? page_align_down shift x.
Definition page_same (shift x y : Z) : bool := page_align_down shift x =? page_align_down shift y.

Definition PAGE_CONTROL_FLAGS (x : Z) : Z :=
  Z.land x (Z.lor (Z.lor (Z.lor PT_PRESENT PT_WRITE) (Z.lor PT_USER PT_WRITE_THROUGH))
                  (Z.lor (Z.lor PT_CACHE_DISABLED PT_SIZE) PT_GLOBAL)).
Definition PAGE_FLAGS (x : Z) : Z := Z.land x (Z.lxor (page_mask PAGE_SHIFT) (2 ^ 64 - 1)).

(** ** Tables *)

Definition slot (table idx : Z) : Z := table + 8 * idx.
Definition pt_entry (table idx : Z) : M T Z := gets (fun s => load64 (pt_mem s) (slot table idx)).
Definition set_entry (table idx e : Z) : M T unit :=
  modify (fun s => set_pt_mem (store64 (pt_mem s) (slot table idx) e) s).

(** [(table->phys[idx] & PAGE_MASK) + PHYS_OFFSET] *)
Definition table_of (e : Z) : Z := u64 (page_align_down PAGE_SHIFT e + PHYS_OFFSET).

Definition zero_page (table : Z) : M T unit :=
  modify (fun s => set_pt_mem (store_bytes (pt_mem s) table (replicate (Z.to_nat PAGE_SIZE) 0)) s).

(** [for (i = first; i < last; i++) table->phys[i] = f(i);] *)
Definition fill_entries (table first last : Z) (f : Z -> Z) : M T unit :=
  for_each (seqZ first (last - first)) (fun i => set_entry table i (f i)).

(** ** [cr3] *)

Definition physmap_start : Z := PHYS_OFFSET.
Definition in_physmap (s : T) (vaddr : Z) : bool :=
  (physmap_start <=? vaddr) && (vaddr <? physmap_end (pt_pages s)).

Definition pt_get : M T Z := gets (fun s => u64 (cr3 s + PHYS_OFFSET)).

(** ** Lookup *)

Inductive vaddr_map_status : Type := UNMAPPED | PAGE_4KB | PAGE_2MB | PAGE_1GB.
#[global] Instance vaddr_map_status_eq_dec : EqDecision vaddr_map_status.
Proof. solve_decision. Defined.

Definition _vaddr_status (pml4 vaddr : Z) : M T vaddr_map_status :=
  let! e := pt_entry pml4 (PML4E vaddr) in
  if negb (IS_PRESENT e) then ret UNMAPPED
  else
    let! e := pt_entry (table_of e) (PDPE vaddr) in
    if negb (IS_PRESENT e) then ret UNMAPPED
    else if IS_1GB_PAGE e then ret PAGE_1GB
    else
      let! e := pt_entry (table_of e) (PDE vaddr) in
      if negb (IS_PRESENT e) then ret UNMAPPED
      else if IS_2MB_PAGE e then ret PAGE_2MB
      else
        let! e := pt_entry (table_of e) (PTE vaddr) in
        if negb (IS_PRESENT e) then ret UNMAPPED else ret PAGE_4KB.

Definition pt_virt_to_phys_helper (table vaddr : Z) : M T Z :=
  let! s := get in
  if in_physmap s vaddr then ret (vaddr - PHYS_OFFSET)
  else
    let! e := pt_entry table (PML4E vaddr) in
    do! kassert (IS_PRESENT e);
    let! e := pt_entry (table_of e) (PDPE vaddr) in
    do! kassert (IS_PRESENT e);
    if IS_1GB_PAGE e then ret (u64 (page_align_down 30 e + page_offset 30 vaddr))
    else
      let! e := pt_entry (table_of e) (PDE vaddr) in
      do! kassert (IS_PRESENT e);
      if IS_2MB_PAGE e then ret (u64 (page_align_down 21 e + page_offset 21 vaddr))
      else
        let! e := pt_entry (table_of e) (PTE vaddr) in
        do! kassert (IS_PRESENT e);
        ret (u64 (page_align_down PAGE_SHIFT e + page_offset PAGE_SHIFT vaddr)).

Definition pt_virt_to_phys (vaddr : Z) : M T Z :=
  let! s := get in
  if in_physmap s vaddr then ret (vaddr - PHYS_OFFSET)
  else
    let! table := pt_get in
    pt_virt_to_phys_helper table vaddr.

Definition pt_set (pml4 : Z) : M T unit :=
  do! kassert (physmap_start <=? pml4);
  let! phys_addr := pt_virt_to_phys pml4 in
  modify (set_cr3 phys_addr).

(** ** The tables of [pt_init]

    The tables are named by their physical addresses. *)

Definition identity (p : Z) : Z := p + PHYS_OFFSET.

Fixpoint _fill_pt (fuel : nat) (pt idx paddr vaddr vmax : Z) : M T unit :=
  if (idx <? PT_ENTRY_COUNT) && (vaddr <? vmax) then
    match fuel with
    | O => fail Stuck
    | S fuel =>
        do! set_entry (identity pt) idx (Z.lor (Z.lor paddr PT_PRESENT) PT_WRITE);
        _fill_pt fuel pt (idx + 1) (u64 (paddr + PAGE_SIZE)) (u64 (vaddr + PAGE_SIZE)) vmax
    end
  else ret tt.

(** A new table below [max_paddr] in entry [idx], filled by [fill]; the loops of
    [_fill_pd], [_fill_pdp] and [_fill_pml4] return 1 when there is no page. *)
Definition new_table (table idx max_paddr : Z) (fill : Z -> M T Z) : M T Z :=
  let! p := on_pages (page_alloc_bounded max_paddr) in
  if p =? 0 then ret 1
  else
    let p := u64 (p - PHYS_OFFSET) in
    do! zero_page (identity p);
    do! set_entry (identity table) idx (Z.lor (Z.lor p PT_PRESENT) PT_WRITE);
    fill p.

Fixpoint _fill_pd (fuel : nat) (pd idx paddr vaddr vmax max_paddr : Z) : M T Z :=
  if (idx <? PT_ENTRY_COUNT) && (vaddr <? vmax) then
    match fuel with
    | O => fail Stuck
    | S fuel =>
        let! e := pt_entry (identity pd) idx in
        do! kassert (negb (IS_PRESENT e));
        let! r :=
          (if PT_VADDR_SIZE <=? vmax - vaddr then
             do! set_entry (identity pd) idx (Z.lor (Z.lor (Z.lor paddr PT_PRESENT) PT_WRITE) PT_SIZE);
             ret 0
           else
             new_table pd idx max_paddr (fun pt =>
               do! _fill_pt (Z.to_nat PT_ENTRY_COUNT) pt (PTE vaddr) paddr vaddr vmax; ret 0)) in
        if r =? 0 then _fill_pd fuel pd (idx + 1) (u64 (paddr + PT_VADDR_SIZE)) (u64 (vaddr + PT_VADDR_SIZE)) vmax max_paddr
        else ret 1
    end
  else ret 0.

Fixpoint _fill_pdp (fuel : nat) (pdp idx paddr vaddr vmax max_paddr : Z) : M T Z :=
  if (idx <? PT_ENTRY_COUNT) && (vaddr <? vmax) then
    match fuel with
    | O => fail Stuck
    | S fuel =>
        let! e := pt_entry (identity pdp) idx in
        do! kassert (negb (IS_PRESENT e));
        let! r :=
          (if PD_VADDR_SIZE <=? vmax - vaddr then
             do! set_entry (identity pdp) idx (Z.lor (Z.lor (Z.lor paddr PT_PRESENT) PT_WRITE) PT_SIZE);
             ret 0
           else
             new_table pdp idx max_paddr (fun pd =>
               _fill_pd (Z.to_nat PT_ENTRY_COUNT) pd (PDE vaddr) paddr vaddr vmax max_paddr)) in
        if r =? 0 then _fill_pdp fuel pdp (idx + 1) (u64 (paddr + PD_VADDR_SIZE)) (u64 (vaddr + PD_VADDR_SIZE)) vmax max_paddr
        else ret 1
    end
  else ret 0.

Fixpoint _fill_pml4 (fuel : nat) (pml4 idx paddr vaddr vmax max_paddr : Z) : M T Z :=
  if (idx <? PT_ENTRY_COUNT) && (vaddr <? vmax) then
    match fuel with
    | O => fail Stuck
    | S fuel =>
        let! e := pt_entry (identity pml4) idx in
        do! kassert (negb (IS_PRESENT e));
        let! r := new_table pml4 idx max_paddr (fun pdp =>
                    _fill_pdp (Z.to_nat PT_ENTRY_COUNT) pdp (PDPE vaddr) paddr vaddr vmax max_paddr) in
        if r =? 0 then _fill_pml4 fuel pml4 (idx + 1) (u64 (paddr + PDP_VADDR_SIZE)) (u64 (vaddr + PDP_VADDR_SIZE)) vmax max_paddr
        else ret 1
    end
  else ret 0.

Definition KERNEL_VMA : Z := 0xffff800000000000.

Section init.
Context {image : KernelImage}.

(** The registration of the page-fault handler is left out. *)
Definition pt_init : M T unit :=
  let! s := get in
  do! (if pt_inited s then ret tt
       else
         let max_paddr := Z.shiftl 1 22 in
         do! modify (fun s => PtSt (pt_pages s) (pt_mem s) (cr3 s) (global_kernel_only_pml4 s) true);
         let! pml4 := on_pages (page_alloc_bounded max_paddr) in
         do! kassert (negb (pml4 =? 0));
         let pml4 := u64 (pml4 - PHYS_OFFSET) in
         do! kassert (pml4 <? max_paddr);
         do! zero_page (identity pml4);
         let start := u64 (KERNEL_VMA + KERNEL_PHYS_BASE) in
         let! r := _fill_pml4 (Z.to_nat PT_ENTRY_COUNT) pml4 (PML4E start) KERNEL_PHYS_BASE start
                     (u64 (KERNEL_VMA + KERNEL_PHYS_END)) max_paddr in
         do! kassert (r =? 0);
         let! s := get in
         let! r := _fill_pml4 (Z.to_nat PT_ENTRY_COUNT) pml4 (PML4E physmap_start) 0 physmap_start
                     (physmap_end (pt_pages s)) max_paddr in
         do! kassert (r =? 0);
         do! pt_set (pml4 + PHYS_OFFSET);
         modify (fun s => PtSt (pt_pages s) (pt_mem s) (cr3 s) (pml4 + PHYS_OFFSET) (pt_inited s)));
  let! s := get in
  pt_set (global_kernel_only_pml4 s).
End init.

(** ** Mapping *)

(** What a level of the walk of [pt_map_range] decides: go on in the table, take
    the loop to the next addresses, or return [-ENOMEM]. *)
Inductive descent : Type :=
| Table (table : Z)
| Next (paddr vaddr : Z)
| NoMem.

(** The new page is cleared, and two assertions check it. *)
Definition clear_page (page : Z) : M T unit :=
  do! zero_page page;
  let! p := pt_virt_to_phys page in
  do! kassert (p =? page - PHYS_OFFSET);
  let! w := pt_entry page 0 in
  kassert (w =? 0).

Definition map_pml4 (pml4 vaddr pdflags : Z) : M T descent :=
  let idx := PML4E vaddr in
  let! e := pt_entry pml4 idx in
  if negb (IS_PRESENT e) then
    let! page := on_pages page_alloc in
    if page =? 0 then ret NoMem
    else
      do! clear_page page;
      let e := Z.lor (u64 (page - PHYS_OFFSET)) pdflags in
      do! set_entry pml4 idx e;
      ret (Table (table_of e))
  else
    let e := Z.lor e pdflags in
    do! set_entry pml4 idx e;
    ret (Table (table_of e)).

(** The level whose entries map pages of [2 ^ shift] bytes: 30 for [pdp] and 21
    for [pd] tables.  [split e i] is entry [i] of the table that takes the place
    of the large page [e], [same] are the flags a large page has to have to be
    left alone. *)
Definition map_dir (shift idx table paddr vaddr size pdflags ptflags same : Z) (split : Z -> Z -> Z) : M T descent :=
  let! e := pt_entry table idx in
  if negb (IS_PRESENT e) then
    if page_aligned shift vaddr && (page_size shift <? size) then
      do! set_entry table idx (Z.lor (Z.lor paddr ptflags) PT_SIZE);
      ret (Next (u64 (paddr + page_size shift)) (u64 (vaddr + page_size shift)))
    else
      let! page := on_pages page_alloc in
      if page =? 0 then ret NoMem
      else
        do! zero_page page;
        let e := Z.lor (u64 (page - PHYS_OFFSET)) pdflags in
        do! set_entry table idx e;
        ret (Table (table_of e))
  else if has_flag e PT_SIZE then
    if page_same shift e paddr && (page_offset shift paddr =? page_offset shift vaddr)
       && (u64 (PAGE_CONTROL_FLAGS e - PT_SIZE) =? same) then
      ret (Next paddr (page_align_up shift (u64 (vaddr + 1))))
    else
      let! page := on_pages page_alloc in
      if page =? 0 then ret NoMem
      else
        do! fill_entries page 0 PT_ENTRY_COUNT (split e);
        let e := Z.lor (u64 (page - PHYS_OFFSET)) pdflags in
        do! set_entry table idx e;
        ret (Table (table_of e))
  else
    let e := Z.lor e pdflags in
    do! set_entry table idx e;
    ret (Table (table_of e)).

(** The entries that replace a 1GB page keep all flags, those that replace a 2MB
    page lose [PT_SIZE]. *)
Definition split_1gb (e i : Z) : Z := u64 (e + i * page_size 21).
Definition split_2mb (e i : Z) : Z := u64 (e + i * PAGE_SIZE - PT_SIZE).

Definition map_page (table paddr vaddr ptflags : Z) : M T unit :=
  let e := Z.lor paddr ptflags in
  do! set_entry table (PTE vaddr) e;
  kassert (IS_PRESENT e).

Fixpoint map_loop (fuel : nat) (pml4 paddr vaddr vmax pdflags ptflags : Z) : M T Z :=
  if vaddr <? vmax then
    match fuel with
    | O => fail Stuck
    | S fuel =>
        let size := vmax - vaddr in
        let! d := map_pml4 pml4 vaddr pdflags in
        match d with
        | Table table =>
            let! d := map_dir 30 (PDPE vaddr) table paddr vaddr size pdflags ptflags pdflags split_1gb in
            match d with
            | Table table =>
                let! d := map_dir 21 (PDE vaddr) table paddr vaddr size pdflags ptflags ptflags split_2mb in
                match d with
                | Table table =>
                    do! map_page table paddr vaddr ptflags;
                    map_loop fuel pml4 (u64 (paddr + PAGE_SIZE)) (u64 (vaddr + PAGE_SIZE)) vmax pdflags ptflags
                | Next paddr vaddr => map_loop fuel pml4 paddr vaddr vmax pdflags ptflags
                | NoMem => ret (- ENOMEM)
                end
            | Next paddr vaddr => map_loop fuel pml4 paddr vaddr vmax pdflags ptflags
            | NoMem => ret (- ENOMEM)
            end
        | Next paddr vaddr => map_loop fuel pml4 paddr vaddr vmax pdflags ptflags
        | NoMem => ret (- ENOMEM)
        end
    end
  else ret 0.

(** Every turn moves on by a page at least. *)
Definition range_fuel (vaddr vmax : Z) : nat := Z.to_nat ((vmax - vaddr) / PAGE_SIZE).

Definition pt_map_range (pml4 paddr vaddr vmax pdflags ptflags : Z) : M T Z :=
  do! kassert (page_aligned 12 paddr && page_aligned 12 vaddr && page_aligned 12 vmax);
  do! kassert ((vaddr <? vmax) && (page_align_down 12 ptflags =? 0) && (page_align_down 12 pdflags =? 0));
  do! kassert (Z.land pdflags PT_USER =? Z.land ptflags PT_USER);
  do! kassert (negb (has_flag pdflags PT_SIZE) && negb (has_flag ptflags PT_SIZE));
  map_loop (range_fuel vaddr vmax) pml4 paddr vaddr vmax pdflags ptflags.

Definition pt_map (pml4 paddr vaddr pdflags ptflags : Z) : M T Z :=
  pt_map_range pml4 paddr vaddr (u64 (vaddr + PAGE_SIZE)) pdflags ptflags.

(** ** Unmapping *)

(** The pages of a large page that is cut, from [unmap_start] to [unmap_end].
    The second loop of the source tests [unmap_end], which it does not change:
    unless [unmap_end] is 512 it runs off the table and the memory behind it. *)
Definition cut_large (shift sub table idx e vaddr vmax ustart uend control : Z) (split : Z -> Z -> Z) : M T Z :=
  let! page := on_pages page_alloc in
  do! kassert (negb (page =? 0));
  let unmap_start := ustart in
  let unmap_end := if page_same shift vaddr vmax then uend else PT_ENTRY_COUNT in
  do! fill_entries page 0 unmap_start (split e);
  do! fill_entries page unmap_start unmap_end (fun _ => 0);
  let vaddr := u64 (vaddr + (unmap_end - unmap_start) * sub) in
  if unmap_end <? PT_ENTRY_COUNT then fail Fault
  else
    do! set_entry table idx (Z.lor (u64 (page - PHYS_OFFSET)) control);
    ret vaddr.

(** A turn of the loop of [pt_unmap_range]: the next address. *)
Definition unmap_step (pml4 vaddr vmax : Z) : M T Z :=
  let size := vmax - vaddr in
  let! e := pt_entry pml4 (PML4E vaddr) in
  if negb (IS_PRESENT e) then ret (page_align_up 39 (u64 (vaddr + 1)))
  else
    let table := table_of e in
    let! e := pt_entry table (PDPE vaddr) in
    if negb (IS_PRESENT e) then ret (page_align_up 30 (u64 (vaddr + 1)))
    else if IS_1GB_PAGE e then
      if page_aligned 30 vaddr && (page_size 30 <=? size) then
        do! set_entry table (PDPE vaddr) 0;
        ret (u64 (vaddr + page_size 30))
      else
        cut_large 30 (page_size 21) table (PDPE vaddr) e vaddr vmax (PDE vaddr) (PDE vmax) (PAGE_CONTROL_FLAGS e) split_1gb
    else
      let table := table_of e in
      let! e := pt_entry table (PDE vaddr) in
      if negb (IS_PRESENT e) then ret (page_align_up 21 (u64 (vaddr + 1)))
      else if IS_2MB_PAGE e then
        if page_aligned 21 vaddr && (page_size 21 <=? size) then
          do! set_entry table (PDE vaddr) 0;
          ret (u64 (vaddr + page_size 21))
        else
          cut_large 21 PAGE_SIZE table (PDE vaddr) e vaddr vmax (PTE vaddr) (PTE vmax)
            (u64 (PAGE_CONTROL_FLAGS e - PT_SIZE)) split_2mb
      else
        let table := table_of e in
        let! e := pt_entry table (PTE vaddr) in
        do! (if IS_PRESENT e then set_entry table (PTE vaddr) 0 else ret tt);
        ret (u64 (vaddr + PAGE_SIZE)).

Fixpoint unmap_loop (fuel : nat) (pml4 vaddr vmax : Z) : M T unit :=
  if vaddr <? vmax then
    match fuel with
    | O => fail Stuck
    | S fuel =>
        let! vaddr := unmap_step pml4 vaddr vmax in
        unmap_loop fuel pml4 vaddr vmax
    end
  else ret tt.

Definition pt_unmap_range (pml4 vaddr vmax : Z) : M T unit :=
  do! kassert (page_aligned 12 vaddr && page_aligned 12 vmax && (vaddr <? vmax));
  do! unmap_loop (range_fuel vaddr vmax) pml4 vaddr vmax;
  let! st := _vaddr_status pml4 vaddr in
  kassert (bool_decide (st = UNMAPPED)).

Definition pt_unmap (pml4 vaddr : Z) : M T unit := pt_unmap_range pml4 vaddr (u64 (vaddr + PAGE_SIZE)).

(** The level at which the walk ends, negative when nothing is mapped there. *)
Definition _vaddr_status_detailed (pml4 vaddr : Z) : M T Z :=
  let! e := pt_entry pml4 (PML4E vaddr) in
  if negb (IS_PRESENT e) then ret (-4)
  else
    let! e := pt_entry (table_of e) (PDPE vaddr) in
    if negb (IS_PRESENT e) then ret (-3)
    else if IS_1GB_PAGE e then ret 3
    else
      let! e := pt_entry (table_of e) (PDE vaddr) in
      if negb (IS_PRESENT e) then ret (-2)
      else if IS_2MB_PAGE e then ret 2
      else
        let! e := pt_entry (table_of e) (PTE vaddr) in
        if negb (IS_PRESENT e) then ret (-1) else ret 1.

(** ** Copies *)

Definition copy_page (dst src : Z) : M T unit :=
  modify (fun s => set_pt_mem (store_bytes (pt_mem s) dst (load_bytes (pt_mem s) src (Z.to_nat PAGE_SIZE))) s).

Definition clone_pt (pt : Z) : M T Z :=
  let! clone := on_pages page_alloc in
  do! (if clone =? 0 then ret tt else copy_page clone pt);
  ret clone.

(** The loop over the entries of [clone_pd], [clone_pdp] and [clone_pml4]:
    [large e] entries are copied, the tables of the others are cloned by [sub];
    false when there was no page. *)
Fixpoint clone_entries (idxs : list Z) (clone table : Z) (large : Z -> bool) (sub : Z -> M T Z) : M T bool :=
  match idxs with
  | [] => ret true
  | i :: idxs =>
      let! e := pt_entry table i in
      if e =? 0 then
        do! set_entry clone i 0;
        clone_entries idxs clone table large sub
      else if large e then
        do! set_entry clone i e;
        clone_entries idxs clone table large sub
      else
        let! c := sub (table_of e) in
        if c =? 0 then ret false
        else
          do! set_entry clone i (Z.lor (u64 (c - PHYS_OFFSET)) (PAGE_FLAGS e));
          clone_entries idxs clone table large sub
  end.

Definition clone_pd (pd : Z) : M T Z :=
  let! clone := on_pages page_alloc in
  if clone =? 0 then ret 0
  else
    do! zero_page clone;
    let! ok := clone_entries (seqZ 0 PT_ENTRY_COUNT) clone pd IS_2MB_PAGE clone_pt in
    ret (if ok then clone else 0).

Definition clone_pdp (pdp : Z) : M T Z :=
  let! clone := on_pages page_alloc in
  if clone =? 0 then ret 0
  else
    do! zero_page clone;
    let! ok := clone_entries (seqZ 0 PT_ENTRY_COUNT) clone pdp IS_1GB_PAGE clone_pd in
    ret (if ok then clone else 0).

(** ** Destruction *)

Fixpoint pt_destroy_helper (depth : nat) (pt : Z) : M T unit :=
  do! (match depth with
       | S (S depth' as d) =>
           for_each (seqZ 0 PT_ENTRY_COUNT) (fun i =>
             let! e := pt_entry pt i in
             if (e =? 0) || has_flag e PT_SIZE then ret tt
             else
               do! kassert (IS_PRESENT e && negb (page_align_down 12 e =? 0));
               do! pt_destroy_helper d (table_of e);
               set_entry pt i 0)
       | _ => ret tt
       end);
  on_pages (page_free pt).

Definition pt_destroy (pml4 : Z) : M T unit := pt_destroy_helper 4 pml4.

Definition clone_pml4 (pml4 : Z) (include_user_mappings : bool) : M T Z :=
  let! clone := on_pages page_alloc in
  if clone =? 0 then ret 0
  else
    do! zero_page clone;
    let first := if include_user_mappings then 0 else PT_ENTRY_COUNT / 2 in
    let! ok := clone_entries (seqZ first (PT_ENTRY_COUNT - first)) clone pml4 (fun _ => false) clone_pdp in
    if ok then ret clone
    else
      do! pt_destroy clone;
      ret 0.

Definition pt_create : M T Z :=
  let! pml4 := pt_get in
  clone_pml4 pml4 false.
