(* ===== verification/PagetableProofs.v ===== *)
(** The page tables as a translation of addresses: the walk through the tables,
    the invariant of the tables, and what a change of one entry does to the
    translation ([mm/pagetable.c]). *)

From S2P Require Import Prelude Page PageTree PageProofs PageAllocProofs PageTheorems KMem Pagetable.

Implicit Types (m : memory) (s : pt_st) (t v e : Z) (l : nat).

(** ** Words *)

Lemma page_mask_bits sh i : 0 <= sh <= 64 -> 0 <= i -> Z.testbit (page_mask sh) i = (sh <=? i) && (i <? 64).
Proof.
  intros Hs Hi. unfold page_mask, u64. change (2 ^ 64 - 1) with (Z.ones 64).
  destruct (Z.ltb_spec i 64); [rewrite andb_true_r|rewrite andb_false_r; apply Z.mod_pow2_bits_high; lia].
  rewrite Z.mod_pow2_bits_low by lia. destruct (Z.leb_spec sh i).
  - rewrite Z.shiftl_spec, Z.ones_spec_low by lia. done.
  - apply Z.shiftl_spec_low. lia.
Qed.

Lemma word_high x i : 0 <= x < 2 ^ 64 -> 64 <= i -> Z.testbit x i = false.
Proof. intros Hx Hi. rewrite <- (Z.mod_small x (2 ^ 64)) by lia. apply Z.mod_pow2_bits_high. lia. Qed.

Lemma align_down_div sh x : 0 <= sh <= 64 -> 0 <= x < 2 ^ 64 -> page_align_down sh x = x / 2 ^ sh * 2 ^ sh.
Proof.
  intros Hs Hx. rewrite <- Z.shiftl_mul_pow2, <- Z.shiftr_div_pow2 by lia. apply Z.bits_inj'. intros i Hi.
  unfold page_align_down. rewrite Z.land_spec, page_mask_bits by lia. rewrite Z.shiftl_spec by lia.
  destruct (Z.leb_spec sh i).
  - rewrite Z.shiftr_spec by lia. replace (i - sh + sh) with i by lia. destruct (Z.ltb_spec i 64); [by rewrite andb_true_r|].
    rewrite word_high by lia. done.
  - rewrite (Z.testbit_neg_r _ (i - sh)) by lia. apply andb_false_r.
Qed.

Lemma offset_mod sh x : 0 <= sh <= 64 -> 0 <= x < 2 ^ 64 -> page_offset sh x = x mod 2 ^ sh.
Proof.
  intros Hs Hx. apply Z.bits_inj'. intros i Hi. unfold page_offset. rewrite Z.land_spec, Z.lxor_spec, page_mask_bits by lia.
  change (2 ^ 64 - 1) with (Z.ones 64). destruct (Z.ltb_spec i 64).
  - rewrite Z.ones_spec_low, andb_true_r by lia. destruct (Z.leb_spec sh i).
    + rewrite Z.mod_pow2_bits_high by lia. apply andb_false_r.
    + rewrite Z.mod_pow2_bits_low by lia. apply andb_true_r.
  - rewrite word_high by lia. destruct (Z.leb_spec sh i); [|lia]. by rewrite Z.mod_pow2_bits_high by lia.
Qed.

Lemma align_down_le sh x : 0 <= sh <= 64 -> 0 <= x < 2 ^ 64 -> x = page_align_down sh x + x mod 2 ^ sh /\ 0 <= page_align_down sh x <= x.
Proof.
  intros Hs Hx. rewrite align_down_div by lia. pose proof (Z.div_mod x (2 ^ sh)). pose proof (Z.mod_pos_bound x (2 ^ sh)). split; [lia|].
  pose proof (Z.div_pos x (2 ^ sh)). lia.
Qed.

Lemma align_up_next sh x :
  0 <= sh < 64 -> 0 <= x -> x / 2 ^ sh * 2 ^ sh + 2 ^ sh < 2 ^ 64 ->
  page_align_up sh (u64 (x + 1)) = x / 2 ^ sh * 2 ^ sh + 2 ^ sh.
Proof.
  intros Hs Hx Hend. pose proof (Z.div_mod x (2 ^ sh)). pose proof (Z.mod_pos_bound x (2 ^ sh)).
  unfold page_align_up, page_size. rewrite Z.shiftl_1_l. assert (x + 1 <= 2 ^ 64 - 1) by lia.
  rewrite (u64_id (x + 1)) by lia. replace (x + 1 - 1) with x by lia. rewrite (u64_id x), align_down_div by lia.
  apply u64_id. pose proof (Z.div_pos x (2 ^ sh)). lia.
Qed.

(** ** Flags *)

Lemma has_flag_bit e k : 0 <= k -> has_flag e (2 ^ k) = Z.testbit e k.
Proof.
  intros Hk. unfold has_flag. rewrite <- (Z.mul_1_l (2 ^ k)), <- Z.shiftl_mul_pow2 by lia.
  destruct (Z.testbit e k) eqn:E.
  - apply negb_true_iff, Z.eqb_neq. intros H. assert (Z.testbit (Z.land e (Z.shiftl 1 k)) k = true) as Ht.
    { rewrite Z.land_spec, E, Z.shiftl_spec, Z.sub_diag by lia. done. }
    rewrite H, Z.bits_0 in Ht. done.
  - apply negb_false_iff, Z.eqb_eq, Z.bits_inj'. intros n Hn. rewrite Z.land_spec, Z.bits_0, Z.shiftl_1_l.
    destruct (decide (n = k)) as [->|]; [by rewrite E|]. rewrite Z.pow2_bits_false by lia. apply andb_false_r.
Qed.

Lemma present_bit e : IS_PRESENT e = Z.testbit e 0.
Proof. apply (has_flag_bit e 0). lia. Qed.

Lemma size_bit e : has_flag e PT_SIZE = Z.testbit e 7.
Proof. apply (has_flag_bit e 7). lia. Qed.

(** An address and flags in one word. *)
Lemma lor_flags a f : a mod 4096 = 0 -> 0 <= f < 4096 -> Z.lor a f = a + f.
Proof.
  intros Ha Hf. assert (Z.land a f = 0) as H0.
  { apply Z.bits_inj'. intros i Hi. rewrite Z.land_spec, Z.bits_0. destruct (Z.ltb_spec i 12).
    - rewrite <- (Z.mod_pow2_bits_low a 12) by lia. change (2 ^ 12) with 4096. by rewrite Ha, Z.bits_0.
    - rewrite <- (Z.mod_small f (2 ^ 12)), (Z.mod_pow2_bits_high f) by lia. apply andb_false_r. }
  pose proof (Z.add_lor_land a f). lia.
Qed.

(** ** Levels

    Level 1 are the [pt] tables, level 4 the [pml4]; an entry of level [l] maps
    [2 ^ vshift l] bytes. *)

Definition vshift (l : nat) : Z := 3 + 9 * Z.of_nat l.
Definition vidx (l : nat) (v : Z) : Z := (v / 2 ^ vshift l) mod 512.

Lemma index_mask x : Z.land x INDEX_MASK = x mod 512.
Proof. apply (Z.land_ones x 9). lia. Qed.

Lemma PML4E_idx v : PML4E v = vidx 4 v.
Proof. unfold PML4E, vidx. by rewrite index_mask, Z.shiftr_div_pow2. Qed.
Lemma PDPE_idx v : PDPE v = vidx 3 v.
Proof. unfold PDPE, vidx. by rewrite index_mask, Z.shiftr_div_pow2. Qed.
Lemma PDE_idx v : PDE v = vidx 2 v.
Proof. unfold PDE, vidx. by rewrite index_mask, Z.shiftr_div_pow2. Qed.
Lemma PTE_idx v : PTE v = vidx 1 v.
Proof. unfold PTE, vidx. by rewrite index_mask, Z.shiftr_div_pow2. Qed.

Lemma vidx_range l v : 0 <= vidx l v < 512.
Proof. apply Z.mod_pos_bound. lia. Qed.

(** The page of an address, as the tables see it. *)
Definition vpage (v : Z) : Z := v / 4096 mod 2 ^ 36.

Lemma div_step v l : 0 <= v -> v / 2 ^ vshift l = v / 2 ^ vshift (S l) * 512 + vidx l v.
Proof.
  intros Hv. unfold vidx. replace (vshift (S l)) with (vshift l + 9) by (unfold vshift; lia).
  rewrite Z.pow_add_r, <- Z.div_div by (unfold vshift; lia || (apply Z.pow_pos_nonneg; unfold vshift; lia)).
  pose proof (Z.div_mod (v / 2 ^ vshift l) 512). change (2 ^ 9) with 512. lia.
Qed.

Lemma vpage_idx v : 0 <= v -> vpage v = ((vidx 4 v * 512 + vidx 3 v) * 512 + vidx 2 v) * 512 + vidx 1 v.
Proof.
  intros Hv. unfold vpage. change 4096 with (2 ^ vshift 1). rewrite (div_step v 1), (div_step v 2), (div_step v 3), (div_step v 4) by done.
  pose proof (vidx_range 1 v). pose proof (vidx_range 2 v). pose proof (vidx_range 3 v). pose proof (vidx_range 4 v).
  set (q := v / 2 ^ vshift 5) in *. symmetry. apply (Z.mod_unique_pos _ _ q); lia.
Qed.

Lemma vpage_same v v' :
  0 <= v -> 0 <= v' -> vpage v = vpage v' <-> vidx 4 v = vidx 4 v' /\ vidx 3 v = vidx 3 v' /\ vidx 2 v = vidx 2 v' /\ vidx 1 v = vidx 1 v'.
Proof.
  intros Hv Hv'. rewrite !vpage_idx by done.
  pose proof (vidx_range 1 v). pose proof (vidx_range 2 v). pose proof (vidx_range 3 v). pose proof (vidx_range 4 v).
  pose proof (vidx_range 1 v'). pose proof (vidx_range 2 v'). pose proof (vidx_range 3 v'). pose proof (vidx_range 4 v'). lia.
Qed.

(** ** The walk *)

Definition is_leaf (l : nat) (e : Z) : bool := (l =? 1)%nat || ((l <? 4)%nat && has_flag e PT_SIZE).
Definition leaf_addr (l : nat) (e v : Z) : Z := u64 (page_align_down (vshift l) e + page_offset (vshift l) v).
Definition entry_at m t (l : nat) v : Z := load64 m (slot t (vidx l v)).

Fixpoint walk (l : nat) m t v : option Z :=
  match l with
  | O => None
  | S l' =>
      let e := entry_at m t l v in
      if negb (IS_PRESENT e) then None
      else if is_leaf l e then Some (leaf_addr l e v)
      else walk l' m (table_of e) v
  end.

(** The translation that the tables of [pml4] define. *)
Definition translate s pml4 v : option Z := walk 4 (pt_mem s) pml4 v.

(** The tables that the walk of [v] passes. *)
Inductive reaches m (pml4 : Z) v : nat -> Z -> Prop :=
| reach_root : reaches m pml4 v 4 pml4
| reach_child l t :
    reaches m pml4 v (S l) t -> IS_PRESENT (entry_at m t (S l) v) = true -> is_leaf (S l) (entry_at m t (S l) v) = false ->
    reaches m pml4 v l (table_of (entry_at m t (S l) v)).

Lemma reach_le m pml4 v l t : reaches m pml4 v l t -> (l <= 4)%nat.
Proof. induction 1; lia. Qed.

Lemma walk_reach m pml4 v l t : reaches m pml4 v l t -> walk 4 m pml4 v = walk l m t v.
Proof.
  induction 1 as [|l t Hr IH Hp Hl]; [done|]. rewrite IH. cbn [walk]. by rewrite Hp, Hl.
Qed.

Lemma virt_to_phys_walk pml4 v s :
  0 <= v < 2 ^ 64 -> in_physmap s v = false ->
  pt_virt_to_phys_helper pml4 v s = match translate s pml4 v with Some p => Done p s | None => Failed Assert end.
Proof.
  intros Hv Hphys. unfold pt_virt_to_phys_helper, translate, pt_entry, bind, get, gets. rewrite Hphys, PML4E_idx, PDPE_idx, PDE_idx, PTE_idx.
  cbn [walk]. unfold entry_at, is_leaf, leaf_addr, IS_1GB_PAGE, IS_2MB_PAGE. cbn [Nat.eqb Nat.ltb Nat.leb orb andb].
  do 4 (match goal with |- context [IS_PRESENT ?e] => destruct (IS_PRESENT e) end; cbn [negb kassert]; [unfold ret|done];
    try (match goal with |- context [has_flag ?e PT_SIZE] => destruct (has_flag e PT_SIZE) end; [done|])). done.
Qed.

Lemma status_walk pml4 v s :
  exists st, _vaddr_status pml4 v s = Done st s /\ (st = UNMAPPED <-> translate s pml4 v = None).
Proof.
  unfold _vaddr_status, translate, pt_entry, bind, gets. rewrite PML4E_idx, PDPE_idx, PDE_idx, PTE_idx.
  cbn [walk]. unfold entry_at, is_leaf, IS_1GB_PAGE, IS_2MB_PAGE. cbn [Nat.eqb Nat.ltb Nat.leb orb andb].
  do 4 (match goal with |- context [IS_PRESENT ?e] => destruct (IS_PRESENT e) end; cbn [negb]; [|by eexists];
    try (match goal with |- context [has_flag ?e PT_SIZE] => destruct (has_flag e PT_SIZE) end; [by eexists|])). by eexists.
Qed.

(** ** The invariant of the tables

    [L] gives the level of the tables of [pml4]. *)

Record tables_ok (F : gset Z) (L : gmap Z nat) (pml4 : Z) s : Prop := TablesOk {
  to_pages : free_pages F (pt_pages s);
  to_root : L !! pml4 = Some 4%nat;
  to_table : forall t l, L !! t = Some l ->
    exists pg, t = pg * 4096 + PHYS_OFFSET /\ 0 < pg < max_pages (pt_pages s) /\ pg ∉ F;
  to_word : forall t l i, L !! t = Some l -> 0 <= i < 512 -> 0 <= load64 (pt_mem s) (slot t i) < 2 ^ 64;
  to_child : forall t l i, L !! t = Some (S l) -> 0 <= i < 512 -> let e := load64 (pt_mem s) (slot t i) in
    IS_PRESENT e = true -> is_leaf (S l) e = false -> L !! table_of e = Some l;
  to_unique : forall t l i t' l' i', L !! t = Some (S l) -> L !! t' = Some (S l') -> 0 <= i < 512 -> 0 <= i' < 512 ->
    let e := load64 (pt_mem s) (slot t i) in let e' := load64 (pt_mem s) (slot t' i') in
    IS_PRESENT e = true -> is_leaf (S l) e = false -> IS_PRESENT e' = true -> is_leaf (S l') e' = false ->
    table_of e = table_of e' -> t = t' /\ i = i';
  to_leaf : forall t l i, L !! t = Some l -> 0 <= i < 512 -> let e := load64 (pt_mem s) (slot t i) in
    IS_PRESENT e = true -> is_leaf l e = true -> e mod 2 ^ vshift l < 4096;
}.

Section tables.
Context F L pml4 s (Hok : tables_ok F L pml4 s).

Lemma reach_level v l t : reaches (pt_mem s) pml4 v l t -> L !! t = Some l.
Proof using Hok.
  induction 1 as [|l t Hr IH Hp Hl]; [apply (to_root _ _ _ _ Hok)|]. by eapply (to_child _ _ _ _ Hok); [exact IH|apply vidx_range|..].
Qed.

(** Two walks that pass the same table have taken the same entries. *)
Lemma reach_prefix v v' l t :
  reaches (pt_mem s) pml4 v l t -> reaches (pt_mem s) pml4 v' l t -> forall k, (l < k <= 4)%nat -> vidx k v = vidx k v'.
Proof using Hok.
  intros Hr. revert v'. induction Hr as [|l t Hr IH Hp Hl]; intros v' Hr' k Hk; [lia|].
  remember (table_of (entry_at (pt_mem s) t (S l) v)) as c eqn:Ec. revert Ec. 
  inversion Hr' as [|l' t' Hr2 Hp2 Hl2]; subst; intros Ec; [pose proof (reach_le _ _ _ _ _ Hr); lia|].
  destruct (to_unique _ _ _ _ Hok t l (vidx (S l) v) t' l (vidx (S l) v')) as [-> Hi]; try done;
    [by apply (reach_level v)|by apply (reach_level v')|apply vidx_range|apply vidx_range|].
  destruct (decide (k = S l)) as [->|]; [done|]. apply IH; [done|lia].
Qed.

Lemma table_slot t l i : L !! t = Some l -> 0 <= i < 512 ->
  exists pg, t = pg * 4096 + PHYS_OFFSET /\ 0 < pg < max_pages (pt_pages s) /\ pg ∉ F /\ t <= slot t i /\ slot t i + 8 <= t + 4096.
Proof using Hok.
  intros Hl Hi. destruct (to_table _ _ _ _ Hok t l Hl) as (pg & -> & Hpg & HF). exists pg. unfold slot. split_and!; (done || lia).
Qed.

(** Entries of tables do not overlap. *)
Lemma slots_apart t l i t' l' i' :
  L !! t = Some l -> L !! t' = Some l' -> 0 <= i < 512 -> 0 <= i' < 512 -> (t, i) <> (t', i') ->
  slot t i + 8 <= slot t' i' \/ slot t' i' + 8 <= slot t i.
Proof using Hok.
  intros Hl Hl' Hi Hi' Hne. destruct (table_slot t l i Hl Hi) as (pg & -> & ? & ? & ? & ?).
  destruct (table_slot t' l' i' Hl' Hi') as (pg' & -> & ? & ? & ? & ?). unfold slot in *.
  destruct (decide (pg = pg')) as [->|]; [|lia]. assert (i <> i') by congruence. lia.
Qed.

(** ** One entry changes *)

Section change.
Context (t0 : Z) (l0 : nat) (i0 : Z) (m' : memory) (Hl0 : L !! t0 = Some l0) (Hi0 : 0 <= i0 < 512).
Context (Hsame : forall t l i, L !! t = Some l -> 0 <= i < 512 -> (t, i) <> (t0, i0) ->
           load64 m' (slot t i) = load64 (pt_mem s) (slot t i)).

Lemma walk_below l t v : L !! t = Some l -> (l < l0)%nat -> walk l m' t v = walk l (pt_mem s) t v.
Proof using Hok Hl0 Hi0 Hsame.
  revert t. induction l as [|l IH]; intros t Ht Hlt; [done|]. cbn [walk].
  assert (entry_at m' t (S l) v = entry_at (pt_mem s) t (S l) v) as ->.
  { apply (Hsame _ (S l)); [done|apply vidx_range|]. intros [= -> _]. rewrite Hl0 in Ht. injection Ht. lia. }
  destruct (IS_PRESENT _) eqn:Hp; [|done]. destruct (is_leaf _ _) eqn:Hlf; [done|]. cbn [negb].
  apply IH; [|lia]. by eapply (to_child _ _ _ _ Hok); [exact Ht|apply vidx_range|..].
Qed.

(** The walk of an address changes only when it takes the entry. *)
Lemma change_from v l t :
  reaches (pt_mem s) pml4 v l t ->
  (reaches (pt_mem s) pml4 v l0 t0 /\ vidx l0 v = i0 /\ walk l m' t v = walk l0 m' t0 v) \/ walk l m' t v = walk l (pt_mem s) t v.
Proof using Hok Hl0 Hi0 Hsame.
  revert t. induction l as [|l IH]; intros t Hr; [by right|].
  pose proof (reach_level _ _ _ Hr) as Ht. destruct (decide ((t, vidx (S l) v) = (t0, i0))) as [[= -> <-]|Hne].
  { left. assert (l0 = S l) as -> by congruence. done. }
  assert (entry_at m' t (S l) v = entry_at (pt_mem s) t (S l) v) as He by (apply (Hsame _ (S l)); [done|apply vidx_range|done]).
  cbn [walk]. rewrite He. destruct (IS_PRESENT _) eqn:Hp; [|by right]. destruct (is_leaf _ _) eqn:Hlf; [by right|]. cbn [negb].
  apply IH. by apply reach_child.
Qed.

Lemma change_walk v :
  (reaches (pt_mem s) pml4 v l0 t0 /\ vidx l0 v = i0 /\ walk 4 m' pml4 v = walk l0 m' t0 v)
  \/ walk 4 m' pml4 v = walk 4 (pt_mem s) pml4 v.
Proof using Hok Hl0 Hi0 Hsame. apply (change_from v 4 pml4), reach_root. Qed.

(** The path of an address to a table above the entry stays. *)
Lemma reach_above v l t : (l0 <= l)%nat -> reaches (pt_mem s) pml4 v l t -> reaches m' pml4 v l t.
Proof using Hok Hl0 Hi0 Hsame.
  intros Hle Hr. induction Hr as [|l t Hr IH Hp Hl]; [constructor|].
  assert (entry_at m' t (S l) v = entry_at (pt_mem s) t (S l) v) as He.
  { apply (Hsame _ (S l)); [by eapply reach_level|apply vidx_range|]. intros [= -> _].
    apply reach_level in Hr. rewrite Hl0 in Hr. injection Hr. lia. }
  rewrite <- He in *. apply reach_child; [apply IH; lia|done..].
Qed.
End change.
End tables.
