(* ===== verification/PagetableMap.v ===== *)
(** The steps of [pt_map_range] and [pt_unmap_range] on the tables: an entry is
    rewritten, a table is added, a large page is split ([mm/pagetable.c]). *)

From S2P Require Import Prelude Page PageTree PageProofs PageAllocProofs PageTheorems KMem Pagetable PagetableProofs.

Implicit Types (m : memory) (s : pt_st) (t v e : Z) (l : nat).

(** ** Entries *)

Lemma table_of_page pg f :
  0 <= pg < 2 ^ 30 -> 0 <= f < 4096 -> table_of (pg * 4096 + f) = pg * 4096 + PHYS_OFFSET.
Proof.
  intros Hpg Hf. unfold table_of. rewrite align_down_div by (unfold PAGE_SHIFT; lia). change (2 ^ PAGE_SHIFT) with 4096.
  rewrite Z.div_add_l, (Z.div_small f), Z.add_0_r by lia. apply u64_id. unfold PHYS_OFFSET. lia.
Qed.

Lemma lor_entry pg f : 0 <= pg < 2 ^ 30 -> 0 <= f < 4096 -> Z.lor (u64 (pg * 4096 + PHYS_OFFSET - PHYS_OFFSET)) f = pg * 4096 + f.
Proof.
  intros Hpg Hf. replace (pg * 4096 + PHYS_OFFSET - PHYS_OFFSET) with (pg * 4096) by lia. rewrite u64_id by lia.
  apply lor_flags; [apply Z.mod_mul; lia|done].
Qed.

Lemma low_bits_flag pg f k : 0 <= pg -> 0 <= f < 4096 -> 0 <= k < 12 -> Z.testbit (pg * 4096 + f) k = Z.testbit f k.
Proof.
  intros Hpg Hf Hk. rewrite <- (Z.mod_pow2_bits_low (pg * 4096 + f) 12) by lia. change (2 ^ 12) with 4096.
  by rewrite Z.add_comm, Z_mod_plus_full, Z.mod_small.
Qed.

(** Flags added to an entry leave its address. *)
Lemma lor_same_table e f :
  0 <= e < 2 ^ 64 -> 0 <= f < 4096 -> has_flag f PT_SIZE = false ->
  0 <= Z.lor e f < 2 ^ 64 /\ table_of (Z.lor e f) = table_of e /\ has_flag (Z.lor e f) PT_SIZE = has_flag e PT_SIZE
  /\ (IS_PRESENT e = true -> IS_PRESENT (Z.lor e f) = true).
Proof.
  intros He Hf Hsz. assert (page_align_down PAGE_SHIFT (Z.lor e f) = page_align_down PAGE_SHIFT e) as Ha.
  { apply Z.bits_inj'. intros i Hi. unfold page_align_down. rewrite !Z.land_spec, Z.lor_spec, page_mask_bits by (unfold PAGE_SHIFT; lia).
    destruct (Z.leb_spec PAGE_SHIFT i); [|by rewrite !andb_false_r]. unfold PAGE_SHIFT in *.
    rewrite <- (Z.mod_small f (2 ^ 12)), (Z.mod_pow2_bits_high f) by lia. by rewrite orb_false_r. }
  split_and!.
  - apply Z.lor_nonneg. lia.
  - assert (word64 (Z.lor e f)) as Hw; [|unfold word64 in Hw; lia]. apply word64_bits. split; [apply Z.lor_nonneg; lia|].
    intros j Hj. rewrite Z.lor_spec, (word_high e), (word_high f) by lia. done.
  - unfold table_of. by rewrite Ha.
  - rewrite !size_bit, Z.lor_spec. rewrite size_bit in Hsz. by rewrite Hsz, orb_false_r.
  - rewrite !present_bit, Z.lor_spec. intros ->. done.
Qed.

Section update.
Context F L pml4 s (Hok : tables_ok F L pml4 s) (t0 : Z) (l0 : nat) (i0 : Z) (Hl0 : L !! t0 = Some l0) (Hi0 : 0 <= i0 < 512).

Lemma store_same e' t l i :
  L !! t = Some l -> 0 <= i < 512 -> (t, i) <> (t0, i0) ->
  load64 (store64 (pt_mem s) (slot t0 i0) e') (slot t i) = load64 (pt_mem s) (slot t i).
Proof using Hok Hl0 Hi0. intros Ht Hi Hne. apply load64_store64_ne. by eapply (slots_apart _ _ _ _ Hok). Qed.

Lemma store_lookup e' t i :
  0 <= e' < 2 ^ 64 -> 0 <= i < 512 -> is_Some (L !! t) ->
  load64 (store64 (pt_mem s) (slot t0 i0) e') (slot t i) = if decide ((t, i) = (t0, i0)) then e' else load64 (pt_mem s) (slot t i).
Proof using Hok Hl0 Hi0.
  intros He Hi [l Ht]. destruct (decide _) as [[= -> ->]|Hne]; [by apply load64_store64|by eapply store_same].
Qed.

Lemma set_slot_ok e' (e := load64 (pt_mem s) (slot t0 i0)) :
  0 <= e' < 2 ^ 64 ->
  (IS_PRESENT e' = true -> is_leaf l0 e' = true -> e' mod 2 ^ vshift l0 < 4096) ->
  (IS_PRESENT e' = true -> is_leaf l0 e' = false -> IS_PRESENT e = true /\ is_leaf l0 e = false /\ table_of e' = table_of e) ->
  tables_ok F L pml4 (set_pt_mem (store64 (pt_mem s) (slot t0 i0) e') s).
Proof using Hok Hl0 Hi0.
  intros He Hleaf Hptr. destruct Hok as [H1 H2 H3 H4 H5 H6 H7]. split; cbn [pt_pages pt_mem set_pt_mem]; [done|done|done|..].
  - intros t l i Ht Hi. rewrite store_lookup by done. destruct (decide _); [done|by eapply H4].
  - intros t l i Ht Hi. rewrite store_lookup by done. destruct (decide _) as [[= -> ->]|]; [|by apply H5].
    intros Hp Hl. assert (l0 = S l) as -> by congruence. destruct (Hptr Hp Hl) as (Hp' & Hl' & ->). by eapply H5.
  - intros t l i t' l' i' Ht Ht' Hi Hi'. rewrite !store_lookup by done.
    destruct (decide ((t, i) = _)) as [[= -> ->]|Hn]; destruct (decide ((t', i') = _)) as [[= -> ->]|Hn'];
      [done| | |by eapply H6]; intros Hp Hl Hp' Hl' Ec.
    + assert (l0 = S l) as -> by congruence. destruct (Hptr Hp Hl) as (Hq & Hq' & Ee). rewrite Ee in Ec.
      destruct Hn'. by destruct (H6 t0 l i0 t' l' i') as [-> ->].
    + assert (l0 = S l') as -> by congruence. destruct (Hptr Hp' Hl') as (Hq & Hq' & Ee). rewrite Ee in Ec.
      destruct Hn. by destruct (H6 t l i t0 l' i0) as [-> ->].
  - intros t l i Ht Hi. rewrite store_lookup by done. destruct (decide _) as [[= -> ->]|]; [|by apply H7].
    assert (l0 = l) as -> by congruence. done.
Qed.

(** The same table with other flags. *)
Lemma flags_translate e' (e := load64 (pt_mem s) (slot t0 i0)) v :
  0 <= e' < 2 ^ 64 -> IS_PRESENT e = true -> is_leaf l0 e = false -> IS_PRESENT e' = true -> is_leaf l0 e' = false ->
  table_of e' = table_of e -> walk 4 (store64 (pt_mem s) (slot t0 i0) e') pml4 v = walk 4 (pt_mem s) pml4 v.
Proof using Hok Hl0 Hi0.
  intros He Hp Hl Hp' Hl' Ec. pose proof (store_same e') as Hss. destruct (change_walk F L pml4 s Hok t0 l0 i0 _ Hl0 Hi0 Hss v) as [(Hr & Hv & Hw)|Hw]; [|done].
  rewrite Hw, (walk_reach _ _ _ _ _ Hr). destruct l0 as [|l]; [done|]. cbn [walk]. unfold entry_at. rewrite Hv.
  rewrite load64_store64 by done. fold e. rewrite Hp, Hl, Hp', Hl', Ec. cbn [negb].
  apply (walk_below F L pml4 s Hok t0 (S l) i0 _ Hl0 Hi0 Hss); [|lia]. by apply (to_child _ _ _ _ Hok _ _ _ Hl0 Hi0).
Qed.

(** A new leaf, or none. *)
Lemma leaf_translate e' v :
  0 <= e' < 2 ^ 64 -> (IS_PRESENT e' = true -> is_leaf l0 e' = true) -> (0 < l0)%nat ->
  walk 4 (store64 (pt_mem s) (slot t0 i0) e') pml4 v = walk 4 (pt_mem s) pml4 v
  \/ (reaches (pt_mem s) pml4 v l0 t0 /\ vidx l0 v = i0 /\
      walk 4 (store64 (pt_mem s) (slot t0 i0) e') pml4 v = if IS_PRESENT e' then Some (leaf_addr l0 e' v) else None).
Proof using Hok Hl0 Hi0.
  intros He Hlf Hpos. destruct (change_walk F L pml4 s Hok t0 l0 i0 _ Hl0 Hi0 (store_same e') v) as [(Hr & Hv & Hw)|Hw]; [right|by left].
  split_and!; [done|done|]. rewrite Hw. destruct l0 as [|l]; [lia|]. cbn [walk]. unfold entry_at. rewrite Hv, load64_store64 by done.
  destruct (IS_PRESENT e'); [|done]. by rewrite Hlf.
Qed.
End update.

(** ** A table is added

    The page [pg] becomes a table of level [l] with the entries [f]; entry [i0]
    of the table [t0] points to it. *)

Section link.
Context F L pml4 s (Hok : tables_ok F L pml4 s) (t0 : Z) (l : nat) (i0 : Z) (Hl0 : L !! t0 = Some (S l)) (Hi0 : 0 <= i0 < 512).
Context (pg : Z) (ps : page_st) (m' : memory) (e' : Z) (f : Z -> Z) (Hpos : (1 <= l)%nat).
Context (Hpg : pg ∈ F) (Hps : free_pages (F ∖ {[pg]}) ps) (Hmax : max_pages ps = max_pages (pt_pages s)).
Context (Hold : IS_PRESENT (load64 (pt_mem s) (slot t0 i0)) = true -> is_leaf (S l) (load64 (pt_mem s) (slot t0 i0)) = true).
Context (He' : load64 m' (slot t0 i0) = e') (Hew : 0 <= e' < 2 ^ 64) (Hep : IS_PRESENT e' = true) (Hel : is_leaf (S l) e' = false).
Abbreviation new := (pg * 4096 + PHYS_OFFSET).
Context (Het : table_of e' = new).
Context (Hnew : forall i, 0 <= i < 512 -> load64 m' (slot new i) = f i).
Context (Hf : forall i, 0 <= i < 512 -> 0 <= f i < 2 ^ 64 /\ (IS_PRESENT (f i) = true -> is_leaf l (f i) = true /\ f i mod 2 ^ vshift l < 4096)).
Context (Hsame : forall t l1 i, L !! t = Some l1 -> 0 <= i < 512 -> (t, i) <> (t0, i0) -> load64 m' (slot t i) = load64 (pt_mem s) (slot t i)).

Lemma new_fresh : L !! new = None.
Proof using Hok Hpg.
  destruct (L !! new) as [l1|] eqn:E; [|done]. destruct (to_table _ _ _ _ Hok _ _ E) as (pg' & Eq & _ & HF).
  assert (pg = pg') as E2 by (clear -Eq; lia). by rewrite <- E2 in HF.
Qed.

Abbreviation s' := (PtSt ps m' (cr3 s) (global_kernel_only_pml4 s) (pt_inited s)).

(** The entries of the old tables and of the new one. *)
Lemma linked_entry t l1 i :
  (<[new := l]> L) !! t = Some l1 -> 0 <= i < 512 ->
  (t = new /\ l1 = l /\ load64 m' (slot t i) = f i)
  \/ (L !! t = Some l1 /\ t <> new /\ (t, i) = (t0, i0) /\ load64 m' (slot t i) = e')
  \/ (L !! t = Some l1 /\ t <> new /\ (t, i) <> (t0, i0) /\ load64 m' (slot t i) = load64 (pt_mem s) (slot t i)).
Proof using Hnew He' Hsame.
  intros Ht Hi. destruct (decide (t = new)) as [->|Hne].
  - rewrite lookup_insert_eq in Ht. injection Ht as <-. left. auto.
  - rewrite lookup_insert_ne in Ht by done. right. destruct (decide ((t, i) = (t0, i0))) as [E|E]; [left|right; eauto].
    injection E as -> ->. done.
Qed.

Lemma link_ok : tables_ok (F ∖ {[pg]}) (<[new := l]> L) pml4 s'.
Proof.
  pose proof new_fresh as Hfr. pose proof Hok as [H1 H2 H3 H4 H5 H6 H7]. split; cbn [pt_pages pt_mem].
  - done.
  - rewrite lookup_insert_ne; [done|]. intros E. by rewrite E, H2 in Hfr.
  - intros t l1 Ht. rewrite Hmax. apply lookup_insert_Some in Ht as [[<- <-]|[_ Ht]].
    + exists pg. destruct H1 as [_ Hr _ _ _]. split_and!; [done|by apply Hr|by apply Hr|set_solver].
    + destruct (H3 _ _ Ht) as (pg' & -> & ? & ?). exists pg'. split_and!; (done || set_solver).
  - intros t l1 i Ht Hi. destruct (linked_entry t l1 i Ht Hi) as [(-> & -> & ->)|[(_ & _ & _ & ->)|(Ht' & _ & _ & ->)]];
      [by apply Hf|done|by eapply H4].
  - intros t l1 i Ht Hi. destruct (linked_entry t (S l1) i Ht Hi) as [(-> & <- & ->)|[(Ht' & _ & [= -> ->] & ->)|(Ht' & _ & _ & ->)]];
      intros Hp Hl.
    + destruct (Hf i Hi) as [_ Hlf]. destruct (Hlf Hp). congruence.
    + assert (l1 = l) as -> by congruence. by rewrite Het, lookup_insert_eq.
    + pose proof (H5 _ _ _ Ht' Hi Hp Hl) as Hc. rewrite lookup_insert_ne; [done|]. intros E. by rewrite <- E, Hfr in Hc.
  - intros t l1 i t' l1' i' Ht Ht' Hi Hi'.
    destruct (linked_entry t (S l1) i Ht Hi) as [(-> & E1 & ->)|[(Hq & _ & [= -> ->] & ->)|(Hq & _ & _ & ->)]];
    destruct (linked_entry t' (S l1') i' Ht' Hi') as [(-> & E1' & ->)|[(Hq' & _ & [= -> ->] & ->)|(Hq' & _ & _ & ->)]];
      intros Hp Hl Hp' Hl' Ec; try (destruct (Hf i Hi) as [_ Hlf]; rewrite <- E1 in Hlf; destruct (Hlf Hp); congruence);
      try (destruct (Hf i' Hi') as [_ Hlf]; rewrite <- E1' in Hlf; destruct (Hlf Hp'); congruence).
    + done.
    + pose proof (H5 _ _ _ Hq' Hi' Hp' Hl') as Hc. rewrite <- Ec, Het, Hfr in Hc. done.
    + pose proof (H5 _ _ _ Hq Hi Hp Hl) as Hc. rewrite Ec, Het, Hfr in Hc. done.
    + by eapply H6.
  - intros t l1 i Ht Hi. destruct (linked_entry t l1 i Ht Hi) as [(-> & -> & ->)|[(Ht' & _ & [= -> ->] & ->)|(Ht' & _ & _ & ->)]].
    + intros Hp _. by apply Hf.
    + assert (l1 = S l) as -> by congruence. congruence.
    + by apply H7.
Qed.

Lemma link_translate v :
  walk 4 m' pml4 v = walk 4 (pt_mem s) pml4 v
  \/ reaches (pt_mem s) pml4 v (S l) t0 /\ vidx (S l) v = i0 /\
     walk 4 m' pml4 v = if IS_PRESENT (f (vidx l v)) then Some (leaf_addr l (f (vidx l v)) v) else None.
Proof.
  destruct (change_walk F L pml4 s Hok t0 (S l) i0 _ Hl0 Hi0 Hsame v) as [(Hr & Hv & Hw)|Hw]; [right|by left].
  split_and!; [done|done|]. rewrite Hw. cbn [walk]. unfold entry_at. rewrite Hv, He', Hep, Hel, Het. cbn [negb].
  destruct l as [|l']; [lia|]. cbn [walk]. unfold entry_at. rewrite Hnew by apply vidx_range.
  destruct (Hf (vidx (S l') v) (vidx_range _ _)) as [_ Hlf]. destruct (IS_PRESENT (f (vidx (S l') v))); [|done]. by destruct (Hlf eq_refl) as [-> _].
Qed.

(** The walk of [v0] goes on in the new table. *)
Lemma link_reach v0 : reaches (pt_mem s) pml4 v0 (S l) t0 -> vidx (S l) v0 = i0 -> reaches m' pml4 v0 l new.
Proof.
  intros Hr Hv. apply (reach_above F L pml4 s Hok t0 (S l) i0 m' Hl0 Hi0 Hsame) in Hr; [|lia].
  rewrite <- Het, <- He'. rewrite <- Hv in *. by apply reach_child; unfold entry_at; rewrite ?He'.
Qed.
End link.

(** ** Pages for tables *)

Lemma wp_new_page F s Q :
  free_pages F (pt_pages s) -> (F = ∅ -> Q 0 s) ->
  (forall pg ps, pg ∈ F -> free_pages (F ∖ {[pg]}) ps -> same_tree (pt_pages s) ps -> Q (pg * 4096 + PHYS_OFFSET) (set_pt_pages ps s)) ->
  wp (on_pages page_alloc) Q s.
Proof.
  intros HF Hnone Hsome. unfold on_pages, page_alloc, page_alloc_n. apply wp_zoom.
  eapply wp_mono; [apply (wp_page_alloc F); [done|]|].
  - pose proof (pow2_pos (max_order (pt_pages s))). lia.
  - intros r ps [(-> & -> & Hno)|(p & -> & Hp & Hsub & Hps & Htree)].
    + replace (set_pt_pages (pt_pages s) s) with s by by destruct s. apply Hnone.
      apply set_eq. intros p. split; [|set_solver]. intros Hin. exfalso. destruct (pg_range _ _ HF p Hin) as [Hp0 Hp1].
      pose proof (max_pages_small _ _ HF).
      specialize (Hno 0%nat p ltac:(lia) ltac:(done) ltac:(lia)). rewrite full_spec in Hno.
      assert (forall q, q / pow2 0 = p -> q ∈ F) as Hq by (intros q; change (pow2 0) with 1; rewrite Z.div_1_r; by intros ->).
      specialize (Hno Hq). change (pow2 0) with 1 in Hno. revert Hno. vm_compute (u64 _). lia.
    + assert (range p 1 = {[p]}) as E by (apply set_eq; intros q; rewrite elem_of_range; set_solver by lia).
      rewrite E in *. apply Hsome; [set_solver|done|done].
Qed.

Lemma wp_zero_page t s Q :
  (forall m', (forall i, 0 <= i < 512 -> load64 m' (slot t i) = 0) ->
     (forall x, ~ (t <= x < t + 4096) -> load8 m' x = load8 (pt_mem s) x) -> Q tt (set_pt_mem m' s)) ->
  wp (zero_page t) Q s.
Proof.
  intros HQ. unfold zero_page. apply wp_modify, HQ.
  - intros i Hi. apply load64_zero. unfold slot. intros x Hx.
    replace x with (t + Z.of_nat (Z.to_nat (x - t))) by lia. apply load8_store_bytes_in, lookup_replicate. unfold PAGE_SIZE. lia.
  - intros x Hx. apply load8_store_bytes_out. rewrite length_replicate. unfold PAGE_SIZE. lia.
Qed.

Lemma wp_fill_entries t first last f s Q :
  0 <= first <= last -> (forall i, first <= i < last -> 0 <= f i < 2 ^ 64) ->
  (forall m', (forall i, first <= i < last -> load64 m' (slot t i) = f i) ->
     (forall x, ~ (slot t first <= x < slot t last) -> load8 m' x = load8 (pt_mem s) x) -> Q tt (set_pt_mem m' s)) ->
  wp (fill_entries t first last f) Q s.
Proof.
  unfold fill_entries. intros Hle Hf HQ. remember (Z.to_nat (last - first)) as n eqn:En. revert first s Hle Hf HQ En.
  induction n as [|n IH]; intros first s Hle Hf HQ En.
  { assert (last = first) as -> by lia. rewrite Z.sub_diag. apply wp_ret. replace s with (set_pt_mem (pt_mem s) s) by by destruct s.
    apply HQ; [lia|done]. }
  rewrite seqZ_cons by lia. cbn [for_each]. unfold set_entry at 1. wp_steps.
  replace (Z.pred (last - first)) with (last - Z.succ first) by lia. apply IH; [lia|intros; apply Hf; lia| |lia].
  intros m' H1 H2. apply HQ.
  - intros i Hi. destruct (decide (i = first)) as [->|]; [|apply H1; lia].
    rewrite <- (load64_store64 (pt_mem s) (slot t first) (f first)) by (apply Hf; lia).
    apply load64_ext. intros x Hx. apply H2. unfold slot in *. lia.
  - intros x Hx. rewrite H2 by (unfold slot in *; lia). apply load8_store64_ne. unfold slot in *. lia.
Qed.

(** ** Descending *)

Definition flags_ok (f : Z) : Prop := 0 <= f < 4096 /\ IS_PRESENT f = true /\ has_flag f PT_SIZE = false.

(** The walk of [v0] has got to the table [t'] of level [l]; the translation is
    that of before, and at most one page was taken. *)
Definition descended (F : gset Z) (pml4 v0 : Z) (l : nat) s (t' : Z) s' : Prop :=
  exists F' L', tables_ok F' L' pml4 s' /\ (forall v, 0 <= v < 2 ^ 64 -> translate s' pml4 v = translate s pml4 v)
    /\ reaches (pt_mem s') pml4 v0 l t' /\ (size F <= size F' + 1)%nat.

Section descend.
Context F L pml4 s (Hok : tables_ok F L pml4 s) (v0 : Z) (t : Z) (l : nat) (pdflags : Z).
Context (Hr : reaches (pt_mem s) pml4 v0 (S l) t) (Hpos : (1 <= l)%nat) (Hfl : flags_ok pdflags).
Abbreviation e := (entry_at (pt_mem s) t (S l) v0).

(** A pointer gets more flags. *)
Lemma wp_or_flags Q :
  IS_PRESENT e = true -> is_leaf (S l) e = false ->
  (forall t' s', descended F pml4 v0 l s t' s' -> Q (Table t') s') ->
  wp (do! set_entry t (vidx (S l) v0) (Z.lor e pdflags); ret (Table (table_of (Z.lor e pdflags)))) Q s.
Proof using Hok Hr Hpos Hfl.
  intros Hp Hlf HQ. pose proof (reach_level _ _ _ _ Hok _ _ _ Hr) as Ht. pose proof (vidx_range (S l) v0) as Hi.
  destruct Hfl as (Hf1 & Hf2 & Hf3). pose proof (to_word _ _ _ _ Hok _ _ _ Ht Hi) as Hw.
  destruct (lor_same_table e pdflags Hw Hf1 Hf3) as (Hw' & Htab & Hsz & Hp'). specialize (Hp' Hp).
  assert (is_leaf (S l) (Z.lor e pdflags) = false) as Hlf' by (unfold is_leaf in *; by rewrite Hsz).
  unfold set_entry. wp_steps. apply HQ. exists F, L. split_and!.
  - apply (set_slot_ok F L pml4 s Hok _ _ _ Ht Hi); [done|congruence|by intros _ _].
  - intros v _. by apply (flags_translate F L pml4 s Hok _ _ _ Ht Hi).
  - cbn [pt_mem set_pt_mem]. pose proof (store_same F L pml4 s Hok t (S l) _ Ht Hi (Z.lor e pdflags)) as Hss.
    apply (reach_above F L pml4 s Hok t (S l) _ _ Ht Hi Hss) in Hr as Hr'; [|lia].
    assert (entry_at (store64 (pt_mem s) (slot t (vidx (S l) v0)) (Z.lor e pdflags)) t (S l) v0 = Z.lor e pdflags) as He
      by (by apply load64_store64).
    rewrite <- He at 2. apply reach_child; by rewrite ?He.
  - lia.
Qed.

(** A new table, filled with [f] by [fill]. *)
Lemma wp_add_table (fill : Z -> M T unit) (f : Z -> Z) Q :
  (IS_PRESENT e = true -> is_leaf (S l) e = true) ->
  (forall i, 0 <= i < 512 -> 0 <= f i < 2 ^ 64 /\ (IS_PRESENT (f i) = true -> is_leaf l (f i) = true /\ f i mod 2 ^ vshift l < 4096)) ->
  (forall v, 0 <= v < 2 ^ 64 -> vidx (S l) v = vidx (S l) v0 ->
     (if IS_PRESENT (f (vidx l v)) then Some (leaf_addr l (f (vidx l v)) v) else None)
     = if IS_PRESENT e then Some (leaf_addr (S l) e v) else None) ->
  (forall pg s1 R, in_physmap s1 (pg * 4096 + PHYS_OFFSET) = true -> 0 < pg < 2 ^ 30 ->
     (forall m', (forall i, 0 <= i < 512 -> load64 m' (slot (pg * 4096 + PHYS_OFFSET) i) = f i) ->
       (forall x, ~ (pg * 4096 + PHYS_OFFSET <= x < pg * 4096 + PHYS_OFFSET + 4096) -> load8 m' x = load8 (pt_mem s1) x) ->
       R tt (set_pt_mem m' s1)) ->
     wp (fill (pg * 4096 + PHYS_OFFSET)) R s1) ->
  (size F = 0%nat -> Q NoMem s) ->
  (forall t' s', descended F pml4 v0 l s t' s' -> Q (Table t') s') ->
  wp (let! page := on_pages page_alloc in
      if page =? 0 then ret NoMem
      else
        do! fill page;
        do! set_entry t (vidx (S l) v0) (Z.lor (u64 (page - PHYS_OFFSET)) pdflags);
        ret (Table (table_of (Z.lor (u64 (page - PHYS_OFFSET)) pdflags)))) Q s.
Proof using Hok Hr Hpos Hfl.
  intros Hold Hf Hmap Hfill Hnone HQ. pose proof (reach_level _ _ _ _ Hok _ _ _ Hr) as Ht. pose proof (vidx_range (S l) v0) as Hi.
  destruct Hfl as (Hf1 & Hf2 & Hf3). apply wp_bind, (wp_new_page F); [apply Hok| |].
  { intros ->. cbn [Z.eqb]. apply wp_ret, Hnone. done. }
  intros pg ps Hpg Hps [Hmo Hmp]. pose proof (pg_range _ _ (to_pages _ _ _ _ Hok) pg Hpg) as Hrange.
  pose proof (max_pages_small _ _ (to_pages _ _ _ _ Hok)) as Hsmall.
  rewrite (proj2 (Z.eqb_neq _ _)) by (unfold PHYS_OFFSET; lia). rewrite lor_entry, table_of_page by lia.
  apply wp_bind, Hfill; [|lia|].
  { unfold in_physmap, physmap_start, physmap_end. cbn [pt_pages set_pt_pages]. rewrite Hmo, Z.shiftl_mul_pow2 by (unfold PAGE_SHIFT; lia).
    apply andb_true_iff. rewrite Z.leb_le, Z.ltb_lt. change (2 ^ PAGE_SHIFT) with 4096. lia. }
  intros m1 Hm1 Hout. unfold set_entry. wp_steps. apply HQ.
  set (e' := pg * 4096 + pdflags). set (m' := store64 m1 (slot t (vidx (S l) v0)) e').
  assert (0 <= e' < 2 ^ 64) as Hw by (unfold e'; lia).
  assert (IS_PRESENT e' = true /\ has_flag e' PT_SIZE = false) as [Hep Hes].
  { unfold e'. rewrite present_bit, size_bit, !low_bits_flag by lia. by rewrite <- present_bit, <- size_bit. }
  assert (is_leaf (S l) e' = false) as Hel.
  { unfold is_leaf. rewrite Hes, andb_false_r, orb_false_r. apply Nat.eqb_neq. lia. }
  assert (forall t1 l1 i1, L !! t1 = Some l1 -> 0 <= i1 < 512 ->
    slot t1 i1 + 8 <= pg * 4096 + PHYS_OFFSET \/ pg * 4096 + PHYS_OFFSET + 4096 <= slot t1 i1) as Hapart.
  { intros t1 l1 i1 Ht1 Hi1. destruct (table_slot _ _ _ _ Hok t1 l1 i1 Ht1 Hi1) as (pg1 & -> & _ & Hn & ? & ?).
    assert (pg <> pg1) by congruence. lia. }
  assert (forall t1 l1 i1, L !! t1 = Some l1 -> 0 <= i1 < 512 -> (t1, i1) <> (t, vidx (S l) v0) ->
    load64 m' (slot t1 i1) = load64 (pt_mem s) (slot t1 i1)) as Hsame.
  { intros t1 l1 i1 Ht1 Hi1 Hne. unfold m'. rewrite load64_store64_ne by (by eapply (slots_apart _ _ _ _ Hok)).
    apply load64_ext. intros x Hx. apply Hout. specialize (Hapart t1 l1 i1 Ht1 Hi1). lia. }
  assert (load64 m' (slot t (vidx (S l) v0)) = e') as He by (by apply load64_store64).
  assert (forall i, 0 <= i < 512 -> load64 m' (slot (pg * 4096 + PHYS_OFFSET) i) = f i) as Hnew.
  { intros i1 Hi1. unfold m'. rewrite load64_store64_ne; [by apply Hm1|]. specialize (Hapart _ _ _ Ht Hi). unfold slot in *. lia. }
  assert (table_of e' = pg * 4096 + PHYS_OFFSET) as Het by (apply table_of_page; lia).
  exists (F ∖ {[pg]}), (<[pg * 4096 + PHYS_OFFSET := l]> L). split_and!.
  - by apply (link_ok F L pml4 s Hok t l (vidx (S l) v0) Ht Hi pg ps m' e' f).
  - intros v Hv. change (walk 4 m' pml4 v = walk 4 (pt_mem s) pml4 v).
    destruct (link_translate F L pml4 s Hok t l (vidx (S l) v0) Ht Hi pg m' e' f Hpos Hold He Hep Hel Het Hnew Hf Hsame v)
      as [->|(Hr' & Hv' & ->)]; [done|]. rewrite Hmap by done. rewrite (walk_reach _ _ _ _ _ Hr').
    cbn [walk]. assert (entry_at (pt_mem s) t (S l) v = e) as -> by (unfold entry_at; by rewrite Hv').
    destruct (IS_PRESENT e) eqn:Hp; [|done]. by rewrite Hold.
  - by apply (link_reach F L pml4 s Hok t l (vidx (S l) v0) Ht Hi pg m' e').
  - rewrite size_difference, size_singleton by set_solver. lia.
Qed.
End descend.
