(* ===== verification/PagetableTheorems.v ===== *)
(** Mapping and unmapping a page: the properties of [pt_map], [pt_unmap] and
    [pt_virt_to_phys] ([mm/pagetable.c]). *)

From S2P Require Import Prelude Page PageTree PageProofs PageAllocProofs PageTheorems KMem Pagetable PagetableProofs PagetableMap.

Implicit Types (m : memory) (s : pt_st) (t v e : Z) (l : nat).

(** ** Splitting large pages *)

Definition split_ok (l : nat) (split : Z -> Z -> Z) : Prop :=
  forall e i, 0 <= e < 2 ^ 64 -> IS_PRESENT e = true -> has_flag e PT_SIZE = true -> e mod 2 ^ vshift (S l) < 4096 -> 0 <= i < 512 ->
    0 <= split e i < 2 ^ 64 /\ IS_PRESENT (split e i) = true /\ is_leaf l (split e i) = true /\ split e i mod 2 ^ vshift l < 4096
    /\ forall v, 0 <= v < 2 ^ 64 -> vidx l v = i -> leaf_addr l (split e i) v = leaf_addr (S l) e v.

Lemma odd_present e : IS_PRESENT e = Z.odd e.
Proof. by rewrite present_bit, Z.bit0_odd. Qed.

(** The entry of a large page is its address and its flags. *)
Lemma large_entry l e :
  0 <= e < 2 ^ 64 -> e mod 2 ^ vshift l < 4096 -> (2 <= l <= 3)%nat ->
  exists base f, e = base * 2 ^ vshift l + f /\ 0 <= f < 4096 /\ 0 <= base /\ base * 2 ^ vshift l + 2 ^ vshift l <= 2 ^ 64.
Proof.
  intros He Hf Hl. exists (e / 2 ^ vshift l), (e mod 2 ^ vshift l).
  assert (l = 2 \/ l = 3)%nat as [-> | ->] by lia.
  - change (2 ^ vshift 2) with 2097152 in *. pose proof (Z.div_mod e 2097152 ltac:(lia)). pose proof (Z.mod_pos_bound e 2097152). lia.
  - change (2 ^ vshift 3) with 1073741824 in *. pose proof (Z.div_mod e 1073741824 ltac:(lia)). pose proof (Z.mod_pos_bound e 1073741824). lia.
Qed.

Lemma leaf_addr_base l base f v :
  (1 <= l <= 3)%nat -> 0 <= base -> 0 <= f < 4096 -> base * 2 ^ vshift l + 2 ^ vshift l <= 2 ^ 64 -> 0 <= v < 2 ^ 64 ->
  leaf_addr l (base * 2 ^ vshift l + f) v = base * 2 ^ vshift l + v mod 2 ^ vshift l.
Proof.
  intros Hl Hb Hf Hend Hv. assert (4096 <= 2 ^ vshift l <= 2 ^ 30) as Hsh.
  { split; [apply (Z.pow_le_mono_r 2 12)|apply Z.pow_le_mono_r]; unfold vshift; lia. }
  unfold leaf_addr. rewrite align_down_div, offset_mod by (unfold vshift in *; lia).
  rewrite Z.div_add_l, (Z.div_small f), Z.add_0_r by lia. pose proof (Z.mod_pos_bound v (2 ^ vshift l)). apply u64_id. lia.
Qed.

Lemma split_1gb_ok : split_ok 2 split_1gb.
Proof.
  intros e i He Hp Hsz Hlow Hi. destruct (large_entry 3 e He Hlow ltac:(lia)) as (base & f & -> & Hf & Hb & Hend).
  change (2 ^ vshift 3) with (512 * 2 ^ 21) in *. unfold split_1gb, page_size. rewrite Z.shiftl_1_l, u64_id by lia.
  replace (base * (512 * 2 ^ 21) + f + i * 2 ^ 21) with ((base * 512 + i) * 2 ^ 21 + f) by lia.
  assert (forall k, 0 <= k < 12 -> Z.testbit ((base * 512 + i) * 2 ^ 21 + f) k = Z.testbit (base * (512 * 2 ^ 21) + f) k) as Hbits.
  { intros k Hk. replace ((base * 512 + i) * 2 ^ 21) with ((base * 512 + i) * 512 * 4096) by lia.
    replace (base * (512 * 2 ^ 21)) with (base * 512 * 512 * 4096) by lia. by rewrite !low_bits_flag by lia. }
  split_and!; [lia|lia| | | |].
  - by rewrite present_bit, Hbits, <- present_bit by lia.
  - unfold is_leaf. by rewrite size_bit, Hbits, <- size_bit, Hsz by lia.
  - change (vshift 2) with 21. rewrite Z.add_comm, Z_mod_plus_full. rewrite Z.mod_small; lia.
  - intros v Hv Hvi. change (2 ^ 21) with (2 ^ vshift 2) in *. rewrite leaf_addr_base by (done || (change (2 ^ vshift 2) with (2 ^ 21) in *; lia)).
    replace (512 * 2 ^ vshift 2) with (2 ^ vshift 3) by done. rewrite leaf_addr_base by (done || (change (2 ^ vshift 3) with (512 * 2 ^ 21); change (2 ^ vshift 2) with (2 ^ 21) in *; lia)).
    rewrite <- Hvi. unfold vidx. change (2 ^ vshift 3) with (2097152 * 512). change (2 ^ vshift 2) with 2097152.
    rewrite (Z.rem_mul_r v 2097152 512) by lia. lia.
Qed.

Lemma split_2mb_ok : split_ok 1 split_2mb.
Proof.
  intros e i He Hp Hsz Hlow Hi. destruct (large_entry 2 e He Hlow ltac:(lia)) as (base & f & -> & Hf & Hb & Hend).
  change (2 ^ vshift 2) with (512 * 4096) in *.
  assert (128 <= f) as Hf128.
  { rewrite size_bit in Hsz. replace (base * (512 * 4096)) with (base * 512 * 4096) in Hsz by lia. rewrite low_bits_flag in Hsz by lia.
    destruct (decide (128 <= f)); [done|]. rewrite <- (Z.mod_small f (2 ^ 7)), Z.mod_pow2_bits_high in Hsz by lia. done. }
  unfold split_2mb, PAGE_SIZE, PT_SIZE. rewrite u64_id by lia.
  replace (base * (512 * 4096) + f + i * 4096 - 128) with ((base * 512 + i) * 4096 + (f - 128)) by lia.
  split_and!; [lia|lia| |done| |].
  - rewrite odd_present in *. rewrite <- Hp. rewrite !Z.odd_add, !Z.odd_mul, Z.odd_sub. cbn. by rewrite !andb_false_r, xorb_false_r.
  - change (2 ^ vshift 1) with 4096. apply Z.mod_pos_bound. lia.
  - intros v Hv Hvi. change 4096 with (2 ^ vshift 1) in *. rewrite leaf_addr_base by (done || (change (2 ^ vshift 1) with 4096 in *; lia)).
    replace (512 * 2 ^ vshift 1) with (2 ^ vshift 2) by done. rewrite leaf_addr_base by (done || (change (2 ^ vshift 2) with (512 * 4096); change (2 ^ vshift 1) with 4096 in *; lia)).
    rewrite <- Hvi. unfold vidx. change (2 ^ vshift 2) with (4096 * 512). change (2 ^ vshift 1) with 4096.
    rewrite (Z.rem_mul_r v 4096 512) by lia. lia.
Qed.

(** ** The levels of [pt_map_range] for one page *)

(** The place in a large page of an address of the page of [v0]. *)
Lemma page_offset_large v v0 sh :
  12 <= sh <= 48 -> 0 <= v -> 0 <= v0 -> v0 mod 4096 = 0 -> vpage v = vpage v0 -> v mod 2 ^ sh = v0 mod 2 ^ sh + v mod 4096.
Proof.
  intros Hs Hv Hv0 Hal Hpage. replace (2 ^ sh) with (4096 * 2 ^ (sh - 12)) by (change 4096 with (2 ^ 12); rewrite <- Z.pow_add_r by lia; f_equal; lia).
  assert (0 < 2 ^ (sh - 12)) by (apply Z.pow_pos_nonneg; lia).
  rewrite !Z.rem_mul_r, Hal by lia. unfold vpage in Hpage. assert ((2 ^ (sh - 12) | 2 ^ 36)) as Hdiv.
  { exists (2 ^ (48 - sh)). rewrite <- Z.pow_add_r by lia. f_equal. lia. }
  rewrite <- (Z.mod_mod_divide (v / 4096) _ _ Hdiv), <- (Z.mod_mod_divide (v0 / 4096) _ _ Hdiv).
  rewrite Hpage. lia.
Qed.

Lemma vpage_vidx v v0 k : 0 <= v -> 0 <= v0 -> vpage v = vpage v0 -> (1 <= k <= 4)%nat -> vidx k v = vidx k v0.
Proof.
  intros Hv Hv0 Hp Hk. apply vpage_same in Hp as (H4 & H3 & H2 & H1); [|done|done].
  assert (k = 1 \/ k = 2 \/ k = 3 \/ k = 4)%nat as [-> | [-> | [-> | ->]]] by lia; done.
Qed.

Lemma reach_same m pml4 v v0 l t :
  (forall k, (l < k <= 4)%nat -> vidx k v = vidx k v0) -> reaches m pml4 v0 l t -> reaches m pml4 v l t.
Proof.
  intros Hk Hr. induction Hr as [|l t Hr IH Hp Hl]; [constructor|].
  assert (entry_at m t (S l) v0 = entry_at m t (S l) v) as E.
  { unfold entry_at. rewrite (Hk (S l)); [done|]. apply reach_le in Hr. lia. }
  rewrite E in *. apply reach_child; [|done|done]. apply IH. intros k Hk'. apply Hk. lia.
Qed.

Section levels.
Context F L pml4 s (Hok : tables_ok F L pml4 s) (v0 : Z) (Hv0 : 0 <= v0 < 2 ^ 64) (pdflags : Z) (Hfl : flags_ok pdflags).

Lemma wp_map_pml4 Q :
  (size F = 0%nat -> Q NoMem s) -> (forall t' s', descended F pml4 v0 3 s t' s' -> Q (Table t') s') ->
  wp (map_pml4 pml4 v0 pdflags) Q s.
Proof using Hok Hfl.
  intros Hnone HQ. unfold map_pml4, pt_entry. wp_steps. rewrite PML4E_idx. pose proof (reach_root (pt_mem s) pml4 v0) as Hr.
  fold (entry_at (pt_mem s) pml4 4 v0). destruct (IS_PRESENT (entry_at (pt_mem s) pml4 4 v0)) eqn:Hp; cbn [negb]; cbv zeta.
  - apply (wp_or_flags F L pml4 s Hok v0 pml4 3 pdflags Hr ltac:(lia) Hfl); [done|done|exact HQ].
  - apply (wp_add_table F L pml4 s Hok v0 pml4 3 pdflags Hr ltac:(lia) Hfl clear_page (fun _ => 0)); [by rewrite Hp| | | |done|done].
    + intros i Hi. split; [lia|done].
    + intros v _ _. by rewrite Hp.
    + intros pg s1 R Hphys Hpg HR. unfold clear_page. apply wp_bind, wp_zero_page. intros m' Hz Hout.
      unfold pt_virt_to_phys, pt_entry. wp_steps.
      assert (in_physmap (set_pt_mem m' s1) (pg * 4096 + PHYS_OFFSET) = true) as -> by done. wp_steps.
      apply wp_kassert; [apply Z.eqb_refl|]. wp_steps. apply wp_kassert; [|by apply HR].
      cbn [pt_mem set_pt_mem]. by rewrite Hz.
Qed.

(** The large page [e] of level [S l] maps the page of [v0] to [paddr]. *)
Lemma same_large l e paddr v :
  (1 <= l <= 2)%nat -> 0 <= e < 2 ^ 64 -> e mod 2 ^ vshift (S l) < 4096 -> 0 <= paddr < 2 ^ 64 -> 0 <= v < 2 ^ 64 ->
  page_same (vshift (S l)) e paddr = true -> page_offset (vshift (S l)) paddr = page_offset (vshift (S l)) v0 ->
  v0 mod 4096 = 0 -> vpage v = vpage v0 -> leaf_addr (S l) e v = paddr + v mod 4096.
Proof using Hv0.
  intros Hl He Hlow Hpa Hv Hsame Hoff Hal Hpage. assert (12 <= vshift (S l) <= 30) as Hsh by (unfold vshift; lia).
  destruct (large_entry (S l) e He Hlow ltac:(lia)) as (base & f & -> & Hf & Hb & Hend).
  rewrite leaf_addr_base by (done || lia). apply Z.eqb_eq in Hsame. rewrite !align_down_div in Hsame by lia.
  rewrite !offset_mod in Hoff by lia. assert (4096 <= 2 ^ vshift (S l)) by (apply (Z.pow_le_mono_r 2 12); lia).
  rewrite Z.div_add_l, (Z.div_small f), Z.add_0_r in Hsame by lia. rewrite (page_offset_large v v0) by (done || lia).
  pose proof (Z.div_mod paddr (2 ^ vshift (S l)) ltac:(lia)). lia.
Qed.

Lemma wp_map_dir l t paddr pdflags' same split Q :
  (1 <= l <= 2)%nat -> reaches (pt_mem s) pml4 v0 (S l) t -> split_ok l split -> 0 <= paddr < 2 ^ 64 -> v0 mod 4096 = 0 ->
  (size F = 0%nat -> Q NoMem s) -> (forall t' s', descended F pml4 v0 l s t' s' -> Q (Table t') s') ->
  ((forall v, 0 <= v < 2 ^ 64 -> vpage v = vpage v0 -> translate s pml4 v = Some (paddr + v mod 4096)) ->
    Q (Next paddr (page_align_up (vshift (S l)) (u64 (v0 + 1)))) s) ->
  wp (map_dir (vshift (S l)) (vidx (S l) v0) t paddr v0 4096 pdflags pdflags' same split) Q s.
Proof using Hok Hfl Hv0.
  intros Hl Hr Hsplit Hpa Hal Hnone HQ Hnext. pose proof (reach_level _ _ _ _ Hok _ _ _ Hr) as Ht. pose proof (vidx_range (S l) v0) as Hi.
  unfold map_dir, pt_entry. wp_steps. fold (entry_at (pt_mem s) t (S l) v0). set (e := entry_at (pt_mem s) t (S l) v0).
  pose proof (to_word _ _ _ _ Hok _ _ _ Ht Hi) as Hw. fold e in Hw.
  assert (is_leaf (S l) e = has_flag e PT_SIZE) as Hlf.
  { unfold is_leaf. rewrite (proj2 (Nat.eqb_neq _ _)), (proj2 (Nat.ltb_lt _ _)) by lia. done. }
  destruct (IS_PRESENT e) eqn:Hp; cbn [negb].
  - destruct (has_flag e PT_SIZE) eqn:Hsz.
    + pose proof (to_leaf _ _ _ _ Hok _ _ _ Ht Hi Hp Hlf) as Hlow. fold e in Hlow.
      destruct (page_same _ e paddr && _ && _) eqn:Esame.
      * apply wp_ret, Hnext. rewrite !andb_true_iff in Esame. destruct Esame as [[E1 E2%Z.eqb_eq] _]. intros v Hv Hpage.
        unfold translate. assert (reaches (pt_mem s) pml4 v (S l) t) as Hrv.
        { eapply reach_same; [|exact Hr]. intros k Hk. apply vpage_vidx; [lia|lia|done|lia]. }
        rewrite (walk_reach _ _ _ _ _ Hrv). cbn [walk].
        assert (entry_at (pt_mem s) t (S l) v = e) as -> by (unfold e, entry_at; rewrite (vpage_vidx v v0 (S l)); [done|lia|lia|done|lia]).
        rewrite Hp, Hlf. cbn [negb]. f_equal. by apply same_large.
      * apply (wp_add_table F L pml4 s Hok v0 t l pdflags Hr ltac:(lia) Hfl (fun page => fill_entries page 0 PT_ENTRY_COUNT (split e)) (split e)).
        -- done.
        -- intros i Hi'. destruct (Hsplit e i Hw Hp Hsz Hlow Hi') as (A1 & A2 & A3 & A4 & _). done.
        -- intros v Hv Hvi. destruct (Hsplit e (vidx l v) Hw Hp Hsz Hlow (vidx_range _ _)) as (_ & A2 & _ & _ & A5).
           fold e. rewrite A2, Hp. f_equal. by apply A5.
        -- intros pg s1 R _ _ HR. apply wp_fill_entries; [change PT_ENTRY_COUNT with 512; lia| |].
           ++ intros i Hi'. by apply (Hsplit e i Hw Hp Hsz Hlow).
           ++ intros m' H1 H2. apply HR; [exact H1|]. intros x Hx. apply H2. unfold slot. change PT_ENTRY_COUNT with 512. lia.
        -- done.
        -- done.
    + apply (wp_or_flags F L pml4 s Hok v0 t l pdflags Hr ltac:(lia) Hfl); [done|exact Hlf|exact HQ].
  - assert (page_size (vshift (S l)) <? 4096 = false) as ->.
    { unfold page_size. rewrite Z.shiftl_1_l. apply Z.ltb_ge. apply (Z.pow_le_mono_r 2 12); unfold vshift; lia. }
    rewrite andb_false_r.
    apply (wp_add_table F L pml4 s Hok v0 t l pdflags Hr ltac:(lia) Hfl zero_page (fun _ => 0)); [by fold e; rewrite Hp| | | |done|done].
    + intros i Hi'. split; [lia|done].
    + intros v _ _. fold e. by rewrite Hp.
    + intros pg s1 R _ _ HR. by apply wp_zero_page.
Qed.
End levels.

(** ** The entry of a page *)

Section set_page.
Context F L pml4 s (Hok : tables_ok F L pml4 s) (v0 t : Z) (Hv0 : 0 <= v0) (Hr : reaches (pt_mem s) pml4 v0 1 t).
Context (e' : Z) (He : 0 <= e' < 2 ^ 64).
Abbreviation s' := (set_pt_mem (store64 (pt_mem s) (slot t (vidx 1 v0)) e') s).

Lemma set_pte_ok : tables_ok F L pml4 s'.
Proof using Hok Hr He.
  pose proof (reach_level _ _ _ _ Hok _ _ _ Hr) as Ht. apply (set_slot_ok F L pml4 s Hok _ _ _ Ht (vidx_range _ _)); [done| |done].
  intros _ _. change (2 ^ vshift 1) with 4096. apply Z.mod_pos_bound. lia.
Qed.

Lemma set_page_reach v : reaches (pt_mem s) pml4 v 1 t -> reaches (pt_mem s') pml4 v 1 t.
Proof using Hok Hr.
  pose proof (reach_level _ _ _ _ Hok _ _ _ Hr) as Ht. pose proof (vidx_range 1 v0) as Hi.
  apply (reach_above F L pml4 s Hok t 1 _ _ Ht Hi (store_same F L pml4 s Hok t 1 _ Ht Hi e')). done.
Qed.

Lemma set_page_translate v :
  0 <= v ->
  translate s' pml4 v = if decide (vpage v = vpage v0) then if IS_PRESENT e' then Some (leaf_addr 1 e' v) else None else translate s pml4 v.
Proof using Hok Hr He Hv0.
  intros Hv. pose proof (reach_level _ _ _ _ Hok _ _ _ Hr) as Ht. pose proof (vidx_range 1 v0) as Hi.
  unfold translate. cbn [pt_mem set_pt_mem]. destruct (decide _) as [Hp|Hp].
  - assert (reaches (pt_mem s) pml4 v 1 t) as Hrv.
    { eapply reach_same; [|exact Hr]. intros k Hk. apply vpage_vidx; [lia|lia|done|lia]. }
    apply set_page_reach in Hrv. cbn [pt_mem set_pt_mem] in Hrv.
    rewrite (walk_reach _ _ _ _ _ Hrv). cbn [walk]. unfold entry_at.
    rewrite (vpage_vidx v v0 1) by (done || lia). rewrite load64_store64 by done. by destruct (IS_PRESENT e').
  - destruct (leaf_translate F L pml4 s Hok t 1 _ Ht Hi e' v He ltac:(done) ltac:(lia)) as [->|(Hrv & Hvi & _)]; [done|].
    destruct Hp. apply vpage_same; [done|done|].
    split_and!; [..|done]; apply (reach_prefix F L pml4 s Hok v v0 1 t); (done || lia).
Qed.
End set_page.

(** ** [pt_map] *)

Lemma aligned_12 x : 0 <= x < 2 ^ 64 -> x mod 4096 = 0 -> page_aligned 12 x = true.
Proof.
  intros Hx Ha. apply Z.eqb_eq. rewrite align_down_div by lia. change (2 ^ 12) with 4096. pose proof (Z.div_mod x 4096). lia.
Qed.

Lemma flags_low f : 0 <= f < 4096 -> page_align_down 12 f = 0.
Proof. intros Hf. rewrite align_down_div by lia. change (2 ^ 12) with 4096. rewrite Z.div_small by lia. done. Qed.

Lemma next_past v0 sh : 12 <= sh <= 39 -> 0 <= v0 < 2 ^ 64 - 2 ^ sh -> v0 mod 4096 = 0 -> v0 + 4096 <= page_align_up sh (u64 (v0 + 1)).
Proof.
  intros Hs Hv Ha. pose proof (Z.div_mod v0 (2 ^ sh)). pose proof (Z.mod_pos_bound v0 (2 ^ sh)).
  assert (4096 <= 2 ^ sh) by (apply (Z.pow_le_mono_r 2 12); lia). rewrite align_up_next by lia.
  assert (v0 mod 2 ^ sh + 4096 <= 2 ^ sh); [|lia].
  replace (2 ^ sh) with (4096 * 2 ^ (sh - 12)) in * by (change 4096 with (2 ^ 12); rewrite <- Z.pow_add_r by lia; f_equal; lia).
  assert (0 < 2 ^ (sh - 12)) by (apply Z.pow_pos_nonneg; lia).
  rewrite Z.rem_mul_r, Ha by lia. pose proof (Z.mod_pos_bound (v0 / 4096) (2 ^ (sh - 12))). nia.
Qed.

(** The page of [v0] is mapped to the frame [paddr], every other address as
    before. *)
Definition maps_page pml4 v0 paddr s s' : Prop :=
  forall v, 0 <= v < 2 ^ 64 ->
    translate s' pml4 v = if decide (vpage v = vpage v0) then Some (paddr + v mod 4096) else translate s pml4 v.

Definition same_map pml4 s s' : Prop := forall v, 0 <= v < 2 ^ 64 -> translate s' pml4 v = translate s pml4 v.

Definition map_post (F : gset Z) pml4 v0 paddr s (r : Z) s' : Prop :=
  exists F' L', tables_ok F' L' pml4 s' /\
    (r = 0 /\ maps_page pml4 v0 paddr s s' /\ (translate s pml4 v0 = None -> exists t, reaches (pt_mem s') pml4 v0 1 t) \/ r = - ENOMEM /\ same_map pml4 s s' /\ (size F < 3)%nat).

Lemma wp_pt_map F L pml4 s paddr v0 pdflags ptflags :
  tables_ok F L pml4 s -> 0 <= paddr < 2 ^ 64 -> paddr mod 4096 = 0 -> 0 <= v0 < 2 ^ 64 - 2 ^ 30 -> v0 mod 4096 = 0 ->
  flags_ok pdflags -> flags_ok ptflags -> Z.land pdflags PT_USER = Z.land ptflags PT_USER ->
  wp (pt_map pml4 paddr v0 pdflags ptflags) (map_post F pml4 v0 paddr s) s.
Proof.
  intros Hok Hpa Hpal Hv Hval Hpd Hptf Huser. unfold pt_map, pt_map_range, PAGE_SIZE. rewrite u64_id by lia.
  pose proof Hpd as (Hpd1 & Hpd2 & Hpd3). pose proof Hptf as (Hpt1 & Hpt2 & Hpt3).
  rewrite !aligned_12, !flags_low by (lia || (rewrite <- Zplus_mod_idemp_l, Hval; done)). rewrite Huser, Hpd3, Hpt3, (proj2 (Z.ltb_lt _ _)) by lia.
  do 4 (apply wp_bind, wp_kassert; [by rewrite ?Z.eqb_refl|]).
  replace (range_fuel v0 (v0 + 4096)) with 1%nat by (unfold range_fuel; replace (v0 + 4096 - v0) with 4096 by lia; done).
  cbn [map_loop]. rewrite (proj2 (Z.ltb_lt v0 (v0 + 4096))) by lia. replace (v0 + 4096 - v0) with 4096 by lia.
  apply wp_bind, (wp_map_pml4 F L pml4 s Hok v0 pdflags Hpd).
  { intros HF. apply wp_ret. exists F, L. split; [done|]. right. split_and!; [done|by intros v|lia]. }
  intros t3 s3 (F3 & L3 & Hok3 & Hm3 & Hr3 & Hsz3). change 30 with (vshift 3). rewrite PDPE_idx.
  apply wp_bind, (wp_map_dir F3 L3 pml4 s3 Hok3 v0 ltac:(lia) pdflags Hpd 2); [lia|done|apply split_1gb_ok|done|done| | |].
  { intros HF. apply wp_ret. exists F3, L3. split; [done|]. right. split_and!; [done|done|lia]. }
  2: { intros Hdone. rewrite (proj2 (Z.ltb_ge _ _)) by (apply next_past; [unfold vshift; lia|unfold vshift; lia|done]).
    apply wp_ret. exists F3, L3. split; [done|]. left. split; [done|]. split.
    - intros v Hvv. destruct (decide _); [by apply Hdone|by apply Hm3].
    - intros Hnone. pose proof (Hdone v0 ltac:(lia) eq_refl) as E. rewrite Hm3 in E by lia. congruence. }
  intros t2 s2 (F2 & L2 & Hok2 & Hm2 & Hr2 & Hsz2). change 21 with (vshift 2). rewrite PDE_idx.
  apply wp_bind, (wp_map_dir F2 L2 pml4 s2 Hok2 v0 ltac:(lia) pdflags Hpd 1); [lia|done|apply split_2mb_ok|done|done| | |].
  { intros HF. apply wp_ret. exists F2, L2. split; [done|]. right. split_and!; [done| |lia]. intros v Hvv. by rewrite Hm2, Hm3. }
  2: { intros Hdone. rewrite (proj2 (Z.ltb_ge _ _)) by (apply next_past; [unfold vshift; lia|unfold vshift; lia|done]).
    apply wp_ret. exists F2, L2. split; [done|]. left. split; [done|]. split.
    - intros v Hvv. destruct (decide _); [by apply Hdone|by rewrite Hm2, Hm3].
    - intros Hnone. pose proof (Hdone v0 ltac:(lia) eq_refl) as E. rewrite Hm2, Hm3 in E by lia. congruence. }
  intros t1 s1 (F1 & L1 & Hok1 & Hm1 & Hr1 & _). unfold map_page, set_entry. wp_steps. rewrite PTE_idx, lor_flags by done.
  assert (IS_PRESENT (paddr + ptflags) = true) as Hpres.
  { replace paddr with (paddr / 4096 * 4096) by (pose proof (Z.div_mod paddr 4096); lia). rewrite present_bit, low_bits_flag by (done || lia || (apply Z.div_pos; lia)).
    by rewrite <- present_bit. }
  apply wp_kassert; [done|]. unfold PAGE_SIZE. rewrite (u64_id (v0 + 4096)), Z.ltb_irrefl by lia. apply wp_ret.
  assert (0 <= paddr + ptflags < 2 ^ 64) as Hw by (pose proof (Z.div_mod paddr 4096); lia).
  exists F1, L1. split; [by apply (set_pte_ok F1 L1 pml4 s1 Hok1 v0 t1)|]. left. split; [done|].
  split; [|intros _; exists t1; by apply (set_page_reach F1 L1)]. intros v Hvv.
  rewrite (set_page_translate F1 L1 pml4 s1 Hok1 v0 t1 ltac:(lia) Hr1 _ Hw v ltac:(lia)), Hpres.
  destruct (decide _); [|by rewrite Hm1, Hm2, Hm3]. f_equal.
  pose proof (leaf_addr_base 1 (paddr / 4096) ptflags v) as Hla. change (2 ^ vshift 1) with 4096 in Hla.
  assert (paddr / 4096 * 4096 = paddr) as Ediv by (pose proof (Z.div_mod paddr 4096); lia). rewrite Ediv in Hla.
  apply Hla; (done || lia || (apply Z.div_pos; lia)).
Qed.

(** ** [pt_unmap] *)

Definition unmaps_page pml4 v0 s s' : Prop :=
  forall v, 0 <= v < 2 ^ 64 -> translate s' pml4 v = if decide (vpage v = vpage v0) then None else translate s pml4 v.

(** Nothing is mapped when the walk ends early. *)
Lemma absent_page pml4 v0 s l t :
  0 <= v0 -> reaches (pt_mem s) pml4 v0 l t -> (1 <= l)%nat -> IS_PRESENT (entry_at (pt_mem s) t l v0) = false -> unmaps_page pml4 v0 s s.
Proof.
  intros Hv0 Hr Hl Hp v Hv. destruct (decide _) as [Hpg|]; [|done]. unfold translate. pose proof (reach_le _ _ _ _ _ Hr).
  assert (reaches (pt_mem s) pml4 v l t) as Hrv.
  { eapply reach_same; [|exact Hr]. intros k Hk. apply vpage_vidx; [lia|lia|done|lia]. }
  rewrite (walk_reach _ _ _ _ _ Hrv). destruct l as [|l]; [lia|]. cbn [walk].
  assert (entry_at (pt_mem s) t (S l) v = entry_at (pt_mem s) t (S l) v0) as ->; [|by rewrite Hp].
  unfold entry_at. rewrite (vpage_vidx v v0 (S l)); [done|lia|lia|done|lia].
Qed.

Lemma wp_unmap_step F L pml4 s v0 Q :
  tables_ok F L pml4 s -> 0 <= v0 < 2 ^ 64 - 2 ^ 39 -> v0 mod 4096 = 0 ->
  (exists st, _vaddr_status pml4 v0 s = Done st s /\ st <> PAGE_2MB /\ st <> PAGE_1GB) ->
  (forall v' s', v0 + 4096 <= v' -> tables_ok F L pml4 s' -> unmaps_page pml4 v0 s s' -> Q v' s') ->
  wp (unmap_step pml4 v0 (v0 + 4096)) Q s.
Proof.
  intros Hok Hv Hal Hst HQ. unfold unmap_step, pt_entry. unfold _vaddr_status, pt_entry, bind, gets in Hst.
  rewrite PML4E_idx, PDPE_idx, PDE_idx, PTE_idx in *. wp_steps. pose proof (reach_root (pt_mem s) pml4 v0) as R4.
  fold (entry_at (pt_mem s) pml4 4 v0) in *. destruct (IS_PRESENT (entry_at (pt_mem s) pml4 4 v0)) eqn:P4; cbn [negb] in *.
  2: { apply wp_ret, HQ; [apply next_past; [lia|lia|done]|done|eapply absent_page; [lia|exact R4|lia|done]]. }
  pose proof (reach_child _ _ _ 3 pml4 R4 P4 eq_refl) as R3. set (t3 := table_of (entry_at (pt_mem s) pml4 4 v0)) in *. wp_steps.
  fold (entry_at (pt_mem s) t3 3 v0) in *. destruct (IS_PRESENT (entry_at (pt_mem s) t3 3 v0)) eqn:P3; cbn [negb] in *.
  2: { apply wp_ret, HQ; [apply next_past; [lia|lia|done]|done|eapply absent_page; [lia|exact R3|lia|done]]. }
  destruct (IS_1GB_PAGE (entry_at (pt_mem s) t3 3 v0)) eqn:S3; [by destruct Hst as (? & [= <-] & ? & ?)|].
  pose proof (reach_child _ _ _ 2 t3 R3 P3 S3) as R2. set (t2 := table_of (entry_at (pt_mem s) t3 3 v0)) in *. wp_steps.
  fold (entry_at (pt_mem s) t2 2 v0) in *. destruct (IS_PRESENT (entry_at (pt_mem s) t2 2 v0)) eqn:P2; cbn [negb] in *.
  2: { apply wp_ret, HQ; [apply next_past; [lia|lia|done]|done|eapply absent_page; [lia|exact R2|lia|done]]. }
  destruct (IS_2MB_PAGE (entry_at (pt_mem s) t2 2 v0)) eqn:S2; [by destruct Hst as (? & [= <-] & ? & ?)|].
  pose proof (reach_child _ _ _ 1 t2 R2 P2 S2) as R1. set (t1 := table_of (entry_at (pt_mem s) t2 2 v0)) in *. wp_steps.
  fold (entry_at (pt_mem s) t1 1 v0) in *. unfold PAGE_SIZE. rewrite u64_id by lia.
  destruct (IS_PRESENT (entry_at (pt_mem s) t1 1 v0)) eqn:P1.
  - unfold set_entry. wp_steps. apply HQ; [lia|by apply (set_pte_ok F L pml4 s Hok v0 t1 R1 0)|]. intros v Hvv.
    apply (set_page_translate F L pml4 s Hok v0 t1); (done || lia).
  - wp_steps. apply HQ; [lia|done|]. by eapply absent_page; [lia|exact R1|lia|].
Qed.

Lemma wp_pt_unmap F L pml4 s v0 :
  tables_ok F L pml4 s -> 0 <= v0 < 2 ^ 64 - 2 ^ 39 -> v0 mod 4096 = 0 ->
  (exists st, _vaddr_status pml4 v0 s = Done st s /\ st <> PAGE_2MB /\ st <> PAGE_1GB) ->
  wp (pt_unmap pml4 v0) (fun _ s' => tables_ok F L pml4 s' /\ unmaps_page pml4 v0 s s') s.
Proof.
  intros Hok Hv Hal Hst. unfold pt_unmap, pt_unmap_range, PAGE_SIZE. rewrite u64_id by lia. apply wp_bind, wp_kassert.
  { rewrite !aligned_12 by (lia || (rewrite <- Zplus_mod_idemp_l, Hal; done)). apply Z.ltb_lt. lia. }
  replace (range_fuel v0 (v0 + 4096)) with 1%nat by (unfold range_fuel; replace (v0 + 4096 - v0) with 4096 by lia; done).
  cbn [unmap_loop]. rewrite (proj2 (Z.ltb_lt v0 (v0 + 4096))) by lia. apply wp_bind, wp_bind, (wp_unmap_step F L); [done..|].
  intros v' s' Hv' Hok' Hun. rewrite (proj2 (Z.ltb_ge _ _)) by lia. apply wp_ret.
  destruct (status_walk pml4 v0 s') as (st & E & Hiff). apply wp_bind. unfold wp at 1. rewrite E. apply wp_kassert; [|done].
  apply bool_decide_eq_true, Hiff. rewrite Hun by lia. by rewrite decide_True.
Qed.

(** An address whose path reaches a page table is not in a large page. *)
Lemma reach_small pml4 v0 s t :
  reaches (pt_mem s) pml4 v0 1 t -> exists st, _vaddr_status pml4 v0 s = Done st s /\ st <> PAGE_2MB /\ st <> PAGE_1GB.
Proof.
  intros Hr. inversion Hr as [|? t2 Hr2 P2 S2]; subst. inversion Hr2 as [|? t3 Hr3 P3 S3]; subst.
  inversion Hr3 as [|? t4 Hr4 P4 S4]; subst. inversion Hr4 as [|? t5 Hr5]; subst; [|apply reach_le in Hr5; lia].
  unfold _vaddr_status, pt_entry, bind, gets. rewrite PML4E_idx, PDPE_idx, PDE_idx, PTE_idx.
  fold (entry_at (pt_mem s) t4 4 v0). rewrite P4. cbn [negb]. fold (entry_at (pt_mem s) (table_of (entry_at (pt_mem s) t4 4 v0)) 3 v0).
  rewrite P3. cbn [negb]. unfold is_leaf in S2, S3. cbn [Nat.eqb Nat.ltb Nat.leb orb andb] in S2, S3. unfold IS_1GB_PAGE. rewrite S3.
  set (t2 := table_of (entry_at _ _ 3 v0)) in *. fold (entry_at (pt_mem s) t2 2 v0). rewrite P2. cbn [negb]. unfold IS_2MB_PAGE. rewrite S2.
  set (e := load64 _ _). destruct (IS_PRESENT e); cbn [negb]; by eexists.
Qed.

(** The addresses of a page have a translation together. *)
Lemma page_none s pml4 v v0 :
  0 <= v -> 0 <= v0 -> vpage v = vpage v0 -> translate s pml4 v0 = None -> translate s pml4 v = None.
Proof.
  intros Hv Hv0 Hp. unfold translate. generalize pml4. assert (4 <= 4)%nat as Hl by lia. revert Hl. generalize 4%nat at 1 3 4 as l.
  induction l as [|l IH]; intros Hl t; [done|]. cbn [walk].
  assert (entry_at (pt_mem s) t (S l) v = entry_at (pt_mem s) t (S l) v0) as ->.
  { unfold entry_at. rewrite (vpage_vidx v v0 (S l)); [done|lia|lia|done|lia]. }
  destruct (IS_PRESENT _); [|done]. destruct (is_leaf _ _); [done|]. cbn [negb]. apply IH. lia.
Qed.

(** ** Tables without mappings *)

Lemma empty_tables_ok F pg s :
  free_pages F (pt_pages s) -> 0 < pg < max_pages (pt_pages s) -> pg ∉ F ->
  (forall i, 0 <= i < 512 -> load64 (pt_mem s) (slot (pg * 4096 + PHYS_OFFSET) i) = 0) ->
  tables_ok F {[pg * 4096 + PHYS_OFFSET := 4%nat]} (pg * 4096 + PHYS_OFFSET) s.
Proof.
  intros HF Hpg Hn Hz. split; [done|by rewrite lookup_singleton_eq|..].
  - intros t l [<- _]%lookup_singleton_Some. by exists pg.
  - intros t l i [<- _]%lookup_singleton_Some Hi. rewrite Hz by done. lia.
  - intros t l i [<- _]%lookup_singleton_Some Hi. by rewrite Hz.
  - intros t l i t' l' i' [<- _]%lookup_singleton_Some [<- _]%lookup_singleton_Some Hi Hi'. by rewrite Hz.
  - intros t l i [<- _]%lookup_singleton_Some Hi. by rewrite Hz.
Qed.

(** ** The properties *)

(** C10: [pt_map] of a page-aligned virtual address either returns 0, after
    which the four-level walk of the hardware sends the whole page to the
    frame [paddr] and every other address where it went before (the page may
    have been inside a 1 GB or 2 MB page, which is split), or returns -ENOMEM,
    possible only with fewer than three free pages, with every translation
    unchanged; no assertion of the code fails and the tables stay well
    formed. *)
Theorem pt_map_correct F L pml4 s paddr vaddr pdflags ptflags :
  tables_ok F L pml4 s -> 0 <= paddr < 2 ^ 64 -> paddr mod 4096 = 0 -> 0 <= vaddr < 2 ^ 64 - 2 ^ 30 -> vaddr mod 4096 = 0 ->
  flags_ok pdflags -> flags_ok ptflags -> Z.land pdflags PT_USER = Z.land ptflags PT_USER ->
  exists r s', pt_map pml4 paddr vaddr pdflags ptflags s = Done r s' /\ (exists F' L', tables_ok F' L' pml4 s') /\
    (r = 0 /\ maps_page pml4 vaddr paddr s s' \/ r = - ENOMEM /\ same_map pml4 s s' /\ (size F < 3)%nat).
Proof.
  intros Hok Hp Hpa Hv Hva Hpd Hpt Hu.
  destruct (wp_run _ _ _ (wp_pt_map F L pml4 s paddr vaddr pdflags ptflags Hok Hp Hpa Hv Hva Hpd Hpt Hu)) as (r & s' & E & F' & L' & Hok' & Hr).
  exists r, s'. split; [done|]. split; [by exists F', L'|]. destruct Hr as [(-> & Hm & _)|Hr]; [by left|by right].
Qed.

(** [pt_unmap] of a page that is not part of a large page removes exactly
    that page from the translation: its addresses have none afterwards, and
    all other addresses keep theirs. *)
Theorem pt_unmap_correct F L pml4 s vaddr st :
  tables_ok F L pml4 s -> 0 <= vaddr < 2 ^ 64 - 2 ^ 39 -> vaddr mod 4096 = 0 ->
  _vaddr_status pml4 vaddr s = Done st s -> st <> PAGE_2MB -> st <> PAGE_1GB ->
  exists s', pt_unmap pml4 vaddr s = Done tt s' /\ tables_ok F L pml4 s' /\ unmaps_page pml4 vaddr s s'.
Proof.
  intros Hok Hv Hva E N2 N1.
  destruct (wp_run _ _ _ (wp_pt_unmap F L pml4 s vaddr Hok Hv Hva ltac:(by exists st))) as ([] & s' & E' & H). by exists s'.
Qed.

(** C11: mapping a page that had no translation and unmapping it again gives
    back the translation of every address, and in between
    [pt_virt_to_phys_helper] returns the frame's addresses. *)
Theorem pt_map_unmap F L pml4 s paddr vaddr pdflags ptflags :
  tables_ok F L pml4 s -> (3 <= size F)%nat -> 0 <= paddr < 2 ^ 64 -> paddr mod 4096 = 0 ->
  0 <= vaddr < 2 ^ 64 - 2 ^ 39 -> vaddr mod 4096 = 0 -> flags_ok pdflags -> flags_ok ptflags ->
  Z.land pdflags PT_USER = Z.land ptflags PT_USER -> translate s pml4 vaddr = None ->
  exists s1 s2, pt_map pml4 paddr vaddr pdflags ptflags s = Done 0 s1 /\
    (forall o, 0 <= o < 4096 -> in_physmap s1 (vaddr + o) = false ->
       pt_virt_to_phys_helper pml4 (vaddr + o) s1 = Done (paddr + o) s1) /\
    pt_unmap pml4 vaddr s1 = Done tt s2 /\ same_map pml4 s s2.
Proof.
  intros Hok HF Hp Hpa Hv Hva Hpd Hpt Hu Hnone.
  destruct (wp_run _ _ _ (wp_pt_map F L pml4 s paddr vaddr pdflags ptflags Hok Hp Hpa ltac:(lia) Hva Hpd Hpt Hu))
    as (r & s1 & E1 & F1 & L1 & Hok1 & [(-> & Hmap & Hreach)|(_ & _ & ?)]); [|lia].
  destruct (Hreach Hnone) as (t & Ht). apply reach_small in Ht.
  destruct (wp_run _ _ _ (wp_pt_unmap F1 L1 pml4 s1 vaddr Hok1 Hv Hva Ht)) as ([] & s2 & E2 & _ & Hun).
  exists s1, s2. split_and!; [done| |done|].
  - intros o Ho Hphys. assert ((vaddr + o) / 4096 = vaddr / 4096) as Epg by (Z.div_mod_to_equations; lia).
    rewrite virt_to_phys_walk, Hmap, decide_True by (done || lia || (unfold vpage; by rewrite Epg)).
    do 2 f_equal. rewrite <- Z.add_mod_idemp_l, Hva, Z.add_0_l, Z.mod_small by lia. done.
  - intros v Hvv. rewrite Hun, Hmap by done. destruct (decide _) as [Hpg|]; [|done].
    symmetry. apply (page_none s pml4 v vaddr); (done || lia).
Qed.

(** ** A machine with an empty root table in page 1 *)

Definition root_table : Z := 1 * 4096 + PHYS_OFFSET.
Definition bare_state : pt_st := PtSt small_state ∅ 0 0 false.

Lemma small_max : 1 < max_pages small_state.
Proof. by vm_compute. Qed.

Lemma root_not_free : 1 ∉ small_pages.
Proof.
  unfold small_pages. assert (init_regions (image := small_image) small_map = [(1184176, 912976)]) as -> by (vm_compute; reflexivity).
  unfold region_union. cbn [foldl]. unfold region_pages. rewrite elem_of_union, elem_of_range. intros [H|H]; [by apply not_elem_of_empty in H|]. cbn [fst] in H. change (first_page 1184176) with 290 in H. lia.
Qed.

Lemma bare_state_ok : tables_ok small_pages {[root_table := 4%nat]} root_table bare_state.
Proof.
  refine (empty_tables_ok small_pages 1 bare_state small_state_ok (conj eq_refl small_max) root_not_free _).
  intros i _. by apply load64_zero.
Qed.

Lemma pt_map_correct_witness :
  exists r s', pt_map root_table 0x5000 0x400000 7 7 bare_state = Done r s' /\ (exists F' L', tables_ok F' L' root_table s') /\
    (r = 0 /\ maps_page root_table 0x400000 0x5000 bare_state s'
     \/ r = - ENOMEM /\ same_map root_table bare_state s' /\ (size small_pages < 3)%nat).
Proof.
  apply (pt_map_correct small_pages {[root_table := 4%nat]}); [exact bare_state_ok|lia|done|lia|done|done|done|done].
Defined.

Lemma pt_unmap_correct_witness :
  exists s', pt_unmap root_table 0x400000 bare_state = Done tt s' /\ tables_ok small_pages {[root_table := 4%nat]} root_table s' /\
    unmaps_page root_table 0x400000 bare_state s'.
Proof.
  apply (pt_unmap_correct _ _ _ _ _ UNMAPPED); [exact bare_state_ok|lia|done|vm_compute; reflexivity|done|done].
Defined.

Lemma pt_map_unmap_witness :
  exists s1 s2, pt_map root_table 0x5000 0x400000 7 7 bare_state = Done 0 s1 /\
    (forall o, 0 <= o < 4096 -> in_physmap s1 (0x400000 + o) = false ->
       pt_virt_to_phys_helper root_table (0x400000 + o) s1 = Done (0x5000 + o) s1) /\
    pt_unmap root_table 0x400000 s1 = Done tt s2 /\ same_map root_table bare_state s2.
Proof.
  assert (Nat.leb 3 (size small_pages) = true) as Hsz by (vm_compute; reflexivity). apply Nat.leb_le in Hsz.
  apply (pt_map_unmap small_pages {[root_table := 4%nat]}); [exact bare_state_ok|exact Hsz|lia|done|lia|done|done|done|done|].
  vm_compute. reflexivity.
Defined.
