(* ===== verification/Slab.v ===== *)
(** The slab allocator and [kmalloc]: [mm/slab.c], built with [SLAB_REDZONE],
    [SLAB_CHECK_FREE] and [MM_POISON] as [mm/slab.h] and [mm/mm.h] define them.

    The objects, their red zones, their [slab_bufctl_t] and the [struct slab] of
    each slab lie in the byte memory, inside the pages that the page allocator
    hands out.  The fields of the [slab_allocator_t]s, which lie in objects of
    the first allocator, are kept as records under their address. *)

From S2P Require Import Prelude Page KMem.

Record slab_allocator : Type := SlabAllocator {
  sa_name : string;
  sa_objsize : Z;
  sa_slabs : Z;                     (* head of slab list *)
  sa_order : nat;                   (* npages = (1 << order) *)
  sa_slab_nobjs : Z;
  sa_next : Z;
}.

Record kmem : Type := KMemSt {
  km_pages : page_st;
  km_mem : memory;
  km_allocators : gmap Z slab_allocator;
  slab_allocators : Z;
  kmalloc_allocators : list Z;
}.

Definition set_km_pages (x : page_st) (s : kmem) : kmem :=
  KMemSt x (km_mem s) (km_allocators s) (slab_allocators s) (kmalloc_allocators s).
Definition set_km_mem (x : memory) (s : kmem) : kmem :=
  KMemSt (km_pages s) x (km_allocators s) (slab_allocators s) (kmalloc_allocators s).
Definition set_km_allocators (x : gmap Z slab_allocator) (s : kmem) : kmem :=
  KMemSt (km_pages s) (km_mem s) x (slab_allocators s) (kmalloc_allocators s).
Definition set_slab_allocators (x : Z) (s : kmem) : kmem :=
  KMemSt (km_pages s) (km_mem s) (km_allocators s) x (kmalloc_allocators s).
Definition set_kmalloc_allocators (x : list Z) (s : kmem) : kmem :=
  KMemSt (km_pages s) (km_mem s) (km_allocators s) (slab_allocators s) x.

Abbreviation KM := kmem.

(** [slab_allocator_allocator] is a static variable: the linker gives its
    address. *)
Class KernelData : Type := slab_allocator_allocator : Z.

(** ** Access to memory *)

Definition km_load (a : Z) : M KM Z := gets (fun s => load64 (km_mem s) a).
Definition km_store (a v : Z) : M KM unit := modify (fun s => set_km_mem (store64 (km_mem s) a v) s).
Definition km_load8 (a : Z) : M KM Z := gets (fun s => load8 (km_mem s) a).
Definition km_store8 (a v : Z) : M KM unit := modify (fun s => set_km_mem (store8 (km_mem s) a v) s).
Definition km_memset (a v n : Z) : M KM unit :=
  modify (fun s => set_km_mem (store_bytes (km_mem s) a (replicate (Z.to_nat n) v)) s).

Definition the_allocator (p : Z) : M KM slab_allocator := let! s := get in deref (km_allocators s !! p).
Definition set_allocator (p : Z) (al : slab_allocator) : M KM unit :=
  modify (fun s => set_km_allocators (<[p := al]> (km_allocators s)) s).

(** ** Layout *)

Definition SLAB_REDZONE : Z := 0xdeadbeefdeadbeef.
Definition SLAB_MAX_ORDER : nat := 5.
Definition PAGE_NSIZES : nat := 8.
Definition MM_POISON_ALLOC : Z := 0xBB.
Definition MM_POISON_FREE : Z := 0xDD.

Definition sizeof_ptr : Z := 8.
Definition sizeof_slab : Z := 32.             (* s_next, s_inuse, s_free, s_addr *)
Definition sizeof_slab_bufctl : Z := 16.      (* sb_next or sb_slab, sb_free, padding *)
Definition sizeof_slab_allocator : Z := 48.

Definition s_next (slab : Z) : Z := slab.
Definition s_inuse (slab : Z) : Z := slab + 8.
Definition s_free (slab : Z) : Z := slab + 16.
Definition s_addr (slab : Z) : Z := slab + 24.

Definition front_rz (obj : Z) : Z := obj.
Definition rear_rz (al : slab_allocator) (obj : Z) : Z := obj + sa_objsize al - sizeof_ptr.

(** The address of the bufctl is that of [sb_next] and [sb_slab]. *)
Definition obj_bufctl (al : slab_allocator) (obj : Z) : Z := obj + sa_objsize al.
Definition sb_free (bufctl : Z) : Z := bufctl + 8.
Definition next_obj (al : slab_allocator) (obj : Z) : Z := obj + sa_objsize al + sizeof_slab_bufctl.

Definition VERIFY_REDZONES (al : slab_allocator) (obj : Z) : M KM unit :=
  let! front := km_load (front_rz obj) in
  do! kassert (front =? SLAB_REDZONE);
  let! rear := km_load (rear_rz al obj) in
  kassert (rear =? SLAB_REDZONE).

(** ** The size of a slab *)

Definition page_block (order : nat) : Z := Z.shiftl PAGE_SIZE (Z.of_nat order).
Definition _slab_size (objsize nobjs : Z) : Z := u64 (nobjs * u64 (objsize + sizeof_slab_bufctl) + sizeof_slab).
Definition _slab_nobjs (objsize : Z) (order : nat) : Z :=
  (page_block order - sizeof_slab) / u64 (objsize + sizeof_slab_bufctl).
Definition _slab_waste (objsize : Z) (order : nat) : Z :=
  u64 (page_block order - _slab_size objsize (_slab_nobjs objsize order)).

(** The search for the smallest block that holds one object. *)
Definition minorder (objsize : Z) : option nat :=
  head (filter (fun order => _slab_size objsize 1 <= page_block order) (seq 0 PAGE_NSIZES)).

Definition better (objsize : Z) (best : nat * Z) (order : nat) : nat * Z :=
  let waste := _slab_waste objsize order in
  if waste <? best.2 then (order, waste) else best.

Definition best_order (objsize : Z) (min : nat) : nat :=
  (foldl (better objsize) (min, _slab_waste objsize min) (seq (S min) (SLAB_MAX_ORDER - S min))).1.

Definition _calc_slab_size (p : Z) : M KM unit :=
  let! al := the_allocator p in
  match minorder (sa_objsize al) with
  | None => fail Assert
  | Some min =>
      let order := best_order (sa_objsize al) min in
      let nobjs := _slab_nobjs (sa_objsize al) order in
      do! set_allocator p (SlabAllocator (sa_name al) (sa_objsize al) (sa_slabs al) order nobjs (sa_next al));
      kassert (negb (nobjs =? 0))
  end.

(** The null name is the empty string. *)
Definition _allocator_init (p : Z) (name : string) (size : Z) : M KM unit :=
  let size := u64 (size + 2 * sizeof_ptr) in
  let name := if decide (name = "") then "<unnamed>"%string else name in
  do! set_allocator p (SlabAllocator name size 0 0 0 0);
  do! _calc_slab_size p;
  let! s := get in
  let! al := the_allocator p in
  do! set_allocator p (SlabAllocator (sa_name al) (sa_objsize al) (sa_slabs al) (sa_order al)
                         (sa_slab_nobjs al) (slab_allocators s));
  modify (set_slab_allocators p).

(** ** Growing *)

(** The first loop of [_slab_allocator_grow], then the tail of the list: the
    last object. *)
Fixpoint link_objs (n : nat) (al : slab_allocator) (obj : Z) : M KM Z :=
  match n with
  | O =>
      do! km_store8 (sb_free (obj_bufctl al obj)) 1;
      do! km_store (obj_bufctl al obj) 0;
      ret obj
  | S n =>
      do! km_store8 (sb_free (obj_bufctl al obj)) 1;
      do! km_store (obj_bufctl al obj) (next_obj al obj);
      link_objs n al (next_obj al obj)
  end.

Fixpoint set_redzones (n : nat) (al : slab_allocator) (obj : Z) : M KM unit :=
  match n with
  | O => ret tt
  | S n =>
      do! km_store (front_rz obj) SLAB_REDZONE;
      do! km_store (rear_rz al obj) SLAB_REDZONE;
      set_redzones n al (next_obj al obj)
  end.

Definition _slab_allocator_grow (p : Z) : M KM bool :=
  let! al := the_allocator p in
  let! addr := zoom km_pages set_km_pages (page_alloc_n (Z.shiftl 1 (Z.of_nat (sa_order al)))) in
  if addr =? 0 then ret false
  else
    let! obj := link_objs (Z.to_nat (sa_slab_nobjs al - 1)) al addr in
    let slab := next_obj al obj in
    do! km_store (s_free slab) addr;
    do! km_store (s_addr slab) addr;
    do! km_store (s_inuse slab) 0;
    do! set_redzones (Z.to_nat (sa_slab_nobjs al)) al addr;
    do! km_store (s_next slab) (sa_slabs al);
    do! set_allocator p (SlabAllocator (sa_name al) (sa_objsize al) slab (sa_order al)
                           (sa_slab_nobjs al) (sa_next al));
    ret true.

(** ** Allocation *)

(** [while (slab && slab->s_inuse == nobjs) slab = slab->s_next]; slabs are in
    different pages, so their number bounds the walk. *)
Fixpoint walk_slabs (fuel : nat) (nobjs slab : Z) : M KM Z :=
  if slab =? 0 then ret slab
  else
    let! inuse := km_load (s_inuse slab) in
    if inuse =? nobjs then
      match fuel with
      | O => fail Stuck
      | S fuel => let! next := km_load (s_next slab) in walk_slabs fuel nobjs next
      end
    else ret slab.

(** The [for (;;)] loop: the slab to take an object from, or null; a slab that
    was just added has free objects. *)
Fixpoint find_slab (fuel : nat) (p : Z) : M KM Z :=
  let! al := the_allocator p in
  let! s := get in
  let! slab := walk_slabs (Z.to_nat (max_pages (km_pages s))) (sa_slab_nobjs al) (sa_slabs al) in
  let! inuse := km_load (s_inuse slab) in
  if negb (slab =? 0) && (inuse <? sa_slab_nobjs al) then ret slab
  else
    match fuel with
    | O => fail Stuck
    | S fuel =>
        let! grown := _slab_allocator_grow p in
        if grown then find_slab fuel p else ret 0
    end.

Definition slab_obj_alloc (p : Z) : M KM Z :=
  let! slab := find_slab 1 p in
  if slab =? 0 then ret 0
  else
    let! al := the_allocator p in
    let! obj := km_load (s_free slab) in
    let! next := km_load (obj_bufctl al obj) in
    do! km_store (s_free slab) next;
    do! km_store (obj_bufctl al obj) slab;
    do! km_store8 (sb_free (obj_bufctl al obj)) 0;
    let! inuse := km_load (s_inuse slab) in
    do! km_store (s_inuse slab) (u64 (inuse + 1));
    do! VERIFY_REDZONES al obj;
    ret (obj + sizeof_ptr).

Definition slab_obj_free (p obj : Z) : M KM unit :=
  let! al := the_allocator p in
  let obj := obj - sizeof_ptr in
  do! VERIFY_REDZONES al obj;
  let! free := km_load8 (sb_free (obj_bufctl al obj)) in
  do! kassert (free =? 0);
  do! km_store8 (sb_free (obj_bufctl al obj)) 1;
  let! slab := km_load (obj_bufctl al obj) in
  let! head := km_load (s_free slab) in
  do! km_store (obj_bufctl al obj) head;
  do! km_store (s_free slab) obj;
  let! inuse := km_load (s_inuse slab) in
  km_store (s_inuse slab) (u64 (inuse - 1)).

(** ** Allocators *)

Section allocators.
Context {kd : KernelData}.

Definition slab_allocator_create (name : string) (size : Z) : M KM Z :=
  let! p := slab_obj_alloc slab_allocator_allocator in
  if p =? 0 then ret 0
  else
    do! _allocator_init p name size;
    ret p.

Definition slab_allocator_destroy (p : Z) : M KM unit := slab_obj_free slab_allocator_allocator p.

Definition slab_allocators_reclaim (target : Z) : M KM Z := fail Assert.

Definition KMALLOC_SIZE_MIN_ORDER : nat := 6.
Definition KMALLOC_SIZE_MAX_ORDER : nat := 18.

Definition kmalloc_allocator_names : list string :=
  ["size-64"; "size-128"; "size-256"; "size-512"; "size-1024"; "size-2048"; "size-4096"; "size-8192";
   "size-16384"; "size-32768"; "size-65536"; "size-131072"; "size-262144"]%string.

(** The loop over the orders and the allocators. *)
Fixpoint kmalloc_loop (order : nat) (cs : list Z) (size : Z) : M KM Z :=
  match cs with
  | [] => fail Assert
  | p :: cs =>
      if size <=? pow2 order then
        let! addr := slab_obj_alloc p in
        if addr =? 0 then ret 0
        else
          do! km_memset addr MM_POISON_ALLOC size;
          do! km_store addr p;
          ret (addr + sizeof_ptr)
      else kmalloc_loop (S order) cs size
  end.

Definition kmalloc (size : Z) : M KM Z :=
  let! s := get in
  kmalloc_loop KMALLOC_SIZE_MIN_ORDER (kmalloc_allocators s) (u64 (size + sizeof_ptr)).

Definition kfree (addr : Z) : M KM unit :=
  let addr := addr - sizeof_ptr in
  let! p := km_load addr in
  let! al := the_allocator p in
  do! km_memset addr MM_POISON_FREE (sa_objsize al - 2 * sizeof_ptr);
  slab_obj_free p addr.

Fixpoint create_kmalloc (order : nat) (names : list string) : M KM unit :=
  match names with
  | [] => ret tt
  | name :: names =>
      let! p := slab_allocator_create name (pow2 order) in
      do! kassert (negb (p =? 0));
      do! modify (fun s => set_kmalloc_allocators (kmalloc_allocators s ++ [p]) s);
      create_kmalloc (S order) names
  end.

Definition slab_init : M KM unit :=
  do! _allocator_init slab_allocator_allocator "slab_allocators" sizeof_slab_allocator;
  do! modify (set_kmalloc_allocators []);
  create_kmalloc KMALLOC_SIZE_MIN_ORDER kmalloc_allocator_names.
End allocators.
