(* ===== verification/SlabProofs.v ===== *)
(** The layout of a slab in memory and what the slab allocator's steps do to it
    ([mm/slab.c]). *)

From S2P Require Import Prelude Page PageTree PageProofs PageAllocProofs PageTheorems KMem Slab.

Implicit Types (al : slab_allocator) (m : memory) (b i : Z).

(** ** Layout *)

Definition stride al : Z := sa_objsize al + sizeof_slab_bufctl.
Definition obj_at al b i : Z := b + i * stride al.
Definition slab_of al b : Z := obj_at al b (sa_slab_nobjs al).
Definition slab_bytes al : Z := PAGE_SIZE * pow2 (sa_order al).

(** What [_calc_slab_size] establishes: the objects and the slab structure fit. *)
Record alloc_wf al : Prop := AllocWf {
  wf_objsize : 16 <= sa_objsize al < 2 ^ 32;
  wf_nobjs : 0 < sa_slab_nobjs al;
  wf_order : (sa_order al < PAGE_NSIZES)%nat;
  wf_fits : sa_slab_nobjs al * stride al + sizeof_slab <= slab_bytes al;
}.

Lemma obj_before al b i j : 0 <= sa_objsize al -> i < j -> obj_at al b i + stride al <= obj_at al b j.
Proof. intros. unfold obj_at, stride, sizeof_slab_bufctl in *. nia. Qed.

Lemma obj_apart al b i j :
  0 <= sa_objsize al -> i <> j ->
  obj_at al b i + stride al <= obj_at al b j \/ obj_at al b j + stride al <= obj_at al b i.
Proof. intros ? Hne. destruct (Z.lt_ge_cases i j); [left|right]; apply obj_before; lia. Qed.

Lemma next_obj_at al b i : next_obj al (obj_at al b i) = obj_at al b (i + 1).
Proof. unfold next_obj, obj_at, stride. lia. Qed.

Lemma obj_in_slab al b i : 0 <= sa_objsize al -> 0 <= i < sa_slab_nobjs al ->
  b <= obj_at al b i /\ obj_at al b i + stride al <= slab_of al b.
Proof.
  intros H0 Hi. split; [|apply obj_before; lia]. unfold obj_at, stride, sizeof_slab_bufctl. nia.
Qed.

Lemma slab_in_bytes al b : alloc_wf al -> b <= slab_of al b /\ slab_of al b + 32 <= b + slab_bytes al.
Proof.
  intros [Ho Hn _ Hf]. assert (0 <= sa_slab_nobjs al * stride al) by (unfold stride, sizeof_slab_bufctl; nia).
  unfold slab_of, obj_at, sizeof_slab in *. lia.
Qed.

Lemma slab_bytes_small al : alloc_wf al -> 0 < slab_bytes al <= 4096 * 128.
Proof.
  intros [_ _ Ho _]. unfold slab_bytes, PAGE_SIZE, PAGE_NSIZES in *. pose proof (pow2_pos (sa_order al)).
  pose proof (pow2_le (sa_order al) 7 ltac:(lia)) as Hle. change (pow2 7) with 128 in Hle. lia.
Qed.

(** ** A slab in memory *)

(** The free list: the indices of the free objects from the pointer [p] on. *)
Fixpoint chain m al b (p : Z) (free : list Z) : Prop :=
  match free with
  | [] => p = 0
  | i :: free => p = obj_at al b i /\ chain m al b (load64 m (obj_bufctl al (obj_at al b i))) free
  end.

Definition obj_rep m al b (free : list Z) i : Prop :=
  let obj := obj_at al b i in
  load64 m (front_rz obj) = SLAB_REDZONE /\ load64 m (rear_rz al obj) = SLAB_REDZONE /\
  if decide (i ∈ free) then load8 m (sb_free (obj_bufctl al obj)) = 1
  else load8 m (sb_free (obj_bufctl al obj)) = 0 /\ load64 m (obj_bufctl al obj) = slab_of al b.

Record slab_rep m al b (free : list Z) : Prop := SlabRep {
  sr_nodup : NoDup free;
  sr_range : forall i, i ∈ free -> 0 <= i < sa_slab_nobjs al;
  sr_inuse : load64 m (s_inuse (slab_of al b)) = sa_slab_nobjs al - Z.of_nat (length free);
  sr_chain : chain m al b (load64 m (s_free (slab_of al b))) free;
  sr_objs : forall i, 0 <= i < sa_slab_nobjs al -> obj_rep m al b free i;
}.

(** The bytes of the objects that belong to their users. *)
Definition payload al b (x : Z) : Prop :=
  exists i, 0 <= i < sa_slab_nobjs al /\ obj_at al b i + 8 <= x < obj_at al b i + sa_objsize al - 8.

Lemma payload_inv al b i x :
  0 <= sa_objsize al -> obj_at al b i <= x < obj_at al b i + stride al -> payload al b x ->
  obj_at al b i + 8 <= x < obj_at al b i + sa_objsize al - 8.
Proof.
  intros H0 Hx (j & _ & Hj). destruct (decide (i = j)) as [->|Hne]; [done|].
  pose proof (obj_apart al b i j H0 Hne). unfold stride, sizeof_slab_bufctl in *. lia.
Qed.

Lemma payload_slab al b x : 0 <= sa_objsize al -> slab_of al b <= x -> ~ payload al b x.
Proof.
  intros H0 Hx (i & Hi & Hxi). pose proof (obj_in_slab al b i H0 Hi). unfold stride, sizeof_slab_bufctl in *. lia.
Qed.

(** Two memories with the same data of the allocator in the slab. *)
Definition meta_eq al b m m' : Prop :=
  forall x, b <= x < slab_of al b + 32 -> ~ payload al b x -> load8 m' x = load8 m x.

Section meta.
Context al b m m' (Hwf : alloc_wf al) (Heq : meta_eq al b m m').

Lemma meta_slab8 x : slab_of al b <= x < slab_of al b + 32 -> load8 m' x = load8 m x.
Proof.
  intros Hx. pose proof (wf_objsize _ Hwf). apply Heq; [|apply payload_slab; lia].
  pose proof (slab_in_bytes al b Hwf). lia.
Qed.

Lemma meta_slab64 a : slab_of al b <= a <= slab_of al b + 24 -> load64 m' a = load64 m a.
Proof. intros Ha. apply load64_ext. intros. apply meta_slab8. lia. Qed.

Lemma meta_obj8 i x :
  0 <= i < sa_slab_nobjs al -> obj_at al b i <= x < obj_at al b i + stride al ->
  x < obj_at al b i + 8 \/ obj_at al b i + sa_objsize al - 8 <= x -> load8 m' x = load8 m x.
Proof.
  intros Hi Hx Hout. pose proof (wf_objsize _ Hwf). pose proof (obj_in_slab al b i ltac:(lia) Hi).
  apply Heq; [lia|]. intros Hp. pose proof (payload_inv al b i x ltac:(lia) Hx Hp). lia.
Qed.

Lemma meta_obj64 i a :
  0 <= i < sa_slab_nobjs al -> obj_at al b i <= a <= obj_at al b i + stride al - 8 ->
  a = obj_at al b i \/ obj_at al b i + sa_objsize al - 8 <= a -> load64 m' a = load64 m a.
Proof. intros Hi Ha Hout. apply load64_ext. intros. apply (meta_obj8 i); [done|lia|lia]. Qed.

Lemma chain_meta p free :
  (forall i, i ∈ free -> 0 <= i < sa_slab_nobjs al) -> chain m al b p free -> chain m' al b p free.
Proof.
  revert p. induction free as [|i free IH]; intros p Hr; cbn [chain]; [done|]. intros [-> Hc]. split; [done|].
  assert (0 <= i < sa_slab_nobjs al) as Hi by (apply Hr; left).
  pose proof (wf_objsize _ Hwf). unfold obj_bufctl in *.
  rewrite (meta_obj64 i) by (unfold stride, sizeof_slab_bufctl; (done || lia)).
  apply IH; [|done]. intros. apply Hr. by right.
Qed.

Lemma obj_rep_meta free i : 0 <= i < sa_slab_nobjs al -> obj_rep m al b free i -> obj_rep m' al b free i.
Proof.
  intros Hi. pose proof (wf_objsize _ Hwf). unfold obj_rep, front_rz, rear_rz, obj_bufctl, sb_free, sizeof_ptr.
  intros (H1 & H2 & H3). rewrite !(meta_obj64 i) by (unfold stride, sizeof_slab_bufctl; (done || lia)).
  rewrite !(meta_obj8 i) by (unfold stride, sizeof_slab_bufctl; (done || lia)). done.
Qed.

Lemma slab_rep_meta free : slab_rep m al b free -> slab_rep m' al b free.
Proof.
  intros [Hnd Hr Hin Hch Hobj]. split; [done|done| | |].
  - unfold s_inuse in *. by rewrite meta_slab64 by lia.
  - unfold s_free in *. rewrite meta_slab64 by lia. by apply chain_meta.
  - intros i Hi. apply obj_rep_meta; auto.
Qed.
End meta.

(** One object goes on or off the free list. *)
Section change.
Context al b m m' (k : Z) (free free' : list Z).
Hypothesis Hwf : alloc_wf al.
Hypothesis Hrep : slab_rep m al b free.
Hypothesis Hk : 0 <= k < sa_slab_nobjs al.
Abbreviation ctl := (obj_bufctl al (obj_at al b k)).
Hypothesis Hother : forall x, ~ (ctl <= x < ctl + 9) -> ~ (slab_of al b + 8 <= x < slab_of al b + 24) ->
  load8 m' x = load8 m x.

Lemma change_obj8 i x :
  0 <= i < sa_slab_nobjs al -> obj_at al b i <= x < obj_at al b i + stride al ->
  i <> k \/ x < obj_at al b i + sa_objsize al -> load8 m' x = load8 m x.
Proof.
  intros Hi Hx Hik. pose proof (wf_objsize _ Hwf). pose proof (obj_in_slab al b i ltac:(lia) Hi).
  apply Hother; [|lia]. unfold obj_bufctl. destruct (decide (i = k)) as [->|Hne]; [lia|].
  pose proof (obj_apart al b i k ltac:(lia) Hne). unfold stride, sizeof_slab_bufctl in *. lia.
Qed.

Lemma change_obj64 i a :
  0 <= i < sa_slab_nobjs al -> obj_at al b i <= a <= obj_at al b i + stride al - 8 ->
  i <> k \/ a + 8 <= obj_at al b i + sa_objsize al -> load64 m' a = load64 m a.
Proof. intros Hi Ha Hik. apply load64_ext. intros. apply (change_obj8 i); [done|lia|lia]. Qed.

Lemma chain_change p l :
  (forall i, i ∈ l -> 0 <= i < sa_slab_nobjs al) -> k ∉ l -> chain m al b p l -> chain m' al b p l.
Proof.
  revert p. induction l as [|i l IH]; intros p Hr Hkl; cbn [chain]; [done|]. intros [-> Hc]. split; [done|].
  apply not_elem_of_cons in Hkl as [Hki Hkl]. pose proof (wf_objsize _ Hwf).
  unfold obj_bufctl in Hc |- *.
  rewrite (change_obj64 i) by (unfold stride, sizeof_slab_bufctl; first [apply Hr; left|lia]).
  apply IH; [|done|done]. intros. apply Hr. by right.
Qed.

Lemma slab_rep_change :
  NoDup free' -> (forall i, i <> k -> i ∈ free' <-> i ∈ free) ->
  load64 m' (s_inuse (slab_of al b)) = sa_slab_nobjs al - Z.of_nat (length free') ->
  chain m' al b (load64 m' (s_free (slab_of al b))) free' ->
  (if decide (k ∈ free') then load8 m' (sb_free ctl) = 1
   else load8 m' (sb_free ctl) = 0 /\ load64 m' ctl = slab_of al b) ->
  slab_rep m' al b free'.
Proof.
  intros Hnd Hfree Hin Hch Hctl. destruct Hrep as [Hnd0 Hr _ _ Hobj]. split; [done| |done|done|].
  { intros i Hi. destruct (decide (i = k)) as [->|Hne]; [done|]. by apply Hr, Hfree. }
  intros i Hi. specialize (Hobj i Hi). pose proof (wf_objsize _ Hwf).
  unfold obj_rep, front_rz, rear_rz, sizeof_ptr in *. destruct Hobj as (H1 & H2 & H3).
  rewrite !(change_obj64 i) by (unfold stride, sizeof_slab_bufctl; (done || lia)).
  split_and!; [done|done|].
  destruct (decide (i = k)) as [->|Hne]; [done|]. unfold sb_free, obj_bufctl in *.
  rewrite (change_obj8 i) by (unfold stride, sizeof_slab_bufctl; (done || lia)).
  rewrite (change_obj64 i) by (unfold stride, sizeof_slab_bufctl; (done || lia)).
  destruct (decide (i ∈ free)), (decide (i ∈ free')); try done; naive_solver.
Qed.
End change.

(** ** A new slab *)

Section fresh.
Context al b (Hwf : alloc_wf al) (Hb : 0 < b) (Hend : b + slab_bytes al <= 2 ^ 64).

Abbreviation ctl i := (obj_bufctl al (obj_at al b i)).

Lemma obj_at_word i : 0 <= i <= sa_slab_nobjs al -> 0 <= obj_at al b i < 2 ^ 64.
Proof.
  intros Hi. pose proof (slab_in_bytes al b Hwf). pose proof (wf_objsize _ Hwf).
  destruct (decide (i = sa_slab_nobjs al)) as [->|]; [unfold slab_of in *; lia|].
  pose proof (obj_in_slab al b i ltac:(lia) ltac:(lia)). unfold stride, sizeof_slab_bufctl in *. lia.
Qed.

(** The bufctls of objects [j] to [j + n] are linked. *)
Definition linked m m' (j n : Z) : Prop :=
  (forall x, (forall i, j <= i <= j + n -> ~ (ctl i <= x < ctl i + 9)) -> load8 m' x = load8 m x) /\
  forall i, j <= i <= j + n ->
    load8 m' (sb_free (ctl i)) = 1 /\ load64 m' (ctl i) = if i <? j + n then obj_at al b (i + 1) else 0.

Lemma ctl_apart i j : i <> j -> ctl i + 16 <= ctl j \/ ctl j + 16 <= ctl i.
Proof.
  intros Hne. pose proof (wf_objsize _ Hwf). pose proof (obj_apart al b i j ltac:(lia) Hne).
  unfold obj_bufctl, stride, sizeof_slab_bufctl in *. lia.
Qed.

Lemma wp_link_objs n j Q s :
  0 <= j -> j + Z.of_nat n < sa_slab_nobjs al ->
  (forall m', linked (km_mem s) m' j (Z.of_nat n) -> Q (obj_at al b (j + Z.of_nat n)) (set_km_mem m' s)) ->
  wp (link_objs n al (obj_at al b j)) Q s.
Proof.
  revert j s. induction n as [|n IH]; intros j s Hj Hn HQ; cbn [link_objs]; unfold km_store8, km_store; wp_steps.
  - change (Z.of_nat 0) with 0 in *. rewrite Z.add_0_r in *. apply (HQ _). split.
    + intros x Hx. specialize (Hx j ltac:(lia)). cbn [km_mem set_km_mem]. rewrite load8_store64_ne by lia.
      apply load8_store8_ne. unfold sb_free. lia.
    + intros i Hi. replace i with j by lia. rewrite Z.add_0_r, Z.ltb_irrefl. cbn [km_mem set_km_mem].
      rewrite load64_store64 by lia. rewrite load8_store64_ne by (unfold sb_free; lia).
      by rewrite load8_store8.
  - rewrite next_obj_at. apply IH; [lia|lia|]. intros m' [Hout Hin].
    replace (j + 1 + Z.of_nat n) with (j + Z.of_nat (S n)) in * by lia. apply HQ. cbn [km_mem set_km_mem] in Hout. split.
    + intros x Hx. rewrite Hout by (intros; apply Hx; lia). specialize (Hx j ltac:(lia)).
      rewrite load8_store64_ne by lia. apply load8_store8_ne. unfold sb_free. lia.
    + intros i Hi. destruct (decide (i = j)) as [->|]; [|apply Hin; lia].
      assert (forall x, ctl j <= x < ctl j + 9 -> forall i', j + 1 <= i' <= j + Z.of_nat (S n) -> ~ (ctl i' <= x < ctl i' + 9)) as Hnot.
      { intros x Hx i' Hi'. pose proof (ctl_apart i' j ltac:(lia)). lia. }
      rewrite (proj2 (Z.ltb_lt j _)) by lia. split.
      * rewrite Hout by (apply Hnot; unfold sb_free; lia). rewrite load8_store64_ne by (unfold sb_free; lia).
        by rewrite load8_store8.
      * erewrite load64_ext; [|intros x Hx; apply Hout, Hnot; lia]. apply load64_store64. apply obj_at_word. lia.
Qed.

(** The red zones of objects [j] to [j + n - 1] are set. *)
Definition zoned m m' (j n : Z) : Prop :=
  (forall x, (forall i, j <= i < j + n -> ~ (obj_at al b i <= x < obj_at al b i + 8)
                /\ ~ (rear_rz al (obj_at al b i) <= x < rear_rz al (obj_at al b i) + 8)) -> load8 m' x = load8 m x) /\
  forall i, j <= i < j + n ->
    load64 m' (front_rz (obj_at al b i)) = SLAB_REDZONE /\ load64 m' (rear_rz al (obj_at al b i)) = SLAB_REDZONE.

Lemma wp_set_redzones n j Q s :
  0 <= j -> j + Z.of_nat n <= sa_slab_nobjs al ->
  (forall m', zoned (km_mem s) m' j (Z.of_nat n) -> Q tt (set_km_mem m' s)) ->
  wp (set_redzones n al (obj_at al b j)) Q s.
Proof.
  pose proof (wf_objsize _ Hwf) as Ho.
  revert j s. induction n as [|n IH]; intros j s Hj Hn HQ; cbn [set_redzones]; unfold km_store; wp_steps.
  - specialize (HQ (km_mem s)). destruct s. apply HQ. split; [done|]. intros. lia.
  - rewrite next_obj_at. apply IH; [lia|lia|]. intros m' [Hout Hin].
    replace (j + 1 + Z.of_nat n) with (j + Z.of_nat (S n)) in * by lia. apply HQ. cbn [km_mem set_km_mem] in Hout. split.
    + intros x Hx. rewrite Hout by (intros; apply Hx; lia). specialize (Hx j ltac:(lia)).
      rewrite load8_store64_ne by lia. apply load8_store64_ne. unfold front_rz. lia.
    + intros i Hi. destruct (decide (i = j)) as [->|]; [|apply Hin; lia].
      assert (forall x, obj_at al b j <= x < obj_at al b j + sa_objsize al -> forall i', j + 1 <= i' < j + Z.of_nat (S n) ->
                ~ (obj_at al b i' <= x < obj_at al b i' + 8)
                /\ ~ (rear_rz al (obj_at al b i') <= x < rear_rz al (obj_at al b i') + 8)) as Hnot.
      { intros x Hx i' Hi'. pose proof (obj_before al b j i' ltac:(lia) ltac:(lia)).
        unfold rear_rz, sizeof_ptr, stride, sizeof_slab_bufctl in *. lia. }
      unfold front_rz, rear_rz, sizeof_ptr in *. split.
      * erewrite load64_ext; [|intros x Hx; apply Hout, Hnot; lia].
        rewrite load64_store64_ne by lia. by rewrite load64_store64.
      * erewrite load64_ext; [|intros x Hx; apply Hout, Hnot; lia]. by rewrite load64_store64.
Qed.

Lemma chain_fresh m n j :
  (forall i, j <= i <= j + Z.of_nat n -> load64 m (ctl i) = if i <? j + Z.of_nat n then obj_at al b (i + 1) else 0) ->
  chain m al b (obj_at al b j) (seqZ j (Z.of_nat n + 1)).
Proof.
  revert j. induction n as [|n IH]; intros j H.
  - change (Z.of_nat 0 + 1) with 1. rewrite seqZ_cons by lia. cbn [chain]. split; [done|].
    rewrite H by lia. rewrite (proj2 (Z.ltb_ge _ _)) by lia. done.
  - rewrite seqZ_cons by lia. cbn [chain]. split; [done|]. rewrite H by lia.
    rewrite (proj2 (Z.ltb_lt _ _)) by lia. replace (Z.pred (Z.of_nat (S n) + 1)) with (Z.of_nat n + 1) by lia.
    replace (Z.succ j) with (j + 1) by lia. apply IH. intros i Hi. rewrite H by lia.
    by replace (j + Z.of_nat (S n)) with (j + 1 + Z.of_nat n) by lia.
Qed.
End fresh.

Lemma obj_at_0 al b : obj_at al b 0 = b.
Proof. unfold obj_at. lia. Qed.

(** The slab of a memory that was linked and whose red zones were set. *)
Lemma fresh_rep al b m0 m1 m2 m3 m4 v :
  alloc_wf al -> 0 < b -> b + slab_bytes al <= 2 ^ 64 -> 0 <= v < 2 ^ 64 ->
  let slab := slab_of al b in
  linked al b m0 m1 0 (sa_slab_nobjs al - 1) ->
  m2 = store64 (store64 (store64 m1 (s_free slab) b) (s_addr slab) b) (s_inuse slab) 0 ->
  zoned al b m2 m3 0 (sa_slab_nobjs al) -> m4 = store64 m3 (s_next slab) v ->
  slab_rep m4 al b (seqZ 0 (sa_slab_nobjs al)) /\ load64 m4 (s_next slab) = v
  /\ forall x, x < b \/ slab + 32 <= x -> load8 m4 x = load8 m0 x.
Proof.
  intros Hwf Hb Hend Hv slab [Hl1 Hl2] -> [Hz1 Hz2] ->. unfold s_free, s_addr, s_inuse, s_next, slab in *.
  pose proof (wf_objsize _ Hwf) as Ho. pose proof (wf_nobjs _ Hwf) as Hn. pose proof (slab_in_bytes al b Hwf) as Hs.
  assert (forall i, 0 <= i < sa_slab_nobjs al ->
            b <= obj_at al b i /\ obj_at al b i + sa_objsize al + 16 <= slab_of al b) as Hobj.
  { intros i Hi. pose proof (obj_in_slab al b i ltac:(lia) Hi). unfold stride, sizeof_slab_bufctl in *. lia. }
  set (sl := slab_of al b) in *.
  assert (forall x, sl <= x -> load8 m3 x = load8 (store64 (store64 (store64 m1 (sl + 16) b) (sl + 24) b) (sl + 8) 0) x) as H3.
  { intros x Hx. apply Hz1. intros i Hi. specialize (Hobj i ltac:(lia)). unfold rear_rz, sizeof_ptr. lia. }
  assert (forall i x, 0 <= i < sa_slab_nobjs al -> obj_at al b i + sa_objsize al <= x < obj_at al b i + sa_objsize al + 9 ->
            load8 (store64 m3 sl v) x = load8 m1 x) as Hctl.
  { intros i x Hi Hx. specialize (Hobj i Hi) as Hi'. rewrite load8_store64_ne by lia. rewrite Hz1.
    - by rewrite !load8_store64_ne by lia.
    - intros j Hj. specialize (Hobj j ltac:(lia)). destruct (decide (i = j)) as [->|Hne];
        [unfold rear_rz, sizeof_ptr; lia|]. pose proof (obj_apart al b i j ltac:(lia) Hne).
      unfold rear_rz, sizeof_ptr, stride, sizeof_slab_bufctl in *. lia. }
  assert (forall i, 0 <= i < sa_slab_nobjs al -> load64 (store64 m3 sl v) (obj_bufctl al (obj_at al b i)) =
            if i <? sa_slab_nobjs al - 1 then obj_at al b (i + 1) else 0) as Hnext.
  { intros i Hi. erewrite load64_ext; [|intros x Hx; apply (Hctl i); [done|unfold obj_bufctl in Hx; lia]].
    destruct (Hl2 i ltac:(lia)) as [_ ->]. done. }
  split_and!; [split| |]; unfold s_inuse, s_free; fold sl.
  - apply NoDup_seqZ.
  - intros i Hi%elem_of_seqZ. lia.
  - rewrite load64_store64_ne by lia. erewrite load64_ext; [|intros; apply H3; lia].
    rewrite load64_store64 by lia. rewrite length_seqZ. lia.
  - rewrite load64_store64_ne by lia. erewrite load64_ext; [|intros; apply H3; lia].
    rewrite 2 load64_store64_ne by lia. rewrite load64_store64 by (unfold slab_bytes, PAGE_SIZE in *; lia).
    rewrite <- (obj_at_0 al b) at 2. replace (sa_slab_nobjs al) with (Z.of_nat (Z.to_nat (sa_slab_nobjs al - 1)) + 1) by lia.
    apply chain_fresh. intros i Hi. rewrite Hnext by lia. by replace (0 + _) with (sa_slab_nobjs al - 1) by lia.
  - intros i Hi. destruct (Hz2 i ltac:(lia)) as [Hf Hrz]. specialize (Hobj i Hi) as Hi'. unfold obj_rep.
    rewrite !load64_store64_ne by (unfold front_rz, rear_rz, sizeof_ptr; lia).
    split_and!; [done|done|]. rewrite decide_True by (apply elem_of_seqZ; lia).
    rewrite (Hctl i) by (unfold sb_free, obj_bufctl; lia). apply Hl2. lia.
  - by rewrite load64_store64.
  - intros x Hx. rewrite load8_store64_ne by lia. rewrite Hz1.
    + rewrite !load8_store64_ne by lia. apply Hl1. intros i Hi. specialize (Hobj i ltac:(lia)). unfold obj_bufctl. lia.
    + intros i Hi. specialize (Hobj i ltac:(lia)). unfold rear_rz, sizeof_ptr. lia.
Qed.
