(* ===== verification/SlabHeap.v ===== *)
(** The heap of the slab allocators: every slab of every allocator, and the
    operations on it ([mm/slab.c]). *)

From S2P Require Import Prelude Page PageTree PageProofs PageAllocProofs PageTheorems KMem Slab SlabProofs.

(** A slab belongs to an allocator and has a list of free objects. *)
Record slab_view : Type := SlabView { sv_owner : Z; sv_free : list Z }.

Implicit Types (V : gmap Z slab_view) (L : gmap Z (list Z)) (s : kmem) (al : slab_allocator)
  (m : memory) (p b i : Z).

(** The list of slabs from the pointer [q] on. *)
Fixpoint link m al (q : Z) (bs : list Z) : Prop :=
  match bs with
  | [] => q = 0
  | b :: bs => q = slab_of al b /\ link m al (load64 m (s_next (slab_of al b))) bs
  end.

(** The slab occupies pages that are not free. *)
Definition in_pages (F : gset Z) (pages : Z) al b : Prop :=
  exists pg, b = pg * 4096 + PHYS_OFFSET /\ 0 < pg /\ pg + pow2 (sa_order al) <= pages
             /\ range pg (pow2 (sa_order al)) ## F.

Definition slab_at V s b p al free : Prop := V !! b = Some (SlabView p free) /\ km_allocators s !! p = Some al.

Record heap_ok V L s : Prop := HeapOk {
  hp_order : (PAGE_NSIZES <= S (max_order (km_pages s)))%nat;
  hp_pages : exists F, free_pages F (km_pages s)
    /\ forall b p al free, slab_at V s b p al free -> in_pages F (max_pages (km_pages s)) al b;
  hp_alloc : forall p bs, L !! p = Some bs -> exists al, km_allocators s !! p = Some al /\ alloc_wf al
    /\ NoDup bs /\ link (km_mem s) al (sa_slabs al) bs;
  hp_owner : forall p bs b, L !! p = Some bs -> b ∈ bs <-> exists free, V !! b = Some (SlabView p free);
  hp_owned : forall b p free, V !! b = Some (SlabView p free) -> is_Some (L !! p);
  hp_slab : forall b p al free, slab_at V s b p al free -> slab_rep (km_mem s) al b free;
  hp_apart : forall b p al free b' p' al' free', slab_at V s b p al free -> slab_at V s b' p' al' free' ->
    b <> b' -> b + slab_bytes al <= b' \/ b' + slab_bytes al' <= b;
}.

(** The objects in use: address and size of the part that belongs to the user. *)
Definition live V s p (a n : Z) : Prop :=
  exists b i al free, slab_at V s b p al free /\ 0 <= i < sa_slab_nobjs al /\ i ∉ free
    /\ a = obj_at al b i + sizeof_ptr /\ n = sa_objsize al - 2 * sizeof_ptr.

(** ** Consequences of the invariant *)

Lemma pages_word F al pg s :
  free_pages F (km_pages s) -> 0 < pg -> pg + pow2 (sa_order al) <= max_pages (km_pages s) ->
  0 < pg * 4096 + PHYS_OFFSET /\ pg * 4096 + PHYS_OFFSET + slab_bytes al <= 2 ^ 64.
Proof.
  intros Hok Hpg Hle. pose proof (max_pages_small _ _ Hok) as Hmax.
  pose proof (pow2_pos (sa_order al)). unfold slab_bytes, PAGE_SIZE, PHYS_OFFSET. lia.
Qed.

Lemma range_last F s pg n :
  free_pages F (km_pages s) -> 0 < n -> range pg n ⊆ F -> pg + n <= max_pages (km_pages s).
Proof.
  intros HF Hn Hsub.
  assert (pg + n - 1 ∈ F) as Hl%(pg_range _ _ HF) by (apply Hsub, elem_of_range; lia). lia.
Qed.

Section ok.
Context V L s (Hok : heap_ok V L s).

Lemma slab_at_wf b p al free : slab_at V s b p al free -> alloc_wf al.
Proof.
  intros [Hv Ha]. destruct (hp_owned _ _ _ Hok _ _ _ Hv) as [bs Hbs].
  destruct (hp_alloc _ _ _ Hok _ _ Hbs) as (al' & Ha' & Hwf & _). congruence.
Qed.

Lemma slab_at_word b p al free : slab_at V s b p al free -> 0 < b /\ b + slab_bytes al <= 2 ^ 64.
Proof.
  intros Hat. destruct (hp_pages _ _ _ Hok) as (F & HF & Hin).
  destruct (Hin _ _ _ _ Hat) as (pg & -> & Hpg & Hle & _). by apply (pages_word F _ _ s).
Qed.

Lemma live_same p a n p' a' n' :
  live V s p a n -> live V s p' a' n' ->
  (p = p' /\ a = a' /\ n = n') \/ a + n + 8 <= a' - 8 \/ a' + n' + 8 <= a - 8.
Proof.
  intros (b & i & al & free & Hat & Hi & _ & -> & ->) (b' & i' & al' & free' & Hat' & Hi' & _ & -> & ->).
  pose proof (wf_objsize _ (slab_at_wf _ _ _ _ Hat)). pose proof (wf_objsize _ (slab_at_wf _ _ _ _ Hat')).
  unfold sizeof_ptr. destruct (decide (b = b')) as [->|Hne].
  - destruct Hat as [Hv Ha], Hat' as [Hv' Ha']. simplify_eq.
    destruct (decide (i = i')) as [->|Hii]; [by left|right].
    pose proof (obj_apart al b' i i' ltac:(lia) Hii). unfold stride, sizeof_slab_bufctl in *. lia.
  - right. pose proof (hp_apart _ _ _ Hok _ _ _ _ _ _ _ _ Hat Hat' Hne).
    pose proof (slab_in_bytes al b (slab_at_wf _ _ _ _ Hat)). pose proof (slab_in_bytes al' b' (slab_at_wf _ _ _ _ Hat')).
    pose proof (obj_in_slab al b i ltac:(lia) Hi). pose proof (obj_in_slab al' b' i' ltac:(lia) Hi').
    unfold stride, sizeof_slab_bufctl in *. lia.
Qed.

(** A list of slabs is not longer than the number of pages. *)
Lemma slabs_few p bs : L !! p = Some bs -> (length bs <= Z.to_nat (max_pages (km_pages s)))%nat.
Proof.
  intros Hbs. destruct (hp_alloc _ _ _ Hok _ _ Hbs) as (al & Ha & _ & Hnd & _).
  destruct (hp_pages _ _ _ Hok) as (F & HF & Hin).
  set (page := fun b => (b - PHYS_OFFSET) / 4096).
  assert (forall b, b ∈ bs -> exists pg, b = pg * 4096 + PHYS_OFFSET /\ page b = pg /\ 0 <= pg < max_pages (km_pages s)) as Hpg.
  { intros b [free Hv]%(hp_owner _ _ _ Hok _ _ _ Hbs). destruct (Hin b p al free) as (pg & -> & Hp & Hle & _); [by split|].
    pose proof (pow2_pos (sa_order al)). exists pg. split_and!; [done| |lia|lia]. unfold page.
    replace (pg * 4096 + PHYS_OFFSET - PHYS_OFFSET) with (pg * 4096) by lia. apply Z.div_mul. lia. }
  assert (NoDup (page <$> bs)) as Hnd'.
  { clear -Hnd Hpg. induction Hnd as [|b bs Hb Hnd IH]; [constructor|]. cbn. constructor.
    - intros (b' & E & Hb')%list_elem_of_fmap. apply Hb.
      destruct (Hpg b) as (pg & E1 & E2 & _); [left|]. destruct (Hpg b') as (pg' & E1' & E2' & _); [by right|].
      replace b with b' by congruence. done.
    - apply IH. intros. apply Hpg. by right. }
  assert (page <$> bs ⊆+ seqZ 0 (max_pages (km_pages s))) as Hsub.
  { apply NoDup_submseteq; [done|]. intros x (b & -> & Hb)%list_elem_of_fmap. apply elem_of_seqZ.
    destruct (Hpg b Hb) as (pg & _ & -> & ?). lia. }
  apply submseteq_length in Hsub. rewrite length_fmap, length_seqZ in Hsub.
  done.
Qed.
End ok.

(** ** Memory changes *)

Lemma link_same m m' al q bs :
  (forall b, b ∈ bs -> load64 m' (s_next (slab_of al b)) = load64 m (s_next (slab_of al b))) ->
  link m al q bs -> link m' al q bs.
Proof.
  revert q. induction bs as [|b bs IH]; intros q Hb; cbn [link]; [done|]. intros [-> Hl]. split; [done|].
  rewrite Hb by left. apply IH; [|done]. intros. apply Hb. by right.
Qed.

Lemma slab_rep_outside m m' al b free :
  alloc_wf al -> (forall x, b <= x < b + slab_bytes al -> load8 m' x = load8 m x) ->
  slab_rep m al b free -> slab_rep m' al b free.
Proof.
  intros Hwf Hx. apply slab_rep_meta; [done|]. intros x Hin _. pose proof (slab_in_bytes al b Hwf). apply Hx. lia.
Qed.

(** The memory of one slab changes, its free list with it. *)
Section update.
Context V L s (Hok : heap_ok V L s) b p al (free free' : list Z) (m' : memory).
Hypothesis Hat : slab_at V s b p al free.
Hypothesis Hrep : slab_rep m' al b free'.
Hypothesis Hnext : load64 m' (s_next (slab_of al b)) = load64 (km_mem s) (s_next (slab_of al b)).
Hypothesis Hout : forall x, x < b \/ b + slab_bytes al <= x -> load8 m' x = load8 (km_mem s) x.

Abbreviation V' := (<[b := SlabView p free']> V).
Abbreviation s' := (set_km_mem m' s).

Lemma update_at b1 p1 al1 free1 :
  slab_at V' s' b1 p1 al1 free1 ->
  (b1 = b /\ p1 = p /\ al1 = al /\ free1 = free') \/ (b1 <> b /\ slab_at V s b1 p1 al1 free1).
Proof using Hat.
  clear Hrep Hnext Hout. intros [Hv Ha]. cbn in Ha. destruct Hat as [Hv0 Ha0]. destruct (decide (b1 = b)) as [->|Hne].
  - rewrite lookup_insert_eq in Hv. left. by simplify_eq.
  - rewrite lookup_insert_ne in Hv by done. by right.
Qed.

(** As far as the layout goes nothing changes. *)
Lemma update_shape b1 p1 al1 free1 :
  slab_at V' s' b1 p1 al1 free1 -> exists free0, slab_at V s b1 p1 al1 free0.
Proof using Hat. intros [(-> & -> & -> & ->)|[_ ?]]%update_at; [by exists free|by exists free1]. Qed.

Lemma update_ok : heap_ok V' L s'.
Proof.
  destruct (hp_pages _ _ _ Hok) as (F & HF & Hin). split; [apply Hok|..].
  - exists F. split; [done|]. intros b1 p1 al1 free1 (free0 & H0)%update_shape. by eapply Hin.
  - intros p1 bs Hbs. destruct (hp_alloc _ _ _ Hok _ _ Hbs) as (al1 & Ha1 & Hwf1 & Hnd & Hlk).
    exists al1. split_and!; [done|done|done|]. apply (link_same (km_mem s)); [|done]. intros b1 Hb1.
    apply (hp_owner _ _ _ Hok _ _ _ Hbs) in Hb1 as [free1 Hv1].
    destruct (decide (b1 = b)) as [->|Hne].
    + destruct Hat as [Hv0 Ha0]. by simplify_eq.
    + apply load64_ext. intros x Hx. apply Hout. pose proof (slab_in_bytes al1 b1 Hwf1). unfold s_next in Hx.
      pose proof (hp_apart _ _ _ Hok b1 p1 al1 free1 b p al free (conj Hv1 Ha1) Hat Hne). lia.
  - intros p1 bs b1 Hbs. rewrite (hp_owner _ _ _ Hok _ _ _ Hbs). destruct Hat as [Hv0 Ha0].
    destruct (decide (b1 = b)) as [->|Hne]; [rewrite lookup_insert_eq, Hv0; naive_solver|].
    by rewrite lookup_insert_ne.
  - intros b1 p1 free1 Hv1. destruct Hat as [Hv0 Ha0]. destruct (decide (b1 = b)) as [->|Hne].
    + rewrite lookup_insert_eq in Hv1. simplify_eq. by eapply hp_owned.
    + rewrite lookup_insert_ne in Hv1 by done. by eapply hp_owned.
  - intros b1 p1 al1 free1 [(-> & -> & -> & ->)|[Hne Hat1]]%update_at; [done|].
    eapply (slab_rep_outside (km_mem s)); [by eapply slab_at_wf| |by eapply hp_slab].
    intros x Hx. apply Hout. pose proof (hp_apart _ _ _ Hok _ _ _ _ _ _ _ _ Hat1 Hat Hne). lia.
  - intros b1 p1 al1 free1 b2 p2 al2 free2 (f1 & H1)%update_shape (f2 & H2)%update_shape. by eapply hp_apart.
Qed.

(** Bytes of the users of other slabs are untouched. *)
Lemma update_other b1 p1 al1 free1 x :
  slab_at V s b1 p1 al1 free1 -> b1 <> b -> b1 <= x < b1 + slab_bytes al1 -> load8 m' x = load8 (km_mem s) x.
Proof.
  intros Hat1 Hne Hx. apply Hout. pose proof (hp_apart _ _ _ Hok _ _ _ _ _ _ _ _ Hat1 Hat Hne). lia.
Qed.
End update.

(** ** Walking the slabs of an allocator *)

Lemma wp_walk_slabs V L s p al bs q fuel Q :
  heap_ok V L s -> km_allocators s !! p = Some al -> alloc_wf al ->
  (forall b, b ∈ bs -> exists free, V !! b = Some (SlabView p free)) ->
  link (km_mem s) al q bs -> (length bs <= fuel)%nat ->
  (forall b i free, V !! b = Some (SlabView p (i :: free)) -> Q (slab_of al b) s) ->
  ((forall b, b ∈ bs -> V !! b = Some (SlabView p [])) -> Q 0 s) ->
  wp (walk_slabs fuel (sa_slab_nobjs al) q) Q s.
Proof.
  intros Hok Ha Hwf. revert q bs. induction fuel as [|fuel IH]; intros q bs Hv Hl Hf Hfound Hnone; cbn [walk_slabs];
    destruct bs as [|b bs]; cbn [link length] in *; try lia.
  1, 2: rewrite Hl; apply wp_ret, Hnone; intros b Hb; by apply not_elem_of_nil in Hb.
  destruct Hl as [-> Hl]. destruct (Hv b) as [free Hvb]; [left|]. assert (slab_at V s b p al free) as Hat by done.
  pose proof (slab_at_word _ _ _ Hok _ _ _ _ Hat) as [Hb0 _]. pose proof (slab_in_bytes al b Hwf) as [Hs _].
  rewrite (proj2 (Z.eqb_neq (slab_of al b) 0)) by lia.
  pose proof (hp_slab _ _ _ Hok _ _ _ _ Hat) as Hrep. unfold km_load. wp_steps.
  rewrite (sr_inuse _ _ _ _ Hrep). destruct free as [|i free].
  - cbn [length]. rewrite Z.sub_0_r, Z.eqb_refl. wp_steps. apply (IH _ bs); [|done|lia|done|].
    + intros b' Hb'. apply Hv. by right.
    + intros Hall. apply Hnone. intros b' [->|Hb']%elem_of_cons; [done|by apply Hall].
  - rewrite (proj2 (Z.eqb_neq _ _)) by (cbn [length]; lia). apply wp_ret. by eapply Hfound.
Qed.

(** ** What an operation does to the users *)

Definition same_shape al al' : Prop :=
  sa_objsize al' = sa_objsize al /\ sa_slab_nobjs al' = sa_slab_nobjs al /\ sa_order al' = sa_order al.

(** The objects in use change as [users] says, the bytes of those in use before
    and after are kept, and the allocators stay what they are. *)
Record evolves V L s V' L' s' (users : Z -> Z -> Z -> Prop) : Prop := Evolves {
  ev_live : forall p a n, live V' s' p a n <-> users p a n;
  ev_bytes : forall p a n x, live V s p a n -> live V' s' p a n -> a <= x < a + n ->
    load8 (km_mem s') x = load8 (km_mem s) x;
  ev_alloc : forall p al, km_allocators s !! p = Some al ->
    exists al', km_allocators s' !! p = Some al' /\ same_shape al al';
  ev_dom : forall p, is_Some (L' !! p) <-> is_Some (L !! p);
  ev_kmalloc : kmalloc_allocators s' = kmalloc_allocators s;
}.

Lemma same_shape_refl al : same_shape al al.
Proof. done. Qed.

Lemma evolves_refl V L s : evolves V L s V L s (live V s).
Proof. split; try done. intros p al Hal. by exists al. Qed.

Lemma free_few m al b free : slab_rep m al b free -> Z.of_nat (length free) <= Z.max 0 (sa_slab_nobjs al).
Proof.
  intros [Hnd Hr _ _ _]. assert (free ⊆+ seqZ 0 (sa_slab_nobjs al)) as Hsub.
  { apply NoDup_submseteq; [done|]. intros j Hj. apply elem_of_seqZ. specialize (Hr j Hj). lia. }
  apply submseteq_length in Hsub. rewrite length_seqZ in Hsub. lia.
Qed.

Lemma nobjs_word al : alloc_wf al -> 0 < sa_slab_nobjs al < 2 ^ 64.
Proof.
  intros Hwf. pose proof (slab_bytes_small _ Hwf). destruct Hwf as [Ho Hn _ Hf].
  unfold stride, sizeof_slab_bufctl, sizeof_slab in *. nia.
Qed.

(** ** The free list of one slab changes *)

Section touch.
Context V L s (Hok : heap_ok V L s) p b i al (free : list Z).
Hypothesis Hat : slab_at V s b p al free.
Hypothesis Hi : 0 <= i < sa_slab_nobjs al.

Abbreviation ctl := (obj_bufctl al (obj_at al b i)).
Abbreviation sl := (slab_of al b).

Lemma touch_range : alloc_wf al /\ b <= obj_at al b i <= ctl /\ ctl + 16 <= sl
  /\ sl + 32 <= b + slab_bytes al /\ 0 < b /\ b + slab_bytes al <= 2 ^ 64.
Proof.
  pose proof (slab_at_wf _ _ _ Hok _ _ _ _ Hat) as Hwf. pose proof (wf_objsize _ Hwf).
  pose proof (obj_in_slab al b i ltac:(lia) Hi). pose proof (slab_in_bytes al b Hwf).
  pose proof (slab_at_word _ _ _ Hok _ _ _ _ Hat). unfold obj_bufctl, stride, sizeof_slab_bufctl in *.
  split_and!; (done || lia).
Qed.

Context (m' : memory) (free' : list Z).
Hypothesis Hother : forall x, ~ (ctl <= x < ctl + 9) -> ~ (sl + 8 <= x < sl + 24) ->
  load8 m' x = load8 (km_mem s) x.
Hypothesis Hrep : slab_rep m' al b free'.

Lemma touch_ok : heap_ok (<[b := SlabView p free']> V) L (set_km_mem m' s).
Proof.
  destruct touch_range as (Hwf & Hb1 & Hc & Hs & Hb & Hend).
  apply (update_ok V L s Hok b p al free); [done|done| |].
  - apply load64_ext. intros x Hx. unfold s_next in Hx. apply Hother; lia.
  - intros x Hx. apply Hother; lia.
Qed.

(** The bytes of all users are kept. *)
Lemma touch_bytes b' p' al' free1 j x :
  slab_at V s b' p' al' free1 -> 0 <= j < sa_slab_nobjs al' ->
  obj_at al' b' j + 8 <= x < obj_at al' b' j + sa_objsize al' - 8 -> load8 m' x = load8 (km_mem s) x.
Proof.
  intros Hat' Hj Hx. destruct touch_range as (Hwf & Hb1 & Hc & Hs & Hb & Hend).
  pose proof (slab_at_wf _ _ _ Hok _ _ _ _ Hat') as Hwf'. pose proof (wf_objsize _ Hwf').
  pose proof (obj_in_slab al' b' j ltac:(lia) Hj). pose proof (slab_in_bytes al' b' Hwf').
  unfold stride, sizeof_slab_bufctl in *. destruct (decide (b' = b)) as [->|Hne].
  - destruct Hat as [Hv Ha], Hat' as [Hv' Ha']. assert (al' = al) as -> by congruence. apply Hother; [|lia].
    unfold obj_bufctl. destruct (decide (j = i)) as [->|Hji]; [lia|].
    pose proof (obj_apart al b i j ltac:(lia) ltac:(lia)). unfold stride, sizeof_slab_bufctl in *. lia.
  - pose proof (hp_apart _ _ _ Hok _ _ _ _ _ _ _ _ Hat' Hat Hne). apply Hother; lia.
Qed.

(** The users of the heap after the change. *)
Lemma touch_evolves (users : Z -> Z -> Z -> Prop) :
  (forall p' b' j al' free1, slab_at (<[b := SlabView p free']> V) s b' p' al' free1 -> 0 <= j < sa_slab_nobjs al' ->
     j ∉ free1 <-> users p' (obj_at al' b' j + sizeof_ptr) (sa_objsize al' - 2 * sizeof_ptr)) ->
  (forall p' a n, users p' a n -> exists b' j al' free1, slab_at (<[b := SlabView p free']> V) s b' p' al' free1
     /\ 0 <= j < sa_slab_nobjs al' /\ a = obj_at al' b' j + sizeof_ptr /\ n = sa_objsize al' - 2 * sizeof_ptr) ->
  evolves V L s (<[b := SlabView p free']> V) L (set_km_mem m' s) users.
Proof.
  intros Hu1 Hu2. split; [| |intros q al' Hal'; by exists al'|done|done].
  - intros p' a n. split.
    + intros (b' & j & al' & free1 & Hat' & Hj & Hjf & -> & ->). by apply (Hu1 _ _ _ _ _ Hat' Hj).
    + intros Hu. destruct (Hu2 _ _ _ Hu) as (b' & j & al' & free1 & Hat' & Hj & -> & ->).
      exists b', j, al', free1. split_and!; [done|lia|lia| |done|done]. by apply (Hu1 _ _ _ _ _ Hat' Hj).
  - intros p' a n x (b' & j & al' & free1 & Hat' & Hj & Hjf & -> & ->) _ Hx. cbn.
    unfold sizeof_ptr in Hx. by apply (touch_bytes b' p' al' free1 j); [|lia|lia].
Qed.
End touch.

(** Two objects with one address are one. *)
Lemma object_unique V L s b p al free b' p' al' free' i j :
  heap_ok V L s -> slab_at V s b p al free -> slab_at V s b' p' al' free' ->
  0 <= i < sa_slab_nobjs al -> 0 <= j < sa_slab_nobjs al' -> obj_at al b i = obj_at al' b' j ->
  b = b' /\ p = p' /\ al = al' /\ free = free' /\ i = j.
Proof.
  intros Hok Hat Hat' Hi Hj E. pose proof (wf_objsize _ (slab_at_wf _ _ _ Hok _ _ _ _ Hat)).
  pose proof (wf_objsize _ (slab_at_wf _ _ _ Hok _ _ _ _ Hat')). destruct (decide (b = b')) as [->|Hne].
  - destruct Hat as [Hv Ha], Hat' as [Hv' Ha']. simplify_eq. split_and!; try done.
    destruct (decide (i = j)) as [|Hij]; [done|]. pose proof (obj_apart al b' i j ltac:(lia) Hij).
    unfold stride, sizeof_slab_bufctl in *. lia.
  - pose proof (hp_apart _ _ _ Hok _ _ _ _ _ _ _ _ Hat Hat' Hne).
    pose proof (obj_in_slab al b i ltac:(lia) Hi). pose proof (obj_in_slab al' b' j ltac:(lia) Hj).
    pose proof (slab_in_bytes al b (slab_at_wf _ _ _ Hok _ _ _ _ Hat)).
    pose proof (slab_in_bytes al' b' (slab_at_wf _ _ _ Hok _ _ _ _ Hat')). unfold stride, sizeof_slab_bufctl in *. lia.
Qed.

Lemma live_at V L s b p al free j :
  heap_ok V L s -> slab_at V s b p al free -> 0 <= j < sa_slab_nobjs al ->
  live V s p (obj_at al b j + sizeof_ptr) (sa_objsize al - 2 * sizeof_ptr) <-> j ∉ free.
Proof.
  intros Hok Hat Hj. split.
  - intros (b' & j' & al' & free' & Hat' & Hj' & Hjf & E & _).
    destruct (object_unique V L s b p al free b' p al' free' j j') as (-> & _ & -> & -> & ->); (done || lia).
  - intros Hjf. exists b, j, al, free. split_and!; (done || lia).
Qed.

(** A slab after the free list of one of them was replaced. *)
Lemma replaced_at V s b p al free free' b' p' al' free1 :
  slab_at V s b p al free -> slab_at (<[b := SlabView p free']> V) s b' p' al' free1 ->
  (b' = b /\ p' = p /\ al' = al /\ free1 = free') \/ (b' <> b /\ slab_at V s b' p' al' free1).
Proof.
  intros [Hv Ha] [Hv' Ha']. destruct (decide (b' = b)) as [->|Hne].
  - rewrite lookup_insert_eq in Hv'. left. by simplify_eq.
  - rewrite lookup_insert_ne in Hv' by done. by right.
Qed.

Lemma replaced_back V s b p al free free' b' p' al' free1 :
  slab_at V s b p al free -> slab_at V s b' p' al' free1 ->
  exists free2, slab_at (<[b := SlabView p free']> V) s b' p' al' free2.
Proof.
  intros [Hv Ha] [Hv' Ha']. destruct (decide (b' = b)) as [->|Hne].
  - exists free'. simplify_eq. split; [by rewrite lookup_insert_eq|done].
  - exists free1. split; [by rewrite lookup_insert_ne|done].
Qed.

Section take_give.
Context V L s (Hok : heap_ok V L s) p b i al (free : list Z).
Hypothesis Hi : 0 <= i < sa_slab_nobjs al.

Abbreviation ctl := (obj_bufctl al (obj_at al b i)).
Abbreviation sl := (slab_of al b).
Abbreviation addr := (obj_at al b i + sizeof_ptr).

Definition taken_mem (m : memory) : memory :=
  store64 (store8 (store64 (store64 m (s_free sl) (load64 m ctl)) ctl sl) (sb_free ctl) 0) (s_inuse sl)
    (sa_slab_nobjs al - Z.of_nat (length free)).

Definition given_mem (m : memory) : memory :=
  store64 (store64 (store64 (store8 m (sb_free ctl) 1) ctl (load64 m (s_free sl))) (s_free sl) (obj_at al b i))
    (s_inuse sl) (sa_slab_nobjs al - Z.of_nat (S (length free))).

Lemma taken_other m x :
  ~ (ctl <= x < ctl + 9) -> ~ (sl + 8 <= x < sl + 24) -> load8 (taken_mem m) x = load8 m x.
Proof.
  intros H1 H2. unfold taken_mem, s_free, s_inuse, sb_free in *.
  rewrite load8_store64_ne, load8_store8_ne, !load8_store64_ne by lia. done.
Qed.

Lemma given_other m x :
  ~ (ctl <= x < ctl + 9) -> ~ (sl + 8 <= x < sl + 24) -> load8 (given_mem m) x = load8 m x.
Proof.
  intros H1 H2. unfold given_mem, s_free, s_inuse, sb_free in *.
  rewrite !load8_store64_ne, load8_store8_ne by lia. done.
Qed.

Lemma chain_word m q l :
  alloc_wf al -> 0 < b -> b + slab_bytes al <= 2 ^ 64 -> (forall j, j ∈ l -> 0 <= j < sa_slab_nobjs al) ->
  chain m al b q l -> 0 <= q < 2 ^ 64.
Proof.
  intros Hwf Hb Hend Hr. destruct l as [|j l]; cbn [chain]; [lia|]. intros [-> _].
  apply obj_at_word; [done|done|done|]. assert (0 <= j < sa_slab_nobjs al); [apply Hr; left|lia].
Qed.

Lemma taken_rep : slab_at V s b p al (i :: free) -> slab_rep (taken_mem (km_mem s)) al b free.
Proof.
  intros Hat. destruct (touch_range V L s Hok p b i al _ Hat Hi) as (Hwf & Hb1 & Hc & Hs & Hb & Hend).
  pose proof (hp_slab _ _ _ Hok _ _ _ _ Hat) as Hrep. pose proof (sr_nodup _ _ _ _ Hrep) as [Hif Hnd]%NoDup_cons.
  pose proof (sr_chain _ _ _ _ Hrep) as [_ Hch].
  assert (forall j, j ∈ free -> 0 <= j < sa_slab_nobjs al) as Hr by (intros; apply (sr_range _ _ _ _ Hrep); by right).
  pose proof (chain_word _ _ _ Hwf Hb Hend Hr Hch) as Hword.
  apply (slab_rep_change al b (km_mem s) _ i (i :: free)); [done|done|done|apply taken_other|done| | | |].
  - intros j Hj. rewrite elem_of_cons. naive_solver.
  - unfold taken_mem. rewrite load64_store64; [done|]. pose proof (free_few _ _ _ _ Hrep) as Hfew.
    pose proof (nobjs_word _ Hwf). cbn [length] in Hfew. lia.
  - unfold taken_mem at 2. unfold s_free, s_inuse, sb_free in *.
    rewrite load64_store64_ne, load64_store8_ne, load64_store64_ne, load64_store64 by lia.
    apply (chain_change al b (km_mem s) _ i); [done|apply taken_other|done|done|done].
  - rewrite decide_False by done. unfold taken_mem, s_free, s_inuse, sb_free in *. split.
    + rewrite load8_store64_ne, load8_store8 by lia. done.
    + rewrite load64_store64_ne, load64_store8_ne, load64_store64 by lia. done.
Qed.

Lemma given_rep : slab_at V s b p al free -> i ∉ free -> slab_rep (given_mem (km_mem s)) al b (i :: free).
Proof.
  intros Hat Hif. destruct (touch_range V L s Hok p b i al _ Hat Hi) as (Hwf & Hb1 & Hc & Hs & Hb & Hend).
  pose proof (hp_slab _ _ _ Hok _ _ _ _ Hat) as Hrep. pose proof (sr_nodup _ _ _ _ Hrep) as Hnd.
  pose proof (sr_chain _ _ _ _ Hrep) as Hch. pose proof (sr_range _ _ _ _ Hrep) as Hr.
  pose proof (chain_word _ _ _ Hwf Hb Hend Hr Hch) as Hword.
  apply (slab_rep_change al b (km_mem s) _ i free); [done|done|done|apply given_other|by constructor| | | |].
  - intros j Hj. rewrite elem_of_cons. naive_solver.
  - unfold given_mem. rewrite load64_store64; [done|]. pose proof (nobjs_word _ Hwf).
    assert (Z.of_nat (length (i :: free)) <= sa_slab_nobjs al) as Hfew; [|cbn [length] in Hfew; lia].
    assert (i :: free ⊆+ seqZ 0 (sa_slab_nobjs al)) as Hsub%submseteq_length; [|rewrite length_seqZ in Hsub; lia].
    apply NoDup_submseteq; [by constructor|]. intros j [->|Hj]%elem_of_cons; apply elem_of_seqZ; [lia|].
    specialize (Hr j Hj). lia.
  - unfold given_mem at 2. unfold s_free, s_inuse, sb_free in *. rewrite load64_store64_ne, load64_store64 by lia.
    cbn [chain]. split; [done|]. unfold given_mem at 2. unfold s_free, s_inuse, sb_free in *.
    rewrite !load64_store64_ne, load64_store64 by lia.
    apply (chain_change al b (km_mem s) _ i); [done|apply given_other|done|done|done].
  - rewrite decide_True by left. unfold given_mem, s_free, s_inuse, sb_free in *.
    rewrite !load8_store64_ne, load8_store8 by lia. done.
Qed.

Lemma taken_evolves :
  slab_at V s b p al (i :: free) ->
  evolves V L s (<[b := SlabView p free]> V) L (set_km_mem (taken_mem (km_mem s)) s)
    (fun p' a n => live V s p' a n \/ p' = p /\ a = addr /\ n = sa_objsize al - 2 * sizeof_ptr).
Proof.
  intros Hat. pose proof (hp_slab _ _ _ Hok _ _ _ _ Hat) as Hrep. pose proof (sr_nodup _ _ _ _ Hrep) as [Hif _]%NoDup_cons.
  apply (touch_evolves V L s Hok p b i al (i :: free) Hat Hi); [apply taken_other| |].
  - intros p' b' j al' free1 Hat' Hj. destruct (replaced_at _ _ _ _ _ _ _ _ _ _ _ Hat Hat') as [(-> & -> & -> & ->)|[Hne Hat1]].
    + rewrite (live_at V L s b p al (i :: free)) by done. rewrite not_elem_of_cons.
      destruct (decide (j = i)) as [->|Hji]; [naive_solver|]. split; [naive_solver|].
      intros [[_ ?]|(_ & E & _)]; [done|].
      destruct (object_unique V L s b p al (i :: free) b p al (i :: free) j i) as (_ & _ & _ & _ & ?); (done || lia).
    + rewrite (live_at V L s b' p' al' free1) by done. split; [by left|]. intros [?|(_ & E & _)]; [done|].
      destruct (object_unique V L s b p al (i :: free) b' p' al' free1 i j) as (? & _); (done || lia).
  - intros p' a n [(b' & j & al' & free1 & Hat1 & Hj & _ & -> & ->)|(-> & -> & ->)].
    + destruct (replaced_back _ _ _ _ _ _ free _ _ _ _ Hat Hat1) as [f2 ?]. by exists b', j, al', f2.
    + destruct (replaced_back _ _ _ _ _ _ free _ _ _ _ Hat Hat) as [f2 ?]. by exists b, i, al, f2.
Qed.

Lemma given_evolves :
  slab_at V s b p al free -> i ∉ free ->
  evolves V L s (<[b := SlabView p (i :: free)]> V) L (set_km_mem (given_mem (km_mem s)) s)
    (fun p' a n => live V s p' a n /\ a <> addr).
Proof.
  intros Hat Hif.
  apply (touch_evolves V L s Hok p b i al free Hat Hi); [apply given_other| |].
  - intros p' b' j al' free1 Hat' Hj. destruct (replaced_at _ _ _ _ _ _ _ _ _ _ _ Hat Hat') as [(-> & -> & -> & ->)|[Hne Hat1]].
    + rewrite (live_at V L s b p al free) by done. rewrite not_elem_of_cons.
      split; [intros [Hji ?]; split; [done|]|intros [? Hne]; split; [intros ->; done|done]].
      intros E. destruct (object_unique V L s b p al free b p al free j i) as (_ & _ & _ & _ & ?); (done || lia).
    + rewrite (live_at V L s b' p' al' free1) by done. split; [|by intros []]. intros ?. split; [done|]. intros E.
      destruct (object_unique V L s b p al free b' p' al' free1 i j) as (? & _); (done || lia).
  - intros p' a n [(b' & j & al' & free1 & Hat1 & Hj & _ & -> & ->) _].
    destruct (replaced_back _ _ _ _ _ _ (i :: free) _ _ _ _ Hat Hat1) as [f2 ?]. by exists b', j, al', f2.
Qed.
End take_give.
