(* ===== verification/SlabTheorems.v ===== *)
(** The operations of the slab allocator on the heap, [kmalloc] and [kfree], and
    the initialisation of the allocators ([mm/slab.c]). *)

From S2P Require Import Prelude Page PageTree PageProofs PageAllocProofs PageTheorems KMem Slab SlabProofs SlabHeap.

Implicit Types (V : gmap Z slab_view) (L : gmap Z (list Z)) (s : kmem) (al : slab_allocator)
  (m : memory) (p b i : Z).

(** ** An allocator whose list of slabs changed *)

Section shape.
Context al al' (Hsh : same_shape al al').

Lemma obj_at_shape b i : obj_at al' b i = obj_at al b i.
Proof. destruct Hsh as (H1 & H2 & H3). unfold obj_at, stride. by rewrite H1. Qed.

Lemma slab_of_shape b : slab_of al' b = slab_of al b.
Proof. destruct Hsh as (H1 & H2 & H3). unfold slab_of. by rewrite H2, obj_at_shape. Qed.

Lemma slab_bytes_shape : slab_bytes al' = slab_bytes al.
Proof. destruct Hsh as (H1 & H2 & H3). unfold slab_bytes. by rewrite H3. Qed.

Lemma alloc_wf_shape : alloc_wf al -> alloc_wf al'.
Proof.
  intros [? ? ? ?]. pose proof slab_bytes_shape. destruct Hsh as (H1 & H2 & H3). unfold stride in *.
  split; unfold stride; rewrite ?H1, ?H2, ?H3; try done. congruence.
Qed.

Lemma chain_shape m b q free : chain m al b q free -> chain m al' b q free.
Proof.
  revert q. induction free as [|i free IH]; intros q; cbn [chain]; [done|]. rewrite obj_at_shape.
  destruct Hsh as (H1 & _). unfold obj_bufctl in *. rewrite H1. intros [-> ?]. auto.
Qed.

Lemma slab_rep_shape m b free : slab_rep m al b free -> slab_rep m al' b free.
Proof.
  intros [Hnd Hr Hin Hch Hobj]. pose proof slab_of_shape as Hs. pose proof obj_at_shape as Ho.
  destruct Hsh as (H1 & H2 & H3). split; rewrite ?Hs, ?H2; try done; [by apply chain_shape|].
  intros i Hi. specialize (Hobj i Hi). unfold obj_rep, rear_rz, obj_bufctl in *. by rewrite Hs, Ho, H1.
Qed.

Lemma link_shape m q bs : link m al q bs -> link m al' q bs.
Proof.
  revert q. induction bs as [|b bs IH]; intros q; cbn [link]; [done|]. rewrite slab_of_shape.
  intros [-> ?]. auto.
Qed.
End shape.

(** ** Growing *)

Lemma page_number_free F pages al b pg :
  in_pages F pages al b -> b = pg * 4096 + PHYS_OFFSET -> range pg (pow2 (sa_order al)) ## F.
Proof. intros (pg' & -> & _ & _ & Hd) E. by replace pg with pg' by lia. Qed.

Lemma ranges_apart p n p' n' F :
  0 < n -> 0 < n' -> range p n ⊆ F -> range p' n' ## F -> p + n <= p' \/ p' + n' <= p.
Proof.
  intros Hn Hn' Hsub Hd. destruct (decide (p + n <= p' \/ p' + n' <= p)) as [|Hno]; [done|]. exfalso.
  apply (Hd (Z.max p p')); [apply elem_of_range; lia|]. apply Hsub, elem_of_range. lia.
Qed.

Section grow.
Context V L s (Hok : heap_ok V L s) p al (bs : list Z).
Hypothesis Hbs : L !! p = Some bs.
Hypothesis Hal : km_allocators s !! p = Some al.

Definition grown_alloc b : slab_allocator :=
  SlabAllocator (sa_name al) (sa_objsize al) (slab_of al b) (sa_order al) (sa_slab_nobjs al) (sa_next al).

Definition grown_state b (ps : page_st) m : kmem :=
  KMemSt ps m (<[p := grown_alloc b]> (km_allocators s)) (slab_allocators s) (kmalloc_allocators s).

Abbreviation grown_view b := (<[b := SlabView p (seqZ 0 (sa_slab_nobjs al))]> V).
Abbreviation grown_list b := (<[p := b :: bs]> L).

Lemma grown_shape b : same_shape al (grown_alloc b).
Proof. done. Qed.

(** An allocator before and after. *)
Lemma grown_lookup b ps m q al' :
  km_allocators (grown_state b ps m) !! q = Some al' ->
  exists al0, km_allocators s !! q = Some al0 /\ same_shape al0 al'.
Proof.
  cbn. destruct (decide (q = p)) as [->|Hne].
  - rewrite lookup_insert_eq. intros [= <-]. by exists al.
  - rewrite lookup_insert_ne by done. intros H. by exists al'.
Qed.

Lemma grown_at b ps m b' q al' free' :
  V !! b = None -> slab_at (grown_view b) (grown_state b ps m) b' q al' free' ->
  (b' = b /\ q = p /\ al' = grown_alloc b /\ free' = seqZ 0 (sa_slab_nobjs al))
  \/ exists al0, b' <> b /\ slab_at V s b' q al0 free' /\ same_shape al0 al'.
Proof.
  intros Hb [Hv Ha]. destruct (decide (b' = b)) as [->|Hne].
  - rewrite lookup_insert_eq in Hv. simplify_eq. cbn in Ha. rewrite lookup_insert_eq in Ha. left. by simplify_eq.
  - rewrite lookup_insert_ne in Hv by done. destruct (grown_lookup _ _ _ _ _ Ha) as (al0 & Ha0 & Hsh).
    right. by exists al0.
Qed.

Context (b : Z) (ps : page_st) (m : memory) (F : gset Z) (pg : Z).
Hypothesis Hb : b = pg * 4096 + PHYS_OFFSET.
Hypothesis Hpg : 0 < pg.
Hypothesis HF : free_pages F (km_pages s).
Hypothesis Hin : forall b p al free, slab_at V s b p al free -> in_pages F (max_pages (km_pages s)) al b.
Hypothesis Hsub : range pg (pow2 (sa_order al)) ⊆ F.
Hypothesis HF' : free_pages (F ∖ range pg (pow2 (sa_order al))) ps.
Hypothesis Htree : same_tree (km_pages s) ps.
Hypothesis Hrep : slab_rep m al b (seqZ 0 (sa_slab_nobjs al)).
Hypothesis Hnext : load64 m (s_next (slab_of al b)) = sa_slabs al.
Hypothesis Hout : forall x, x < b \/ slab_of al b + 32 <= x -> load8 m x = load8 (km_mem s) x.

Lemma grow_wf : alloc_wf al.
Proof. destruct (hp_alloc _ _ _ Hok _ _ Hbs) as (al1 & Ha1 & ? & _). congruence. Qed.

Lemma grow_fresh : V !! b = None.
Proof.
  destruct (V !! b) as [[q free]|] eqn:E; [|done]. exfalso. destruct (hp_owned _ _ _ Hok _ _ _ E) as [bs' Hbs'].
  destruct (hp_alloc _ _ _ Hok _ _ Hbs') as (al1 & Ha1 & _). pose proof (pow2_pos (sa_order al1)).
  pose proof (page_number_free _ _ _ _ pg (Hin b q al1 free (conj E Ha1)) Hb) as Hd.
  pose proof (pow2_pos (sa_order al)). apply (Hd pg); [|apply Hsub]; apply elem_of_range; lia.
Qed.

Lemma grow_apart b' q al' free' :
  slab_at V s b' q al' free' -> b + slab_bytes al <= b' \/ b' + slab_bytes al' <= b.
Proof.
  intros Hat. destruct (Hin _ _ _ _ Hat) as (pg' & -> & _ & _ & Hd).
  pose proof (ranges_apart _ _ _ _ _ (pow2_pos (sa_order al)) (pow2_pos (sa_order al')) Hsub Hd). rewrite Hb. unfold slab_bytes, PAGE_SIZE. lia.
Qed.

Lemma grown_ok : heap_ok (grown_view b) (grown_list b) (grown_state b ps m).
Proof.
  pose proof grow_wf as Hwf. pose proof grow_fresh as Hnone. pose proof (slab_in_bytes al b Hwf) as Hsl.
  destruct Htree as [E1 E2].
  assert (forall b' q al' free', slab_at V s b' q al' free' ->
            forall x, b' <= x < b' + slab_bytes al' -> load8 m x = load8 (km_mem s) x) as Hkeep.
  { intros b' q al' free' Hat x Hx. apply Hout. pose proof (grow_apart _ _ _ _ Hat). lia. }
  split; [cbn; rewrite E2; apply Hok|..].
  - exists (F ∖ range pg (pow2 (sa_order al))). split; [done|]. intros b' q al' free' Hat. cbn. rewrite E1.
    apply (grown_at b ps m) in Hat as [(-> & -> & -> & ->)|(al0 & Hne & Hat0 & Hsh)]; [| |done].
    + exists pg. cbn. split_and!; [done|done|by apply (range_last F); [|apply pow2_pos|]|set_solver].
    + destruct (Hin _ _ _ _ Hat0) as (pg' & Hb' & Hpg' & Hle & Hd). destruct Hsh as (_ & _ & Ho).
      exists pg'. rewrite Ho. split_and!; [done|done|done|set_solver].
  - intros q bs' Hq. destruct (decide (q = p)) as [->|Hne].
    + rewrite lookup_insert_eq in Hq. injection Hq as <-. exists (grown_alloc b).
      cbn [km_allocators km_mem grown_state]. rewrite lookup_insert_eq.
      destruct (hp_alloc _ _ _ Hok _ _ Hbs) as (al1 & Ha1 & _ & Hnd & Hlk). assert (al1 = al) as -> by congruence.
      split_and!; [done|by apply (alloc_wf_shape al)| |].
      * constructor; [|done]. intros [free Hv]%(hp_owner _ _ _ Hok _ _ _ Hbs). congruence.
      * cbn [link]. rewrite (slab_of_shape al) by done. split; [done|]. rewrite Hnext. apply (link_shape al); [done|].
        apply (link_same (km_mem s)); [|done]. intros b' [free Hv]%(hp_owner _ _ _ Hok _ _ _ Hbs).
        apply load64_ext. intros x Hx. apply (Hkeep b' p al free); [done|].
        pose proof (slab_in_bytes al b' Hwf). unfold s_next in Hx. lia.
    + rewrite lookup_insert_ne in Hq by done. destruct (hp_alloc _ _ _ Hok _ _ Hq) as (al1 & Ha1 & Hwf1 & Hnd & Hlk).
      exists al1. cbn. rewrite lookup_insert_ne by done. split_and!; [done|done|done|].
      apply (link_same (km_mem s)); [|done]. intros b' [free Hv]%(hp_owner _ _ _ Hok _ _ _ Hq).
      apply load64_ext. intros x Hx. apply (Hkeep b' q al1 free); [done|].
      pose proof (slab_in_bytes al1 b' Hwf1). unfold s_next in Hx. lia.
  - intros q bs' b' Hq. destruct (decide (q = p)) as [->|Hne].
    + rewrite lookup_insert_eq in Hq. injection Hq as <-. rewrite elem_of_cons, (hp_owner _ _ _ Hok _ _ _ Hbs).
      destruct (decide (b' = b)) as [->|Hbb]; [rewrite lookup_insert_eq; naive_solver|].
      rewrite lookup_insert_ne by done. naive_solver.
    + rewrite lookup_insert_ne in Hq by done. rewrite (hp_owner _ _ _ Hok _ _ _ Hq).
      destruct (decide (b' = b)) as [->|Hbb]; [rewrite lookup_insert_eq, Hnone; naive_solver|].
      by rewrite lookup_insert_ne.
  - intros b' q free Hv. destruct (decide (q = p)) as [->|Hne]; [by rewrite lookup_insert_eq|].
    rewrite lookup_insert_ne by done. destruct (decide (b' = b)) as [->|Hbb].
    + rewrite lookup_insert_eq in Hv. congruence.
    + rewrite lookup_insert_ne in Hv by done. by eapply hp_owned.
  - intros b' q al' free' Hat. apply (grown_at b ps m) in Hat as [(-> & -> & -> & ->)|(al0 & Hne & Hat0 & Hsh)]; [| |done].
    + by apply (slab_rep_shape al).
    + apply (slab_rep_shape al0); [done|]. apply (slab_rep_outside (km_mem s));
        [by eapply slab_at_wf|by eapply Hkeep|by eapply hp_slab].
  - intros b1 p1 al1 f1 b2 p2 al2 f2 Hat1 Hat2 Hne.
    apply (grown_at b ps m) in Hat1 as [(-> & -> & -> & ->)|(al3 & Hne1 & Hat3 & Hsh3)]; [| |done];
      apply (grown_at b ps m) in Hat2 as [(-> & -> & -> & ->)|(al4 & Hne2 & Hat4 & Hsh4)]; try done.
    + rewrite (slab_bytes_shape al4 al2) by done. apply (grow_apart _ _ _ _ Hat4).
    + rewrite (slab_bytes_shape al3 al1) by done. pose proof (grow_apart _ _ _ _ Hat3).
      change (slab_bytes (grown_alloc b)) with (slab_bytes al). lia.
    + rewrite (slab_bytes_shape al3 al1), (slab_bytes_shape al4 al2) by done. by eapply hp_apart.
Qed.

Lemma grown_evolves : evolves V L s (grown_view b) (grown_list b) (grown_state b ps m) (live V s).
Proof.
  pose proof grow_wf as Hwf. pose proof grow_fresh as Hnone. pose proof (slab_in_bytes al b Hwf) as Hsl. split.
  - intros q a n. split.
    + intros (b' & i & al' & free & Hat & Hi & Hif & -> & ->).
      apply (grown_at b ps m) in Hat as [(-> & -> & -> & ->)|(al0 & Hne & Hat0 & Hsh)]; [| |done].
      * exfalso. apply Hif, elem_of_seqZ. cbn in Hi. lia.
      * exists b', i, al0, free. rewrite (obj_at_shape al0) by done. destruct Hsh as (Ho & Hn & _).
        rewrite Ho, Hn in *. done.
    + intros (b' & i & al0 & free & [Hv Ha] & Hi & Hif & -> & ->).
      assert (b' <> b) as Hne by congruence. destruct (decide (q = p)) as [->|Hqp].
      * assert (al0 = al) as -> by congruence. exists b', i, (grown_alloc b), free. split_and!; try done; try (cbn; lia).
        split; [by rewrite lookup_insert_ne|cbn; by rewrite lookup_insert_eq].
      * exists b', i, al0, free. split_and!; try done; try lia.
        split; [by rewrite lookup_insert_ne|cbn; by rewrite lookup_insert_ne].
  - intros q a n x (b' & i & al0 & free & Hat & Hi & Hif & -> & ->) _ Hx. apply Hout.
    pose proof (grow_apart _ _ _ _ Hat). pose proof (slab_at_wf _ _ _ Hok _ _ _ _ Hat) as Hwf0.
    pose proof (wf_objsize _ Hwf0). pose proof (obj_in_slab al0 b' i ltac:(lia) Hi). pose proof (slab_in_bytes al0 b' Hwf0).
    unfold stride, sizeof_slab_bufctl, sizeof_ptr in *. lia.
  - intros q al0 Ha0. destruct (decide (q = p)) as [->|Hne].
    + assert (al0 = al) as -> by congruence. exists (grown_alloc b). cbn. by rewrite lookup_insert_eq.
    + exists al0. cbn. by rewrite lookup_insert_ne.
  - intros q. destruct (decide (q = p)) as [->|Hne]; [|by rewrite lookup_insert_ne].
    rewrite lookup_insert_eq, Hbs. done.
  - done.
Qed.
End grow.

Lemma wp_the_allocator p al Q s : km_allocators s !! p = Some al -> Q al s -> wp (the_allocator p) Q s.
Proof. intros H HQ. unfold the_allocator. wp_steps. by eapply wp_deref. Qed.

(** No aligned block of [n] pages is free. *)
Definition no_block (n : Z) s : Prop :=
  forall F o k, free_pages F (km_pages s) -> (o <= max_order (km_pages s))%nat -> n <= pow2 o -> 0 <= k ->
    full F o k = false.

Lemma alloc_null F n s :
  free_pages F (km_pages s) -> 0 < n <= pow2 (max_order (km_pages s)) ->
  (forall o k, (o <= max_order (km_pages s))%nat -> n <= pow2 o -> 0 <= k -> full F o k = true ->
     u64 (Z.shiftr (2 ^ 64 - 1) PAGE_SHIFT - n + 1) <= k * pow2 o) ->
  no_block n s.
Proof.
  intros HF Hn Hno F' o k HF' Ho Hno' Hk. rewrite (free_pages_unique F' F _ HF' HF).
  destruct (full F o k) eqn:E; [|done]. specialize (Hno o k Ho Hno' Hk E). exfalso.
  rewrite full_spec in E. specialize (E _ (block_witness o k)). apply (pg_range _ _ HF) in E.
  pose proof (max_pages_small _ _ HF). pose proof (bt_max _ _ _ (rp_bits _ _ _ (pg_rep _ _ HF))) as Hm.
  pose proof (pow2_le _ _ Hm) as Hm'. change (pow2 30) with (2 ^ 30) in *.
  change (Z.shiftr (2 ^ 64 - 1) PAGE_SHIFT) with (2 ^ 52 - 1) in Hno. rewrite u64_id in Hno by lia. lia.
Qed.

Lemma wp_grow V L s p al bs Q :
  heap_ok V L s -> L !! p = Some bs -> km_allocators s !! p = Some al ->
  (no_block (pow2 (sa_order al)) s -> Q false s) ->
  (forall b s', let V' := <[b := SlabView p (seqZ 0 (sa_slab_nobjs al))]> V in let L' := <[p := b :: bs]> L in
     heap_ok V' L' s' -> evolves V L s V' L' s' (live V s) -> Q true s') ->
  wp (_slab_allocator_grow p) Q s.
Proof.
  intros Hok Hbs Hal Hnone Hgrown. destruct (hp_pages _ _ _ Hok) as (F & HF & Hin).
  assert (alloc_wf al) as Hwf by (destruct (hp_alloc _ _ _ Hok _ _ Hbs) as (al1 & ? & ? & _); congruence).
  pose proof (wf_nobjs _ Hwf) as Hn. pose proof (pow2_pos (sa_order al)) as Hpow.
  unfold _slab_allocator_grow. apply wp_bind, (wp_the_allocator _ al); [done|].
  apply wp_bind, wp_zoom. change (Z.shiftl 1 (Z.of_nat (sa_order al))) with (pow2 (sa_order al)).
  assert (pow2 (sa_order al) <= pow2 (max_order (km_pages s))) as Hle.
  { apply pow2_le. pose proof (wf_order _ Hwf). pose proof (hp_order _ _ _ Hok). lia. }
  eapply wp_mono; [by apply (wp_page_alloc F)|].
  intros addr ps [(-> & -> & Hno)|(pg & -> & Hpg & Hsub & HF' & Htree)].
  { cbn [Z.eqb]. apply wp_ret. apply (alloc_null F) in Hno; [|done|done]. destruct s. by apply Hnone. }
  rewrite (proj2 (Z.eqb_neq _ _)) by (unfold PHYS_OFFSET; lia). set (b := pg * 4096 + PHYS_OFFSET).
  assert (0 < b /\ b + slab_bytes al <= 2 ^ 64) as [Hb0 Hend].
  { apply (pages_word F _ _ s); [done|lia|]. by apply (range_last F). }
  assert (0 <= sa_slabs al < 2 ^ 64) as Hword.
  { destruct (hp_alloc _ _ _ Hok _ _ Hbs) as (al1 & Ha1 & _ & _ & Hlk). assert (al1 = al) as -> by congruence.
    destruct bs as [|b' bs]; cbn [link] in Hlk; [lia|]. destruct Hlk as [-> _].
    destruct (proj1 (hp_owner _ _ _ Hok p (b' :: bs) b' Hbs)) as [free Hv]; [left|].
    pose proof (slab_at_word _ _ _ Hok b' p al free (conj Hv Hal)). pose proof (slab_in_bytes al b' Hwf). lia. }
  rewrite <- (obj_at_0 al b) at 1. apply wp_bind, (wp_link_objs al b Hwf Hb0 Hend); [lia|lia|].
  rewrite Z2Nat.id by lia. intros m1 Hm1. rewrite next_obj_at, Z.add_0_l.
  replace (sa_slab_nobjs al - 1 + 1) with (sa_slab_nobjs al) by lia. fold (slab_of al b).
  unfold km_store at 1 2 3. wp_steps.
  replace (set_redzones (Z.to_nat (sa_slab_nobjs al)) al b) with (set_redzones (Z.to_nat (sa_slab_nobjs al)) al (obj_at al b 0))
    by by rewrite obj_at_0.
  apply (wp_set_redzones al b Hwf); [lia|lia|]. rewrite Z2Nat.id by lia. intros m3 Hm3.
  unfold km_store, set_allocator. wp_steps.
  destruct (fresh_rep al b (km_mem s) m1 _ m3 _ (sa_slabs al) Hwf Hb0 Hend Hword Hm1 eq_refl Hm3 eq_refl)
    as (Hrep & Hnext & Hout).
  cbn [km_mem set_km_mem set_km_pages km_pages km_allocators] in *.
  apply (Hgrown b (grown_state s p al b ps _)).
  - eapply grown_ok; (done || lia).
  - eapply grown_evolves; (done || lia).
Qed.

(** ** Allocation *)

Lemma wp_find_once fuel V L s p al bs Q :
  heap_ok V L s -> L !! p = Some bs -> km_allocators s !! p = Some al ->
  (forall b i free, slab_at V s b p al (i :: free) -> Q (slab_of al b) s) ->
  ((forall b, b ∈ bs -> V !! b = Some (SlabView p [])) ->
   wp (match fuel with
       | O => fail Stuck
       | S fuel => let! grown := _slab_allocator_grow p in if grown then find_slab fuel p else ret 0
       end) Q s) ->
  wp (find_slab fuel p) Q s.
Proof.
  intros Hok Hbs Hal Hfound Hnone.
  destruct (hp_alloc _ _ _ Hok _ _ Hbs) as (al1 & Ha1 & Hwf & _ & Hlk). assert (al1 = al) as -> by congruence.
  destruct fuel as [|fuel]; cbn [find_slab]; apply wp_bind, (wp_the_allocator _ al); try done; wp_steps.
  all: apply (wp_walk_slabs V L s p al bs); [done|done|done| |done|by apply (slabs_few V L s Hok p)| |].
  all: try (intros b Hb; by apply (hp_owner _ _ _ Hok _ _ _ Hbs)).
  all: try (intros Hall; unfold km_load; wp_steps; cbn [Z.eqb andb]; by apply Hnone).
  all: intros b i free Hv; assert (slab_at V s b p al (i :: free)) as Hat by done.
  all: pose proof (slab_at_word _ _ _ Hok _ _ _ _ Hat); pose proof (slab_in_bytes al b Hwf).
  all: pose proof (hp_slab _ _ _ Hok _ _ _ _ Hat) as Hrep; unfold km_load; wp_steps.
  all: rewrite (sr_inuse _ _ _ _ Hrep), (proj2 (Z.eqb_neq _ _)), (proj2 (Z.ltb_lt _ _)) by (cbn [length]; lia).
  all: cbn [negb andb]; apply wp_ret; by eapply Hfound.
Qed.

(** All objects of the allocator are in use. *)
Definition all_used V p : Prop := forall b free, V !! b = Some (SlabView p free) -> free = [].

(** The slabs after perhaps one was added for want of a free object. *)
Definition grown_from V p al V' : Prop :=
  V' = V \/ all_used V p /\ exists b, V' = <[b := SlabView p (seqZ 0 (sa_slab_nobjs al))]> V.

(** Some slab of the allocator has at least [k] free objects. *)
Definition spare V p (k : Z) : Prop :=
  exists b free, V !! b = Some (SlabView p free) /\ k <= Z.of_nat (length free).

Lemma spare_taken V p al V' b i free k :
  grown_from V p al V' -> V' !! b = Some (SlabView p (i :: free)) ->
  spare V p (k + 1) \/ (all_used V p /\ k + 1 = sa_slab_nobjs al) -> 0 <= k ->
  spare (<[b := SlabView p free]> V') p k.
Proof.
  intros Hg Hv Hk Hk0.
  assert (spare V' p (k + 1)) as (b' & free' & Hv' & Hlen).
  { destruct Hg as [->|[Hused (b0 & ->)]].
    - destruct Hk as [?|[Hused _]]; [done|]. by specialize (Hused _ _ Hv).
    - destruct Hk as [(b1 & f1 & Hv1 & Hlen)|[_ <-]].
      + rewrite (Hused _ _ Hv1) in Hlen. cbn in Hlen. lia.
      + exists b0, (seqZ 0 (k + 1)). rewrite lookup_insert_eq, length_seqZ. split; [done|lia]. }
  destruct (decide (b' = b)) as [->|Hne].
  - exists b, free. rewrite lookup_insert_eq. split; [done|]. rewrite Hv in Hv'. simplify_eq. cbn in Hlen. lia.
  - exists b', free'. rewrite lookup_insert_ne by done. split; [done|lia].
Qed.

Lemma wp_find_slab V L s p al bs Q :
  heap_ok V L s -> L !! p = Some bs -> km_allocators s !! p = Some al ->
  (all_used V p -> no_block (pow2 (sa_order al)) s -> Q 0 s) ->
  (forall V' L' s' b i free al', heap_ok V' L' s' -> evolves V L s V' L' s' (live V s) ->
     slab_at V' s' b p al' (i :: free) -> same_shape al al' -> grown_from V p al V' -> Q (slab_of al' b) s') ->
  wp (find_slab 1 p) Q s.
Proof.
  intros Hok Hbs Hal Hnone Hfound. apply (wp_find_once 1 V L s p al bs); [done|done|done| |].
  { intros b i free Hat. apply (Hfound V L s b i free al); [done|apply evolves_refl|done|done|by left]. }
  intros Hfull. assert (all_used V p) as Hused.
  { intros b free Hv. assert (b ∈ bs) as Hb by (apply (hp_owner _ _ _ Hok _ _ _ Hbs); eauto).
    specialize (Hfull b Hb). congruence. }
  apply wp_bind, (wp_grow V L s p al bs); [done|done|done|intros; apply wp_ret; auto|].
  intros b0 s1 V1 L1 Hok1 Hev. destruct (ev_alloc _ _ _ _ _ _ _ Hev p al Hal) as (al' & Hal' & Hsh).
  apply (wp_find_once 0 V1 L1 s1 p al' (b0 :: bs)); [done|by unfold L1; rewrite lookup_insert_eq|done| |].
  { intros b i free Hat. apply (Hfound V1 L1 s1 b i free al'); try done. right. split; [done|]. by exists b0. }
  intros Hall. specialize (Hall b0 ltac:(left)). unfold V1 in Hall. rewrite lookup_insert_eq in Hall.
  assert (alloc_wf al) as Hwf by (destruct (hp_alloc _ _ _ Hok _ _ Hbs) as (al1 & ? & ? & _); congruence).
  pose proof (wf_nobjs _ Hwf). rewrite seqZ_cons in Hall by lia. congruence.
Qed.

Lemma evolves_trans V L s V1 L1 s1 V2 L2 s2 users :
  evolves V L s V1 L1 s1 (live V s) -> evolves V1 L1 s1 V2 L2 s2 users -> evolves V L s V2 L2 s2 users.
Proof.
  intros [A1 A2 A3 A4 A5] [B1 B2 B3 B4 B5]. split; [done| | | |congruence].
  - intros p a n x Hl Hl2 Hx. assert (live V1 s1 p a n) as Hl1 by by apply A1.
    rewrite (B2 p a n) by done. by apply (A2 p a n).
  - intros p al Hal. destruct (A3 p al Hal) as (al1 & Hal1 & (? & ? & ?)).
    destruct (B3 p al1 Hal1) as (al2 & Hal2 & (? & ? & ?)). exists al2. split; [done|]. split_and!; congruence.
  - intros p. by rewrite B4.
Qed.

(** The users after an object of allocator [p] at [r] was handed out. *)
Definition with_object V s p (r n : Z) : Z -> Z -> Z -> Prop :=
  fun p' a n' => live V s p' a n' \/ p' = p /\ a = r /\ n' = n.

Lemma evolves_users V L s V' L' s' (P Q : Z -> Z -> Z -> Prop) :
  (forall p a n, P p a n <-> Q p a n) -> evolves V L s V' L' s' P -> evolves V L s V' L' s' Q.
Proof. intros H [? ? ? ? ?]. split; [intros; rewrite <- H; done|done|done|done|done]. Qed.

Lemma wp_verify al b free i Q s :
  slab_rep (km_mem s) al b free -> 0 <= i < sa_slab_nobjs al -> Q tt s -> wp (VERIFY_REDZONES al (obj_at al b i)) Q s.
Proof.
  intros Hrep Hi HQ. destruct (sr_objs _ _ _ _ Hrep i Hi) as (H1 & H2 & _).
  unfold VERIFY_REDZONES, km_load. wp_steps. rewrite H1. apply wp_kassert; [done|]. wp_steps. rewrite H2.
  by apply wp_kassert.
Qed.

Lemma free_not_live V L s (Hok : heap_ok V L s) b p al free i p' n' :
  slab_at V s b p al free -> 0 <= i < sa_slab_nobjs al -> i ∈ free -> ~ live V s p' (obj_at al b i + sizeof_ptr) n'.
Proof.
  intros Hat Hi Hif (b' & j & al' & free' & Hat' & Hj & Hjf & E & _).
  destruct (object_unique V L s b p al free b' p' al' free' i j) as (-> & -> & -> & -> & ->); (done || lia).
Qed.

Lemma wp_slab_obj_alloc V L s p al bs Q :
  heap_ok V L s -> L !! p = Some bs -> km_allocators s !! p = Some al ->
  (all_used V p -> no_block (pow2 (sa_order al)) s -> Q 0 s) ->
  (forall V' L' s' r, let n := sa_objsize al - 2 * sizeof_ptr in
     heap_ok V' L' s' -> evolves V L s V' L' s' (with_object V s p r n) -> live V' s' p r n ->
     (forall p' n', ~ live V s p' r n') -> 0 < r < 2 ^ 64 ->
     (forall k, 0 <= k -> spare V p (k + 1) \/ (all_used V p /\ k + 1 = sa_slab_nobjs al) -> spare V' p k) -> Q r s') ->
  wp (slab_obj_alloc p) Q s.
Proof.
  intros Hok Hbs Hal Hnone Hsome. unfold slab_obj_alloc.
  apply wp_bind, (wp_find_slab V L s p al bs); [done|done|done|intros; apply wp_ret; auto|].
  intros V1 L1 s1 b i free al1 Hok1 Hev1 Hat Hsh Hgrown. pose proof Hsh as (Hosz & Hnob & _).
  pose proof (hp_slab _ _ _ Hok1 _ _ _ _ Hat) as Hrep. pose proof (sr_chain _ _ _ _ Hrep) as [Ehead _].
  assert (0 <= i < sa_slab_nobjs al1) as Hi by (apply (sr_range _ _ _ _ Hrep); left).
  destruct (touch_range V1 L1 s1 Hok1 p b i al1 _ Hat Hi) as (Hwf & Hb1 & Hc & Hs & Hb & Hend).
  rewrite (proj2 (Z.eqb_neq (slab_of al1 b) 0)) by lia.
  apply wp_bind, (wp_the_allocator _ al1); [apply Hat|]. unfold km_load, km_store, km_store8. wp_steps.
  rewrite Ehead. cbn [km_mem set_km_mem].
  assert (load64 (store8 (store64 (store64 (km_mem s1) (s_free (slab_of al1 b)) (load64 (km_mem s1) (obj_bufctl al1 (obj_at al1 b i))))
            (obj_bufctl al1 (obj_at al1 b i)) (slab_of al1 b)) (sb_free (obj_bufctl al1 (obj_at al1 b i))) 0)
            (s_inuse (slab_of al1 b)) = sa_slab_nobjs al1 - Z.of_nat (S (length free))) as ->.
  { unfold s_free, s_inuse, sb_free. rewrite load64_store8_ne, !load64_store64_ne by lia.
    apply (sr_inuse _ _ _ _ Hrep). }
  pose proof (free_few _ _ _ _ Hrep) as Hfew. cbn [length] in Hfew. pose proof (nobjs_word _ Hwf).
  rewrite u64_id by lia.
  replace (sa_slab_nobjs al1 - Z.of_nat (S (length free)) + 1) with (sa_slab_nobjs al1 - Z.of_nat (length free)) by lia.
  fold (taken_mem b i al1 free (km_mem s1)).
  pose proof (touch_ok V1 L1 s1 Hok1 p b i al1 (i :: free) Hat Hi _ free (taken_other b i al1 free (km_mem s1))
                (taken_rep V1 L1 s1 Hok1 p b i al1 free Hi Hat)) as Hok2.
  pose proof (taken_evolves V1 L1 s1 Hok1 p b i al1 free Hi Hat) as Hev2.
  apply (wp_verify al1 b free); [|done|].
  { eapply hp_slab; [exact Hok2|]. split; [by rewrite lookup_insert_eq|apply Hat]. }
  wp_steps. apply (Hsome _ _ _ _ Hok2).
  - eapply evolves_trans; [exact Hev1|]. eapply evolves_users; [|exact Hev2]. intros p' a n. cbn beta.
    unfold with_object. rewrite (ev_live _ _ _ _ _ _ _ Hev1), Hosz. done.
  - apply (ev_live _ _ _ _ _ _ _ Hev2). right. by rewrite Hosz.
  - intros p' n' Hl%(ev_live _ _ _ _ _ _ _ Hev1). by apply (free_not_live V1 L1 s1 Hok1 b p al1 (i :: free) i p' n' Hat Hi ltac:(left)).
  - unfold sizeof_ptr. pose proof (wf_objsize _ Hwf). unfold obj_bufctl in *. lia.
  - intros k Hk0 Hk. destruct Hat as [Hv _]. by eapply spare_taken.
Qed.

(** ** Freeing *)

Lemma live_slab V L s p a n :
  heap_ok V L s -> live V s p a n -> exists b i al free, slab_at V s b p al free /\ 0 <= i < sa_slab_nobjs al
    /\ i ∉ free /\ a = obj_at al b i + sizeof_ptr /\ n = sa_objsize al - 2 * sizeof_ptr
    /\ slab_rep (km_mem s) al b free.
Proof.
  intros Hok (b & i & al & free & Hat & Hi & Hif & -> & ->). exists b, i, al, free.
  split_and!; try done; try lia. by eapply hp_slab.
Qed.

(** The object at [a] is on the free list of its slab. *)
Definition freed V s p (a : Z) : Prop :=
  exists b i al free, slab_at V s b p al free /\ i ∈ free /\ a = obj_at al b i + sizeof_ptr.

Lemma wp_slab_obj_free V L s p a n Q :
  heap_ok V L s -> live V s p a n ->
  (forall V' s', heap_ok V' L s' -> evolves V L s V' L s' (fun p' a' n' => live V s p' a' n' /\ a' <> a) ->
     freed V' s' p a -> Q tt s') ->
  wp (slab_obj_free p a) Q s.
Proof.
  intros Hok Hl HQ. destruct (live_slab _ _ _ _ _ _ Hok Hl) as (b & i & al & free & Hat & Hi & Hif & -> & _ & Hrep).
  destruct (touch_range V L s Hok p b i al _ Hat Hi) as (Hwf & Hb1 & Hc & Hs & Hb & Hend).
  unfold slab_obj_free. apply wp_bind, (wp_the_allocator _ al); [apply Hat|]. wp_red.
  replace (obj_at al b i + sizeof_ptr - sizeof_ptr) with (obj_at al b i) by lia.
  apply wp_bind, (wp_verify al b free); [done|done|].
  destruct (sr_objs _ _ _ _ Hrep i Hi) as (_ & _ & Hctl). rewrite decide_False in Hctl by done. destruct Hctl as [Hfr Hsl].
  unfold km_load8, km_load, km_store8, km_store. wp_steps. rewrite Hfr. apply wp_kassert; [done|]. wp_steps.
  cbn [km_mem set_km_mem]. rewrite (load64_store8_ne _ _ _ (obj_bufctl al (obj_at al b i))) by (unfold sb_free; lia).
  rewrite Hsl.
  rewrite (load64_store8_ne _ _ _ (s_free (slab_of al b))) by (unfold sb_free, s_free; lia).
  rewrite 2 (load64_store64_ne _ _ _ (s_inuse (slab_of al b))) by (unfold s_inuse, s_free; lia).
  rewrite (load64_store8_ne _ _ _ (s_inuse (slab_of al b))) by (unfold sb_free, s_inuse; lia).
  rewrite (sr_inuse _ _ _ _ Hrep). pose proof (given_rep V L s Hok p b i al free Hi Hat Hif) as Hrep'.
  pose proof (free_few _ _ _ _ Hrep') as Hfew. cbn [length] in Hfew. pose proof (nobjs_word _ Hwf).
  rewrite u64_id by lia.
  replace (sa_slab_nobjs al - Z.of_nat (length free) - 1) with (sa_slab_nobjs al - Z.of_nat (S (length free))) by lia.
  fold (given_mem b i al free (km_mem s)). apply (HQ (<[b := SlabView p (i :: free)]> V)).
  - by apply (touch_ok V L s Hok p b i al free Hat Hi _ _ (given_other b i al free (km_mem s))).
  - by apply (given_evolves V L s Hok p b i al free Hi).
  - exists b, i, al, (i :: free). split_and!; [|left|done]. split; [apply lookup_insert_eq|apply Hat].
Qed.

(** A second free of an object is caught. *)
Lemma double_free V L s p a : heap_ok V L s -> freed V s p a -> slab_obj_free p a s = Failed Assert.
Proof.
  intros Hok (b & i & al & free & Hat & Hif & ->). pose proof (hp_slab _ _ _ Hok _ _ _ _ Hat) as Hrep.
  assert (0 <= i < sa_slab_nobjs al) as Hi by by apply (sr_range _ _ _ _ Hrep).
  destruct (sr_objs _ _ _ _ Hrep i Hi) as (H1 & H2 & H3). rewrite decide_True in H3 by done.
  unfold slab_obj_free, the_allocator, bind, get, deref, ret. destruct Hat as [_ ->].
  replace (obj_at al b i + sizeof_ptr - sizeof_ptr) with (obj_at al b i) by lia.
  unfold VERIFY_REDZONES, km_load, km_load8, gets, bind. rewrite H1. cbn [kassert Z.eqb]. rewrite Z.eqb_refl. cbn [kassert ret].
  unfold ret. rewrite H2, Z.eqb_refl. cbn [kassert]. unfold ret. rewrite H3. done.
Qed.

(** ** What the users do with their objects *)

Lemma user_write_ok V L s p a n m' :
  heap_ok V L s -> live V s p a n -> (forall x, ~ (a <= x < a + n) -> load8 m' x = load8 (km_mem s) x) ->
  heap_ok V L (set_km_mem m' s).
Proof.
  intros Hok Hl Hx. destruct (live_slab _ _ _ _ _ _ Hok Hl) as (b & i & al & free & Hat & Hi & Hif & -> & -> & Hrep).
  pose proof (slab_at_wf _ _ _ Hok _ _ _ _ Hat) as Hwf. pose proof (wf_objsize _ Hwf).
  pose proof (obj_in_slab al b i ltac:(lia) Hi). pose proof (slab_in_bytes al b Hwf).
  unfold sizeof_ptr, stride, sizeof_slab_bufctl in *.
  replace V with (<[b := SlabView p free]> V) by (apply insert_id; apply Hat).
  apply (update_ok V L s Hok b p al free); [done| | |].
  - apply (slab_rep_meta al b (km_mem s)); [done| |done]. intros x _ Hp. apply Hx. intros Hin. apply Hp.
    exists i. split; [done|lia].
  - apply load64_ext. intros x Hin. unfold s_next in Hin. apply Hx. lia.
  - intros x Hin. apply Hx. lia.
Qed.

Lemma evolves_write V L s V' L' s' p a n m' users :
  heap_ok V' L' s' -> evolves V L s V' L' s' users -> live V' s' p a n ->
  (forall p' n', ~ live V s p' a n') ->
  (forall x, ~ (a <= x < a + n) -> load8 m' x = load8 (km_mem s') x) ->
  evolves V L s V' L' (set_km_mem m' s') users.
Proof.
  intros Hok [E1 E2 E3 E4 E5] Hl Hnew Hx. split; [done| |done|done|done].
  intros p1 a1 n1 x Hl1 Hl2 Hin. cbn [km_mem set_km_mem]. rewrite Hx; [by apply (E2 p1 a1 n1)|].
  destruct (live_same _ _ _ Hok _ _ _ _ _ _ Hl Hl2) as [(-> & -> & ->)|?]; [|lia].
  by apply Hnew in Hl1.
Qed.
