(* ===== verification/Kmalloc.v ===== *)
(** The general-purpose allocator of [mm/slab.c]: [kmalloc] and [kfree] on top
    of the slab allocators, the layout chosen by [_calc_slab_size], the creation
    of allocators and [slab_init]. *)
From S2P Require Import Prelude Page PageTree PageProofs PageAllocProofs PageTheorems KMem Slab SlabProofs SlabHeap SlabTheorems.

Implicit Types (V : gmap Z slab_view) (L : gmap Z (list Z)) (s : kmem) (al : slab_allocator)
  (m : memory) (p b i : Z).

Section kmalloc.
Context `{KernelData}.

(** ** [kmalloc] and [kfree] *)

(** The allocators of the sizes. *)
Definition kmalloc_upto (n : nat) (L : gmap Z (list Z)) s : Prop :=
  length (kmalloc_allocators s) = n /\
  forall k p, kmalloc_allocators s !! k = Some p ->
    is_Some (L !! p) /\ 0 <= p < 2 ^ 64 /\
    exists al, km_allocators s !! p = Some al /\ sa_objsize al = pow2 (KMALLOC_SIZE_MIN_ORDER + k) + 2 * sizeof_ptr.

Definition kmalloc_ok L s : Prop := kmalloc_upto 13 L s.

Lemma kmalloc_ok_evolves n V L s V' L' s' users :
  evolves V L s V' L' s' users -> kmalloc_upto n L s -> kmalloc_upto n L' s'.
Proof.
  intros [_ _ E3 E4 E5] [Hlen Hk]. unfold kmalloc_upto. rewrite E5. split; [done|]. intros k p Hp.
  destruct (Hk k p Hp) as (HL & Hw & al & Hal & Hs). destruct (E3 p al Hal) as (al' & Hal' & (Ho & _)).
  split_and!; [by apply E4|lia|lia|]. exists al'. split; [done|congruence].
Qed.

(** The object behind a pointer that [kmalloc] returned: the word before the
    pointer is the allocator. *)
Definition kmalloced V s (r : Z) p (sz : Z) : Prop :=
  live V s p (r - sizeof_ptr) sz /\ load64 (km_mem s) (r - sizeof_ptr) = p /\ sizeof_ptr <= sz.

(** [kmalloc] of [size] bytes, header included, out of the allocator [p]. *)
Definition kmalloc_post V L s (size : Z) (r : Z) (s' : kmem) : Prop :=
  (r = 0 /\ s' = s /\ exists p al, p ∈ kmalloc_allocators s /\ km_allocators s !! p = Some al /\ all_used V p
     /\ no_block (pow2 (sa_order al)) s)
  \/ exists V' L' p sz, heap_ok V' L' s' /\ kmalloc_ok L' s'
       /\ evolves V L s V' L' s' (with_object V s p (r - sizeof_ptr) sz)
       /\ kmalloced V' s' r p sz /\ size <= sz /\ sizeof_ptr < r /\ (forall p' n', ~ live V s p' (r - sizeof_ptr) n').

Lemma kmalloc_mem_other m a p size n x :
  sizeof_ptr <= size <= n -> ~ (a <= x < a + n) ->
  load8 (store64 (store_bytes m a (replicate (Z.to_nat size) MM_POISON_ALLOC)) a p) x = load8 m x.
Proof.
  intros Hs Hx. unfold sizeof_ptr in *. rewrite load8_store64_ne by lia.
  apply load8_store_bytes_out. rewrite length_replicate. lia.
Qed.

Lemma wp_kmalloc_take V L s p al size Q :
  heap_ok V L s -> kmalloc_ok L s -> p ∈ kmalloc_allocators s -> is_Some (L !! p) -> 0 <= p < 2 ^ 64 ->
  km_allocators s !! p = Some al -> sizeof_ptr <= size <= sa_objsize al - 2 * sizeof_ptr ->
  (forall r s', kmalloc_post V L s size r s' -> Q r s') ->
  wp (let! addr := slab_obj_alloc p in
      if addr =? 0 then ret 0
      else
        do! km_memset addr MM_POISON_ALLOC size;
        do! km_store addr p;
        ret (addr + sizeof_ptr)) Q s.
Proof.
  intros Hok Hk Hpin [bs HL] Hp Hal Hsize HQ. apply wp_bind, (wp_slab_obj_alloc V L s p al bs); [done|done|done| |].
  - intros Hu Hn. cbn [Z.eqb]. apply wp_ret, HQ. left. split_and!; [done|done|]. by exists p, al.
  - intros V' L' s' r n Hok' Hev Hl Hnew Hr _. rewrite (proj2 (Z.eqb_neq r 0)) by lia.
    unfold km_memset, km_store. wp_steps. apply HQ. right. cbn [km_mem set_km_mem].
    set (m := store64 _ _ _). exists V', L', p, n. replace (r + sizeof_ptr - sizeof_ptr) with r by lia.
    assert (forall x, ~ (r <= x < r + n) -> load8 m x = load8 (km_mem s') x) as Hm.
    { intros x Hx. by apply (kmalloc_mem_other _ _ _ _ n). }
    pose proof (user_write_ok V' L' s' p r n m Hok' Hl Hm) as Hok2.
    pose proof (evolves_write V L s V' L' s' p r n m _ Hok' Hev Hl Hnew Hm) as Hev2.
    split_and!; [exact Hok2|by eapply kmalloc_ok_evolves|exact Hev2| |lia|unfold sizeof_ptr; lia|done].
    unfold kmalloced. replace (r + sizeof_ptr - sizeof_ptr) with r by lia. split_and!; [exact Hl|by apply load64_store64|lia].
Qed.

Lemma wp_kmalloc_loop V L s k cs size Q :
  heap_ok V L s -> kmalloc_ok L s -> drop k (kmalloc_allocators s) = cs -> (k <= 12)%nat ->
  sizeof_ptr <= size <= pow2 18 ->
  (forall r s', kmalloc_post V L s size r s' -> Q r s') ->
  wp (kmalloc_loop (KMALLOC_SIZE_MIN_ORDER + k) cs size) Q s.
Proof.
  intros Hok Hkm. revert k. induction cs as [|p cs IH]; intros k Hcs Hk13 Hsize HQ; cbn [kmalloc_loop].
  { exfalso. apply (f_equal length) in Hcs. rewrite length_drop, (proj1 Hkm) in Hcs. cbn [length] in Hcs. lia. }
  assert (kmalloc_allocators s !! k = Some p) as Hp.
  { rewrite <- (Nat.add_0_r k), <- lookup_drop, Hcs. done. }
  destruct (proj2 Hkm k p Hp) as (HL & Hw & al & Hal & Hs). destruct (Z.leb_spec size (pow2 (KMALLOC_SIZE_MIN_ORDER + k))).
  - eapply (wp_kmalloc_take _ _ _ _ al); [done|done| |done|done|done|lia|done]. by eapply list_elem_of_lookup_2.
  - assert (k <> 12)%nat by (intros ->; change (KMALLOC_SIZE_MIN_ORDER + 12)%nat with 18%nat in *; lia).
    rewrite <- Nat.add_succ_r. apply IH; [|lia|done|done].
    rewrite <- (skipn_skipn 1 k), Hcs in *. done.
Qed.

Lemma wp_kmalloc V L s size Q :
  heap_ok V L s -> kmalloc_ok L s -> 0 <= size <= pow2 18 - sizeof_ptr ->
  (forall r s', kmalloc_post V L s (size + sizeof_ptr) r s' -> Q r s') -> wp (kmalloc size) Q s.
Proof.
  intros Hok Hkm Hsize HQ. unfold kmalloc. wp_steps. change (pow2 18) with 262144 in Hsize. unfold sizeof_ptr in Hsize.
  rewrite u64_id by (unfold sizeof_ptr; lia).
  rewrite <- (Nat.add_0_r KMALLOC_SIZE_MIN_ORDER). apply (wp_kmalloc_loop V L); try done; [lia|].
  change (pow2 18) with 262144. unfold sizeof_ptr. lia.
Qed.

(** Larger requests are refused. *)
Lemma kmalloc_loop_huge k cs size s :
  pow2 18 < size -> (k + length cs <= 13)%nat -> kmalloc_loop (KMALLOC_SIZE_MIN_ORDER + k) cs size s = Failed Assert.
Proof.
  intros Hsize. revert k. induction cs as [|p cs IH]; intros k Hk; [done|]. cbn [kmalloc_loop length] in *.
  assert (pow2 (KMALLOC_SIZE_MIN_ORDER + k) <= pow2 18).
  { apply pow2_le. unfold KMALLOC_SIZE_MIN_ORDER. lia. }
  rewrite (proj2 (Z.leb_gt _ _)) by lia. rewrite <- Nat.add_succ_r. apply IH. lia.
Qed.

Lemma kmalloc_huge L s size :
  kmalloc_ok L s -> pow2 18 - sizeof_ptr < size < 2 ^ 64 - sizeof_ptr -> kmalloc size s = Failed Assert.
Proof.
  intros [Hlen _] Hsize. unfold kmalloc, bind, get. change (pow2 18) with 262144 in Hsize. unfold sizeof_ptr in Hsize.
  rewrite u64_id by (unfold sizeof_ptr; lia). rewrite <- (Nat.add_0_r KMALLOC_SIZE_MIN_ORDER).
  apply kmalloc_loop_huge; [|lia]. change (pow2 18) with 262144. unfold sizeof_ptr. lia.
Qed.

Lemma evolves_poisoned V L s V' L' s' p a n m :
  heap_ok V L s -> live V s p a n -> (forall x, ~ (a <= x < a + n) -> load8 m x = load8 (km_mem s) x) ->
  evolves V L (set_km_mem m s) V' L' s' (fun p' a' n' => live V (set_km_mem m s) p' a' n' /\ a' <> a) ->
  evolves V L s V' L' s' (fun p' a' n' => live V s p' a' n' /\ a' <> a).
Proof.
  intros Hok Hl Hm [E1 E2 E3 E4 E5]. split; [done| |done|done|done].
  intros p1 a1 n1 x Hl1 Hl2 Hx. rewrite (E2 p1 a1 n1 x Hl1 Hl2 Hx). cbn [km_mem set_km_mem]. apply Hm.
  apply E1 in Hl2 as [_ Hne]. destruct (live_same _ _ _ Hok _ _ _ _ _ _ Hl Hl1) as [(-> & -> & ->)|?]; [done|lia].
Qed.

Lemma wp_kfree V L s r p sz Q :
  heap_ok V L s -> kmalloc_ok L s -> kmalloced V s r p sz ->
  (forall V' s', heap_ok V' L s' -> kmalloc_ok L s' ->
     evolves V L s V' L s' (fun p' a' n' => live V s p' a' n' /\ a' <> r - sizeof_ptr) -> Q tt s') ->
  wp (kfree r) Q s.
Proof.
  intros Hok Hkm (Hl & Hp & Hsz) HQ. unfold kfree, km_load. wp_steps. rewrite Hp.
  pose proof Hl as (b & i & al & free & Hat & _ & _ & _ & Hn).
  apply (wp_the_allocator _ al); [apply Hat|]. unfold km_memset. wp_steps. rewrite <- Hn.
  set (m := store_bytes _ _ _).
  assert (forall x, ~ (r - sizeof_ptr <= x < r - sizeof_ptr + sz) -> load8 m x = load8 (km_mem s) x) as Hm.
  { intros x Hx. apply load8_store_bytes_out. rewrite length_replicate. lia. }
  apply (wp_slab_obj_free V L _ _ _ sz); [by eapply user_write_ok|exact Hl|]. intros V' s' Hok' Hev _.
  eapply evolves_poisoned in Hev; [|done..]. eapply HQ; [done|by eapply kmalloc_ok_evolves|done].
Qed.

Lemma freed_again V L s size r s1 :
  heap_ok V L s -> kmalloc_post V L s (size + sizeof_ptr) r s1 ->
  r = 0 \/ forall m, (forall x, ~ (r <= x < r + size) -> load8 m x = load8 (km_mem s1) x) ->
    exists V' L' s2, kfree r (set_km_mem m s1) = Done tt s2 /\ heap_ok V' L' s2 /\ kmalloc_ok L' s2
      /\ (forall p a n, live V' s2 p a n <-> live V s p a n)
      /\ forall p a n x, live V s p a n -> a <= x < a + n -> load8 (km_mem s2) x = load8 (km_mem s) x.
Proof.
  intros Hok [(-> & _)|(V1 & L1 & p & sz & Hok1 & Hkm1 & Hev & (Hl & Hp & Hsz) & Hsize & Hr & Hnew)]; [by left|right].
  intros m Hm. set (a := r - sizeof_ptr) in *.
  assert (forall x, ~ (a <= x < a + sz) -> load8 m x = load8 (km_mem s1) x) as Hm'.
  { intros x Hx. apply Hm. unfold a in Hx. unfold sizeof_ptr in *. lia. }
  pose proof (user_write_ok V1 L1 s1 p a sz m Hok1 Hl Hm') as Hok2.
  pose proof (evolves_write V L s V1 L1 s1 p a sz m _ Hok1 Hev Hl Hnew Hm') as Hev2.
  assert (kmalloced V1 (set_km_mem m s1) r p sz) as Hk2.
  { split_and!; [exact Hl| |done]. rewrite <- Hp. apply load64_ext. intros x Hx. apply Hm. unfold a, sizeof_ptr in *. lia. }
  destruct (wp_run (kfree r) (fun _ s2 => exists V', heap_ok V' L1 s2 /\ kmalloc_ok L1 s2 /\ evolves V1 L1 (set_km_mem m s1) V' L1 s2
    (fun p' a' n' => live V1 (set_km_mem m s1) p' a' n' /\ a' <> a)) (set_km_mem m s1)) as ([] & s2 & E & V' & Hok3 & Hkm3 & Hev3).
  { eapply wp_kfree; [done|exact Hkm1|done|]. intros V' s' ? ? ?. by exists V'. }
  assert (forall p' a' n', live V' s2 p' a' n' <-> live V s p' a' n') as Hlive.
  { intros p' a' n'. rewrite (ev_live _ _ _ _ _ _ _ Hev3), (ev_live _ _ _ _ _ _ _ Hev2). unfold with_object. split.
    - intros [[?|(_ & -> & _)] ?]; done.
    - intros Hl'. split; [by left|]. intros ->. by apply Hnew in Hl'. }
  exists V', L1, s2. split_and!; [done..|]. intros p' a' n' x Hl' Hx.
  assert (live V1 (set_km_mem m s1) p' a' n') by (apply (ev_live _ _ _ _ _ _ _ Hev2); by left).
  rewrite (ev_bytes _ _ _ _ _ _ _ Hev3 p' a' n') by (done || by apply Hlive).
  by apply (ev_bytes _ _ _ _ _ _ _ Hev2 p' a' n').
Qed.
End kmalloc.

(** ** The layout of the slabs of an allocator *)

Lemma page_block_pow2 o : page_block o = PAGE_SIZE * pow2 o.
Proof. unfold page_block, pow2. rewrite !Z.shiftl_mul_pow2 by lia. lia. Qed.

Lemma head_filter_seq (P : nat -> Prop) `{forall o, Decision (P o)} a n k :
  (a <= k < a + n)%nat -> P k ->
  exists min, head (filter P (seq a n)) = Some min /\ (a <= min < a + n)%nat /\ P min
    /\ forall o, (a <= o < min)%nat -> ~ P o.
Proof.
  revert a. induction n as [|n IH]; intros a Hk HP; [lia|]. cbn [seq]. rewrite filter_cons.
  destruct (decide (P a)) as [Ha|Ha].
  - exists a. split_and!; [done|lia|lia|done|lia].
  - assert (a <> k) by congruence. destruct (IH (S a) ltac:(lia) HP) as (min & E & Hr & Hm & Hlow).
    exists min. split_and!; [done|lia|lia|done|]. intros o Ho. destruct (decide (o = a)) as [->|]; [done|apply Hlow; lia].
Qed.

(** The sizes of objects, red zones included, for which a block is found. *)
Definition size_ok (objsize : Z) : Prop := 16 <= objsize <= 524240.

Section layout.
Context (objsize : Z) (Hsize : size_ok objsize).

Lemma slab_size_one : _slab_size objsize 1 = objsize + 48.
Proof using Hsize.
  unfold size_ok, _slab_size, sizeof_slab_bufctl, sizeof_slab in *.
  rewrite (u64_id (objsize + 16)) by lia. rewrite u64_id by lia. lia.
Qed.

Lemma layout_fits o :
  (o < PAGE_NSIZES)%nat -> _slab_size objsize 1 <= page_block o ->
  0 < _slab_nobjs objsize o /\
  _slab_nobjs objsize o * (objsize + sizeof_slab_bufctl) + sizeof_slab <= PAGE_SIZE * pow2 o.
Proof using Hsize.
  intros Ho. rewrite slab_size_one, page_block_pow2. unfold _slab_nobjs. rewrite page_block_pow2. intros Hfit.
  unfold size_ok, sizeof_slab_bufctl, sizeof_slab in *. rewrite u64_id by lia.
  set (B := PAGE_SIZE * pow2 o) in *. split; [apply Z.div_str_pos; lia|].
  pose proof (Z.mul_div_le (B - 32) (objsize + 16) ltac:(lia)). lia.
Qed.

Lemma minorder_spec :
  exists min, minorder objsize = Some min /\ (min < PAGE_NSIZES)%nat /\ _slab_size objsize 1 <= page_block min
    /\ forall o, (o < min)%nat -> page_block o < _slab_size objsize 1.
Proof using Hsize.
  destruct (head_filter_seq (fun o => _slab_size objsize 1 <= page_block o) 0 PAGE_NSIZES 7) as (min & E & Hr & Hm & Hlow).
  - unfold PAGE_NSIZES. lia.
  - rewrite slab_size_one. unfold size_ok in Hsize. change (page_block 7) with 524288. lia.
  - exists min. split_and!; [done|lia|done|]. intros o Ho. apply Z.nle_gt, Hlow. lia.
Qed.

Lemma better_spec os best :
  let r := foldl (better objsize) best os in
  (r = best \/ r.1 ∈ os /\ r.2 = _slab_waste objsize r.1) /\ r.2 <= best.2
  /\ forall o, o ∈ os -> r.2 <= _slab_waste objsize o.
Proof using.
  revert best. induction os as [|o os IH]; intros best; cbn [foldl].
  { split_and!; [by left|done|]. intros o Ho%elem_of_nil. done. }
  destruct (IH (better objsize best o)) as (H1 & H2 & H3). unfold better in *.
  destruct (Z.ltb_spec (_slab_waste objsize o) best.2) as [Hlt|Hge]; cbn [fst snd] in *.
  - split_and!; [right|lia|]. 
    + destruct H1 as [->|[Hin E]]; [split; [left|done]|split; [by right|done]].
    + intros o' [->|Ho']%elem_of_cons; [lia|by apply H3].
  - split_and!; [|done|].
    + destruct H1 as [->|[Hin E]]; [by left|right; split; [by right|done]].
    + intros o' [->|Ho']%elem_of_cons; [lia|by apply H3].
Qed.

(** The block has the least waste of the blocks that hold an object and have at
    most [SLAB_MAX_ORDER - 1], or is the smallest one that holds one. *)
Lemma best_order_spec min :
  minorder objsize = Some min ->
  let o := best_order objsize min in
  (min <= o < PAGE_NSIZES)%nat /\ (o = min \/ o < SLAB_MAX_ORDER)%nat
  /\ forall o', (min <= o')%nat -> (o' = min \/ o' < SLAB_MAX_ORDER)%nat -> _slab_waste objsize o <= _slab_waste objsize o'.
Proof using Hsize.
  intros Hmin o. destruct minorder_spec as (min' & E & Hm & _). assert (min' = min) as -> by congruence. clear E Hmin.
  pose proof (better_spec (seq (S min) (SLAB_MAX_ORDER - S min)) (min, _slab_waste objsize min)) as (H1 & H2 & H3).
  unfold o, best_order. set (r := foldl _ _ _) in *. cbn [snd] in H2.
  assert (r.2 = _slab_waste objsize r.1) as Hr by (destruct H1 as [->|[_ ?]]; done).
  assert (r.1 = min \/ S min <= r.1 < SLAB_MAX_ORDER)%nat as Hcase.
  { destruct H1 as [->|[Hin%elem_of_seq _]]; [by left|right; lia]. }
  split_and!; [lia|unfold PAGE_NSIZES, SLAB_MAX_ORDER in *; lia|lia|].
  intros o' Hle Ho'. rewrite <- Hr. destruct (decide (o' = min)) as [->|]; [done|].
  apply H3, elem_of_seq. lia.
Qed.
End layout.

(** ** A new allocator *)

(** What [_calc_slab_size] fills in. *)
Definition layout_of (name : string) (objsize next : Z) al : Prop :=
  sa_name al = name /\ sa_objsize al = objsize /\ sa_slabs al = 0 /\ sa_next al = next
  /\ sa_slab_nobjs al = _slab_nobjs objsize (sa_order al)
  /\ exists min, minorder objsize = Some min /\ sa_order al = best_order objsize min.

Lemma layout_wf name objsize next al : size_ok objsize -> layout_of name objsize next al -> alloc_wf al.
Proof.
  intros Hs (_ & Ho & _ & _ & Hn & min & Hmin & Hord).
  destruct (minorder_spec objsize Hs) as (min' & E & Hm & Hfit & _). assert (min' = min) as -> by congruence.
  destruct (best_order_spec objsize Hs min Hmin) as (Hb & _ & _). rewrite <- Hord in Hb.
  assert (_slab_size objsize 1 <= page_block (sa_order al)) as Hfit'.
  { etrans; [exact Hfit|]. rewrite !page_block_pow2. pose proof (pow2_le min (sa_order al)). unfold PAGE_SIZE. lia. }
  destruct (layout_fits objsize Hs (sa_order al) ltac:(lia) Hfit') as [Hpos Hle]. unfold size_ok in Hs.
  split; unfold stride, slab_bytes; rewrite ?Ho, ?Hn; [lia|done|lia|done].
Qed.

Definition added s p al : kmem :=
  KMemSt (km_pages s) (km_mem s) (<[p := al]> (km_allocators s)) p (kmalloc_allocators s).

Lemma wp_allocator_init s p name size Q :
  size_ok (size + 2 * sizeof_ptr) ->
  (forall al, layout_of (if decide (name = "") then "<unnamed>"%string else name) (size + 2 * sizeof_ptr) (slab_allocators s) al ->
     Q tt (added s p al)) ->
  wp (_allocator_init p name size) Q s.
Proof.
  intros Hs HQ. unfold _allocator_init. unfold size_ok, sizeof_ptr in Hs. rewrite u64_id by (unfold sizeof_ptr; lia).
  set (objsize := size + 2 * sizeof_ptr) in *. assert (size_ok objsize) as Hs' by (unfold size_ok, objsize, sizeof_ptr; lia).
  destruct (minorder_spec objsize Hs') as (min & E & Hm & Hfit & _).
  unfold set_allocator, _calc_slab_size. wp_steps. set (al0 := SlabAllocator _ _ _ _ _ _).
  apply (wp_the_allocator _ al0); [apply lookup_insert_eq|]. cbn [sa_objsize sa_name sa_slabs sa_next al0]. rewrite E.
  set (o := best_order objsize min). unfold set_allocator. wp_steps.
  pose (al := SlabAllocator (sa_name al0) objsize 0 o (_slab_nobjs objsize o) (slab_allocators s)).
  assert (layout_of (sa_name al0) objsize (slab_allocators s) al) as Hlay by (split_and!; [done..|by exists min]).
  pose proof (wf_nobjs _ (layout_wf _ _ _ _ Hs' Hlay)) as Hpos. cbn [sa_slab_nobjs al] in Hpos.
  apply wp_kassert. { by rewrite (proj2 (Z.eqb_neq _ _)) by lia. }
  wp_steps. eapply wp_the_allocator; [apply lookup_insert_eq|]. wp_steps. apply HQ in Hlay.
  unfold added in Hlay. cbn. by rewrite !insert_insert_eq.
Qed.

Lemma layout_best name objsize next al :
  size_ok objsize -> layout_of name objsize next al ->
  sa_objsize al = objsize /\ (sa_order al < PAGE_NSIZES)%nat /\ 0 < sa_slab_nobjs al
  /\ sa_slab_nobjs al * stride al + sizeof_slab <= slab_bytes al
  /\ slab_bytes al < (sa_slab_nobjs al + 1) * stride al + sizeof_slab
  /\ (forall o, (o < SLAB_MAX_ORDER)%nat -> stride al + sizeof_slab <= page_block o ->
        (sa_order al < SLAB_MAX_ORDER)%nat /\ _slab_waste (sa_objsize al) (sa_order al) <= _slab_waste (sa_objsize al) o)
  /\ ((SLAB_MAX_ORDER <= sa_order al)%nat -> forall o, (o < sa_order al)%nat -> page_block o < stride al + sizeof_slab).
Proof.
  intros Hs Hlay. destruct (layout_wf _ _ _ _ Hs Hlay) as [_ W2 W3 W4].
  destruct Hlay as (_ & Ho & _ & _ & Hn & min & Hmin & Hord).
  destruct (minorder_spec objsize Hs) as (min' & E & Hm & Hfit & Hlow). assert (min' = min) as -> by congruence.
  destruct (best_order_spec objsize Hs min Hmin) as (Hb & Hb' & Hbest). rewrite <- Hord in Hb, Hb', Hbest.
  assert (stride al + sizeof_slab = _slab_size objsize 1) as Hst.
  { rewrite slab_size_one by done. unfold stride, sizeof_slab_bufctl, sizeof_slab. lia. }
  split_and!; [done|done|done|done| | |].
  - unfold slab_bytes. rewrite <- page_block_pow2, Hn. unfold _slab_nobjs, stride. rewrite Ho.
    unfold size_ok, sizeof_slab, sizeof_slab_bufctl in *. rewrite u64_id by lia.
    pose proof (Z.mul_succ_div_gt (page_block (sa_order al) - 32) (objsize + 16) ltac:(lia)). lia.
  - intros o Hlt Hof. rewrite Hst in Hof. assert (min <= o)%nat.
    { destruct (decide (min <= o)%nat); [done|]. specialize (Hlow o ltac:(lia)). lia. }
    split; [lia|]. rewrite Ho. apply Hbest; lia.
  - intros Hge o Hlt. rewrite Hst. apply Hlow. lia.
Qed.

(** The new allocator has no slab. *)
Section added.
Context V L s (Hok : heap_ok V L s) p al (HL : L !! p = None) (Hwf : alloc_wf al) (Hnone : sa_slabs al = 0).

Lemma added_slab_at b p' al' free : slab_at V (added s p al) b p' al' free <-> slab_at V s b p' al' free.
Proof using Hok HL.
  clear Hwf Hnone. unfold slab_at. cbn [km_allocators added]. split; intros [Hv Ha]; split; try done.
  - rewrite lookup_insert_ne in Ha; [done|]. intros ->. destruct (hp_owned _ _ _ Hok _ _ _ Hv). congruence.
  - rewrite lookup_insert_ne; [done|]. intros ->. destruct (hp_owned _ _ _ Hok _ _ _ Hv). congruence.
Qed.

Lemma added_live p' a n : live V (added s p al) p' a n <-> live V s p' a n.
Proof using Hok HL.
  clear Hwf Hnone. unfold live. split; intros (b & i & al' & free & Hat & H); exists b, i, al', free;
    (split; [by apply added_slab_at|done]).
Qed.

Lemma added_ok : heap_ok V (<[p := []]> L) (added s p al).
Proof.
  destruct Hok as [H1 (F & HF & HFs) H3 H4 H5 H6 H7]. split; cbn [km_pages km_mem added].
  - done.
  - exists F. split; [done|]. intros b p' al' free Hat%added_slab_at. by eapply HFs.
  - intros p' bs Hp'. cbn [km_allocators added]. destruct (decide (p' = p)) as [->|Hne].
    + rewrite lookup_insert_eq. rewrite lookup_insert_eq in Hp'. injection Hp' as <-. exists al. split_and!; [done|done|constructor|exact Hnone].
    + rewrite lookup_insert_ne by done. rewrite lookup_insert_ne in Hp' by done. by apply H3.
  - intros p' bs b Hp'. destruct (decide (p' = p)) as [->|Hne].
    + rewrite lookup_insert_eq in Hp'. injection Hp' as <-. split; [by intros ?%elem_of_nil|].
      intros [free Hv]. destruct (H5 _ _ _ Hv). congruence.
    + rewrite lookup_insert_ne in Hp' by done. by apply H4.
  - intros b p' free Hv. rewrite lookup_insert_is_Some'. right. by eapply H5.
  - intros b p' al' free Hat%added_slab_at. by eapply H6.
  - intros b p' al' free b' p'' al'' free' Hat%added_slab_at Hat'%added_slab_at. by eapply H7.
Qed.
End added.

(** ** [slab_allocator_create] *)

Section create.
Context `{KernelData}.
Abbreviation SAA := slab_allocator_allocator.

(** The kernel image, which holds the first allocator, is mapped below the pages. *)
Definition static_ok : Prop := 0 < SAA < PHYS_OFFSET.
Context (Hstatic : static_ok).

Lemma live_in_pages V L s p a n : heap_ok V L s -> live V s p a n -> PHYS_OFFSET < a.
Proof using.
  intros Hok (b & i & al & free & Hat & Hi & _ & -> & _). pose proof (slab_at_wf _ _ _ Hok _ _ _ _ Hat) as Hwf.
  destruct (hp_pages _ _ _ Hok) as (F & HF & HFs). destruct (HFs _ _ _ _ Hat) as (pg & -> & Hpg & Hend & _).
  pose proof (max_pages_small _ _ HF). pose proof (obj_in_slab al (pg * 4096 + PHYS_OFFSET) i ltac:(apply wf_objsize in Hwf; lia) Hi).
  pose proof (slab_in_bytes al (pg * 4096 + PHYS_OFFSET) Hwf). pose proof (wf_objsize _ Hwf).
  unfold slab_bytes, PAGE_SIZE, stride, sizeof_ptr, sizeof_slab_bufctl, PHYS_OFFSET in *. lia.
Qed.

(** Every allocator but the first is an object of the first. *)
Record allocators_ok V L s : Prop := AllocatorsOk {
  ao_heap : heap_ok V L s;
  ao_first : exists al, km_allocators s !! SAA = Some al /\ sa_objsize al = 64 /\ sa_order al = 1%nat /\ sa_slab_nobjs al = 102;
  ao_dom : is_Some (L !! SAA);
  ao_obj : forall p, is_Some (L !! p) -> p = SAA \/ live V s SAA p sizeof_slab_allocator;
}.

Definition create_post V L s (name : string) (size : Z) V' (r : Z) (s' : kmem) : Prop :=
  exists L1 s1 al, evolves V L s V' L1 s1 (with_object V s SAA r sizeof_slab_allocator)
    /\ layout_of (if decide (name = "") then "<unnamed>"%string else name) (size + 2 * sizeof_ptr) (slab_allocators s1) al
    /\ heap_ok V' L1 s1 /\ L1 !! r = None /\ s' = added s1 r al /\ allocators_ok V' (<[r := []]> L1) s'.

Lemma wp_slab_allocator_create V L s name size Q :
  allocators_ok V L s -> size_ok (size + 2 * sizeof_ptr) ->
  (all_used V SAA -> no_block 2 s -> Q 0 s) ->
  (forall V' r s', create_post V L s name size V' r s' -> 0 < r < 2 ^ 64 ->
     (forall k, 0 <= k -> spare V SAA (k + 1) \/ (all_used V SAA /\ k + 1 = 102) -> spare V' SAA k) -> Q r s') ->
  wp (slab_allocator_create name size) Q s.
Proof using Hstatic.
  intros [Hok (al0 & Hal0 & Hsz & Hord & Hnobjs) [bs0 HL0] Hobj] Hs Hnull Hsome. unfold slab_allocator_create.
  apply wp_bind, (wp_slab_obj_alloc V L s SAA al0 bs0); [done|done|done|rewrite Hord|rewrite Hnobjs, Hsz].
  { intros Hu Hn. cbn [Z.eqb]. by apply wp_ret, Hnull. }
  intros V' L1 s1 r n Hok1 Hev Hl Hnew Hr Hspare. change n with sizeof_slab_allocator in *. clear n.
  rewrite (proj2 (Z.eqb_neq r 0)) by lia. apply wp_bind, wp_allocator_init; [done|]. intros al Hlay. wp_steps.
  assert (r <> SAA) as Hne.
  { pose proof (live_in_pages _ _ _ _ _ _ Hok1 Hl). unfold static_ok in Hstatic. lia. }
  assert (L1 !! r = None) as HL1.
  { destruct (L1 !! r) eqn:E; [|done]. destruct (Hobj r) as [?|Hlr]; [|done|by apply Hnew in Hlr].
    apply (ev_dom _ _ _ _ _ _ _ Hev). by rewrite E. }
  apply (Hsome V'); [|done|done]. exists L1, s1, al. split_and!; [done..|].
  pose proof (layout_wf _ _ _ _ Hs Hlay) as Hwf. destruct Hlay as (_ & _ & Hslabs & _). split.
  - by apply added_ok.
  - destruct (ev_alloc _ _ _ _ _ _ _ Hev _ _ Hal0) as (al1 & Hal1 & (E1 & E2 & E3)). exists al1. cbn [km_allocators added].
    rewrite lookup_insert_ne by done. split_and!; [done|congruence|congruence|congruence].
  - rewrite lookup_insert_ne by done. apply (ev_dom _ _ _ _ _ _ _ Hev). by rewrite HL0.
  - intros p Hp. destruct (decide (p = r)) as [->|Hpr].
    + right. by apply (added_live V' L1).
    + rewrite lookup_insert_ne in Hp by done. apply (ev_dom _ _ _ _ _ _ _ Hev) in Hp.
      destruct (Hobj p Hp) as [->|Hlp]; [by left|right]. apply (added_live V' L1); [done|done|].
      apply (ev_live _ _ _ _ _ _ _ Hev). by left.
Qed.

(** ** [slab_init] *)

(** The first [n] of the [kmalloc] allocators are made, and nothing else. *)
Record made n V L s : Prop := Made {
  md_ok : allocators_ok V L s;
  md_kmalloc : kmalloc_upto n L s;
  md_live : forall p a sz, live V s p a sz <-> p = SAA /\ sz = sizeof_slab_allocator /\ a ∈ kmalloc_allocators s;
  md_nodup : NoDup (kmalloc_allocators s);
}.

(** The first allocator has [n] objects to give. *)
Definition ready V s (n : Z) : Prop := spare V SAA n \/ (all_used V SAA /\ n <= 102 /\ ~ no_block 2 s).

Lemma spare_le V p k k' : k' <= k -> spare V p k -> spare V p k'.
Proof using. intros Hk (b & free & Hv & Hl). exists b, free. split; [done|lia]. Qed.

Lemma spare_not_used V p k : 0 < k -> spare V p k -> ~ all_used V p.
Proof using. intros Hk (b & free & Hv & Hl) Hu. rewrite (Hu b free Hv) in Hl. cbn in Hl. lia. Qed.

Lemma allocators_ok_kmalloc V L s x : allocators_ok V L s -> allocators_ok V L (set_kmalloc_allocators x s).
Proof using. intros [[H1 H2 H3 H4 H5 H6 H7] A1 A2 A3]. split; [split|..]; done. Qed.

Lemma created_made n name V L s V' r s' :
  made n V L s -> create_post V L s name (pow2 (KMALLOC_SIZE_MIN_ORDER + n)) V' r s' -> 0 < r < 2 ^ 64 ->
  exists L', made (S n) V' L' (set_kmalloc_allocators (kmalloc_allocators s' ++ [r]) s').
Proof using Hstatic.
  intros [Hok Hkm Hl Hnd] (L1 & s1 & al & Hev & Hlay & Hok1 & HL1 & -> & Hao) Hr. exists (<[r := []]> L1).
  assert (r ∉ kmalloc_allocators s) as Hrn.
  { intros (k & Hk)%list_elem_of_lookup. destruct (proj2 Hkm k r Hk) as (HL & _).
    apply (ev_dom _ _ _ _ _ _ _ Hev) in HL. rewrite HL1 in HL. by destruct HL. }
  pose proof (kmalloc_ok_evolves _ _ _ _ _ _ _ _ Hev Hkm) as [Hlen1 Hkm1].
  pose proof (ev_kmalloc _ _ _ _ _ _ _ Hev) as Eq. pose proof (ev_live _ _ _ _ _ _ _ Hev) as El.
  split; cbn [kmalloc_allocators set_kmalloc_allocators added]; [by apply allocators_ok_kmalloc| | |].
  - split; [cbn; rewrite length_app; cbn; lia|]. intros k p Hk. cbn in Hk. cbn [km_allocators].
    apply lookup_app_Some in Hk as [Hk|[Hge Hk]].
    + destruct (Hkm1 k p Hk) as (HL & Hw & al' & Hal' & Hs'). assert (r <> p).
      { intros <-. rewrite HL1 in HL. by destruct HL. }
      rewrite lookup_insert_ne by done. split_and!; [done|lia|lia|]. exists al'. cbn. by rewrite lookup_insert_ne.
    + rewrite Hlen1 in *. apply list_lookup_singleton_Some in Hk as [Hk <-]. assert (k = n) as -> by lia.
      rewrite lookup_insert_eq. split_and!; [done|lia|lia|]. exists al. cbn. rewrite lookup_insert_eq.
      split; [done|]. apply Hlay.
  - intros p a sz. rewrite elem_of_app, list_elem_of_singleton. rewrite Eq.
    transitivity (live V' s1 p a sz); [by apply (added_live V' L1 s1 Hok1)|].
    rewrite El. unfold with_object. rewrite Hl. naive_solver.
  - rewrite Eq. apply NoDup_app. split_and!; [done| |apply NoDup_singleton]. by intros x Hx ->%list_elem_of_singleton.
Qed.

Lemma wp_create_kmalloc names n V L s Q :
  made n V L s -> (n + length names <= 13)%nat -> ready V s (Z.of_nat (length names)) ->
  (forall V' L' s', made (n + length names) V' L' s' -> Q tt s') ->
  wp (create_kmalloc (KMALLOC_SIZE_MIN_ORDER + n) names) Q s.
Proof using Hstatic.
  revert n V L s. induction names as [|name names IH]; intros n V L s Hm Hlen Hready HQ; cbn [create_kmalloc length] in *.
  { apply wp_ret. rewrite Nat.add_0_r in HQ. by eapply HQ. }
  assert (size_ok (pow2 (KMALLOC_SIZE_MIN_ORDER + n) + 2 * sizeof_ptr)) as Hs.
  { assert (pow2 (KMALLOC_SIZE_MIN_ORDER + n) <= pow2 18) by (apply pow2_le; unfold KMALLOC_SIZE_MIN_ORDER; lia).
    change (pow2 18) with 262144 in *. pose proof (pow2_pos (KMALLOC_SIZE_MIN_ORDER + n)). unfold size_ok, sizeof_ptr. lia. }
  apply wp_bind, (wp_slab_allocator_create V L); [apply Hm|done| |].
  - intros Hu Hn. exfalso. destruct Hready as [Hsp|(_ & _ & Hb)]; [|done]. eapply spare_not_used; [|exact Hsp|exact Hu]. lia.
  - intros V' r s' Hpost Hr Hsp. apply wp_bind, wp_kassert. { by rewrite (proj2 (Z.eqb_neq r 0)) by lia. }
    wp_steps. destruct (created_made _ _ _ _ _ _ _ _ Hm Hpost Hr) as [L' Hm'].
    rewrite <- Nat.add_succ_r. eapply IH; [exact Hm'|lia| |].
    + left. destruct Hready as [H1|(H1 & H2 & _)].
      * apply Hsp; [lia|]. left. eapply spare_le; [|exact H1]. lia.
      * apply (spare_le _ _ 101); [lia|]. apply Hsp; [lia|]. by right.
    + intros V2 L2 s2. rewrite Nat.add_succ_comm. apply HQ.
Qed.

Lemma empty_heap_ok F s :
  free_pages F (km_pages s) -> (PAGE_NSIZES <= S (max_order (km_pages s)))%nat -> heap_ok ∅ ∅ s.
Proof using.
  intros HF Ho. split; [done|exists F; split; [done|]|..]; unfold slab_at; intros *; rewrite ?lookup_empty; naive_solver.
Qed.

Lemma wp_slab_init F s k Q :
  free_pages F (km_pages s) -> (PAGE_NSIZES <= S (max_order (km_pages s)))%nat -> 0 <= k -> full F 1 k = true ->
  (forall V L s', made 13 V L s' -> Q tt s') -> wp slab_init Q s.
Proof using Hstatic.
  intros HF Ho Hk Hfull HQ. pose proof (empty_heap_ok F s HF Ho) as Hok. unfold slab_init.
  apply wp_bind, wp_allocator_init; [unfold size_ok, sizeof_slab_allocator, sizeof_ptr; lia|].
  intros al Hlay. wp_steps. rewrite <- (Nat.add_0_r KMALLOC_SIZE_MIN_ORDER).
  assert (sa_objsize al = 64 /\ sa_order al = 1%nat /\ sa_slab_nobjs al = 102) as (E1 & E2 & E3).
  { destruct Hlay as (_ & -> & _ & _ & -> & min & Hmin & ->). vm_compute in Hmin. injection Hmin as <-. by vm_compute. }
  assert (alloc_wf al) as Hwf by (eapply layout_wf; [|exact Hlay]; by vm_compute).
  destruct Hlay as (_ & _ & Hslabs & _).
  apply (wp_create_kmalloc _ _ ∅ {[SAA := []]}); [|cbn; lia| |apply HQ].
  - split; [apply allocators_ok_kmalloc; split| | |].
    + by apply (added_ok ∅ ∅ s Hok).
    + exists al. cbn [km_allocators added]. rewrite lookup_insert_eq. done.
    + by rewrite lookup_singleton_eq.
    + intros p [? [<- _]%lookup_singleton_Some]. by left.
    + split; [done|]. intros j p Hp. done.
    + intros p a sz. cbn. split; [|by intros (_ & _ & ?%elem_of_nil)]. intros (b & i & al' & free & [Hv _] & _). done.
    + constructor.
  - right. split_and!; [by intros b free Hv|cbn; lia|]. intros Hno.
    assert (full F 1 k = false); [|congruence]. apply (Hno F 1%nat k); [done| |done|done].
    cbn [km_pages added set_kmalloc_allocators]. unfold PAGE_NSIZES in Ho. lia.
Qed.
End create.
