(* ===== verification/KmallocTheorems.v ===== *)
(** The properties of the slab allocator and of [kmalloc], with their witnesses. *)

From S2P Require Import Prelude Page PageTree PageProofs PageAllocProofs PageTheorems KMem Slab SlabProofs SlabHeap SlabTheorems Kmalloc.

Implicit Types (V : gmap Z slab_view) (L : gmap Z (list Z)) (s : kmem) (al : slab_allocator)
  (m : memory) (p b i : Z).

Section properties.
Context `{KernelData}.

(** [slab_init] succeeds when the page allocator has a free block of two
    pages: it leaves a sound heap with the thirteen [kmalloc] allocators, of
    object sizes 64 to 262144, whose descriptors are distinct and are the only
    objects in use. *)
Theorem slab_init_correct F k s :
  static_ok -> free_pages F (km_pages s) -> (PAGE_NSIZES <= S (max_order (km_pages s)))%nat ->
  0 <= k -> full F 1 k = true ->
  exists V L s', slab_init s = Done tt s' /\ made 13 V L s'.
Proof.
  intros Hst HF Ho Hk Hfull.
  destruct (wp_run slab_init (fun _ s' => exists V L, made 13 V L s') s) as ([] & s' & E & V & L & Hm); [|by exists V, L, s'].
  apply (wp_slab_init Hst F s k); [done..|]. intros V L s' Hm. by exists V, L.
Qed.

(** C8: [kmalloc] of up to 262136 bytes returns null and changes nothing only
    when the allocator it turns to has no free object and there is no block of
    pages for another slab; otherwise it returns memory of at least the size
    asked for, which overlaps no object in use, with the allocator in the word
    before it, and every object in use keeps its bytes. *)
Theorem kmalloc_correct V L s size :
  heap_ok V L s -> kmalloc_ok L s -> 0 <= size <= pow2 18 - sizeof_ptr ->
  exists r s', kmalloc size s = Done r s' /\ kmalloc_post V L s (size + sizeof_ptr) r s'.
Proof.
  intros Hok Hkm Hs. apply wp_run. by apply (wp_kmalloc V L).
Qed.

(** C9: [kfree] takes back what [kmalloc] gave, whatever its user wrote into
    it: the objects in use are those of before and keep their bytes. *)
Theorem kmalloc_kfree V L s size :
  heap_ok V L s -> kmalloc_ok L s -> 0 <= size <= pow2 18 - sizeof_ptr ->
  exists r s1, kmalloc size s = Done r s1 /\
    (r = 0 \/ forall m, (forall x, ~ (r <= x < r + size) -> load8 m x = load8 (km_mem s1) x) ->
       exists V' L' s2, kfree r (set_km_mem m s1) = Done tt s2 /\ heap_ok V' L' s2 /\ kmalloc_ok L' s2
         /\ (forall p a n, live V' s2 p a n <-> live V s p a n)
         /\ forall p a n x, live V s p a n -> a <= x < a + n -> load8 (km_mem s2) x = load8 (km_mem s) x).
Proof.
  intros Hok Hkm Hs. destruct (wp_run _ _ _ (wp_kmalloc V L s size (kmalloc_post V L s (size + sizeof_ptr)) Hok Hkm Hs (fun _ _ H => H)))
    as (r & s1 & E & Hpost). exists r, s1. split; [done|]. by apply (freed_again V L).
Qed.

(** C33: an object that was freed cannot be freed again: the assertion of
    [slab_obj_free] stops the second call. *)
Theorem double_free_caught V L s p a n :
  heap_ok V L s -> live V s p a n ->
  exists s', slab_obj_free p a s = Done tt s' /\ slab_obj_free p a s' = Failed Assert.
Proof.
  intros Hok Hl. destruct (wp_run (slab_obj_free p a) (fun _ s' => slab_obj_free p a s' = Failed Assert) s) as ([] & s' & E & Hf);
    [|by exists s'].
  apply (wp_slab_obj_free V L s p a n); [done|done|]. intros V' s' Hok' _ Hfr. by eapply double_free.
Qed.

(** an allocator of objects of up to 524224 bytes gets slabs of [2 ^ order]
    pages that hold at least one object and as many as fit with the
    descriptor of the slab; among the blocks of fewer than 32 pages that hold
    an object none wastes less, and a larger block is taken only when no
    smaller one holds an object. *)
Theorem allocator_layout s p name size :
  0 <= size <= 524224 ->
  exists s' al, _allocator_init p name size s = Done tt s' /\ km_allocators s' !! p = Some al
    /\ sa_objsize al = size + 2 * sizeof_ptr /\ (sa_order al < PAGE_NSIZES)%nat
    /\ 0 < sa_slab_nobjs al
    /\ sa_slab_nobjs al * stride al + sizeof_slab <= slab_bytes al
    /\ slab_bytes al < (sa_slab_nobjs al + 1) * stride al + sizeof_slab
    /\ (forall o, (o < SLAB_MAX_ORDER)%nat -> stride al + sizeof_slab <= page_block o ->
          (sa_order al < SLAB_MAX_ORDER)%nat /\ _slab_waste (sa_objsize al) (sa_order al) <= _slab_waste (sa_objsize al) o)
    /\ ((SLAB_MAX_ORDER <= sa_order al)%nat ->
          forall o, (o < sa_order al)%nat -> page_block o < stride al + sizeof_slab).
Proof.
  intros Hs. assert (size_ok (size + 2 * sizeof_ptr)) as Hok by (unfold size_ok, sizeof_ptr; lia).
  destruct (wp_run _ _ _ (wp_allocator_init s p name size (fun _ s' => exists al, s' = added s p al /\ layout_of _ _ _ al) Hok
    (fun al Hl => ex_intro _ al (conj eq_refl Hl)))) as ([] & s' & E & al & -> & Hlay).
  exists (added s p al), al. split; [done|]. split; [apply lookup_insert_eq|]. by eapply layout_best.
Qed.
End properties.

(** ** Witnesses *)

(** The memory of [small_map] at the end of [page_init]. *)
#[local] Instance small_kernel : KernelData := 0xffff800000110000.
Definition small_kmem : kmem := KMemSt small_state ∅ ∅ 0 [].

Lemma small_static : static_ok.
Proof. by vm_compute. Qed.

Lemma small_block : full small_pages 1 200 = true.
Proof. vm_compute. reflexivity. Qed.

Lemma small_order : (PAGE_NSIZES <= S (max_order (km_pages small_kmem)))%nat.
Proof. vm_compute. lia. Qed.

Lemma slab_init_correct_witness : exists V L s', slab_init small_kmem = Done tt s' /\ made 13 V L s'.
Proof.
  exact (slab_init_correct small_pages 200 small_kmem small_static small_state_ok small_order ltac:(lia) small_block).
Defined.

(** The heap after [slab_init]. *)
Lemma small_heap : exists V L s p a n, heap_ok V L s /\ kmalloc_ok L s /\ live V s p a n.
Proof.
  destruct (wp_run slab_init (fun _ s' => exists V L, made 13 V L s') small_kmem) as ([] & s & _ & V & L & [Hok Hkm Hl _]).
  - apply (wp_slab_init small_static small_pages small_kmem 200);
      [exact small_state_ok|exact small_order|lia|exact small_block|]. intros V L s' Hm. by exists V, L.
  - destruct (lookup_lt_is_Some_2 (kmalloc_allocators s) 0) as [q Hq]; [rewrite (proj1 Hkm); lia|].
    exists V, L, s, slab_allocator_allocator, q, sizeof_slab_allocator. split_and!; [apply Hok|done|].
    apply Hl. split_and!; [done|done|]. by eapply list_elem_of_lookup_2.
Qed.

Lemma kmalloc_correct_witness : exists V L s, heap_ok V L s /\ kmalloc_ok L s /\
  exists r s', kmalloc 100 s = Done r s' /\ kmalloc_post V L s (100 + sizeof_ptr) r s'.
Proof.
  destruct small_heap as (V & L & s & _ & _ & _ & Hok & Hkm & _). exists V, L, s. split_and!; [done|done|].
  apply (kmalloc_correct V L s 100 Hok Hkm). vm_compute. split; discriminate.
Defined.

Lemma kmalloc_kfree_witness : exists V L s, heap_ok V L s /\ kmalloc_ok L s /\
  exists r s1, kmalloc 100 s = Done r s1 /\
    (r = 0 \/ forall m, (forall x, ~ (r <= x < r + 100) -> load8 m x = load8 (km_mem s1) x) ->
       exists V' L' s2, kfree r (set_km_mem m s1) = Done tt s2 /\ heap_ok V' L' s2 /\ kmalloc_ok L' s2
         /\ (forall p a n, live V' s2 p a n <-> live V s p a n)
         /\ forall p a n x, live V s p a n -> a <= x < a + n -> load8 (km_mem s2) x = load8 (km_mem s) x).
Proof.
  destruct small_heap as (V & L & s & _ & _ & _ & Hok & Hkm & _). exists V, L, s. split_and!; [done|done|].
  apply (kmalloc_kfree V L s 100 Hok Hkm). vm_compute. split; discriminate.
Defined.

Lemma double_free_caught_witness : exists V L s p a n, heap_ok V L s /\ live V s p a n /\
  exists s', slab_obj_free p a s = Done tt s' /\ slab_obj_free p a s' = Failed Assert.
Proof.
  destruct small_heap as (V & L & s & p & a & n & Hok & _ & Hl). exists V, L, s, p, a, n. split_and!; [done|done|].
  exact (double_free_caught V L s p a n Hok Hl).
Defined.

Lemma allocator_layout_witness :
  exists s' al, _allocator_init 64 "vnode" 232 small_kmem = Done tt s' /\ km_allocators s' !! 64 = Some al
    /\ sa_order al = 3%nat /\ sa_slab_nobjs al = 124.
Proof.
  destruct (allocator_layout small_kmem 64 "vnode" 232 ltac:(lia)) as (s' & al & E & Hal & _).
  exists s', al. split_and!; [exact E|exact Hal|..]; revert Hal; revert E; vm_compute; intros [= <-]; intros [= <-]; reflexivity.
Defined.
