(* ===== verification/Btree.v ===== *)
(** The page-frame index of memory objects: the B-tree of [util/btree.c].

    A node is its live key/data slots and its live child slots; a child node is
    owned by the slot that points to it, so a tree is an inductive value and a
    function that mutates the node [x] is a computation over the state [node].
    [n_keys] and [n_children] are the lengths of the slot lists: an access to a
    slot outside the live ones is a [Fault].  Keys are [uint64_t]; the helpers
    that take or return an [int] key convert as the code does. *)

From S2P Require Import Prelude.

Section btree.
Context {D : Type} (pf_pagenum : D -> Z) {mem : Memory}.

Definition BRANCHING_FACTOR : nat := 2.
Definition MAX_KEYS : nat := 2 * BRANCHING_FACTOR - 1.
Definition MAX_CHILDREN : nat := 2 * BRANCHING_FACTOR.

Inductive node : Type :=
  Node (is_leaf : bool) (keys : list (Z * D)) (children : list node).

Definition is_leaf (x : node) : bool := let '(Node l _ _) := x in l.
Definition keys (x : node) : list (Z * D) := let '(Node _ ks _) := x in ks.
Definition children (x : node) : list node := let '(Node _ _ cs) := x in cs.
Definition n_keys (x : node) : nat := length (keys x).
Definition n_children (x : node) : nat := length (children x).

Definition set_keys (ks : list (Z * D)) (x : node) : node := Node (is_leaf x) ks (children x).
Definition set_children (cs : list node) (x : node) : node := Node (is_leaf x) (keys x) cs.
Definition set_leaf (b : bool) (x : node) : node := Node b (keys x) (children x).

(** [n - 1] on an [unsigned int]. *)
Definition pred32 (n : nat) : Z := u32 (Z.of_nat n - 1).

(** [x->children[i]] as the argument of a function. *)
Definition on_child {A} (i : nat) (m : M node A) : M node A := fun x =>
  match children x !! i with
  | None => Failed Fault
  | Some c =>
      match m c with
      | Done a c' => Done a (set_children (<[i := c']> (children x)) x)
      | Failed f => Failed f
      end
  end.

(** [&x->children[i]] as the argument of a function that may replace the
    pointer. *)
Definition on_child_slot {A} (i : nat) (m : M (option node) A) : M node A := fun x =>
  match children x !! i with
  | None => Failed Fault
  | Some c =>
      match m (Some c) with
      | Done a (Some c') => Done a (set_children (<[i := c']> (children x)) x)
      | Done _ None => Failed Fault
      | Failed f => Failed f
      end
  end.

(** ** Array helpers *)

Definition btree_pop_key (i : nat) : M node (Z * D) :=
  do! kassert (i <? MAX_KEYS)%nat;
  let! x := get in
  do! kassert (i <? n_keys x)%nat;
  do! kassert (0 <? n_keys x)%nat;
  let! kd := deref (keys x !! i) in
  do! put (set_keys (delete i (keys x)) x);
  ret (s32 kd.1, kd.2).

Definition btree_append_key (k : Z) (d : D) : M node unit :=
  let! x := get in
  do! kassert (n_keys x <? MAX_KEYS)%nat;
  put (set_keys (keys x ++ [(u64 k, d)]) x).

Definition btree_insert_key (k : Z) (i : nat) (d : D) : M node unit :=
  let! x := get in
  do! kassert (n_keys x <? MAX_KEYS)%nat;
  if (n_keys x <? i)%nat then fail Fault
  else put (set_keys (take i (keys x) ++ (u64 k, d) :: drop i (keys x)) x).

Definition btree_pop_child (i : nat) : M node node :=
  do! kassert (i <? MAX_CHILDREN)%nat;
  let! x := get in
  do! kassert (i <? n_children x)%nat;
  do! kassert (0 <? n_children x)%nat;
  let! c := deref (children x !! i) in
  do! put (set_children (delete i (children x)) x);
  ret c.

Definition btree_append_child (c : node) : M node unit :=
  let! x := get in
  do! kassert (n_children x <? MAX_CHILDREN)%nat;
  put (set_leaf false (set_children (children x ++ [c]) x)).

Definition btree_insert_child (c : node) (i : nat) : M node unit :=
  let! x := get in
  do! kassert (n_children x <? MAX_CHILDREN)%nat;
  if (n_children x <? i)%nat then fail Fault
  else put (set_leaf false (set_children (take i (children x) ++ c :: drop i (children x)) x)).

Definition btree_node_create : option node :=
  if oom then None else Some (Node true [] []).

(** ** Search *)

(** [while (i < n_keys && key > keys[i]) i++;] *)
Fixpoint scan_up (key : Z) (ks : list (Z * D)) : nat :=
  match ks with
  | [] => 0
  | kd :: ks => if key >? kd.1 then S (scan_up key ks) else 0
  end.

(** The recursion descends: the height of the node is enough fuel. *)
Fixpoint btree_height (x : node) : nat :=
  match x with
  | Node _ _ [] => 0
  | Node _ _ (c :: _) => S (btree_height c)
  end.

Fixpoint btree_search_rec (fuel : nat) (x : node) (key : Z) : option D :=
  let ind := scan_up key (keys x) in
  let below :=
    if is_leaf x then None
    else match fuel, children x !! ind with
         | S fuel, Some c => btree_search_rec fuel c key
         | _, _ => None
         end in
  match keys x !! ind with
  | Some kd => if key =? kd.1 then Some kd.2 else below
  | None => below
  end.

Definition btree_search (root : option node) (key : Z) : option D :=
  match root with
  | None => None
  | Some x => btree_search_rec (btree_height x) x key
  end.

(** ** Insertion *)

Definition btree_split_child (child_ind : nat) : M node unit :=
  do! kassert (child_ind <? 2 * BRANCHING_FACTOR)%nat;
  let! n := on_child child_ind (gets n_keys) in
  do! kassert (n =? 2 * BRANCHING_FACTOR - 1)%nat;
  let! leaf := on_child child_ind (gets is_leaf) in
  let! new_child := deref btree_node_create in
  do! btree_insert_child (set_leaf leaf new_child) (child_ind + 1);
  let! kd := on_child child_ind (btree_pop_key (BRANCHING_FACTOR - 1)) in
  do! btree_insert_key kd.1 child_ind kd.2;
  do! for_each (seq (BRANCHING_FACTOR - 1) (MAX_KEYS - 1 - (BRANCHING_FACTOR - 1))) (fun i =>
        let! kd := on_child child_ind (btree_pop_key i) in
        on_child (child_ind + 1) (btree_append_key kd.1 kd.2));
  if leaf then ret tt
  else for_each (seq BRANCHING_FACTOR BRANCHING_FACTOR) (fun _ =>
        let! c := on_child child_ind (btree_pop_child BRANCHING_FACTOR) in
        on_child (child_ind + 1) (btree_append_child c)).

(** [i = n_keys - 1; while (i >= 0 && k < keys[i]) i--;], the result is [i + 1]. *)
Fixpoint scan_down (k : Z) (ks : list (Z * D)) (n : nat) : nat :=
  match n with
  | O => O
  | S i =>
      match ks !! i with
      | Some kd => if k <? kd.1 then scan_down k ks i else n
      | None => n
      end
  end.

Fixpoint btree_insert_nonfull (fuel : nat) (k : Z) (data : D) : M node unit :=
  let! x := get in
  let i := scan_down k (keys x) (n_keys x) in
  if is_leaf x then
    if (MAX_KEYS <=? n_keys x)%nat then fail Fault
    else put (set_keys (take i (keys x) ++ (k, data) :: drop i (keys x)) x)
  else
    let! n := on_child i (gets n_keys) in
    let! i' :=
      (if (n =? MAX_KEYS)%nat then
         do! btree_split_child i;
         let! x' := get in
         let! kd := deref (keys x' !! i) in
         ret (if k >? kd.1 then S i else i)
       else ret i) in
    match fuel with
    | O => fail Stuck
    | S fuel => on_child i' (btree_insert_nonfull fuel k data)
    end.

(** Every node of the tree holds a key and indexes its frames by page number. *)
Fixpoint btree_assert_sanity (x : node) : bool :=
  match x with
  | Node leaf ks cs =>
      (0 <? length ks)%nat
      && forallb (fun kd => pf_pagenum kd.2 =? kd.1) ks
      && (if (length cs =? 0)%nat || leaf then Bool.eqb (length cs =? 0)%nat leaf
          else forallb btree_assert_sanity cs)
  end.

Definition btree_insert (key : Z) (data : D) : M (option node) unit := fun root =>
  match (match root with Some x => Some x | None => btree_node_create end) with
  | None => Failed Fault
  | Some x =>
      let r :=
        if (n_keys x =? MAX_KEYS)%nat then
          match btree_node_create with
          | None => Failed Fault
          | Some new_root =>
              (do! btree_append_child x;
               do! btree_split_child 0;
               btree_insert_nonfull (S (btree_height x)) key data) new_root
          end
        else btree_insert_nonfull (btree_height x) key data x in
      match r with
      | Done _ x' => if btree_assert_sanity x' then Done tt (Some x') else Failed Assert
      | Failed f => Failed f
      end
  end.

(** ** Deletion *)

Definition btree_take_prev (i : nat) : M node unit :=
  do! kassert (0 <? i)%nat;
  let! kd := btree_pop_key (i - 1) in
  do! on_child i (btree_insert_key kd.1 0 kd.2);
  let! leaf := on_child i (gets is_leaf) in
  do! (if leaf then ret tt
       else
         let! sn := on_child (i - 1) (gets n_children) in
         let! c := on_child (i - 1) (btree_pop_child (sn - 1)) in
         on_child i (btree_insert_child c 0));
  let! sk := on_child (i - 1) (gets n_keys) in
  let! kd := on_child (i - 1) (btree_pop_key (sk - 1)) in
  btree_insert_key kd.1 (i - 1) kd.2.

Definition btree_take_next (i : nat) : M node unit :=
  let! x := get in
  do! kassert (Z.of_nat i <? pred32 (n_children x));
  let! kd := btree_pop_key i in
  do! on_child i (btree_append_key kd.1 kd.2);
  let! leaf := on_child i (gets is_leaf) in
  do! (if leaf then ret tt
       else
         let! c := on_child (i + 1) (btree_pop_child 0) in
         on_child i (btree_append_child c));
  let! kd := on_child (i + 1) (btree_pop_key 0) in
  btree_insert_key kd.1 i kd.2.

Definition btree_merge (i : nat) : M node unit :=
  let! x := get in
  do! kassert (Z.of_nat i <? pred32 (n_children x));
  let! kd := btree_pop_key i in
  do! on_child i (btree_append_key kd.1 kd.2);
  let! s := deref (children x !! (i + 1)%nat) in
  do! for_each (keys s) (fun kd => on_child i (btree_append_key (s32 kd.1) kd.2));
  let! leaf := on_child i (gets is_leaf) in
  do! (if leaf then ret tt
       else for_each (seq 0 (n_keys s + 1)) (fun j =>
              let! c := deref (children s !! j) in
              on_child i (btree_append_child c)));
  let! _ := btree_pop_child (i + 1) in
  ret tt.

Definition btree_fill_node (i : nat) : M node unit :=
  let! x := get in
  let! prev :=
    (if (i =? 0)%nat then ret false
     else on_child (i - 1) (gets (fun c => BRANCHING_FACTOR <=? n_keys c)%nat)) in
  if prev then btree_take_prev i
  else
    let! next :=
      (if (i =? n_keys x)%nat then ret false
       else on_child (i + 1) (gets (fun c => BRANCHING_FACTOR <=? n_keys c)%nat)) in
    if next then btree_take_next i
    else if negb (i =? n_keys x)%nat then btree_merge i
    else btree_merge (i - 1).

(** [btree_get_predecessor] and [btree_get_successor] walk to the last (first)
    key of the leaf below a child. *)
Fixpoint btree_last (fuel : nat) (cur : node) : option (Z * D) :=
  if is_leaf cur then keys cur !! (n_keys cur - 1)%nat
  else match fuel, children cur !! (n_children cur - 1)%nat with
       | S fuel, Some c => btree_last fuel c
       | _, _ => None
       end.

Fixpoint btree_first (fuel : nat) (cur : node) : option (Z * D) :=
  if is_leaf cur then keys cur !! 0%nat
  else match fuel, children cur !! 0%nat with
       | S fuel, Some c => btree_first fuel c
       | _, _ => None
       end.

Definition btree_get_predecessor (i : nat) : M node (Z * D) :=
  let! c := on_child i get in
  let! kd := deref (btree_last (btree_height c) c) in
  ret (s32 kd.1, kd.2).

Definition btree_get_successor (i : nat) : M node (Z * D) :=
  let! c := on_child (i + 1) get in
  let! kd := deref (btree_first (btree_height c) c) in
  ret (s32 kd.1, kd.2).

(** [x->keys[i] = k; x->data[i] = d;] *)
Definition store_key (i : nat) (k : Z) (d : D) : M node unit :=
  let! x := get in
  if (i <? n_keys x)%nat then put (set_keys (<[i := (u64 k, d)]> (keys x)) x) else fail Fault.

(** [btree_delete], given the function it deletes from the root node with. *)
Definition btree_delete_with (helper : Z -> M node unit) (key : Z) : M (option node) unit :=
  fun root =>
    match root, btree_search root key with
    | Some x, Some _ =>
        match helper key x with
        | Failed f => Failed f
        | Done _ x' =>
            let root' :=
              if (n_keys x' =? 0)%nat then
                if is_leaf x' then Some None
                else match children x' !! 0%nat with Some c => Some (Some c) | None => None end
              else Some (Some x') in
            match root' with
            | None => Failed Fault
            | Some None => Done tt None
            | Some (Some y) =>
                if btree_assert_sanity y then Done tt (Some y) else Failed Assert
            end
        end
    | _, _ => Failed Assert
    end.

Definition btree_delete_internal (del : Z -> M (option node) unit) (key : Z) (i : nat) :
    M node unit :=
  let! x := get in
  do! kassert ((i <? n_keys x)%nat && (Z.of_nat i <? pred32 (n_children x)));
  let! kd := deref (keys x !! i) in
  let k := s32 kd.1 in
  let! n := on_child i (gets n_keys) in
  if (BRANCHING_FACTOR <=? n)%nat then
    let! kd := btree_get_predecessor i in
    do! store_key i kd.1 kd.2;
    on_child_slot i (del (u64 kd.1))
  else
    let! n := on_child (i + 1) (gets n_keys) in
    if (BRANCHING_FACTOR <=? n)%nat then
      let! kd := btree_get_successor i in
      do! store_key i kd.1 kd.2;
      on_child_slot (i + 1) (del (u64 kd.1))
    else
      do! btree_merge i;
      on_child_slot i (del (u64 k)).

Fixpoint btree_delete_helper (fuel : nat) (key : Z) : M node unit :=
  let! x := get in
  let i := scan_up key (keys x) in
  let found := match keys x !! i with Some kd => kd.1 =? key | None => false end in
  if is_leaf x then
    if found then (let! _ := btree_pop_key i in ret tt) else ret tt
  else
    match fuel with
    | O => fail Stuck
    | S fuel =>
        if found then
          btree_delete_internal (btree_delete_with (btree_delete_helper fuel)) (s32 key) i
        else
          let last := (i =? n_keys x)%nat in
          let! n := on_child i (gets n_keys) in
          do! (if (n <? BRANCHING_FACTOR)%nat then btree_fill_node i else ret tt);
          let! n' := gets n_keys in
          if last && (n' <? i)%nat then on_child (i - 1) (btree_delete_helper fuel key)
          else on_child i (btree_delete_helper fuel key)
    end.

Definition btree_delete (key : Z) : M (option node) unit := fun root =>
  let fuel := match root with Some x => btree_height x | None => 0%nat end in
  btree_delete_with (btree_delete_helper fuel) key root.
End btree.
