(* ===== verification/BtreeProofs.v ===== *)
(** The B-tree of [util/btree.c] implements a finite map.

    [flatten] lists the entries of a tree in order.  Every rebalancing step
    ([btree_split_child], [btree_take_prev], [btree_take_next], [btree_merge])
    keeps it, insertion adds one entry at its place, deletion removes one; the
    balance invariant [wf] keeps every array access and every assertion of the
    code in range.  The exported theorems relate [btree_search],
    [btree_insert] and [btree_delete] to lookup, insert and delete of a
    [gmap]. *)

From Stdlib Require Import Sorted.
From S2P Require Import Prelude Btree.

Lemma run_bind {St A B} (m : M St A) (k : A -> M St B) s a s' :
  m s = Done a s' -> bind m k s = k a s'.
Proof. unfold bind. by intros ->. Qed.

Section btree_proofs.
Context {D : Type} (pf_pagenum : D -> Z) {mem : Memory}.
Abbreviation node := (node (D := D)).
Abbreviation entry := (Z * D)%type.
Implicit Types (x c s : node) (ks l : list entry) (cs : list node).

(** * Entries in order *)

Fixpoint flatten (x : node) : list entry :=
  match x with
  | Node _ ks cs =>
      (fix inter ks cs :=
         match cs with
         | [] => ks
         | c :: cs =>
             flatten c ++ match ks with [] => inter [] cs | k :: ks => k :: inter ks cs end
         end) ks cs
  end.

(** Keys and children interleaved. *)
Fixpoint inter (ks : list entry) (cs : list node) : list entry :=
  match cs with
  | [] => ks
  | c :: cs => flatten c ++ match ks with [] => inter [] cs | k :: ks => k :: inter ks cs end
  end.

Lemma flatten_node b ks cs : flatten (Node b ks cs) = inter ks cs.
Proof.
  cbn. revert ks. induction cs as [|c cs IH]; intros ks; cbn; [done|].
  destruct ks; by rewrite IH.
Qed.

(** The entries before and after a child. *)
Fixpoint lefts (ks : list entry) (cs : list node) : list entry :=
  match ks, cs with
  | k :: ks, c :: cs => flatten c ++ k :: lefts ks cs
  | _, _ => []
  end.
Definition rights (ks : list entry) (cs : list node) : list entry :=
  match ks with [] => inter [] cs | k :: ks => k :: inter ks cs end.

Lemma inter_mid ks1 ks2 cs1 c cs2 :
  length ks1 = length cs1 ->
  inter (ks1 ++ ks2) (cs1 ++ c :: cs2) = lefts ks1 cs1 ++ flatten c ++ rights ks2 cs2.
Proof.
  revert cs1. induction ks1 as [|k ks1 IH]; intros [|c1 cs1] Hl; cbn in *; try done.
  rewrite IH by lia. by rewrite <- app_assoc.
Qed.

Lemma inter_join ks1 k ks2 cs1 cs2 :
  length cs1 = S (length ks1) ->
  inter (ks1 ++ k :: ks2) (cs1 ++ cs2) = inter ks1 cs1 ++ k :: inter ks2 cs2.
Proof.
  revert cs1. induction ks1 as [|k1 ks1 IH]; intros [|c1 cs1] Hl; cbn in *; try lia.
  - destruct cs1; cbn in *; [|lia]. by rewrite app_nil_r.
  - rewrite IH by lia. by rewrite <- app_assoc.
Qed.

Lemma rights_cons ks k c cs : rights (k :: ks) (c :: cs) = k :: flatten c ++ rights ks cs.
Proof. destruct ks; done. Qed.

Lemma lefts_snoc ks cs k c :
  length ks = length cs -> lefts (ks ++ [k]) (cs ++ [c]) = lefts ks cs ++ flatten c ++ [k].
Proof.
  revert cs. induction ks as [|k1 ks IH]; intros [|c1 cs] Hl; cbn in *; try done.
  rewrite IH by lia. by rewrite <- app_assoc.
Qed.

(** * The balance invariant *)

Fixpoint wf (h : nat) (x : node) : Prop :=
  (n_keys x <= MAX_KEYS)%nat
  /\ match h with
     | O => is_leaf x = true /\ children x = []
     | S h => is_leaf x = false /\ n_children x = S (n_keys x)
              /\ Forall (fun c => wf h c /\ (1 <= n_keys c)%nat) (children x)
     end.

Lemma wf_leaf b ks cs : wf 0 (Node b ks cs) <-> (length ks <= 3)%nat /\ b = true /\ cs = [].
Proof. done. Qed.

Lemma wf_inner h b ks cs :
  wf (S h) (Node b ks cs) <->
  (length ks <= 3)%nat /\ b = false /\ length cs = S (length ks)
  /\ Forall (fun c => wf h c /\ (1 <= n_keys c)%nat) cs.
Proof. done. Qed.

Lemma wf_leaf_inv b ks cs : wf 0 (Node b ks cs) -> (length ks <= 3)%nat /\ b = true /\ cs = [].
Proof. apply wf_leaf. Qed.

Lemma wf_inner_inv h b ks cs :
  wf (S h) (Node b ks cs) ->
  (length ks <= 3)%nat /\ b = false /\ length cs = S (length ks)
  /\ Forall (fun c => wf h c /\ (1 <= n_keys c)%nat) cs.
Proof. apply wf_inner. Qed.

Lemma wf_height h x : wf h x -> btree_height x = h.
Proof.
  revert x. induction h as [|h IH]; intros [b ks cs].
  - intros (_ & _ & ->)%wf_leaf_inv. done.
  - intros (_ & _ & Hl & Hcs)%wf_inner_inv. destruct cs as [|c cs]; [done|].
    apply Forall_cons_iff in Hcs as [[Hc _] _]. cbn. f_equal. by apply IH.
Qed.

Lemma wf_keys_le h x : wf h x -> (n_keys x <= 3)%nat.
Proof. destruct h; intros [? _]; done. Qed.

(** Two nodes of the same height and the key between them make one node. *)
Lemma flatten_join h c s k b :
  wf h c -> wf h s ->
  flatten (Node b (keys c ++ k :: keys s) (children c ++ children s)) =
  flatten c ++ k :: flatten s.
Proof.
  destruct c as [bc kc cc], s as [bs ks' cs']. cbn [keys children]. rewrite !flatten_node.
  destruct h.
  - intros (_ & _ & ->)%wf_leaf_inv (_ & _ & ->)%wf_leaf_inv. done.
  - intros (_ & _ & Hl & _)%wf_inner_inv _. by apply inter_join.
Qed.

Lemma wf_join h c s k :
  wf h c -> wf h s -> (n_keys c + n_keys s < 3)%nat ->
  wf h (Node (is_leaf c) (keys c ++ k :: keys s) (children c ++ children s)).
Proof.
  destruct c as [bc kc cc], s as [bs ks' cs']. unfold n_keys. cbn [keys children is_leaf].
  destruct h.
  - rewrite !wf_leaf. intros (? & ? & ->) (? & ? & ->) ?. rewrite length_app. cbn. split_and!; [lia|done..].
  - rewrite !wf_inner. intros (? & ? & ? & ?) (? & ? & ? & ?) ?.
    rewrite !length_app. cbn. split_and!; [lia|done|lia|by apply Forall_app].
Qed.

(** * Sorted entries *)

Definition klt (a b : entry) : Prop := a.1 < b.1.
Definition sorted : list entry -> Prop := StronglySorted klt.
Definition below (k : Z) (l : list entry) : Prop := Forall (fun e => e.1 < k) l.
Definition above (k : Z) (l : list entry) : Prop := Forall (fun e => k < e.1) l.

Lemma sorted_app l1 l2 :
  sorted (l1 ++ l2) <->
  sorted l1 /\ sorted l2 /\ forall a b, a ∈ l1 -> b ∈ l2 -> klt a b.
Proof.
  unfold sorted. induction l1 as [|a l1 IH]; cbn.
  - split; [|naive_solver]. intros ?. split_and!; [constructor|done|set_solver].
  - split.
    + intros [Hs Hall]%StronglySorted_inv. apply IH in Hs as (? & ? & ?).
      apply Forall_app in Hall as [? Hr]. rewrite Forall_forall in Hr.
      split_and!; [by constructor|done|]. intros a' b [->|?]%elem_of_cons Hb; [|by eauto].
      by apply Hr.
    + intros ([Hs Hall]%StronglySorted_inv & ? & Hlt). constructor.
      * apply IH. split_and!; [done..|]. intros. apply Hlt; set_solver.
      * apply Forall_app; split; [done|]. apply Forall_forall. intros b ?.
        apply Hlt; [set_solver|done].
Qed.

Lemma sorted_cons k l : sorted (k :: l) <-> above k.1 l /\ sorted l.
Proof.
  unfold sorted, above. split.
  - by intros [? ?]%StronglySorted_inv.
  - intros [? ?]. by constructor.
Qed.

Lemma sorted_mid l1 e l2 :
  sorted (l1 ++ e :: l2) <-> sorted (l1 ++ l2) /\ below e.1 l1 /\ above e.1 l2.
Proof.
  rewrite !sorted_app, sorted_cons. unfold below, above. rewrite !Forall_forall. split.
  - intros (? & (? & ?) & Hlt). split_and!; [done..| | |done].
    + intros. apply Hlt; set_solver.
    + intros a ?. apply (Hlt a e); set_solver.
  - intros ((? & ? & Hlt) & Hb & Ha). split_and!; [done..|].
    intros a b ? [->|?]%elem_of_cons; [by apply Hb|by apply Hlt].
Qed.

(** The place of a key in a sorted list is unique. *)
Lemma sorted_place l1 e l2 l1' e' l2' :
  sorted (l1 ++ e :: l2) -> l1 ++ e :: l2 = l1' ++ e' :: l2' -> e.1 = e'.1 ->
  l1 = l1' /\ e = e' /\ l2 = l2'.
Proof.
  intros Hs Heq Hk. revert l1' Heq. induction l1 as [|a l1 IH]; intros [|a' l1'] Heq.
  - naive_solver.
  - cbn in Heq. injection Heq as <- ->. cbn in Hs. apply sorted_cons in Hs as [Ha _].
    unfold above in Ha. rewrite Forall_forall in Ha. specialize (Ha e'). set_unfold in Ha.
    rewrite Hk in Ha. specialize (Ha ltac:(auto)). lia.
  - cbn in Heq. injection Heq as -> <-. cbn in Hs. apply sorted_cons in Hs as [Ha _].
    unfold above in Ha. rewrite Forall_forall in Ha. specialize (Ha e). set_unfold in Ha.
    rewrite Hk in Ha. specialize (Ha ltac:(auto)). lia.
  - cbn in Heq. injection Heq as <- Heq. cbn in Hs. apply sorted_cons in Hs as [_ Hs].
    destruct (IH Hs _ Heq) as (-> & -> & ->). done.
Qed.

Lemma lefts_below key ks cs :
  sorted (lefts ks cs) -> below key ks -> below key (lefts ks cs).
Proof.
  revert cs. induction ks as [|k ks IH]; intros [|c cs] Hs Hb; try done; cbn in *; [constructor|].
  apply Forall_cons_iff in Hb as [Hk Hb].
  apply sorted_mid in Hs as (Hs & Hc & _). apply sorted_app in Hs as (_ & Hs & _).
  apply Forall_app; split.
  - eapply Forall_impl; [exact Hc|]. cbn. lia.
  - constructor; [done|]. by apply IH.
Qed.

Lemma rights_above key ks cs :
  length ks = length cs ->
  sorted (rights ks cs) -> above key ks -> above key (rights ks cs).
Proof.
  destruct ks as [|k ks], cs as [|c cs]; cbn [length]; try done. intros _.
  rewrite rights_cons. intros [Ha _]%sorted_cons [Hk _]%Forall_cons_iff.
  constructor; [done|]. eapply Forall_impl; [exact Ha|]. cbn in *. lia.
Qed.

Lemma not_below key l : below key l -> key ∉ l.*1.
Proof.
  intros Hb ((k & d) & -> & Hin)%list_elem_of_fmap. unfold below in Hb.
  rewrite Forall_forall in Hb. specialize (Hb _ Hin). cbn in Hb. lia.
Qed.

Lemma not_above key l : above key l -> key ∉ l.*1.
Proof.
  intros Hb ((k & d) & -> & Hin)%list_elem_of_fmap. unfold above in Hb.
  rewrite Forall_forall in Hb. specialize (Hb _ Hin). cbn in Hb. lia.
Qed.

(** * Search *)

Lemma scan_up_spec key ks :
  sorted ks ->
  exists ks1 ks2, ks = ks1 ++ ks2 /\ scan_up key ks = length ks1 /\ below key ks1
    /\ (above key ks2 \/ exists e ks3, ks2 = e :: ks3 /\ e.1 = key).
Proof.
  induction ks as [|e ks IH]; intros Hs.
  - exists [], []. split_and!; [done..|constructor|left; constructor].
  - apply sorted_cons in Hs as [Ha Hs]. cbn [scan_up].
    destruct (Z.gtb_spec key e.1) as [Hgt|Hle].
    + destruct (IH Hs) as (ks1 & ks2 & -> & -> & Hb & Hr).
      exists (e :: ks1), ks2. split_and!; [done..|by constructor|done].
    + exists [], (e :: ks). split_and!; [done..|constructor|].
      destruct (decide (e.1 = key)); [right; eauto|left].
      constructor; [lia|]. eapply Forall_impl; [exact Ha|]. cbn. lia.
Qed.

Lemma inter_keys ks cs e :
  (cs = [] \/ length cs = S (length ks)) -> e ∈ ks -> e ∈ inter ks cs.
Proof.
  revert cs. induction ks as [|k ks IH]; intros [|c cs] Hl; cbn in *; [set_solver..|].
  destruct Hl as [|Hl]; [done|]. rewrite elem_of_app, !elem_of_cons. intros [->|He]; [auto|].
  right. right. apply IH; [right; lia|done].
Qed.

(** The keys of a node in order, from the order of its entries. *)
Lemma inter_sorted_keys ks cs :
  (cs = [] \/ length cs = S (length ks)) -> sorted (inter ks cs) -> sorted ks.
Proof.
  revert cs. induction ks as [|k ks IH]; intros cs Hl Hs; [constructor|].
  destruct cs as [|c cs]; [done|]. destruct Hl as [|Hl]; [done|]. cbn in Hl, Hs.
  apply sorted_mid in Hs as (Hs & _ & Ha). apply sorted_app in Hs as (_ & Hs & _).
  apply sorted_cons. split; [|apply (IH cs); [right; lia|done]].
  unfold above in *. rewrite Forall_forall in Ha |- *. intros e He.
  apply Ha, inter_keys; [right; lia|done].
Qed.

Lemma wf_sorted_keys h x : wf h x -> sorted (flatten x) -> sorted (keys x).
Proof.
  destruct x as [b ks cs]. rewrite flatten_node. intros Hwf. apply inter_sorted_keys.
  destruct h.
  - apply wf_leaf_inv in Hwf as (_ & _ & ->). by left.
  - apply wf_inner_inv in Hwf as (_ & _ & ? & _). by right.
Qed.

(** A child and the two halves of the node around it. *)
Lemma child_split h b ks1 ks2 cs :
  wf (S h) (Node b (ks1 ++ ks2) cs) ->
  exists cs1 c cs2, cs = cs1 ++ c :: cs2 /\ length cs1 = length ks1 /\ length cs2 = length ks2
    /\ wf h c /\ (1 <= n_keys c)%nat.
Proof.
  intros (_ & _ & Hl & Hcs)%wf_inner_inv. rewrite length_app in Hl.
  destruct (cs !! length ks1) as [c|] eqn:Hc; [|apply lookup_ge_None in Hc; lia].
  rewrite Forall_forall in Hcs.
  exists (take (length ks1) cs), c, (drop (S (length ks1)) cs).
  rewrite take_drop_middle by done. rewrite length_take, length_drop.
  assert (c ∈ cs) by (by eapply list_elem_of_lookup_2).
  split_and!; [done|lia|lia|by apply Hcs..].
Qed.

(** The bounds the neighbouring keys put on the rest of the node. *)
Lemma child_bounds key ks1 ks2 cs1 c cs2 :
  length ks1 = length cs1 -> length ks2 = length cs2 ->
  sorted (inter (ks1 ++ ks2) (cs1 ++ c :: cs2)) -> below key ks1 -> above key ks2 ->
  sorted (flatten c) /\ below key (lefts ks1 cs1) /\ above key (rights ks2 cs2).
Proof.
  intros Hl1 Hl2 Hs Hb Ha. rewrite inter_mid in Hs by done.
  apply sorted_app in Hs as (Hsl & Hs & _). apply sorted_app in Hs as (Hsc & Hsr & _).
  split_and!; [done|by apply lefts_below|by apply rights_above].
Qed.

Lemma lookup_mid {A} (l1 l2 : list A) (x : A) : (l1 ++ x :: l2) !! length l1 = Some x.
Proof. by apply list_lookup_middle. Qed.

Lemma sorted_unique l e key d :
  sorted l -> e ∈ l -> e.1 = key -> (key, d) ∈ l <-> e.2 = d.
Proof.
  intros Hs He Hk. split.
  - intros Hin. apply list_elem_of_split in He as (l1 & l2 & ->).
    apply list_elem_of_split in Hin as (l1' & l2' & Heq).
    destruct (sorted_place _ _ _ _ _ _ Hs Heq) as (_ & -> & _); done.
  - intros <-. destruct e; cbn in *. by subst.
Qed.

Lemma elem_mid l1 l2 l3 key (d : D) :
  below key l1 -> above key l3 -> (key, d) ∈ l1 ++ l2 ++ l3 <-> (key, d) ∈ l2.
Proof.
  intros Hb Ha. unfold below, above in *. rewrite Forall_forall in Hb, Ha.
  rewrite !elem_of_app. split; [|auto].
  intros [H|[H|H]]; [apply Hb in H; cbn in H; lia|done|apply Ha in H; cbn in H; lia].
Qed.

Lemma above_head key ks i e : above key ks -> ks !! i = Some e -> key <> e.1.
Proof.
  intros Ha He%list_elem_of_lookup_2. unfold above in Ha. rewrite Forall_forall in Ha.
  specialize (Ha _ He). cbn in Ha. lia.
Qed.

(** The scan for a key that the node does not hold stops at the child to
    descend into. *)
Lemma scan_miss key ks1 ks2 (r1 : entry -> option D) (r2 : option D) :
  above key ks2 ->
  match (ks1 ++ ks2) !! length ks1 with
  | Some e => if key =? e.1 then r1 e else r2
  | None => r2
  end = r2.
Proof.
  intros Ha. destruct (_ !! _) as [e|] eqn:He; [|done].
  rewrite lookup_app_r, Nat.sub_diag in He by lia.
  pose proof (above_head _ _ _ _ Ha He). by destruct (Z.eqb_spec key e.1).
Qed.

Lemma btree_search_rec_spec h x key d :
  wf h x -> sorted (flatten x) ->
  btree_search_rec h x key = Some d <-> (key, d) ∈ flatten x.
Proof.
  revert x. induction h as [|h IH]; intros [b ks cs] Hwf Hs;
    pose proof (wf_sorted_keys _ _ Hwf Hs) as Hks; cbn [keys] in Hks;
    destruct (scan_up_spec key ks Hks) as (ks1 & ks2 & -> & Hscan & Hb & Ha);
    rewrite flatten_node in Hs |- *; cbn [btree_search_rec keys is_leaf children];
    rewrite Hscan.
  - apply wf_leaf_inv in Hwf as (_ & -> & ->). destruct Ha as [Ha|(e & ks3 & -> & Hk)].
    + rewrite scan_miss by done. cbn [inter].
      rewrite <- (app_nil_l ks2), (elem_mid ks1 [] ks2) by done. set_solver.
    + rewrite lookup_mid, Hk, Z.eqb_refl, (sorted_unique _ e); [naive_solver|done|set_solver|done].
  - destruct Ha as [Ha|(e & ks3 & -> & Hk)].
    + rewrite scan_miss by done. destruct (child_split _ _ _ _ _ Hwf) as (cs1 & c & cs2 & -> & Hl1 & Hl2 & Hc & _).
      apply wf_inner_inv in Hwf as (_ & -> & _).
      destruct (child_bounds key ks1 ks2 cs1 c cs2) as (Hsc & Hbl & Har); [done..|].
      rewrite inter_mid, elem_mid by done. rewrite <- Hl1, lookup_mid. by apply IH.
    + rewrite lookup_mid, Hk, Z.eqb_refl, (sorted_unique _ e); [naive_solver|done| |done].
      apply inter_keys; [|set_solver]. apply wf_inner_inv in Hwf as (_ & _ & ? & _). by right.
Qed.

(** * Running the helpers *)

(** An entry as the memory object stores it: the key is the page number of the
    frame and fits the [int] the helpers pass it through. *)
Definition good (e : entry) : Prop := 0 <= e.1 < 2 ^ 31 /\ pf_pagenum e.2 = e.1.

Lemma good_key e : good e -> (u64 (s32 e.1), e.2) = e.
Proof. destruct e as [k d]. intros [Hk _]. cbn in *. by rewrite s32_id, u64_id by lia. Qed.

Lemma good_key_u64 e : good e -> u64 (s32 e.1) = e.1.
Proof. intros [Hk _]. by rewrite s32_id, u64_id by lia. Qed.

Lemma kassert_run {St} b (s : St) : b = true -> kassert b s = Done tt s.
Proof. by intros ->. Qed.

Lemma on_child_run {A} (m : M node A) b ks cs1 c cs2 a c' i :
  i = length cs1 -> m c = Done a c' ->
  on_child i m (Node b ks (cs1 ++ c :: cs2)) = Done a (Node b ks (cs1 ++ c' :: cs2)).
Proof.
  intros -> Hm. unfold on_child. cbn [children]. rewrite lookup_mid, Hm.
  unfold set_children. cbn [keys is_leaf]. rewrite insert_app_r_alt, Nat.sub_diag by lia. done.
Qed.

Lemma on_child_run_next {A} (m : M node A) b ks cs1 c0 c cs2 a c' i :
  i = (length cs1 + 1)%nat -> m c = Done a c' ->
  on_child i m (Node b ks (cs1 ++ c0 :: c :: cs2)) = Done a (Node b ks (cs1 ++ c0 :: c' :: cs2)).
Proof.
  intros -> Hm. rewrite !(cons_middle c0), !app_assoc. apply on_child_run; [|done].
  by rewrite length_app.
Qed.

Lemma pop_key_run b ks1 e ks2 cs i :
  i = length ks1 -> (length ks1 < 3)%nat ->
  btree_pop_key i (Node b (ks1 ++ e :: ks2) cs) = Done (s32 e.1, e.2) (Node b (ks1 ++ ks2) cs).
Proof.
  intros -> Hlt. unfold btree_pop_key.
  rewrite (run_bind _ _ _ tt (Node b (ks1 ++ e :: ks2) cs)) by (apply kassert_run; by apply Nat.ltb_lt).
  unfold bind, get, kassert, n_keys. cbn [keys]. rewrite length_app. cbn [length].
  rewrite (proj2 (Nat.ltb_lt (length ks1) _)), (proj2 (Nat.ltb_lt 0 _)) by lia. cbn.
  rewrite lookup_mid. cbn. unfold set_keys. cbn. do 2 f_equal. apply delete_middle.
Qed.

Lemma append_key_run b ks cs k d :
  (length ks < 3)%nat ->
  btree_append_key k d (Node b ks cs) = Done tt (Node b (ks ++ [(u64 k, d)]) cs).
Proof.
  intros Hlt. unfold btree_append_key, bind, get, kassert, n_keys. cbn [keys].
  by rewrite (proj2 (Nat.ltb_lt _ _)).
Qed.

Lemma insert_key_run b ks1 ks2 cs k d i :
  i = length ks1 -> (length (ks1 ++ ks2) < 3)%nat ->
  btree_insert_key k i d (Node b (ks1 ++ ks2) cs) =
  Done tt (Node b (ks1 ++ (u64 k, d) :: ks2) cs).
Proof.
  intros -> Hlt. unfold btree_insert_key, bind, get, kassert, n_keys. cbn [keys].
  rewrite (proj2 (Nat.ltb_lt _ MAX_KEYS)) by done. unfold ret. cbn beta iota.
  rewrite (proj2 (Nat.ltb_ge _ _)) by (rewrite length_app; lia).
  unfold put, set_keys. cbn. by rewrite take_app_length, drop_app_length.
Qed.

Lemma pop_child_run b ks cs1 c cs2 i :
  i = length cs1 -> (length cs1 < 4)%nat ->
  btree_pop_child i (Node b ks (cs1 ++ c :: cs2)) = Done c (Node b ks (cs1 ++ cs2)).
Proof.
  intros -> Hlt. unfold btree_pop_child.
  rewrite (run_bind _ _ _ tt (Node b ks (cs1 ++ c :: cs2))) by (apply kassert_run; by apply Nat.ltb_lt).
  unfold bind, get, kassert, n_children. cbn [children]. rewrite length_app. cbn [length].
  rewrite (proj2 (Nat.ltb_lt (length cs1) _)), (proj2 (Nat.ltb_lt 0 _)) by lia. cbn.
  rewrite lookup_mid. cbn. unfold set_children. cbn. do 2 f_equal. apply delete_middle.
Qed.

Lemma append_child_run b ks cs c :
  (length cs < 4)%nat ->
  btree_append_child c (Node b ks cs) = Done tt (Node false ks (cs ++ [c])).
Proof.
  intros Hlt. unfold btree_append_child, bind, get, kassert, n_children. cbn [children].
  by rewrite (proj2 (Nat.ltb_lt _ _)).
Qed.

Lemma insert_child_run b ks cs1 cs2 c i :
  i = length cs1 -> (length (cs1 ++ cs2) < 4)%nat ->
  btree_insert_child c i (Node b ks (cs1 ++ cs2)) =
  Done tt (Node false ks (cs1 ++ c :: cs2)).
Proof.
  intros -> Hlt. unfold btree_insert_child, bind, get, kassert, n_children. cbn [children].
  rewrite (proj2 (Nat.ltb_lt _ MAX_CHILDREN)) by done. unfold ret. cbn beta iota.
  rewrite (proj2 (Nat.ltb_ge _ _)) by (rewrite length_app; lia).
  unfold put, set_leaf, set_children. cbn. by rewrite take_app_length, drop_app_length.
Qed.

(** One call of a helper on the node or on a child. *)
Ltac brun tac := erewrite run_bind; [|solve [tac]]; cbn beta iota.

(** ** Splitting a full child *)

Lemma three_keys c : n_keys c = 3%nat -> exists e1 e2 e3, keys c = [e1; e2; e3].
Proof.
  destruct c as [b [|e1 [|e2 [|e3 [|]]]] cs]; unfold n_keys; cbn; try lia. eauto.
Qed.

Lemma wf_children_cut h b e1 e2 e3 cs :
  wf h (Node b [e1; e2; e3] cs) ->
  (b = true /\ cs = [] /\ h = 0%nat) \/
  (b = false /\ exists a1 a2 a3 a4, cs = [a1; a2; a3; a4]).
Proof.
  destruct h; [intros (_ & -> & ->)%wf_leaf_inv; by left|].
  intros (_ & -> & Hl & _)%wf_inner_inv. right. split; [done|].
  destruct cs as [|a1 [|a2 [|a3 [|a4 [|]]]]]; cbn in Hl; try lia. eauto.
Qed.

Lemma btree_split_child_run h ks1 ks2 cs1 c cs2 i :
  oom = false -> i = length cs1 -> length ks1 = length cs1 ->
  (length (ks1 ++ ks2) < 3)%nat -> (length (cs1 ++ cs2) < 3)%nat ->
  wf h c -> n_keys c = 3%nat -> Forall good (keys c) ->
  exists c1 e c2,
    btree_split_child i (Node false (ks1 ++ ks2) (cs1 ++ c :: cs2)) =
      Done tt (Node false (ks1 ++ e :: ks2) (cs1 ++ c1 :: c2 :: cs2))
    /\ wf h c1 /\ wf h c2 /\ n_keys c1 = 1%nat /\ n_keys c2 = 1%nat
    /\ flatten c = flatten c1 ++ e :: flatten c2.
Proof.
  intros Hoom -> Hlk Hks Hcs Hwf Hn Hg. rewrite length_app in Hcs.
  destruct (three_keys c Hn) as (e1 & e2 & e3 & Hk). destruct c as [b kc cc].
  cbn [keys] in Hk, Hg. subst kc.
  apply Forall_cons_iff in Hg as [_ Hg]. apply Forall_cons_iff in Hg as [Hg2 Hg].
  apply Forall_cons_iff in Hg as [Hg3 _].
  exists (Node b [e1] (take 2 cc)), e2, (Node b [e3] (drop 2 cc)).
  split.
  - unfold btree_split_child. rewrite <- (good_key e2) at 2 by done.
    rewrite <- (good_key e3) at 2 by done.
    brun ltac:(apply kassert_run, Nat.ltb_lt; cbn; lia).
    brun ltac:(apply on_child_run; [done|reflexivity]).
    brun ltac:(apply kassert_run; reflexivity).
    brun ltac:(apply on_child_run; [done|reflexivity]).
    unfold btree_node_create. rewrite Hoom. cbn [deref].
    brun ltac:(reflexivity).
    rewrite (cons_middle _ cs1), app_assoc.
    brun ltac:(apply insert_child_run; rewrite !length_app; cbn; lia).
    rewrite <- app_assoc. cbn [app].
    brun ltac:(apply on_child_run; [done|]; apply (pop_key_run _ [e1]); [done|cbn; lia]).
    cbn [fst snd app].
    brun ltac:(apply insert_key_run; done).
    cbn [seq BRANCHING_FACTOR MAX_KEYS Nat.mul Nat.sub Nat.add for_each].
    unfold set_leaf. cbn [keys children].
    brun ltac:(
      brun ltac:(
        brun ltac:(apply on_child_run; [done|]; apply (pop_key_run _ [e1]); [done|cbn; lia]);
        apply on_child_run_next; [done|]; apply append_key_run; cbn; lia);
      reflexivity).
    cbn [app fst snd is_leaf].
    destruct (wf_children_cut _ _ _ _ _ _ Hwf) as [(-> & -> & _)|(-> & a1 & a2 & a3 & a4 & ->)];
      [done|].
    do 2 brun ltac:(
      brun ltac:(apply on_child_run; [done|]; apply (pop_child_run _ _ [a1; a2]); [done|cbn; lia]);
      apply on_child_run_next; [done|]; apply append_child_run; cbn; lia).
    done.
  - destruct (wf_children_cut _ _ _ _ _ _ Hwf) as [(-> & -> & ->)|(-> & a1 & a2 & a3 & a4 & ->)].
    + rewrite !wf_leaf. cbn. split_and!; (done || lia).
    + destruct h; [apply wf_leaf_inv in Hwf as (_ & ? & _); done|].
      apply wf_inner_inv in Hwf as (_ & _ & _ & Hcc).
      repeat (apply Forall_cons_iff in Hcc as [? Hcc]).
      cbn [take drop]. rewrite !wf_inner.
      split_and!; try (done || (cbn; lia) || (repeat constructor; tauto)).
      rewrite !flatten_node. apply (inter_join [e1] e2 [e3] [a1; a2] [a3; a4]). done.
Qed.

(** ** Insertion *)

Lemma keys_flatten (P : entry -> Prop) h x : wf h x -> Forall P (flatten x) -> Forall P (keys x).
Proof.
  destruct x as [b ks cs]. rewrite flatten_node, !Forall_forall. cbn [keys]. intros Hwf HP e He.
  apply HP, inter_keys; [|done]. destruct h.
  - apply wf_leaf_inv in Hwf as (_ & _ & ->). by left.
  - apply wf_inner_inv in Hwf as (_ & _ & ? & _). by right.
Qed.

Lemma scan_down_bounds k ks n :
  (n <= length ks)%nat -> above k (drop n ks) ->
  let i := scan_down k ks n in
  (i <= length ks)%nat /\ above k (drop i ks)
  /\ (i = 0%nat \/ exists e, ks !! (i - 1)%nat = Some e /\ e.1 <= k).
Proof.
  induction n as [|n IH]; intros Hn Ha; [cbn; auto with lia|].
  cbn [scan_down]. destruct (ks !! n) as [e|] eqn:He; [|apply lookup_ge_None in He; lia].
  destruct (Z.ltb_spec k e.1).
  - apply IH; [lia|]. rewrite (drop_S _ e) by done. by constructor.
  - split_and!; [lia|done|]. right. exists e. by rewrite Nat.sub_1_r.
Qed.

Lemma scan_down_spec k ks :
  sorted ks -> k ∉ ks.*1 ->
  exists ks1 ks2, ks = ks1 ++ ks2 /\ scan_down k ks (length ks) = length ks1
    /\ below k ks1 /\ above k ks2.
Proof.
  intros Hs Hk. destruct (scan_down_bounds k ks (length ks)) as (Hi & Ha & Hlast);
    [lia|rewrite drop_all; constructor|].
  set (i := scan_down k ks (length ks)) in *. exists (take i ks), (drop i ks).
  rewrite take_drop, length_take, Nat.min_l by lia. split_and!; [done..| |done].
  destruct Hlast as [->|(e & He & Hle)]; [constructor|].
  assert (Hi0 : i <> 0%nat).
  { intros Hi0. rewrite Hi0 in Ha, He. cbn in He, Ha. rewrite drop_0 in Ha.
    pose proof (above_head _ _ _ _ Ha He). unfold above in Ha.
    apply (Forall_lookup_1 _ _ _ _ Ha) in He. lia. }
  assert (Hne : e.1 <> k).
  { intros <-. apply Hk, list_elem_of_fmap. exists e. split; [done|].
    by eapply list_elem_of_lookup_2. }
  replace i with (S (i - 1)) by lia. rewrite (take_S_r _ _ e) by done.
  rewrite <- (take_drop_middle ks (i - 1) e) in Hs by done.
  apply sorted_mid in Hs as (_ & Hb & _).
  apply Forall_app; split; [|by repeat constructor; cbn; lia].
  eapply Forall_impl; [exact Hb|]. cbn. lia.
Qed.

Definition inserted (e : entry) (l l' : list entry) : Prop :=
  exists l1 l2, l = l1 ++ l2 /\ l' = l1 ++ e :: l2 /\ below e.1 l1 /\ above e.1 l2.

Lemma inserted_mid e l1 l l' l2 :
  below e.1 l1 -> above e.1 l2 -> inserted e l l' -> inserted e (l1 ++ l ++ l2) (l1 ++ l' ++ l2).
Proof.
  intros Hb Ha (m1 & m2 & -> & -> & ? & ?). exists (l1 ++ m1), (m2 ++ l2).
  rewrite <- !app_assoc. split_and!; [done..|by apply Forall_app|by apply Forall_app].
Qed.

(** Replacing a child of a node by one of the same height. *)
Lemma wf_replace h b ks cs1 c cs2 c' :
  wf (S h) (Node b ks (cs1 ++ c :: cs2)) -> wf h c' -> (1 <= n_keys c')%nat ->
  wf (S h) (Node b ks (cs1 ++ c' :: cs2)).
Proof.
  rewrite !wf_inner, !length_app. cbn. rewrite !Forall_app, !Forall_cons_iff. tauto.
Qed.

Lemma insert_descend h ks1 ks2 cs1 c cs2 k d (m : M node unit) c' :
  wf (S h) (Node false (ks1 ++ ks2) (cs1 ++ c :: cs2)) ->
  length ks1 = length cs1 -> below k (lefts ks1 cs1) -> above k (rights ks2 cs2) ->
  m c = Done tt c' -> wf h c' -> (n_keys c <= n_keys c')%nat ->
  inserted (k, d) (flatten c) (flatten c') ->
  exists x', on_child (length cs1) m (Node false (ks1 ++ ks2) (cs1 ++ c :: cs2)) = Done tt x'
    /\ wf (S h) x' /\ n_keys x' = length (ks1 ++ ks2)
    /\ inserted (k, d) (inter (ks1 ++ ks2) (cs1 ++ c :: cs2)) (flatten x').
Proof.
  intros Hwf Hl Hb Ha Hm Hc' Hn Hins.
  exists (Node false (ks1 ++ ks2) (cs1 ++ c' :: cs2)). split_and!.
  - by apply on_child_run.
  - eapply wf_replace; [done..|]. apply wf_inner_inv in Hwf as (_ & _ & _ & Hcs).
    apply Forall_app in Hcs as [_ Hcs]. apply Forall_cons_iff in Hcs as [[_ ?] _]. lia.
  - done.
  - rewrite flatten_node, !inter_mid by done. by apply inserted_mid.
Qed.

Lemma below_app k l1 l2 : below k (l1 ++ l2) <-> below k l1 /\ below k l2.
Proof. apply Forall_app. Qed.

Lemma above_app k l1 l2 : above k (l1 ++ l2) <-> above k l1 /\ above k l2.
Proof. apply Forall_app. Qed.

Lemma below_trans k k' l : below k l -> k <= k' -> below k' l.
Proof. intros Hb ?. eapply Forall_impl; [exact Hb|]. cbn. lia. Qed.

Lemma above_trans k k' l : above k l -> k' <= k -> above k' l.
Proof. intros Hb ?. eapply Forall_impl; [exact Hb|]. cbn. lia. Qed.

(** The node after a split, and the choice of the half to descend into. *)
Lemma split_wf h ks1 ks2 cs1 c cs2 c1 e c2 :
  wf (S h) (Node false (ks1 ++ ks2) (cs1 ++ c :: cs2)) -> (length (ks1 ++ ks2) < 3)%nat ->
  wf h c1 -> wf h c2 -> n_keys c1 = 1%nat -> n_keys c2 = 1%nat ->
  wf (S h) (Node false (ks1 ++ e :: ks2) (cs1 ++ c1 :: c2 :: cs2)).
Proof.
  rewrite !wf_inner, !Forall_app, !Forall_cons_iff, !length_app. cbn.
  intros (? & ? & ? & ? & ? & ?) ? ? ? -> ->. split_and!; (done || lia).
Qed.

(** What insertion into a node of height [h] does. *)
Definition insert_ok (h : nat) : Prop := forall x k d,
  wf h x -> (n_keys x < 3)%nat -> Forall good (flatten x) ->
  sorted (flatten x) -> k ∉ (flatten x).*1 ->
  exists x', btree_insert_nonfull h k d x = Done tt x' /\ wf h x' /\ (n_keys x <= n_keys x')%nat
    /\ inserted (k, d) (flatten x) (flatten x').

Lemma scan_down_node h b ks cs k :
  wf h (Node b ks cs) -> sorted (inter ks cs) -> k ∉ (inter ks cs).*1 ->
  exists ks1 ks2, ks = ks1 ++ ks2 /\ scan_down k ks (length ks) = length ks1
    /\ below k ks1 /\ above k ks2.
Proof.
  rewrite <- (flatten_node b). intros Hwf Hs Hk. apply scan_down_spec.
  - by eapply (wf_sorted_keys h (Node b ks cs)).
  - intros (e & -> & He)%list_elem_of_fmap. apply Hk, list_elem_of_fmap. exists e. split; [done|].
    pose proof (keys_flatten (fun e => e ∈ flatten (Node b ks cs)) _ _ Hwf) as Hin.
    rewrite !Forall_forall in Hin. by apply Hin.
Qed.

Lemma insert_ok_leaf : insert_ok 0.
Proof.
  intros [b ks cs] k d Hwf Hn Hg Hs Hk. rewrite flatten_node in *. unfold n_keys in Hn. cbn [keys] in Hn.
  destruct (scan_down_node _ _ _ _ k Hwf Hs Hk) as (ks1 & ks2 & -> & Hi & Hb & Ha).
  apply wf_leaf_inv in Hwf as (_ & -> & ->).
  cbn [btree_insert_nonfull]. brun ltac:(reflexivity). cbn [keys is_leaf]. unfold n_keys. cbn [keys].
  rewrite Hi, (proj2 (Nat.leb_gt _ _)), take_app_length, drop_app_length by done.
  eexists. split; [done|]. unfold set_keys. cbn [is_leaf keys children].
  rewrite wf_leaf, flatten_node. cbn [inter]. rewrite !length_app in *. cbn.
  split_and!; try (done || lia). by exists ks1, ks2.
Qed.

(** Descent into one of the halves of the child that was split. *)
Lemma insert_split_child h ks1 ks2 cs1 c1 e c2 cs2 k d :
  insert_ok h ->
  wf (S h) (Node false (ks1 ++ e :: ks2) (cs1 ++ c1 :: c2 :: cs2)) ->
  length ks1 = length cs1 -> n_keys c1 = 1%nat -> n_keys c2 = 1%nat ->
  Forall good (flatten c1 ++ e :: flatten c2) -> sorted (flatten c1 ++ e :: flatten c2) ->
  k ∉ (flatten c1 ++ e :: flatten c2).*1 ->
  below k (lefts ks1 cs1) -> above k (rights ks2 cs2) -> wf h c1 -> wf h c2 ->
  exists x',
    on_child (if k >? e.1 then S (length cs1) else length cs1) (btree_insert_nonfull h k d)
      (Node false (ks1 ++ e :: ks2) (cs1 ++ c1 :: c2 :: cs2)) = Done tt x'
    /\ wf (S h) x' /\ n_keys x' = length (ks1 ++ e :: ks2)
    /\ inserted (k, d) (inter (ks1 ++ e :: ks2) (cs1 ++ c1 :: c2 :: cs2)) (flatten x').
Proof.
  intros IH Hwf Hl Hn1 Hn2 Hg Hs Hk Hbl Har Hw1 Hw2.
  apply Forall_app in Hg as [Hg1 Hg2]. apply Forall_cons_iff in Hg2 as [_ Hg2].
  apply sorted_mid in Hs as (Hs & Hb1 & Ha2). apply sorted_app in Hs as (Hs1 & Hs2 & _).
  rewrite fmap_app, elem_of_app, fmap_cons, elem_of_cons in Hk.
  destruct (Z.gtb_spec k e.1) as [Hke|Hke].
  - destruct (IH c2 k d) as (c' & Hrun & Hwc & Hnc & Hins); [done|lia|done|done|tauto|].
    rewrite (cons_middle e ks1), (cons_middle c1 cs1), !app_assoc in Hwf |- *.
    replace (S (length cs1)) with (length (cs1 ++ [c1])) by (rewrite length_app; cbn; lia).
    eapply insert_descend; try done; [rewrite !length_app; cbn; lia|].
    rewrite lefts_snoc, !below_app by done. split_and!; [done| |].
    + eapply below_trans; [exact Hb1|lia].
    + repeat constructor. lia.
  - destruct (IH c1 k d) as (c' & Hrun & Hwc & Hnc & Hins); [done|lia|done|done|tauto|].
    eapply insert_descend; try done.
    rewrite rights_cons. constructor; [|apply above_app; split; [|done]].
    + assert (k <> e.1) by tauto. lia.
    + eapply above_trans; [exact Ha2|lia].
Qed.

Lemma insert_ok_inner h : oom = false -> insert_ok h -> insert_ok (S h).
Proof.
  intros Hoom IH [b ks cs] k d Hwf Hn Hg Hs Hk. rewrite flatten_node in *.
  unfold n_keys in Hn |- *. cbn [keys] in Hn |- *.
  destruct (scan_down_node _ _ _ _ k Hwf Hs Hk) as (ks1 & ks2 & -> & Hi & Hb & Ha).
  destruct (child_split _ _ _ _ _ Hwf) as (cs1 & c & cs2 & -> & Hl1 & Hl2 & Hc & Hc1).
  destruct (child_bounds k ks1 ks2 cs1 c cs2) as (Hsc & Hbl & Har); [done..|].
  pose proof (wf_inner_inv _ _ _ _ Hwf) as (_ & -> & Hlc & _).
  pose proof Hg as Hgc. rewrite inter_mid in Hgc by done.
  apply Forall_app in Hgc as [_ Hgc]. apply Forall_app in Hgc as [Hgc _].
  assert (Hkc : k ∉ (flatten c).*1).
  { rewrite inter_mid, !fmap_app, !elem_of_app in Hk by done. tauto. }
  cbn [btree_insert_nonfull]. brun ltac:(reflexivity). cbn [keys is_leaf].
  change (n_keys (Node false (ks1 ++ ks2) (cs1 ++ c :: cs2))) with (length (ks1 ++ ks2)).
  rewrite Hi, <- Hl1. brun ltac:(apply on_child_run; [done|reflexivity]).
  destruct (Nat.eqb_spec (n_keys c) MAX_KEYS) as [Hfull|Hfull].
  - destruct (btree_split_child_run h ks1 ks2 cs1 c cs2 (length cs1))
      as (c1 & e & c2 & Hrun & Hw1 & Hw2 & Hn1 & Hn2 & Hfl); try done.
    { rewrite !length_app in *. cbn in *. lia. }
    { by eapply keys_flatten. }
    assert (Hkey : (ks1 ++ e :: ks2) !! length cs1 = Some e) by (rewrite Hl1; apply lookup_mid).
    brun ltac:(brun ltac:(exact Hrun); brun ltac:(reflexivity); cbn [keys]; rewrite Hkey; reflexivity).
    rewrite Hfl in Hgc, Hsc, Hkc.
    destruct (insert_split_child h ks1 ks2 cs1 c1 e c2 cs2 k d) as (x' & Hx & Hwx & Hnx & Hix);
      try done; [by eapply split_wf|].
    exists x'. rewrite Hx. split_and!; [done..| |].
    + unfold n_keys in Hnx. rewrite Hnx, !length_app. cbn. lia.
    + rewrite inter_mid, Hfl by done. rewrite inter_mid, rights_cons in Hix by done.
      by rewrite <- !app_assoc in *.
  - brun ltac:(reflexivity).
    assert (n_keys c <> 3%nat) by done. pose proof (wf_keys_le _ _ Hc).
    destruct (IH c k d) as (c' & Hrun & Hwc & Hnc & Hins); [done|lia|done..|].
    destruct (insert_descend h ks1 ks2 cs1 c cs2 k d (btree_insert_nonfull h k d) c')
      as (x' & Hx & Hwx & Hnx & Hix); try done.
    exists x'. rewrite Hx. split_and!; [done..| |done]. unfold n_keys in Hnx. lia.
Qed.

Lemma insert_ok_all h : oom = false -> insert_ok h.
Proof. intros. induction h; [apply insert_ok_leaf|by apply insert_ok_inner]. Qed.

(** ** Rebalancing before a deletion *)

Lemma snoc_of {A} (l : list A) : (0 < length l)%nat -> exists (l' : list A) a, l = l' ++ [a].
Proof. destruct l as [|a l] using rev_ind; [cbn; lia|eauto]. Qed.

Lemma pred32_small n : (1 <= n <= 4)%nat -> pred32 n = Z.of_nat n - 1.
Proof. intros. unfold pred32. apply u32_id. lia. Qed.

(** Node [s] with its last child and key apart. *)
Lemma wf_last h b ks e cs :
  wf h (Node b (ks ++ [e]) cs) -> (1 <= length ks)%nat ->
  (h = 0%nat /\ b = true /\ cs = []) \/
  (b = false /\ exists cs' a h', h = S h' /\ cs = cs' ++ [a] /\ length cs' = S (length ks)
     /\ wf h (Node b ks cs') /\ wf h' a /\ (1 <= n_keys a)%nat).
Proof.
  destruct h as [|h]; [intros (_ & -> & ->)%wf_leaf_inv; by left|].
  intros (? & -> & Hl & Hcs)%wf_inner_inv Hk. right. split; [done|].
  rewrite length_app in *. cbn in *.
  destruct (snoc_of cs) as (cs' & a & ->); [lia|]. rewrite length_app in Hl. cbn in Hl.
  apply Forall_app in Hcs as [Hcs Ha]. apply Forall_cons_iff in Ha as [[Ha ?] _].
  exists cs', a, h. split_and!; try (done || lia). 
Qed.

Definition rotated h (s : node) (e : entry) (c s' : node) (e' : entry) (c' : node) : Prop :=
  wf h s' /\ wf h c' /\ (1 <= n_keys s')%nat /\ (1 <= n_keys c')%nat
  /\ flatten s ++ e :: flatten c = flatten s' ++ e' :: flatten c'.

Lemma btree_take_prev_run h ks1 e ks2 cs1 s c cs2 i :
  i = S (length cs1) -> length ks1 = length cs1 -> (length (ks1 ++ e :: ks2) <= 3)%nat ->
  wf h s -> wf h c -> (2 <= n_keys s)%nat -> (n_keys c < 3)%nat ->
  Forall good (keys s) -> good e ->
  exists s' e' c',
    btree_take_prev i (Node false (ks1 ++ e :: ks2) (cs1 ++ s :: c :: cs2)) =
      Done tt (Node false (ks1 ++ e' :: ks2) (cs1 ++ s' :: c' :: cs2))
    /\ rotated h s e c s' e' c' /\ n_keys c' = S (n_keys c)
    /\ (forall a, a ∈ flatten c -> a ∈ flatten c').
Proof.
  intros -> Hl Hlen Hs Hc Hns Hnc Hgs Hge. rewrite length_app in Hlen. cbn in Hlen.
  pose proof (wf_keys_le _ _ Hs) as Hns3.
  destruct s as [bs kss css], c as [bc ksc csc]. unfold n_keys in *. cbn [keys] in *.
  destruct (snoc_of kss) as (kss' & e' & ->); [lia|].
  rewrite length_app in Hns, Hns3. cbn in Hns, Hns3.
  apply Forall_app in Hgs as [_ Hge']. apply Forall_cons_iff in Hge' as [Hge' _].
  assert (Hrun : forall css' x csc', 
    (bc = true /\ css' = css /\ csc' = csc \/ bc = false /\ css = css' ++ [x] /\ csc' = x :: csc
       /\ (length css <= 4)%nat /\ (length csc < 4)%nat) ->
    btree_take_prev (S (length cs1))
      (Node false (ks1 ++ e :: ks2) (cs1 ++ Node bs (kss' ++ [e']) css :: Node bc ksc csc :: cs2)) =
    Done tt (Node false (ks1 ++ e' :: ks2) (cs1 ++ Node bs kss' css' :: Node bc (e :: ksc) csc' :: cs2))).
  { intros css' x csc' Hcase. unfold btree_take_prev.
    replace (S (length cs1)) with (length cs1 + 1)%nat by lia.
    brun ltac:(apply kassert_run, Nat.ltb_lt; lia).
    rewrite Nat.add_sub. brun ltac:(apply pop_key_run; [done|lia]). cbn [fst snd].
    brun ltac:(apply on_child_run_next; [done|]; apply (insert_key_run _ [] ksc); [done|cbn; lia]).
    brun ltac:(apply on_child_run_next; [done|reflexivity]). cbn [is_leaf].
    rewrite good_key by done.
    rewrite (run_bind _ _ _ tt (Node false (ks1 ++ ks2)
      (cs1 ++ Node bs (kss' ++ [e']) css' :: Node bc (e :: ksc) csc' :: cs2))).
    2:{ destruct Hcase as [(-> & -> & ->)|(-> & -> & -> & Hl1 & Hl2)]; [reflexivity|].
        rewrite length_app in Hl1. cbn in Hl1.
        brun ltac:(apply on_child_run; [done|reflexivity]).
        unfold n_children. cbn [children]. rewrite length_app. cbn [length]. rewrite Nat.add_sub.
        brun ltac:(apply on_child_run; [done|]; apply pop_child_run; [done|lia]).
        rewrite app_nil_r.
        apply on_child_run_next; [done|]. apply (insert_child_run _ _ [] csc); [done|cbn; lia]. }
    brun ltac:(apply on_child_run; [done|reflexivity]).
    unfold n_keys. cbn [keys]. rewrite length_app. cbn [length]. rewrite Nat.add_sub.
    brun ltac:(apply on_child_run; [done|]; apply pop_key_run; [done|lia]).
    rewrite app_nil_r. cbn [fst snd].
    rewrite insert_key_run by (rewrite ?length_app; lia). by rewrite good_key. }
  destruct (wf_last _ _ _ _ _ Hs) as [(-> & -> & ->)|(-> & cs' & a & h' & -> & -> & Hl' & Hw & Ha & Hna)];
    [lia|..].
  - apply wf_leaf_inv in Hc as (? & -> & ->).
    eexists _, _, _. split; [apply (Hrun [] (Node true [] [])); by left|].
    unfold rotated, n_keys. rewrite !wf_leaf, !flatten_node. cbn [inter keys length].
    rewrite <- app_assoc. apply wf_leaf_inv in Hs as (Hs & _). rewrite length_app in Hs.
    cbn in Hs. split_and!; (done || lia || set_solver).
  - apply wf_inner_inv in Hc as (? & -> & Hlc & Hcc).
    apply wf_inner_inv in Hs as (Hs & _ & Hls & Hcs). rewrite length_app in Hs, Hls. cbn in Hs, Hls.
    eexists _, _, _. split; [apply (Hrun cs' a); right; rewrite length_app in *; cbn in *; split_and!; (done || lia)|].
    unfold rotated, n_keys. rewrite !flatten_node. cbn [keys length].
    rewrite (inter_join kss' e' [] cs' [a]) by done. cbn [inter]. rewrite !app_nil_r, <- !app_assoc.
    rewrite (wf_inner h' _ (e :: ksc)). cbn [length].
    split_and!; try (done || lia); [by constructor|set_solver].
Qed.

Lemma btree_take_next_run h ks1 e ks2 cs1 c s cs2 i :
  i = length cs1 -> length ks1 = length cs1 -> (length (ks1 ++ e :: ks2) <= 3)%nat ->
  length cs2 = length ks2 ->
  wf h c -> wf h s -> (2 <= n_keys s)%nat -> (1 <= n_keys c < 3)%nat ->
  Forall good (keys s) -> good e ->
  exists c' e' s',
    btree_take_next i (Node false (ks1 ++ e :: ks2) (cs1 ++ c :: s :: cs2)) =
      Done tt (Node false (ks1 ++ e' :: ks2) (cs1 ++ c' :: s' :: cs2))
    /\ rotated h c e s c' e' s' /\ n_keys c' = S (n_keys c)
    /\ (forall a, a ∈ flatten c -> a ∈ flatten c').
Proof.
  intros -> Hl Hlen Hl2 Hc Hs Hns Hnc Hgs Hge. rewrite length_app in Hlen. cbn in Hlen.
  pose proof (wf_keys_le _ _ Hs) as Hns3.
  destruct s as [bs kss css], c as [bc ksc csc]. unfold n_keys in *. cbn [keys] in *.
  destruct kss as [|e' kss]; [cbn in *; lia|]. cbn in Hns, Hns3.
  apply Forall_cons_iff in Hgs as [Hge' _].
  assert (Hrun : forall css' x csc',
    (bc = true /\ css' = css /\ csc' = csc \/ bc = false /\ css = x :: css' /\ csc' = csc ++ [x]
       /\ (length csc < 4)%nat) ->
    btree_take_next (length cs1)
      (Node false (ks1 ++ e :: ks2) (cs1 ++ Node bc ksc csc :: Node bs (e' :: kss) css :: cs2)) =
    Done tt (Node false (ks1 ++ e' :: ks2)
      (cs1 ++ Node bc (ksc ++ [e]) csc' :: Node bs kss css' :: cs2))).
  { intros css' x csc' Hcase. unfold btree_take_next. brun ltac:(reflexivity).
    unfold n_children. cbn [children]. rewrite length_app. cbn [length].
    rewrite pred32_small by lia.
    brun ltac:(apply kassert_run, Z.ltb_lt; lia).
    brun ltac:(apply pop_key_run; [done|lia]). cbn [fst snd].
    brun ltac:(apply on_child_run; [done|]; apply append_key_run; lia).
    brun ltac:(apply on_child_run; [done|reflexivity]). cbn [is_leaf].
    rewrite good_key by done.
    rewrite (run_bind _ _ _ tt (Node false (ks1 ++ ks2)
      (cs1 ++ Node bc (ksc ++ [e]) csc' :: Node bs (e' :: kss) css' :: cs2))).
    2:{ destruct Hcase as [(-> & -> & ->)|(-> & -> & -> & Hlc)]; [reflexivity|].
        brun ltac:(apply on_child_run_next; [done|]; apply (pop_child_run _ _ []); [done|cbn; lia]).
        apply on_child_run; [done|]. apply append_child_run. lia. }
    brun ltac:(apply on_child_run_next; [done|]; apply (pop_key_run _ []); [done|cbn; lia]).
    cbn [fst snd app]. rewrite insert_key_run by (rewrite ?length_app; lia). by rewrite good_key. }
  destruct h as [|h].
  - apply wf_leaf_inv in Hc as (? & -> & ->), Hs as (Hs & -> & ->).
    eexists _, _, _. split; [apply (Hrun [] (Node true [] [])); by left|].
    unfold rotated, n_keys. rewrite !wf_leaf, !flatten_node. cbn [inter keys length].
    rewrite <- app_assoc, length_app. cbn. split_and!; (done || lia || set_solver).
  - apply wf_inner_inv in Hc as (? & -> & Hlc & Hcc).
    apply wf_inner_inv in Hs as (Hs & -> & Hls & Hcs). cbn in Hls.
    destruct css as [|a css]; [done|]. cbn in Hls.
    apply Forall_cons_iff in Hcs as [[Ha Hna] Hcs].
    eexists _, _, _. split; [apply (Hrun css a); right; split_and!; (done || lia)|].
    unfold rotated, n_keys. rewrite !flatten_node, !wf_inner. cbn [keys].
    rewrite (inter_join ksc e [] csc [a]), !length_app, Forall_app, Forall_singleton by done.
    cbn [inter length]. rewrite app_nil_r, <- app_assoc.
    split_and!; (done || lia || set_solver).
Qed.

Lemma append_keys_run b ks cs l cs1 cs2 bx kx :
  (length ks + length l <= 3)%nat -> Forall good l ->
  for_each l (fun kd => on_child (length cs1) (btree_append_key (s32 kd.1) kd.2))
    (Node bx kx (cs1 ++ Node b ks cs :: cs2)) =
  Done tt (Node bx kx (cs1 ++ Node b (ks ++ l) cs :: cs2)).
Proof.
  revert ks. induction l as [|e l IH]; intros ks Hlen Hg; cbn [for_each]; [by rewrite app_nil_r|].
  apply Forall_cons_iff in Hg as [He Hg]. cbn in Hlen.
  brun ltac:(apply on_child_run; [done|]; apply append_key_run; lia).
  rewrite good_key, IH, <- app_assoc by (done || (rewrite length_app; cbn; lia)). done.
Qed.

Lemma append_children_run b ks cs s cs1 cs2 bx kx j n :
  (length cs + n <= 4)%nat -> length (children s) = (j + n)%nat ->
  for_each (seq j n) (fun j =>
      let! c := deref (children s !! j) in on_child (length cs1) (btree_append_child c))
    (Node bx kx (cs1 ++ Node b ks cs :: cs2)) =
  Done tt (Node bx kx (cs1 ++ Node (if (n =? 0)%nat then b else false) ks (cs ++ drop j (children s)) :: cs2)).
Proof.
  revert b cs j. induction n as [|n IH]; intros b cs j Hlen Hj; cbn [seq for_each].
  - rewrite drop_ge by lia. by rewrite app_nil_r.
  - destruct (children s !! j) as [a|] eqn:Ha; [|apply lookup_ge_None in Ha; lia].
    erewrite run_bind.
    2:{ brun ltac:(reflexivity). apply on_child_run; [done|]. apply append_child_run. lia. }
    rewrite IH by (rewrite ?length_app; cbn; lia).
    rewrite <- app_assoc. cbn [app]. rewrite (drop_S _ a j) by done. by destruct (n =? 0)%nat.
Qed.

Lemma btree_merge_run h ks1 e ks2 cs1 c s cs2 i :
  i = length cs1 -> length ks1 = length cs1 -> (length (ks1 ++ e :: ks2) <= 3)%nat ->
  length cs2 = length ks2 -> wf h c -> wf h s -> (n_keys c + n_keys s < 3)%nat ->
  Forall good (keys s) -> good e ->
  exists c',
    btree_merge i (Node false (ks1 ++ e :: ks2) (cs1 ++ c :: s :: cs2)) =
      Done tt (Node false (ks1 ++ ks2) (cs1 ++ c' :: cs2))
    /\ wf h c' /\ n_keys c' = S (n_keys c + n_keys s)
    /\ flatten c' = flatten c ++ e :: flatten s.
Proof.
  intros -> Hl Hlen Hl2 Hc Hs Hn Hgs Hge. rewrite length_app in Hlen. cbn in Hlen.
  exists (Node (is_leaf c) (keys c ++ e :: keys s) (children c ++ children s)).
  split; [|split_and!; [by apply wf_join| |by apply (flatten_join h)]];
    [|unfold n_keys; cbn; rewrite length_app; cbn; lia].
  unfold btree_merge. brun ltac:(reflexivity). unfold n_children. cbn [children].
  rewrite length_app. cbn [length]. rewrite pred32_small by lia.
  brun ltac:(apply kassert_run, Z.ltb_lt; lia).
  brun ltac:(apply pop_key_run; [done|lia]). cbn [fst snd].
  destruct c as [bc ksc csc]. unfold n_keys in Hn. cbn [keys children is_leaf] in *.
  brun ltac:(apply on_child_run; [done|]; apply append_key_run; lia).
  rewrite good_key by done.
  brun ltac:(rewrite lookup_app_r, Nat.add_comm, Nat.add_sub by lia; reflexivity).
  brun ltac:(apply append_keys_run; [rewrite length_app; cbn; lia|done]).
  brun ltac:(apply on_child_run; [done|reflexivity]). cbn [is_leaf].
  rewrite (run_bind _ _ _ tt (Node false (ks1 ++ ks2)
    (cs1 ++ Node bc (ksc ++ e :: keys s) (csc ++ children s) :: s :: cs2))).
  - brun ltac:(rewrite (cons_middle _ cs1), app_assoc; apply pop_child_run; rewrite length_app; cbn; lia).
    by rewrite <- app_assoc.
  - rewrite <- app_assoc. cbn [app]. destruct h.
    + apply wf_leaf_inv in Hc as (_ & -> & ->). destruct Hs as (_ & _ & ->). done.
    + apply wf_inner_inv in Hc as (? & -> & ? & ?). destruct Hs as (_ & _ & Hls & _).
      unfold n_children, n_keys in *.
      rewrite append_children_run by lia. rewrite drop_0. by destruct (_ =? 0)%nat.
Qed.

(** A node seen from one of its children. *)
Definition around h (x : node) ks1 ks2 cs1 c cs2 : Prop :=
  x = Node false (ks1 ++ ks2) (cs1 ++ c :: cs2)
  /\ length cs1 = length ks1 /\ length cs2 = length ks2 /\ wf (S h) x /\ wf h c.

(** What the next step of a deletion relies on after [btree_fill_node]. *)
Definition filled h (x x' : node) (i : nat) (c : node) : Prop :=
  exists ks1 ks2 cs1 c' cs2,
    around h x' ks1 ks2 cs1 c' cs2 /\ (2 <= n_keys c')%nat
    /\ flatten x' = flatten x /\ (n_keys x <= S (n_keys x'))%nat
    /\ (forall a, a ∈ flatten c -> a ∈ flatten c')
    /\ length cs1 = (if (i =? n_keys x)%nat && (n_keys x' <? i)%nat then i - 1 else i)%nat.

Lemma child_flatten h b ks cs c a :
  wf (S h) (Node b ks cs) -> c ∈ cs -> a ∈ flatten c -> a ∈ inter ks cs.
Proof.
  intros (_ & _ & Hl & _)%wf_inner_inv (cs1 & cs2 & ->)%list_elem_of_split Ha.
  rewrite length_app in Hl. cbn in Hl.
  rewrite <- (take_drop (length cs1) ks), inter_mid by (rewrite length_take; lia).
  set_solver.
Qed.

Lemma around_good h x ks1 ks2 cs1 c cs2 :
  around h x ks1 ks2 cs1 c cs2 -> Forall good (flatten x) ->
  Forall good (ks1 ++ ks2)
  /\ Forall (fun c => wf h c /\ (1 <= n_keys c)%nat /\ Forall good (keys c)) (cs1 ++ c :: cs2).
Proof.
  intros (-> & Hl1 & Hl2 & Hwf & Hc) Hg. split.
  - by apply (keys_flatten good _ _ Hwf) in Hg.
  - pose proof (wf_inner_inv _ _ _ _ Hwf) as (_ & _ & _ & Hcs). rewrite flatten_node in Hg.
    rewrite Forall_forall in Hcs. rewrite Forall_forall in Hg. apply Forall_forall. intros c' Hc'.
    destruct (Hcs _ Hc') as [Hw Hn]. split_and!; [done..|].
    apply (keys_flatten good h); [done|]. apply Forall_forall. intros a Ha.
    apply Hg. by eapply child_flatten.
Qed.

(** The two children next to a key, and the node with them replaced. *)
Lemma flatten_pair h b ks1 e ks2 cs1 c s cs2 :
  length cs1 = length ks1 -> wf (S h) (Node b (ks1 ++ e :: ks2) (cs1 ++ c :: s :: cs2)) ->
  inter (ks1 ++ e :: ks2) (cs1 ++ c :: s :: cs2) =
  lefts ks1 cs1 ++ (flatten c ++ e :: flatten s) ++ rights ks2 cs2.
Proof. intros. rewrite inter_mid, rights_cons by done. by rewrite <- !app_assoc. Qed.

Lemma wf_pair h ks1 e ks2 cs1 c s cs2 e' c' s' :
  wf (S h) (Node false (ks1 ++ e :: ks2) (cs1 ++ c :: s :: cs2)) ->
  wf h c' -> wf h s' -> (1 <= n_keys c')%nat -> (1 <= n_keys s')%nat ->
  wf (S h) (Node false (ks1 ++ e' :: ks2) (cs1 ++ c' :: s' :: cs2)).
Proof.
  rewrite !wf_inner, !Forall_app, !Forall_cons_iff, !length_app. cbn.
  intros (? & ? & ? & ? & ? & ? & ?) ? ? ? ?. split_and!; done.
Qed.

Lemma wf_merge h ks1 e ks2 cs1 c s cs2 c' :
  wf (S h) (Node false (ks1 ++ e :: ks2) (cs1 ++ c :: s :: cs2)) ->
  wf h c' -> (1 <= n_keys c')%nat ->
  wf (S h) (Node false (ks1 ++ ks2) (cs1 ++ c' :: cs2)).
Proof.
  rewrite !wf_inner, !Forall_app, !Forall_cons_iff, !length_app. cbn.
  intros (? & ? & ? & ? & ? & ? & ?) ? ?. split_and!; (done || lia).
Qed.

Lemma fill_prev h ks1 e ks2 cs1 s c cs2 i :
  around h (Node false ((ks1 ++ [e]) ++ ks2) ((cs1 ++ [s]) ++ c :: cs2))
    (ks1 ++ [e]) ks2 (cs1 ++ [s]) c cs2 ->
  Forall good (flatten (Node false ((ks1 ++ [e]) ++ ks2) ((cs1 ++ [s]) ++ c :: cs2))) ->
  n_keys c = 1%nat -> (2 <= n_keys s)%nat -> i = S (length cs1) ->
  exists x', btree_take_prev i (Node false ((ks1 ++ [e]) ++ ks2) ((cs1 ++ [s]) ++ c :: cs2)) = Done tt x'
    /\ filled h (Node false ((ks1 ++ [e]) ++ ks2) ((cs1 ++ [s]) ++ c :: cs2)) x' i c.
Proof.
  intros Har Hg Hn Hns ->. destruct (around_good _ _ _ _ _ _ _ Har Hg) as [Hgk Hgc].
  destruct Har as (_ & Hl1 & Hl2 & Hwf & Hc). clear Hg.
  rewrite <- !app_assoc in *. cbn [app] in *. rewrite !length_app in Hl1. cbn in Hl1.
  rewrite !Forall_app, !Forall_cons_iff in Hgc. rewrite !Forall_app, !Forall_cons_iff in Hgk.
  destruct Hgk as (_ & He & _), Hgc as (_ & (Hs & _ & Hgs) & _).
  pose proof (wf_inner_inv _ _ _ _ Hwf) as (Hlen & _).
  destruct (btree_take_prev_run h ks1 e ks2 cs1 s c cs2 (S (length cs1)))
    as (s' & e' & c' & Hrun & (Hw1 & Hw2 & Hn1 & Hn2 & Hfl) & Hnc & Hin); try (done || lia).
  eexists. split; [exact Hrun|].
  exists (ks1 ++ [e']), ks2, (cs1 ++ [s']), c', cs2. unfold around, n_keys in *. cbn [keys] in *.
  rewrite <- !app_assoc, !length_app. cbn [app length] in *.
  assert (Hwf' := wf_pair _ _ _ _ _ _ _ _ e' s' c' Hwf Hw1 Hw2 Hn1 Hn2).
  rewrite !flatten_node, !(flatten_pair h false) by (done || lia). rewrite Hfl.
  split_and!; try (done || lia).
  rewrite (proj2 (Nat.ltb_ge _ _)), andb_false_r by lia. lia.
Qed.

Lemma fill_next h ks1 e ks2 cs1 c s cs2 :
  around h (Node false (ks1 ++ e :: ks2) (cs1 ++ c :: s :: cs2)) ks1 (e :: ks2) cs1 c (s :: cs2) ->
  Forall good (flatten (Node false (ks1 ++ e :: ks2) (cs1 ++ c :: s :: cs2))) ->
  n_keys c = 1%nat -> (2 <= n_keys s)%nat ->
  exists x', btree_take_next (length cs1) (Node false (ks1 ++ e :: ks2) (cs1 ++ c :: s :: cs2)) = Done tt x'
    /\ filled h (Node false (ks1 ++ e :: ks2) (cs1 ++ c :: s :: cs2)) x' (length cs1) c.
Proof.
  intros Har Hg Hn Hns. destruct (around_good _ _ _ _ _ _ _ Har Hg) as [Hgk Hgc].
  destruct Har as (_ & Hl1 & Hl2 & Hwf & Hc). clear Hg. cbn in Hl2.
  rewrite !Forall_app, !Forall_cons_iff in Hgc. rewrite !Forall_app, !Forall_cons_iff in Hgk.
  destruct Hgk as (_ & He & _), Hgc as (_ & _ & (Hs & _ & Hgs) & _).
  pose proof (wf_inner_inv _ _ _ _ Hwf) as (Hlen & _).
  destruct (btree_take_next_run h ks1 e ks2 cs1 c s cs2 (length cs1))
    as (c' & e' & s' & Hrun & (Hw1 & Hw2 & Hn1 & Hn2 & Hfl) & Hnc & Hin); try (done || lia).
  eexists. split; [exact Hrun|].
  exists ks1, (e' :: ks2), cs1, c', (s' :: cs2). unfold around, n_keys in *. cbn [keys] in *.
  rewrite !length_app. cbn [length] in *.
  assert (Hwf' := wf_pair _ _ _ _ _ _ _ _ e' c' s' Hwf Hw1 Hw2 Hn1 Hn2).
  rewrite !flatten_node, !(flatten_pair h false) by (done || lia). rewrite Hfl.
  split_and!; try (done || lia).
  rewrite (proj2 (Nat.ltb_ge _ _)), andb_false_r by lia. lia.
Qed.

Lemma fill_merge h ks1 e ks2 cs1 c s cs2 :
  around h (Node false (ks1 ++ e :: ks2) (cs1 ++ c :: s :: cs2)) ks1 (e :: ks2) cs1 c (s :: cs2) ->
  Forall good (flatten (Node false (ks1 ++ e :: ks2) (cs1 ++ c :: s :: cs2))) ->
  n_keys c = 1%nat -> (n_keys s < 2)%nat ->
  exists c', btree_merge (length cs1) (Node false (ks1 ++ e :: ks2) (cs1 ++ c :: s :: cs2))
      = Done tt (Node false (ks1 ++ ks2) (cs1 ++ c' :: cs2))
    /\ around h (Node false (ks1 ++ ks2) (cs1 ++ c' :: cs2)) ks1 ks2 cs1 c' cs2
    /\ n_keys c' = 3%nat
    /\ inter (ks1 ++ ks2) (cs1 ++ c' :: cs2) = inter (ks1 ++ e :: ks2) (cs1 ++ c :: s :: cs2)
    /\ flatten c' = flatten c ++ e :: flatten s.
Proof.
  intros Har Hg Hn Hns. destruct (around_good _ _ _ _ _ _ _ Har Hg) as [Hgk Hgc].
  destruct Har as (_ & Hl1 & Hl2 & Hwf & Hc). clear Hg. cbn in Hl2.
  rewrite !Forall_app, !Forall_cons_iff in Hgc. rewrite !Forall_app, !Forall_cons_iff in Hgk.
  destruct Hgk as (_ & He & _), Hgc as (_ & _ & (Hs & Hns1 & Hgs) & _).
  pose proof (wf_inner_inv _ _ _ _ Hwf) as (Hlen & _).
  destruct (btree_merge_run h ks1 e ks2 cs1 c s cs2 (length cs1))
    as (c' & Hrun & Hw & Hnc & Hfl); try (done || lia).
  exists c'. split; [exact Hrun|]. 
  assert (Hwf' := wf_merge _ _ _ _ _ _ _ _ c' Hwf Hw ltac:(lia)).
  rewrite (flatten_pair h false), inter_mid, Hfl by (done || lia).
  unfold around. split_and!; (done || lia).
Qed.

(** [btree_fill_node] when the left sibling has no key to give. *)
Definition fill_rest (i n : nat) : M node unit :=
  let! next :=
    (if (i =? n)%nat then ret false
     else on_child (i + 1) (gets (fun c => BRANCHING_FACTOR <=? n_keys c)%nat)) in
  if next then btree_take_next i
  else if negb (i =? n)%nat then btree_merge i
  else btree_merge (i - 1).

Lemma fill_rest_right h x ks1 e ks2 cs1 c s cs2 :
  around h x ks1 (e :: ks2) cs1 c (s :: cs2) -> Forall good (flatten x) -> n_keys c = 1%nat ->
  exists x', fill_rest (length cs1) (n_keys x) x = Done tt x' /\ filled h x x' (length cs1) c.
Proof.
  intros Har Hg Hn1. destruct (around_good _ _ _ _ _ _ _ Har Hg) as [_ Hgc].
  pose proof Har as (-> & Hl1 & Hl2 & Hwf & Hc). unfold fill_rest, n_keys at 1. cbn [keys].
  rewrite length_app. cbn [length]. rewrite (proj2 (Nat.eqb_neq _ _)) by lia.
  brun ltac:(apply on_child_run_next; [done|reflexivity]).
  rewrite Forall_app, !Forall_cons_iff in Hgc. destruct Hgc as (_ & _ & (_ & Hs1 & _) & _).
  destruct (Nat.leb_spec BRANCHING_FACTOR (n_keys s)) as [Hs|Hs]; [by apply fill_next|].
  destruct (fill_merge h ks1 e ks2 cs1 c s cs2) as (c' & Hrun & Har' & Hn3 & Hi & Hfl); try done.
  unfold n_keys. cbn [negb keys]. rewrite length_app. cbn [length].
  rewrite (proj2 (Nat.eqb_neq _ _)) by lia.
  eexists. split; [exact Hrun|]. exists ks1, ks2, cs1, c', cs2.
  rewrite !flatten_node, Hfl, Hi. unfold n_keys in *. cbn [keys length]. rewrite !length_app. cbn [length].
  rewrite (proj2 (Nat.ltb_ge _ _)), andb_false_r by lia.
  split_and!; (done || lia || set_solver).
Qed.

Lemma fill_rest_last h x ks1 e cs1 s c :
  around h x (ks1 ++ [e]) [] (cs1 ++ [s]) c [] -> Forall good (flatten x) ->
  n_keys c = 1%nat -> (n_keys s < 2)%nat ->
  exists x', fill_rest (S (length cs1)) (n_keys x) x = Done tt x'
    /\ filled h x x' (S (length cs1)) c.
Proof.
  intros Har Hg Hn1 Hns. destruct (around_good _ _ _ _ _ _ _ Har Hg) as [_ Hgc].
  destruct Har as (-> & Hl1 & Hl2 & Hwf & Hc). unfold fill_rest.
  rewrite !app_nil_r, <- !app_assoc in *. cbn [app] in *. rewrite !length_app in Hl1. cbn in Hl1.
  assert (Hnx : n_keys (Node false (ks1 ++ [e]) (cs1 ++ [s; c])) = S (length cs1))
    by (unfold n_keys; cbn; rewrite length_app; cbn; lia).
  rewrite Hnx, Nat.eqb_refl. brun ltac:(reflexivity). cbn [negb].
  rewrite Forall_app, !Forall_cons_iff in Hgc. destruct Hgc as (_ & (Hws & Hs1 & _) & _).
  replace (S (length cs1) - 1)%nat with (length cs1) by lia.
  destruct (fill_merge h ks1 e [] cs1 s c []) as (c' & Hrun & Har' & Hn3 & Hi & Hfl); try (done || lia).
  { unfold around. cbn [length]. split_and!; (done || lia). }
  rewrite app_nil_r in *. eexists. split; [exact Hrun|]. exists ks1, [], cs1, c', [].
  rewrite !flatten_node, Hfl, Hi. unfold n_keys in *. cbn [keys length].
  rewrite !length_app. cbn [length].
  rewrite (proj2 (Nat.eqb_eq _ _)), (proj2 (Nat.ltb_lt _ _)) by lia. cbn [andb].
  split_and!; (done || lia || set_solver).
Qed.

Lemma btree_fill_node_run h x ks1 ks2 cs1 c cs2 :
  around h x ks1 ks2 cs1 c cs2 -> Forall good (flatten x) ->
  n_keys c = 1%nat -> (1 <= n_keys x)%nat ->
  exists x', btree_fill_node (length cs1) x = Done tt x' /\ filled h x x' (length cs1) c.
Proof.
  intros Har Hg Hn1 Hnx. unfold btree_fill_node. brun ltac:(reflexivity).
  fold (fill_rest (length cs1) (n_keys x)).
  pose proof Har as (-> & Hl1 & Hl2 & Hwf & Hc).
  destruct (nil_or_length_pos cs1) as [->|Hpos].
  - destruct ks1; [|done]. cbn [length Nat.eqb]. brun ltac:(reflexivity).
    destruct ks2 as [|e ks2]; [cbn in Hnx; lia|]. destruct cs2 as [|s cs2]; [done|].
    by apply (fill_rest_right h _ [] e ks2 [] c s cs2).
  - destruct (snoc_of cs1) as (cs1' & s & ->); [lia|]. rewrite length_app in *. cbn in Hl1.
    destruct (snoc_of ks1) as (ks1' & e & ->); [lia|]. rewrite length_app in Hl1. cbn in Hl1.
    cbn [length]. rewrite Nat.add_1_r. cbn [Nat.eqb]. rewrite Nat.sub_1_r. cbn [Nat.pred].
    rewrite <- (app_assoc cs1'). cbn [app].
    brun ltac:(apply on_child_run; [done|reflexivity]).
    rewrite (cons_middle s), app_assoc.
    destruct (Nat.leb_spec BRANCHING_FACTOR (n_keys s)) as [Hs|Hs].
    + by apply fill_prev.
    + destruct ks2 as [|e2 ks2], cs2 as [|s2 cs2]; try done.
      * by eapply fill_rest_last.
      * replace (S (length cs1')) with (length (cs1' ++ [s])) by (rewrite length_app; cbn; lia).
        by eapply fill_rest_right.
Qed.

(** ** Deletion *)

Lemma btree_last_run h c :
  wf h c -> (1 <= n_keys c)%nat -> exists l e, btree_last h c = Some e /\ flatten c = l ++ [e].
Proof.
  revert c. induction h as [|h IH]; intros [b ks cs] Hwf Hn; unfold n_keys in Hn; cbn [keys] in Hn;
    rewrite flatten_node; cbn [btree_last is_leaf keys children]; unfold n_keys, n_children;
    cbn [keys children].
  - apply wf_leaf_inv in Hwf as (_ & -> & ->). destruct (snoc_of ks) as (l & e & ->); [lia|].
    exists l, e. rewrite length_app, Nat.add_sub. by rewrite lookup_mid.
  - apply wf_inner_inv in Hwf as (_ & -> & Hl & Hcs).
    destruct (snoc_of cs) as (cs' & a & ->); [lia|]. rewrite length_app in Hl. cbn in Hl.
    apply Forall_app in Hcs as [_ Ha]. apply Forall_cons_iff in Ha as [[Ha Hna] _].
    rewrite length_app, Nat.add_sub, lookup_mid.
    destruct (IH a Ha Hna) as (l & e & -> & Hfl). exists (lefts ks cs' ++ l), e.
    split; [done|]. rewrite <- (app_nil_r ks) at 1. rewrite inter_mid by lia. cbn.
    by rewrite Hfl, app_nil_r, app_assoc.
Qed.

Lemma btree_first_run h c :
  wf h c -> (1 <= n_keys c)%nat -> exists e l, btree_first h c = Some e /\ flatten c = e :: l.
Proof.
  revert c. induction h as [|h IH]; intros [b ks cs] Hwf Hn; unfold n_keys in Hn; cbn [keys] in Hn;
    rewrite flatten_node; cbn [btree_first is_leaf keys children].
  - apply wf_leaf_inv in Hwf as (_ & -> & ->). destruct ks as [|e l]; [cbn in Hn; lia|]. by exists e, l.
  - apply wf_inner_inv in Hwf as (_ & -> & Hl & Hcs). destruct cs as [|a cs]; [done|].
    apply Forall_cons_iff in Hcs as [[Ha Hna] _]. cbn [lookup list_lookup].
    destruct (IH a Ha Hna) as (e & l & -> & Hfl). eexists e, _. split; [done|].
    cbn [inter]. by rewrite Hfl.
Qed.

Lemma btree_sane h x :
  wf h x -> (1 <= n_keys x)%nat -> Forall good (flatten x) ->
  btree_assert_sanity pf_pagenum x = true.
Proof.
  revert x. induction h as [|h IH]; intros [b ks cs] Hwf Hn Hg;
    pose proof (keys_flatten good _ _ Hwf Hg) as Hk; cbn [keys] in Hk; unfold n_keys in Hn;
    cbn [keys] in Hn; cbn [btree_assert_sanity];
    rewrite (proj2 (Nat.ltb_lt 0 _)) by lia.
  - apply wf_leaf_inv in Hwf as (_ & -> & ->). cbn. rewrite andb_true_r.
    apply forallb_forall. intros e He%list_elem_of_In.
    rewrite Forall_forall in Hk. by apply Z.eqb_eq, Hk.
  - pose proof (wf_inner_inv _ _ _ _ Hwf) as (_ & -> & Hl & Hcs).
    rewrite (proj2 (Nat.eqb_neq (length cs) 0)) by lia. cbn [orb].
    rewrite Forall_forall in Hk. rewrite Forall_forall in Hg. rewrite Forall_forall in Hcs.
    rewrite (proj2 (forallb_forall _ ks)), (proj2 (forallb_forall _ cs)); [done|..].
    + intros c Hc%list_elem_of_In. destruct (Hcs _ Hc). apply IH; [done..|].
      apply Forall_forall. intros a Ha. apply Hg. rewrite flatten_node. by eapply child_flatten.
    + intros e He%list_elem_of_In. by apply Z.eqb_eq, Hk.
Qed.

Definition deleted (e : entry) (l l' : list entry) : Prop :=
  exists l1 l2, l = l1 ++ e :: l2 /\ l' = l1 ++ l2.

Lemma deleted_mid e l1 l l' l2 : deleted e l l' -> deleted e (l1 ++ l ++ l2) (l1 ++ l' ++ l2).
Proof. intros (m1 & m2 & -> & ->). exists (l1 ++ m1), (m2 ++ l2). by rewrite <- !app_assoc. Qed.

(** With the entries in order, a deletion takes the one entry of that key. *)
Lemma deleted_place e l1 l2 l' : sorted (l1 ++ e :: l2) -> deleted e (l1 ++ e :: l2) l' -> l' = l1 ++ l2.
Proof. intros Hs (m1 & m2 & Heq & ->). by destruct (sorted_place _ _ _ _ _ _ Hs Heq) as (-> & _ & ->). Qed.

Definition delete_ok (h : nat) : Prop := forall x key d,
  wf h x -> (1 <= n_keys x)%nat -> Forall good (flatten x) -> sorted (flatten x) ->
  (key, d) ∈ flatten x ->
  exists x', btree_delete_helper pf_pagenum h key x = Done tt x' /\ wf h x'
    /\ (n_keys x <= S (n_keys x'))%nat /\ deleted (key, d) (flatten x) (flatten x').

Lemma deleted_good (P : entry -> Prop) e l l' : deleted e l l' -> Forall P l -> Forall P l'.
Proof. intros (l1 & l2 & -> & ->). rewrite !Forall_app, Forall_cons_iff. tauto. Qed.

Lemma btree_delete_with_run h c key d :
  delete_ok h -> wf h c -> (1 <= n_keys c)%nat -> Forall good (flatten c) -> sorted (flatten c) ->
  (key, d) ∈ flatten c ->
  exists c', btree_delete_helper pf_pagenum h key c = Done tt c' /\ wf h c'
    /\ (n_keys c <= S (n_keys c'))%nat /\ deleted (key, d) (flatten c) (flatten c')
    /\ ((1 <= n_keys c')%nat ->
        btree_delete_with pf_pagenum (btree_delete_helper pf_pagenum h) key (Some c) = Done tt (Some c')).
Proof.
  intros IH Hc Hn Hg Hs Hin. destruct (IH c key d) as (c' & Hrun & Hc' & Hn' & Hdel); [done..|].
  exists c'. split_and!; [done..|]. intros Hn1. unfold btree_delete_with, btree_search.
  rewrite (wf_height h c) by done. rewrite (proj2 (btree_search_rec_spec h c key d Hc Hs) Hin), Hrun.
  rewrite (proj2 (Nat.eqb_neq _ _)) by lia. rewrite (btree_sane h); [done..|].
  by eapply deleted_good.
Qed.

Lemma on_child_slot_run {A} (m : M (option node) A) b ks cs1 c cs2 a c' i :
  i = length cs1 -> m (Some c) = Done a (Some c') ->
  on_child_slot i m (Node b ks (cs1 ++ c :: cs2)) = Done a (Node b ks (cs1 ++ c' :: cs2)).
Proof.
  intros -> Hm. unfold on_child_slot. cbn [children]. rewrite lookup_mid, Hm.
  unfold set_children. cbn [keys is_leaf]. rewrite insert_app_r_alt, Nat.sub_diag by lia. done.
Qed.

Lemma store_key_run b ks1 e ks2 cs e' i :
  i = length ks1 -> good e' ->
  store_key i (s32 e'.1) e'.2 (Node b (ks1 ++ e :: ks2) cs) = Done tt (Node b (ks1 ++ e' :: ks2) cs).
Proof.
  intros -> He. unfold store_key. brun ltac:(reflexivity). unfold n_keys. cbn [keys].
  rewrite length_app, (proj2 (Nat.ltb_lt _ _)) by (cbn; lia).
  unfold put, set_keys. cbn [is_leaf keys children].
  rewrite good_key, insert_app_r_alt, Nat.sub_diag by (done || lia). done.
Qed.

(** The key to delete is in this node: its predecessor or successor takes its
    place, or the two children around it are merged with it. *)
Section delete_internal.
Context (h : nat) (ks1 ks2 : list entry) (key : Z) (d : D) (cs1 cs2 : list node) (c s : node).
Let x : node := Node false (ks1 ++ (key, d) :: ks2) (cs1 ++ c :: s :: cs2).
Let del := btree_delete_with pf_pagenum (btree_delete_helper pf_pagenum h).
Context (IH : delete_ok h) (Har : around h x ks1 ((key, d) :: ks2) cs1 c (s :: cs2))
        (Hg : Forall good (flatten x)) (Hs : sorted (flatten x)).

Definition internal_post (x' : node) : Prop :=
  wf (S h) x' /\ (n_keys x <= S (n_keys x'))%nat
  /\ flatten x' = lefts ks1 cs1 ++ (flatten c ++ flatten s) ++ rights ks2 cs2.

Lemma internal_facts :
  Forall good (flatten c) /\ Forall good (flatten s) /\ good (key, d)
  /\ sorted (flatten c ++ (key, d) :: flatten s) /\ sorted (flatten c) /\ sorted (flatten s)
  /\ (1 <= n_keys c)%nat /\ wf h s /\ (1 <= n_keys s)%nat.
Proof.
  destruct (around_good _ _ _ _ _ _ _ Har Hg) as [Hgk Hgc].
  destruct Har as (_ & Hl1 & Hl2 & Hwf & Hc).
  pose proof Hg as Hg'. pose proof Hs as Hs'. unfold x in Hg', Hs', Hwf.
  rewrite flatten_node, (flatten_pair h false) in Hg' by done.
  rewrite flatten_node, (flatten_pair h false) in Hs' by done.
  rewrite Forall_app, !Forall_cons_iff in Hgc. destruct Hgc as (_ & (_ & Hn1 & _) & (Hws & Hns1 & _) & _).
  apply Forall_app in Hg' as [_ Hg']. apply Forall_app in Hg' as [Hg' _].
  apply Forall_app in Hg' as [Hgfc Hg']. apply Forall_cons_iff in Hg' as [Hge Hgfs].
  apply sorted_app in Hs' as (_ & Hs' & _). apply sorted_app in Hs' as (Hs' & _).
  pose proof (proj1 (sorted_mid _ _ _) Hs') as (Hs'' & _ & _).
  apply sorted_app in Hs'' as (Hsc & Hss & _). done.
Qed.

(** The node with the separating key replaced and one of the two children
    shrunk. *)
Lemma internal_replace e c' s' :
  wf h c' -> wf h s' -> (1 <= n_keys c')%nat -> (1 <= n_keys s')%nat ->
  flatten c' ++ e :: flatten s' = flatten c ++ flatten s ->
  internal_post (Node false (ks1 ++ e :: ks2) (cs1 ++ c' :: s' :: cs2)).
Proof.
  intros Hc' Hs' Hn1 Hn2 Hfl. destruct Har as (_ & Hl1 & Hl2 & Hwf & Hc).
  pose proof (wf_pair _ _ _ _ _ _ _ _ e c' s' Hwf Hc' Hs' Hn1 Hn2) as Hwf'.
  unfold internal_post. rewrite flatten_node, (flatten_pair h false), Hfl by done.
  split_and!; [done| |done]. unfold n_keys, x. cbn [keys]. rewrite !length_app. cbn. lia.
Qed.

Lemma internal_pred :
  (2 <= n_keys c)%nat ->
  exists x', (let! kd := btree_get_predecessor (length cs1) in
              do! store_key (length cs1) kd.1 kd.2;
              on_child_slot (length cs1) (del (u64 kd.1))) x = Done tt x' /\ internal_post x'.
Proof.
  intros Hc2. destruct internal_facts as (Hgc & Hgs & Hge & Hse & Hsc & Hss & Hn1 & Hws & Hn2).
  pose proof Har as (_ & Hl1 & _ & _ & Hc).
  destruct (btree_last_run h c Hc Hn1) as (l & [k' d'] & Hlast & Hfl).
  assert (Hge' : good (k', d')) by (rewrite Hfl, Forall_app, Forall_cons_iff in Hgc; tauto).
  destruct (btree_delete_with_run h c k' d') as (c' & _ & Hwc' & Hnc' & Hdel & Hrun);
    [done..|rewrite Hfl; set_solver|]. specialize (Hrun ltac:(lia)).
  unfold btree_get_predecessor. unfold x at 1.
  brun ltac:(brun ltac:(apply on_child_run; [done|reflexivity]);
             rewrite (wf_height h c), Hlast by done; reflexivity).
  cbn [fst snd]. brun ltac:(apply (store_key_run _ _ _ _ _ (k', d')); done).
  pose proof (good_key_u64 (k', d') Hge') as Hku. cbn [fst] in Hku. rewrite Hku.
  eexists. split; [apply on_child_slot_run; [done|exact Hrun]|].
  apply internal_replace; try (done || lia).
  rewrite Hfl in Hdel, Hsc |- *. rewrite (deleted_place _ l [] _ Hsc Hdel).
  by rewrite app_nil_r, <- app_assoc.
Qed.

Lemma internal_succ :
  (2 <= n_keys s)%nat ->
  exists x', (let! kd := btree_get_successor (length cs1) in
              do! store_key (length cs1) kd.1 kd.2;
              on_child_slot (length cs1 + 1) (del (u64 kd.1))) x = Done tt x' /\ internal_post x'.
Proof.
  intros Hs2. destruct internal_facts as (Hgc & Hgs & Hge & Hse & Hsc & Hss & Hn1 & Hws & Hn2).
  pose proof Har as (_ & Hl1 & _ & _ & Hc).
  destruct (btree_first_run h s Hws Hn2) as ([k' d'] & l & Hfirst & Hfl).
  assert (Hge' : good (k', d')) by (rewrite Hfl, Forall_cons_iff in Hgs; tauto).
  destruct (btree_delete_with_run h s k' d') as (s' & _ & Hws' & Hns' & Hdel & Hrun);
    [done..|rewrite Hfl; set_solver|]. specialize (Hrun ltac:(lia)).
  unfold btree_get_successor. unfold x at 1.
  brun ltac:(brun ltac:(apply on_child_run_next; [done|reflexivity]);
             rewrite (wf_height h s), Hfirst by done; reflexivity).
  cbn [fst snd]. brun ltac:(apply (store_key_run _ _ _ _ _ (k', d')); done).
  pose proof (good_key_u64 (k', d') Hge') as Hku. cbn [fst] in Hku.
  rewrite Hku, (cons_middle c), app_assoc.
  eexists. split; [apply on_child_slot_run; [by rewrite length_app|exact Hrun]|].
  rewrite <- app_assoc. apply internal_replace; try (done || lia).
  rewrite Hfl in Hdel, Hss |- *. by rewrite (deleted_place _ [] l _ Hss Hdel).
Qed.

Lemma internal_merge :
  (n_keys c < 2)%nat -> (n_keys s < 2)%nat ->
  exists x', (do! btree_merge (length cs1); on_child_slot (length cs1) (del (u64 (s32 key)))) x
             = Done tt x' /\ internal_post x'.
Proof.
  intros Hc1 Hs1. destruct internal_facts as (Hgc & Hgs & Hge & Hse & Hsc & Hss & Hn1 & Hws & Hn2).
  destruct (fill_merge h ks1 (key, d) ks2 cs1 c s cs2) as (c' & Hrun & Har' & Hn3 & Hi & Hfl);
    try (done || lia). destruct Har' as (_ & Hl1 & Hl2 & Hwf' & Hwc').
  pose proof (good_key_u64 (key, d) Hge) as Hku. cbn [fst] in Hku. rewrite Hku.
  unfold x at 1. brun ltac:(exact Hrun).
  destruct (btree_delete_with_run h c' key d) as (c'' & _ & Hwc'' & Hnc'' & Hdel & Hrun');
    [done|done|lia|rewrite Hfl; apply Forall_app; split; [done|by constructor]
    |by rewrite Hfl|rewrite Hfl; set_solver|]. specialize (Hrun' ltac:(lia)).
  eexists. split; [apply on_child_slot_run; [done|exact Hrun']|].
  rewrite Hfl in Hdel. apply deleted_place in Hdel; [|done].
  unfold internal_post. rewrite flatten_node, inter_mid, Hdel by done. unfold n_keys, x. cbn [keys].
  rewrite !length_app. cbn [length]. split_and!; [|lia|done].
  eapply wf_replace; [done..|]. lia.
Qed.

Lemma btree_delete_internal_run :
  exists x', btree_delete_internal del (s32 key) (length cs1) x = Done tt x' /\ internal_post x'.
Proof.
  destruct internal_facts as (_ & _ & _ & _ & _ & _ & Hn1 & Hws & Hn2).
  pose proof Har as (_ & Hl1 & Hl2 & Hwf & Hc). cbn in Hl2.
  pose proof (wf_inner_inv _ _ _ _ Hwf) as (Hlen & _ & Hlc & _).
  rewrite length_app in Hlen, Hlc. cbn [length] in Hlen, Hlc.
  unfold btree_delete_internal. brun ltac:(reflexivity).
  assert (Hkey : keys x !! length cs1 = Some (key, d)) by (cbn; rewrite Hl1; apply lookup_mid).
  assert (Hnk : n_keys x = (length ks1 + S (length ks2))%nat) by (unfold n_keys; cbn; by rewrite length_app).
  assert (Hnc : n_children x = S (n_keys x)).
  { rewrite Hnk. unfold n_children. cbn. rewrite length_app. cbn. lia. }
  rewrite Hnc, pred32_small, Hkey by lia.
  brun ltac:(apply kassert_run, andb_true_iff; rewrite Nat.ltb_lt, Z.ltb_lt; lia).
  brun ltac:(reflexivity). cbn [fst].
  brun ltac:(apply on_child_run; [done|reflexivity]).
  destruct (Nat.leb_spec BRANCHING_FACTOR (n_keys c)) as [Hc2|Hc2]; [by apply internal_pred|].
  brun ltac:(apply on_child_run_next; [done|reflexivity]).
  destruct (Nat.leb_spec BRANCHING_FACTOR (n_keys s)) as [Hs2|Hs2]; [by apply internal_succ|].
  by apply internal_merge.
Qed.
End delete_internal.

Lemma delete_ok_leaf : delete_ok 0.
Proof.
  intros [b ks cs] key d Hwf Hn Hg Hs Hin.
  pose proof (wf_sorted_keys _ _ Hwf Hs) as Hks. cbn [keys] in Hks.
  apply wf_leaf_inv in Hwf as (Hlen & -> & ->). rewrite flatten_node in *. cbn [inter] in *.
  destruct (scan_up_spec key ks Hks) as (ks1 & ks2 & -> & Hscan & Hb & Ha).
  destruct Ha as [Ha|(e & ks3 & -> & He)].
  { rewrite <- (app_nil_l ks2), elem_mid in Hin by done. set_solver. }
  rewrite (sorted_unique _ e) in Hin by (done || set_solver). destruct e as [k d']. cbn in He, Hin. subst.
  cbn [btree_delete_helper]. brun ltac:(reflexivity). cbn [keys is_leaf].
  rewrite Hscan, lookup_mid. cbn [fst]. rewrite Z.eqb_refl.
  rewrite length_app in Hlen. cbn in Hlen.
  brun ltac:(apply pop_key_run; [done|lia]). eexists. split; [done|].
  rewrite wf_leaf, flatten_node. unfold n_keys. cbn [keys inter]. rewrite !length_app. cbn [length].
  split_and!; try (done || lia). by exists ks1, ks3.
Qed.

(** The step into the child that [btree_fill_node] prepared. *)
Lemma delete_descend h x x' i c key d :
  delete_ok h -> filled h x x' i c -> Forall good (flatten x) -> sorted (flatten x) ->
  (key, d) ∈ flatten c ->
  exists x'',
    on_child (if (i =? n_keys x)%nat && (n_keys x' <? i)%nat then i - 1 else i)%nat
      (btree_delete_helper pf_pagenum h key) x' = Done tt x''
    /\ wf (S h) x'' /\ (n_keys x <= S (n_keys x''))%nat
    /\ deleted (key, d) (flatten x) (flatten x'').
Proof.
  intros IH (ks1 & ks2 & cs1 & c' & cs2 & Har & Hn2 & Hfl & Hnx & Hincl & <-) Hg Hs Hin.
  rewrite <- Hfl in Hg, Hs |- *. destruct Har as (-> & Hl1 & Hl2 & Hwf & Hc).
  rewrite flatten_node, inter_mid in Hg, Hs |- * by done.
  apply Forall_app in Hg as [_ Hg]. apply Forall_app in Hg as [Hg _].
  apply sorted_app in Hs as (_ & Hs & _). apply sorted_app in Hs as (Hs & _).
  destruct (IH c' key d) as (c'' & Hrun & Hwc & Hnc & Hdel); [done|lia|done|done|by apply Hincl|].
  eexists. split; [by apply on_child_run|].
  split_and!; [eapply wf_replace; [done..|lia]|done|].
  rewrite flatten_node, inter_mid by done. by apply deleted_mid.
Qed.

(** The part of [btree_delete_helper] that descends. *)
Lemma delete_inner_miss h x ks1 ks2 cs1 c cs2 key d :
  delete_ok h -> around h x ks1 ks2 cs1 c cs2 -> (1 <= n_keys x)%nat -> (1 <= n_keys c)%nat ->
  Forall good (flatten x) -> sorted (flatten x) -> (key, d) ∈ flatten c ->
  exists x'',
    (let! n := on_child (length cs1) (gets n_keys) in
     do! (if (n <? BRANCHING_FACTOR)%nat then btree_fill_node (length cs1) else ret tt);
     let! n' := gets n_keys in
     if (length cs1 =? n_keys x)%nat && (n' <? length cs1)%nat
     then on_child (length cs1 - 1) (btree_delete_helper pf_pagenum h key)
     else on_child (length cs1) (btree_delete_helper pf_pagenum h key)) x = Done tt x''
    /\ wf (S h) x'' /\ (n_keys x <= S (n_keys x''))%nat
    /\ deleted (key, d) (flatten x) (flatten x'').
Proof.
  intros IH Har Hn Hn1 Hg Hs Hin. pose proof Har as (Hx & Hl1 & Hl2 & Hwf & Hc).
  assert (Hfill : exists x', (if (n_keys c <? BRANCHING_FACTOR)%nat
                              then btree_fill_node (length cs1) else ret tt) x = Done tt x'
                             /\ filled h x x' (length cs1) c).
  { destruct (Nat.ltb_spec (n_keys c) BRANCHING_FACTOR) as [Hc1|Hc2]; unfold BRANCHING_FACTOR in *.
    - eapply btree_fill_node_run; (done || lia).
    - exists x. split; [done|]. exists ks1, ks2, cs1, c, cs2. split_and!; try (done || lia).
      rewrite (proj2 (Nat.ltb_ge _ _)), andb_false_r; [done|].
      rewrite Hx. unfold n_keys. cbn. rewrite length_app. lia. }
  destruct Hfill as (x' & Hrun & Hfill).
  rewrite (run_bind _ _ _ (n_keys c) x) by (rewrite Hx; by apply on_child_run).
  brun ltac:(exact Hrun). brun ltac:(reflexivity).
  destruct (delete_descend h x x' (length cs1) c key d IH Hfill Hg Hs Hin) as (x'' & Hrun' & ?).
  exists x''. by destruct (_ && _).
Qed.

Lemma delete_ok_inner h : delete_ok h -> delete_ok (S h).
Proof.
  intros IH x key d Hwf Hn Hg Hs Hin. destruct x as [b ks cs] eqn:Hx.
  pose proof (wf_sorted_keys _ _ Hwf Hs) as Hks. cbn [keys] in Hks.
  destruct (scan_up_spec key ks Hks) as (ks1 & ks2 & -> & Hscan & Hb & Ha).
  destruct (child_split _ _ _ _ _ Hwf) as (cs1 & c & cs2 & -> & Hl1 & Hl2 & Hc & Hn1).
  pose proof (wf_inner_inv _ _ _ _ Hwf) as (_ & -> & Hlc & _). rewrite <- Hx in *.
  assert (Har : around h x ks1 ks2 cs1 c cs2) by (unfold around; split_and!; done).
  cbn [btree_delete_helper]. brun ltac:(reflexivity).
  replace (keys x) with (ks1 ++ ks2) by by rewrite Hx. replace (is_leaf x) with false by by rewrite Hx.
  rewrite Hscan. destruct Ha as [Ha|(e & ks3 & -> & He)].
  - replace (match (ks1 ++ ks2) !! length ks1 with Some kd => kd.1 =? key | None => false end) with false.
    2:{ destruct (_ !! _) as [e|] eqn:He; [|done]. rewrite lookup_app_r, Nat.sub_diag in He by lia.
        pose proof (above_head _ _ _ _ Ha He). symmetry. apply Z.eqb_neq. lia. }
    rewrite <- Hl1. eapply delete_inner_miss; [done..|].
    rewrite Hx, flatten_node, inter_mid in Hin, Hs by done.
    apply sorted_app in Hs as (Hsl & Hs & _). apply sorted_app in Hs as (_ & Hsr & _).
    rewrite elem_mid in Hin; [done|by apply lefts_below|by apply rights_above].
  - rewrite lookup_mid. destruct e as [k d']. cbn in He. subst k. cbn [fst]. rewrite Z.eqb_refl.
    destruct cs2 as [|s cs2]; [done|].
    rewrite (sorted_unique _ (key, d')) in Hin; [|done| |done].
    2:{ rewrite Hx, flatten_node. apply inter_keys; [by right|set_solver]. }
    cbn in Hin. subst d' x. rewrite <- Hl1.
    destruct (btree_delete_internal_run h ks1 ks3 key d cs1 cs2 c s) as (x' & Hrun & Hwx & Hnx & Hfx);
      [done..|]. exists x'. split_and!; [done..|].
    rewrite Hfx, flatten_node, (flatten_pair h false) by done. apply deleted_mid. by eexists _, _.
Qed.

Lemma delete_ok_all h : delete_ok h.
Proof. induction h; [apply delete_ok_leaf|by apply delete_ok_inner]. Qed.

(** * The tree as a finite map *)

(** [btree_rep t m]: the tree is balanced, its entries are in order, each is a
    frame under its page number, and together they are the map [m]. *)
Definition btree_rep (t : option node) (m : gmap Z D) : Prop :=
  match t with
  | None => m = ∅
  | Some x =>
      exists h, wf h x /\ (1 <= n_keys x)%nat /\ sorted (flatten x)
        /\ Forall good (flatten x) /\ m = list_to_map (flatten x)
  end.

Lemma sorted_NoDup l : sorted l -> NoDup l.*1.
Proof.
  induction l as [|e l IH]; intros Hs; [constructor|]. apply sorted_cons in Hs as [Ha Hs].
  cbn. constructor; [by apply not_above|by apply IH].
Qed.

Lemma sorted_lookup l k d :
  sorted l -> (list_to_map l : gmap Z D) !! k = Some d <-> (k, d) ∈ l.
Proof. intros Hs. symmetry. apply elem_of_list_to_map. by apply sorted_NoDup. Qed.

Lemma inserted_map e l l' :
  inserted e l l' -> (list_to_map l' : gmap Z D) = <[e.1 := e.2]> (list_to_map l).
Proof.
  intros (l1 & l2 & -> & -> & Hb & _). destruct e as [k d]. cbn in *.
  induction l1 as [|[k1 d1] l1 IH]; cbn; [done|].
  apply Forall_cons_iff in Hb as [Hk Hb]. cbn in Hk. rewrite IH by done.
  apply insert_insert_ne. lia.
Qed.

Lemma deleted_map k d l l' :
  sorted l -> deleted (k, d) l l' -> (list_to_map l' : gmap Z D) = delete k (list_to_map l).
Proof.
  intros Hs (l1 & l2 & -> & ->).
  assert (Hi : inserted (k, d) (l1 ++ l2) (l1 ++ (k, d) :: l2)).
  { apply sorted_mid in Hs as (_ & ? & ?). by exists l1, l2. }
  rewrite (inserted_map _ _ _ Hi). cbn. rewrite delete_insert_id; [done|].
  apply not_elem_of_list_to_map. apply sorted_mid in Hs as (_ & Hb & Ha).
  rewrite fmap_app, elem_of_app. intros [H|H]; [by apply not_below in H|by apply not_above in H].
Qed.

Lemma inserted_sorted e l l' : sorted l -> inserted e l l' -> sorted l'.
Proof. intros Hs (l1 & l2 & -> & -> & ? & ?). by apply sorted_mid. Qed.

Lemma inserted_good e l l' : good e -> Forall good l -> inserted e l l' -> Forall good l'.
Proof.
  intros He Hg (l1 & l2 & -> & -> & _ & _). rewrite Forall_app, Forall_cons_iff.
  rewrite Forall_app in Hg. tauto.
Qed.

Lemma btree_search_rep t m k : btree_rep t m -> btree_search t k = m !! k.
Proof.
  destruct t as [x|]; [|intros ->; by rewrite lookup_empty].
  intros (h & Hwf & _ & Hs & _ & ->). cbn. rewrite (wf_height h) by done.
  apply option_eq. intros d. by rewrite btree_search_rec_spec, sorted_lookup.
Qed.

(** The node insertion starts from, and the tree it leaves. *)
Lemma btree_insert_from h x k d (x' : node) :
  wf h x' -> (1 <= n_keys x')%nat -> inserted (k, d) (flatten x) (flatten x') ->
  good (k, d) -> Forall good (flatten x) -> sorted (flatten x) ->
  btree_assert_sanity pf_pagenum x' = true
  /\ btree_rep (Some x') (<[k := d]> (list_to_map (flatten x))).
Proof.
  intros Hwf Hn Hins Hg Hgx Hs. pose proof (inserted_good _ _ _ Hg Hgx Hins) as Hg'.
  split; [by eapply btree_sane|]. exists h. split_and!; [done..| |done|].
  - by eapply inserted_sorted.
  - symmetry. by apply (inserted_map (k, d)).
Qed.

Lemma inserted_keys h x e l : wf h x -> inserted e l (flatten x) -> (1 <= n_keys x)%nat \/ h <> 0%nat.
Proof.
  destruct h; [|by right]. destruct x as [b ks cs]. intros (_ & _ & ->)%wf_leaf_inv Hins. left.
  rewrite flatten_node in Hins. cbn in Hins. destruct Hins as (l1 & l2 & _ & -> & _).
  unfold n_keys. cbn. rewrite length_app. cbn. lia.
Qed.

(** Growing the tree: a full root becomes the only child of a new root and is
    split. *)
Lemma btree_grow_run h x :
  oom = false -> wf h x -> n_keys x = 3%nat -> Forall good (flatten x) ->
  exists y, (do! btree_append_child x; btree_split_child 0) (Node true [] []) = Done tt y
    /\ wf (S h) y /\ n_keys y = 1%nat /\ flatten y = flatten x.
Proof.
  intros Hoom Hwf Hn Hg. brun ltac:(apply append_child_run; cbn; lia).
  destruct (btree_split_child_run h [] [] [] x [] 0)
    as (c1 & e & c2 & Hrun & Hw1 & Hw2 & Hn1 & Hn2 & Hfl); try (done || (cbn; lia)).
  { by eapply keys_flatten. }
  eexists. split; [exact Hrun|]. rewrite wf_inner, flatten_node, Hfl. cbn.
  rewrite app_nil_r, !Forall_cons_iff, Hn1, Hn2. split_and!; (done || lia).
Qed.

Lemma btree_insert_rep t m k d :
  oom = false -> btree_rep t m -> good (k, d) -> m !! k = None ->
  exists t', btree_insert pf_pagenum k d t = Done tt t' /\ btree_rep t' (<[k := d]> m).
Proof.
  intros Hoom Hrep Hgood Hnone.
  assert (Hx : exists h x, (match t with Some x => Some x | None => btree_node_create end) = Some x
    /\ wf h x /\ (h <> 0%nat -> (1 <= n_keys x)%nat) /\ sorted (flatten x) /\ Forall good (flatten x)
    /\ m = list_to_map (flatten x)).
  { destruct t as [x|].
    - destruct Hrep as (h & ? & ? & ? & ? & ?). by exists h, x.
    - exists 0%nat, (Node true [] []). unfold btree_node_create. rewrite Hoom.
      rewrite wf_leaf. cbn. split_and!; try (done || lia || constructor). }
  destruct Hx as (h & x & Hx & Hwf & Hn & Hs & Hg & ->). unfold btree_insert. rewrite Hx.
  assert (Hk : k ∉ (flatten x).*1) by (by apply not_elem_of_list_to_map).
  rewrite (wf_height h) by done.
  destruct (Nat.eqb_spec (n_keys x) MAX_KEYS) as [Hfull|Hfull].
  - unfold btree_node_create. rewrite Hoom.
    destruct (btree_grow_run h x) as (y & Hrun & Hwy & Hny & Hfy); [done..|]. rewrite <- Hfy in *.
    destruct (insert_ok_all (S h) Hoom y k d) as (y' & Hrun' & Hwy' & Hny' & Hins); try (done || lia).
    assert (Hgrow : (do! btree_append_child x; do! btree_split_child 0;
                     btree_insert_nonfull (S h) k d) (Node true [] []) = Done tt y').
    { apply bind_Done in Hrun as ([] & s1 & H1 & H2). rewrite (run_bind _ _ _ _ _ H1).
      by rewrite (run_bind _ _ _ _ _ H2). }
    rewrite Hgrow. destruct (btree_insert_from (S h) y k d y') as [-> Hrep']; try (done || lia).
    by exists (Some y').
  - pose proof (wf_keys_le _ _ Hwf). change MAX_KEYS with 3%nat in Hfull.
    destruct (insert_ok_all h Hoom x k d) as (x' & -> & Hwx' & Hnx' & Hins); try (done || lia).
    destruct (btree_insert_from h x k d x') as [-> Hrep']; try done; [|by exists (Some x')].
    destruct (inserted_keys _ _ _ _ Hwx' Hins); [done|]. specialize (Hn ltac:(done)). lia.
Qed.

Lemma btree_delete_rep t m k d :
  btree_rep t m -> m !! k = Some d ->
  exists t', btree_delete pf_pagenum k t = Done tt t' /\ btree_rep t' (delete k m).
Proof.
  intros Hrep Hk. destruct t as [x|]; [|cbn in Hrep; rewrite Hrep in Hk; by rewrite lookup_empty in Hk].
  destruct Hrep as (h & Hwf & Hn & Hs & Hg & ->).
  pose proof (proj1 (sorted_lookup _ _ _ Hs) Hk) as Hin.
  destruct (btree_delete_with_run h x k d) as (x' & Hrun & Hwx & Hnx & Hdel & Hwith);
    [apply delete_ok_all|done..|].
  unfold btree_delete. rewrite (wf_height h) by done. rewrite <- (deleted_map _ _ _ _ Hs Hdel).
  pose proof (deleted_good _ _ _ _ Hdel Hg) as Hg'.
  assert (Hs' : sorted (flatten x')).
  { destruct Hdel as (l1 & l2 & Heq & ->). rewrite Heq in Hs. by apply sorted_mid in Hs as (? & _). }
  destruct (decide (n_keys x' = 0%nat)) as [H0|H0].
  - unfold btree_delete_with, btree_search. rewrite (wf_height h) by done.
    rewrite (proj2 (btree_search_rec_spec h x k d Hwf Hs) Hin), Hrun, H0. cbn [Nat.eqb].
    destruct x' as [b ks cs]. unfold n_keys in H0. cbn [keys] in H0. destruct ks; [|done].
    destruct h as [|h].
    + apply wf_leaf_inv in Hwx as (_ & -> & ->). exists None. done.
    + apply wf_inner_inv in Hwx as (_ & -> & Hl & Hcs). destruct cs as [|c [|]]; try done.
      apply Forall_cons_iff in Hcs as [[Hc Hnc] _]. rewrite flatten_node in Hg', Hs' |- *.
      cbn [inter] in *. rewrite app_nil_r in *. cbn [is_leaf children lookup list_lookup].
      rewrite (btree_sane h) by done. exists (Some c). split; [done|]. by exists h.
  - exists (Some x'). split; [apply Hwith; lia|]. exists h. split_and!; (done || lia).
Qed.

(** C4: inserting a frame whose page number is not in the index never faults or
    fails an assertion, keeps the tree balanced, ordered and keyed by page
    number, and changes the result of [btree_search] at that page number
    only. *)
Theorem btree_insert_correct t m k d :
  oom = false -> btree_rep t m -> 0 <= k < 2 ^ 31 -> pf_pagenum d = k -> btree_search t k = None ->
  exists t', btree_insert pf_pagenum k d t = Done tt t' /\ btree_rep t' (<[k := d]> m)
    /\ forall k', btree_search t' k' = if decide (k' = k) then Some d else btree_search t k'.
Proof.
  intros Hoom Hrep Hk Hd Hnone. pose proof (btree_search_rep _ _ k Hrep) as Hl. rewrite Hnone in Hl.
  destruct (btree_insert_rep t m k d) as (t' & Hrun & Hrep'); [done..|].
  exists t'. split_and!; [done..|]. intros k'.
  rewrite (btree_search_rep _ _ _ Hrep), (btree_search_rep _ _ _ Hrep').
  case_decide as Hk'; [subst k'; apply lookup_insert_eq|by rewrite lookup_insert_ne].
Qed.

(** C5: deleting a page number that is in the index never faults or fails an
    assertion, keeps the tree balanced, ordered and keyed by page number, and
    removes exactly that entry; deleting one that is not there panics. *)
Theorem btree_delete_correct t m k :
  btree_rep t m ->
  match btree_search t k with
  | Some _ =>
      exists t', btree_delete pf_pagenum k t = Done tt t' /\ btree_rep t' (delete k m)
        /\ forall k', btree_search t' k' = if decide (k' = k) then None else btree_search t k'
  | None => btree_delete pf_pagenum k t = Failed Assert
  end.
Proof.
  intros Hrep. destruct (btree_search t k) as [d|] eqn:Hk.
  - pose proof (btree_search_rep _ _ k Hrep) as Hl. rewrite Hk in Hl.
    destruct (btree_delete_rep t m k d) as (t' & Hrun & Hrep'); [done..|].
    exists t'. split_and!; [done..|]. intros k'.
    rewrite (btree_search_rep _ _ _ Hrep), (btree_search_rep _ _ _ Hrep').
    case_decide as Hk'; [subst k'; apply lookup_delete_eq|by rewrite lookup_delete_ne].
  - unfold btree_delete, btree_delete_with. destruct t; by rewrite ?Hk.
Qed.
End btree_proofs.

(** A full root and a tree of height one, over frames that are their page
    numbers. *)
Definition example_leaf : option (node (D := Z)) := Some (Node true [(1, 1); (2, 2); (3, 3)] []).
Definition example_tree : option (node (D := Z)) :=
  Some (Node false [(4, 4)] [Node true [(2, 2)] []; Node true [(7, 7)] []]).

Lemma example_leaf_rep : btree_rep id example_leaf (list_to_map [(1, 1); (2, 2); (3, 3)]).
Proof.
  exists 0%nat. split_and!; cbn; try (done || lia).
  - repeat constructor; cbn; lia.
  - repeat (constructor; [by split; cbn; lia|]). constructor.
Qed.

Lemma example_tree_rep : btree_rep id example_tree (list_to_map [(2, 2); (4, 4); (7, 7)]).
Proof.
  exists 1%nat. split_and!; cbn; try (done || lia).
  - repeat constructor; cbn; lia.
  - repeat constructor; cbn; lia.
  - repeat (constructor; [by split; cbn; lia|]). constructor.
Qed.

Lemma btree_insert_correct_witness :
  exists t', btree_insert (mem := false) id 9 9 example_leaf = Done tt t'
    /\ btree_search t' 2 = Some 2 /\ btree_search t' 9 = Some 9.
Proof.
  destruct (btree_insert_correct (mem := false) id example_leaf _ 9 9 eq_refl example_leaf_rep)
    as (t' & Hrun & _ & Hs); [lia|reflexivity|reflexivity|].
  exists t'. split; [exact Hrun|]. rewrite !Hs. split; reflexivity.
Defined.

Lemma btree_delete_correct_witness :
  exists t', btree_delete id 4 example_tree = Done tt t' /\ btree_search t' 4 = None
    /\ btree_search t' 7 = Some 7.
Proof.
  destruct (btree_delete_correct id example_tree _ 4 example_tree_rep) as (t' & Hrun & _ & Hs).
  exists t'. split; [exact Hrun|]. rewrite !Hs. split; reflexivity.
Defined.
