(* ===== verification/Mobj.v ===== *)
(** Memory objects and page frames: [mm/mobj.c] and [mm/pframe.c], with the
    mutexes they use.

    A memory object is part of a larger state (a vnode, or the file system for
    its own metadata pages), so the operations are written over any state [St]
    with a lens to the object, and the object's [fill_pframe] and
    [flush_pframe] operations are arguments.  A page frame is named by its page
    number within its object. *)

From S2P Require Import Prelude Btree.

(** * Parts of a state *)

Record lens (St T : Type) : Type := Lens {
  lget : St -> T;
  lset : T -> St -> St;
}.
Arguments Lens {St T} lget lset.
Arguments lget {St T} l s.
Arguments lset {St T} l t s.

Definition lens_comp {St T U} (l1 : lens St T) (l2 : lens T U) : lens St U :=
  Lens (fun s => lget l2 (lget l1 s)) (fun u s => lset l1 (lset l2 u (lget l1 s)) s).

(** The laws of a lens to a field of a record. *)
Class LensLaws {St T} (l : lens St T) : Prop := {
  lget_lset : forall t s, lget l (lset l t s) = t;
  lset_lset : forall t t' s, lset l t (lset l t' s) = lset l t s;
  lset_lget : forall s, lset l (lget l s) s = s;
}.

(** * Mutexes

    One thread runs: a mutex is held or not, [true] when the current thread is
    its owner.  [kmutex_lock] asserts that the caller is not already the owner
    and [kmutex_unlock] that it is. *)

Definition kmutex_lock {St} (m : lens St bool) : M St unit := fun s =>
  if lget m s then Failed Assert else Done tt (lset m true s).

Definition kmutex_unlock {St} (m : lens St bool) : M St unit := fun s =>
  if lget m s then Done tt (lset m false s) else Failed Assert.

(** * Page frames *)

Record pframe : Type := Pframe {
  pf_pagenum : Z;
  pf_loc : Z;
  pf_addr : option (list Z);
  pf_dirty : bool;
  pf_mutex : bool;
}.

Definition set_pf_addr (a : option (list Z)) (pf : pframe) : pframe :=
  Pframe (pf_pagenum pf) (pf_loc pf) a (pf_dirty pf) (pf_mutex pf).
Definition set_pf_loc (l : Z) (pf : pframe) : pframe :=
  Pframe (pf_pagenum pf) l (pf_addr pf) (pf_dirty pf) (pf_mutex pf).
Definition set_pf_dirty (d : bool) (pf : pframe) : pframe :=
  Pframe (pf_pagenum pf) (pf_loc pf) (pf_addr pf) d (pf_mutex pf).
Definition set_pf_mutex (b : bool) (pf : pframe) : pframe :=
  Pframe (pf_pagenum pf) (pf_loc pf) (pf_addr pf) (pf_dirty pf) b.

(** * Memory objects *)

Record mobj : Type := Mobj {
  mo_refcount : Z;
  mo_mutex : bool;
  mo_pframes : list pframe;
  mo_btree : option (node (D := Z));
}.

Definition set_mo_refcount (n : Z) (o : mobj) : mobj :=
  Mobj n (mo_mutex o) (mo_pframes o) (mo_btree o).
Definition set_mo_mutex (b : bool) (o : mobj) : mobj :=
  Mobj (mo_refcount o) b (mo_pframes o) (mo_btree o).
Definition set_mo_pframes (l : list pframe) (o : mobj) : mobj :=
  Mobj (mo_refcount o) (mo_mutex o) l (mo_btree o).
Definition set_mo_btree (t : option node) (o : mobj) : mobj :=
  Mobj (mo_refcount o) (mo_mutex o) (mo_pframes o) t.

Definition mo_mutex_lens : lens mobj bool := Lens mo_mutex set_mo_mutex.
Definition mo_btree_lens : lens mobj (option node) := Lens mo_btree set_mo_btree.

(** [mobj_init]: one reference, no frames. *)
Definition mobj_init : mobj := Mobj 1 false [] None.

(** What a page holds before it is filled. *)
Class Pages := page_garbage : list Z.

Section mobj.
Context {St : Type} (mo : lens St mobj).
Context {mem : Memory} {pages : Pages}.

Definition mobj_lock : M St unit := kmutex_lock (lens_comp mo mo_mutex_lens).
Definition mobj_unlock : M St unit := kmutex_unlock (lens_comp mo mo_mutex_lens).

(** [kmutex_owns_mutex(&o->mo_mutex)] *)
Definition mobj_owned : M St bool := gets (fun s => mo_mutex (lget mo s)).

Definition mo_modify (f : mobj -> mobj) : M St unit :=
  modify (fun s => lset mo (f (lget mo s)) s).

Definition mobj_ref : M St unit :=
  mo_modify (fun o => set_mo_refcount (mo_refcount o + 1) o).

Definition mobj_put (destructor : M St unit) : M St unit :=
  let! s := get in
  do! kassert (negb (mo_refcount (lget mo s) =? 0));
  do! mo_modify (fun o => set_mo_refcount (mo_refcount o - 1) o);
  let! s := get in
  if mo_refcount (lget mo s) =? 0 then
    do! kassert (negb (mo_mutex (lget mo s)));
    destructor
  else ret tt.

Definition mobj_put_locked (destructor : M St unit) : M St unit :=
  do! mobj_unlock;
  mobj_put destructor.

(** ** Access to a frame *)

Definition find_pf (pagenum : Z) (l : list pframe) : option pframe :=
  snd <$> list_find (fun pf => pf_pagenum pf = pagenum) l.

Definition upd_pf (pagenum : Z) (f : pframe -> pframe) (l : list pframe) : list pframe :=
  map (fun pf => if pf_pagenum pf =? pagenum then f pf else pf) l.

Definition pf_get (pagenum : Z) : M St pframe :=
  let! s := get in deref (find_pf pagenum (mo_pframes (lget mo s))).

Definition pf_modify (pagenum : Z) (f : pframe -> pframe) : M St unit :=
  let! _ := pf_get pagenum in
  mo_modify (fun o => set_mo_pframes (upd_pf pagenum f (mo_pframes o)) o).

Definition pf_lock (pagenum : Z) : M St unit :=
  let! pf := pf_get pagenum in
  if pf_mutex pf then fail Assert else pf_modify pagenum (set_pf_mutex true).

Definition pf_unlock (pagenum : Z) : M St unit :=
  let! pf := pf_get pagenum in
  if pf_mutex pf then pf_modify pagenum (set_pf_mutex false) else fail Assert.

Definition pframe_release (pagenum : Z) : M St unit :=
  let! pf := pf_get pagenum in
  do! kassert (pf_mutex pf);
  pf_unlock pagenum.

(** [pframe_create], and [pframe_free] of a frame that was unlinked. *)
Definition pframe_create : option pframe :=
  if oom then None else Some (Pframe 0 0 None false false).

Definition pframe_free (pf : pframe) : M St unit :=
  do! kassert (pf_mutex pf);
  do! kassert (match pf_addr pf with None => true | Some _ => false end);
  kassert (negb (pf_dirty pf)).

(** [list_remove(&pf->pf_link)] *)
Definition mo_unlink (pagenum : Z) : M St unit :=
  mo_modify (fun o =>
    set_mo_pframes (filter (fun pf => pf_pagenum pf <> pagenum) (mo_pframes o)) o).

(** ** Operations *)

Definition mobj_find_pframe (pagenum : Z) : M St (option Z) :=
  let! owned := mobj_owned in
  do! kassert owned;
  let! s := get in
  match btree_search (mo_btree (lget mo s)) pagenum with
  | Some pf => do! pf_lock pf; ret (Some pf)
  | None => ret None
  end.

Definition mobj_create_pframe (pagenum loc : Z) : M St (option Z) :=
  let! owned := mobj_owned in
  do! kassert owned;
  match pframe_create with
  | None => ret None
  | Some pf =>
      let pf := set_pf_mutex true pf in
      let pf := Pframe pagenum loc (pf_addr pf) (pf_dirty pf) (pf_mutex pf) in
      do! mo_modify (fun o => set_mo_pframes (mo_pframes o ++ [pf]) o);
      do! zoom (fun s => mo_btree (lget mo s))
               (fun t s => lset mo (set_mo_btree t (lget mo s)) s)
               (btree_insert id pagenum pagenum);
      let! pf := pf_get pagenum in
      do! kassert (pf_mutex pf);
      ret (Some pagenum)
  end.

Section ops.
Context (fill_pframe flush_pframe : Z -> M St Z).

Definition mobj_default_get_pframe (pagenum : Z) (forwrite : bool) : M St (Z * option Z) :=
  let! owned := mobj_owned in
  do! kassert owned;
  let! pf := mobj_find_pframe pagenum in
  let! pf := (match pf with
              | Some pf => ret (Some pf)
              | None => mobj_create_pframe pagenum 0
              end) in
  match pf with
  | None => ret (- ENOMEM, None)
  | Some n =>
      let! pf := pf_get n in
      do! kassert (pf_mutex pf);
      match pf_addr pf with
      | Some _ =>
          do! pf_modify n (fun pf => set_pf_dirty (pf_dirty pf || forwrite) pf);
          ret (0, Some n)
      | None =>
          do! kassert (negb (pf_dirty pf));
          if oom then ret (- ENOMEM, None)
          else
            do! pf_modify n (set_pf_addr (Some page_garbage));
            let! r := fill_pframe n in
            if r =? 0 then
              do! pf_modify n (fun pf => set_pf_dirty (pf_dirty pf || forwrite) pf);
              ret (0, Some n)
            else
              do! pf_modify n (set_pf_addr None);
              do! pf_unlock n;
              ret (r, None)
      end
  end.

Definition mobj_flush_pframe (n : Z) : M St Z :=
  let! owned := mobj_owned in
  do! kassert owned;
  let! pf := pf_get n in
  do! kassert (pf_mutex pf);
  do! kassert (match pf_addr pf with Some _ => true | None => false end);
  if pf_dirty pf then
    let! r := flush_pframe n in
    if r =? 0 then do! pf_modify n (set_pf_dirty false); ret 0
    else ret r
  else ret 0.

(** [list_iterate] reads the successor before the body runs. *)
Fixpoint mobj_flush_loop (l : list Z) (acc : Z) : M St Z :=
  match l with
  | [] => ret acc
  | n :: l =>
      do! pf_lock n;
      let! pf := pf_get n in
      let! acc := (match pf_addr pf with
                   | Some _ => let! r := mobj_flush_pframe n in ret (Z.lor acc r)
                   | None => ret acc
                   end) in
      do! pframe_release n;
      mobj_flush_loop l acc
  end.

Definition mobj_flush : M St Z :=
  let! owned := mobj_owned in
  do! kassert owned;
  let! s := get in
  mobj_flush_loop (pf_pagenum <$> mo_pframes (lget mo s)) 0.

Definition mo_btree_delete (n : Z) : M St unit :=
  zoom (fun s => mo_btree (lget mo s)) (fun t s => lset mo (set_mo_btree t (lget mo s)) s)
       (btree_delete id n).

Definition mobj_free_pframe (n : Z) : M St Z :=
  let! pf := pf_get n in
  let! r := (match pf_addr pf with
             | None => ret 0
             | Some _ =>
                 let! r := mobj_flush_pframe n in
                 if r =? 0 then do! pf_modify n (set_pf_addr None); ret 0 else ret r
             end) in
  if r =? 0 then
    let! pf := pf_get n in
    do! mo_unlink n;
    do! mo_btree_delete n;
    do! pframe_free pf;
    ret 0
  else ret r.

Definition mobj_delete_pframe (pagenum : Z) : M St unit :=
  let! s := get in
  match btree_search (mo_btree (lget mo s)) pagenum with
  | None => ret tt
  | Some n =>
      do! pf_lock n;
      let! pf := pf_get n in
      do! mo_unlink n;
      do! mo_btree_delete n;
      pframe_free (set_pf_addr None (set_pf_dirty false pf))
  end.

Fixpoint mobj_free_loop (l : list Z) (acc : Z) : M St Z :=
  match l with
  | [] => ret acc
  | n :: l =>
      do! pf_lock n;
      let! r := mobj_free_pframe n in
      mobj_free_loop l (Z.lor acc r)
  end.

Definition mobj_default_destructor : M St unit :=
  do! mobj_lock;
  let! s := get in
  let! _ := mobj_free_loop (pf_pagenum <$> mo_pframes (lget mo s)) 0 in
  let! s := get in
  do! kassert (match mo_btree (lget mo s) with None => true | Some _ => false end);
  mobj_unlock.
End ops.
End mobj.
