(* ===== verification/Vnode.v ===== *)
(** The kernel state of the VFS and the vnode layer: [fs/vnode.c],
    [fs/vnode_specials.c], the macros of [include/fs/stat.h] and the structures
    of [include/fs/vnode.h], [include/fs/vfs.h] and [include/fs/file.h].

    One file system is mounted (the kernel is built without mounting).  Vnodes
    and open files are heap objects: the state maps their addresses to them.
    [F] is the file system's private data ([fs_i]) and [V] the private data of
    a vnode ([vn_i], and the part of the file system's node that follows the
    vnode). *)

From S2P Require Import Prelude Mobj.

(** * Modes, flags and limits *)

Definition S_IFCHR : Z := 0x100.
Definition S_IFDIR : Z := 0x200.
Definition S_IFBLK : Z := 0x400.
Definition S_IFREG : Z := 0x800.
Definition S_TYPE (m : Z) : Z := Z.land m 0xFF00.
Definition S_ISCHR (m : Z) : bool := S_TYPE m =? S_IFCHR.
Definition S_ISDIR (m : Z) : bool := S_TYPE m =? S_IFDIR.
Definition S_ISBLK (m : Z) : bool := S_TYPE m =? S_IFBLK.
Definition S_ISREG (m : Z) : bool := S_TYPE m =? S_IFREG.

Definition FMODE_READ : Z := 1.
Definition FMODE_WRITE : Z := 2.
Definition FMODE_APPEND : Z := 4.
Definition FMODE_MAX_VALUE : Z := 7.

Definition O_RDONLY : Z := 0.
Definition O_WRONLY : Z := 1.
Definition O_RDWR : Z := 2.
Definition O_CREAT : Z := 0x100.
Definition O_TRUNC : Z := 0x200.
Definition O_APPEND : Z := 0x400.

(** [flags & bit] as a condition. *)
Definition has (flags bit : Z) : bool := negb (Z.land flags bit =? 0).

(** * Structures *)

(** The operation tables a vnode's [vn_ops] can point to. *)
Inductive vops : Type := VopsNull | VopsDir | VopsFile | VopsChar | VopsBlock.
#[export] Instance vops_eq_dec : EqDecision vops.
Proof. solve_decision. Defined.

Inductive vnode_state : Type := VNODE_LOADING | VNODE_LOADED.
#[export] Instance vnode_state_eq_dec : EqDecision vnode_state.
Proof. solve_decision. Defined.

Record vnode (V : Type) : Type := Vnode {
  vn_ops : vops;
  vn_mobj : mobj;
  vn_vno : Z;
  vn_mode : Z;
  vn_len : Z;
  vn_i : option V;
  vn_devid : Z;
  vn_state : vnode_state;
  vn_dev : option Z;
}.
Arguments Vnode {V}.
Arguments vn_ops {V} _.
Arguments vn_mobj {V} _.
Arguments vn_vno {V} _.
Arguments vn_mode {V} _.
Arguments vn_len {V} _.
Arguments vn_i {V} _.
Arguments vn_devid {V} _.
Arguments vn_state {V} _.
Arguments vn_dev {V} _.

Record file : Type := File {
  f_pos : Z;
  f_mode : Z;
  f_refcount : Z;
  f_vnode : Z;
}.

Record kst (F V : Type) : Type := Kst {
  k_vnodes : gmap Z (vnode V);        (* vnodes by address *)
  vnode_list : list Z;                (* vfs_root_fs.vnode_list *)
  vnode_list_mutex : bool;
  vnode_rename_mutex : bool;
  fs_root : Z;                        (* vfs_root_fs.fs_root *)
  fs_i : F;                           (* vfs_root_fs.fs_i *)
  k_next : Z;                         (* next address the slab allocators give *)
  k_files : gmap Z file;              (* open files by address *)
  p_files : list (option Z);          (* curproc->p_files *)
  p_cwd : Z;                          (* curproc->p_cwd *)
}.
Arguments Kst {F V}.
Arguments k_vnodes {F V} _.
Arguments vnode_list {F V} _.
Arguments vnode_list_mutex {F V} _.
Arguments vnode_rename_mutex {F V} _.
Arguments fs_root {F V} _.
Arguments fs_i {F V} _.
Arguments k_next {F V} _.
Arguments k_files {F V} _.
Arguments p_files {F V} _.
Arguments p_cwd {F V} _.

Section setters.
Context {F V : Type}.
Implicit Types (v : vnode V) (s : kst F V).

Definition set_vn_ops (o : vops) v : vnode V :=
  Vnode o (vn_mobj v) (vn_vno v) (vn_mode v) (vn_len v) (vn_i v) (vn_devid v) (vn_state v) (vn_dev v).
Definition set_vn_mobj (o : mobj) v : vnode V :=
  Vnode (vn_ops v) o (vn_vno v) (vn_mode v) (vn_len v) (vn_i v) (vn_devid v) (vn_state v) (vn_dev v).
Definition set_vn_mode (m : Z) v : vnode V :=
  Vnode (vn_ops v) (vn_mobj v) (vn_vno v) m (vn_len v) (vn_i v) (vn_devid v) (vn_state v) (vn_dev v).
Definition set_vn_len (l : Z) v : vnode V :=
  Vnode (vn_ops v) (vn_mobj v) (vn_vno v) (vn_mode v) l (vn_i v) (vn_devid v) (vn_state v) (vn_dev v).
Definition set_vn_i (i : option V) v : vnode V :=
  Vnode (vn_ops v) (vn_mobj v) (vn_vno v) (vn_mode v) (vn_len v) i (vn_devid v) (vn_state v) (vn_dev v).
Definition set_vn_devid (d : Z) v : vnode V :=
  Vnode (vn_ops v) (vn_mobj v) (vn_vno v) (vn_mode v) (vn_len v) (vn_i v) d (vn_state v) (vn_dev v).
Definition set_vn_state (st : vnode_state) v : vnode V :=
  Vnode (vn_ops v) (vn_mobj v) (vn_vno v) (vn_mode v) (vn_len v) (vn_i v) (vn_devid v) st (vn_dev v).
Definition set_vn_dev (d : option Z) v : vnode V :=
  Vnode (vn_ops v) (vn_mobj v) (vn_vno v) (vn_mode v) (vn_len v) (vn_i v) (vn_devid v) (vn_state v) d.

Definition set_vnodes (m : gmap Z (vnode V)) s : kst F V :=
  Kst m (vnode_list s) (vnode_list_mutex s) (vnode_rename_mutex s) (fs_root s) (fs_i s) (k_next s)
      (k_files s) (p_files s) (p_cwd s).
Definition set_vnode_list (l : list Z) s : kst F V :=
  Kst (k_vnodes s) l (vnode_list_mutex s) (vnode_rename_mutex s) (fs_root s) (fs_i s) (k_next s)
      (k_files s) (p_files s) (p_cwd s).
Definition set_vnode_list_mutex (b : bool) s : kst F V :=
  Kst (k_vnodes s) (vnode_list s) b (vnode_rename_mutex s) (fs_root s) (fs_i s) (k_next s)
      (k_files s) (p_files s) (p_cwd s).
Definition set_vnode_rename_mutex (b : bool) s : kst F V :=
  Kst (k_vnodes s) (vnode_list s) (vnode_list_mutex s) b (fs_root s) (fs_i s) (k_next s)
      (k_files s) (p_files s) (p_cwd s).
Definition set_fs_root (p : Z) s : kst F V :=
  Kst (k_vnodes s) (vnode_list s) (vnode_list_mutex s) (vnode_rename_mutex s) p (fs_i s) (k_next s)
      (k_files s) (p_files s) (p_cwd s).
Definition set_fs_i (f : F) s : kst F V :=
  Kst (k_vnodes s) (vnode_list s) (vnode_list_mutex s) (vnode_rename_mutex s) (fs_root s) f (k_next s)
      (k_files s) (p_files s) (p_cwd s).
Definition set_k_next (n : Z) s : kst F V :=
  Kst (k_vnodes s) (vnode_list s) (vnode_list_mutex s) (vnode_rename_mutex s) (fs_root s) (fs_i s) n
      (k_files s) (p_files s) (p_cwd s).
Definition set_k_files (m : gmap Z file) s : kst F V :=
  Kst (k_vnodes s) (vnode_list s) (vnode_list_mutex s) (vnode_rename_mutex s) (fs_root s) (fs_i s)
      (k_next s) m (p_files s) (p_cwd s).
Definition set_p_files (l : list (option Z)) s : kst F V :=
  Kst (k_vnodes s) (vnode_list s) (vnode_list_mutex s) (vnode_rename_mutex s) (fs_root s) (fs_i s)
      (k_next s) (k_files s) l (p_cwd s).
Definition set_p_cwd (p : Z) s : kst F V :=
  Kst (k_vnodes s) (vnode_list s) (vnode_list_mutex s) (vnode_rename_mutex s) (fs_root s) (fs_i s)
      (k_next s) (k_files s) (p_files s) p.
End setters.

(** [memset(vn, 0, sizeof(vnode_t))] followed by [vnode_init]. *)
Definition vnode_init {V} (ino : Z) : vnode V :=
  Vnode VopsNull mobj_init ino 0 0 None 0 VNODE_LOADING None.

Definition vn_mobj_lens {V} : lens (vnode V) mobj := Lens vn_mobj set_vn_mobj.

(** * The file system as [vnode.c] sees it *)

(** [fs_ops] and the page-frame part of the vnode operations.  [flush_pframe]
    works on a vnode and the file system's data. *)
Record fs_ops (F V : Type) : Type := FsOps {
  read_vnode : Z -> M (kst F V) unit;
  delete_vnode : option (Z -> M (kst F V) unit);
  vop_flush_pframe : vops -> option (Z -> M (vnode V * F) Z);
}.
Arguments FsOps {F V}.
Arguments read_vnode {F V} _.
Arguments delete_vnode {F V} _.
Arguments vop_flush_pframe {F V} _.

(** The device drivers, which are outside the sources: the device tables and
    the [read] and [write] operations of a character device. *)
Class Drivers : Type := {
  chardev_lookup : Z -> option Z;
  blockdev_lookup : Z -> option Z;
  cd_read : Z -> Z -> Z -> Z * list Z;          (* device, position, count *)
  cd_write : Z -> Z -> list Z -> Z;
}.

Section vnode.
Context {F V : Type} {mem : Memory} {drv : Drivers}.
Context (fs : fs_ops F V).
Abbreviation K := (kst F V).

(** * Access to a vnode *)

Definition vn_get (p : Z) : M K (vnode V) := let! s := get in deref (k_vnodes s !! p).

Definition vn_put (p : Z) (v : vnode V) : M K unit :=
  modify (fun s => set_vnodes (<[p := v]> (k_vnodes s)) s).

Definition vn_modify (p : Z) (f : vnode V -> vnode V) : M K unit :=
  let! v := vn_get p in vn_put p (f v).

(** Run a computation on a vnode. *)
Definition on_vnode {A} (p : Z) (m : M (vnode V) A) : M K A := fun s =>
  match k_vnodes s !! p with
  | None => Failed Fault
  | Some v =>
      match m v with
      | Done a v' => Done a (set_vnodes (<[p := v']> (k_vnodes s)) s)
      | Failed f => Failed f
      end
  end.

(** Run a computation on a vnode and the file system's data. *)
Definition on_vnode_fs {A} (p : Z) (m : M (vnode V * F) A) : M K A := fun s =>
  match k_vnodes s !! p with
  | None => Failed Fault
  | Some v =>
      match m (v, fs_i s) with
      | Done a (v', f') => Done a (set_fs_i f' (set_vnodes (<[p := v']> (k_vnodes s)) s))
      | Failed f => Failed f
      end
  end.

Definition vnode_mobj_fs : lens (vnode V * F) mobj :=
  Lens (fun vf => vn_mobj vf.1) (fun o vf => (set_vn_mobj o vf.1, vf.2)).

(** * vnode_specials.c *)

Definition init_special_vnode (p : Z) : M K unit :=
  let! v := vn_get p in
  if S_ISCHR (vn_mode v) then
    vn_modify p (fun v => set_vn_dev (chardev_lookup (vn_devid v)) (set_vn_ops VopsChar v))
  else
    do! kassert (S_ISBLK (vn_mode v));
    vn_modify p (fun v => set_vn_dev (blockdev_lookup (vn_devid v)) (set_vn_ops VopsBlock v)).

(** * References and locks *)

Definition vref (p : Z) : M K unit := on_vnode p (mobj_ref vn_mobj_lens).
Definition vlock (p : Z) : M K unit := on_vnode p (mobj_lock vn_mobj_lens).
Definition vunlock (p : Z) : M K unit := on_vnode p (mobj_unlock vn_mobj_lens).

Definition list_mutex_lens : lens K bool := Lens vnode_list_mutex set_vnode_list_mutex.
Definition rename_mutex_lens : lens K bool := Lens vnode_rename_mutex set_vnode_rename_mutex.

(** [chardev_file_flush_pframe] only logs; the routine of a block device is
    [-ENOTSUP].  [vnode_flush_pframe] asserts that the table has a routine. *)
Definition vnode_flush_pframe (n : Z) : M (vnode V * F) Z :=
  let! vf := get in
  match vn_ops vf.1 with
  | VopsChar => ret 0
  | VopsBlock => ret (- ENOTSUP)
  | o => match vop_flush_pframe fs o with
         | Some f => f n
         | None => fail Assert
         end
  end.

Definition vnode_destructor (p : Z) : M K unit :=
  let! v := vn_get p in
  do! kassert (mo_refcount (vn_mobj v) =? 0);
  do! vlock p;
  let! _ := on_vnode_fs p (mobj_flush vnode_mobj_fs vnode_flush_pframe) in
  do! (match delete_vnode fs with Some f => f p | None => ret tt end);
  do! vunlock p;
  do! kmutex_lock list_mutex_lens;
  let! s := get in
  do! kassert (bool_decide (p ∈ vnode_list s));
  do! modify (fun s => set_vnode_list (filter (fun q => q <> p) (vnode_list s)) s);
  do! kmutex_unlock list_mutex_lens;
  modify (fun s => set_vnodes (delete p (k_vnodes s)) s).

(** The vnode at address [p] as a part of the state. *)
Definition vn_mobj_at (p : Z) : lens K mobj :=
  Lens (fun s => match k_vnodes s !! p with Some v => vn_mobj v | None => mobj_init end)
       (fun o s => set_vnodes (alter (set_vn_mobj o) p (k_vnodes s)) s).

Definition vput (p : Z) : M K unit :=
  let! _ := vn_get p in
  mobj_put (vn_mobj_at p) (vnode_destructor p).

Definition vput_locked (p : Z) : M K unit :=
  do! vunlock p;
  vput p.

(** * Finding and loading vnodes *)

Definition find_vnode (ino : Z) (s : K) : option Z :=
  snd <$> list_find (fun p => vn_vno <$> (k_vnodes s !! p) = Some ino) (vnode_list s).

Definition await_vnode_loaded (p : Z) : M K unit :=
  let! v := vn_get p in
  if decide (vn_state v = VNODE_LOADED) then ret tt else fail Stuck.

Definition notify_vnode_loaded (p : Z) : M K unit := vn_modify p (set_vn_state VNODE_LOADED).

(** A slab object: a fresh address, [None] when memory is exhausted. *)
Definition slab_obj_alloc : M K (option Z) :=
  if oom then ret None
  else
    let! s := get in
    do! put (set_k_next (k_next s + 1) s);
    ret (Some (k_next s)).

Definition __vget (ino : Z) (get_locked : bool) : M K Z :=
  do! kmutex_lock list_mutex_lens;
  let! s := get in
  match find_vnode ino s with
  | Some p =>
      let! v := vn_get p in
      if mo_refcount (vn_mobj v) =? 0 then
        do! kmutex_unlock list_mutex_lens;
        fail Stuck
      else
        do! vref p;
        do! kmutex_unlock list_mutex_lens;
        do! await_vnode_loaded p;
        do! (if get_locked then vlock p else ret tt);
        ret p
  | None =>
      let! vn := slab_obj_alloc in
      match vn with
      | None => fail Assert
      | Some p =>
          do! vn_put p (vnode_init ino);
          do! modify (fun s => set_vnode_list (vnode_list s ++ [p]) s);
          do! vlock p;
          do! kmutex_unlock list_mutex_lens;
          do! read_vnode fs p;
          let! v := vn_get p in
          do! (if S_ISCHR (vn_mode v) || S_ISBLK (vn_mode v) then init_special_vnode p else ret tt);
          do! notify_vnode_loaded p;
          do! (if get_locked then ret tt else vunlock p);
          ret p
      end
  end.

Definition vget (ino : Z) : M K Z := __vget ino false.
Definition vget_locked (ino : Z) : M K Z := __vget ino true.

Definition vunlock_in_order (a b : Z) : M K unit :=
  let! va := vn_get a in
  let! vb := vn_get b in
  if vn_vno va =? vn_vno vb then vunlock a
  else do! vunlock a; vunlock b.
End vnode.

(** * The vnode operations *)

Record dirent : Type := Dirent {
  d_ino : Z;
  d_off : Z;
  d_name : list Z;
}.

(** The members of [stat_t] the file systems set; the others stay zero. *)
Record stat : Type := Stat {
  st_mode : Z;
  st_ino : Z;
  st_dev : Z;
  st_rdev : Z;
  st_nlink : Z;
  st_size : Z;
  st_blksize : Z;
  st_blocks : Z;
}.

(** [vnode_ops_t], over the kernel state.  A routine that returns through a
    pointer returns a pair; a buffer to fill is the list of the bytes written,
    a name is the string at the pointer and its length.  [None] is a null
    function pointer. *)
Record vnode_ops (St : Type) : Type := VnodeOps {
  vop_read : option (Z -> Z -> Z -> M St (Z * list Z));
  vop_write : option (Z -> Z -> list Z -> M St Z);
  vop_mknod : option (Z -> list Z -> Z -> Z -> Z -> M St (Z * option Z));
  vop_lookup : option (Z -> list Z -> Z -> M St (Z * option Z));
  vop_link : option (Z -> list Z -> Z -> Z -> M St Z);
  vop_unlink : option (Z -> list Z -> Z -> M St Z);
  vop_rename : option (Z -> list Z -> Z -> Z -> list Z -> Z -> M St Z);
  vop_mkdir : option (Z -> list Z -> Z -> M St (Z * option Z));
  vop_rmdir : option (Z -> list Z -> Z -> M St Z);
  vop_readdir : option (Z -> Z -> M St (Z * option dirent));
  vop_stat : option (Z -> M St (Z * stat));
  vop_acquire : option (Z -> Z -> M St unit);
  vop_release : option (Z -> Z -> M St unit);
  vop_truncate_file : option (Z -> M St unit);
}.
Arguments VnodeOps {St}.
Arguments vop_read {St} _.
Arguments vop_write {St} _.
Arguments vop_mknod {St} _.
Arguments vop_lookup {St} _.
Arguments vop_link {St} _.
Arguments vop_unlink {St} _.
Arguments vop_rename {St} _.
Arguments vop_mkdir {St} _.
Arguments vop_rmdir {St} _.
Arguments vop_readdir {St} _.
Arguments vop_stat {St} _.
Arguments vop_acquire {St} _.
Arguments vop_release {St} _.
Arguments vop_truncate_file {St} _.

(** A table without routines. *)
Definition no_ops {St} : vnode_ops St :=
  VnodeOps None None None None None None None None None None None None None None.

(** Call through a function pointer; the source asserts or relies on it. *)
Definition call {St A} (o : option A) (k : A -> M St Z) : M St Z :=
  match o with Some f => k f | None => fail Assert end.

Section specials.
Context {F V : Type} {drv : Drivers}.
(** The routine [fs_root->vn_ops->stat] of the containing file system. *)
Context (fs_stat : option (Z -> M (kst F V) (Z * stat))).

(** [cd_ops->read] returns through an [int]. *)
Definition chardev_file_read (p pos count : Z) : M (kst F V) (Z * list Z) :=
  do! vunlock p;
  let! v := vn_get p in
  let! dev := (match vn_dev v with Some d => ret d | None => fail Assert end) in
  let '(r, data) := cd_read dev pos count in
  do! vlock p;
  ret (s32 r, data).

Definition chardev_file_write (p pos : Z) (buf : list Z) : M (kst F V) Z :=
  do! vunlock p;
  let! v := vn_get p in
  let! dev := (match vn_dev v with Some d => ret d | None => fail Assert end) in
  let r := cd_write dev pos buf in
  do! vlock p;
  ret (s32 r).

Definition blockdev_file_read (p pos count : Z) : M (kst F V) (Z * list Z) := ret (- ENOTSUP, []).
Definition blockdev_file_write (p pos : Z) (buf : list Z) : M (kst F V) Z := ret (- ENOTSUP).

Definition special_file_stat (p : Z) : M (kst F V) (Z * stat) :=
  match fs_stat with Some f => f p | None => fail Assert end.

Definition chardev_spec_vops : vnode_ops (kst F V) :=
  VnodeOps (Some chardev_file_read) (Some chardev_file_write) None None None None None None None None
    (Some special_file_stat) None None None.

Definition blockdev_spec_vops : vnode_ops (kst F V) :=
  VnodeOps (Some blockdev_file_read) (Some blockdev_file_write) None None None None None None None None
    (Some special_file_stat) None None None.
End specials.
