(* ===== verification/File.v ===== *)
(** Open files and file descriptors: [fs/file.c] and [get_empty_fd] of
    [fs/open.c]. *)

From S2P Require Import Prelude Mobj Vnode.

Section file.
Context {F V : Type} {mem : Memory} {drv : Drivers}.
Context (fs : fs_ops F V) (vops_of : vops -> vnode_ops (kst F V)).
Abbreviation K := (kst F V).

Definition f_get (f : Z) : M K file := let! s := get in deref (k_files s !! f).

Definition f_put (f : Z) (x : file) : M K unit :=
  modify (fun s => set_k_files (<[f := x]> (k_files s)) s).

(** The operation table of a vnode. *)
Definition vn_vops (p : Z) : M K (vnode_ops K) :=
  let! v := vn_get p in
  match vn_ops v with
  | VopsNull => fail Fault
  | o => ret (vops_of o)
  end.

Definition set_f_refcount (n : Z) (x : file) : file := File (f_pos x) (f_mode x) n (f_vnode x).
Definition set_f_pos (n : Z) (x : file) : file := File n (f_mode x) (f_refcount x) (f_vnode x).

(** [curproc->p_files[fd]] for an index in range. *)
Definition p_file (fd : Z) (s : K) : option Z := mjoin (p_files s !! Z.to_nat fd).

Definition set_p_file (fd : Z) (o : option Z) : M K unit :=
  modify (fun s => set_p_files (<[Z.to_nat fd := o]> (p_files s)) s).

Definition fref (f : Z) : M K unit :=
  let! x := f_get f in
  do! kassert (f_mode x <=? FMODE_MAX_VALUE);
  f_put f (set_f_refcount (u64 (f_refcount x + 1)) x).

Definition fcreate (fd : Z) (p : Z) (mode : Z) : M K (option Z) :=
  let! s := get in
  do! kassert (match p_file fd s with None => true | Some _ => false end);
  let! f := slab_obj_alloc in
  match f with
  | None => ret None
  | Some f =>
      do! f_put f (File 0 mode 0 p);
      do! vref p;
      let! ops := vn_vops p in
      do! (match vop_acquire ops with Some a => a p f | None => ret tt end);
      do! set_p_file fd (Some f);
      do! fref f;
      ret (Some f)
  end.

Definition fget (fd : Z) : M K (option Z) :=
  if (fd <? 0) || (fd >=? NFILES) then ret None
  else
    let! s := get in
    match p_file fd s with
    | Some f => do! fref f; ret (Some f)
    | None => ret None
    end.

Definition fput (f : Z) : M K unit :=
  let! x := f_get f in
  do! kassert (f_mode x <=? FMODE_MAX_VALUE);
  do! kassert (0 <? f_refcount x);
  do! f_put f (set_f_refcount (f_refcount x - 1) x);
  if f_refcount x - 1 =? 0 then
    do! vlock (f_vnode x);
    let! ops := vn_vops (f_vnode x) in
    do! (match vop_release ops with Some r => r (f_vnode x) f | None => ret tt end);
    do! vput_locked fs (f_vnode x);
    modify (fun s => set_k_files (delete f (k_files s)) s)
  else ret tt.

(** The index of the first null entry from [fd] on, of at most [n] entries. *)
Fixpoint first_null (n : nat) (fd : Z) (l : list (option Z)) : option Z :=
  match n with
  | O => None
  | S n =>
      match l with
      | None :: _ => Some fd
      | Some _ :: l => first_null n (fd + 1) l
      | [] => None
      end
  end.

Definition get_empty_fd : M K (Z * Z) :=
  let! s := get in
  match first_null (Z.to_nat NFILES) 0 (p_files s) with
  | Some fd => ret (0, fd)
  | None => ret (- EMFILE, -1)
  end.
End file.
