(* ===== verification/Namev.v ===== *)
(** Path resolution: [fs/namev.c], and [vlock_in_order] of [fs/vnode.c], which
    uses it.

    A pointer into a path is the rest of the path from there; a null pointer is
    [None]. *)

From S2P Require Import Prelude CString Mobj Vnode File.

Definition slash : Z := 47.

(** ** Tokens *)

Fixpoint skip_slashes (search : list Z) : list Z :=
  match search with
  | c :: rest => if c =? slash then skip_slashes rest else search
  | [] => []
  end.

(** The token's length and the rest of the path after it. *)
Fixpoint scan_token (search : list Z) (len : Z) : Z * list Z :=
  match search with
  | c :: rest =>
      if (c =? 0) || (c =? slash) then (len, search) else scan_token rest (len + 1)
  | [] => (len, [])
  end.

(** [namev_tokenize(&search, &len)] returns the token, its length and the new
    value of [search]. *)
Definition namev_tokenize (search : option (list Z)) : option (list Z) * Z * option (list Z) :=
  match search with
  | None => (None, 0, None)
  | Some p =>
      let begin := skip_slashes p in
      let '(len, rest) := scan_token begin 0 in
      (Some begin, len, if chr rest =? 0 then None else Some rest)
  end.

Section namev.
Context {F V : Type} {mem : Memory} {drv : Drivers}.
Context (fs : fs_ops F V) (vops_of : vops -> vnode_ops (kst F V)).
Abbreviation K := (kst F V).

Definition namev_lookup (dir : Z) (name : list Z) (namelen : Z) : M K (Z * option Z) :=
  if namelen =? 0 then ret (- EINVAL, None)
  else
    let! v := vn_get dir in
    if negb (S_ISDIR (vn_mode v)) then ret (- ENOTDIR, None)
    else
      let! ops := vn_vops vops_of dir in
      match vop_lookup ops with
      | None => ret (- ENOTDIR, None)
      | Some lookup => lookup dir name namelen
      end.

(** One token per iteration of the loop of [namev_dir]; a path of [n] bytes has
    fewer than [n + 1] tokens. *)
Fixpoint namev_dir_loop (fuel : nat) (cur : Z) (search : option (list Z)) :
    M K (Z * option (Z * list Z * Z)) :=
  let '(token, token_len, search) := namev_tokenize search in
  let search := skip_slashes <$> search in
  let stop :=
    match token, search with
    | Some _, Some r => (token_len =? 0) || (chr r =? 0)
    | _, _ => true
    end in
  if stop then
    if token_len =? 0 then ret (0, Some (cur, str ".", 1))
    else let! t := deref token in ret (0, Some (cur, t, token_len))
  else
    match fuel with
    | O => fail Stuck
    | S fuel =>
        let! t := deref token in
        do! vlock cur;
        let! res := namev_lookup cur t token_len in
        do! vunlock cur;
        if res.1 <? 0 then do! vput fs cur; ret (res.1, None)
        else
          do! vput fs cur;
          let! next := deref res.2 in
          namev_dir_loop fuel next search
    end.

(** The directory, the basename as a pointer into the path, and its length. *)
Definition namev_dir (base : Z) (path : list Z) : M K (Z * option (Z * list Z * Z)) :=
  if chr path =? 0 then ret (- EINVAL, None)
  else
    let! s := get in
    if chr path =? slash then
      do! vref (fs_root s);
      namev_dir_loop (length path) (fs_root s) (Some (adv path))
    else
      do! vref base;
      namev_dir_loop (length path) base (Some path).

(** [name[namelen]] *)
Definition char_at (name : list Z) (i : Z) : Z := chr (drop (Z.to_nat i) name).

Definition namev_open (base : Z) (path : list Z) (oflags mode devid : Z) : M K (Z * option Z) :=
  let! r := namev_dir base path in
  match r with
  | (_, Some (dir, name, namelen)) =>
      let! vd := vn_get dir in
      if negb (S_ISDIR (vn_mode vd)) then do! vput fs dir; ret (- ENOTDIR, None)
      else if (char_at name namelen =? slash) && has oflags O_CREAT then
        do! vput fs dir; ret (- EINVAL, None)
      else if NAME_LEN <? namelen then do! vput fs dir; ret (- ENAMETOOLONG, None)
      else
        do! vlock dir;
        let! res := namev_lookup dir name namelen in
        if res.1 =? 0 then
          do! vunlock dir;
          do! vput fs dir;
          let! p := deref res.2 in
          let! v := vn_get p in
          if S_ISREG (vn_mode v) && (char_at name namelen =? slash) then
            do! vput fs p; ret (- ENOTDIR, None)
          else ret (0, Some p)
        else
          let! res :=
            (if has oflags O_CREAT && (res.1 =? - ENOENT) then
               let! ops := vn_vops vops_of dir in
               match vop_mknod ops with
               | Some mknod => mknod dir name namelen mode devid
               | None => ret (- ENOTSUP, None)
               end
             else ret res) in
          do! vunlock dir;
          do! vput fs dir;
          ret res
  | (e, None) => ret (e, None)
  end.

Definition namev_resolve (base : Z) (path : list Z) : M K (Z * option Z) :=
  namev_open base path O_RDONLY 0 0.

Definition namev_get_parent (dir : Z) : M K (Z * option Z) :=
  do! vlock dir;
  let! r := namev_lookup dir (str "..") 2 in
  do! vunlock dir;
  ret r.

(** The walk to the root; [next] keeps its value when a lookup fails, as the
    pointer the code passes does.  The fuel bounds the depth of the
    directory. *)
Fixpoint is_descendant_loop (fuel : nat) (cur : option Z) (next : option Z) (b : Z) : M K bool :=
  match cur with
  | None => ret false
  | Some cur =>
      let! vc := vn_get cur in
      let! vb := vn_get b in
      let! s := get in
      let! vr := vn_get (fs_root s) in
      if vn_vno vc =? vn_vno vb then do! vput fs cur; ret true
      else if vn_vno vc =? vn_vno vr then do! vput fs cur; ret false
      else
        match fuel with
        | O => fail Stuck
        | S fuel =>
            let! r := namev_get_parent cur in
            let next := match r.2 with Some n => Some n | None => next end in
            do! vput fs cur;
            is_descendant_loop fuel next next b
        end
  end.

(** The deepest directory the walk follows; a deeper one is [Stuck]. *)
Definition max_depth : nat := 4096.

Definition namev_is_descendant (a b : Z) : M K bool :=
  do! vref a;
  is_descendant_loop max_depth (Some a) None b.

(** [vlock_in_order] of [fs/vnode.c]. *)
Definition vlock_in_order (a b : Z) : M K unit :=
  let! va := vn_get a in
  let! vb := vn_get b in
  if vn_vno va =? vn_vno vb then vlock a
  else if S_ISDIR (vn_mode va) && S_ISDIR (vn_mode vb) then
    let! d := namev_is_descendant a b in
    if d then do! vlock b; vlock a
    else
      let! d := namev_is_descendant b a in
      if d then do! vlock a; vlock b else ret tt
  else if S_ISDIR (vn_mode va) then do! vlock a; vlock b
  else if S_ISDIR (vn_mode vb) then do! vlock b; vlock a
  else if vn_vno va <? vn_vno vb then do! vlock a; vlock b
  else do! vlock b; vlock a.
End namev.
