(* ===== verification/VfsSyscall.v ===== *)
(** The system calls of the VFS: [fs/vfs_syscall.c], [do_open] of [fs/open.c],
    and the shutdown checks of [fs/vfs.c].

    [do_read] and [do_getdent] return the bytes or the entry they write to the
    caller's buffer with their result; [do_write] takes the [len] bytes at
    [buf]. *)

From S2P Require Import Prelude CString Mobj Vnode File Namev.

Definition SEEK_SET : Z := 0.
Definition SEEK_CUR : Z := 1.
Definition SEEK_END : Z := 2.

(** [sizeof(struct dirent)]: [ino_t] padded to 8, [off_t], 28 bytes of name
    padded to a multiple of 8. *)
Definition sizeof_dirent : Z := 48.

Section syscalls.
Context {F V : Type} {mem : Memory} {drv : Drivers}.
Context (fs : fs_ops F V) (vops_of : vops -> vnode_ops (kst F V)).
Abbreviation K := (kst F V).
Abbreviation fput := (fput fs vops_of).
Abbreviation vput := (vput fs).
Abbreviation vn_vops := (vn_vops vops_of).

(** [file->f_pos += ret] on a [size_t]. *)
Definition advance (f : Z) (n : Z) : M K unit :=
  let! x := f_get f in f_put f (set_f_pos (u64 (f_pos x + n)) x).

Definition do_read (fd len : Z) : M K (Z * list Z) :=
  let! file := fget fd in
  match file with
  | None => ret (- EBADF, [])
  | Some f =>
      let! x := f_get f in
      if negb (has (f_mode x) FMODE_READ) then do! fput f; ret (- EBADF, [])
      else
        let! v := vn_get (f_vnode x) in
        if S_ISDIR (vn_mode v) then do! fput f; ret (- EISDIR, [])
        else
          do! vlock (f_vnode x);
          let! ops := vn_vops (f_vnode x) in
          let! r := (match vop_read ops with
                     | Some rd => rd (f_vnode x) (f_pos x) len
                     | None => fail Assert
                     end) in
          do! vunlock (f_vnode x);
          do! advance f r.1;
          do! fput f;
          ret r
  end.

Definition do_write (fd : Z) (buf : list Z) : M K Z :=
  let! file := fget fd in
  match file with
  | None => ret (- EBADF)
  | Some f =>
      let! x := f_get f in
      if negb (has (f_mode x) FMODE_WRITE) then do! fput f; ret (- EBADF)
      else
        do! vlock (f_vnode x);
        let! ops := vn_vops (f_vnode x) in
        let! wr := (match vop_write ops with Some wr => ret wr | None => fail Assert end) in
        do! (if has (f_mode x) FMODE_APPEND then
               let! v := vn_get (f_vnode x) in f_put f (set_f_pos (vn_len v) x)
             else ret tt);
        let! x := f_get f in
        let! r := wr (f_vnode x) (f_pos x) buf in
        do! vunlock (f_vnode x);
        do! advance f r;
        do! fput f;
        ret r
  end.

Definition do_close (fd : Z) : M K Z :=
  if (fd <? 0) || (fd >=? NFILES) then ret (- EBADF)
  else
    let! s := get in
    match p_file fd s with
    | None => ret (- EBADF)
    | Some f =>
        do! set_p_file fd None;
        do! fput f;
        ret 0
    end.

Definition do_dup (fd : Z) : M K Z :=
  let! file := fget fd in
  match file with
  | None => ret (- EBADF)
  | Some f =>
      let! r := get_empty_fd in
      if r.1 <? 0 then do! fput f; ret r.1
      else
        do! fref f;
        do! set_p_file r.2 (Some f);
        do! fput f;
        ret r.2
  end.

Definition do_dup2 (ofd nfd : Z) : M K Z :=
  if (ofd <? 0) || (ofd >=? NFILES) || (nfd <? 0) || (nfd >=? NFILES) then ret (- EBADF)
  else
    let! file := fget ofd in
    match file with
    | None => ret (- EBADF)
    | Some f =>
        if ofd =? nfd then do! fput f; ret nfd
        else
          let! s := get in
          do! (match p_file nfd s with
               | Some f2 => do! set_p_file nfd None; fput f2
               | None => ret tt
               end);
          do! fref f;
          do! set_p_file nfd (Some f);
          do! fput f;
          ret nfd
    end.

Definition do_mknod (path : list Z) (mode devid : Z) : M K Z :=
  if negb (S_ISCHR mode) && negb (S_ISBLK mode) && negb (S_ISREG mode) then ret (- EINVAL)
  else
    let! s := get in
    let! r := namev_open fs vops_of (p_cwd s) path O_CREAT mode devid in
    if r.1 <? 0 then ret r.1
    else
      let! p := deref r.2 in
      do! vput p;
      ret 0.

Definition do_mkdir (path : list Z) : M K Z :=
  let! s := get in
  let! r := namev_dir fs vops_of (p_cwd s) path in
  match r with
  | (_, Some (parent, name, namelen)) =>
      if NAME_LEN <? namelen then do! vput parent; ret (- ENAMETOOLONG)
      else
        do! vlock parent;
        let! res := namev_lookup vops_of parent name namelen in
        if res.1 =? 0 then
          do! vunlock parent;
          let! p := deref res.2 in
          do! vput p;
          do! vput parent;
          ret (- EEXIST)
        else if negb (res.1 =? - ENOENT) then
          do! vunlock parent;
          do! vput parent;
          ret res.1
        else
          let! vp := vn_get parent in
          if negb (S_ISDIR (vn_mode vp)) then
            do! vunlock parent;
            do! vput parent;
            ret (- ENOTDIR)
          else
            let! ops := vn_vops parent in
            let! res := (match vop_mkdir ops with
                         | Some mkdir => mkdir parent name namelen
                         | None => fail Assert
                         end) in
            if res.1 <? 0 then
              do! vunlock parent;
              do! vput parent;
              ret res.1
            else
              do! vunlock parent;
              let! dir := deref res.2 in
              do! vput dir;
              do! vput parent;
              ret res.1
  | (e, None) => ret e
  end.

Definition do_rmdir (path : list Z) : M K Z :=
  let! s := get in
  let! r := namev_dir fs vops_of (p_cwd s) path in
  match r with
  | (_, Some (dir, basename, namelen)) =>
      let! vd := vn_get dir in
      if negb (S_ISDIR (vn_mode vd)) then do! vput dir; ret (- ENOTDIR)
      else if strcmp basename (str ".") =? 0 then do! vput dir; ret (- EINVAL)
      else if strcmp basename (str "..") =? 0 then do! vput dir; ret (- ENOTEMPTY)
      else if NAME_LEN <? namelen then do! vput dir; ret (- ENAMETOOLONG)
      else
        do! vlock dir;
        let! ops := vn_vops dir in
        let! res := (match vop_rmdir ops with
                     | Some rmdir => rmdir dir basename namelen
                     | None => fail Assert
                     end) in
        do! vunlock dir;
        do! vput dir;
        ret res
  | (e, None) => ret e
  end.

Definition do_unlink (path : list Z) : M K Z :=
  let! s := get in
  let! r := namev_dir fs vops_of (p_cwd s) path in
  match r with
  | (_, Some (dir, basename, namelen)) =>
      if NAME_LEN <? namelen then do! vput dir; ret (- ENAMETOOLONG)
      else
        let! vd := vn_get dir in
        if negb (S_ISDIR (vn_mode vd)) then do! vput dir; ret (- ENOTDIR)
        else
          do! vlock dir;
          let! res := namev_lookup vops_of dir basename namelen in
          if res.1 <? 0 then do! vunlock dir; do! vput dir; ret res.1
          else
            let! p := deref res.2 in
            let! v := vn_get p in
            if S_ISDIR (vn_mode v) then
              do! vunlock dir;
              do! vput p;
              do! vput dir;
              ret (- EPERM)
            else
              let! ops := vn_vops dir in
              let! res := (match vop_unlink ops with
                           | Some unlink => unlink dir basename namelen
                           | None => fail Assert
                           end) in
              do! vunlock dir;
              do! vput p;
              do! vput dir;
              ret res
  | (e, None) => ret e
  end.

Definition do_link (oldpath newpath : list Z) : M K Z :=
  let! s := get in
  let! r := namev_resolve fs vops_of (p_cwd s) oldpath in
  if r.1 <? 0 then ret r.1
  else
    let! p := deref r.2 in
    let! v := vn_get p in
    if S_ISDIR (vn_mode v) then do! vput p; ret (- EPERM)
    else
      let! r := namev_dir fs vops_of (p_cwd s) newpath in
      match r with
      | (_, Some (dir, basename, namelen)) =>
          let! vd := vn_get dir in
          if negb (S_ISDIR (vn_mode vd)) then do! vput dir; do! vput p; ret (- ENOTDIR)
          else if NAME_LEN <? namelen then do! vput p; do! vput dir; ret (- ENAMETOOLONG)
          else
            do! vlock_in_order fs vops_of dir p;
            let! ops := vn_vops dir in
            let! res := (match vop_link ops with
                         | Some link => link dir basename namelen p
                         | None => fail Fault
                         end) in
            do! vunlock_in_order dir p;
            do! vput dir;
            do! vput p;
            ret res
      | (e, None) => do! vput p; ret e
      end.

Definition do_rename (oldpath newpath : list Z) : M K Z :=
  let! s := get in
  let! r := namev_dir fs vops_of (p_cwd s) oldpath in
  match r with
  | (e, None) => ret e
  | (_, Some (old_dir, old_name, old_len)) =>
      let! r := namev_dir fs vops_of (p_cwd s) newpath in
      match r with
      | (e, None) => do! vput old_dir; ret e
      | (_, Some (new_dir, new_name, new_len)) =>
          if (NAME_LEN <? old_len) || (NAME_LEN <? new_len) then
            do! vput old_dir; do! vput new_dir; ret (- ENAMETOOLONG)
          else
            let! vo := vn_get old_dir in
            let! vn := vn_get new_dir in
            if negb (S_ISDIR (vn_mode vo)) || negb (S_ISDIR (vn_mode vn)) then
              do! vput old_dir; do! vput new_dir; ret (- ENOTDIR)
            else
              do! kmutex_lock rename_mutex_lens;
              do! vlock_in_order fs vops_of old_dir new_dir;
              let! ops := vn_vops old_dir in
              let! res := (match vop_rename ops with
                           | Some rename => rename old_dir old_name old_len new_dir new_name new_len
                           | None => fail Assert
                           end) in
              do! vunlock_in_order old_dir new_dir;
              do! kmutex_unlock rename_mutex_lens;
              do! vput old_dir;
              do! vput new_dir;
              ret res
      end
  end.

Definition do_chdir (path : list Z) : M K Z :=
  let! s := get in
  let! r := namev_resolve fs vops_of (p_cwd s) path in
  if negb (r.1 =? 0) then
    do! (match r.2 with Some p => vput p | None => ret tt end);
    ret r.1
  else
    let! p := deref r.2 in
    let! v := vn_get p in
    if negb (S_ISDIR (vn_mode v)) then do! vput p; ret (- ENOTDIR)
    else
      let! s := get in
      do! vput (p_cwd s);
      do! modify (set_p_cwd p);
      do! vref p;
      do! vput p;
      ret 0.

Definition do_getdent (fd : Z) : M K (Z * option dirent) :=
  let! file := fget fd in
  match file with
  | None => ret (- EBADF, None)
  | Some f =>
      let! x := f_get f in
      let! v := vn_get (f_vnode x) in
      if negb (S_ISDIR (vn_mode v)) then do! fput f; ret (- ENOTDIR, None)
      else
        do! vlock (f_vnode x);
        let! ops := vn_vops (f_vnode x) in
        let! r := (match vop_readdir ops with
                   | Some readdir => readdir (f_vnode x) (f_pos x)
                   | None => fail Assert
                   end) in
        do! vunlock (f_vnode x);
        do! advance f r.1;
        do! fput f;
        ret (if r.1 =? 0 then 0 else sizeof_dirent, r.2)
  end.

Definition do_lseek (fd offset whence : Z) : M K Z :=
  let! file := fget fd in
  match file with
  | None => ret (- EBADF)
  | Some f =>
      let! x := f_get f in
      let! new_pos :=
        (if whence =? SEEK_SET then ret (Some offset)
         else if whence =? SEEK_CUR then ret (Some (s64 (f_pos x + offset)))
         else if whence =? SEEK_END then
           do! vlock (f_vnode x);
           let! v := vn_get (f_vnode x) in
           do! vunlock (f_vnode x);
           ret (Some (s64 (vn_len v + offset)))
         else ret None) in
      match new_pos with
      | None => do! fput f; ret (- EINVAL)
      | Some np =>
          if np <? 0 then do! fput f; ret (- EINVAL)
          else
            let! x := f_get f in
            do! f_put f (set_f_pos np x);
            do! fput f;
            ret np
      end
  end.

Definition do_stat (path : list Z) : M K (Z * option stat) :=
  let! s := get in
  let! r := namev_resolve fs vops_of (p_cwd s) path in
  if r.1 <? 0 then
    do! (match r.2 with Some p => vput p | None => ret tt end);
    ret (r.1, None)
  else
    let! p := deref r.2 in
    let! ops := vn_vops p in
    let! st := (match vop_stat ops with Some st => ret st | None => fail Assert end) in
    do! vlock p;
    let! r := st p in
    do! vunlock p;
    do! vput p;
    ret (r.1, Some r.2).

(** The access mode of a file opened with [oflags]. *)
Definition open_mode (oflags : Z) : Z :=
  let mode := if oflags =? 0 then FMODE_READ else 0 in
  let mode := if has oflags O_WRONLY then Z.lor mode FMODE_WRITE else mode in
  let mode := if has oflags O_APPEND then Z.lor mode FMODE_APPEND else mode in
  if has oflags O_RDWR then Z.lor (Z.lor mode FMODE_READ) FMODE_WRITE else mode.

Definition do_open (filename : list Z) (oflags : Z) : M K Z :=
  if (has oflags O_WRONLY && has oflags O_RDWR) || ((oflags =? 0) && has oflags O_WRONLY) then
    ret (- EINVAL)
  else
    let! r := get_empty_fd in
    if negb (r.1 =? 0) then ret r.1
    else
      let nfd := r.2 in
      let! s := get in
      let! r := namev_open fs vops_of (p_cwd s) filename oflags S_IFREG 0 in
      if r.1 <? 0 then ret r.1
      else
        let! p := deref r.2 in
        let! v := vn_get p in
        if S_ISDIR (vn_mode v) && (has oflags O_WRONLY || has oflags O_RDWR) then
          do! vput p; ret (- EISDIR)
        else if (S_ISCHR (vn_mode v) || S_ISBLK (vn_mode v))
                && (match vn_dev v with None => true | Some _ => false end) then
          do! vput p; ret (- ENXIO)
        else
          do! (if has oflags O_TRUNC && S_ISREG (vn_mode v) then
                 let! ops := vn_vops p in
                 match vop_truncate_file ops with Some tr => tr p | None => fail Fault end
               else ret tt);
          let! f := fcreate vops_of nfd p (open_mode oflags) in
          match f with
          | None => do! vput p; ret (- ENOMEM)
          | Some _ => do! vput p; ret nfd
          end.

(** ** Shutdown, [fs/vfs.c] *)

(** The loop of [vfs_is_in_use] over the vnode list. *)
Fixpoint in_use_loop (l : list Z) (acc : Z) : M K Z :=
  match l with
  | [] => ret acc
  | p :: l =>
      do! vlock p;
      let! s := get in
      let expected := if fs_root s =? p then 1 else 0 in
      let! v := vn_get p in
      do! vunlock p;
      in_use_loop l (if mo_refcount (vn_mobj v) =? expected then acc else - EBUSY)
  end.

Definition vfs_is_in_use : M K Z := let! s := get in in_use_loop (vnode_list s) 0.

Definition vfs_count_active_vnodes : M K Z :=
  do! kmutex_lock list_mutex_lens;
  let! s := get in
  do! kmutex_unlock list_mutex_lens;
  ret (Z.of_nat (length (vnode_list s))).

(** [umount] is [fs_ops->umount]. *)
Definition vfs_shutdown (umount : option (M K Z)) : M K Z :=
  let! busy := vfs_is_in_use in
  if negb (busy =? 0) then fail Assert
  else
    let! r := (match umount with
               | Some u => u
               | None => let! s := get in do! vput (fs_root s); ret 0
               end) in
    let! n := vfs_count_active_vnodes in
    if negb (n =? 0) then fail Assert else ret r.

(** [vfs_init] after [mountfunc] returned [err]. *)
Definition vfs_init (mount : M K Z) : M K unit :=
  let! err := mount in
  if negb (err =? 0) then fail Assert
  else
    let! s := get in
    do! vlock (fs_root s);
    do! modify (set_p_cwd (fs_root s));
    do! vref (fs_root s);
    vunlock (fs_root s).
End syscalls.
