(* ===== verification/Ramfs.v ===== *)
(** The in-memory file system: [fs/ramfs/ramfs.c].

    The file system's data is the table of 64 inodes; a vnode's [vn_i] is the
    inode's slot.  The page of an inode is the bytes of a regular file, the
    array of directory entries of a directory, or the device number of a
    device. *)

From S2P Require Import Prelude CString Mobj Vnode File.

Inductive ramfs_type : Type :=
  RAMFS_TYPE_DATA | RAMFS_TYPE_DIR | RAMFS_TYPE_CHR | RAMFS_TYPE_BLK.
#[export] Instance ramfs_type_eq_dec : EqDecision ramfs_type.
Proof. solve_decision. Defined.

Record ramfs_dirent : Type := RamfsDirent {
  rd_ino : Z;
  rd_name : list Z;                   (* char[NAME_LEN] *)
}.

Inductive ramfs_mem : Type :=
| MemData (bytes : list Z)
| MemDir (entries : list ramfs_dirent)
| MemDev (devid : Z).

Record ramfs_inode : Type := RamfsInode {
  rf_size : Z;
  rf_ino : Z;
  rf_mem : ramfs_mem;
  rf_mode : ramfs_type;
  rf_linkcount : Z;
}.

Definition RAMFS_MAX_FILES : nat := 64.
Definition sizeof_ramfs_dirent : Z := 40.
Definition RAMFS_MAX_DIRENT : nat := Z.to_nat (PAGE_SIZE / sizeof_ramfs_dirent).

(** [rfs_inodes] *)
Abbreviation ramfs := (list (option ramfs_inode)).

Definition set_rf_size (n : Z) (i : ramfs_inode) : ramfs_inode :=
  RamfsInode n (rf_ino i) (rf_mem i) (rf_mode i) (rf_linkcount i).
Definition set_rf_mem (m : ramfs_mem) (i : ramfs_inode) : ramfs_inode :=
  RamfsInode (rf_size i) (rf_ino i) m (rf_mode i) (rf_linkcount i).
Definition set_rf_linkcount (n : Z) (i : ramfs_inode) : ramfs_inode :=
  RamfsInode (rf_size i) (rf_ino i) (rf_mem i) (rf_mode i) n.

(** A page of zeroes, as an array of entries and as bytes. *)
Definition zero_dirent : ramfs_dirent := RamfsDirent 0 (replicate (Z.to_nat NAME_LEN) 0).
Definition zero_entries : list ramfs_dirent := replicate RAMFS_MAX_DIRENT zero_dirent.
Definition zero_page : list Z := replicate (Z.to_nat PAGE_SIZE) 0.

(** The first index below the length that satisfies the test: the search loops
    over a directory. *)
Fixpoint first_index {A} (f : A -> bool) (l : list A) : option nat :=
  match l with
  | [] => None
  | a :: l => if f a then Some 0%nat else S <$> first_index f l
  end.

(** [strncpy(rd_name, name, MIN(len, NAME_LEN - 1)); rd_name[...] = 0] *)
Definition set_name (old name : list Z) (namelen : Z) : list Z :=
  let n := Z.to_nat (Z.min namelen (NAME_LEN - 1)) in
  match strncpy old name n with
  | Some b => <[n := 0]> b
  | None => old
  end.

(** [strcpy(rd_name, s)] for the constants [.] and [..]. *)
Definition set_const_name (old name : list Z) : list Z := default old (strcpy old name).

(** [rd_name[0] == 0] *)
Definition is_free (e : ramfs_dirent) : bool := chr (rd_name e) =? 0.

Section ramfs.
Context {mem : Memory} {drv : Drivers}.
Abbreviation K := (kst ramfs Z).

(** ** Inodes *)

Definition rf_get (slot : Z) : M K ramfs_inode :=
  let! s := get in deref (mjoin (fs_i s !! Z.to_nat slot)).

Definition rf_put (slot : Z) (i : option ramfs_inode) : M K unit :=
  modify (fun s => set_fs_i (<[Z.to_nat slot := i]> (fs_i s)) s).

Definition rf_modify (slot : Z) (f : ramfs_inode -> ramfs_inode) : M K unit :=
  let! i := rf_get slot in rf_put slot (Some (f i)).

(** [VNODE_TO_RAMFSINODE] as a slot. *)
Definition vnode_slot (p : Z) : M K Z := let! v := vn_get p in deref (vn_i v).

(** [VNODE_TO_DIRENT] *)
Definition inode_entries (i : ramfs_inode) : M K (list ramfs_dirent) :=
  match rf_mem i with MemDir l => ret l | _ => fail Fault end.

Definition dir_entries (p : Z) : M K (list ramfs_dirent) :=
  let! slot := vnode_slot p in
  let! i := rf_get slot in
  inode_entries i.

Definition set_entries (slot : Z) (l : list ramfs_dirent) : M K unit :=
  rf_modify slot (set_rf_mem (MemDir l)).

Definition ramfs_alloc_inode (type : ramfs_type) (devid : Z) : M K Z :=
  let! s := get in
  match first_index (fun o => match o with None => true | Some _ => false end)
                    (take RAMFS_MAX_FILES (fs_i s)) with
  | None => ret (- ENOSPC)
  | Some i =>
      if oom then ret (- ENOSPC)
      else
        let m := match type with
                 | RAMFS_TYPE_CHR | RAMFS_TYPE_BLK => MemDev devid
                 | RAMFS_TYPE_DIR => MemDir zero_entries
                 | RAMFS_TYPE_DATA => MemData zero_page
                 end in
        do! rf_put (Z.of_nat i) (Some (RamfsInode 0 (Z.of_nat i) m type 1));
        ret (Z.of_nat i)
  end.

(** ** File system operations *)

Definition ramfs_read_vnode (p : Z) : M K unit :=
  let! v := vn_get p in
  let! s := get in
  let! inode := (match mjoin (fs_i s !! Z.to_nat (vn_vno v)) with
                 | Some i => ret i
                 | None => fail Assert
                 end) in
  do! kassert (rf_ino inode =? vn_vno v);
  do! rf_modify (vn_vno v) (fun i => set_rf_linkcount (rf_linkcount i + 1) i);
  let v := set_vn_len (rf_size inode) (set_vn_i (Some (vn_vno v)) v) in
  let devid := match rf_mem inode with MemDev d => d | _ => 0 end in
  vn_put p
    match rf_mode inode with
    | RAMFS_TYPE_DATA => set_vn_ops VopsFile (set_vn_mode S_IFREG v)
    | RAMFS_TYPE_DIR => set_vn_ops VopsDir (set_vn_mode S_IFDIR v)
    | RAMFS_TYPE_CHR => set_vn_devid devid (set_vn_ops VopsNull (set_vn_mode S_IFCHR v))
    | RAMFS_TYPE_BLK => set_vn_devid devid (set_vn_ops VopsNull (set_vn_mode S_IFBLK v))
    end.

Definition ramfs_delete_vnode (p : Z) : M K unit :=
  let! slot := vnode_slot p in
  do! rf_modify slot (fun i => set_rf_linkcount (rf_linkcount i - 1) i);
  let! i := rf_get slot in
  if rf_linkcount i =? 0 then
    let! v := vn_get p in
    do! kassert (vn_vno v =? slot);
    rf_put slot None
  else ret tt.

Definition ramfs_ops : fs_ops ramfs Z :=
  FsOps ramfs_read_vnode (Some ramfs_delete_vnode) (fun _ => None).

Abbreviation vget := (vget ramfs_ops).
Abbreviation vget_locked := (vget_locked ramfs_ops).
Abbreviation vput := (vput ramfs_ops).
Abbreviation vput_locked := (vput_locked ramfs_ops).

Definition dot_entries (self parent : Z) : list ramfs_dirent :=
  RamfsDirent self (set_const_name (rd_name zero_dirent) (str "."))
  :: RamfsDirent parent (set_const_name (rd_name zero_dirent) (str ".."))
  :: drop 2 zero_entries.

Definition ramfs_mount : M K Z :=
  if oom then ret (- ENOMEM)
  else
    do! modify (set_fs_i (replicate RAMFS_MAX_FILES None));
    let! root_ino := ramfs_alloc_inode RAMFS_TYPE_DIR 0 in
    if root_ino <? 0 then ret root_ino
    else
      do! kassert (root_ino =? 0);
      do! rf_modify 0 (fun i => set_rf_size (2 * sizeof_ramfs_dirent)
                                  (set_rf_mem (MemDir (dot_entries 0 0)) i));
      let! root := vget 0 in
      do! modify (set_fs_root root);
      ret 0.

(** The inodes are freed, the table keeps no live pointer. *)
Definition ramfs_umount : M K Z :=
  let! s := get in
  do! vput (fs_root s);
  do! modify (fun s => set_fs_i (replicate (length (fs_i s)) None) s);
  ret 0.

(** ** Directory operations *)

Definition ramfs_find_dirent (dir : Z) (name : list Z) (namelen : Z) : M K Z :=
  let! l := dir_entries dir in
  match first_index (fun e => name_match (rd_name e) name namelen) l with
  | Some i => let! e := deref (l !! i) in ret (rd_ino e)
  | None => ret (- ENOENT)
  end.

Definition ramfs_lookup (dir : Z) (name : list Z) (namelen : Z) : M K (Z * option Z) :=
  let! l := dir_entries dir in
  match first_index (fun e => name_match (rd_name e) name namelen) l with
  | Some i =>
      let! e := deref (l !! i) in
      let! v := vn_get dir in
      if negb (vn_vno v =? rd_ino e) then
        let! p := vget (rd_ino e) in ret (0, Some p)
      else
        do! vref dir; ret (0, Some dir)
  | None => ret (- ENOENT, None)
  end.

(** Store an entry and count it in the directory's size. *)
Definition write_entry (dir : Z) (i : nat) (ino : Z) (name : list Z) (namelen : Z) : M K unit :=
  let! slot := vnode_slot dir in
  let! l := dir_entries dir in
  let! e := deref (l !! i) in
  do! set_entries slot (<[i := RamfsDirent ino (set_name (rd_name e) name namelen)]> l);
  rf_modify slot (fun d => set_rf_size (u64 (rf_size d + sizeof_ramfs_dirent)) d).

Definition ramfs_mknod (dir : Z) (name : list Z) (namelen mode devid : Z) : M K (Z * option Z) :=
  let! l := dir_entries dir in
  match first_index is_free l with
  | None => ret (- ENOSPC, None)
  | Some i =>
      let! ino :=
        (if S_ISCHR mode then ramfs_alloc_inode RAMFS_TYPE_CHR devid
         else if S_ISBLK mode then ramfs_alloc_inode RAMFS_TYPE_BLK devid
         else if S_ISREG mode then ramfs_alloc_inode RAMFS_TYPE_DATA devid
         else fail Assert) in
      if ino <? 0 then ret (ino, None)
      else
        do! write_entry dir i ino name namelen;
        let! child := vget ino in
        ret (0, Some child)
  end.

Definition ramfs_append_dirent (dir : Z) (name : list Z) (namelen : Z) (child : Z) : M K Z :=
  let! l := dir_entries dir in
  match first_index (fun e => name_match (rd_name e) name namelen || is_free e) l with
  | None => ret (- ENOSPC)
  | Some i =>
      let! e := deref (l !! i) in
      if name_match (rd_name e) name namelen then ret (- EEXIST)
      else
        let! vc := vn_get child in
        do! write_entry dir i (vn_vno vc) name namelen;
        let! cslot := vnode_slot child in
        do! rf_modify cslot (fun c => set_rf_linkcount (rf_linkcount c + 1) c);
        ret 0
  end.

(** [entry->rd_name[0] = 0] at the first match. *)
Definition clear_entry (dir : Z) (name : list Z) (namelen : Z) : M K bool :=
  let! slot := vnode_slot dir in
  let! l := dir_entries dir in
  match first_index (fun e => name_match (rd_name e) name namelen) l with
  | None => ret false
  | Some i =>
      let! e := deref (l !! i) in
      do! set_entries slot (<[i := RamfsDirent (rd_ino e) (<[0%nat := 0]> (rd_name e))]> l);
      ret true
  end.

Definition shrink_dir (dir : Z) : M K unit :=
  let! slot := vnode_slot dir in
  rf_modify slot (fun d => set_rf_size (u64 (rf_size d - sizeof_ramfs_dirent)) d).

Definition unref_inode (child : Z) : M K unit :=
  let! cslot := vnode_slot child in
  rf_modify cslot (fun c => set_rf_linkcount (rf_linkcount c - 1) c).

Definition ramfs_delete_dirent (dir : Z) (name : list Z) (namelen : Z) (child : Z) : M K Z :=
  let! found := clear_entry dir name namelen in
  if negb found then ret (- EEXIST)
  else
    do! shrink_dir dir;
    do! unref_inode child;
    ret 0.

Definition ramfs_link (dir : Z) (name : list Z) (namelen : Z) (child : Z) : M K Z :=
  ramfs_append_dirent dir name namelen child.

Definition ramfs_unlink (dir : Z) (name : list Z) (namelen : Z) : M K Z :=
  let! ino := ramfs_find_dirent dir name namelen in
  if ino <? 0 then ret ino
  else
    let! child := vget_locked (u32 ino) in
    let! vc := vn_get child in
    do! kassert (negb (S_ISDIR (vn_mode vc)));
    let! r := ramfs_delete_dirent dir name namelen child in
    do! kassert (r =? 0);
    do! vput_locked child;
    ret 0.

Definition ramfs_rename (olddir : Z) (oldname : list Z) (oldlen : Z)
    (newdir : Z) (newname : list Z) (newlen : Z) : M K Z :=
  let! ino := ramfs_find_dirent olddir oldname oldlen in
  if ino <? 0 then ret ino
  else
    let! oldvn := vget_locked (u32 ino) in
    let! vo := vn_get oldvn in
    if S_ISDIR (vn_mode vo) then do! vput_locked oldvn; ret (- EPERM)
    else
      let! ino := ramfs_find_dirent newdir newname newlen in
      if negb (ino =? - ENOENT) then
        if ino <? 0 then ret ino else ret (- EEXIST)
      else
        let! r := ramfs_append_dirent newdir newname newlen oldvn in
        if r <? 0 then do! vput_locked oldvn; ret r
        else
          let! r := ramfs_delete_dirent olddir oldname oldlen oldvn in
          do! vput_locked oldvn;
          ret r.

Definition ramfs_mkdir (dir : Z) (name : list Z) (namelen : Z) : M K (Z * option Z) :=
  let! l := dir_entries dir in
  match first_index is_free l with
  | None => ret (- ENOSPC, None)
  | Some i =>
      let! ino := ramfs_alloc_inode RAMFS_TYPE_DIR 0 in
      if ino <? 0 then ret (ino, None)
      else
        do! write_entry dir i ino name namelen;
        let! vd := vn_get dir in
        do! rf_modify ino (fun c => set_rf_size (2 * sizeof_ramfs_dirent)
                                      (set_rf_mem (MemDir (dot_entries ino (vn_vno vd))) c));
        let! child := vget ino in
        ret (0, Some child)
  end.

Definition ramfs_rmdir (dir : Z) (name : list Z) (namelen : Z) : M K Z :=
  do! kassert (negb (name_match (str ".") name namelen) && negb (name_match (str "..") name namelen));
  let! ino := ramfs_find_dirent dir name namelen in
  if ino <? 0 then ret ino
  else
    let! child := vget_locked (u32 ino) in
    let! vc := vn_get child in
    if negb (S_ISDIR (vn_mode vc)) then do! vput_locked child; ret (- ENOTDIR)
    else
      let! lc := dir_entries child in
      let busy e :=
        negb ((strcmp (rd_name e) (str ".") =? 0) || (strcmp (rd_name e) (str "..") =? 0))
        && negb (is_free e) in
      if existsb busy lc then do! vput_locked child; ret (- ENOTEMPTY)
      else
        let! _ := clear_entry dir name namelen in
        do! shrink_dir dir;
        do! unref_inode child;
        do! vput_locked child;
        ret 0.

(** ** File operations *)

(** [rf_mem] of an inode as bytes. *)
Definition inode_bytes (i : ramfs_inode) : M K (list Z) :=
  match rf_mem i with MemData b => ret b | _ => fail Fault end.

(** [memcpy(buf, rf_mem + offset, n)] *)
Definition mem_read (b : list Z) (offset n : Z) : M K (list Z) :=
  if (0 <=? n) && (offset + n <=? Z.of_nat (length b))
  then ret (slice b (Z.to_nat offset) (Z.to_nat n))
  else if n =? 0 then ret [] else fail Fault.

Definition ramfs_read (file offset count : Z) : M K (Z * list Z) :=
  let! v := vn_get file in
  do! kassert (negb (S_ISDIR (vn_mode v)));
  let! slot := vnode_slot file in
  let! i := rf_get slot in
  let r := if rf_size i <? offset then 0
           else if rf_size i <? u64 (offset + count) then rf_size i - offset
           else s64 count in
  let! b := inode_bytes i in
  let! data := mem_read b offset r in
  ret (r, data).

Definition ramfs_write (file offset : Z) (buf : list Z) : M K Z :=
  let! v := vn_get file in
  do! kassert (negb (S_ISDIR (vn_mode v)));
  let! slot := vnode_slot file in
  let! i := rf_get slot in
  let r := s64 (Z.min (Z.of_nat (length buf)) (u64 (PAGE_SIZE - offset))) in
  let! b := inode_bytes i in
  let! b' := (if r =? 0 then ret b
              else if (0 <=? r) && (offset + r <=? Z.of_nat (length b))
              then ret (splice b (Z.to_nat offset) (take (Z.to_nat r) buf))
              else fail Fault) in
  do! rf_modify slot (set_rf_mem (MemData b'));
  do! kassert (vn_len v =? rf_size i);
  let len := Z.max (vn_len v) (u64 (offset + r)) in
  do! vn_modify file (set_vn_len len);
  do! rf_modify slot (set_rf_size len);
  ret r.

(** [memset(rf_mem, 0, PAGE_SIZE)] included. *)
Definition ramfs_truncate_file (file : Z) : M K unit :=
  let! v := vn_get file in
  do! kassert (S_ISREG (vn_mode v));
  let! slot := vnode_slot file in
  do! rf_modify slot (set_rf_size 0);
  do! vn_modify file (set_vn_len 0);
  rf_modify slot (set_rf_mem (MemData zero_page)).

Definition ramfs_readdir (dir offset : Z) : M K (Z * option dirent) :=
  let! v := vn_get dir in
  do! kassert (S_ISDIR (vn_mode v));
  do! kassert (offset mod sizeof_ramfs_dirent =? 0);
  let! l := dir_entries dir in
  let i := Z.to_nat (offset / sizeof_ramfs_dirent) in
  match first_index (fun e => negb (is_free e)) (drop i l) with
  | None => ret (0, None)
  | Some j =>
      let! e := deref (drop i l !! j) in
      let r := sizeof_ramfs_dirent + Z.of_nat j * sizeof_ramfs_dirent in
      let! name := deref (strncpy (rd_name zero_dirent) (rd_name e) (Z.to_nat (NAME_LEN - 1))) in
      ret (r, Some (Dirent (u32 (rd_ino e)) 0 name))
  end.

Definition ramfs_stat (file : Z) : M K (Z * stat) :=
  let! v := vn_get file in
  let! slot := vnode_slot file in
  let! i := rf_get slot in
  let rdev := if (vn_mode v =? S_IFCHR) || (vn_mode v =? S_IFBLK)
              then match rf_mem i with MemDev d => d | _ => 0 end else 0 in
  ret (0, Stat (vn_mode v) (vn_vno v) 0 rdev (rf_linkcount i - 1) (rf_size i) PAGE_SIZE 1).

Definition ramfs_dir_vops : vnode_ops K :=
  VnodeOps None None (Some ramfs_mknod) (Some ramfs_lookup) (Some ramfs_link) (Some ramfs_unlink)
    (Some ramfs_rename) (Some ramfs_mkdir) (Some ramfs_rmdir) (Some ramfs_readdir) (Some ramfs_stat)
    None None None.

Definition ramfs_file_vops : vnode_ops K :=
  VnodeOps (Some ramfs_read) (Some ramfs_write) None None None None None None None None
    (Some ramfs_stat) None None (Some ramfs_truncate_file).

Definition ramfs_vops (o : vops) : vnode_ops K :=
  match o with
  | VopsDir => ramfs_dir_vops
  | VopsFile => ramfs_file_vops
  | VopsChar => chardev_spec_vops (Some ramfs_stat)
  | VopsBlock => blockdev_spec_vops (Some ramfs_stat)
  | VopsNull => no_ops
  end.
End ramfs.
