(* ===== verification/S5Disk.v ===== *)
(** The on-disk structures of S5FS and its metadata layer: the structures of
    [include/fs/s5fs/s5fs.h], the block access of [fs/s5fs/s5fs.c], and the
    allocation of blocks and inodes of [fs/s5fs/s5fs_subr.c].

    A cached block is a page frame of [s5f_mobj], named by its block number;
    its page is a list of bytes, and the structures are read from it and
    written to it through their encodings.  The block device is a driver
    outside the file system: a state with [read_block] and [write_block]. *)

From S2P Require Import Prelude CString Btree Mobj.

Definition S5_SUPER_BLOCK : Z := 0.
Definition S5_NBLKS_PER_FNODE : nat := 30.
Definition S5_BLOCK_SIZE : Z := 4096.
Definition S5_NDIRECT_BLOCKS : nat := 28.
Definition S5_NIDIRECT_BLOCKS : nat := 1024.
Definition S5_MAX_FILE_BLOCKS : Z := 1052.
Definition S5_MAX_FILE_SIZE : Z := S5_MAX_FILE_BLOCKS * S5_BLOCK_SIZE.
Definition S5_NAME_LEN : nat := 28.
Definition sizeof_s5_inode : nat := 128.
Definition sizeof_s5_dirent : nat := 32.
Definition S5_INODES_PER_BLOCK : Z := 32.
Definition S5_TYPE_FREE : Z := 0.
Definition S5_TYPE_DATA : Z := 1.
Definition S5_TYPE_DIR : Z := 2.
Definition S5_TYPE_CHR : Z := 4.
Definition S5_TYPE_BLK : Z := 8.
Definition S5_MAGIC : Z := 0x727F.
Definition S5_CURRENT_VERSION : Z := 3.

(** [(uint32_t)-1] *)
Definition minus1_32 : Z := 2 ^ 32 - 1.

Definition S5_INODE_BLOCK (ino : Z) : Z := ino / S5_INODES_PER_BLOCK + 1.
Definition S5_INODE_OFFSET (ino : Z) : nat := Z.to_nat (ino mod S5_INODES_PER_BLOCK).

(** * Structures and their encodings *)

(** [n] consecutive [uint32_t] from word [i] on, and the bytes of words. *)
Definition words_of (l : list Z) (i n : nat) : list Z := map (get32 l) (seq i n).
Definition bytes_of_words (ws : list Z) : list Z := concat (map (le_of_Z 4) ws).

Record s5_super : Type := S5Super {
  s5s_magic : Z;
  s5s_free_inode : Z;
  s5s_nfree : Z;
  s5s_free_blocks : list Z;           (* uint32_t[S5_NBLKS_PER_FNODE] *)
  s5s_root_inode : Z;
  s5s_num_inodes : Z;
  s5s_version : Z;
}.

Definition decode_super (b : list Z) : s5_super :=
  S5Super (get32 b 0) (get32 b 1) (get32 b 2) (words_of b 3 S5_NBLKS_PER_FNODE)
          (get32 b 33) (get32 b 34) (get32 b 35).

Definition encode_super (s : s5_super) : list Z :=
  bytes_of_words ([s5s_magic s; s5s_free_inode s; s5s_nfree s] ++ s5s_free_blocks s
                  ++ [s5s_root_inode s; s5s_num_inodes s; s5s_version s]).

Definition set_free_inode (i : Z) (s : s5_super) : s5_super :=
  S5Super (s5s_magic s) i (s5s_nfree s) (s5s_free_blocks s) (s5s_root_inode s) (s5s_num_inodes s)
          (s5s_version s).
Definition set_free_list (n : Z) (l : list Z) (s : s5_super) : s5_super :=
  S5Super (s5s_magic s) (s5s_free_inode s) n l (s5s_root_inode s) (s5s_num_inodes s) (s5s_version s).

(** [s5_un] is one word: the size of a file or the next free inode. *)
Record s5_inode : Type := S5Inode {
  s5_size : Z;
  s5_number : Z;
  s5_type : Z;                        (* uint16_t *)
  s5_linkcount : Z;                   (* int16_t *)
  s5_direct_blocks : list Z;          (* uint32_t[S5_NDIRECT_BLOCKS] *)
  s5_indirect_block : Z;
}.

Definition decode_inode (b : list Z) : s5_inode :=
  S5Inode (get32 b 0) (get32 b 1) (Z_of_le (slice b 8 2)) (s16 (Z_of_le (slice b 10 2)))
          (words_of b 3 S5_NDIRECT_BLOCKS) (get32 b 31).

Definition encode_inode (i : s5_inode) : list Z :=
  le_of_Z 4 (s5_size i) ++ le_of_Z 4 (s5_number i) ++ le_of_Z 2 (s5_type i)
  ++ le_of_Z 2 (s5_linkcount i) ++ bytes_of_words (s5_direct_blocks i)
  ++ le_of_Z 4 (s5_indirect_block i).

Definition set_s5_size (n : Z) (i : s5_inode) : s5_inode :=
  S5Inode n (s5_number i) (s5_type i) (s5_linkcount i) (s5_direct_blocks i) (s5_indirect_block i).
Definition set_s5_linkcount (n : Z) (i : s5_inode) : s5_inode :=
  S5Inode (s5_size i) (s5_number i) (s5_type i) n (s5_direct_blocks i) (s5_indirect_block i).
Definition set_s5_direct (l : list Z) (i : s5_inode) : s5_inode :=
  S5Inode (s5_size i) (s5_number i) (s5_type i) (s5_linkcount i) l (s5_indirect_block i).
Definition set_s5_indirect (n : Z) (i : s5_inode) : s5_inode :=
  S5Inode (s5_size i) (s5_number i) (s5_type i) (s5_linkcount i) (s5_direct_blocks i) n.

Record s5_dirent : Type := S5Dirent {
  s5d_inode : Z;
  s5d_name : list Z;                  (* char[S5_NAME_LEN] *)
}.

Definition decode_dirent (b : list Z) : s5_dirent :=
  S5Dirent (get32 b 0) (slice b 4 S5_NAME_LEN).

Definition encode_dirent (d : s5_dirent) : list Z := le_of_Z 4 (s5d_inode d) ++ s5d_name d.

(** * The block device and the file system *)

(** [read_block] returns the block unless it fails; [write_block] returns its
    result code and the device it leaves. *)
Class BlockDev : Type := {
  bdev : Type;
  bd_id : Z;
  read_block : bdev -> Z -> option (list Z);
  write_block : bdev -> Z -> list Z -> Z * bdev;
}.

(** [s5fs_t]: the device, the cached super block with its mutex, and the
    memory object of the metadata blocks. *)
Record s5fs {bd : BlockDev} : Type := S5fs {
  s5f_bdev : bdev;
  s5f_super : s5_super;
  s5f_mutex : bool;
  s5f_mobj : mobj;
}.

Section meta.
Context {mem : Memory} {pages : Pages} {bd : BlockDev}.

Definition set_s5f_bdev (d : bdev) (f : s5fs) : s5fs :=
  S5fs _ d (s5f_super f) (s5f_mutex f) (s5f_mobj f).
Definition set_s5f_super (s : s5_super) (f : s5fs) : s5fs :=
  S5fs _ (s5f_bdev f) s (s5f_mutex f) (s5f_mobj f).
Definition set_s5f_mutex (b : bool) (f : s5fs) : s5fs :=
  S5fs _ (s5f_bdev f) (s5f_super f) b (s5f_mobj f).
Definition set_s5f_mobj (o : mobj) (f : s5fs) : s5fs :=
  S5fs _ (s5f_bdev f) (s5f_super f) (s5f_mutex f) o.

Definition s5f_mobj_lens : lens s5fs mobj := Lens s5f_mobj set_s5f_mobj.
Definition s5f_mutex_lens : lens s5fs bool := Lens s5f_mutex set_s5f_mutex.

Definition s5_lock_super : M s5fs unit := kmutex_lock s5f_mutex_lens.
Definition s5_unlock_super : M s5fs unit := kmutex_unlock s5f_mutex_lens.

(** ** Metadata blocks *)

Definition meta_page (n : Z) : M s5fs (list Z) :=
  let! pf := pf_get s5f_mobj_lens n in deref (pf_addr pf).

Definition set_meta_page (n : Z) (b : list Z) : M s5fs unit :=
  pf_modify s5f_mobj_lens n (set_pf_addr (Some b)).

(** Read the block of a new frame into its page. *)
Definition s5_get_meta_disk_block (blocknum : Z) (forwrite : bool) : M s5fs unit :=
  do! mobj_lock s5f_mobj_lens;
  let! pf := mobj_find_pframe s5f_mobj_lens blocknum in
  match pf with
  | Some n =>
      do! pf_modify s5f_mobj_lens n (fun pf => set_pf_dirty (pf_dirty pf || forwrite) pf);
      mobj_unlock s5f_mobj_lens
  | None =>
      let! pf := mobj_create_pframe s5f_mobj_lens blocknum blocknum in
      let! n := deref pf in
      do! kassert (negb oom);
      do! pf_modify s5f_mobj_lens n (set_pf_addr (Some page_garbage));
      let! f := get in
      let! b := (match read_block (s5f_bdev f) (u32 blocknum) with
                 | Some b => ret b
                 | None => fail Assert
                 end) in
      do! set_meta_page n b;
      do! pf_modify s5f_mobj_lens n (fun pf => set_pf_dirty (pf_dirty pf || forwrite) pf);
      mobj_unlock s5f_mobj_lens
  end.

Definition s5_release_disk_block (n : Z) : M s5fs unit := pframe_release s5f_mobj_lens n.

Definition super : M s5fs s5_super := gets s5f_super.
Definition set_super (s : s5_super) : M s5fs unit := modify (set_s5f_super s).

(** ** Blocks *)

Definition s5_alloc_block : M s5fs Z :=
  do! s5_lock_super;
  let! s := super in
  let! more :=
    (if s5s_nfree s =? 0 then
       let! link := deref (s5s_free_blocks s !! (S5_NBLKS_PER_FNODE - 1)%nat) in
       if link =? minus1_32 then ret false
       else
         do! s5_get_meta_disk_block link true;
         let! b := meta_page link in
         do! set_super (set_free_list (Z.of_nat S5_NBLKS_PER_FNODE - 1)
                                      (words_of b 0 S5_NBLKS_PER_FNODE) s);
         do! s5_release_disk_block link;
         ret true
     else ret true) in
  if negb more then do! s5_unlock_super; ret (- ENOSPC)
  else
    let! s := super in
    let nfree := s5s_nfree s - 1 in
    let! blockno := deref (s5s_free_blocks s !! Z.to_nat nfree) in
    do! set_super (set_free_list nfree (s5s_free_blocks s) s);
    do! s5_unlock_super;
    ret blockno.

Definition s5_free_block (blockno : Z) : M s5fs unit :=
  do! s5_lock_super;
  let! s := super in
  do! kassert (negb (blockno =? 0));
  do! kassert (s5s_nfree s <? Z.of_nat S5_NBLKS_PER_FNODE);
  do! (if s5s_nfree s =? Z.of_nat S5_NBLKS_PER_FNODE - 1 then
         do! s5_get_meta_disk_block blockno true;
         let! b := meta_page blockno in
         do! set_meta_page blockno (splice b 0 (bytes_of_words (s5s_free_blocks s)));
         do! s5_release_disk_block blockno;
         set_super (set_free_list 0 (<[(S5_NBLKS_PER_FNODE - 1)%nat := blockno]> (s5s_free_blocks s)) s)
       else
         do! set_super (set_free_list (s5s_nfree s + 1)
                          (<[Z.to_nat (s5s_nfree s) := blockno]> (s5s_free_blocks s)) s);
         mobj_delete_pframe s5f_mobj_lens blockno);
  s5_unlock_super.

(** ** Inodes *)

(** The inode in the page of its block, and the page with it replaced. *)
Definition inode_in (b : list Z) (ino : Z) : s5_inode :=
  decode_inode (slice b (S5_INODE_OFFSET ino * sizeof_s5_inode) sizeof_s5_inode).
Definition put_inode_in (b : list Z) (ino : Z) (i : s5_inode) : list Z :=
  splice b (S5_INODE_OFFSET ino * sizeof_s5_inode) (encode_inode i).

Definition s5_get_inode (ino : Z) (forwrite : bool) : M s5fs s5_inode :=
  do! s5_get_meta_disk_block (S5_INODE_BLOCK ino) forwrite;
  let! b := meta_page (S5_INODE_BLOCK ino) in
  let i := inode_in b ino in
  do! kassert (s5_number i =? ino);
  ret i.

(** Write through the inode pointer. *)
Definition put_inode (ino : Z) (i : s5_inode) : M s5fs unit :=
  let! b := meta_page (S5_INODE_BLOCK ino) in
  set_meta_page (S5_INODE_BLOCK ino) (put_inode_in b ino i).

(** [s5_release_inode] asserts that the inode is where its number says. *)
Definition s5_release_inode (ino : Z) : M s5fs unit :=
  let! b := meta_page (S5_INODE_BLOCK ino) in
  do! kassert (S5_INODE_OFFSET (s5_number (inode_in b ino)) =? S5_INODE_OFFSET ino)%nat;
  s5_release_disk_block (S5_INODE_BLOCK ino).

Definition zero_direct : list Z := replicate S5_NDIRECT_BLOCKS 0.

Definition s5_alloc_inode (type devid : Z) : M s5fs Z :=
  do! kassert ((type =? S5_TYPE_DATA) || (type =? S5_TYPE_DIR)
               || (type =? S5_TYPE_CHR) || (type =? S5_TYPE_BLK));
  do! s5_lock_super;
  let! s := super in
  let new_ino := s5s_free_inode s in
  if new_ino =? minus1_32 then do! s5_unlock_super; ret (- ENOSPC)
  else
    let! i := s5_get_inode new_ino true in
    do! set_super (set_free_inode (s5_size i) s);
    do! kassert (negb (s5_size i =? s5_number i));
    do! put_inode new_ino
          (S5Inode 0 (s5_number i) type 0 zero_direct
             (if (type =? S5_TYPE_CHR) || (type =? S5_TYPE_BLK) then u32 devid else 0));
    do! s5_release_inode new_ino;
    do! s5_unlock_super;
    ret new_ino.

(** [for (i...) if (blocks[i]) s5_free_block(blocks[i]);] *)
Definition free_blocks (l : list Z) : M s5fs unit :=
  for_each l (fun b => if b =? 0 then ret tt else s5_free_block b).

Definition s5_free_inode (ino : Z) : M s5fs unit :=
  do! s5_lock_super;
  let! i := s5_get_inode ino true in
  let data := (s5_type i =? S5_TYPE_DATA) || (s5_type i =? S5_TYPE_DIR) in
  do! kassert (data || (s5_type i =? S5_TYPE_BLK) || (s5_type i =? S5_TYPE_CHR));
  let direct := if data then s5_direct_blocks i else zero_direct in
  let indirect := if data then s5_indirect_block i else 0 in
  let! s := super in
  do! put_inode ino (S5Inode (s5s_free_inode s) (s5_number i) S5_TYPE_FREE (s5_linkcount i)
                       (s5_direct_blocks i) (s5_indirect_block i));
  do! set_super (set_free_inode (s5_number i) s);
  do! s5_release_inode ino;
  do! s5_unlock_super;
  do! free_blocks direct;
  if indirect =? 0 then ret tt
  else
    do! s5_get_meta_disk_block indirect false;
    let! b := meta_page indirect in
    do! s5_release_disk_block indirect;
    do! free_blocks (words_of b 0 S5_NIDIRECT_BLOCKS);
    s5_free_block indirect.

(** [s5_check_super]: 0 or -1. *)
Definition s5_check_super (s : s5_super) : Z :=
  if negb ((s5s_magic s =? S5_MAGIC)
           && ((s5s_free_inode s <? s5s_num_inodes s) || (s5s_free_inode s =? minus1_32))
           && (s5s_root_inode s <? s5s_num_inodes s)) then -1
  else if negb (s5s_version s =? S5_CURRENT_VERSION) then -1
  else 0.
End meta.
