(* ===== verification/Fsmaker.v ===== *)
(** The disk formatter tools/fsmaker/api.py.

    The simulated disk is a file: its bytes and its length; the position of the
    file is set before every access and is not kept.  A Python call returns a
    value or raises, and both leave the file changed, so a computation returns
    [Ok] or [Raise] beside the state; [Failed] stands only for fuel that runs
    out.  Text ([str]) and [bytes] are kept apart where the source confuses
    them: a [str] is never equal to a [bytes] object, and the library refuses
    one where it wants the other.  The block and inode numbers that the source
    computes with floats are small enough to be exact. *)

From S2P Require Import Prelude CString KMem S5Disk.

Inductive exn : Type := S5fsException | S5fsDiskSpaceException | TypeError | StructError | AttributeError.

Inductive res (A : Type) : Type :=
| Ok (a : A)
| Raise (e : exn).
Arguments Ok {A} a.
Arguments Raise {A} e.

Record simfile : Type := Simfile { f_mem : memory; f_len : Z }.

Definition Py (A : Type) : Type := M simfile (res A).

Definition pret {A} (a : A) : Py A := ret (Ok a).
Definition raise {A} (e : exn) : Py A := ret (Raise e).
Definition pbind {A B} (m : Py A) (k : A -> Py B) : Py B :=
  bind m (fun r => match r with Ok a => k a | Raise e => raise e end).

(** [try: m except S5fsException as e: h; raise e] *)
Definition try_s5 {A} (m : Py A) (h : Py unit) : Py A :=
  bind m (fun r =>
    match r with
    | Raise (S5fsException | S5fsDiskSpaceException) => pbind h (fun _ => ret r)
    | _ => ret r
    end).

Declare Scope py_scope.
Notation "'let?' x ':=' m 'in' k" := (pbind m (fun x => k))
  (at level 10, x pattern, m at level 100, k at level 200,
   format "'[v' 'let?'  x  ':='  m  'in' '/' k ']'") : py_scope.
Notation "'do?' m ';' k" := (pbind m (fun _ => k))
  (at level 10, m at level 100, k at level 200, format "'[v' 'do?'  m ';' '/' k ']'") : py_scope.
Open Scope py_scope.

(** [for x in l: body] *)
Fixpoint pfor {A} (l : list A) (body : A -> Py unit) : Py unit :=
  match l with
  | [] => pret tt
  | a :: l => do? body a; pfor l body
  end.

(** [if c: raise S5fsException(...)] *)
Definition check (c : bool) : Py unit := if c then raise S5fsException else pret tt.

(** ** The file *)

Inductive data : Type := Bytes (l : list Z) | Str (l : list Z).

Definition data_len (d : data) : Z := match d with Bytes l | Str l => Z.of_nat (length l) end.

(** [seek(off); read(n)]: the end of the file cuts it short. *)
Definition fread (off n : Z) : Py (list Z) :=
  let! s := get in pret (load_bytes (f_mem s) off (Z.to_nat (Z.min n (f_len s - off)))).

(** [seek(off); write(d)]: writing no bytes does not extend the file. *)
Definition fwrite (off : Z) (d : data) : Py unit :=
  match d with
  | Str _ => raise TypeError
  | Bytes l =>
      do! modify (fun s => Simfile (store_bytes (f_mem s) off l)
                             (match l with [] => f_len s | _ => Z.max (f_len s) (off + Z.of_nat (length l)) end));
      pret tt
  end.

(** [struct.pack] and [struct.unpack] of the formats I, H and h *)
Definition pack_I (v : Z) : Py (list Z) :=
  if (0 <=? v) && (v <? 2 ^ 32) then pret (le_of_Z 4 v) else raise StructError.
Definition pack_H (v : Z) : Py (list Z) :=
  if (0 <=? v) && (v <? 2 ^ 16) then pret (le_of_Z 2 v) else raise StructError.
Definition pack_h (v : Z) : Py (list Z) :=
  if (- 2 ^ 15 <=? v) && (v <? 2 ^ 15) then pret (le_of_Z 2 v) else raise StructError.

Definition unpack_I (l : list Z) : Py Z := if (length l =? 4)%nat then pret (Z_of_le l) else raise StructError.
Definition unpack_H (l : list Z) : Py Z := if (length l =? 2)%nat then pret (Z_of_le l) else raise StructError.
Definition unpack_h (l : list Z) : Py Z := if (length l =? 2)%nat then pret (s16 (Z_of_le l)) else raise StructError.

Definition get_I (off : Z) : Py Z := let? l := fread off 4 in unpack_I l.
Definition set_I (off v : Z) : Py unit := let? l := pack_I v in fwrite off (Bytes l).

(** ** [Simdisk]: the fields of the super block *)

Definition S5_INODE_SIZE : Z := 128.
Definition S5_DIRENT_SIZE : Z := 32.
Definition NONE : Z := 0xffffffff.

Definition get_magic : Py Z := get_I 0.
Definition set_magic (val : Z) : Py unit := set_I 0 val.
Definition get_free_inode : Py Z := get_I 4.
Definition put_free_inode (val : Z) : Py unit := set_I 4 val.
Definition get_nfree : Py Z := get_I 8.
Definition set_nfree (val : Z) : Py unit := set_I 8 val.
Definition get_free_block (index : Z) : Py Z :=
  if index <? 29 then get_I (12 + 4 * index) else raise S5fsException.
Definition set_free_block (index val : Z) : Py unit :=
  if index <? 29 then set_I (12 + 4 * index) val else raise S5fsException.
Definition get_last_free_block : Py Z := get_I (12 + 4 * 29).
Definition set_last_free_block (val : Z) : Py unit := set_I (12 + 4 * 29) val.
Definition get_root_inode : Py Z := get_I (12 + 4 * 30).
Definition get_num_inodes : Py Z := get_I (16 + 4 * 30).
Definition set_num_inodes (val : Z) : Py unit := set_I (16 + 4 * 30) val.
Definition get_version : Py Z := get_I (20 + 4 * 30).
Definition set_version (val : Z) : Py unit := set_I (20 + 4 * 30) val.

(** ** [Block] *)

Record Block : Type := MkBlock { b_offset : Z; b_blockno : Z }.

Definition get_block (index : Z) : Block := MkBlock (S5_BLOCK_SIZE * index) index.

Definition block_read (b : Block) (offset size : Z) : Py (list Z) :=
  do? check (S5_BLOCK_SIZE <? offset + size);
  fread (b_offset b + offset) size.

Definition block_write (b : Block) (offset : Z) (d : data) : Py unit :=
  do? check (S5_BLOCK_SIZE <? offset + data_len d);
  fwrite (b_offset b + offset) d.

(** The bytes are written one by one from the start of the block. *)
Definition block_zero (b : Block) : Py unit :=
  pfor (seqZ 0 S5_BLOCK_SIZE) (fun i => fwrite (b_offset b + i) (Bytes [0])).

Definition write_I (b : Block) (offset v : Z) : Py unit :=
  let? l := pack_I v in block_write b offset (Bytes l).

Definition block_free (b : Block) : Py unit :=
  let? nfree := get_nfree in
  if nfree <? 29 then
    let? nfree := get_nfree in
    do? set_free_block nfree (b_blockno b);
    let? nfree := get_nfree in
    set_nfree (nfree + 1)
  else
    do? pfor (seqZ 0 29) (fun i => let? v := get_free_block i in write_I b (i * 4) v);
    let? last := get_last_free_block in
    do? write_I b (29 * 4) last;
    do? set_last_free_block (b_blockno b);
    set_nfree 0.

Definition read_I (b : Block) (offset : Z) : Py Z := let? l := block_read b offset 4 in unpack_I l.

Definition alloc_block : Py Block :=
  let? nfree := get_nfree in
  do? check (29 <? nfree);
  let? nfree := get_nfree in
  if nfree =? 0 then
    let? last := get_last_free_block in
    if last =? NONE then raise S5fsDiskSpaceException
    else
      let? last := get_last_free_block in
      let block := get_block last in
      do? pfor (seqZ 0 29) (fun i => let? v := read_I block (i * 4) in set_free_block i v);
      let? v := read_I block (29 * 4) in
      do? set_last_free_block v;
      do? set_nfree 29;
      pret block
  else
    let? nfree := get_nfree in
    do? set_nfree (nfree - 1);
    let? nfree := get_nfree in
    let? no := get_free_block nfree in
    pret (get_block no).

(** ** [Inode] *)

Record Inode : Type := MkInode { i_number : Z; i_offset : Z }.

Definition inode_offset (index : Z) : Z :=
  S5_BLOCK_SIZE * (1 + index / S5_INODES_PER_BLOCK) + S5_INODE_SIZE * (index mod S5_INODES_PER_BLOCK).

Definition get_inode (index : Z) : Py Inode :=
  let? n := get_num_inodes in
  do? check (n <=? index);
  pret (MkInode index (inode_offset index)).

Section fields.
Context (self : Inode).

Definition get_size : Py Z := get_I (i_offset self).
Definition set_size (val : Z) : Py unit := set_I (i_offset self) val.
Definition get_next_free : Py Z := get_size.
Definition set_next_free (val : Z) : Py unit := set_size val.
Definition get_number : Py Z := get_I (i_offset self + 4).
Definition set_number (val : Z) : Py unit := set_I (i_offset self + 4) val.
Definition get_type : Py Z := let? l := fread (i_offset self + 8) 2 in unpack_H l.
Definition set_type (val : Z) : Py unit := let? l := pack_H val in fwrite (i_offset self + 8) (Bytes l).
Definition get_link_count : Py Z := let? l := fread (i_offset self + 10) 2 in unpack_h l.
Definition set_link_count (val : Z) : Py unit := let? l := pack_h val in fwrite (i_offset self + 10) (Bytes l).
Definition get_direct_blockno (index : Z) : Py Z :=
  if index <? 28 then get_I (i_offset self + 12 + index * 4) else raise S5fsException.
Definition set_direct_blockno (index val : Z) : Py unit :=
  if index <? 28 then set_I (i_offset self + 12 + index * 4) val else raise S5fsException.
Definition get_indirect_blockno : Py Z := get_I (i_offset self + 12 + 4 * 28).
Definition set_indirect_blockno (val : Z) : Py unit := set_I (i_offset self + 12 + 4 * 28) val.

Definition data_inode : Py unit :=
  let? t := get_type in check (negb ((t =? S5_TYPE_DATA) || (t =? S5_TYPE_DIR))).

(** The disk block of block [blockno] of the file, 0 for a hole. *)
Definition read_blockno (blockno : Z) : Py Z :=
  if blockno <? 28 then get_direct_blockno blockno
  else
    let? ind := get_indirect_blockno in
    if ind =? 0 then pret 0
    else
      let? ind := get_indirect_blockno in
      read_I (get_block ind) ((blockno - 28) * 4).

(** The loop of [read]; a hole adds a [str] to the [bytes] read. *)
Fixpoint inode_read_loop (fuel : nat) (offset size : Z) (res : list Z) : Py (list Z) :=
  if 0 <? size then
    match fuel with
    | O => fail Stuck
    | S fuel =>
        let blockoff := offset mod S5_BLOCK_SIZE in
        let amount := Z.min (S5_BLOCK_SIZE - blockoff) size in
        let? blockno := read_blockno (offset / S5_BLOCK_SIZE) in
        if blockno =? 0 then raise TypeError
        else
          let? l := block_read (get_block blockno) blockoff amount in
          inode_read_loop fuel (offset + amount) (size - amount) (res ++ l)
    end
  else pret res.

Definition inode_read (offset size : Z) : Py (list Z) :=
  do? data_inode;
  let? s := get_size in
  let size := Z.min size (Z.min S5_MAX_FILE_SIZE s - offset) in
  inode_read_loop (Z.to_nat size) offset size [].

(** The block that block [blockloc] of the file is written to. *)
Definition write_block_of (blockloc : Z) : Py Block :=
  let? blockno :=
    (if blockloc <? 28 then get_direct_blockno blockloc
     else
       let? ind := get_indirect_blockno in
       if ind =? 0 then
         let? indirect := alloc_block in
         do? block_zero indirect;
         do? set_indirect_blockno (b_blockno indirect);
         pret 0
       else
         let? ind := get_indirect_blockno in
         read_I (get_block ind) ((blockloc - 28) * 4)) in
  if blockno =? 0 then
    let? block := alloc_block in
    do? block_zero block;
    do? (if blockloc <? 28 then set_direct_blockno blockloc (b_blockno block)
         else
           let? ind := get_indirect_blockno in
           write_I (get_block ind) ((blockloc - 28) * 4) (b_blockno block));
    pret block
  else pret (get_block blockno).

(** [data[-remaining:]] and [data[-remaining:-remaining+amount]] *)
Definition part (d : data) (remaining amount : Z) : data :=
  match d with
  | Bytes l => Bytes (take (Z.to_nat amount) (drop (length l - Z.to_nat remaining) l))
  | Str l => Str (take (Z.to_nat amount) (drop (length l - Z.to_nat remaining) l))
  end.

Fixpoint inode_write_loop (fuel : nat) (offset remaining : Z) (d : data) : Py Z :=
  if 0 <? remaining then
    match fuel with
    | O => fail Stuck
    | S fuel =>
        let blockoff := offset mod S5_BLOCK_SIZE in
        let amount := Z.min (S5_BLOCK_SIZE - blockoff) remaining in
        let? block := write_block_of (offset / S5_BLOCK_SIZE) in
        do? block_write block blockoff (part d remaining amount);
        inode_write_loop fuel (offset + amount) (remaining - amount) d
    end
  else pret offset.

Definition inode_write (offset : Z) (d : data) : Py unit :=
  do? data_inode;
  do? check (S5_MAX_FILE_SIZE <? offset + data_len d);
  let? offset := inode_write_loop (Z.to_nat (data_len d)) offset (data_len d) d in
  let? s := get_size in
  if s <? offset then set_size offset else pret tt.

(** *** [truncate] *)

(** The loop that frees the blocks after [target]; it leaves [curr]. *)
Fixpoint truncate_loop (fuel : nat) (curr target : Z) : Py Z :=
  if target <? curr then
    match fuel with
    | O => fail Stuck
    | S fuel =>
        let? blockno := read_blockno curr in
        do? (if 0 <? blockno then
               do? block_free (get_block blockno);
               if curr <? 28 then set_direct_blockno curr 0
               else
                 let? ind := get_indirect_blockno in
                 let indirect := get_block ind in
                 do? write_I indirect ((curr - 28) * 4) 0;
                 if curr =? 28 then do? block_free indirect; set_indirect_blockno 0 else pret tt
             else pret tt);
        truncate_loop fuel (curr - 1) target
    end
  else pret curr.

Definition truncate (size : Z) : Py unit :=
  let target := (size - 1) / S5_BLOCK_SIZE in
  let? s := get_size in
  let curr := s / S5_BLOCK_SIZE in
  let? curr := truncate_loop (Z.to_nat (curr - target)) curr target in
  do? (if curr <? target then
         if curr <? 28 then set_indirect_blockno 0
         else
           let? ind := get_indirect_blockno in
           if negb (ind =? 0) then
             let? ind := get_indirect_blockno in
             write_I (get_block ind) ((curr - 28) * 4) 0
           else pret tt
       else pret tt);
  set_size size.

Definition inode_free : Py unit :=
  let? s := get_size in
  do? (if negb (s =? 0) then truncate 0 else pret tt);
  do? set_type S5_TYPE_FREE;
  let? next := get_free_inode in
  do? set_next_free next;
  put_free_inode (i_number self).
End fields.

(** ** Directories

    A name is a [str] of ASCII characters, the list of their codes. *)

Record Dirent : Type := MkDirent { d_parent : Inode; d_inode : Z; d_name : list Z; d_offset : Z }.

(** [remove] writes a [str]. *)
Definition dirent_remove (d : Dirent) : Py unit := inode_write (d_parent d) (d_offset d + 4) (Str [0]).

Definition dir_inode (self : Inode) : Py unit :=
  let? t := get_type self in
  do? check (negb (t =? S5_TYPE_DIR));
  let? s := get_size self in
  check (negb (s mod S5_DIRENT_SIZE =? 0)).

Definition name_fits (name : list Z) : Py unit := check (S5_NAME_LEN <=? length name)%nat.

(** [range(0, size, S5_DIRENT_SIZE)] *)
Definition dirent_offsets (size : Z) : list Z :=
  map (fun k => k * S5_DIRENT_SIZE) (seqZ 0 ((size + S5_DIRENT_SIZE - 1) / S5_DIRENT_SIZE)).

(** The [bytes] of an entry's name are split at a [str], which raises. *)
Fixpoint find_loop (self : Inode) (l : list Z) : Py (option Dirent) :=
  match l with
  | [] => pret None
  | i :: l =>
      let? b := inode_read self i 4 in
      let? _ := unpack_I b in
      let? _ := inode_read self (i + 4) (Z.of_nat S5_NAME_LEN) in
      raise TypeError
  end.

Definition _find_dirent (self : Inode) (name : list Z) : Py (option Dirent) :=
  do? dir_inode self;
  do? name_fits name;
  let? size := get_size self in
  find_loop self (dirent_offsets size).

Definition unlink (self : Inode) (name : list Z) : Py unit :=
  let? d := _find_dirent self name in
  match d with
  | None => raise S5fsException
  | Some d =>
      let? inode := get_inode (d_inode d) in
      let? t := get_type inode in
      do? check (t =? S5_TYPE_DIR);
      let? n := get_link_count inode in
      do? check (n <? 1);
      do? dirent_remove d;
      let? n := get_link_count inode in
      if n =? 1 then do? set_link_count inode 0; inode_free inode
      else let? n := get_link_count inode in set_link_count inode (n - 1)
  end.

(** [getdents] hands each entry with a name to its caller, which may stop. *)
Fixpoint getdents_loop {B} (self : Inode) (l : list Z) (yield : Dirent -> Py (option B)) : Py (option B) :=
  match l with
  | [] => pret None
  | i :: l =>
      let? b := inode_read self i 4 in
      let? inode := unpack_I b in
      let? name := inode_read self (i + 4) (Z.of_nat S5_NAME_LEN) in
      if negb (bool_decide (0 ∈ name)) then raise S5fsException
      else
        let name := cstr name in
        if (0 <? length name)%nat then
          let? r := yield (MkDirent self inode name i) in
          match r with Some b => pret (Some b) | None => getdents_loop self l yield end
        else getdents_loop self l yield
  end.

Definition getdents {B} (self : Inode) (yield : Dirent -> Py (option B)) : Py (option B) :=
  do? dir_inode self;
  let? size := get_size self in
  getdents_loop self (dirent_offsets size) yield.

(** The names are [bytes], which differ from the [str] they are compared with. *)
Definition is_empty (self : Inode) : Py bool :=
  let? r := getdents self (fun _ => pret (Some tt)) in
  pret (match r with Some _ => false | None => true end).

Definition rmdir (self : Inode) (name : list Z) : Py unit :=
  do? check (bool_decide (name = str ".") || bool_decide (name = str ".."));
  let? d := _find_dirent self name in
  match d with
  | None => raise S5fsException
  | Some d =>
      let? inode := get_inode (d_inode d) in
      let? t := get_type inode in
      do? check (negb (t =? S5_TYPE_DIR));
      let? e := is_empty inode in
      do? check (negb e);
      let? n := get_link_count inode in
      do? check (negb (n =? 2));
      do? dirent_remove d;
      let? n := get_link_count self in
      do? set_link_count self (n - 1);
      do? set_link_count inode 0;
      inode_free inode
  end.

Definition lookup (self : Inode) (name : list Z) : Py (option Inode) :=
  do? name_fits name;
  getdents self (fun d =>
    if bool_decide (d_name d = name) then let? i := get_inode (d_inode d) in pret (Some i) else pret None).

(** The names in the directory are [bytes] and never equal to [name]; the
    entry reused is the last one if [name] itself is empty. *)
Fixpoint empty_loop (self : Inode) (l : list Z) (name : list Z) (empty : Z) : Py Z :=
  match l with
  | [] => pret empty
  | i :: l =>
      let? _ := inode_read self (i + 4) (Z.of_nat S5_NAME_LEN) in
      empty_loop self l name (if (length name =? 0)%nat then i else empty)
  end.

(** [name.ljust(S5_NAME_LEN, '\0').encode("utf8")] *)
Definition encode_name (name : list Z) : data := Bytes (name ++ replicate (S5_NAME_LEN - length name) 0).

Definition _make_dirent (self : Inode) (inode : Z) (name : list Z) : Py unit :=
  do? dir_inode self;
  do? name_fits name;
  let? size := get_size self in
  let? empty := empty_loop self (dirent_offsets size) name (-1) in
  if 0 <=? empty then
    let? l := pack_I inode in
    do? inode_write self empty (Bytes l);
    inode_write self (empty + 4) (encode_name name)
  else
    let? size := get_size self in
    let? l := pack_I inode in
    do? inode_write self size (Bytes l);
    let? size := get_size self in
    inode_write self size (encode_name name).

Definition alloc_inode : Py Inode :=
  let? f := get_free_inode in
  do? check (f =? NONE);
  let? f := get_free_inode in
  let? inode := get_inode f in
  let? next := get_next_free inode in
  do? put_free_inode next;
  pret inode.

Definition clear_map (inode : Inode) : Py unit :=
  do? pfor (seqZ 0 28) (fun i => set_direct_blockno inode i 0);
  set_indirect_blockno inode 0.

Definition create (self : Inode) (name : list Z) : Py Inode :=
  let? inode := alloc_inode in
  try_s5
    (do? set_type inode S5_TYPE_DATA;
     do? set_size inode 0;
     do? set_link_count inode 1;
     do? clear_map inode;
     let? n := get_number inode in
     do? _make_dirent self n name;
     pret inode)
    (inode_free inode).

Definition mkdir (self : Inode) (name : list Z) : Py Inode :=
  let? inode := alloc_inode in
  try_s5
    (do? set_type inode S5_TYPE_DIR;
     do? set_size inode 0;
     do? set_link_count inode 2;
     do? clear_map inode;
     let? n := get_number inode in
     do? _make_dirent inode n (str ".");
     let? n := get_number self in
     do? _make_dirent inode n (str "..");
     let? c := get_link_count self in
     do? set_link_count self (c + 1);
     let? n := get_number inode in
     do? _make_dirent self n name;
     pret inode)
    (inode_free inode).

(** ** [Simdisk]: formatting and paths *)

(** [free_inodes] yields the first free inode; the inode object then has no
    attribute [get_free_inode]. *)
Definition free_inodes : Py (list Z) :=
  let? inext := get_free_inode in
  if inext =? NONE then pret []
  else
    let? _ := get_inode inext in
    raise AttributeError.

(** The loop over the free blocks; [i] counts those in the super block. *)
Fixpoint free_loop (l : list Z) (i : Z) : Py Z :=
  match l with
  | [] => pret i
  | num :: l =>
      if i =? 29 then
        let block := get_block num in
        do? pfor (seqZ 0 29) (fun j => let? v := get_free_block j in write_I block (j * 4) v);
        let? last := get_last_free_block in
        do? write_I block (29 * 4) last;
        do? set_last_free_block num;
        free_loop l 0
      else
        do? set_free_block i num;
        free_loop l (i + 1)
  end.

(** [pos] is where the file stands when [format] is called: [truncate] cuts it
    there. *)
Definition format (pos inodes size : Z) : Py unit :=
  do? check (inodes <? 1);
  do? check (negb (size mod S5_BLOCK_SIZE =? 0));
  let blocks := size / S5_BLOCK_SIZE in
  let iblocks := (inodes - 1) / S5_INODES_PER_BLOCK + 1 in
  do? check (blocks <=? iblocks + 1);
  do! modify (fun s => Simfile (filter (fun p => p.1 < pos) (f_mem s)) pos);
  do? set_magic S5_MAGIC;
  do? set_version S5_CURRENT_VERSION;
  do? set_num_inodes inodes;
  do? pfor (seqZ 0 inodes) (fun i =>
        let? inode := get_inode i in
        do? set_number inode i;
        do? set_type inode S5_TYPE_FREE;
        set_next_free inode (i + 1));
  do? set_next_free (MkInode (inodes - 1) (inode_offset (inodes - 1))) NONE;
  do? put_free_inode 0;
  do? set_last_free_block NONE;
  let? i := free_loop (seqZ (iblocks + 1) (blocks - (iblocks + 1))) 0 in
  do? set_nfree i;
  let? root := alloc_inode in
  do? clear_map root;
  do? set_type root S5_TYPE_DIR;
  do? set_size root 0;
  do? set_link_count root 2;
  let? n := get_number root in
  do? _make_dirent root n (str ".");
  let? n := get_number root in
  _make_dirent root n (str "..").

(** [path.split("/")] *)
Fixpoint split_slash (path seg : list Z) : list (list Z) :=
  match path with
  | [] => [rev seg]
  | c :: path => if c =? 47 then rev seg :: split_slash path [] else split_slash path (c :: seg)
  end.

(** The segments that [os.path.normpath] keeps, the last one first. *)
Definition norm_step (absolute : bool) (comps : list (list Z)) (comp : list Z) : list (list Z) :=
  if bool_decide (comp = []) || bool_decide (comp = str ".") then comps
  else if negb (bool_decide (comp = str "..")) then comp :: comps
  else match comps with
       | [] => if absolute then [] else [comp]
       | c :: rest => if bool_decide (c = str "..") then comp :: comps else rest
       end.

(** [os.path.normpath(path).split("/")]; two slashes in front, but not three,
    are kept as two. *)
Definition norm_segments (path : list Z) : list (list Z) :=
  let absolute := match path with 47 :: _ => true | _ => false end in
  let slashes := match path with
                 | 47 :: 47 :: 47 :: _ => 1%nat
                 | 47 :: 47 :: _ => 2%nat
                 | 47 :: _ => 1%nat
                 | _ => 0%nat
                 end in
  let comps := rev (foldl (norm_step absolute) [] (split_slash path [])) in
  let tail := match comps with [] => [[]] | _ => comps end in
  if absolute then replicate slashes [] ++ tail
  else match comps with [] => [str "."] | _ => comps end.

Fixpoint open_loop (curr : Inode) (segs : list (list Z)) (create : bool) : Py (option Inode) :=
  match segs with
  | [] => pret (Some curr)
  | seg :: segs =>
      if (length seg =? 0)%nat then open_loop curr segs create
      else
        let? next := lookup curr seg in
        match next with
        | None => if negb create then pret None else raise S5fsException
        | Some next => open_loop next segs create
        end
  end.

Definition inode_open (self : Inode) (path : list Z) (creat : bool) : Py (option Inode) :=
  let segs := norm_segments path in
  let? curr := open_loop self (removelast segs) creat in
  match curr with
  | None => pret None
  | Some curr =>
      let seg := List.last segs [] in
      if (length seg =? 0)%nat then pret (Some curr)
      else
        let? found := lookup curr seg in
        match found with
        | None => if creat then let? i := create curr seg in pret (Some i) else pret None
        | Some i => pret (Some i)
        end
  end.

Definition disk_open (path : list Z) (creat : bool) : Py (option Inode) :=
  let? root := get_root_inode in
  let? inode := get_inode root in
  inode_open inode path creat.
