(* ===== verification/FsmakerProofs.v ===== *)
(** What the calls of the disk formatter leave in the file. *)

From S2P Require Import Prelude CString KMem S5Disk Fsmaker.

Implicit Types (s : simfile) (m : memory).

(** ** Calls that return *)

Definition pwp {A} (c : Py A) (Q : A -> simfile -> Prop) s : Prop :=
  wp c (fun r s' => match r with Ok a => Q a s' | Raise _ => False end) s.

Lemma pwp_bind {A B} (c : Py A) (k : A -> Py B) Q s : pwp c (fun a => pwp (k a) Q) s -> pwp (pbind c k) Q s.
Proof. unfold pwp, pbind, wp, bind. destruct (c s) as [[a|e] s'|]; done. Qed.

Lemma pwp_ret {A} (a : A) Q s : Q a s -> pwp (pret a) Q s.
Proof. done. Qed.

Lemma pwp_mono {A} (c : Py A) (Q R : A -> simfile -> Prop) s : pwp c Q s -> (forall a s', Q a s' -> R a s') -> pwp c R s.
Proof. intros H HR. eapply wp_mono; [exact H|]. intros [a|e] s'; [apply HR|done]. Qed.

Lemma pwp_run {A} (c : Py A) Q s : pwp c Q s -> exists a s', c s = Done (Ok a) s' /\ Q a s'.
Proof. intros ([a|e] & s' & E & H)%wp_run; [by exists a, s'|done]. Qed.

Lemma pwp_check (b : bool) Q s : b = false -> Q tt s -> pwp (check b) Q s.
Proof. by intros ->. Qed.

(** A loop with an invariant over the values left. *)
Lemma pwp_for {A} (l : list A) body (I : list A -> simfile -> Prop) Q s :
  I l s -> (forall a l s, I (a :: l) s -> pwp (body a) (fun _ => I l) s) -> (forall s, I [] s -> Q tt s) -> pwp (pfor l body) Q s.
Proof.
  intros HI Hb HQ. revert s HI. induction l as [|a l IH]; intros s HI; cbn [pfor]; [by apply pwp_ret, HQ|].
  apply pwp_bind. eapply pwp_mono; [by apply Hb|]. intros [] s' HI'. by apply IH.
Qed.

(** A loop over a range, with an invariant at each value. *)
Lemma pwp_range a n body (I : Z -> simfile -> Prop) Q s :
  0 <= n -> I a s -> (forall i s, a <= i < a + n -> I i s -> pwp (body i) (fun _ => I (i + 1)) s) ->
  (forall s, I (a + n) s -> Q tt s) -> pwp (pfor (seqZ a n) body) Q s.
Proof.
  intros Hn HI Hb HQ. apply (pwp_for _ _ (fun l s => exists k, 0 <= k <= n /\ l = seqZ (a + k) (n - k) /\ I (a + k) s)).
  - exists 0. by rewrite Z.add_0_r, Z.sub_0_r.
  - intros i l s' (k & Hk & Hl & HI'). destruct (decide (k = n)) as [->|Hne]; [by rewrite Z.sub_diag in Hl|].
    rewrite seqZ_cons in Hl by lia. injection Hl as -> ->. eapply pwp_mono; [apply Hb; [lia|done]|]. intros ? s2 H2.
    exists (k + 1). split; [lia|]. split; [f_equal; lia|]. by replace (a + (k + 1)) with (a + k + 1) by lia.
  - intros s' (k & Hk & Hl & HI'). apply HQ. destruct (decide (k = n)) as [->|Hne]; [done|]. by rewrite seqZ_cons in Hl by lia.
Qed.

Ltac pstep :=
  cbv beta iota;
  lazymatch goal with
  | |- pwp (pbind _ _) _ _ => apply pwp_bind
  | |- pwp (pret _) _ _ => apply pwp_ret
  end.

(** ** The bytes of the file *)

Definition byte_file s : Prop := forall x, 0 <= load8 (f_mem s) x < 256.

Definition fword s (off : Z) : Z := Z_of_le (load_bytes (f_mem s) off 4).
Definition fhalf s (off : Z) : Z := Z_of_le (load_bytes (f_mem s) off 2).

(** [s'] is [s] with the bytes [bs] at [off]. *)
Record wrote s (off : Z) (bs : list Z) s' : Prop := Wrote {
  w_bytes : load_bytes (f_mem s') off (length bs) = bs;
  w_other : forall x, ~ (off <= x < off + Z.of_nat (length bs)) -> load8 (f_mem s') x = load8 (f_mem s) x;
  w_len : f_len s' = Z.max (f_len s) (off + Z.of_nat (length bs));
  w_ok : byte_file s -> Forall (fun b => 0 <= b < 256) bs -> byte_file s';
}.

Lemma load_bytes_lookup m off n k : (k < n)%nat -> load_bytes m off n !! k = Some (load8 m (off + Z.of_nat k)).
Proof.
  revert off k. induction n as [|n IH]; intros off k Hk; [lia|]. destruct k as [|k]; cbn [load_bytes lookup]; [by rewrite Z.add_0_r|].
  etrans; [apply IH; lia|]. do 2 f_equal. lia.
Qed.

Lemma length_load_bytes m off n : length (load_bytes m off n) = n.
Proof. revert off. induction n as [|n IH]; intros off; [done|]. cbn. by rewrite IH. Qed.

Lemma pwp_fwrite off bs Q s :
  bs <> [] -> (forall s', wrote s off bs s' -> Q tt s') -> pwp (fwrite off (Bytes bs)) Q s.
Proof.
  intros Hne HQ. unfold fwrite, pwp. wp_steps. apply HQ. split; cbn [f_mem f_len].
  - apply load_bytes_store_bytes.
  - intros x Hx. apply load8_store_bytes_out. lia.
  - by destruct bs.
  - intros Hok Hbs x. cbn. destruct (decide (off <= x < off + Z.of_nat (length bs))) as [Hx|Hx]; [|rewrite load8_store_bytes_out by lia; apply Hok].
    destruct (lookup_lt_is_Some_2 bs (Z.to_nat (x - off))) as [b Hb]; [lia|].
    pose proof (load8_store_bytes_in (f_mem s) off bs _ _ Hb) as E. replace (off + Z.of_nat (Z.to_nat (x - off))) with x in E by lia.
    rewrite E. rewrite Forall_lookup in Hbs. by eapply Hbs.
Qed.

Lemma pwp_fread off n Q s :
  0 <= n -> off + n <= f_len s -> Q (load_bytes (f_mem s) off (Z.to_nat n)) s -> pwp (fread off n) Q s.
Proof. intros Hn Hl HQ. unfold fread, pwp. wp_steps. by rewrite Z.min_l by lia. Qed.

Lemma pwp_get_I off Q s : off + 4 <= f_len s -> Q (fword s off) s -> pwp (get_I off) Q s.
Proof.
  intros Hl HQ. unfold get_I. pstep. apply pwp_fread; [lia|done|]. unfold unpack_I. by rewrite length_load_bytes.
Qed.

Lemma le_bytes n z : Forall (fun b => 0 <= b < 256) (le_of_Z n z).
Proof. revert z. induction n as [|n IH]; intros z; cbn [le_of_Z]; constructor; [apply Z.mod_pos_bound; lia|apply IH]. Qed.

(** [s'] is [s] with the word [v] at [off]. *)
Definition wrote_word s off v s' : Prop := wrote s off (le_of_Z 4 v) s' /\ 0 <= v < 2 ^ 32.

Lemma pwp_set_I off v Q s : 0 <= v < 2 ^ 32 -> (forall s', wrote_word s off v s' -> Q tt s') -> pwp (set_I off v) Q s.
Proof.
  intros Hv HQ. unfold set_I, pack_I. rewrite (proj2 (Z.leb_le _ _)), (proj2 (Z.ltb_lt _ _)) by lia. cbn [andb]. pstep. pstep.
  apply pwp_fwrite; [done|]. intros s' Hw. by apply HQ.
Qed.

Lemma load_bytes_same s s' off n :
  (forall x, off <= x < off + Z.of_nat n -> load8 (f_mem s') x = load8 (f_mem s) x) -> load_bytes (f_mem s') off n = load_bytes (f_mem s) off n.
Proof. apply load_bytes_ext. Qed.

Lemma fword_same s s' off : (forall x, off <= x < off + 4 -> load8 (f_mem s') x = load8 (f_mem s) x) -> fword s' off = fword s off.
Proof. intros H. unfold fword. f_equal. by apply load_bytes_same. Qed.

Lemma fword_wrote s off v s' : wrote_word s off v s' -> fword s' off = v.
Proof.
  intros [[Hb _ _ _] Hv]. rewrite length_le_of_Z in Hb. unfold fword. rewrite Hb, Z_of_le_of_Z. apply Z.mod_small. done.
Qed.

Lemma fword_other s off bs s' a :
  wrote s off bs s' -> a + 4 <= off \/ off + Z.of_nat (length bs) <= a -> fword s' a = fword s a.
Proof. intros [_ Ho _ _] Ha. apply fword_same. intros x Hx. apply Ho. lia. Qed.

Lemma fword_other_word s off v s' a : wrote_word s off v s' -> a + 4 <= off \/ off + 4 <= a -> fword s' a = fword s a.
Proof. intros [Hw _] Ha. apply (fword_other _ _ _ _ _ Hw). rewrite length_le_of_Z. lia. Qed.

Lemma byte_other s off v s' x : wrote_word s off v s' -> x < off \/ off + 4 <= x -> load8 (f_mem s') x = load8 (f_mem s) x.
Proof. intros [[_ Ho _ _] _] Hx. apply Ho. rewrite length_le_of_Z. lia. Qed.

Lemma wrote_word_ok s off v s' : wrote_word s off v s' -> byte_file s -> byte_file s'.
Proof. intros [Hw _] Hs. apply (w_ok _ _ _ _ Hw Hs), le_bytes. Qed.

Lemma wrote_word_len s off v s' : wrote_word s off v s' -> f_len s' = Z.max (f_len s) (off + 4).
Proof. intros [Hw _]. rewrite (w_len _ _ _ _ Hw), length_le_of_Z. lia. Qed.

Lemma fword_range s off : byte_file s -> 0 <= fword s off < 2 ^ 32.
Proof.
  intros Hs. unfold fword. assert (Forall (fun b => 0 <= b < 256) (load_bytes (f_mem s) off 4)) as H by (repeat constructor; apply Hs).
  pose proof (Z_of_le_range _ H) as Hr. by rewrite length_load_bytes in Hr.
Qed.

(** ** Changes inside a range *)

(** [s'] differs from [s] only in the [n] bytes at [o]. *)
Record chg (o n : Z) s s' : Prop := Chg {
  ch_out : forall x, ~ (o <= x < o + n) -> load8 (f_mem s') x = load8 (f_mem s) x;
  ch_lo : f_len s <= f_len s';
  ch_hi : f_len s' <= Z.max (f_len s) (o + n);
  ch_ok : byte_file s -> byte_file s';
}.

Lemma chg_refl o n s : chg o n s s.
Proof. split; [done|lia|lia|done]. Qed.

Lemma chg_trans o n s s1 s2 : chg o n s s1 -> chg o n s1 s2 -> chg o n s s2.
Proof.
  intros [A1 A2 A3 A4] [B1 B2 B3 B4]. split; [|lia|lia|auto]. intros x Hx. by rewrite B1, A1.
Qed.

Lemma chg_wider o n o' n' s s' : o' <= o -> o + n <= o' + n' -> chg o n s s' -> chg o' n' s s'.
Proof. intros H1 H2 [A1 A2 A3 A4]. split; [|lia|lia|done]. intros x Hx. apply A1. lia. Qed.

Lemma wrote_chg s off bs s' o n :
  wrote s off bs s' -> Forall (fun b => 0 <= b < 256) bs -> o <= off -> off + Z.of_nat (length bs) <= o + n -> chg o n s s'.
Proof.
  intros [W1 W2 W3 W4] Hb H1 H2. split; [|lia|lia|auto]. intros x Hx. apply W2. lia.
Qed.

Lemma wrote_word_chg s off v s' o n : wrote_word s off v s' -> o <= off -> off + 4 <= o + n -> chg o n s s'.
Proof. intros [Hw _] H1 H2. eapply wrote_chg; [exact Hw|apply le_bytes|done|rewrite length_le_of_Z; lia]. Qed.

Lemma chg_fword o n s s' a : chg o n s s' -> a + 4 <= o \/ o + n <= a -> fword s' a = fword s a.
Proof. intros [H _ _ _] Ha. apply fword_same. intros x Hx. apply H. lia. Qed.

Lemma chg_byte o n s s' x : chg o n s s' -> x < o \/ o + n <= x -> load8 (f_mem s') x = load8 (f_mem s) x.
Proof. intros [H _ _ _] Hx. apply H. lia. Qed.

Lemma fhalf_same s s' off : (forall x, off <= x < off + 2 -> load8 (f_mem s') x = load8 (f_mem s) x) -> fhalf s' off = fhalf s off.
Proof. intros H. unfold fhalf. f_equal. by apply load_bytes_same. Qed.

Lemma chg_fhalf o n s s' a : chg o n s s' -> a + 2 <= o \/ o + n <= a -> fhalf s' a = fhalf s a.
Proof. intros [H _ _ _] Ha. apply fhalf_same. intros x Hx. apply H. lia. Qed.

(** ** The parts of the formatter *)

Lemma pwp_block_zero b Q s :
  (forall s', chg (b_offset b) 4096 s s' -> (forall x, b_offset b <= x < b_offset b + 4096 -> load8 (f_mem s') x = 0) ->
     b_offset b + 4096 <= f_len s' -> Q tt s') ->
  pwp (block_zero b) Q s.
Proof.
  intros HQ. set (o := b_offset b) in *. unfold block_zero. change S5_BLOCK_SIZE with 4096. fold o.
  apply (pwp_range 0 4096 _ (fun i s' => chg o 4096 s s' /\ (forall x, o <= x < o + i -> load8 (f_mem s') x = 0) /\ (0 < i -> o + i <= f_len s'))).
  - lia.
  - split_and!; [apply chg_refl|lia|lia].
  - intros i s1 Hi (Hc & Hz & Hl). apply pwp_fwrite; [done|]. intros s2 Hw. split_and!.
    + eapply chg_trans; [exact Hc|]. eapply wrote_chg; [exact Hw|by repeat constructor|lia|cbn; lia].
    + intros x Hx. destruct (decide (x = o + i)) as [->|].
      * pose proof (w_bytes _ _ _ _ Hw) as E. by injection E.
      * rewrite (w_other _ _ _ _ Hw) by (cbn; lia). apply Hz. lia.
    + intros _. rewrite (w_len _ _ _ _ Hw). cbn. lia.
  - intros s1 (Hc & Hz & Hl). apply HQ; [done|intros; apply Hz; lia|lia].
Qed.

Lemma pwp_write_I b off v Q s :
  0 <= v < 2 ^ 32 -> off + 4 <= 4096 -> (forall s', wrote_word s (b_offset b + off) v s' -> Q tt s') -> pwp (write_I b off v) Q s.
Proof.
  intros Hv Ho HQ. unfold write_I, pack_I. rewrite (proj2 (Z.leb_le _ _)), (proj2 (Z.ltb_lt _ _)) by lia. cbn [andb]. pstep. pstep.
  unfold block_write. pstep. apply pwp_check.
  { change S5_BLOCK_SIZE with 4096. cbn [data_len]. rewrite length_le_of_Z. apply Z.ltb_ge. lia. }
  apply pwp_fwrite; [done|]. intros s' Hw. by apply HQ.
Qed.

Lemma pwp_read_I b off Q s :
  off + 4 <= 4096 -> b_offset b + off + 4 <= f_len s -> Q (fword s (b_offset b + off)) s -> pwp (read_I b off) Q s.
Proof.
  intros Ho Hl HQ. unfold read_I. pstep. unfold block_read. pstep. apply pwp_check; [change S5_BLOCK_SIZE with 4096; apply Z.ltb_ge; lia|].
  apply pwp_fread; [lia|lia|]. unfold unpack_I. by rewrite length_load_bytes.
Qed.

Lemma pwp_get_free_block i Q s : 0 <= i < 29 -> 144 <= f_len s -> Q (fword s (12 + 4 * i)) s -> pwp (get_free_block i) Q s.
Proof. intros Hi Hl HQ. unfold get_free_block. rewrite (proj2 (Z.ltb_lt _ _)) by lia. apply pwp_get_I; [lia|done]. Qed.

Lemma pwp_set_free_block i v Q s :
  0 <= i < 29 -> 0 <= v < 2 ^ 32 -> (forall s', wrote_word s (12 + 4 * i) v s' -> Q tt s') -> pwp (set_free_block i v) Q s.
Proof. intros Hi Hv HQ. unfold set_free_block. rewrite (proj2 (Z.ltb_lt _ _)) by lia. by apply pwp_set_I. Qed.

(** The super block's free blocks go to a node. *)
Lemma pwp_copy_out b Q s :
  byte_file s -> 144 <= f_len s -> 4096 <= b_offset b ->
  (forall s', chg (b_offset b) 116 s s' -> (forall j, 0 <= j < 29 -> fword s' (b_offset b + 4 * j) = fword s (12 + 4 * j)) ->
     b_offset b + 116 <= f_len s' -> Q tt s') ->
  pwp (pfor (seqZ 0 29) (fun j => let? v := get_free_block j in write_I b (j * 4) v)) Q s.
Proof.
  intros Hok Hlen Hb HQ. set (o := b_offset b) in *.
  apply (pwp_range 0 29 _ (fun i s' => chg o 116 s s' /\ (forall j, 0 <= j < i -> fword s' (o + 4 * j) = fword s (12 + 4 * j)) /\ (0 < i -> o + 4 * i <= f_len s'))).
  - lia.
  - split_and!; [apply chg_refl|lia|lia].
  - intros i s1 Hi (Hc & Hz & Hl). pose proof (ch_lo _ _ _ _ Hc). pstep. apply pwp_get_free_block; [lia|lia|].
    rewrite (chg_fword _ _ _ _ _ Hc) by lia. apply pwp_write_I; [by apply fword_range|lia|]. fold o. intros s2 Hw. split_and!.
    + eapply chg_trans; [exact Hc|]. eapply wrote_word_chg; [exact Hw|lia|lia].
    + intros j Hj. destruct (decide (j = i)) as [->|].
      * replace (o + 4 * i) with (o + i * 4) by lia. by apply fword_wrote in Hw.
      * rewrite (fword_other_word _ _ _ _ _ Hw) by lia. apply Hz. lia.
    + intros _. rewrite (wrote_word_len _ _ _ _ Hw). lia.
  - intros s1 (Hc & Hz & Hl). apply HQ; [done|done|lia].
Qed.

(** A node goes to the super block. *)
Lemma pwp_copy_in b Q s :
  byte_file s -> 144 <= f_len s -> 4096 <= b_offset b -> b_offset b + 120 <= f_len s ->
  (forall s', chg 12 116 s s' -> (forall j, 0 <= j < 29 -> fword s' (12 + 4 * j) = fword s (b_offset b + 4 * j)) -> Q tt s') ->
  pwp (pfor (seqZ 0 29) (fun i => let? v := read_I b (i * 4) in set_free_block i v)) Q s.
Proof.
  intros Hok Hlen Hb Hlb HQ. set (o := b_offset b) in *.
  apply (pwp_range 0 29 _ (fun i s' => chg 12 116 s s' /\ (forall j, 0 <= j < i -> fword s' (12 + 4 * j) = fword s (o + 4 * j)))).
  - lia.
  - split_and!; [apply chg_refl|lia].
  - intros i s1 Hi (Hc & Hz). pose proof (ch_lo _ _ _ _ Hc). pstep. apply pwp_read_I; [lia|fold o; lia|]. fold o.
    rewrite (chg_fword _ _ _ _ _ Hc) by lia. apply pwp_set_free_block; [lia|by apply fword_range|]. intros s2 Hw. split.
    + eapply chg_trans; [exact Hc|]. eapply wrote_word_chg; [exact Hw|lia|lia].
    + intros j Hj. destruct (decide (j = i)) as [->|].
      * rewrite (fword_wrote _ _ _ _ Hw). f_equal. lia.
      * rewrite (fword_other_word _ _ _ _ _ Hw) by lia. apply Hz. lia.
  - intros s1 (Hc & Hz). by apply HQ.
Qed.

(** ** The free list in the file *)

Definition node_words s (k : Z) : list Z := map (fun j => fword s (4096 * k + 4 * j)) (seqZ 0 29).

(** The nodes from block [k] on are [ks] and list the blocks [l]. *)
Inductive fchain s : Z -> list Z -> list Z -> Prop :=
| fc_nil : fchain s NONE [] []
| fc_cons k ks l :
    0 < k < 2 ^ 31 -> 4096 * k + 120 <= f_len s -> fchain s (fword s (4096 * k + 116)) ks l ->
    fchain s k (k :: ks) (rev (node_words s k) ++ l).

Lemma fchain_ext s s' k ks l :
  f_len s <= f_len s' -> (forall n x, n ∈ ks -> 4096 * n <= x < 4096 * n + 120 -> load8 (f_mem s') x = load8 (f_mem s) x) ->
  fchain s k ks l -> fchain s' k ks l.
Proof.
  intros Hl Hs Hc. induction Hc as [|k ks l Hk Hlk Hc IH]; [constructor|].
  assert (forall j, 0 <= j < 30 -> fword s' (4096 * k + 4 * j) = fword s (4096 * k + 4 * j)) as Hw.
  { intros j Hj. apply fword_same. intros x Hx. apply (Hs k); [left|lia]. }
  assert (node_words s k = node_words s' k) as ->.
  { apply map_ext_in. intros j Hj%list_elem_of_In%elem_of_seqZ. symmetry. apply Hw. lia. }
  constructor; [done|lia|]. assert (fword s' (4096 * k + 116) = fword s (4096 * k + 116)) as -> by (apply (Hw 29); lia). apply IH. intros n x Hn. apply Hs. by right.
Qed.

(** The free blocks from [first] to before [num], [i] of them in the super block. *)
Record freeing (first num i : Z) s : Prop := Freeing {
  fr_first : 2 <= first <= num - i;
  fr_num : num < 2 ^ 31;
  fr_count : 0 <= i <= 29;
  fr_words : forall j, 0 <= j < i -> fword s (12 + 4 * j) = num - i + j;
  fr_chain : exists ks l, fchain s (fword s 128) ks l /\ ks ++ l ≡ₚ seqZ first (num - i - first);
  fr_head : i = 0 -> first < num -> fword s 128 = num - 1;
}.

Lemma freeing_range first num i s ks l n : ks ++ l ≡ₚ seqZ first (num - i - first) -> n ∈ ks -> first <= n < num - i.
Proof. intros Hp Hn. assert (n ∈ ks ++ l) as H by set_solver. rewrite Hp, elem_of_seqZ in H. lia. Qed.

(** A block goes to the super block. *)
Lemma freeing_word first num i s s' :
  freeing first num i s -> i < 29 -> num + 1 < 2 ^ 31 -> wrote_word s (12 + 4 * i) num s' -> freeing first (num + 1) (i + 1) s'.
Proof.
  intros [H1 H2 H3 H4 (ks & l & Hc & Hp) _] Hi Hn Hw. split; [lia|lia|lia| | |lia].
  - intros j Hj. destruct (decide (j = i)) as [->|]; [rewrite (fword_wrote _ _ _ _ Hw); lia|].
    rewrite (fword_other_word _ _ _ _ _ Hw), H4 by lia. lia.
  - exists ks, l. replace (num + 1 - (i + 1) - first) with (num - i - first) by lia. split; [|done].
    rewrite (fword_other_word _ _ _ _ _ Hw) by lia. eapply fchain_ext; [|  |exact Hc].
    + rewrite (wrote_word_len _ _ _ _ Hw). lia.
    + intros n x Hin Hx. apply (byte_other _ _ _ _ _ Hw). pose proof (freeing_range _ _ _ s _ _ _ Hp Hin). lia.
Qed.

Lemma pwp_free_node {A} first num s (k : Py A) Q :
  freeing first num 29 s -> byte_file s -> 144 <= f_len s -> num + 1 < 2 ^ 31 ->
  (forall s', freeing first (num + 1) 0 s' -> byte_file s' -> f_len s <= f_len s' <= Z.max (f_len s) (4096 * num + 4096) ->
     (forall x, x < 12 \/ 132 <= x < 4096 * num -> load8 (f_mem s') x = load8 (f_mem s) x) -> pwp k Q s') ->
  pwp (do? pfor (seqZ 0 29) (fun j => let? v := get_free_block j in write_I (get_block num) (j * 4) v);
       let? last := get_last_free_block in
       do? write_I (get_block num) (29 * 4) last;
       do? set_last_free_block num; k) Q s.
Proof.
  intros [H1 H2 H3 H4 (ks & l & Hc & Hp) _] Hok Hlen Hnum HQ. pstep. apply pwp_copy_out; [done|done|cbn; unfold S5_BLOCK_SIZE; lia|].
  change (b_offset (get_block num)) with (4096 * num). intros s1 C1 W1 L1. pose proof (ch_lo _ _ _ _ C1). pose proof (ch_hi _ _ _ _ C1). pstep.
  apply pwp_get_I; [lia|]. change (12 + 4 * 29) with 128. rewrite (chg_fword _ _ _ _ _ C1) by lia. pstep.
  apply pwp_write_I; [by apply fword_range|lia|]. change (b_offset (get_block num) + 29 * 4) with (4096 * num + 116).
  intros s2 W2. pose proof (wrote_word_len _ _ _ _ W2). pstep. apply pwp_set_I; [lia|]. change (12 + 4 * 29) with 128. intros s3 W3.
  pose proof (wrote_word_len _ _ _ _ W3). apply HQ.
  - split; [lia|lia|lia|lia| |intros _ _; rewrite (fword_wrote _ _ _ _ W3); lia]. rewrite (fword_wrote _ _ _ _ W3). exists (num :: ks), (rev (node_words s3 num) ++ l).
    assert (node_words s3 num = seqZ (num - 29) 29) as Hnw.
    { apply list_eq. intros j. unfold node_words. rewrite list_lookup_fmap. destruct (decide (j < 29)%nat) as [Hj|Hj].
      - rewrite !lookup_seqZ_lt by lia. cbn [fmap option_fmap option_map]. f_equal. rewrite (fword_other_word _ _ _ _ _ W3), (fword_other_word _ _ _ _ _ W2), W1, H4 by lia. lia.
      - by rewrite !lookup_seqZ_ge by lia. }
    split.
    + constructor; [lia|lia|]. rewrite (fword_other_word _ _ _ _ _ W3), (fword_wrote _ _ _ _ W2) by lia.
      eapply fchain_ext; [|  |exact Hc]; [lia|]. intros n x Hin Hx. pose proof (freeing_range _ _ _ s _ _ _ Hp Hin).
      rewrite (byte_other _ _ _ _ _ W3), (byte_other _ _ _ _ _ W2), (chg_byte _ _ _ _ _ C1) by lia. done.
    + rewrite Hnw. replace (num + 1 - 0 - first) with ((num - 29 - first) + (29 + 1)) by lia. rewrite seqZ_app by lia.
      replace (first + (num - 29 - first)) with (num - 29) by lia. rewrite (seqZ_app (num - 29) 29 1) by lia. rewrite <- Hp.
      replace (num - 29 + 29) with num by lia. rewrite (seqZ_cons num 1) by lia. rewrite <- Permutation_rev. change (seqZ (Z.succ num) (Z.pred 1)) with (@nil Z). solve_Permutation.
  - by apply (wrote_word_ok _ _ _ _ W3), (wrote_word_ok _ _ _ _ W2), (ch_ok _ _ _ _ C1).
  - lia.
  - intros x Hx. rewrite (byte_other _ _ _ _ _ W3), (byte_other _ _ _ _ _ W2), (chg_byte _ _ _ _ _ C1) by lia. done.
Qed.

Lemma pwp_free_loop n first num i Q s :
  0 <= n -> freeing first num i s -> byte_file s -> 144 <= f_len s -> num + n < 2 ^ 31 ->
  (forall i' s', freeing first (num + n) i' s' -> byte_file s' -> f_len s <= f_len s' <= Z.max (f_len s) (4096 * (num + n)) ->
     (forall x, x < 12 \/ 132 <= x < 4096 * first -> load8 (f_mem s') x = load8 (f_mem s) x) -> Q i' s') ->
  pwp (free_loop (seqZ num n) i) Q s.
Proof.
  intros Hn. remember (Z.to_nat n) as k eqn:Hk. revert n num i s Hn Hk. induction k as [|k IH]; intros n num i s Hn Hk Hf Hok Hlen Hr HQ.
  - assert (n = 0) as -> by lia. cbn [seqZ free_loop]. apply pwp_ret. rewrite Z.add_0_r in HQ. apply HQ; [done|done|lia|done].
  - pose proof (fr_first _ _ _ _ Hf). pose proof (fr_count _ _ _ _ Hf). rewrite seqZ_cons by lia. cbn [free_loop]. destruct (Z.eqb_spec i 29) as [->|Hi].
    + cbv zeta. apply (pwp_free_node first); [done|done|done|lia|]. intros s1 Hf1 Hok1 Hl1 Hs1.
      apply IH; [lia|lia|done|done|lia|lia|]. intros i' s2 Hf2 Hok2 Hl2 Hs2. replace (Z.succ num + Z.pred n) with (num + n) in * by lia.
      apply HQ; [done|done|lia|]. intros x Hx. rewrite Hs2 by done. apply Hs1. lia.
    + pstep. apply pwp_set_free_block; [lia|lia|]. intros s1 W1. pose proof (wrote_word_len _ _ _ _ W1) as L1.
      apply IH; [lia|lia| |by eapply wrote_word_ok|lia|lia|].
      { replace (Z.succ num) with (num + 1) by lia. eapply freeing_word; [done|lia|lia|done]. }
      intros i' s2 Hf2 Hok2 Hl2 Hs2. replace (Z.succ num + Z.pred n) with (num + n) in * by lia.
      apply HQ; [done|done|lia|]. intros x Hx. rewrite Hs2 by done. apply (byte_other _ _ _ _ _ W1). lia.
Qed.

(** *** Allocation *)

(** The free list: the nodes [ks] and the blocks [l] in the order of
    allocation. *)
Record file_free s (ks l : list Z) : Prop := FileFree {
  ff_count : 0 <= fword s 8 <= 29;
  ff_chain : exists rest, fchain s (fword s 128) ks rest
               /\ l = rev (map (fun j => fword s (12 + 4 * j)) (seqZ 0 (fword s 8))) ++ rest;
}.

Lemma freeing_words first num i s : freeing first num i s -> map (fun j => fword s (12 + 4 * j)) (seqZ 0 i) = seqZ (num - i) i.
Proof.
  intros [H1 H2 H3 H4 _ _]. apply list_eq. intros j. rewrite list_lookup_fmap. destruct (decide (Z.of_nat j < i)) as [Hj|Hj].
  - rewrite !lookup_seqZ_lt by lia. cbn [fmap option_fmap option_map]. f_equal. rewrite H4 by lia. lia.
  - by rewrite !lookup_seqZ_ge by lia.
Qed.

(** The last block of the disk is allocated first. *)
Lemma pwp_alloc_last first num i Q s :
  freeing first num i s -> first < num -> fword s 8 = i -> byte_file s -> 144 <= f_len s ->
  (forall ks l s', file_free s' ks l -> ks ++ l ≡ₚ seqZ first (num - 1 - first) -> chg 8 124 s s' -> Q (get_block (num - 1)) s') ->
  pwp alloc_block Q s.
Proof.
  intros Hf Hlt Hi Hok Hlen HQ. pose proof (fr_count _ _ _ _ Hf) as Hcnt. unfold alloc_block. pstep. apply pwp_get_I; [lia|]. rewrite Hi.
  pstep. apply pwp_check; [apply Z.ltb_ge; lia|]. pstep. apply pwp_get_I; [lia|]. rewrite Hi.
  pose proof Hf as [H1 H2 _ H4 (ks & l & Hc & Hp) Hh]. destruct (Z.eqb_spec i 0) as [->|Hne].
  - specialize (Hh eq_refl Hlt). pstep. apply pwp_get_I; [lia|]. change (12 + 4 * 29) with 128. rewrite Hh in *.
    inversion Hc as [|k ks' l' Hk Hlk Hc' Ek Eks El]; [unfold NONE in *; lia|]. subst k ks l. rewrite (proj2 (Z.eqb_neq _ _)) by (unfold NONE; lia).
    pstep. apply pwp_get_I; [lia|]. change (12 + 4 * 29) with 128. rewrite Hh. cbv zeta. pstep. apply pwp_copy_in; [done|done|cbn; unfold S5_BLOCK_SIZE; lia|cbn; unfold S5_BLOCK_SIZE; lia|].
    change (b_offset (get_block (num - 1))) with (4096 * (num - 1)). intros s1 C1 W1. pose proof (ch_lo _ _ _ _ C1). pstep.
    apply pwp_read_I; [lia|cbn; unfold S5_BLOCK_SIZE; lia|]. change (b_offset (get_block (num - 1)) + 29 * 4) with (4096 * (num - 1) + 116).
    rewrite (chg_fword _ _ _ _ _ C1) by lia. pstep. apply pwp_set_I; [by apply fword_range|]. change (12 + 4 * 29) with 128. intros s2 W2.
    pose proof (wrote_word_len _ _ _ _ W2). pstep. apply pwp_set_I; [lia|]. intros s3 W3. pose proof (wrote_word_len _ _ _ _ W3). pstep.
    apply (HQ ks' (rev (node_words s (num - 1)) ++ l')).
    + assert (fword s3 8 = 29) as E8 by exact (fword_wrote _ _ _ _ W3). split; rewrite E8; [lia|]. exists l'.
      rewrite (fword_other_word _ _ _ _ _ W3), (fword_wrote _ _ _ _ W2) by lia. split.
      * eapply fchain_ext; [|  |exact Hc']; [lia|]. intros n x Hin Hx.
        assert (first <= n < num - 0) by (eapply freeing_range; [exact s|exact Hp|by right]).
        rewrite (byte_other _ _ _ _ _ W3), (byte_other _ _ _ _ _ W2), (chg_byte _ _ _ _ _ C1) by lia. done.
      * do 2 f_equal. apply map_ext_in. intros j Hj%list_elem_of_In%elem_of_seqZ.
        rewrite (fword_other_word _ _ _ _ _ W3), (fword_other_word _ _ _ _ _ W2), W1 by lia. done.
    + assert (seqZ first (num - 0 - first) ≡ₚ (num - 1) :: seqZ first (num - 1 - first)) as E.
      { replace (num - 0 - first) with ((num - 1 - first) + 1) by lia. rewrite seqZ_app by lia.
        replace (first + (num - 1 - first)) with (num - 1) by lia. rewrite (seqZ_cons (num - 1) 1) by lia. change (seqZ (Z.succ _) (Z.pred 1)) with (@nil Z).
        by rewrite Permutation_app_comm. }
      rewrite E in Hp. by eapply Permutation_cons_inv.
    + eapply chg_trans; [eapply chg_wider; [| |exact C1]; lia|].
      eapply chg_trans; [eapply wrote_word_chg; [exact W2|lia|lia]|eapply wrote_word_chg; [exact W3|lia|lia]].
  - pstep. apply pwp_get_I; [lia|]. rewrite Hi. pstep. apply pwp_set_I; [lia|]. intros s1 W1. pose proof (wrote_word_len _ _ _ _ W1). pstep.
    apply pwp_get_I; [lia|]. rewrite (fword_wrote _ _ _ _ W1). pstep. apply pwp_get_free_block; [lia|lia|].
    rewrite (fword_other_word _ _ _ _ _ W1), H4 by lia. replace (num - i + (i - 1)) with (num - 1) by lia. pstep.
    assert (fword s1 8 = i - 1) as E8 by exact (fword_wrote _ _ _ _ W1).
    apply (HQ ks (rev (map (fun j => fword s1 (12 + 4 * j)) (seqZ 0 (i - 1))) ++ l)).
    + split; rewrite E8; [lia|]. exists l. split; [|done]. rewrite (fword_other_word _ _ _ _ _ W1) by lia. eapply fchain_ext; [|  |exact Hc]; [lia|].
      intros n x Hin Hx. pose proof (freeing_range _ _ _ s _ _ _ Hp Hin). apply (byte_other _ _ _ _ _ W1). lia.
    + assert (map (fun j => fword s1 (12 + 4 * j)) (seqZ 0 (i - 1)) = seqZ (num - i) (i - 1)) as ->.
      { apply list_eq. intros j. rewrite list_lookup_fmap. destruct (decide (Z.of_nat j < i - 1)) as [Hj|Hj].
        - rewrite !lookup_seqZ_lt by lia. cbn [fmap option_fmap option_map]. f_equal. rewrite (fword_other_word _ _ _ _ _ W1), H4 by lia. lia.
        - by rewrite !lookup_seqZ_ge by lia. }
      rewrite <- Permutation_rev. replace (num - 1 - first) with ((num - i - first) + (i - 1)) by lia. rewrite seqZ_app by lia. rewrite <- Hp.
      replace (first + (num - i - first)) with (num - i) by lia. solve_Permutation.
    + eapply wrote_word_chg; [exact W1|lia|lia].
Qed.
