(* ===== verification/FsmakerFormat.v ===== *)
(** The disk that [format] makes: the parts of [format] one after another, and
    the file system that the kernel finds on it. *)

From S2P Require Import Prelude CString KMem S5Disk Fsmaker FsmakerProofs.

Implicit Types (s : simfile).

(** ** Inodes *)

Lemma inode_offset_linear i : 0 <= i -> inode_offset i = 4096 + 128 * i.
Proof.
  intros Hi. unfold inode_offset, S5_BLOCK_SIZE, S5_INODE_SIZE, S5_INODES_PER_BLOCK. pose proof (Z.div_mod i 32). lia.
Qed.

Definition ino (i : Z) : Inode := MkInode i (4096 + 128 * i).

Lemma pwp_get_inode i Q s : 0 <= i < fword s 136 -> 144 <= f_len s -> Q (ino i) s -> pwp (get_inode i) Q s.
Proof.
  intros Hi Hl HQ. unfold get_inode. pstep. apply pwp_get_I; [lia|]. change (16 + 4 * 30) with 136. pstep.
  apply pwp_check; [apply Z.leb_gt; lia|]. pstep. rewrite inode_offset_linear by lia. done.
Qed.

(** [s'] is [s] with the half word [v] at [off]. *)
Definition wrote_half s off v s' : Prop := wrote s off (le_of_Z 2 v) s' /\ fhalf s' off = v mod 2 ^ 16.

Lemma wrote_half_chg s off v s' o n : wrote_half s off v s' -> o <= off -> off + 2 <= o + n -> chg o n s s'.
Proof. intros [Hw _] H1 H2. eapply wrote_chg; [exact Hw|apply le_bytes|done|rewrite length_le_of_Z; lia]. Qed.

Lemma wrote_half_len s off v s' : wrote_half s off v s' -> f_len s' = Z.max (f_len s) (off + 2).
Proof. intros [Hw _]. rewrite (w_len _ _ _ _ Hw), length_le_of_Z. lia. Qed.

Lemma wrote_to_half s off v s' : wrote s off (le_of_Z 2 v) s' -> wrote_half s off v s'.
Proof.
  intros Hw. split; [done|]. unfold fhalf. pose proof (w_bytes _ _ _ _ Hw) as E. rewrite length_le_of_Z in E. rewrite E. apply Z_of_le_of_Z.
Qed.

Lemma pwp_set_type self v Q s :
  0 <= v < 2 ^ 16 -> (forall s', wrote_half s (i_offset self + 8) v s' -> Q tt s') -> pwp (set_type self v) Q s.
Proof.
  intros Hv HQ. unfold set_type, pack_H. rewrite (proj2 (Z.leb_le _ _)), (proj2 (Z.ltb_lt _ _)) by lia. cbn [andb]. pstep. pstep.
  apply pwp_fwrite; [done|]. intros s' Hw. by apply HQ, wrote_to_half.
Qed.

Lemma pwp_set_link_count self v Q s :
  - 2 ^ 15 <= v < 2 ^ 15 -> (forall s', wrote_half s (i_offset self + 10) v s' -> Q tt s') -> pwp (set_link_count self v) Q s.
Proof.
  intros Hv HQ. unfold set_link_count, pack_h. rewrite (proj2 (Z.leb_le _ _)), (proj2 (Z.ltb_lt _ _)) by lia. cbn [andb]. pstep. pstep.
  apply pwp_fwrite; [done|]. intros s' Hw. by apply HQ, wrote_to_half.
Qed.

Lemma pwp_get_type self Q s : i_offset self + 10 <= f_len s -> Q (fhalf s (i_offset self + 8)) s -> pwp (get_type self) Q s.
Proof.
  intros Hl HQ. unfold get_type. pstep. apply pwp_fread; [lia|lia|]. unfold unpack_H. by rewrite length_load_bytes.
Qed.

Lemma fword_half s off v s' a : wrote_half s off v s' -> a + 4 <= off \/ off + 2 <= a -> fword s' a = fword s a.
Proof. intros [Hw _] Ha. apply (fword_other _ _ _ _ _ Hw). rewrite length_le_of_Z. lia. Qed.

Lemma fhalf_half s off v s' a : wrote_half s off v s' -> a + 2 <= off \/ off + 2 <= a -> fhalf s' a = fhalf s a.
Proof. intros Hw Ha. eapply chg_fhalf; [eapply (wrote_half_chg _ _ _ _ off 2); [exact Hw|lia|lia]|lia]. Qed.

Lemma fhalf_word s off v s' a : wrote_word s off v s' -> a + 2 <= off \/ off + 4 <= a -> fhalf s' a = fhalf s a.
Proof. intros Hw Ha. eapply chg_fhalf; [eapply (wrote_word_chg _ _ _ _ off 4); [exact Hw|lia|lia]|lia]. Qed.

(** A free inode in the file. *)
Definition free_ino s (j next : Z) : Prop :=
  fword s (4096 + 128 * j) = next /\ fword s (4096 + 128 * j + 4) = j /\ fhalf s (4096 + 128 * j + 8) = 0.

Lemma free_ino_chg o n s s' j next :
  chg o n s s' -> 4096 + 128 * j + 10 <= o \/ o + n <= 4096 + 128 * j -> free_ino s j next -> free_ino s' j next.
Proof.
  intros Hc Ho (H1 & H2 & H3). split_and!; [rewrite (chg_fword _ _ _ _ _ Hc) by lia..|rewrite (chg_fhalf _ _ _ _ _ Hc) by lia]; done.
Qed.

(** The loop over the inodes. *)
Lemma pwp_inodes inodes Q s :
  1 <= inodes < 2 ^ 31 -> fword s 136 = inodes -> 144 <= f_len s ->
  (forall s', chg 4096 (128 * inodes) s s' -> (forall j, 0 <= j < inodes -> free_ino s' j (j + 1)) -> Q tt s') ->
  pwp (pfor (seqZ 0 inodes) (fun i =>
        let? inode := get_inode i in
        do? set_number inode i;
        do? set_type inode S5_TYPE_FREE;
        set_next_free inode (i + 1))) Q s.
Proof.
  intros Hi H136 Hlen HQ.
  apply (pwp_range 0 inodes _ (fun i s' => chg 4096 (128 * inodes) s s' /\ forall j, 0 <= j < i -> free_ino s' j (j + 1))).
  - lia.
  - split; [apply chg_refl|lia].
  - intros i s1 Hi1 [C1 F1]. pose proof (ch_lo _ _ _ _ C1). pstep. apply pwp_get_inode; [rewrite (chg_fword _ _ _ _ _ C1) by lia; lia|lia|].
    pstep. apply pwp_set_I; [lia|]. intros s2 W2. pstep. apply pwp_set_type; [unfold S5_TYPE_FREE; lia|]. intros s3 W3.
    apply pwp_set_I; [lia|]. intros s4 W4. cbn [ino i_offset] in *.
    assert (chg (4096 + 128 * i) 128 s1 s4) as C.
    { eapply chg_trans; [eapply wrote_word_chg; [exact W2|lia|lia]|]. eapply chg_trans; [eapply wrote_half_chg; [exact W3|lia|lia]|].
      eapply wrote_word_chg; [exact W4|lia|lia]. }
    split; [eapply chg_trans; [exact C1|]; eapply chg_wider; [| |exact C]; lia|].
    intros j Hj. destruct (decide (j = i)) as [->|].
    + split_and!.
      * exact (fword_wrote _ _ _ _ W4).
      * rewrite (fword_other_word _ _ _ _ _ W4), (fword_half _ _ _ _ _ W3) by lia. exact (fword_wrote _ _ _ _ W2).
      * rewrite (fhalf_word _ _ _ _ _ W4) by lia. exact (proj2 W3).
    + eapply free_ino_chg; [exact C|lia|]. apply F1. lia.
  - intros s1 [C1 F1]. by apply HQ.
Qed.

Lemma pwp_alloc_inode f next Q s :
  fword s 4 = f -> 0 <= f < fword s 136 -> fword s 136 < 2 ^ 31 -> byte_file s -> 144 <= f_len s -> 4096 + 128 * f + 4 <= f_len s ->
  fword s (4096 + 128 * f) = next -> (forall s', wrote_word s 4 next s' -> Q (ino f) s') -> pwp alloc_inode Q s.
Proof.
  intros Hf Hr Hn Hok Hlen Hl Hnext HQ. unfold alloc_inode. pstep. apply pwp_get_I; [lia|]. rewrite Hf. pstep.
  apply pwp_check; [apply Z.eqb_neq; unfold NONE; lia|]. pstep. apply pwp_get_I; [lia|]. rewrite Hf. pstep. apply pwp_get_inode; [done|done|].
  pstep. apply pwp_get_I; [cbn; lia|]. cbn [ino i_offset]. rewrite Hnext. pstep. apply pwp_set_I; [rewrite <- Hnext; by apply fword_range|].
  intros s' Hw. pstep. by apply HQ.
Qed.

Lemma pwp_clear_map self Q s :
  (forall s', chg (i_offset self + 12) 116 s s' -> (forall j, 0 <= j < 29 -> fword s' (i_offset self + 12 + 4 * j) = 0) ->
     i_offset self + 128 <= f_len s' -> Q tt s') -> pwp (clear_map self) Q s.
Proof.
  intros HQ. set (o := i_offset self) in *. unfold clear_map. pstep.
  apply (pwp_range 0 28 _ (fun i s' => chg (o + 12) 116 s s' /\ forall j, 0 <= j < i -> fword s' (o + 12 + 4 * j) = 0)).
  - lia.
  - split; [apply chg_refl|lia].
  - intros i s1 Hi [C1 F1]. unfold set_direct_blockno. rewrite (proj2 (Z.ltb_lt _ _)) by lia. apply pwp_set_I; [lia|]. fold o. intros s2 W2. split.
    + eapply chg_trans; [exact C1|]. eapply wrote_word_chg; [exact W2|lia|lia].
    + intros j Hj. destruct (decide (j = i)) as [->|].
      * replace (o + 12 + 4 * i) with (o + 12 + i * 4) by lia. exact (fword_wrote _ _ _ _ W2).
      * rewrite (fword_other_word _ _ _ _ _ W2) by lia. apply F1. lia.
  - intros s1 [C1 F1]. apply pwp_set_I; [lia|]. fold o. change (4 * 28) with 112. intros s2 W2. apply HQ.
    + eapply chg_trans; [exact C1|]. eapply wrote_word_chg; [exact W2|lia|lia].
    + intros j Hj. destruct (decide (j = 28)) as [->|].
      * replace (o + 12 + 4 * 28) with (o + 12 + 112) by lia. exact (fword_wrote _ _ _ _ W2).
      * rewrite (fword_other_word _ _ _ _ _ W2) by lia. apply F1. lia.
    + rewrite (wrote_word_len _ _ _ _ W2). lia.
Qed.

(** ** Entries of a directory of one block *)

Lemma pwp_data_inode self Q s :
  i_offset self + 10 <= f_len s -> fhalf s (i_offset self + 8) = S5_TYPE_DIR -> Q tt s -> pwp (data_inode self) Q s.
Proof. intros Hl Ht HQ. unfold data_inode. pstep. apply pwp_get_type; [done|]. rewrite Ht. by apply pwp_check. Qed.

Lemma pwp_dir_inode self Q s :
  i_offset self + 10 <= f_len s -> fhalf s (i_offset self + 8) = S5_TYPE_DIR -> fword s (i_offset self) mod 32 = 0 -> Q tt s ->
  pwp (dir_inode self) Q s.
Proof.
  intros Hl Ht Hs HQ. unfold dir_inode. pstep. apply pwp_get_type; [done|]. rewrite Ht. pstep. apply pwp_check; [done|]. pstep.
  apply pwp_get_I; [lia|]. apply pwp_check; [|done]. unfold S5_DIRENT_SIZE. by rewrite Hs.
Qed.

(** Bytes appended in the first block [b] of the directory. *)
Lemma pwp_append self b (P : simfile -> Prop) bs Q s :
  let o := i_offset self in let pos := fword s o in let n := Z.of_nat (length bs) in
  o + 10 <= f_len s -> fhalf s (o + 8) = S5_TYPE_DIR -> bs <> [] -> 0 <= pos -> pos + n <= 4096 ->
  pwp (write_block_of self 0) (fun blk s1 => blk = get_block b /\ P s1) s ->
  (forall s1, P s1 -> fword s1 o = pos /\ o + 4 <= f_len s1 /\ o + 4 <= 4096 * b) ->
  (forall s1 s2 s3, P s1 -> wrote s1 (4096 * b + pos) bs s2 -> wrote_word s2 o (pos + n) s3 -> Q tt s3) ->
  pwp (inode_write self pos (Bytes bs)) Q s.
Proof.
  intros o pos n Hl Ht Hne Hpos Hend Hblk HP HQ. unfold inode_write. pstep. apply pwp_data_inode; [done|done|]. pstep.
  change (data_len (Bytes bs)) with n. apply pwp_check; [apply Z.ltb_ge; change S5_MAX_FILE_SIZE with 4308992; lia|]. pstep.
  assert (1 <= n) as Hn by (subst n; destruct bs; [done|cbn; lia]).
  destruct (Z.to_nat n) as [|fuel] eqn:Hf; [lia|]. cbn [inode_write_loop]. rewrite (proj2 (Z.ltb_lt _ _)) by lia. cbv zeta.
  change S5_BLOCK_SIZE with 4096. rewrite (Z.div_small pos), (Z.mod_small pos), Z.min_r by lia. pstep.
  eapply pwp_mono; [exact Hblk|]. intros blk s1 [-> HP1]. destruct (HP s1 HP1) as (E1 & L1 & D1). pstep.
  assert (part (Bytes bs) n n = Bytes bs) as ->.
  { unfold part. subst n. rewrite !Nat2Z.id, Nat.sub_diag, drop_0. by rewrite take_ge. }
  unfold block_write. pstep. apply pwp_check; [change (data_len (Bytes bs)) with n; change S5_BLOCK_SIZE with 4096; apply Z.ltb_ge; lia|].
  change (b_offset (get_block b)) with (4096 * b). apply pwp_fwrite; [done|]. intros s2 W2. rewrite Z.sub_diag.
  assert (forall fl, inode_write_loop self fl (pos + n) 0 (Bytes bs) = pret (pos + n)) as -> by (by intros []). pstep. pstep.
  pose proof (w_len _ _ _ _ W2). apply pwp_get_I; [fold o; lia|]. fold o. rewrite (fword_other _ _ _ _ o W2), E1 by lia.
  rewrite (proj2 (Z.ltb_lt _ _)) by lia. apply pwp_set_I; [lia|]. intros s3 W3. by eapply HQ.
Qed.

(** The first block is there. *)
Lemma pwp_block_there self b Q s :
  0 < b -> i_offset self + 16 <= f_len s -> fword s (i_offset self + 12) = b -> Q (get_block b) s -> pwp (write_block_of self 0) Q s.
Proof.
  intros Hb Hl Hw HQ. unfold write_block_of. pstep. change (0 <? 28) with true. unfold get_direct_blockno. change (0 <? 28) with true.
  rewrite Z.mul_0_l, Z.add_0_r. apply pwp_get_I; [lia|]. rewrite Hw, (proj2 (Z.eqb_neq b 0)) by lia. by pstep.
Qed.

(** The first block is allocated and cleared. *)
Lemma pwp_block_new self b (R : simfile -> Prop) Q s :
  i_offset self + 16 <= f_len s -> fword s (i_offset self + 12) = 0 -> 0 <= b < 2 ^ 31 ->
  pwp alloc_block (fun blk s1 => blk = get_block b /\ R s1) s ->
  (forall s1 s2 s3, R s1 -> chg (4096 * b) 4096 s1 s2 -> (forall x, 4096 * b <= x < 4096 * b + 4096 -> load8 (f_mem s2) x = 0) ->
     4096 * b + 4096 <= f_len s2 -> wrote_word s2 (i_offset self + 12) b s3 -> Q (get_block b) s3) ->
  pwp (write_block_of self 0) Q s.
Proof.
  intros Hl Hw Hb Halloc HQ. unfold write_block_of. pstep. change (0 <? 28) with true. unfold get_direct_blockno, set_direct_blockno.
  change (0 <? 28) with true. rewrite Z.mul_0_l, Z.add_0_r. apply pwp_get_I; [lia|]. rewrite Hw. change (0 =? 0) with true. pstep.
  eapply pwp_mono; [exact Halloc|]. intros blk s1 [-> HR]. pstep. apply pwp_block_zero.
  change (b_offset (get_block b)) with (4096 * b). intros s2 C2 Z2 L2. pstep. apply pwp_set_I; [cbn; lia|]. intros s3 W3. pstep.
  by eapply HQ.
Qed.

(** The 32 bytes of an entry. *)
Definition entry_bytes (n : Z) (name : list Z) : list Z := le_of_Z 4 n ++ name ++ replicate (28 - length name) 0.

(** [s'] is [s] with an entry more in the first block [b] of the directory. *)
Record entry_added (o b n : Z) (name : list Z) s s' : Prop := EntryAdded {
  ea_bytes : load_bytes (f_mem s') (4096 * b + fword s o) 32 = entry_bytes n name;
  ea_size : fword s' o = fword s o + 32;
  ea_other : forall x, ~ (4096 * b + fword s o <= x < 4096 * b + fword s o + 32) -> ~ (o <= x < o + 4) -> load8 (f_mem s') x = load8 (f_mem s) x;
  ea_len : f_len s' = f_len s;
  ea_ok : byte_file s';
}.

Lemma load_bytes_app m a n k : load_bytes m a (n + k) = load_bytes m a n ++ load_bytes m (a + Z.of_nat n) k.
Proof.
  revert a. induction n as [|n IH]; intros a; cbn [Nat.add load_bytes app]; [by rewrite Z.add_0_r|]. f_equal. rewrite IH. do 2 f_equal. lia.
Qed.

Lemma pwp_empty_loop self l name Q s :
  name <> [] -> (forall i, i ∈ l -> pwp (inode_read self (i + 4) 28) (fun _ s' => s' = s) s) -> Q (-1) s ->
  pwp (empty_loop self l name (-1)) Q s.
Proof.
  intros Hne Hr HQ. induction l as [|i l IH]; cbn [empty_loop]; [by pstep|]. pstep. eapply pwp_mono; [apply Hr; left|].
  intros _ s' ->. rewrite (proj2 (Nat.eqb_neq (length name) 0)) by (by destruct name). apply IH. intros j Hj. apply Hr. by right.
Qed.

Lemma pwp_make_dirent self b n name (P : simfile -> Prop) Q s :
  let o := i_offset self in let sz := fword s o in
  o + 16 <= f_len s -> fhalf s (o + 8) = S5_TYPE_DIR -> sz mod 32 = 0 -> 0 <= sz -> sz + 32 <= 4096 ->
  name <> [] -> (length name < 28)%nat -> Forall (fun c => 0 <= c < 256) name -> 0 <= n < 2 ^ 32 ->
  (forall i, i ∈ dirent_offsets sz -> pwp (inode_read self (i + 4) 28) (fun _ s' => s' = s) s) ->
  pwp (write_block_of self 0) (fun blk s1 => blk = get_block b /\ P s1) s ->
  (forall s1, P s1 -> fword s1 o = sz /\ fhalf s1 (o + 8) = S5_TYPE_DIR /\ fword s1 (o + 12) = b /\ 4096 * b + 4096 <= f_len s1
                      /\ o + 128 <= 4096 * b /\ 0 < b /\ byte_file s1) ->
  (forall s1 s', P s1 -> entry_added o b n name s1 s' -> Q tt s') ->
  pwp (_make_dirent self n name) Q s.
Proof.
  intros o sz Hl Ht Hm H0 Hend Hne Hname Hbytes Hn Hread Hblk HP HQ. unfold _make_dirent. pstep. apply pwp_dir_inode; [fold o; lia|done|done|].
  pstep. apply pwp_check; [apply Nat.leb_gt; done|]. pstep. apply pwp_get_I; [fold o; lia|]. fold o sz. pstep.
  apply pwp_empty_loop; [done|done|]. change (0 <=? -1) with false. cbv iota. pstep. apply pwp_get_I; [fold o; lia|]. fold o sz. pstep.
  unfold pack_I. rewrite (proj2 (Z.leb_le _ _)), (proj2 (Z.ltb_lt _ _)) by lia. cbn [andb]. pstep. pstep.
  apply (pwp_append self b P (le_of_Z 4 n) _ s); [fold o; lia|done|done|done|rewrite length_le_of_Z; fold o sz; lia|done| |].
  { intros s1 HP1. destruct (HP s1 HP1) as (? & ? & ? & ? & ? & ? & ?). fold o sz. split_and!; [done|lia|lia]. }
  fold o sz. rewrite length_le_of_Z. intros s1 s2 s3 HP1 W2 W3. destruct (HP s1 HP1) as (E1 & E2 & E3 & E4 & E5 & E6 & E7).
  pose proof (w_len _ _ _ _ W2) as L2. rewrite length_le_of_Z in L2. pose proof (wrote_word_len _ _ _ _ W3) as L3.
  assert (fword s3 o = sz + 4) as Esz by exact (fword_wrote _ _ _ _ W3).
  assert (chg (4096 * b + sz) 4 s1 s2) as C2 by (eapply wrote_chg; [exact W2|apply le_bytes|lia|rewrite length_le_of_Z; lia]).
  assert (chg o 4 s2 s3) as C3 by (eapply wrote_word_chg; [exact W3|lia|lia]).
  pstep. apply pwp_get_I; [fold o; lia|]. fold o. unfold encode_name. change S5_NAME_LEN with 28%nat.
  set (rest := name ++ replicate (28 - length name) 0). assert (length rest = 28%nat) as Hrest by (subst rest; rewrite length_app, length_replicate; lia).
  assert (Forall (fun c => 0 <= c < 256) rest) as Hrb by (apply Forall_app; split; [done|by apply Forall_replicate]).
  apply (pwp_append self b (fun s' => s' = s3) rest _ s3); fold o; rewrite ?Hrest, ?Esz.
  - lia.
  - by rewrite (chg_fhalf _ _ _ _ _ C3), (chg_fhalf _ _ _ _ _ C2) by lia.
  - by intros E; rewrite E in Hrest.
  - lia.
  - lia.
  - apply (pwp_block_there self b); [lia|fold o; lia| |done]. fold o. by rewrite (chg_fword _ _ _ _ _ C3), (chg_fword _ _ _ _ _ C2) by lia.
  - intros s' ->. split_and!; [done|lia|lia].
  - intros s' s4 s5 -> W4 W5. pose proof (w_len _ _ _ _ W4) as L4. rewrite Hrest in L4. pose proof (wrote_word_len _ _ _ _ W5) as L5.
    apply (HQ s1); [done|]. assert (chg o 4 s4 s5) as C5 by (eapply wrote_word_chg; [exact W5|lia|lia]).
    assert (chg (4096 * b + sz + 4) 28 s3 s4) as C4 by (eapply wrote_chg; [exact W4|done|lia|rewrite Hrest; lia]). split; rewrite ?E1.
    + change 32%nat with (4 + 28)%nat. rewrite load_bytes_app. unfold entry_bytes. fold rest. f_equal.
      * rewrite <- (w_bytes _ _ _ _ W2), length_le_of_Z. apply load_bytes_same. intros x Hx.
        rewrite (chg_byte _ _ _ _ _ C5), (chg_byte _ _ _ _ _ C4), (chg_byte _ _ _ _ _ C3) by lia. done.
      * rewrite <- (w_bytes _ _ _ _ W4), Hrest. replace (4096 * b + (sz + 4)) with (4096 * b + sz + Z.of_nat 4) by lia. apply load_bytes_same. intros x Hx.
        by rewrite (chg_byte _ _ _ _ _ C5) by lia.
    + rewrite (fword_wrote _ _ _ _ W5). lia.
    + intros x Hx Hxo. rewrite (chg_byte _ _ _ _ _ C5), (chg_byte _ _ _ _ _ C4), (chg_byte _ _ _ _ _ C3), (chg_byte _ _ _ _ _ C2) by lia. done.
    + lia.
    + by apply (ch_ok _ _ _ _ C5), (ch_ok _ _ _ _ C4), (ch_ok _ _ _ _ C3), (ch_ok _ _ _ _ C2).
Qed.

(** Words and bytes of a file traced back through the changes. *)
Ltac file_trace :=
  repeat match goal with
  | H : wrote_word ?s ?o ?v ?s' |- context [fword ?s' ?a] =>
      first [rewrite (fword_other_word s o v s' a H) by lia | replace a with o by lia; rewrite (fword_wrote s o v s' H)]
  | H : chg ?o ?n ?s ?s' |- context [fword ?s' ?a] => rewrite (chg_fword o n s s' a H) by lia
  | H : wrote_half ?s ?o ?v ?s' |- context [fword ?s' ?a] => rewrite (fword_half s o v s' a H) by lia
  | H : wrote_word ?s ?o ?v ?s' |- context [fhalf ?s' ?a] => rewrite (fhalf_word s o v s' a H) by lia
  | H : chg ?o ?n ?s ?s' |- context [fhalf ?s' ?a] => rewrite (chg_fhalf o n s s' a H) by lia
  | H : wrote_half ?s ?o ?v ?s' |- context [fhalf ?s' ?a] =>
      first [rewrite (fhalf_half s o v s' a H) by lia | replace a with o by lia; rewrite (proj2 H)]
  | H : wrote_word ?s ?o ?v ?s' |- context [load8 (f_mem ?s') ?x] => rewrite (byte_other s o v s' x H) by lia
  | H : chg ?o ?n ?s ?s' |- context [load8 (f_mem ?s') ?x] => rewrite (chg_byte o n s s' x H) by lia
  end.

(** ** [format] *)

(** The link of free inode [j]. *)
Definition next_inode (inodes j : Z) : Z := if j =? inodes - 1 then NONE else j + 1.

(** The disk before the root directory is made, [i] free blocks in the super
    block. *)
Record prepared (inodes first blocks i : Z) s : Prop := Prepared {
  p_magic : fword s 0 = S5_MAGIC;
  p_free_inode : fword s 4 = 0;
  p_nfree : fword s 8 = i;
  p_root : fword s 132 = 0;
  p_inodes : fword s 136 = inodes;
  p_version : fword s 140 = S5_CURRENT_VERSION;
  p_free : freeing first blocks i s;
  p_ino : forall j, 0 <= j < inodes -> free_ino s j (next_inode inodes j);
  p_len : 4100 <= f_len s <= 4096 * blocks;
  p_ok : byte_file s;
}.

Lemma fword_zero s a : (forall x, a <= x < a + 4 -> load8 (f_mem s) x = 0) -> fword s a = 0.
Proof. intros H. unfold fword. cbn [load_bytes]. rewrite !H by lia. done. Qed.

(** The inode table fits below the first free block. *)
Lemma table_fits inodes first : 1 <= inodes -> first = (inodes - 1) / 32 + 2 -> 4096 + 128 * inodes <= 4096 * first /\ 2 <= first.
Proof.
  intros Hi ->. pose proof (Z.div_mod (inodes - 1) 32 ltac:(lia)). pose proof (Z.mod_pos_bound (inodes - 1) 32 ltac:(lia)).
  assert (0 <= (inodes - 1) / 32) by (apply Z.div_pos; lia). lia.
Qed.

Lemma freeing_nfree first num i s s' :
  freeing first num i s -> wrote_word s 8 i s' -> freeing first num i s'.
Proof.
  intros [H1 H2 H3 H4 (ks & l & Hc & Hp) Hh] Hw. pose proof (wrote_word_len _ _ _ _ Hw). split; [done|done|done| | |].
  - intros j Hj. file_trace. by apply H4.
  - exists ks, l. split; [|done]. file_trace. eapply fchain_ext; [|  |exact Hc]; [lia|].
    intros n x Hin Hx. pose proof (freeing_range _ _ _ s _ _ _ Hp Hin). by file_trace.
  - intros E1 E2. file_trace. by apply Hh.
Qed.

Lemma pwp_prepare {A} inodes first blocks (k : Py A) Q s :
  1 <= inodes < 2 ^ 31 -> first = (inodes - 1) / 32 + 2 -> first < blocks < 2 ^ 31 ->
  byte_file s -> (forall x, 0 <= x -> load8 (f_mem s) x = 0) -> f_len s = 0 ->
  (forall i s', prepared inodes first blocks i s' -> pwp k Q s') ->
  pwp (do? set_magic S5_MAGIC;
       do? set_version S5_CURRENT_VERSION;
       do? set_num_inodes inodes;
       do? pfor (seqZ 0 inodes) (fun i =>
             let? inode := get_inode i in
             do? set_number inode i;
             do? set_type inode S5_TYPE_FREE;
             set_next_free inode (i + 1));
       do? set_next_free (MkInode (inodes - 1) (inode_offset (inodes - 1))) NONE;
       do? put_free_inode 0;
       do? set_last_free_block NONE;
       let? i := free_loop (seqZ first (blocks - first)) 0 in
       do? set_nfree i; k) Q s.
Proof.
  intros Hi Hfirst Hb Hok Hz Hl HQ. destruct (table_fits inodes first ltac:(lia) Hfirst) as [Htab H2].
  pstep. apply pwp_set_I; [unfold S5_MAGIC; lia|]. intros s1 W1. pose proof (wrote_word_len _ _ _ _ W1).
  pstep. apply pwp_set_I; [unfold S5_CURRENT_VERSION; lia|]. change (20 + 4 * 30) with 140. intros s2 W2. pose proof (wrote_word_len _ _ _ _ W2).
  pstep. apply pwp_set_I; [lia|]. change (16 + 4 * 30) with 136. intros s3 W3. pose proof (wrote_word_len _ _ _ _ W3).
  pstep. apply pwp_inodes; [lia|exact (fword_wrote _ _ _ _ W3)|lia|]. intros s4 C4 F4. pose proof (ch_lo _ _ _ _ C4). pose proof (ch_hi _ _ _ _ C4).
  pstep. unfold set_next_free, set_size. cbn [i_offset]. rewrite inode_offset_linear by lia. apply pwp_set_I; [unfold NONE; lia|].
  intros s5 W5. pose proof (wrote_word_len _ _ _ _ W5). pstep. apply pwp_set_I; [lia|]. intros s6 W6. pose proof (wrote_word_len _ _ _ _ W6).
  pstep. apply pwp_set_I; [unfold NONE; lia|]. change (12 + 4 * 29) with 128. intros s7 W7. pose proof (wrote_word_len _ _ _ _ W7).
  assert (byte_file s7) as Hok7.
  { apply (wrote_word_ok _ _ _ _ W7), (wrote_word_ok _ _ _ _ W6), (wrote_word_ok _ _ _ _ W5), (ch_ok _ _ _ _ C4), (wrote_word_ok _ _ _ _ W3),
      (wrote_word_ok _ _ _ _ W2), (wrote_word_ok _ _ _ _ W1), Hok. }
  pstep. apply (pwp_free_loop (blocks - first) first first 0); [lia| |done|lia|lia|].
  { split; [lia|lia|lia|lia| |lia]. exists [], []. rewrite (fword_wrote _ _ _ _ W7). split; [constructor|]. by replace (first - 0 - first) with 0 by lia. }
  replace (first + (blocks - first)) with blocks by lia. intros i s8 F8 Hok8 L8 S8. pose proof (fr_count _ _ _ _ F8).
  assert (forall a, a + 4 <= 12 \/ 132 <= a /\ a + 4 <= 4096 * first -> fword s8 a = fword s7 a) as E8.
  { intros a Ha. apply fword_same. intros x Hx. apply S8. lia. }
  pstep. apply pwp_set_I; [lia|]. intros s9 W9. pose proof (wrote_word_len _ _ _ _ W9). apply (HQ i).
  split; [rewrite (fword_other_word _ _ _ _ _ W9), E8 by lia; by file_trace| rewrite (fword_other_word _ _ _ _ _ W9), E8 by lia; by file_trace|
    exact (fword_wrote _ _ _ _ W9)| |rewrite (fword_other_word _ _ _ _ _ W9), E8 by lia; by file_trace|
    rewrite (fword_other_word _ _ _ _ _ W9), E8 by lia; by file_trace|by eapply freeing_nfree| |lia|by apply (wrote_word_ok _ _ _ _ W9)].
  - rewrite (fword_other_word _ _ _ _ _ W9), E8 by lia. file_trace. apply fword_zero. intros x Hx. apply Hz. lia.
  - intros j Hj. assert (free_ino s7 j (next_inode inodes j)) as (A1 & A2 & A3).
    { eapply (free_ino_chg 128 4); [eapply wrote_word_chg; [exact W7|lia|lia]|lia|]. eapply (free_ino_chg 4 4); [eapply wrote_word_chg; [exact W6|lia|lia]|lia|].
      destruct (F4 j Hj) as (B1 & B2 & B3). unfold next_inode. destruct (Z.eqb_spec j (inodes - 1)) as [->|Hne].
      - split_and!; [exact (fword_wrote _ _ _ _ W5)|by rewrite (fword_other_word _ _ _ _ _ W5) by lia|by rewrite (fhalf_word _ _ _ _ _ W5) by lia].
      - split_and!; [rewrite (fword_other_word _ _ _ _ _ W5) by lia; done..|by rewrite (fhalf_word _ _ _ _ _ W5) by lia]. }
    split_and!; [rewrite (fword_other_word _ _ _ _ _ W9), E8 by lia; done..|].
    rewrite (fhalf_word _ _ _ _ _ W9) by lia. rewrite <- A3. apply fhalf_same. intros x Hx. apply S8. lia.
Qed.
