(* ===== verification/FsmakerRoot.v ===== *)
(** The root directory that [format] makes. *)

From S2P Require Import Prelude CString KMem S5Disk Fsmaker FsmakerProofs FsmakerFormat.

Implicit Types (s : simfile).

(** A formatted disk, whose root directory has the entries [es] in its last
    block. *)
Record formatted (inodes first blocks : Z) (ks l : list Z) (es : list (Z * list Z)) s : Prop := Formatted {
  fm_super : fword s 0 = S5_MAGIC /\ fword s 4 = next_inode inodes 0 /\ fword s 132 = 0 /\ fword s 136 = inodes /\ fword s 140 = S5_CURRENT_VERSION;
  fm_free : file_free s ks l;
  fm_blocks : ks ++ l ≡ₚ seqZ first (blocks - 1 - first);
  fm_ino : forall j, 1 <= j < inodes -> free_ino s j (next_inode inodes j);
  fm_inode : fword s 4096 = 32 * Z.of_nat (length es) /\ fword s 4100 = 0 /\ fhalf s 4104 = S5_TYPE_DIR /\ fhalf s 4106 = 2 /\ fword s 4108 = blocks - 1;
  fm_map : forall j, 1 <= j < 29 -> fword s (4108 + 4 * j) = 0;
  fm_entries : load_bytes (f_mem s) (4096 * (blocks - 1)) (32 * length es) = concat (map (fun e => entry_bytes e.1 e.2) es);
  fm_rest : forall x, 4096 * (blocks - 1) + 32 * Z.of_nat (length es) <= x < 4096 * blocks -> load8 (f_mem s) x = 0;
  fm_len : f_len s = 4096 * blocks;
  fm_ok : byte_file s;
}.

Lemma file_free_same s s' ks l :
  file_free s ks l -> f_len s <= f_len s' -> (forall x, 8 <= x < 132 -> load8 (f_mem s') x = load8 (f_mem s) x) ->
  (forall n x, n ∈ ks -> 4096 * n <= x < 4096 * n + 120 -> load8 (f_mem s') x = load8 (f_mem s) x) -> file_free s' ks l.
Proof.
  intros [H1 (rest & Hc & Hl)] Hlen Hs Hn. assert (forall a, 8 <= a -> a + 4 <= 132 -> fword s' a = fword s a) as E.
  { intros a H8 H132. apply fword_same. intros x Hx. apply Hs. lia. }
  split; rewrite E by lia; [done|]. exists rest. rewrite E by lia. split; [by eapply fchain_ext|]. rewrite Hl. do 2 f_equal. apply map_ext_in.
  intros j Hj%list_elem_of_In%elem_of_seqZ. symmetry. apply E; lia.
Qed.

Section root.
Context (inodes first blocks : Z) (Hi : 1 <= inodes < 2 ^ 31) (Hfirst : first = (inodes - 1) / 32 + 2) (Hb : first < blocks < 2 ^ 31).

(** The inode of the root directory after its fields are set. *)
Record root_set i s : Prop := RootSet {
  rs_super : fword s 0 = S5_MAGIC /\ fword s 4 = next_inode inodes 0 /\ fword s 132 = 0 /\ fword s 136 = inodes /\ fword s 140 = S5_CURRENT_VERSION;
  rs_free : freeing first blocks i s /\ fword s 8 = i;
  rs_ino : forall j, 1 <= j < inodes -> free_ino s j (next_inode inodes j);
  rs_inode : fword s 4096 = 0 /\ fword s 4100 = 0 /\ fhalf s 4104 = S5_TYPE_DIR /\ fhalf s 4106 = 2;
  rs_map : forall j, 0 <= j < 29 -> fword s (4108 + 4 * j) = 0;
  rs_len : 4224 <= f_len s <= 4096 * blocks;
  rs_ok : byte_file s;
}.

Lemma freeing_same num i s s' :
  freeing first num i s -> f_len s <= f_len s' -> (forall x, 12 <= x < 132 \/ 4096 * first <= x -> load8 (f_mem s') x = load8 (f_mem s) x) ->
  freeing first num i s'.
Proof using Type.
  intros [H1 H2 H3 H4 (ks & l & Hc & Hp) Hh] Hlen Hs. assert (forall a, 12 <= a -> a + 4 <= 132 -> fword s' a = fword s a) as E.
  { intros a H12 H132. apply fword_same. intros x Hx. apply Hs. lia. }
  split; [done|done|done| | |].
  - intros j Hj. rewrite E by lia. by apply H4.
  - exists ks, l. split; [|done]. rewrite E by lia. eapply fchain_ext; [|  |exact Hc]; [done|].
    intros n x Hin Hx. pose proof (freeing_range _ _ _ s _ _ _ Hp Hin). apply Hs. lia.
  - intros E1 E2. rewrite E by lia. by apply Hh.
Qed.

Lemma pwp_root_inode {A} i (k : Inode -> Py A) Q s :
  prepared inodes first blocks i s -> (forall s', root_set i s' -> pwp (k (ino 0)) Q s') ->
  pwp (let? root := alloc_inode in
       do? clear_map root;
       do? set_type root S5_TYPE_DIR;
       do? set_size root 0;
       do? set_link_count root 2;
       k root) Q s.
Proof using Hi Hfirst Hb.
  intros [P1 P2 P3 P4 P5 P6 P7 P8 P9 P10] HQ. destruct (table_fits inodes first ltac:(lia) Hfirst) as [Htab H2].
  destruct (P8 0 ltac:(lia)) as (R1 & R2 & R3). rewrite Z.mul_0_r, Z.add_0_r in R1, R2, R3. pstep.
  apply (pwp_alloc_inode 0 (next_inode inodes 0)); [done|lia|lia|done|lia|lia|done|]. intros s1 W1. pose proof (wrote_word_len _ _ _ _ W1).
  pstep. apply pwp_clear_map. change (i_offset (ino 0)) with 4096. intros s2 C2 M2 L2. pose proof (ch_hi _ _ _ _ C2). pose proof (ch_lo _ _ _ _ C2).
  pstep. apply pwp_set_type; [unfold S5_TYPE_DIR; lia|]. change (i_offset (ino 0)) with 4096. intros s3 W3. pose proof (wrote_half_len _ _ _ _ W3).
  pstep. apply pwp_set_I; [lia|]. change (i_offset (ino 0)) with 4096. intros s4 W4. pose proof (wrote_word_len _ _ _ _ W4).
  pstep. apply pwp_set_link_count; [lia|]. change (i_offset (ino 0)) with 4096. intros s5 W5. pose proof (wrote_half_len _ _ _ _ W5).
  assert (chg 4096 128 s1 s5) as C.
  { eapply chg_trans; [eapply chg_wider; [| |exact C2]; lia|]. eapply chg_trans; [eapply wrote_half_chg; [exact W3|lia|lia]|].
    eapply chg_trans; [eapply wrote_word_chg; [exact W4|lia|lia]|eapply wrote_half_chg; [exact W5|lia|lia]]. }
  apply HQ. split.
  - clear C2 W3 W4 W5. by split_and!; file_trace.
  - clear C2 W3 W4 W5. split; [|by file_trace]. eapply freeing_same; [exact P7|lia|]. intros x Hx. by file_trace.
  - intros j Hj. eapply free_ino_chg; [exact C|lia|]. eapply (free_ino_chg 4 4); [eapply wrote_word_chg; [exact W1|lia|lia]|lia|]. apply P8. lia.
  - clear C. split_and!; by file_trace.
  - intros j Hj. clear C. rewrite (fword_half _ _ _ _ _ W5), (fword_other_word _ _ _ _ _ W4), (fword_half _ _ _ _ _ W3) by lia. by apply M2.
  - lia.
  - by apply (ch_ok _ _ _ _ C), (wrote_word_ok _ _ _ _ W1).
Qed.

(** The first block of the root directory. *)
Lemma pwp_root_block i s :
  root_set i s -> pwp (write_block_of (ino 0) 0) (fun blk s' => blk = get_block (blocks - 1) /\ exists ks l, formatted inodes first blocks ks l [] s') s.
Proof using Hi Hfirst Hb.
  intros [S1 [S2 S2'] S3 S4 S5 S6 S7]. destruct (table_fits inodes first ltac:(lia) Hfirst) as [Htab H2].
  apply (pwp_block_new (ino 0) (blocks - 1) (fun s1 => exists ks l, file_free s1 ks l /\ ks ++ l ≡ₚ seqZ first (blocks - 1 - first) /\ chg 8 124 s s1)).
  - cbn. lia.
  - exact (S5 0 ltac:(lia)).
  - lia.
  - apply (pwp_alloc_last first blocks i); [done|lia|done|done|lia|]. intros ks l s1 F1 Hp C1. split; [done|]. by exists ks, l.
  - change (i_offset (ino 0) + 12) with 4108. intros s1 s2 s3 (ks & l & F1 & Hp & C1) C2 Z2 L2 W3. split; [done|]. exists ks, l.
    pose proof (ch_lo _ _ _ _ C1). pose proof (ch_hi _ _ _ _ C1). pose proof (ch_lo _ _ _ _ C2). pose proof (ch_hi _ _ _ _ C2).
    pose proof (wrote_word_len _ _ _ _ W3). split.
    + destruct S1 as (A1 & A2 & A3 & A4 & A5). split_and!; by file_trace.
    + eapply file_free_same; [exact F1|lia| |].
      * intros x Hx. by file_trace.
      * intros n x Hin Hx. assert (n ∈ ks ++ l) as Hn by set_solver. rewrite Hp, elem_of_seqZ in Hn. by file_trace.
    + done.
    + intros j Hj. destruct (S3 j Hj) as (A1 & A2 & A3). split_and!; by file_trace.
    + destruct S4 as (A1 & A2 & A3 & A4). split_and!; by file_trace.
    + intros j Hj. file_trace. apply S5. lia.
    + done.
    + cbn [length]. intros x Hx. rewrite (byte_other _ _ _ _ _ W3) by lia. apply Z2. lia.
    + lia.
    + by apply (wrote_word_ok _ _ _ _ W3), (ch_ok _ _ _ _ C2), (ch_ok _ _ _ _ C1).
Qed.

(** Reading in the first block of a directory. *)
Lemma pwp_read_there self b off n Q s :
  let o := i_offset self in
  0 < n -> 0 <= off -> off + n <= fword s o -> fword s o <= 4096 -> o + 16 <= f_len s -> fhalf s (o + 8) = S5_TYPE_DIR -> fword s (o + 12) = b ->
  0 < b -> 4096 * b + 4096 <= f_len s -> (forall l, Q l s) -> pwp (inode_read self off n) Q s.
Proof using Type.
  intros o Hn Hoff Hend Hsz Hl Ht Hblk Hb0 Hlen HQ. unfold inode_read. pstep. apply pwp_data_inode; [fold o; lia|done|]. pstep.
  apply pwp_get_I; [fold o; lia|]. fold o. cbv zeta. change S5_MAX_FILE_SIZE with 4308992. rewrite (Z.min_r 4308992) by lia. rewrite Z.min_l by lia.
  destruct (Z.to_nat n) as [|fuel] eqn:Hf; [lia|]. cbn [inode_read_loop]. rewrite (proj2 (Z.ltb_lt _ _)) by lia. cbv zeta. change S5_BLOCK_SIZE with 4096.
  rewrite (Z.div_small off), (Z.mod_small off), Z.min_r by lia. pstep. unfold read_blockno, get_direct_blockno. change (0 <? 28) with true. cbv iota.
  rewrite Z.mul_0_l, Z.add_0_r. apply pwp_get_I; [fold o; lia|]. fold o. rewrite Hblk, (proj2 (Z.eqb_neq b 0)) by lia. pstep.
  unfold block_read. pstep. apply pwp_check; [change S5_BLOCK_SIZE with 4096; apply Z.ltb_ge; lia|]. change (b_offset (get_block b)) with (4096 * b).
  apply pwp_fread; [lia|lia|]. rewrite Z.sub_diag. cbn [app]. assert (forall fl a acc, inode_read_loop self fl a 0 acc = pret acc) as -> by (by intros []).
  by apply pwp_ret.
Qed.

(** An entry is added to the root directory. *)
Lemma formatted_add ks l es n name s s' :
  formatted inodes first blocks ks l es s -> 32 * Z.of_nat (length es) + 32 <= 4096 ->
  entry_added 4096 (blocks - 1) n name s s' -> formatted inodes first blocks ks l (es ++ [(n, name)]) s'.
Proof using Hi Hfirst Hb.
  intros [S1 S2 S3 S4 (D1 & D2 & D3 & D4 & D5) S6 S7 S8 S9 S10] Hes [E1 E2 E3 E4 E5]. rewrite D1 in *.
  destruct (table_fits inodes first ltac:(lia) Hfirst) as [Htab H2].
  assert (forall x, x < 4096 \/ 4100 <= x < 4096 * (blocks - 1) -> load8 (f_mem s') x = load8 (f_mem s) x) as T by (intros x Hx; apply E3; lia).
  assert (forall a, a + 4 <= 4096 \/ 4100 <= a /\ a + 4 <= 4096 * (blocks - 1) -> fword s' a = fword s a) as Tw by (intros a Ha; apply fword_same; intros x Hx; apply T; lia).
  assert (forall a, 4100 <= a /\ a + 2 <= 4096 * (blocks - 1) -> fhalf s' a = fhalf s a) as Th by (intros a Ha; apply fhalf_same; intros x Hx; apply T; lia).
  split.
  - by rewrite !Tw by lia.
  - eapply file_free_same; [exact S2|lia|intros x Hx; apply T; lia|]. intros k x Hin Hx. assert (k ∈ ks ++ l) as Hk by set_solver.
    rewrite S3, elem_of_seqZ in Hk. apply T. lia.
  - done.
  - intros j Hj. unfold free_ino. rewrite !Tw, Th by lia. by apply S4.
  - rewrite E2, (Tw 4100), (Tw 4108), !Th, length_app by lia. cbn [length]. split_and!; [lia|done..].
  - intros j Hj. rewrite Tw by lia. by apply S6.
  - rewrite length_app, map_app, concat_app, Nat.mul_add_distr_l, load_bytes_app. f_equal.
    + rewrite <- S7. apply load_bytes_same. intros x Hx. apply E3; lia.
    + cbn [length map concat]. rewrite app_nil_r. replace (4096 * (blocks - 1) + Z.of_nat (32 * length es)) with (4096 * (blocks - 1) + 32 * Z.of_nat (length es)) by lia. exact E1.
  - rewrite length_app. cbn [length]. intros x Hx. rewrite E3 by lia. apply S8. lia.
  - lia.
  - done.
Qed.

(** The two entries are the directory itself. *)
Definition root_entries : list (Z * list Z) := [(0, str "."); (0, str "..")].

Lemma pwp_root_entries i Q s :
  root_set i s -> (forall ks l s', formatted inodes first blocks ks l root_entries s' -> Q tt s') ->
  pwp (let? n := get_number (ino 0) in
       do? _make_dirent (ino 0) n (str ".");
       let? n := get_number (ino 0) in
       _make_dirent (ino 0) n (str "..")) Q s.
Proof using Hi Hfirst Hb.
  intros Hrs HQ. destruct (table_fits inodes first ltac:(lia) Hfirst) as [Htab H2]. pose proof (rs_len _ _ Hrs) as Hlen.
  destruct (rs_inode _ _ Hrs) as (A1 & A2 & A3 & A4). pstep. apply pwp_get_I; [cbn; lia|]. change (i_offset (ino 0) + 4) with 4100. rewrite A2. pstep.
  apply (pwp_make_dirent (ino 0) (blocks - 1) 0 (str ".") (fun s1 => exists ks l, formatted inodes first blocks ks l [] s1)); change (i_offset (ino 0)) with 4096; rewrite ?A1.
  1-7: first [lia | done | cbn; lia]. 1: by (repeat constructor). 1: lia. 1: by (intros ? Hin; apply elem_of_nil in Hin). 1: exact (pwp_root_block _ _ Hrs).
  { intros s1 (ks & l & [_ _ _ _ (B1 & B2 & B3 & B4 & B5) _ _ _ B6 B7]). split_and!; (done || lia). }
  intros s1 s2 (ks & l & Hf0) Hadd1. pose proof (formatted_add _ _ _ _ _ _ _ Hf0 ltac:(cbn; lia) Hadd1) as Hf1.
  destruct (fm_inode _ _ _ _ _ _ _ Hf1) as (D1 & D2 & D3 & D4 & D5). pose proof (fm_len _ _ _ _ _ _ _ Hf1) as L2. cbn [length app Z.of_nat] in D1. change (32 * Z.pos (Pos.of_succ_nat 0)) with 32 in D1.
  pstep. apply pwp_get_I; [cbn; lia|]. change (i_offset (ino 0) + 4) with 4100. rewrite D2.
  apply (pwp_make_dirent (ino 0) (blocks - 1) 0 (str "..") (fun s' => s' = s2)); change (i_offset (ino 0)) with 4096; rewrite ?D1.
  1-7: first [lia | done | cbn; lia]. 1: by (repeat constructor). 1: lia.
  - intros j Hj. change (dirent_offsets 32) with [0] in Hj. apply list_elem_of_singleton in Hj as ->.
    apply (pwp_read_there (ino 0) (blocks - 1)); change (i_offset (ino 0)) with 4096; rewrite ?D1; try (done || lia).
  - by apply (pwp_block_there (ino 0) (blocks - 1)); change (i_offset (ino 0)) with 4096; try lia.
  - intros s' ->. split_and!; try (done || lia). by apply Hf1.
  - intros s' s3 -> Hadd2. apply (HQ ks l). exact (formatted_add _ _ _ _ _ _ _ Hf1 ltac:(cbn; lia) Hadd2).
Qed.
End root.

Lemma pwp_modify {A} f (k : Py A) Q s : pwp k Q (f s) -> pwp (do! modify f; k) Q s.
Proof. intros H. unfold pwp. by wp_steps. Qed.

(** [format] of a file from its start. *)
Lemma pwp_format inodes blocks Q s :
  1 <= inodes < 2 ^ 31 -> (inodes - 1) / 32 + 2 < blocks < 2 ^ 31 -> byte_file s ->
  (forall ks l s', formatted inodes ((inodes - 1) / 32 + 2) blocks ks l root_entries s' -> Q tt s') ->
  pwp (format 0 inodes (4096 * blocks)) Q s.
Proof.
  intros Hi Hb Hok HQ. unfold format. pstep. apply pwp_check; [apply Z.ltb_ge; lia|]. change S5_BLOCK_SIZE with 4096. rewrite (Z.mul_comm 4096), Z.mod_mul, Z.div_mul by lia.
  pstep. apply pwp_check; [done|]. cbv zeta. change S5_INODES_PER_BLOCK with 32. replace ((inodes - 1) / 32 + 1 + 1) with ((inodes - 1) / 32 + 2) by lia.
  set (first := (inodes - 1) / 32 + 2) in *. pstep. apply pwp_check; [apply Z.leb_gt; lia|].
  apply pwp_modify. apply pwp_prepare with (first := first); [done|done|done|..].
  - intros x. unfold load8. cbn [f_mem]. rewrite map_lookup_filter. specialize (Hok x). unfold load8 in Hok.
    destruct (f_mem s !! x) as [v|]; cbn in *; [|lia]. case_guard; cbn; lia.
  - intros x Hx. unfold load8. cbn [f_mem]. rewrite map_lookup_filter. destruct (f_mem s !! x) as [v|]; cbn; [|done]. rewrite option_guard_False; [done|]. cbn. lia.
  - done.
  - intros i s1 Hp. apply (pwp_root_inode inodes first blocks Hi eq_refl Hb i); [done|]. intros s2 Hr.
    by apply (pwp_root_entries inodes first blocks Hi eq_refl Hb i).
Qed.
