(* ===== verification/S5File.v ===== *)
(** S5FS files: the block map, the page frames and the bytes of a file, and the
    directory entries kept in a directory's bytes
    ([fs/s5fs/s5fs_subr.c] and the page-frame routines of [fs/s5fs/s5fs.c]).

    The routines that work on one [s5_node_t] run on the pair of its vnode
    (with the inode as the vnode's private data) and the file system. *)

From S2P Require Import Prelude CString Btree Mobj Vnode S5Disk.

(** The part of [s5_node_t] after the vnode. *)
Record s5_node : Type := S5Node {
  inode : s5_inode;
  dirtied_inode : bool;
}.

Section s5file.
Context {mem : Memory} {pages : Pages} {bd : BlockDev}.

(** An [s5_node_t] with the file system it belongs to. *)
Abbreviation N := (vnode s5_node * s5fs)%type.

Definition node_mobj : lens N mobj := vnode_mobj_fs.

(** [VNODE_TO_S5FS(&sn->vnode)] as the argument of a metadata routine. *)
Definition on_fs {A} (m : M s5fs A) : M N A :=
  zoom snd (fun f n => (n.1, f)) m.

Definition get_node : M N s5_node := let! n := get in deref (vn_i n.1).

Definition put_node (x : s5_node) : M N unit :=
  modify (fun n => (set_vn_i (Some x) n.1, n.2)).

(** [sn->inode = f(sn->inode); sn->dirtied_inode = 1] *)
Definition dirty_inode (f : s5_inode -> s5_inode) : M N unit :=
  let! x := get_node in put_node (S5Node (f (inode x)) true).

Definition vn_length : M N Z := gets (fun n => vn_len n.1).

(** [vn_len = s5_size = len] *)
Definition set_length (len : Z) : M N unit :=
  let! x := get_node in
  do! put_node (S5Node (set_s5_size (u32 len) (inode x)) (dirtied_inode x));
  modify (fun n => (set_vn_len len n.1, n.2)).

Definition zero_block : list Z := replicate (Z.to_nat S5_BLOCK_SIZE) 0.

(** ** The block map *)

(** [s5_cache_and_clear_block] on the object [mo]. *)
Definition s5_cache_and_clear_block {St} (mo : lens St mobj) (block loc : Z) : M St Z :=
  let! pf := mobj_create_pframe mo block loc in
  let! n := deref pf in
  do! kassert (negb oom);
  do! pf_modify mo n (set_pf_addr (Some zero_block));
  do! pf_modify mo n (set_pf_dirty true);
  ret n.

(** Allocate and clear the indirect block. *)
Definition new_indirect (blk : Z) : M s5fs unit :=
  do! mobj_lock s5f_mobj_lens;
  let! n := s5_cache_and_clear_block s5f_mobj_lens blk blk in
  let! pf := pf_get s5f_mobj_lens n in
  do! kassert (pf_mutex pf);
  do! pf_unlock s5f_mobj_lens n;
  mobj_unlock s5f_mobj_lens.

(** The entry of the indirect block, allocated when it is zero. *)
Definition indirect_entry (ind : Z) (i : nat) (alloc : bool) : M N (Z * bool) :=
  do! on_fs (s5_get_meta_disk_block ind true);
  let! b := on_fs (meta_page ind) in
  if (get32 b i =? 0) && alloc then
    let! blk := on_fs s5_alloc_block in
    if blk <? 0 then do! on_fs (s5_release_disk_block ind); ret (blk, false)
    else
      let! b := on_fs (meta_page ind) in
      do! on_fs (set_meta_page ind (put32 b i blk));
      do! dirty_inode id;
      do! on_fs (s5_release_disk_block ind);
      ret (u32 blk, true)
  else
    do! on_fs (s5_release_disk_block ind);
    ret (get32 b i, false).

(** The disk block (or an error) and whether the block is new. *)
Definition s5_file_block_to_disk_block (file_blocknum : Z) (alloc : bool) : M N (Z * bool) :=
  if file_blocknum >=? S5_MAX_FILE_BLOCKS then ret (- EINVAL, false)
  else
    let! x := get_node in
    if file_blocknum <? Z.of_nat S5_NDIRECT_BLOCKS then
      let! cur := deref (s5_direct_blocks (inode x) !! Z.to_nat file_blocknum) in
      if (cur =? 0) && alloc then
        let! blk := on_fs s5_alloc_block in
        if blk <? 0 then ret (blk, false)
        else
          do! dirty_inode (fun i =>
                set_s5_direct (<[Z.to_nat file_blocknum := u32 blk]> (s5_direct_blocks i)) i);
          ret (u32 blk, true)
      else ret (cur, false)
    else
      let i := Z.to_nat (file_blocknum - Z.of_nat S5_NDIRECT_BLOCKS) in
      if s5_indirect_block (inode x) =? 0 then
        if negb alloc then ret (0, false)
        else
          let! blk := on_fs s5_alloc_block in
          if blk <? 0 then ret (blk, false)
          else
            do! dirty_inode (set_s5_indirect (u32 blk));
            do! on_fs (new_indirect blk);
            indirect_entry (u32 blk) i alloc
      else indirect_entry (s5_indirect_block (inode x)) i alloc.

(** ** Page frames of a file *)

Definition file_page (n : Z) : M N (list Z) :=
  let! pf := pf_get node_mobj n in deref (pf_addr pf).

Definition set_file_page (n : Z) (b : list Z) : M N unit :=
  pf_modify node_mobj n (set_pf_addr (Some b)).

Definition s5_get_file_disk_block (blocknum loc : Z) (forwrite : bool) : M N Z :=
  let! pf := mobj_create_pframe node_mobj blocknum loc in
  let! n := deref pf in
  do! kassert (negb oom);
  do! pf_modify node_mobj n (set_pf_addr (Some page_garbage));
  let! st := get in
  let! b := (match read_block (s5f_bdev st.2) (u32 loc) with
             | Some b => ret b
             | None => fail Assert
             end) in
  do! set_file_page n b;
  do! pf_modify node_mobj n (fun pf => set_pf_dirty (pf_dirty pf || forwrite) pf);
  ret n.

Definition s5fs_fill_pframe (n : Z) : M N Z :=
  do! set_file_page n zero_block;
  ret 0.

(** [blockdev_flush_pframe]: the page goes to the block [pf_loc]. *)
Definition s5fs_flush_pframe (n : Z) : M N Z :=
  let! pf := pf_get node_mobj n in
  let! b := deref (pf_addr pf) in
  let! st := get in
  let '(r, d) := write_block (s5f_bdev st.2) (u32 (pf_loc pf)) b in
  do! on_fs (modify (set_s5f_bdev d));
  ret r.

Definition s5fs_get_pframe (pagenum : Z) (forwrite : bool) : M N (Z * option Z) :=
  let! len := vn_length in
  if len <=? u64 (pagenum * PAGE_SIZE) then ret (- EINVAL, None)
  else
    let! pf := mobj_find_pframe node_mobj pagenum in
    match pf with
    | Some n =>
        do! pf_modify node_mobj n (fun pf => set_pf_dirty (pf_dirty pf || forwrite) pf);
        ret (0, Some n)
    | None =>
        let! r := s5_file_block_to_disk_block pagenum forwrite in
        let '(loc, new) := r in
        if loc <? 0 then ret (loc, None)
        else if negb (loc =? 0) then
          if new then
            let! n := s5_cache_and_clear_block node_mobj pagenum loc in ret (0, Some n)
          else
            let! n := s5_get_file_disk_block pagenum loc forwrite in ret (0, Some n)
        else
          do! kassert (negb forwrite);
          mobj_default_get_pframe node_mobj s5fs_fill_pframe pagenum forwrite
    end.

(** [sn->vnode.vn_mobj.mo_ops.get_pframe]; the vnode operations of files and
    directories have the routine. *)
Definition s5_get_file_block (blocknum : Z) (forwrite : bool) : M N (Z * option Z) :=
  let! st := get in
  match vn_ops st.1 with
  | VopsDir | VopsFile => s5fs_get_pframe blocknum forwrite
  | VopsNull => fail Fault
  | _ => fail Assert
  end.

Definition s5_release_file_block (n : Z) : M N unit := pframe_release node_mobj n.

(** ** Reading and writing *)

(** The number of bytes of [len] that fit the block of [pos]. *)
Definition chunk (pos len : Z) : Z :=
  if S5_BLOCK_SIZE <? u64 (pos mod S5_BLOCK_SIZE + len) then S5_BLOCK_SIZE - pos mod S5_BLOCK_SIZE else len.

(** Whether a copy of [n] bytes at [pos] stays in the page of its block. *)
Definition in_block (pos n : Z) : bool := pos mod S5_BLOCK_SIZE + n <=? S5_BLOCK_SIZE.

(** An error of [s5_get_file_block] releases a frame that was not obtained. *)
Fixpoint read_loop (fuel : nat) (pos length : Z) (acc : list Z) : M N (list Z) :=
  let! r := s5_get_file_block (pos / S5_BLOCK_SIZE) false in
  if r.1 <? 0 then fail Fault
  else
    let! n := deref r.2 in
    let readed := chunk pos length in
    let! b := file_page n in
    do! (if in_block pos readed then ret tt else fail Fault);
    let acc := acc ++ slice b (Z.to_nat (pos mod S5_BLOCK_SIZE)) (Z.to_nat readed) in
    do! s5_release_file_block n;
    let length := length - readed in
    if 0 <? length then
      match fuel with
      | O => fail Stuck
      | S fuel => read_loop fuel (pos + readed) length acc
      end
    else ret acc.

(** Iterations of the loops over [len] bytes: each but the first and the last
    covers a whole block. *)
Definition block_fuel (len : Z) : nat := Z.to_nat (len / S5_BLOCK_SIZE) + 2.

Definition s5_read_file (pos len : Z) : M N (Z * list Z) :=
  let! x := get_node in
  let! st := get in
  do! kassert (s5_number (inode x) =? vn_vno st.1);
  do! kassert (s5_size (inode x) =? vn_len st.1);
  if vn_len st.1 <=? pos then ret (0, [])
  else
    let length := if vn_len st.1 <? u64 (pos + len) then vn_len st.1 - pos else len in
    let! data := read_loop (block_fuel length) pos length [] in
    ret (length, data).

Fixpoint write_loop (fuel : nat) (pos : Z) (buf : list Z) (len total : Z) : M N Z :=
  if S5_MAX_FILE_SIZE <=? pos then ret (- EFBIG)
  else
    let len := if S5_MAX_FILE_SIZE <? u64 (pos + len) then S5_MAX_FILE_SIZE - pos else len in
    let writed := chunk pos len in
    let! undo_len := vn_length in
    do! (if undo_len <? pos + writed then set_length (pos + writed) else ret tt);
    do! dirty_inode id;
    let! r := s5_get_file_block (pos / S5_BLOCK_SIZE) true in
    if r.1 <? 0 then do! set_length undo_len; ret r.1
    else
      let! n := deref r.2 in
      let! b := file_page n in
      do! (if in_block pos writed then ret tt else fail Fault);
      do! set_file_page n (splice b (Z.to_nat (pos mod S5_BLOCK_SIZE)) (take (Z.to_nat writed) buf));
      do! s5_release_file_block n;
      let len := len - writed in
      let total := total + writed in
      if 0 <? len then
        match fuel with
        | O => fail Stuck
        | S fuel => write_loop fuel (pos + writed) (drop (Z.to_nat writed) buf) len total
        end
      else ret total.

Definition s5_write_file (pos : Z) (buf : list Z) : M N Z :=
  let len := Z.of_nat (length buf) in
  let! r := write_loop (block_fuel len) pos buf len 0 in
  if r <? 0 then ret r
  else
    let! x := get_node in
    let! l := vn_length in
    do! kassert (l =? s5_size (inode x));
    ret r.

(** ** Directory entries *)

(** [name_match] on a name read from the disk: an array without a NUL is read
    past its end. *)
Definition dirent_match (d : s5_dirent) (name : list Z) (namelen : Z) : M N bool :=
  if existsb (fun c => c =? 0) (s5d_name d) then ret (name_match (s5d_name d) name namelen)
  else fail Fault.

(** The inode number and the position of the entry. *)
Fixpoint find_dirent_loop (fuel : nat) (pos : Z) (name : list Z) (namelen : Z) : M N (Z * Z) :=
  let! x := get_node in
  if pos <? s5_size (inode x) then
    let! r := s5_read_file pos (Z.of_nat sizeof_s5_dirent) in
    if r.1 <? 0 then ret (r.1, 0)
    else
      do! kassert (r.1 =? Z.of_nat sizeof_s5_dirent);
      let entry := decode_dirent r.2 in
      let! m := dirent_match entry name namelen in
      if m then ret (s5d_inode entry, pos)
      else
        match fuel with
        | O => fail Stuck
        | S fuel => find_dirent_loop fuel (pos + r.1) name namelen
        end
  else ret (- ENOENT, 0).

Definition s5_find_dirent (name : list Z) (namelen : Z) : M N (Z * Z) :=
  let! st := get in
  do! kassert (S_ISDIR (vn_mode st.1));
  let! x := get_node in
  do! kassert (vn_len st.1 =? s5_size (inode x));
  find_dirent_loop (Z.to_nat (s5_size (inode x) / Z.of_nat sizeof_s5_dirent)) 0 name namelen.

(** [s5_remove_dirent] on the directory; the child's link count is dropped by
    the caller of this part. *)
Definition remove_entry (name : list Z) (namelen child_ino : Z) : M N unit :=
  let! st := get in
  let vn_len0 := vn_len st.1 in
  do! kassert (S_ISDIR (vn_mode st.1));
  let! r := s5_find_dirent name namelen in
  do! kassert (r.1 =? child_ino);
  let entry_pos := r.2 in
  let sz := Z.of_nat sizeof_s5_dirent in
  do! (if entry_pos + sz <? vn_len0 then
         let! last := s5_read_file (vn_len0 - sz) sz in
         let! _ := s5_write_file entry_pos last.2 in
         ret tt
       else ret tt);
  let! len := vn_length in
  do! set_length (u64 (len - sz));
  do! dirty_inode id;
  let! len' := vn_length in
  kassert (vn_len0 =? len' + sz).

(** The part of [s5_link] that works on the directory: 0, or an error. *)
Definition link_entry (name : list Z) (namelen child_ino : Z) : M N Z :=
  let! r := s5_find_dirent name namelen in
  if 0 <? r.1 then ret (- EEXIST)
  else
    do! kassert (r.1 =? - ENOENT);
    let! nm := deref (strncpy (replicate S5_NAME_LEN 0) name (Z.to_nat namelen)) in
    let! nm := (if namelen <? Z.of_nat S5_NAME_LEN then ret (<[Z.to_nat namelen := 0]> nm)
                else fail Fault) in
    let entry := S5Dirent child_ino nm in
    let! len := vn_length in
    let! x := get_node in
    do! kassert (len =? s5_size (inode x));
    let! r := s5_write_file len (encode_dirent entry) in
    let! x := get_node in
    let! len' := vn_length in
    do! kassert (len' =? s5_size (inode x));
    if r <? 0 then ret r
    else
      do! kassert (r + len =? len');
      do! dirty_inode id;
      ret 0.

(** ** Block counts and truncation *)

(** Entries of a block map that are allocated. *)
Definition count_allocated (l : list Z) : Z :=
  Z.of_nat (length (filter (fun b => b <> 0) l)).

Definition s5_inode_blocks : M N Z :=
  let! x := get_node in
  let i := inode x in
  if (s5_type i =? S5_TYPE_CHR) || (s5_type i =? S5_TYPE_BLK) then ret 0
  else
    let direct := count_allocated (s5_direct_blocks i) in
    if s5_indirect_block i =? 0 then ret direct
    else
      do! on_fs (s5_get_meta_disk_block (s5_indirect_block i) false);
      let! b := on_fs (meta_page (s5_indirect_block i)) in
      do! on_fs (s5_release_disk_block (s5_indirect_block i));
      ret (direct + 1 + count_allocated (words_of b 0 S5_NIDIRECT_BLOCKS)).

(** Free the allocated blocks of a map and drop the cached frames. *)
Definition remove_mapped (first : nat) (l : list Z) : M N unit :=
  for_each (zip (seq first (length l)) l) (fun ib =>
    if ib.2 =? 0 then ret tt
    else
      do! on_fs (s5_free_block ib.2);
      mobj_delete_pframe node_mobj (Z.of_nat ib.1)).

Definition s5_remove_blocks : M N unit :=
  let! x := get_node in
  do! remove_mapped 0 (s5_direct_blocks (inode x));
  let! x := get_node in
  do! put_node (S5Node (set_s5_direct zero_direct (inode x)) (dirtied_inode x));
  let ind := s5_indirect_block (inode x) in
  if ind =? 0 then ret tt
  else
    do! on_fs (s5_get_meta_disk_block ind false);
    let! b := on_fs (meta_page ind) in
    do! remove_mapped S5_NDIRECT_BLOCKS (words_of b 0 S5_NIDIRECT_BLOCKS);
    do! on_fs (s5_release_disk_block ind);
    do! on_fs (s5_free_block ind);
    let! x := get_node in
    put_node (S5Node (set_s5_indirect 0 (inode x)) (dirtied_inode x)).
End s5file.
