(* ===== verification/S5fs.v ===== *)
(** S5FS as the VFS sees it: the file-system and vnode operations of
    [fs/s5fs/s5fs.c], with [s5_link] and [s5_remove_dirent] of
    [fs/s5fs/s5fs_subr.c], which work on two nodes. *)

From S2P Require Import Prelude CString Btree Mobj Vnode File S5Disk S5File.

Section s5fs.
Context {mem : Memory} {pages : Pages} {drv : Drivers} {bd : BlockDev}.
Abbreviation K := (kst s5fs s5_node).

(** Run a metadata routine on [fs->fs_i]. *)
Definition s5_meta {A} (m : M s5fs A) : M K A := zoom fs_i set_fs_i m.

Definition node_of (p : Z) : M K s5_node := let! v := vn_get p in deref (vn_i v).

Definition put_node_of (p : Z) (x : s5_node) : M K unit := vn_modify p (set_vn_i (Some x)).

(** [node->inode.s5_linkcount += d] on an [int16_t]. *)
Definition add_links (p d : Z) : M K unit :=
  let! x := node_of p in
  put_node_of p (S5Node (set_s5_linkcount (s16 (s5_linkcount (inode x) + d)) (inode x))
                        (dirtied_inode x)).

Definition mark_dirty (p : Z) : M K unit :=
  let! x := node_of p in put_node_of p (S5Node (inode x) true).

(** ** File system operations *)

Definition s5fs_read_vnode (p : Z) : M K unit :=
  let! v := vn_get p in
  let blocknum := S5_INODE_BLOCK (vn_vno v) in
  do! s5_meta (s5_get_meta_disk_block blocknum true);
  let! b := s5_meta (meta_page blocknum) in
  let i := inode_in b (vn_vno v) in
  do! s5_meta (s5_release_disk_block blocknum);
  do! kassert (vn_vno v =? s5_number i);
  let v := set_vn_len (s5_size i) (set_vn_i (Some (S5Node i false)) v) in
  if s5_type i =? S5_TYPE_DATA then vn_put p (set_vn_ops VopsFile (set_vn_mode S_IFREG v))
  else if s5_type i =? S5_TYPE_DIR then vn_put p (set_vn_ops VopsDir (set_vn_mode S_IFDIR v))
  else if s5_type i =? S5_TYPE_CHR then
    vn_put p (set_vn_devid (s5_indirect_block i) (set_vn_ops VopsNull (set_vn_mode S_IFCHR v)))
  else if s5_type i =? S5_TYPE_BLK then
    vn_put p (set_vn_devid (s5_indirect_block i) (set_vn_ops VopsNull (set_vn_mode S_IFBLK v)))
  else fail Assert.

Definition s5fs_delete_vnode (p : Z) : M K unit :=
  let! v := vn_get p in
  do! kassert (mo_refcount (vn_mobj v) =? 0);
  let! x := node_of p in
  do! kassert (0 <=? s5_linkcount (inode x));
  do! kassert (vn_vno v =? s5_number (inode x));
  if s5_linkcount (inode x) =? 0 then s5_meta (s5_free_inode (vn_vno v))
  else if dirtied_inode x then
    let blocknum := S5_INODE_BLOCK (vn_vno v) in
    do! s5_meta (s5_get_meta_disk_block blocknum true);
    do! s5_meta (put_inode (vn_vno v) (inode x));
    s5_meta (s5_release_disk_block blocknum)
  else ret tt.

Definition s5fs_fsops : fs_ops s5fs s5_node :=
  FsOps s5fs_read_vnode (Some s5fs_delete_vnode)
    (fun o => match o with VopsDir | VopsFile => Some s5fs_flush_pframe | _ => None end).

Abbreviation vget := (vget s5fs_fsops).
Abbreviation vget_locked := (vget_locked s5fs_fsops).
Abbreviation vput := (vput s5fs_fsops).
Abbreviation vput_locked := (vput_locked s5fs_fsops).

(** [blockdev_flush_pframe] on a metadata frame. *)
Definition meta_flush_pframe (n : Z) : M s5fs Z :=
  let! pf := pf_get s5f_mobj_lens n in
  let! b := deref (pf_addr pf) in
  let! f := get in
  let '(r, d) := write_block (s5f_bdev f) (u32 (pf_loc pf)) b in
  do! modify (set_s5f_bdev d);
  ret r.

Definition s5fs_sync : M s5fs unit :=
  do! s5_get_meta_disk_block S5_SUPER_BLOCK true;
  let! b := meta_page S5_SUPER_BLOCK in
  let! s := super in
  do! set_meta_page S5_SUPER_BLOCK (splice b 0 (encode_super s));
  do! s5_release_disk_block S5_SUPER_BLOCK;
  do! mobj_lock s5f_mobj_lens;
  let! _ := mobj_flush s5f_mobj_lens meta_flush_pframe in
  mobj_unlock s5f_mobj_lens.

(** [dev] is the block device that [fs_dev] names, if there is one. *)
Definition s5fs_mount (dev : option bdev) : M K Z :=
  match dev with
  | None => ret (- EINVAL)
  | Some d =>
      if oom then ret (- ENOMEM)
      else
        do! modify (set_fs_i (S5fs _ d (S5Super 0 0 0 [] 0 0 0) false mobj_init));
        do! s5_meta (s5_get_meta_disk_block S5_SUPER_BLOCK false);
        let! b := s5_meta (meta_page S5_SUPER_BLOCK) in
        do! s5_meta (set_super (decode_super b));
        do! s5_meta (s5_release_disk_block S5_SUPER_BLOCK);
        let! s := s5_meta super in
        if negb (s5_check_super s =? 0) then ret (- EINVAL)
        else
          let! root := vget (s5s_root_inode s) in
          do! modify (set_fs_root root);
          ret 0
  end.

(** ** Files *)

Definition s5fs_read (p pos len : Z) : M K (Z * list Z) :=
  let! v := vn_get p in
  do! kassert (negb (S_ISDIR (vn_mode v)));
  on_vnode_fs p (s5_read_file pos len).

Definition s5fs_write (p pos : Z) (buf : list Z) : M K Z :=
  let! v := vn_get p in
  do! kassert (negb (S_ISDIR (vn_mode v)));
  on_vnode_fs p (s5_write_file pos buf).

Definition s5fs_truncate_file (p : Z) : M K unit :=
  let! v := vn_get p in
  do! kassert (S_ISREG (vn_mode v));
  do! vn_modify p (set_vn_len 0);
  let! x := node_of p in
  do! put_node_of p (S5Node (set_s5_size 0 (inode x)) true);
  do! vlock p;
  do! on_vnode_fs p s5_remove_blocks;
  vunlock p.

Definition s5fs_stat (p : Z) : M K (Z * stat) :=
  let! blocks := on_vnode_fs p s5_inode_blocks in
  let! v := vn_get p in
  let! x := node_of p in
  let rdev := if S_ISCHR (vn_mode v) || S_ISBLK (vn_mode v) then vn_devid v else 0 in
  ret (0, Stat (vn_mode v) (vn_vno v) bd_id rdev (s5_linkcount (inode x)) (vn_len v) S5_BLOCK_SIZE blocks).

(** ** Directories *)

Definition s5_remove_dirent (dir : Z) (name : list Z) (namelen : Z) (child : Z) : M K unit :=
  let! c := node_of child in
  do! on_vnode_fs dir (remove_entry name namelen (s5_number (inode c)));
  do! add_links child (-1);
  mark_dirty child.

Definition s5_link (dir : Z) (name : list Z) (namelen : Z) (child : Z) : M K Z :=
  let! c := node_of child in
  let! r := on_vnode_fs dir (link_entry name namelen (s5_number (inode c))) in
  if r <? 0 then ret r
  else
    do! add_links child 1;
    do! mark_dirty child;
    ret 0.

Definition s5fs_find (dir : Z) (name : list Z) (namelen : Z) : M K Z :=
  let! r := on_vnode_fs dir (s5_find_dirent name namelen) in ret r.1.

Definition s5fs_mknod (dir : Z) (name : list Z) (namelen mode devid : Z) : M K (Z * option Z) :=
  let! v := vn_get dir in
  do! kassert (S_ISDIR (vn_mode v));
  if negb (S_ISCHR mode) && negb (S_ISBLK mode) && negb (S_ISREG mode) then ret (- ENOTSUP, None)
  else
    let type := if S_ISCHR mode then S5_TYPE_CHR
                else if S_ISBLK mode then S5_TYPE_BLK else S5_TYPE_DATA in
    let! ino := s5_meta (s5_alloc_inode type devid) in
    if ino <? 0 then ret (ino, None)
    else
      let! child := vget (u32 ino) in
      let! r := s5_link dir name namelen child in
      if r <? 0 then do! vput child; ret (r, None)
      else ret (0, Some child).

Definition s5fs_lookup (dir : Z) (name : list Z) (namelen : Z) : M K (Z * option Z) :=
  let! v := vn_get dir in
  do! kassert (S_ISDIR (vn_mode v));
  let! ino := s5fs_find dir name namelen in
  if ino <? 0 then ret (ino, None)
  else if vn_vno v =? ino then do! vref dir; ret (0, Some dir)
  else let! p := vget (u32 ino) in ret (0, Some p).

Definition s5fs_link (dir : Z) (name : list Z) (namelen : Z) (child : Z) : M K Z :=
  let! v := vn_get dir in
  do! kassert (S_ISDIR (vn_mode v));
  let! vc := vn_get child in
  if S_ISDIR (vn_mode vc) then ret (- EISDIR) else s5_link dir name namelen child.

Definition s5fs_unlink (dir : Z) (name : list Z) (namelen : Z) : M K Z :=
  let! v := vn_get dir in
  do! kassert (S_ISDIR (vn_mode v));
  do! kassert (negb (name_match (str ".") name namelen));
  do! kassert (negb (name_match (str "..") name namelen));
  let! ino := s5fs_find dir name namelen in
  if ino <? 0 then ret ino
  else
    let! child := vget_locked (u32 ino) in
    do! s5_remove_dirent dir name namelen child;
    do! vput_locked child;
    ret 0.

(** The last assertion reads the node after the reference to it was put. *)
Definition s5fs_rename (olddir : Z) (oldname : list Z) (oldlen : Z)
    (newdir : Z) (newname : list Z) (newlen : Z) : M K Z :=
  if newlen >=? NAME_LEN then ret (- ENAMETOOLONG)
  else
    let! vn := vn_get newdir in
    if negb (S_ISDIR (vn_mode vn)) then ret (- ENOTDIR)
    else
      let! ino := s5fs_find olddir oldname oldlen in
      if ino <? 0 then ret ino
      else
        let! old := vget_locked (u32 ino) in
        let! x := node_of old in
        let link_count := s5_linkcount (inode x) in
        let! vo := vn_get old in
        if S_ISDIR (vn_mode vo) then do! vput_locked old; ret (- EISDIR)
        else
          let! new_ino := s5fs_find newdir newname newlen in
          let! r :=
            (if (0 <? new_ino) && negb (new_ino =? ino) then
               let! new := vget_locked (u32 new_ino) in
               let! vnew := vn_get new in
               if S_ISDIR (vn_mode vnew) then
                 do! vput_locked new; do! vput_locked old; ret (- EISDIR)
               else
                 do! s5_remove_dirent newdir newname newlen new;
                 let! r := s5_link newdir newname newlen old in
                 if r <? 0 then do! vput_locked new; do! vput_locked old; ret r
                 else do! vput_locked new; ret 0
             else
               let! r := s5_link newdir newname newlen old in
               if r <? 0 then do! vput_locked old; ret r else ret 0) in
          if r <? 0 then ret r
          else
            do! s5_remove_dirent olddir oldname oldlen old;
            do! vput_locked old;
            let! x := node_of old in
            do! kassert (s5_linkcount (inode x) =? link_count);
            ret 0.

(** [entry.s5d_inode = ino; strcpy(entry.s5d_name, name)] *)
Definition const_dirent (ino : Z) (name0 name : list Z) : M K s5_dirent :=
  let! nm := deref (strcpy name0 name) in ret (S5Dirent ino nm).

Definition s5fs_mkdir (dir : Z) (name : list Z) (namelen : Z) : M K (Z * option Z) :=
  let! v := vn_get dir in
  do! kassert (S_ISDIR (vn_mode v));
  let! d := node_of dir in
  let old_reference_count := s5_linkcount (inode d) in
  let! ino := s5_meta (s5_alloc_inode S5_TYPE_DIR (-1)) in
  if ino <? 0 then ret (ino, None)
  else
    let! child := vget (u32 ino) in
    do! vlock child;
    let! entry := const_dirent (u32 ino) (replicate S5_NAME_LEN 0) (str ".") in
    let! r := on_vnode_fs child (s5_write_file 0 (encode_dirent entry)) in
    if r <? 0 then do! vput_locked child; ret (r, None)
    else
      let! entry := const_dirent (vn_vno v) (s5d_name entry) (str "..") in
      let! r := on_vnode_fs child (s5_write_file (Z.of_nat sizeof_s5_dirent) (encode_dirent entry)) in
      if r <? 0 then do! vput_locked child; ret (r, None)
      else
        do! add_links dir 1;
        do! mark_dirty dir;
        let! r := s5_link dir name namelen child in
        if r <? 0 then do! vput_locked child; do! add_links dir (-1); ret (r, None)
        else
          do! add_links child 1;
          do! vunlock child;
          let! d := node_of dir in
          do! kassert (old_reference_count + 1 =? s5_linkcount (inode d));
          let! c := node_of child in
          do! kassert (s5_linkcount (inode c) =? 2);
          ret (0, Some child).

Definition s5fs_rmdir (parent : Z) (name : list Z) (namelen : Z) : M K Z :=
  do! kassert (negb (name_match (str ".") name namelen));
  do! kassert (negb (name_match (str "..") name namelen));
  let! v := vn_get parent in
  do! kassert (S_ISDIR (vn_mode v));
  let! ino := s5fs_find parent name namelen in
  if ino <? 0 then ret ino
  else
    do! kassert (negb (ino =? 0));
    let! child := vget_locked (u32 ino) in
    let! vc := vn_get child in
    if negb (S_ISDIR (vn_mode vc)) then do! vput_locked child; ret (- ENOTDIR)
    else if 2 * Z.of_nat sizeof_s5_dirent <? vn_len vc then do! vput_locked child; ret (- ENOTEMPTY)
    else
      do! s5_remove_dirent parent name namelen child;
      let! c := node_of child in
      do! kassert (s5_linkcount (inode c) =? 1);
      do! put_node_of child
            (S5Node (set_s5_size 0 (set_s5_linkcount (s5_linkcount (inode c) - 1) (inode c))) true);
      do! add_links parent (-1);
      do! mark_dirty parent;
      do! vput_locked child;
      ret 0.

(** The caller clears the entry it passes. *)
Definition s5fs_readdir (p pos : Z) : M K (Z * option dirent) :=
  let! v := vn_get p in
  do! kassert (S_ISDIR (vn_mode v));
  let! r := on_vnode_fs p (s5_read_file pos (Z.of_nat sizeof_s5_dirent)) in
  if r.1 <=? 0 then ret (r.1, None)
  else
    do! kassert (r.1 =? Z.of_nat sizeof_s5_dirent);
    let entry := decode_dirent r.2 in
    if existsb (fun c => c =? 0) (s5d_name entry) then
      let! name := deref (strncpy (replicate (Z.to_nat NAME_LEN) 0) (s5d_name entry)
                                  (Z.to_nat (strlen (s5d_name entry)))) in
      ret (r.1, Some (Dirent (s5d_inode entry) (pos + r.1) name))
    else fail Fault.

Definition s5fs_dir_vops : vnode_ops K :=
  VnodeOps None None (Some s5fs_mknod) (Some s5fs_lookup) (Some s5fs_link) (Some s5fs_unlink)
    (Some s5fs_rename) (Some s5fs_mkdir) (Some s5fs_rmdir) (Some s5fs_readdir) (Some s5fs_stat)
    None None None.

Definition s5fs_file_vops : vnode_ops K :=
  VnodeOps (Some s5fs_read) (Some s5fs_write) None None None None None None None None
    (Some s5fs_stat) None None (Some s5fs_truncate_file).

Definition s5fs_vops (o : vops) : vnode_ops K :=
  match o with
  | VopsDir => s5fs_dir_vops
  | VopsFile => s5fs_file_vops
  | VopsChar => chardev_spec_vops (Some s5fs_stat)
  | VopsBlock => blockdev_spec_vops (Some s5fs_stat)
  | VopsNull => no_ops
  end.

(** ** Reference-count check and unmount *)

(** [counts[i] += d] on the array of [s5s_num_inodes] counters. *)
Definition bump (counts : list Z) (i d : Z) : M K (list Z) :=
  let! c := deref (counts !! Z.to_nat i) in ret (<[Z.to_nat i := c + d]> counts).

(** [calculate_refcounts]: the entries of a directory from [pos] on, recursing
    into a directory the first time it is seen.  The fuel bounds the entries
    read and the depth together. *)
Fixpoint calculate_refcounts (fuel : nat) (counts : list Z) (p pos : Z) : M K (list Z) :=
  let! r := s5fs_readdir p pos in
  match r.2 with
  | Some d =>
      let! counts := bump counts (d_ino d) 1 in
      match fuel with
      | O => fail Stuck
      | S fuel =>
          let! counts :=
            (if default 0 (counts !! Z.to_nat (d_ino d)) =? 1 then
               let! child := vget_locked (d_ino d) in
               let! vc := vn_get child in
               let! counts := (if S_ISDIR (vn_mode vc) then calculate_refcounts fuel counts child 0
                               else ret counts) in
               do! vput_locked child;
               ret counts
             else ret counts) in
          calculate_refcounts fuel counts p (pos + r.1)
      end
  | None => do! kassert (r.1 =? 0); ret counts
  end.

(** Compare the counts, from inode [i] on, with the link counts. *)
Fixpoint check_counts (i : Z) (counts : list Z) (acc : Z) : M K Z :=
  match counts with
  | [] => ret acc
  | c :: counts =>
      if c =? 0 then check_counts (i + 1) counts acc
      else
        let! p := vget i in
        let! x := node_of p in
        let acc := if c =? s5_linkcount (inode x) then acc else -1 in
        do! vput p;
        check_counts (i + 1) counts acc
  end.

Definition s5fs_check_refcounts (fuel : nat) : M K Z :=
  do! kassert (negb oom);
  let! sb := s5_meta super in
  let! s := get in
  let root := fs_root s in
  do! vlock root;
  let! v := vn_get root in
  let! counts := bump (replicate (Z.to_nat (s5s_num_inodes sb)) 0) (vn_vno v) 1 in
  let! counts := calculate_refcounts fuel counts root 0 in
  let! counts := bump counts (vn_vno v) (-1) in
  do! vunlock root;
  check_counts 0 counts 0.

Definition s5fs_umount (fuel : nat) : M K Z :=
  let! r := s5fs_check_refcounts fuel in
  do! kassert (r =? 0);
  let! sb := s5_meta super in
  do! kassert (s5_check_super sb =? 0);
  let! s := get in
  do! vput (fs_root s);
  do! s5_meta s5fs_sync;
  ret 0.
End s5fs.
