(* ===== verification/MobjProofs.v ===== *)
(** Memory objects: the page-frame list and the B-tree index of an object agree,
    every operation of [mm/mobj.c] keeps them so, and the operations do what
    they promise: a frame that is asked for is found or made and filled, a
    flush writes exactly the dirty pages, the destructor leaves nothing. *)

From S2P Require Import Prelude Btree BtreeProofs Mobj.

(** * Frames by page number *)

#[global] Arguments find_pf _ _ : simpl never.
#[global] Arguments upd_pf _ _ _ : simpl never.

Section frames.
Implicit Types (l : list pframe) (pf : pframe) (f g : pframe -> pframe) (n : Z).

(** An update that keeps the page number. *)
Definition keeps_pagenum f : Prop := forall pf, pf_pagenum (f pf) = pf_pagenum pf.

Lemma find_pf_cons n pf l :
  find_pf n (pf :: l) = if decide (pf_pagenum pf = n) then Some pf else find_pf n l.
Proof.
  unfold find_pf. cbn. case_decide; [done|]. by destruct (list_find _ l) as [[]|].
Qed.

Lemma find_pf_Some n l pf : find_pf n l = Some pf -> pf_pagenum pf = n /\ pf ∈ l.
Proof.
  induction l as [|x l IH]; [done|]. rewrite find_pf_cons. case_decide.
  - intros [= ->]. split; [done|left].
  - intros H'. destruct (IH H'). split; [done|by right].
Qed.

Lemma find_pf_None n l : find_pf n l = None <-> n ∉ pf_pagenum <$> l.
Proof.
  induction l as [|x l IH]; [split; [intros _; apply not_elem_of_nil|done]|].
  rewrite find_pf_cons, fmap_cons, not_elem_of_cons. case_decide; naive_solver.
Qed.

Lemma find_pf_is_Some n l : is_Some (find_pf n l) <-> n ∈ pf_pagenum <$> l.
Proof.
  rewrite <- not_eq_None_Some, find_pf_None. destruct (decide (n ∈ pf_pagenum <$> l)); tauto.
Qed.

Lemma find_pf_app n l l' :
  find_pf n (l ++ l') = match find_pf n l with Some pf => Some pf | None => find_pf n l' end.
Proof.
  induction l as [|x l IH]; [done|]. cbn [app]. rewrite !find_pf_cons. by case_decide.
Qed.

Lemma upd_pf_cons n f pf l :
  upd_pf n f (pf :: l) = (if pf_pagenum pf =? n then f pf else pf) :: upd_pf n f l.
Proof. done. Qed.

Lemma upd_pf_pagenums n f l :
  keeps_pagenum f -> pf_pagenum <$> upd_pf n f l = pf_pagenum <$> l.
Proof.
  intros Hf. induction l as [|x l IH]; [done|]. rewrite upd_pf_cons, !fmap_cons, IH. f_equal.
  by destruct (pf_pagenum x =? n).
Qed.

Lemma find_upd_pf_eq n f l :
  keeps_pagenum f -> find_pf n (upd_pf n f l) = f <$> find_pf n l.
Proof.
  intros Hf. induction l as [|x l IH]; [done|]. rewrite upd_pf_cons, !find_pf_cons.
  destruct (Z.eqb_spec (pf_pagenum x) n) as [E|E].
  - rewrite Hf. by rewrite !decide_True.
  - by rewrite !decide_False.
Qed.

Lemma find_upd_pf_ne n m f l :
  keeps_pagenum f -> n <> m -> find_pf m (upd_pf n f l) = find_pf m l.
Proof.
  intros Hf Hn. induction l as [|x l IH]; [done|]. rewrite upd_pf_cons, !find_pf_cons, IH.
  destruct (Z.eqb_spec (pf_pagenum x) n) as [E|E]; [|done].
  rewrite Hf. rewrite !decide_False by lia. done.
Qed.

Lemma upd_upd_pf n f g l :
  keeps_pagenum g -> upd_pf n f (upd_pf n g l) = upd_pf n (fun pf => f (g pf)) l.
Proof.
  intros Hg. unfold upd_pf. rewrite map_map. apply map_ext. intros x.
  destruct (Z.eqb_spec (pf_pagenum x) n) as [E|E].
  - rewrite Hg, E, Z.eqb_refl. done.
  - by destruct (Z.eqb_spec (pf_pagenum x) n).
Qed.

(** With distinct page numbers an update only depends on the frame found. *)
Lemma upd_pf_ext n f g l pf :
  NoDup (pf_pagenum <$> l) -> find_pf n l = Some pf -> f pf = g pf -> upd_pf n f l = upd_pf n g l.
Proof.
  induction l as [|x l IH]; [done|]. rewrite fmap_cons, NoDup_cons, find_pf_cons.
  intros [Hx Hnd] Hf Hfg. rewrite !upd_pf_cons. destruct (Z.eqb_spec (pf_pagenum x) n) as [E|E].
  - rewrite decide_True in Hf by done. injection Hf as ->. rewrite Hfg. f_equal.
    apply map_ext_in. intros y Hy%list_elem_of_In.
    destruct (Z.eqb_spec (pf_pagenum y) n) as [E'|]; [|done].
    exfalso. apply Hx. rewrite E, <- E'. by apply list_elem_of_fmap_2.
  - rewrite decide_False in Hf by done. f_equal. by apply IH.
Qed.

Lemma upd_pf_id n f l pf :
  NoDup (pf_pagenum <$> l) -> find_pf n l = Some pf -> f pf = pf -> upd_pf n f l = l.
Proof.
  intros Hnd Hf Hid. rewrite (upd_pf_ext n f id l pf) by done. unfold upd_pf.
  rewrite <- (map_id l) at 2. apply map_ext. intros x. by destruct (_ =? _).
Qed.

Lemma upd_pf_app n f l l' : upd_pf n f (l ++ l') = upd_pf n f l ++ upd_pf n f l'.
Proof. unfold upd_pf. apply map_app. Qed.

Lemma upd_pf_notin n f l : n ∉ pf_pagenum <$> l -> upd_pf n f l = l.
Proof.
  intros Hn. induction l as [|x l IH]; [done|]. rewrite fmap_cons, not_elem_of_cons in Hn.
  rewrite upd_pf_cons, IH by tauto. destruct (Z.eqb_spec (pf_pagenum x) n); [|done]. naive_solver.
Qed.

Lemma filter_notin n l :
  n ∉ pf_pagenum <$> l -> filter (fun pf => pf_pagenum pf <> n) l = l.
Proof.
  intros Hn. induction l as [|x l IH]; [done|]. rewrite fmap_cons, not_elem_of_cons in Hn.
  rewrite filter_cons, decide_True by naive_solver. f_equal. apply IH. tauto.
Qed.

Lemma find_filter_ne n m l :
  n <> m -> find_pf m (filter (fun pf => pf_pagenum pf <> n) l) = find_pf m l.
Proof.
  intros Hn. induction l as [|x l IH]; [done|]. rewrite find_pf_cons, filter_cons.
  destruct (decide (pf_pagenum x <> n)) as [E|E].
  - by rewrite find_pf_cons, IH.
  - rewrite IH. rewrite decide_False; [done|]. intros E'. apply E. lia.
Qed.

Lemma filter_upd_pf n f l :
  keeps_pagenum f ->
  filter (fun pf => pf_pagenum pf <> n) (upd_pf n f l) = filter (fun pf => pf_pagenum pf <> n) l.
Proof.
  intros Hf. induction l as [|x l IH]; [done|]. rewrite upd_pf_cons, !filter_cons, IH.
  destruct (Z.eqb_spec (pf_pagenum x) n) as [E|E]; [|done].
  rewrite (decide_False (P := pf_pagenum x <> n)) by tauto.
  by rewrite decide_False by (rewrite Hf; tauto).
Qed.

Lemma filter_pagenums n l :
  pf_pagenum <$> filter (fun pf => pf_pagenum pf <> n) l = filter (fun m => m <> n) (pf_pagenum <$> l).
Proof.
  induction l as [|x l IH]; [done|]. rewrite filter_cons, !fmap_cons, filter_cons.
  by destruct (decide (pf_pagenum x <> n)); cbn; rewrite IH.
Qed.
End frames.

(** * The invariant of an object *)

(** The index that a list of page numbers has. *)
Definition index_of (ns : list Z) : gmap Z Z := list_to_map ((fun n => (n, n)) <$> ns).
#[global] Arguments index_of _ : simpl never.

Lemma index_of_lookup ns n : index_of ns !! n = if decide (n ∈ ns) then Some n else None.
Proof.
  induction ns as [|x ns IH]; [done|]. unfold index_of in *. cbn.
  destruct (decide (n = x)) as [->|E].
  - rewrite lookup_insert_eq, decide_True; [done|left].
  - rewrite lookup_insert_ne by done. rewrite IH.
    destruct (decide (n ∈ ns)), (decide (n ∈ x :: ns)) as [Hi|Hi]; try done.
    + exfalso. apply Hi. by right.
    + apply elem_of_cons in Hi. naive_solver.
Qed.

Lemma index_of_app ns n : n ∉ ns -> index_of (ns ++ [n]) = <[n := n]> (index_of ns).
Proof.
  intros Hn. apply map_eq. intros m. rewrite index_of_lookup.
  destruct (decide (m = n)) as [->|E].
  - rewrite lookup_insert_eq, decide_True; [done|]. set_solver.
  - rewrite lookup_insert_ne by done. rewrite index_of_lookup.
    destruct (decide (m ∈ ns)), (decide (m ∈ ns ++ [n])); set_solver.
Qed.

Lemma index_of_filter ns n : index_of (filter (fun m => m <> n) ns) = delete n (index_of ns).
Proof.
  apply map_eq. intros m. rewrite index_of_lookup. destruct (decide (m = n)) as [->|E].
  - rewrite lookup_delete_eq, decide_False; [done|]. rewrite list_elem_of_filter. naive_solver.
  - rewrite lookup_delete_ne, index_of_lookup by done.
    destruct (decide (m ∈ ns)) as [Hi|Hi].
    + rewrite decide_True; [done|]. by apply list_elem_of_filter.
    + rewrite decide_False; [done|]. rewrite list_elem_of_filter. naive_solver.
Qed.

(** The frames have distinct page numbers that fit the keys of the index, and
    the index is a B-tree that holds exactly them. *)
Record mobj_ok (o : mobj) : Prop := {
  ok_nodup : NoDup (pf_pagenum <$> mo_pframes o);
  ok_range : Forall (fun n => 0 <= n < 2 ^ 31) (pf_pagenum <$> mo_pframes o);
  ok_index : btree_rep id (mo_btree o) (index_of (pf_pagenum <$> mo_pframes o));
}.

(** The frame with page number [n]. *)
Definition frame_of (o : mobj) (n : Z) : option pframe := find_pf n (mo_pframes o).

Definition upd_frame (n : Z) (f : pframe -> pframe) (o : mobj) : mobj :=
  set_mo_pframes (upd_pf n f (mo_pframes o)) o.

(** The object with other frames and another index. *)
Definition with_frames (o : mobj) (l : list pframe) (t : option node) : mobj :=
  Mobj (mo_refcount o) (mo_mutex o) l t.

Lemma mobj_init_ok : mobj_ok mobj_init.
Proof. split; cbn; [constructor|constructor|done]. Qed.

Lemma search_ok o n : mobj_ok o -> btree_search (mo_btree o) n = pf_pagenum <$> frame_of o n.
Proof.
  intros [_ _ Hi]. rewrite (btree_search_rep _ _ _ _ Hi), index_of_lookup. unfold frame_of.
  destruct (find_pf n (mo_pframes o)) as [pf|] eqn:Hf; cbn.
  - apply find_pf_Some in Hf as [<- Hin]. rewrite decide_True; [done|].
    by apply list_elem_of_fmap_2.
  - apply find_pf_None in Hf. by rewrite decide_False.
Qed.

Lemma upd_frame_ok n f o : keeps_pagenum f -> mobj_ok o -> mobj_ok (upd_frame n f o).
Proof. intros Hf []. split; cbn; by rewrite upd_pf_pagenums. Qed.

Lemma set_mutex_ok b o : mobj_ok o -> mobj_ok (set_mo_mutex b o).
Proof. intros []. by split. Qed.

Lemma set_refcount_ok b o : mobj_ok o -> mobj_ok (set_mo_refcount b o).
Proof. intros []. by split. Qed.

Lemma frame_upd_eq n f o : keeps_pagenum f -> frame_of (upd_frame n f o) n = f <$> frame_of o n.
Proof. apply find_upd_pf_eq. Qed.

Lemma frame_upd_ne n m f o :
  keeps_pagenum f -> n <> m -> frame_of (upd_frame n f o) m = frame_of o m.
Proof. apply find_upd_pf_ne. Qed.

Lemma frame_upd n f o m :
  keeps_pagenum f ->
  frame_of (upd_frame n f o) m = if decide (m = n) then f <$> frame_of o n else frame_of o m.
Proof.
  intros. case_decide; [subst; by apply frame_upd_eq|by apply frame_upd_ne; auto].
Qed.

Lemma upd_upd_frame n f g o :
  keeps_pagenum g -> upd_frame n f (upd_frame n g o) = upd_frame n (fun pf => f (g pf)) o.
Proof. intros. unfold upd_frame. cbn. by rewrite upd_upd_pf. Qed.

Lemma upd_frame_id n f o pf :
  mobj_ok o -> frame_of o n = Some pf -> f pf = pf -> upd_frame n f o = o.
Proof.
  intros [Hnd _ _] Hf Hid. unfold upd_frame. rewrite (upd_pf_id n f _ pf) by done. by destruct o.
Qed.

Lemma upd_frame_ext n f g o pf :
  mobj_ok o -> frame_of o n = Some pf -> f pf = g pf -> upd_frame n f o = upd_frame n g o.
Proof. intros [Hnd _ _] Hf Hid. unfold upd_frame. by rewrite (upd_pf_ext n f g _ pf). Qed.

(** [o'] differs from [o] at most in frame [n]. *)
Record only_frame (n : Z) (o o' : mobj) : Prop := {
  of_refcount : mo_refcount o' = mo_refcount o;
  of_mutex : mo_mutex o' = mo_mutex o;
  of_ok : mobj_ok o';
  of_others : forall m, m <> n -> frame_of o' m = frame_of o m;
}.

Lemma only_frame_refl n o : mobj_ok o -> only_frame n o o.
Proof. done. Qed.

Lemma only_frame_trans n o1 o2 o3 : only_frame n o1 o2 -> only_frame n o2 o3 -> only_frame n o1 o3.
Proof.
  intros [? ? ? H1] [? ? ? H2]. split; [congruence..|done|].
  intros m Hm. rewrite H2 by done. by apply H1.
Qed.

Lemma only_frame_upd n f o o' :
  keeps_pagenum f -> only_frame n o o' -> only_frame n o (upd_frame n f o').
Proof.
  intros Hf [? ? ? Ho]. split; [done..|by apply upd_frame_ok|].
  intros m Hm. rewrite frame_upd_ne by auto. by apply Ho.
Qed.

Create HintDb frames.
Create Rewrite HintDb frames.
#[export] Hint Extern 1 (keeps_pagenum _) => (intros ?; reflexivity) : frames.
#[export] Hint Resolve upd_frame_ok set_mutex_ok set_refcount_ok only_frame_refl only_frame_upd
  of_ok : frames.
#[export] Hint Rewrite @lget_lset @lset_lset using typeclasses eauto : frames.

(** * Rules for the operations *)

Section rules.
Context {St : Type} (mo : lens St mobj) `{laws : !LensLaws mo}.
Context {mem : Memory} {pages : Pages}.
Implicit Types (s : St) (n : Z).
Abbreviation obj s := (lget mo s).

Lemma wp_mobj_lock Q s :
  mo_mutex (obj s) = false -> Q tt (lset mo (set_mo_mutex true (obj s)) s) -> wp (mobj_lock mo) Q s.
Proof. intros Hm HQ. unfold wp, mobj_lock, kmutex_lock. cbn. by rewrite Hm. Qed.

Lemma wp_mobj_unlock Q s :
  mo_mutex (obj s) = true -> Q tt (lset mo (set_mo_mutex false (obj s)) s) -> wp (mobj_unlock mo) Q s.
Proof. intros Hm HQ. unfold wp, mobj_unlock, kmutex_unlock. cbn. by rewrite Hm. Qed.

Lemma wp_owned Q s : mo_mutex (obj s) = true -> Q true s -> wp (mobj_owned mo) Q s.
Proof. intros Hm HQ. unfold wp, mobj_owned, gets. by rewrite Hm. Qed.

Lemma wp_mo_modify f Q s : Q tt (lset mo (f (obj s)) s) -> wp (mo_modify mo f) Q s.
Proof. done. Qed.

Lemma wp_pf_get n pf Q s : frame_of (obj s) n = Some pf -> Q pf s -> wp (pf_get mo n) Q s.
Proof. intros Hf HQ. unfold pf_get. wp_steps. by eapply wp_deref. Qed.

Lemma wp_pf_modify n f pf Q s :
  frame_of (obj s) n = Some pf -> Q tt (lset mo (upd_frame n f (obj s)) s) ->
  wp (pf_modify mo n f) Q s.
Proof. intros Hf HQ. unfold pf_modify. wp_steps. by eapply wp_pf_get. Qed.

Lemma wp_pf_lock n pf Q s :
  frame_of (obj s) n = Some pf -> pf_mutex pf = false ->
  Q tt (lset mo (upd_frame n (set_pf_mutex true) (obj s)) s) -> wp (pf_lock mo n) Q s.
Proof.
  intros Hf Hm HQ. unfold pf_lock. wp_steps. eapply wp_pf_get; [done|]. rewrite Hm.
  by eapply wp_pf_modify.
Qed.

Lemma wp_pf_unlock n pf Q s :
  frame_of (obj s) n = Some pf -> pf_mutex pf = true ->
  Q tt (lset mo (upd_frame n (set_pf_mutex false) (obj s)) s) -> wp (pf_unlock mo n) Q s.
Proof.
  intros Hf Hm HQ. unfold pf_unlock. wp_steps. eapply wp_pf_get; [done|]. rewrite Hm.
  by eapply wp_pf_modify.
Qed.

Lemma wp_pframe_release n pf Q s :
  frame_of (obj s) n = Some pf -> pf_mutex pf = true ->
  Q tt (lset mo (upd_frame n (set_pf_mutex false) (obj s)) s) -> wp (pframe_release mo n) Q s.
Proof.
  intros Hf Hm HQ. unfold pframe_release. wp_steps. eapply wp_pf_get; [done|]. wp_steps.
  apply wp_kassert; [done|]. by eapply wp_pf_unlock.
Qed.

Lemma wp_find_pframe n Q s :
  mobj_ok (obj s) -> mo_mutex (obj s) = true ->
  match frame_of (obj s) n with
  | Some pf =>
      pf_mutex pf = false /\ Q (Some n) (lset mo (upd_frame n (set_pf_mutex true) (obj s)) s)
  | None => Q None s
  end -> wp (mobj_find_pframe mo n) Q s.
Proof.
  intros Hok Hm HQ. unfold mobj_find_pframe. wp_steps. apply wp_owned; [done|]. wp_steps.
  apply wp_kassert; [done|]. wp_steps. rewrite search_ok by done.
  destruct (frame_of (obj s) n) as [pf|] eqn:Hf; cbn; [|done]. destruct HQ as [Hpm HQ].
  destruct (find_pf_Some _ _ _ Hf) as [-> _]. wp_steps. eapply wp_pf_lock; [done..|]. done.
Qed.

(** The frame that [mobj_create_pframe] makes. *)
Definition new_frame (n loc : Z) : pframe := Pframe n loc None false true.

Lemma frame_of_new o n loc m t :
  frame_of o n = None ->
  frame_of (with_frames o (mo_pframes o ++ [new_frame n loc]) t) m
  = if decide (m = n) then Some (new_frame n loc) else frame_of o m.
Proof.
  intros Hn. unfold frame_of, with_frames. cbn. rewrite find_pf_app, find_pf_cons. cbn.
  unfold frame_of in Hn. destruct (decide (m = n)) as [->|E].
  - rewrite Hn. by rewrite decide_True.
  - rewrite decide_False by lia. by destruct (find_pf m (mo_pframes o)).
Qed.

Lemma new_frame_ok o n loc :
  oom = false -> mobj_ok o -> frame_of o n = None -> 0 <= n < 2 ^ 31 ->
  exists t, btree_insert id n n (mo_btree o) = Done tt t
    /\ mobj_ok (with_frames o (mo_pframes o ++ [new_frame n loc]) t).
Proof.
  intros Hoom [Hnd Hr Hi] Hn Hrange. pose proof (proj1 (find_pf_None _ _) Hn) as Hnot.
  destruct (btree_insert_rep id (mo_btree o) _ n n Hoom Hi) as (t & Hrun & Hrep).
  { by split. }
  { by rewrite index_of_lookup, decide_False. }
  exists t. split; [done|]. split; cbn; rewrite fmap_app; cbn.
  - apply NoDup_app. split_and!; [done| |apply NoDup_singleton]. set_solver.
  - apply Forall_app. split; [done|]. by constructor.
  - by rewrite index_of_app.
Qed.

Lemma wp_create_pframe n loc Q s :
  oom = false -> mobj_ok (obj s) -> mo_mutex (obj s) = true -> frame_of (obj s) n = None ->
  0 <= n < 2 ^ 31 ->
  (forall t, let o := with_frames (obj s) (mo_pframes (obj s) ++ [new_frame n loc]) t in
     mobj_ok o -> Q (Some n) (lset mo o s)) ->
  wp (mobj_create_pframe mo n loc) Q s.
Proof.
  intros Hoom Hok Hm Hn Hr HQ. unfold mobj_create_pframe. wp_steps. apply wp_owned; [done|].
  wp_steps. apply wp_kassert; [done|]. unfold pframe_create. rewrite Hoom. wp_steps.
  apply wp_mo_modify. wp_steps. apply wp_zoom. rewrite lget_lset. cbn.
  destruct (new_frame_ok (obj s) n loc) as (t & Hrun & Hok'); [done..|].
  unfold wp at 1. rewrite Hrun. wp_steps. autorewrite with frames.
  eapply wp_pf_get.
  { autorewrite with frames. etransitivity; [apply (frame_of_new (obj s) n loc n t Hn)|].
    by rewrite decide_True. }
  wp_steps. apply wp_kassert; [done|]. wp_steps. by apply HQ.
Qed.

Lemma new_frame_only o n loc t :
  frame_of o n = None -> let o' := with_frames o (mo_pframes o ++ [new_frame n loc]) t in
  mobj_ok o' -> only_frame n o o' /\ frame_of o' n = Some (new_frame n loc).
Proof.
  intros Hn o' Hok. split; [split; [done..|]|].
  - intros m Hm. unfold o'. by rewrite frame_of_new, decide_False.
  - unfold o'. by rewrite frame_of_new, decide_True.
Qed.

(** ** Getting a frame *)

Context (fill_pframe : Z -> M St Z).

(** From [s], filling frame [n] of the object writes [b] to its page and returns
    [r]. *)
Definition fills (n r : Z) (b : list Z) s : Prop :=
  forall o, is_Some (frame_of o n) ->
    fill_pframe n (lset mo o s) = Done r (lset mo (upd_frame n (set_pf_addr (Some b)) o) s).

(** The result of [mobj_default_get_pframe]: the frame [n] was [old]. *)
Definition got_frame (old : option pframe) (n : Z) (forwrite : bool) (r : Z) (b : list Z) :
    Z * option Z * pframe :=
  let pf := default (new_frame n 0) old in
  match pf_addr pf with
  | Some a => (0, Some n, Pframe n (pf_loc pf) (Some a) (pf_dirty pf || forwrite) true)
  | None =>
      if r =? 0 then (0, Some n, Pframe n (pf_loc pf) (Some b) forwrite true)
      else (r, None, Pframe n (pf_loc pf) None false false)
  end.

(** A frame can be taken: it is not held, and without a page it is clean. *)
Definition takeable (pf : pframe) : Prop :=
  pf_mutex pf = false /\ (pf_addr pf = None -> pf_dirty pf = false).

Lemma wp_find_or_create n Q s :
  oom = false -> mobj_ok (obj s) -> mo_mutex (obj s) = true -> 0 <= n < 2 ^ 31 ->
  (forall pf, frame_of (obj s) n = Some pf -> pf_mutex pf = false) ->
  (forall o, only_frame n (obj s) o ->
     frame_of o n = Some (set_pf_mutex true (default (new_frame n 0) (frame_of (obj s) n))) ->
     Q (Some n) (lset mo o s)) ->
  wp (let! pf := mobj_find_pframe mo n in
      match pf with Some pf => ret (Some pf) | None => mobj_create_pframe mo n 0 end) Q s.
Proof.
  intros Hoom Hok Hm Hr Hf HQ. wp_steps. apply wp_find_pframe; [done..|].
  destruct (frame_of (obj s) n) as [pf|] eqn:Hn.
  - split; [by apply Hf|]. wp_steps. apply HQ; [eauto with frames|].
    rewrite frame_upd_eq by auto with frames. by rewrite Hn.
  - apply wp_create_pframe; [done..|]. intros t o Hok'.
    destruct (new_frame_only _ n 0 t Hn Hok') as [Ho Hfr]. by apply HQ.
Qed.

Lemma wp_default_get_pframe n forwrite r b Q s :
  oom = false -> mobj_ok (obj s) -> mo_mutex (obj s) = true -> 0 <= n < 2 ^ 31 ->
  (forall pf, frame_of (obj s) n = Some pf -> takeable pf) -> fills n r b s ->
  (forall o, only_frame n (obj s) o ->
     let '(res, pf) := got_frame (frame_of (obj s) n) n forwrite r b in
     frame_of o n = Some pf -> Q res (lset mo o s)) ->
  wp (mobj_default_get_pframe mo fill_pframe n forwrite) Q s.
Proof.
  intros Hoom Hok Hm Hr Htake Hfill HQ. unfold mobj_default_get_pframe. wp_steps.
  apply wp_owned; [done|]. wp_steps. apply wp_kassert; [done|]. apply wp_assoc, wp_bind.
  apply wp_find_or_create; [done..|by intros pf []%Htake|]. intros o Ho Hfr.
  set (pf0 := default (new_frame n 0) (frame_of (obj s) n)) in *.
  assert (Hpn : pf_pagenum pf0 = n).
  { unfold pf0. destruct (frame_of (obj s) n) eqn:Hn; [by apply find_pf_Some in Hn as []|done]. }
  assert (Hclean : pf_addr pf0 = None -> pf_dirty pf0 = false).
  { unfold pf0. destruct (frame_of (obj s) n); [|done]. by apply Htake. }
  assert (Hgot : got_frame (frame_of (obj s) n) n forwrite r b = got_frame (Some pf0) n forwrite r b).
  { unfold pf0, got_frame. by destruct (frame_of (obj s) n). }
  rewrite Hgot in HQ. clear Hgot Htake. clearbody pf0. unfold got_frame in HQ. cbn in HQ.
  wp_steps. eapply wp_pf_get; [by autorewrite with frames|]. wp_steps. apply wp_kassert; [done|].
  cbn. destruct (pf_addr pf0) as [a|] eqn:Ha.
  - wp_steps. eapply wp_pf_modify; [by autorewrite with frames|]. autorewrite with frames. wp_steps.
    apply HQ; [eauto with frames|]. rewrite frame_upd_eq, Hfr by auto with frames. cbn.
    destruct pf0; cbn in *. by subst.
  - wp_steps. apply wp_kassert; [by rewrite Hclean|]. rewrite Hoom. wp_steps.
    eapply wp_pf_modify; [by autorewrite with frames|]. autorewrite with frames. wp_steps.
    unfold wp at 1. rewrite Hfill; [|by rewrite frame_upd_eq, Hfr by auto with frames].
    rewrite upd_upd_frame by auto with frames.
    assert (Hf1 : forall f, keeps_pagenum f -> frame_of (upd_frame n f o) n
                    = Some (f (set_pf_mutex true pf0))).
    { intros f Hf. by rewrite frame_upd_eq, Hfr. }
    destruct (r =? 0).
    + wp_steps. eapply wp_pf_modify; [autorewrite with frames; by apply Hf1|].
      autorewrite with frames. rewrite upd_upd_frame by auto with frames. wp_steps.
      apply HQ; [eauto with frames|]. rewrite Hf1 by auto with frames.
      destruct pf0; cbn in *. subst. by rewrite Hclean.
    + wp_steps. eapply wp_pf_modify; [autorewrite with frames; by apply Hf1|].
      autorewrite with frames. rewrite upd_upd_frame by auto with frames. wp_steps.
      eapply wp_pf_unlock; [autorewrite with frames; by apply Hf1|done|]. autorewrite with frames.
      rewrite upd_upd_frame by auto with frames. wp_steps.
      apply HQ; [eauto with frames|]. rewrite Hf1 by auto with frames.
      destruct pf0; cbn in *. subst. by rewrite Hclean.
Qed.

(** ** Removing a frame *)

Lemma remove_frame_ok o n pf :
  mobj_ok o -> frame_of o n = Some pf ->
  exists t, btree_delete id n (mo_btree o) = Done tt t
    /\ mobj_ok (with_frames o (filter (fun pf => pf_pagenum pf <> n) (mo_pframes o)) t).
Proof.
  intros [Hnd Hr Hi] Hf. apply find_pf_Some in Hf as [Hn Hin].
  destruct (btree_delete_rep id (mo_btree o) _ n n Hi) as (t & Hrun & Hrep).
  { rewrite index_of_lookup, decide_True; [done|]. rewrite <- Hn. by apply list_elem_of_fmap_2. }
  exists t. split; [done|]. split; cbn; rewrite filter_pagenums.
  - by apply NoDup_filter.
  - rewrite Forall_forall in Hr |- *. intros m [_ Hm]%list_elem_of_filter. by apply Hr.
  - by rewrite index_of_filter.
Qed.

(** Unlink frame [n], drop it from the index, and free it as [pf']. *)
Lemma wp_remove_frame n pf pf' Q s :
  mobj_ok (obj s) -> frame_of (obj s) n = Some pf ->
  pf_mutex pf' = true -> pf_addr pf' = None -> pf_dirty pf' = false ->
  (forall t, let o := with_frames (obj s)
                        (filter (fun pf => pf_pagenum pf <> n) (mo_pframes (obj s))) t in
     mobj_ok o -> Q tt (lset mo o s)) ->
  wp (do! mo_unlink mo n; do! mo_btree_delete mo n; pframe_free pf') Q s.
Proof.
  intros Hok Hf Hm Ha Hd HQ. wp_steps. apply wp_mo_modify. wp_steps. apply wp_zoom.
  destruct (remove_frame_ok _ n pf Hok Hf) as (t & Hrun & Hok').
  unfold wp at 1. rewrite lget_lset. cbn. rewrite Hrun. autorewrite with frames.
  unfold pframe_free. wp_steps. apply wp_kassert; [done|]. wp_steps.
  apply wp_kassert; [by rewrite Ha|]. apply wp_kassert; [by rewrite Hd|]. by apply HQ.
Qed.

Lemma wp_delete_pframe n Q s :
  mobj_ok (obj s) ->
  match frame_of (obj s) n with
  | None => Q tt s
  | Some pf =>
      pf_mutex pf = false
      /\ forall t, let o := with_frames (obj s)
                         (filter (fun pf => pf_pagenum pf <> n) (mo_pframes (obj s))) t in
         mobj_ok o -> Q tt (lset mo o s)
  end -> wp (mobj_delete_pframe mo n) Q s.
Proof.
  intros Hok HQ. unfold mobj_delete_pframe. wp_steps. rewrite search_ok by done.
  destruct (frame_of (obj s) n) as [pf|] eqn:Hf; cbn; [|done]. destruct HQ as [Hm HQ].
  destruct (find_pf_Some _ _ _ Hf) as [-> _]. wp_steps. eapply wp_pf_lock; [done..|]. wp_steps.
  assert (Hf1 : frame_of (upd_frame n (set_pf_mutex true) (obj s)) n = Some (set_pf_mutex true pf)).
  { by rewrite frame_upd_eq, Hf by auto with frames. }
  eapply wp_pf_get; [by autorewrite with frames|].
  eapply wp_remove_frame; [autorewrite with frames; auto with frames|by autorewrite with frames|done..|].
  autorewrite with frames. intros t o Hok'. rewrite lset_lset.
  assert (Ho : o = with_frames (obj s)
                     (filter (fun pf => pf_pagenum pf <> n) (mo_pframes (obj s))) t).
  { unfold o, with_frames. cbn. by rewrite filter_upd_pf by auto with frames. }
  rewrite Ho in *. by apply HQ.
Qed.
End rules.

(** * Writing back *)

Section flush.
Context {St : Type} (mo : lens St mobj) `{laws : !LensLaws mo}.
Context {mem : Memory} {pages : Pages}.
Context (flush_pframe : Z -> M St Z).
Implicit Types (s : St) (n : Z) (pf : pframe) (l : list pframe).
Abbreviation obj s := (lget mo s).

(** [wr loc b] is the result and the effect of writing page [b] to [loc], which
    the object is no part of. *)
Context (wr : Z -> list Z -> St -> Z * St).
Context (wr_obj : forall loc b s, obj (wr loc b s).2 = obj s)
        (wr_lset : forall loc b o s, wr loc b (lset mo o s) = ((wr loc b s).1, lset mo o (wr loc b s).2))
        (flush_wr : forall n pf b s, frame_of (obj s) n = Some pf -> pf_addr pf = Some b ->
                      flush_pframe n s = Done (wr (pf_loc pf) b s).1 (wr (pf_loc pf) b s).2).

(** What writing back the frames does: each dirty page is written once, in the
    order of the list; a frame whose write fails stays dirty, and the results
    are joined. *)
Definition write_back pf s : Z * St :=
  match pf_addr pf with
  | Some b => if pf_dirty pf then wr (pf_loc pf) b s else (0, s)
  | None => (0, s)
  end.

Definition clean pf : pframe :=
  match pf_addr pf with Some _ => set_pf_dirty false pf | None => pf end.

Definition settle (r : Z) pf : pframe := if r =? 0 then clean pf else pf.

Record written : Type := Written { w_result : Z; w_frames : list pframe; w_state : St }.

Fixpoint write_all l (acc : Z) s : written :=
  match l with
  | [] => Written acc [] s
  | pf :: l =>
      let r := (write_back pf s).1 in
      let w := write_all l (Z.lor acc r) (write_back pf s).2 in
      Written (w_result w) (settle r pf :: w_frames w) (w_state w)
  end.

Lemma write_back_obj pf s : obj (write_back pf s).2 = obj s.
Proof. unfold write_back. destruct (pf_addr pf); [|done]. by destruct (pf_dirty pf). Qed.

Lemma write_back_lset pf o s : write_back pf (lset mo o s) = ((write_back pf s).1, lset mo o (write_back pf s).2).
Proof. unfold write_back. destruct (pf_addr pf); [|done]. by destruct (pf_dirty pf). Qed.

Lemma write_back_set_mutex b pf s : write_back (set_pf_mutex b pf) s = write_back pf s.
Proof. done. Qed.

Lemma clean_pagenum : keeps_pagenum clean.
Proof. intros pf. unfold clean. by destruct (pf_addr pf). Qed.

Lemma settle_pagenum r : keeps_pagenum (settle r).
Proof. intros pf. unfold settle. destruct (r =? 0); [apply clean_pagenum|done]. Qed.

Lemma settle_addr r pf : pf_addr (settle r pf) = pf_addr pf.
Proof. unfold settle, clean. destruct (r =? 0); [|done]. by destruct (pf_addr pf) eqn:E. Qed.

(** [mobj_flush_pframe] on a frame that is held and has a page. *)
Lemma wp_flush_pframe n pf Q s :
  mobj_ok (obj s) -> mo_mutex (obj s) = true -> frame_of (obj s) n = Some pf ->
  pf_mutex pf = true -> is_Some (pf_addr pf) ->
  Q (write_back pf s).1 (lset mo (upd_frame n (settle (write_back pf s).1) (obj s)) (write_back pf s).2) ->
  wp (mobj_flush_pframe mo flush_pframe n) Q s.
Proof.
  intros Hok Hmu Hf Hm [b Ha] HQ. unfold mobj_flush_pframe. wp_steps. apply wp_owned; [done|].
  wp_steps. apply wp_kassert; [done|]. wp_steps. eapply wp_pf_get; [done|]. wp_steps.
  apply wp_kassert; [done|]. wp_steps. apply wp_kassert; [by rewrite Ha|].
  unfold write_back in HQ. rewrite Ha in HQ. destruct (pf_dirty pf) eqn:Hd.
  - wp_steps. unfold wp at 1. erewrite flush_wr by done. destruct (wr (pf_loc pf) b s) as [r s1] eqn:E.
    pose proof (wr_obj (pf_loc pf) b s) as Ho. rewrite E in Ho. cbn [fst snd] in *. destruct (Z.eqb_spec r 0) as [->|Hr].
    + wp_steps. eapply wp_pf_modify; [by rewrite Ho|]. wp_steps. rewrite Ho.
      erewrite upd_frame_ext; [exact HQ|done..|]. unfold settle, clean. by rewrite Ha.
    + wp_steps. rewrite (upd_frame_id n _ _ pf) in HQ; [|done..|unfold settle; by rewrite (proj2 (Z.eqb_neq r 0))].
      by rewrite <- Ho, lset_lget in HQ.
  - wp_steps. cbn [fst snd] in HQ. rewrite (upd_frame_id n _ _ pf) in HQ; [|done..|unfold settle, clean; rewrite Ha; by destruct pf; cbn in *; subst].
    by rewrite lset_lget in HQ.
Qed.

Lemma upd_pf_middle n f (l1 l2 : list pframe) pf :
  NoDup (pf_pagenum <$> l1 ++ pf :: l2) -> pf_pagenum pf = n ->
  upd_pf n f (l1 ++ pf :: l2) = l1 ++ f pf :: l2.
Proof.
  intros Hnd Hn. rewrite fmap_app, fmap_cons in Hnd.
  apply NoDup_app in Hnd as (_ & H1 & H2). apply NoDup_cons in H2 as [H2 _].
  rewrite upd_pf_app, upd_pf_cons, Hn, Z.eqb_refl.
  rewrite !upd_pf_notin; [done|by rewrite <- Hn|]. intros Hin. apply (H1 _ Hin). rewrite Hn. left.
Qed.

(** Taking a frame, settling it and releasing it settles it. *)
Lemma settle_released r pf : pf_mutex pf = false -> set_pf_mutex false (settle r (set_pf_mutex true pf)) = settle r pf.
Proof. intros Hm. unfold settle, clean. cbn. destruct (r =? 0), (pf_addr pf); destruct pf; cbn in *; by subst. Qed.

Lemma wp_flush_loop_cons n pf ns acc Q s :
  mobj_ok (obj s) -> mo_mutex (obj s) = true -> frame_of (obj s) n = Some pf -> pf_mutex pf = false ->
  wp (mobj_flush_loop mo flush_pframe ns (Z.lor acc (write_back pf s).1)) Q
     (lset mo (upd_frame n (settle (write_back pf s).1) (obj s)) (write_back pf s).2) ->
  wp (mobj_flush_loop mo flush_pframe (n :: ns) acc) Q s.
Proof.
  intros Hok Hmu Hf Hm HQ. cbn [mobj_flush_loop]. wp_steps. eapply wp_pf_lock; [done..|]. wp_steps.
  assert (Hf1 : forall f, keeps_pagenum f -> frame_of (upd_frame n f (obj s)) n = Some (f pf)).
  { intros f Hk. by rewrite frame_upd_eq, Hf. }
  eapply wp_pf_get; [autorewrite with frames; by apply Hf1; auto with frames|]. cbn.
  assert (Hk : forall r, keeps_pagenum (fun x => settle r (set_pf_mutex true x))) by (intros r x; by rewrite settle_pagenum).
  destruct (pf_addr pf) as [b|] eqn:Ha; wp_steps.
  - eapply wp_flush_pframe; autorewrite with frames; eauto with frames.
    rewrite write_back_set_mutex, write_back_lset, upd_upd_frame by auto with frames. cbn [fst snd].
    autorewrite with frames. wp_steps.
    eapply wp_pframe_release.
    + autorewrite with frames. by apply Hf1.
    + unfold settle, clean. cbn. rewrite Ha. by destruct (_ =? 0).
    + autorewrite with frames. rewrite upd_upd_frame by done.
      erewrite upd_frame_ext; [exact HQ|done..|]. by apply settle_released.
  - eapply wp_pframe_release; [autorewrite with frames; by apply Hf1; auto with frames|done|].
    autorewrite with frames. rewrite upd_upd_frame by auto with frames.
    unfold write_back in HQ. rewrite Ha in HQ. cbn [fst snd] in HQ. rewrite Z.lor_0_r in HQ.
    erewrite upd_frame_ext; [exact HQ|done..|]. unfold settle, clean. cbn. rewrite Ha.
    destruct pf; cbn in *. by subst.
Qed.

Lemma find_pf_middle n (l1 l2 : list pframe) pf :
  NoDup (pf_pagenum <$> l1 ++ pf :: l2) -> pf_pagenum pf = n -> find_pf n (l1 ++ pf :: l2) = Some pf.
Proof.
  intros Hnd Hn. rewrite fmap_app, fmap_cons in Hnd. apply NoDup_app in Hnd as (_ & H1 & _).
  rewrite find_pf_app, find_pf_cons, decide_True by done.
  rewrite (proj2 (find_pf_None n l1)); [done|]. intros Hin. apply (H1 _ Hin). rewrite Hn. left.
Qed.

Lemma write_all_lset l acc o s :
  let w := write_all l acc s in write_all l acc (lset mo o s) = Written (w_result w) (w_frames w) (lset mo o (w_state w)).
Proof.
  revert acc s. induction l as [|x l IH]; intros acc s; [done|]. cbn. rewrite write_back_lset. cbn. by rewrite IH.
Qed.

Lemma set_frames_id o : set_mo_pframes (mo_pframes o) o = o.
Proof. by destruct o. Qed.

Lemma wp_flush_loop l1 l2 acc Q s :
  mobj_ok (obj s) -> mo_mutex (obj s) = true -> mo_pframes (obj s) = l1 ++ l2 ->
  Forall (fun pf => pf_mutex pf = false) l2 ->
  (let w := write_all l2 acc s in Q (w_result w) (lset mo (set_mo_pframes (l1 ++ w_frames w) (obj s)) (w_state w))) ->
  wp (mobj_flush_loop mo flush_pframe (pf_pagenum <$> l2) acc) Q s.
Proof.
  revert l1 acc s. induction l2 as [|pf l2 IH]; intros l1 acc s Hok Hmu Hl Hm HQ.
  - cbn. wp_steps. cbn in HQ. by rewrite <- Hl, set_frames_id, lset_lget in HQ.
  - apply Forall_cons_iff in Hm as [Hpf Hm]. rewrite fmap_cons.
    pose proof (ok_nodup _ Hok) as Hnd. rewrite Hl in Hnd.
    eapply wp_flush_loop_cons; [done..| |done|].
    { unfold frame_of. rewrite Hl. by apply find_pf_middle. }
    cbn [write_all w_result w_frames w_state] in HQ. set (r := (write_back pf s).1) in *.
    apply (IH (l1 ++ [settle r pf])); autorewrite with frames; [|done| |done|].
    { apply upd_frame_ok; [apply settle_pagenum|done]. }
    { cbn. rewrite Hl, upd_pf_middle by done. by rewrite <- app_assoc. }
    rewrite write_all_lset. cbv zeta. cbn [w_result w_frames w_state]. rewrite <- app_assoc, lset_lset. exact HQ.
Qed.

Lemma wp_mobj_flush Q s :
  mobj_ok (obj s) -> mo_mutex (obj s) = true ->
  Forall (fun pf => pf_mutex pf = false) (mo_pframes (obj s)) ->
  (let w := write_all (mo_pframes (obj s)) 0 s in
   Q (w_result w) (lset mo (set_mo_pframes (w_frames w) (obj s)) (w_state w))) ->
  wp (mobj_flush mo flush_pframe) Q s.
Proof.
  intros Hok Hmu Hm HQ. unfold mobj_flush. wp_steps. apply wp_owned; [done|]. wp_steps.
  apply wp_kassert; [done|]. wp_steps. by apply (wp_flush_loop []).
Qed.

Lemma write_all_pagenums l acc s : pf_pagenum <$> w_frames (write_all l acc s) = pf_pagenum <$> l.
Proof. revert acc s. induction l as [|pf l IH]; intros acc s; [done|]. cbn. by rewrite settle_pagenum, IH. Qed.

Lemma write_all_ok (o : mobj) acc s : mobj_ok o -> mobj_ok (set_mo_pframes (w_frames (write_all (mo_pframes o) acc s)) o).
Proof. intros []. split; cbn; by rewrite write_all_pagenums. Qed.

(** flushing a locked object whose frames are not held writes every dirty page
    once, to its location and in the order of the frame list; a frame whose write
    succeeds is clean afterwards, one whose write fails stays dirty, and the
    results of the writes are joined. *)
Theorem mobj_flush_correct s :
  mobj_ok (obj s) -> mo_mutex (obj s) = true ->
  Forall (fun pf => pf_mutex pf = false) (mo_pframes (obj s)) ->
  let w := write_all (mo_pframes (obj s)) 0 s in
  let o := set_mo_pframes (w_frames w) (obj s) in
  mobj_flush mo flush_pframe s = Done (w_result w) (lset mo o (w_state w)) /\ mobj_ok o.
Proof.
  intros Hok Hmu Hm w o. split; [|by apply write_all_ok].
  assert (Hwp : wp (mobj_flush mo flush_pframe) (fun r s' => r = w_result w /\ s' = lset mo o (w_state w)) s) by (by apply wp_mobj_flush).
  apply wp_run in Hwp as (r & s' & -> & -> & ->). done.
Qed.

(** ** An object that is destroyed

    Here the writes succeed. *)

Context (wr_done : forall loc b s, (wr loc b s).1 = 0).

Lemma write_back_done pf s : (write_back pf s).1 = 0.
Proof. unfold write_back. destruct (pf_addr pf); [|done]. by destruct (pf_dirty pf). Qed.

Lemma wp_free_pframe n pf Q s :
  mobj_ok (obj s) -> mo_mutex (obj s) = true -> frame_of (obj s) n = Some pf ->
  pf_mutex pf = true -> (pf_addr pf = None -> pf_dirty pf = false) ->
  (forall t, let o := with_frames (obj s)
                        (filter (fun pf => pf_pagenum pf <> n) (mo_pframes (obj s))) t in
     mobj_ok o -> Q 0 (lset mo o (write_back pf s).2)) ->
  wp (mobj_free_pframe mo flush_pframe n) Q s.
Proof.
  intros Hok Hmu Hf Hm Hc HQ. unfold mobj_free_pframe. wp_steps. eapply wp_pf_get; [done|].
  (* the frame is removed whatever its page was *)
  assert (Hremove : forall f s', keeps_pagenum f -> pf_mutex (f pf) = true -> pf_addr (f pf) = None ->
            pf_dirty (f pf) = false -> obj s' = upd_frame n f (obj s) ->
            (forall o, lset mo o s' = lset mo o (write_back pf s).2) ->
            wp (let! pf := pf_get mo n in do! mo_unlink mo n; do! mo_btree_delete mo n;
                do! pframe_free pf; ret 0) Q s').
  { intros f s' Hk H1 H2 H3 Hs' Hset.
    assert (Hf' : frame_of (obj s') n = Some (f pf)) by (by rewrite Hs', frame_upd_eq, Hf).
    wp_steps. eapply wp_pf_get; [done|]. apply wp_assoc3, wp_bind.
    eapply (wp_remove_frame mo); [rewrite Hs'; by apply upd_frame_ok|done..|]. intros t o Hok'. wp_steps.
    assert (Ho : o = with_frames (obj s)
                       (filter (fun pf => pf_pagenum pf <> n) (mo_pframes (obj s))) t).
    { unfold o. rewrite Hs'. unfold with_frames. cbn. by rewrite filter_upd_pf. }
    rewrite Ho, Hset in *. by apply HQ. }
  destruct (pf_addr pf) as [b|] eqn:Ha; wp_steps.
  - eapply wp_flush_pframe; [done..|]. rewrite write_back_done. unfold settle. cbn. wp_steps.
    eapply wp_pf_modify.
    { autorewrite with frames. rewrite frame_upd_eq by apply clean_pagenum. by rewrite Hf. }
    autorewrite with frames. rewrite upd_upd_frame by apply clean_pagenum. wp_steps.
    apply (Hremove (fun pf => set_pf_addr None (clean pf))); autorewrite with frames; try done.
    + intros x. cbn. by rewrite clean_pagenum.
    + unfold clean. by rewrite Ha.
    + unfold clean. by rewrite Ha.
    + intros o. by autorewrite with frames.
  - apply (Hremove id); try done; [by apply Hc| |].
    + by rewrite (upd_frame_id n id _ pf).
    + intros o. unfold write_back. by rewrite Ha.
Qed.

Lemma btree_rep_empty (t : option node) : btree_rep id t ∅ -> t = None.
Proof.
  destruct t as [x|]; [|done]. intros (h & Hwf & Hn & _ & _ & Hm). exfalso.
  destruct (flatten x) as [|[k d] l] eqn:Hfl.
  - assert (Hk : Forall (fun _ => False) (keys x)) by (eapply keys_flatten; [done|by rewrite Hfl]).
    unfold n_keys in Hn. destruct (keys x); [cbn in Hn; lia|by apply Forall_cons_iff in Hk as []].
  - cbn in Hm. symmetry in Hm. by apply insert_non_empty in Hm.
Qed.

Lemma wp_free_loop l acc Q s :
  mobj_ok (obj s) -> mo_mutex (obj s) = true -> mo_pframes (obj s) = l -> Forall takeable l ->
  Q acc (lset mo (with_frames (obj s) [] None) (w_state (write_all l 0 s))) ->
  wp (mobj_free_loop mo flush_pframe (pf_pagenum <$> l) acc) Q s.
Proof.
  revert s. induction l as [|pf l IH]; intros s Hok Hmu Hl Hm HQ.
  - cbn in HQ |- *. wp_steps. pose proof (ok_index _ Hok) as Hi. rewrite Hl in Hi.
    apply btree_rep_empty in Hi. unfold with_frames in HQ. rewrite <- Hi, <- Hl in HQ.
    destruct (obj s) eqn:Ho. cbn in HQ. by rewrite <- Ho, lset_lget in HQ.
  - apply Forall_cons_iff in Hm as [[Hpm Hpd] Hm]. rewrite fmap_cons. cbn [mobj_free_loop].
    pose proof (ok_nodup _ Hok) as Hnd. rewrite Hl in Hnd.
    assert (Hf : frame_of (obj s) (pf_pagenum pf) = Some pf).
    { unfold frame_of. rewrite Hl. by apply (find_pf_middle _ []). }
    wp_steps. eapply wp_pf_lock; [done..|]. wp_steps.
    eapply (wp_free_pframe _ (set_pf_mutex true pf)); autorewrite with frames;
      [by auto with frames|done|by rewrite frame_upd_eq, Hf by auto with frames|done|done|].
    intros t o Hok'. wp_steps. rewrite Z.lor_0_r, write_back_set_mutex, write_back_lset. cbn [snd]. rewrite lset_lset.
    assert (Ho : o = with_frames (obj s) l t).
    { unfold o, with_frames. cbn. rewrite filter_upd_pf, Hl by auto with frames.
      rewrite filter_cons, decide_False by tauto. rewrite fmap_cons in Hnd.
      apply NoDup_cons in Hnd as [Hnot _]. by rewrite filter_notin. }
    rewrite Ho in *. apply IH; autorewrite with frames; [done..|].
    rewrite write_all_lset. cbn [w_state]. rewrite lset_lset. cbn in HQ. by rewrite write_back_done in HQ.
Qed.

(** destroying an object none of whose frames is held writes back every dirty
    page once and leaves the object unlocked, with no frame and an empty
    index. *)
Theorem mobj_default_destructor_correct s :
  mobj_ok (obj s) -> mo_mutex (obj s) = false -> Forall takeable (mo_pframes (obj s)) ->
  mobj_default_destructor mo flush_pframe s
  = Done tt (lset mo (Mobj (mo_refcount (obj s)) false [] None) (w_state (write_all (mo_pframes (obj s)) 0 s))).
Proof.
  intros Hok Hmu Hm.
  assert (Hwp : wp (mobj_default_destructor mo flush_pframe) (fun _ s' =>
            s' = lset mo (Mobj (mo_refcount (obj s)) false [] None) (w_state (write_all (mo_pframes (obj s)) 0 s))) s).
  { unfold mobj_default_destructor. wp_steps. apply wp_mobj_lock; [done|]. wp_steps.
    autorewrite with frames. cbn [mo_pframes set_mo_mutex].
    apply wp_free_loop; autorewrite with frames; [by auto with frames|done|done|exact Hm|].
    rewrite write_all_lset. cbn [w_state]. autorewrite with frames. wp_steps.
    apply wp_kassert; [by autorewrite with frames|].
    apply wp_mobj_unlock; autorewrite with frames; done. }
  apply wp_run in Hwp as ([] & s' & -> & ->). done.
Qed.
End flush.

(** asking for a page of a locked object returns its frame, held.  The frame
    is the one in the cache when the page is there, and otherwise a new one
    whose page [fill_pframe] wrote; it is dirty when the caller is going to
    write.  When filling fails the error is returned, and the frame is left
    without a page, clean and not held.  No other frame changes, and the index
    still holds exactly the frames. *)
Theorem mobj_default_get_pframe_correct {St} (mo : lens St mobj) `{laws : !LensLaws mo}
    {mem : Memory} {pages : Pages} (fill_pframe : Z -> M St Z) n forwrite r b s :
  oom = false -> mobj_ok (lget mo s) -> mo_mutex (lget mo s) = true -> 0 <= n < 2 ^ 31 ->
  (forall pf, frame_of (lget mo s) n = Some pf -> takeable pf) -> fills mo fill_pframe n r b s ->
  let '(res, pf) := got_frame (frame_of (lget mo s) n) n forwrite r b in
  exists o, mobj_default_get_pframe mo fill_pframe n forwrite s = Done res (lset mo o s)
    /\ only_frame n (lget mo s) o /\ frame_of o n = Some pf.
Proof.
  intros Hoom Hok Hmu Hr Htake Hfill.
  destruct (got_frame (frame_of (lget mo s) n) n forwrite r b) as [res pf] eqn:Hg.
  assert (Hwp : wp (mobj_default_get_pframe mo fill_pframe n forwrite) (fun a s' => a = res /\ exists o,
            s' = lset mo o s /\ only_frame n (lget mo s) o /\ frame_of o n = Some pf) s).
  { eapply wp_default_get_pframe; [done..|]. intros o Ho. rewrite Hg. intros Hf. eauto. }
  apply wp_run in Hwp as (a & s' & -> & -> & o & -> & ? & ?). eauto.
Qed.

(** ** Witnesses: an object beside a log of what was written *)

Definition log_state : Type := mobj * list (Z * list Z).
Definition log_obj : lens log_state mobj := Lens fst (fun o s => (o, s.2)).
#[export] Instance log_obj_laws : LensLaws log_obj.
Proof. split; by intros; destruct s. Qed.

(** Writes to the location [bad] fail. *)
Definition log_write (bad : option Z) (loc : Z) (b : list Z) (s : log_state) : Z * log_state :=
  if decide (bad = Some loc) then (-5, s) else (0, (s.1, s.2 ++ [(loc, b)])).

Definition log_flush (bad : option Z) (n : Z) : M log_state Z := fun s =>
  match frame_of s.1 n with
  | Some pf => match pf_addr pf with
               | Some b => let w := log_write bad (pf_loc pf) b s in Done w.1 w.2
               | None => Failed Fault
               end
  | None => Failed Fault
  end.

Lemma log_write_obj bad loc b s : lget log_obj (log_write bad loc b s).2 = lget log_obj s.
Proof. unfold log_write. by case_decide. Qed.

Lemma log_write_lset bad loc b o s :
  log_write bad loc b (lset log_obj o s) = ((log_write bad loc b s).1, lset log_obj o (log_write bad loc b s).2).
Proof. unfold log_write. by case_decide. Qed.

Lemma log_flush_wr bad n pf b s :
  frame_of (lget log_obj s) n = Some pf -> pf_addr pf = Some b ->
  log_flush bad n s = Done (log_write bad (pf_loc pf) b s).1 (log_write bad (pf_loc pf) b s).2.
Proof. intros Hf Ha. unfold log_flush. cbn in Hf. by rewrite Hf, Ha. Qed.

(** Two frames, the first dirty, with their index. *)
Definition two_frames (locked : bool) : mobj :=
  Mobj 0 locked [Pframe 3 30 (Some [7]) true false; Pframe 1 10 (Some [8]) false false]
    (Some (Node true [(1, 1); (3, 3)] [])).

Lemma two_frames_ok locked : mobj_ok (two_frames locked).
Proof.
  split; cbn.
  - apply NoDup_cons. split; [set_solver|apply NoDup_singleton].
  - repeat constructor; lia.
  - exists 0%nat. rewrite wf_leaf. cbn. split_and!; try (done || lia).
    + repeat constructor; cbn; lia.
    + repeat constructor; cbn; lia.
Qed.

(** The write succeeds, or fails and leaves the frame dirty. *)
Lemma mobj_flush_correct_witness :
  mobj_flush log_obj (log_flush None) (two_frames true, [])
  = Done 0 (set_mo_pframes [Pframe 3 30 (Some [7]) false false; Pframe 1 10 (Some [8]) false false]
              (two_frames true), [(30, [7])])
  /\ mobj_flush log_obj (log_flush (Some 30)) (two_frames true, []) = Done (-5) (two_frames true, []).
Proof.
  pose proof (fun bad => mobj_flush_correct log_obj (log_flush bad) (log_write bad)
    (log_write_obj bad) (log_write_lset bad) (log_flush_wr bad) (two_frames true, []) (two_frames_ok true) eq_refl ltac:(repeat constructor)) as H.
  split; [exact (proj1 (H None))|exact (proj1 (H (Some 30)))].
Defined.

Lemma mobj_default_destructor_correct_witness :
  mobj_default_destructor log_obj (log_flush None) (two_frames false, [])
  = Done tt (Mobj 0 false [] None, [(30, [7])]).
Proof.
  rewrite (mobj_default_destructor_correct log_obj (log_flush None) (log_write None)
    (log_write_obj None) (log_write_lset None) (log_flush_wr None) (fun _ _ _ => eq_refl) (two_frames false, [])).
  - reflexivity.
  - apply two_frames_ok.
  - reflexivity.
  - repeat constructor; discriminate.
Defined.

Definition log_fill (n : Z) : M log_state Z :=
  do! pf_modify log_obj n (set_pf_addr (Some [n])); ret 0.

(** Page 2 is not cached: it is filled and the frame is appended. *)
Lemma mobj_default_get_pframe_correct_witness :
  exists o, mobj_default_get_pframe (mem := false) (pages := [0]) log_obj log_fill 2 true
              (two_frames true, []) = Done (0, Some 2) (o, [])
    /\ only_frame 2 (two_frames true) o /\ frame_of o 2 = Some (Pframe 2 0 (Some [2]) true true).
Proof.
  apply (mobj_default_get_pframe_correct (mem := false) (pages := [0]) log_obj log_fill 2 true 0 [2]
           (two_frames true, [])).
  - reflexivity.
  - apply two_frames_ok.
  - reflexivity.
  - lia.
  - intros pf Hf. discriminate Hf.
  - intros o [pf Hf]. unfold log_fill, pf_modify, pf_get, bind, get, deref. cbn.
    unfold frame_of in Hf. rewrite Hf. reflexivity.
Defined.
