(* ===== verification/VfsSpec.v ===== *)
(** What the VFS layer promises and what it expects of a file system.

    The abstract state of a file system is a tree: the contents of each inode.
    [FsData] is the contract of [read_vnode] and [delete_vnode], the routines
    [fs/vnode.c] calls; a file system discharges it with an invariant that
    links its vnodes to its data.  [vfs_ok] is the invariant of the VFS: the
    reference count of every vnode and of every open file is the number of
    references to it, and every lock is accounted for. *)

From S2P Require Import Prelude CString Mobj Vnode File.

(** * Counting occurrences *)

Section occ.
Context {A : Type} {eqA : EqDecision A}.
Implicit Types (a b : A) (l : list A).

Definition occ a l : Z := Z.of_nat (length (filter (fun b => b = a) l)).

Definition one (P : Prop) {d : Decision P} : Z := if decide P then 1 else 0.

Lemma occ_nil a : occ a [] = 0.
Proof. done. Qed.

Lemma occ_cons a b l : occ a (b :: l) = one (b = a) + occ a l.
Proof.
  unfold occ, one. rewrite filter_cons. destruct (decide (b = a)); [cbn; lia|lia].
Qed.

Lemma occ_nonneg a l : 0 <= occ a l.
Proof. unfold occ. lia. Qed.

Lemma occ_le a l : occ a l <= Z.of_nat (length l).
Proof. unfold occ. pose proof (length_filter (fun b => b = a) l). lia. Qed.

Lemma occ_pos a l : a ∈ l <-> 0 < occ a l.
Proof.
  unfold occ. split.
  - intros Ha. assert (a ∈ filter (fun b => b = a) l) as Hin by by apply list_elem_of_filter.
    destruct (filter _ l); [by apply not_elem_of_nil in Hin|cbn; lia].
  - destruct (filter (fun b => b = a) l) as [|b k] eqn:E; [cbn; lia|]. intros _.
    assert (b ∈ filter (fun b => b = a) l) as Hb by (rewrite E; left).
    apply list_elem_of_filter in Hb as [-> ?]. done.
Qed.

Lemma occ_perm a l l' : l ≡ₚ l' -> occ a l = occ a l'.
Proof. intros H. unfold occ. by rewrite H. Qed.

(** Replacing an element. *)
Lemma occ_insert a b c l i :
  l !! i = Some b -> occ a (<[i := c]> l) = occ a l - one (b = a) + one (c = a).
Proof.
  revert i. induction l as [|x l IH]; intros [|i] Hi; [done..| |].
  - injection Hi as ->. cbn [insert list_insert]. rewrite !occ_cons. lia.
  - cbn [insert list_insert]. rewrite !occ_cons, IH by done. lia.
Qed.
End occ.

Lemma one_true P `{Decision P} : P -> one P = 1.
Proof. intros. unfold one. by rewrite decide_True. Qed.

Lemma one_false P `{Decision P} : ~ P -> one P = 0.
Proof. intros. unfold one. by rewrite decide_False. Qed.

Lemma one_range P `{Decision P} : 0 <= one P <= 1.
Proof. unfold one. destruct (decide P); lia. Qed.

(** [occ_lia] decides linear facts on counts by the cases of each equality. *)
Ltac occ_simpl := repeat rewrite ?occ_cons, ?occ_nil in *.
Ltac occ_lia :=
  occ_simpl; unfold one in *; repeat case_decide; simplify_eq; try done; try lia.

(** * Abstract file systems *)

Inductive inode_view : Type :=
| DirView (entries : list (list Z * Z))
| FileView (bytes : list Z)
| DevView (blk : bool) (devid : Z).

Abbreviation tree := (gmap Z inode_view).

(** The inode a directory gives a name. *)
Fixpoint assoc (name : list Z) (es : list (list Z * Z)) : option Z :=
  match es with
  | [] => None
  | (n, i) :: es => if decide (n = name) then Some i else assoc name es
  end.

Definition view_mode (w : inode_view) : Z :=
  match w with
  | DirView _ => S_IFDIR
  | FileView _ => S_IFREG
  | DevView false _ => S_IFCHR
  | DevView true _ => S_IFBLK
  end.

Definition view_ops (w : inode_view) : vops :=
  match w with
  | DirView _ => VopsDir
  | FileView _ => VopsFile
  | DevView false _ => VopsChar
  | DevView true _ => VopsBlock
  end.

(** Every entry of every directory names an inode of the tree. *)
Definition tree_closed (t : tree) : Prop :=
  forall d es n i, t !! d = Some (DirView es) -> (n, i) ∈ es -> is_Some (t !! i).

Lemma assoc_elem name es i : assoc name es = Some i -> (name, i) ∈ es.
Proof.
  induction es as [|[n j] es IH]; cbn; [done|].
  case_decide; [intros [=]; subst; left|intros; right; auto].
Qed.

(** * The contract of a file system with [fs/vnode.c] *)

(** What [init_special_vnode] and [notify_vnode_loaded] add to a vnode that
    [read_vnode] filled. *)
Definition special_init {V} {drv : Drivers} (v : vnode V) : vnode V :=
  if S_ISCHR (vn_mode v) then set_vn_dev (chardev_lookup (vn_devid v)) (set_vn_ops VopsChar v)
  else if S_ISBLK (vn_mode v) then set_vn_dev (blockdev_lookup (vn_devid v)) (set_vn_ops VopsBlock v)
  else v.

Definition loaded {V} {drv : Drivers} (v : vnode V) : vnode V :=
  set_vn_state VNODE_LOADED (special_init v).

(** The driver of a device node, if there is one. *)
Definition driver {drv : Drivers} (blk : bool) (devid : Z) : option Z :=
  if blk then blockdev_lookup devid else chardev_lookup devid.

(** A change of the count or the lock of a vnode's memory object. *)
Definition same_frames (o o' : mobj) : Prop :=
  mo_pframes o' = mo_pframes o /\ mo_btree o' = mo_btree o.

(** The vnode [vnode_init] makes, locked. *)
Definition new_vnode {V} (ino : Z) : vnode V :=
  set_vn_mobj (set_mo_mutex true mobj_init) (vnode_init ino).

(** [vnode_destructor] between taking and releasing the vnode's lock. *)
Definition evict {F V} (fs : fs_ops F V) (p : Z) : M (kst F V) unit :=
  let! _ := on_vnode_fs p (mobj_flush vnode_mobj_fs (vnode_flush_pframe fs)) in
  match delete_vnode fs with Some f => f p | None => ret tt end.

Class FsData {F V : Type} {mem : Memory} {drv : Drivers} (fs : fs_ops F V) : Type := {
  (** The vnodes in memory agree with the file system's data. *)
  fs_wf : gmap Z (vnode V) -> F -> Prop;
  fs_tree : gmap Z (vnode V) -> F -> tree;
  fs_closed m f : fs_wf m f -> tree_closed (fs_tree m f);
  fs_vnode m f p v : fs_wf m f -> m !! p = Some v ->
    exists w, fs_tree m f !! vn_vno v = Some w /\ vn_mode v = view_mode w
              /\ vn_ops v = view_ops w
              /\ (forall b, w = FileView b -> vn_len v = Z.of_nat (length b))
              /\ (forall blk d, w = DevView blk d -> vn_dev v = driver blk d);
  fs_mobj m f p v o : fs_wf m f -> m !! p = Some v -> same_frames (vn_mobj v) o ->
    fs_wf (<[p := set_vn_mobj o v]> m) f
    /\ fs_tree (<[p := set_vn_mobj o v]> m) f = fs_tree m f;
  fs_load m f p ino (s : kst F V) :
    fs_wf m f -> m !! p = None -> is_Some (fs_tree m f !! ino) ->
    (forall q v, m !! q = Some v -> vn_vno v <> ino) ->
    k_vnodes s = <[p := new_vnode ino]> m -> fs_i s = f ->
    wp (read_vnode fs p)
       (fun _ s' => exists v f', s' = set_fs_i f' (set_vnodes (<[p := v]> m) s)
          /\ vn_mobj v = vn_mobj (V := V) (new_vnode ino) /\ vn_vno v = ino
          /\ fs_wf (<[p := loaded v]> m) f'
          /\ fs_tree (<[p := loaded v]> m) f' = fs_tree m f) s;
  fs_evict m f p v (s : kst F V) :
    fs_wf m f -> m !! p = Some v -> mo_mutex (vn_mobj v) = true ->
    k_vnodes s = m -> fs_i s = f ->
    wp (evict fs p)
       (fun _ s' => exists v' f', s' = set_fs_i f' (set_vnodes (<[p := v']> m) s)
          /\ mo_mutex (vn_mobj v') = true
          /\ fs_wf (delete p m) f'
          /\ fs_tree (delete p m) f' ⊆ fs_tree m f) s;
}.
Arguments fs_wf {F V mem drv} fs {FsData}.
Arguments fs_tree {F V mem drv} fs {FsData}.

(** * The invariant of the VFS *)

Section vfs.
Context {F V : Type} {mem : Memory} {drv : Drivers} (fs : fs_ops F V) `{!FsData fs}.
Abbreviation K := (kst F V).
Implicit Types (s : K) (X Y L : list Z) (p q f : Z).

(** The open files that refer to a vnode; a file with no reference is being
    made or released. *)
Definition refers p (x : file) : Prop := f_vnode x = p /\ f_refcount x <> 0.

Definition file_refs s p : Z :=
  Z.of_nat (size (filter (fun kx : Z * file => refers p kx.2) (k_files s))).

(** The references to a vnode: those of the list [X] and of the open files. *)
Definition refs X s p : Z := occ p X + file_refs s p.

(** The references to an open file: descriptors, and those of the list [Y]. *)
Definition fd_refs Y s f : Z := occ (Some f) (p_files s) + occ f Y.

Record vfs_ok X Y L s : Prop := VfsOk {
  ok_vnode : forall p v, k_vnodes s !! p = Some v ->
    mo_refcount (vn_mobj v) = refs X s p /\ 0 < refs X s p
    /\ mo_mutex (vn_mobj v) = bool_decide (p ∈ L) /\ vn_state v = VNODE_LOADED;
  ok_refs : forall p, 0 < refs X s p -> is_Some (k_vnodes s !! p);
  ok_list : NoDup (vnode_list s);
  ok_list_elem : forall p, p ∈ vnode_list s <-> is_Some (k_vnodes s !! p);
  ok_unique : forall p q v w, k_vnodes s !! p = Some v -> k_vnodes s !! q = Some w ->
    vn_vno v = vn_vno w -> p = q;
  ok_mutex : vnode_list_mutex s = false;
  ok_file : forall f x, k_files s !! f = Some x ->
    f_refcount x = fd_refs Y s f
    /\ 0 <= f_mode x <= FMODE_MAX_VALUE /\ 0 <= f_pos x < 2 ^ 64;
  ok_fds : forall f, 0 < fd_refs Y s f -> is_Some (k_files s !! f);
  ok_nfiles : length (p_files s) = Z.to_nat NFILES;
  ok_next_vnode : forall p, is_Some (k_vnodes s !! p) -> p < k_next s;
  ok_next_file : forall f, is_Some (k_files s !! f) -> f < k_next s;
  ok_locks : forall p, p ∈ L -> is_Some (k_vnodes s !! p);
  ok_fs : fs_wf fs (k_vnodes s) (fs_i s);
}.

(** No file is being made or released. *)
Definition live_files s : Prop := forall f x, k_files s !! f = Some x -> f_refcount x <> 0.

(** The tree a state stands for. *)
Definition the_tree s : tree := fs_tree fs (k_vnodes s) (fs_i s).

Definition vno_of s p : option Z := vn_vno <$> k_vnodes s !! p.

(** Everything a vnode says of its inode. *)
Definition same_inode (v v' : vnode V) : Prop := v' = set_vn_mobj (vn_mobj v') v.

(** What internal operations leave alone: the process's state, the identity of
    the vnodes, and the tree, but for inodes that are dropped; as the trees of
    well-formed states are closed and have the inodes of all vnodes, no inode
    that a directory or a reference leads to is dropped. *)
Record keeps s s' : Prop := Keeps {
  kp_files : k_files s' = k_files s;
  kp_fds : p_files s' = p_files s;
  kp_cwd : p_cwd s' = p_cwd s;
  kp_root : fs_root s' = fs_root s;
  kp_rename : vnode_rename_mutex s' = vnode_rename_mutex s;
  kp_next : k_next s <= k_next s';
  kp_tree : the_tree s' ⊆ the_tree s;
  kp_vnode : forall p v', p < k_next s -> k_vnodes s' !! p = Some v' ->
    exists v, k_vnodes s !! p = Some v /\ same_inode v v';
}.

(** The same of operations on descriptors: an open file keeps its position,
    mode and vnode. *)
Definition same_file (x x' : file) : Prop := x' = set_f_refcount (f_refcount x') x.

Record keeps_sys s s' : Prop := KeepsSys {
  ks_cwd : p_cwd s' = p_cwd s;
  ks_root : fs_root s' = fs_root s;
  ks_rename : vnode_rename_mutex s' = vnode_rename_mutex s;
  ks_next : k_next s <= k_next s';
  ks_tree : the_tree s' ⊆ the_tree s;
  ks_vnode : forall p v', p < k_next s -> k_vnodes s' !! p = Some v' ->
    exists v, k_vnodes s !! p = Some v /\ same_inode v v';
  ks_file : forall f x', f < k_next s -> k_files s' !! f = Some x' ->
    exists x, k_files s !! f = Some x /\ same_file x x';
}.
End vfs.

(** * The contract of the vnode operations *)

(** A path component: the bytes of a C string other than the separator. *)
Definition component (name : list Z) : Prop := name <> [] /\ Forall (fun c => 0 < c < 256 /\ c <> 47) name.

Class FsVops {F V : Type} {mem : Memory} {drv : Drivers} (fs : fs_ops F V)
    (vops_of : vops -> vnode_ops (kst F V)) {FD : FsData fs} : Type := {
  fs_acquire o : vop_acquire (vops_of o) = None;
  fs_release o : vop_release (vops_of o) = None;
  (** [lookup] finds the name of the first [n] bytes and returns a reference to
      the vnode of its inode. *)
  dir_lookup : Z -> list Z -> Z -> M (kst F V) (Z * option Z);
  fs_dir_lookup : vop_lookup (vops_of VopsDir) = Some dir_lookup;
  fs_lookup X Y L (s : kst F V) p v es name n :
    oom = false -> vfs_ok fs X Y L s -> k_vnodes s !! p = Some v -> p ∈ L ->
    the_tree fs s !! vn_vno v = Some (DirView es) ->
    nonul name -> 0 < n <= Z.of_nat (length name) -> component (take (Z.to_nat n) name) ->
    wp (dir_lookup p name n)
       (fun r s' => match assoc (take (Z.to_nat n) name) es with
                    | Some i => exists q, r = (0, Some q) /\ vfs_ok fs (q :: X) Y L s'
                                          /\ keeps fs s s' /\ vno_of s' q = Some i
                    | None => r = (- ENOENT, None) /\ s' = s
                    end) s;
}.

(** ** Files *)

(** What operations that change the tree leave alone: the process's state and
    the inode numbers of the vnodes. *)
Record stable {F V : Type} (s s' : kst F V) : Prop := Stable {
  st_files : k_files s' = k_files s;
  st_fds : p_files s' = p_files s;
  st_cwd : p_cwd s' = p_cwd s;
  st_root : fs_root s' = fs_root s;
  st_rename : vnode_rename_mutex s' = vnode_rename_mutex s;
  st_next : k_next s <= k_next s';
  st_vno : forall p v', p < k_next s -> k_vnodes s' !! p = Some v' ->
    exists v, k_vnodes s !! p = Some v /\ vn_vno v' = vn_vno v;
}.

(** The bytes of a file after a write at [pos]; a gap is filled with zeroes. *)
Definition file_write (b : list Z) (pos : nat) (d : list Z) : list Z :=
  take pos (b ++ replicate (pos - length b) 0) ++ d ++ drop (pos + length d) b.

Class FsFiles {F V : Type} {mem : Memory} {drv : Drivers} (fs : fs_ops F V)
    (vops_of : vops -> vnode_ops (kst F V)) {FD : FsData fs} : Type := {
  (** The largest position of a file. *)
  fs_max_size : Z;
  fs_max_range : 0 <= fs_max_size < 2 ^ 63;
  file_read : Z -> Z -> Z -> M (kst F V) (Z * list Z);
  fs_file_read : vop_read (vops_of VopsFile) = Some file_read;
  (** [read] returns the bytes from the position on, up to the end. *)
  fs_read X Y L (s : kst F V) p v b pos n :
    vfs_ok fs X Y L s -> k_vnodes s !! p = Some v -> p ∈ L ->
    the_tree fs s !! vn_vno v = Some (FileView b) ->
    0 <= pos -> 0 <= n -> pos + n < 2 ^ 63 ->
    let d := slice b (Z.to_nat pos) (Z.to_nat n) in
    wp (file_read p pos n)
       (fun r s' => r = (Z.of_nat (length d), d) /\ vfs_ok fs X Y L s' /\ keeps fs s s'
                    /\ the_tree fs s' = the_tree fs s) s;
  file_store : Z -> Z -> list Z -> M (kst F V) Z;
  fs_file_write : vop_write (vops_of VopsFile) = Some file_store;
  (** [write] stores the bytes at the position, up to the largest position. *)
  fs_write X Y L (s : kst F V) p v b pos buf :
    vfs_ok fs X Y L s -> k_vnodes s !! p = Some v -> p ∈ L ->
    the_tree fs s !! vn_vno v = Some (FileView b) ->
    0 <= pos <= fs_max_size -> Z.of_nat (length buf) < 2 ^ 63 ->
    let n := Z.min (Z.of_nat (length buf)) (fs_max_size - pos) in
    wp (file_store p pos buf)
       (fun r s' => r = n /\ vfs_ok fs X Y L s' /\ stable s s'
          /\ the_tree fs s'
             = <[vn_vno v := FileView (file_write b (Z.to_nat pos) (take (Z.to_nat n) buf))]>
                 (the_tree fs s)) s;
  file_truncate : Z -> M (kst F V) unit;
  fs_file_truncate : vop_truncate_file (vops_of VopsFile) = Some file_truncate;
  (** [truncate_file] leaves the file empty. *)
  fs_truncate X Y L (s : kst F V) p v b :
    vfs_ok fs X Y L s -> k_vnodes s !! p = Some v ->
    the_tree fs s !! vn_vno v = Some (FileView b) ->
    wp (file_truncate p)
       (fun _ s' => vfs_ok fs X Y L s' /\ stable s s'
          /\ the_tree fs s' = <[vn_vno v := FileView []]> (the_tree fs s)) s;
}.

(** ** Directories

    As with [keeps], an inode that nothing leads to may be dropped. *)

Definition dir_add (name : list Z) (i : Z) (es es' : list (list Z * Z)) : Prop :=
  forall nm, assoc nm es' = if decide (nm = name) then Some i else assoc nm es.

Definition dir_del (name : list Z) (es es' : list (list Z * Z)) : Prop :=
  forall nm, assoc nm es' = if decide (nm = name) then None else assoc nm es.

(** The inode [mknod] makes. *)
Definition new_view (mode devid : Z) : inode_view :=
  if S_ISCHR mode then DevView false devid
  else if S_ISBLK mode then DevView true devid
  else FileView [].

Class FsDirs {F V : Type} {mem : Memory} {drv : Drivers} (fs : fs_ops F V)
    (vops_of : vops -> vnode_ops (kst F V)) {FD : FsData fs} : Type := {
  dir_mknod : Z -> list Z -> Z -> Z -> Z -> M (kst F V) (Z * option Z);
  fs_dir_mknod : vop_mknod (vops_of VopsDir) = Some dir_mknod;
  (** [mknod] makes an inode and an entry for it, or there is no space. *)
  fs_mknod X Y L (s : kst F V) p v es name n mode devid :
    oom = false -> vfs_ok fs X Y L s -> k_vnodes s !! p = Some v -> p ∈ L ->
    the_tree fs s !! vn_vno v = Some (DirView es) ->
    nonul name -> 0 < n <= Z.of_nat (length name) -> n < NAME_LEN ->
    let key := take (Z.to_nat n) name in
    component key -> assoc key es = None ->
    (S_ISCHR mode || S_ISBLK mode || S_ISREG mode) = true ->
    wp (dir_mknod p name n mode devid)
       (fun r s' => r = (- ENOSPC, None) /\ s' = s
          \/ exists q j es', r = (0, Some q) /\ vfs_ok fs (q :: X) Y L s' /\ stable s s'
               /\ vno_of s' q = Some j /\ the_tree fs s !! j = None /\ dir_add key j es es'
               /\ the_tree fs s' ⊆ <[j := new_view mode devid]>
                                     (<[vn_vno v := DirView es']> (the_tree fs s))) s;
  dir_mkdir : Z -> list Z -> Z -> M (kst F V) (Z * option Z);
  fs_dir_mkdir : vop_mkdir (vops_of VopsDir) = Some dir_mkdir;
  (** [mkdir] makes a directory with the entries [.] and [..]. *)
  fs_mkdir X Y L (s : kst F V) p v es name n :
    oom = false -> vfs_ok fs X Y L s -> k_vnodes s !! p = Some v -> p ∈ L ->
    the_tree fs s !! vn_vno v = Some (DirView es) ->
    nonul name -> 0 < n <= Z.of_nat (length name) -> n < NAME_LEN ->
    let key := take (Z.to_nat n) name in
    component key -> assoc key es = None ->
    wp (dir_mkdir p name n)
       (fun r s' => r = (- ENOSPC, None) /\ s' = s
          \/ exists q j es', r = (0, Some q) /\ vfs_ok fs (q :: X) Y L s' /\ stable s s'
               /\ vno_of s' q = Some j /\ the_tree fs s !! j = None /\ dir_add key j es es'
               /\ the_tree fs s' ⊆ <[j := DirView [(str ".", j); (str "..", vn_vno v)]]>
                                     (<[vn_vno v := DirView es']> (the_tree fs s))) s;
  dir_unlink : Z -> list Z -> Z -> M (kst F V) Z;
  fs_dir_unlink : vop_unlink (vops_of VopsDir) = Some dir_unlink;
  (** [unlink] removes the entry of an inode, not a directory, that the caller
      refers to. *)
  fs_unlink X Y L (s : kst F V) p v es name n c i w :
    oom = false -> vfs_ok fs X Y L s -> k_vnodes s !! p = Some v -> p ∈ L ->
    the_tree fs s !! vn_vno v = Some (DirView es) ->
    nonul name -> 0 < n <= Z.of_nat (length name) ->
    let key := take (Z.to_nat n) name in
    component key -> assoc key es = Some i -> the_tree fs s !! i = Some w ->
    (forall es, w <> DirView es) -> vno_of s c = Some i -> c ∉ L ->
    wp (dir_unlink p name n)
       (fun r s' => exists es', r = 0 /\ vfs_ok fs X Y L s' /\ stable s s' /\ dir_del key es es'
          /\ the_tree fs s' ⊆ <[vn_vno v := DirView es']> (the_tree fs s)) s;
}.
