(* ===== verification/VnodeProofs.v ===== *)
(** The vnode layer keeps the VFS invariant: references, locks, eviction and
    loading of vnodes ([fs/vnode.c]). *)

From S2P Require Import Prelude Btree Mobj Vnode File VfsSpec.

Section vnode_proofs.
Context {F V : Type} {mem : Memory} {drv : Drivers} (fs : fs_ops F V) {FD : FsData fs}.
Abbreviation K := (kst F V).
Abbreviation vfs_ok := (vfs_ok fs).
Abbreviation keeps := (keeps fs).
Abbreviation the_tree := (the_tree fs).
Implicit Types (s : K) (X Y L : list Z) (p q : Z) (v w : vnode V).

(** ** The relation [keeps] *)

Lemma same_inode_refl v : same_inode v v.
Proof. by destruct v. Qed.

Lemma same_inode_trans v1 v2 v3 : same_inode v1 v2 -> same_inode v2 v3 -> same_inode v1 v3.
Proof. unfold same_inode. intros H2 H3. rewrite H3, H2. done. Qed.

#[export] Instance keeps_preorder : PreOrder keeps.
Proof.
  split.
  - intros s. split; try done. intros p v' _ H. exists v'. split; [done|apply same_inode_refl].
  - intros s1 s2 s3 H12 H23. split.
    + by rewrite (kp_files _ _ _ H23), (kp_files _ _ _ H12).
    + by rewrite (kp_fds _ _ _ H23), (kp_fds _ _ _ H12).
    + by rewrite (kp_cwd _ _ _ H23), (kp_cwd _ _ _ H12).
    + by rewrite (kp_root _ _ _ H23), (kp_root _ _ _ H12).
    + by rewrite (kp_rename _ _ _ H23), (kp_rename _ _ _ H12).
    + pose proof (kp_next _ _ _ H23). pose proof (kp_next _ _ _ H12). lia.
    + etrans; [apply (kp_tree _ _ _ H23)|apply (kp_tree _ _ _ H12)].
    + intros p v3 Hp H3. pose proof (kp_next _ _ _ H12).
      destruct (kp_vnode _ _ _ H23 p v3 ltac:(lia) H3) as (v2 & H2 & E2).
      destruct (kp_vnode _ _ _ H12 p v2 Hp H2) as (v1 & H1 & E1).
      exists v1. split; [done|by eapply same_inode_trans].
Qed.

(** A vnode that is still there is the vnode it was. *)
Lemma keeps_vnode X Y L X' Y' L' s s' p v :
  vfs_ok X Y L s -> vfs_ok X' Y' L' s' -> keeps s s' ->
  k_vnodes s !! p = Some v -> 0 < refs X' s' p ->
  exists v', k_vnodes s' !! p = Some v' /\ same_inode v v'.
Proof.
  intros Hok Hok' Hk Hv Hr. destruct (ok_refs _ _ _ _ _ Hok' p Hr) as [v' Hv'].
  destruct (kp_vnode _ _ _ Hk p v') as (v0 & Hv0 & E); [|done|].
  { apply (ok_next_vnode _ _ _ _ _ Hok). eauto. }
  exists v'. by simplify_eq.
Qed.

Lemma same_inode_vno v v' : same_inode v v' -> vn_vno v' = vn_vno v.
Proof. by intros ->. Qed.

Lemma vno_of_keeps X Y L X' Y' L' s s' p i :
  vfs_ok X Y L s -> vfs_ok X' Y' L' s' -> keeps s s' ->
  vno_of s p = Some i -> 0 < refs X' s' p -> vno_of s' p = Some i.
Proof.
  unfold vno_of. intros Hok Hok' Hk (v & Hv & ->)%fmap_Some Hr.
  destruct (keeps_vnode _ _ _ _ _ _ _ _ p v Hok Hok' Hk Hv Hr) as (v' & -> & E).
  cbn. by rewrite (same_inode_vno _ _ E).
Qed.

Lemma file_refs_keeps s s' p : keeps s s' -> file_refs s' p = file_refs s p.
Proof. intros Hk. unfold file_refs. by rewrite (kp_files _ _ _ Hk). Qed.

Lemma refs_keeps X s s' p : keeps s s' -> refs X s' p = refs X s p.
Proof. intros Hk. unfold refs. by rewrite (file_refs_keeps s s'). Qed.

Lemma file_refs_nonneg s p : 0 <= file_refs s p.
Proof. unfold file_refs. lia. Qed.

Lemma refs_cons X s p q : refs (q :: X) s p = one (q = p) + refs X s p.
Proof. unfold refs. rewrite occ_cons. lia. Qed.

Lemma refs_nonneg X s p : 0 <= refs X s p.
Proof. unfold refs. pose proof (occ_nonneg p X). pose proof (file_refs_nonneg s p). lia. Qed.

Lemma refs_elem X s p : p ∈ X -> 0 < refs X s p.
Proof. intros H%occ_pos. unfold refs. pose proof (file_refs_nonneg s p). lia. Qed.

Lemma vfs_ok_perm X X' Y L s : X ≡ₚ X' -> vfs_ok X Y L s -> vfs_ok X' Y L s.
Proof.
  intros HX Hok. assert (forall p, refs X' s p = refs X s p) as E.
  { intros p. unfold refs. by rewrite (occ_perm p X X'). }
  destruct Hok. split; try done; intros p; rewrite E; auto.
Qed.

(** ** Changes of one memory object *)

Definition upd_mobj (p : Z) (v : vnode V) (o : mobj) (s : K) : K :=
  set_vnodes (<[p := set_vn_mobj o v]> (k_vnodes s)) s.

Lemma upd_mobj_keeps X Y L s p v o :
  vfs_ok X Y L s -> k_vnodes s !! p = Some v -> same_frames (vn_mobj v) o ->
  keeps s (upd_mobj p v o s).
Proof.
  intros Hok Hv Ho. destruct (fs_mobj _ _ _ _ o (ok_fs _ _ _ _ _ Hok) Hv Ho) as [_ Ht].
  split; try done.
  - unfold VfsSpec.the_tree. cbn. by rewrite Ht.
  - intros q v' _ Hv'. cbn in Hv'. destruct (decide (q = p)) as [->|].
    + rewrite lookup_insert_eq in Hv'. simplify_eq. by exists v.
    + rewrite lookup_insert_ne in Hv' by done. eexists. split; [done|apply same_inode_refl].
Qed.

Lemma upd_mobj_tree X Y L s p v o :
  vfs_ok X Y L s -> k_vnodes s !! p = Some v -> same_frames (vn_mobj v) o ->
  the_tree (upd_mobj p v o s) = the_tree s.
Proof. intros Hok Hv Ho. by destruct (fs_mobj _ _ _ _ o (ok_fs _ _ _ _ _ Hok) Hv Ho) as [_ ?]. Qed.

(** The VFS invariant after a change of a count or of a lock. *)
Lemma upd_mobj_ok X Y L X' L' s p v o :
  vfs_ok X Y L s -> k_vnodes s !! p = Some v -> same_frames (vn_mobj v) o ->
  mo_refcount o = refs X' s p -> 0 < refs X' s p ->
  mo_mutex o = bool_decide (p ∈ L') ->
  (forall q, q <> p -> occ q X' = occ q X /\ (q ∈ L' <-> q ∈ L)) ->
  vfs_ok X' Y L' (upd_mobj p v o s).
Proof.
  intros Hok Hv Ho Hc Hpos Hm Hother.
  assert (forall q, q <> p -> refs X' (upd_mobj p v o s) q = refs X s q) as Er.
  { intros q Hq. unfold refs. by rewrite (proj1 (Hother q Hq)). }
  destruct (fs_mobj _ _ _ _ o (ok_fs _ _ _ _ _ Hok) Hv Ho) as [Hwf _].
  assert (forall q, is_Some (k_vnodes (upd_mobj p v o s) !! q) <-> is_Some (k_vnodes s !! q)) as Es.
  { intros q. cbn. rewrite lookup_insert_is_Some. destruct (decide (p = q)); naive_solver. }
  assert (forall q w, k_vnodes (upd_mobj p v o s) !! q = Some w ->
            exists w0, k_vnodes s !! q = Some w0 /\ vn_vno w0 = vn_vno w) as Ev.
  { intros q w. cbn. destruct (decide (q = p)) as [->|].
    - rewrite lookup_insert_eq. intros [= <-]. by exists v.
    - rewrite lookup_insert_ne by done. eauto. }
  destruct Hok as [Hvn Hrf Hnd Hel Hun Hmx Hfi Hfd Hn Hnv Hnf Hlk Hfs]. split; try done.
  - intros q w. cbn. destruct (decide (q = p)) as [->|Hq].
    + rewrite lookup_insert_eq. intros [= <-]. split_and!; try done.
      by destruct (Hvn p v Hv) as (_ & _ & _ & ?).
    + rewrite lookup_insert_ne by done. intros Hw. rewrite Er by done.
      destruct (Hvn q w Hw) as (? & ? & Hb & ?). split_and!; try done.
      rewrite Hb. apply bool_decide_ext. symmetry. by apply Hother.
  - intros q Hq. apply Es. destruct (decide (q = p)) as [->|]; [by eauto|].
    apply Hrf. by rewrite <- Er.
  - intros q. rewrite Es. apply Hel.
  - intros q q' w w' Hw Hw' E. apply Ev in Hw as (w0 & ? & ?), Hw' as (w0' & ? & ?).
    eapply Hun; [done..|congruence].
  - intros q. rewrite Es. apply Hnv.
  - intros q Hq. apply Es. destruct (decide (q = p)) as [->|]; [by eauto|].
    apply Hlk. by apply Hother.
Qed.

Lemma wp_on_vnode {A} (m : M (vnode V) A) p v Q s :
  k_vnodes s !! p = Some v ->
  wp m (fun a v' => Q a (set_vnodes (<[p := v']> (k_vnodes s)) s)) v ->
  wp (on_vnode p m) Q s.
Proof. unfold wp, on_vnode. intros ->. destruct (m v); done. Qed.

Lemma wp_vn_get p v Q s : k_vnodes s !! p = Some v -> Q v s -> wp (vn_get p) Q s.
Proof. unfold wp, vn_get, bind, get. by intros ->. Qed.

(** ** References and locks *)

Lemma wp_vref X Y L p (Q : unit -> K -> Prop) s :
  vfs_ok X Y L s -> is_Some (k_vnodes s !! p) ->
  (forall s', vfs_ok (p :: X) Y L s' -> keeps s s' -> Q tt s') ->
  wp (vref p) Q s.
Proof.
  intros Hok [v Hv] HQ. eapply wp_on_vnode; [done|]. cbn.
  destruct (ok_vnode _ _ _ _ _ Hok p v Hv) as (Hc & Hpos & Hm & _).
  apply (HQ (upd_mobj p v _ s)); [|by eapply upd_mobj_keeps].
  eapply upd_mobj_ok; try done.
  - cbn. rewrite refs_cons, one_true by done. lia.
  - rewrite refs_cons, one_true by done. lia.
  - intros q Hq. by rewrite occ_cons, one_false.
Qed.

Lemma wp_vlock_eq X Y L p (Q : unit -> K -> Prop) s :
  vfs_ok X Y L s -> is_Some (k_vnodes s !! p) -> p ∉ L ->
  (forall s', vfs_ok X Y (p :: L) s' -> keeps s s' -> the_tree s' = the_tree s -> Q tt s') ->
  wp (vlock p) Q s.
Proof.
  intros Hok [v Hv] HL HQ. eapply wp_on_vnode; [done|].
  destruct (ok_vnode _ _ _ _ _ Hok p v Hv) as (Hc & Hpos & Hm & _).
  unfold mobj_lock, kmutex_lock, wp. cbn. rewrite Hm, bool_decide_eq_false_2 by done.
  apply (HQ (upd_mobj p v _ s)); [|by eapply upd_mobj_keeps|by eapply upd_mobj_tree].
  eapply upd_mobj_ok; try done.
  - cbn. symmetry. apply bool_decide_eq_true_2. left.
  - intros q Hq. split; [done|]. rewrite elem_of_cons. naive_solver.
Qed.

Lemma wp_vlock X Y L p (Q : unit -> K -> Prop) s :
  vfs_ok X Y L s -> is_Some (k_vnodes s !! p) -> p ∉ L ->
  (forall s', vfs_ok X Y (p :: L) s' -> keeps s s' -> Q tt s') ->
  wp (vlock p) Q s.
Proof. intros ??? HQ. eapply wp_vlock_eq; [done..|]. auto. Qed.

Lemma wp_vunlock_eq X Y L p (Q : unit -> K -> Prop) s :
  vfs_ok X Y (p :: L) s -> is_Some (k_vnodes s !! p) -> p ∉ L ->
  (forall s', vfs_ok X Y L s' -> keeps s s' -> the_tree s' = the_tree s -> Q tt s') ->
  wp (vunlock p) Q s.
Proof.
  intros Hok [v Hv] HL HQ. eapply wp_on_vnode; [done|].
  destruct (ok_vnode _ _ _ _ _ Hok p v Hv) as (Hc & Hpos & Hm & _).
  unfold mobj_unlock, kmutex_unlock, wp. cbn. rewrite Hm, bool_decide_eq_true_2 by left.
  apply (HQ (upd_mobj p v _ s)); [|by eapply upd_mobj_keeps|by eapply upd_mobj_tree].
  eapply upd_mobj_ok; try done.
  - cbn. symmetry. by apply bool_decide_eq_false_2.
  - intros q Hq. split; [done|]. rewrite elem_of_cons. naive_solver.
Qed.

Lemma wp_vunlock X Y L p (Q : unit -> K -> Prop) s :
  vfs_ok X Y (p :: L) s -> is_Some (k_vnodes s !! p) -> p ∉ L ->
  (forall s', vfs_ok X Y L s' -> keeps s s' -> Q tt s') ->
  wp (vunlock p) Q s.
Proof. intros ??? HQ. eapply wp_vunlock_eq; [done..|]. auto. Qed.

(** ** Giving up a reference *)

Lemma alter_lookup {A} (g : A -> A) (m : gmap Z A) p (a : A) :
  m !! p = Some a -> alter g p m = <[p := g a]> m.
Proof.
  intros Ha. apply map_eq. intros q. destruct (decide (q = p)) as [->|].
  - by rewrite lookup_alter_eq, lookup_insert_eq, Ha.
  - by rewrite lookup_alter_ne, lookup_insert_ne.
Qed.

(** The state after the destructor of the vnode at [p]. *)
Definition evicted (p : Z) (f : F) (s : K) : K :=
  set_vnodes (delete p (k_vnodes s))
    (set_vnode_list (filter (fun q => q <> p) (vnode_list s)) (set_fs_i f s)).

Lemma evicted_ok X Y L s p f' :
  vfs_ok (p :: X) Y L s -> refs X s p = 0 -> p ∉ L -> fs_wf fs (delete p (k_vnodes s)) f' ->
  vfs_ok X Y L (evicted p f' s).
Proof.
  intros Hok Hr HpL Hwf.
  assert (forall q, q <> p -> refs X (evicted p f' s) q = refs (p :: X) s q) as Er.
  { intros q Hq. rewrite refs_cons, one_false by done. done. }
  destruct Hok as [Hvn Hrf Hnd Hel Hun Hmx Hfi Hfd Hn Hnv Hnf Hlk Hfs]. split; try done.
  - intros q w. cbn. intros [Hq Hw]%lookup_delete_Some. rewrite Er by done. by apply Hvn.
  - intros q Hq. cbn. destruct (decide (q = p)) as [->|Hne].
    { change (0 < refs X s p) in Hq. lia. }
    rewrite lookup_delete_ne by done. apply Hrf. by rewrite <- Er.
  - by apply NoDup_filter.
  - intros q. cbn. rewrite list_elem_of_filter, Hel, lookup_delete_is_Some. naive_solver.
  - intros q q' w w'. cbn. intros [_ Hw]%lookup_delete_Some [_ Hw']%lookup_delete_Some.
    by apply Hun.
  - intros q. cbn. rewrite lookup_delete_is_Some. intros [_ ?]. by apply Hnv.
  - intros q Hq. cbn. apply lookup_delete_is_Some. split; [by intros ->|by apply Hlk].
Qed.

Lemma evicted_keeps s p f' :
  fs_tree fs (delete p (k_vnodes s)) f' ⊆ the_tree s -> keeps s (evicted p f' s).
Proof.
  intros Ht. split; try done. intros q v' _. cbn. intros [_ Hv]%lookup_delete_Some.
  exists v'. split; [done|apply same_inode_refl].
Qed.

(** The destructor of a vnode to which the last reference is gone. *)
Lemma wp_vnode_destructor p v (Q : unit -> K -> Prop) s :
  k_vnodes s !! p = Some v -> mo_refcount (vn_mobj v) = 0 -> mo_mutex (vn_mobj v) = false ->
  vnode_list_mutex s = false -> p ∈ vnode_list s -> fs_wf fs (k_vnodes s) (fs_i s) ->
  (forall f', fs_wf fs (delete p (k_vnodes s)) f' ->
              fs_tree fs (delete p (k_vnodes s)) f' ⊆ the_tree s -> Q tt (evicted p f' s)) ->
  wp (vnode_destructor fs p) Q s.
Proof.
  intros Hv Hc Hm Hmx Hin Hwf HQ. unfold vnode_destructor. wp_use wp_vn_get; [done|].
  wp_use wp_kassert; [by rewrite Hc|].
  wp_use wp_on_vnode; [done|]. unfold mobj_lock, kmutex_lock, wp at 1. cbn. rewrite Hm.
  set (v1 := set_vn_mobj _ v).
  destruct (fs_mobj _ _ _ _ (vn_mobj v1) Hwf Hv ltac:(done)) as [Hwf1 Ht1].
  change (set_vn_mobj (vn_mobj v1) v) with v1 in Hwf1, Ht1.
  apply wp_assoc, wp_bind. eapply wp_mono.
  { eapply fs_evict; [done|apply lookup_insert_eq|done|done|done]. }
  intros _ s3 (v' & f' & -> & Hm' & Hwf' & Ht'). rewrite insert_insert_eq. wp_red.
  rewrite delete_insert_eq in Hwf', Ht'.
  wp_use wp_on_vnode; [apply lookup_insert_eq|]. unfold mobj_unlock, kmutex_unlock, wp at 1. cbn.
  rewrite Hm'. cbn. wp_steps. unfold kmutex_lock, wp at 1. cbn. rewrite Hmx.
  wp_steps. eapply wp_kassert; [by apply bool_decide_eq_true_2|].
  wp_steps. unfold kmutex_unlock, wp at 1. cbn. wp_steps.
  cbn. rewrite !insert_insert_eq, delete_insert_eq.
  specialize (HQ f' Hwf'). unfold evicted in HQ. unfold VfsSpec.the_tree in HQ.
  rewrite Ht1 in Ht'. specialize (HQ Ht'). destruct s; cbn in *. by subst.
Qed.

Lemma wp_vput X Y L p (Q : unit -> K -> Prop) s :
  vfs_ok (p :: X) Y L s -> (p ∈ L -> 0 < refs X s p) ->
  (forall s', vfs_ok X Y L s' -> keeps s s' -> Q tt s') ->
  wp (vput fs p) Q s.
Proof.
  intros Hok HL HQ. pose proof (refs_nonneg X s p).
  destruct (ok_refs _ _ _ _ _ Hok p) as [v Hv]; [by apply refs_elem; left|].
  destruct (ok_vnode _ _ _ _ _ Hok p v Hv) as (Hc & Hpos & Hm & _).
  rewrite refs_cons, one_true in Hc by done.
  unfold vput, mobj_put. wp_use wp_vn_get; [done|]. wp_use wp_kassert.
  { cbn. rewrite Hv, Hc. apply negb_true_iff, Z.eqb_neq. lia. }
  wp_steps. cbn. rewrite Hv, (alter_lookup _ _ _ v) by done.
  wp_steps. cbn. rewrite lookup_insert_eq. cbn.
  set (o := set_mo_refcount _ (vn_mobj v)).
  change (set_vnodes _ s) with (upd_mobj p v o s).
  pose proof (upd_mobj_keeps _ _ _ _ _ _ o Hok Hv ltac:(done)) as Hk.
  case_match eqn:E.
  - apply Z.eqb_eq in E. assert (p ∉ L) as HpL by (intros ?%HL; lia).
    rewrite bool_decide_eq_false_2 in Hm by done.
    wp_steps. eapply wp_kassert; [by rewrite Hm|].
    destruct (fs_mobj _ _ _ _ o (ok_fs _ _ _ _ _ Hok) Hv ltac:(done)) as [Hwf Ht].
    eapply wp_vnode_destructor; [apply lookup_insert_eq|done|done| | |done|].
    + apply (ok_mutex _ _ _ _ _ Hok).
    + apply (ok_list_elem _ _ _ _ _ Hok). eauto.
    + intros f' Hwf' Ht'. cbn in Hwf', Ht'. rewrite delete_insert_eq in Hwf', Ht'.
      unfold VfsSpec.the_tree in Ht'. cbn in Ht'. rewrite Ht in Ht'.
      replace (evicted p f' (upd_mobj p v o s)) with (evicted p f' s).
      2:{ unfold evicted, upd_mobj. cbn. by rewrite delete_insert_eq. }
      apply HQ; [|by apply evicted_keeps]. apply evicted_ok; [done|lia|done..].
  - apply Z.eqb_neq in E. apply HQ; [|done].
    eapply upd_mobj_ok; try done; [cbn; lia|lia|].
    intros q Hq. by rewrite occ_cons, one_false.
Qed.

Lemma wp_vput_nil X Y p (Q : unit -> K -> Prop) s :
  vfs_ok (p :: X) Y [] s -> (forall s', vfs_ok X Y [] s' -> keeps s s' -> Q tt s') ->
  wp (vput fs p) Q s.
Proof. intros Hok. apply wp_vput; [done|]. by intros ?%not_elem_of_nil. Qed.

Lemma wp_vput_locked X Y L p (Q : unit -> K -> Prop) s :
  vfs_ok (p :: X) Y (p :: L) s -> p ∉ L ->
  (forall s', vfs_ok X Y L s' -> keeps s s' -> Q tt s') ->
  wp (vput_locked fs p) Q s.
Proof.
  intros Hok HL HQ. unfold vput_locked.
  wp_use wp_vunlock; [done| |done|].
  { apply (ok_refs _ _ _ _ _ Hok), refs_elem. left. }
  intros s1 Hok1 Hk1. eapply wp_vput; [done|done|]. intros s2 Hok2 Hk2.
  apply HQ; [done|by etrans].
Qed.

(** ** Changes of the file system's data *)

Lemma set_fs_i_ok X Y L s f' :
  vfs_ok X Y L s -> fs_wf fs (k_vnodes s) f' -> vfs_ok X Y L (set_fs_i f' s).
Proof. intros [] Hwf. split; done. Qed.

(** A change of a vnode that keeps its memory object and its number. *)
Lemma upd_vnode_ok X Y L s p v v' f' :
  vfs_ok X Y L s -> k_vnodes s !! p = Some v ->
  vn_mobj v' = vn_mobj v -> vn_vno v' = vn_vno v -> vn_state v' = vn_state v ->
  fs_wf fs (<[p := v']> (k_vnodes s)) f' ->
  vfs_ok X Y L (set_fs_i f' (set_vnodes (<[p := v']> (k_vnodes s)) s)).
Proof.
  intros Hok Hv Em En Est Hwf.
  assert (forall q, is_Some (<[p := v']> (k_vnodes s) !! q) <-> is_Some (k_vnodes s !! q)) as Es.
  { intros q. rewrite lookup_insert_is_Some'. split; [intros [<-|?]; eauto|by right]. }
  assert (forall q w, <[p := v']> (k_vnodes s) !! q = Some w ->
            exists w0, k_vnodes s !! q = Some w0 /\ vn_vno w0 = vn_vno w /\ vn_mobj w0 = vn_mobj w
                       /\ vn_state w0 = vn_state w) as Ev.
  { intros q w. destruct (decide (q = p)) as [->|].
    - rewrite lookup_insert_eq. intros [= <-]. by exists v.
    - rewrite lookup_insert_ne by done. eauto. }
  destruct Hok as [Hvn Hrf Hnd Hel Hun Hmx Hfi Hfd Hn Hnv Hnf Hlk Hfs]. split; try done; cbn.
  - intros q w (w0 & Hw0 & _ & <- & <-)%Ev. by apply Hvn.
  - intros q. rewrite Es. apply Hrf.
  - intros q. rewrite Es. apply Hel.
  - intros q q' w w' (w0 & ? & <- & _)%Ev (w0' & ? & <- & _)%Ev. by apply Hun.
  - intros q. rewrite Es. apply Hnv.
  - intros q. rewrite Es. apply Hlk.
Qed.

Lemma upd_vnode_stable s p v v' f' :
  k_vnodes s !! p = Some v -> vn_vno v' = vn_vno v ->
  stable s (set_fs_i f' (set_vnodes (<[p := v']> (k_vnodes s)) s)).
Proof.
  intros Hv En. split; try done. intros q w _. cbn. destruct (decide (q = p)) as [->|].
  - rewrite lookup_insert_eq. intros [= <-]. eauto.
  - rewrite lookup_insert_ne by done. eauto.
Qed.

Lemma stable_set_fs_i s f' : stable s (set_fs_i f' s).
Proof. split; try done. intros q w _. cbn. eauto. Qed.

#[export] Instance stable_preorder : PreOrder (@stable F V).
Proof.
  split.
  - intros s. split; try done. eauto.
  - intros s1 s2 s3 [] []. split; try (etrans; done). intros p v' Hp Hv'.
    destruct (st_vno0 p v' ltac:(lia) Hv') as (v1 & Hv1 & ->).
    destruct (st_vno p v1 Hp Hv1) as (v0 & Hv0 & ->). eauto.
Qed.

Lemma keeps_stable s s' : keeps s s' -> stable s s'.
Proof.
  intros []. split; try done. intros p v' Hp Hv'. destruct (kp_vnode p v' Hp Hv') as (v & Hv & E).
  exists v. split; [done|by apply same_inode_vno].
Qed.

(** ** Finding and loading vnodes *)

Lemma find_vnode_Some ino s p :
  find_vnode ino s = Some p -> exists v, k_vnodes s !! p = Some v /\ vn_vno v = ino.
Proof.
  unfold find_vnode. intros H.
  destruct (list_find _ _) as [[i q]|] eqn:E; [|done]. cbn in H. injection H as ->.
  apply list_find_Some in E as (_ & Hq & _). by apply fmap_Some in Hq as (v & ? & ->); eauto.
Qed.

Lemma find_vnode_None X Y L ino s p v :
  vfs_ok X Y L s -> find_vnode ino s = None -> k_vnodes s !! p = Some v -> vn_vno v <> ino.
Proof.
  unfold find_vnode. intros Hok H Hv E.
  destruct (list_find _ _) as [[i q]|] eqn:Ef; [done|].
  apply list_find_None in Ef. rewrite Forall_forall in Ef.
  apply (Ef p); [apply (ok_list_elem _ _ _ _ _ Hok); eauto|]. rewrite Hv. cbn. by rewrite E.
Qed.

(** The state after a vnode was loaded at the next address. *)
Definition with_vnode (v : vnode V) (f : F) (s : K) : K :=
  set_fs_i f (set_vnodes (<[k_next s := v]> (k_vnodes s))
    (set_vnode_list (vnode_list s ++ [k_next s]) (set_k_next (k_next s + 1) s))).

Lemma next_fresh X Y L s : vfs_ok X Y L s -> k_vnodes s !! k_next s = None.
Proof.
  intros Hok. apply eq_None_not_Some. intros H%(ok_next_vnode _ _ _ _ _ Hok). lia.
Qed.

Lemma with_vnode_ok X Y L L' s v f' :
  vfs_ok X Y L s -> mo_refcount (vn_mobj v) = 1 -> vn_state v = VNODE_LOADED ->
  mo_mutex (vn_mobj v) = bool_decide (k_next s ∈ L') ->
  (forall q, q <> k_next s -> q ∈ L' <-> q ∈ L) ->
  (forall q w, k_vnodes s !! q = Some w -> vn_vno w <> vn_vno v) ->
  fs_wf fs (<[k_next s := v]> (k_vnodes s)) f' ->
  vfs_ok (k_next s :: X) Y L' (with_vnode v f' s).
Proof.
  intros Hok Hc Hst Hm HL Hu Hwf. pose proof (next_fresh _ _ _ _ Hok) as Hfr.
  assert (refs X s (k_next s) = 0) as Hr.
  { pose proof (refs_nonneg X s (k_next s)). destruct (decide (refs X s (k_next s) = 0)); [done|].
    destruct (ok_refs _ _ _ _ _ Hok (k_next s)) as [? ?]; [lia|congruence]. }
  assert (forall q, refs (k_next s :: X) (with_vnode v f' s) q = one (k_next s = q) + refs X s q) as Er
    by (intros; by rewrite refs_cons).
  destruct Hok as [Hvn Hrf Hnd Hel Hun Hmx Hfi Hfd Hn Hnv Hnf Hlk Hfs].
  split; try done; cbn -[one].
  - intros q w. destruct (decide (q = k_next s)) as [->|Hq].
    + rewrite lookup_insert_eq. intros [= <-]. rewrite Er, one_true by done. split_and!; try done; lia.
    + rewrite lookup_insert_ne by done. intros Hw. rewrite Er, one_false by done.
      destruct (Hvn q w Hw) as (? & ? & Hb & ?). split_and!; try done.
      rewrite Hb. apply bool_decide_ext. symmetry. by apply HL.
  - intros q. rewrite Er, lookup_insert_is_Some'. unfold one. intros Hq.
    case_decide; [by left|]. right. apply Hrf. lia.
  - apply NoDup_app. split_and!; [done| |apply NoDup_singleton].
    intros q Hq. rewrite list_elem_of_singleton. intros ->.
    apply Hel in Hq as [? ?]. congruence.
  - intros q. rewrite elem_of_app, list_elem_of_singleton, Hel, lookup_insert_is_Some'. naive_solver.
  - intros q q' w w'. rewrite !lookup_insert_Some. naive_solver.
  - intros q. rewrite lookup_insert_is_Some'. intros [<-|?%Hnv]; lia.
  - intros q ?%Hnf. lia.
  - intros q Hq. rewrite lookup_insert_is_Some'.
    destruct (decide (q = k_next s)); [by left|right; apply Hlk; by apply HL].
Qed.

Lemma with_vnode_keeps s v f' :
  fs_tree fs (<[k_next s := v]> (k_vnodes s)) f' = the_tree s -> keeps s (with_vnode v f' s).
Proof.
  intros Ht. split; try done; cbn.
  - lia.
  - unfold VfsSpec.the_tree. cbn. by rewrite Ht.
  - intros q v' Hq. rewrite lookup_insert_ne by lia. intros ?.
    exists v'. split; [done|apply same_inode_refl].
Qed.

(** [init_special_vnode] and [notify_vnode_loaded] after [read_vnode]. *)
Lemma wp_finish_load p v (Q : unit -> K -> Prop) s :
  k_vnodes s !! p = Some v ->
  Q tt (set_vnodes (<[p := loaded v]> (k_vnodes s)) s) ->
  wp (do! (if S_ISCHR (vn_mode v) || S_ISBLK (vn_mode v) then init_special_vnode p else ret tt);
      notify_vnode_loaded p) Q s.
Proof.
  intros Hv HQ. unfold loaded, special_init in HQ.
  unfold init_special_vnode, notify_vnode_loaded, vn_modify, wp, bind, kassert, ret, vn_get, get.
  destruct (S_ISCHR (vn_mode v)) eqn:E1; cbn; [|destruct (S_ISBLK (vn_mode v)) eqn:E2; cbn];
    rewrite ?Hv; cbn; rewrite ?E1, ?E2, ?Hv; cbn; rewrite ?lookup_insert_eq, ?Hv; cbn;
    by rewrite ?insert_insert_eq.
Qed.

Lemma loaded_fields v :
  vn_mobj (loaded v) = vn_mobj v /\ vn_vno (loaded v) = vn_vno v /\ vn_state (loaded v) = VNODE_LOADED.
Proof. unfold loaded, special_init. by repeat case_match. Qed.

Definition locked_if (b : bool) p L : list Z := if b then p :: L else L.

Lemma set_list_mutex_id s : vnode_list_mutex s = false -> set_vnode_list_mutex false s = s.
Proof. destruct s; cbn. by intros ->. Qed.

(** The vnode is in memory. *)
Lemma wp_vget_hit X Y L ino b p (Q : Z -> K -> Prop) s :
  vfs_ok X Y L s -> find_vnode ino s = Some p -> (b = true -> p ∉ L) ->
  (forall s', vfs_ok (p :: X) Y (locked_if b p L) s' -> keeps s s' -> vno_of s' p = Some ino ->
              Q p s') ->
  wp (__vget fs ino b) Q s.
Proof.
  intros Hok Hfind HL HQ. pose proof (ok_mutex _ _ _ _ _ Hok) as Hmx.
  destruct (find_vnode_Some _ _ _ Hfind) as (v & Hv & Hino).
  destruct (ok_vnode _ _ _ _ _ Hok p v Hv) as (Hc & Hpos & Hm & Hst).
  unfold __vget. wp_steps. unfold kmutex_lock, wp at 1. cbn. rewrite Hmx. wp_steps.
  change (find_vnode ino (set_vnode_list_mutex true s)) with (find_vnode ino s). rewrite Hfind.
  wp_use wp_vn_get; [done|]. rewrite (proj2 (Z.eqb_neq _ _)) by lia.
  wp_use wp_on_vnode; [done|]. cbn. wp_steps. unfold kmutex_unlock, wp at 1. cbn.
  set (o := set_mo_refcount _ _).
  match goal with |- wp _ _ ?t => replace t with (upd_mobj p v o s) end.
  2:{ rewrite <- (set_list_mutex_id s Hmx) at 1. by destruct s. }
  assert (vfs_ok (p :: X) Y L (upd_mobj p v o s)) as Hok1.
  { eapply upd_mobj_ok; try done; [cbn|..].
    - rewrite refs_cons, one_true by done. lia.
    - rewrite refs_cons, one_true by done. lia.
    - intros q Hq. by rewrite occ_cons, one_false. }
  pose proof (upd_mobj_keeps _ _ _ _ _ _ o Hok Hv ltac:(done)) as Hk1.
  unfold await_vnode_loaded. wp_use wp_vn_get; [apply lookup_insert_eq|].
  cbn [set_vn_mobj vn_state]. rewrite decide_True by done. wp_steps.
  assert (vno_of (upd_mobj p v o s) p = Some ino) as Hno.
  { unfold vno_of. cbn. rewrite lookup_insert_eq. cbn. by rewrite Hino. }
  destruct b; wp_steps; [|by apply HQ].
  eapply wp_vlock; [done|cbn; rewrite lookup_insert_eq; by eexists|by apply HL|].
  intros s2 Hok2 Hk2. wp_steps. apply HQ; [done|by etrans|].
  eapply (vno_of_keeps _ _ _ _ _ _ _ _ _ _ Hok1 Hok2 Hk2); [done|]. apply refs_elem. left.
Qed.

(** The vnode is loaded by the file system. *)
Lemma wp_vget_miss X Y L ino b (Q : Z -> K -> Prop) s :
  oom = false -> vfs_ok X Y L s -> find_vnode ino s = None -> is_Some (the_tree s !! ino) ->
  (forall p s', vfs_ok (p :: X) Y (locked_if b p L) s' -> keeps s s' -> vno_of s' p = Some ino ->
                Q p s') ->
  wp (__vget fs ino b) Q s.
Proof.
  intros Hoom Hok Hfind Hino HQ. pose proof (ok_mutex _ _ _ _ _ Hok) as Hmx.
  pose proof (next_fresh _ _ _ _ Hok) as Hfr. set (p := k_next s) in *.
  assert (forall q w, k_vnodes s !! q = Some w -> vn_vno w <> ino) as Hu
    by (intros q w; by eapply find_vnode_None).
  unfold __vget, slab_obj_alloc, vn_put. wp_steps. unfold kmutex_lock, wp at 1. cbn. rewrite Hmx.
  wp_steps. change (find_vnode ino (set_vnode_list_mutex true s)) with (find_vnode ino s).
  rewrite Hfind, Hoom. wp_steps.
  eapply wp_on_vnode; [apply lookup_insert_eq|]. unfold mobj_lock, kmutex_lock, wp at 1. cbn.
  wp_steps. unfold kmutex_unlock, wp at 1. cbn. wp_steps. rewrite insert_insert_eq.
  match goal with |- wp _ _ ?t => replace t with
    (set_vnodes (<[p := new_vnode ino]> (k_vnodes s))
       (set_vnode_list (vnode_list s ++ [p]) (set_k_next (p + 1) s))) end.
  2:{ rewrite <- (set_list_mutex_id s Hmx). by destruct s. }
  change (k_next (set_vnode_list_mutex true s)) with p. eapply wp_mono.
  { by eapply (fs_load _ _ p ino); [apply (ok_fs _ _ _ _ _ Hok)|..]. }
  intros _ s5 (v & f' & -> & Hm & Hno & Hwf & Ht). wp_red.
  wp_use wp_vn_get; [apply lookup_insert_eq|]. apply wp_assoc, wp_bind.
  eapply wp_finish_load; [apply lookup_insert_eq|]. cbn. rewrite insert_insert_eq.
  match goal with |- wp _ _ ?t => change t with (with_vnode (loaded v) f' s) end.
  destruct (loaded_fields v) as (Em & En & Es). rewrite Hm in Em.
  pose proof (ok_locks _ _ _ _ _ Hok p) as HpL. rewrite Hfr in HpL.
  assert (p ∉ L) as HnL by (intros Hp; by destruct (HpL Hp)).
  assert (vfs_ok (p :: X) Y (p :: L) (with_vnode (loaded v) f' s)) as Hok1.
  { apply (with_vnode_ok X Y L); try done; rewrite ?Em, ?En; try done.
    - symmetry. apply bool_decide_eq_true_2. left.
    - intros q Hq. rewrite elem_of_cons. naive_solver.
    - rewrite Hno. done. }
  pose proof (with_vnode_keeps s (loaded v) f' Ht) as Hk1.
  assert (k_vnodes (with_vnode (loaded v) f' s) !! p = Some (loaded v)) as Hv1
    by apply lookup_insert_eq.
  assert (vno_of (with_vnode (loaded v) f' s) p = Some ino) as Hno1.
  { unfold vno_of. rewrite Hv1. cbn [fmap option_fmap option_map]. by rewrite En, Hno. }
  destruct b; wp_steps; [by apply HQ|].
  eapply wp_vunlock; [done|by eexists|done|]. intros s2 Hok2 Hk2. wp_steps.
  apply HQ; [done|by etrans|].
  eapply (vno_of_keeps _ _ _ _ _ _ _ _ _ _ Hok1 Hok2 Hk2); [done|]. apply refs_elem. left.
Qed.

Lemma wp_vget X Y L ino b (Q : Z -> K -> Prop) s :
  oom = false -> vfs_ok X Y L s -> is_Some (the_tree s !! ino) ->
  (b = true -> forall q, q ∈ L -> vno_of s q <> Some ino) ->
  (forall p s', vfs_ok (p :: X) Y (locked_if b p L) s' -> keeps s s' -> vno_of s' p = Some ino ->
                Q p s') ->
  wp (__vget fs ino b) Q s.
Proof.
  intros Hoom Hok Hino HL HQ. destruct (find_vnode ino s) as [p|] eqn:E.
  - eapply wp_vget_hit; [done|done| |by apply HQ].
    intros -> Hp. apply (HL eq_refl p Hp). unfold vno_of.
    destruct (find_vnode_Some _ _ _ E) as (v & -> & <-). done.
  - by eapply wp_vget_miss.
Qed.
End vnode_proofs.
