(* ===== verification/FileProofs.v ===== *)
(** Open files and descriptors ([fs/file.c], [get_empty_fd] of [fs/open.c] and
    the system calls on descriptors of [fs/vfs_syscall.c]) keep the VFS
    invariant, and do what they promise to the descriptor table. *)

From S2P Require Import Prelude Mobj Vnode File Namev VfsSyscall VfsSpec VnodeProofs.

(** ** Counting the entries of a map *)

Section counting.
Context {A : Type} (P : Z * A -> Prop) `{forall x, Decision (P x)}.
Implicit Types m : gmap Z A.

Definition count m : Z := Z.of_nat (size (filter P m)).

Lemma count_delete m i a :
  m !! i = Some a -> count (delete i m) = count m - one (P (i, a)).
Proof.
  intros Hi. unfold count, one. rewrite map_filter_delete, map_size_delete.
  case_decide as HP.
  - assert (filter P m !! i = Some a) as -> by by apply map_lookup_filter_Some.
    assert (size (filter P m) <> 0%nat); [|lia].
    apply map_size_non_empty_iff. intros E. assert (filter P m !! i = Some a) as E'
      by by apply map_lookup_filter_Some. rewrite E in E'. done.
  - assert (filter P m !! i = None) as ->; [|cbn; lia].
    apply map_lookup_filter_None. right. intros b Hb. by simplify_eq.
Qed.

Lemma count_insert_new m i a :
  m !! i = None -> count (<[i := a]> m) = count m + one (P (i, a)).
Proof.
  intros Hi. unfold count, one. rewrite map_filter_insert. case_decide.
  - rewrite map_size_insert_None; [lia|]. by apply map_lookup_filter_None; left.
  - rewrite delete_id by done. lia.
Qed.

Lemma count_insert m i a b :
  m !! i = Some a -> count (<[i := b]> m) = count m - one (P (i, a)) + one (P (i, b)).
Proof.
  intros Hi. rewrite <- insert_delete_eq, count_insert_new by apply lookup_delete_eq.
  by rewrite (count_delete m i a).
Qed.
End counting.

Section file_proofs.
Context {F V : Type} {mem : Memory} {drv : Drivers} (fs : fs_ops F V) {FD : FsData fs}.
Abbreviation K := (kst F V).
Abbreviation vfs_ok := (vfs_ok fs).
Abbreviation keeps := (keeps fs).
Abbreviation keeps_sys := (keeps_sys fs).
Abbreviation the_tree := (the_tree fs).
Implicit Types (s : K) (X Y L : list Z) (p q g : Z) (x y : file).

(** ** Changes of the file table *)

Definition upd_file (g : Z) (x : file) (s : K) : K := set_k_files (<[g := x]> (k_files s)) s.

Definition file_ok x : Prop := 0 <= f_mode x <= FMODE_MAX_VALUE /\ 0 <= f_pos x < 2 ^ 64.

Lemma upd_file_ok X X' Y Y' L s g x x' :
  vfs_ok X Y L s -> k_files s !! g = Some x ->
  f_refcount x' = fd_refs Y' s g -> file_ok x' ->
  (forall h, h <> g -> occ h Y' = occ h Y) ->
  (forall p, occ p X' + one (refers p x') = occ p X + one (refers p x)) ->
  vfs_ok X' Y' L (upd_file g x' s).
Proof.
  intros Hok Hx Hc [Hmode Hpos] HY HX.
  assert (forall p, refs X' (upd_file g x' s) p = refs X s p) as Er.
  { intros p. unfold refs, file_refs. cbn.
    pose proof (count_insert (fun kx : Z * file => refers p kx.2) _ _ _ x' Hx) as E.
    unfold count in E. rewrite E. cbn. specialize (HX p). lia. }
  destruct Hok as [Hvn Hrf Hnd Hel Hun Hmx Hfi Hfd Hn Hnv Hnf Hlk Hfs]. split; try done.
  - intros p v. cbn. rewrite Er. apply Hvn.
  - intros p. rewrite Er. apply Hrf.
  - intros h y. cbn. destruct (decide (h = g)) as [->|Hh].
    + rewrite lookup_insert_eq. by intros [= <-].
    + rewrite lookup_insert_ne by done. intros Hy. destruct (Hfi h y Hy) as (? & ? & ?).
      unfold fd_refs. rewrite HY by done. done.
  - intros h Hh. cbn. apply lookup_insert_is_Some'. destruct (decide (g = h)); [by left|right].
    apply Hfd. unfold fd_refs in *. by rewrite <- HY.
  - intros h. cbn. rewrite lookup_insert_is_Some'. intros [<-|?]; apply Hnf; eauto.
Qed.

Lemma del_file_ok X Y L s g x :
  vfs_ok X Y L s -> k_files s !! g = Some x -> f_refcount x = 0 ->
  vfs_ok X Y L (set_k_files (delete g (k_files s)) s).
Proof.
  intros Hok Hx Hc.
  assert (forall p, refs X (set_k_files (delete g (k_files s)) s) p = refs X s p) as Er.
  { intros p. unfold refs, file_refs. cbn.
    pose proof (count_delete (fun kx : Z * file => refers p kx.2) _ _ _ Hx) as E.
    unfold count in E. rewrite E, one_false; [lia|]. cbn. intros [_ ?]. done. }
  destruct Hok as [Hvn Hrf Hnd Hel Hun Hmx Hfi Hfd Hn Hnv Hnf Hlk Hfs]. split; try done.
  - intros p v. cbn. rewrite Er. apply Hvn.
  - intros p. rewrite Er. apply Hrf.
  - intros h y. cbn. intros [_ Hy]%lookup_delete_Some. by apply Hfi.
  - intros h Hh. cbn. apply lookup_delete_is_Some. change (0 < fd_refs Y s h) in Hh.
    split; [|by apply Hfd]. intros ->. destruct (Hfi h x Hx) as [? _]. lia.
  - intros h. cbn. rewrite lookup_delete_is_Some. intros [_ ?]. by apply Hnf.
Qed.

Lemma set_fd_ok X Y Y' L s i o o' :
  vfs_ok X Y L s -> p_files s !! i = Some o ->
  (forall g, one (o' = Some g) + occ g Y' = one (o = Some g) + occ g Y) ->
  vfs_ok X Y' L (set_p_files (<[i := o']> (p_files s)) s).
Proof.
  intros Hok Hi HY.
  assert (forall g, fd_refs Y' (set_p_files (<[i := o']> (p_files s)) s) g = fd_refs Y s g) as Ef.
  { intros g. unfold fd_refs. cbn. rewrite (occ_insert _ o) by done. specialize (HY g).
    unfold one in *. repeat case_decide; lia. }
  destruct Hok as [Hvn Hrf Hnd Hel Hun Hmx Hfi Hfd Hn Hnv Hnf Hlk Hfs]. split; try done.
  - intros g y. cbn. rewrite Ef. apply Hfi.
  - intros g. rewrite Ef. apply Hfd.
  - cbn. by rewrite length_insert.
Qed.

(** A file is referred to a bounded number of times. *)
Lemma fd_refs_bound X Y L s g :
  vfs_ok X Y L s -> 0 <= fd_refs Y s g <= 32 + Z.of_nat (length Y).
Proof.
  intros Hok. unfold fd_refs. pose proof (occ_le g Y). pose proof (occ_le (Some g) (p_files s)) as H1.
  rewrite (ok_nfiles _ _ _ _ _ Hok) in H1. pose proof (occ_nonneg g Y).
  pose proof (occ_nonneg (Some g) (p_files s)). change (Z.of_nat (Z.to_nat NFILES)) with 32 in H1. lia.
Qed.

(** ** The relation [keeps_sys] *)

Lemma same_file_refl x : same_file x x.
Proof. by destruct x. Qed.

Lemma same_file_trans x1 x2 x3 : same_file x1 x2 -> same_file x2 x3 -> same_file x1 x3.
Proof. unfold same_file. intros H2 H3. rewrite H3, H2. done. Qed.

#[export] Instance keeps_sys_preorder : PreOrder keeps_sys.
Proof.
  split.
  - intros s. split; try done.
    + intros p v' _ H. exists v'. split; [done|apply same_inode_refl].
    + intros g x' _ H. exists x'. split; [done|apply same_file_refl].
  - intros s1 s2 s3 H12 H23. pose proof (ks_next _ _ _ H12). pose proof (ks_next _ _ _ H23). split.
    + by rewrite (ks_cwd _ _ _ H23), (ks_cwd _ _ _ H12).
    + by rewrite (ks_root _ _ _ H23), (ks_root _ _ _ H12).
    + by rewrite (ks_rename _ _ _ H23), (ks_rename _ _ _ H12).
    + lia.
    + etrans; [apply (ks_tree _ _ _ H23)|apply (ks_tree _ _ _ H12)].
    + intros p v3 Hp H3. destruct (ks_vnode _ _ _ H23 p v3 ltac:(lia) H3) as (v2 & H2 & E2).
      destruct (ks_vnode _ _ _ H12 p v2 Hp H2) as (v1 & H1 & E1).
      exists v1. split; [done|by eapply same_inode_trans].
    + intros g x3 Hg H3. destruct (ks_file _ _ _ H23 g x3 ltac:(lia) H3) as (x2 & H2 & E2).
      destruct (ks_file _ _ _ H12 g x2 Hg H2) as (x1 & H1 & E1).
      exists x1. split; [done|by eapply same_file_trans].
Qed.

Lemma keeps_sys_of s s' : keeps s s' -> keeps_sys s s'.
Proof.
  intros []. split; try done. intros g x' _ Hx. rewrite kp_files in Hx.
  exists x'. split; [done|apply same_file_refl].
Qed.

Lemma upd_file_keeps s g x n :
  k_files s !! g = Some x -> keeps_sys s (upd_file g (set_f_refcount n x) s).
Proof.
  intros Hx. split; try done; cbn.
  - intros p v' _ H. exists v'. split; [done|apply same_inode_refl].
  - intros h y _. destruct (decide (h = g)) as [->|].
    + rewrite lookup_insert_eq. intros [= <-]. by exists x.
    + rewrite lookup_insert_ne by done. exists y. split; [done|apply same_file_refl].
Qed.

Lemma del_file_keeps s g : keeps_sys s (set_k_files (delete g (k_files s)) s).
Proof.
  split; try done; cbn.
  - intros p v' _ H. exists v'. split; [done|apply same_inode_refl].
  - intros h y _ [_ Hy]%lookup_delete_Some. exists y. split; [done|apply same_file_refl].
Qed.

Lemma set_fds_keeps s l : keeps_sys s (set_p_files l s).
Proof.
  split; try done; cbn.
  - intros p v' _ H. exists v'. split; [done|apply same_inode_refl].
  - intros g x' _ H. exists x'. split; [done|apply same_file_refl].
Qed.

(** ** References to open files *)

Lemma wp_f_get g x (Q : file -> K -> Prop) s :
  k_files s !! g = Some x -> Q x s -> wp (f_get g) Q s.
Proof. unfold wp, f_get, bind, get. by intros ->. Qed.

Lemma refers_count p x n :
  f_refcount x <> 0 -> n <> 0 -> one (refers p (set_f_refcount n x)) = one (refers p x).
Proof. intros. unfold one, refers. cbn. repeat case_decide; naive_solver. Qed.

Lemma wp_fref X Y L g x (Q : unit -> K -> Prop) s :
  vfs_ok X Y L s -> Z.of_nat (length Y) < 2 ^ 32 ->
  k_files s !! g = Some x -> f_refcount x <> 0 ->
  (let s' := upd_file g (set_f_refcount (f_refcount x + 1) x) s in
   vfs_ok X (g :: Y) L s' -> Q tt s') ->
  wp (fref g) Q s.
Proof.
  intros Hok HY Hx Hn HQ. cbn zeta in HQ. pose proof (fd_refs_bound _ _ _ _ g Hok).
  destruct (ok_file _ _ _ _ _ Hok g x Hx) as (Hc & Hm & Hpos).
  unfold fref. wp_use wp_f_get; [done|]. wp_use wp_kassert; [apply Z.leb_le; lia|].
  rewrite u64_id by lia. apply HQ. eapply upd_file_ok; [done|done| |done| |].
  - cbn. unfold fd_refs in *. rewrite occ_cons, one_true by done. lia.
  - intros h Hh. by rewrite occ_cons, one_false.
  - intros p. rewrite refers_count by lia. done.
Qed.

Context (vops_of : vops -> vnode_ops K) {FV : FsVops fs vops_of}.

Lemma wp_vn_vops X Y L p v (Q : vnode_ops K -> K -> Prop) s :
  vfs_ok X Y L s -> k_vnodes s !! p = Some v -> Q (vops_of (vn_ops v)) s ->
  wp (vn_vops vops_of p) Q s.
Proof.
  intros Hok Hv HQ. unfold vn_vops. wp_use wp_vn_get; [done|].
  destruct (fs_vnode _ _ p v (ok_fs _ _ _ _ _ Hok) Hv) as (w & _ & _ & Ho & _).
  rewrite Ho in *. by destruct w as [| |[]].
Qed.

Lemma wp_fput_live X Y L g x (Q : unit -> K -> Prop) s :
  vfs_ok X (g :: Y) L s -> k_files s !! g = Some x -> 0 < fd_refs Y s g ->
  (let s' := upd_file g (set_f_refcount (f_refcount x - 1) x) s in
   vfs_ok X Y L s' -> Q tt s') ->
  wp (fput fs vops_of g) Q s.
Proof.
  intros Hok Hx Hr HQ. cbn zeta in HQ.
  destruct (ok_file _ _ _ _ _ Hok g x Hx) as (Hc & Hm & Hpos).
  unfold fd_refs in Hc. rewrite occ_cons, one_true in Hc by done. unfold fd_refs in Hr.
  unfold fput. wp_use wp_f_get; [done|]. wp_use wp_kassert; [apply Z.leb_le; lia|].
  wp_use wp_kassert; [apply Z.ltb_lt; lia|].
  unfold f_put. wp_steps. rewrite (proj2 (Z.eqb_neq _ _)) by lia. wp_steps. apply HQ.
  eapply upd_file_ok; [done|done| |done| |].
  - cbn. unfold fd_refs. lia.
  - intros h Hh. by rewrite occ_cons, one_false.
  - intros p. rewrite refers_count by lia. done.
Qed.

(** The last reference: the file is released, and its reference to the vnode. *)
Lemma wp_fput_last X Y L g x (Q : unit -> K -> Prop) s :
  vfs_ok X (g :: Y) L s -> k_files s !! g = Some x -> fd_refs Y s g = 0 -> f_vnode x ∉ L ->
  (forall s', vfs_ok X Y L s' -> keeps_sys s s' -> p_files s' = p_files s ->
              k_files s' = delete g (k_files s) -> Q tt s') ->
  wp (fput fs vops_of g) Q s.
Proof.
  intros Hok Hx Hr HL HQ. set (p := f_vnode x) in *.
  destruct (ok_file _ _ _ _ _ Hok g x Hx) as (Hc & Hm & Hpos).
  unfold fd_refs in Hc. rewrite occ_cons, one_true in Hc by done.
  unfold fd_refs in Hr. assert (f_refcount x = 1) as Hc1 by lia.
  unfold fput. wp_use wp_f_get; [done|]. wp_use wp_kassert; [apply Z.leb_le; lia|].
  wp_use wp_kassert; [apply Z.ltb_lt; lia|]. unfold f_put. wp_steps. rewrite Hc1.
  change (1 - 1 =? 0) with true.
  set (x0 := set_f_refcount _ x). change (set_k_files _ s) with (upd_file g x0 s).
  assert (vfs_ok (p :: X) Y L (upd_file g x0 s)) as Hok1.
  { eapply upd_file_ok; [done|done| |done| |].
    - cbn. unfold fd_refs. lia.
    - intros h Hh. by rewrite occ_cons, one_false.
    - intros q. rewrite occ_cons, (one_false (refers q x0)) by (intros [_ []]; done).
      unfold one, refers. repeat case_decide; naive_solver lia. }
  wp_use wp_vlock; [done|apply (ok_refs _ _ _ _ _ Hok1), refs_elem; left|done|].
  intros s2 Hok2 Hk2. destruct (ok_refs _ _ _ _ _ Hok2 p) as [v Hv]; [by apply refs_elem; left|].
  wp_use wp_vn_vops; [done|done|]. rewrite (fs_release (FsVops := FV)). wp_use wp_vput_locked; [done|done|].
  intros s3 Hok3 Hk3. wp_steps.
  pose proof (kp_files _ _ _ Hk3) as E3. rewrite (kp_files _ _ _ Hk2) in E3. cbn in E3.
  apply HQ.
  - eapply del_file_ok; [done| |].
    + rewrite E3. apply lookup_insert_eq.
    + done.
  - etrans; [by apply (upd_file_keeps s g x 0)|].
    etrans; [apply keeps_sys_of, Hk2|]. etrans; [apply keeps_sys_of, Hk3|]. apply del_file_keeps.
  - cbn. by rewrite (kp_fds _ _ _ Hk3), (kp_fds _ _ _ Hk2).
  - cbn. by rewrite E3, delete_insert_eq.
Qed.

(** Dropping a reference, whether or not it is the last. *)
Lemma wp_fput X Y L g x (Q : unit -> K -> Prop) s :
  vfs_ok X (g :: Y) L s -> live_files s -> k_files s !! g = Some x -> f_vnode x ∉ L ->
  (forall s', vfs_ok X Y L s' -> live_files s' -> keeps_sys s s' -> p_files s' = p_files s ->
              Q tt s') ->
  wp (fput fs vops_of g) Q s.
Proof.
  intros Hok Hlive Hx HL HQ. pose proof (fd_refs_bound _ _ _ _ g Hok) as Hb.
  assert (0 <= fd_refs Y s g) as Hnn.
  { unfold fd_refs. pose proof (occ_nonneg g Y). pose proof (occ_nonneg (Some g) (p_files s)). lia. }
  destruct (decide (fd_refs Y s g = 0)) as [H0|H0].
  - eapply wp_fput_last; [done..|]. intros s' Hok' Hk' Hp' Hf'. apply HQ; try done.
    intros h y. rewrite Hf'. intros [_ Hy]%lookup_delete_Some. by eapply Hlive.
  - eapply wp_fput_live; [done|done|lia|]. intros s1 Hok1. apply (HQ s1); [done| | |done].
    + intros h y. subst s1. cbn. destruct (decide (h = g)) as [->|].
      * rewrite lookup_insert_eq. intros [= <-]. cbn.
        destruct (ok_file _ _ _ _ _ Hok g x Hx) as (Hc & _).
        unfold fd_refs in *. rewrite occ_cons, one_true in Hc by done. lia.
      * rewrite lookup_insert_ne by done. apply Hlive.
    + by apply upd_file_keeps.
Qed.

(** ** Descriptors *)

Definition open_file (fd : Z) (s : K) : option Z :=
  if (fd <? 0) || (fd >=? NFILES) then None else p_file fd s.

Lemma open_file_Some X Y L fd s g :
  vfs_ok X Y L s -> open_file fd s = Some g ->
  0 <= fd < NFILES /\ p_files s !! Z.to_nat fd = Some (Some g) /\ 0 < occ (Some g) (p_files s)
  /\ exists x, k_files s !! g = Some x.
Proof.
  unfold open_file, p_file. intros Hok H. destruct (fd <? 0) eqn:E1, (fd >=? NFILES) eqn:E2; try done.
  cbn in H. destruct (p_files s !! Z.to_nat fd) as [o|] eqn:El; [|done]. cbn in H. subst o.
  assert (0 < occ (Some g) (p_files s)) as Ho by (apply occ_pos; by eapply list_elem_of_lookup_2).
  split_and!; [lia|lia|done|done|].
  apply (ok_fds _ _ _ _ _ Hok). unfold fd_refs. pose proof (occ_nonneg g Y). lia.
Qed.

Lemma wp_fget X Y L fd (Q : option Z -> K -> Prop) s :
  vfs_ok X Y L s -> live_files s -> Z.of_nat (length Y) < 2 ^ 32 ->
  (open_file fd s = None -> Q None s) ->
  (forall g x, open_file fd s = Some g -> k_files s !! g = Some x ->
     let s' := upd_file g (set_f_refcount (f_refcount x + 1) x) s in
     vfs_ok X (g :: Y) L s' -> Q (Some g) s') ->
  wp (fget fd) Q s.
Proof.
  intros Hok Hlive HY HN HS. unfold fget. unfold open_file in HN, HS.
  destruct ((fd <? 0) || (fd >=? NFILES)) eqn:E; [by apply HN|]. wp_steps.
  destruct (p_file fd s) as [g|] eqn:Eg; [|by apply HN].
  destruct (open_file_Some _ _ _ fd s g Hok) as (_ & _ & _ & x & Hx).
  { unfold open_file. by rewrite E. }
  wp_use wp_fref; [done|done|done|by eapply Hlive|]. intros s' Hok'. by apply (HS g x).
Qed.

(** The least free descriptor. *)
Definition least_free (l : list (option Z)) (n : nat) : Prop :=
  l !! n = Some None /\ forall j, (j < n)%nat -> exists g, l !! j = Some (Some g).

Lemma first_null_spec l fd :
  match first_null (length l) fd l with
  | Some k => exists n, k = fd + Z.of_nat n /\ least_free l n
  | None => forall o, o ∈ l -> o <> None
  end.
Proof.
  revert fd. induction l as [|o l IH]; intros fd; cbn.
  - intros o H. by apply not_elem_of_nil in H.
  - destruct o as [g|].
    + specialize (IH (fd + 1)). destruct (first_null _ _ _) as [k|].
      * destruct IH as (n & -> & Hn & Hl). exists (S n). split; [lia|]. split; [done|].
        intros [|j] Hj; [by exists g|]. apply Hl. lia.
      * intros o [->|Ho]%elem_of_cons; [done|by apply IH].
    + exists 0%nat. split; [lia|]. split; [done|]. intros j Hj. lia.
Qed.

Lemma wp_get_empty_fd X Y L (Q : Z * Z -> K -> Prop) s :
  vfs_ok X Y L s ->
  (forall n, least_free (p_files s) n -> Q (0, Z.of_nat n) s) ->
  ((forall o, o ∈ p_files s -> o <> None) -> Q (- EMFILE, -1) s) ->
  wp get_empty_fd Q s.
Proof.
  intros Hok HS HN. unfold get_empty_fd. wp_steps.
  rewrite <- (ok_nfiles _ _ _ _ _ Hok). pose proof (first_null_spec (p_files s) 0) as H.
  destruct (first_null _ _ _) as [k|]; [|by apply HN].
  destruct H as (n & -> & Hn). apply (HS n Hn).
Qed.

(** ** System calls on descriptors *)

(** The state between system calls. *)
Definition sys_ok s : Prop := vfs_ok [fs_root s; p_cwd s] [] [] s /\ live_files s.

(** A reference taken and given back. *)
Lemma upd_file_back g x s :
  k_files s !! g = Some x ->
  upd_file g (set_f_refcount (f_refcount x + 1 - 1) x)
    (upd_file g (set_f_refcount (f_refcount x + 1) x) s) = s.
Proof.
  intros Hx. unfold upd_file. cbn. rewrite insert_insert_eq.
  replace (f_refcount x + 1 - 1) with (f_refcount x) by lia.
  replace (set_f_refcount (f_refcount x) x) with x by by destruct x.
  rewrite insert_id by done. by destruct s.
Qed.

Lemma live_upd_file s g x :
  live_files s -> f_refcount x <> 0 -> live_files (upd_file g x s).
Proof.
  intros Hl Hx h y. cbn. destruct (decide (h = g)) as [->|].
  - rewrite lookup_insert_eq. by intros [= <-].
  - rewrite lookup_insert_ne by done. apply Hl.
Qed.
End file_proofs.
