(* ===== verification/FdProofs.v ===== *)
(** The system calls on descriptors: [do_close], [do_dup], [do_dup2] and
    [do_lseek] of [fs/vfs_syscall.c]. *)

From S2P Require Import Prelude Mobj Vnode File Namev VfsSyscall VfsSpec VnodeProofs FileProofs.

Section fd_proofs.
Context {F V : Type} {mem : Memory} {drv : Drivers} (fs : fs_ops F V) {FD : FsData fs}.
Context (vops_of : vops -> vnode_ops (kst F V)) {FV : FsVops fs vops_of}.
Abbreviation K := (kst F V).
Abbreviation vfs_ok := (vfs_ok fs).
Abbreviation keeps_sys := (keeps_sys fs).
Abbreviation sys_ok := (sys_ok fs).
Implicit Types (s : K) (X : list Z) (g fd : Z) (x : file).

(** The reference of the list to a file becomes that of a free descriptor. *)
Lemma wp_set_free_fd X Y L fd g (Q : unit -> K -> Prop) s :
  vfs_ok X (g :: Y) L s -> p_files s !! Z.to_nat fd = Some None ->
  (let s' := set_p_files (<[Z.to_nat fd := Some g]> (p_files s)) s in vfs_ok X Y L s' -> Q tt s') ->
  wp (set_p_file fd (Some g)) Q s.
Proof.
  intros Hok Hfd HQ. cbn zeta in HQ. unfold set_p_file. wp_steps. apply HQ.
  eapply set_fd_ok; [done|done|]. intros h. rewrite occ_cons. unfold one.
  repeat case_decide; naive_solver lia.
Qed.

(** The reference of a descriptor becomes one of the list. *)
Lemma wp_clear_fd X Y L fd g (Q : unit -> K -> Prop) s :
  vfs_ok X Y L s -> p_files s !! Z.to_nat fd = Some (Some g) ->
  (let s' := set_p_files (<[Z.to_nat fd := None]> (p_files s)) s in vfs_ok X (g :: Y) L s' -> Q tt s') ->
  wp (set_p_file fd None) Q s.
Proof.
  intros Hok Hfd HQ. cbn zeta in HQ. unfold set_p_file. wp_steps. apply HQ.
  eapply set_fd_ok; [done|done|]. intros h. rewrite occ_cons. unfold one.
  repeat case_decide; naive_solver lia.
Qed.

(** Taking one more reference and storing it in a free descriptor, then
    dropping the one held: the end of [do_dup] and [do_dup2]. *)
Lemma wp_share X g x fd r (Q : Z -> K -> Prop) s :
  vfs_ok X [g] [] s -> live_files s -> k_files s !! g = Some x ->
  p_files s !! Z.to_nat fd = Some None ->
  (let s' := set_p_files (<[Z.to_nat fd := Some g]> (p_files s)) s in
   vfs_ok X [] [] s' -> live_files s' -> Q r s') ->
  wp (do! fref g; do! set_p_file fd (Some g); do! fput fs vops_of g; ret r) Q s.
Proof.
  intros Hok Hlive Hx Hfd HQ. cbn zeta in HQ.
  wp_use wp_fref; [done|done|done|by eapply Hlive|]. intros s1 Hok1.
  wp_use wp_set_free_fd; [done|done|]. intros s2 Hok2.
  pose proof (occ_nonneg (Some g) (p_files s)).
  assert (0 < fd_refs [] s2 g) as Hr.
  { unfold fd_refs, s2. cbn [p_files set_p_files].
    assert (0 < occ (Some g) (<[Z.to_nat fd := Some g]> (p_files s1))); [|rewrite occ_nil; lia].
    apply occ_pos, (list_elem_of_lookup_2 _ (Z.to_nat fd)).
    apply list_lookup_insert_eq. by eapply lookup_lt_Some. }
  wp_use (wp_fput_live fs vops_of); [done| |done|].
  { unfold s2, s1. cbn. apply lookup_insert_eq. }
  intros s3 Hok3. wp_steps.
  assert (s3 = set_p_files (<[Z.to_nat fd := Some g]> (p_files s)) s) as ->.
  { rewrite <- (upd_file_back g x s Hx) at 2. done. }
  by apply HQ.
Qed.

Lemma sys_ok_keeps s s' :
  vfs_ok [fs_root s; p_cwd s] [] [] s' -> live_files s' -> keeps_sys s s' -> sys_ok s'.
Proof.
  intros Hok Hl Hk. split; [|done]. by rewrite (ks_root _ _ _ Hk), (ks_cwd _ _ _ Hk).
Qed.

Lemma open_file_range fd s g : open_file fd s = Some g -> (fd <? 0) || (fd >=? NFILES) = false.
Proof. unfold open_file. by destruct ((fd <? 0) || (fd >=? NFILES)). Qed.

Lemma wp_do_close fd s (Q : Z -> K -> Prop) :
  sys_ok s ->
  (open_file fd s = None -> Q (- EBADF) s) ->
  (forall g s', open_file fd s = Some g -> sys_ok s' -> keeps_sys s s' ->
                p_files s' = <[Z.to_nat fd := None]> (p_files s) -> Q 0 s') ->
  wp (do_close fs vops_of fd) Q s.
Proof.
  intros [Hok Hlive] HN HS. unfold do_close. unfold open_file in HN.
  destruct ((fd <? 0) || (fd >=? NFILES)) eqn:E; [by apply HN|]. wp_steps.
  destruct (p_file fd s) as [g|] eqn:Eg; [|by apply HN].
  assert (open_file fd s = Some g) as Ho by (unfold open_file; by rewrite E).
  destruct (open_file_Some fs _ _ _ _ _ _ Hok Ho) as (_ & Hfd & _ & x & Hx).
  wp_use wp_clear_fd; [done|done|]. intros s1 Hok1.
  wp_use (wp_fput fs vops_of); [done|done|done|apply not_elem_of_nil|].
  intros s2 Hok2 Hl2 Hk2 Hp2. wp_steps.
  assert (keeps_sys s s2) as Hk by (etrans; [apply set_fds_keeps|done]).
  apply (HS g); [done|by apply (sys_ok_keeps s)|done|done].
Qed.

Lemma wp_do_dup fd s (Q : Z -> K -> Prop) :
  sys_ok s ->
  (open_file fd s = None -> Q (- EBADF) s) ->
  (forall g, open_file fd s = Some g -> (forall o, o ∈ p_files s -> o <> None) -> Q (- EMFILE) s) ->
  (forall g x n, open_file fd s = Some g -> k_files s !! g = Some x -> least_free (p_files s) n ->
     let s' := set_p_files (<[n := Some g]> (p_files s))
                 (upd_file g (set_f_refcount (f_refcount x + 1) x) s) in
     sys_ok s' -> keeps_sys s s' -> Q (Z.of_nat n) s') ->
  wp (do_dup fs vops_of fd) Q s.
Proof.
  intros [Hok Hlive] HN HF HS. unfold do_dup.
  wp_use (wp_fget fs); [done|done|done|done|]. intros g x Ho Hx s1 Hok1.
  pose proof (Hlive _ _ Hx) as Hn. pose proof (fd_refs_bound fs _ _ _ _ g Hok) as Hb.
  destruct (ok_file _ _ _ _ _ Hok g x Hx) as (Hc & _).
  assert (live_files s1) as Hl1 by (apply live_upd_file; [done|cbn; lia]).
  assert (k_files s1 !! g = Some (set_f_refcount (f_refcount x + 1) x)) as Hx1
    by apply lookup_insert_eq.
  wp_use (wp_get_empty_fd fs); [done| |].
  - intros n Hfree. cbn [fst snd]. change (0 <? 0) with false.
    eapply wp_share; [done|done|done|by rewrite Nat2Z.id; apply Hfree|].
    rewrite Nat2Z.id. intros s2 Hok2 Hl2. apply (HS g x); [done..| |].
    + apply (sys_ok_keeps s); [done|done|]. etrans; [by apply upd_file_keeps|apply set_fds_keeps].
    + etrans; [by apply upd_file_keeps|apply set_fds_keeps].
  - intros Hfull. change ((- EMFILE, -1).1 <? 0) with true.
    wp_use (wp_fput_live fs vops_of); [done|done| |].
    + destruct (open_file_Some fs _ _ _ _ _ _ Hok Ho) as (_ & _ & Hpos & _).
      unfold fd_refs, s1. rewrite occ_nil. cbn [p_files upd_file set_k_files]. lia.
    + intros s2 Hok2. wp_steps. replace s2 with s by (symmetry; exact (upd_file_back g x s Hx)).
      by apply (HF g).
Qed.

(** The end of [do_dup2]: the descriptor is free and takes the reference. *)
Lemma wp_store_fd s g nfd (Q : Z -> K -> Prop) s2 :
  (Z.to_nat nfd < length (p_files s))%nat ->
  vfs_ok [fs_root s; p_cwd s] [g] [] s2 -> live_files s2 -> keeps_sys s s2 ->
  p_files s2 = <[Z.to_nat nfd := None]> (p_files s) ->
  (forall s3, sys_ok s3 -> keeps_sys s s3 ->
              p_files s3 = <[Z.to_nat nfd := Some g]> (p_files s) -> Q nfd s3) ->
  wp (do! fref g; do! set_p_file nfd (Some g); do! fput fs vops_of g; ret nfd) Q s2.
Proof.
  intros Hlen Hok2 Hl2 Hk2 Hp2 HQ.
  destruct (ok_fds _ _ _ _ _ Hok2 g) as [x2 Hx2].
  { unfold fd_refs. rewrite occ_cons, one_true by done. pose proof (occ_nonneg (Some g) (p_files s2)).
    rewrite occ_nil. lia. }
  eapply wp_share; [done|done|done|by rewrite Hp2, list_lookup_insert_eq|].
  intros s3 Hok3 Hl3. assert (keeps_sys s s3) as Hk3 by (etrans; [done|apply set_fds_keeps]).
  apply HQ; [by apply (sys_ok_keeps s)|done|].
  unfold s3. cbn [p_files set_p_files]. by rewrite Hp2, list_insert_insert_eq.
Qed.

Lemma wp_do_dup2 ofd nfd s (Q : Z -> K -> Prop) :
  sys_ok s ->
  (open_file ofd s = None \/ ~ 0 <= nfd < NFILES -> Q (- EBADF) s) ->
  (forall g, open_file ofd s = Some g -> ofd = nfd -> Q nfd s) ->
  (forall g s', open_file ofd s = Some g -> 0 <= nfd < NFILES -> ofd <> nfd ->
     sys_ok s' -> keeps_sys s s' ->
     p_files s' = <[Z.to_nat nfd := Some g]> (p_files s) -> Q nfd s') ->
  wp (do_dup2 fs vops_of ofd nfd) Q s.
Proof.
  intros [Hok Hlive] HN HE HS. unfold do_dup2.
  destruct ((ofd <? 0) || (ofd >=? NFILES)) eqn:Eo.
  { cbn [orb]. apply HN. left. unfold open_file. by rewrite Eo. }
  destruct ((nfd <? 0) || (nfd >=? NFILES)) eqn:En.
  { rewrite <- orb_assoc, En, orb_true_r. apply HN. right. lia. }
  rewrite <- orb_assoc, En. cbn [orb].
  wp_use (wp_fget fs); [done|done|done|by intros; apply HN; left|]. intros g x Ho Hx s1 Hok1.
  destruct (open_file_Some fs _ _ _ _ _ _ Hok Ho) as (Hro & Hfo & Hpos & _).
  assert (k_files s1 !! g = Some (set_f_refcount (f_refcount x + 1) x)) as Hx1
    by apply lookup_insert_eq.
  pose proof (fd_refs_bound fs _ _ _ _ g Hok) as Hb.
  destruct (ok_file _ _ _ _ _ Hok g x Hx) as (Hc & _).
  assert (live_files s1) as Hl1 by (apply live_upd_file; [done|cbn; lia]).
  destruct (Z.eqb_spec ofd nfd) as [<-|Hne].
  { wp_use (wp_fput_live fs vops_of); [done|done| |].
    - unfold fd_refs, s1. rewrite occ_nil. cbn [p_files upd_file set_k_files]. lia.
    - intros s2 Hok2. wp_steps. replace s2 with s by (symmetry; exact (upd_file_back g x s Hx)).
      by apply (HE g). }
  assert (Z.to_nat nfd < length (p_files s))%nat as Hlen
    by (rewrite (ok_nfiles _ _ _ _ _ Hok); lia).
  destruct (lookup_lt_is_Some_2 _ _ Hlen) as [o Hfn].
  wp_steps.
  assert (forall s2, vfs_ok [fs_root s; p_cwd s] [g] [] s2 -> live_files s2 -> keeps_sys s s2 ->
            p_files s2 = <[Z.to_nat nfd := None]> (p_files s) ->
            wp (do! fref g; do! set_p_file nfd (Some g); do! fput fs vops_of g; ret nfd) Q s2) as Hend.
  { intros s2 Hok2 Hl2 Hk2 Hp2. eapply (wp_store_fd s); [done..|].
    intros s3 Hok3 Hk3 Hp3. eapply HS; [done|lia|done..]. }
  assert (keeps_sys s s1) as Hk1 by by apply upd_file_keeps.
  unfold p_file. change (p_files s1) with (p_files s). rewrite Hfn. cbn [mjoin option_join].
  destruct o as [h|].
  - destruct (open_file_Some fs _ _ _ nfd s h Hok) as (_ & _ & _ & y & Hy).
    { unfold open_file, p_file. by rewrite En, Hfn. }
    assert (exists y', k_files s1 !! h = Some y') as [y' Hy'].
    { unfold s1. cbn. destruct (decide (h = g)) as [->|]; [rewrite lookup_insert_eq; eauto|].
      rewrite lookup_insert_ne by done. eauto. }
    wp_use wp_clear_fd; [done|done|]. intros s2 Hok2.
    wp_use (wp_fput fs vops_of); [done|done|done|apply not_elem_of_nil|].
    intros s3 Hok3 Hl3 Hk3 Hp3. apply Hend; [done|done| |done].
    etrans; [done|]. etrans; [apply set_fds_keeps|done].
  - apply wp_ret, Hend; [done|done|done|]. change (p_files s1) with (p_files s).
    by rewrite list_insert_id.
Qed.

(** ** [do_lseek] *)

(** The position [lseek] computes from that of the file and the length of its
    vnode. *)
Definition seek_target (whence pos len offset : Z) : option Z :=
  if whence =? SEEK_SET then Some offset
  else if whence =? SEEK_CUR then Some (s64 (pos + offset))
  else if whence =? SEEK_END then Some (s64 (len + offset))
  else None.

Lemma seek_range whence pos len offset np :
  - 2 ^ 63 <= offset < 2 ^ 63 -> seek_target whence pos len offset = Some np -> np < 2 ^ 63.
Proof.
  unfold seek_target. intros Ho H. pose proof (Z.mod_pos_bound (pos + offset + 2 ^ 63) (2 ^ 64)).
  pose proof (Z.mod_pos_bound (len + offset + 2 ^ 63) (2 ^ 64)).
  repeat case_match; simplify_eq; unfold s64; lia.
Qed.

(** An open file refers to its vnode. *)
Lemma file_refs_pos X g x s :
  k_files s !! g = Some x -> f_refcount x <> 0 -> 0 < refs X s (f_vnode x).
Proof.
  intros Hx Hn. unfold refs, file_refs. pose proof (occ_nonneg (f_vnode x) X).
  pose proof (count_delete (fun kx : Z * file => refers (f_vnode x) kx.2) _ _ _ Hx) as E.
  rewrite one_true in E by done. unfold count in E. lia.
Qed.

(** A file that is held keeps its vnode. *)
Lemma held_refs X g x s :
  k_files s !! g = Some x -> 0 < f_refcount x ->
  0 < refs X (upd_file g (set_f_refcount (f_refcount x + 1) x) s) (f_vnode x).
Proof.
  intros Hx Hn. apply (file_refs_pos _ g (set_f_refcount (f_refcount x + 1) x)).
  - apply lookup_insert_eq.
  - cbn. lia.
Qed.

Lemma live_pos X Y L s g x :
  vfs_ok X Y L s -> live_files s -> k_files s !! g = Some x -> 0 < f_refcount x.
Proof.
  intros Hok Hlive Hx. pose proof (Hlive _ _ Hx). destruct (ok_file _ _ _ _ _ Hok g x Hx) as (Hc & _).
  pose proof (fd_refs_bound fs _ _ _ _ g Hok). lia.
Qed.

Lemma keeps_set_files s s1 k :
  keeps fs (set_k_files k s) s1 -> keeps fs s (set_k_files (k_files s) s1).
Proof. intros []. split; done. Qed.

Lemma stable_set_files s s1 k :
  stable (set_k_files k s) s1 -> stable s (set_k_files (k_files s) s1).
Proof. intros []. split; done. Qed.

(** The end of a call that held the file at [g] and sets its position. *)
Lemma wp_set_pos_put {A} g x np (Q : A -> K -> Prop) r s s1 :
  sys_ok s -> k_files s !! g = Some x -> 0 < occ (Some g) (p_files s) -> 0 <= np < 2 ^ 64 ->
  vfs_ok [fs_root s; p_cwd s] [g] [] s1 ->
  stable (upd_file g (set_f_refcount (f_refcount x + 1) x) s) s1 ->
  (let s' := set_k_files (<[g := set_f_pos np x]> (k_files s)) s1 in sys_ok s' -> Q r s') ->
  wp (let! x := f_get g in do! f_put g (set_f_pos np x); do! fput fs vops_of g; ret r) Q s1.
Proof.
  intros [Hok Hlive] Hx Hocc Hnp Hok1 Hst HQ. cbn zeta in HQ.
  pose proof (st_files _ _ Hst) as Ef. pose proof (st_fds _ _ Hst) as Ep. cbn in Ef, Ep.
  assert (k_files s1 !! g = Some (set_f_refcount (f_refcount x + 1) x)) as Hx1
    by (rewrite Ef; apply lookup_insert_eq).
  destruct (ok_file _ _ _ _ _ Hok1 g _ Hx1) as (Hc & Hm & _).
  destruct (ok_file _ _ _ _ _ Hok g _ Hx) as (Hc0 & _). pose proof (Hlive _ _ Hx).
  wp_use (wp_f_get g); [done|]. unfold f_put. wp_steps.
  set (x1 := set_f_pos np (set_f_refcount (f_refcount x + 1) x)).
  assert (vfs_ok [fs_root s; p_cwd s] [g] [] (upd_file g x1 s1)) as Hok2.
  { eapply upd_file_ok; [done|done|done|split; [done|cbn; lia]|done|done]. }
  eapply (wp_fput_live fs vops_of); [done|apply lookup_insert_eq| |].
  { unfold fd_refs. rewrite occ_nil. cbn [p_files upd_file set_k_files]. rewrite Ep. lia. }
  intros s3 Hok3. wp_steps.
  assert (s3 = set_k_files (<[g := set_f_pos np x]> (k_files s)) s1) as E.
  { assert (set_f_refcount (f_refcount x1 - 1) x1 = set_f_pos np x) as Ex.
    { unfold x1, set_f_refcount, set_f_pos. cbn. f_equal. lia. }
    unfold s3. rewrite Ex. unfold upd_file. cbn. by rewrite Ef, !insert_insert_eq. }
  rewrite E in Hok3 |- *. apply HQ. split.
  - cbn. by rewrite (st_root _ _ Hst), (st_cwd _ _ Hst).
  - apply (live_upd_file s); [|done]. intros h y Hy. by eapply Hlive.
Qed.

(** [advance] sets the position. *)
Lemma wp_advance {A} g x n (k : M K A) Q s :
  k_files s !! g = Some x ->
  wp (let! x' := f_get g in do! f_put g (set_f_pos (u64 (f_pos x + n)) x'); k) Q s ->
  wp (do! advance g n; k) Q s.
Proof. intros Hx. unfold wp, advance, bind, f_get, get, f_put, modify. cbn. by rewrite Hx. Qed.

(** The end of a call that held the file and changes nothing. *)
Lemma wp_put_back {A} g x (Q : A -> K -> Prop) r s s1 :
  sys_ok s -> k_files s !! g = Some x -> 0 < occ (Some g) (p_files s) ->
  vfs_ok [fs_root s; p_cwd s] [g] [] s1 ->
  keeps fs (upd_file g (set_f_refcount (f_refcount x + 1) x) s) s1 ->
  (forall s0, keeps fs s s0 -> sys_ok s0 -> Q r s0) ->
  wp (do! fput fs vops_of g; ret r) Q s1.
Proof.
  intros [Hok Hlive] Hx Hocc Hok1 Hk HQ.
  pose proof (kp_files _ _ _ Hk) as Ef. pose proof (kp_fds _ _ _ Hk) as Ep. cbn in Ef, Ep.
  wp_use (wp_fput_live fs vops_of); [done|rewrite Ef; apply lookup_insert_eq| |].
  { unfold fd_refs. rewrite occ_nil, Ep. lia. }
  intros s3 Hok3. wp_steps. pose proof (keeps_set_files _ _ _ Hk) as Hk0.
  assert (s3 = set_k_files (k_files s) s1) as E.
  { pose proof (upd_file_back g x s Hx) as E. unfold upd_file in E. cbn in E.
    apply (f_equal k_files) in E. cbn in E. unfold s3, upd_file. rewrite Ef. f_equal. exact E. }
  rewrite E in Hok3 |- *. apply HQ; [done|]. split; [|done].
  by rewrite (kp_root _ _ _ Hk0), (kp_cwd _ _ _ Hk0).
Qed.

Lemma wp_do_lseek fd offset whence s (Q : Z -> K -> Prop) :
  sys_ok s -> - 2 ^ 63 <= offset < 2 ^ 63 ->
  (open_file fd s = None -> Q (- EBADF) s) ->
  (forall g x v s0, open_file fd s = Some g -> k_files s !! g = Some x ->
     k_vnodes s !! f_vnode x = Some v -> keeps fs s s0 ->
     match seek_target whence (f_pos x) (vn_len v) offset with
     | Some np =>
         if np <? 0 then sys_ok s0 -> Q (- EINVAL) s0
         else sys_ok (upd_file g (set_f_pos np x) s0) -> Q np (upd_file g (set_f_pos np x) s0)
     | None => sys_ok s0 -> Q (- EINVAL) s0
     end) ->
  wp (do_lseek fs vops_of fd offset whence) Q s.
Proof.
  intros Hsys Hoff HN HS. pose proof Hsys as [Hok Hlive]. unfold do_lseek.
  wp_use (wp_fget fs); [done|done|done|done|]. intros g x Ho Hx s1 Hok1.
  destruct (open_file_Some fs _ _ _ _ _ _ Hok Ho) as (_ & _ & Hocc & _).
  destruct (ok_refs _ _ _ _ _ Hok (f_vnode x)) as [v Hv].
  { eapply file_refs_pos; [done|by eapply Hlive]. }
  assert (forall s2 o, vfs_ok [fs_root s; p_cwd s] [g] [] s2 -> keeps fs s1 s2 ->
            o = seek_target whence (f_pos x) (vn_len v) offset ->
            wp (match o with
                | Some np => if np <? 0 then do! fput fs vops_of g; ret (- EINVAL)
                             else let! x := f_get g in do! f_put g (set_f_pos np x);
                                  do! fput fs vops_of g; ret np
                | None => do! fput fs vops_of g; ret (- EINVAL)
                end) Q s2) as Hend.
  { intros s2 o Hok2 Hk2 ->. specialize (fun s0 => HS g x v s0 Ho Hx Hv).
    destruct (seek_target _ _ _ _) as [np|] eqn:E; [|by eapply wp_put_back].
    destruct (np <? 0) eqn:En; [by eapply wp_put_back|].
    eapply wp_set_pos_put; [done|done|done|apply seek_range in E; [lia|done]|done|by apply (keeps_stable fs)|].
    cbn zeta. intros Hs. by apply (HS _ (keeps_set_files _ _ _ Hk2)). }
  wp_use (wp_f_get g); [apply lookup_insert_eq|].
  cbn [set_f_refcount f_pos f_vnode]. unfold seek_target in Hend.
  destruct (whence =? SEEK_SET); [apply wp_bind, wp_ret; by apply (Hend s1 (Some _))|].
  destruct (whence =? SEEK_CUR); [apply wp_bind, wp_ret; by apply (Hend s1 (Some _))|].
  destruct (whence =? SEEK_END); [|apply wp_bind, wp_ret; by apply (Hend s1 None)].
  wp_use (wp_vlock fs); [done|by eexists|apply not_elem_of_nil|]. intros s2 Hok2 Hk2.
  destruct (keeps_vnode fs _ _ _ _ _ _ _ _ _ _ Hok1 Hok2 Hk2 Hv) as (v2 & Hv2 & Ev).
  { rewrite (refs_keeps fs _ _ _ _ Hk2).
    apply held_refs; [done|]. by eapply live_pos; [exact Hok| |]. }
  wp_use wp_vn_get; [done|]. wp_use (wp_vunlock fs); [done|by eexists|apply not_elem_of_nil|].
  intros s3 Hok3 Hk3. apply wp_ret, (Hend s3 (Some _)); [done|by etrans|]. by rewrite Ev.
Qed.
End fd_proofs.
