(* ===== verification/NamevProofs.v ===== *)
(** Path resolution ([fs/namev.c]) walks the components of the path from the
    root or the base directory. *)

From S2P Require Import Prelude CString Mobj Vnode File Namev VfsSpec VnodeProofs FileProofs.

(** ** Components of a path *)

Definition is_slash (c : Z) : bool := c =? slash.

(** The components of a path: its maximal runs of other bytes. *)
Definition components (path : list Z) : list (list Z) := words is_slash path.

Lemma skip_slashes_app a p :
  Forall (fun c => is_slash c = true) a -> skip_slashes (a ++ p) = skip_slashes p.
Proof. induction 1 as [|c a Hc _ IH]; [done|]. cbn. unfold is_slash in Hc. by rewrite Hc. Qed.

Lemma skip_slashes_word w r :
  Forall (fun c => is_slash c = false) w -> (w = [] -> r = []) -> skip_slashes (w ++ r) = w ++ r.
Proof.
  intros Hw Hr. destruct Hw as [|c w Hc _]; [by rewrite Hr|]. cbn. unfold is_slash in Hc. by rewrite Hc.
Qed.

Lemma scan_token_word w r len :
  nonul w -> Forall (fun c => is_slash c = false) w -> at_boundary is_slash r ->
  scan_token (w ++ r) len = (len + Z.of_nat (length w), r).
Proof.
  intros Hn Hw Hr. revert len. induction Hw as [|c w Hc _ IH]; intros len.
  - cbn [length app]. rewrite Z.add_0_r. destruct r as [|c r]; [done|]. cbn in Hr |- *.
    unfold is_slash in Hr. by rewrite Hr, orb_true_r.
  - inversion_clear Hn as [|? ? Hc0 Hn']. cbn [app scan_token length]. unfold is_slash in Hc.
    rewrite Hc, (proj2 (Z.eqb_neq c 0)) by lia. cbn [orb]. rewrite IH by done. f_equal. lia.
Qed.

(** One call of [namev_tokenize]: the first component, if there is one, and the
    rest of the path. *)
Lemma namev_tokenize_split p :
  nonul p ->
  exists u w r, p = u ++ w ++ r /\ at_boundary is_slash r
    /\ Forall (fun c => is_slash c = false) w
    /\ namev_tokenize (Some p) = (Some (w ++ r), Z.of_nat (length w), if decide (r = []) then None else Some r)
    /\ (w = [] /\ r = [] /\ components p = [] \/ w <> [] /\ components p = w :: components r).
Proof.
  intros Hp. destruct (words_split is_slash p) as (a & w & r & -> & Ha & Hw & Hr & He).
  exists a, w, r. apply Forall_app in Hp as [_ Hp]. pose proof Hp as [Hpw Hpr]%Forall_app.
  split_and!; [done|done|done| |].
  - unfold namev_tokenize. rewrite skip_slashes_app, skip_slashes_word by done.
    rewrite scan_token_word by done. rewrite Z.add_0_l. f_equal.
    destruct r as [|c r]; [done|]. cbn. inversion_clear Hpr.
    rewrite (proj2 (Z.eqb_neq c 0)) by lia. by rewrite decide_False.
  - unfold components. rewrite words_skip by done. destruct (decide (w = [])) as [->|Hne].
    + left. by rewrite He.
    + right. split; [done|]. by apply words_word.
Qed.

(** The rest of a path after its slashes. *)
Lemma skip_slashes_split r :
  exists u, r = u ++ skip_slashes r /\ Forall (fun c => is_slash c = true) u
            /\ components (skip_slashes r) = components r
            /\ (skip_slashes r = [] <-> components r = []).
Proof.
  induction r as [|c r (u & Hu & Hs & Hc & He)]; [by exists []|]. cbn [skip_slashes].
  change (c =? slash) with (is_slash c). destruct (is_slash c) eqn:E.
  - exists (c :: u). unfold components in *. cbn [words]. rewrite E.
    split_and!; [cbn; by rewrite <- Hu|by constructor|done|done].
  - exists []. split_and!; [done|constructor|done|]. split; [done|].
    unfold components. cbn [words]. rewrite E.
    destruct (words is_slash r); [done|]. by case_match.
Qed.

(** ** Walking the tree *)

(** The inode that a list of components leads to, or the error. *)
Fixpoint walk (t : tree) (i : Z) (cs : list (list Z)) : Z + Z :=
  match cs with
  | [] => inr i
  | c :: cs =>
      match t !! i with
      | Some (DirView es) =>
          match assoc c es with
          | Some j => walk t j cs
          | None => inl (- ENOENT)
          end
      | _ => inl (- ENOTDIR)
      end
  end.

Lemma walk_cons t i c cs :
  walk t i (c :: cs) = match walk t i [c] with inr j => walk t j cs | inl e => inl e end.
Proof. cbn. by repeat case_match. Qed.

Lemma walk_error t i cs e : walk t i cs = inl e -> e <? 0 = true.
Proof.
  revert i. induction cs as [|c cs IH]; intros i; [done|]. cbn.
  repeat case_match; intros; simplify_eq; try done. by eapply IH.
Qed.

(** Dropping inodes that nothing leads to does not change a walk. *)
Lemma walk_sub t t' i cs :
  t' ⊆ t -> tree_closed t' -> is_Some (t' !! i) -> walk t' i cs = walk t i cs.
Proof.
  intros Hsub Hcl. revert i. induction cs as [|c cs IH]; intros i [w Hi]; [done|].
  assert (t !! i = Some w) as Hi' by by eapply lookup_weaken.
  cbn [walk]. rewrite Hi, Hi'. destruct w as [es| |]; [|done|done].
  destruct (assoc c es) as [j|] eqn:E; [|done]. apply IH.
  eapply Hcl; [done|]. by eapply assoc_elem.
Qed.

(** The last component, which [namev_dir] does not look up. *)
Definition basename (cs : list (list Z)) : list Z := default (str ".") (last cs).

(** The name that [namev_dir] returns: a pointer to the last component. *)
Definition name_of (path name : list Z) (n : Z) : Prop :=
  exists r, name = basename (components path) ++ r /\ n = Z.of_nat (length (basename (components path)))
            /\ Forall (fun c => is_slash c = true) r
            /\ (components path = [] -> r = [])
            /\ (components path <> [] -> exists u, path = u ++ name).

Lemma component_word w :
  w <> [] -> Forall (fun c => is_slash c = false) w -> nonul w -> component w.
Proof.
  intros Hne Hw Ha. split; [done|]. unfold nonul in Ha. rewrite Forall_forall in *. intros c Hc.
  specialize (Hw c Hc). specialize (Ha c Hc). unfold is_slash in Hw. apply Z.eqb_neq in Hw. done.
Qed.

Lemma name_of_root path : components path = [] -> name_of path (str ".") 1.
Proof. intros H. exists []. unfold basename. rewrite H. by split_and!. Qed.

Lemma name_of_last u w r :
  components (u ++ w ++ r) = [w] -> Forall (fun c => is_slash c = true) r ->
  name_of (u ++ w ++ r) (w ++ r) (Z.of_nat (length w)).
Proof. intros H Hr. exists r. unfold basename. rewrite H. split_and!; eauto. by intros. Qed.

Lemma name_of_tail u w r r' name n :
  components (u ++ w ++ r) = w :: components r' -> components r' <> [] ->
  (exists u', r = u' ++ r') -> name_of r' name n -> name_of (u ++ w ++ r) name n.
Proof.
  intros Hc Hne [u' ->] (t & Hname & Hn & Ht & _ & Hsuf).
  assert (basename (components (u ++ w ++ u' ++ r')) = basename (components r')) as E.
  { rewrite Hc. unfold basename. by destruct (components r'). }
  exists t. rewrite E. split_and!; [done|done|done|by rewrite Hc|].
  intros _. destruct (Hsuf Hne) as [v ->]. exists (u ++ w ++ u' ++ v). by rewrite <- !app_assoc.
Qed.

Lemma basename_ok path :
  basename (components path) <> []
  /\ Forall (fun c => is_slash c = false) (basename (components path)).
Proof.
  unfold basename. destruct (last (components path)) as [w|] eqn:E.
  - pose proof (words_ok is_slash path) as H. rewrite Forall_forall in H. apply H.
    apply last_Some_elem_of in E. done.
  - by repeat constructor.
Qed.

Lemma basename_component path : nonul path -> component (basename (components path)).
Proof.
  intros Hp. destruct (basename_ok path). apply component_word; [done|done|].
  unfold basename. destruct (last (components path)) as [w|] eqn:E; [|by repeat constructor].
  pose proof (words_Forall _ is_slash path Hp) as Hw. rewrite Forall_forall in Hw.
  apply Hw. by apply last_Some_elem_of.
Qed.

Lemma name_of_nonul path name n : nonul path -> name_of path name n -> nonul name.
Proof.
  intros Hp (r & -> & _ & _ & He & Hs). destruct (decide (components path = [])) as [E|E].
  - rewrite (He E), E. by repeat constructor.
  - destruct (Hs E) as [u Hu]. rewrite Hu in Hp. by apply nonul_app in Hp as [_ ?].
Qed.

(** Whether slashes follow the last component. *)
Definition trailing (path : list Z) : bool :=
  bool_decide (components path <> []) && default false (is_slash <$> last path).

Lemma name_of_trailing path name n :
  name_of path name n -> (char_at name n =? slash) = trailing path.
Proof.
  intros (r & -> & -> & Hr & He & Hsuf). unfold char_at. rewrite Nat2Z.id, drop_app_length.
  unfold trailing. destruct (decide (components path = [])) as [E|E].
  { rewrite He, bool_decide_eq_false_2 by (try done; by intros []). done. }
  rewrite bool_decide_eq_true_2 by done. cbn [andb].
  destruct (Hsuf E) as [u Hu]. destruct (basename_ok path) as [Hne Hw].
  set (w := basename (components path)) in *. rewrite Hu, app_assoc.
  destruct r as [|c r].
  - rewrite app_nil_r, last_app. destruct (last w) as [c|] eqn:El.
    + cbn. rewrite Forall_forall in Hw. symmetry. apply Hw. by apply last_Some_elem_of.
    + by apply last_None in El.
  - rewrite last_app. destruct (last (c :: r)) as [c'|] eqn:El; [|by apply last_None in El].
    cbn. rewrite Forall_forall in Hr. change (c =? slash) with (is_slash c).
    rewrite (Hr c), (Hr c'); [done| |left]. by apply last_Some_elem_of.
Qed.

Lemma removelast_cons {A} (a : A) l : l <> [] -> removelast (a :: l) = a :: removelast l.
Proof. by destruct l. Qed.

Section namev_proofs.
Context {F V : Type} {mem : Memory} {drv : Drivers} (fs : fs_ops F V) {FD : FsData fs}.
Context (vops_of : vops -> vnode_ops (kst F V)) {FV : FsVops fs vops_of}.
Abbreviation K := (kst F V).
Abbreviation vfs_ok := (vfs_ok fs).
Abbreviation keeps := (keeps fs).
Abbreviation the_tree := (the_tree fs).
Implicit Types (s : K) (X Y L : list Z) (p q : Z).

Hypothesis mem_ok : oom = false.

Lemma vno_is_Some s p i : vno_of s p = Some i -> is_Some (k_vnodes s !! p).
Proof. unfold vno_of. intros (v & -> & _)%fmap_Some. eauto. Qed.

Lemma vnode_in_tree X Y L s p i :
  vfs_ok X Y L s -> vno_of s p = Some i -> is_Some (the_tree s !! i).
Proof.
  unfold vno_of. intros Hok (v & Hv & ->)%fmap_Some.
  destruct (fs_vnode _ _ p v (ok_fs _ _ _ _ _ Hok) Hv) as (w & Hw & _). eauto.
Qed.

Lemma walk_keeps X Y L X' Y' L' s s' p i cs :
  vfs_ok X Y L s -> vfs_ok X' Y' L' s' -> keeps s s' -> vno_of s' p = Some i ->
  walk (the_tree s') i cs = walk (the_tree s) i cs.
Proof.
  intros Hok Hok' Hk Hp. apply walk_sub.
  - apply (kp_tree _ _ _ Hk).
  - apply fs_closed, (ok_fs _ _ _ _ _ Hok').
  - by eapply vnode_in_tree.
Qed.

Lemma wp_namev_lookup X Y L p i name n (Q : Z * option Z -> K -> Prop) s :
  vfs_ok X Y L s -> vno_of s p = Some i -> p ∈ L ->
  nonul name -> 0 < n <= Z.of_nat (length name) -> component (take (Z.to_nat n) name) ->
  match walk (the_tree s) i [take (Z.to_nat n) name] with
  | inr j => forall q s', vfs_ok (q :: X) Y L s' -> keeps s s' -> vno_of s' q = Some j ->
                          Q (0, Some q) s'
  | inl e => Q (e, None) s
  end ->
  wp (namev_lookup vops_of p name n) Q s.
Proof.
  unfold vno_of. intros Hok (v & Hv & ->)%fmap_Some HL Hnn Hn Hc HQ.
  destruct (fs_vnode _ _ p v (ok_fs _ _ _ _ _ Hok) Hv) as (w & Hw & Hm & Ho & _).
  unfold namev_lookup. rewrite (proj2 (Z.eqb_neq n 0)) by lia. wp_use wp_vn_get; [done|].
  cbn [walk] in HQ. change (fs_tree fs (k_vnodes s) (fs_i s)) with (the_tree s) in Hw.
  rewrite Hw in HQ. rewrite Hm.
  destruct w as [es|b|blk d]; [|wp_steps; exact HQ|destruct blk; wp_steps; exact HQ].
  change (S_ISDIR (view_mode (DirView es))) with true.
  wp_use (wp_vn_vops fs vops_of); [done|done|]. rewrite Ho. cbn [view_ops].
  rewrite fs_dir_lookup. eapply wp_mono; [by eapply fs_lookup|].
  intros r s'. cbn beta. destruct (assoc _ es) as [j|].
  - intros (q & -> & Hok' & Hk' & Hq). by apply HQ.
  - by intros [-> ->].
Qed.

(** Giving up the reference to a directory for one to an entry of it. *)
Lemma wp_step_down X Y cur i name n (Q : Z * option Z -> K -> Prop) s :
  vfs_ok (cur :: X) Y [] s -> vno_of s cur = Some i ->
  nonul name -> 0 < n <= Z.of_nat (length name) -> component (take (Z.to_nat n) name) ->
  match walk (the_tree s) i [take (Z.to_nat n) name] with
  | inr j => forall q s', vfs_ok (q :: X) Y [] s' -> keeps s s' -> vno_of s' q = Some j ->
                          Q (0, Some q) s'
  | inl e => forall s', vfs_ok X Y [] s' -> keeps s s' -> Q (e, None) s'
  end ->
  wp (do! vlock cur;
      let! res := namev_lookup vops_of cur name n in
      do! vunlock cur;
      do! vput fs cur;
      ret res) Q s.
Proof.
  intros Hok Hcur Hnn Hn Hc HQ.
  wp_use (wp_vlock fs); [done|by eapply vno_is_Some|apply not_elem_of_nil|].
  intros s1 Hok1 Hk1.
  assert (vno_of s1 cur = Some i) as Hcur1.
  { eapply (vno_of_keeps fs); [exact Hok|exact Hok1|done|done|]. apply refs_elem. left. }
  wp_use wp_namev_lookup; [done|done|left|done|done|done|].
  rewrite (walk_keeps _ _ _ _ _ _ _ _ _ _ _ Hok Hok1 Hk1 Hcur1).
  destruct (walk _ _ _) as [e|j].
  - wp_use (wp_vunlock fs); [done|by eapply vno_is_Some|apply not_elem_of_nil|].
    intros s2 Hok2 Hk2. wp_use (wp_vput_nil fs); [done|]. intros s3 Hok3 Hk3.
    wp_steps. apply HQ; [done|]. by do 2 (etrans; [done|]).
  - intros q s2 Hok2 Hk2 Hq2.
    wp_use (wp_vunlock fs); [done| |apply not_elem_of_nil|].
    { apply (ok_refs _ _ _ _ _ Hok2), refs_elem. right. left. }
    intros s3 Hok3 Hk3.
    wp_use (wp_vput_nil fs); [by eapply vfs_ok_perm; [apply perm_swap|]|]. intros s4 Hok4 Hk4.
    wp_steps. apply HQ; [done|by do 3 (etrans; [done|])|].
    eapply (vno_of_keeps fs); [exact Hok2|exact Hok4|by etrans|done|]. apply refs_elem. left.
Qed.

(** The reference is given up in both branches that follow a lookup. *)
Lemma wp_put_branches {A} (lock unlock put : M K unit) (look : M K (Z * option Z))
    (k1 k2 : Z * option Z -> M K A) Q s :
  wp (do! lock; let! res := look in do! unlock; do! put; ret res)
     (fun res => wp (if res.1 <? 0 then k1 res else k2 res) Q) s ->
  wp (do! lock; let! res := look in do! unlock;
      if res.1 <? 0 then do! put; k1 res else do! put; k2 res) Q s.
Proof.
  unfold wp, bind, ret. destruct (lock s) as [[] s1|]; [|done].
  destruct (look s1) as [res s2|]; [|done]. destruct (unlock s2) as [[] s3|]; [|done].
  destruct (res.1 <? 0) eqn:E; destruct (put s3) as [[] s4|]; cbn beta; by rewrite ?E.
Qed.

Lemma wp_namev_dir_loop fuel X Y cur i path (Q : _ -> K -> Prop) s :
  (length path <= fuel)%nat -> nonul path ->
  vfs_ok (cur :: X) Y [] s -> vno_of s cur = Some i ->
  match walk (the_tree s) i (removelast (components path)) with
  | inr j => forall q name n s', vfs_ok (q :: X) Y [] s' -> keeps s s' -> vno_of s' q = Some j ->
               name_of path name n -> Q (0, Some (q, name, n)) s'
  | inl e => forall s', vfs_ok X Y [] s' -> keeps s s' -> Q (e, None) s'
  end ->
  wp (namev_dir_loop fs vops_of fuel cur (Some path)) Q s.
Proof.
  revert cur i path s. induction fuel as [|fuel IH]; intros cur i path s Hlen Hp Hok Hcur HQ;
    destruct (namev_tokenize_split path Hp) as (u & w & r & -> & Hr & Hw & Htok & Hcase);
    cbn [namev_dir_loop]; rewrite Htok; cbn beta iota;
    (destruct Hcase as [(-> & -> & Hc)|[Hne Hc]];
     [rewrite Hc in HQ; apply HQ; [done|done|done|]; by eapply name_of_root|]).
  { destruct w as [|c w]; [done|]. rewrite !length_app in Hlen. cbn in Hlen. lia. }
  rewrite (proj2 (Z.eqb_neq (Z.of_nat (length w)) 0)) by (destruct w; [done|cbn; lia]).
  destruct (skip_slashes_split r) as (u' & Hu & Hsl & Hcr & Hempty).
  destruct (decide (components r = [])) as [Hlast|Hmore].
  - match goal with |- wp (if ?b then _ else _) _ _ => replace b with true end.
    2:{ case_decide; [done|]. cbn. by rewrite (proj2 Hempty). }
    wp_steps. rewrite Hc, Hlast in HQ. apply HQ; [done|done|done|].
    apply name_of_last; [by rewrite Hc, Hlast|]. rewrite Hu, (proj2 Hempty), app_nil_r by done. done.
  - assert (r <> []) as Hr0 by by intros ->. rewrite decide_False by done. cbn [fmap option_fmap option_map].
    assert (nonul (skip_slashes r)) as Hps.
    { rewrite Hu in Hp. unfold nonul in Hp. rewrite !Forall_app in Hp. by destruct_and!. }
    match goal with |- wp (if ?b then _ else _) _ _ => replace b with false end.
    2:{ destruct (skip_slashes r) as [|c0 r0] eqn:Es; [by destruct Hmore; apply Hempty|].
        inversion_clear Hps. cbn. symmetry. apply Z.eqb_neq. lia. }
    wp_steps. apply wp_put_branches. eapply wp_step_down; [done|done| | | |].
    { unfold nonul in Hp. rewrite Forall_app in Hp. by destruct_and!. }
    { rewrite length_app. destruct w; [done|cbn; lia]. }
    { rewrite Nat2Z.id, take_app_length. apply component_word; [done|done|].
      unfold nonul in Hp. rewrite !Forall_app in Hp. by destruct_and!. }
    rewrite Nat2Z.id, take_app_length. rewrite Hc in HQ.
    rewrite removelast_cons, walk_cons in HQ by done.
    destruct (walk (the_tree s) i [w]) as [e|j] eqn:Ew.
    + intros s1 Hok1 Hk1. cbn [fst]. rewrite (walk_error _ _ _ _ Ew). by apply HQ.
    + intros q s1 Hok1 Hk1 Hq. cbn [fst snd]. change (0 <? 0) with false. wp_steps.
      eapply IH; [|done|done|done|].
      { apply (f_equal length) in Hu. rewrite !length_app in *. destruct w; [done|]. cbn in *. lia. }
      rewrite Hcr, (walk_keeps _ _ _ _ _ _ _ _ _ _ _ Hok Hok1 Hk1 Hq).
      destruct (walk (the_tree s) j _) as [e|j'].
      * intros s2 Hok2 Hk2. apply HQ; [done|by etrans].
      * intros q2 name n s2 Hok2 Hk2 Hq2 Hname. apply HQ; [done|by etrans|done|].
        eapply (name_of_tail _ _ _ (skip_slashes r)); [by rewrite Hcr|by rewrite Hcr|by exists u'|done].
Qed.

(** The directory where a path starts. *)
Definition start_dir (base : Z) (path : list Z) (s : K) : Z :=
  if chr path =? slash then fs_root s else base.

Lemma wp_namev_dir X Y base i path (Q : _ -> K -> Prop) s :
  nonul path -> path <> [] -> vfs_ok X Y [] s -> vno_of s (start_dir base path s) = Some i ->
  match walk (the_tree s) i (removelast (components path)) with
  | inr j => forall q name n s', vfs_ok (q :: X) Y [] s' -> keeps s s' -> vno_of s' q = Some j ->
               name_of path name n -> Q (0, Some (q, name, n)) s'
  | inl e => forall s', vfs_ok X Y [] s' -> keeps s s' -> Q (e, None) s'
  end ->
  wp (namev_dir fs vops_of base path) Q s.
Proof.
  intros Hp Hne Hok Hi HQ. destruct path as [|c path]; [done|].
  inversion_clear Hp as [|? ? Hc Hp']. unfold namev_dir, start_dir in *. cbn [chr] in *.
  rewrite (proj2 (Z.eqb_neq c 0)) by lia. wp_steps.
  assert (forall cur (rest : list Z), vno_of s cur = Some i -> nonul rest -> (length rest <= S (length path))%nat ->
            components rest = components (c :: path) ->
            (forall name n, name_of rest name n -> name_of (c :: path) name n) ->
            wp (do! vref cur; namev_dir_loop fs vops_of (length (c :: path)) cur (Some rest)) Q s) as H.
  { intros cur rest Hcur Hap Hlen Hcomp Hname.
    wp_use (wp_vref fs); [done|by eapply vno_is_Some|]. intros s1 Hok1 Hk1.
    assert (vno_of s1 cur = Some i) as Hcur1.
    { eapply (vno_of_keeps fs); [exact Hok|exact Hok1|done|done|]. apply refs_elem. left. }
    eapply wp_namev_dir_loop; [done|done|done|done|].
    rewrite Hcomp, (walk_keeps _ _ _ _ _ _ _ _ _ _ _ Hok Hok1 Hk1 Hcur1).
    destruct (walk _ _ _) as [e|j].
    - intros s2 Hok2 Hk2. apply HQ; [done|by etrans].
    - intros q name n s2 Hok2 Hk2 Hq Hnm. apply HQ; [done|by etrans|done|by apply Hname]. }
  destruct (c =? slash) eqn:E.
  - apply H; [done|done|cbn; lia| |].
    + unfold components. cbn [words adv tail]. change (is_slash c) with (c =? slash). by rewrite E.
    + intros name n (r & ? & ? & ? & He & Hsuf).
      assert (components (c :: path) = components path) as Ec.
      { unfold components. cbn [words]. change (is_slash c) with (c =? slash). by rewrite E. }
      exists r. rewrite Ec. split_and!; try done. intros Hn. destruct (Hsuf Hn) as [u Hu].
      exists (c :: u). cbn. by rewrite <- Hu.
  - apply H; [done|by constructor|cbn; lia|done|done].
Qed.

(** ** [namev_open] of a path that is not created *)

(** The inode a path resolves to, or the error. *)
Definition resolve (t : tree) (i : Z) (path : list Z) : Z + Z :=
  match walk t i (removelast (components path)) with
  | inl e => inl e
  | inr d =>
      match t !! d with
      | Some (DirView _) =>
          let name := basename (components path) in
          if NAME_LEN <? Z.of_nat (length name) then inl (- ENAMETOOLONG)
          else match walk t d [name] with
               | inl e => inl e
               | inr j => match t !! j with
                          | Some (FileView _) => if trailing path then inl (- ENOTDIR) else inr j
                          | _ => inr j
                          end
               end
      | _ => inl (- ENOTDIR)
      end
  end.

(** The type of the vnode at an address. *)
Lemma vnode_view X Y L s p i :
  vfs_ok X Y L s -> vno_of s p = Some i ->
  exists v w, k_vnodes s !! p = Some v /\ the_tree s !! i = Some w /\ vn_mode v = view_mode w
              /\ vn_ops v = view_ops w /\ vn_vno v = i
              /\ (forall b, w = FileView b -> vn_len v = Z.of_nat (length b))
              /\ (forall blk d, w = DevView blk d -> vn_dev v = driver blk d).
Proof.
  unfold vno_of. intros Hok (v & Hv & ->)%fmap_Some.
  destruct (fs_vnode _ _ p v (ok_fs _ _ _ _ _ Hok) Hv) as (w & Hw & Hm & Ho & Hl).
  exists v, w. done.
Qed.

Lemma tree_keeps X Y L s s' p i :
  vfs_ok X Y L s' -> keeps s s' -> vno_of s' p = Some i -> the_tree s !! i = the_tree s' !! i.
Proof.
  intros Hok Hk Hp. destruct (vnode_in_tree _ _ _ _ _ _ Hok Hp) as [w Hw]. rewrite Hw.
  eapply lookup_weaken; [done|apply (kp_tree _ _ _ Hk)].
Qed.

(** A path of a call that does not create: the result of the walk, with one
    more reference to the vnode found. *)
Definition resolves X Y base path (Q : Z * option Z -> K -> Prop) s : Prop :=
  match vno_of s (start_dir base path s) with
  | None => False
  | Some i =>
      match resolve (the_tree s) i path with
      | inr j => forall q s', vfs_ok (q :: X) Y [] s' -> keeps s s' -> vno_of s' q = Some j ->
                              Q (0, Some q) s'
      | inl e => forall s', vfs_ok X Y [] s' -> keeps s s' -> Q (e, None) s'
      end
  end.

Lemma wp_open_branches (lock unlock put : M K unit) (look : M K (Z * option Z))
    (k : Z * option Z -> M K (Z * option Z)) Q s :
  wp (do! lock; let! res := look in do! unlock; do! put; ret res)
     (fun res => wp (if res.1 =? 0 then k res else ret res) Q) s ->
  wp (do! lock; let! res := look in
      if res.1 =? 0 then do! unlock; do! put; k res
      else let! res := ret res in do! unlock; do! put; ret res) Q s.
Proof.
  unfold wp, bind, ret. destruct (lock s) as [[] s1|]; [|done].
  destruct (look s1) as [res s2|]; [|done].
  destruct (res.1 =? 0) eqn:E; destruct (unlock s2) as [[] s3|]; try done;
    destruct (put s3) as [[] s4|]; cbn beta; by rewrite ?E.
Qed.

Lemma wp_namev_open_plain X Y base path oflags mode devid (Q : Z * option Z -> K -> Prop) s :
  has oflags O_CREAT = false -> nonul path -> path <> [] -> vfs_ok X Y [] s ->
  resolves X Y base path Q s ->
  wp (namev_open fs vops_of base path oflags mode devid) Q s.
Proof.
  intros Hcr Hp Hne Hok HQ. unfold resolves, resolve in HQ.
  destruct (vno_of s (start_dir base path s)) as [i|] eqn:Hi; [|done].
  unfold namev_open. wp_use wp_namev_dir; [done|done|done|done|].
  destruct (walk (the_tree s) i _) as [e|d]; [done|].
  intros dir name n s1 Hok1 Hk1 Hdir Hname.
  destruct (vnode_view _ _ _ _ _ _ Hok1 Hdir) as (vd & w & Hvd & Hw & Hm & _).
  rewrite (tree_keeps _ _ _ _ _ _ _ Hok1 Hk1 Hdir), Hw in HQ.
  rewrite (name_of_trailing _ _ _ Hname), Hcr, andb_false_r.
  pose proof (name_of_nonul _ _ _ Hp Hname) as Hnul.
  destruct Hname as (r & -> & -> & _). set (bn := basename (components path)) in *.
  destruct (basename_ok path) as [Hbn _]. pose proof (basename_component path Hp) as Hcomp.
  wp_use wp_vn_get; [done|]. rewrite Hm.
  assert (forall e, (forall s', vfs_ok X Y [] s' -> keeps s s' -> Q (e, None) s') ->
            wp (do! vput fs dir; ret (e, None)) Q s1) as Herr.
  { intros e HE. wp_use (wp_vput_nil fs); [done|]. intros s2 Hok2 Hk2. apply HE; [done|by etrans]. }
  destruct w as [es|b|blk dv]; [|by apply Herr|destruct blk; by apply Herr].
  change (negb (S_ISDIR (view_mode (DirView es)))) with false. cbn iota.
  destruct (NAME_LEN <? Z.of_nat (length bn)); [by apply Herr|].
  apply wp_open_branches. eapply wp_step_down; [done|done| | | |].
  { done. }
  { rewrite length_app. change (basename (components path)) with bn in Hbn. destruct bn; [done|cbn; lia]. }
  { by rewrite Nat2Z.id, take_app_length. }
  rewrite Nat2Z.id, take_app_length, (walk_keeps _ _ _ _ _ _ _ _ _ _ _ Hok Hok1 Hk1 Hdir).
  destruct (walk (the_tree s) d [bn]) as [e|j] eqn:Ew.
  - intros s2 Hok2 Hk2. cbn [fst]. apply walk_error in Ew.
    rewrite (proj2 (Z.eqb_neq e 0)) by lia. apply HQ; [done|by etrans].
  - intros q s2 Hok2 Hk2 Hq. cbn [fst snd]. change (0 =? 0) with true.
    wp_use wp_deref; [done|]. assert (keeps s s2) as Hk by by etrans.
    destruct (vnode_view _ _ _ _ _ _ Hok2 Hq) as (v & w & Hv & Hw2 & Hm2 & _).
    rewrite (tree_keeps _ _ _ _ _ _ _ Hok2 Hk Hq), Hw2 in HQ.
    wp_use wp_vn_get; [done|]. rewrite Hm2.
    destruct w as [es'|b|blk dv]; [by apply HQ| |destruct blk; by apply HQ].
    change (S_ISREG (view_mode (FileView b))) with true. cbn [andb].
    destruct (trailing path); [|by apply HQ].
    wp_use (wp_vput_nil fs); [done|]. intros s3 Hok3 Hk3. apply HQ; [done|by etrans].
Qed.
End namev_proofs.
