(* ===== verification/VfsNameProofs.v ===== *)
(** The calls that take a path: [namev_open] with and without [O_CREAT],
    [do_open], [do_mknod], [do_mkdir], [do_unlink] and [do_chdir], for any file
    system that keeps the contract of its operations. *)

From S2P Require Import Prelude CString Mobj Vnode File Namev VfsSyscall.
From S2P Require Import VfsSpec VnodeProofs FileProofs FdProofs NamevProofs.

(** ** Changes of the tree *)

(** An inode [j] that was not in the tree, under a new name of the directory [d]
    that the names [cs] lead to from [i].  As elsewhere, inodes that nothing
    leads to may be dropped. *)
Definition added (i : Z) (cs : list (list Z)) (d : Z) (key : list Z) (j : Z) (w : inode_view)
    (t t' : tree) : Prop :=
  exists t1 es es', t1 ⊆ t /\ tree_closed t1 /\ walk t1 i cs = inr d /\ t1 !! d = Some (DirView es) /\ t1 !! j = None
    /\ assoc key es = None /\ dir_add key j es es' /\ t' ⊆ <[j := w]> (<[d := DirView es']> t1).

(** The name of an inode, not a directory, of the directory [d] removed. *)
Definition removed (i : Z) (cs : list (list Z)) (d : Z) (key : list Z) (t t' : tree) : Prop :=
  exists t1 es es', t1 ⊆ t /\ tree_closed t1 /\ walk t1 i cs = inr d /\ t1 !! d = Some (DirView es)
    /\ (forall j es0, assoc key es = Some j -> t1 !! j <> Some (DirView es0))
    /\ dir_del key es es' /\ t' ⊆ <[d := DirView es']> t1.

Lemma added_sub i cs d key j w t t' t'' :
  added i cs d key j w t t' -> t'' ⊆ t' -> added i cs d key j w t t''.
Proof.
  intros (t1 & es & es' & ? & ? & ? & ? & ? & ? & ? & ?) Hs. exists t1, es, es'.
  split_and!; try done. by etrans.
Qed.

Lemma removed_sub i cs d key t t' t'' :
  removed i cs d key t t' -> t'' ⊆ t' -> removed i cs d key t t''.
Proof.
  intros (t1 & es & es' & ? & ? & ? & ? & ? & ? & ?) Hs. exists t1, es, es'. split_and!; try done. by etrans.
Qed.

(** The directory of a path. *)
Abbreviation dir_of path := (removelast (components path)).

(** What a path names: an inode, or a free name of a directory. *)
Inductive target : Type := Found (i : Z) | Free (d : Z) (name : list Z).

Definition open_target (t : tree) (i : Z) (path : list Z) : Z + target :=
  match walk t i (removelast (components path)) with
  | inl e => inl e
  | inr d =>
      match t !! d with
      | Some (DirView es) =>
          let name := basename (components path) in
          if trailing path then inl (- EINVAL)
          else if NAME_LEN <? Z.of_nat (length name) then inl (- ENAMETOOLONG)
          else match assoc name es with
               | Some j => inr (Found j)
               | None => inr (Free d name)
               end
      | _ => inl (- ENOTDIR)
      end
  end.

Section names.
Context {F V : Type} {mem : Memory} {drv : Drivers} (fs : fs_ops F V) {FD : FsData fs}.
Context (vops_of : vops -> vnode_ops (kst F V)) {FV : FsVops fs vops_of}.
Context {FF : FsFiles fs vops_of} {FN : FsDirs fs vops_of}.
Abbreviation K := (kst F V).
Abbreviation vfs_ok := (vfs_ok fs).
Abbreviation keeps := (keeps fs).
Abbreviation sys_ok := (sys_ok fs).
Abbreviation the_tree := (the_tree fs).
Implicit Types (s : K) (X Y L : list Z) (p q : Z).

Hypothesis mem_ok : oom = false.

(** The directory of a path, with its vnode and the name in it. *)
Lemma wp_parent X Y base i path (Q : _ -> K -> Prop) s :
  nonul path -> path <> [] -> vfs_ok X Y [] s -> vno_of s (start_dir base path s) = Some i ->
  let bn := basename (components path) in
  match walk (the_tree s) i (removelast (components path)) with
  | inr d => forall q v w r s', vfs_ok (q :: X) Y [] s' -> keeps s s' -> k_vnodes s' !! q = Some v ->
               vn_vno v = d -> the_tree s !! d = Some w -> the_tree s' !! d = Some w ->
               vn_mode v = view_mode w -> vn_ops v = view_ops w ->
               nonul (bn ++ r) -> (char_at (bn ++ r) (Z.of_nat (length bn)) =? slash) = trailing path ->
               Q (0, Some (q, bn ++ r, Z.of_nat (length bn))) s'
  | inl e => forall s', vfs_ok X Y [] s' -> keeps s s' -> Q (e, None) s'
  end ->
  wp (namev_dir fs vops_of base path) Q s.
Proof.
  intros Hp Hne Hok Hi bn HQ. eapply (wp_namev_dir fs vops_of mem_ok); [done..|].
  destruct (walk (the_tree s) i _) as [e|d]; [done|]. intros q name n s' Hok' Hk' Hq Hname.
  destruct (vnode_view fs _ _ _ _ _ _ Hok' Hq) as (v & w & Hv & Hw & Hm & Ho & Hd & _).
  pose proof (name_of_nonul _ _ _ Hp Hname) as Hnul. pose proof (name_of_trailing _ _ _ Hname) as Htr.
  destruct Hname as (r & -> & -> & _). eapply HQ; try done.
  by rewrite (tree_keeps fs _ _ _ _ _ _ _ Hok' Hk' Hq).
Qed.

(** The length and the bytes of the name. *)
Lemma bn_ok path r :
  nonul path -> let bn := basename (components path) in
  take (Z.to_nat (Z.of_nat (length bn))) (bn ++ r) = bn /\ component bn
  /\ 0 < Z.of_nat (length bn) <= Z.of_nat (length (bn ++ r)).
Proof.
  intros Hp bn. rewrite Nat2Z.id, take_app_length. split_and!; [done|by apply basename_component| |].
  - destruct (basename_ok path) as [Hbn _]. fold bn in Hbn. destruct bn; [done|cbn; lia].
  - rewrite length_app. lia.
Qed.

(** A vnode after a change of the tree. *)
Lemma stable_vno X Y L X' Y' L' s s' p i :
  vfs_ok X Y L s -> vfs_ok X' Y' L' s' -> stable s s' -> vno_of s p = Some i -> 0 < refs X' s' p ->
  vno_of s' p = Some i.
Proof.
  unfold vno_of. intros Hok Hok' Hst (v & Hv & ->)%fmap_Some Hr.
  destruct (ok_refs _ _ _ _ _ Hok' p Hr) as [v' Hv'].
  destruct (st_vno _ _ Hst p v') as (v0 & Hv0 & E); [|done|].
  { apply (ok_next_vnode _ _ _ _ _ Hok). eauto. }
  rewrite Hv'. cbn. congruence.
Qed.

(** A walk from a vnode that is still referred to. *)
Lemma walk_kept X Y L X' Y' L' s s' p i cs :
  vfs_ok X Y L s -> vfs_ok X' Y' L' s' -> keeps s s' -> vno_of s p = Some i -> p ∈ X' ->
  walk (the_tree s') i cs = walk (the_tree s) i cs.
Proof.
  intros Hok Hok' Hk Hp HX. eapply (walk_keeps fs _ _ _ _ _ _ _ _ p); [exact Hok|exact Hok'|done|].
  eapply (vno_of_keeps fs); [exact Hok|exact Hok'|done|done|by apply refs_elem].
Qed.

(** The directory is unlocked and given up. *)
Lemma wp_leave {A} X Y dir (r : A) (Q : A -> K -> Prop) s :
  vfs_ok (dir :: X) Y [dir] s ->
  (forall s', vfs_ok X Y [] s' -> keeps s s' -> Q r s') ->
  wp (do! vunlock dir; do! vput fs dir; ret r) Q s.
Proof.
  intros Hok HQ. wp_use (wp_vunlock fs); [done| |apply not_elem_of_nil|].
  { apply (ok_refs _ _ _ _ _ Hok), refs_elem. left. }
  intros s1 Hok1 Hk1. wp_use (wp_vput_nil fs); [done|]. intros s2 Hok2 Hk2. apply HQ; [done|by etrans].
Qed.

Lemma wp_put_ret {A} X Y p (r : A) (Q : A -> K -> Prop) s :
  vfs_ok (p :: X) Y [] s -> (forall s', vfs_ok X Y [] s' -> keeps s s' -> Q r s') ->
  wp (do! vput fs p; ret r) Q s.
Proof. intros Hok HQ. wp_use (wp_vput_nil fs); [done|]. done. Qed.

(** The inode is none of those the vnodes of the list stand for. *)
Definition fresh_inode X (j : Z) s : Prop := forall q i, q ∈ X -> vno_of s q = Some i -> i <> j.

Lemma wp_namev_create X Y base i path oflags mode devid (Q : Z * option Z -> K -> Prop) s :
  has oflags O_CREAT = true -> (S_ISCHR mode || S_ISBLK mode || S_ISREG mode) = true ->
  nonul path -> path <> [] -> Z.of_nat (length (basename (components path))) <> NAME_LEN ->
  vfs_ok X Y [] s -> vno_of s (start_dir base path s) = Some i -> start_dir base path s ∈ X ->
  match open_target (the_tree s) i path with
  | inl e => forall s', vfs_ok X Y [] s' -> keeps s s' -> Q (e, None) s'
  | inr (Found j) => forall q s', vfs_ok (q :: X) Y [] s' -> keeps s s' -> vno_of s' q = Some j ->
                                  Q (0, Some q) s'
  | inr (Free d key) =>
      (forall s', vfs_ok X Y [] s' -> keeps s s' -> Q (- ENOSPC, None) s')
      /\ forall q j s', vfs_ok (q :: X) Y [] s' -> stable s s' -> vno_of s' q = Some j -> fresh_inode X j s ->
           added i (dir_of path) d key j (new_view mode devid) (the_tree s) (the_tree s') -> Q (0, Some q) s'
  end ->
  wp (namev_open fs vops_of base path oflags mode devid) Q s.
Proof.
  intros Hcr Hmode Hp Hne H28 Hok Hi HX HQ. unfold open_target in HQ.
  unfold namev_open. wp_use wp_parent; [done..|].
  destruct (walk (the_tree s) i _) as [e|d] eqn:Ed; [done|].
  intros dir vd w r s1 Hok1 Hk1 Hvd Hd Hw Hw1 Hm Ho Hnul Htr. rewrite Hw in HQ.
  destruct (bn_ok path r Hp) as (Htake & Hcomp & Hlen). set (bn := basename (components path)) in *.
  wp_use wp_vn_get; [done|]. rewrite Hm, Htr, Hcr, andb_true_r.
  assert (forall e, (forall s', vfs_ok X Y [] s' -> keeps s s' -> Q (e, None) s') ->
            wp (do! vput fs dir; ret (e, None)) Q s1) as Herr.
  { intros e HE. eapply wp_put_ret; [done|]. intros s2 Hok2 Hk2. apply HE; [done|by etrans]. }
  destruct w as [es|b|blk dv]; [|by apply Herr|destruct blk; by apply Herr].
  change (negb (S_ISDIR (view_mode (DirView es)))) with false. cbn iota.
  destruct (trailing path); [by apply Herr|].
  destruct (NAME_LEN <? Z.of_nat (length bn)) eqn:E28; [by apply Herr|]. apply Z.ltb_ge in E28.
  wp_use (wp_vlock fs); [done|by eexists|apply not_elem_of_nil|]. intros s2 Hok2 Hk2.
  destruct (keeps_vnode fs _ _ _ _ _ _ _ _ _ _ Hok1 Hok2 Hk2 Hvd) as (v2 & Hv2 & Ev);
    [by apply refs_elem; left|].
  assert (vno_of s2 dir = Some d) as Hdir2.
  { unfold vno_of. rewrite Hv2. cbn. by rewrite (same_inode_vno _ _ Ev), Hd. }
  pose proof (tree_keeps fs _ _ _ _ _ _ _ Hok2 Hk2 Hdir2) as Et2. rewrite Hw1 in Et2.
  wp_use (wp_namev_lookup fs vops_of mem_ok); [done|done|left|done|done|by rewrite Htake|].
  rewrite Htake. cbn [walk]. rewrite <- Et2. destruct (assoc bn es) as [j|] eqn:Ha.
  - intros q s3 Hok3 Hk3 Hq. cbn [fst snd]. change (0 =? 0) with true. cbn iota.
    wp_use (wp_vunlock fs); [done| |apply not_elem_of_nil|].
    { apply (ok_refs _ _ _ _ _ Hok3), refs_elem. right. left. }
    intros s4 Hok4 Hk4. wp_use (wp_vput_nil fs); [by eapply vfs_ok_perm; [apply perm_swap|]|].
    intros s5 Hok5 Hk5. wp_use wp_deref; [done|].
    assert (vno_of s5 q = Some j) as Hq5.
    { eapply (vno_of_keeps fs); [exact Hok3|exact Hok5|by etrans|done|by apply refs_elem; left]. }
    destruct (vno_is_Some _ _ _ Hq5) as [v Hv]. wp_use wp_vn_get; [done|]. rewrite andb_false_r.
    apply HQ; [done| |done]. by do 4 (etrans; [done|]).
  - cbn [fst snd]. change (- ENOENT =? 0) with false. change (- ENOENT =? - ENOENT) with true.
    cbn [andb]. wp_use (wp_vn_vops fs vops_of); [done|done|]. rewrite Ev. cbn [set_vn_mobj vn_ops].
    rewrite Ho. cbn [view_ops]. rewrite fs_dir_mknod.
    assert (vn_vno v2 = d) as Hd2 by by rewrite (same_inode_vno _ _ Ev).
    wp_steps. eapply wp_mono.
    { eapply (fs_mknod _ _ _ s2 dir v2 es); try done; [left|by rewrite Hd2|lia|by rewrite Htake..]. }
    cbn beta. rewrite Htake, Hd2. destruct HQ as [HQ1 HQ2].
    intros res s3 [[-> ->]|(q & j & es' & -> & Hok3 & Hst3 & Hq & Hj & Hadd & Ht3)].
    + eapply wp_leave; [done|]. intros s4 Hok4 Hk4. apply HQ1; [done|]. do 2 (etrans; [done|]). done.
    + eapply wp_leave; [by eapply vfs_ok_perm; [apply perm_swap|]|]. intros s4 Hok4 Hk4.
      apply (HQ2 q j); [done| | | |].
      * etrans; [by eapply (keeps_stable fs)|]. etrans; [by eapply (keeps_stable fs)|].
        etrans; [done|by eapply (keeps_stable fs)].
      * eapply (vno_of_keeps fs); [exact Hok3|exact Hok4|done|done|by apply refs_elem; left].
      * intros q' i' HX' Hq' ->. assert (is_Some (the_tree s2 !! j)) as [? ?]; [|congruence].
        eapply (vnode_in_tree fs); [exact Hok2|]. eapply (vno_of_keeps fs); [exact Hok|exact Hok2|by etrans|exact Hq'|].
        apply refs_elem. by right.
      * eapply added_sub; [|apply (kp_tree _ _ _ Hk4)]. exists (the_tree s2), es, es'.
        assert (keeps s s2) as Hk by by etrans.
        split_and!; try done; [apply Hk|by apply (fs_closed _ _ (ok_fs _ _ _ _ _ Hok2))|].
        rewrite <- Ed. eapply walk_kept; [exact Hok|exact Hok2|done|done|by right].
Qed.

(** ** [fcreate] *)

(** A file object with no reference yet. *)
Lemma new_file_ok X Y L s mode p :
  vfs_ok X Y L s -> 0 <= mode <= FMODE_MAX_VALUE ->
  k_files s !! k_next s = None
  /\ vfs_ok X Y L (upd_file (k_next s) (File 0 mode 0 p) (set_k_next (k_next s + 1) s)).
Proof.
  intros Hok Hm.
  assert (k_files s !! k_next s = None) as Hfr.
  { apply eq_None_not_Some. intros H%(ok_next_file _ _ _ _ _ Hok). lia. }
  split; [done|]. set (s' := upd_file _ _ _).
  assert (forall q, refs X s' q = refs X s q) as Er.
  { intros q. unfold refs, file_refs. cbn.
    pose proof (count_insert_new (fun kx : Z * file => refers q kx.2) (k_files s) (k_next s) (File 0 mode 0 p) Hfr) as E.
    unfold count in E. rewrite E, one_false; [lia|]. by intros [_ ?]. }
  destruct Hok as [Hvn Hrf Hnd Hel Hun Hmx Hfi Hfd Hn Hnv Hnf Hlk Hfs]. split; try done.
  - intros q v Hv. rewrite Er. by apply Hvn.
  - intros q. rewrite Er. apply Hrf.
  - intros g x. cbn. destruct (decide (g = k_next s)) as [->|Hg].
    + rewrite lookup_insert_eq. intros [= <-]. split; [|done]. cbn.
      destruct (decide (0 < fd_refs Y s (k_next s))) as [H|H]; [by apply Hfd in H as [? ?]; simplify_eq|].
      unfold fd_refs in *. cbn in *. pose proof (occ_nonneg (k_next s) Y).
      pose proof (occ_nonneg (Some (k_next s)) (p_files s)). lia.
    + rewrite lookup_insert_ne by done. apply Hfi.
  - intros g Hg. apply lookup_insert_is_Some'. right. by apply Hfd.
  - intros q Hq. cbn. specialize (Hnv q Hq). lia.
  - intros g Hg. cbn in Hg |- *. apply lookup_insert_is_Some' in Hg. destruct Hg as [<-|Hg]; [lia|]. specialize (Hnf g Hg). lia.
Qed.

Lemma wp_fcreate X p n mode (Q : option Z -> K -> Prop) s :
  vfs_ok X [] [] s -> live_files s -> is_Some (k_vnodes s !! p) -> p_files s !! n = Some None ->
  0 <= mode <= FMODE_MAX_VALUE ->
  (forall s1, let g := k_next s in
     let s' := set_p_files (<[n := Some g]> (p_files s))
                 (set_k_files (<[g := File 0 mode 1 p]> (k_files s)) s1) in
     keeps s s1 -> k_files s !! g = None -> vfs_ok X [] [] s' -> live_files s' -> Q (Some g) s') ->
  wp (fcreate vops_of (Z.of_nat n) p mode) Q s.
Proof.
  intros Hok Hlive Hp Hn Hmode HQ. cbn zeta in HQ. set (g := k_next s) in *.
  destruct (new_file_ok X [] [] s mode p Hok Hmode) as [Hfr Hok0]. fold g in Hfr, Hok0.
  set (s0 := upd_file _ _ _) in Hok0.
  unfold fcreate, slab_obj_alloc, f_put. wp_steps. apply wp_kassert.
  { unfold p_file. by rewrite Nat2Z.id, Hn. }
  rewrite mem_ok. wp_steps.
  wp_use (wp_vref fs); [exact Hok0|done|]. intros s2 Hok2 Hk2.
  destruct (ok_refs _ _ _ _ _ Hok2 p) as [v Hv]; [by apply refs_elem; left|].
  wp_use (wp_vn_vops fs vops_of); [done|done|]. rewrite fs_acquire. unfold set_p_file, fref. wp_steps.
  assert (k_files s2 !! g = Some (File 0 mode 0 p)) as Hg2
    by (rewrite (kp_files _ _ _ Hk2); apply lookup_insert_eq).
  wp_use (wp_f_get g); [done|]. wp_use wp_kassert; [apply Z.leb_le; cbn; lia|]. unfold f_put. wp_steps.
  assert (occ (Some g) (p_files s) = 0) as Hocc.
  { pose proof (occ_nonneg (Some g) (p_files s)).
    destruct (decide (0 < fd_refs [] s g)) as [H0|H0]; [apply (ok_fds _ _ _ _ _ Hok) in H0 as [? ?]; congruence|].
    unfold fd_refs in H0. rewrite occ_nil in H0. lia. }
  assert (vfs_ok X [] [] (set_p_files (<[n := Some g]> (p_files s)) (upd_file g (File 0 mode 1 p) s2))) as Hok3.
  { assert (vfs_ok X [g] [] (upd_file g (File 0 mode 1 p) s2)) as Hok3.
    { eapply upd_file_ok; [exact Hok2|done| |done| |].
      - unfold fd_refs. replace (p_files s2) with (p_files s) by (symmetry; exact (kp_fds _ _ _ Hk2)). rewrite Hocc.
        occ_simpl. by rewrite one_true.
      - intros h Hh. occ_lia.
      - intros q. unfold refers. cbn. occ_lia; naive_solver. }
    assert (p_files (upd_file g (File 0 mode 1 p) s2) = p_files s) as Ep by exact (kp_fds _ _ _ Hk2).
    rewrite <- Ep. eapply set_fd_ok; [exact Hok3|by rewrite Ep|]. intros h. occ_lia. }
  specialize (HQ (set_k_files (k_files s) s2)).
  match type of HQ with _ -> _ -> _ -> _ -> Q _ ?t => set (t1 := t) in HQ end.
  assert (t1 = set_p_files (<[n := Some g]> (p_files s)) (upd_file g (File 0 mode 1 p) s2)) as Et.
  { unfold t1, upd_file. rewrite (kp_files _ _ _ Hk2). cbn. by rewrite insert_insert_eq. }
  match goal with |- Q _ ?t => replace t with t1 end.
  2:{ unfold t1. cbn. rewrite Nat2Z.id, (kp_files _ _ _ Hk2), (kp_fds _ _ _ Hk2). cbn.
      by rewrite insert_insert_eq. }
  apply HQ; [| done|by rewrite Et|].
  - destruct Hk2. split; try done; cbn in *; [lia|]. intros q v' Hq Hv'. apply kp_vnode; [lia|done].
  - intros h y. cbn. destruct (decide (h = g)) as [->|]; [rewrite lookup_insert_eq; by intros [= <-]|].
    rewrite lookup_insert_ne by done. apply Hlive.
Qed.

(** ** [do_open] *)

Lemma open_mode_range oflags : 0 <= open_mode oflags <= FMODE_MAX_VALUE.
Proof.
  unfold open_mode. destruct (oflags =? 0), (has oflags O_WRONLY), (has oflags O_APPEND), (has oflags O_RDWR);
    by vm_compute.
Qed.

(** Whether the flags ask for write access. *)
Definition writes (oflags : Z) : bool := has oflags O_WRONLY || has oflags O_RDWR.

(** The tree after [O_TRUNC] on inode [j]. *)
Definition truncated (oflags j : Z) (t : tree) : tree :=
  match t !! j with
  | Some (FileView _) => if has oflags O_TRUNC then <[j := FileView []]> t else t
  | _ => t
  end.

(** A descriptor [n] that was free is open on inode [j], at position 0. *)
Definition opened (n : nat) (j mode : Z) s s' : Prop :=
  exists g p, k_files s !! g = None /\ p_files s' = <[n := Some g]> (p_files s)
    /\ k_files s' = <[g := File 0 mode 1 p]> (k_files s) /\ vno_of s' p = Some j
    /\ stable s (set_p_files (p_files s) (set_k_files (k_files s) s')).

(** [do_open] on the vnode the path named. *)
Definition open_vnode (nfd p oflags : Z) : M K Z :=
  let! v := vn_get p in
  if S_ISDIR (vn_mode v) && (has oflags O_WRONLY || has oflags O_RDWR) then
    do! vput fs p; ret (- EISDIR)
  else if (S_ISCHR (vn_mode v) || S_ISBLK (vn_mode v))
          && (match vn_dev v with None => true | Some _ => false end) then
    do! vput fs p; ret (- ENXIO)
  else
    do! (if has oflags O_TRUNC && S_ISREG (vn_mode v) then
           let! ops := vn_vops vops_of p in
           match vop_truncate_file ops with Some tr => tr p | None => fail Fault end
         else ret tt);
    let! f := fcreate vops_of nfd p (open_mode oflags) in
    match f with
    | None => do! vput fs p; ret (- ENOMEM)
    | Some _ => do! vput fs p; ret nfd
    end.

(** [O_TRUNC], before the file is made. *)
Lemma wp_truncate X Y L q v j w oflags (Q : unit -> K -> Prop) s :
  vfs_ok X Y L s -> k_vnodes s !! q = Some v -> vn_vno v = j -> the_tree s !! j = Some w ->
  vn_mode v = view_mode w -> vn_ops v = view_ops w ->
  (forall s', vfs_ok X Y L s' -> stable s s' -> the_tree s' = truncated oflags j (the_tree s) -> Q tt s') ->
  wp (if has oflags O_TRUNC && S_ISREG (vn_mode v) then
        let! ops := vn_vops vops_of q in
        match vop_truncate_file ops with Some tr => tr q | None => fail Fault end
      else ret tt) Q s.
Proof.
  intros Hok Hv Hj Hw Hm Ho HQ. rewrite Hm. unfold truncated in HQ. rewrite Hw in HQ.
  destruct (has oflags O_TRUNC), w as [es|b|[] d]; cbn [andb S_ISREG];
    try (apply wp_ret; by apply HQ).
  change (S_ISREG (view_mode (FileView b))) with true. cbn iota.
  wp_use (wp_vn_vops fs vops_of); [done|done|]. rewrite Ho. cbn [view_ops]. rewrite fs_file_truncate.
  eapply wp_mono; [eapply fs_truncate; [done|done|by rewrite Hj]|].
  intros [] s' (Hok' & Hst & Ht). apply HQ; [done|done|]. by rewrite Ht, Hj.
Qed.

(** Everything but the descriptors and the open files. *)
Lemma stable_files s1 s2 s4 ps ks :
  keeps s1 s2 -> keeps (set_p_files ps (set_k_files ks s2)) s4 ->
  stable s1 (set_p_files (p_files s1) (set_k_files (k_files s1) s4)).
Proof.
  intros Hk2 Hk4. pose proof (keeps_stable fs _ _ Hk2) as []. pose proof (keeps_stable fs _ _ Hk4) as [].
  cbn in *. split; cbn; try done; try congruence; [lia|].
  intros q v' Hq Hv'. destruct (st_vno0 q v') as (v & Hv & ->); [lia|done|]. by apply st_vno.
Qed.

(** The file is made, and the reference of the walk given up. *)
Lemma wp_make_file X n q j w v oflags (Q : Z -> K -> Prop) s :
  vfs_ok (q :: X) [] [] s -> live_files s -> vno_of s q = Some j -> the_tree s !! j = Some w ->
  k_vnodes s !! q = Some v -> vn_mode v = view_mode w -> vn_ops v = view_ops w ->
  p_files s !! n = Some None ->
  (forall s', vfs_ok X [] [] s' -> live_files s' -> opened n j (open_mode oflags) s s' ->
     the_tree s' ⊆ truncated oflags j (the_tree s) -> Q (Z.of_nat n) s') ->
  wp (do! (if has oflags O_TRUNC && S_ISREG (vn_mode v) then
             let! ops := vn_vops vops_of q in
             match vop_truncate_file ops with Some tr => tr q | None => fail Fault end
           else ret tt);
      let! f := fcreate vops_of (Z.of_nat n) q (open_mode oflags) in
      match f with
      | None => do! vput fs q; ret (- ENOMEM)
      | Some _ => do! vput fs q; ret (Z.of_nat n)
      end) Q s.
Proof.
  intros Hok Hlive Hq Hw Hv Hm Ho Hn HQ.
  assert (vn_vno v = j) as Hj by (unfold vno_of in Hq; rewrite Hv in Hq; by injection Hq).
  apply wp_bind. eapply wp_truncate; try done. intros s1 Hok1 Hst1 Ht1.
  wp_use wp_fcreate; [exact Hok1| | | | |].
  - unfold live_files. by rewrite (st_files _ _ Hst1).
  - apply (ok_refs _ _ _ _ _ Hok1), refs_elem. left.
  - by rewrite (st_fds _ _ Hst1).
  - apply open_mode_range.
  - intros s2 g s3 Hk2 Hfr Hok3 Hlive3. eapply wp_put_ret; [exact Hok3|]. intros s4 Hok4 Hk4.
    assert (vno_of s1 q = Some j) as Hq1.
    { eapply stable_vno; [exact Hok|exact Hok1|done|done|by apply refs_elem; left]. }
    assert (vno_of s2 q = Some j) as Hq2.
    { destruct (ok_refs _ _ _ _ _ Hok3 q) as [v3 Hv3]; [by apply refs_elem; left|].
      unfold vno_of in Hq1 |- *. apply fmap_Some in Hq1 as (v1 & Hv1 & ->).
      destruct (kp_vnode _ _ _ Hk2 q v3) as (v0 & Hv0 & E); [|exact Hv3|].
      { apply (ok_next_vnode _ _ _ _ _ Hok1). eauto. }
      change (k_vnodes s3) with (k_vnodes s2) in Hv3. rewrite Hv3. cbn.
      rewrite E. cbn. congruence. }
    apply HQ; [done| | |].
    + unfold live_files. by rewrite (kp_files _ _ _ Hk4).
    + exists g, q. rewrite (kp_fds _ _ _ Hk4), (kp_files _ _ _ Hk4).
      cbn. rewrite <- (st_files _ _ Hst1), <- (st_fds _ _ Hst1).
      split_and!; try done; [|etrans; [exact Hst1|]; by eapply stable_files].
      eapply (vno_of_keeps fs); [exact Hok3|exact Hok4|done|done|].
      eapply (file_refs_pos _ g (File 0 (open_mode oflags) 1 q)); [|done].
      rewrite (kp_files _ _ _ Hk4). apply lookup_insert_eq.
    + rewrite <- Ht1. etrans; [apply Hk4|]. apply (kp_tree _ _ _ Hk2).
Qed.

Lemma wp_open_vnode X n q j w oflags (Q : Z -> K -> Prop) s :
  vfs_ok (q :: X) [] [] s -> live_files s -> vno_of s q = Some j -> the_tree s !! j = Some w ->
  p_files s !! n = Some None ->
  (forall e s', match w with
                | DirView _ => writes oflags = true /\ e = - EISDIR
                | DevView blk d => driver blk d = None /\ e = - ENXIO
                | FileView _ => False
                end -> vfs_ok X [] [] s' -> keeps s s' -> Q e s') ->
  (forall s', match w with
              | DirView _ => writes oflags = false
              | DevView blk d => is_Some (driver blk d)
              | FileView _ => True
              end ->
     vfs_ok X [] [] s' -> live_files s' -> opened n j (open_mode oflags) s s' ->
     the_tree s' ⊆ truncated oflags j (the_tree s) -> Q (Z.of_nat n) s') ->
  wp (open_vnode (Z.of_nat n) q oflags) Q s.
Proof.
  intros Hok Hlive Hq Hw Hn Herr HQ. unfold open_vnode.
  destruct (vnode_view fs _ _ _ _ _ _ Hok Hq) as (v & w' & Hv & Hw' & Hm & Ho & Hj & _ & Hdev).
  assert (w' = w) as -> by congruence. apply wp_bind. eapply wp_vn_get; [done|].
  unfold writes in *. destruct w as [es|b|blk d].
  - assert (S_ISDIR (vn_mode v) = true) as -> by by rewrite Hm. cbn [andb].
    destruct (has oflags O_WRONLY || has oflags O_RDWR).
    + eapply wp_put_ret; [done|]. intros s' Hok' Hk'. by apply Herr.
    + assert ((S_ISCHR (vn_mode v) || S_ISBLK (vn_mode v)) = false) as -> by by rewrite Hm.
      eapply wp_make_file; try done. intros s'. by apply HQ.
  - assert (S_ISDIR (vn_mode v) = false) as -> by by rewrite Hm.
    assert ((S_ISCHR (vn_mode v) || S_ISBLK (vn_mode v)) = false) as -> by by rewrite Hm.
    eapply wp_make_file; try done. intros s'. by apply HQ.
  - assert (S_ISDIR (vn_mode v) = false) as -> by (rewrite Hm; by destruct blk).
    assert ((S_ISCHR (vn_mode v) || S_ISBLK (vn_mode v)) = true) as -> by (rewrite Hm; by destruct blk).
    cbn [andb]. rewrite (Hdev _ _ eq_refl). destruct (driver blk d).
    + eapply wp_make_file; try done. intros s'. by apply HQ.
    + eapply wp_put_ret; [done|]. intros s' Hok' Hk'. by apply Herr.
Qed.

(** The access that flags give. *)
Definition access_mode (oflags mode : Z) : Prop :=
  has mode FMODE_READ = (oflags =? 0) || has oflags O_RDWR
  /\ has mode FMODE_WRITE = has oflags O_WRONLY || has oflags O_RDWR
  /\ has mode FMODE_APPEND = has oflags O_APPEND.

Lemma open_mode_access oflags : access_mode oflags (open_mode oflags).
Proof.
  unfold access_mode, open_mode.
  destruct (oflags =? 0), (has oflags O_WRONLY), (has oflags O_APPEND), (has oflags O_RDWR); by vm_compute.
Qed.

(** What [do_open] opens. *)
Definition open_spec (t : tree) (i : Z) (path : list Z) (oflags : Z) : Z + target :=
  if has oflags O_CREAT then open_target t i path
  else match resolve t i path with inl e => inl e | inr j => inr (Found j) end.

Definition open_post (n : nat) (oflags i : Z) (path : list Z) (o : Z + target) (r : Z) s s' : Prop :=
  match o with
  | inl e => r = e /\ keeps s s'
  | inr (Found j) =>
      let ok := r = Z.of_nat n /\ opened n j (open_mode oflags) s s'
                /\ the_tree s' ⊆ truncated oflags j (the_tree s) in
      match the_tree s !! j with
      | Some (DirView _) => if writes oflags then r = - EISDIR /\ keeps s s' else ok
      | Some (FileView _) => ok
      | Some (DevView blk d) => match driver blk d with Some _ => ok | None => r = - ENXIO /\ keeps s s' end
      | None => False
      end
  | inr (Free d key) =>
      r = - ENOSPC /\ keeps s s'
      \/ r = Z.of_nat n
         /\ exists j, opened n j (open_mode oflags) s s' /\ fresh_inode [fs_root s; p_cwd s] j s
                      /\ added i (dir_of path) d key j (FileView []) (the_tree s) (the_tree s')
  end.

Lemma start_vno s path : sys_ok s -> exists i, vno_of s (start_dir (p_cwd s) path s) = Some i.
Proof.
  intros [Hok _]. destruct (ok_refs _ _ _ _ _ Hok (start_dir (p_cwd s) path s)) as [v Hv].
  { apply refs_elem. unfold start_dir. destruct (_ =? _); [left|right; left]. }
  exists (vn_vno v). unfold vno_of. by rewrite Hv.
Qed.

Lemma start_elem s path : start_dir (p_cwd s) path s ∈ [fs_root s; p_cwd s].
Proof. unfold start_dir. destruct (_ =? _); [left|right; left]. Qed.

Lemma sys_ok_same s s' X :
  X = [fs_root s; p_cwd s] -> vfs_ok X [] [] s' -> live_files s' ->
  fs_root s' = fs_root s -> p_cwd s' = p_cwd s -> sys_ok s'.
Proof. intros -> Hok Hl Hr Hc. split; [by rewrite Hr, Hc|done]. Qed.

Lemma live_keeps s s' : keeps s s' -> live_files s -> live_files s'.
Proof. intros Hk Hl. unfold live_files. by rewrite (kp_files _ _ _ Hk). Qed.

Lemma sys_ok_of_keeps s s' :
  sys_ok s -> keeps s s' -> vfs_ok [fs_root s; p_cwd s] [] [] s' -> sys_ok s'.
Proof.
  intros [_ Hl] Hk Hok. eapply (sys_ok_same s); [done|done|by eapply live_keeps|apply Hk|apply Hk].
Qed.

(** The descriptor is opened the same relative to the state before the walk. *)
Lemma opened_stable n j mode s s1 s' : stable s s1 -> opened n j mode s1 s' -> opened n j mode s s'.
Proof.
  intros Hst (g & p & H1 & H2 & H3 & H4 & H5). exists g, p.
  rewrite (st_files _ _ Hst), (st_fds _ _ Hst) in *. split_and!; try done. by etrans.
Qed.

Lemma opened_keeps n j mode s s1 s' : keeps s s1 -> opened n j mode s1 s' -> opened n j mode s s'.
Proof. intros Hk. apply opened_stable. by eapply (keeps_stable fs). Qed.

Lemma truncated_sub oflags j t t' w :
  t' ⊆ t -> t' !! j = Some w -> truncated oflags j t' ⊆ truncated oflags j t.
Proof.
  intros Hs Hw. unfold truncated. rewrite Hw, (lookup_weaken _ _ _ _ Hw Hs).
  destruct w; [done| |done]. destruct (has oflags O_TRUNC); [by apply insert_mono|done].
Qed.

Lemma truncated_new oflags j t : t !! j = Some (FileView []) -> truncated oflags j t = t.
Proof. intros H. unfold truncated. rewrite H. destruct (has oflags O_TRUNC); [by apply insert_id|done]. Qed.

(** The vnode found is opened. *)
Lemma wp_open_found path n i oflags q j s s1 (Q : Z -> K -> Prop) :
  sys_ok s -> vfs_ok (q :: [fs_root s; p_cwd s]) [] [] s1 -> keeps s s1 -> vno_of s1 q = Some j ->
  least_free (p_files s) n -> open_spec (the_tree s) i path oflags = inr (Found j) ->
  (forall r s', sys_ok s' -> open_post n oflags i path (inr (Found j)) r s s' -> Q r s') ->
  wp (open_vnode (Z.of_nat n) q oflags) Q s1.
Proof.
  intros Hsys Hok1 Hk1 Hq [Hn _] Hspec HQ. destruct (vnode_in_tree fs _ _ _ _ _ _ Hok1 Hq) as [w Hw].
  pose proof (tree_keeps fs _ _ _ _ _ _ _ Hok1 Hk1 Hq) as Ht. rewrite Hw in Ht.
  eapply wp_open_vnode; try done; [by eapply live_keeps, Hsys|by rewrite (kp_fds _ _ _ Hk1)| |].
  - intros e s' He Hok' Hk'. assert (keeps s s') as Hk by by etrans.
    apply HQ; [by eapply sys_ok_of_keeps|]. cbn. rewrite Ht.
    destruct w as [es|b|blk d]; [by destruct He as [-> ->]|done|by destruct He as [-> ->]].
  - intros s' Hdir Hok' Hl' Hop Hsub. pose proof (opened_keeps _ _ _ _ _ _ Hk1 Hop) as Hop'.
    assert (the_tree s' ⊆ truncated oflags j (the_tree s)) as Hsub'.
    { etrans; [done|]. eapply truncated_sub; [apply Hk1|done]. }
    apply HQ.
    + destruct Hop' as (? & ? & _ & _ & _ & _ & Hst). eapply (sys_ok_same s); [done|done|done|apply Hst|apply Hst].
    + cbn. rewrite Ht. destruct w as [es|b|blk d]; [by rewrite Hdir|done|by destruct Hdir as [? ->]].
Qed.

(** The vnode made is opened. *)
Lemma wp_open_added n oflags i path q j d key s s1 (Q : Z -> K -> Prop) :
  sys_ok s -> vfs_ok (q :: [fs_root s; p_cwd s]) [] [] s1 -> stable s s1 -> vno_of s1 q = Some j ->
  least_free (p_files s) n -> fresh_inode [fs_root s; p_cwd s] j s ->
  added i (dir_of path) d key j (FileView []) (the_tree s) (the_tree s1) ->
  (forall r s', least_free (p_files s) n -> sys_ok s' -> open_post n oflags i path (inr (Free d key)) r s s' -> Q r s') ->
  wp (open_vnode (Z.of_nat n) q oflags) Q s1.
Proof.
  intros Hsys Hok1 Hst1 Hq Hn Hnew Hadd HQ. pose proof Hn as [Hnf _].
  destruct (vnode_in_tree fs _ _ _ _ _ _ Hok1 Hq) as [w Hw].
  assert (w = FileView []) as ->.
  { destruct Hadd as (t1 & es & es' & _ & _ & _ & _ & _ & _ & _ & Hsub).
    pose proof (lookup_weaken _ _ _ _ Hw Hsub) as E. rewrite lookup_insert_eq in E. congruence. }
  eapply wp_open_vnode; try done.
  - unfold live_files. rewrite (st_files _ _ Hst1). apply Hsys.
  - by rewrite (st_fds _ _ Hst1).
  - intros s' _ Hok' Hl' Hop Hsub. rewrite truncated_new in Hsub by done.
    pose proof (opened_stable _ _ _ _ _ _ Hst1 Hop) as Hop'. apply HQ; [done| |].
    + destruct Hop' as (? & ? & _ & _ & _ & _ & Hst). eapply (sys_ok_same s); [done|done|done|apply Hst|apply Hst].
    + right. split; [done|]. exists j. split; [done|]. split; [done|]. by eapply added_sub.
Qed.

Lemma open_spec_error t i path oflags e : open_spec t i path oflags = inl e -> e < 0.
Proof.
  assert (forall cs k e', walk t k cs = inl e' -> e' < 0) as Hw.
  { intros cs k e' H. apply walk_error in H. lia. }
  unfold open_spec, open_target, resolve. intros H.
  repeat case_match; simplify_eq; try done; by eapply Hw.
Qed.

Lemma wp_do_open path oflags i s (Q : Z -> K -> Prop) :
  sys_ok s -> nonul path -> path <> [] -> vno_of s (start_dir (p_cwd s) path s) = Some i ->
  (has oflags O_CREAT = true -> Z.of_nat (length (basename (components path))) <> NAME_LEN) ->
  (has oflags O_WRONLY = true -> has oflags O_RDWR = true -> Q (- EINVAL) s) ->
  ((forall o, o ∈ p_files s -> o <> None) -> Q (- EMFILE) s) ->
  (forall n r s', least_free (p_files s) n -> sys_ok s' ->
     open_post n oflags i path (open_spec (the_tree s) i path oflags) r s s' -> Q r s') ->
  wp (do_open fs vops_of path oflags) Q s.
Proof.
  intros Hsys Hp Hne Hi H28 HE HM HQ. pose proof Hsys as [Hok Hlive]. unfold do_open.
  assert ((oflags =? 0) && has oflags O_WRONLY = false) as ->.
  { destruct (Z.eqb_spec oflags 0) as [->|]; done. }
  rewrite orb_false_r. destruct (has oflags O_WRONLY && has oflags O_RDWR) eqn:Ew.
  { apply andb_true_iff in Ew as [? ?]. by apply HE. }
  wp_use (wp_get_empty_fd fs); [done| |by intros; apply HM]. intros n Hn. cbn [fst snd].
  change (negb (0 =? 0)) with false. cbn iota. wp_steps. specialize (HQ n).
  assert (forall e s', vfs_ok [fs_root s; p_cwd s] [] [] s' -> keeps s s' ->
            open_spec (the_tree s) i path oflags = inl e -> Q e s') as Herr.
  { intros e s' Hok' Hk' E. apply HQ; [done|by eapply sys_ok_of_keeps|]. by rewrite E. }
  assert (forall q j s', vfs_ok (q :: [fs_root s; p_cwd s]) [] [] s' -> keeps s s' -> vno_of s' q = Some j ->
            open_spec (the_tree s) i path oflags = inr (Found j) ->
            wp (open_vnode (Z.of_nat n) q oflags) Q s') as Hfound.
  { intros q j s' Hok' Hk' Hq E. eapply wp_open_found; try done. intros r s2 Hs2 Hpost.
    apply HQ; [done|done|]. by rewrite E. }
  assert (forall e, open_spec (the_tree s) i path oflags = inl e -> e < 0) as Hneg
    by (intros e; apply open_spec_error).
  destruct (has oflags O_CREAT) eqn:Ecr.
  - eapply wp_namev_create; [done|done|done|done|by apply H28|done|done|by apply start_elem|].
    unfold open_spec in *. rewrite Ecr in *.
    destruct (open_target (the_tree s) i path) as [e|[j|d key]].
    + intros s' Hok' Hk'. cbn [fst]. rewrite (proj2 (Z.ltb_lt e 0)) by by apply Hneg. by apply Herr.
    + intros q s' Hok' Hk' Hq. cbn [fst snd]. change (0 <? 0) with false. cbn iota.
      wp_use wp_deref; [done|]. by eapply Hfound.
    + split.
      * intros s' Hok' Hk'. apply HQ; [done|by eapply sys_ok_of_keeps|by left].
      * intros q j s' Hok' Hst' Hq Hnew Hadd. cbn [fst snd]. change (0 <? 0) with false. cbn iota.
        wp_use wp_deref; [done|]. by eapply wp_open_added.
  - eapply (wp_namev_open_plain fs vops_of mem_ok); [done..|]. unfold resolves. rewrite Hi.
    unfold open_spec in *. rewrite Ecr in *. destruct (resolve (the_tree s) i path) as [e|j].
    + intros s' Hok' Hk'. cbn [fst]. rewrite (proj2 (Z.ltb_lt e 0)) by by apply Hneg. by apply Herr.
    + intros q s' Hok' Hk' Hq. cbn [fst snd]. change (0 <? 0) with false. cbn iota.
      wp_use wp_deref; [done|]. by eapply Hfound.
Qed.
End names.
