(* ===== verification/VfsDirProofs.v ===== *)
(** [do_mknod], [do_mkdir], [do_unlink] and [do_chdir], for any file system
    that keeps the contract of its operations. *)

From S2P Require Import Prelude CString Mobj Vnode File Namev VfsSyscall.
From S2P Require Import VfsSpec VnodeProofs FileProofs FdProofs NamevProofs VfsNameProofs.

(** What [do_mkdir] and [do_unlink] find under a path: [Found] with the inode,
    or the free name. *)
Definition dir_target (t : tree) (i : Z) (path : list Z) : Z + (Z * target) :=
  match walk t i (removelast (components path)) with
  | inl e => inl e
  | inr d =>
      let name := basename (components path) in
      if NAME_LEN <? Z.of_nat (length name) then inl (- ENAMETOOLONG)
      else match t !! d with
           | Some (DirView es) =>
               match assoc name es with
               | Some j => inr (d, Found j)
               | None => inr (d, Free d name)
               end
           | _ => inl (- ENOTDIR)
           end
  end.

Section calls.
Context {F V : Type} {mem : Memory} {drv : Drivers} (fs : fs_ops F V) {FD : FsData fs}.
Context (vops_of : vops -> vnode_ops (kst F V)) {FV : FsVops fs vops_of}.
Context {FF : FsFiles fs vops_of} {FN : FsDirs fs vops_of}.
Abbreviation K := (kst F V).
Abbreviation vfs_ok := (vfs_ok fs).
Abbreviation keeps := (keeps fs).
Abbreviation sys_ok := (sys_ok fs).
Abbreviation the_tree := (the_tree fs).
Implicit Types (s : K) (X Y L : list Z) (p q : Z).

Hypothesis mem_ok : oom = false.

(** The system's state after a change of the tree. *)
Lemma sys_ok_stable s s' :
  sys_ok s -> stable s s' -> vfs_ok [fs_root s; p_cwd s] [] [] s' -> sys_ok s'.
Proof.
  intros [_ Hl] Hst Hok. eapply (sys_ok_same fs s); [done|done| |apply Hst|apply Hst].
  unfold live_files. by rewrite (st_files _ _ Hst).
Qed.

(** ** [do_mknod] *)

Definition mknod_post mode devid i path (o : Z + target) (r : Z) s s' : Prop :=
  match o with
  | inl e => r = e /\ keeps s s'
  | inr (Found j) => r = 0 /\ keeps s s'
  | inr (Free d key) =>
      r = - ENOSPC /\ keeps s s'
      \/ r = 0 /\ stable s s' /\ exists j, added i (dir_of path) d key j (new_view mode devid) (the_tree s) (the_tree s')
  end.

Lemma wp_do_mknod path mode devid i s (Q : Z -> K -> Prop) :
  sys_ok s -> nonul path -> path <> [] -> vno_of s (start_dir (p_cwd s) path s) = Some i ->
  Z.of_nat (length (basename (components path))) <> NAME_LEN ->
  ((S_ISCHR mode || S_ISBLK mode || S_ISREG mode) = false -> Q (- EINVAL) s) ->
  (forall r s', sys_ok s' -> mknod_post mode devid i path (open_target (the_tree s) i path) r s s' -> Q r s') ->
  wp (do_mknod fs vops_of path mode devid) Q s.
Proof.
  intros Hsys Hp Hne Hi H28 HE HQ. pose proof Hsys as [Hok _]. unfold do_mknod.
  rewrite <- !negb_orb. destruct (S_ISCHR mode || S_ISBLK mode || S_ISREG mode) eqn:Em; [|by apply HE].
  cbn [negb]. wp_steps.
  eapply (wp_namev_create fs vops_of mem_ok); [done..|by apply start_elem|].
  destruct (open_target (the_tree s) i path) as [e|[j|d key]] eqn:Et.
  - intros s' Hok' Hk'. cbn [fst].
    assert (e < 0) as Hneg by by apply (open_spec_error (the_tree s) i path O_CREAT).
    rewrite (proj2 (Z.ltb_lt e 0)) by done. apply HQ; [by eapply sys_ok_of_keeps|done].
  - intros q s1 Hok1 Hk1 _. cbn [fst snd]. change (0 <? 0) with false. cbn iota.
    wp_use wp_deref; [done|]. eapply wp_put_ret; [done|]. intros s2 Hok2 Hk2.
    assert (keeps s s2) by by etrans. apply HQ; [by eapply sys_ok_of_keeps|done].
  - split; [intros s' Hok' Hk'; apply HQ; [by eapply sys_ok_of_keeps|by left]|].
    intros q j s1 Hok1 Hst1 _ _ Hadd. cbn [fst snd]. change (0 <? 0) with false. cbn iota.
    wp_use wp_deref; [done|]. eapply wp_put_ret; [done|]. intros s2 Hok2 Hk2.
    assert (stable s s2) by (etrans; [done|by eapply (keeps_stable fs)]).
    apply HQ; [by eapply sys_ok_stable|]. right. split_and!; [done|done|].
    exists j. eapply added_sub; [done|apply Hk2].
Qed.

(** ** [do_mkdir] *)

Definition mkdir_post i path (o : Z + (Z * target)) (r : Z) s s' : Prop :=
  match o with
  | inl e => r = e /\ keeps s s'
  | inr (_, Found _) => r = - EEXIST /\ keeps s s'
  | inr (_, Free d key) =>
      r = - ENOSPC /\ keeps s s'
      \/ r = 0 /\ stable s s'
         /\ exists j, added i (dir_of path) d key j (DirView [(str ".", j); (str "..", d)]) (the_tree s) (the_tree s')
  end.

(** A lookup in the parent, which stays locked. *)
Lemma wp_locked_lookup X Y dir v d w bn r (Q : Z * option Z -> K -> Prop) s :
  vfs_ok (dir :: X) Y [] s -> k_vnodes s !! dir = Some v -> vn_vno v = d -> the_tree s !! d = Some w ->
  nonul (bn ++ r) -> component bn -> 0 < Z.of_nat (length bn) <= Z.of_nat (length (bn ++ r)) ->
  (forall s1 v1, vfs_ok (dir :: X) Y [dir] s1 -> keeps s s1 -> k_vnodes s1 !! dir = Some v1 ->
     same_inode v v1 -> the_tree s1 !! d = Some w ->
     match w with
     | DirView es =>
         match assoc bn es with
         | Some j => forall q s', vfs_ok (q :: dir :: X) Y [dir] s' -> keeps s1 s' -> vno_of s' q = Some j ->
                                  Q (0, Some q) s'
         | None => Q (- ENOENT, None) s1
         end
     | _ => Q (- ENOTDIR, None) s1
     end) ->
  wp (do! vlock dir; namev_lookup vops_of dir (bn ++ r) (Z.of_nat (length bn))) Q s.
Proof.
  intros Hok Hv Hd Hw Hnul Hcomp Hlen HQ.
  wp_use (wp_vlock fs); [done|by eexists|apply not_elem_of_nil|]. intros s1 Hok1 Hk1.
  destruct (keeps_vnode fs _ _ _ _ _ _ _ _ _ _ Hok Hok1 Hk1 Hv) as (v1 & Hv1 & Ev);
    [by apply refs_elem; left|].
  assert (vno_of s1 dir = Some d) as Hdir1.
  { unfold vno_of. rewrite Hv1. cbn. by rewrite (same_inode_vno _ _ Ev), Hd. }
  pose proof (tree_keeps fs _ _ _ _ _ _ _ Hok1 Hk1 Hdir1) as Et. rewrite Hw in Et. symmetry in Et.
  specialize (HQ s1 v1 Hok1 Hk1 Hv1 Ev Et).
  eapply (wp_namev_lookup fs vops_of mem_ok); [done|done|left|done|done|by rewrite Nat2Z.id, take_app_length|].
  rewrite Nat2Z.id, take_app_length. cbn [walk]. rewrite Et.
  destruct w as [es|b|blk dv]; [|done|done]. by destruct (assoc bn es).
Qed.

(** The directory is unlocked, and the entry's vnode and the directory given up. *)
Lemma wp_leave_two {A} X Y dir q (r : A) (Q : A -> K -> Prop) s :
  vfs_ok (q :: dir :: X) Y [dir] s ->
  (forall s', vfs_ok X Y [] s' -> keeps s s' -> Q r s') ->
  wp (do! vunlock dir; do! vput fs q; do! vput fs dir; ret r) Q s.
Proof.
  intros Hok HQ. wp_use (wp_vunlock fs); [done| |apply not_elem_of_nil|].
  { apply (ok_refs _ _ _ _ _ Hok), refs_elem. right. left. }
  intros s1 Hok1 Hk1. wp_use (wp_vput_nil fs); [done|]. intros s2 Hok2 Hk2.
  wp_use (wp_vput_nil fs); [done|]. intros s3 Hok3 Hk3. apply HQ; [done|]. by do 2 (etrans; [done|]).
Qed.

Lemma wp_do_mkdir path i s (Q : Z -> K -> Prop) :
  sys_ok s -> nonul path -> path <> [] -> vno_of s (start_dir (p_cwd s) path s) = Some i ->
  Z.of_nat (length (basename (components path))) <> NAME_LEN ->
  (forall r s', sys_ok s' -> mkdir_post i path (dir_target (the_tree s) i path) r s s' -> Q r s') ->
  wp (do_mkdir fs vops_of path) Q s.
Proof.
  intros Hsys Hp Hne Hi H28 HQ. pose proof Hsys as [Hok _]. unfold do_mkdir, dir_target in *.
  assert (forall r s', vfs_ok [fs_root s; p_cwd s] [] [] s' -> keeps s s' -> sys_ok s') as Hsk
    by (intros; by eapply sys_ok_of_keeps).
  wp_use (wp_parent fs vops_of mem_ok); [done..|].
  destruct (walk (the_tree s) i _) as [e|d] eqn:Ed; [intros s' Hok' Hk'; apply HQ; eauto; done|].
  intros dir vd w r s1 Hok1 Hk1 Hvd Hd Hw Hw1 Hm Ho Hnul _. rewrite Hw in HQ.
  destruct (bn_ok path r Hp) as (Htake & Hcomp & Hlen). set (bn := basename (components path)) in *.
  destruct (NAME_LEN <? Z.of_nat (length bn)) eqn:E28.
  { eapply wp_put_ret; [done|]. intros s2 Hok2 Hk2. assert (keeps s s2) by by etrans. apply HQ; eauto; done. }
  apply Z.ltb_ge in E28. apply wp_assoc, wp_bind. eapply wp_locked_lookup; [done..|].
  intros s2 v2 Hok2 Hk2 Hv2 Ev Hw2. assert (keeps s s2) as Hk by by etrans.
  destruct w as [es|b|blk dv]; cycle 1.
  1,2: cbn [fst snd]; change (- ENOTDIR =? 0) with false; change (- ENOTDIR =? - ENOENT) with false;
    cbn [negb]; eapply wp_leave; [done|]; intros s3 Hok3 Hk3; assert (keeps s s3) by (by etrans);
    apply HQ; eauto; done.
  destruct (assoc bn es) as [j|] eqn:Ha.
  - intros q s3 Hok3 Hk3 Hq. cbn [fst snd]. change (0 =? 0) with true. cbn iota.
    apply (wp_leave_two [fs_root s; p_cwd s] [] dir q); [done|]. intros s4 Hok4 Hk4.
    assert (keeps s s4) by (do 2 (etrans; [done|]); done). apply HQ; eauto; done.
  - cbn [fst snd]. change (- ENOENT =? 0) with false. change (- ENOENT =? - ENOENT) with true. cbn [negb].
    wp_use wp_vn_get; [done|]. rewrite Ev. cbn [set_vn_mobj vn_mode]. rewrite Hm.
    change (S_ISDIR (view_mode (DirView es))) with true. cbn [negb].
    wp_use (wp_vn_vops fs vops_of); [done|done|]. rewrite Ev. cbn [set_vn_mobj vn_ops].
    rewrite Ho. cbn [view_ops]. rewrite fs_dir_mkdir.
    assert (vn_vno v2 = d) as Hd2 by by rewrite (same_inode_vno _ _ Ev).
    wp_steps. eapply wp_mono.
    { eapply (fs_mkdir _ _ _ s2 dir v2 es); try done; [left|by rewrite Hd2|lia|by rewrite Htake..]. }
    cbn beta. rewrite Htake, Hd2.
    intros res s3 [[-> ->]|(q & j & es' & -> & Hok3 & Hst3 & Hq & Hj & Hadd & Ht3)].
    + eapply wp_leave; [done|]. intros s4 Hok4 Hk4. assert (keeps s s4) by by etrans.
      apply HQ; eauto. by left.
    + cbn [fst snd]. change (0 <? 0) with false. cbn iota.
      apply (wp_leave_two [fs_root s; p_cwd s] [] dir q); [done|]. intros s4 Hok4 Hk4.
      assert (stable s s4) by (etrans; [by eapply (keeps_stable fs)|]; etrans; [done|]; by eapply (keeps_stable fs)).
      apply HQ; [by eapply sys_ok_stable|]. right. split_and!; [done|done|]. exists j.
      eapply added_sub; [|apply Hk4]. exists (the_tree s2), es, es'.
      split_and!; try done; [apply Hk|by apply (fs_closed _ _ (ok_fs _ _ _ _ _ Hok2))|].
      rewrite <- Ed. eapply walk_kept; [exact Hok|exact Hok2|done|done|right; apply start_elem].
Qed.

(** ** [do_unlink] *)

Definition unlink_post (i : Z) (path : list Z) (o : Z + (Z * target)) (r : Z) s s' : Prop :=
  match o with
  | inl e => r = e /\ keeps s s'
  | inr (_, Free _ _) => r = - ENOENT /\ keeps s s'
  | inr (d, Found j) =>
      match the_tree s !! j with
      | Some (DirView _) => r = - EPERM /\ keeps s s'
      | _ => r = 0 /\ stable s s'
             /\ removed i (dir_of path) d (basename (components path)) (the_tree s) (the_tree s')
      end
  end.

Lemma wp_unlink_entry i path s dir q v d es j w bn r s1 s2 (Q : Z -> K -> Prop) :
  sys_ok s -> vno_of s (start_dir (p_cwd s) path s) = Some i -> walk (the_tree s) i (dir_of path) = inr d ->
  vfs_ok (dir :: [fs_root s; p_cwd s]) [] [dir] s1 -> keeps s s1 ->
  k_vnodes s1 !! dir = Some v -> vn_vno v = d -> vn_ops v = VopsDir ->
  the_tree s1 !! d = Some (DirView es) -> assoc bn es = Some j ->
  vfs_ok (q :: dir :: [fs_root s; p_cwd s]) [] [dir] s2 -> keeps s1 s2 -> vno_of s2 q = Some j ->
  the_tree s2 !! j = Some w -> (forall es, w <> DirView es) ->
  nonul (bn ++ r) -> component bn -> 0 < Z.of_nat (length bn) <= Z.of_nat (length (bn ++ r)) ->
  (forall s', sys_ok s' -> stable s s' -> removed i (dir_of path) d bn (the_tree s) (the_tree s') -> Q 0 s') ->
  wp (let! ops := vn_vops vops_of dir in
      let! res := (match vop_unlink ops with
                   | Some unlink => unlink dir (bn ++ r) (Z.of_nat (length bn))
                   | None => fail Assert
                   end) in
      do! vunlock dir; do! vput fs q; do! vput fs dir; ret res) Q s2.
Proof.
  intros Hsys Hi Ed Hok1 Hk1 Hv Hd Ho Hw Ha Hok2 Hk2 Hq Hwq Hnd Hnul Hcomp Hlen HQ.
  destruct (keeps_vnode fs _ _ _ _ _ _ _ _ _ _ Hok1 Hok2 Hk2 Hv) as (v2 & Hv2 & Ev);
    [by apply refs_elem; right; left|].
  assert (vn_vno v2 = d) as Hd2 by by rewrite (same_inode_vno _ _ Ev).
  assert (vno_of s2 dir = Some d) as Hdir by (unfold vno_of; by rewrite Hv2, <- Hd2).
  pose proof (tree_keeps fs _ _ _ _ _ _ _ Hok2 Hk2 Hdir) as Et. rewrite Hw in Et.
  assert (take (Z.to_nat (Z.of_nat (length bn))) (bn ++ r) = bn) as Htake by by rewrite Nat2Z.id, take_app_length.
  wp_use (wp_vn_vops fs vops_of); [done|done|]. rewrite Ev. cbn [set_vn_mobj vn_ops]. rewrite Ho, fs_dir_unlink.
  wp_steps. eapply wp_mono.
  { eapply (fs_unlink _ _ _ s2 dir v2 es _ _ q j w); try done; [left|by rewrite Hd2|by rewrite Htake..|].
    rewrite list_elem_of_singleton. intros ->. rewrite Hdir in Hq. injection Hq as ->.
    rewrite <- Et in Hwq. destruct (Hnd es). congruence. }
  cbn beta. rewrite Htake, Hd2. intros res s3 (es' & -> & Hok3 & Hst3 & Hdel & Ht3).
  apply (wp_leave_two [fs_root s; p_cwd s] [] dir q); [done|]. intros s4 Hok4 Hk4.
  assert (keeps s s2) as Hk by by etrans.
  assert (stable s s4) by (etrans; [by eapply (keeps_stable fs)|]; etrans; [done|]; by eapply (keeps_stable fs)).
  apply HQ; [by eapply sys_ok_stable|done|]. eapply removed_sub; [|apply Hk4].
  exists (the_tree s2), es, es'.
  split_and!; try done; [apply Hk|by apply (fs_closed _ _ (ok_fs _ _ _ _ _ Hok2))| |].
  - rewrite <- Ed. destruct Hsys as [Hok _].
    eapply walk_kept; [exact Hok|exact Hok2|done|done|right; right; apply start_elem].
  - intros j' es0. rewrite Ha. intros [= <-]. rewrite Hwq. intros [= ->]. by destruct (Hnd es0).
Qed.

Lemma wp_do_unlink path i s (Q : Z -> K -> Prop) :
  sys_ok s -> nonul path -> path <> [] -> vno_of s (start_dir (p_cwd s) path s) = Some i ->
  (forall r s', sys_ok s' -> unlink_post i path (dir_target (the_tree s) i path) r s s' -> Q r s') ->
  wp (do_unlink fs vops_of path) Q s.
Proof.
  intros Hsys Hp Hne Hi HQ. pose proof Hsys as [Hok _]. unfold do_unlink, dir_target in *.
  assert (forall s', vfs_ok [fs_root s; p_cwd s] [] [] s' -> keeps s s' -> sys_ok s') as Hsk
    by (intros; by eapply sys_ok_of_keeps).
  wp_use (wp_parent fs vops_of mem_ok); [done..|].
  destruct (walk (the_tree s) i _) as [e|d] eqn:Ed; [intros s' Hok' Hk'; apply HQ; eauto; done|].
  intros dir vd w r s1 Hok1 Hk1 Hvd Hd Hw Hw1 Hm Ho Hnul _. rewrite Hw in HQ.
  destruct (bn_ok path r Hp) as (Htake & Hcomp & Hlen). set (bn := basename (components path)) in *.
  assert (forall e, (forall s', vfs_ok [fs_root s; p_cwd s] [] [] s' -> keeps s s' -> Q e s') ->
            wp (do! vput fs dir; ret e) Q s1) as Herr.
  { intros e HE. eapply wp_put_ret; [done|]. intros s2 Hok2 Hk2. apply HE; [done|by etrans]. }
  destruct (NAME_LEN <? Z.of_nat (length bn)) eqn:E28.
  { apply Herr. intros. apply HQ; eauto; done. }
  wp_use wp_vn_get; [done|]. rewrite Hm.
  destruct w as [es|b|blk dv]; cycle 1.
  { apply Herr. intros. apply HQ; eauto; done. }
  { destruct blk; apply Herr; intros; apply HQ; eauto; done. }
  change (S_ISDIR (view_mode (DirView es))) with true. cbn [negb].
  apply wp_assoc, wp_bind. eapply wp_locked_lookup; [done..|].
  intros s2 v2 Hok2 Hk2 Hv2 Ev Hw2. assert (keeps s s2) as Hk by by etrans.
  destruct (assoc bn es) as [j|] eqn:Ha; cycle 1.
  { rewrite Ha. cbn [fst snd]. change (- ENOENT <? 0) with true. cbn iota.
    eapply wp_leave; [done|]. intros s3 Hok3 Hk3. assert (keeps s s3) by by etrans.
    apply HQ; eauto; done. }
  rewrite Ha. intros q s3 Hok3 Hk3 Hq. cbn [fst snd]. change (0 <? 0) with false. cbn iota.
  wp_use wp_deref; [done|]. assert (keeps s s3) as Hk' by by etrans.
  destruct (vnode_view fs _ _ _ _ _ _ Hok3 Hq) as (v & w & Hv & Hwq & Hmq & _).
  wp_use wp_vn_get; [done|]. rewrite Hmq.
  unfold unlink_post in HQ. rewrite (tree_keeps fs _ _ _ _ _ _ _ Hok3 Hk' Hq), Hwq in HQ.
  assert ((forall es0, w <> DirView es0) ->
          wp (let! ops := vn_vops vops_of dir in
              let! res := (match vop_unlink ops with
                           | Some unlink => unlink dir (bn ++ r) (Z.of_nat (length bn))
                           | None => fail Assert
                           end) in
              do! vunlock dir; do! vput fs q; do! vput fs dir; ret res) Q s3) as Hun.
  { intros Hnd. eapply (wp_unlink_entry i path s dir q v2 d es j w bn r s2); try done.
    - by rewrite (same_inode_vno _ _ Ev).
    - by rewrite Ev.
    - intros s' Hs' Hst' Hrem. destruct w as [es'|b|blk dv]; [by destruct (Hnd es')|by apply HQ..]. }
  destruct w as [es'|b|blk dv]; cycle 1.
  { by apply Hun. }
  { destruct blk; by apply Hun. }
  change (S_ISDIR (view_mode (DirView es'))) with true. cbn iota.
  apply (wp_leave_two [fs_root s; p_cwd s] [] dir q); [done|]. intros s4 Hok4 Hk4.
  assert (keeps s s4) by by etrans. apply HQ; eauto; done.
Qed.

(** ** [do_chdir] *)

Definition chdir_post (o : Z + Z) (r : Z) s s' : Prop :=
  match o with
  | inl e => r = e /\ keeps s s'
  | inr j =>
      match the_tree s !! j with
      | Some (DirView _) =>
          r = 0 /\ vno_of s' (p_cwd s') = Some j /\ the_tree s' ⊆ the_tree s
          /\ k_files s' = k_files s /\ p_files s' = p_files s /\ fs_root s' = fs_root s
      | _ => r = - ENOTDIR /\ keeps s s'
      end
  end.

Lemma set_cwd_ok X Y L p s : vfs_ok X Y L s -> vfs_ok X Y L (set_p_cwd p s).
Proof. by intros []. Qed.

(** The change of the working directory to the vnode at [p]. *)
Lemma wp_change_cwd p j s s1 (Q : Z -> K -> Prop) :
  sys_ok s -> vfs_ok (p :: [fs_root s; p_cwd s]) [] [] s1 -> keeps s s1 -> vno_of s1 p = Some j ->
  (forall s', sys_ok s' -> vno_of s' (p_cwd s') = Some j -> the_tree s' ⊆ the_tree s ->
     k_files s' = k_files s -> p_files s' = p_files s -> fs_root s' = fs_root s -> Q 0 s') ->
  wp (let! s := get in do! vput fs (p_cwd s); do! modify (set_p_cwd p); do! vref p; do! vput fs p; ret 0) Q s1.
Proof.
  intros [Hok Hlive] Hok1 Hk1 Hp HQ. wp_steps. rewrite (kp_cwd _ _ _ Hk1).
  eapply (wp_vput_nil fs [p; fs_root s]).
  { eapply vfs_ok_perm; [|exact Hok1]. exact (Permutation_app_comm [p; fs_root s] [p_cwd s]). }
  intros s2 Hok2 Hk2. wp_steps.
  assert (vno_of s2 p = Some j) as Hp2.
  { eapply (vno_of_keeps fs); [exact Hok1|exact Hok2|done|done|by apply refs_elem; left]. }
  apply (set_cwd_ok _ _ _ p) in Hok2.
  eapply (wp_vref fs); [exact Hok2|by eapply vno_is_Some|]. intros s3 Hok3 Hk3.
  wp_use (wp_vput_nil fs); [done|]. intros s4 Hok4 Hk4.
  assert (keeps (set_p_cwd p s2) s4) as Hk by by etrans.
  assert (k_files s4 = k_files s) as Ef.
  { rewrite (kp_files _ _ _ Hk). cbn. by rewrite (kp_files _ _ _ Hk2), (kp_files _ _ _ Hk1). }
  assert (p_cwd s4 = p) as Ec by by rewrite (kp_cwd _ _ _ Hk).
  assert (fs_root s4 = fs_root s) as Er.
  { rewrite (kp_root _ _ _ Hk). cbn. by rewrite (kp_root _ _ _ Hk2), (kp_root _ _ _ Hk1). }
  apply HQ; [| | |done| |done].
  - split; [|unfold live_files; by rewrite Ef]. rewrite Ec, Er. by eapply vfs_ok_perm; [apply perm_swap|].
  - rewrite Ec. eapply (vno_of_keeps fs); [exact Hok2|exact Hok4|done|done|by apply refs_elem; left].
  - etrans; [apply (kp_tree _ _ _ Hk)|]. etrans; [apply (kp_tree _ _ _ Hk2)|]. apply Hk1.
  - rewrite (kp_fds _ _ _ Hk). cbn. by rewrite (kp_fds _ _ _ Hk2), (kp_fds _ _ _ Hk1).
Qed.

Lemma wp_do_chdir path i s (Q : Z -> K -> Prop) :
  sys_ok s -> nonul path -> path <> [] -> vno_of s (start_dir (p_cwd s) path s) = Some i ->
  (forall r s', sys_ok s' -> chdir_post (resolve (the_tree s) i path) r s s' -> Q r s') ->
  wp (do_chdir fs vops_of path) Q s.
Proof.
  intros Hsys Hp Hne Hi HQ. pose proof Hsys as [Hok _]. unfold do_chdir, namev_resolve. wp_steps.
  eapply (wp_namev_open_plain fs vops_of mem_ok); [done..|]. unfold resolves. rewrite Hi.
  pose proof (open_spec_error (the_tree s) i path 0) as Hneg. unfold open_spec in Hneg.
  change (has 0 O_CREAT) with false in Hneg. cbn iota in Hneg.
  destruct (resolve (the_tree s) i path) as [e|j].
  - intros s' Hok' Hk'. cbn [fst snd]. specialize (Hneg e eq_refl).
    rewrite (proj2 (Z.eqb_neq e 0)) by lia. cbn [negb]. wp_steps. apply HQ; [by eapply sys_ok_of_keeps|done].
  - intros q s1 Hok1 Hk1 Hq. cbn [fst snd]. change (negb (0 =? 0)) with false. cbn iota.
    wp_use wp_deref; [done|].
    destruct (vnode_view fs _ _ _ _ _ _ Hok1 Hq) as (v & w & Hv & Hw & Hm & _).
    wp_use wp_vn_get; [done|]. rewrite Hm. unfold chdir_post in HQ.
    rewrite (tree_keeps fs _ _ _ _ _ _ _ Hok1 Hk1 Hq), Hw in HQ.
    assert (forall s2, vfs_ok [fs_root s; p_cwd s] [] [] s2 -> keeps s1 s2 ->
              sys_ok s2 /\ keeps s s2) as Hback.
    { intros s2 Hok2 Hk2. assert (keeps s s2) by by etrans. split; [by eapply sys_ok_of_keeps|done]. }
    destruct w as [es|b|blk d]; cycle 1.
    1: eapply wp_put_ret; [done|]; intros s2 Hok2 Hk2; destruct (Hback s2 Hok2 Hk2); by apply HQ.
    1: destruct blk; (eapply wp_put_ret; [done|]; intros s2 Hok2 Hk2; destruct (Hback s2 Hok2 Hk2); by apply HQ).
    change (negb (S_ISDIR (view_mode (DirView es)))) with false. cbn iota.
    eapply (wp_change_cwd q j s); [done..|]. intros s'. intros. apply HQ; [done|]. by split_and!.
Qed.

(** ** The empty path *)

Lemma namev_dir_nil base s : namev_dir fs vops_of base [] s = Done (- EINVAL, None) s.
Proof. done. Qed.
End calls.
