(* ===== verification/RamfsProofs.v ===== *)
(** ramfs discharges the contracts of the VFS ([fs/ramfs/ramfs.c]).

    The invariant of the inode table: an inode's link count is the number of
    directory entries that name it, plus one for a vnode in memory, plus one
    for the root; every entry in use names an inode, and the first two entries
    of a directory name itself and a directory. *)

From S2P Require Import Prelude CString Btree Mobj Vnode File Ramfs.
From S2P Require Import VfsSpec VnodeProofs FileProofs NamevProofs.

(** ** The tree of an inode table *)

Definition entries_of (es : list ramfs_dirent) : list (list Z * Z) :=
  omap (fun e => if is_free e then None else Some (cstr (rd_name e), rd_ino e)) es.

Definition view_of (n : ramfs_inode) : inode_view :=
  match rf_mem n with
  | MemDir es => DirView (entries_of es)
  | MemData b => FileView (take (Z.to_nat (rf_size n)) b)
  | MemDev d => DevView (bool_decide (rf_mode n = RAMFS_TYPE_BLK)) d
  end.

(** The inode in a slot. *)
Definition slot (f : list (option ramfs_inode)) (i : Z) : option ramfs_inode :=
  if 0 <=? i then mjoin (f !! Z.to_nat i) else None.

Definition ramfs_tree (f : list (option ramfs_inode)) : tree :=
  omap (fun o => view_of <$> o) (map_seqZ 0 f : gmap Z (option ramfs_inode)).

Lemma ramfs_tree_lookup f i : ramfs_tree f !! i = view_of <$> slot f i.
Proof.
  unfold ramfs_tree, slot. rewrite lookup_omap, lookup_map_seqZ.
  destruct (Z.leb_spec 0 i).
  - rewrite option_guard_True by done. cbn. rewrite Z.sub_0_r. by destruct (f !! Z.to_nat i).
  - rewrite option_guard_False by lia. done.
Qed.

Lemma slot_insert_eq f i o : 0 <= i < Z.of_nat (length f) -> slot (<[Z.to_nat i := o]> f) i = o.
Proof.
  intros Hi. unfold slot. rewrite (proj2 (Z.leb_le 0 i)) by lia.
  rewrite list_lookup_insert_eq by lia. done.
Qed.

Lemma slot_insert_ne f i j o : 0 <= i -> i <> j -> slot (<[Z.to_nat i := o]> f) j = slot f j.
Proof.
  intros Hi Hij. unfold slot. destruct (Z.leb_spec 0 j); [|done].
  by rewrite list_lookup_insert_ne by lia.
Qed.

Lemma slot_range f i n : slot f i = Some n -> 0 <= i < Z.of_nat (length f).
Proof.
  unfold slot. destruct (Z.leb_spec 0 i); [|done]. intros Hi.
  destruct (f !! Z.to_nat i) eqn:E; [|done]. apply lookup_lt_Some in E. lia.
Qed.

Lemma ramfs_tree_insert f i n :
  0 <= i < Z.of_nat (length f) ->
  ramfs_tree (<[Z.to_nat i := Some n]> f) = <[i := view_of n]> (ramfs_tree f).
Proof.
  intros Hi. apply map_eq. intros j. rewrite ramfs_tree_lookup. destruct (decide (i = j)) as [<-|].
  - by rewrite slot_insert_eq, lookup_insert_eq.
  - by rewrite slot_insert_ne, lookup_insert_ne, ramfs_tree_lookup by lia.
Qed.

Lemma ramfs_tree_delete f i :
  0 <= i < Z.of_nat (length f) ->
  ramfs_tree (<[Z.to_nat i := None]> f) = delete i (ramfs_tree f).
Proof.
  intros Hi. apply map_eq. intros j. rewrite ramfs_tree_lookup. destruct (decide (i = j)) as [<-|].
  - by rewrite slot_insert_eq, lookup_delete_eq.
  - by rewrite slot_insert_ne, lookup_delete_ne, ramfs_tree_lookup by lia.
Qed.

(** Replacing an inode by one with the same view. *)
Lemma ramfs_tree_same f i n n' :
  slot f i = Some n -> view_of n' = view_of n -> ramfs_tree (<[Z.to_nat i := Some n']> f) = ramfs_tree f.
Proof.
  intros Hn Hv. rewrite ramfs_tree_insert by by eapply slot_range.
  apply insert_id. by rewrite ramfs_tree_lookup, Hn, Hv.
Qed.

(** ** Link counts *)

Definition names (i : Z) (e : ramfs_dirent) : Prop := is_free e = false /\ rd_ino e = i.

Definition dir_links (i : Z) (es : list ramfs_dirent) : Z :=
  Z.of_nat (length (filter (names i) (drop 2 es))).

Definition inode_links (i : Z) (o : option ramfs_inode) : Z :=
  match o with
  | Some n => match rf_mem n with MemDir es => dir_links i es | _ => 0 end
  | None => 0
  end.

Fixpoint links (i : Z) (f : list (option ramfs_inode)) : Z :=
  match f with
  | [] => 0
  | o :: f => inode_links i o + links i f
  end.

Lemma inode_links_nonneg i o : 0 <= inode_links i o.
Proof. unfold inode_links, dir_links. repeat case_match; lia. Qed.

Lemma links_nonneg i f : 0 <= links i f.
Proof. induction f as [|o f IH]; cbn; [lia|]. pose proof (inode_links_nonneg i o). lia. Qed.

Lemma links_insert i f k o o' :
  f !! k = Some o -> links i (<[k := o']> f) = links i f - inode_links i o + inode_links i o'.
Proof.
  revert k. induction f as [|x f IH]; intros [|k] Hk; [done..| |].
  - injection Hk as ->. cbn [insert list_insert links]. lia.
  - change (<[S k := o']> (x :: f)) with (x :: <[k := o']> f). cbn [links].
    rewrite (IH k) by done. lia.
Qed.

(** A directory that names the inode. *)
Lemma links_pos i f j n es e k :
  slot f j = Some n -> rf_mem n = MemDir es -> es !! (2 + k)%nat = Some e -> names i e -> 0 < links i f.
Proof.
  intros Hj Hm He Hn. unfold slot in Hj. destruct (0 <=? j); [|done].
  destruct (f !! Z.to_nat j) as [o|] eqn:Ej; [|done]. cbn in Hj. subst o.
  assert (0 < inode_links i (Some n)) as Hpos.
  { cbn. rewrite Hm. unfold dir_links.
    assert (e ∈ filter (names i) (drop 2 es)) as Hin.
    { apply list_elem_of_filter. split; [done|]. apply (list_elem_of_lookup_2 _ k).
      by rewrite lookup_drop. }
    destruct (filter _ _); [by apply not_elem_of_nil in Hin|cbn; lia]. }
  pose proof (links_insert i f _ _ None Ej) as E.
  change (inode_links i None) with 0 in E.
  pose proof (links_nonneg i (<[Z.to_nat j := None]> f)). lia.
Qed.

(** ** The invariant *)

Definition name_ok (nm : list Z) : Prop :=
  length nm = Z.to_nat NAME_LEN /\ exists w q, nm = w ++ 0 :: q /\ nonul w.

Record dirent_ok (e : ramfs_dirent) : Prop := DirentOk {
  de_name : name_ok (rd_name e);
  de_ino : 0 <= rd_ino e;
}.

Record dir_ok (i : Z) (es : list ramfs_dirent) : Prop := DirOk {
  do_len : length es = RAMFS_MAX_DIRENT;
  do_entries : Forall dirent_ok es;
  do_dot : exists e, es !! 0%nat = Some e /\ cstr (rd_name e) = str "." /\ rd_ino e = i;
  do_dotdot : exists e, es !! 1%nat = Some e /\ cstr (rd_name e) = str "..";
  do_nodup : NoDup (entries_of es).*1;
}.

Definition inode_ok (i : Z) (n : ramfs_inode) : Prop :=
  rf_ino n = i
  /\ match rf_mode n with
     | RAMFS_TYPE_DATA =>
         exists b, rf_mem n = MemData b /\ Z.of_nat (length b) = PAGE_SIZE
                   /\ 0 <= rf_size n <= PAGE_SIZE
                   /\ drop (Z.to_nat (rf_size n)) b = replicate (Z.to_nat (PAGE_SIZE - rf_size n)) 0
     | RAMFS_TYPE_DIR => exists es, rf_mem n = MemDir es /\ dir_ok i es
     | _ => exists d, rf_mem n = MemDev d
     end.

Section wf.
Context {drv : Drivers}.

Definition vnode_ok (v : vnode Z) (n : ramfs_inode) : Prop :=
  vn_i v = Some (vn_vno v) /\ mo_pframes (vn_mobj v) = [] /\ mo_btree (vn_mobj v) = None
  /\ vn_mode v = view_mode (view_of n) /\ vn_ops v = view_ops (view_of n)
  /\ (rf_mode n = RAMFS_TYPE_DATA -> vn_len v = rf_size n)
  /\ (forall blk d, view_of n = DevView blk d -> vn_dev v = driver blk d).

(** The vnodes in memory of an inode. *)
Definition in_memory (i : Z) (m : gmap Z (vnode Z)) : Z :=
  count (fun pv => vn_vno pv.2 = i) m.

Record ramfs_wf (m : gmap Z (vnode Z)) (f : list (option ramfs_inode)) : Prop := RamfsWf {
  rw_len : length f = RAMFS_MAX_FILES;
  rw_inode : forall i n, slot f i = Some n ->
    inode_ok i n /\ rf_linkcount n = links i f + in_memory i m + one (i = 0)
    /\ (rf_mode n = RAMFS_TYPE_DIR -> 0 < links i f + one (i = 0));
  rw_vnode : forall p v, m !! p = Some v -> exists n, slot f (vn_vno v) = Some n /\ vnode_ok v n;
  rw_root : exists n, slot f 0 = Some n;
  rw_entry : forall i n es k e, slot f i = Some n -> rf_mem n = MemDir es -> es !! k = Some e ->
    is_free e = false ->
    exists n', slot f (rd_ino e) = Some n' /\ ((k < 2)%nat -> rf_mode n' = RAMFS_TYPE_DIR);
}.

(** ** Consequences *)

Lemma entries_of_elem nm i es :
  (nm, i) ∈ entries_of es ->
  exists k e, es !! k = Some e /\ is_free e = false /\ cstr (rd_name e) = nm /\ rd_ino e = i.
Proof.
  unfold entries_of. rewrite list_elem_of_omap. intros (e & He & E).
  apply list_elem_of_lookup_1 in He as [k Hk]. destruct (is_free e) eqn:Ef; [done|].
  exists k, e. by simplify_eq.
Qed.

Lemma wf_closed m f : ramfs_wf m f -> tree_closed (ramfs_tree f).
Proof.
  intros Hwf d es nm i. rewrite !ramfs_tree_lookup. intros (n & Hn & E)%fmap_Some.
  unfold view_of in E. destruct (rf_mem n) as [|es0|] eqn:Em; simplify_eq.
  intros (k & e & Hk & Hf & _ & <-)%entries_of_elem.
  destruct (rw_entry _ _ Hwf _ _ _ _ _ Hn Em Hk Hf) as (n' & -> & _). by eexists.
Qed.

Lemma inode_ok_mode i n :
  inode_ok i n ->
  match rf_mem n with
  | MemData _ => rf_mode n = RAMFS_TYPE_DATA
  | MemDir _ => rf_mode n = RAMFS_TYPE_DIR
  | MemDev _ => rf_mode n = RAMFS_TYPE_CHR \/ rf_mode n = RAMFS_TYPE_BLK
  end.
Proof.
  intros [_ H]. destruct (rf_mode n);
    [destruct H as (x & H & _)|destruct H as (x & H & _)|destruct H as (x & H)|destruct H as (x & H)];
    rewrite H; auto.
Qed.

Lemma wf_vnode m f p v :
  ramfs_wf m f -> m !! p = Some v ->
  exists w, ramfs_tree f !! vn_vno v = Some w /\ vn_mode v = view_mode w /\ vn_ops v = view_ops w
            /\ (forall b, w = FileView b -> vn_len v = Z.of_nat (length b))
            /\ (forall blk d, w = DevView blk d -> vn_dev v = driver blk d).
Proof.
  intros Hwf Hv. destruct (rw_vnode _ _ Hwf p v Hv) as (n & Hn & _ & _ & _ & Hm & Ho & Hl & Hdev).
  exists (view_of n). rewrite ramfs_tree_lookup, Hn. split_and!; [done|done|done| |done].
  destruct (rw_inode _ _ Hwf _ _ Hn) as [Hok _]. pose proof (inode_ok_mode _ _ Hok) as Hmode.
  destruct Hok as [_ Hok]. intros b E. unfold view_of in E.
  destruct (rf_mem n) as [b0| |] eqn:Em; simplify_eq.
  rewrite (Hl Hmode), length_take. rewrite Hmode in Hok. destruct Hok as (b & [= <-] & ? & ? & _). lia.
Qed.

Lemma in_memory_replace m p v v' i :
  m !! p = Some v -> vn_vno v' = vn_vno v -> in_memory i (<[p := v']> m) = in_memory i m.
Proof.
  intros Hv E. unfold in_memory. rewrite (count_insert _ _ _ v) by done. cbn. rewrite E. lia.
Qed.

(** A change of the counts: of an inode's links, and of its vnodes. *)
Lemma wf_counts m m' f i n c :
  ramfs_wf m f -> slot f i = Some n ->
  c = links i f + in_memory i m' + one (i = 0) ->
  (forall j, j <> i -> in_memory j m' = in_memory j m) ->
  (forall p v, m' !! p = Some v -> exists n', slot f (vn_vno v) = Some n' /\ vnode_ok v n') ->
  ramfs_wf m' (<[Z.to_nat i := Some (set_rf_linkcount c n)]> f).
Proof.
  intros Hwf Hn -> Hmem Hv. pose proof (slot_range _ _ _ Hn) as Hr.
  set (f' := <[_ := _]> f).
  assert (f !! Z.to_nat i = Some (Some n)) as Hl.
  { unfold slot in Hn. rewrite (proj2 (Z.leb_le 0 i)) in Hn by lia.
    destruct (f !! Z.to_nat i); [cbn in Hn; by rewrite Hn|done]. }
  assert (forall j, links j f' = links j f) as El.
  { intros j. unfold f'. rewrite (links_insert j f _ _ _ Hl). cbn. lia. }
  assert (forall j n', slot f j = Some n' -> exists n'', slot f' j = Some n'' /\ rf_mode n'' = rf_mode n'
            /\ rf_mem n'' = rf_mem n' /\ (forall v, vnode_ok v n' -> vnode_ok v n'')) as Es.
  { intros j n' Hj. unfold f'. destruct (decide (i = j)) as [<-|].
    - rewrite slot_insert_eq by done. simplify_eq. by eexists.
    - rewrite slot_insert_ne by (done || lia). by eexists. }
  split.
  - unfold f'. rewrite length_insert. apply (rw_len _ _ Hwf).
  - intros j n'. unfold f' at 1. rewrite El. destruct (decide (i = j)) as [<-|Hne].
    + rewrite slot_insert_eq by done. intros [= <-].
      destruct (rw_inode _ _ Hwf _ _ Hn) as (Hok & _ & Hd). done.
    + rewrite slot_insert_ne by (done || lia). intros Hj. rewrite Hmem by done.
      by apply (rw_inode _ _ Hwf).
  - intros p v Hp. destruct (Hv p v Hp) as (n' & Hn' & Hok). destruct (Es _ _ Hn') as (n'' & ? & _ & _ & H).
    eauto.
  - destruct (rw_root _ _ Hwf) as [n0 H0]. destruct (Es _ _ H0) as (n1 & H1 & _). eauto.
  - intros j n' es k e Hj Hm Hk Hf.
    assert (exists n0, slot f j = Some n0 /\ rf_mem n0 = rf_mem n') as (n0 & Hj0 & Hm0).
    { unfold f' in Hj. destruct (decide (i = j)) as [<-|].
      - rewrite slot_insert_eq in Hj by done. simplify_eq. by exists n.
      - rewrite slot_insert_ne in Hj by (done || lia). eauto. }
    rewrite <- Hm0 in Hm. destruct (rw_entry _ _ Hwf _ _ _ _ _ Hj0 Hm Hk Hf) as (n1 & H1 & Hd).
    destruct (Es _ _ H1) as (n2 & H2 & Hmode & _). exists n2. split; [done|]. rewrite Hmode. done.
Qed.
End wf.

Section instance.
Context {mem : Memory} {drv : Drivers}.
Abbreviation K := (kst ramfs Z).
Implicit Types (s : K) (v : vnode Z) (n : ramfs_inode).

Lemma slot_mjoin f i n : slot f i = Some n -> mjoin (f !! Z.to_nat i) = Some n.
Proof. unfold slot. by destruct (0 <=? i). Qed.

Lemma wp_rf_get i n (Q : ramfs_inode -> K -> Prop) s :
  slot (fs_i s) i = Some n -> Q n s -> wp (rf_get i) Q s.
Proof. intros Hn HQ. unfold rf_get, wp, bind, get. rewrite (slot_mjoin _ _ _ Hn). done. Qed.

Lemma wp_rf_modify i n g (Q : unit -> K -> Prop) s :
  slot (fs_i s) i = Some n -> Q tt (set_fs_i (<[Z.to_nat i := Some (g n)]> (fs_i s)) s) ->
  wp (rf_modify i g) Q s.
Proof. intros Hn HQ. unfold rf_modify. wp_use wp_rf_get; [done|]. done. Qed.

Lemma wp_vnode_slot p v i (Q : Z -> K -> Prop) s :
  k_vnodes s !! p = Some v -> vn_i v = Some i -> Q i s -> wp (vnode_slot p) Q s.
Proof. intros Hv Hi HQ. unfold vnode_slot. wp_use wp_vn_get; [done|]. by rewrite Hi. Qed.

(** ** [ramfs_read_vnode] *)

Lemma in_memory_new m p v i :
  m !! p = None -> in_memory i (<[p := v]> m) = in_memory i m + one (vn_vno v = i).
Proof. intros Hp. unfold in_memory. by rewrite count_insert_new. Qed.

(** What [read_vnode] puts in the vnode. *)
Definition filled (ino : Z) n : vnode Z :=
  let v := set_vn_len (rf_size n) (set_vn_i (Some ino) (new_vnode ino)) in
  let devid := match rf_mem n with MemDev d => d | _ => 0 end in
  match rf_mode n with
  | RAMFS_TYPE_DATA => set_vn_ops VopsFile (set_vn_mode S_IFREG v)
  | RAMFS_TYPE_DIR => set_vn_ops VopsDir (set_vn_mode S_IFDIR v)
  | RAMFS_TYPE_CHR => set_vn_devid devid (set_vn_ops VopsNull (set_vn_mode S_IFCHR v))
  | RAMFS_TYPE_BLK => set_vn_devid devid (set_vn_ops VopsNull (set_vn_mode S_IFBLK v))
  end.

Lemma filled_ok ino n :
  inode_ok ino n ->
  vn_mobj (filled ino n) = vn_mobj (V := Z) (new_vnode ino) /\ vn_vno (filled ino n) = ino
  /\ vn_vno (loaded (filled ino n)) = ino /\ vnode_ok (loaded (filled ino n)) n.
Proof.
  intros Hok. pose proof (inode_ok_mode _ _ Hok) as Hm. destruct n as [size ino' m ty lc].
  cbn in Hm. destruct m as [b|es|d]; [subst ty|subst ty|destruct Hm; subst ty];
    (split_and!; [done|done|done|]; split_and!; try done; by intros blk d' [= <- <-]).
Qed.

Lemma ramfs_load m f p ino s :
  ramfs_wf m f -> m !! p = None -> is_Some (ramfs_tree f !! ino) ->
  k_vnodes s = <[p := new_vnode ino]> m -> fs_i s = f ->
  wp (ramfs_read_vnode p)
     (fun _ s' => exists v f', s' = set_fs_i f' (set_vnodes (<[p := v]> m) s)
        /\ vn_mobj v = vn_mobj (V := Z) (new_vnode ino) /\ vn_vno v = ino
        /\ ramfs_wf (<[p := loaded v]> m) f' /\ ramfs_tree f' = ramfs_tree f) s.
Proof.
  intros Hwf Hp [w Ht] Hk Hf. rewrite ramfs_tree_lookup in Ht. apply fmap_Some in Ht as (n & Hn & _).
  destruct (rw_inode _ _ Hwf _ _ Hn) as (Hok & Hc & Hd).
  unfold ramfs_read_vnode. wp_use wp_vn_get; [rewrite Hk; apply lookup_insert_eq|].
  change (vn_vno (new_vnode ino)) with ino. wp_steps. rewrite Hf, (slot_mjoin _ _ _ Hn). wp_steps.
  eapply wp_kassert; [apply Z.eqb_eq; apply Hok|].
  wp_use wp_rf_modify; [by rewrite Hf|]. unfold vn_put. wp_steps.
  match goal with |- context [<[p := ?x]> _] => change x with (filled ino n) end.
  destruct (filled_ok ino n Hok) as (Em & Ev & El & Hvok).
  exists (filled ino n), (<[Z.to_nat ino := Some (set_rf_linkcount (rf_linkcount n + 1) n)]> f).
  split_and!; [|done|done| |].
  - cbn. rewrite Hk, Hf, insert_insert_eq. by destruct s.
  - eapply wf_counts; [done|done| | |].
    + rewrite in_memory_new, El, one_true by done. lia.
    + intros j Hj. rewrite in_memory_new, El, (one_false (ino = j)) by done. lia.
    + intros q v Hq. destruct (decide (q = p)) as [->|].
      * rewrite lookup_insert_eq in Hq. simplify_eq. rewrite El. eauto.
      * rewrite lookup_insert_ne in Hq by done. by eapply (rw_vnode _ _ Hwf).
  - by eapply ramfs_tree_same.
Qed.

(** ** [ramfs_delete_vnode] *)

Lemma in_memory_delete m p v i :
  m !! p = Some v -> in_memory i (delete p m) = in_memory i m - one (vn_vno v = i).
Proof. intros Hv. unfold in_memory. by rewrite (count_delete _ _ _ v). Qed.

Lemma in_memory_nonneg i m : 0 <= in_memory i m.
Proof. unfold in_memory, count. lia. Qed.

Lemma in_memory_pos m p v : m !! p = Some v -> 0 < in_memory (vn_vno v) m.
Proof.
  intros Hv. pose proof (in_memory_delete m p v (vn_vno v) Hv) as E. rewrite one_true in E by done.
  pose proof (in_memory_nonneg (vn_vno v) (delete p m)). lia.
Qed.

(** An inode without links, which is not the root, is freed with its vnode. *)
Lemma wf_free m f i n p v :
  ramfs_wf m f -> m !! p = Some v -> vn_vno v = i -> slot f i = Some n -> rf_linkcount n = 1 ->
  ramfs_wf (delete p m) (<[Z.to_nat i := None]> f).
Proof.
  intros Hwf Hv Hi Hn Hc. pose proof (slot_range _ _ _ Hn) as Hr.
  destruct (rw_inode _ _ Hwf _ _ Hn) as (Hok & Hlc & Hd). pose proof (in_memory_pos m p v Hv) as Hm.
  rewrite Hi in Hm. pose proof (links_nonneg i f). pose proof (one_range (i = 0)).
  assert (links i f = 0) as Hl by lia.
  assert (one (i = 0) = 0) as Hroot by lia.
  assert (rf_mode n <> RAMFS_TYPE_DIR) as Hnd by (intros ?%Hd; lia).
  assert (forall j, j <> i -> slot (<[Z.to_nat i := None]> f) j = slot f j) as Es.
  { intros j Hj. by rewrite slot_insert_ne by lia. }
  assert (f !! Z.to_nat i = Some (Some n)) as Hl0.
  { pose proof (slot_mjoin _ _ _ Hn). by destruct (f !! Z.to_nat i); simplify_eq/=. }
  assert (forall j, links j (<[Z.to_nat i := None]> f) = links j f) as El.
  { intros j. rewrite (links_insert j f _ _ _ Hl0). pose proof (inode_ok_mode _ _ Hok) as Hmode.
    cbn. destruct (rf_mem n); [lia|done|lia]. }
  split.
  - rewrite length_insert. apply (rw_len _ _ Hwf).
  - intros j n' Hj. destruct (decide (j = i)) as [->|Hne]; [by rewrite slot_insert_eq in Hj|].
    rewrite Es in Hj by done. rewrite El, (in_memory_delete m p v), Hi, one_false by done.
    rewrite Z.sub_0_r. by apply (rw_inode _ _ Hwf).
  - intros q w [Hq Hw]%lookup_delete_Some. destruct (rw_vnode _ _ Hwf q w Hw) as (n' & Hn' & Hv').
    exists n'. rewrite Es; [done|]. intros E. pose proof (in_memory_pos (delete p m) q w) as Hpos.
    rewrite lookup_delete_ne in Hpos by done. specialize (Hpos Hw).
    rewrite E, (in_memory_delete m p v), one_true in Hpos by done. lia.
  - rewrite Es; [apply (rw_root _ _ Hwf)|]. unfold one in Hroot. by case_decide.
  - intros j n' es k e Hj Hmem Hk Hf. destruct (decide (j = i)) as [->|Hne]; [by rewrite slot_insert_eq in Hj|].
    rewrite Es in Hj by done. destruct (rw_entry _ _ Hwf _ _ _ _ _ Hj Hmem Hk Hf) as (n1 & H1 & H2).
    exists n1. rewrite Es; [done|]. intros E. rewrite E, Hn in H1. injection H1 as <-.
    destruct (decide (k < 2)%nat) as [Hlt|Hge]; [by apply H2 in Hlt|].
    assert (0 < links i f); [|lia].
    eapply (links_pos _ _ _ _ _ e (k - 2)); [done|done| |done].
    by replace (2 + (k - 2))%nat with k by lia.
Qed.

Lemma ramfs_evict m f p v s :
  ramfs_wf m f -> m !! p = Some v -> mo_mutex (vn_mobj v) = true -> k_vnodes s = m -> fs_i s = f ->
  wp (evict ramfs_ops p)
     (fun _ s' => exists v' f', s' = set_fs_i f' (set_vnodes (<[p := v']> m) s)
        /\ mo_mutex (vn_mobj v') = true /\ ramfs_wf (delete p m) f'
        /\ ramfs_tree f' ⊆ ramfs_tree f) s.
Proof.
  intros Hwf Hv Hmx Hk Hf. destruct (rw_vnode _ _ Hwf p v Hv) as (n & Hn & Hvi & Hfr & Hbt & _).
  unfold evict. wp_steps.
  assert (wp (on_vnode_fs p (mobj_flush vnode_mobj_fs (vnode_flush_pframe ramfs_ops)))
            (fun _ s' => s' = s) s) as Hflush.
  { unfold wp, on_vnode_fs. rewrite Hk, Hv. unfold mobj_flush, mobj_owned, bind, gets, kassert, ret, get. cbn.
    rewrite Hmx. cbn. rewrite Hfr. cbn. rewrite insert_id by done. by destruct s; simplify_eq/=. }
  eapply wp_mono; [exact Hflush|]. intros _ s' ->. cbn [delete_vnode ramfs_ops].
  unfold ramfs_delete_vnode. wp_use wp_vnode_slot; [by rewrite Hk|done|].
  destruct (rw_inode _ _ Hwf _ _ Hn) as (_ & Hlc & _). pose proof (slot_range _ _ _ Hn) as Hr.
  wp_use wp_rf_modify; [by rewrite Hf|].
  wp_use wp_rf_get; [rewrite Hf; by apply slot_insert_eq|]. cbn [set_rf_linkcount rf_linkcount].
  destruct (Z.eqb_spec (rf_linkcount n - 1) 0) as [E|E].
  - wp_use wp_vn_get; [cbn; by rewrite Hk|]. wp_use wp_kassert; [by apply Z.eqb_refl|].
    unfold rf_put. wp_steps. exists v, (<[Z.to_nat (vn_vno v) := None]> f).
    split_and!; [|done|eapply wf_free; [done|done|done|done|lia]|].
    + cbn. rewrite Hf, list_insert_insert_eq, insert_id by done. by destruct s; simplify_eq/=.
    + rewrite ramfs_tree_delete by done. apply delete_subseteq.
  - wp_steps. exists v, (<[Z.to_nat (vn_vno v) := Some (set_rf_linkcount (rf_linkcount n - 1) n)]> f).
    split_and!; [|done| |].
    + rewrite Hf, insert_id by done. by destruct s; simplify_eq/=.
    + eapply wf_counts; [done|done| | |].
      * rewrite (in_memory_delete m p v), one_true by done. lia.
      * intros j Hj. rewrite (in_memory_delete m p v), (one_false (vn_vno v = j)) by done. lia.
      * intros q w [_ Hw]%lookup_delete_Some. by eapply (rw_vnode _ _ Hwf).
    + by erewrite ramfs_tree_same.
Qed.

#[export] Instance ramfs_data : FsData ramfs_ops.
Proof.
  refine {| fs_wf := ramfs_wf; fs_tree := fun _ f => ramfs_tree f |}.
  - apply wf_closed.
  - apply wf_vnode.
  - intros m f p v o Hwf Hv [Hp Hb]. split; [|done].
    split; [apply (rw_len _ _ Hwf)| | |apply (rw_root _ _ Hwf)|apply (rw_entry _ _ Hwf)].
    + intros i n Hn. rewrite (in_memory_replace m p v) by done. by apply (rw_inode _ _ Hwf).
    + intros q w Hw. destruct (decide (q = p)) as [->|].
      * rewrite lookup_insert_eq in Hw. simplify_eq. destruct (rw_vnode _ _ Hwf p v Hv) as (n & Hn & Hok).
        exists n. split; [done|]. destruct Hok as (? & ? & ? & ?). unfold vnode_ok. cbn. rewrite Hp, Hb. done.
      * rewrite lookup_insert_ne in Hw by done. by eapply (rw_vnode _ _ Hwf).
  - intros m f p ino s Hwf Hp Ht _ Hk Hf. by apply ramfs_load.
  - intros m f p v s Hwf Hp Hm Hk Hf. by eapply ramfs_evict.
Defined.

(** ** [ramfs_lookup] *)

Lemma name_match_ok nm name len :
  name_ok nm -> nonul name -> 0 <= len <= Z.of_nat (length name) ->
  name_match nm name len = bool_decide (cstr nm = take (Z.to_nat len) name).
Proof. intros (_ & w & q & -> & Hw) Hn Hl. by apply name_match_array. Qed.

Lemma is_free_cstr nm : name_ok nm -> (chr nm =? 0) = bool_decide (cstr nm = []).
Proof.
  intros (_ & w & q & -> & Hw). rewrite cstr_nul by done. destruct Hw as [|c w Hc _]; [done|].
  cbn. by rewrite (proj2 (Z.eqb_neq c 0)) by lia.
Qed.

Lemma entries_of_cons e es :
  entries_of (e :: es)
  = if is_free e then entries_of es else (cstr (rd_name e), rd_ino e) :: entries_of es.
Proof. unfold entries_of. cbn. by destruct (is_free e). Qed.

(** The search for a name finds the entry that the view of the directory has. *)
Lemma first_index_assoc es name len :
  Forall dirent_ok es -> nonul name -> 0 < len <= Z.of_nat (length name) ->
  match first_index (fun e => name_match (rd_name e) name len) es with
  | Some k => exists e, es !! k = Some e /\ is_free e = false
                        /\ assoc (take (Z.to_nat len) name) (entries_of es) = Some (rd_ino e)
                        /\ cstr (rd_name e) = take (Z.to_nat len) name
  | None => assoc (take (Z.to_nat len) name) (entries_of es) = None
  end.
Proof.
  intros Hes Hname Hn.
  assert (take (Z.to_nat len) name <> []) as Hne.
  { intros E. apply (f_equal length) in E. rewrite length_take in E. cbn in E. lia. }
  induction Hes as [|e es [Hnm _] _ IH]; [done|]. cbn [first_index].
  rewrite name_match_ok, entries_of_cons by (done || lia).
  pose proof (is_free_cstr _ Hnm) as Ef. change (chr (rd_name e) =? 0) with (is_free e) in Ef.
  rewrite Ef.
  destruct (bool_decide_reflect (cstr (rd_name e) = take (Z.to_nat len) name)) as [E|E].
  - exists e. rewrite bool_decide_eq_false_2 in Ef |- * by congruence.
    cbn [assoc]. by rewrite decide_True.
  - destruct (bool_decide (cstr (rd_name e) = [])); cbn [assoc]; [|rewrite decide_False by done];
      (destruct (first_index _ es) as [k|]; cbn; [destruct IH as (e' & ? & ? & ? & ?); eauto|done]).
Qed.

Lemma dir_slot m f p v es :
  ramfs_wf m f -> m !! p = Some v -> ramfs_tree f !! vn_vno v = Some (DirView es) ->
  exists n es0, slot f (vn_vno v) = Some n /\ rf_mem n = MemDir es0 /\ es = entries_of es0
                /\ rf_mode n = RAMFS_TYPE_DIR /\ dir_ok (vn_vno v) es0 /\ vn_i v = Some (vn_vno v).
Proof.
  intros Hwf Hv. rewrite ramfs_tree_lookup. intros (n & Hn & E)%fmap_Some.
  destruct (rw_vnode _ _ Hwf p v Hv) as (n' & Hn' & Hi & _). simplify_eq.
  destruct (rw_inode _ _ Hwf _ _ Hn) as (Hok & _). pose proof (inode_ok_mode _ _ Hok) as Hm.
  unfold view_of in E. destruct (rf_mem n) as [|es0|] eqn:Em; simplify_eq.
  exists n, es0. split_and!; try done. destruct Hok as [_ Hok]. rewrite Hm in Hok.
  destruct Hok as (es1 & E1 & Hd). rewrite Em in E1. by injection E1 as ->.
Qed.

Lemma wp_dir_entries p v n es (Q : list ramfs_dirent -> K -> Prop) s :
  k_vnodes s !! p = Some v -> vn_i v = Some (vn_vno v) -> slot (fs_i s) (vn_vno v) = Some n ->
  rf_mem n = MemDir es -> Q es s -> wp (dir_entries p) Q s.
Proof.
  intros Hv Hi Hn Hm HQ. unfold dir_entries. wp_use wp_vnode_slot; [done|done|].
  wp_use wp_rf_get; [done|]. unfold inode_entries. by rewrite Hm.
Qed.

Lemma ramfs_lookup_spec X Y L s p v es name len :
  oom = false -> vfs_ok ramfs_ops X Y L s -> k_vnodes s !! p = Some v ->
  the_tree ramfs_ops s !! vn_vno v = Some (DirView es) ->
  nonul name -> 0 < len <= Z.of_nat (length name) ->
  wp (ramfs_lookup p name len)
     (fun r s' => match assoc (take (Z.to_nat len) name) es with
                  | Some i => exists q, r = (0, Some q) /\ vfs_ok ramfs_ops (q :: X) Y L s'
                                        /\ keeps ramfs_ops s s' /\ vno_of s' q = Some i
                  | None => r = (- ENOENT, None) /\ s' = s
                  end) s.
Proof.
  intros Hoom Hok Hv Ht Hname Hn. pose proof (ok_fs _ _ _ _ _ Hok) as Hwf.
  destruct (dir_slot _ _ _ _ _ Hwf Hv Ht) as (nd & es0 & Hnd & Hm & -> & _ & Hdir & Hi).
  unfold ramfs_lookup. wp_use wp_dir_entries; [done..|].
  pose proof (first_index_assoc es0 name len (do_entries _ _ Hdir) Hname Hn) as Hfi.
  destruct (first_index _ es0) as [k|]; [|rewrite Hfi; done].
  destruct Hfi as (e & Hk & Hf & Ha & _). rewrite Ha.
  wp_use wp_deref; [done|]. wp_use wp_vn_get; [done|].
  destruct (Z.eqb_spec (vn_vno v) (rd_ino e)) as [E|E]; wp_red.
  - wp_use (wp_vref ramfs_ops); [done|by eexists|]. intros s' Hok' Hk'. wp_steps.
    exists p. split_and!; [done|done|done|].
    eapply (vno_of_keeps ramfs_ops); [exact Hok|exact Hok'|done| |apply refs_elem; left].
    unfold vno_of. by rewrite Hv, <- E.
  - wp_use (wp_vget ramfs_ops); [done|done| |done|].
    + change (the_tree ramfs_ops s) with (ramfs_tree (fs_i s)). rewrite ramfs_tree_lookup.
      destruct (rw_entry _ _ Hwf _ _ _ _ _ Hnd Hm Hk Hf) as (n' & -> & _). by eexists.
    + intros q s' Hok' Hk' Hq. wp_steps. by exists q.
Qed.

#[export] Instance ramfs_vops_spec : FsVops ramfs_ops ramfs_vops.
Proof.
  refine {| dir_lookup := ramfs_lookup |}.
  - by intros [].
  - by intros [].
  - done.
  - intros X Y L s p v es name len Hoom Hok Hv _ Ht Hname Hn _. by eapply ramfs_lookup_spec.
Defined.
End instance.
