(* ===== verification/RamfsFileProofs.v ===== *)
(** The file operations of ramfs discharge the contract of the VFS:
    [ramfs_read], [ramfs_write] and [ramfs_truncate_file]. *)

From S2P Require Import Prelude CString Btree Mobj Vnode File Ramfs.
From S2P Require Import VfsSpec VnodeProofs FileProofs NamevProofs RamfsProofs.

(** ** The page of a file *)

(** [b] is the page of a file of the given size: zero from there on. *)
Definition page_of (size : Z) (b : list Z) : Prop :=
  Z.of_nat (length b) = PAGE_SIZE /\ 0 <= size <= PAGE_SIZE
  /\ drop (Z.to_nat size) b = replicate (Z.to_nat (PAGE_SIZE - size)) 0.

Lemma page_zero size b i :
  page_of size b -> (Z.to_nat size <= i < length b)%nat -> b !! i = Some 0.
Proof.
  intros (Hl & Hs & Hz) Hi. replace i with (Z.to_nat size + (i - Z.to_nat size))%nat by lia.
  rewrite <- lookup_drop, Hz. apply lookup_replicate. split; [done|lia].
Qed.

Lemma page_ext size b :
  Z.of_nat (length b) = PAGE_SIZE -> 0 <= size <= PAGE_SIZE ->
  (forall i, (Z.to_nat size <= i < length b)%nat -> b !! i = Some 0) -> page_of size b.
Proof.
  intros Hl Hs Hz. split_and!; [lia..|]. apply list_eq. intros i. rewrite lookup_drop.
  destruct (decide (i < Z.to_nat (PAGE_SIZE - size))%nat).
  - rewrite Hz by lia. symmetry. apply lookup_replicate. split; [done|lia].
  - rewrite lookup_ge_None_2 by lia. symmetry. apply lookup_ge_None_2. rewrite length_replicate. lia.
Qed.

(** The bytes of the page after a [memcpy] into it. *)
Lemma page_write size b off d :
  page_of size b -> (off + length d <= Z.to_nat PAGE_SIZE)%nat ->
  let size' := Z.max size (Z.of_nat (off + length d)) in
  page_of size' (splice b off d)
  /\ take (Z.to_nat size') (splice b off d) = file_write (take (Z.to_nat size) b) off d.
Proof.
  intros Hp Hoff. cbn zeta. pose proof Hp as (Hl & Hs & _). set (size' := Z.max _ _).
  assert (off + length d <= length b)%nat as Hb by lia.
  split.
  - apply page_ext; [rewrite length_splice; lia|lia|]. intros i Hi. rewrite length_splice in Hi by lia.
    rewrite lookup_splice_out by lia. apply (page_zero size); [done|lia].
  - apply list_eq. intros i. unfold file_write. rewrite length_take.
    destruct (decide (i < Z.to_nat size')%nat) as [Hi|Hi].
    + rewrite lookup_take_lt by done. destruct (decide (i < off)%nat) as [H1|H1].
      * rewrite lookup_splice_out, lookup_app_l by
          (rewrite ?length_take, ?length_app, ?length_replicate, ?length_take; lia).
        rewrite lookup_take_lt by done. destruct (decide (i < Z.to_nat size)%nat) as [H2|H2].
        -- rewrite lookup_app_l by (rewrite length_take; lia). by rewrite lookup_take_lt.
        -- rewrite (page_zero size) by (done || lia).
           rewrite lookup_app_r by (rewrite length_take; lia). symmetry. apply lookup_replicate.
           rewrite length_take. split; [done|lia].
      * assert (length (take off (take (Z.to_nat size) b ++ replicate (off - Nat.min (Z.to_nat size) (length b)) 0)) = off) as El.
        { rewrite length_take, length_app, length_replicate, length_take. lia. }
        rewrite lookup_app_r by lia. rewrite El.
        destruct (decide (i < off + length d)%nat) as [H2|H2].
        -- rewrite lookup_splice_in, lookup_app_l by lia. done.
        -- rewrite lookup_splice_out, lookup_app_r by lia. rewrite lookup_drop, lookup_take_lt by lia.
           f_equal. lia.
    + rewrite !lookup_ge_None_2; [done| |rewrite length_take; lia].
      rewrite !length_app, length_drop, !length_take, length_app, length_replicate, length_take. lia.
Qed.

Section files.
Context {mem : Memory} {drv : Drivers}.
Abbreviation K := (kst ramfs Z).
Implicit Types (s : K) (v : vnode Z) (n : ramfs_inode).

Lemma file_slot m f p v b :
  ramfs_wf m f -> m !! p = Some v -> ramfs_tree f !! vn_vno v = Some (FileView b) ->
  exists n b0, slot f (vn_vno v) = Some n /\ rf_mem n = MemData b0
    /\ b = take (Z.to_nat (rf_size n)) b0 /\ rf_mode n = RAMFS_TYPE_DATA /\ page_of (rf_size n) b0
    /\ vn_i v = Some (vn_vno v) /\ vn_len v = rf_size n /\ vn_mode v = S_IFREG.
Proof.
  intros Hwf Hv. rewrite ramfs_tree_lookup. intros (n & Hn & E)%fmap_Some.
  destruct (rw_vnode _ _ Hwf p v Hv) as (n' & Hn' & Hi & _ & _ & Hmode & _ & Hlen & _). simplify_eq.
  destruct (rw_inode _ _ Hwf _ _ Hn) as (Hok & _). pose proof (inode_ok_mode _ _ Hok) as Hm.
  unfold view_of in E, Hmode. destruct (rf_mem n) as [b0| |] eqn:Em; simplify_eq.
  exists n, b0. destruct Hok as [_ Hok]. rewrite Hm in Hok. destruct Hok as (b1 & E1 & Hpage).
  rewrite Em in E1. injection E1 as <-. split_and!; try done. by apply Hlen.
Qed.

(** A change of the page and the size of a file. *)
Lemma wf_file m f p v n b size :
  ramfs_wf m f -> m !! p = Some v -> slot f (vn_vno v) = Some n -> rf_mode n = RAMFS_TYPE_DATA ->
  (forall q w, m !! q = Some w -> vn_vno w = vn_vno v -> q = p) -> page_of size b ->
  let n' := RamfsInode size (rf_ino n) (MemData b) (rf_mode n) (rf_linkcount n) in
  ramfs_wf (<[p := set_vn_len size v]> m) (<[Z.to_nat (vn_vno v) := Some n']> f).
Proof.
  intros Hwf Hv Hn Hmode Hu Hpage n'. pose proof (slot_range _ _ _ Hn) as Hr.
  set (i := vn_vno v) in *. destruct (rw_inode _ _ Hwf _ _ Hn) as (Hok & Hlc & _).
  pose proof (inode_ok_mode _ _ Hok) as Hmm.
  assert (f !! Z.to_nat i = Some (Some n)) as Hl0.
  { pose proof (slot_mjoin _ _ _ Hn). by destruct (f !! Z.to_nat i); simplify_eq/=. }
  assert (forall j, links j (<[Z.to_nat i := Some n']> f) = links j f) as El.
  { intros j. rewrite (links_insert j f _ _ _ Hl0). cbn. destruct (rf_mem n); [lia|congruence|lia]. }
  assert (forall j, in_memory j (<[p := set_vn_len size v]> m) = in_memory j m) as Em.
  { intros j. by apply (in_memory_replace m p v). }
  split.
  - rewrite length_insert. apply (rw_len _ _ Hwf).
  - intros j nj. rewrite El, Em. destruct (decide (i = j)) as [<-|Hne].
    + rewrite slot_insert_eq by done. intros [= <-]. split_and!; [|done|cbn; congruence].
      destruct Hok as [Hino _]. split; [done|]. cbn. rewrite Hmode. by exists b.
    + rewrite slot_insert_ne by (done || lia). apply (rw_inode _ _ Hwf).
  - intros q w. destruct (decide (q = p)) as [->|Hq].
    + rewrite lookup_insert_eq. intros [= <-]. exists n'. cbn [vn_vno set_vn_len].
      rewrite slot_insert_eq by done. split; [done|].
      destruct (rw_vnode _ _ Hwf p v Hv) as (n0 & Hn0 & H1 & H2 & H3 & H4 & H5 & H6 & _).
      fold i in Hn0. assert (n0 = n) as -> by congruence. unfold vnode_ok, view_of in *.
      destruct (rf_mem n); [|congruence|destruct Hmm; congruence]. done.
    + rewrite lookup_insert_ne by done. intros Hw.
      destruct (rw_vnode _ _ Hwf q w Hw) as (nw & Hnw & Hokw). exists nw.
      rewrite slot_insert_ne; [done|lia|]. intros E. apply Hq. by eapply Hu.
  - destruct (decide (i = 0)) as [->|]; [rewrite slot_insert_eq by done; by eexists|].
    rewrite slot_insert_ne by (done || lia). apply (rw_root _ _ Hwf).
  - intros j nj es k e Hj Hm Hk Hf.
    destruct (decide (i = j)) as [<-|Hne].
    { rewrite slot_insert_eq in Hj by done. injection Hj as <-. done. }
    rewrite slot_insert_ne in Hj by (done || lia).
    destruct (rw_entry _ _ Hwf _ _ _ _ _ Hj Hm Hk Hf) as (n1 & H1 & H2).
    destruct (decide (i = rd_ino e)) as [E|E].
    + rewrite <- E, slot_insert_eq by done. exists n'. split; [done|].
      rewrite <- E in H1. assert (n1 = n) as -> by congruence. done.
    + rewrite slot_insert_ne by (done || lia). eauto.
Qed.

Lemma ramfs_read_spec X Y L s p v b pos len :
  vfs_ok ramfs_ops X Y L s -> k_vnodes s !! p = Some v ->
  the_tree ramfs_ops s !! vn_vno v = Some (FileView b) ->
  0 <= pos -> 0 <= len -> pos + len < 2 ^ 63 ->
  let d := slice b (Z.to_nat pos) (Z.to_nat len) in
  wp (ramfs_read p pos len)
     (fun r s' => r = (Z.of_nat (length d), d) /\ vfs_ok ramfs_ops X Y L s' /\ keeps ramfs_ops s s'
                  /\ the_tree ramfs_ops s' = the_tree ramfs_ops s) s.
Proof.
  intros Hok Hv Ht Hp Hlen Hb d. pose proof (ok_fs _ _ _ _ _ Hok) as Hwf.
  destruct (file_slot _ _ _ _ _ Hwf Hv Ht) as (n & b0 & Hn & Hm & -> & _ & Hpage & Hi & Hl & Hmode).
  pose proof Hpage as (Hlb & Hs & _).
  unfold ramfs_read. wp_use wp_vn_get; [done|]. wp_use wp_kassert; [by rewrite Hmode|].
  wp_use wp_vnode_slot; [done|done|]. wp_use wp_rf_get; [done|].
  rewrite u64_id, s64_id by lia. unfold inode_bytes. rewrite Hm. wp_steps.
  set (r := if rf_size n <? pos then _ else _).
  assert (Z.of_nat (length d) = r) as Er.
  { unfold d, slice, r. rewrite length_take, length_drop, length_take.
    repeat case_match; lia. }
  assert (0 <= r /\ (r = 0 \/ pos + r <= rf_size n)) as [Hr0 Hr] by (unfold r; repeat case_match; lia).
  assert (wp (mem_read b0 pos r) (fun data s' => data = d /\ s' = s) s) as Hmem.
  { unfold mem_read. destruct (decide (r = 0)) as [E|E].
    - assert (d = []) as Ed by (apply nil_length_inv; lia). rewrite E, Ed.
      destruct (_ && _); [|done]. by rewrite Z2Nat.inj_0.
    - rewrite (proj2 (andb_true_iff _ _)) by (split; lia). split; [|done].
      unfold d, slice. rewrite !take_drop_commute, take_take. do 2 f_equal.
      unfold r in *. repeat case_match; lia. }
  eapply wp_mono; [exact Hmem|]. intros data s' [-> ->]. wp_steps. rewrite Er. by split_and!.
Qed.

(** The state after a change of the page and the size of a file. *)
Definition with_file p v n b size s : K :=
  set_fs_i (<[Z.to_nat (vn_vno v) :=
               Some (RamfsInode size (rf_ino n) (MemData b) (rf_mode n) (rf_linkcount n))]> (fs_i s))
    (set_vnodes (<[p := set_vn_len size v]> (k_vnodes s)) s).

Lemma with_file_ok X Y L s p v n b size :
  vfs_ok ramfs_ops X Y L s -> k_vnodes s !! p = Some v -> slot (fs_i s) (vn_vno v) = Some n ->
  rf_mode n = RAMFS_TYPE_DATA -> page_of size b ->
  vfs_ok ramfs_ops X Y L (with_file p v n b size s) /\ stable s (with_file p v n b size s)
  /\ the_tree ramfs_ops (with_file p v n b size s)
     = <[vn_vno v := FileView (take (Z.to_nat size) b)]> (the_tree ramfs_ops s).
Proof.
  intros Hok Hv Hn Hm Hp. pose proof (ok_fs _ _ _ _ _ Hok) as Hwf. split_and!.
  - apply (upd_vnode_ok ramfs_ops _ _ _ _ p v); try done. apply wf_file; try done.
    intros q w Hw E. by apply (ok_unique _ _ _ _ _ Hok q p w v).
  - by eapply upd_vnode_stable.
  - change (the_tree ramfs_ops s) with (ramfs_tree (fs_i s)).
    change (the_tree ramfs_ops (with_file p v n b size s)) with (ramfs_tree (fs_i (with_file p v n b size s))).
    unfold with_file. cbn [fs_i set_fs_i set_vnodes]. rewrite ramfs_tree_insert; [done|].
    by eapply slot_range.
Qed.

Lemma ramfs_write_spec X Y L s p v b pos buf :
  vfs_ok ramfs_ops X Y L s -> k_vnodes s !! p = Some v ->
  the_tree ramfs_ops s !! vn_vno v = Some (FileView b) ->
  0 <= pos <= PAGE_SIZE -> Z.of_nat (length buf) < 2 ^ 63 ->
  let n := Z.min (Z.of_nat (length buf)) (PAGE_SIZE - pos) in
  wp (ramfs_write p pos buf)
     (fun r s' => r = n /\ vfs_ok ramfs_ops X Y L s' /\ stable s s'
        /\ the_tree ramfs_ops s'
           = <[vn_vno v := FileView (file_write b (Z.to_nat pos) (take (Z.to_nat n) buf))]>
               (the_tree ramfs_ops s)) s.
Proof.
  intros Hok Hv Ht Hp Hb r. pose proof (ok_fs _ _ _ _ _ Hok) as Hwf.
  destruct (file_slot _ _ _ _ _ Hwf Hv Ht) as (n & b0 & Hn & Hm & -> & Hmode & Hpage & Hi & Hl & Hvm).
  pose proof Hpage as (Hlb & Hs & _). pose proof (slot_range _ _ _ Hn) as Hr.
  assert (PAGE_SIZE = 4096) as HPS by done.
  unfold ramfs_write. wp_use wp_vn_get; [done|]. wp_use wp_kassert; [by rewrite Hvm|].
  wp_use wp_vnode_slot; [done|done|]. wp_use wp_rf_get; [done|].
  rewrite (u64_id (PAGE_SIZE - pos)), s64_id by lia. fold r.
  unfold inode_bytes. rewrite Hm. wp_steps.
  set (d := take (Z.to_nat r) buf). assert (length d = Z.to_nat r) as Hd by (unfold d; rewrite length_take; lia).
  set (b' := splice b0 (Z.to_nat pos) d).
  apply (wp_mono _ (fun x s' => x = b' /\ s' = s)).
  { destruct (Z.eqb_spec r 0) as [E|E].
    - split; [|done]. unfold b', d, splice. rewrite E, take_0, Nat.add_0_r. cbn. by rewrite take_drop.
    - rewrite (proj2 (andb_true_iff _ _)) by (split; lia). done. }
  intros x s' [-> ->]. wp_use wp_rf_modify; [done|]. wp_use wp_kassert; [apply Z.eqb_eq; lia|].
  unfold vn_modify, vn_put. wp_use wp_vn_get; [done|]. wp_steps.
  rewrite u64_id by lia. set (size := Z.max _ _).
  wp_use wp_rf_modify; [by apply slot_insert_eq|]. wp_steps.
  destruct (page_write (rf_size n) b0 (Z.to_nat pos) d Hpage ltac:(lia)) as [Hpage' Hbytes].
  assert (Z.max (rf_size n) (Z.of_nat (Z.to_nat pos + length d)) = size) as Esize by (unfold size; lia).
  cbn zeta in Hpage', Hbytes. rewrite Esize in Hpage', Hbytes.
  destruct (with_file_ok X Y L s p v n b' size Hok Hv Hn Hmode Hpage') as (H1 & H2 & H3).
  match goal with |- _ /\ vfs_ok _ _ _ _ ?t /\ _ => replace t with (with_file p v n b' size s) end.
  - split_and!; [done|done|done|]. rewrite H3. fold b' in Hbytes. by rewrite Hbytes.
  - unfold with_file. cbn. by rewrite list_insert_insert_eq.
Qed.

Lemma ramfs_truncate_spec X Y L s p v b :
  vfs_ok ramfs_ops X Y L s -> k_vnodes s !! p = Some v ->
  the_tree ramfs_ops s !! vn_vno v = Some (FileView b) ->
  wp (ramfs_truncate_file p)
     (fun _ s' => vfs_ok ramfs_ops X Y L s' /\ stable s s'
        /\ the_tree ramfs_ops s' = <[vn_vno v := FileView []]> (the_tree ramfs_ops s)) s.
Proof.
  intros Hok Hv Ht. pose proof (ok_fs _ _ _ _ _ Hok) as Hwf.
  destruct (file_slot _ _ _ _ _ Hwf Hv Ht) as (n & b0 & Hn & Hm & -> & Hmode & Hpage & Hi & Hl & Hvm).
  pose proof (slot_range _ _ _ Hn) as Hr.
  unfold ramfs_truncate_file. wp_use wp_vn_get; [done|]. wp_use wp_kassert; [by rewrite Hvm|].
  wp_use wp_vnode_slot; [done|done|]. wp_use wp_rf_modify; [done|].
  unfold vn_modify, vn_put. wp_use wp_vn_get; [done|]. wp_steps.
  wp_use wp_rf_modify; [by apply slot_insert_eq|].
  assert (page_of 0 zero_page) as Hz by (by split_and!).
  destruct (with_file_ok X Y L s p v n zero_page 0 Hok Hv Hn Hmode Hz) as (H1 & H2 & H3).
  match goal with |- vfs_ok _ _ _ _ ?t /\ _ => replace t with (with_file p v n zero_page 0 s) end.
  - split_and!; [done|done|]. by rewrite H3.
  - unfold with_file. cbn. by rewrite list_insert_insert_eq.
Qed.

#[export] Instance ramfs_files : FsFiles ramfs_ops ramfs_vops.
Proof.
  refine {| fs_max_size := PAGE_SIZE; file_read := ramfs_read; file_store := ramfs_write;
            file_truncate := ramfs_truncate_file |}.
  - done.
  - done.
  - intros X Y L s p v b pos len Hok Hv _ Ht Hp Hl Hb. by eapply ramfs_read_spec.
  - done.
  - intros X Y L s p v b pos buf Hok Hv _ Ht Hp Hb. by eapply ramfs_write_spec.
  - done.
  - intros X Y L s p v b. apply ramfs_truncate_spec.
Defined.
End files.
