(* ===== verification/RamfsDirProofs.v ===== *)
(** The directory operations of ramfs discharge the contract of the VFS:
    [ramfs_mknod], [ramfs_mkdir] and [ramfs_unlink]. *)

From S2P Require Import Prelude CString Btree Mobj Vnode File Ramfs.
From S2P Require Import VfsSpec VnodeProofs FileProofs NamevProofs RamfsProofs.

(** ** Entries of a directory *)

Lemma entries_of_app l l' : entries_of (l ++ l') = entries_of l ++ entries_of l'.
Proof. unfold entries_of. apply omap_app. Qed.

Lemma assoc_app nm l l' :
  assoc nm (l ++ l') = match assoc nm l with Some i => Some i | None => assoc nm l' end.
Proof. induction l as [|[n i] l IH]; [done|]. cbn. by case_decide. Qed.

Lemma assoc_None nm l : assoc nm l = None <-> nm ∉ l.*1.
Proof.
  induction l as [|[n i] l IH]; cbn; [split; [intros _; apply not_elem_of_nil|done]|].
  rewrite not_elem_of_cons. case_decide; [split; [done|naive_solver]|]. rewrite IH. naive_solver.
Qed.

(** An entry put in the place of a free one. *)
Lemma entries_fill es k e0 e :
  es !! k = Some e0 -> is_free e0 = true -> is_free e = false ->
  exists a b, entries_of es = a ++ b
              /\ entries_of (<[k := e]> es) = a ++ (cstr (rd_name e), rd_ino e) :: b.
Proof.
  intros Hk H0 H1. destruct (list_elem_of_split_length es k e0 Hk) as (l1 & l2 & -> & ->).
  exists (entries_of l1), (entries_of l2). rewrite insert_app_r_alt by lia.
  rewrite Nat.sub_diag. cbn [insert list_insert]. rewrite !entries_of_app, !entries_of_cons, H0, H1. done.
Qed.

(** An entry made free. *)
Lemma entries_clear es k e0 e :
  es !! k = Some e0 -> is_free e0 = false -> is_free e = true ->
  exists a b, entries_of es = a ++ (cstr (rd_name e0), rd_ino e0) :: b
              /\ entries_of (<[k := e]> es) = a ++ b.
Proof.
  intros Hk H0 H1. destruct (list_elem_of_split_length es k e0 Hk) as (l1 & l2 & -> & ->).
  exists (entries_of l1), (entries_of l2). rewrite insert_app_r_alt by lia.
  rewrite Nat.sub_diag. cbn [insert list_insert]. rewrite !entries_of_app, !entries_of_cons, H0, H1. done.
Qed.

Lemma dir_add_fill es k e0 e :
  es !! k = Some e0 -> is_free e0 = true -> is_free e = false ->
  assoc (cstr (rd_name e)) (entries_of es) = None -> NoDup (entries_of es).*1 ->
  dir_add (cstr (rd_name e)) (rd_ino e) (entries_of es) (entries_of (<[k := e]> es))
  /\ NoDup (entries_of (<[k := e]> es)).*1.
Proof.
  intros Hk H0 H1 Ha Hnd. destruct (entries_fill es k e0 e Hk H0 H1) as (a & b & Ea & Eb).
  rewrite Ea in *. rewrite Eb. split.
  - intros nm. rewrite assoc_app in Ha |- *. cbn [assoc]. rewrite assoc_app.
    destruct (assoc (cstr (rd_name e)) a) eqn:E1; [done|].
    destruct (decide (nm = cstr (rd_name e))) as [->|Hne].
    + rewrite E1. by rewrite decide_True.
    + rewrite (decide_False (P := cstr (rd_name e) = nm)) by congruence. done.
  - apply assoc_None in Ha. rewrite fmap_app in *. cbn [fmap list_fmap fst].
    apply NoDup_app in Hnd as (N1 & N2 & N3). rewrite not_elem_of_app in Ha. destruct Ha as [Ha1 Ha2].
    apply NoDup_app. split_and!; [done| |by constructor].
    intros x Hx. rewrite not_elem_of_cons. split; [by intros ->|by apply N2].
Qed.

Lemma dir_del_clear es k e0 e :
  es !! k = Some e0 -> is_free e0 = false -> is_free e = true -> NoDup (entries_of es).*1 ->
  dir_del (cstr (rd_name e0)) (entries_of es) (entries_of (<[k := e]> es))
  /\ NoDup (entries_of (<[k := e]> es)).*1.
Proof.
  intros Hk H0 H1 Hnd. destruct (entries_clear es k e0 e Hk H0 H1) as (a & b & Ea & Eb).
  rewrite Ea, Eb in *. rewrite fmap_app in Hnd. cbn [fmap list_fmap fst] in Hnd.
  apply NoDup_app in Hnd as (N1 & N2 & N3). apply NoDup_cons in N3 as [N3 N4].
  assert (cstr (rd_name e0) ∉ a.*1) as Ha by (intros H%N2; by apply not_elem_of_cons in H as []).
  split.
  - intros nm. rewrite !assoc_app. cbn [assoc]. case_decide as E.
    + subst nm. apply assoc_None in Ha. rewrite Ha. by apply assoc_None.
    + by rewrite (decide_False (P := cstr (rd_name e0) = nm)) by congruence.
  - rewrite fmap_app. apply NoDup_app. split_and!; [done| |done].
    intros x Hx%N2. by apply not_elem_of_cons in Hx as [_ ?].
Qed.

(** ** Link counts *)

Lemma length_filter_insert {A} (P : A -> Prop) `{forall x, Decision (P x)} (l : list A) i b c :
  l !! i = Some b ->
  Z.of_nat (length (filter P (<[i := c]> l)))
  = Z.of_nat (length (filter P l)) - one (P b) + one (P c).
Proof.
  intros Hi. destruct (list_elem_of_split_length l i b Hi) as (l1 & l2 & -> & ->).
  rewrite insert_app_r_alt, Nat.sub_diag by lia. cbn [insert list_insert].
  rewrite !filter_app, !filter_cons. unfold one.
  repeat case_decide; rewrite !length_app; cbn [length]; lia.
Qed.

Lemma dir_links_insert i es k e0 e :
  es !! k = Some e0 -> (2 <= k)%nat ->
  dir_links i (<[k := e]> es) = dir_links i es - one (names i e0) + one (names i e).
Proof.
  intros Hk Hge. unfold dir_links. rewrite drop_insert_ge by done.
  rewrite (length_filter_insert (names i) _ (k - 2) e0).
  - unfold one. repeat case_decide; done || lia.
  - rewrite lookup_drop, <- Hk. f_equal. lia.
Qed.

Lemma links_pos_inv i f :
  0 < links i f ->
  exists j n es k e, slot f j = Some n /\ rf_mem n = MemDir es /\ es !! (2 + k)%nat = Some e /\ names i e.
Proof.
  intros H. assert (exists k o, f !! k = Some o /\ 0 < inode_links i o) as (k & o & Hk & Ho).
  { induction f as [|o f IH]; cbn in H; [lia|]. destruct (decide (0 < inode_links i o)).
    - by exists 0%nat, o.
    - destruct IH as (k & o' & ? & ?); [lia|]. by exists (S k), o'. }
  destruct o as [n|]; [|cbn in Ho; lia]. cbn in Ho. destruct (rf_mem n) as [|es|] eqn:Em; try lia.
  unfold dir_links in Ho. destruct (filter (names i) (drop 2 es)) as [|e l] eqn:Ef; [cbn in Ho; lia|].
  assert (e ∈ filter (names i) (drop 2 es)) as He by (rewrite Ef; left).
  apply list_elem_of_filter in He as [Hn He]. apply list_elem_of_lookup_1 in He as [m Hm].
  rewrite lookup_drop in Hm. exists (Z.of_nat k), n, es, m, e. split_and!; try done.
  unfold slot. rewrite (proj2 (Z.leb_le 0 _)) by lia. by rewrite Nat2Z.id, Hk.
Qed.

Lemma in_memory_zero i m : (forall p v, m !! p = Some v -> vn_vno v <> i) -> in_memory i m = 0.
Proof.
  intros H. unfold in_memory, count.
  assert (filter (fun pv : Z * vnode Z => vn_vno pv.2 = i) m = ∅) as ->; [|done].
  apply map_empty. intros p. apply map_lookup_filter_None. right. intros v Hv. by apply (H p v).
Qed.

(** ** The invariant after a new inode is entered *)

Section wf.
Context {drv : Drivers}.

Lemma slot_lookup f i n : slot f i = Some n -> f !! Z.to_nat i = Some (Some n).
Proof. intros H%slot_mjoin. by destruct (f !! Z.to_nat i); simplify_eq/=. Qed.

Lemma dot_used i es e k :
  dir_ok i es -> es !! k = Some e -> is_free e = true -> (2 <= k)%nat.
Proof.
  intros Hd Hk Hf. destruct (do_dot _ _ Hd) as (e0 & H0 & E0 & _).
  destruct (do_dotdot _ _ Hd) as (e1 & H1 & E1).
  assert (name_ok (rd_name e)) as Hn by (eapply (Forall_lookup_1 _ _ _ _ (do_entries _ _ Hd)); done).
  pose proof (is_free_cstr _ Hn) as Hc. unfold is_free in Hf. rewrite Hc in Hf.
  apply bool_decide_eq_true in Hf. destruct k as [|[|k]]; [..|lia]; simplify_eq; by rewrite Hf in *.
Qed.

(** A directory after a change of an entry but for the first two. *)
Lemma dir_ok_insert i es k e :
  dir_ok i es -> (2 <= k)%nat -> dirent_ok e -> NoDup (entries_of (<[k := e]> es)).*1 ->
  dir_ok i (<[k := e]> es).
Proof.
  intros [Hl He H0 H1 _] Hk Hok Hnd. split; [by rewrite length_insert|by apply Forall_insert| | |done].
  - by rewrite list_lookup_insert_ne by lia.
  - by rewrite list_lookup_insert_ne by lia.
Qed.

(** The links to an inode that a free slot will hold. *)
Lemma wf_free_slot m f j :
  ramfs_wf m f -> slot f j = None -> links j f = 0 /\ in_memory j m = 0 /\ j <> 0.
Proof.
  intros Hwf Hj. split_and!.
  - destruct (decide (0 < links j f)) as [H|H]; [|pose proof (links_nonneg j f); lia].
    apply links_pos_inv in H as (d & n & es & k & e & Hd & Hm & Hk & Hf & Hi).
    destruct (rw_entry _ _ Hwf _ _ _ _ _ Hd Hm Hk Hf) as (n' & Hn' & _). congruence.
  - apply in_memory_zero. intros p v Hv <-. destruct (rw_vnode _ _ Hwf p v Hv) as (n & Hn & _). congruence.
  - intros ->. destruct (rw_root _ _ Hwf). congruence.
Qed.

(** An inode that is not yet in the table: well-formed, with one link, and a
    directory only names itself and its parent. *)
Definition new_inode d j n : Prop :=
  inode_ok j n /\ rf_linkcount n = 1 /\ (forall i, inode_links i (Some n) = 0)
  /\ (forall es k e, rf_mem n = MemDir es -> es !! k = Some e -> is_free e = false ->
        (k < 2)%nat /\ (rd_ino e = d \/ rd_ino e = j)).

Lemma wf_enter m f d nd es k e0 e j nj size :
  ramfs_wf m f -> slot f d = Some nd -> rf_mode nd = RAMFS_TYPE_DIR -> rf_mem nd = MemDir es ->
  dir_ok d es -> es !! k = Some e0 -> is_free e0 = true -> is_free e = false -> dirent_ok e ->
  rd_ino e = j -> NoDup (entries_of (<[k := e]> es)).*1 ->
  0 <= j < Z.of_nat (length f) -> slot f j = None -> new_inode d j nj ->
  ramfs_wf m (<[Z.to_nat d := Some (set_rf_size size (set_rf_mem (MemDir (<[k := e]> es)) nd))]>
                (<[Z.to_nat j := Some nj]> f)).
Proof.
  intros Hwf Hd Hmode Hm Hdir Hk Hf0 Hf He Hej Hnd Hj Hs (Hok & Hlc & Hlk & Hent).
  destruct (wf_free_slot _ _ _ Hwf Hs) as (Hl0 & Hm0 & Hj0).
  pose proof (dot_used _ _ _ _ Hdir Hk Hf0) as Hk2. pose proof (slot_range _ _ _ Hd) as Hr.
  assert (d <> j) as Hdj by congruence.
  set (nd' := set_rf_size _ _). set (f' := <[_ := _]> (<[_ := _]> f)).
  assert (slot f' d = Some nd') as Ed by (apply slot_insert_eq; rewrite length_insert; lia).
  assert (slot f' j = Some nj) as Ej.
  { unfold f'. rewrite slot_insert_ne by (done || lia). by apply slot_insert_eq. }
  assert (forall i, i <> d -> i <> j -> slot f' i = slot f i) as Es.
  { intros i H1 H2. unfold f'. by rewrite !slot_insert_ne by (done || lia). }
  assert (forall i, links i f' = links i f + one (i = j)) as El.
  { intros i. unfold f'. rewrite (links_insert i _ _ (Some nd)) by
      (rewrite list_lookup_insert_ne by lia; by apply slot_lookup).
    assert (f !! Z.to_nat j = Some None) as Hjl.
    { unfold slot in Hs. rewrite (proj2 (Z.leb_le 0 j)) in Hs by lia.
      destruct (lookup_lt_is_Some_2 f (Z.to_nat j)) as [o Ho]; [lia|]. rewrite Ho in Hs |- *. by destruct o. }
    rewrite (links_insert i f _ None) by done. rewrite Hlk. cbn [inode_links]. rewrite Hm. cbn.
    rewrite (dir_links_insert i es k e0 e) by done.
    rewrite (one_false (names i e0)) by (unfold names; rewrite Hf0; naive_solver).
    unfold one, names. rewrite Hf, Hej. repeat case_decide; try lia; naive_solver. }
  assert (forall i n, slot f i = Some n -> exists n', slot f' i = Some n' /\ rf_mode n' = rf_mode n
             /\ (forall v, vnode_ok v n -> vnode_ok v n')) as Et.
  { intros i n Hi. destruct (decide (i = d)) as [->|H1].
    - exists nd'. simplify_eq. split_and!; [done|done|]. intros v. unfold vnode_ok, view_of. cbn. rewrite Hm.
      intros (? & ? & ? & ? & ? & _). rewrite Hmode. done.
    - destruct (decide (i = j)) as [->|H2]; [congruence|]. rewrite Es by done. eauto. }
  split.
  - unfold f'. rewrite !length_insert. apply (rw_len _ _ Hwf).
  - intros i n Hi. rewrite El. destruct (decide (i = d)) as [->|H1]; [|destruct (decide (i = j)) as [->|H2]].
    + rewrite Ed in Hi. injection Hi as <-. rewrite (one_false (d = j)), Z.add_0_r by done.
      destruct (rw_inode _ _ Hwf _ _ Hd) as ([Hino _] & Hc & Hp). split_and!; [|done|done].
      split; [done|]. cbn. rewrite Hmode. eexists. split; [done|]. by apply dir_ok_insert.
    + rewrite Ej in Hi. injection Hi as <-. rewrite Hl0, Hm0, (one_false (j = 0)), one_true by done.
      split_and!; [done|lia|lia].
    + rewrite Es in Hi by done. rewrite (one_false (i = j)), Z.add_0_r by done. by apply (rw_inode _ _ Hwf).
  - intros p v Hv. destruct (rw_vnode _ _ Hwf p v Hv) as (n & Hn & Hvok).
    destruct (Et _ _ Hn) as (n' & ? & _ & ?). eauto.
  - destruct (rw_root _ _ Hwf) as [n Hn]. destruct (Et _ _ Hn) as (n' & ? & _). eauto.
  - intros i n es1 k1 e1 Hi Hmem Hk1 Hf1.
    assert (slot f' (rd_ino e1) = Some nj /\ (2 <= k1)%nat
            \/ slot f' (rd_ino e1) = Some nj /\ rf_mode nj = RAMFS_TYPE_DIR
            \/ slot f' (rd_ino e1) = Some nd'
            \/ exists n1, slot f (rd_ino e1) = Some n1 /\ ((k1 < 2)%nat -> rf_mode n1 = RAMFS_TYPE_DIR)) as Hc.
    { destruct (decide (i = j)) as [->|H2].
      { rewrite Ej in Hi. injection Hi as <-. destruct (Hent _ _ _ Hmem Hk1 Hf1) as [Hlt [-> | ->]]; [auto|].
        pose proof (inode_ok_mode _ _ Hok) as Hmj. rewrite Hmem in Hmj. auto. }
      destruct (decide (i = d)) as [->|H1].
      - rewrite Ed in Hi. injection Hi as <-. injection Hmem as <-. destruct (decide (k1 = k)) as [->|Hne].
        + rewrite list_lookup_insert_eq in Hk1 by by eapply lookup_lt_Some. injection Hk1 as <-.
          rewrite Hej. auto.
        + rewrite list_lookup_insert_ne in Hk1 by done.
          destruct (rw_entry _ _ Hwf _ _ _ _ _ Hd Hm Hk1 Hf1) as (n1 & ? & ?). eauto 10.
      - rewrite Es in Hi by done. destruct (rw_entry _ _ Hwf _ _ _ _ _ Hi Hmem Hk1 Hf1) as (n1 & ? & ?). eauto 10. }
    destruct Hc as [[Hc ?]|[[Hc ?]|[Hc|(n1 & Hc & Hlt)]]].
    + exists nj. split; [done|lia].
    + by exists nj.
    + by exists nd'.
    + destruct (Et _ _ Hc) as (n2 & ? & E & _). exists n2. split; [done|]. rewrite E. done.
Qed.

(** The invariant after the entry of an inode that is not a directory is cleared. *)
Lemma wf_remove m f d nd es k e0 e c nc size :
  ramfs_wf m f -> slot f d = Some nd -> rf_mode nd = RAMFS_TYPE_DIR -> rf_mem nd = MemDir es ->
  dir_ok d es -> es !! k = Some e0 -> (2 <= k)%nat -> is_free e0 = false -> rd_ino e0 = c ->
  is_free e = true -> dirent_ok e -> NoDup (entries_of (<[k := e]> es)).*1 ->
  slot f c = Some nc -> rf_mode nc <> RAMFS_TYPE_DIR ->
  ramfs_wf m (<[Z.to_nat c := Some (set_rf_linkcount (rf_linkcount nc - 1) nc)]>
                (<[Z.to_nat d := Some (set_rf_size size (set_rf_mem (MemDir (<[k := e]> es)) nd))]> f)).
Proof.
  intros Hwf Hd Hmode Hm Hdir Hk Hk2 Hf0 Hc0 Hf He Hnd Hc Hcm.
  pose proof (slot_range _ _ _ Hd) as Hr. pose proof (slot_range _ _ _ Hc) as Hrc.
  assert (c <> d) as Hcd by congruence.
  set (nd' := set_rf_size _ _). set (nc' := set_rf_linkcount _ _). set (f' := <[_ := _]> (<[_ := _]> f)).
  assert (slot f' c = Some nc') as Ec by (apply slot_insert_eq; rewrite length_insert; lia).
  assert (slot f' d = Some nd') as Ed.
  { unfold f'. rewrite slot_insert_ne by (done || lia). by apply slot_insert_eq. }
  assert (forall i, i <> d -> i <> c -> slot f' i = slot f i) as Es.
  { intros i H1 H2. unfold f'. by rewrite !slot_insert_ne by (done || lia). }
  assert (forall i, links i f' = links i f - one (i = c)) as El.
  { intros i. unfold f'. rewrite (links_insert i _ _ (Some nc)) by
      (rewrite list_lookup_insert_ne by lia; by apply slot_lookup).
    rewrite (links_insert i f _ (Some nd)) by by apply slot_lookup. cbn [inode_links]. rewrite Hm. cbn.
    rewrite (dir_links_insert i es k e0 e) by done.
    rewrite (one_false (names i e)) by (unfold names; rewrite Hf; naive_solver).
    unfold one, names. rewrite Hf0, Hc0. repeat case_decide; try lia; naive_solver. }
  assert (forall i n, slot f i = Some n -> exists n', slot f' i = Some n' /\ rf_mode n' = rf_mode n
             /\ (forall v, vnode_ok v n -> vnode_ok v n')) as Et.
  { intros i n Hi. destruct (decide (i = d)) as [->|H1].
    - exists nd'. simplify_eq. split_and!; [done|done|]. intros v. unfold vnode_ok, view_of. cbn. rewrite Hm.
      intros (? & ? & ? & ? & ? & _). rewrite Hmode. done.
    - destruct (decide (i = c)) as [->|H2]; [exists nc'; by simplify_eq|]. rewrite Es by done. eauto. }
  split.
  - unfold f'. rewrite !length_insert. apply (rw_len _ _ Hwf).
  - intros i n Hi. rewrite El. destruct (decide (i = d)) as [->|H1]; [|destruct (decide (i = c)) as [->|H2]].
    + rewrite Ed in Hi. injection Hi as <-. rewrite (one_false (d = c)), Z.sub_0_r by done.
      destruct (rw_inode _ _ Hwf _ _ Hd) as ([Hino _] & ? & Hp). split_and!; [|done|done].
      split; [done|]. cbn. rewrite Hmode. eexists. split; [done|]. by apply dir_ok_insert.
    + rewrite Ec in Hi. injection Hi as <-. rewrite (one_true (c = c)) by done.
      destruct (rw_inode _ _ Hwf _ _ Hc) as (? & Hlc & _). split_and!; [done|cbn; lia|done].
    + rewrite Es in Hi by done. rewrite (one_false (i = c)), Z.sub_0_r by done. by apply (rw_inode _ _ Hwf).
  - intros p v Hv. destruct (rw_vnode _ _ Hwf p v Hv) as (n & Hn & Hvok).
    destruct (Et _ _ Hn) as (n' & ? & _ & ?). eauto.
  - destruct (rw_root _ _ Hwf) as [n Hn]. destruct (Et _ _ Hn) as (n' & ? & _). eauto.
  - intros i n es1 k1 e1 Hi Hmem Hk1 Hf1.
    assert (exists n0 es0, slot f i = Some n0 /\ rf_mem n0 = MemDir es0 /\ es0 !! k1 = Some e1)
      as (n0 & es0 & Hn0 & Hm0 & He0).
    { destruct (decide (i = d)) as [->|H1]; [|destruct (decide (i = c)) as [->|H2]].
      - rewrite Ed in Hi. injection Hi as <-. injection Hmem as <-. exists nd, es. split_and!; [done..|].
        destruct (decide (k1 = k)) as [->|]; [|by rewrite list_lookup_insert_ne in Hk1].
        rewrite list_lookup_insert_eq in Hk1 by by eapply lookup_lt_Some. congruence.
      - rewrite Ec in Hi. injection Hi as <-. eauto.
      - rewrite Es in Hi by done. eauto. }
    destruct (rw_entry _ _ Hwf _ _ _ _ _ Hn0 Hm0 He0 Hf1) as (n1 & H1 & Hlt).
    destruct (Et _ _ H1) as (n2 & ? & E & _). exists n2. split; [done|]. rewrite E. done.
Qed.
End wf.

(** ** Making inodes *)

(** A name of fewer than [NAME_LEN] bytes is stored as it is. *)
Lemma set_name_ok old name n :
  length old = Z.to_nat NAME_LEN -> nonul name -> 0 <= n <= Z.of_nat (length name) -> n < NAME_LEN ->
  name_ok (set_name old name n) /\ cstr (set_name old name n) = take (Z.to_nat n) name.
Proof.
  intros Hl Hname Hn Hlt. unfold set_name.
  rewrite Z.min_l by lia. rewrite strncpy_spec by (done || lia).
  assert (length (take (Z.to_nat n) name) = Z.to_nat n) as Ht by (rewrite length_take; lia).
  rewrite take_app_le by lia. rewrite insert_app_r_alt by lia. rewrite Ht, Nat.sub_diag.
  assert (length (drop (Z.to_nat n) old) = S (Z.to_nat (NAME_LEN - 1) - Z.to_nat n)) as Hd
    by (rewrite length_drop, Hl; lia).
  destruct (drop (Z.to_nat n) old) as [|c q] eqn:E; [done|]. cbn [insert list_insert].
  assert (nonul (take (Z.to_nat n) name)) by by apply Forall_take.
  split; [|by apply cstr_nul]. split; [|eauto].
  rewrite length_app, Ht. cbn [length] in *. lia.
Qed.

Section dirs.
Context {mem : Memory} {drv : Drivers}.
Abbreviation K := (kst ramfs Z).
Implicit Types (s : K) (v : vnode Z) (n : ramfs_inode).

Lemma first_index_Some {A} (g : A -> bool) l k :
  first_index g l = Some k -> exists a, l !! k = Some a /\ g a = true.
Proof.
  revert k. induction l as [|a l IH]; intros k; cbn; [done|].
  destruct (g a) eqn:E; [intros [= <-]; eauto|].
  intros (k' & Hk' & ->)%fmap_Some. by apply IH.
Qed.

(** The inode [ramfs_alloc_inode] puts in a slot. *)
Definition alloc_mem (type : ramfs_type) (devid : Z) : ramfs_mem :=
  match type with
  | RAMFS_TYPE_CHR | RAMFS_TYPE_BLK => MemDev devid
  | RAMFS_TYPE_DIR => MemDir zero_entries
  | RAMFS_TYPE_DATA => MemData zero_page
  end.

Lemma wp_ramfs_alloc_inode type devid (Q : Z -> K -> Prop) s :
  oom = false -> Q (- ENOSPC) s ->
  (forall j, 0 <= j < Z.of_nat (length (fs_i s)) -> slot (fs_i s) j = None ->
     Q j (set_fs_i (<[Z.to_nat j := Some (RamfsInode 0 j (alloc_mem type devid) type 1)]> (fs_i s)) s)) ->
  wp (ramfs_alloc_inode type devid) Q s.
Proof.
  intros Hoom Hfull HQ. unfold ramfs_alloc_inode. wp_steps. rewrite Hoom.
  destruct (first_index _ _) as [i|] eqn:E; [|done].
  apply first_index_Some in E as (o & Hi & Ho). destruct o; [done|].
  apply lookup_take_Some in Hi as [Hi Hlt]. pose proof (lookup_lt_Some _ _ _ Hi).
  unfold rf_put. wp_steps. apply HQ; [lia|]. unfold slot.
  rewrite (proj2 (Z.leb_le 0 _)), Nat2Z.id, Hi by lia. done.
Qed.

(** [write_entry] on the free entry [k] of a directory. *)
Lemma wp_ramfs_write_entry p v n es k e0 j name len (Q : unit -> K -> Prop) s :
  k_vnodes s !! p = Some v -> vn_i v = Some (vn_vno v) -> slot (fs_i s) (vn_vno v) = Some n ->
  rf_mem n = MemDir es -> es !! k = Some e0 ->
  (forall size, let e := RamfsDirent j (set_name (rd_name e0) name len) in
     Q tt (set_fs_i (<[Z.to_nat (vn_vno v) :=
             Some (set_rf_size size (set_rf_mem (MemDir (<[k := e]> es)) n))]> (fs_i s)) s)) ->
  wp (write_entry p k j name len) Q s.
Proof.
  intros Hv Hi Hn Hm Hk HQ. pose proof (slot_range _ _ _ Hn) as Hr. unfold write_entry, set_entries.
  wp_use wp_vnode_slot; [done|done|]. wp_use wp_dir_entries; [done..|]. wp_use wp_deref; [done|].
  wp_use wp_rf_modify; [done|]. eapply wp_rf_modify; [by apply slot_insert_eq|].
  cbn. rewrite list_insert_insert_eq. apply HQ.
Qed.

(** What both operations do: the state after the new inode is entered. *)
Lemma enter_ok X Y L s p v nd es k e0 name len j nj size :
  vfs_ok ramfs_ops X Y L s -> k_vnodes s !! p = Some v ->
  slot (fs_i s) (vn_vno v) = Some nd -> rf_mode nd = RAMFS_TYPE_DIR -> rf_mem nd = MemDir es ->
  dir_ok (vn_vno v) es -> es !! k = Some e0 -> is_free e0 = true ->
  nonul name -> 0 < len <= Z.of_nat (length name) -> len < NAME_LEN ->
  let key := take (Z.to_nat len) name in
  let e := RamfsDirent j (set_name (rd_name e0) name len) in
  assoc key (entries_of es) = None ->
  0 <= j < Z.of_nat (length (fs_i s)) -> slot (fs_i s) j = None -> new_inode (vn_vno v) j nj ->
  let f' := <[Z.to_nat (vn_vno v) := Some (set_rf_size size (set_rf_mem (MemDir (<[k := e]> es)) nd))]>
              (<[Z.to_nat j := Some nj]> (fs_i s)) in
  vfs_ok ramfs_ops X Y L (set_fs_i f' s)
  /\ dir_add key j (entries_of es) (entries_of (<[k := e]> es))
  /\ the_tree ramfs_ops (set_fs_i f' s)
     = <[j := view_of nj]> (<[vn_vno v := DirView (entries_of (<[k := e]> es))]> (the_tree ramfs_ops s)).
Proof.
  intros Hok Hv Hn Hmode Hm Hdir Hk Hf0 Hname Hlen Hlt key e Ha Hj Hs Hnew f'.
  pose proof (ok_fs _ _ _ _ _ Hok) as Hwf.
  assert (dirent_ok e0) as [[Hl0 _] _] by (by eapply (Forall_lookup_1 _ _ _ _ (do_entries _ _ Hdir))).
  destruct (set_name_ok (rd_name e0) name len Hl0 Hname ltac:(lia) Hlt) as [Hnm Hkey].
  assert (dirent_ok e) as He by (split; [done|cbn; lia]).
  assert (is_free e = false) as Hfe.
  { unfold is_free. rewrite is_free_cstr by apply Hnm. apply bool_decide_eq_false_2. cbn [rd_name e].
    rewrite Hkey. intros E. apply (f_equal length) in E. rewrite length_take in E. cbn in E. lia. }
  destruct (dir_add_fill es k e0 e Hk Hf0 Hfe) as [Hadd Hnd];
    [cbn [rd_name e]; by rewrite Hkey|by apply (do_nodup _ _ Hdir)|].
  cbn [rd_name rd_ino e] in Hadd. rewrite Hkey in Hadd.
  split_and!; [|done|].
  - apply set_fs_i_ok; [done|]. by eapply wf_enter.
  - change (ramfs_tree f' = <[j := view_of nj]> (<[vn_vno v := DirView (entries_of (<[k := e]> es))]> (ramfs_tree (fs_i s)))).
    unfold f'. rewrite !ramfs_tree_insert;
      [|done|rewrite length_insert; by eapply slot_range].
    rewrite insert_insert_ne by congruence. done.
Qed.

(** After the entry, [vget] gives a reference to the new inode's vnode. *)
Lemma wp_entered X Y L s s1 d j w es' (Q : Z * option Z -> K -> Prop) :
  oom = false -> vfs_ok ramfs_ops X Y L s1 -> stable s s1 ->
  the_tree ramfs_ops s1 = <[j := w]> (<[d := DirView es']> (the_tree ramfs_ops s)) ->
  (forall q s', vfs_ok ramfs_ops (q :: X) Y L s' -> stable s s' -> vno_of s' q = Some j ->
     the_tree ramfs_ops s' ⊆ <[j := w]> (<[d := DirView es']> (the_tree ramfs_ops s)) ->
     Q (0, Some q) s') ->
  wp (let! child := vget ramfs_ops j in ret (0, Some child)) Q s1.
Proof.
  intros Hoom Hok Hst Ht HQ. wp_use (wp_vget ramfs_ops); [done|done| |done|].
  - rewrite Ht, lookup_insert_eq. by eexists.
  - intros q s' Hok' Hk' Hq. wp_steps. apply HQ; [done| |done|].
    + etrans; [done|]. by eapply keeps_stable.
    + rewrite <- Ht. apply Hk'.
Qed.

Lemma entries_zero l : entries_of (replicate l zero_dirent) = [].
Proof. by induction l as [|l IH]. Qed.

Lemma lookup_dots self parent k e :
  dot_entries self parent !! k = Some e -> is_free e = false ->
  (k < 2)%nat /\ (rd_ino e = parent \/ rd_ino e = self).
Proof.
  intros Hk Hf. unfold dot_entries, zero_entries in Hk. rewrite drop_replicate in Hk.
  destruct k as [|[|k]]; [simplify_eq/=; auto..|].
  cbn in Hk. apply lookup_replicate in Hk as [-> _]. done.
Qed.

Lemma dots_ok self parent : 0 <= self -> 0 <= parent -> dir_ok self (dot_entries self parent).
Proof.
  intros H1 H2. split; [done| |by eexists|by eexists|].
  - unfold dot_entries, zero_entries. rewrite drop_replicate.
    assert (dirent_ok zero_dirent) as Hz.
    { split; [|done]. split; [done|]. exists [], (replicate 27 0). by split; [|constructor]. }
    apply Forall_cons; split; [|apply Forall_cons; split; [|by apply Forall_replicate]];
      (split; [split; [done|]|done]).
    + exists (str "."), (replicate 26 0). by split; [|repeat constructor].
    + exists (str ".."), (replicate 25 0). by split; [|repeat constructor].
  - change (NoDup [str "."; str ".."]). repeat constructor; set_solver.
Qed.

Lemma new_inode_plain d j type devid :
  type <> RAMFS_TYPE_DIR -> new_inode d j (RamfsInode 0 j (alloc_mem type devid) type 1).
Proof.
  intros Ht. split_and!; [|done| |].
  - split; [done|]. destruct type; cbn; [|done|by eexists..]. by exists zero_page.
  - by destruct type.
  - by destruct type.
Qed.

Lemma new_inode_dir d j :
  0 <= d -> 0 <= j ->
  new_inode d j (RamfsInode (2 * sizeof_ramfs_dirent) j (MemDir (dot_entries j d)) RAMFS_TYPE_DIR 1).
Proof.
  intros Hd Hj. split_and!; [|done| |].
  - split; [done|]. cbn. eexists. split; [done|]. by apply dots_ok.
  - intros i. cbn [inode_links rf_mem]. unfold dir_links, dot_entries. cbn [drop].
    rewrite drop_0. unfold zero_entries. rewrite drop_replicate.
    assert (filter (names i) (replicate (RAMFS_MAX_DIRENT - 2) zero_dirent) = []) as ->; [|done].
    induction (RAMFS_MAX_DIRENT - 2)%nat as [|l IH]; [done|]. cbn [replicate].
    rewrite filter_cons_False; [done|]. by intros [].
  - intros es k e [= <-] Hk Hf. by eapply lookup_dots.
Qed.

Lemma ramfs_mknod_spec X Y L s p v es name len mode devid :
  oom = false -> vfs_ok ramfs_ops X Y L s -> k_vnodes s !! p = Some v ->
  the_tree ramfs_ops s !! vn_vno v = Some (DirView es) ->
  nonul name -> 0 < len <= Z.of_nat (length name) -> len < NAME_LEN ->
  let key := take (Z.to_nat len) name in
  assoc key es = None -> (S_ISCHR mode || S_ISBLK mode || S_ISREG mode) = true ->
  wp (ramfs_mknod p name len mode devid)
     (fun r s' => r = (- ENOSPC, None) /\ s' = s
        \/ exists q j es', r = (0, Some q) /\ vfs_ok ramfs_ops (q :: X) Y L s' /\ stable s s'
             /\ vno_of s' q = Some j /\ the_tree ramfs_ops s !! j = None /\ dir_add key j es es'
             /\ the_tree ramfs_ops s' ⊆ <[j := new_view mode devid]>
                                          (<[vn_vno v := DirView es']> (the_tree ramfs_ops s))) s.
Proof.
  intros Hoom Hok Hv Ht Hname Hlen Hlt key Ha Hmode. pose proof (ok_fs _ _ _ _ _ Hok) as Hwf.
  destruct (dir_slot _ _ _ _ _ Hwf Hv Ht) as (nd & es0 & Hnd & Hm & -> & Hmd & Hdir & Hi).
  unfold ramfs_mknod. wp_use wp_dir_entries; [done..|].
  destruct (first_index is_free es0) as [k|] eqn:Ek; [|wp_steps; auto].
  apply first_index_Some in Ek as (e0 & Hk & Hf0).
  set (type := if S_ISCHR mode then RAMFS_TYPE_CHR else if S_ISBLK mode then RAMFS_TYPE_BLK else RAMFS_TYPE_DATA).
  assert (type <> RAMFS_TYPE_DIR) as Htd by (unfold type; by repeat case_match).
  match goal with |- wp (bind ?m _) _ _ => replace m with (ramfs_alloc_inode (mem := mem) type devid) end.
  2: { unfold type. destruct (S_ISCHR mode); [done|]. destruct (S_ISBLK mode); [done|].
       cbn in Hmode. by rewrite Hmode. }
  apply wp_bind, wp_ramfs_alloc_inode; [done|by left|]. intros j Hj Hs.
  rewrite (proj2 (Z.ltb_ge j 0)) by lia.
  assert (vn_vno v <> j) as Hne by congruence.
  apply wp_bind. eapply wp_ramfs_write_entry; [done|done| |done|done|].
  { cbn. by rewrite slot_insert_ne by (done || lia). }
  intros size e.
  destruct (enter_ok X Y L s p v nd es0 k e0 name len j (RamfsInode 0 j (alloc_mem type devid) type 1) size)
    as (Hok1 & Hadd & Ht1); try done.
  { by apply new_inode_plain. }
  eapply (wp_entered X Y L s); [done|exact Hok1|apply (stable_set_fs_i s)|exact Ht1|].
  intros q s' Hok' Hst' Hq Ht'. right.
  exists q, j, (entries_of (<[k := e]> es0)). split_and!; try done.
  - change (ramfs_tree (fs_i s) !! j = None). by rewrite ramfs_tree_lookup, Hs.
  - replace (new_view mode devid) with (view_of (RamfsInode 0 j (alloc_mem type devid) type 1)); [done|].
    unfold type, new_view. by repeat case_match.
Qed.

Lemma ramfs_mkdir_spec X Y L s p v es name len :
  oom = false -> vfs_ok ramfs_ops X Y L s -> k_vnodes s !! p = Some v ->
  the_tree ramfs_ops s !! vn_vno v = Some (DirView es) ->
  nonul name -> 0 < len <= Z.of_nat (length name) -> len < NAME_LEN ->
  let key := take (Z.to_nat len) name in
  assoc key es = None ->
  wp (ramfs_mkdir p name len)
     (fun r s' => r = (- ENOSPC, None) /\ s' = s
        \/ exists q j es', r = (0, Some q) /\ vfs_ok ramfs_ops (q :: X) Y L s' /\ stable s s'
             /\ vno_of s' q = Some j /\ the_tree ramfs_ops s !! j = None /\ dir_add key j es es'
             /\ the_tree ramfs_ops s' ⊆ <[j := DirView [(str ".", j); (str "..", vn_vno v)]]>
                                          (<[vn_vno v := DirView es']> (the_tree ramfs_ops s))) s.
Proof.
  intros Hoom Hok Hv Ht Hname Hlen Hlt key Ha. pose proof (ok_fs _ _ _ _ _ Hok) as Hwf.
  destruct (dir_slot _ _ _ _ _ Hwf Hv Ht) as (nd & es0 & Hnd & Hm & -> & Hmd & Hdir & Hi).
  pose proof (slot_range _ _ _ Hnd) as Hr.
  unfold ramfs_mkdir. wp_use wp_dir_entries; [done..|].
  destruct (first_index is_free es0) as [k|] eqn:Ek; [|wp_steps; auto].
  apply first_index_Some in Ek as (e0 & Hk & Hf0).
  apply wp_bind, wp_ramfs_alloc_inode; [done|by left|]. intros j Hj Hs.
  rewrite (proj2 (Z.ltb_ge j 0)) by lia.
  assert (vn_vno v <> j) as Hne by congruence.
  apply wp_bind. eapply wp_ramfs_write_entry; [done|done| |done|done|].
  { cbn. by rewrite slot_insert_ne by (done || lia). }
  intros size e. apply wp_bind. eapply wp_vn_get; [done|].
  apply wp_bind. eapply wp_rf_modify.
  { cbn. rewrite slot_insert_ne by (done || lia). by apply slot_insert_eq. }
  destruct (enter_ok X Y L s p v nd es0 k e0 name len j
              (RamfsInode (2 * sizeof_ramfs_dirent) j (MemDir (dot_entries j (vn_vno v))) RAMFS_TYPE_DIR 1) size)
    as (Hok1 & Hadd & Ht1); try done.
  { apply new_inode_dir; lia. }
  match goal with |- wp _ _ (set_fs_i ?x _) => replace x with
    (<[Z.to_nat (vn_vno v) := Some (set_rf_size size (set_rf_mem (MemDir (<[k := e]> es0)) nd))]>
      (<[Z.to_nat j := Some (RamfsInode (2 * sizeof_ramfs_dirent) j
                               (MemDir (dot_entries j (vn_vno v))) RAMFS_TYPE_DIR 1)]> (fs_i s))) end.
  2: { cbn. rewrite (list_insert_insert_ne _ (Z.to_nat j)) by lia. by rewrite list_insert_insert_eq. }
  eapply (wp_entered X Y L s); [done|exact Hok1|apply (stable_set_fs_i s)|exact Ht1|].
  intros q s' Hok' Hst' Hq Ht'. right.
  exists q, j, (entries_of (<[k := e]> es0)). split_and!; try done.
  change (ramfs_tree (fs_i s) !! j = None). by rewrite ramfs_tree_lookup, Hs.
Qed.

(** ** Removing entries *)

Lemma wp_ramfs_find_dirent p v nd es name len (Q : Z -> K -> Prop) s :
  k_vnodes s !! p = Some v -> vn_i v = Some (vn_vno v) -> slot (fs_i s) (vn_vno v) = Some nd ->
  rf_mem nd = MemDir es -> Forall dirent_ok es -> nonul name -> 0 < len <= Z.of_nat (length name) ->
  Q (default (- ENOENT) (assoc (take (Z.to_nat len) name) (entries_of es))) s ->
  wp (ramfs_find_dirent p name len) Q s.
Proof.
  intros Hv Hi Hnd Hm Hes Hname Hlen HQ. unfold ramfs_find_dirent. wp_use wp_dir_entries; [done..|].
  pose proof (first_index_assoc es name len Hes Hname Hlen) as Hfi.
  destruct (first_index _ es) as [k|]; [|by rewrite Hfi in HQ].
  destruct Hfi as (e & Hk & _ & Ha & _). rewrite Ha in HQ. wp_use wp_deref; [done|]. done.
Qed.

(** An entry with its name's first byte cleared. *)
Lemma cleared_ok e :
  dirent_ok e -> let e' := RamfsDirent (rd_ino e) (<[0%nat := 0]> (rd_name e)) in
  dirent_ok e' /\ is_free e' = true.
Proof.
  intros [[Hl _] Hi]. destruct e as [i [|c nm]]; [done|]. cbn in *.
  split; [|done]. split; [|done]. split; [done|]. exists [], nm. by split; [|constructor].
Qed.

Lemma remove_ok X Y L s p v nd es k e0 c vc nc size :
  vfs_ok ramfs_ops X Y L s -> k_vnodes s !! p = Some v ->
  slot (fs_i s) (vn_vno v) = Some nd -> rf_mode nd = RAMFS_TYPE_DIR -> rf_mem nd = MemDir es ->
  dir_ok (vn_vno v) es -> es !! k = Some e0 -> is_free e0 = false -> rd_ino e0 = vn_vno vc ->
  k_vnodes s !! c = Some vc -> slot (fs_i s) (vn_vno vc) = Some nc -> rf_mode nc <> RAMFS_TYPE_DIR ->
  let e := RamfsDirent (rd_ino e0) (<[0%nat := 0]> (rd_name e0)) in
  let f' := <[Z.to_nat (vn_vno vc) := Some (set_rf_linkcount (rf_linkcount nc - 1) nc)]>
              (<[Z.to_nat (vn_vno v) := Some (set_rf_size size (set_rf_mem (MemDir (<[k := e]> es)) nd))]>
                (fs_i s)) in
  vfs_ok ramfs_ops X Y L (set_fs_i f' s)
  /\ dir_del (cstr (rd_name e0)) (entries_of es) (entries_of (<[k := e]> es))
  /\ the_tree ramfs_ops (set_fs_i f' s)
     = <[vn_vno v := DirView (entries_of (<[k := e]> es))]> (the_tree ramfs_ops s).
Proof.
  intros Hok Hv Hn Hmode Hm Hdir Hk Hf0 Hino Hvc Hnc Hcm e f'. pose proof (ok_fs _ _ _ _ _ Hok) as Hwf.
  assert (dirent_ok e0) as He0 by (by eapply (Forall_lookup_1 _ _ _ _ (do_entries _ _ Hdir))).
  destruct (cleared_ok e0 He0) as [He Hfe]. fold e in He, Hfe.
  destruct (dir_del_clear es k e0 e Hk Hf0 Hfe (do_nodup _ _ Hdir)) as [Hdel Hnd].
  assert (2 <= k)%nat as Hk2.
  { destruct (decide (k < 2)%nat) as [Hlt|]; [|lia].
    destruct (rw_entry _ _ Hwf _ _ _ _ _ Hn Hm Hk Hf0) as (n' & Hn' & Hd). rewrite Hino in Hn'.
    specialize (Hd Hlt). congruence. }
  split_and!; [|done|].
  - apply set_fs_i_ok; [done|]. by eapply wf_remove.
  - change (ramfs_tree f' = <[vn_vno v := DirView (entries_of (<[k := e]> es))]> (ramfs_tree (fs_i s))).
    unfold f'. erewrite ramfs_tree_same; [|rewrite slot_insert_ne; [exact Hnc| |]|done];
      [|apply slot_range in Hn; lia|congruence].
    rewrite ramfs_tree_insert by by eapply slot_range. done.
Qed.

Lemma wp_ramfs_delete_dirent X Y L s p v es name len c vc w :
  vfs_ok ramfs_ops X Y L s -> k_vnodes s !! p = Some v ->
  the_tree ramfs_ops s !! vn_vno v = Some (DirView es) ->
  nonul name -> 0 < len <= Z.of_nat (length name) ->
  let key := take (Z.to_nat len) name in
  assoc key es = Some (vn_vno vc) -> k_vnodes s !! c = Some vc ->
  the_tree ramfs_ops s !! vn_vno vc = Some w -> (forall es, w <> DirView es) ->
  wp (ramfs_delete_dirent p name len c)
     (fun r s' => exists es', r = 0 /\ vfs_ok ramfs_ops X Y L s' /\ stable s s' /\ dir_del key es es'
        /\ the_tree ramfs_ops s' = <[vn_vno v := DirView es']> (the_tree ramfs_ops s)) s.
Proof.
  intros Hok Hv Ht Hname Hlen key Ha Hvc Htc Hdir0. pose proof (ok_fs _ _ _ _ _ Hok) as Hwf.
  destruct (dir_slot _ _ _ _ _ Hwf Hv Ht) as (nd & es0 & Hnd & Hm & -> & Hmd & Hdir & Hi).
  pose proof (slot_range _ _ _ Hnd) as Hr.
  rewrite (ramfs_tree_lookup (fs_i s)) in Htc. apply fmap_Some in Htc as (nc & Hnc & Hview).
  destruct (rw_vnode _ _ Hwf c vc Hvc) as (nc0 & Hnc0 & Hic & _). simplify_eq.
  destruct (rw_inode _ _ Hwf _ _ Hnc) as (Hokc & _). pose proof (inode_ok_mode _ _ Hokc) as Hcm.
  assert (rf_mode nc <> RAMFS_TYPE_DIR) as Hcm'.
  { intros E. unfold view_of in Hdir0. destruct (rf_mem nc); [congruence|by eapply Hdir0|].
    destruct Hcm; congruence. }
  assert (vn_vno vc <> vn_vno v) as Hne by congruence.
  unfold ramfs_delete_dirent, clear_entry.
  wp_use wp_vnode_slot; [done|done|]. wp_use wp_dir_entries; [done..|].
  pose proof (first_index_assoc es0 name len (do_entries _ _ Hdir) Hname Hlen) as Hfi.
  destruct (first_index _ es0) as [k|]; [|unfold key in Ha; congruence].
  destruct Hfi as (e0 & Hk & Hf0 & Ha' & Hkey).
  assert (rd_ino e0 = vn_vno vc) as Hino by (unfold key in Ha; congruence).
  wp_use wp_deref; [done|]. unfold set_entries. wp_use wp_rf_modify; [done|]. wp_steps.
  unfold shrink_dir. wp_use wp_vnode_slot; [done|done|].
  wp_use wp_rf_modify; [by apply slot_insert_eq|].
  unfold unref_inode. wp_use wp_vnode_slot; [done|done|].
  wp_use wp_rf_modify. { cbn. rewrite !slot_insert_ne by (done || lia). done. }
  wp_steps. cbn. rewrite list_insert_insert_eq.
  match goal with |- context [set_rf_size ?z _] => set (size := z) end.
  destruct (remove_ok X Y L s p v nd es0 k e0 c vc nc size) as (H1 & H2 & H3); try done.
  rewrite Hkey in H2. eexists. split_and!; [done|exact H1|apply (stable_set_fs_i s)|exact H2|exact H3].
Qed.

Lemma ramfs_unlink_spec X Y L s p v es name len c i w :
  oom = false -> vfs_ok ramfs_ops X Y L s -> k_vnodes s !! p = Some v -> p ∈ L ->
  the_tree ramfs_ops s !! vn_vno v = Some (DirView es) ->
  nonul name -> 0 < len <= Z.of_nat (length name) ->
  let key := take (Z.to_nat len) name in
  assoc key es = Some i -> the_tree ramfs_ops s !! i = Some w -> (forall es, w <> DirView es) ->
  vno_of s c = Some i -> c ∉ L ->
  wp (ramfs_unlink p name len)
     (fun r s' => exists es', r = 0 /\ vfs_ok ramfs_ops X Y L s' /\ stable s s' /\ dir_del key es es'
        /\ the_tree ramfs_ops s' ⊆ <[vn_vno v := DirView es']> (the_tree ramfs_ops s)) s.
Proof.
  intros Hoom Hok Hv HpL Ht Hname Hlen key Ha Hti Hnd0 Hc HcL. pose proof (ok_fs _ _ _ _ _ Hok) as Hwf.
  destruct (dir_slot _ _ _ _ _ Hwf Hv Ht) as (nd & es0 & Hnd & Hm & -> & Hmd & Hdir & Hi).
  unfold ramfs_unlink. apply wp_bind. eapply wp_ramfs_find_dirent; [done..|apply Hdir|done|done|].
  fold key. rewrite Ha. cbn [default].
  assert (0 <= i < 64) as Hir.
  { rewrite (ramfs_tree_lookup (fs_i s)) in Hti. apply fmap_Some in Hti as (n & Hn & _).
    apply slot_range in Hn. rewrite (rw_len _ _ Hwf) in Hn. done. }
  cbn [default from_option id]. rewrite (proj2 (Z.ltb_ge i 0)) by lia.
  assert (u32 i = i) as -> by (unfold u32; rewrite Z.mod_small; lia).
  apply wp_bind. eapply (wp_vget ramfs_ops); [done|done|by eexists| |].
  { intros _ q Hq Eq. assert (q = c) as ->; [|done]. unfold vno_of in Hc, Eq.
    apply fmap_Some in Hc as (vc & Hvc & E1), Eq as (vq & Hvq & E2).
    apply (ok_unique _ _ _ _ _ Hok q c vq vc); congruence. }
  intros q s1 Hok1 Hk1 Hq. cbn [locked_if] in Hok1.
  destruct (vnode_view ramfs_ops _ _ _ _ _ _ Hok1 Hq) as (vq & w' & Hvq & Hw & Hmode & _ & Evq & _).
  rewrite (tree_keeps ramfs_ops _ _ _ _ _ _ _ Hok1 Hk1 Hq), Hw in Hti. injection Hti as ->.
  apply wp_bind. eapply wp_vn_get; [done|]. apply wp_bind, wp_kassert.
  { rewrite Hmode. destruct w as [es1| |[]]; [by destruct (Hnd0 es1)|done..]. }
  assert (exists v1, k_vnodes s1 !! p = Some v1 /\ vn_vno v1 = vn_vno v) as (v1 & Hv1 & Ev1).
  { destruct (ok_locks _ _ _ _ _ Hok1 p ltac:(by right)) as [v1 Hv1].
    destruct (kp_vnode _ _ _ Hk1 p v1) as (v0 & Hv0 & E); [|done|].
    { apply (ok_next_vnode _ _ _ _ _ Hok). eauto. }
    exists v1. split; [done|]. rewrite E. cbn. congruence. }
  assert (the_tree ramfs_ops s1 !! vn_vno v1 = Some (DirView (entries_of es0))) as Ht1.
  { rewrite <- (tree_keeps ramfs_ops _ _ _ s s1 p _ Hok1 Hk1), Ev1; [done|].
    unfold vno_of. by rewrite Hv1. }
  rewrite <- Evq in Ha, Hw.
  apply wp_bind. eapply wp_mono; [by eapply wp_ramfs_delete_dirent|].
  intros r s2 (es' & -> & Hok2 & Hst2 & Hdel & Ht2). apply wp_bind, wp_kassert; [done|].
  apply wp_bind. eapply (wp_vput_locked ramfs_ops); [done| |].
  { intros HqL. apply HcL. unfold vno_of in Hc, Hq. apply fmap_Some in Hc as (vc & Hvc & E1).
    destruct (kp_vnode _ _ _ Hk1 q vq) as (v0 & Hv0 & E); [|done|].
    { apply (ok_next_vnode _ _ _ _ _ Hok). by apply (ok_locks _ _ _ _ _ Hok). }
    rewrite (ok_unique _ _ _ _ _ Hok c q vc v0); [done..|]. rewrite <- E1, <- Evq, E. done. }
  intros s3 Hok3 Hk3. wp_steps. exists es'. split_and!; [done|done| |done|].
  - etrans; [by eapply keeps_stable|]. etrans; [done|by eapply keeps_stable].
  - etrans; [apply Hk3|]. rewrite Ht2, Ev1. apply insert_mono, Hk1.
Qed.

#[export] Instance ramfs_dirs : FsDirs ramfs_ops ramfs_vops.
Proof.
  refine {| dir_mknod := ramfs_mknod; dir_mkdir := ramfs_mkdir; dir_unlink := ramfs_unlink |}.
  - done.
  - intros. by eapply ramfs_mknod_spec.
  - done.
  - intros. by eapply ramfs_mkdir_spec.
  - done.
  - intros. by eapply ramfs_unlink_spec.
Defined.
End dirs.
