(* ===== verification/VfsRwProofs.v ===== *)
(** [do_read] and [do_write] of [fs/vfs_syscall.c] on regular files: the bytes
    of the file at the position of the open file, for any file system that
    keeps the contract of its operations. *)

From S2P Require Import Prelude CString Mobj Vnode File Namev VfsSyscall.
From S2P Require Import VfsSpec VnodeProofs FileProofs FdProofs NamevProofs.

Section rw.
Context {F V : Type} {mem : Memory} {drv : Drivers} (fs : fs_ops F V) {FD : FsData fs}.
Context (vops_of : vops -> vnode_ops (kst F V)) {FV : FsVops fs vops_of} {FF : FsFiles fs vops_of}.
Abbreviation K := (kst F V).
Abbreviation vfs_ok := (vfs_ok fs).
Abbreviation keeps := (keeps fs).
Abbreviation sys_ok := (sys_ok fs).
Abbreviation the_tree := (the_tree fs).
Implicit Types (s : K) (g fd : Z) (x : file).

(** The inode a descriptor is open on. *)
Definition fd_inode (fd : Z) (s : K) : option (Z * file * Z) :=
  match open_file fd s with
  | Some g =>
      match k_files s !! g with
      | Some x => i ← vno_of s (f_vnode x); Some (g, x, i)
      | None => None
      end
  | None => None
  end.

(** Every open descriptor has an open file, with a vnode. *)
Lemma fd_inode_open s fd g :
  sys_ok s -> open_file fd s = Some g ->
  exists x i v w, k_files s !! g = Some x /\ fd_inode fd s = Some (g, x, i)
    /\ k_vnodes s !! f_vnode x = Some v /\ vn_vno v = i /\ the_tree s !! i = Some w
    /\ vn_mode v = view_mode w /\ vn_ops v = view_ops w /\ 0 < refs [fs_root s; p_cwd s] s (f_vnode x).
Proof.
  intros [Hok Hlive] Ho. destruct (open_file_Some fs _ _ _ _ _ _ Hok Ho) as (_ & _ & _ & x & Hx).
  pose proof (file_refs_pos [fs_root s; p_cwd s] g x s Hx (Hlive _ _ Hx)) as Hr.
  destruct (ok_refs _ _ _ _ _ Hok (f_vnode x) Hr) as [v Hv].
  assert (vno_of s (f_vnode x) = Some (vn_vno v)) as Hvno by (unfold vno_of; by rewrite Hv).
  destruct (vnode_view fs _ _ _ _ _ _ Hok Hvno) as (v' & w & Hv' & Hw & Hm & Ho' & _).
  assert (v' = v) as -> by congruence. exists x, (vn_vno v), v, w. unfold fd_inode.
  rewrite Ho, Hx, Hvno. by split_and!.
Qed.

(** The state after [fget]. *)
Abbreviation held g x s := (upd_file g (set_f_refcount (f_refcount x + 1) x) s).

Lemma wp_do_read fd n s (Q : Z * list Z -> K -> Prop) :
  sys_ok s -> 0 <= n ->
  (open_file fd s = None -> Q (- EBADF, []) s) ->
  (forall g x i, fd_inode fd s = Some (g, x, i) -> f_pos x + n < 2 ^ 63 /\ 
     if has (f_mode x) FMODE_READ then
       match the_tree s !! i with
       | Some (FileView b) =>
           let d := slice b (Z.to_nat (f_pos x)) (Z.to_nat n) in
           forall s1, keeps s s1 -> the_tree s1 = the_tree s ->
             let s' := upd_file g (set_f_pos (f_pos x + Z.of_nat (length d)) x) s1 in
             sys_ok s' -> Q (Z.of_nat (length d), d) s'
       | Some (DirView _) => forall s1, keeps s s1 -> sys_ok s1 -> Q (- EISDIR, []) s1
       | _ => False
       end
     else forall s1, keeps s s1 -> sys_ok s1 -> Q (- EBADF, []) s1) ->
  wp (do_read fs vops_of fd n) Q s.
Proof.
  intros Hsys Hn HN HS. pose proof Hsys as [Hok Hlive]. unfold do_read.
  wp_use (wp_fget fs); [done|done|done|done|]. intros g x Ho Hx s1 Hok1.
  destruct (fd_inode_open s fd g Hsys Ho) as (x' & i & v & w & Hx' & Hfd & Hv & Hi & Hw & Hm & Hop & Hr).
  assert (x' = x) as -> by congruence. destruct (HS _ _ _ Hfd) as [Hbound HQ].
  destruct (open_file_Some fs _ _ _ _ _ _ Hok Ho) as (_ & _ & Hocc & _).
  destruct (ok_file _ _ _ _ _ Hok g x Hx) as (_ & _ & Hpos).
  wp_use (wp_f_get g); [apply lookup_insert_eq|]. cbn [set_f_refcount f_mode f_vnode f_pos].
  destruct (has (f_mode x) FMODE_READ); wp_red; [|by eapply wp_put_back].
  wp_use wp_vn_get; [done|]. rewrite Hm, Hw in *.
  destruct w as [es|b|]; [by eapply wp_put_back| |done].
  change (S_ISDIR (view_mode (FileView b))) with false.
  wp_use (wp_vlock_eq fs); [done|by eexists|apply not_elem_of_nil|]. intros s2 Hok2 Hk2 Ht2.
  destruct (keeps_vnode fs _ _ _ _ _ _ _ _ _ _ Hok1 Hok2 Hk2 Hv) as (v2 & Hv2 & Ev).
  { rewrite (refs_keeps fs _ _ _ _ Hk2). apply held_refs; [done|]. by eapply (live_pos fs); [exact Hok| |]. }
  wp_use (wp_vn_vops fs vops_of); [done|done|]. rewrite Ev. cbn [set_vn_mobj vn_ops]. rewrite Hop.
  cbn [view_ops]. rewrite fs_file_read. set (d := slice b _ _) in HQ.
  assert (vn_vno v2 = i) as Hi2 by (by rewrite (same_inode_vno _ _ Ev)).
  wp_steps. eapply wp_mono; [eapply (fs_read _ _ _ s2 _ v2 b); try done; [left| |lia]|].
  { rewrite Ht2, Hi2. exact Hw. }
  cbn zeta. intros r s3 (-> & Hok3 & Hk3 & Ht3). fold d. cbn [fst].
  wp_use (wp_vunlock_eq fs); [done| |apply not_elem_of_nil|].
  { apply (ok_refs _ _ _ _ _ Hok3). rewrite (refs_keeps fs _ _ _ _ Hk3), (refs_keeps fs _ _ _ _ Hk2).
    apply held_refs; [done|]. by eapply (live_pos fs); [exact Hok| |]. }
  intros s4 Hok4 Hk4 Ht4. wp_red.
  assert (keeps s1 s4) as Hk by (etrans; [done|]; by etrans).
  assert (length d <= Z.to_nat n)%nat as Hld by (unfold d, slice; rewrite length_take; lia).
  apply (wp_advance g (set_f_refcount (f_refcount x + 1) x)).
  { rewrite (kp_files _ _ _ Hk). apply lookup_insert_eq. }
  cbn [set_f_refcount f_pos]. rewrite u64_id by lia.
  eapply (wp_set_pos_put fs vops_of); [done|done|done|lia|done|by apply (keeps_stable fs)|].
  cbn zeta. intros Hs'. apply (HQ (set_k_files (k_files s) s4)).
  - by apply (keeps_set_files fs _ _ _ Hk).
  - change (the_tree (set_k_files (k_files s) s4)) with (the_tree s4). rewrite Ht4, Ht3, Ht2. done.
  - exact Hs'.
Qed.

Lemma sys_ok_set_pos g x pos s :
  sys_ok s -> k_files s !! g = Some x -> 0 <= pos < 2 ^ 64 -> sys_ok (upd_file g (set_f_pos pos x) s).
Proof.
  intros [Hok Hlive] Hx Hpos. destruct (ok_file _ _ _ _ _ Hok g x Hx) as (Hc & Hm & _). split.
  - eapply upd_file_ok; [done|done|done|split; [done|cbn; lia]|done|done].
  - apply live_upd_file; [done|]. cbn. by apply (Hlive g).
Qed.

(** The part of [do_write] that follows the lock, from the position on. *)
Lemma wp_write_at g x v b i pos buf s s1 (Q : Z -> K -> Prop) :
  sys_ok s -> k_files s !! g = Some x -> 0 < occ (Some g) (p_files s) -> f_pos x = pos ->
  vfs_ok [fs_root s; p_cwd s] [g] [f_vnode x] s1 -> stable (held g x s) s1 ->
  the_tree s1 = the_tree s -> k_vnodes s1 !! f_vnode x = Some v -> vn_vno v = i ->
  the_tree s !! i = Some (FileView b) -> 0 <= pos <= fs_max_size -> Z.of_nat (length buf) < 2 ^ 63 ->
  let n := Z.min (Z.of_nat (length buf)) (fs_max_size - pos) in
  (forall s2, stable s s2 ->
     the_tree s2 = <[i := FileView (file_write b (Z.to_nat pos) (take (Z.to_nat n) buf))]> (the_tree s) ->
     let s' := upd_file g (set_f_pos (pos + n) x) s2 in sys_ok s' -> Q n s') ->
  wp (let! x := f_get g in
      let! r := file_store (f_vnode x) (f_pos x) buf in
      do! vunlock (f_vnode x); do! advance g r; do! fput fs vops_of g; ret r) Q s1.
Proof.
  intros Hsys Hx Hocc Hp Hok1 Hst1 Ht1 Hv Hi Hb Hpos Hbuf n HQ. pose proof Hsys as [Hok Hlive].
  pose proof fs_max_range as Hmax.
  assert (k_files s1 !! g = Some (set_f_refcount (f_refcount x + 1) x)) as Hx1
    by (rewrite (st_files _ _ Hst1); apply lookup_insert_eq).
  wp_use (wp_f_get g); [done|]. cbn [set_f_refcount f_vnode f_pos]. rewrite Hp. wp_steps.
  eapply wp_mono; [eapply (fs_write _ _ _ s1 _ v b); try done; [left|]|].
  { rewrite Hi, Ht1. exact Hb. }
  cbn zeta. fold n. intros r s2 (-> & Hok2 & Hst2 & Ht2).
  assert (stable (held g x s) s2) as Hst by by etrans.
  wp_use (wp_vunlock_eq fs); [done| |apply not_elem_of_nil|].
  { apply (ok_refs _ _ _ _ _ Hok2). unfold refs, file_refs. rewrite (st_files _ _ Hst).
    apply (held_refs _ g); [done|]. by eapply (live_pos fs); [exact Hok| |]. }
  intros s3 Hok3 Hk3 Ht3. wp_red.
  assert (stable (held g x s) s3) as Hst3 by (etrans; [done|by apply (keeps_stable fs)]).
  apply (wp_advance g (set_f_refcount (f_refcount x + 1) x)).
  { rewrite (st_files _ _ Hst3). apply lookup_insert_eq. }
  cbn [set_f_refcount f_pos]. rewrite Hp, u64_id by lia.
  eapply (wp_set_pos_put fs vops_of); [done|done|done|lia|done|done|].
  cbn zeta. intros Hs'. apply (HQ (set_k_files (k_files s) s3)).
  - exact (stable_set_files s s3 _ Hst3).
  - change (the_tree (set_k_files (k_files s) s3)) with (the_tree s3). by rewrite Ht3, Ht2, Hi, Ht1.
  - exact Hs'.
Qed.

(** Where [do_write] writes. *)
Definition write_pos x (b : list Z) : Z :=
  if has (f_mode x) FMODE_APPEND then Z.of_nat (length b) else f_pos x.

Lemma wp_do_write fd buf s (Q : Z -> K -> Prop) :
  sys_ok s -> Z.of_nat (length buf) < 2 ^ 63 ->
  (open_file fd s = None -> Q (- EBADF) s) ->
  (forall g x i, fd_inode fd s = Some (g, x, i) ->
     if has (f_mode x) FMODE_WRITE then
       match the_tree s !! i with
       | Some (FileView b) =>
           let pos := write_pos x b in
           let n := Z.min (Z.of_nat (length buf)) (fs_max_size - pos) in
           0 <= pos <= fs_max_size
           /\ forall s1, stable s s1 ->
                the_tree s1 = <[i := FileView (file_write b (Z.to_nat pos) (take (Z.to_nat n) buf))]>
                                (the_tree s) ->
                let s' := upd_file g (set_f_pos (pos + n) x) s1 in sys_ok s' -> Q n s'
       | _ => False
       end
     else forall s1, keeps s s1 -> sys_ok s1 -> Q (- EBADF) s1) ->
  wp (do_write fs vops_of fd buf) Q s.
Proof.
  intros Hsys Hbuf HN HS. pose proof Hsys as [Hok Hlive]. unfold do_write.
  wp_use (wp_fget fs); [done|done|done|done|]. intros g x Ho Hx s1 Hok1.
  destruct (fd_inode_open s fd g Hsys Ho) as (x' & i & v & w & Hx' & Hfd & Hv & Hi & Hw & Hm & Hop & Hr).
  assert (x' = x) as -> by congruence. specialize (HS _ _ _ Hfd).
  destruct (open_file_Some fs _ _ _ _ _ _ Hok Ho) as (_ & _ & Hocc & _).
  destruct (ok_file _ _ _ _ _ Hok g x Hx) as (_ & Hmode & Hpos).
  wp_use (wp_f_get g); [apply lookup_insert_eq|]. cbn [set_f_refcount f_mode f_vnode f_pos].
  destruct (has (f_mode x) FMODE_WRITE); wp_red; [|by eapply wp_put_back].
  rewrite Hw in HS. destruct w as [|b|]; [done| |done]. cbn zeta in HS. destruct HS as [Hrange HQ].
  wp_use (wp_vlock_eq fs); [done|by eexists|apply not_elem_of_nil|]. intros s2 Hok2 Hk2 Ht2.
  destruct (keeps_vnode fs _ _ _ _ _ _ _ _ _ _ Hok1 Hok2 Hk2 Hv) as (v2 & Hv2 & Ev).
  { rewrite (refs_keeps fs _ _ _ _ Hk2). apply held_refs; [done|].
    by eapply (live_pos fs); [exact Hok| |]. }
  wp_use (wp_vn_vops fs vops_of); [done|done|]. rewrite Ev. cbn [set_vn_mobj vn_ops]. rewrite Hop.
  cbn [view_ops]. rewrite fs_file_write. wp_steps.
  assert (vn_vno v2 = i) as Hi2 by (by rewrite (same_inode_vno _ _ Ev)).
  pose proof (keeps_stable fs _ _ Hk2) as Hst2. unfold write_pos in *.
  destruct (has (f_mode x) FMODE_APPEND).
  2:{ apply wp_ret. eapply (wp_write_at g x v2 b i (f_pos x) buf s s2); try done. }
  assert (vn_len v2 = Z.of_nat (length b)) as Hlen.
  { destruct (vnode_view fs _ _ _ s2 (f_vnode x) i Hok2) as (v3 & w3 & Hv3 & Hw3 & _ & _ & _ & Hl3 & _).
    - unfold vno_of. by rewrite Hv2, <- Hi2.
    - rewrite Ht2 in Hw3. change (the_tree s1) with (the_tree s) in Hw3.
      assert (v3 = v2) as -> by congruence. apply Hl3. congruence. }
  wp_use wp_vn_get; [done|]. rewrite Hlen. unfold f_put at 1. apply wp_modify.
  set (pos := Z.of_nat (length b)) in *. set (y := set_f_pos pos x).
  set (s0 := upd_file g y s). pose proof fs_max_range as Hmax.
  assert (sys_ok s0) as Hsys0 by (apply sys_ok_set_pos; [done|done|lia]).
  eapply (wp_write_at g y v2 b i pos buf s0); try done.
  - apply lookup_insert_eq.
  - eapply upd_file_ok; [done| |..].
    + rewrite (st_files _ _ Hst2). apply lookup_insert_eq.
    + destruct (ok_file _ _ _ _ _ Hok1 g _ (lookup_insert_eq _ _ _)) as (E & _).
      unfold fd_refs in *. by rewrite (st_fds _ _ Hst2).
    + split; [done|cbn; lia].
    + done.
    + done.
  - pose proof (st_files _ _ Hst2) as Ef. unfold s1 in Ef. cbn in Ef.
    destruct Hst2. split; try done. cbn. by rewrite Ef, !insert_insert_eq.
  - intros s3 Hst3 Ht3 s' Hs'.
    assert (s' = upd_file g (set_f_pos (pos + Z.min (Z.of_nat (length buf)) (fs_max_size - pos)) x)
                   (set_k_files (k_files s) s3)) as E.
    { pose proof (st_files _ _ Hst3) as Ef. unfold s0 in Ef. cbn in Ef.
      unfold s', upd_file. cbn. by rewrite Ef, insert_insert_eq. }
    rewrite E in Hs' |- *. apply HQ; [exact (stable_set_files s s3 _ Hst3)|done|done].
Qed.
End rw.
