(* ===== verification/VfsSystem.v ===== *)
(** Sequences of system calls, from [vfs_init] on the root file system.

    [call_ok] is what a caller has to respect: strings without NUL, names that
    are not exactly [NAME_LEN] bytes long where a name is created, transfers
    that do not pass the largest file position, and no [read] or [write] on a
    device.  Every such call returns, and the invariant holds after it. *)

From S2P Require Import Prelude CString Mobj Vnode File Namev VfsSyscall Ramfs.
From S2P Require Import VfsSpec VnodeProofs FileProofs FdProofs NamevProofs VfsNameProofs VfsDirProofs.
From S2P Require Import RamfsProofs RamfsFileProofs RamfsDirProofs VfsRwProofs.

Inductive call : Type :=
| Open (path : list Z) (oflags : Z)
| Close (fd : Z)
| Dup (fd : Z)
| Dup2 (ofd nfd : Z)
| Read (fd len : Z)
| Write (fd : Z) (buf : list Z)
| Lseek (fd offset whence : Z)
| Mknod (path : list Z) (mode devid : Z)
| Mkdir (path : list Z)
| Unlink (path : list Z)
| Chdir (path : list Z).

Section system.
Context {F V : Type} {mem : Memory} {drv : Drivers} (fs : fs_ops F V) {FD : FsData fs}.
Context (vops_of : vops -> vnode_ops (kst F V)) {FV : FsVops fs vops_of}.
Context {FF : FsFiles fs vops_of} {FN : FsDirs fs vops_of}.
Abbreviation K := (kst F V).
Abbreviation sys_ok := (sys_ok fs).
Abbreviation the_tree := (the_tree fs).
Implicit Types (s : K) (c : call).

Definition exec (c : call) : M K Z :=
  match c with
  | Open path oflags => do_open fs vops_of path oflags
  | Close fd => do_close fs vops_of fd
  | Dup fd => do_dup fs vops_of fd
  | Dup2 ofd nfd => do_dup2 fs vops_of ofd nfd
  | Read fd len => let! r := do_read fs vops_of fd len in ret r.1
  | Write fd buf => do_write fs vops_of fd buf
  | Lseek fd offset whence => do_lseek fs vops_of fd offset whence
  | Mknod path mode devid => do_mknod fs vops_of path mode devid
  | Mkdir path => do_mkdir fs vops_of path
  | Unlink path => do_unlink fs vops_of path
  | Chdir path => do_chdir fs vops_of path
  end.

(** A C string that is not exactly as long as a directory entry's array. *)
Definition creatable (path : list Z) : Prop :=
  nonul path /\ Z.of_nat (length (basename (components path))) <> NAME_LEN.

Definition read_ok fd len s : Prop :=
  forall g x i, fd_inode fd s = Some (g, x, i) ->
    f_pos x + len < 2 ^ 63 /\ match the_tree s !! i with Some (DevView _ _) => False | _ => True end.

Definition write_ok fd s : Prop :=
  forall g x i, fd_inode fd s = Some (g, x, i) -> has (f_mode x) FMODE_WRITE = true ->
    exists b, the_tree s !! i = Some (FileView b) /\ write_pos x b <= fs_max_size.

Definition call_ok c s : Prop :=
  match c with
  | Open path oflags => nonul path /\ (has oflags O_CREAT = true -> creatable path)
  | Close _ | Dup _ | Dup2 _ _ => True
  | Read fd len => 0 <= len /\ read_ok fd len s
  | Write fd buf => Z.of_nat (length buf) < 2 ^ 63 /\ write_ok fd s
  | Lseek _ offset _ => - 2 ^ 63 <= offset < 2 ^ 63
  | Mknod path _ _ | Mkdir path => creatable path
  | Unlink path | Chdir path => nonul path
  end.

Hypothesis mem_ok : oom = false.

(** The inode a descriptor is open on is in the tree. *)
Lemma fd_inode_tree s fd g x i :
  sys_ok s -> fd_inode fd s = Some (g, x, i) -> is_Some (the_tree s !! i).
Proof.
  intros Hsys Hfd. destruct (open_file fd s) as [g'|] eqn:Ho; [|unfold fd_inode in Hfd; by rewrite Ho in Hfd].
  destruct (fd_inode_open fs s fd g' Hsys Ho) as (x' & i' & v & w & _ & Hfd' & _ & _ & Hw & _).
  rewrite Hfd in Hfd'. simplify_eq. eauto.
Qed.

Lemma exec_Read_ok fd len s :
  sys_ok s -> 0 <= len -> read_ok fd len s -> wp (exec (Read fd len)) (fun _ s' => sys_ok s') s.
Proof.
  intros Hsys Hlen Hr. cbn [exec]. apply wp_bind. apply (wp_do_read fs vops_of); [done|done|done|].
  intros g x i Hfd. destruct (Hr g x i Hfd) as [Hb Hdev]. split; [done|].
  destruct (has (f_mode x) FMODE_READ); [|done].
  destruct (fd_inode_tree s fd g x i Hsys Hfd) as [w Hw].
  rewrite Hw in Hdev |- *. by destruct w.
Qed.

Lemma write_pos_range fd s g x i :
  sys_ok s -> write_ok fd s -> fd_inode fd s = Some (g, x, i) -> has (f_mode x) FMODE_WRITE = true ->
  exists b, the_tree s !! i = Some (FileView b) /\ 0 <= write_pos x b <= fs_max_size.
Proof.
  intros Hsys Hw Hfd Hm. destruct (Hw g x i Hfd Hm) as (b & Hb & Hpos). exists b. split_and!; [done| |done].
  unfold write_pos. destruct (has (f_mode x) FMODE_APPEND); [lia|].
  unfold fd_inode in Hfd. destruct (open_file fd s) as [g'|]; [|done].
  destruct (k_files s !! g') as [x'|] eqn:Hx; [|done].
  destruct (vno_of s (f_vnode x')); simplify_eq/=. destruct Hsys as [Hok _].
  by destruct (ok_file _ _ _ _ _ Hok _ _ Hx) as (_ & _ & ? & _).
Qed.

Lemma exec_Write_ok fd buf s :
  sys_ok s -> Z.of_nat (length buf) < 2 ^ 63 -> write_ok fd s ->
  wp (exec (Write fd buf)) (fun _ s' => sys_ok s') s.
Proof.
  intros Hsys Hlen Hw. apply (wp_do_write fs vops_of); [done|done|done|].
  intros g x i Hfd. pose proof (write_pos_range fd s g x i Hsys Hw Hfd) as Hpos.
  destruct (has (f_mode x) FMODE_WRITE); [|done]. destruct (Hpos eq_refl) as (b & Hb & Hr). by rewrite Hb.
Qed.

(** The calls that take a path, when the path is empty. *)
Lemma exec_empty c s :
  match c with Open [] _ | Mknod [] _ _ | Mkdir [] | Unlink [] | Chdir [] => True | _ => False end ->
  sys_ok s -> wp (exec c) (fun _ s' => sys_ok s') s.
Proof.
  intros Hc Hsys. pose proof Hsys as [Hok _]. destruct c as [p fl| | | | | | |p m d|p|p|p]; try done;
    destruct p; try done; cbn [exec].
  - unfold do_open. destruct (_ || _); [done|]. wp_use (wp_get_empty_fd fs); [done|by intros|by intros].
  - unfold do_mknod. destruct (_ && _); done.
Qed.

Lemma exec_ok c s : sys_ok s -> call_ok c s -> wp (exec c) (fun _ s' => sys_ok s') s.
Proof.
  intros Hsys Hc.
  assert (forall path, exists i, vno_of s (start_dir (p_cwd s) path s) = Some i) as Hstart
    by (intros path; by eapply start_vno).
  destruct c as [path fl|fd|fd|ofd nfd|fd len|fd buf|fd off wh|path m d|path|path|path]; cbn [call_ok] in Hc.
  - destruct path as [|a path]; [by apply exec_empty|]. destruct (Hstart (a :: path)) as [i Hi].
    destruct Hc as [Hp Hcr]. eapply (wp_do_open fs vops_of); [done..| |done|done|done].
    intros H. by destruct (Hcr H).
  - by apply (wp_do_close fs vops_of).
  - by apply (wp_do_dup fs vops_of).
  - by apply (wp_do_dup2 fs vops_of).
  - destruct Hc. by apply exec_Read_ok.
  - destruct Hc. by apply exec_Write_ok.
  - apply (wp_do_lseek fs vops_of); [done|done|done|]. intros g x v s0 _ _ _ _. by repeat case_match.
  - destruct path as [|a path]; [by apply exec_empty|]. destruct (Hstart (a :: path)) as [i Hi].
    eapply (wp_do_mknod fs vops_of); [done|done|apply Hc|done|done|apply Hc|done|done].
  - destruct path as [|a path]; [by apply exec_empty|]. destruct (Hstart (a :: path)) as [i Hi].
    eapply (wp_do_mkdir fs vops_of); [done|done|apply Hc|done|done|apply Hc|done].
  - destruct path as [|a path]; [by apply exec_empty|]. destruct (Hstart (a :: path)) as [i Hi].
    eapply (wp_do_unlink fs vops_of); done.
  - destruct path as [|a path]; [by apply exec_empty|]. destruct (Hstart (a :: path)) as [i Hi].
    eapply (wp_do_chdir fs vops_of); done.
Qed.

(** The states sequences of calls lead to. *)
Inductive reachable (s0 : K) : K -> Prop :=
| reach_start : reachable s0 s0
| reach_call s c r s' :
    reachable s0 s -> call_ok c s -> exec c s = Done r s' -> reachable s0 s'.

Lemma reachable_ok s0 s : sys_ok s0 -> reachable s0 s -> sys_ok s.
Proof.
  intros H0 Hr. induction Hr as [|s c r s' _ IH Hc Hx]; [done|].
  destruct (wp_run _ _ _ (exec_ok c s IH Hc)) as (r' & s'' & Hx' & Hs''). congruence.
Qed.
End system.

(** * The root file system *)

Section boot.
Context {mem : Memory} {drv : Drivers}.
Abbreviation K := (kst ramfs Z).

(** The kernel before [vfs_init]. *)
Definition kernel_start : K := Kst ∅ [] false false 0 [] 1 ∅ (replicate (Z.to_nat NFILES) None) 0.

Definition root_inode : ramfs_inode :=
  RamfsInode (2 * sizeof_ramfs_dirent) 0 (MemDir (dot_entries 0 0)) RAMFS_TYPE_DIR 1.

Definition root_table : ramfs := Some root_inode :: replicate 63 None.

Definition root_view : inode_view := DirView [(str ".", 0); (str "..", 0)].

Lemma root_slot i n : slot root_table i = Some n -> i = 0 /\ n = root_inode.
Proof.
  unfold slot, root_table. destruct (Z.leb_spec 0 i) as [Hi|]; [|done].
  destruct (Z.to_nat i) as [|k] eqn:E; [intros [= <-]; split; [lia|done]|]. cbn [lookup list_lookup].
  destruct (replicate 63 None !! k) as [o|] eqn:Ek; [|done]. apply lookup_replicate in Ek as [-> _]. done.
Qed.

Lemma root_wf : ramfs_wf ∅ root_table.
Proof.
  split.
  - done.
  - intros i n [-> ->]%root_slot. split_and!; [|by vm_compute|by vm_compute].
    split; [done|]. eexists. split; [done|]. by apply dots_ok.
  - intros p v. by rewrite lookup_empty.
  - by eexists.
  - intros i n es k e [-> ->]%root_slot [= <-] Hk Hf. apply lookup_dots in Hk as [_ Hk]; [|done].
    exists root_inode. by destruct Hk as [-> | ->].
Qed.

Lemma start_ok : vfs_ok ramfs_ops [] [] [] (set_fs_i root_table kernel_start).
Proof.
  split; cbn -[root_table]; try done.
  - constructor.
  - intros p. rewrite lookup_empty. split; [intros H; by apply not_elem_of_nil in H|by intros []].
  - intros p []. done.
  - intros f []. done.
  - intros p H. by apply not_elem_of_nil in H.
  - apply root_wf.
Qed.

Lemma wp_boot (Q : unit -> K -> Prop) :
  oom = false ->
  (forall s, sys_ok ramfs_ops s -> the_tree ramfs_ops s ⊆ {[ 0 := root_view ]} ->
     vno_of s (p_cwd s) = Some 0 -> vno_of s (fs_root s) = Some 0 -> k_files s = ∅ ->
     p_files s = replicate (Z.to_nat NFILES) None -> Q tt s) ->
  wp (vfs_init ramfs_mount) Q kernel_start.
Proof.
  intros Hoom HQ. unfold vfs_init, ramfs_mount. rewrite Hoom. wp_steps.
  set (s0 := set_fs_i _ kernel_start).
  apply (wp_mono _ (fun i s => i = 0 /\ s = set_fs_i (<[0%nat := Some
            (RamfsInode 0 0 (MemDir zero_entries) RAMFS_TYPE_DIR 1)]> (fs_i s0)) s0)).
  { unfold ramfs_alloc_inode. by rewrite Hoom. }
  intros i s [-> ->]. change (0 <? 0) with false. cbn iota. wp_use wp_kassert; [done|].
  wp_use wp_rf_modify; [done|].
  match goal with |- wp _ _ ?t => change t with (set_fs_i root_table kernel_start) end.
  wp_use (wp_vget ramfs_ops); [done|exact start_ok|by eexists|done|].
  intros p s1 Hok1 Hk1 Hp. wp_steps. cbn [locked_if] in Hok1.
  change (negb (0 =? 0)) with false. cbn iota. wp_steps.
  assert (vfs_ok ramfs_ops [p] [] [] (set_fs_root p s1)) as Hok1' by by destruct Hok1.
  eapply (wp_vlock ramfs_ops); [exact Hok1'|by eapply vno_is_Some|apply not_elem_of_nil|].
  intros s2 Hok2 Hk2. wp_steps. cbn [fs_root set_fs_root] in *.
  assert (vno_of s2 p = Some 0) as Hp2.
  { eapply (vno_of_keeps ramfs_ops); [exact Hok1'|exact Hok2|done|done|by apply refs_elem; left]. }
  apply (set_cwd_ok ramfs_ops _ _ _ p) in Hok2.
  eapply (wp_vref ramfs_ops); [exact Hok2|by eapply vno_is_Some|]. intros s3 Hok3 Hk3.
  eapply (wp_vunlock ramfs_ops); [done| |apply not_elem_of_nil|].
  { apply (ok_refs _ _ _ _ _ Hok3), refs_elem. left. }
  intros s4 Hok4 Hk4. assert (keeps ramfs_ops (set_p_cwd p s2) s4) as Hk by by etrans.
  assert (p_cwd s4 = p) as Ec by by rewrite (kp_cwd _ _ _ Hk).
  assert (fs_root s4 = p) as Er by (rewrite (kp_root _ _ _ Hk); exact (kp_root _ _ _ Hk2)).
  assert (k_files s4 = ∅) as Ef.
  { rewrite (kp_files _ _ _ Hk). cbn. rewrite (kp_files _ _ _ Hk2). cbn. by rewrite (kp_files _ _ _ Hk1). }
  assert (vno_of s4 p = Some 0) as Hp4.
  { eapply (vno_of_keeps ramfs_ops); [exact Hok2|exact Hok4|done|done|by apply refs_elem; left]. }
  apply HQ; [| |by rewrite Ec|by rewrite Er|done|].
  - split; [by rewrite Ec, Er|]. intros f x. by rewrite Ef, lookup_empty.
  - etrans; [apply (kp_tree _ _ _ Hk)|]. etrans; [apply (kp_tree _ _ _ Hk2)|].
    etrans; [apply (kp_tree _ _ _ Hk1)|]. apply map_subseteq_spec. intros j w Hj.
    change (ramfs_tree root_table !! j = Some w) in Hj. rewrite ramfs_tree_lookup in Hj.
    apply fmap_Some in Hj as (n & [-> ->]%root_slot & ->). done.
  - rewrite (kp_fds _ _ _ Hk). cbn. rewrite (kp_fds _ _ _ Hk2). cbn. by rewrite (kp_fds _ _ _ Hk1).
Qed.
End boot.
