(* ===== verification/VfsTheorems.v ===== *)
(** The theorems on the system calls of the VFS, for any file system that keeps
    the contract of its operations, and on the root file system after boot. *)

From S2P Require Import Prelude CString Mobj Vnode File Namev VfsSyscall Ramfs.
From S2P Require Import VfsSpec VnodeProofs FileProofs FdProofs NamevProofs VfsNameProofs VfsDirProofs.
From S2P Require Import RamfsProofs RamfsFileProofs RamfsDirProofs VfsRwProofs VfsSystem.

(** ** Walks after a change of the tree *)

(** A walk that reaches the directory still does after a name is added to it. *)
Lemma walk_added i cs d key j w t t' :
  added i cs d key j w t t' -> tree_closed t' -> is_Some (t' !! i) ->
  walk t' i cs = inr d
  /\ (forall w', t' !! d = Some w' -> exists es', w' = DirView es' /\ assoc key es' = Some j)
  /\ (is_Some (t' !! d) -> t' !! j = Some w).
Proof.
  intros (t1 & es & es' & _ & Hcl1 & Hwalk & Hd & Hj & Ha & Hadd & Hsub) Hcl.
  assert (d <> j) as Hdj by congruence.
  assert (forall w', t' !! d = Some w' -> w' = DirView es') as Hd'.
  { intros w' Hw. pose proof (lookup_weaken _ _ _ _ Hw Hsub) as E.
    rewrite lookup_insert_ne, lookup_insert_eq in E by done. congruence. }
  assert (assoc key es' = Some j) as Hkey by (rewrite Hadd, decide_True; done).
  intros Hi. split_and!.
  - clear Hd'. revert i Hwalk Hi. induction cs as [|c cs IH]; intros i Hwalk [wi Hi]; cbn [walk] in *; [done|].
    destruct (t1 !! i) as [[e1| |]|] eqn:Hi1; try done.
    destruct (assoc c e1) as [k|] eqn:Hc; [|done].
    pose proof (lookup_weaken _ _ _ _ Hi Hsub) as E.
    rewrite lookup_insert_ne in E by congruence.
    assert (exists e2, wi = DirView e2 /\ assoc c e2 = Some k) as (e2 & -> & Hc2).
    { destruct (decide (i = d)) as [->|Hne].
      - rewrite lookup_insert_eq in E. simplify_eq. exists es'. split; [done|]. rewrite Hadd.
        rewrite decide_False; [done|]. intros ->. congruence.
      - rewrite lookup_insert_ne in E by done. simplify_eq. eauto. }
    rewrite Hi, Hc2. apply IH; [done|]. eapply Hcl; [exact Hi|]. by eapply assoc_elem.
  - intros w' Hw. exists es'. split; [by apply Hd'|done].
  - intros [w' Hw]. pose proof (Hd' _ Hw) as ->.
    destruct (Hcl d es' key j Hw) as [wj Hwj]; [by eapply assoc_elem|].
    pose proof (lookup_weaken _ _ _ _ Hwj Hsub) as E. rewrite lookup_insert_eq in E. congruence.
Qed.

Lemma walk_removed i cs d key t t' :
  removed i cs d key t t' -> tree_closed t' -> is_Some (t' !! i) ->
  walk t' i cs = inr d
  /\ (forall w', t' !! d = Some w' -> exists es', w' = DirView es' /\ assoc key es' = None).
Proof.
  intros (t1 & es & es' & _ & Hcl1 & Hwalk & Hd & Hnd & Hdel & Hsub) Hcl Hi. split.
  - revert i Hwalk Hi. induction cs as [|c cs IH]; intros i Hwalk [wi Hi]; cbn [walk] in *; [done|].
    destruct (t1 !! i) as [[e1| |]|] eqn:Hi1; try done.
    destruct (assoc c e1) as [k|] eqn:Hc; [|done].
    pose proof (lookup_weaken _ _ _ _ Hi Hsub) as E.
    assert (exists e2, wi = DirView e2 /\ assoc c e2 = Some k) as (e2 & -> & Hc2).
    { destruct (decide (i = d)) as [->|Hne].
      - rewrite lookup_insert_eq in E. simplify_eq. exists es'. split; [done|]. rewrite Hdel.
        rewrite decide_False; [done|]. intros ->. specialize (Hnd k).
        destruct cs as [|c' cs]; cbn [walk] in Hwalk.
        + injection Hwalk as ->. by apply (Hnd es).
        + destruct (t1 !! k) as [[e3| |]|]; try done. by apply (Hnd e3).
      - rewrite lookup_insert_ne in E by done. simplify_eq. eauto. }
    rewrite Hi, Hc2. apply IH; [done|]. eapply Hcl; [exact Hi|]. by eapply assoc_elem.
  - intros w' Hw. pose proof (lookup_weaken _ _ _ _ Hw Hsub) as E. rewrite lookup_insert_eq in E.
    exists es'. split; [congruence|]. by rewrite Hdel, decide_True.
Qed.

Lemma walk_in_tree t i cs d :
  tree_closed t -> is_Some (t !! i) -> walk t i cs = inr d -> is_Some (t !! d).
Proof.
  intros Hcl. revert i. induction cs as [|c cs IH]; intros i Hi H; cbn in H; [by simplify_eq|].
  destruct (t !! i) as [[es| |]|] eqn:Ei; try done. destruct (assoc c es) as [k|] eqn:Ec; [|done].
  apply (IH k); [|done]. eapply Hcl; [exact Ei|]. by eapply assoc_elem.
Qed.

(** The path of an inode just added resolves to it. *)
Lemma resolve_added i path d j w t t' :
  added i (dir_of path) d (basename (components path)) j w t t' -> tree_closed t' -> is_Some (t' !! i) ->
  Z.of_nat (length (basename (components path))) <= NAME_LEN ->
  trailing path = false \/ (forall b, w <> FileView b) ->
  resolve t' i path = inr j /\ t' !! j = Some w.
Proof.
  intros Hadd Hcl Hi Hlen Htr. destruct (walk_added _ _ _ _ _ _ _ _ Hadd Hcl Hi) as (Hw & Hd & Hj).
  assert (is_Some (t' !! d)) as Hdt by by eapply walk_in_tree. specialize (Hj Hdt). split; [|done].
  destruct Hdt as [w' Hw']. destruct (Hd w' Hw') as (es' & -> & Ha).
  unfold resolve. rewrite Hw, Hw', (proj2 (Z.ltb_ge _ _)) by done. cbn [walk]. rewrite Hw', Ha, Hj.
  destruct w as [|b|]; [done| |done]. destruct Htr as [-> | Hb]; [done|by destruct (Hb b)].
Qed.

(** The path of an entry just removed does not resolve. *)
Lemma resolve_removed i path d t t' :
  removed i (dir_of path) d (basename (components path)) t t' -> tree_closed t' -> is_Some (t' !! i) ->
  Z.of_nat (length (basename (components path))) <= NAME_LEN ->
  resolve t' i path = inl (- ENOENT).
Proof.
  intros Hrem Hcl Hi Hlen. destruct (walk_removed _ _ _ _ _ _ Hrem Hcl Hi) as (Hw & Hd).
  assert (is_Some (t' !! d)) as [w' Hw'] by by eapply walk_in_tree. destruct (Hd w' Hw') as (es' & -> & Ha).
  unfold resolve. rewrite Hw, Hw', (proj2 (Z.ltb_ge _ _)) by done. cbn [walk]. by rewrite Hw', Ha.
Qed.

Section theorems.
Context {F V : Type} {mem : Memory} {drv : Drivers} (fs : fs_ops F V) {FD : FsData fs}.
Context (vops_of : vops -> vnode_ops (kst F V)) {FV : FsVops fs vops_of}.
Context {FF : FsFiles fs vops_of} {FN : FsDirs fs vops_of}.
Abbreviation K := (kst F V).
Abbreviation vfs_ok := (vfs_ok fs).
Abbreviation keeps := (keeps fs).
Abbreviation sys_ok := (sys_ok fs).
Abbreviation the_tree := (the_tree fs).
Implicit Types (s : K) (X Y L : list Z) (p q fd : Z).

Hypothesis mem_ok : oom = false.

(** The inode where a path starts is in the tree, also after a call. *)
Lemma start_in_tree s path i : sys_ok s -> vno_of s (start_dir (p_cwd s) path s) = Some i -> is_Some (the_tree s !! i).
Proof. intros [Hok _]. by eapply vnode_in_tree. Qed.

Lemma start_stable s s' path i :
  sys_ok s -> sys_ok s' -> stable s s' -> vno_of s (start_dir (p_cwd s) path s) = Some i ->
  tree_closed (the_tree s') /\ is_Some (the_tree s' !! i).
Proof.
  intros [Hok _] [Hok' _] Hst Hi. split; [apply (fs_closed _ _ (ok_fs _ _ _ _ _ Hok'))|].
  eapply (vnode_in_tree fs); [exact Hok'|].
  eapply (stable_vno fs); [exact Hok|exact Hok'|done|exact Hi|].
  apply refs_elem. rewrite (st_root _ _ Hst), (st_cwd _ _ Hst). apply start_elem.
Qed.

Lemma start_files s s' path i ps ks :
  sys_ok s -> sys_ok s' -> stable s (set_p_files ps (set_k_files ks s')) ->
  vno_of s (start_dir (p_cwd s) path s) = Some i ->
  tree_closed (the_tree s') /\ is_Some (the_tree s' !! i).
Proof.
  intros [Hok _] [Hok' _] Hst Hi. split; [apply (fs_closed _ _ (ok_fs _ _ _ _ _ Hok'))|].
  destruct (ok_refs _ _ _ _ _ Hok' (start_dir (p_cwd s) path s)) as [v' Hv'].
  { apply refs_elem. pose proof (st_root _ _ Hst) as Er. pose proof (st_cwd _ _ Hst) as Ec. cbn in Er, Ec.
    rewrite Er, Ec. apply start_elem. }
  eapply (vnode_in_tree fs); [exact Hok'|]. unfold vno_of in Hi |- *. apply fmap_Some in Hi as (v & Hv & ->).
  destruct (st_vno _ _ Hst (start_dir (p_cwd s) path s) v') as (v0 & Hv0 & E).
  - apply (ok_next_vnode _ _ _ _ _ Hok). eauto.
  - exact Hv'.
  - rewrite Hv'. cbn. rewrite E. f_equal. congruence.
Qed.

Lemma fd_inode_None s fd : sys_ok s -> fd_inode fd s = None <-> open_file fd s = None.
Proof.
  intros Hsys. split.
  - intros H. destruct (open_file fd s) as [g|] eqn:Ho; [|done].
    destruct (fd_inode_open fs s fd g Hsys Ho) as (x & i & v & w & _ & Hfd & _). congruence.
  - unfold fd_inode. by intros ->.
Qed.

(** C19: [namev_dir] terminates on every path: the walk of all components but
    the last from the root or the base directory, with a reference to the
    directory reached and a pointer to the last component; or the error of the
    first component that is missing or not in a directory. *)
Theorem namev_dir_correct X Y base i path s :
  nonul path -> path <> [] -> vfs_ok X Y [] s -> vno_of s (start_dir base path s) = Some i ->
  exists r s', namev_dir fs vops_of base path s = Done r s' /\ keeps s s'
    /\ match walk (the_tree s) i (dir_of path) with
       | inl e => r = (e, None) /\ vfs_ok X Y [] s'
       | inr d => exists q name n, r = (0, Some (q, name, n)) /\ vfs_ok (q :: X) Y [] s'
                    /\ vno_of s' q = Some d /\ name_of path name n
       end.
Proof.
  intros Hp Hne Hok Hi.
  apply wp_run. eapply (wp_namev_dir fs vops_of mem_ok); [done..|].
  destruct (walk (the_tree s) i _) as [e|d]; [by intros|]. intros q name n s' ? ? ? ?. split; [done|].
  exists q, name, n. done.
Qed.


(** C15: a name that [do_open] makes with [O_CREAT] resolves to the new, empty
    file, which the returned descriptor is open on. *)
Theorem open_create_resolves path oflags i s d :
  sys_ok s -> nonul path -> path <> [] -> vno_of s (start_dir (p_cwd s) path s) = Some i ->
  has oflags O_CREAT = true -> has oflags O_WRONLY && has oflags O_RDWR = false ->
  Z.of_nat (length (basename (components path))) <> NAME_LEN ->
  open_target (the_tree s) i path = inr (Free d (basename (components path))) ->
  exists r s', do_open fs vops_of path oflags s = Done r s' /\ sys_ok s'
    /\ (r = - EMFILE \/ r = - ENOSPC
        \/ exists g x j, fd_inode r s' = Some (g, x, j) /\ f_pos x = 0 /\ f_mode x = open_mode oflags
             /\ resolve (the_tree s') i path = inr j /\ the_tree s' !! j = Some (FileView [])).
Proof.
  intros Hsys Hp Hne Hi Hcr Hfl H28 Ht. apply wp_run. eapply (wp_do_open fs vops_of); [done..| | |].
  - intros E1 E2. by rewrite E1, E2 in Hfl.
  - intros. split; [done|]. by left.
  - intros n r s' Hn Hs' Hpost. split; [done|]. right. unfold open_spec in Hpost. rewrite Hcr, Ht in Hpost.
    destruct Hpost as [[-> _]|(-> & j & Hop & _ & Hadd)]; [by left|]. right.
    destruct Hop as (g & p & _ & Hfds & Hfile & Hvno & Hst).
    assert (Z.of_nat (length (basename (components path))) <= NAME_LEN /\ trailing path = false) as [Hlen Htr].
    { unfold open_target in Ht. repeat case_match; simplify_eq. lia. }
    destruct Hn as [Hn _]. pose proof (lookup_lt_Some _ _ _ Hn) as Hlt.
    assert (length (p_files s) = Z.to_nat NFILES) as Hnf by (destruct Hsys as [Hok _]; apply (ok_nfiles _ _ _ _ _ Hok)).
    change (Z.to_nat NFILES) with 32%nat in Hnf.
    exists g, (File 0 (open_mode oflags) 1 p), j.
    assert (tree_closed (the_tree s') /\ is_Some (the_tree s' !! i)) as [Hcl Hit].
    { eapply (start_files s s'); done. }
    split_and!; [|done|done|..].
    + unfold fd_inode, open_file, p_file. rewrite (proj2 (Z.ltb_ge _ 0)) by lia.
      assert ((Z.of_nat n >=? NFILES) = false) as -> by (change NFILES with 32; lia). cbn [orb].
      rewrite Nat2Z.id, Hfds, list_lookup_insert_eq by done. cbn. rewrite Hfile, lookup_insert_eq. cbn.
      by rewrite Hvno.
    + eapply resolve_added; [done|done|done|done|by left].
    + eapply resolve_added; [done|done|done|done|by left].
Qed.

(** C31: [do_mkdir] adds a directory under the free name, and the path then
    resolves to it, with [.] naming itself and [..] its parent; it refuses a
    name that is there or too long and a parent that is not a directory. *)
Theorem do_mkdir_correct path i s :
  sys_ok s -> nonul path -> path <> [] -> vno_of s (start_dir (p_cwd s) path s) = Some i ->
  Z.of_nat (length (basename (components path))) <> NAME_LEN ->
  exists r s', do_mkdir fs vops_of path s = Done r s' /\ sys_ok s'
    /\ match dir_target (the_tree s) i path with
       | inl e => r = e /\ keeps s s'
       | inr (_, Found _) => r = - EEXIST /\ keeps s s'
       | inr (d, Free _ _) =>
           r = - ENOSPC /\ keeps s s'
           \/ r = 0 /\ stable s s' /\ exists j, resolve (the_tree s') i path = inr j
                /\ the_tree s' !! j = Some (DirView [(str ".", j); (str "..", d)])
       end.
Proof.
  intros Hsys Hp Hne Hi H28. apply wp_run. eapply (wp_do_mkdir fs vops_of); [done..|].
  intros r s' Hs' Hpost. split; [done|].
  destruct (dir_target (the_tree s) i path) as [e|[d [j|d' key]]] eqn:Et; [done|done|].
  assert (d' = d /\ key = basename (components path)
          /\ Z.of_nat (length (basename (components path))) <= NAME_LEN) as (-> & -> & Hlen).
  { unfold dir_target in Et. repeat case_match; simplify_eq. split_and!; [done|done|lia]. }
  destruct Hpost as [[-> Hk]|(-> & Hst & j & Hadd)]; [by left|right]. split_and!; [done|done|]. exists j.
  destruct (start_stable s s' path i Hsys Hs' Hst Hi) as [Hcl Hit].
  eapply resolve_added; [done|done|done|done|by right].
Qed.

(** C32: [do_unlink] removes the name of a file or device, and the path then no
    longer resolves; it refuses a directory, a name that is missing or too
    long, and a parent that is not a directory. *)
Theorem do_unlink_correct path i s :
  sys_ok s -> nonul path -> path <> [] -> vno_of s (start_dir (p_cwd s) path s) = Some i ->
  exists r s', do_unlink fs vops_of path s = Done r s' /\ sys_ok s'
    /\ match dir_target (the_tree s) i path with
       | inl e => r = e /\ keeps s s'
       | inr (_, Free _ _) => r = - ENOENT /\ keeps s s'
       | inr (d, Found j) =>
           match the_tree s !! j with
           | Some (DirView _) => r = - EPERM /\ keeps s s'
           | _ => r = 0 /\ stable s s' /\ resolve (the_tree s') i path = inl (- ENOENT)
           end
       end.
Proof.
  intros Hsys Hp Hne Hi. apply wp_run. eapply (wp_do_unlink fs vops_of); [done..|].
  intros r s' Hs' Hpost. split; [done|]. unfold unlink_post in Hpost.
  destruct (dir_target (the_tree s) i path) as [e|[d [j|d' key]]] eqn:Et; [done| |done].
  assert (Z.of_nat (length (basename (components path))) <= NAME_LEN) as Hlen.
  { unfold dir_target in Et. repeat case_match; simplify_eq; lia. }
  assert (forall t', removed i (dir_of path) d (basename (components path)) (the_tree s) t' -> t' = the_tree s' ->
            stable s s' -> resolve (the_tree s') i path = inl (- ENOENT)) as Hres.
  { intros t' Hrem -> Hst. destruct (start_stable s s' path i Hsys Hs' Hst Hi) as [Hcl Hit].
    by eapply resolve_removed. }
  destruct (the_tree s !! j) as [[es|b|blk dv]|]; [done|..];
    destruct Hpost as (-> & Hst & Hrem); (split_and!; [done|done|]; by eapply Hres).
Qed.

(** [do_chdir] makes the directory of the path the working directory; a
    path that names something else, or nothing, changes nothing. *)
Theorem do_chdir_correct path i s :
  sys_ok s -> nonul path -> path <> [] -> vno_of s (start_dir (p_cwd s) path s) = Some i ->
  exists r s', do_chdir fs vops_of path s = Done r s' /\ sys_ok s'
    /\ chdir_post fs (resolve (the_tree s) i path) r s s'.
Proof.
  intros Hsys Hp Hne Hi. apply wp_run. eapply (wp_do_chdir fs vops_of); [done..|]. by intros.
Qed.

(** C17: [do_read] returns the bytes of the file from the position of the
    descriptor on, up to the end of the file, and advances the position by
    their number; nothing else changes. *)
Theorem do_read_correct fd n s :
  sys_ok s -> 0 <= n -> read_ok fs fd n s ->
  exists r s', do_read fs vops_of fd n s = Done r s' /\ sys_ok s'
    /\ match fd_inode fd s with
       | None => r = (- EBADF, []) /\ s' = s
       | Some (g, x, i) =>
           if has (f_mode x) FMODE_READ then
             match the_tree s !! i with
             | Some (FileView b) =>
                 let d := slice b (Z.to_nat (f_pos x)) (Z.to_nat n) in
                 r = (Z.of_nat (length d), d)
                 /\ exists s1, keeps s s1 /\ the_tree s1 = the_tree s
                      /\ s' = upd_file g (set_f_pos (f_pos x + Z.of_nat (length d)) x) s1
             | _ => r = (- EISDIR, []) /\ keeps s s'
             end
           else r = (- EBADF, []) /\ keeps s s'
       end.
Proof.
  intros Hsys Hn Hr. apply wp_run. apply (wp_do_read fs vops_of); [done|done| |].
  - intros Ho. rewrite (proj2 (fd_inode_None s fd Hsys) Ho). done.
  - intros g x i Hfd. rewrite Hfd. destruct (Hr g x i Hfd) as [Hb Hdev]. split; [done|].
    destruct (has (f_mode x) FMODE_READ); [|by intros].
    destruct (fd_inode_tree fs s fd g x i Hsys Hfd) as [w Hw]. rewrite Hw in Hdev |- *.
    destruct w as [es|b|]; [by intros| |done]. cbn zeta. intros s1 Hk Ht Hs'. split; [done|]. split; [done|].
    by exists s1.
Qed.

(** C16: [do_write] stores the bytes at the position of the descriptor, or at the
    end of the file with [FMODE_APPEND], up to the largest file size; a gap is
    filled with zeroes, the position moves behind the last byte written, and
    every other file and directory is unchanged. *)
Theorem do_write_correct fd buf s :
  sys_ok s -> Z.of_nat (length buf) < 2 ^ 63 -> write_ok fs vops_of fd s ->
  exists r s', do_write fs vops_of fd buf s = Done r s' /\ sys_ok s'
    /\ match fd_inode fd s with
       | None => r = - EBADF /\ s' = s
       | Some (g, x, i) =>
           if has (f_mode x) FMODE_WRITE then
             exists b, the_tree s !! i = Some (FileView b)
               /\ let pos := write_pos x b in
                  let n := Z.min (Z.of_nat (length buf)) (fs_max_size - pos) in
                  r = n
                  /\ exists s1, stable s s1 /\ s' = upd_file g (set_f_pos (pos + n) x) s1
                       /\ the_tree s' = <[i := FileView (file_write b (Z.to_nat pos) (take (Z.to_nat n) buf))]>
                                          (the_tree s)
           else r = - EBADF /\ keeps s s'
       end.
Proof.
  intros Hsys Hlen Hw. apply wp_run. apply (wp_do_write fs vops_of); [done|done| |].
  - intros Ho. rewrite (proj2 (fd_inode_None s fd Hsys) Ho). done.
  - intros g x i Hfd. rewrite Hfd. pose proof (write_pos_range fs vops_of fd s g x i Hsys Hw Hfd) as Hpos.
    destruct (has (f_mode x) FMODE_WRITE); [|by intros].
    destruct (Hpos eq_refl) as (b & Hb & Hrange). rewrite Hb. cbn zeta. split; [done|].
    intros s1 Hst Ht Hs'. split; [done|]. exists b. split; [done|]. split; [done|]. exists s1. done.
Qed.

(** The inode of a descriptor after a call on it. *)
Lemma fd_inode_after s s' fd g x x' i :
  fd_inode fd s = Some (g, x, i) -> p_files s' = p_files s -> k_files s' !! g = Some x' ->
  vno_of s' (f_vnode x') = Some i -> fd_inode fd s' = Some (g, x', i).
Proof.
  intros Hfd Hp Hx' Hv. assert (open_file fd s' = open_file fd s) as E by (unfold open_file, p_file; by rewrite Hp).
  unfold fd_inode in *. rewrite E. destruct (open_file fd s) as [g'|]; [|done]. destruct (k_files s !! g') as [y|] eqn:Hy; [|done].
  destruct (vno_of s (f_vnode y)); [|done]. cbn in Hfd. simplify_eq. by rewrite Hx', Hv.
Qed.

Lemma fd_inode_vno s fd g x i :
  fd_inode fd s = Some (g, x, i) -> k_files s !! g = Some x /\ vno_of s (f_vnode x) = Some i
  /\ open_file fd s = Some g.
Proof.
  unfold fd_inode. destruct (open_file fd s) as [g'|]; [|done]. destruct (k_files s !! g') as [y|] eqn:Hy; [|done].
  destruct (vno_of s (f_vnode y)) eqn:E; [|done]. intros [= -> -> ->]. done.
Qed.

(** The vnode of an open file, after the file's position and the tree changed. *)
Lemma vno_after s s1 g x pos i :
  sys_ok s -> stable s s1 -> sys_ok (upd_file g (set_f_pos pos x) s1) ->
  k_files s !! g = Some x -> vno_of s (f_vnode x) = Some i -> vno_of s1 (f_vnode x) = Some i.
Proof.
  intros [Hok Hlive] Hst [Hok1 Hlive1] Hx Hv.
  destruct (ok_refs _ _ _ _ _ Hok1 (f_vnode x)) as [v1 Hv1].
  { apply (file_refs_pos _ g (set_f_pos pos x)); [apply lookup_insert_eq|].
    cbn. by apply (Hlive g). }
  unfold vno_of in Hv |- *. apply fmap_Some in Hv as (v & Hv & ->).
  destruct (st_vno _ _ Hst (f_vnode x) v1) as (v0 & Hv0 & E); [|exact Hv1|].
  { apply (ok_next_vnode _ _ _ _ _ Hok). eauto. }
  change (k_vnodes (upd_file g (set_f_pos pos x) s1)) with (k_vnodes s1) in Hv1.
  rewrite Hv1. cbn. rewrite E. f_equal. congruence.
Qed.

Lemma slice_file_write b (p : nat) d : slice (file_write b p d) p (length d) = d.
Proof.
  unfold slice, file_write. rewrite drop_app_length', take_app_length; [done|].
  rewrite length_take, length_app, length_replicate. lia.
Qed.

(** A write at the position of a descriptor. *)
Lemma run_write fd buf g x i b s :
  sys_ok s -> Z.of_nat (length buf) < 2 ^ 63 -> fd_inode fd s = Some (g, x, i) ->
  the_tree s !! i = Some (FileView b) -> has (f_mode x) FMODE_WRITE = true ->
  has (f_mode x) FMODE_APPEND = false -> 0 <= f_pos x <= fs_max_size ->
  let n := Z.min (Z.of_nat (length buf)) (fs_max_size - f_pos x) in
  exists s1, do_write fs vops_of fd buf s = Done n s1 /\ sys_ok s1
    /\ fd_inode fd s1 = Some (g, set_f_pos (f_pos x + n) x, i)
    /\ the_tree s1 !! i = Some (FileView (file_write b (Z.to_nat (f_pos x)) (take (Z.to_nat n) buf))).
Proof.
  intros Hsys Hlen Hfd Hb Hwr Hap Hmax n. destruct (fd_inode_vno _ _ _ _ _ Hfd) as (Hx & Hv & Ho).
  apply wp_result. apply (wp_do_write fs vops_of); [done|lia|congruence|].
  intros g' x' i' Hfd'. rewrite Hfd in Hfd'. simplify_eq. rewrite Hwr, Hb. unfold write_pos. rewrite Hap.
  cbn zeta. split; [lia|]. intros s1 Hst Ht Hs1. split_and!; [done|done| |].
  - apply (fd_inode_after s _ _ _ x'); [done|apply Hst|apply lookup_insert_eq|].
    by apply (vno_after s s1 g' x' (f_pos x' + n)).
  - match goal with |- _ = Some ?w => change (the_tree s1 !! i' = Some w) end. by rewrite Ht, lookup_insert_eq.
Qed.

(** A seek to a position. *)
Lemma run_seek fd g x i w pos s :
  sys_ok s -> fd_inode fd s = Some (g, x, i) -> the_tree s !! i = Some w -> 0 <= pos < 2 ^ 63 ->
  exists s1, do_lseek fs vops_of fd pos SEEK_SET s = Done pos s1 /\ sys_ok s1
    /\ fd_inode fd s1 = Some (g, set_f_pos pos x, i) /\ the_tree s1 !! i = Some w.
Proof.
  intros Hsys Hfd Hw Hpos. destruct (fd_inode_vno _ _ _ _ _ Hfd) as (Hx & Hv & Ho).
  apply wp_result. apply (wp_do_lseek fs vops_of); [done|lia|congruence|]. intros g' x' v s0 Ho' Hx' _ Hk0.
  assert (g' = g) as -> by congruence. assert (x' = x) as -> by congruence.
  unfold seek_target. change (SEEK_SET =? SEEK_SET) with true. cbn iota.
  rewrite (proj2 (Z.ltb_ge _ _)) by lia. intros Hs1.
  assert (vno_of s0 (f_vnode x) = Some i) as Hv0.
  { apply (vno_after s s0 g x pos); try done. by eapply (keeps_stable fs). }
  split_and!; [done|done| |].
  - apply (fd_inode_after s _ _ _ x); [done|apply Hk0|apply lookup_insert_eq|done].
  - change (the_tree s0 !! i = Some w).
    assert (vno_of (upd_file g (set_f_pos pos x) s0) (f_vnode x) = Some i) as Hvu by exact Hv0.
    destruct Hs1 as [Hok1 _]. destruct (vnode_in_tree fs _ _ _ _ _ _ Hok1 Hvu) as [w' Hw'].
    change (the_tree (upd_file g (set_f_pos pos x) s0)) with (the_tree s0) in Hw'.
    rewrite Hw', <- Hw. symmetry. eapply lookup_weaken; [exact Hw'|apply Hk0].
Qed.

(** C18: what [do_write] wrote through a descriptor is what [do_read] returns
    after [do_lseek] back to the position of the write. *)
Theorem write_seek_read fd buf g x i b s :
  sys_ok s -> Z.of_nat (length buf) < 2 ^ 62 -> fd_inode fd s = Some (g, x, i) ->
  the_tree s !! i = Some (FileView b) -> has (f_mode x) FMODE_READ = true ->
  has (f_mode x) FMODE_WRITE = true -> has (f_mode x) FMODE_APPEND = false ->
  f_pos x <= fs_max_size -> f_pos x < 2 ^ 62 ->
  let n := Z.min (Z.of_nat (length buf)) (fs_max_size - f_pos x) in
  exists s1 s2 s3, do_write fs vops_of fd buf s = Done n s1
    /\ do_lseek fs vops_of fd (f_pos x) SEEK_SET s1 = Done (f_pos x) s2
    /\ do_read fs vops_of fd n s2 = Done (n, take (Z.to_nat n) buf) s3 /\ sys_ok s3.
Proof.
  intros Hsys Hlen Hfd Hb Hrd Hwr Hap Hmax Hpos n. destruct (fd_inode_vno _ _ _ _ _ Hfd) as (Hx & _ & _).
  assert (0 <= f_pos x) as Hp0
    by (destruct Hsys as [Hok _]; by destruct (ok_file _ _ _ _ _ Hok g x Hx) as (_ & _ & ? & _)).
  destruct (run_write fd buf g x i b s) as (s1 & Hrun1 & Hs1 & Hfd1 & Hc1); try done; [lia|].
  destruct (run_seek fd g _ i _ (f_pos x) s1 Hs1 Hfd1 Hc1) as (s2 & Hrun2 & Hs2 & Hfd2 & Hc2); [lia|].
  exists s1, s2. fold n in Hrun1, Hc2. set (d := take (Z.to_nat n) buf) in *.
  assert (length d = Z.to_nat n) as Hd by (unfold d; rewrite length_take; lia).
  destruct (wp_result (do_read fs vops_of fd n) (n, d) sys_ok s2) as (s3 & Hrun3 & Hs3); [|by exists s3].
  apply (wp_do_read fs vops_of); [done|lia| |].
  - destruct (fd_inode_vno _ _ _ _ _ Hfd2) as (_ & _ & ?). congruence.
  - intros g' x' i' Hfd'. rewrite Hfd2 in Hfd'. simplify_eq. cbn [f_pos set_f_pos f_mode]. split; [lia|].
    rewrite Hrd, Hc2. cbn zeta. intros s3 _ _ Hs3. split; [|done].
    rewrite <- Hd, slice_file_write, Hd. f_equal. lia.
Qed.

(** [do_lseek] sets the position that the whence and the signed 64-bit sum
    give, which is always in [0, 2^63), or returns [-EINVAL] and leaves the
    position as it was. *)
Theorem do_lseek_correct fd offset whence s :
  sys_ok s -> - 2 ^ 63 <= offset < 2 ^ 63 ->
  exists r s', do_lseek fs vops_of fd offset whence s = Done r s' /\ sys_ok s'
    /\ match open_file fd s with
       | None => r = - EBADF /\ s' = s
       | Some g =>
           exists x v s0, k_files s !! g = Some x /\ k_vnodes s !! f_vnode x = Some v /\ keeps s s0
             /\ match seek_target whence (f_pos x) (vn_len v) offset with
                | Some np =>
                    if np <? 0 then r = - EINVAL /\ s' = s0
                    else r = np /\ np < 2 ^ 63 /\ s' = upd_file g (set_f_pos np x) s0
                | None => r = - EINVAL /\ s' = s0
                end
       end.
Proof.
  intros Hsys Hoff. apply wp_run. apply (wp_do_lseek fs vops_of); [done|done|by intros ->|].
  intros g x v s0 Ho Hx Hv Hk. rewrite Ho.
  destruct (seek_target whence (f_pos x) (vn_len v) offset) as [np|] eqn:E; cycle 1.
  { intros Hs. split; [done|]. exists x, v, s0. by rewrite E. }
  pose proof (seek_range _ _ _ _ _ Hoff E).
  destruct (np <? 0) eqn:En; intros Hs; (split; [done|]; exists x, v, s0; by rewrite E, En).
Qed.

(** every call on a descriptor that is out of range or not open returns
    [-EBADF] and changes nothing. *)
Theorem bad_descriptor fd n m buf offset whence s :
  open_file fd s = None ->
  do_read fs vops_of fd n s = Done (- EBADF, []) s /\ do_write fs vops_of fd buf s = Done (- EBADF) s
  /\ do_close fs vops_of fd s = Done (- EBADF) s /\ do_dup fs vops_of fd s = Done (- EBADF) s
  /\ do_dup2 fs vops_of fd m s = Done (- EBADF) s
  /\ do_lseek fs vops_of fd offset whence s = Done (- EBADF) s
  /\ do_getdent fs vops_of fd s = Done (- EBADF, None) s.
Proof.
  unfold open_file. intros H.
  unfold do_read, do_write, do_close, do_dup, do_dup2, do_lseek, do_getdent, fget, bind, get.
  destruct ((fd <? 0) || (fd >=? NFILES)) eqn:E.
  - split_and!; try done.
  - rewrite H. cbn [orb]. split_and!; try done. destruct (m <? 0), (m >=? NFILES); cbn; by rewrite ?H.
Qed.

(** [do_dup] and [do_dup2] make a descriptor share the open file of another:
    [do_dup] the least free one, [do_dup2] the given one, closing what it was
    open on; no other descriptor changes. *)
Theorem dup_correct fd nfd s :
  sys_ok s ->
  (exists r s', do_dup fs vops_of fd s = Done r s' /\ sys_ok s'
    /\ match open_file fd s with
       | None => r = - EBADF /\ s' = s
       | Some g =>
           r = - EMFILE /\ s' = s /\ (forall o, o ∈ p_files s -> o <> None)
           \/ exists n, r = Z.of_nat n /\ least_free (p_files s) n
                /\ p_files s' = <[n := Some g]> (p_files s) /\ keeps_sys fs s s'
       end)
  /\ exists r s', do_dup2 fs vops_of fd nfd s = Done r s' /\ sys_ok s'
    /\ match open_file fd s with
       | None => r = - EBADF /\ s' = s
       | Some g =>
           if bool_decide (0 <= nfd < NFILES) then
             r = nfd /\ p_files s' = <[Z.to_nat nfd := Some g]> (p_files s) /\ keeps_sys fs s s'
           else r = - EBADF /\ s' = s
       end.
Proof.
  intros Hsys. split; apply wp_run.
  - apply (wp_do_dup fs vops_of); [done|by intros ->|..].
    + intros g -> Hfull. split; [done|]. by left.
    + intros g x n -> Hx Hn s' Hs' Hk. split; [done|]. right. by exists n.
  - apply (wp_do_dup2 fs vops_of); [done|..].
    + intros Hbad. split; [done|]. destruct (open_file fd s); [|done].
      destruct Hbad as [?|Hbad]; [done|]. by rewrite bool_decide_eq_false_2.
    + intros g Ho <-. rewrite Ho. destruct Hsys as [Hok Hl].
      destruct (open_file_Some fs _ _ _ _ _ _ Hok Ho) as (Hr & Hp & _).
      rewrite bool_decide_eq_true_2 by done. split; [done|]. split_and!; [done| |done].
      by rewrite list_insert_id.
    + intros g s' -> Hr _ Hs' Hk Hp. split; [done|]. by rewrite bool_decide_eq_true_2.
Qed.

(** [vget] returns the vnode of the inode with one more reference: the one
    in memory if there is one, else a new one; no inode ever has two vnodes. *)
Theorem vget_correct X Y L ino s :
  vfs_ok X Y L s -> is_Some (the_tree s !! ino) ->
  exists p s', vget fs ino s = Done p s' /\ vfs_ok (p :: X) Y L s' /\ keeps s s'
    /\ vno_of s' p = Some ino /\ (forall q, vno_of s' q = Some ino -> q = p)
    /\ (forall q, vno_of s q = Some ino -> q = p).
Proof.
  intros Hok Hino. apply wp_run. eapply (wp_vget fs); [done|done|done|done|].
  intros p s' Hok' Hk' Hp. cbn [locked_if] in Hok'. split_and!; try done.
  - intros q Hq. unfold vno_of in Hp, Hq. apply fmap_Some in Hp as (v & Hv & E1), Hq as (w & Hw & E2).
    apply (ok_unique _ _ _ _ _ Hok' q p w v); congruence.
  - intros q Hq.
    assert (vno_of s' q = Some ino) as Hq'.
    { eapply (vno_of_keeps fs); [exact Hok|exact Hok'|done|done|].
      unfold vno_of in Hq. apply fmap_Some in Hq as (v & Hv & _).
      destruct (ok_vnode _ _ _ _ _ Hok q v Hv) as (_ & Hpos & _).
      rewrite refs_cons. unfold refs, file_refs in *. rewrite (kp_files _ _ _ Hk').
      pose proof (one_range (p = q)). lia. }
    unfold vno_of in Hp, Hq'. apply fmap_Some in Hp as (v & Hv & E1), Hq' as (w & Hw & E2).
    apply (ok_unique _ _ _ _ _ Hok' q p w v); congruence.
Qed.

(** [vput] gives a reference back: the vnode leaves memory exactly when it
    was the last one, and its count is otherwise the number of references that
    remain. *)
Theorem vput_correct X Y p s :
  vfs_ok (p :: X) Y [] s ->
  exists s', vput fs p s = Done tt s' /\ vfs_ok X Y [] s' /\ keeps s s'
    /\ match k_vnodes s' !! p with
       | None => refs X s p = 0
       | Some v => mo_refcount (vn_mobj v) = refs X s p /\ 0 < refs X s p
       end.
Proof.
  intros Hok. destruct (wp_run (vput fs p) (fun _ s' => vfs_ok X Y [] s' /\ keeps s s') s)
    as ([] & s' & Hrun & Hok' & Hk'); [by apply (wp_vput_nil fs X Y)|].
  exists s'. split_and!; [done|done|done|]. rewrite <- (refs_keeps fs _ _ _ _ Hk').
  destruct (k_vnodes s' !! p) as [v|] eqn:E.
  - by destruct (ok_vnode _ _ _ _ _ Hok' p v E) as (? & ? & _).
  - pose proof (refs_nonneg X s' p). destruct (decide (0 < refs X s' p)) as [Hp|]; [|lia].
    apply (ok_refs _ _ _ _ _ Hok') in Hp as [? ?]. congruence.
Qed.
End theorems.

(** C1: with memory not exhausted the kernel boots on the root file system, and
    from then on, whatever sequence of the calls of [exec] is made ([do_open],
    [do_close], [do_dup], [do_dup2], [do_read], [do_write], [do_lseek],
    [do_mknod], [do_mkdir], [do_unlink] and [do_chdir]) within what [call_ok] asks
    of the caller, every call returns: no assertion fails, no null pointer is
    read, no lock is taken twice and none is left taken, every reference count is
    the number of references, and the tree of the file system is closed. *)
Theorem vfs_calls_safe {mem : Memory} {drv : Drivers} :
  oom = false ->
  exists s0, vfs_init ramfs_mount kernel_start = Done tt s0
    /\ forall s, reachable ramfs_ops ramfs_vops s0 s ->
         sys_ok ramfs_ops s
         /\ forall c, call_ok ramfs_ops ramfs_vops c s ->
              exists r s', exec ramfs_ops ramfs_vops c s = Done r s' /\ sys_ok ramfs_ops s'.
Proof.
  intros Hoom.
  destruct (wp_run (vfs_init ramfs_mount) (fun _ s => sys_ok ramfs_ops s) kernel_start)
    as ([] & s0 & Hrun & Hs0); [by apply wp_boot|].
  exists s0. split; [done|]. intros s Hr. assert (sys_ok ramfs_ops s) as Hs by (eapply (reachable_ok ramfs_ops ramfs_vops); done).
  split; [done|]. intros c Hc. apply wp_run. by apply (exec_ok ramfs_ops ramfs_vops).
Qed.
