(* ===== verification/VfsExamples.v ===== *)
(** The theorems on the system calls, applied to runs on the root file system:
    a kernel without device drivers that has booted, and the same kernel with
    a file [/a] and a directory [/d] open and made by [do_open] and
    [do_mkdir]. *)

From S2P Require Import Prelude CString Mobj Vnode File Namev VfsSyscall Ramfs.
From S2P Require Import VfsSpec VnodeProofs FileProofs FdProofs NamevProofs VfsNameProofs VfsDirProofs.
From S2P Require Import RamfsProofs RamfsFileProofs RamfsDirProofs VfsRwProofs VfsSystem VfsTheorems.

Definition no_drivers : Drivers :=
  {| chardev_lookup := fun _ => None; blockdev_lookup := fun _ => None;
     cd_read := fun _ _ _ => (0, []); cd_write := fun _ _ _ => 0 |}.

#[local] Existing Instance no_drivers.
#[local] Instance enough_memory : Memory := false.

(** The state after a run. *)
Definition after {St A} (m : M St A) (s : St) : St :=
  match m s with Done _ s' => s' | Failed _ => s end.

Lemma after_ok {St A} (m : M St A) (P : St -> Prop) s : wp m (fun _ s' => P s') s -> P (after m s).
Proof. unfold wp, after. by destruct (m s). Qed.

Abbreviation ok := (sys_ok ramfs_ops).

Definition booted : kst ramfs Z := after (vfs_init ramfs_mount) kernel_start.

Lemma booted_ok : ok booted.
Proof. apply (after_ok _ ok), wp_boot; [done|]. by intros. Qed.

Definition path_a : list Z := str "/a".
Definition path_d : list Z := str "/d".
Definition rdwr_create : Z := Z.lor O_RDWR O_CREAT.

(** [/a] open on descriptor 0. *)
Definition with_a : kst ramfs Z := after (exec ramfs_ops ramfs_vops (Open path_a rdwr_create)) booted.

Lemma path_a_ok : nonul path_a.
Proof. repeat constructor. Qed.

Lemma path_d_ok : nonul path_d.
Proof. repeat constructor. Qed.

Lemma with_a_ok : ok with_a.
Proof.
  apply (after_ok _ ok), (exec_ok ramfs_ops ramfs_vops); [done|apply booted_ok|]. split; [apply path_a_ok|].
  split; [apply path_a_ok|by vm_compute].
Qed.

Lemma with_a_fd : exists g x, fd_inode 0 with_a = Some (g, x, 1) /\ f_pos x = 0 /\ f_mode x = 3.
Proof. eexists _, _. split; [by vm_compute|done]. Qed.

Lemma with_a_tree : the_tree ramfs_ops with_a !! 1 = Some (FileView []).
Proof. by vm_compute. Qed.

Lemma vfs_calls_safe_witness :
  exists s0, vfs_init ramfs_mount kernel_start = Done tt s0
    /\ exists r s', exec ramfs_ops ramfs_vops (Mkdir path_d) s0 = Done r s' /\ ok s'.
Proof.
  destruct vfs_calls_safe as (s0 & Hrun & H); [reflexivity|]. exists s0. split; [exact Hrun|].
  destruct (H s0 (reach_start _ _ s0)) as [_ Hc]. apply Hc. split; [apply path_d_ok|by vm_compute].
Defined.

Lemma namev_dir_correct_witness :
  exists q name n s', namev_dir ramfs_ops ramfs_vops (p_cwd booted) path_a booted = Done (0, Some (q, name, n)) s'
    /\ vno_of s' q = Some 0.
Proof.
  destruct (namev_dir_correct (mem := enough_memory) (drv := no_drivers) ramfs_ops ramfs_vops eq_refl
    [fs_root booted; p_cwd booted] [] (p_cwd booted) 0 path_a booted path_a_ok)
    as (r & s' & Hrun & _ & H); [discriminate|exact (proj1 booted_ok)|vm_compute; reflexivity|].
  assert (walk (the_tree ramfs_ops booted) 0 (dir_of path_a) = inr 0) as E by (vm_compute; reflexivity).
  rewrite E in H. destruct H as (q & name & n & -> & _ & Hq & _). eauto 10.
Defined.


Lemma open_create_resolves_witness :
  exists r s', do_open ramfs_ops ramfs_vops path_a rdwr_create booted = Done r s' /\ ok s'.
Proof.
  destruct (open_create_resolves (mem := enough_memory) (drv := no_drivers) ramfs_ops ramfs_vops eq_refl
    path_a rdwr_create 0 booted 0 booted_ok path_a_ok) as (r & s' & Hrun & Hs & _);
    [discriminate|vm_compute; reflexivity|reflexivity|reflexivity|vm_compute; discriminate
    |vm_compute; reflexivity|]. exists r, s'. split; assumption.
Defined.

Lemma do_mkdir_correct_witness :
  exists r s', do_mkdir ramfs_ops ramfs_vops path_d with_a = Done r s' /\ ok s'.
Proof.
  destruct (do_mkdir_correct (mem := enough_memory) (drv := no_drivers) ramfs_ops ramfs_vops eq_refl
    path_d 0 with_a with_a_ok path_d_ok) as (r & s' & Hrun & Hs & _);
    [discriminate|vm_compute; reflexivity|vm_compute; discriminate|]. exists r, s'. split; assumption.
Defined.

Lemma do_unlink_correct_witness :
  exists r s', do_unlink ramfs_ops ramfs_vops path_a with_a = Done r s'
    /\ resolve (the_tree ramfs_ops s') 0 path_a = inl (- ENOENT).
Proof.
  destruct (do_unlink_correct (mem := enough_memory) (drv := no_drivers) ramfs_ops ramfs_vops eq_refl
    path_a 0 with_a with_a_ok path_a_ok) as (r & s' & Hrun & Hs & H);
    [discriminate|vm_compute; reflexivity|]. exists r, s'. split; [exact Hrun|].
  assert (dir_target (the_tree ramfs_ops with_a) 0 path_a = inr (0, Found 1)) as E by (vm_compute; reflexivity).
  rewrite E, with_a_tree in H. apply H.
Defined.

Lemma do_chdir_correct_witness :
  exists r s', do_chdir ramfs_ops ramfs_vops (str "/") with_a = Done r s' /\ ok s'.
Proof.
  destruct (do_chdir_correct (mem := enough_memory) (drv := no_drivers) ramfs_ops ramfs_vops eq_refl
    (str "/") 0 with_a with_a_ok) as (r & s' & Hrun & Hs & _);
    [repeat constructor|discriminate|vm_compute; reflexivity|]. exists r, s'. split; assumption.
Defined.

Lemma with_a_read n : 0 <= n < 2 ^ 62 -> read_ok ramfs_ops 0 n with_a.
Proof.
  intros Hn g x i Hfd. destruct with_a_fd as (g' & x' & Hfd' & Hp & _). rewrite Hfd in Hfd'.
  injection Hfd' as -> -> ->. rewrite with_a_tree, Hp. split; [lia|done].
Qed.

Lemma with_a_write : write_ok ramfs_ops ramfs_vops 0 with_a.
Proof.
  intros g x i Hfd _. destruct with_a_fd as (g' & x' & Hfd' & Hp & Hm). rewrite Hfd in Hfd'.
  injection Hfd' as -> -> ->. exists []. split; [apply with_a_tree|].
  unfold write_pos. rewrite Hp, Hm. by vm_compute.
Qed.

Lemma do_read_correct_witness :
  exists s', do_read ramfs_ops ramfs_vops 0 10 with_a = Done (0, []) s' /\ ok s'.
Proof.
  destruct (do_read_correct (mem := enough_memory) (drv := no_drivers) ramfs_ops ramfs_vops
    0 10 with_a with_a_ok) as (r & s' & Hrun & Hs & H); [lia|apply with_a_read; lia|].
  exists s'. split; [|exact Hs]. rewrite Hrun. f_equal.
  destruct with_a_fd as (g & x & Hfd & Hp & Hm). rewrite Hfd, Hm, with_a_tree in H.
  destruct H as [-> _]. rewrite Hp. reflexivity.
Defined.

Lemma do_write_correct_witness :
  exists s', do_write ramfs_ops ramfs_vops 0 (str "hello") with_a = Done 5 s'
    /\ the_tree ramfs_ops s' !! 1 = Some (FileView (str "hello")).
Proof.
  destruct (do_write_correct (mem := enough_memory) (drv := no_drivers) ramfs_ops ramfs_vops
    0 (str "hello") with_a with_a_ok) as (r & s' & Hrun & Hs & H); [cbn; lia|exact with_a_write|].
  exists s'. destruct with_a_fd as (g & x & Hfd & Hp & Hm). rewrite Hfd, Hm in H.
  destruct H as (b & Hb & H). rewrite with_a_tree in Hb. injection Hb as <-.
  unfold write_pos in H. rewrite Hp, Hm in H. destruct H as (-> & s1 & _ & _ & Ht). split; [exact Hrun|].
  rewrite Ht, lookup_insert_eq. reflexivity.
Defined.

Lemma write_seek_read_witness :
  exists s1 s2 s3, do_write ramfs_ops ramfs_vops 0 (str "hello") with_a = Done 5 s1
    /\ do_lseek ramfs_ops ramfs_vops 0 0 SEEK_SET s1 = Done 0 s2
    /\ do_read ramfs_ops ramfs_vops 0 5 s2 = Done (5, str "hello") s3 /\ ok s3.
Proof.
  destruct with_a_fd as (g & x & Hfd & Hp & Hm).
  destruct (write_seek_read (mem := enough_memory) (drv := no_drivers) ramfs_ops ramfs_vops
    0 (str "hello") g x 1 [] with_a with_a_ok) as (s1 & s2 & s3 & H);
    [cbn; lia|exact Hfd|exact with_a_tree|rewrite Hm; reflexivity|rewrite Hm; reflexivity
    |rewrite Hm; reflexivity|rewrite Hp; vm_compute; discriminate|rewrite Hp; lia|].
  rewrite Hp in H. exists s1, s2, s3. exact H.
Defined.

Lemma do_lseek_correct_witness :
  exists r s', do_lseek ramfs_ops ramfs_vops 0 7 SEEK_SET with_a = Done r s' /\ ok s'.
Proof.
  destruct (do_lseek_correct (mem := enough_memory) (drv := no_drivers) ramfs_ops ramfs_vops
    0 7 SEEK_SET with_a with_a_ok) as (r & s' & Hrun & Hs & _); [lia|]. exists r, s'. split; assumption.
Defined.

Lemma bad_descriptor_witness :
  do_read ramfs_ops ramfs_vops 5 10 with_a = Done (- EBADF, []) with_a.
Proof.
  apply (bad_descriptor ramfs_ops ramfs_vops 5 10 0 [] 0 0 with_a).
  vm_compute. reflexivity.
Defined.

Lemma dup_correct_witness :
  exists r s', do_dup ramfs_ops ramfs_vops 0 with_a = Done r s' /\ ok s'.
Proof.
  destruct (dup_correct (mem := enough_memory) (drv := no_drivers) ramfs_ops ramfs_vops 0 9 with_a with_a_ok)
    as [(r & s' & Hrun & Hs & _) _]. exists r, s'. split; assumption.
Defined.

Lemma vget_correct_witness :
  exists p s', vget ramfs_ops 1 with_a = Done p s' /\ vno_of s' p = Some 1.
Proof.
  destruct (vget_correct (mem := enough_memory) (drv := no_drivers) ramfs_ops eq_refl
    _ _ _ 1 with_a (proj1 with_a_ok)) as (p & s' & Hrun & _ & _ & Hp & _);
    [rewrite with_a_tree; eexists; reflexivity|]. exists p, s'. split; assumption.
Defined.

Lemma vput_correct_witness : exists s', vput ramfs_ops (fs_root with_a) with_a = Done tt s'.
Proof.
  destruct (vput_correct (mem := enough_memory) (drv := no_drivers) ramfs_ops [p_cwd with_a] []
    (fs_root with_a) with_a (proj1 with_a_ok)) as (s' & Hrun & _). exists s'. exact Hrun.
Defined.
