(* ===== verification/ShKernel.v ===== *)
(** The shell on the kernel: what [cat src > dst] does to the files, for every
    kernel with the [FileLaws], and the VFS of the kernel as such a one, with any
    file system that keeps the contract of its operations. *)

From S2P Require Import Prelude CString Printf Strtol Sh ShFiles ShParse.
From S2P Require Import Mobj Vnode File Namev VfsSyscall Ramfs.
From S2P Require Import VfsSpec VnodeProofs FileProofs FdProofs NamevProofs VfsNameProofs VfsDirProofs.
From S2P Require Import RamfsProofs RamfsFileProofs RamfsDirProofs VfsRwProofs VfsSystem VfsTheorems VfsExamples.

(** * A command on files *)

(** [cat src > dst]; the blanks are arbitrary. *)
Definition cat_line (sp1 sp2 sp3 : list Z) (src dst : list Z) : list (list Z * piece) :=
  [([], PWord (str "cat")); (sp1, PWord src); (sp2, PFile [] true false sp3 dst)].

Section cat.
Context {K : Type} {posix : Posix K} {view : FileModel K} {laws : FileLaws K}.

(** C26: The line [cat src > dst], when both files can be opened, gives the file
    that [dst] leads to, which is not that of [src], the contents of the file that
    [src] leads to, however many reads and writes this takes, as long as there is
    room for it; no name is lost, every other file is unchanged, whatever other
    leads it has, and every descriptor is as it was before. *)
Theorem cat_copies fuel (s : shell K) sp1 sp2 sp3 src dst i data ofd k1 ifd k2 :
  line_ok s (cat_line sp1 sp2 sp3 src dst) -> kernel_ok (kern s) ->
  leads (kern s) src = Some i -> contents (kern s) i = Some data ->
  nameable K dst -> leads (kern s) dst <> Some i ->
  (forall j, leads (kern s) dst = Some j -> is_Some (contents (kern s) j)) ->
  (forall n, 0 <= n <= 2 -> is_Some (fds (kern s) n)) ->
  sys_open dst (Z.lor (Z.lor U_WRONLY U_CREAT) U_TRUNC) (kern s) = Done ofd k1 -> 0 <= ofd ->
  sys_open src U_RDONLY k1 = Done ifd k2 -> 0 <= ifd ->
  (length data < fuel)%nat -> (length data <= max_file K)%nat -> (length data <= room k2)%nat ->
  exists s' j,
    run_line (S fuel) (ntyped (cat_line sp1 sp2 sp3 src dst)) (typed (cat_line sp1 sp2 sp3 src dst)) s = Done (Status 0) s'
    /\ kernel_ok (kern s') /\ j <> i /\ leads (kern s') dst = Some j /\ contents (kern s') j = Some data
    /\ keeps_files (Some j) (kern s) (kern s') /\ same_fds (kern s) (kern s').
Proof.
  intros Hok Hgood Hsrc Hdata Hdst Hne Hreg Hstd E1 Ho0 E2 Hi0 Hf Hmax Hroom.
  assert (Hrun := line_run (S fuel) s _ Hok). set (k := kern s) in *.
  destruct (open_write k dst ofd k1) as (j & Hg1 & Hk1 & (Hfree & go & Hnew & Hgo & Hfd1 & Ho1) & Hn1 & Hc1 & Hj); try done.
  assert (j <> i) as Hji by (intros ->; destruct Hj as [Hj|Hj]; [done|by apply (Hj src)]).
  destruct (Hk1 src i Hsrc) as [Hs1 Ed1]. rewrite Hdata in Ed1.
  destruct (cat_run fuel k1 k2 ofd go ifd src dst i j data) as (k3 & E3 & Hg3 & Hn3 & Hc3 & Hk3 & Hfd3 & Ho3); try done.
  { apply Ed1. congruence. }
  { by rewrite Hfd1, decide_True. }
  { intros n Hn. rewrite Hfd1. case_decide; [done|by apply Hstd]. }
  assert (Em : meaning (S fuel) (cat_line sp1 sp2 sp3 src dst) k = Done (Status 0) k3).
  { unfold meaning, cat_line. cbn [redirections snd redirection].
    assert (Er : redirections [(sp2, PFile [] true false sp3 dst)] [] k = Done (Some [Redirect ofd 1]) k1).
    { cbn [redirections snd redirection mode_of fd_of]. unfold bind. rewrite E1. by destruct (Z.ltb_spec ofd 0); [lia|]. }
    unfold bind at 1 2 3, ret at 1 2. cbn [redirections snd redirection] in Er. rewrite Er. exact E3. }
  rewrite Em in Hrun. destruct Hrun as [L Hrun]. eexists _, j. split; [exact Hrun|]. cbn [kern].
  split_and!; try done; [by eapply keeps_files_trans|]. split.
  - intros fd. rewrite Hfd3, Hfd1. case_decide; [by subst|done].
  - intros fd g Hfd. assert (fd <> ofd) as Hfo by (intros ->; congruence).
    assert (g <> go) as Hgg by (intros ->; by apply (Hnew fd)).
    rewrite (Ho3 fd), Ho1; try done. by rewrite Hfd1, decide_False.
Qed.
End cat.

(** * Names after a change of the tree *)

(** The bytes of a regular file of a tree. *)
Definition file_bytes (t : tree) (i : Z) : option (list Z) :=
  match t !! i with Some (FileView b) => Some b | _ => None end.

(** Every inode is still there, and directories still have their names. *)
Definition grown (t t' : tree) : Prop :=
  forall k w, t !! k = Some w ->
    match w with
    | DirView es => exists es', t' !! k = Some (DirView es') /\ forall n j, assoc n es = Some j -> assoc n es' = Some j
    | FileView _ => exists b, t' !! k = Some (FileView b)
    | DevView _ _ => t' !! k = Some w
    end.

Lemma tree_grown_refl t : grown t t.
Proof. intros k [es|b|blk d] H; eauto. Qed.

Lemma grown_file t i b b' : t !! i = Some (FileView b) -> grown t (<[i := FileView b']> t).
Proof.
  intros Hi k w Hk. destruct (decide (k = i)) as [->|Hne].
  - rewrite Hi in Hk. simplify_eq. rewrite lookup_insert_eq. eauto.
  - rewrite lookup_insert_ne by done. by apply tree_grown_refl.
Qed.

Lemma grown_added t d es es' key j w :
  t !! d = Some (DirView es) -> t !! j = None -> assoc key es = None -> dir_add key j es es' ->
  grown t (<[j := w]> (<[d := DirView es']> t)).
Proof.
  intros Hd Hj Hkey Hadd k v Hk. rewrite lookup_insert_ne by congruence. destruct (decide (k = d)) as [->|Hne].
  - rewrite Hd in Hk. simplify_eq. rewrite lookup_insert_eq. exists es'. split; [done|]. intros n i Hn.
    rewrite Hadd, decide_False; [done|]. congruence.
  - rewrite lookup_insert_ne by done. by apply tree_grown_refl.
Qed.

Lemma walk_grown t t' i cs j : grown t t' -> walk t i cs = inr j -> walk t' i cs = inr j.
Proof.
  intros Hg. revert i. induction cs as [|c cs IH]; intros i H; cbn [walk] in *; [done|].
  destruct (t !! i) as [[es| |]|] eqn:Hi; try done. destruct (Hg i _ Hi) as (es' & -> & He).
  destruct (assoc c es) as [k|] eqn:Hc; [|done]. rewrite (He _ _ Hc). by apply IH.
Qed.

(** The inode that a path resolves to is in the tree. *)
Lemma resolve_in_tree t i path j : tree_closed t -> resolve t i path = inr j -> is_Some (t !! j).
Proof.
  intros Hcl H. unfold resolve in H. destruct (walk t i _) as [e|d]; [done|].
  destruct (t !! d) as [[es| |]|] eqn:Hd; try done. cbn zeta in H. destruct (_ <? _); [done|]. cbn [walk] in H.
  rewrite Hd in H. destruct (assoc _ es) as [k|] eqn:Hk; [|done].
  assert (is_Some (t !! k)) as Ht by (eapply Hcl; [exact Hd|by apply assoc_elem]).
  repeat case_match; simplify_eq; done.
Qed.

Lemma resolve_grown t t' i path j : tree_closed t -> grown t t' -> resolve t i path = inr j -> resolve t' i path = inr j.
Proof.
  intros Hcl Hg H. destruct (resolve_in_tree _ _ _ _ Hcl H) as [w Hw]. unfold resolve in *.
  destruct (walk t i _) as [e|d] eqn:Ed; [done|]. rewrite (walk_grown t t' i _ d Hg Ed).
  destruct (t !! d) as [[es| |]|] eqn:Hd; try done. destruct (Hg _ _ Hd) as (es' & Hd' & _). rewrite Hd'.
  cbn zeta in *. destruct (_ <? _); [done|]. destruct (walk t d [_]) as [e|k] eqn:Ek; [done|].
  rewrite (walk_grown t t' d _ k Hg Ek). assert (k = j) as -> by (repeat case_match; congruence).
  rewrite Hw in H. pose proof (Hg _ _ Hw) as Hj. destruct w as [es2|b|blk dv].
  - by destruct Hj as (? & -> & _).
  - by destruct Hj as (? & ->).
  - by rewrite Hj.
Qed.

Lemma resolve_sub t t' i path j :
  t' ⊆ t -> tree_closed t' -> is_Some (t' !! i) -> resolve t i path = inr j -> resolve t' i path = inr j.
Proof.
  intros Hsub Hcl Hi H. unfold resolve in *. rewrite (walk_sub t t' i) by done.
  destruct (walk t i _) as [e|d] eqn:Ed; [done|].
  assert (is_Some (t' !! d)) as Hd.
  { eapply (walk_in_tree t' i); [done|done|]. rewrite (walk_sub t t' i) by done. exact Ed. }
  destruct Hd as [wd Hd]. rewrite Hd, (lookup_weaken _ _ _ _ Hd Hsub) in *. destruct wd as [es| |]; try done.
  cbn zeta in *. destruct (_ <? _); [done|]. rewrite (walk_sub t t' d) by (done || by eexists).
  destruct (walk t d [_]) as [e|k] eqn:Ek; [done|].
  assert (is_Some (t' !! k)) as [wk Hk].
  { eapply (walk_in_tree t' d); [done|by eexists|]. rewrite (walk_sub t t' d) by (done || by eexists). exact Ek. }
  rewrite Hk. rewrite (lookup_weaken _ _ _ _ Hk Hsub) in H. done.
Qed.

(** * The kernel of the repository *)

(** The kernel as a program sees it, with the variable [errno] of the C library. *)
Record ukst (F V : Type) : Type := UKst { u_kst : kst F V; u_errno : Z }.
Arguments UKst {F V}.
Arguments u_kst {F V}.
Arguments u_errno {F V}.

Section kernel.
Context {F V : Type} {mem : Memory} {drv : Drivers} (fs : fs_ops F V) {FD : FsData fs}.
Context (vops_of : vops -> vnode_ops (kst F V)) {FV : FsVops fs vops_of}.
Context {FF : FsFiles fs vops_of} {FN : FsDirs fs vops_of}.
Abbreviation K := (kst F V).
Abbreviation U := (ukst F V).
Abbreviation sys_ok := (sys_ok fs).
Abbreviation the_tree := (the_tree fs).
Implicit Types (s : K) (u : U).

Definition in_kernel {A} (m : M K A) : M U A := fun u =>
  match m (u_kst u) with Done a s => Done a (UKst s (u_errno u)) | Failed f => Failed f end.

(** A negative result of a call is the number of the error. *)
Definition trap (m : M K Z) : M U Z :=
  let! r := in_kernel m in
  if r <? 0 then do! modify (fun u => UKst (u_kst u) (- r)); ret (-1) else ret r.

Definition trap_read (m : M K (Z * list Z)) : M U (Z * list Z) :=
  let! r := in_kernel m in
  if r.1 <? 0 then do! modify (fun u => UKst (u_kst u) (- r.1)); ret (-1, []) else ret r.

Definition no_call : M U Z := trap (ret (- EINVAL)).

(** A call on files is the function of fs/vfs_syscall.c; the entry of the system
    calls (api/syscall.c) leaves reading and writing out.  Processes, memory and the
    clock are not part of this instance. *)
Definition kernel_posix : Posix U := {|
  errno := u_errno;
  strerror e := str "error";
  sys_open path mode := trap (do_open fs vops_of path mode);
  sys_close fd := trap (do_close fs vops_of fd);
  sys_read fd n := trap_read (do_read fs vops_of fd n);
  sys_write fd l := trap (do_write fs vops_of fd l);
  sys_lseek fd offset whence := trap (do_lseek fs vops_of fd offset whence);
  sys_dup fd := trap (do_dup fs vops_of fd);
  sys_dup2 ofd nfd := trap (do_dup2 fs vops_of ofd nfd);
  sys_link oldpath newpath := trap (do_link fs vops_of oldpath newpath);
  sys_rename oldpath newpath := trap (do_rename fs vops_of oldpath newpath);
  sys_unlink path := trap (do_unlink fs vops_of path);
  sys_mkdir path := trap (do_mkdir fs vops_of path);
  sys_rmdir path := trap (do_rmdir fs vops_of path);
  sys_chdir path := trap (do_chdir fs vops_of path);
  sys_sync := ret tt;
  sys_time := ret 0;
  sys_mmap _ _ _ _ := no_call;
  sys_munmap _ _ := no_call;
  sys_sbrk _ := no_call;
  malloc _ := ret 0;
  free _ := ret tt;
  load _ _ := fail Fault;
  store _ _ _ := fail Fault;
  fputs fd l := do! trap (do_write fs vops_of fd l); ret tt;
  sys_fork _ := no_call;
  sys_execve _ _ := let! _ := no_call in ret false;
  sys_wait := let! r := no_call in ret (r, 0);
  envp _ := [];
|}.
#[local] Existing Instance kernel_posix.

(** The inode a path leads to. *)
Definition inode_of s (path : list Z) : option Z :=
  if bool_decide (nonul path) && bool_decide (path <> []) then
    i ← vno_of s (start_dir (p_cwd s) path s);
    match resolve (the_tree s) i path with inr j => Some j | inl _ => None end
  else None.

(** The open file behind a file object. *)
Definition ofile_of s (g : Z) : option ofile :=
  x ← k_files s !! g; i ← vno_of s (f_vnode x);
  Some (OFile i (Z.to_nat (f_pos x)) (has (f_mode x) FMODE_READ) (has (f_mode x) FMODE_WRITE) (has (f_mode x) FMODE_APPEND)).

(** The largest size of a file: no transfer of the shell passes a position of 63 bits. *)
Definition size_limit : nat := Z.to_nat (Z.min fs_max_size (2 ^ 62 - 1)).

Definition kernel_model : FileModel U := {|
  kernel_ok u := sys_ok (u_kst u);
  leads u := inode_of (u_kst u);
  contents u := file_bytes (the_tree (u_kst u));
  fds u fd := open_file fd (u_kst u);
  files u := ofile_of (u_kst u);
  room _ := size_limit;
  max_file := size_limit;
  nameable path := creatable path /\ path <> [];
|}.
#[local] Existing Instance kernel_model.

Lemma trap_done (m : M K Z) u r u' : trap m u = Done r u' -> 0 <= r -> m (u_kst u) = Done r (u_kst u').
Proof.
  unfold trap, in_kernel, bind. intros H Hr. destruct (m (u_kst u)) as [a s|f]; [|done]. destruct (Z.ltb_spec a 0).
  - unfold modify, ret in H. injection H as <- _. lia.
  - unfold ret in H. by injection H as -> <-.
Qed.

Lemma trap_run (m : M K Z) u r s : m (u_kst u) = Done r s -> 0 <= r -> trap m u = Done r (UKst s (u_errno u)).
Proof. unfold trap, in_kernel, bind. intros -> Hr. by rewrite (proj2 (Z.ltb_ge r 0)). Qed.

(** What a wp says of a run. *)
Lemma wp_value {A} (m : M K A) (Q : A -> K -> Prop) s a s' : wp m Q s -> m s = Done a s' -> Q a s'.
Proof. unfold wp. intros H E. by rewrite E in H. Qed.

(** ** The vnodes after a call *)

(** The vnodes of the state before still stand for the same inodes. *)
Definition same_vnodes s s' : Prop := stable s (set_p_files (p_files s) (set_k_files (k_files s) s')).

Lemma same_vnodes_stable s s' : stable s s' -> same_vnodes s s'.
Proof. intros []. by split. Qed.

Lemma same_vnodes_sys s s' : keeps_sys fs s s' -> same_vnodes s s'.
Proof.
  intros []. split; try done. intros p v' Hp Hv'. destruct (ks_vnode p v' Hp Hv') as (v & Hv & E).
  exists v. split; [done|]. by rewrite (same_inode_vno _ _ E).
Qed.

Lemma same_vnodes_pos s s1 g x : stable s s1 -> same_vnodes s (upd_file g x s1).
Proof. intros []. by split. Qed.

Lemma same_vno s s' p i :
  sys_ok s -> sys_ok s' -> same_vnodes s s' -> vno_of s p = Some i -> 0 < refs [fs_root s'; p_cwd s'] s' p ->
  vno_of s' p = Some i.
Proof.
  intros [Hok _] [Hok' _] Hsv Hi Hr. destruct (ok_refs _ _ _ _ _ Hok' p Hr) as [v' Hv'].
  unfold vno_of in *. apply fmap_Some in Hi as (v & Hv & ->).
  destruct (st_vno _ _ Hsv p v') as (v0 & Hv0 & E); [|exact Hv'|].
  { apply (ok_next_vnode _ _ _ _ _ Hok). eauto. }
  rewrite Hv'. cbn. rewrite E. f_equal. congruence.
Qed.

Lemma same_start s s' path i :
  sys_ok s -> sys_ok s' -> same_vnodes s s' -> vno_of s (start_dir (p_cwd s) path s) = Some i ->
  vno_of s' (start_dir (p_cwd s') path s') = Some i.
Proof.
  intros Hs Hs' Hsv Hi. pose proof (st_root _ _ Hsv) as Er. pose proof (st_cwd _ _ Hsv) as Ec. cbn in Er, Ec.
  assert (start_dir (p_cwd s') path s' = start_dir (p_cwd s) path s) as -> by (unfold start_dir; by rewrite Er, Ec).
  apply (same_vno s s'); try done. apply refs_elem. rewrite Er, Ec. apply start_elem.
Qed.

(** An open file that a call leaves alone. *)
Lemma same_ofile s s' g x x' :
  sys_ok s -> sys_ok s' -> same_vnodes s s' -> k_files s !! g = Some x -> k_files s' !! g = Some x' ->
  same_file x x' -> ofile_of s' g = ofile_of s g.
Proof.
  intros Hs Hs' Hsv Hx Hx' E. unfold ofile_of. rewrite Hx, Hx', E. cbn.
  destruct Hs as [Hok Hlive]. destruct (ok_refs _ _ _ _ _ Hok (f_vnode x)) as [v Hv].
  { eapply file_refs_pos; [done|by apply (Hlive g)]. }
  assert (vno_of s (f_vnode x) = Some (vn_vno v)) as Hi by (unfold vno_of; by rewrite Hv).
  rewrite Hi, (same_vno s s' (f_vnode x) (vn_vno v)); try done. destruct Hs' as [_ Hlive'].
  assert (f_vnode x = f_vnode x') as -> by (by rewrite E).
  eapply file_refs_pos; [done|by apply (Hlive' g)].
Qed.

Lemma same_ofile_eq s s' g :
  sys_ok s -> sys_ok s' -> same_vnodes s s' -> k_files s' !! g = k_files s !! g -> ofile_of s' g = ofile_of s g.
Proof.
  intros Hs Hs' Hsv E. destruct (k_files s !! g) as [x|] eqn:Hx.
  - eapply same_ofile; try done. apply same_file_refl.
  - unfold ofile_of. by rewrite E, Hx.
Qed.

(** ** The names after a call *)

(** The tree changes from one that has everything with a name. *)
Definition evolves (x : option Z) (t1 t2 : tree) s s' : Prop :=
  t1 ⊆ the_tree s /\ tree_closed t1
  /\ (forall p i, p ∈ [fs_root s; p_cwd s] -> vno_of s p = Some i -> is_Some (t1 !! i))
  /\ grown t1 t2 /\ the_tree s' ⊆ t2
  /\ (forall j, Some j <> x -> is_Some (t1 !! j) -> file_bytes t2 j = file_bytes t1 j).

Lemma inode_of_Some s path j :
  inode_of s path = Some j <-> nonul path /\ path <> [] /\ exists i, vno_of s (start_dir (p_cwd s) path s) = Some i
    /\ resolve (the_tree s) i path = inr j.
Proof.
  unfold inode_of. split.
  - intros H. do 2 (case_bool_decide; [|done]). cbn [andb] in H. apply bind_Some in H as (i & Hi & Hj).
    split_and!; try done. exists i. split; [done|]. by case_match; simplify_eq.
  - intros (Hp & Hne & i & Hi & Hj). do 2 (rewrite bool_decide_eq_true_2 by done). cbn. by rewrite Hi; cbn; rewrite Hj.
Qed.

(** The names lead to the same inodes. *)
Lemma leads_kept x t1 t2 s s' path j :
  sys_ok s -> sys_ok s' -> same_vnodes s s' -> evolves x t1 t2 s s' -> inode_of s path = Some j ->
  inode_of s' path = Some j /\ t1 !! j = the_tree s !! j /\ is_Some (t1 !! j) /\ the_tree s' !! j = t2 !! j.
Proof.
  intros Hs Hs' Hsv (Hsub & Hcl & Hstart & Hgrown & Hsub' & _) (Hp & Hne & i & Hi & Hj)%inode_of_Some.
  pose proof (same_start s s' path i Hs Hs' Hsv Hi) as Hi'.
  assert (resolve t1 i path = inr j) as Hj1 by (apply (resolve_sub (the_tree s)); try done; eapply Hstart; [apply start_elem|done]).
  destruct (resolve_in_tree _ _ _ _ Hcl Hj1) as [w Hw].
  assert (tree_closed (the_tree s')) as Hcl' by (destruct Hs' as [Hok' _]; apply (fs_closed _ _ (ok_fs _ _ _ _ _ Hok'))).
  assert (resolve (the_tree s') i path = inr j) as Hj'.
  { apply (resolve_sub t2); try done; [|by apply (resolve_grown t1)]. destruct Hs' as [Hok' _]. by eapply (vnode_in_tree fs). }
  destruct (resolve_in_tree _ _ _ _ Hcl' Hj') as [w' Hw']. split_and!; [apply inode_of_Some; eauto 10|..].
  - by rewrite Hw, (lookup_weaken _ _ _ _ Hw Hsub).
  - done.
  - by rewrite Hw', (lookup_weaken _ _ _ _ Hw' Hsub').
Qed.

Lemma evolves_keeps x t1 t2 u u' :
  sys_ok (u_kst u) -> sys_ok (u_kst u') -> same_vnodes (u_kst u) (u_kst u') -> evolves x t1 t2 (u_kst u) (u_kst u') ->
  keeps_files x u u'.
Proof.
  intros Hs Hs' Hsv He q i Hq. cbn [leads contents kernel_model] in *.
  destruct (leads_kept _ _ _ _ _ _ _ Hs Hs' Hsv He Hq) as (Hq' & E1 & Ht1 & E2). split; [done|].
  intros Hx. destruct He as (_ & _ & _ & _ & _ & Hb). specialize (Hb i Hx Ht1).
  unfold file_bytes in *. by rewrite E2, Hb, E1.
Qed.

(** A tree that changes only in files. *)
Lemma evolves_same x t2 s s' :
  sys_ok s -> grown (the_tree s) t2 -> the_tree s' ⊆ t2 ->
  (forall j, Some j <> x -> file_bytes t2 j = file_bytes (the_tree s) j) -> evolves x (the_tree s) t2 s s'.
Proof.
  intros [Hok _] Hg Hsub Hb. split_and!; try done.
  - apply (fs_closed _ _ (ok_fs _ _ _ _ _ Hok)).
  - intros p i _ Hp. by eapply (vnode_in_tree fs).
  - intros j Hj _. by apply Hb.
Qed.

Lemma evolves_sub s s' : sys_ok s -> the_tree s' ⊆ the_tree s -> evolves None (the_tree s) (the_tree s) s s'.
Proof. intros Hs Hsub. apply evolves_same; [done|apply tree_grown_refl|done|done]. Qed.

Lemma evolves_file i b b' s s' :
  sys_ok s -> the_tree s !! i = Some (FileView b) -> the_tree s' ⊆ <[i := FileView b']> (the_tree s) ->
  evolves (Some i) (the_tree s) (<[i := FileView b']> (the_tree s)) s s'.
Proof.
  intros Hs Hi Hsub. apply evolves_same; [done|by eapply grown_file|done|].
  intros j Hj. unfold file_bytes. rewrite lookup_insert_ne; [done|congruence].
Qed.

Lemma evolves_added i cs d key j s s' :
  sys_ok s -> fresh_inode [fs_root s; p_cwd s] j s -> added i cs d key j (FileView []) (the_tree s) (the_tree s') ->
  sys_ok s' -> same_vnodes s s' ->
  exists t1 t2, evolves (Some j) t1 t2 s s' /\ t1 !! j = None.
Proof.
  intros Hs Hnew (t1 & es & es' & Hsub & Hcl & Hw & Hd & Hj & Hkey & Hadd & Hsub') Hs' Hsv.
  exists t1, (<[j := FileView []]> (<[d := DirView es']> t1)). split; [|done]. split_and!; try done.
  - intros p k Hp Hk. assert (is_Some (the_tree s' !! k)) as [w Hkw].
    { destruct Hs' as [Hok' Hl']. eapply (vnode_in_tree fs); [exact Hok'|]. eapply (same_vno s s'); try done.
      apply refs_elem. pose proof (st_root _ _ Hsv) as Er. pose proof (st_cwd _ _ Hsv) as Ec. cbn in Er, Ec. by rewrite Er, Ec. }
    pose proof (lookup_weaken _ _ _ _ Hkw Hsub') as E. rewrite lookup_insert_ne in E by (symmetry; by eapply Hnew).
    destruct (decide (k = d)) as [->|Hkd]; [by eexists|]. rewrite lookup_insert_ne in E by done. by eexists.
  - by eapply grown_added.
  - intros k Hk _. unfold file_bytes. rewrite lookup_insert_ne by congruence. destruct (decide (k = d)) as [->|].
    + by rewrite lookup_insert_eq, Hd.
    + by rewrite lookup_insert_ne.
Qed.

(** ** The laws *)

Hypothesis mem_ok : oom = false.

(** A descriptor that [do_open] returns. *)
Lemma opened_opens n j mode s s' e e' :
  sys_ok s -> sys_ok s' -> least_free (p_files s) n -> opened n j mode s s' -> 0 <= mode ->
  opens (Z.of_nat n) (OFile j 0 (has mode FMODE_READ) (has mode FMODE_WRITE) (has mode FMODE_APPEND)) (UKst s e) (UKst s' e').
Proof.
  intros Hs Hs' [Hn _] (g & p & Hg & Hfds & Hfiles & Hp & Hst) Hmode. cbn [fds files kernel_model u_kst].
  assert (same_vnodes s s') as Hsv by exact Hst. pose proof Hs as [Hok _].
  pose proof (lookup_lt_Some _ _ _ Hn) as Hlt. rewrite (ok_nfiles _ _ _ _ _ Hok) in Hlt.
  assert (((Z.of_nat n <? 0) || (Z.of_nat n >=? NFILES)) = false) as Hr by lia.
  unfold opens. cbn [fds files kernel_model u_kst].
  split; [unfold open_file, p_file; by rewrite Hr, Nat2Z.id, Hn|]. exists g. split_and!.
  - intros fd Ho. destruct (open_file_Some fs _ _ _ _ _ _ Hok Ho) as (_ & _ & _ & x & Hx). congruence.
  - unfold ofile_of. rewrite Hfiles, lookup_insert_eq. cbn. by rewrite Hp.
  - intros fd. unfold open_file, p_file. case_decide as Hfd.
    + subst fd. rewrite Hr, Nat2Z.id, Hfds, list_lookup_insert_eq; [done|]. rewrite (ok_nfiles _ _ _ _ _ Hok). lia.
    + destruct ((fd <? 0) || (fd >=? NFILES)) eqn:E; [done|]. rewrite Hfds, list_lookup_insert_ne; [done|lia].
  - intros g' Hg'. apply same_ofile_eq; try done. by rewrite Hfiles, lookup_insert_ne.
Qed.

Lemma opened_same n j mode s s' : opened n j mode s s' -> same_vnodes s s'.
Proof. by intros (g & p & _ & _ & _ & _ & Hst). Qed.

(** A name that [open_target] finds is one that a path leads to. *)
Lemma found_resolves t i path j : open_target t i path = inr (Found j) -> resolve t i path = inr j.
Proof.
  unfold open_target, resolve. destruct (walk t i _) as [|d]; [done|]. destruct (t !! d) as [[es| |]|] eqn:Hd; try done.
  cbn zeta. destruct (trailing path); [done|]. destruct (_ <? _); [done|]. cbn [walk]. rewrite Hd.
  destruct (assoc _ es) as [k|]; [|done]. intros [= ->]. by repeat case_match.
Qed.

(** The file object behind a descriptor. *)
Lemma ofile_fd s fd g y :
  sys_ok s -> open_file fd s = Some g -> ofile_of s g = Some y ->
  exists x, k_files s !! g = Some x /\ fd_inode fd s = Some (g, x, o_ino y) /\ o_pos y = Z.to_nat (f_pos x)
    /\ has (f_mode x) FMODE_READ = o_read y /\ has (f_mode x) FMODE_WRITE = o_write y /\ has (f_mode x) FMODE_APPEND = o_append y.
Proof.
  intros Hs Hfd (x & Hx & (i & Hi & [= <-])%bind_Some)%bind_Some. exists x. split; [done|]. split; [|done].
  unfold fd_inode. by rewrite Hfd, Hx, Hi.
Qed.

(** The position of an open file advances. *)
Lemma moves_pos s s1 g x y d e :
  sys_ok s -> stable s s1 -> sys_ok (upd_file g (set_f_pos (f_pos x + Z.of_nat d) x) s1) -> k_files s !! g = Some x ->
  ofile_of s g = Some y ->
  moves g (OFile (o_ino y) (o_pos y + d) (o_read y) (o_write y) (o_append y)) (UKst s e)
    (UKst (upd_file g (set_f_pos (f_pos x + Z.of_nat d) x) s1) e).
Proof.
  intros Hs Hst Hs' Hx Hy. unfold moves. cbn [fds files kernel_model u_kst]. split_and!.
  - unfold ofile_of in Hy |- *. rewrite Hx in Hy. cbn in Hy. apply bind_Some in Hy as (i & Hi & [= <-]).
    change (k_files (upd_file g (set_f_pos (f_pos x + Z.of_nat d) x) s1)) with (<[g := set_f_pos (f_pos x + Z.of_nat d) x]> (k_files s1)).
    rewrite lookup_insert_eq. cbn [mbind option_bind set_f_pos f_vnode f_pos f_mode].
    assert (vno_of (upd_file g (set_f_pos (f_pos x + Z.of_nat d) x) s1) (f_vnode x) = Some i) as ->
      by (by apply (vno_after fs s s1 g x (f_pos x + Z.of_nat d))).
    cbn. destruct Hs as [Hok _]. destruct (ok_file _ _ _ _ _ Hok g x Hx) as (_ & _ & ?). do 2 f_equal. lia.
  - intros fd. unfold open_file, p_file. by rewrite <- (st_fds _ _ Hst).
  - intros g' Hg'. apply same_ofile_eq; [done|done|by apply same_vnodes_pos|].
    change (<[g := set_f_pos (f_pos x + Z.of_nat d) x]> (k_files s1) !! g' = k_files s !! g').
    rewrite lookup_insert_ne by done. by rewrite (st_files _ _ Hst).
Qed.

Lemma kernel_open_read u path i data fd u' :
  kernel_ok u -> leads u path = Some i -> contents u i = Some data -> sys_open path U_RDONLY u = Done fd u' -> 0 <= fd ->
  kernel_ok u' /\ keeps_files None u u' /\ opens fd (OFile i 0 true false false) u u'.
Proof.
  intros Hs Hi Hd Hrun Hfd. apply trap_done in Hrun; [|done]. destruct u as [s e], u' as [s' e'].
  cbn [kernel_ok leads contents kernel_model u_kst] in *. apply inode_of_Some in Hi as (Hp & Hne & d & Hstart & Hres).
  revert Hfd. refine (wp_value _ (fun fd s' => 0 <= fd -> _) s fd s' _ Hrun). eapply (wp_do_open fs vops_of mem_ok); try done.
  intros n r s1 Hn Hs1 Hpost Hr. unfold open_spec in Hpost. change (has U_RDONLY O_CREAT) with false in Hpost.
  rewrite Hres in Hpost. cbn [open_post] in Hpost. unfold file_bytes in Hd.
  destruct (the_tree s !! i) as [[|b|]|] eqn:Ht; try done. destruct Hpost as (-> & Hop & Hsub).
  assert (truncated U_RDONLY i (the_tree s) = the_tree s) as E by (unfold truncated; by rewrite Ht).
  rewrite E in Hsub. split; [done|]. split.
  - eapply evolves_keeps; try done; [by eapply opened_same|by apply evolves_sub].
  - by apply (opened_opens n i (open_mode U_RDONLY)).
Qed.

Lemma kernel_open_write u path fd u' :
  kernel_ok u -> nameable U path -> (forall i, leads u path = Some i -> is_Some (contents u i)) ->
  sys_open path (Z.lor (Z.lor U_WRONLY U_CREAT) U_TRUNC) u = Done fd u' -> 0 <= fd ->
  exists i, kernel_ok u' /\ keeps_files (Some i) u u' /\ opens fd (OFile i 0 false true false) u u'
    /\ leads u' path = Some i /\ contents u' i = Some [] /\ (leads u path = Some i \/ forall q, leads u q <> Some i).
Proof.
  intros Hs [[Hp H28] Hne] Hreg Hrun Hfd. apply trap_done in Hrun; [|done]. destruct u as [s e], u' as [s' e'].
  cbn [kernel_ok leads contents kernel_model u_kst] in *. destruct (start_vno fs s path Hs) as [d Hstart].
  revert Hfd. refine (wp_value _ (fun fd s' => 0 <= fd -> _) s fd s' _ Hrun). eapply (wp_do_open fs vops_of mem_ok); try done.
  set (fl := Z.lor _ _). intros n r s1 Hn Hs1 Hpost Hr. unfold open_spec in Hpost. change (has fl O_CREAT) with true in Hpost.
  cbn iota in Hpost.
  destruct (open_target (the_tree s) d path) as [err|[j|dd key]] eqn:Et.
  - destruct Hpost as [-> _]. assert (err < 0); [|lia]. eapply (open_spec_error (the_tree s) d path fl). done.
  - pose proof (found_resolves _ _ _ _ Et) as Hres.
    assert (inode_of s path = Some j) as Hj by (apply inode_of_Some; eauto 10).
    destruct (Hreg j Hj) as [b Hb]. unfold file_bytes in Hb. cbn [open_post] in Hpost.
    destruct (the_tree s !! j) as [[|b'|]|] eqn:Ht; try done. destruct Hpost as (-> & Hop & Hsub).
    assert (truncated fl j (the_tree s) = <[j := FileView []]> (the_tree s)) as E by (unfold truncated; by rewrite Ht).
    rewrite E in Hsub. pose proof (opened_same _ _ _ _ _ Hop) as Hsv.
    pose proof (evolves_file j b' [] s s1 Hs Ht Hsub) as Hev.
    destruct (leads_kept _ _ _ _ _ _ _ Hs Hs1 Hsv Hev Hj) as (Hj1 & _ & _ & Ht1).
    exists j. split; [done|]. split; [by eapply evolves_keeps|].
    split; [by apply (opened_opens n j (open_mode fl))|]. split; [done|]. split; [|by left].
    unfold file_bytes. by rewrite Ht1, lookup_insert_eq.
  - destruct Hpost as [[-> _]|(-> & j & Hop & Hnew & Hadd)]; [done|].
    assert (key = basename (components path) /\ trailing path = false
            /\ Z.of_nat (length (basename (components path))) <= NAME_LEN) as (-> & Htr & Hlen).
    { unfold open_target in Et. repeat case_match; simplify_eq. split_and!; [done|done|lia]. }
    pose proof (opened_same _ _ _ _ _ Hop) as Hsv.
    destruct (evolves_added _ _ _ _ _ _ _ Hs Hnew Hadd Hs1 Hsv) as (t1 & t2 & Hev & Hj1).
    pose proof (same_start s s1 path d Hs Hs1 Hsv Hstart) as Hstart1. pose proof Hs1 as [Hok1 _].
    destruct (resolve_added _ _ _ _ _ _ _ Hadd) as [Hres Hjt]; [apply (fs_closed _ _ (ok_fs _ _ _ _ _ Hok1))|by eapply (vnode_in_tree fs)|done|by left|].
    exists j. split; [done|]. split; [by eapply evolves_keeps|].
    split; [by apply (opened_opens n j (open_mode fl))|]. split; [apply inode_of_Some; eauto 10|].
    split; [unfold file_bytes; by rewrite Hjt|]. right. intros q Hq.
    destruct (leads_kept _ _ _ _ _ _ _ Hs Hs1 Hsv Hev Hq) as (_ & _ & [w Hw] & _). congruence.
Qed.

Lemma kernel_read u fd g i pos w a data n :
  kernel_ok u -> fds u fd = Some g -> files u g = Some (OFile i pos true w a) -> contents u i = Some data ->
  (pos <= length data)%nat -> 0 < n -> Z.of_nat pos + n < 2 ^ 63 ->
  exists bs rest u', sys_read fd n u = Done (Z.of_nat (length bs), bs) u' /\ drop pos data = bs ++ rest
    /\ Z.of_nat (length bs) <= n /\ (bs = [] -> rest = [])
    /\ kernel_ok u' /\ keeps_files None u u' /\ moves g (OFile i (pos + length bs) true w a) u u' /\ (room u <= room u')%nat.
Proof.
  destruct u as [s e]. cbn [kernel_ok fds files contents room kernel_model u_kst]. intros Hs Hfd Hfile Hd Hpos Hn Hb.
  destruct (ofile_fd _ _ _ _ Hs Hfd Hfile) as (x & Hx & Hin & Hp & Hrd & Hwr & Hap). cbn in Hin, Hp, Hrd, Hwr, Hap.
  unfold file_bytes in Hd. destruct (the_tree s !! i) as [[|b|]|] eqn:Ht; try done. injection Hd as ->.
  pose proof Hs as [Hok _]. destruct (ok_file _ _ _ _ _ Hok g x Hx) as (_ & _ & Hfp).
  set (bs := slice data pos (Z.to_nat n)).
  destruct (wp_result (do_read fs vops_of fd n) (Z.of_nat (length bs), bs)
    (fun s' => sys_ok s' /\ exists s1, stable s s1 /\ the_tree s1 = the_tree s
               /\ s' = upd_file g (set_f_pos (f_pos x + Z.of_nat (length bs)) x) s1) s) as (s' & Hrun & Hs' & s1 & Hst & Ht1 & ->).
  { apply (wp_do_read fs vops_of); [done|lia|congruence|]. intros g' x' i' Hin'. rewrite Hin in Hin'. simplify_eq.
    split; [lia|]. rewrite Hrd, Ht. cbn zeta. fold bs. intros s1 Hk Et Hs'. split; [done|]. split; [done|].
    exists s1. split; [by apply (keeps_stable fs)|done]. }
  exists bs, (drop (Z.to_nat n) (drop pos data)), (UKst (upd_file g (set_f_pos (f_pos x + Z.of_nat (length bs)) x) s1) e).
  assert (length bs <= Z.to_nat n)%nat as Hlen by (unfold bs, slice; rewrite length_take; lia).
  split. { cbn [sys_read kernel_posix]. unfold trap_read, in_kernel, bind. cbn [u_kst u_errno]. rewrite Hrun. cbn [fst].
           by rewrite (proj2 (Z.ltb_ge _ 0)) by lia. }
  split; [unfold bs, slice; by rewrite take_drop|]. split; [lia|]. split.
  { unfold bs, slice. intros E. destruct (drop pos data); [by rewrite drop_nil|]. destruct (Z.to_nat n) eqn:En; [lia|done]. }
  split; [exact Hs'|]. split; [|split; [exact (moves_pos s s1 g x _ (length bs) e Hs Hst Hs' Hx Hfile)|done]].
  eapply evolves_keeps; [done|exact Hs'|by apply same_vnodes_pos|]. apply evolves_sub; [done|].
  change (the_tree s1 ⊆ the_tree s). by rewrite Ht1.
Qed.

Lemma kernel_write u fd g i pos r data bs :
  kernel_ok u -> fds u fd = Some g -> files u g = Some (OFile i pos r true false) -> contents u i = Some data ->
  (pos <= length data)%nat -> (pos + length bs <= max_file U)%nat -> (length bs <= room u)%nat ->
  exists u', sys_write fd bs u = Done (Z.of_nat (length bs)) u'
    /\ contents u' i = Some (take pos data ++ bs ++ drop (pos + length bs) data)
    /\ kernel_ok u' /\ keeps_files (Some i) u u' /\ moves g (OFile i (pos + length bs) r true false) u u'
    /\ (room u <= room u' + length bs)%nat.
Proof.
  destruct u as [s e]. cbn [kernel_ok fds files contents room max_file kernel_model u_kst]. intros Hs Hfd Hfile Hd Hpos Hmax _.
  destruct (ofile_fd _ _ _ _ Hs Hfd Hfile) as (x & Hx & Hin & Hp & Hrd & Hwr & Hap). cbn in Hin, Hp, Hrd, Hwr, Hap.
  unfold file_bytes in Hd. destruct (the_tree s !! i) as [[|b|]|] eqn:Ht; try done. injection Hd as ->.
  pose proof Hs as [Hok _]. destruct (ok_file _ _ _ _ _ Hok g x Hx) as (_ & _ & Hfp).
  unfold size_limit in Hmax. assert (f_pos x = Z.of_nat pos) as Ep by lia. pose proof fs_max_range.
  set (d := take pos data ++ bs ++ drop (pos + length bs) data).
  destruct (wp_result (do_write fs vops_of fd bs) (Z.of_nat (length bs))
    (fun s' => sys_ok s' /\ exists s1, stable s s1 /\ the_tree s1 = <[i := FileView d]> (the_tree s)
               /\ s' = upd_file g (set_f_pos (f_pos x + Z.of_nat (length bs)) x) s1) s) as (s' & Hrun & Hs' & s1 & Hst & Ht1 & ->).
  { apply (wp_do_write fs vops_of); [done|lia|congruence|]. intros g' x' i' Hin'. rewrite Hin in Hin'. simplify_eq.
    rewrite Hwr, Ht. unfold write_pos. rewrite Hap. cbn zeta. split; [lia|]. rewrite Z.min_l by lia. intros s1 Hst Et Hs'.
    split; [done|]. split; [done|]. exists s1. split; [done|]. split; [|done]. rewrite Et, Ep. unfold file_write, d. do 2 f_equal.
    rewrite !Nat2Z.id, firstn_all, (take_app_le data) by lia. done. }
  exists (UKst (upd_file g (set_f_pos (f_pos x + Z.of_nat (length bs)) x) s1) e).
  split; [apply trap_run; [exact Hrun|lia]|].
  split; [cbn [u_kst]; change (file_bytes (the_tree s1) i = Some d); unfold file_bytes; by rewrite Ht1, lookup_insert_eq|].
  split; [exact Hs'|]. split; [|split; [exact (moves_pos s s1 g x _ (length bs) e Hs Hst Hs' Hx Hfile)|lia]].
  eapply evolves_keeps; [done|exact Hs'|by apply same_vnodes_pos|]. apply (evolves_file i data d); [done|done|].
  change (the_tree s1 ⊆ <[i := FileView d]> (the_tree s)). by rewrite Ht1.
Qed.

Lemma kernel_close u fd g :
  kernel_ok u -> fds u fd = Some g ->
  exists u', sys_close fd u = Done 0 u' /\ kernel_ok u' /\ keeps_files None u u'
    /\ (forall fd', fds u' fd' = if decide (fd' = fd) then None else fds u fd')
    /\ (forall fd' g', fds u' fd' = Some g' -> files u' g' = files u g').
Proof.
  destruct u as [s e]. cbn [kernel_ok fds files kernel_model u_kst]. intros Hs Hfd. pose proof Hs as [Hok _].
  destruct (wp_result (do_close fs vops_of fd) 0 (fun s' => sys_ok s' /\ keeps_sys fs s s'
              /\ p_files s' = <[Z.to_nat fd := None]> (p_files s)) s) as (s' & Hrun & Hs' & Hk & Hp).
  { apply (wp_do_close fs vops_of); [done|congruence|]. by intros. }
  pose proof (same_vnodes_sys s s' Hk) as Hsv. exists (UKst s' e).
  split; [by apply trap_run|]. split; [done|]. split; [eapply evolves_keeps; try done; apply evolves_sub; [done|apply Hk]|].
  destruct (open_file_Some fs _ _ _ _ _ _ Hok Hfd) as (Hr & Hl & _). pose proof (lookup_lt_Some _ _ _ Hl) as Hlt.
  assert (forall fd', open_file fd' s' = if decide (fd' = fd) then None else open_file fd' s) as Ho.
  { intros fd'. unfold open_file, p_file. rewrite Hp. case_decide as E.
    - subst fd'. rewrite list_lookup_insert_eq by done. by destruct (_ || _).
    - destruct ((fd' <? 0) || (fd' >=? NFILES)) eqn:Er; [done|]. rewrite list_lookup_insert_ne; [done|lia]. }
  split; [done|]. intros fd' g' Hg'. pose proof Hs' as [Hok' _]. cbn [u_kst] in Hg'.
  destruct (open_file_Some fs _ _ _ _ _ _ Hok' Hg') as (_ & _ & _ & x' & Hx').
  rewrite Ho in Hg'. case_decide; [done|]. destruct (open_file_Some fs _ _ _ _ _ _ Hok Hg') as (_ & _ & _ & x & Hx).
  destruct (ks_file _ _ _ Hk g' x') as (x0 & Hx0 & E); [apply (ok_next_file _ _ _ _ _ Hok); by eexists|done|].
  assert (x0 = x) as -> by congruence. by eapply same_ofile.
Qed.

(** The VFS keeps the promises the shell relies on. *)
Lemma kernel_laws : FileLaws U.
Proof.
  split.
  - cbn. unfold size_limit. lia.
  - apply kernel_open_read.
  - apply kernel_open_write.
  - apply kernel_read.
  - apply kernel_write.
  - apply kernel_close.
Qed.
End kernel.

(** * A copy on the root file system *)

#[local] Existing Instance no_drivers.
#[local] Existing Instance enough_memory.

Abbreviation ramfs_state := (ukst ramfs Z).
#[local] Instance ramfs_posix : Posix ramfs_state := kernel_posix ramfs_ops ramfs_vops.
#[local] Instance ramfs_model : FileModel ramfs_state := kernel_model ramfs_ops ramfs_vops.
#[local] Instance ramfs_laws : FileLaws ramfs_state :=
  kernel_laws (mem := enough_memory) (drv := no_drivers) ramfs_ops ramfs_vops eq_refl.

Abbreviation step c := (after (exec ramfs_ops ramfs_vops c)).

Lemma step_ok c s : ok s -> call_ok ramfs_ops ramfs_vops c s -> ok (step c s).
Proof. intros Hs Hc. by apply (after_ok _ ok), (exec_ok ramfs_ops ramfs_vops). Qed.

Definition path_out : list Z := str "/out".

(** The standard descriptors, which the shell needs to be open, and a new file [/a]. *)
Definition before_write : kst ramfs Z :=
  step (Open path_a rdwr_create) (step (Open (str "/c") O_RDWR) (step (Open (str "/c") O_RDWR) (step (Open (str "/c") rdwr_create) booted))).

(** [/a] has text in it and is closed. *)
Definition before_cat : kst ramfs Z := step (Close 3) (step (Write 3 (str "two words")) before_write).

Lemma before_write_ok : ok before_write.
Proof.
  unfold before_write. repeat (apply step_ok; [|split; [repeat constructor|intros _; split; [repeat constructor|by vm_compute]]]).
  apply booted_ok.
Qed.

Lemma before_write_fd : exists g x, fd_inode 3 before_write = Some (g, x, 2) /\ f_pos x = 0 /\ f_mode x = 3.
Proof. eexists _, _. split; [by vm_compute|done]. Qed.

Lemma before_write_tree : the_tree ramfs_ops before_write !! 2 = Some (FileView []).
Proof. by vm_compute. Qed.

Lemma before_cat_ok : ok before_cat.
Proof.
  apply step_ok; [|done]. apply step_ok; [apply before_write_ok|]. split; [cbn; lia|]. intros g x i Hfd _.
  destruct before_write_fd as (g' & x' & Hfd' & Hp & Hm). rewrite Hfd in Hfd'. injection Hfd' as -> -> ->.
  exists []. split; [apply before_write_tree|]. unfold write_pos. rewrite Hp, Hm. by vm_compute.
Qed.

Definition cat_shell : shell ramfs_state :=
  Shell (UKst before_cat 0) (replicate (Z.to_nat LINEBUF_SIZE) 0) (replicate (Z.to_nat LINEBUF_SIZE) 0) false.

(** The results of the two calls of [open] on the way. *)
Definition open_out : ramfs_state :=
  after (sys_open path_out (Z.lor (Z.lor U_WRONLY U_CREAT) U_TRUNC)) (kern cat_shell).

(** [cat /a >/out] *)
Definition out_line : list (list Z * piece) := cat_line (str " ") (str " ") [] path_a path_out.

Lemma cat_copies_witness :
  exists s' j, run_line 11 (ntyped out_line) (typed out_line) cat_shell = Done (Status 0) s'
    /\ leads (kern s') path_out = Some j /\ contents (kern s') j = Some (str "two words")
    /\ keeps_files (Some j) (kern cat_shell) (kern s').
Proof.
  destruct (cat_copies 10 cat_shell (str " ") (str " ") [] path_a path_out 2 (str "two words") 3 open_out 4
              (after (sys_open path_a U_RDONLY) open_out)) as (s' & j & Hrun & _ & _ & Hj & Hc & Hk & _).
  - line_ok_tac.
  - exact before_cat_ok.
  - vm_compute. reflexivity.
  - vm_compute. reflexivity.
  - split; [split; [repeat constructor|vm_compute; discriminate]|discriminate].
  - vm_compute. discriminate.
  - intros j Hj. assert (leads (kern cat_shell) path_out = None) as E by (vm_compute; reflexivity). destruct (eq_None_ne_Some_1 _ _ E Hj).
  - intros n Hn. assert (n = 0 \/ n = 1 \/ n = 2) as [->|[->| ->]] by lia; eexists; vm_compute; reflexivity.
  - vm_compute. reflexivity.
  - lia.
  - vm_compute. reflexivity.
  - lia.
  - cbn. lia.
  - vm_compute. lia.
  - vm_compute. lia.
  - exists s', j. split; [exact Hrun|]. split; [exact Hj|]. split; [exact Hc|exact Hk].
Defined.
