(* ===== verification/S5DiskProofs.v ===== *)
(** The on-disk structures and the metadata layer of S5FS: the encodings are
    inverse to the decodings, the block cache shows the contents of the device
    with the writes applied, and the block and inode allocators implement the
    free lists kept in the super block and on the disk. *)

From S2P Require Import Prelude CString Btree BtreeProofs Mobj MobjProofs S5Disk.

(** * Encodings *)

#[global] Arguments words_of _ _ _ : simpl never.

Section codecs.
Implicit Types (a b l r ws : list Z) (i n : nat) (z : Z).

Definition byte z : Prop := 0 <= z < 256.
Definition word z : Prop := 0 <= z < 2 ^ 32.

Lemma slice_app_l a b i n : (i + n <= length a)%nat -> slice (a ++ b) i n = slice a i n.
Proof.
  intros. unfold slice. rewrite drop_app_le by lia. rewrite take_app_le; [done|].
  rewrite length_drop. lia.
Qed.

Lemma slice_app_r a b i n : (length a <= i)%nat -> slice (a ++ b) i n = slice b (i - length a) n.
Proof. intros. unfold slice. by rewrite drop_app_ge by lia. Qed.

Lemma slice_mid a b r i n : i = length a -> n = length b -> slice (a ++ b ++ r) i n = b.
Proof.
  intros -> ->. rewrite slice_app_r by lia. rewrite Nat.sub_diag, slice_app_l by lia.
  by apply slice_all.
Qed.

Lemma get32_mid a r i z : length a = (4 * i)%nat -> get32 (a ++ le_of_Z 4 z ++ r) i = u32 z.
Proof.
  intros Hl. unfold get32. rewrite slice_mid by (rewrite ?length_le_of_Z; lia).
  by rewrite Z_of_le_of_Z.
Qed.

Lemma get32_head r z : get32 (le_of_Z 4 z ++ r) 0 = u32 z.
Proof. by apply (get32_mid []). Qed.

Lemma length_bytes_of_words ws : length (bytes_of_words ws) = (4 * length ws)%nat.
Proof.
  induction ws as [|w ws IH]; [done|]. unfold bytes_of_words in *. cbn [map concat].
  rewrite length_app, length_le_of_Z, IH. cbn. lia.
Qed.

Lemma bytes_of_words_cons z ws : bytes_of_words (z :: ws) = le_of_Z 4 z ++ bytes_of_words ws.
Proof. done. Qed.

Lemma bytes_of_words_app ws ws' : bytes_of_words (ws ++ ws') = bytes_of_words ws ++ bytes_of_words ws'.
Proof. unfold bytes_of_words. by rewrite map_app, concat_app. Qed.

Lemma words_of_S l i n : words_of l i (S n) = get32 l i :: words_of l (S i) n.
Proof. done. Qed.

Lemma length_words_of l i n : length (words_of l i n) = n.
Proof. unfold words_of. by rewrite length_map, length_seq. Qed.

Lemma words_of_bytes a ws r i n :
  length a = (4 * i)%nat -> n = length ws -> words_of (a ++ bytes_of_words ws ++ r) i n = map u32 ws.
Proof.
  intros Hl ->. revert a i Hl. induction ws as [|w ws IH]; intros a i Hl; [done|].
  cbn [length map]. rewrite words_of_S, bytes_of_words_cons, <- app_assoc. f_equal.
  - by apply get32_mid.
  - rewrite app_assoc. apply IH. rewrite length_app, length_le_of_Z. lia.
Qed.

Lemma map_u32 ws : Forall word ws -> map u32 ws = ws.
Proof. induction 1 as [|w ws Hw _ IH]; [done|]. cbn. by rewrite IH, u32_id. Qed.

(** The bytes of the words of a byte list. *)
Lemma bytes_of_words_of l i n :
  Forall byte l -> (4 * i + 4 * n <= length l)%nat ->
  bytes_of_words (words_of l i n) = slice l (4 * i) (4 * n).
Proof.
  intros Hb. revert i. induction n as [|n IH]; intros i Hl.
  - unfold slice. by rewrite Nat.mul_0_r, take_0.
  - rewrite words_of_S, bytes_of_words_cons, IH by lia. unfold get32.
    replace 4%nat with (length (slice l (4 * i) 4)) at 1 by (rewrite length_slice; lia).
    rewrite le_of_Z_of_le by (by apply Forall_slice). unfold slice.
    replace (4 * S n)%nat with (4 + 4 * n)%nat by lia.
    rewrite <- (take_take_drop (drop (4 * i) l) 4 (4 * n)). f_equal.
    rewrite drop_drop. do 2 f_equal. lia.
Qed.

Lemma le_of_Z_mod n z z' :
  z mod 256 ^ Z.of_nat n = z' mod 256 ^ Z.of_nat n -> le_of_Z n z = le_of_Z n z'.
Proof.
  intros Hz.
  assert (Hle : forall x, le_of_Z n x = le_of_Z n (x mod 256 ^ Z.of_nat n)).
  { intros x. rewrite <- Z_of_le_of_Z.
    pose proof (le_of_Z_of_le (le_of_Z n x) (le_of_Z_bytes n x)) as H.
    by rewrite length_le_of_Z in H. }
  by rewrite Hle, Hz, <- Hle.
Qed.
End codecs.

(** The values the structures' fields can hold. *)
Record inode_fits (i : s5_inode) : Prop := {
  fits_size : word (s5_size i);
  fits_number : word (s5_number i);
  fits_type : 0 <= s5_type i < 2 ^ 16;
  fits_linkcount : - 2 ^ 15 <= s5_linkcount i < 2 ^ 15;
  fits_direct : length (s5_direct_blocks i) = S5_NDIRECT_BLOCKS /\ Forall word (s5_direct_blocks i);
  fits_indirect : word (s5_indirect_block i);
}.

Record super_fits (s : s5_super) : Prop := {
  fits_fields : Forall word [s5s_magic s; s5s_free_inode s; s5s_nfree s; s5s_root_inode s;
                             s5s_num_inodes s; s5s_version s];
  fits_free_blocks : length (s5s_free_blocks s) = S5_NBLKS_PER_FNODE /\ Forall word (s5s_free_blocks s);
}.

Definition dirent_fits (d : s5_dirent) : Prop :=
  word (s5d_inode d) /\ length (s5d_name d) = S5_NAME_LEN.

Lemma length_encode_inode i : inode_fits i -> length (encode_inode i) = sizeof_s5_inode.
Proof.
  intros [? ? ? ? [Hd _] ?]. unfold encode_inode.
  rewrite !length_app, !length_le_of_Z, length_bytes_of_words, Hd. done.
Qed.

Lemma s16_le z : - 2 ^ 15 <= z < 2 ^ 15 -> s16 (Z_of_le (le_of_Z 2 z)) = z.
Proof.
  intros Hz. rewrite Z_of_le_of_Z. change (256 ^ Z.of_nat 2) with (2 ^ 16). unfold s16.
  rewrite Z.add_mod_idemp_l by lia. rewrite Z.mod_small; lia.
Qed.

Lemma decode_encode_inode i : inode_fits i -> decode_inode (encode_inode i) = i.
Proof.
  intros [Hs Hn Ht Hl [Hd Hw] Hi]. unfold decode_inode, encode_inode.
  set (sz := le_of_Z 4 (s5_size i)). set (nr := le_of_Z 4 (s5_number i)).
  set (ty := le_of_Z 2 (s5_type i)). set (lc := le_of_Z 2 (s5_linkcount i)).
  set (db := bytes_of_words (s5_direct_blocks i)). set (ib := le_of_Z 4 (s5_indirect_block i)).
  assert (Hlen : length sz = 4%nat /\ length nr = 4%nat /\ length ty = 2%nat /\ length lc = 2%nat
                 /\ length db = 112%nat /\ length ib = 4%nat).
  { unfold sz, nr, ty, lc, db, ib. rewrite !length_le_of_Z, length_bytes_of_words, Hd. done. }
  destruct Hlen as (L1 & L2 & L3 & L4 & L5 & L6).
  assert (E1 : get32 (sz ++ nr ++ ty ++ lc ++ db ++ ib) 0 = s5_size i).
  { unfold sz. rewrite get32_head. by apply u32_id. }
  assert (E2 : get32 (sz ++ nr ++ ty ++ lc ++ db ++ ib) 1 = s5_number i).
  { unfold nr. rewrite (get32_mid sz) by done. by apply u32_id. }
  assert (E3 : Z_of_le (slice (sz ++ nr ++ ty ++ lc ++ db ++ ib) 8 2) = s5_type i).
  { rewrite (app_assoc sz nr), slice_mid by (rewrite ?length_app; lia). unfold ty.
    rewrite Z_of_le_of_Z. by apply Z.mod_small. }
  assert (E4 : s16 (Z_of_le (slice (sz ++ nr ++ ty ++ lc ++ db ++ ib) 10 2)) = s5_linkcount i).
  { rewrite (app_assoc sz nr), (app_assoc _ ty), slice_mid by (rewrite ?length_app; lia).
    by apply s16_le. }
  assert (E5 : words_of (sz ++ nr ++ ty ++ lc ++ db ++ ib) 3 S5_NDIRECT_BLOCKS = s5_direct_blocks i).
  { rewrite (app_assoc sz nr), (app_assoc _ ty), (app_assoc _ lc). unfold db.
    rewrite words_of_bytes by (rewrite ?length_app; lia). by apply map_u32. }
  assert (E6 : get32 (sz ++ nr ++ ty ++ lc ++ db ++ ib) 31 = s5_indirect_block i).
  { rewrite (app_assoc sz nr), (app_assoc _ ty), (app_assoc _ lc), (app_assoc _ db). unfold ib.
    rewrite <- (app_nil_r (le_of_Z 4 _)), get32_mid by (rewrite ?length_app; lia).
    by apply u32_id. }
  rewrite E1, E2, E3, E4, E5, E6. by destruct i.
Qed.

Lemma decode_encode_super s r : super_fits s -> decode_super (encode_super s ++ r) = s.
Proof.
  intros [Hf [Hl Hw]]. unfold decode_super, encode_super.
  repeat (apply Forall_cons_iff in Hf as [? Hf]).
  rewrite !bytes_of_words_app, <- !app_assoc.
  set (h := bytes_of_words [s5s_magic s; s5s_free_inode s; s5s_nfree s]).
  set (fb := bytes_of_words (s5s_free_blocks s)).
  set (t := bytes_of_words [s5s_root_inode s; s5s_num_inodes s; s5s_version s]).
  assert (Lh : length h = 12%nat) by done.
  assert (Lf : length fb = 120%nat) by (unfold fb; by rewrite length_bytes_of_words, Hl).
  assert (Hh : forall i x, [s5s_magic s; s5s_free_inode s; s5s_nfree s] !! i = Some x -> word x ->
            get32 (h ++ fb ++ t ++ r) i = x).
  { intros i x Hi Hx. apply list_elem_of_split_length in Hi as (l1 & l2 & Heq & ->). unfold h.
    rewrite Heq, bytes_of_words_app, bytes_of_words_cons, <- !app_assoc.
    rewrite get32_mid by apply length_bytes_of_words. by apply u32_id. }
  assert (Ht : forall i x, [s5s_root_inode s; s5s_num_inodes s; s5s_version s] !! i = Some x -> word x ->
            get32 (h ++ fb ++ t ++ r) (33 + i) = x).
  { intros i x Hi Hx. apply list_elem_of_split_length in Hi as (l1 & l2 & Heq & ->). unfold t.
    rewrite Heq, bytes_of_words_app, bytes_of_words_cons, <- !app_assoc.
    rewrite (app_assoc h fb), (app_assoc _ (bytes_of_words l1)).
    rewrite get32_mid by (rewrite !length_app, length_bytes_of_words; lia). by apply u32_id. }
  rewrite (Hh 0%nat _ eq_refl), (Hh 1%nat _ eq_refl), (Hh 2%nat _ eq_refl) by done.
  rewrite (Ht 0%nat _ eq_refl : _ -> get32 _ 33 = _), (Ht 1%nat _ eq_refl : _ -> get32 _ 34 = _),
    (Ht 2%nat _ eq_refl : _ -> get32 _ 35 = _) by done.
  unfold fb. rewrite words_of_bytes by (rewrite ?Hl; done). rewrite map_u32 by done. by destruct s.
Qed.

Lemma decode_encode_dirent d : dirent_fits d -> decode_dirent (encode_dirent d) = d.
Proof.
  intros [Hw Hl]. unfold decode_dirent, encode_dirent.
  rewrite get32_head, u32_id by done.
  rewrite slice_app_r by (rewrite length_le_of_Z; lia). rewrite length_le_of_Z, slice_all by done.
  by destruct d.
Qed.

(** A block: [S5_BLOCK_SIZE] bytes. *)
Definition block_ok (b : list Z) : Prop := length b = 4096%nat /\ Forall byte b.

Lemma S5_INODE_OFFSET_lt ino : (S5_INODE_OFFSET ino < 32)%nat.
Proof. unfold S5_INODE_OFFSET, S5_INODES_PER_BLOCK. pose proof (Z.mod_pos_bound ino 32). lia. Qed.

Lemma words_of_range l i n :
  Forall byte l -> (4 * i + 4 * n <= length l)%nat -> Forall word (words_of l i n).
Proof.
  intros Hb. revert i. induction n as [|n IH]; intros i Hl; [constructor|].
  rewrite words_of_S. constructor; [apply get32_range; [done|lia]|apply IH; lia].
Qed.

Lemma decode_inode_fits b :
  length b = sizeof_s5_inode -> Forall byte b -> inode_fits (decode_inode b).
Proof.
  intros Hl Hb. unfold sizeof_s5_inode in Hl. split; cbn [s5_size s5_number s5_type s5_linkcount
    s5_direct_blocks s5_indirect_block decode_inode].
  - apply get32_range; [done|lia].
  - apply get32_range; [done|lia].
  - pose proof (Z_of_le_range (slice b 8 2) (Forall_slice _ _ _ _ Hb)) as Hr.
    rewrite length_slice in Hr by lia. exact Hr.
  - unfold s16. pose proof (Z.mod_pos_bound (Z_of_le (slice b 10 2) + 2 ^ 15) (2 ^ 16)). lia.
  - split; [apply length_words_of|]. apply words_of_range; [done|].
    unfold S5_NDIRECT_BLOCKS. lia.
  - apply get32_range; [done|lia].
Qed.

Lemma encode_inode_bytes i : Forall byte (encode_inode i).
Proof.
  unfold encode_inode. rewrite !Forall_app. split_and!; try apply le_of_Z_bytes.
  unfold bytes_of_words. induction (s5_direct_blocks i) as [|w ws IH]; [constructor|].
  cbn [map concat]. apply Forall_app. split; [apply le_of_Z_bytes|done].
Qed.

Lemma inode_slot_bound ino b :
  block_ok b -> (S5_INODE_OFFSET ino * sizeof_s5_inode + sizeof_s5_inode <= length b)%nat.
Proof.
  intros [Hl _]. pose proof (S5_INODE_OFFSET_lt ino). rewrite Hl. unfold sizeof_s5_inode. lia.
Qed.

Lemma inode_in_fits b ino : block_ok b -> inode_fits (inode_in b ino).
Proof.
  intros Hb. apply decode_inode_fits.
  - apply length_slice. by apply inode_slot_bound.
  - apply Forall_slice, Hb.
Qed.

Lemma put_inode_in_ok b ino i : block_ok b -> inode_fits i -> block_ok (put_inode_in b ino i).
Proof.
  intros Hb Hi. pose proof (inode_slot_bound ino b Hb). split; unfold put_inode_in.
  - rewrite length_splice; [apply Hb|]. by rewrite length_encode_inode.
  - apply Forall_splice; [apply Hb|apply encode_inode_bytes].
Qed.

Lemma inode_in_put_eq b ino i :
  block_ok b -> inode_fits i -> inode_in (put_inode_in b ino i) ino = i.
Proof.
  intros Hb Hi. pose proof (inode_slot_bound ino b Hb). unfold inode_in, put_inode_in.
  rewrite slice_splice_same by (rewrite length_encode_inode by done; done).
  by apply decode_encode_inode.
Qed.

Lemma inode_in_put_ne b ino j i :
  block_ok b -> inode_fits i -> S5_INODE_OFFSET j <> S5_INODE_OFFSET ino ->
  inode_in (put_inode_in b ino i) j = inode_in b j.
Proof.
  intros Hb Hi Hne. pose proof (inode_slot_bound ino b Hb). unfold inode_in, put_inode_in. f_equal.
  unfold sizeof_s5_inode in *. apply slice_splice_other; rewrite length_encode_inode by done;
    unfold sizeof_s5_inode; lia.
Qed.

(** Different inodes of a block are at different offsets. *)
Lemma inode_offset_inj i j :
  0 <= i -> 0 <= j -> S5_INODE_BLOCK i = S5_INODE_BLOCK j -> S5_INODE_OFFSET i = S5_INODE_OFFSET j ->
  i = j.
Proof.
  unfold S5_INODE_BLOCK, S5_INODE_OFFSET, S5_INODES_PER_BLOCK. intros Hi Hj Hb Ho.
  pose proof (Z.mod_pos_bound i 32). pose proof (Z.mod_pos_bound j 32).
  pose proof (Z.div_mod i 32). pose proof (Z.div_mod j 32). lia.
Qed.

(** reading back an inode, a super block or a directory entry that was stored
    on the disk gives the value that was stored. *)
Theorem s5_structures_roundtrip :
  (forall i, inode_fits i -> decode_inode (encode_inode i) = i)
  /\ (forall s r, super_fits s -> decode_super (encode_super s ++ r) = s)
  /\ (forall d, dirent_fits d -> decode_dirent (encode_dirent d) = d).
Proof.
  split_and!; auto using decode_encode_inode, decode_encode_super, decode_encode_dirent.
Qed.

(** storing an inode in its block changes that inode only: it is read back as
    it was stored, and every other inode of the file system that lives in the
    block is unchanged. *)
Theorem put_inode_correct b ino i :
  block_ok b -> inode_fits i -> 0 <= ino ->
  block_ok (put_inode_in b ino i)
  /\ inode_in (put_inode_in b ino i) ino = i
  /\ forall j, 0 <= j -> S5_INODE_BLOCK j = S5_INODE_BLOCK ino -> j <> ino ->
       inode_in (put_inode_in b ino i) j = inode_in b j.
Proof.
  intros Hb Hi H0. split_and!; [by apply put_inode_in_ok|by apply inode_in_put_eq|].
  intros j Hj Hbl Hne. apply inode_in_put_ne; [done..|]. intros Ho. apply Hne.
  by apply inode_offset_inj.
Qed.

(** ** Witnesses *)

Definition example_inode : s5_inode := S5Inode 5000 3 S5_TYPE_DATA (-2) (replicate 28 77) 99.

Lemma example_inode_fits : inode_fits example_inode.
Proof.
  split; cbn; unfold word, S5_TYPE_DATA; try lia. split; [done|].
  apply (Forall_replicate word 28 77). unfold word. lia.
Qed.

Lemma s5_structures_roundtrip_witness : decode_inode (encode_inode example_inode) = example_inode.
Proof. apply (proj1 s5_structures_roundtrip). apply example_inode_fits. Defined.

Lemma put_inode_correct_witness :
  inode_in (put_inode_in (replicate 4096 1) 35 example_inode) 35 = example_inode
  /\ inode_in (put_inode_in (replicate 4096 1) 35 example_inode) 36 = inode_in (replicate 4096 1) 36.
Proof.
  destruct (put_inode_correct (replicate 4096 1) 35 example_inode) as (_ & Hself & Hother).
  - split; [apply length_replicate|]. apply Forall_replicate. unfold byte. lia.
  - apply example_inode_fits.
  - lia.
  - split; [exact Hself|]. apply Hother; [lia|reflexivity|lia].
Defined.
