(* ===== verification/S5MetaProofs.v ===== *)
(** The metadata cache of S5FS: [meta_content] is what a reader of a block sees,
    the cached page or else the block on the device.  Rules for the accesses of
    [fs/s5fs/s5fs.c] that the allocators and the file layer are proved with. *)

From S2P Require Import Prelude CString Btree BtreeProofs Mobj MobjProofs S5Disk S5DiskProofs.

(** What the file system relies on of the device: a block that can be read is
    [S5_BLOCK_SIZE] bytes, and a write that succeeds changes that block only. *)
Class BlockDevLaws (bd : BlockDev) : Prop := {
  read_block_ok : forall d n b, read_block d n = Some b -> block_ok b;
  read_write_block : forall d d' n b m, block_ok b -> write_block d n b = (0, d') ->
    read_block d' m = if decide (m = n) then Some b else read_block d m;
  (** A write leaves the other blocks alone, also when it fails. *)
  write_block_other : forall d d' n b r m, write_block d n b = (r, d') -> m <> n ->
    read_block d' m = read_block d m;
}.

Section meta_rules.
Context {mem : Memory} {pages : Pages} {bd : BlockDev} `{laws : !BlockDevLaws bd}.
Implicit Types (f : s5fs) (n m : Z) (H : gmap Z bool) (b : list Z).

#[export] Instance s5f_mobj_laws : LensLaws s5f_mobj_lens.
Proof. split; intros; by destruct s. Qed.

(** What a reader of block [n] sees. *)
Definition meta_content f n : option (list Z) :=
  match frame_of (s5f_mobj f) n with
  | Some pf => pf_addr pf
  | None => read_block (s5f_bdev f) (u32 n)
  end.

(** A cached block.  [H] are the blocks that are held, with whether they were
    taken for writing; a clean page is the block on the device. *)
Record frame_ok H (d : bdev) n (pf : pframe) : Prop := {
  fo_loc : pf_loc pf = n;
  fo_page : exists b, pf_addr pf = Some b /\ block_ok b;
  fo_held : pf_mutex pf = bool_decide (is_Some (H !! n));
  fo_dirty : H !! n = Some true -> pf_dirty pf = true;
  fo_clean : pf_dirty pf = false -> read_block d (u32 n) = pf_addr pf;
}.

Record meta_ok H f : Prop := {
  mk_obj : mobj_ok (s5f_mobj f);
  mk_unlocked : mo_mutex (s5f_mobj f) = false;
  mk_frames : forall n pf, frame_of (s5f_mobj f) n = Some pf -> frame_ok H (s5f_bdev f) n pf;
  mk_held : forall n, is_Some (H !! n) -> is_Some (frame_of (s5f_mobj f) n);
}.

(** The same file system up to the frame of block [n]. *)
Record same_fs n f f' : Prop := {
  sf_bdev : s5f_bdev f' = s5f_bdev f;
  sf_super : s5f_super f' = s5f_super f;
  sf_mutex : s5f_mutex f' = s5f_mutex f;
  sf_content : forall m, meta_content f' m = meta_content f m;
  sf_others : forall m, m <> n -> frame_of (s5f_mobj f') m = frame_of (s5f_mobj f) m;
}.

Lemma meta_content_ok H f n b : meta_ok H f -> meta_content f n = Some b -> block_ok b.
Proof.
  intros Hok. unfold meta_content. destruct (frame_of (s5f_mobj f) n) as [pf|] eqn:Hf.
  - destruct (mk_frames _ _ Hok _ _ Hf) as [_ (b' & -> & ?) _ _ _]. by intros [= <-].
  - apply read_block_ok.
Qed.

(** The effect of replacing the object by one that differs in frame [n]. *)
Lemma meta_ok_frame H H' f o' n pf' :
  meta_ok H f -> mobj_ok o' -> mo_mutex o' = false ->
  (forall m, m <> n -> frame_of o' m = frame_of (s5f_mobj f) m) ->
  frame_of o' n = Some pf' -> frame_ok H' (s5f_bdev f) n pf' ->
  (forall m, m <> n -> H' !! m = H !! m) -> meta_ok H' (set_s5f_mobj o' f).
Proof.
  intros [Hobj Hun Hfr Hheld] Hok Hmu Hm Hn Hpf HH. split; cbn; [done..| |].
  - intros m pf Hf. destruct (decide (m = n)) as [->|Hne]; [by rewrite Hn in Hf; injection Hf as <-|].
    rewrite Hm in Hf by done. destruct (Hfr _ _ Hf). split; try done; by rewrite HH.
  - intros m Hs. destruct (decide (m = n)) as [->|Hne]; [by rewrite Hn|].
    rewrite Hm by done. apply Hheld. by rewrite <- HH.
Qed.

Lemma meta_content_frame f o' n pf' m :
  (forall m, m <> n -> frame_of o' m = frame_of (s5f_mobj f) m) -> frame_of o' n = Some pf' ->
  meta_content (set_s5f_mobj o' f) m = if decide (m = n) then pf_addr pf' else meta_content f m.
Proof.
  intros Hm Hn. unfold meta_content. cbn. case_decide; [subst; by rewrite Hn|by rewrite Hm].
Qed.

(** An update [g] of the cached frame [n]. *)
Lemma meta_ok_upd H H' f n g pf :
  meta_ok H f -> frame_of (s5f_mobj f) n = Some pf -> keeps_pagenum g ->
  frame_ok H' (s5f_bdev f) n (g pf) -> (forall m, m <> n -> H' !! m = H !! m) ->
  let f' := set_s5f_mobj (upd_frame n g (s5f_mobj f)) f in
  meta_ok H' f'
  /\ (forall m, meta_content f' m = if decide (m = n) then pf_addr (g pf) else meta_content f m)
  /\ (forall m, m <> n -> frame_of (s5f_mobj f') m = frame_of (s5f_mobj f) m).
Proof.
  intros Hok Hf Hg Hpf HH f'.
  assert (Hn : frame_of (upd_frame n g (s5f_mobj f)) n = Some (g pf)) by (by rewrite frame_upd_eq, Hf).
  assert (Ho : forall m, m <> n -> frame_of (upd_frame n g (s5f_mobj f)) m = frame_of (s5f_mobj f) m).
  { intros m Hne. apply frame_upd_ne; [done|congruence]. }
  split_and!; [|intros m; by apply meta_content_frame|done].
  eapply meta_ok_frame; [done|by apply upd_frame_ok; [|apply Hok]|apply Hok|done..].
Qed.

Lemma relock_upd n g g' o :
  keeps_pagenum g' -> mo_mutex o = false ->
  set_mo_mutex false (upd_frame n g (upd_frame n g' (set_mo_mutex true o)))
  = upd_frame n (fun pf => g (g' pf)) o.
Proof. intros Hg Hm. rewrite upd_upd_frame by done. destruct o; cbn in *. by subst. Qed.

(** ** Accesses *)

Lemma meta_held_frame H f n w :
  meta_ok H f -> H !! n = Some w ->
  exists pf b, frame_of (s5f_mobj f) n = Some pf /\ pf_addr pf = Some b
    /\ meta_content f n = Some b /\ pf_mutex pf = true /\ (w = true -> pf_dirty pf = true).
Proof.
  intros Hok Hh. destruct (mk_held _ _ Hok n) as [pf Hf]; [by rewrite Hh|].
  destruct (mk_frames _ _ Hok _ _ Hf) as [_ (b & Ha & _) Hm Hd _].
  exists pf, b. unfold meta_content. rewrite Hf. split_and!; [done..| |by intros ->; apply Hd].
  rewrite Hm, Hh. by apply bool_decide_eq_true.
Qed.

Lemma wp_meta_page H n w b Q f :
  meta_ok H f -> H !! n = Some w -> meta_content f n = Some b -> Q b f -> wp (meta_page n) Q f.
Proof.
  intros Hok Hh Hc HQ. destruct (meta_held_frame _ _ _ _ Hok Hh) as (pf & b' & Hf & Ha & Hc' & _).
  rewrite Hc' in Hc. injection Hc as ->. unfold meta_page. wp_steps.
  eapply wp_pf_get; [done|]. by eapply wp_deref.
Qed.

(** [f'] is [f] with another cached page for block [n]. *)
Record page_set n b f f' : Prop := {
  ps_bdev : s5f_bdev f' = s5f_bdev f;
  ps_super : s5f_super f' = s5f_super f;
  ps_mutex : s5f_mutex f' = s5f_mutex f;
  ps_content : forall m, meta_content f' m = if decide (m = n) then Some b else meta_content f m;
  ps_others : forall m, m <> n -> frame_of (s5f_mobj f') m = frame_of (s5f_mobj f) m;
}.

Lemma wp_set_meta_page H n b Q f :
  meta_ok H f -> H !! n = Some true -> block_ok b ->
  (forall f', meta_ok H f' -> page_set n b f f' -> Q tt f') -> wp (set_meta_page n b) Q f.
Proof.
  intros Hok Hh Hb HQ.
  destruct (meta_held_frame _ _ _ _ Hok Hh) as (pf & b' & Hf & Ha & Hc & Hm & Hd).
  destruct (mk_frames _ _ Hok _ _ Hf) as [Hl _ Hx Hy _].
  destruct (meta_ok_upd H H f n (set_pf_addr (Some b)) pf) as (Hok' & Hc' & Ho'); [done..| |done|].
  { split; cbn; [done|by exists b|done..|]. by rewrite Hd. }
  unfold set_meta_page. eapply wp_pf_modify; [done|]. by apply HQ.
Qed.

Lemma wp_release_disk_block H n w Q f :
  meta_ok H f -> H !! n = Some w ->
  (forall f', meta_ok (delete n H) f' -> same_fs n f f' -> Q tt f') -> wp (s5_release_disk_block n) Q f.
Proof.
  intros Hok Hh HQ.
  destruct (meta_held_frame _ _ _ _ Hok Hh) as (pf & b & Hf & Ha & Hc & Hm & Hd).
  destruct (mk_frames _ _ Hok _ _ Hf) as [Hl Hp Hx Hy Hz].
  destruct (meta_ok_upd H (delete n H) f n (set_pf_mutex false) pf) as (Hok' & Hc' & Ho'); [done..| | |].
  { split; cbn; [done..| | |done]; by rewrite lookup_delete_eq. }
  { intros m Hne. by apply lookup_delete_ne. }
  unfold s5_release_disk_block. eapply wp_pframe_release; [done..|]. apply HQ; [done|].
  split; [done..| |done]. intros m. etransitivity; [apply Hc'|]. case_decide; [subst|done].
  by rewrite Hc.
Qed.

(** A block that is not held is read into the cache if it is not there, and
    held; nothing a reader sees changes. *)
Lemma wp_get_meta_disk_block H n w b Q f :
  oom = false -> meta_ok H f -> H !! n = None -> 0 <= n < 2 ^ 31 -> meta_content f n = Some b ->
  (forall f', meta_ok (<[n := w]> H) f' -> same_fs n f f' -> Q tt f') ->
  wp (s5_get_meta_disk_block n w) Q f.
Proof.
  intros Hoom Hok Hh Hr Hc HQ. unfold s5_get_meta_disk_block. wp_steps.
  apply wp_mobj_lock; [apply Hok|]. wp_steps.
  assert (HH : forall m, m <> n -> <[n:=w]> H !! m = H !! m).
  { intros m Hne. by apply lookup_insert_ne. }
  change (lget s5f_mobj_lens f) with (s5f_mobj f).
  apply wp_find_pframe; autorewrite with frames; [apply set_mutex_ok, Hok|done|].
  change (frame_of (set_mo_mutex true (s5f_mobj f)) n) with (frame_of (s5f_mobj f) n).
  pose proof Hc as Hc0. unfold meta_content in Hc0.
  destruct (frame_of (s5f_mobj f) n) as [pf|] eqn:Hf.
  - destruct (mk_frames _ _ Hok _ _ Hf) as [Hl Hp Hx Hy Hz]. rewrite Hh in Hx. split; [done|].
    set (g pf := set_pf_dirty (pf_dirty pf || w) (set_pf_mutex true pf)).
    destruct (meta_ok_upd H (<[n:=w]> H) f n g pf) as (Hok' & Hc' & Ho'); [done..| |done|].
    { split; cbn; [done..| | |].
      - by rewrite lookup_insert_eq.
      - rewrite lookup_insert_eq. intros [= ->]. by rewrite orb_true_r.
      - intros [? _]%orb_false_iff. by apply Hz. }
    wp_steps. eapply wp_pf_modify.
    { autorewrite with frames. rewrite frame_upd_eq by auto with frames. by apply fmap_Some; eauto. }
    autorewrite with frames. wp_steps. apply wp_mobj_unlock; autorewrite with frames; [done|].
    rewrite relock_upd by (auto with frames; apply Hok). apply HQ; [done|].
    split; [done..| |done]. intros m. etransitivity; [apply Hc'|]. case_decide; [subst|done].
    by rewrite Hc.
  - wp_steps. apply (wp_create_pframe s5f_mobj_lens); autorewrite with frames; [done|apply set_mutex_ok, Hok|done..|].
    intros t o Hoo. wp_steps. rewrite lset_lset.
    destruct (new_frame_only (set_mo_mutex true (s5f_mobj f)) n n t Hf Hoo) as [Ho Hnew].
    fold o in Ho, Hnew. apply wp_deref with n; [done|]. wp_steps. apply wp_kassert; [by rewrite Hoom|].
    wp_use wp_pf_modify; [by autorewrite with frames|]. autorewrite with frames. wp_steps.
    cbn [lset s5f_mobj_lens s5f_bdev set_s5f_mobj]. rewrite Hc0. wp_steps.
    assert (Hnf : forall g, keeps_pagenum g -> frame_of (upd_frame n g o) n = Some (g (new_frame n n))).
    { intros g Hg. by rewrite frame_upd_eq, Hnew. }
    unfold set_meta_page. change (set_s5f_mobj ?x f) with (lset s5f_mobj_lens x f).
    wp_use wp_pf_modify; [autorewrite with frames; by apply Hnf; auto with frames|].
    autorewrite with frames. rewrite upd_upd_frame by auto with frames.
    wp_use wp_pf_modify; [autorewrite with frames; by apply Hnf; auto with frames|].
    autorewrite with frames. rewrite upd_upd_frame by auto with frames.
    wp_use wp_mobj_unlock; autorewrite with frames; [apply (of_mutex _ _ _ Ho)|].
    set (g := fun pf : pframe => _). set (o' := set_mo_mutex false (upd_frame n g o)).
    assert (Hn' : frame_of o' n = Some (Pframe n n (Some b) w true)) by (by apply Hnf; auto with frames).
    assert (Hm' : forall m, m <> n -> frame_of o' m = frame_of (s5f_mobj f) m).
    { intros m Hne. unfold o'. change (frame_of (upd_frame n g o) m = frame_of (s5f_mobj f) m).
      rewrite frame_upd_ne by (auto with frames; congruence). by apply (of_others _ _ _ Ho). }
    apply HQ.
    + eapply (meta_ok_frame H); [done|apply set_mutex_ok; auto with frames|done..| |done].
      split; cbn; [done|by eexists; split; [|by eapply meta_content_ok]| | |done].
      * by rewrite lookup_insert_eq.
      * rewrite lookup_insert_eq. by intros [= ->].
    + split; [done..| |done]. intros m. etransitivity; [by eapply meta_content_frame|].
      case_decide; [by subst|done].
Qed.

(** [f'] is [f] without a cached page for block [n]. *)
Record page_dropped n f f' : Prop := {
  pd_bdev : s5f_bdev f' = s5f_bdev f;
  pd_super : s5f_super f' = s5f_super f;
  pd_mutex : s5f_mutex f' = s5f_mutex f;
  pd_content : forall m, meta_content f' m
    = if decide (m = n) then read_block (s5f_bdev f) (u32 n) else meta_content f m;
  pd_frames : forall m, frame_of (s5f_mobj f') m = if decide (m = n) then None else frame_of (s5f_mobj f) m;
}.

Lemma frame_of_removed o n t m :
  frame_of (with_frames o (filter (fun pf => pf_pagenum pf <> n) (mo_pframes o)) t) m
  = if decide (m = n) then None else frame_of o m.
Proof.
  unfold frame_of. cbn. case_decide as Hm.
  - subst. apply find_pf_None. rewrite filter_pagenums, list_elem_of_filter. tauto.
  - apply find_filter_ne. congruence.
Qed.

Lemma wp_delete_meta_pframe H n Q f :
  meta_ok H f -> H !! n = None ->
  (forall f', meta_ok H f' -> page_dropped n f f' -> Q tt f') ->
  wp (mobj_delete_pframe s5f_mobj_lens n) Q f.
Proof.
  intros Hok Hh HQ. apply (wp_delete_pframe s5f_mobj_lens); [apply Hok|]. cbn [lget s5f_mobj_lens].
  destruct (frame_of (s5f_mobj f) n) as [pf|] eqn:Hf.
  - destruct (mk_frames _ _ Hok _ _ Hf) as [_ _ Hx _ _]. rewrite Hh in Hx. split; [done|].
    intros t. set (o := with_frames _ _ t). intros Ho. apply HQ.
    + split; cbn; [done|apply Hok| |].
      * intros m pf' Hm. unfold o in Hm. rewrite frame_of_removed in Hm.
        case_decide; [done|]. by apply Hok.
      * intros m Hm. unfold o. rewrite frame_of_removed. case_decide as E; [|by apply Hok].
        subst. by destruct Hm as [? Hm]; rewrite Hh in Hm.
    + split; [done..| |intros m; apply frame_of_removed]. intros m. unfold meta_content.
      change (s5f_mobj (lset s5f_mobj_lens o f)) with o. unfold o. rewrite frame_of_removed.
      by case_decide; [subst|].
  - apply HQ; [done|]. split; [done..| |]; intros m; unfold meta_content;
      (case_decide; [subst; by rewrite Hf|done]).
Qed.

(** ** The file system as its routines see it

    [fs_view U H d s x c f]: the device is [d], the super block in memory is [s]
    and its mutex [x], readers of the blocks see [c], the blocks [H] are held,
    and the blocks [U] are not in the cache. *)
Record fs_view (U : list Z) H (d : bdev) (s : s5_super) (x : bool) (c : Z -> option (list Z)) f : Prop := {
  vw_ok : meta_ok H f;
  vw_bdev : s5f_bdev f = d;
  vw_super : s5f_super f = s;
  vw_mutex : s5f_mutex f = x;
  vw_content : forall n, meta_content f n = c n;
  vw_uncached : forall n, n ∈ U -> frame_of (s5f_mobj f) n = None;
}.

(** The contents with block [n] replaced. *)
Definition set_content (c : Z -> option (list Z)) n (o : option (list Z)) : Z -> option (list Z) :=
  fun m => if decide (m = n) then o else c m.

Lemma set_content_eq c n o : set_content c n o n = o.
Proof. unfold set_content. by rewrite decide_True. Qed.

Lemma set_content_ne c n o m : m <> n -> set_content c n o m = c m.
Proof. intros. unfold set_content. by rewrite decide_False. Qed.

Implicit Types (U : list Z) (d : bdev) (s : s5_super) (x : bool) (c : Z -> option (list Z)).

Lemma fs_view_self H f :
  meta_ok H f -> fs_view [] H (s5f_bdev f) (s5f_super f) (s5f_mutex f) (meta_content f) f.
Proof. intros Hok. split; [done..|]. by intros n ?%not_elem_of_nil. Qed.

Lemma held_cached U H d s x c f n w m :
  fs_view U H d s x c f -> H !! n = Some w -> m ∈ U -> m <> n.
Proof.
  intros [Hok _ _ _ _ HU] Hh Hm ->. destruct (mk_held _ _ Hok n) as [? Hf]; [by rewrite Hh|].
  by rewrite HU in Hf.
Qed.

Lemma view_block_ok U H d s x c f n b : fs_view U H d s x c f -> c n = Some b -> block_ok b.
Proof. intros [Hok _ _ _ Hc _] Hn. eapply meta_content_ok; [done|]. by rewrite Hc. Qed.

Lemma view_get U H d s x c f n w b Q :
  oom = false -> fs_view U H d s x c f -> H !! n = None -> n ∉ U -> 0 <= n < 2 ^ 31 -> c n = Some b ->
  (forall f', fs_view U (<[n := w]> H) d s x c f' -> Q tt f') -> wp (s5_get_meta_disk_block n w) Q f.
Proof.
  intros Hoom [Hok Hd Hs Hx Hc HU] Hh Hu Hr Hn HQ. eapply wp_get_meta_disk_block; [done..|by rewrite Hc|].
  intros f' Hok' []. apply HQ. split; [done|congruence..| |]; intros m.
  - by rewrite sf_content0.
  - intros Hm. rewrite sf_others0 by (by intros ->). by apply HU.
Qed.

Lemma view_page U H d s x c f n w b Q :
  fs_view U H d s x c f -> H !! n = Some w -> c n = Some b -> Q b f -> wp (meta_page n) Q f.
Proof. intros [Hok _ _ _ Hc _] Hh Hn HQ. eapply wp_meta_page; [done..|by rewrite Hc|done]. Qed.

Lemma view_set_page U H d s x c f n b Q :
  fs_view U H d s x c f -> H !! n = Some true -> block_ok b ->
  (forall f', fs_view U H d s x (set_content c n (Some b)) f' -> Q tt f') -> wp (set_meta_page n b) Q f.
Proof.
  intros Hv Hh Hb HQ. pose proof Hv as [Hok Hd Hs Hx Hc HU]. eapply wp_set_meta_page; [done..|]. intros f' Hok' [].
  apply HQ. split; [done|congruence..| |]; intros m.
  - rewrite ps_content0. unfold set_content. by case_decide.
  - intros Hm. rewrite ps_others0; [by apply HU|]. by eapply held_cached.
Qed.

Lemma view_release U H d s x c f n w Q :
  fs_view U H d s x c f -> H !! n = Some w ->
  (forall f', fs_view U (delete n H) d s x c f' -> Q tt f') -> wp (s5_release_disk_block n) Q f.
Proof.
  intros Hv Hh HQ. pose proof Hv as [Hok Hd Hs Hx Hc HU]. eapply wp_release_disk_block; [done..|]. intros f' Hok' [].
  apply HQ. split; [done|congruence..| |]; intros m.
  - by rewrite sf_content0.
  - intros Hm. rewrite sf_others0; [by apply HU|]. by eapply held_cached.
Qed.

Lemma view_delete U H d s x c f n Q :
  fs_view U H d s x c f -> H !! n = None ->
  (forall f', fs_view U H d s x (set_content c n (read_block d (u32 n))) f' -> Q tt f') ->
  wp (mobj_delete_pframe s5f_mobj_lens n) Q f.
Proof.
  intros [Hok Hd Hs Hx Hc HU] Hh HQ. eapply wp_delete_meta_pframe; [done..|]. intros f' Hok' [].
  apply HQ. split; [done|congruence..| |]; intros m.
  - rewrite pd_content0, Hd. unfold set_content. by case_decide.
  - intros Hm. rewrite pd_frames0. case_decide; [done|by apply HU].
Qed.

Lemma view_lock_super U H d s c f Q :
  fs_view U H d s false c f -> (forall f', fs_view U H d s true c f' -> Q tt f') -> wp s5_lock_super Q f.
Proof.
  intros [Hok Hd Hs Hx Hc HU] HQ. unfold wp, s5_lock_super, kmutex_lock. cbn. rewrite Hx.
  apply HQ. by split; [destruct Hok; split|..].
Qed.

Lemma view_unlock_super U H d s c f Q :
  fs_view U H d s true c f -> (forall f', fs_view U H d s false c f' -> Q tt f') -> wp s5_unlock_super Q f.
Proof.
  intros [Hok Hd Hs Hx Hc HU] HQ. unfold wp, s5_unlock_super, kmutex_unlock. cbn. rewrite Hx.
  apply HQ. by split; [destruct Hok; split|..].
Qed.

Lemma view_super U H d s x c f Q : fs_view U H d s x c f -> Q s f -> wp super Q f.
Proof. intros [_ _ Hs _ _ _] HQ. unfold super. wp_steps. by rewrite Hs. Qed.

Lemma view_set_super U H d s x c f s' Q :
  fs_view U H d s x c f -> (forall f', fs_view U H d s' x c f' -> Q tt f') -> wp (set_super s') Q f.
Proof.
  intros [Hok Hd Hs Hx Hc HU] HQ. unfold set_super. wp_steps. apply HQ.
  by split; [destruct Hok; split|..].
Qed.
End meta_rules.

(** * A device

    An array of blocks; a block of the wrong size cannot be read. *)

Definition block_okb (b : list Z) : bool :=
  (length b =? 4096)%nat && forallb (fun z => (0 <=? z) && (z <? 256)) b.

Lemma block_okb_ok b : block_okb b = true -> block_ok b.
Proof.
  unfold block_okb. rewrite andb_true_iff, Nat.eqb_eq, forallb_forall. intros [Hl Hb]. split; [done|].
  apply Forall_forall. intros z Hz%list_elem_of_In%Hb. unfold byte. lia.
Qed.

Definition array_dev : BlockDev := {|
  bdev := Z -> list Z;
  bd_id := 1;
  read_block d n := if block_okb (d n) then Some (d n) else None;
  write_block d n b := (0, fun m => if m =? n then b else d m);
|}.

#[export] Instance array_dev_laws : BlockDevLaws array_dev.
Proof.
  split; cbn.
  - intros d n b. destruct (block_okb (d n)) eqn:Hb; [|done]. intros [= <-]. by apply block_okb_ok.
  - intros d d' n b m Hb [= <-]. destruct (Z.eqb_spec m n) as [->|Hne].
    + rewrite decide_True by done.
      destruct (block_okb b) eqn:E; [done|]. exfalso. destruct Hb as [Hl Hb].
      apply not_true_iff_false in E. apply E. unfold block_okb.
      rewrite andb_true_iff, Nat.eqb_eq, forallb_forall. split; [done|].
      intros z Hz%list_elem_of_In. rewrite Forall_forall in Hb. specialize (Hb z Hz).
      unfold byte in Hb. lia.
    + by rewrite decide_False.
  - intros d d' n b r m [= <- <-] Hne. by rewrite (proj2 (Z.eqb_neq m n)).
Qed.

(** The same with a block that cannot be written. *)
Definition faulty_dev (bad : Z) : BlockDev := {|
  bdev := Z -> list Z;
  bd_id := 0;
  read_block := @read_block array_dev;
  write_block d n b := if n =? bad then (-5, d) else @write_block array_dev d n b;
|}.

#[export] Instance faulty_dev_laws bad : BlockDevLaws (faulty_dev bad).
Proof.
  split.
  - exact (@read_block_ok _ array_dev_laws).
  - intros d d' n b m Hb. cbn. destruct (n =? bad); [done|]. by apply (@read_write_block _ array_dev_laws).
  - intros d d' n b r m. cbn. destruct (n =? bad); [by intros [= _ <-]|]. by apply (@write_block_other _ array_dev_laws).
Qed.

(** A block with the given first bytes, and a file system on an array of blocks
    with nothing cached. *)
Definition pad_block (l : list Z) : list Z := take 4096 (l ++ replicate 4096 0).

Definition fresh_fs (blocks : Z -> list Z) (s : s5_super) : @s5fs array_dev :=
  S5fs array_dev blocks s false mobj_init.

Lemma fresh_fs_ok blocks s : meta_ok ∅ (fresh_fs blocks s).
Proof. split; cbn; [apply mobj_init_ok|done..|]. intros n [? Hn]. by rewrite lookup_empty in Hn. Qed.
