(* ===== verification/S5AllocProofs.v ===== *)
(** The block and inode allocators of S5FS implement the free lists that the
    super block heads ([s5_alloc_block], [s5_free_block], [s5_alloc_inode],
    [s5_free_inode] of [fs/s5fs/s5fs_subr.c]). *)

From S2P Require Import Prelude CString Btree BtreeProofs Mobj MobjProofs S5Disk S5DiskProofs.
From S2P Require Import S5MetaProofs.

(** * Free blocks

    The free list is a chain of nodes of [S5_NBLKS_PER_FNODE] words, the last
    of which is the next node's block; the first node is in the super block,
    with [s5s_nfree] of its blocks in use. *)

(** [chain c k ks l]: the nodes from block [k] on are the blocks [ks], and they
    list the free blocks [l] in the order in which they are handed out. *)
Inductive chain (c : Z -> option (list Z)) : Z -> list Z -> list Z -> Prop :=
| chain_nil : chain c minus1_32 [] []
| chain_cons k b ks l link :
    k <> minus1_32 -> 0 <= k < 2 ^ 31 -> c k = Some b ->
    words_of b 0 S5_NBLKS_PER_FNODE !! 29%nat = Some link -> chain c link ks l ->
    chain c k (k :: ks) (rev (take 29 (words_of b 0 S5_NBLKS_PER_FNODE)) ++ l).

Record free_list (c : Z -> option (list Z)) (s : s5_super) (ks l : list Z) : Prop := {
  fl_nfree : 0 <= s5s_nfree s <= 29;
  fl_blocks : length (s5s_free_blocks s) = S5_NBLKS_PER_FNODE /\ Forall word (s5s_free_blocks s);
  fl_chain : exists link rest, s5s_free_blocks s !! 29%nat = Some link /\ chain c link ks rest
    /\ l = rev (take (Z.to_nat (s5s_nfree s)) (s5s_free_blocks s)) ++ rest;
}.

Lemma chain_ext c c' k ks l :
  (forall n, n ∈ ks -> c' n = c n) -> chain c k ks l -> chain c' k ks l.
Proof.
  intros Hc Hch. induction Hch as [|k b ks l link Hk Hr Hb Hl Hch IH]; [constructor|].
  econstructor; [done..| |done|].
  - rewrite Hc; [done|left].
  - apply IH. intros n Hn. apply Hc. by right.
Qed.

Lemma rev_take_S (l : list Z) n x : l !! n = Some x -> rev (take (S n) l) = x :: rev (take n l).
Proof. intros Hx. rewrite (take_S_r _ _ _ Hx), rev_app_distr. done. Qed.

Section alloc.
Context {mem : Memory} {pages : Pages} {bd : BlockDev} `{laws : !BlockDevLaws bd}.
Context (Hoom : oom = false).
Implicit Types (f : s5fs) (n m : Z) (H : gmap Z bool) (U : list Z).


(** The part of [s5_alloc_block] that takes a block from the super block. *)
Lemma view_pop_block U H d s c ks l f Q :
  fs_view U H d s true c f -> free_list c s ks l -> 0 < s5s_nfree s ->
  match l with
  | [] => False
  | b :: l => forall f' n ws, fs_view U H d (set_free_list n ws s) false c f' -> word b ->
      free_list c (set_free_list n ws s) ks l -> Q b f'
  end ->
  wp (let! s := super in
      let nfree := s5s_nfree s - 1 in
      let! blockno := deref (s5s_free_blocks s !! Z.to_nat nfree) in
      do! set_super (set_free_list nfree (s5s_free_blocks s) s);
      do! s5_unlock_super;
      ret blockno) Q f.
Proof.
  intros Hv [Hn [Hl Hw] (link & rest & Hlink & Hch & Heq)] Hpos HQ.
  destruct (lookup_lt_is_Some_2 (s5s_free_blocks s) (Z.to_nat (s5s_nfree s - 1))) as [b Hb].
  { rewrite Hl. unfold S5_NBLKS_PER_FNODE. lia. }
  replace (Z.to_nat (s5s_nfree s)) with (S (Z.to_nat (s5s_nfree s - 1))) in Heq by lia.
  rewrite (rev_take_S _ _ _ Hb) in Heq. subst l. cbn [app] in HQ.
  wp_use view_super; [done|]. wp_use wp_deref; [done|]. wp_use view_set_super; [done|].
  clear f Hv. intros f Hv. wp_use view_unlock_super; [done|]. clear f Hv. intros f Hv. wp_steps.
  eapply HQ; [done|by eapply Forall_lookup_1|]. split; cbn; [lia|done|]. by exists link, rest.
Qed.

(** Taking the first free block, or [-ENOSPC] when there is none. *)
Lemma view_alloc_block U H d s c ks l f Q :
  fs_view U H d s false c f -> free_list c s ks l -> (forall k, k ∈ ks -> H !! k = None /\ k ∉ U) ->
  match l with
  | [] => forall f', fs_view U H d s false c f' -> Q (- ENOSPC) f'
  | b :: l => forall f' n ws ks', fs_view U H d (set_free_list n ws s) false c f' -> word b ->
      free_list c (set_free_list n ws s) ks' l -> (forall k, k ∈ ks' -> k ∈ ks) -> Q b f'
  end -> wp s5_alloc_block Q f.
Proof.
  intros Hv Hfl Hks HQ. unfold s5_alloc_block.
  wp_use view_lock_super; [done|]. clear f Hv. intros f Hv. wp_use view_super; [done|].
  destruct (Z.eqb_spec (s5s_nfree s) 0) as [E|E].
  - destruct Hfl as [Hn [Hl Hw] (link & rest & Hlink & Hch & Heq)].
    rewrite E in Heq. cbn in Heq. subst l. wp_use wp_deref; [done|].
    inversion Hch as [Hk|k b ks0 l0 link0 Hk Hr Hb Hl0 Hch0]; subst.
    + rewrite Z.eqb_refl. wp_use view_unlock_super; [done|]. clear f Hv. intros f Hv. wp_steps. by apply HQ.
    + rewrite (proj2 (Z.eqb_neq _ _)) by done.
      destruct (Hks link) as [Hh Hu]; [left|].
      wp_use view_get; [done..|]. clear f Hv. intros f Hv.
      wp_use view_page; [done|by rewrite lookup_insert_eq|done|].
      wp_use view_set_super; [done|]. intros f' Hv'.
      wp_use view_release; [done|by rewrite lookup_insert_eq|]. rewrite delete_insert_id by done.
      clear f f' Hv Hv'. intros f Hv. wp_steps.
      eapply (view_pop_block U H d _ c ks0 (rev (take 29 (words_of b 0 S5_NBLKS_PER_FNODE)) ++ l0));
        [done| |done|].
      { assert (Hbl : block_ok b) by (by eapply view_block_ok). split; cbn [set_free_list s5s_nfree s5s_free_blocks];
          [unfold S5_NBLKS_PER_FNODE; lia| |by eauto].
        split; [apply length_words_of|]. apply words_of_range; [apply Hbl|].
        destruct Hbl as [-> _]. unfold S5_NBLKS_PER_FNODE. lia. }
      assert (Hlen : length (words_of b 0 S5_NBLKS_PER_FNODE) = 30%nat) by apply length_words_of.
      destruct (lookup_lt_is_Some_2 (words_of b 0 S5_NBLKS_PER_FNODE) 28%nat) as [y Hy]; [lia|].
      rewrite (rev_take_S _ _ _ Hy) in HQ |- *. cbn [app] in HQ |- *.
      intros f' n ws Hv' Hw' Hfl'. eapply HQ; [exact Hv'|done|exact Hfl'|]. intros k Hk'. by right.
  - wp_steps. eapply view_pop_block; [done..|destruct Hfl; lia|].
    destruct l as [|b l].
    + destruct Hfl as [Hn [Hl Hw] (link & rest & Hlink & Hch & Heq)]. apply (f_equal length) in Heq.
      rewrite length_app, length_rev, length_take, Hl in Heq. unfold S5_NBLKS_PER_FNODE in Heq.
      cbn in Heq. lia.
    + intros f' n ws Hv' Hw' Hfl'. by eapply HQ.
Qed.

Lemma bytes_of_words_bytes ws : Forall byte (bytes_of_words ws).
Proof.
  induction ws as [|w ws IH]; [constructor|]. rewrite bytes_of_words_cons.
  apply Forall_app. split; [apply le_of_Z_bytes|done].
Qed.

(** Storing a node of the free list in a block. *)
Lemma node_block b ws :
  block_ok b -> length ws = S5_NBLKS_PER_FNODE -> Forall word ws ->
  block_ok (splice b 0 (bytes_of_words ws))
  /\ words_of (splice b 0 (bytes_of_words ws)) 0 S5_NBLKS_PER_FNODE = ws.
Proof.
  intros [Hl Hb] Hlen Hw. split; [split|].
  - rewrite length_splice; [done|]. rewrite length_bytes_of_words, Hl, Hlen.
    unfold S5_NBLKS_PER_FNODE. lia.
  - apply Forall_splice; [done|apply bytes_of_words_bytes].
  - unfold splice. rewrite take_0. rewrite words_of_bytes by done. by apply map_u32.
Qed.

(** What freeing block [b] leaves: the contents, the super block, the nodes and
    the free blocks. *)
Definition freed (d : bdev) (c : Z -> option (list Z)) (s : s5_super) (ks l : list Z) (b : Z) :
    (Z -> option (list Z)) * s5_super * list Z * list Z :=
  if s5s_nfree s =? 29 then
    (set_content c b ((fun pg => splice pg 0 (bytes_of_words (s5s_free_blocks s))) <$> c b),
     set_free_list 0 (<[29%nat := b]> (s5s_free_blocks s)) s, b :: ks, l)
  else
    (set_content c b (read_block d (u32 b)),
     set_free_list (s5s_nfree s + 1) (<[Z.to_nat (s5s_nfree s) := b]> (s5s_free_blocks s)) s,
     ks, b :: l).

Lemma freed_list d c s ks l b pg :
  free_list c s ks l -> 0 < b < 2 ^ 31 -> b ∉ ks -> c b = Some pg -> block_ok pg ->
  let '(c', s', ks', l') := freed d c s ks l b in free_list c' s' ks' l'.
Proof.
  intros [Hn [Hl Hw] (link & rest & Hlink & Hch & Heq)] Hb Hnot Hpg Hbk. unfold freed.
  assert (Hw' : forall i, Forall word (<[i := b]> (s5s_free_blocks s))).
  { intros i. apply Forall_insert; [done|]. split; lia. }
  destruct (Z.eqb_spec (s5s_nfree s) 29) as [E|E].
  - destruct (node_block pg (s5s_free_blocks s) Hbk Hl Hw) as [Hok Hws].
    split; cbn [set_free_list s5s_nfree s5s_free_blocks]; [lia|by rewrite length_insert|].
    exists b, l. split_and!; [|rewrite Heq, E|done].
    { apply list_lookup_insert_eq. rewrite Hl. unfold S5_NBLKS_PER_FNODE. lia. }
    change (Z.to_nat 29) with 29%nat. rewrite <- Hws in Hlink. rewrite Hpg. cbn [fmap option_fmap option_map].
    assert (Hnode := chain_cons (set_content c b (Some (splice pg 0 (bytes_of_words (s5s_free_blocks s)))))
              b _ ks rest link ltac:(unfold minus1_32; lia)
              ltac:(lia) (set_content_eq c b _) Hlink).
    rewrite Hws in Hnode. apply Hnode.
    eapply chain_ext; [|done]. intros n Hin. apply set_content_ne. by intros ->.
  - split; cbn [set_free_list s5s_nfree s5s_free_blocks]; [lia|by rewrite length_insert|].
    exists link, rest. split_and!.
    + rewrite list_lookup_insert_ne by lia. done.
    + eapply chain_ext; [|done]. intros n Hin. apply set_content_ne. by intros ->.
    + replace (Z.to_nat (s5s_nfree s + 1)) with (S (Z.to_nat (s5s_nfree s))) by lia.
      erewrite rev_take_S; [|apply list_lookup_insert_eq; rewrite Hl; unfold S5_NBLKS_PER_FNODE; lia].
      by rewrite take_insert_ge, Heq by lia.
Qed.

Lemma view_free_block U H d s c ks l b pg f Q :
  fs_view U H d s false c f -> free_list c s ks l -> 0 < b < 2 ^ 31 -> H !! b = None -> b ∉ U -> c b = Some pg ->
  (let '(c', s', _, _) := freed d c s ks l b in
   forall f', fs_view U H d s' false c' f' -> Q tt f') ->
  wp (s5_free_block b) Q f.
Proof.
  intros Hv [Hn [Hl Hw] _] Hb Hh Hu Hpg HQ. unfold s5_free_block, freed in *.
  wp_use view_lock_super; [done|]. clear f Hv. intros f Hv. wp_use view_super; [done|].
  wp_use wp_kassert; [rewrite (proj2 (Z.eqb_neq _ _)) by lia; done|].
  wp_use wp_kassert; [apply Z.ltb_lt; unfold S5_NBLKS_PER_FNODE; lia|].
  change (Z.of_nat S5_NBLKS_PER_FNODE - 1) with 29.
  destruct (Z.eqb_spec (s5s_nfree s) 29) as [E|E].
  - assert (Hbk : block_ok pg) by (by eapply view_block_ok).
    destruct (node_block pg (s5s_free_blocks s) Hbk Hl Hw) as [Hok _].
    wp_use view_get; [done..|lia|done|]. clear f Hv. intros f Hv.
    wp_use view_page; [done|by rewrite lookup_insert_eq|done|].
    wp_use view_set_page; [done|by rewrite lookup_insert_eq|done|]. clear f Hv. intros f Hv.
    wp_use view_release; [done|by rewrite lookup_insert_eq|]. rewrite delete_insert_id by done.
    clear f Hv. intros f Hv. wp_use view_set_super; [done|]. clear f Hv. intros f Hv.
    wp_use view_unlock_super; [done|]. rewrite Hpg in HQ. done.
  - wp_use view_set_super; [done|]. clear f Hv. intros f Hv.
    wp_use view_delete; [done..|]. clear f Hv. intros f Hv.
    by wp_use view_unlock_super.
Qed.

(** ** Properties of the block allocator *)

Lemma free_list_ext c c' s ks l : (forall n, c' n = c n) -> free_list c s ks l -> free_list c' s ks l.
Proof.
  intros Hc [? ? (link & rest & ? & ? & ?)]. split; [done..|]. exists link, rest.
  split_and!; [done| |done]. eapply chain_ext; [|done]. auto.
Qed.

(** [s5_alloc_block] hands out the first block of the free list and leaves the
    rest, or returns [-ENOSPC] when the list is empty.  It never faults or fails
    an assertion, and no block changes. *)
Theorem s5_alloc_block_correct f ks l :
  meta_ok ∅ f -> s5f_mutex f = false -> free_list (meta_content f) (s5f_super f) ks l ->
  exists f' ks', s5_alloc_block f = Done (default (- ENOSPC) (head l)) f'
    /\ meta_ok ∅ f' /\ s5f_mutex f' = false /\ (forall n, meta_content f' n = meta_content f n)
    /\ free_list (meta_content f') (s5f_super f') ks' (tail l).
Proof.
  intros Hok Hm Hfl. pose proof (fs_view_self _ _ Hok) as Hv. rewrite Hm in Hv.
  assert (Hwp : wp s5_alloc_block (fun r f' => r = default (- ENOSPC) (head l) /\ exists ks',
            meta_ok ∅ f' /\ s5f_mutex f' = false /\ (forall n, meta_content f' n = meta_content f n)
            /\ free_list (meta_content f') (s5f_super f') ks' (tail l)) f).
  { eapply view_alloc_block; [done..|by intros; split; [|apply not_elem_of_nil]|]. destruct l as [|b l].
    - intros f' [? ? -> ? Hc _]. split; [done|]. exists ks. split_and!; [done..|]. by eapply free_list_ext.
    - intros f' n ws ks' [? ? -> ? Hc _] _ Hfl' _. split; [done|]. exists ks'.
      split_and!; [done..|]. by eapply free_list_ext. }
  apply wp_run in Hwp as (r & f' & -> & -> & ks' & ?). by exists f', ks'.
Qed.

(** [s5_free_block] puts the block at the head of the free list, except when the
    super block already holds 29 blocks: then the block becomes a node of the
    list and is not one of the blocks the list will hand out.  Only the freed
    block's contents change. *)
Theorem s5_free_block_correct f ks l b pg :
  meta_ok ∅ f -> s5f_mutex f = false -> free_list (meta_content f) (s5f_super f) ks l ->
  0 < b < 2 ^ 31 -> b ∉ ks -> meta_content f b = Some pg ->
  exists f' ks', s5_free_block b f = Done tt f'
    /\ meta_ok ∅ f' /\ s5f_mutex f' = false
    /\ (forall n, n <> b -> meta_content f' n = meta_content f n)
    /\ free_list (meta_content f') (s5f_super f') ks'
         (if s5s_nfree (s5f_super f) =? 29 then l else b :: l).
Proof.
  intros Hok Hm Hfl Hb Hks Hpg. pose proof (fs_view_self _ _ Hok) as Hv. rewrite Hm in Hv.
  pose proof (freed_list (s5f_bdev f) _ _ _ _ _ _ Hfl Hb Hks Hpg (meta_content_ok _ _ _ _ Hok Hpg)) as Hfl'.
  assert (Hc : (forall n, n <> b -> (freed (s5f_bdev f) (meta_content f) (s5f_super f) ks l b).1.1.1 n
                  = meta_content f n)
    /\ (freed (s5f_bdev f) (meta_content f) (s5f_super f) ks l b).2
       = if s5s_nfree (s5f_super f) =? 29 then l else b :: l).
  { unfold freed. destruct (s5s_nfree (s5f_super f) =? 29); split; try done;
      intros n Hn; by apply set_content_ne. }
  destruct (freed _ _ _ _ _ _) as [[[c' s'] ks'] l'] eqn:Hfr. cbn in Hc. destruct Hc as [Hc ->].
  assert (Hwp : wp (s5_free_block b) (fun _ f' => fs_view [] ∅ (s5f_bdev f) s' false c' f') f).
  { eapply view_free_block; [done..|by apply not_elem_of_nil|done|]. by rewrite Hfr. }
  apply wp_run in Hwp as ([] & f' & -> & [? ? Hs' ? Hc' _]). exists f', ks'. rewrite Hs'. split_and!; [done..| |].
  - intros n Hn. by rewrite Hc', Hc.
  - by eapply free_list_ext.
Qed.

(** * Free inodes

    The free inodes are linked through their [s5_next_free] word, which is the
    word of the size. *)

Definition inode_at (c : Z -> option (list Z)) (ino : Z) : option s5_inode :=
  (fun b => inode_in b ino) <$> c (S5_INODE_BLOCK ino).

Inductive inode_list (c : Z -> option (list Z)) : Z -> list Z -> Prop :=
| il_nil : inode_list c minus1_32 []
| il_cons ino i l :
    0 <= ino < minus1_32 -> inode_at c ino = Some i -> s5_number i = ino ->
    ino ∉ l -> inode_list c (s5_size i) l -> inode_list c ino (ino :: l).

Lemma inode_list_ext c c' k l :
  (forall j, j ∈ l -> inode_at c' j = inode_at c j) -> inode_list c k l -> inode_list c' k l.
Proof.
  intros Hc Hl. induction Hl as [|ino i l Hr Hi Hn Hnot Hl IH]; [constructor|].
  econstructor; [done| |done..|].
  - rewrite Hc; [done|left].
  - apply IH. intros j Hj. apply Hc. by right.
Qed.

Lemma inode_list_nonneg c k l j : inode_list c k l -> j ∈ l -> 0 <= j.
Proof.
  induction 1 as [|ino i l Hr Hi Hn Hnot Hl IH]; [by intros ?%not_elem_of_nil|].
  intros [->|Hj]%elem_of_cons; [lia|by apply IH].
Qed.

Lemma inode_list_head c k ino l :
  inode_list c k (ino :: l) -> 0 <= ino < minus1_32 /\ exists b, c (S5_INODE_BLOCK ino) = Some b.
Proof.
  inversion 1 as [|? i ? Hr Hi]; subst. split; [done|]. unfold inode_at in Hi.
  destruct (c _); [by eexists|done].
Qed.

(** The contents with inode [ino] replaced. *)
Definition put_inode_at (c : Z -> option (list Z)) (ino : Z) (i : s5_inode) : Z -> option (list Z) :=
  set_content c (S5_INODE_BLOCK ino) ((fun b => put_inode_in b ino i) <$> c (S5_INODE_BLOCK ino)).

Lemma inode_at_put c ino i j b :
  0 <= ino -> 0 <= j -> c (S5_INODE_BLOCK ino) = Some b -> block_ok b -> inode_fits i ->
  inode_at (put_inode_at c ino i) j = if decide (j = ino) then Some i else inode_at c j.
Proof.
  intros Hino Hj Hb Hok Hi. unfold inode_at, put_inode_at. rewrite Hb. cbn [fmap option_fmap option_map].
  case_decide as Hne; [subst j; rewrite set_content_eq; cbn; by rewrite inode_in_put_eq|].
  destruct (decide (S5_INODE_BLOCK j = S5_INODE_BLOCK ino)) as [E|E].
  - rewrite E, set_content_eq, Hb. cbn. f_equal. apply inode_in_put_ne; [done..|].
    intros Ho. apply Hne. by apply inode_offset_inj.
  - by rewrite set_content_ne.
Qed.

Lemma inode_block_range ino : 0 <= ino < 2 ^ 32 -> 0 <= S5_INODE_BLOCK ino < 2 ^ 31.
Proof.
  intros. unfold S5_INODE_BLOCK, S5_INODES_PER_BLOCK.
  pose proof (Z.div_le_upper_bound ino 32 (2 ^ 27)). pose proof (Z.div_pos ino 32). lia.
Qed.

Lemma view_get_inode U H d s x c ino w i f Q :
  fs_view U H d s x c f -> H !! S5_INODE_BLOCK ino = None -> S5_INODE_BLOCK ino ∉ U -> 0 <= ino < 2 ^ 32 ->
  inode_at c ino = Some i -> s5_number i = ino ->
  (forall f', fs_view U (<[S5_INODE_BLOCK ino := w]> H) d s x c f' -> Q i f') ->
  wp (s5_get_inode ino w) Q f.
Proof.
  intros Hv Hh Hu Hr Hi Hn HQ. unfold inode_at in Hi. destruct (c (S5_INODE_BLOCK ino)) as [b|] eqn:Hb; [|done].
  injection Hi as Hi. unfold s5_get_inode. wp_use view_get; [done..|by apply inode_block_range|done|].
  clear f Hv. intros f Hv. wp_use view_page; [done|by rewrite lookup_insert_eq|done|].
  rewrite Hi. wp_use wp_kassert; [by rewrite Hn, Z.eqb_refl|]. wp_steps. by apply HQ.
Qed.

Lemma view_put_inode U H d s x c ino i f Q :
  fs_view U H d s x c f -> H !! S5_INODE_BLOCK ino = Some true -> is_Some (c (S5_INODE_BLOCK ino)) ->
  inode_fits i ->
  (forall f', fs_view U H d s x (put_inode_at c ino i) f' -> Q tt f') -> wp (put_inode ino i) Q f.
Proof.
  intros Hv Hh [b Hb] Hi HQ. unfold put_inode. wp_use view_page; [done..|].
  wp_use view_set_page; [done..|apply put_inode_in_ok; [by eapply view_block_ok|done]|].
  intros f' Hv'. apply HQ. unfold put_inode_at. by rewrite Hb.
Qed.

Lemma view_release_inode U H d s x c ino w i f Q :
  fs_view U H d s x c f -> H !! S5_INODE_BLOCK ino = Some w -> inode_at c ino = Some i -> s5_number i = ino ->
  (forall f', fs_view U (delete (S5_INODE_BLOCK ino) H) d s x c f' -> Q tt f') ->
  wp (s5_release_inode ino) Q f.
Proof.
  intros Hv Hh Hi Hn HQ. unfold inode_at in Hi. destruct (c (S5_INODE_BLOCK ino)) as [b|] eqn:Hb; [|done].
  injection Hi as Hi. unfold s5_release_inode. wp_use view_page; [done..|].
  rewrite Hi, Hn. wp_use wp_kassert; [apply Nat.eqb_refl|]. by wp_use view_release.
Qed.

(** The inode [s5_alloc_inode] makes. *)
Definition new_inode (type devid ino : Z) : s5_inode :=
  S5Inode 0 ino type 0 zero_direct
    (if (type =? S5_TYPE_CHR) || (type =? S5_TYPE_BLK) then u32 devid else 0).

Definition data_type (type : Z) : bool :=
  (type =? S5_TYPE_DATA) || (type =? S5_TYPE_DIR) || (type =? S5_TYPE_CHR) || (type =? S5_TYPE_BLK).

Lemma new_inode_fits type devid ino :
  data_type type = true -> 0 <= ino < 2 ^ 32 -> inode_fits (new_inode type devid ino).
Proof.
  intros Ht Hr. split; cbn; try (unfold word; lia).
  - unfold data_type, S5_TYPE_DATA, S5_TYPE_DIR, S5_TYPE_CHR, S5_TYPE_BLK in Ht. lia.
  - split; [done|]. apply (Forall_replicate word S5_NDIRECT_BLOCKS 0). unfold word. lia.
  - case_match; [apply u32_range|unfold word; lia].
Qed.

Lemma view_alloc_inode U H d s c l type devid f Q :
  fs_view U H d s false c f -> inode_list c (s5s_free_inode s) l -> data_type type = true ->
  (forall ino, ino ∈ l -> H !! S5_INODE_BLOCK ino = None /\ S5_INODE_BLOCK ino ∉ U) ->
  match l with
  | [] => forall f', fs_view U H d s false c f' -> Q (- ENOSPC) f'
  | ino :: l => forall f' next,
      let c' := put_inode_at c ino (new_inode type devid ino) in
      fs_view U H d (set_free_inode next s) false c' f' -> inode_list c' next l -> Q ino f'
  end -> wp (s5_alloc_inode type devid) Q f.
Proof.
  intros Hv Hil Ht Hh HQ. unfold s5_alloc_inode. wp_use wp_kassert; [done|].
  wp_use view_lock_super; [done|]. clear f Hv. intros f Hv. wp_use view_super; [done|].
  inversion Hil as [Hk|ino i l0 Hr Hi Hn Hnot Hl0 Hk]; subst l; rewrite <- Hk in *.
  - rewrite Z.eqb_refl. wp_use view_unlock_super; [done|]. intros f' Hv'. wp_steps. by apply HQ.
  - unfold minus1_32 in Hr. rewrite (proj2 (Z.eqb_neq _ _)) by (unfold minus1_32; lia).
    destruct (Hh ino) as [HH Hu]; [left|].
    assert (Hb : exists b, c (S5_INODE_BLOCK ino) = Some b).
    { unfold inode_at in Hi. destruct (c (S5_INODE_BLOCK ino)); [by eexists|done]. }
    destruct Hb as [b Hb]. assert (Hbk : block_ok b) by (by eapply view_block_ok).
    assert (Hnf := new_inode_fits type devid ino Ht ltac:(lia)).
    assert (Hat := fun j Hj => inode_at_put c ino (new_inode type devid ino) j b (proj1 Hr) Hj Hb Hbk Hnf).
    wp_use view_get_inode; [done..|lia|done|done|]. clear f Hv. intros f Hv.
    wp_use view_set_super; [done|]. clear f Hv. intros f Hv.
    wp_use wp_kassert.
    { rewrite Hn. inversion Hl0 as [E|? ? ? ? ? ? ? ? E]; [unfold minus1_32 in *; lia|].
      subst. destruct (Z.eqb_spec (s5_size i) (s5_number i)) as [E|]; [|done].
      exfalso. apply Hnot. rewrite <- E. left. }
    rewrite Hn. wp_use view_put_inode; [done|by rewrite lookup_insert_eq|by rewrite Hb|done|].
    clear f Hv. intros f Hv.
    wp_use view_release_inode; [done|by rewrite lookup_insert_eq|by rewrite Hat, decide_True by lia|done|].
    rewrite delete_insert_id by done. clear f Hv. intros f Hv.
    wp_use view_unlock_super; [done|]. clear f Hv. intros f Hv. wp_steps.
    eapply HQ; [exact Hv|]. eapply inode_list_ext; [|done]. intros j Hj.
    rewrite Hat by (by eapply inode_list_nonneg). rewrite decide_False; [done|]. by intros ->.
Qed.

(** [s5_alloc_inode] takes the first inode of the free list and initialises it:
    no links, no blocks, size zero, and for a device its number.  Every other
    inode is unchanged, and the list keeps its remaining inodes.  With no free
    inode the result is [-ENOSPC] and nothing changes. *)
Theorem s5_alloc_inode_correct f l type devid :
  meta_ok ∅ f -> s5f_mutex f = false -> inode_list (meta_content f) (s5s_free_inode (s5f_super f)) l ->
  data_type type = true ->
  exists f', s5_alloc_inode type devid f = Done (default (- ENOSPC) (head l)) f'
    /\ meta_ok ∅ f' /\ s5f_mutex f' = false
    /\ inode_list (meta_content f') (s5s_free_inode (s5f_super f')) (tail l)
    /\ (forall ino, head l = Some ino -> inode_at (meta_content f') ino = Some (new_inode type devid ino))
    /\ (forall j, 0 <= j -> head l <> Some j -> inode_at (meta_content f') j = inode_at (meta_content f) j).
Proof.
  intros Hok Hm Hil Ht. pose proof (fs_view_self _ _ Hok) as Hv. rewrite Hm in Hv.
  assert (Hext : forall f' c', (forall n, meta_content f' n = c' n) ->
            forall j, inode_at (meta_content f') j = inode_at c' j).
  { intros f' c' Hc j. unfold inode_at. by rewrite Hc. }
  apply wp_result. eapply view_alloc_inode; [done..|by intros; split; [|apply not_elem_of_nil]|].
  destruct l as [|ino l].
  - intros f' [? ? -> ? Hc _]. split_and!; [done..| |done|by auto].
    eapply inode_list_ext; [|done]. auto.
  - intros f' next c' [? ? -> ? Hc _] Hil'. pose proof (Hext _ _ Hc) as Hat.
    do 4 (split; [done || (eapply inode_list_ext; [|done]; auto)|]).
    destruct (inode_list_head _ _ _ _ Hil) as (Hr & b & Hb). unfold minus1_32 in Hr.
    assert (Hput := fun j Hj => inode_at_put (meta_content f) ino (new_inode type devid ino) j b ltac:(lia)
              Hj Hb (meta_content_ok _ _ _ _ Hok Hb) (new_inode_fits type devid ino Ht ltac:(lia))).
    split_and!.
    + intros ? [= <-]. rewrite Hat, Hput, decide_True by lia. done.
    + intros j Hj Hne. rewrite Hat, Hput by lia. rewrite decide_False; [done|].
      intros ->. by apply Hne.
Qed.

(** ** Freeing an inode with its blocks *)

(** The allocated blocks of a block map. *)
Definition nz (bl : list Z) : list Z := filter (fun b => b <> 0) bl.

(** Blocks that can be freed: they exist, nobody holds them, and they are no
    nodes of the free list. *)
Definition freeable U H (c : Z -> option (list Z)) (ks : list Z) (b : Z) : Prop :=
  0 < b < 2 ^ 31 /\ H !! b = None /\ b ∉ U /\ is_Some (c b) /\ b ∉ ks.

(** Every block of [bl] is on the list of free blocks or a node of it. *)
Definition given_back (ks ks' p bl : list Z) : Prop :=
  (forall k, k ∈ ks -> k ∈ ks') /\ (forall b, b ∈ bl -> b ∈ p \/ b ∈ ks').

Lemma given_back_app ks ks1 ks2 p1 p2 bl1 bl2 :
  given_back ks ks1 p1 bl1 -> given_back ks1 ks2 p2 bl2 -> given_back ks ks2 (p2 ++ p1) (bl1 ++ bl2).
Proof.
  intros [Hk1 Hb1] [Hk2 Hb2]. split; [auto|]. intros b [Hb%Hb1|Hb%Hb2]%elem_of_app; rewrite elem_of_app;
    naive_solver.
Qed.

Lemma view_free_blocks U H d s c ks l bl f Q :
  fs_view U H d s false c f -> free_list c s ks l -> NoDup (nz bl) ->
  (forall b, b ∈ nz bl -> freeable U H c ks b) ->
  (forall f' n ws c' ks' p, let s' := set_free_list n ws s in
     fs_view U H d s' false c' f' -> free_list c' s' ks' (p ++ l) ->
     (forall m, m ∉ nz bl -> c' m = c m) -> (forall k, k ∈ ks' -> k ∈ ks ++ nz bl) ->
     (forall b, b ∈ p -> b ∈ nz bl) -> given_back ks ks' p (nz bl) -> Q tt f') ->
  wp (free_blocks bl) Q f.
Proof.
  revert s c ks l f. induction bl as [|b bl IH]; intros s c ks l f Hv Hfl Hnd Hfree HQ.
  - unfold free_blocks. cbn. wp_steps. rewrite <- (app_nil_l l) in Hfl.
    assert (Hs : s = set_free_list (s5s_nfree s) (s5s_free_blocks s) s) by (by destruct s).
    rewrite Hs in Hv, Hfl. eapply HQ; [done..|intros ? ?; by apply elem_of_app; left|done|].
    split; [done|]. intros ? Hin. cbn in Hin. by apply not_elem_of_nil in Hin.
  - unfold free_blocks. cbn [for_each]. fold (free_blocks bl).
    unfold nz in *. rewrite filter_cons in *. destruct (Z.eqb_spec b 0) as [->|Hb].
    + rewrite decide_False in * by tauto. wp_steps. by eapply IH.
    + rewrite decide_True in * by done. apply NoDup_cons in Hnd as [Hnot Hnd].
      destruct (Hfree b) as (Hr & Hh & Hu & [pg Hpg] & Hks); [left|].
      wp_use view_free_block; [done..|].
      pose proof (freed_list d _ _ _ _ _ _ Hfl Hr Hks Hpg ltac:(by eapply view_block_ok)) as Hfl'.
      assert (Hfr : exists n ws p, let '(c', s', ks', l') := freed d c s ks l b in
                s' = set_free_list n ws s /\ (forall m, m <> b -> c' m = c m)
                /\ (forall k, k ∈ ks' -> k ∈ b :: ks) /\ l' = p ++ l /\ (forall x, x ∈ p -> x = b)
                /\ given_back ks ks' p [b]).
      { unfold freed. destruct (s5s_nfree s =? 29).
        - eexists _, _, []. split_and!; [done| |done..|by intros ? ?%not_elem_of_nil|].
          { intros m Hm. by apply set_content_ne. }
          split; [by right|]. intros x ->%list_elem_of_singleton. right. left.
        - eexists _, _, [b]. split_and!; [done| |by intros; right|done|by intros ? ?%list_elem_of_singleton|].
          { intros m Hm. by apply set_content_ne. }
          split; [done|]. by left. }
      destruct (freed d c s ks l b) as [[[c' s'] ks'] l'].
      destruct Hfr as (n & ws & p & -> & Hc & Hks' & -> & Hp & Hgb). clear f Hv. intros f Hv.
      eapply IH; [done..| |].
      { intros b' Hb'. destruct (Hfree b') as (? & ? & ? & ? & ?); [by right|].
        assert (b' <> b) by (by intros ->). do 3 (split; [done|]). split; [by rewrite Hc|].
        intros Hk%Hks'. apply elem_of_cons in Hk. naive_solver. }
      intros f' n' ws' c'' ks'' p'. cbn zeta. intros Hv' Hfl'' Hc'' Hks'' Hp' Hgb'.
      rewrite app_assoc in Hfl''. eapply HQ; [exact Hv'|exact Hfl''| | | |].
      * intros m Hm. apply not_elem_of_cons in Hm as [? ?]. rewrite Hc'' by done. by apply Hc.
      * intros k Hk%Hks''. apply elem_of_app in Hk as [Hk%Hks'|Hk]; set_solver.
      * intros x [Hx|Hx]%elem_of_app; [right; by apply Hp'|].
        rewrite (Hp _ Hx). left.
      * by apply (given_back_app _ _ _ _ _ [b] (nz bl) Hgb).
Qed.

(** The inode [s5_free_inode] leaves on the free list. *)
Definition free_inode_of (i : s5_inode) (next : Z) : s5_inode :=
  S5Inode next (s5_number i) S5_TYPE_FREE (s5_linkcount i) (s5_direct_blocks i) (s5_indirect_block i).

(** The blocks [s5_free_inode] frees: those of the inode on the disk. *)
Definition owns_blocks (i : s5_inode) : bool := (s5_type i =? S5_TYPE_DATA) || (s5_type i =? S5_TYPE_DIR).

Definition map_blocks (c : Z -> option (list Z)) (direct : list Z) (indirect : Z) : list Z :=
  nz direct
  ++ (if indirect =? 0 then []
      else nz (default [] ((fun b => words_of b 0 S5_NIDIRECT_BLOCKS) <$> c indirect)) ++ [indirect]).

Definition inode_blocks c (i : s5_inode) : list Z :=
  if owns_blocks i then map_blocks c (s5_direct_blocks i) (s5_indirect_block i) else [].

Lemma free_inode_of_fits i next : inode_fits i -> word next -> inode_fits (free_inode_of i next).
Proof. intros [] ?. by split. Qed.

Lemma free_blocks_snoc bl b Q f :
  b <> 0 -> wp (free_blocks (bl ++ [b])) Q f -> wp (do! free_blocks bl; s5_free_block b) Q f.
Proof.
  intros Hb. revert f. unfold free_blocks. induction bl as [|x bl IH]; intros f; cbn [app for_each].
  - rewrite (proj2 (Z.eqb_neq b 0) Hb). unfold wp, bind, ret.
    destruct (s5_free_block b f) as [[] f'|]; done.
  - unfold wp, bind in *.
    destruct ((if x =? 0 then ret tt else s5_free_block x) f) as [[] f'|]; [|done]. apply IH.
Qed.

Lemma nz_app bl bl' : nz (bl ++ bl') = nz bl ++ nz bl'.
Proof. apply filter_app. Qed.

Lemma nz_zero : nz zero_direct = [].
Proof. done. Qed.

Ltac in_app := rewrite ?elem_of_app, ?list_elem_of_singleton; tauto.

(** The part of [s5_free_inode] that frees the blocks. *)
Lemma view_free_owned U H d s c ks l direct indirect f Q :
  let bl := map_blocks c direct indirect in
  fs_view U H d s false c f -> free_list c s ks l -> NoDup bl ->
  (forall b, b ∈ bl -> freeable U H c ks b) ->
  (forall f' n ws c' ks' p, let s' := set_free_list n ws s in
     fs_view U H d s' false c' f' -> free_list c' s' ks' (p ++ l) ->
     (forall m, m ∉ bl -> c' m = c m) -> (forall b, b ∈ p -> b ∈ bl) -> given_back ks ks' p bl -> Q tt f') ->
  wp (do! free_blocks direct;
      if indirect =? 0 then ret tt
      else
        do! s5_get_meta_disk_block indirect false;
        let! b := meta_page indirect in
        do! s5_release_disk_block indirect;
        do! free_blocks (words_of b 0 S5_NIDIRECT_BLOCKS);
        s5_free_block indirect) Q f.
Proof.
  intros bl Hv Hfl Hnd Hbl HQ. unfold bl, map_blocks in *. clear bl.
  apply NoDup_app in Hnd as (Hnd1 & Hdisj & Hnd2).
  wp_use view_free_blocks; [done|done|done|by intros; apply Hbl, elem_of_app; left|].
  clear f Hv. intros f n ws c2 ks2 p. cbn zeta. intros Hv Hfl2 Hc2 Hks2 Hp Hgb.
  destruct (Z.eqb_spec indirect 0) as [E|E]; [wp_steps; rewrite app_nil_r in HQ; by eapply HQ|].
  destruct (Hbl indirect) as (Hir & Hih & Hiu & [pg Hpg] & Hik); [in_app|]. rewrite Hpg in Hdisj, Hnd2, Hbl, HQ.
  cbn [fmap option_fmap option_map default] in Hdisj, Hnd2, Hbl, HQ. set (ws2 := words_of pg 0 S5_NIDIRECT_BLOCKS) in *.
  assert (Hrest : forall b, b ∈ nz ws2 ++ [indirect] -> b ∉ nz direct).
  { intros x Hx Hx'. by apply (Hdisj x). }
  assert (Hpg2 : c2 indirect = Some pg) by (rewrite Hc2; [done|apply Hrest; in_app]).
  wp_use view_get; [done..|lia|done|]. clear f Hv. intros f Hv.
  wp_use view_page; [done|by rewrite lookup_insert_eq|done|].
  wp_use view_release; [done|by rewrite lookup_insert_eq|]. rewrite delete_insert_id by done.
  clear f Hv. intros f Hv. fold ws2. apply free_blocks_snoc; [done|].
  assert (Hnz : nz (ws2 ++ [indirect]) = nz ws2 ++ [indirect]).
  { rewrite nz_app. unfold nz at 2. by rewrite filter_cons, decide_True. }
  eapply view_free_blocks; [done|done|by rewrite Hnz|rewrite Hnz|rewrite Hnz].
  { intros x Hx. destruct (Hbl x) as (? & ? & ? & ? & Hxk); [by apply elem_of_app; right|]. pose proof (Hrest x Hx).
    do 3 (split; [done|]). split; [by rewrite Hc2|].
    intros Hk%Hks2. apply elem_of_app in Hk. tauto. }
  clear f Hv. intros f n' ws' c3 ks3 p'. cbn zeta. intros Hv Hfl3 Hc3 Hks3 Hp' Hgb'.
  rewrite app_assoc in Hfl3. eapply HQ; [exact Hv|exact Hfl3| | |by eapply given_back_app].
  - intros m Hm. rewrite not_elem_of_app in Hm. destruct Hm as [? ?].
    rewrite Hc3 by done. by apply Hc2.
  - intros x [Hx%Hp'|Hx%Hp]%elem_of_app; apply elem_of_app; auto.
Qed.

Lemma view_free_inode U H d s c ks l ino i f Q :
  let bl := inode_blocks c i in
  fs_view U H d s false c f -> free_list c s ks l -> 0 <= ino < minus1_32 -> inode_at c ino = Some i ->
  s5_number i = ino -> data_type (s5_type i) = true -> word (s5s_free_inode s) ->
  H !! S5_INODE_BLOCK ino = None -> S5_INODE_BLOCK ino ∉ U -> S5_INODE_BLOCK ino ∉ ks -> NoDup bl ->
  (forall b, b ∈ bl -> freeable U H c ks b /\ b <> S5_INODE_BLOCK ino) ->
  (forall f' n ws c' ks' p, let s' := set_free_list n ws (set_free_inode ino s) in
     fs_view U H d s' false c' f' -> free_list c' s' ks' (p ++ l) ->
     (forall m, m ∉ bl -> c' m = put_inode_at c ino (free_inode_of i (s5s_free_inode s)) m) ->
     (forall b, b ∈ p -> b ∈ bl) -> given_back ks ks' p bl -> Q tt f') ->
  wp (s5_free_inode ino) Q f.
Proof.
  intros bl Hv Hfl Hr Hi Hn Ht Hw Hh Hu Hks Hnd Hbl HQ. unfold minus1_32 in Hr.
  assert (Hb : exists b, c (S5_INODE_BLOCK ino) = Some b).
  { unfold inode_at in Hi. destruct (c (S5_INODE_BLOCK ino)); [by eexists|done]. }
  destruct Hb as [b Hb]. assert (Hbk : block_ok b) by (by eapply view_block_ok).
  assert (Hfit : inode_fits i).
  { unfold inode_at in Hi. rewrite Hb in Hi. injection Hi as <-. by apply inode_in_fits. }
  set (i' := free_inode_of i (s5s_free_inode s)) in *. set (c1 := put_inode_at c ino i') in *.
  assert (Hfit' : inode_fits i') by (by apply free_inode_of_fits).
  assert (Hat : inode_at c1 ino = Some i').
  { unfold c1. erewrite inode_at_put by (done || lia). by rewrite decide_True. }
  assert (Hc1 : forall m, m <> S5_INODE_BLOCK ino -> c1 m = c m).
  { intros m Hm. by apply set_content_ne. }
  unfold s5_free_inode. wp_use view_lock_super; [done|]. clear f Hv. intros f Hv.
  wp_use view_get_inode; [done..|lia|done|done|]. clear f Hv. intros f Hv.
  fold (owns_blocks i). wp_use wp_kassert.
  { unfold data_type in Ht. unfold owns_blocks. rewrite <- orb_assoc in Ht |- *.
    by rewrite (orb_comm (s5_type i =? S5_TYPE_BLK)). }
  wp_use view_super; [done|]. fold i'.
  change (S5Inode (s5s_free_inode s) (s5_number i) S5_TYPE_FREE (s5_linkcount i) (s5_direct_blocks i)
            (s5_indirect_block i)) with i'.
  wp_use view_put_inode; [done|by rewrite lookup_insert_eq|by rewrite Hb|done|]. fold c1.
  clear f Hv. intros f Hv. wp_use view_set_super; [done|]. clear f Hv. intros f Hv.
  wp_use view_release_inode; [done|by rewrite lookup_insert_eq|done|done|].
  rewrite delete_insert_id by done. clear f Hv. intros f Hv.
  wp_use view_unlock_super; [done|]. clear f Hv. intros f Hv. rewrite Hn in Hv.
  assert (Hfl1 : free_list c1 (set_free_inode ino s) ks l).
  { destruct Hfl as [? ? (link & rest & ? & Hch & ?)]. split; [done..|]. exists link, rest.
    split_and!; [done| |done]. eapply chain_ext; [|done]. intros m Hm. apply Hc1. by intros ->. }
  assert (Hfree1 : forall b, b ∈ bl -> freeable U H c1 ks b).
  { intros x Hx. destruct (Hbl x Hx) as [(? & ? & ? & ? & ?) ?]. unfold freeable. by rewrite Hc1. }
  assert (Hown : map_blocks c1 (if owns_blocks i then s5_direct_blocks i else zero_direct)
                   (if owns_blocks i then s5_indirect_block i else 0) = bl).
  { unfold bl, inode_blocks in *. destruct (owns_blocks i); [|done]. unfold map_blocks in *.
    destruct (Z.eqb_spec (s5_indirect_block i) 0) as [E|E]; [done|].
    rewrite Hc1; [reflexivity|]. apply Hbl. in_app. }
  rewrite <- Hown in Hnd, Hfree1, HQ.
  eapply (view_free_owned U H d (set_free_inode ino s) c1 ks l); [done..|].
  intros f' n ws c' ks' p. cbn zeta. intros Hv' Hfl' Hc' Hp Hgb. by eapply HQ.
Qed.

(** C38: freeing an inode puts it at the head of the inode free list, marked free,
    and gives back the blocks of its on-disk block map: the direct blocks, the
    blocks of the indirect block, and the indirect block are each on the list of
    free blocks or a node of that list.  No other inode on the
    list changes, and no block but those and the inode's own. *)
Theorem s5_free_inode_correct f ks l il ino i :
  let c := meta_content f in let s := s5f_super f in
  meta_ok ∅ f -> s5f_mutex f = false -> free_list c s ks l -> inode_list c (s5s_free_inode s) il ->
  0 <= ino < minus1_32 -> inode_at c ino = Some i -> s5_number i = ino ->
  data_type (s5_type i) = true -> word (s5s_free_inode s) -> ino ∉ il ->
  NoDup (inode_blocks c i) -> S5_INODE_BLOCK ino ∉ ks ->
  (forall b, b ∈ inode_blocks c i ->
     0 < b < 2 ^ 31 /\ is_Some (c b) /\ b ∉ ks /\ forall j, j ∈ ino :: il -> b <> S5_INODE_BLOCK j) ->
  exists f', s5_free_inode ino f = Done tt f'
    /\ meta_ok ∅ f' /\ s5f_mutex f' = false
    /\ inode_list (meta_content f') (s5s_free_inode (s5f_super f')) (ino :: il)
    /\ inode_at (meta_content f') ino = Some (free_inode_of i (s5s_free_inode s))
    /\ (forall m, m ∉ inode_blocks c i -> m <> S5_INODE_BLOCK ino -> meta_content f' m = c m)
    /\ exists ks' p, free_list (meta_content f') (s5f_super f') ks' (p ++ l)
         /\ (forall b, b ∈ p -> b ∈ inode_blocks c i)
         /\ (forall b, b ∈ inode_blocks c i -> b ∈ p \/ b ∈ ks').
Proof.
  intros c s Hok Hm Hfl Hil Hr Hi Hn Ht Hw Hnot Hnd Hks Hbl.
  pose proof (fs_view_self _ _ Hok) as Hv. rewrite Hm in Hv. apply wp_result.
  set (i' := free_inode_of i (s5s_free_inode s)).
  assert (Hb : exists b, c (S5_INODE_BLOCK ino) = Some b).
  { unfold inode_at in Hi. destruct (c (S5_INODE_BLOCK ino)); [by eexists|done]. }
  destruct Hb as [b Hb]. assert (Hbk : block_ok b) by (by eapply view_block_ok).
  assert (Hfit : inode_fits i').
  { apply free_inode_of_fits; [|done]. unfold inode_at in Hi. rewrite Hb in Hi. injection Hi as <-.
    by apply inode_in_fits. }
  eapply (view_free_inode [] ∅); [done..|by rewrite lookup_empty|by apply not_elem_of_nil|done|done| |].
  { intros x Hx. destruct (Hbl x Hx) as (? & ? & ? & Hj). split; [|apply Hj; left].
    do 2 (split; [done|]). split; [by apply not_elem_of_nil|done]. }
  intros f' n ws c' ks' p s' [? ? Hs' ? Hc' _] Hfl' Hsame Hp [_ Hgb]. fold i' in Hsame.
  assert (Hat : forall j, j ∈ ino :: il -> inode_at (meta_content f') j
                   = if decide (j = ino) then Some i' else inode_at c j).
  { intros j Hj. rewrite <- (inode_at_put c ino i' j b) by (done || lia || (apply elem_of_cons in Hj as
      [->|Hj]; [lia|by eapply inode_list_nonneg])).
    unfold inode_at. rewrite Hc', Hsame; [done|]. intros Hin. by eapply (Hbl _ Hin). }
  split_and!; [done..| | | |].
  - rewrite Hs'. unfold s'. cbn. apply (il_cons _ ino i'); [done| |exact Hn|done|].
    + rewrite Hat by left. by rewrite decide_True.
    + eapply inode_list_ext; [|done]. intros j Hj. rewrite Hat by (by right).
      rewrite decide_False; [done|]. by intros ->.
  - rewrite Hat by left. by rewrite decide_True.
  - intros m Hm1 Hm2. rewrite Hc', Hsame by done. by apply set_content_ne.
  - exists ks', p. rewrite Hs'. split; [|by split]. by eapply free_list_ext.
Qed.
End alloc.

(** ** Witnesses: block 7 and inode 1 are free, inode 0 is a file with block 9 *)

Definition ex_super : s5_super :=
  S5Super S5_MAGIC 1 1 (7 :: replicate 28 0 ++ [minus1_32]) 0 32 S5_CURRENT_VERSION.
Definition ex_inode : s5_inode := S5Inode 5 0 S5_TYPE_DATA 1 (9 :: replicate 27 0) 0.
Definition ex_free_inode : s5_inode := S5Inode minus1_32 1 S5_TYPE_FREE 0 zero_direct 0.
Definition ex_blocks (n : Z) : list Z :=
  if n =? 1 then pad_block (encode_inode ex_inode ++ encode_inode ex_free_inode) else pad_block [].
Definition ex_fs : @s5fs array_dev := fresh_fs ex_blocks ex_super.

Lemma ex_free_list : free_list (meta_content ex_fs) ex_super [] [7].
Proof.
  split; cbn; [lia| |].
  - split; [done|]. repeat constructor; unfold word, minus1_32; lia.
  - exists minus1_32, []. split_and!; [done|constructor|done].
Qed.

Lemma ex_inode_at : inode_at (meta_content ex_fs) 0 = Some ex_inode.
Proof. vm_compute. reflexivity. Qed.

Lemma ex_inode_list : inode_list (meta_content ex_fs) 1 [1].
Proof.
  apply (il_cons _ 1 ex_free_inode); [unfold minus1_32; lia|vm_compute; reflexivity|done| |constructor].
  by apply not_elem_of_nil.
Qed.

Lemma s5_alloc_block_correct_witness :
  exists f' ks', s5_alloc_block (mem := false) (pages := []) ex_fs = Done 7 f'
    /\ meta_ok ∅ f' /\ s5f_mutex f' = false /\ (forall n, meta_content f' n = meta_content ex_fs n)
    /\ free_list (meta_content f') (s5f_super f') ks' [].
Proof.
  apply (s5_alloc_block_correct (mem := false) (pages := []) eq_refl ex_fs [] [7]).
  - apply fresh_fs_ok.
  - reflexivity.
  - apply ex_free_list.
Defined.

Lemma s5_free_block_correct_witness :
  exists f' ks', s5_free_block (mem := false) (pages := []) 9 ex_fs = Done tt f'
    /\ meta_ok ∅ f' /\ s5f_mutex f' = false
    /\ (forall n, n <> 9 -> meta_content f' n = meta_content ex_fs n)
    /\ free_list (meta_content f') (s5f_super f') ks' [9; 7].
Proof.
  apply (s5_free_block_correct (mem := false) (pages := []) eq_refl ex_fs [] [7] 9 (pad_block [])).
  - apply fresh_fs_ok.
  - reflexivity.
  - apply ex_free_list.
  - lia.
  - by apply not_elem_of_nil.
  - vm_compute. reflexivity.
Defined.

Lemma s5_alloc_inode_correct_witness :
  exists f', s5_alloc_inode (mem := false) (pages := []) S5_TYPE_CHR 2 ex_fs = Done 1 f'
    /\ inode_at (meta_content f') 1 = Some (new_inode S5_TYPE_CHR 2 1)
    /\ inode_at (meta_content f') 0 = Some ex_inode.
Proof.
  destruct (s5_alloc_inode_correct (mem := false) (pages := []) eq_refl ex_fs [1] S5_TYPE_CHR 2)
    as (f' & Hrun & _ & _ & _ & Hnew & Hold).
  - apply fresh_fs_ok.
  - reflexivity.
  - apply ex_inode_list.
  - reflexivity.
  - exists f'. split; [exact Hrun|]. split; [by apply Hnew|]. rewrite Hold by done. apply ex_inode_at.
Defined.

Lemma s5_free_inode_correct_witness :
  exists f', s5_free_inode (mem := false) (pages := []) 0 ex_fs = Done tt f'
    /\ inode_list (meta_content f') (s5s_free_inode (s5f_super f')) [0; 1].
Proof.
  destruct (s5_free_inode_correct (mem := false) (pages := []) eq_refl ex_fs [] [7] [1] 0 ex_inode)
    as (f' & Hrun & _ & _ & Hlist & _).
  - apply fresh_fs_ok.
  - reflexivity.
  - apply ex_free_list.
  - apply ex_inode_list.
  - unfold minus1_32. lia.
  - apply ex_inode_at.
  - reflexivity.
  - reflexivity.
  - split; cbn; lia.
  - set_solver.
  - apply NoDup_singleton.
  - by apply not_elem_of_nil.
  - intros b Hb. assert (b = 9) as -> by (by apply list_elem_of_singleton). split_and!; [lia|lia| | |].
    + by exists (pad_block []).
    + by apply not_elem_of_nil.
    + intros j Hj. assert (j = 0 \/ j = 1) as [-> | ->] by set_solver; vm_compute; discriminate.
  - exists f'. split; [exact Hrun|exact Hlist].
Defined.
