(* ===== verification/S5MapProofs.v ===== *)
(** The block map and the page frames of an S5FS file
    ([s5_file_block_to_disk_block] of [fs/s5fs/s5fs_subr.c] and
    [s5fs_get_pframe] of [fs/s5fs/s5fs.c]): a page of a file is its cached
    frame, or else the block the map names, or else zeroes. *)

From S2P Require Import Prelude CString Btree BtreeProofs Mobj MobjProofs Vnode S5Disk.
From S2P Require Import S5DiskProofs S5MetaProofs S5AllocProofs S5File.

#[global] Arguments words_of : simpl never.
#[global] Arguments zero_block : simpl never.

Section map.
Context {mem : Memory} {pages : Pages} {bd : BlockDev} `{laws : !BlockDevLaws bd}.
Context (Hoom : oom = false).
Implicit Types (f : s5fs) (n m : Z) (H : gmap Z bool) (U : list Z) (i : s5_inode)
  (c : Z -> option (list Z)) (d : bdev) (s : s5_super) (v : vnode s5_node) (x : s5_node) (o : mobj)
  (ks l D : list Z).

(** The disk block of block [n] of the file; zero is a hole. *)
Definition disk_block c i n : Z :=
  if n <? Z.of_nat S5_NDIRECT_BLOCKS then default 0 (s5_direct_blocks i !! Z.to_nat n)
  else if s5_indirect_block i =? 0 then 0
  else match c (s5_indirect_block i) with
       | Some b => get32 b (Z.to_nat (n - Z.of_nat S5_NDIRECT_BLOCKS))
       | None => 0
       end.

(** A block of the disk that can be read. *)
Definition on_disk d b : Prop := 0 < b < 2 ^ 31 /\ is_Some (read_block d b).

(** The map of inode [i] beside the free list: the free blocks are [l] and its
    nodes [ks]; [D] are blocks that hold data of files. *)
Record map_ok d c i (ks l D : list Z) : Prop := {
  mp_fits : inode_fits i;
  mp_nodup : NoDup l;
  mp_free : forall b, b ∈ l -> on_disk d b /\ b ∉ ks /\ b ∉ D;
  mp_nodes : forall k, k ∈ ks -> k ∉ D;
  mp_indirect : let b := s5_indirect_block i in
    b <> 0 -> 0 < b < 2 ^ 31 /\ is_Some (c b) /\ b ∉ ks /\ b ∉ l /\ b ∉ D;
  mp_data : forall n, 0 <= n < S5_MAX_FILE_BLOCKS -> disk_block c i n <> 0 ->
    on_disk d (disk_block c i n) /\ disk_block c i n ∈ D;
  mp_inj : forall n m, 0 <= n < S5_MAX_FILE_BLOCKS -> 0 <= m < S5_MAX_FILE_BLOCKS ->
    disk_block c i n <> 0 -> disk_block c i n = disk_block c i m -> n = m;
}.

(** The metadata beside it. *)
Record fs_ok d c s (ks l D : list Z) f : Prop := {
  fk_view : fs_view (l ++ D) ∅ d s false c f;
  fk_free : free_list c s ks l;
}.

(** ** States of a node *)

Definition at_node v o x (len : Z) f : vnode s5_node * s5fs :=
  (set_vn_len len (set_vn_i (Some x) (set_vn_mobj o v)), f).

#[export] Instance node_mobj_laws : LensLaws node_mobj.
Proof. by split; intros; destruct s as [[]]. Qed.

Lemma at_node_get v o x len f : lget node_mobj (at_node v o x len f) = o.
Proof. done. Qed.

Lemma at_node_set v o o' x len f : lset node_mobj o' (at_node v o x len f) = at_node v o' x len f.
Proof. done. Qed.

Lemma wp_get_node v o x len f Q : Q x (at_node v o x len f) -> wp get_node Q (at_node v o x len f).
Proof. done. Qed.

Lemma wp_on_fs {A} (p : M s5fs A) v o x len f Q :
  wp p (fun a f' => Q a (at_node v o x len f')) f -> wp (on_fs p) Q (at_node v o x len f).
Proof. unfold on_fs. intros Hwp. apply wp_zoom. exact Hwp. Qed.

Lemma wp_dirty_inode g v o x len f Q :
  Q tt (at_node v o (S5Node (g (inode x)) true) len f) -> wp (dirty_inode g) Q (at_node v o x len f).
Proof. done. Qed.

Lemma wp_vn_length v o x len f Q : Q len (at_node v o x len f) -> wp vn_length Q (at_node v o x len f).
Proof. done. Qed.

Lemma wp_set_length len' v o x len f Q :
  Q tt (at_node v o (S5Node (set_s5_size (u32 len') (inode x)) (dirtied_inode x)) len' f) ->
  wp (set_length len') Q (at_node v o x len f).
Proof. done. Qed.

(** ** The map under updates *)

Lemma disk_block_same c i i' n :
  s5_direct_blocks i' = s5_direct_blocks i -> s5_indirect_block i' = s5_indirect_block i ->
  disk_block c i' n = disk_block c i n.
Proof. unfold disk_block. by intros -> ->. Qed.

Lemma disk_block_content c c' i n :
  c' (s5_indirect_block i) = c (s5_indirect_block i) -> disk_block c' i n = disk_block c i n.
Proof. unfold disk_block. by intros ->. Qed.

(** Entry [n] of a direct map. *)
Lemma disk_block_direct c i n b m :
  0 <= n < Z.of_nat S5_NDIRECT_BLOCKS -> length (s5_direct_blocks i) = S5_NDIRECT_BLOCKS -> 0 <= m ->
  disk_block c (set_s5_direct (<[Z.to_nat n := b]> (s5_direct_blocks i)) i) m
  = if decide (m = n) then b else disk_block c i m.
Proof.
  intros Hn Hl Hm. unfold disk_block. cbn [s5_direct_blocks s5_indirect_block set_s5_direct].
  case_decide as E.
  - subst m. rewrite (proj2 (Z.ltb_lt _ _)) by lia. by rewrite list_lookup_insert_eq by lia.
  - destruct (m <? _); [|done]. by rewrite list_lookup_insert_ne by lia.
Qed.

(** Entry [n] of an indirect map. *)
Lemma disk_block_indirect c i n b pg m :
  let k := s5_indirect_block i in
  Z.of_nat S5_NDIRECT_BLOCKS <= n < S5_MAX_FILE_BLOCKS -> k <> 0 -> c k = Some pg -> block_ok pg -> word b ->
  disk_block (set_content c k (Some (put32 pg (Z.to_nat (n - Z.of_nat S5_NDIRECT_BLOCKS)) b))) i m
  = if decide (m = n) then b else disk_block c i m.
Proof.
  intros k Hn Hk Hpg [Hl _] Hb. unfold disk_block. fold k. rewrite set_content_eq, Hpg.
  rewrite (proj2 (Z.eqb_neq k 0)) by done.
  unfold S5_MAX_FILE_BLOCKS, S5_NDIRECT_BLOCKS in *. case_decide as E.
  - subst m. rewrite (proj2 (Z.ltb_ge _ _)) by lia. rewrite get32_put32_eq by lia. by apply u32_id.
  - destruct (Z.ltb_spec m (Z.of_nat 28)); [done|]. apply get32_put32_ne; lia.
Qed.

(** Whatever a map update leaves of the file. *)
Lemma map_ok_set d c i ks l D b c' i' ks' l' D' n :
  map_ok d c i ks l D -> inode_fits i' -> 0 <= n < S5_MAX_FILE_BLOCKS ->
  (forall m, 0 <= m -> disk_block c' i' m = if decide (m = n) then b else disk_block c i m) ->
  (forall y, y ∈ D' <-> y = b \/ y ∈ D) -> l = b :: l' -> (forall k, k ∈ ks' -> k ∈ ks) ->
  (let k := s5_indirect_block i' in
   k <> 0 -> 0 < k < 2 ^ 31 /\ is_Some (c' k) /\ k ∉ ks' /\ k ∉ l' /\ k ∉ D') ->
  map_ok d c' i' ks' l' D'.
Proof.
  intros [Hfit Hnd Hfree Hnodes Hind Hdata Hinj] Hfit' Hn Hbm HD -> Hks Hind'.
  apply NoDup_cons in Hnd as [Hb Hnd]. destruct (Hfree b) as (Hdisk & Hbk & HbD); [left|].
  split; [done..| | |done| |].
  - intros y Hy. destruct (Hfree y) as (? & ? & ?); [by right|]. split; [done|].
    split; [by intros ?%Hks|]. rewrite HD. intros [->|?]; done.
  - intros k Hk%Hks. rewrite HD. intros [->|?]; [done|]. by eapply Hnodes.
  - intros m Hm. rewrite Hbm by lia. rewrite HD. case_decide; [by auto|].
    intros Hm0. destruct (Hdata m Hm Hm0). auto.
  - intros m m' Hm Hm'. rewrite !Hbm by lia.
    assert (Hne : forall y, 0 <= y < S5_MAX_FILE_BLOCKS -> disk_block c i y <> b).
    { intros y Hy Heq. destruct (Hdata y Hy) as [_ Hin]; [rewrite Heq; apply Z.neq_sym, Z.lt_neq, Hdisk|].
      by rewrite Heq in Hin. }
    case_decide; case_decide; subst; [done|..].
    + intros _ Heq. exfalso. by apply (Hne m').
    + intros _ Heq. exfalso. by apply (Hne m).
    + by apply Hinj.
Qed.

(** ** The indirect block *)

Lemma zero_block_ok : block_ok zero_block.
Proof. split; [apply length_replicate|]. apply Forall_replicate. unfold byte. lia. Qed.

Lemma get32_zero_block k : (k < 1024)%nat -> get32 zero_block k = 0.
Proof.
  intros Hk. unfold get32, slice, zero_block, S5_BLOCK_SIZE. rewrite drop_replicate, take_replicate.
  replace (4 `min` _)%nat with 4%nat by lia. done.
Qed.

Lemma wp_cache_and_clear {St} (mo : lens St mobj) `{!LensLaws mo} n loc Q (s : St) :
  mobj_ok (lget mo s) -> mo_mutex (lget mo s) = true -> frame_of (lget mo s) n = None ->
  0 <= n < 2 ^ 31 ->
  (forall o, only_frame n (lget mo s) o -> frame_of o n = Some (Pframe n loc (Some zero_block) true true) ->
     Q n (lset mo o s)) ->
  wp (s5_cache_and_clear_block mo n loc) Q s.
Proof.
  intros Hok Hm Hn Hr HQ. unfold s5_cache_and_clear_block. wp_steps.
  apply (wp_create_pframe mo); [done..|]. intros t o Ho.
  destruct (new_frame_only _ n loc t Hn Ho) as [Honly Hnew]. fold o in Honly, Hnew.
  wp_use wp_deref; [done|]. wp_use wp_kassert; [by rewrite Hoom|].
  wp_use wp_pf_modify; [by autorewrite with frames|]. autorewrite with frames.
  wp_use wp_pf_modify; [autorewrite with frames; by rewrite frame_upd_eq, Hnew|].
  autorewrite with frames. wp_steps. apply HQ.
  - by repeat apply only_frame_upd.
  - by rewrite !frame_upd_eq, Hnew.
Qed.

Lemma view_new_indirect U U' d s (x : bool) c f b Q :
  fs_view U ∅ d s x c f -> b ∈ U -> 0 <= b < 2 ^ 31 -> (forall n, n ∈ U' -> n ∈ U /\ n <> b) ->
  (forall f', fs_view U' ∅ d s x (set_content c b (Some zero_block)) f' -> Q tt f') ->
  wp (new_indirect b) Q f.
Proof.
  intros [Hok Hd Hs Hx Hc HU] Hb Hr HU' HQ. unfold new_indirect. wp_steps.
  apply wp_mobj_lock; [apply Hok|]. wp_steps.
  apply (wp_cache_and_clear s5f_mobj_lens); autorewrite with frames; [apply set_mutex_ok, Hok|done|by apply HU|done|].
  intros o Ho Hn. autorewrite with frames. wp_use wp_pf_get; [by autorewrite with frames|].
  wp_use wp_kassert; [done|]. wp_use wp_pf_unlock; [by autorewrite with frames|done|].
  autorewrite with frames. wp_use wp_mobj_unlock; autorewrite with frames; [apply (of_mutex _ _ _ Ho)|].
  set (o' := set_mo_mutex false _).
  assert (Hn' : frame_of o' b = Some (Pframe b b (Some zero_block) true false)).
  { change (frame_of (upd_frame b (set_pf_mutex false) o) b = Some (Pframe b b (Some zero_block) true false)).
    by rewrite frame_upd_eq, Hn. }
  assert (Hm' : forall m, m <> b -> frame_of o' m = frame_of (s5f_mobj f) m).
  { intros m Hm. change (frame_of (upd_frame b (set_pf_mutex false) o) m = frame_of (s5f_mobj f) m).
    rewrite frame_upd_ne by (auto with frames; congruence). by apply (of_others _ _ _ Ho). }
  apply HQ. split; [|done..| |].
  - eapply (meta_ok_frame ∅ ∅); [done|by apply set_mutex_ok, upd_frame_ok; [|apply Ho]|done..| |done].
    split; cbn; [done|by eexists; split; [|apply zero_block_ok]|done..].
  - intros m. etransitivity; [by eapply meta_content_frame|]. unfold set_content. case_decide; [done|apply Hc].
  - intros m Hm. destruct (HU' m Hm) as [? ?]. change (frame_of o' m = None). rewrite Hm' by done. by apply HU.
Qed.

(** ** Looking up and extending the map *)

(** What extending the map may change: it takes blocks from the front of the
    free list, and writes to the indirect block only. *)
Record grown c i l D c' i' l' D' : Prop := {
  gr_number : s5_number i' = s5_number i;
  gr_type : s5_type i' = s5_type i;
  gr_links : s5_linkcount i' = s5_linkcount i;
  gr_free : l' `suffix_of` l;
  gr_indirect : s5_indirect_block i <> 0 -> s5_indirect_block i' = s5_indirect_block i;
  gr_content : forall m, m <> s5_indirect_block i' \/ s5_indirect_block i' = 0 -> c' m = c m;
  gr_data : forall b, b ∈ D' -> b ∈ D \/ b ∈ l;
  gr_keep : forall b, b ∈ D -> b ∈ D';
}.

Lemma grown_refl c i l D : grown c i l D c i l D.
Proof. split; auto. Qed.

Lemma grown_trans c1 i1 l1 D1 c2 i2 l2 D2 c3 i3 l3 D3 :
  grown c1 i1 l1 D1 c2 i2 l2 D2 -> grown c2 i2 l2 D2 c3 i3 l3 D3 -> grown c1 i1 l1 D1 c3 i3 l3 D3.
Proof.
  intros [? ? ? [u1 Hu1] Hi1 Hc1 Hd1 ?] [? ? ? [u2 Hu2] Hi2 Hc2 Hd2 ?]. split; try congruence; auto.
  - exists (u1 ++ u2). by rewrite Hu1, Hu2, app_assoc.
  - intros Hne. rewrite Hi2; auto. by rewrite Hi1.
  - intros m Hm. rewrite Hc2 by done. apply Hc1.
    destruct (Z.eq_dec (s5_indirect_block i2) 0) as [|Hne]; [by right|]. rewrite (Hi2 Hne) in Hm. tauto.
  - intros b [?|Hb]%Hd2; [auto|]. right. rewrite Hu1. apply elem_of_app. by right.
Qed.

Lemma set_direct_fits i (n : nat) b :
  inode_fits i -> word b -> inode_fits (set_s5_direct (<[n := b]> (s5_direct_blocks i)) i).
Proof.
  intros [? ? ? ? [Hl Hw] ?] Hb. split; [done..| |done]. cbn. rewrite length_insert. split; [done|].
  by apply Forall_insert.
Qed.

Lemma set_indirect_fits i b : inode_fits i -> word b -> inode_fits (set_s5_indirect b i).
Proof. intros []. by split. Qed.

Lemma put32_ok b k z : block_ok b -> (k < 1024)%nat -> block_ok (put32 b k z).
Proof.
  intros [Hl Hb] Hk. split; [rewrite length_put32; lia|]. apply Forall_splice; [done|apply le_of_Z_bytes].
Qed.

Lemma view_weaken U U' d s (y : bool) c f :
  (forall n, n ∈ U' -> n ∈ U) -> fs_view U ∅ d s y c f -> fs_view U' ∅ d s y c f.
Proof. intros HU []. split; auto. Qed.

Lemma free_list_content c c' s ks l :
  (forall n, n ∈ ks -> c' n = c n) -> free_list c s ks l -> free_list c' s ks l.
Proof.
  intros Hc [? ? (link & rest & ? & ? & ?)]. split; [done..|]. exists link, rest.
  split_and!; [done| |done]. by eapply chain_ext.
Qed.

(** A new, empty indirect block. *)
Lemma map_ok_indirect d c i ks ks' l D b :
  map_ok d c i ks (b :: l) D -> s5_indirect_block i = 0 -> (forall k, k ∈ ks' -> k ∈ ks) ->
  let c' := set_content c b (Some zero_block) in let i' := set_s5_indirect b i in
  map_ok d c' i' ks' l D /\ grown c i (b :: l) D c' i' l D
  /\ (forall m, m < S5_MAX_FILE_BLOCKS -> disk_block c' i' m = disk_block c i m).
Proof.
  intros [Hfit Hnd Hfree Hnodes Hind Hdata Hinj] Hi Hks c' i'.
  apply NoDup_cons in Hnd as [Hb Hnd]. destruct (Hfree b) as ([Hr ?] & Hbk & HbD); [left|].
  assert (Hsame : forall m, m < S5_MAX_FILE_BLOCKS -> disk_block c' i' m = disk_block c i m).
  { intros m Hm. unfold disk_block, c', i', S5_NDIRECT_BLOCKS, S5_MAX_FILE_BLOCKS in *.
    cbn [s5_direct_blocks s5_indirect_block set_s5_indirect]. rewrite Hi, set_content_eq.
    destruct (Z.ltb_spec m (Z.of_nat 28)); [done|]. rewrite (proj2 (Z.eqb_neq b 0)) by lia.
    cbn [Z.eqb]. apply get32_zero_block. lia. }
  split_and!; [|split; cbn [s5_indirect_block i' set_s5_indirect]; try done; auto|done].
  - split; [by apply set_indirect_fits; [|split; lia]|done| |by auto| | |].
    + intros y Hy. destruct (Hfree y) as (? & ? & ?); [by right|]. split_and!; [done|by intros ?%Hks|done].
    + cbn. intros _. split; [done|]. unfold c'. rewrite set_content_eq. split; [done|].
      split; [by intros ?%Hks|done].
    + intros m Hm. rewrite Hsame by lia. by apply Hdata.
    + intros m m' Hm Hm'. rewrite !Hsame by lia. by apply Hinj.
  - by apply suffix_cons_r.
  - intros m [Hm|Hm]; [|lia]. by apply set_content_ne.
Qed.

Lemma disk_block_via c i n b :
  Z.of_nat S5_NDIRECT_BLOCKS <= n -> s5_indirect_block i <> 0 -> c (s5_indirect_block i) = Some b ->
  disk_block c i n = get32 b (Z.to_nat (n - Z.of_nat S5_NDIRECT_BLOCKS)).
Proof.
  intros Hn Hi Hb. unfold disk_block. rewrite (proj2 (Z.ltb_ge _ _)) by done.
  by rewrite (proj2 (Z.eqb_neq _ _)), Hb.
Qed.

(** Holding the indirect block. *)
Lemma wp_hold_indirect d c s ks l D i f Q :
  map_ok d c i ks l D -> fs_ok d c s ks l D f -> let k := s5_indirect_block i in k <> 0 ->
  (forall f', fs_view (l ++ D) (<[k := true]> ∅) d s false c f' -> Q tt f') ->
  wp (s5_get_meta_disk_block k true) Q f.
Proof.
  intros Hm [Hv Hfl] k Hk HQ. destruct (mp_indirect _ _ _ _ _ _ Hm Hk) as (Hr & [b Hb] & ? & ? & ?).
  eapply view_get; [done..|rewrite elem_of_app; tauto|lia|done|done].
Qed.

Lemma wp_indirect_entry_old v o x len f d c s ks l D n alloc Q :
  let i := inode x in
  map_ok d c i ks l D -> fs_ok d c s ks l D f -> Z.of_nat S5_NDIRECT_BLOCKS <= n -> s5_indirect_block i <> 0 ->
  (alloc = true -> disk_block c i n <> 0) ->
  (forall f', fs_ok d c s ks l D f' -> Q (disk_block c i n, false) (at_node v o x len f')) ->
  wp (indirect_entry (s5_indirect_block i) (Z.to_nat (n - Z.of_nat S5_NDIRECT_BLOCKS)) alloc) Q
     (at_node v o x len f).
Proof.
  intros i Hm Hfs Hn Hk Hal HQ. destruct (mp_indirect _ _ _ _ _ _ Hm Hk) as (Hr & [b Hb] & _).
  pose proof (disk_block_via c i n b Hn Hk Hb) as Hbm. unfold indirect_entry.
  wp_use wp_on_fs. eapply wp_hold_indirect; [done..|]. intros f1 Hv.
  wp_use wp_on_fs. eapply view_page; [done|apply lookup_insert_eq|done|]. rewrite <- Hbm.
  assert (Hz : (disk_block c i n =? 0) && alloc = false).
  { destruct alloc; [|by rewrite andb_false_r]. rewrite (proj2 (Z.eqb_neq _ _)) by auto. done. }
  rewrite Hz. wp_use wp_on_fs. eapply view_release; [done|apply lookup_insert_eq|].
  rewrite delete_insert_id by done. intros f2 Hv2. wp_steps. apply HQ. split; [done|apply Hfs].
Qed.

Lemma wp_indirect_entry_new v o x len f d c s ks l D n Q :
  let i := inode x in
  map_ok d c i ks l D -> fs_ok d c s ks l D f -> Z.of_nat S5_NDIRECT_BLOCKS <= n < S5_MAX_FILE_BLOCKS ->
  s5_indirect_block i <> 0 -> disk_block c i n = 0 ->
  match l with
  | [] => forall f', fs_ok d c s ks l D f' -> Q (- ENOSPC, false) (at_node v o x len f')
  | b :: l' => forall f' c' s' ks', map_ok d c' i ks' l' (b :: D) -> fs_ok d c' s' ks' l' (b :: D) f' ->
      grown c i l D c' i l' (b :: D) -> on_disk d b ->
      (forall m, 0 <= m -> disk_block c' i m = if decide (m = n) then b else disk_block c i m) ->
      Q (b, true) (at_node v o (S5Node i true) len f')
  end ->
  wp (indirect_entry (s5_indirect_block i) (Z.to_nat (n - Z.of_nat S5_NDIRECT_BLOCKS)) true) Q
     (at_node v o x len f).
Proof.
  intros i Hm Hfs Hn Hk Hz HQ. destruct (mp_indirect _ _ _ _ _ _ Hm Hk) as (Hr & [b Hb] & Hik & Hil & HiD).
  pose proof (disk_block_via c i n b (proj1 Hn) Hk Hb) as Hbm. unfold indirect_entry.
  assert (Hbk : block_ok b) by (by eapply view_block_ok; [apply Hfs|]).
  wp_use wp_on_fs. eapply wp_hold_indirect; [done..|]. intros f1 Hv. fold i.
  wp_use wp_on_fs. eapply view_page; [done|apply lookup_insert_eq|done|].
  rewrite <- Hbm, Hz. cbn [Z.eqb andb]. wp_use wp_on_fs.
  eapply view_alloc_block; [done..|apply Hfs| |].
  { intros k Hin. split; [by rewrite lookup_insert_ne by (by intros <-)|]. rewrite elem_of_app.
    intros [Hl|Hd]; [by destruct (mp_free _ _ _ _ _ _ Hm k Hl) as (_ & ? & _)|].
    by eapply (mp_nodes _ _ _ _ _ _ Hm). }
  destruct l as [|b0 l'].
  - intros f2 Hv2. change (- ENOSPC <? 0) with true. wp_use wp_on_fs.
    eapply view_release; [done|apply lookup_insert_eq|]. rewrite delete_insert_id by done. intros f3 Hv3.
    wp_steps. apply HQ. split; [done|apply Hfs].
  - intros f2 nf ws ks' Hv2 Hw Hfl Hks. destruct (mp_free _ _ _ _ _ _ Hm b0) as ([Hr0 Hrd] & ? & ?); [left|].
    pose proof (mp_nodup _ _ _ _ _ _ Hm) as [Hnot _]%NoDup_cons.
    assert (Hne : s5_indirect_block i <> b0) by (intros Heq; apply Hil; rewrite Heq; left).
    assert (Hlt : (Z.to_nat (n - Z.of_nat S5_NDIRECT_BLOCKS) < 1024)%nat).
    { unfold S5_MAX_FILE_BLOCKS, S5_NDIRECT_BLOCKS in *. lia. }
    rewrite (proj2 (Z.ltb_ge b0 0)) by lia. wp_use wp_on_fs.
    eapply view_page; [done|apply lookup_insert_eq|done|]. wp_use wp_on_fs.
    eapply view_set_page; [done|apply lookup_insert_eq|by apply put32_ok|]. intros f3 Hv3.
    wp_use wp_dirty_inode. wp_use wp_on_fs. eapply view_release; [done|apply lookup_insert_eq|].
    rewrite delete_insert_id by done. intros f4 Hv4. wp_steps. rewrite u32_id by lia.
    assert (Hbm' := fun m => disk_block_indirect c i n b0 b m Hn Hk Hb Hbk Hw).
    eapply HQ; [| | |done|by intros].
    + eapply (map_ok_set _ _ _ _ _ _ b0); [done|apply Hm|..]; [|by intros|intros; apply elem_of_cons|done..|].
      { unfold S5_NDIRECT_BLOCKS in Hn. lia. }
      cbn zeta. intros _. rewrite set_content_eq. split; [done|]. split; [done|]. split; [by intros ?%Hks|].
      split; [intros ?; apply Hil; by right|by apply not_elem_of_cons].
    + split.
      * eapply view_weaken; [|exact Hv4]. intros y. rewrite !elem_of_app, !elem_of_cons. tauto.
      * eapply free_list_content; [|exact Hfl]. intros k Hin. apply set_content_ne. intros ->. auto.
    + split; try done; auto.
      * by apply suffix_cons_r.
      * intros m [Hm'|Hm']; [|done]. by apply set_content_ne.
      * intros y. rewrite !elem_of_cons. tauto.
      * intros y Hy. by right.
Qed.

(** The block of a page that has one, or of any page when none is to be
    allocated. *)
Lemma wp_map_old v o x len f d c s ks l D n alloc Q :
  let i := inode x in
  map_ok d c i ks l D -> fs_ok d c s ks l D f -> 0 <= n < S5_MAX_FILE_BLOCKS ->
  (alloc = true -> disk_block c i n <> 0) ->
  (forall f', fs_ok d c s ks l D f' -> Q (disk_block c i n, false) (at_node v o x len f')) ->
  wp (s5_file_block_to_disk_block n alloc) Q (at_node v o x len f).
Proof.
  intros i Hm Hfs Hn Hal HQ. unfold s5_file_block_to_disk_block. rewrite Z.geb_leb.
  rewrite (proj2 (Z.leb_gt _ _)) by lia. wp_use wp_get_node. fold i.
  destruct (fits_direct _ (mp_fits _ _ _ _ _ _ Hm)) as [Hl _].
  destruct (Z.ltb_spec n (Z.of_nat S5_NDIRECT_BLOCKS)) as [Hlt|Hge].
  - destruct (lookup_lt_is_Some_2 (s5_direct_blocks i) (Z.to_nat n)) as [b Hb]; [lia|].
    assert (Hbm : disk_block c i n = b).
    { unfold disk_block. rewrite (proj2 (Z.ltb_lt _ _)) by done. by rewrite Hb. }
    wp_use wp_deref; [done|]. rewrite Hbm in Hal, HQ.
    assert (Hz : (b =? 0) && alloc = false).
    { destruct alloc; [|by rewrite andb_false_r]. by rewrite (proj2 (Z.eqb_neq _ _)) by auto. }
    rewrite Hz. wp_steps. by apply HQ.
  - destruct (Z.eqb_spec (s5_indirect_block i) 0) as [E|E].
    + assert (Hbm : disk_block c i n = 0).
      { unfold disk_block. rewrite (proj2 (Z.ltb_ge _ _)) by done. by rewrite E. }
      rewrite Hbm in Hal, HQ. destruct alloc; [by destruct Hal|]. wp_steps. by apply HQ.
    + by eapply wp_indirect_entry_old.
Qed.

(** Allocating the block of a hole.  Without a free block the result is
    [-ENOSPC]; an indirect block that was allocated for the page stays. *)
Lemma wp_map_new v o x len f d c s ks l D n Q :
  let i := inode x in
  map_ok d c i ks l D -> fs_ok d c s ks l D f -> 0 <= n < S5_MAX_FILE_BLOCKS -> disk_block c i n = 0 ->
  (forall f' c' x' s' ks' D', map_ok d c' (inode x') ks' [] D' -> fs_ok d c' s' ks' [] D' f' ->
     grown c i l D c' (inode x') [] D' -> s5_size (inode x') = s5_size i ->
     (forall m, 0 <= m < S5_MAX_FILE_BLOCKS -> disk_block c' (inode x') m = disk_block c i m) ->
     Q (- ENOSPC, false) (at_node v o x' len f')) ->
  (forall f' c' x' s' ks' l' D' b, map_ok d c' (inode x') ks' l' D' -> fs_ok d c' s' ks' l' D' f' ->
     grown c i l D c' (inode x') l' D' -> s5_size (inode x') = s5_size i -> on_disk d b ->
     (forall m, 0 <= m < S5_MAX_FILE_BLOCKS ->
        disk_block c' (inode x') m = if decide (m = n) then b else disk_block c i m) ->
     Q (b, true) (at_node v o x' len f')) ->
  wp (s5_file_block_to_disk_block n true) Q (at_node v o x len f).
Proof.
  intros i Hm Hfs Hn Hz HE HQ. unfold s5_file_block_to_disk_block. rewrite Z.geb_leb.
  rewrite (proj2 (Z.leb_gt _ _)) by lia. wp_use wp_get_node. fold i.
  destruct (fits_direct _ (mp_fits _ _ _ _ _ _ Hm)) as [Hl _].
  assert (Hnodes : forall k, k ∈ ks -> (∅ : gmap Z bool) !! k = None /\ k ∉ l ++ D).
  { intros k Hin. split; [done|]. rewrite elem_of_app.
    intros [Hk|Hd]; [by destruct (mp_free _ _ _ _ _ _ Hm k Hk) as (_ & ? & _)|].
    by eapply (mp_nodes _ _ _ _ _ _ Hm). }
  assert (Hnone : forall f', fs_ok d c s ks [] D f' -> l = [] -> Q (- ENOSPC, false) (at_node v o x len f')).
  { intros f' Hfs' ->. by eapply HE; [..|apply grown_refl| |]. }
  destruct (Z.ltb_spec n (Z.of_nat S5_NDIRECT_BLOCKS)) as [Hlt|Hge].
  - destruct (lookup_lt_is_Some_2 (s5_direct_blocks i) (Z.to_nat n)) as [b Hb]; [lia|].
    assert (b = 0) as ->.
    { unfold disk_block in Hz. rewrite (proj2 (Z.ltb_lt _ _)) in Hz by done. by rewrite Hb in Hz. }
    wp_use wp_deref; [done|]. cbn [Z.eqb andb]. wp_use wp_on_fs.
    eapply view_alloc_block; [done|apply Hfs|apply Hfs|done|]. destruct l as [|b l'].
    + intros f2 Hv2. change (- ENOSPC <? 0) with true. wp_steps. apply Hnone; [|done].
      split; [done|apply Hfs].
    + intros f2 nf ws ks' Hv2 Hw Hfl Hks. destruct (mp_free _ _ _ _ _ _ Hm b) as ([Hr0 Hrd] & ? & ?); [left|].
      rewrite (proj2 (Z.ltb_ge b 0)) by lia. wp_use wp_dirty_inode. wp_steps. fold i. rewrite u32_id by lia.
      assert (Hbm' := fun m => disk_block_direct c i n b m ltac:(lia) Hl).
      eapply HQ; [| | |done|done|by intros; apply Hbm'; lia].
      * eapply (map_ok_set _ _ _ _ _ _ b); [done|by apply set_direct_fits; [apply Hm|]|done|exact Hbm'|intros; apply elem_of_cons|done|done|].
        cbn [inode set_s5_direct s5_indirect_block]. intros Hk.
        destruct (mp_indirect _ _ _ _ _ _ Hm Hk) as (? & ? & ? & Hkl & ?).
        apply not_elem_of_cons in Hkl as [? ?]. split_and!; [lia|lia|done|by intros ?%Hks|done|].
        by apply not_elem_of_cons.
      * split; [|exact Hfl]. eapply view_weaken; [|exact Hv2]. intros y. rewrite !elem_of_app, !elem_of_cons. tauto.
      * split; try done; auto; [by apply suffix_cons_r| |by right].
        intros y. rewrite !elem_of_cons. tauto.
  - destruct (Z.eqb_spec (s5_indirect_block i) 0) as [E|E].
    + wp_use wp_on_fs. eapply view_alloc_block; [done|apply Hfs|apply Hfs|done|]. destruct l as [|b l'].
      * intros f2 Hv2. change (- ENOSPC <? 0) with true. wp_steps. apply Hnone; [|done].
        split; [done|apply Hfs].
      * intros f2 nf ws ks' Hv2 Hw Hfl Hks. destruct (mp_free _ _ _ _ _ _ Hm b) as ([Hr0 Hrd] & Hbk & HbD); [left|].
        pose proof (mp_nodup _ _ _ _ _ _ Hm) as [Hnot _]%NoDup_cons.
        rewrite (proj2 (Z.ltb_ge b 0)) by lia. wp_use wp_dirty_inode. fold i. rewrite u32_id by lia.
        destruct (map_ok_indirect d c i ks ks' l' D b Hm E Hks) as (Hm' & Hgr & Hsame).
        set (i1 := set_s5_indirect b i) in *. set (c1 := set_content c b (Some zero_block)) in *.
        wp_use wp_on_fs. eapply (view_new_indirect _ (l' ++ D)); [done|by left|lia| |].
        { intros y Hy. split; [rewrite elem_of_app, elem_of_cons; apply elem_of_app in Hy; tauto|].
          intros ->. apply elem_of_app in Hy. tauto. }
        intros f3 Hv3. change b with (s5_indirect_block (inode (S5Node i1 true))).
        eapply (wp_indirect_entry_new _ _ (S5Node i1 true)); [exact Hm'| |lia|cbn; lia|cbn [inode]; by rewrite Hsame by lia|].
        { split; [exact Hv3|]. eapply free_list_content; [|exact Hfl]. intros k Hin. apply set_content_ne.
          intros ->. auto. }
        cbn [inode]. destruct l' as [|b2 l2].
        -- intros f4 Hfs4. eapply HE; [done|done|done|done|]. intros m Hmm. apply Hsame. lia.
        -- intros f4 c4 s4 ks4 Hm4 Hfs4 Hgr4 Hd4 Hb4. eapply HQ; [done|done|by eapply grown_trans|done|done|].
           intros m Hmm. rewrite Hb4 by lia. by rewrite Hsame by lia.
    + eapply wp_indirect_entry_new; [done|done|lia|done|done|]. destruct l as [|b l'].
      * intros f2 Hfs2. by apply Hnone.
      * intros f2 c2 s2 ks2 Hm2 Hfs2 Hgr2 Hd2 Hb2. eapply HQ; [done|done|done|done|done|]. intros m Hmm. apply Hb2. lia.
Qed.
End map.

#[export] Hint Rewrite @at_node_get @at_node_set : frames.
