(* ===== verification/S5PageProofs.v ===== *)
(** The pages of an S5FS file: [s5fs_get_pframe] and the accesses to the frame it
    returns.  What a page holds is its cached frame, or else the block the map
    names, or else zeroes; taking a frame, for reading or for writing, changes
    no page. *)

From S2P Require Import Prelude CString Btree BtreeProofs Mobj MobjProofs Vnode S5Disk.
From S2P Require Import S5DiskProofs S5MetaProofs S5AllocProofs S5File S5MapProofs.

Section pages.
Context {mem : Memory} {pages : Pages} {bd : BlockDev} `{laws : !BlockDevLaws bd}.
Context (Hoom : oom = false).
Implicit Types (f : s5fs) (n k : Z) (i : s5_inode) (c : Z -> option (list Z)) (d : bdev) (s : s5_super)
  (v : vnode s5_node) (x : s5_node) (o : mobj) (ks l D : list Z) (m : Z -> Z) (pg : Z -> list Z)
  (G : option (Z * bool)).

(** The page that block [b] holds; zero is a hole. *)
Definition disk_page d (b : Z) : option (list Z) :=
  if b =? 0 then Some zero_block else read_block d (u32 b).

(** What a reader of page [n] sees. *)
Definition page_content d o (b n : Z) : option (list Z) :=
  match frame_of o n with
  | Some pf => pf_addr pf
  | None => disk_page d b
  end.

(** The frame of page [n] when the map gives it block [b].  [G] is the frame that
    is held, with whether it was taken for writing. *)
Record page_frame d (b : Z) G n (pf : pframe) : Prop := {
  pg_range : 0 <= n < S5_MAX_FILE_BLOCKS;
  pg_loc : pf_loc pf = b;
  pg_page : exists a, pf_addr pf = Some a /\ block_ok a;
  pg_held : pf_mutex pf = bool_decide (fst <$> G = Some n);
  pg_forwrite : G = Some (n, true) -> pf_dirty pf = true;
  pg_dirty : pf_dirty pf = true -> b <> 0;
  pg_clean : pf_dirty pf = false -> disk_page d b = pf_addr pf;
}.

(** The pages [pg] of a file with block map [m] and object [o]. *)
Record pages_ok d m G o pg : Prop := {
  po_obj : mobj_ok o;
  po_locked : mo_mutex o = true;
  po_frames : forall n pf, frame_of o n = Some pf -> page_frame d (m n) G n pf;
  po_held : forall n, fst <$> G = Some n -> is_Some (frame_of o n);
  po_pages : forall n, 0 <= n < S5_MAX_FILE_BLOCKS -> page_content d o (m n) n = Some (pg n);
}.

(** A change of frame [n], of its block and of its page. *)
Lemma pages_ok_frame d m m' G G' o o' pg pg' n pf :
  pages_ok d m G o pg -> only_frame n o o' -> frame_of o' n = Some pf ->
  page_frame d (m' n) G' n pf -> pf_addr pf = Some (pg' n) ->
  (forall k, 0 <= k < S5_MAX_FILE_BLOCKS -> k <> n -> m' k = m k /\ pg' k = pg k) ->
  (forall k w, G = Some (k, w) \/ G' = Some (k, w) -> k = n) ->
  pages_ok d m' G' o' pg'.
Proof.
  intros [Hok Hlk Hfr Hheld Hpg] [_ Hlk' Hok' Ho] Hn Hpf Ha Hsame HG.
  assert (HG' : forall k w, k <> n -> G <> Some (k, w) /\ G' <> Some (k, w)).
  { intros k w Hk. split; intros Heq; apply Hk, (HG k w); auto. }
  assert (Hh : forall k, k <> n -> fst <$> G = Some k <-> fst <$> G' = Some k).
  { intros k Hk. destruct G as [[y w]|], G' as [[y' w']|]; cbn; split; intros Heq; try done; injection Heq as ->;
      destruct (HG' k w Hk), (HG' k w' Hk) || destruct (HG' k w Hk) || destruct (HG' k w' Hk); done. }
  split; [done|by rewrite Hlk'|..].
  - intros k pf' Hk. destruct (decide (k = n)) as [->|Hne]; [rewrite Hn in Hk; by injection Hk as <-|].
    rewrite Ho in Hk by done. destruct (Hfr _ _ Hk) as [Hr ? ? Hmx ? ? ?].
    destruct (Hsame k Hr Hne) as [-> _]. split; try done.
    + rewrite Hmx. apply bool_decide_ext. by apply Hh.
    + intros Heq. by destruct (HG' k true Hne).
  - intros k Hk. destruct (decide (k = n)) as [->|Hne]; [by rewrite Hn|]. rewrite Ho by done.
    by apply Hheld, Hh.
  - intros k Hk. unfold page_content. destruct (decide (k = n)) as [->|Hne]; [by rewrite Hn|].
    rewrite Ho by done. destruct (Hsame k Hk Hne) as [-> ->]. by apply Hpg.
Qed.

(** The bundle of invariants of a node. *)
Record node_ok d G o x (len : Z) c s ks l D pg f : Prop := {
  no_map : map_ok d c (inode x) ks l D;
  no_fs : fs_ok d c s ks l D f;
  no_pages : pages_ok d (disk_block c (inode x)) G o pg;
  no_size : s5_size (inode x) = len /\ 0 <= len <= S5_MAX_FILE_SIZE;
}.

(** ** The frame that is held *)

Lemma held_frame d m o pg n w :
  pages_ok d m (Some (n, w)) o pg ->
  exists pf, frame_of o n = Some pf /\ page_frame d (m n) (Some (n, w)) n pf /\ pf_addr pf = Some (pg n)
    /\ pf_mutex pf = true.
Proof.
  intros [_ _ Hfr Hh Hpg]. destruct (Hh n eq_refl) as [pf Hf]. exists pf. pose proof (Hfr _ _ Hf) as Hpf.
  split_and!; [done..| |].
  - specialize (Hpg n (pg_range _ _ _ _ _ Hpf)). unfold page_content in Hpg. by rewrite Hf in Hpg.
  - destruct Hpf as [_ _ _ -> _ _ _]. by apply bool_decide_eq_true.
Qed.

Lemma wp_file_page v o x len f d m pg n w Q :
  pages_ok d m (Some (n, w)) o pg -> Q (pg n) (at_node v o x len f) -> wp (file_page n) Q (at_node v o x len f).
Proof.
  intros Hok HQ. destruct (held_frame _ _ _ _ _ _ Hok) as (pf & Hf & _ & Ha & _).
  unfold file_page. wp_use wp_pf_get; [exact Hf|]. by eapply wp_deref.
Qed.

(** The pages with page [n] replaced. *)
Definition set_page pg n (b : list Z) : Z -> list Z := fun k => if decide (k = n) then b else pg k.

Lemma wp_set_file_page v o x len f d m pg n b Q :
  pages_ok d m (Some (n, true)) o pg -> block_ok b ->
  (forall o', pages_ok d m (Some (n, true)) o' (set_page pg n b) -> only_frame n o o' ->
     Q tt (at_node v o' x len f)) ->
  wp (set_file_page n b) Q (at_node v o x len f).
Proof.
  intros Hok Hb HQ. destruct (held_frame _ _ _ _ _ _ Hok) as (pf & Hf & [] & Ha & Hm).
  unfold set_file_page. eapply wp_pf_modify; [exact Hf|]. rewrite at_node_set.
  assert (Ho : only_frame n o (upd_frame n (set_pf_addr (Some b)) o)).
  { apply only_frame_upd; [done|]. by apply only_frame_refl; apply Hok. }
  apply HQ; [|done]. eapply (pages_ok_frame _ _ _ _ _ _ _ _ _ n); [done..| | | | |].
  - rewrite at_node_get, frame_upd_eq, Hf by done. reflexivity.
  - split; cbn; [done..|by exists b|done|done|done|]. by rewrite pg_forwrite0.
  - cbn. unfold set_page. by rewrite decide_True.
  - intros k _ Hk. unfold set_page. by rewrite decide_False.
  - by intros k w [[= -> _]|[= -> _]].
Qed.

Lemma wp_release_file_block v o x len f d m pg n w Q :
  pages_ok d m (Some (n, w)) o pg ->
  (forall o', pages_ok d m None o' pg -> only_frame n o o' -> Q tt (at_node v o' x len f)) ->
  wp (s5_release_file_block n) Q (at_node v o x len f).
Proof.
  intros Hok HQ. destruct (held_frame _ _ _ _ _ _ Hok) as (pf & Hf & [] & Ha & Hm).
  unfold s5_release_file_block. eapply wp_pframe_release; [exact Hf|done|]. rewrite at_node_set.
  assert (Ho : only_frame n o (upd_frame n (set_pf_mutex false) o)).
  { apply only_frame_upd; [done|]. by apply only_frame_refl; apply Hok. }
  apply HQ; [|done]. eapply (pages_ok_frame _ _ _ _ _ _ _ _ _ n (set_pf_mutex false pf)); [done..| | |done|done|].
  - by rewrite at_node_get, frame_upd_eq, Hf by done.
  - by split; cbn.
  - by intros k w' [[= -> _]|?].
Qed.

(** ** Taking a frame *)

Lemma wp_get_file_disk_block v o x len f n loc w b Q :
  mobj_ok o -> mo_mutex o = true -> frame_of o n = None -> 0 <= n < 2 ^ 31 ->
  read_block (s5f_bdev f) (u32 loc) = Some b ->
  (forall o', only_frame n o o' -> frame_of o' n = Some (Pframe n loc (Some b) w true) ->
     Q n (at_node v o' x len f)) ->
  wp (s5_get_file_disk_block n loc w) Q (at_node v o x len f).
Proof.
  intros Hok Hm Hn Hr Hb HQ. unfold s5_get_file_disk_block. wp_steps.
  apply (wp_create_pframe node_mobj); [done..|]. intros t o1 Ho1. rewrite at_node_set.
  assert (only_frame n o o1 /\ frame_of o1 n = Some (new_frame n loc)) as [Honly Hnew] by (by apply new_frame_only).
  clearbody o1.
  wp_use wp_deref; [done|]. wp_use wp_kassert; [by rewrite Hoom|].
  wp_use wp_pf_modify; [exact Hnew|]. autorewrite with frames. wp_steps.
  change (at_node v ?y x len f).2 with f. rewrite Hb. wp_steps. unfold set_file_page.
  wp_use wp_pf_modify; [autorewrite with frames; by rewrite frame_upd_eq, Hnew|].
  autorewrite with frames. wp_use wp_pf_modify; [autorewrite with frames; by rewrite !frame_upd_eq, Hnew|].
  autorewrite with frames. wp_steps. apply HQ.
  - by repeat apply only_frame_upd.
  - by rewrite !frame_upd_eq, Hnew.
Qed.

(** A page that is in the cache. *)
Lemma wp_cached_pframe v o x len f d m pg n w pf Q :
  pages_ok d m None o pg -> frame_of o n = Some pf -> n * PAGE_SIZE < len <= S5_MAX_FILE_SIZE ->
  (w = true -> m n <> 0) ->
  (forall o', pages_ok d m (Some (n, w)) o' pg -> only_frame n o o' -> Q (0, Some n) (at_node v o' x len f)) ->
  wp (s5fs_get_pframe n w) Q (at_node v o x len f).
Proof.
  intros Hok Hf Hlen Hw HQ. destruct (po_frames _ _ _ _ _ Hok _ _ Hf) as [Hr Hl (a & Ha & Hb) Hm _ Hd Hc].
  unfold s5fs_get_pframe. wp_use wp_vn_length. unfold S5_MAX_FILE_SIZE, S5_MAX_FILE_BLOCKS, PAGE_SIZE, S5_BLOCK_SIZE in *.
  rewrite u64_id by lia. rewrite (proj2 (Z.leb_gt _ _)) by lia.
  wp_use wp_find_pframe; [apply Hok|apply Hok|]. rewrite at_node_get, Hf. split; [done|]. wp_red.
  wp_use wp_pf_modify; [autorewrite with frames; by rewrite frame_upd_eq, Hf by done|].
  autorewrite with frames. rewrite upd_upd_frame by done. wp_steps.
  assert (Ho : only_frame n o (upd_frame n (fun pf => set_pf_dirty (pf_dirty (set_pf_mutex true pf) || w)
                 (set_pf_mutex true pf)) o)).
  { apply only_frame_upd; [done|]. apply only_frame_refl, Hok. }
  apply HQ; [|done]. eapply (pages_ok_frame _ _ _ _ _ _ _ _ _ n); [done..| | | |done|].
  - rewrite frame_upd_eq, Hf by done. reflexivity.
  - split; cbn; [done|done|by exists a| | | |].
    + by rewrite bool_decide_eq_true_2.
    + intros [= ->]. by rewrite orb_true_r.
    + intros [?|?]%orb_true_iff; auto.
    + intros [? _]%orb_false_iff. auto.
  - cbn. pose proof (po_pages _ _ _ _ _ Hok n Hr) as Hp. unfold page_content in Hp. by rewrite Hf in Hp.
  - by intros k w' [?|[= -> _]].
Qed.

(** A page that is not in the cache: the frame [pf] was created for it. *)
Lemma pages_ok_new d m m' o o' pg n w pf b :
  pages_ok d m None o pg -> 0 <= n < S5_MAX_FILE_BLOCKS -> only_frame n o o' -> frame_of o' n = Some pf ->
  frame_of o n = None -> disk_page d (m n) = Some b -> block_ok b ->
  (forall k, 0 <= k < S5_MAX_FILE_BLOCKS -> k <> n -> m' k = m k) -> pf_loc pf = m' n -> pf_addr pf = Some b -> pf_mutex pf = true ->
  (w = true -> pf_dirty pf = true) -> (pf_dirty pf = true -> m' n <> 0) ->
  (pf_dirty pf = false -> m' n = m n) -> pages_ok d m' (Some (n, w)) o' pg.
Proof.
  intros Hok Hr Ho Hf Hnone Hdp Hb Hm Hl Ha Hmx Hw Hd Hc.
  pose proof (po_pages _ _ _ _ _ Hok n Hr) as Hp. unfold page_content in Hp. rewrite Hnone, Hdp in Hp.
  eapply (pages_ok_frame _ _ _ _ _ _ _ _ _ n); [done..| | | |].
  - split; [done|done|by exists b| | |done|].
    + by rewrite Hmx, bool_decide_eq_true_2.
    + intros [= ->]. by apply Hw.
    + intros Hdf. by rewrite Hc, Ha.
  - by rewrite Ha.
  - intros k Hrk Hk. split; [by apply Hm|done].
  - by intros k w' [?|[= -> _]].
Qed.

Lemma node_block_ok d G o x len c s ks l D pg f n :
  node_ok d G o x len c s ks l D pg f -> 0 <= n < S5_MAX_FILE_BLOCKS ->
  exists b, disk_page d (disk_block c (inode x) n) = Some b /\ block_ok b.
Proof.
  intros [Hm _ _ _] Hn. unfold disk_page. destruct (Z.eqb_spec (disk_block c (inode x) n) 0) as [E|E].
  - exists zero_block. split; [done|apply zero_block_ok].
  - destruct (mp_data _ _ _ _ _ _ Hm n Hn E) as [[Hr [b Hb]] _]. exists b. rewrite u32_id by lia.
    split; [done|]. by eapply read_block_ok.
Qed.

Lemma fill_zero v o x len f n : fills node_mobj s5fs_fill_pframe n 0 zero_block (at_node v o x len f).
Proof.
  intros o' [pf Hf]. rewrite !at_node_set. unfold s5fs_fill_pframe, set_file_page, pf_modify, pf_get, bind, get.
  cbn. unfold frame_of in Hf. by rewrite Hf.
Qed.

Lemma page_bound n len :
  0 <= n -> n * PAGE_SIZE < len <= S5_MAX_FILE_SIZE ->
  0 <= n < S5_MAX_FILE_BLOCKS /\ (len <=? u64 (n * PAGE_SIZE)) = false.
Proof.
  unfold S5_MAX_FILE_SIZE, S5_MAX_FILE_BLOCKS, PAGE_SIZE, S5_BLOCK_SIZE. intros.
  rewrite u64_id by lia. split; [lia|]. apply Z.leb_gt. lia.
Qed.

Lemma read_on_disk d f a b :
  s5f_bdev f = d -> a <> 0 -> disk_page d a = Some b -> read_block (s5f_bdev f) (u32 a) = Some b.
Proof. intros -> Ha. unfold disk_page. by rewrite (proj2 (Z.eqb_neq a 0)). Qed.

(** Taking a page for reading. *)
Lemma wp_read_pframe v o x len f d c s ks l D pg n Q :
  node_ok d None o x len c s ks l D pg f -> 0 <= n -> n * PAGE_SIZE < len ->
  (forall o' f', node_ok d (Some (n, false)) o' x len c s ks l D pg f' -> only_frame n o o' ->
     Q (0, Some n) (at_node v o' x len f')) ->
  wp (s5fs_get_pframe n false) Q (at_node v o x len f).
Proof.
  intros Hnode H0 Hlen HQ. destruct (page_bound n len H0) as [Hr Hcmp]; [split; [done|apply Hnode]|].
  destruct (node_block_ok _ _ _ _ _ _ _ _ _ _ _ _ _ Hnode Hr) as (b & Hdp & Hb).
  pose proof Hnode as [Hm Hfs Hp [Hsz Hmax]]. destruct (frame_of o n) as [pf|] eqn:Hf.
  { eapply wp_cached_pframe; [done|done|lia|done|]. intros o' Hok' Ho'. by apply HQ. }
  unfold s5fs_get_pframe. wp_use wp_vn_length. rewrite Hcmp.
  wp_use wp_find_pframe; [apply Hp|apply Hp|]. autorewrite with frames. rewrite Hf. wp_red.
  wp_use wp_map_old; [done..|]. intros f1 Hfs1.
  assert (Hge : 0 <= disk_block c (inode x) n).
  { destruct (Z.eq_dec (disk_block c (inode x) n) 0) as [->|E]; [done|].
    destruct (mp_data _ _ _ _ _ _ Hm n Hr E) as [[? _] _]. lia. }
  rewrite (proj2 (Z.ltb_ge _ _)) by done.
  unfold S5_MAX_FILE_BLOCKS in Hr. destruct (Z.eqb_spec (disk_block c (inode x) n) 0) as [E|E]; wp_red.
  - wp_use wp_kassert; [done|]. eapply (wp_default_get_pframe node_mobj); [done|apply Hp|apply Hp|lia| |apply fill_zero|].
    { intros pf. autorewrite with frames. by rewrite Hf. }
    intros o'. autorewrite with frames. intros Ho'. rewrite Hf. cbn. intros Hf'.
    apply HQ; [|done]. split; [done..| |done]. assert (zero_block = b) as <- by (rewrite E in Hdp; by injection Hdp).
    eapply pages_ok_new; [done|done|done|exact Hf'|done..].
  - wp_use wp_get_file_disk_block; [apply Hp|apply Hp|done|lia| |].
    { by apply (read_on_disk d); [apply Hfs1|..]. }
    intros o' Ho' Hf'. wp_steps. apply HQ; [|done]. split; [done..| |done].
    eapply pages_ok_new; [done|done|done|exact Hf'|done..].
Qed.

(** Taking a page for writing: a page without a block gets one, or the result is
    [-ENOSPC] and the free list is empty. *)
Lemma wp_write_pframe v o x len f d c s ks l D pg n Q :
  let i := inode x in
  node_ok d None o x len c s ks l D pg f -> 0 <= n -> n * PAGE_SIZE < len ->
  (is_Some (frame_of o n) -> disk_block c i n <> 0) ->
  (forall x' c' s' ks' D' f', node_ok d None o x' len c' s' ks' [] D' pg f' ->
     grown c i l D c' (inode x') [] D' ->
     (forall k, 0 <= k < S5_MAX_FILE_BLOCKS -> disk_block c' (inode x') k = disk_block c i k) ->
     disk_block c i n = 0 -> Q (- ENOSPC, None) (at_node v o x' len f')) ->
  (forall o' x' c' s' ks' l' D' f', node_ok d (Some (n, true)) o' x' len c' s' ks' l' D' pg f' ->
     grown c i l D c' (inode x') l' D' -> only_frame n o o' -> disk_block c' (inode x') n <> 0 ->
     (forall k, 0 <= k < S5_MAX_FILE_BLOCKS -> k <> n \/ disk_block c i k <> 0 ->
        disk_block c' (inode x') k = disk_block c i k) ->
     Q (0, Some n) (at_node v o' x' len f')) ->
  wp (s5fs_get_pframe n true) Q (at_node v o x len f).
Proof.
  intros i Hnode H0 Hlen Hhole HE HQ. destruct (page_bound n len H0) as [Hr Hcmp]; [split; [done|apply Hnode]|].
  destruct (node_block_ok _ _ _ _ _ _ _ _ _ _ _ _ _ Hnode Hr) as (b & Hdp & Hb).
  pose proof Hnode as [Hm Hfs Hp [Hsz Hmax]]. destruct (frame_of o n) as [pf|] eqn:Hf.
  { eapply wp_cached_pframe; [done|done|lia|by auto|]. intros o' Hok' Ho'.
    by eapply HQ; [|apply grown_refl|done|apply Hhole|]. }
  unfold s5fs_get_pframe. wp_use wp_vn_length. rewrite Hcmp.
  wp_use wp_find_pframe; [apply Hp|apply Hp|]. autorewrite with frames. rewrite Hf. wp_red. wp_steps.
  unfold S5_MAX_FILE_BLOCKS in Hr. destruct (Z.eq_dec (disk_block c i n) 0) as [E|E].
  - eapply wp_map_new; [done..| |].
    + intros f1 c1 x1 s1 ks1 D1 Hm1 Hfs1 Hgr1 Hsz1 Hb1. change (- ENOSPC <? 0) with true. wp_steps.
      eapply HE; [|done..]. split; [done|done| |by rewrite Hsz1].
      destruct Hp as [? ? Hfr ? Hpg]. split; [done..| |done|].
      * intros k pf Hk. pose proof (Hfr _ _ Hk) as Hpf. rewrite Hb1 by apply Hpf. done.
      * intros k Hk. rewrite Hb1 by done. by apply Hpg.
    + intros f1 c1 x1 s1 ks1 l1 D1 b1 Hm1 Hfs1 Hgr1 Hsz1 Hdisk1 Hb1. pose proof Hdisk1 as [Hrb _].
      rewrite (proj2 (Z.ltb_ge b1 0)) by lia. rewrite (proj2 (Z.eqb_neq b1 0)) by lia. wp_red.
      wp_steps. eapply (wp_cache_and_clear Hoom node_mobj); [apply Hp|apply Hp|done|lia|].
      intros o'. autorewrite with frames. intros Ho' Hf'. wp_steps.
      assert (Hbn : disk_block c1 (inode x1) n = b1) by (rewrite Hb1 by done; by rewrite decide_True).
      eapply HQ; [|done|done|rewrite Hbn; lia|intros k Hk Hne; rewrite Hb1 by done; rewrite decide_False; naive_solver].
      split; [done..| |by rewrite Hsz1].
      assert (zero_block = b) as <- by (fold i in Hdp; rewrite E in Hdp; by injection Hdp).
      eapply pages_ok_new; [done|done|done|exact Hf'|done|done|done| |by rewrite Hbn|done..| |done].
      * intros k Hk Hne. rewrite Hb1 by done. by rewrite decide_False.
      * intros _. rewrite Hbn. lia.
  - eapply wp_map_old; [done..|]. intros f1 Hfs1.
    destruct (mp_data _ _ _ _ _ _ Hm n Hr E) as [[Hrb _] _]. fold i in Hrb |- *. wp_red.
    rewrite (proj2 (Z.ltb_ge (disk_block c i n) 0)) by lia. rewrite (proj2 (Z.eqb_neq _ 0)) by done. wp_red.
    wp_use wp_get_file_disk_block; [apply Hp|apply Hp|done|lia| |].
    { by apply (read_on_disk d); [apply Hfs1|..]. }
    intros o' Ho' Hf'. wp_steps. eapply HQ; [|apply grown_refl|done..]. split; [done..| |done].
    eapply pages_ok_new; [done|done|done|exact Hf'|done..].
Qed.
End pages.
