(* ===== verification/S5RwProofs.v ===== *)
(** Reading and writing S5FS files ([s5_read_file], [s5_write_file] of
    [fs/s5fs/s5fs_subr.c]): a read returns the bytes of the file, a write
    replaces them, whatever of the file is cached. *)

From S2P Require Import Prelude CString Btree BtreeProofs Mobj MobjProofs Vnode S5Disk.
From S2P Require Import S5DiskProofs S5MetaProofs S5AllocProofs S5File S5MapProofs S5PageProofs.

(** * The bytes of a file *)

Definition file_byte (pg : Z -> list Z) (y : Z) : Z :=
  nth (Z.to_nat (y mod S5_BLOCK_SIZE)) (pg (y / S5_BLOCK_SIZE)) 0.

Definition bytes_at (pg : Z -> list Z) (pos n : Z) : list Z := file_byte pg <$> seqZ pos n.

(** The contents of a file of [len] bytes. *)
Definition file_data (pg : Z -> list Z) (len : Z) : list Z := bytes_at pg 0 len.

(** [pg'] is [pg] with [data] written at [pos]. *)
Definition written (pg pg' : Z -> list Z) (pos : Z) (data : list Z) : Prop :=
  forall y, 0 <= y < S5_MAX_FILE_SIZE -> file_byte pg' y
    = if decide (pos <= y < pos + Z.of_nat (length data)) then nth (Z.to_nat (y - pos)) data 0 else file_byte pg y.

Section bytes.
Implicit Types (pg : Z -> list Z) (pos n y : Z) (data b : list Z).

Lemma length_bytes_at pg pos n : length (bytes_at pg pos n) = Z.to_nat n.
Proof. unfold bytes_at. by rewrite length_fmap, length_seqZ. Qed.

Lemma bytes_at_app pg pos n m :
  0 <= n -> 0 <= m -> bytes_at pg pos n ++ bytes_at pg (pos + n) m = bytes_at pg pos (n + m).
Proof. intros. unfold bytes_at. by rewrite seqZ_app, fmap_app by lia. Qed.

Lemma lookup_nth b i d : (i < length b)%nat -> b !! i = Some (nth i b d).
Proof. intros Hi. destruct (lookup_lt_is_Some_2 b i Hi) as [y Hy]. by rewrite nth_lookup, Hy. Qed.

Lemma lookup_bytes_at pg pos n k :
  (k < Z.to_nat n)%nat -> bytes_at pg pos n !! k = Some (file_byte pg (pos + Z.of_nat k)).
Proof. intros Hk. unfold bytes_at. rewrite list_lookup_fmap, lookup_seqZ_lt by lia. done. Qed.

(** The bytes of one page. *)
Lemma slice_page pg pos n :
  0 <= pos -> 0 <= n -> pos mod S5_BLOCK_SIZE + n <= S5_BLOCK_SIZE ->
  length (pg (pos / S5_BLOCK_SIZE)) = 4096%nat ->
  slice (pg (pos / S5_BLOCK_SIZE)) (Z.to_nat (pos mod S5_BLOCK_SIZE)) (Z.to_nat n) = bytes_at pg pos n.
Proof.
  unfold S5_BLOCK_SIZE. intros Hp Hn Hfit Hl. pose proof (Z.mod_pos_bound pos 4096).
  apply list_eq_same_length with (n := Z.to_nat n); [by rewrite length_bytes_at|rewrite length_slice; lia|].
  intros k y1 y2 Hk. rewrite lookup_slice by lia. rewrite lookup_bytes_at by lia.
  rewrite (lookup_nth _ _ 0) by lia. intros [= <-] [= <-]. unfold file_byte, S5_BLOCK_SIZE.
  assert (Hdm : (pos + Z.of_nat k) / 4096 = pos / 4096 /\ (pos + Z.of_nat k) mod 4096 = pos mod 4096 + Z.of_nat k).
  { pose proof (Z.div_mod pos 4096). split; [symmetry; apply Z.div_unique with (pos mod 4096 + Z.of_nat k)|
      symmetry; apply Z.mod_unique with (pos / 4096)]; lia. }
  destruct Hdm as [-> ->]. f_equal. lia.
Qed.

Lemma written_nil pg pos : written pg pg pos [].
Proof. intros y _. rewrite decide_False; [done|]. cbn. lia. Qed.

Lemma written_app pg pg1 pg2 pos d1 d2 :
  written pg pg1 pos d1 -> written pg1 pg2 (pos + Z.of_nat (length d1)) d2 -> written pg pg2 pos (d1 ++ d2).
Proof.
  intros H1 H2 y Hy. rewrite H2, H1 by done. rewrite length_app.
  repeat case_decide; try (exfalso; lia); try done; [rewrite app_nth2 by lia; f_equal; lia|by rewrite app_nth1 by lia].
Qed.

(** Writing in one page. *)
Lemma written_page pg pos data :
  let n := pos / S5_BLOCK_SIZE in let off := pos mod S5_BLOCK_SIZE in
  0 <= pos -> off + Z.of_nat (length data) <= S5_BLOCK_SIZE -> length (pg n) = 4096%nat ->
  written pg (set_page pg n (splice (pg n) (Z.to_nat off) data)) pos data.
Proof.
  intros n off Hp Hfit Hl y Hy. unfold file_byte, set_page. unfold S5_BLOCK_SIZE in *.
  pose proof (Z.mod_pos_bound pos 4096) as Hoff. pose proof (Z.mod_pos_bound y 4096).
  pose proof (Z.div_mod pos 4096) as Hdm. pose proof (Z.div_mod y 4096). fold n off in Hdm. fold off in Hoff.
  destruct (decide (y / 4096 = n)) as [E|E].
  - rewrite E. case_decide as Hin; rewrite !nth_lookup.
    + rewrite lookup_splice_in by lia. do 2 f_equal. lia.
    + rewrite lookup_splice_out by lia. done.
  - rewrite decide_False; [done|]. intros Hin. apply E. symmetry. apply Z.div_unique with (off + (y - pos)); lia.
Qed.

Lemma set_page_ok pg n b k : length (pg k) = 4096%nat -> length b = 4096%nat -> length (set_page pg n b k) = 4096%nat.
Proof. intros. unfold set_page. by case_decide. Qed.

(** The contents after a write. *)
Lemma file_data_written pg pg' pos data len :
  written pg pg' pos data -> 0 <= pos -> 0 <= len -> data <> [] ->
  let len' := Z.max len (pos + Z.of_nat (length data)) in len' <= S5_MAX_FILE_SIZE ->
  file_data pg' len' = splice (file_data pg (Z.max len pos)) (Z.to_nat pos) data.
Proof.
  intros Hw Hp Hlen Hne len' Hmax.
  assert (Hd : (0 < length data)%nat) by (destruct data; [done|cbn; lia]).
  unfold file_data. apply list_eq_same_length with (n := Z.to_nat len').
  { unfold splice. rewrite !length_app, length_take, length_drop, length_bytes_at. lia. }
  { by rewrite length_bytes_at. }
  intros k y1 y2 Hk. rewrite lookup_bytes_at by lia. rewrite Z.add_0_l, Hw by lia. intros [= <-].
  unfold splice. case_decide as Hin.
  - rewrite lookup_app_r by (rewrite length_take, length_bytes_at; lia).
    rewrite lookup_app_l by (rewrite length_take, length_bytes_at; lia).
    rewrite length_take, length_bytes_at, (lookup_nth _ _ 0) by lia.
    intros [= <-]. f_equal. lia.
  - destruct (decide (Z.of_nat k < pos)).
    + rewrite lookup_app_l by (rewrite length_take, length_bytes_at; lia).
      rewrite lookup_take_lt, lookup_bytes_at by lia. by intros [= <-].
    + rewrite !lookup_app_r by (rewrite length_take, length_bytes_at; lia).
      rewrite lookup_drop, length_take, length_bytes_at, lookup_bytes_at by lia.
      intros [= <-]. f_equal. lia.
Qed.

Lemma file_data_slice pg len pos n :
  0 <= pos -> 0 <= n -> pos + n <= len -> slice (file_data pg len) (Z.to_nat pos) (Z.to_nat n) = bytes_at pg pos n.
Proof.
  intros. unfold file_data. rewrite <- (Z2Nat.id pos) at 2 by lia.
  replace len with (pos + (n + (len - pos - n))) by lia. rewrite <- bytes_at_app by lia.
  rewrite slice_app_r by (rewrite length_bytes_at; lia). rewrite length_bytes_at, Nat.sub_diag.
  rewrite <- bytes_at_app by lia. rewrite slice_app_l by (rewrite length_bytes_at; lia).
  rewrite slice_all by (by rewrite length_bytes_at). f_equal. lia.
Qed.
End bytes.

(** * The loops *)

Lemma chunk_min pos n :
  0 <= n -> pos mod S5_BLOCK_SIZE + n < 2 ^ 64 ->
  chunk pos n = Z.min n (S5_BLOCK_SIZE - pos mod S5_BLOCK_SIZE).
Proof.
  unfold chunk, S5_BLOCK_SIZE. intros. pose proof (Z.mod_pos_bound pos 4096).
  rewrite u64_id by lia. destruct (Z.ltb_spec 4096 (pos mod 4096 + n)); lia.
Qed.

(** The rest of a transfer starts at a block boundary. *)
Lemma chunk_rest pos n k :
  0 <= pos -> k = Z.min n (S5_BLOCK_SIZE - pos mod S5_BLOCK_SIZE) -> 0 < n - k ->
  (pos + k) mod S5_BLOCK_SIZE = 0 /\ (pos + k) / S5_BLOCK_SIZE = pos / S5_BLOCK_SIZE + 1
  /\ k = S5_BLOCK_SIZE - pos mod S5_BLOCK_SIZE.
Proof.
  unfold S5_BLOCK_SIZE. intros Hp Hk Hn. pose proof (Z.mod_pos_bound pos 4096). pose proof (Z.div_mod pos 4096).
  assert (k = 4096 - pos mod 4096) as -> by lia. split_and!; [..|done].
  - symmetry. apply Z.mod_unique with (pos / 4096 + 1); lia.
  - symmetry. apply Z.div_unique with 0; lia.
Qed.

(** A chunk is in one page. *)
Lemma chunk_page pos k y :
  0 <= pos -> pos mod S5_BLOCK_SIZE + k <= S5_BLOCK_SIZE -> pos <= y < pos + k ->
  y / S5_BLOCK_SIZE = pos / S5_BLOCK_SIZE.
Proof.
  unfold S5_BLOCK_SIZE. intros. pose proof (Z.div_mod pos 4096). pose proof (Z.mod_pos_bound pos 4096).
  symmetry. apply Z.div_unique with (pos mod 4096 + (y - pos)); lia.
Qed.

Section rw.
Context {mem : Memory} {pages : Pages} {bd : BlockDev} `{laws : !BlockDevLaws bd}.
Context (Hoom : oom = false).
Context (v : vnode s5_node) (d : bdev) (Hops : vn_ops v = VopsFile \/ vn_ops v = VopsDir).
Implicit Types (f : s5fs) (n k : Z) (i : s5_inode) (c : Z -> option (list Z)) (s : s5_super)
  (x : s5_node) (o : mobj) (ks l D : list Z) (pg : Z -> list Z) (G : option (Z * bool)).

Lemma wp_get_file_block n w o x len f Q :
  wp (s5fs_get_pframe n w) Q (at_node v o x len f) -> wp (s5_get_file_block n w) Q (at_node v o x len f).
Proof.
  intros Hwp. unfold s5_get_file_block. wp_steps.
  change (vn_ops (at_node v o x len f).1) with (vn_ops v). by destruct Hops as [-> | ->].
Qed.

Lemma held_page_ok m o pg n w : pages_ok d m (Some (n, w)) o pg -> block_ok (pg n).
Proof.
  intros Hok. destruct (held_frame _ _ _ _ _ _ Hok) as (pf & _ & Hpf & Ha & _).
  destruct (pg_page _ _ _ _ _ Hpf) as (a & Ha' & Hb). rewrite Ha in Ha'. by injection Ha' as ->.
Qed.

(** Reading caches pages of the file only. *)
Definition cached_more (len : Z) o o' : Prop :=
  forall n, is_Some (frame_of o' n) -> is_Some (frame_of o n) \/ (0 <= n /\ n * S5_BLOCK_SIZE < len).

Lemma cached_more_refl len o : cached_more len o o.
Proof. intros n. auto. Qed.

Lemma cached_more_trans len o1 o2 o3 : cached_more len o1 o2 -> cached_more len o2 o3 -> cached_more len o1 o3.
Proof. intros H1 H2 n [Hn|?]%H2; [by apply H1|auto]. Qed.

Lemma cached_more_one len o o' n :
  only_frame n o o' -> 0 <= n -> n * S5_BLOCK_SIZE < len -> cached_more len o o'.
Proof.
  intros Ho H0 Hn k Hk. destruct (decide (k = n)) as [->|E]; [auto|]. rewrite (of_others _ _ _ Ho) in Hk by done. auto.
Qed.

(** Where a transfer in one block is. *)
Lemma chunk_bounds pos n len :
  0 <= pos < len -> len <= S5_MAX_FILE_SIZE -> 0 <= n -> pos + n <= S5_MAX_FILE_SIZE ->
  let k := chunk pos n in
  k = Z.min n (S5_BLOCK_SIZE - pos mod S5_BLOCK_SIZE) /\ 0 <= k <= n /\ (0 < n -> 0 < k) /\ in_block pos k = true
  /\ 0 <= pos / S5_BLOCK_SIZE /\ (pos / S5_BLOCK_SIZE) * PAGE_SIZE <= pos
  /\ pos mod S5_BLOCK_SIZE + k <= S5_BLOCK_SIZE.
Proof.
  intros Hp Hlen Hn Hend k. unfold S5_MAX_FILE_SIZE, S5_MAX_FILE_BLOCKS, PAGE_SIZE, in_block in *.
  assert (Hk : k = Z.min n (S5_BLOCK_SIZE - pos mod S5_BLOCK_SIZE)).
  { unfold k. apply chunk_min; [done|]. unfold S5_BLOCK_SIZE in *. pose proof (Z.mod_pos_bound pos 4096). lia. }
  clearbody k. unfold S5_BLOCK_SIZE in *. pose proof (Z.mod_pos_bound pos 4096). pose proof (Z.div_mod pos 4096).
  pose proof (Z.div_pos pos 4096). rewrite Z.leb_le. lia.
Qed.

(** One iteration of a read. *)
Lemma wp_read_block {A} pos n acc (K : list Z -> M _ A) o x len c s ks l D pg f Q :
  node_ok d None o x len c s ks l D pg f -> 0 <= pos < len -> 0 <= n -> pos + n <= len ->
  (forall o' f', node_ok d None o' x len c s ks l D pg f' -> cached_more len o o' ->
     wp (K (acc ++ bytes_at pg pos (chunk pos n))) Q (at_node v o' x len f')) ->
  wp (let! r := s5_get_file_block (pos / S5_BLOCK_SIZE) false in
      if r.1 <? 0 then fail Fault
      else
        let! m := deref r.2 in
        let! b := file_page m in
        do! (if in_block pos (chunk pos n) then ret tt else fail Fault);
        do! s5_release_file_block m;
        K (acc ++ slice b (Z.to_nat (pos mod S5_BLOCK_SIZE)) (Z.to_nat (chunk pos n)))) Q (at_node v o x len f).
Proof.
  intros Hnode Hpos Hn Hend HQ. pose proof (no_size _ _ _ _ _ _ _ _ _ _ _ _ Hnode) as [_ Hmax].
  destruct (chunk_bounds pos n len Hpos ltac:(lia) Hn ltac:(lia)) as (_ & Hk & _ & Hin & Hdiv & Hpg & Hfit).
  wp_steps. apply wp_get_file_block. eapply wp_read_pframe; [done..|lia|]. intros o1 f1 Hnode1 Ho1. wp_red.
  change (fst (0, ?y) <? 0) with false. wp_red. wp_use wp_deref; [done|].
  wp_use wp_file_page; [apply Hnode1|]. rewrite Hin. wp_steps.
  rewrite slice_page by (done || lia || apply (held_page_ok _ _ _ _ _ (no_pages _ _ _ _ _ _ _ _ _ _ _ _ Hnode1))).
  eapply wp_release_file_block; [apply Hnode1|]. intros o2 Hp2 Ho2. apply HQ.
  - destruct Hnode1. by split.
  - eapply (cached_more_one _ _ _ (pos / S5_BLOCK_SIZE)); [by eapply only_frame_trans|done|].
    change S5_BLOCK_SIZE with PAGE_SIZE at 2. lia.
Qed.

Lemma wp_read_loop fuel pos n acc o x len c s ks l D pg f Q :
  node_ok d None o x len c s ks l D pg f -> 0 <= pos < len -> 0 <= n -> pos + n <= len ->
  pos mod S5_BLOCK_SIZE + n <= S5_BLOCK_SIZE * Z.of_nat (S fuel) ->
  (forall o' f', node_ok d None o' x len c s ks l D pg f' -> cached_more len o o' ->
     Q (acc ++ bytes_at pg pos n) (at_node v o' x len f')) ->
  wp (read_loop fuel pos n acc) Q (at_node v o x len f).
Proof.
  revert pos n acc o f. induction fuel as [|fuel IH]; intros pos n acc o f Hnode Hpos Hn Hend Hfuel HQ;
    pose proof (no_size _ _ _ _ _ _ _ _ _ _ _ _ Hnode) as [_ Hmax];
    destruct (chunk_bounds pos n len Hpos ltac:(lia) Hn ltac:(lia)) as (Hmin & Hk & Hk0 & _);
    cbn [read_loop]; cbv zeta.
  - eapply (wp_read_block pos n acc (fun a => if 0 <? n - chunk pos n then fail Stuck else ret a)); [done..|].
    intros o1 f1 Hnode1 Hc1. destruct (Z.ltb_spec 0 (n - chunk pos n)) as [Hrest|Hrest].
    + destruct (chunk_rest pos n _ (proj1 Hpos) Hmin Hrest) as (_ & _ & Hlast). lia.
    + wp_steps. replace (chunk pos n) with n by lia. by apply HQ.
  - eapply (wp_read_block pos n acc (fun a => if 0 <? n - chunk pos n
      then read_loop fuel (pos + chunk pos n) (n - chunk pos n) a else ret a)); [done..|].
    intros o1 f1 Hnode1 Hc1. destruct (Z.ltb_spec 0 (n - chunk pos n)) as [Hrest|Hrest].
    + destruct (chunk_rest pos n _ (proj1 Hpos) Hmin Hrest) as (Hmod & _ & Hlast).
      eapply IH; [done|lia..|]. intros o2 f2 Hnode2 Hc2. rewrite <- app_assoc, bytes_at_app by lia.
      replace (chunk pos n + (n - chunk pos n)) with n by lia. apply HQ; [done|by eapply cached_more_trans].
    + wp_steps. replace (chunk pos n) with n by lia. by apply HQ.
Qed.

(** ** Writing *)

Lemma node_ok_resize G o x len len' b c s ks l D pg f :
  node_ok d G o x len c s ks l D pg f -> 0 <= len' <= S5_MAX_FILE_SIZE ->
  node_ok d G o (S5Node (set_s5_size (u32 len') (inode x)) b) len' c s ks l D pg f.
Proof.
  intros [[Hfit ? ? ? ? ? ?] Hfs Hp _] Hlen'. unfold S5_MAX_FILE_SIZE, S5_MAX_FILE_BLOCKS, S5_BLOCK_SIZE in Hlen'.
  rewrite u32_id by lia. split; [|done|done|by split].
  split; try done. destruct Hfit. split; try done. cbn. split; lia.
Qed.

Lemma set_size_id i : set_s5_size (s5_size i) i = i.
Proof. by destruct i. Qed.

Lemma node_ok_dirty G o x len c s ks l D pg f :
  node_ok d G o x len c s ks l D pg f -> node_ok d G o (S5Node (inode x) true) len c s ks l D pg f.
Proof. intros []. by split. Qed.

(** The grown map does not depend on the size. *)
Lemma grown_resize c i l D c' i' l' D' n :
  grown c (set_s5_size n i) l D c' i' l' D' -> grown c i l D c' i' l' D'.
Proof. by intros []. Qed.

Lemma grown_resize_r c i l D c' i' l' D' n :
  grown c i l D c' i' l' D' -> grown c i l D c' (set_s5_size n i') l' D'.
Proof. by intros []. Qed.

(** The length a write of [k] bytes at [pos] leaves. *)
Definition extend (len pos k : Z) : Z := if k =? 0 then len else Z.max len (pos + k).

(** [vn_len] is raised before the block is taken. *)
Lemma wp_raise_length o x len c s ks l D pg f pos k (Q : unit -> _ -> Prop) :
  node_ok d None o x len c s ks l D pg f -> 0 <= pos -> 0 < k -> pos + k <= S5_MAX_FILE_SIZE ->
  (forall x', node_ok d None o x' (Z.max len (pos + k)) c s ks l D pg f ->
     (exists n, inode x' = set_s5_size n (inode x)) -> Q tt (at_node v o x' (Z.max len (pos + k)) f)) ->
  wp (if len <? pos + k then set_length (pos + k) else ret tt) Q (at_node v o x len f).
Proof.
  intros Hnode Hp Hk Hmax HQ. destruct (Z.ltb_spec len (pos + k)).
  - apply wp_set_length. rewrite Z.max_r in HQ by lia. apply HQ; [by eapply node_ok_resize; [|lia]|].
    eexists. reflexivity.
  - rewrite Z.max_l in HQ by lia. apply wp_ret, HQ; [done|]. exists (s5_size (inode x)). by rewrite set_size_id.
Qed.

Lemma wp_write_block pos n buf (K : M _ Z) o x len c s ks l D pg f Q :
  let i := inode x in let m := pos / S5_BLOCK_SIZE in
  let data := take (Z.to_nat (chunk pos n)) buf in
  node_ok d None o x len c s ks l D pg f -> 0 <= pos -> 0 < n <= Z.of_nat (length buf) ->
  pos + n <= S5_MAX_FILE_SIZE -> Forall byte buf ->
  (is_Some (frame_of o m) -> disk_block c i m <> 0) ->
  (forall x' c' s' ks' D' f', node_ok d None o x' len c' s' ks' [] D' pg f' ->
     grown c i l D c' (inode x') [] D' -> disk_block c i m = 0 ->
     (forall k, 0 <= k < S5_MAX_FILE_BLOCKS -> disk_block c' (inode x') k = disk_block c i k) ->
     Q (- ENOSPC) (at_node v o x' len f')) ->
  (forall o' x' c' s' ks' l' D' pg' f',
     node_ok d None o' x' (Z.max len (pos + chunk pos n)) c' s' ks' l' D' pg' f' -> written pg pg' pos data ->
     grown c i l D c' (inode x') l' D' -> only_frame m o o' -> disk_block c' (inode x') m <> 0 ->
     (forall k, 0 <= k < S5_MAX_FILE_BLOCKS -> k <> m \/ disk_block c i k <> 0 ->
        disk_block c' (inode x') k = disk_block c i k) ->
     wp K Q (at_node v o' x' (Z.max len (pos + chunk pos n)) f')) ->
  wp (let! undo_len := vn_length in
      do! (if undo_len <? pos + chunk pos n then set_length (pos + chunk pos n) else ret tt);
      do! dirty_inode id;
      let! r := s5_get_file_block m true in
      if r.1 <? 0 then do! set_length undo_len; ret r.1
      else
        let! k := deref r.2 in
        let! b := file_page k in
        do! (if in_block pos (chunk pos n) then ret tt else fail Fault);
        do! set_file_page k (splice b (Z.to_nat (pos mod S5_BLOCK_SIZE)) data);
        do! s5_release_file_block k;
        K) Q (at_node v o x len f).
Proof.
  intros i m data Hnode Hpos Hn Hend Hbytes Hhole HE HQ.
  pose proof (no_size _ _ _ _ _ _ _ _ _ _ _ _ Hnode) as [Hsz Hmax].
  destruct (chunk_bounds pos n (Z.max len (pos + n))) as (Hmin & Hk & Hk0 & Hin & Hdiv & Hpg & Hfit); [lia..|].
  wp_use wp_vn_length. wp_use wp_raise_length; [done..|lia|lia|]. intros x1 Hnode1 [sz Hi1].
  assert (Hbm1 : forall k, disk_block c (inode x1) k = disk_block c i k).
  { intros k. rewrite Hi1. by apply disk_block_same. }
  wp_use wp_dirty_inode. unfold id. apply node_ok_dirty in Hnode1. wp_steps. apply wp_get_file_block.
  eapply wp_write_pframe; [done..|lia|cbn; rewrite Hbm1; exact Hhole| |].
  - intros x2 c2 s2 ks2 D2 f2 Hnode2 Hgr Hsame Hz. change (fst (- ENOSPC, ?y) <? 0) with true.
    wp_use wp_set_length. wp_steps. cbn in Hgr, Hz. eapply HE; [by eapply node_ok_resize|..].
    { rewrite Hi1 in Hgr. by eapply grown_resize_r, grown_resize. }
    { by rewrite <- Hbm1. }
    intros k Hkr. rewrite <- Hbm1. by apply Hsame.
  - intros o2 x2 c2 s2 ks2 l2 D2 f2 Hnode2 Hgr Ho Hbm Hsame. change (fst (0, ?y) <? 0) with false.
    cbn [inode] in Hgr, Hsame. rewrite Hi1 in Hgr. apply grown_resize in Hgr.
    wp_use wp_deref; [done|]. wp_use wp_file_page; [apply Hnode2|]. rewrite Hin. wp_steps.
    pose proof (held_page_ok _ _ _ _ _ (no_pages _ _ _ _ _ _ _ _ _ _ _ _ Hnode2)) as [Hpl Hpb].
    assert (Hld : length data = Z.to_nat (chunk pos n)) by (unfold data; rewrite length_take; lia).
    eapply wp_set_file_page; [apply Hnode2| |].
    { split; [rewrite length_splice; [done|]; unfold S5_BLOCK_SIZE in *; pose proof (Z.mod_pos_bound pos 4096); lia|].
      apply Forall_splice; [done|by apply Forall_take]. }
    intros o3 Hp3 Ho3. wp_use wp_release_file_block; [done|]. intros o4 Hp4 Ho4.
    eapply HQ; [| |done|by do 2 (eapply only_frame_trans; [|done])|done|].
    + destruct Hnode2. by split.
    + apply written_page; [done|rewrite Hld; lia|done].
    + intros k Hkr Hne. rewrite Hsame by (by rewrite ?Hbm1). apply Hbm1.
Qed.

(** How a write of [n] bytes ends after [k] of them: all are written, or the next
    byte is the first of a page that has no block and there is no free block. *)
Definition write_result c i (pos n total k r : Z) (l : list Z) : Prop :=
  (k = n /\ r = total + n)
  \/ (0 <= k < n /\ r = - ENOSPC /\ l = [] /\ (k = 0 \/ (pos + k) mod S5_BLOCK_SIZE = 0)
      /\ disk_block c i ((pos + k) / S5_BLOCK_SIZE) = 0).

(** No page of the range is a hole in the cache. *)
Definition no_cached_hole c i o (pos n : Z) : Prop :=
  forall m, pos / S5_BLOCK_SIZE <= m <= (pos + n - 1) / S5_BLOCK_SIZE -> is_Some (frame_of o m) ->
    disk_block c i m <> 0.

(** What a write of [k] bytes at [pos] does to the map: the blocks it had stay, and
    the pages written have one. *)
Record mapped_more c i o c' i' o' (pos k : Z) : Prop := {
  mm_keep : forall n, 0 <= n < S5_MAX_FILE_BLOCKS -> disk_block c i n <> 0 -> disk_block c' i' n = disk_block c i n;
  mm_frames : forall n, is_Some (frame_of o' n) -> is_Some (frame_of o n) \/ disk_block c' i' n <> 0;
  mm_written : forall y, pos <= y < pos + k -> disk_block c' i' (y / S5_BLOCK_SIZE) <> 0;
}.

Lemma mapped_more_none c i o c' i' pos :
  (forall n, 0 <= n < S5_MAX_FILE_BLOCKS -> disk_block c' i' n = disk_block c i n) -> mapped_more c i o c' i' o pos 0.
Proof. intros Hs. split; [auto|auto|lia]. Qed.

Lemma mapped_more_page m c i o c' i' o' pos k :
  only_frame m o o' -> disk_block c' i' m <> 0 ->
  (forall n, 0 <= n < S5_MAX_FILE_BLOCKS -> n <> m \/ disk_block c i n <> 0 -> disk_block c' i' n = disk_block c i n) ->
  (forall y, pos <= y < pos + k -> y / S5_BLOCK_SIZE = m) -> mapped_more c i o c' i' o' pos k.
Proof.
  intros Ho Hm Hs Hy. split.
  - auto.
  - intros n Hn. destruct (decide (n = m)) as [->|E]; [auto|]. rewrite (of_others _ _ _ Ho) in Hn by done. auto.
  - intros y Hr. by rewrite Hy.
Qed.

Lemma mapped_more_trans c1 i1 o1 c2 i2 o2 c3 i3 o3 pos k k' :
  mapped_more c1 i1 o1 c2 i2 o2 pos k -> mapped_more c2 i2 o2 c3 i3 o3 (pos + k) k' ->
  (forall n pf, frame_of o2 n = Some pf -> 0 <= n < S5_MAX_FILE_BLOCKS) ->
  0 <= pos -> 0 <= k -> pos + k <= S5_MAX_FILE_SIZE -> mapped_more c1 i1 o1 c3 i3 o3 pos (k + k').
Proof.
  intros [Hk1 Hf1 Hw1] [Hk2 Hf2 Hw2] Hr Hp Hk Hmax. split.
  - intros n Hn Hb. rewrite Hk2, Hk1 by (done || by rewrite Hk1). done.
  - intros n [Hn|?]%Hf2; [|auto]. pose proof (Hf1 n Hn) as [?|Hb]; [auto|]. right.
    destruct Hn as [pf Hpf]. by rewrite Hk2 by (done || by eapply Hr).
  - intros y Hy. destruct (decide (y < pos + k)); [|apply Hw2; lia].
    assert (Hb : disk_block c2 i2 (y / S5_BLOCK_SIZE) <> 0) by (apply Hw1; lia).
    rewrite Hk2; [done| |done]. split; [apply Z.div_pos; [lia|done]|].
    apply Z.div_lt_upper_bound; [done|]. unfold S5_MAX_FILE_SIZE in Hmax. lia.
Qed.

(** What a write of [n] bytes at [pos] may leave. *)
Definition write_post n pos buf total o x len c l D pg (Q : Z -> _ -> Prop) : Prop :=
  forall r k o' x' c' s' ks' l' D' pg' f', write_result c (inode x) pos n total k r l' ->
     node_ok d None o' x' (extend len pos k) c' s' ks' l' D' pg' f' ->
     written pg pg' pos (take (Z.to_nat k) buf) -> grown c (inode x) l D c' (inode x') l' D' ->
     mapped_more c (inode x) o c' (inode x') o' pos k ->
     Q r (at_node v o' x' (extend len pos k) f').

Lemma hole_mono c i o pos n pos' n' :
  no_cached_hole c i o pos n -> pos <= pos' -> pos' + n' <= pos + n -> no_cached_hole c i o pos' n'.
Proof.
  intros Hh Hp Hn m Hm. apply Hh. unfold S5_BLOCK_SIZE in *.
  pose proof (Z.div_le_mono pos pos' 4096). pose proof (Z.div_le_mono (pos' + n' - 1) (pos + n - 1) 4096). lia.
Qed.

(** One iteration of the loop; [K] is the rest of it. *)
Lemma wp_write_iter pos buf n total (K : M _ Z) o x len c s ks l D pg f Q :
  let i := inode x in let k := chunk pos n in
  node_ok d None o x len c s ks l D pg f -> 0 <= pos -> 0 < n <= Z.of_nat (length buf) ->
  pos + n <= S5_MAX_FILE_SIZE -> Forall byte buf -> no_cached_hole c i o pos n ->
  write_post n pos buf total o x len c l D pg Q ->
  (forall o' x' c' s' ks' l' D' pg' f', 0 < n - k ->
     let len' := Z.max len (pos + k) in
     node_ok d None o' x' len' c' s' ks' l' D' pg' f' -> no_cached_hole c' (inode x') o' (pos + k) (n - k) ->
     write_post (n - k) (pos + k) (drop (Z.to_nat k) buf) (total + k) o' x' len' c' l' D' pg' Q ->
     wp K Q (at_node v o' x' len' f')) ->
  wp (let! undo_len := vn_length in
      do! (if undo_len <? pos + k then set_length (pos + k) else ret tt);
      do! dirty_inode id;
      let! r := s5_get_file_block (pos / S5_BLOCK_SIZE) true in
      if r.1 <? 0 then do! set_length undo_len; ret r.1
      else
        let! m := deref r.2 in
        let! b := file_page m in
        do! (if in_block pos k then ret tt else fail Fault);
        do! set_file_page m (splice b (Z.to_nat (pos mod S5_BLOCK_SIZE)) (take (Z.to_nat k) buf));
        do! s5_release_file_block m;
        if 0 <? n - k then K else ret (total + k)) Q (at_node v o x len f).
Proof.
  intros i k Hnode Hpos Hn Hend Hbytes Hhole HQ HK.
  pose proof (no_size _ _ _ _ _ _ _ _ _ _ _ _ Hnode) as [Hsz Hmax].
  destruct (chunk_bounds pos n (Z.max len (pos + n))) as (Hmin & Hk & Hk0 & _ & Hdiv & _ & Hfit); [lia..|].
  fold k in Hmin, Hk, Hk0, Hfit.
  eapply (wp_write_block pos n buf); [done..| | |].
  { apply Hhole. split; [done|]. apply Z.div_le_mono; [done|lia]. }
  { intros x1 c1 s1 ks1 D1 f1 Hnode1 Hgr Hz Hsame. apply (HQ (- ENOSPC) 0 o x1 c1 s1 ks1 [] D1 pg); [|done| |done|].
    - right. rewrite Z.add_0_r. split; [lia|]. auto.
    - apply written_nil.
    - by apply mapped_more_none. }
  intros o1 x1 c1 s1 ks1 l1 D1 pg1 f1 Hnode1 Hw1 Hgr1 Ho1 Hb1 Hs1. fold k in Hnode1, Hw1 |- *.
  assert (Hext : extend len pos k = Z.max len (pos + k)).
  { unfold extend. rewrite (proj2 (Z.eqb_neq _ _)) by lia. done. }
  assert (Hlen : length (take (Z.to_nat k) buf) = Z.to_nat k) by (rewrite length_take; lia).
  assert (Hrange : forall y pf, frame_of o1 y = Some pf -> 0 <= y < S5_MAX_FILE_BLOCKS).
  { intros y pf Hpf. by eapply pg_range, (po_frames _ _ _ _ _ (no_pages _ _ _ _ _ _ _ _ _ _ _ _ Hnode1)). }
  assert (Hmm : mapped_more c i o c1 (inode x1) o1 pos k).
  { apply (mapped_more_page (pos / S5_BLOCK_SIZE)); [done..|]. intros y Hy. by apply (chunk_page pos k). }
  destruct (Z.ltb_spec 0 (n - k)) as [Hrest|Hrest].
  - destruct (chunk_rest pos n k Hpos Hmin Hrest) as (Hmod & Hnext & _). eapply HK; [done..| |].
    + intros m Hm Hsome. rewrite Hnext in Hm. rewrite Hs1; [| |left; lia].
      * apply (hole_mono _ _ _ _ _ (pos + k) (n - k) Hhole); [lia..|by rewrite Hnext|].
        rewrite (of_others _ _ _ Ho1) in Hsome by lia. done.
      * destruct Hsome as [pf Hpf]. by eapply Hrange.
    + intros r k' o2 x2 c2 s2 ks2 l2 D2 pg2 f2 Hres Hnode2 Hw2 Hgr2 Hmm2.
      assert (Hk' : 0 <= k' <= n - k) by (destruct Hres as [[? ?]|[? _]]; lia).
      assert (Hext2 : extend (Z.max len (pos + k)) (pos + k) k' = extend len pos (k + k')).
      { unfold extend. rewrite (proj2 (Z.eqb_neq (k + k') 0)) by lia. destruct (Z.eqb_spec k' 0); lia. }
      rewrite Hext2 in Hnode2 |- *. eapply (HQ r (k + k')); [|done| |by eapply grown_trans|by eapply mapped_more_trans; [..|lia|lia|lia]].
      * destruct Hres as [[-> ->]|(? & -> & -> & Hal & Hz)]; [left; lia|right]. rewrite Z.add_assoc. split; [lia|].
        do 2 (split; [done|]). split; [destruct Hal as [->|?]; right; by rewrite ?Z.add_0_r|].
        rewrite <- Hz. symmetry. apply Hs1; pose proof (Z.div_le_mono (pos + k) (pos + k + k') S5_BLOCK_SIZE eq_refl ltac:(lia));
          [split; [lia|]|left; lia]. apply Z.div_lt_upper_bound; [done|]. unfold S5_MAX_FILE_SIZE in Hend. lia.
      * rewrite Z2Nat.inj_add by lia. rewrite <- take_take_drop. eapply written_app; [done|].
        rewrite Hlen, Z2Nat.id by lia. done.
  - assert (k = n) as Hkn by lia. rewrite <- Hext. wp_steps. rewrite <- Hext in Hnode1.
    eapply (HQ _ k); [left; lia|done..].
Qed.

Lemma wp_write_loop fuel pos buf n total o x len c s ks l D pg f Q :
  node_ok d None o x len c s ks l D pg f -> 0 <= pos -> 0 < n <= Z.of_nat (length buf) ->
  pos + n <= S5_MAX_FILE_SIZE -> Forall byte buf ->
  pos mod S5_BLOCK_SIZE + n <= S5_BLOCK_SIZE * Z.of_nat (S fuel) -> no_cached_hole c (inode x) o pos n ->
  write_post n pos buf total o x len c l D pg Q ->
  wp (write_loop fuel pos buf n total) Q (at_node v o x len f).
Proof.
  revert pos buf n total o x len c s ks l D pg f. induction fuel as [|fuel IH];
    intros pos buf n total o x len c s ks l D pg f Hnode Hpos Hn Hend Hbytes Hfuel Hhole HQ;
    pose proof (no_size _ _ _ _ _ _ _ _ _ _ _ _ Hnode) as [Hsz Hmax];
    (destruct (chunk_bounds pos n (Z.max len (pos + n))) as (Hmin & Hk & Hk0 & _); [lia..|]);
    cbn [write_loop]; cbv zeta; rewrite (proj2 (Z.leb_gt _ pos)) by lia;
    (rewrite u64_id by (unfold S5_MAX_FILE_SIZE, S5_MAX_FILE_BLOCKS, S5_BLOCK_SIZE in *; lia));
    rewrite (proj2 (Z.ltb_ge _ (pos + n))) by lia;
    (eapply (wp_write_iter pos buf n total); [done..|]); intros o1 x1 c1 s1 ks1 l1 D1 pg1 f1 Hrest len1 Hnode1 Hh1 HQ1;
    destruct (chunk_rest pos n _ Hpos Hmin Hrest) as (Hmod & _ & Hlast); [lia|].
  eapply IH; [done|lia|rewrite length_drop; lia|lia|by apply Forall_drop|lia|done|done].
Qed.

(** ** Whole transfers *)

Lemma block_fuel_enough pos n :
  0 <= n -> pos mod S5_BLOCK_SIZE + n <= S5_BLOCK_SIZE * Z.of_nat (S (block_fuel n)).
Proof.
  unfold block_fuel, S5_BLOCK_SIZE. intros Hn. pose proof (Z.mod_pos_bound pos 4096).
  pose proof (Z.div_mod n 4096). pose proof (Z.mod_pos_bound n 4096). pose proof (Z.div_pos n 4096).
  rewrite Nat2Z.inj_succ, Nat2Z.inj_add, Z2Nat.id by lia. lia.
Qed.

Lemma block_fuel_mono n n' : n' <= n -> (block_fuel n' <= block_fuel n)%nat.
Proof. unfold block_fuel, S5_BLOCK_SIZE. intros Hn. pose proof (Z.div_le_mono n' n 4096). lia. Qed.

Lemma wp_read_file pos n o x len c s ks l D pg f Q :
  let data := slice (file_data pg len) (Z.to_nat pos) (Z.to_nat n) in
  node_ok d None o x len c s ks l D pg f -> s5_number (inode x) = vn_vno v ->
  0 <= pos -> 0 <= n -> pos + n < 2 ^ 64 ->
  (forall o' f', node_ok d None o' x len c s ks l D pg f' -> cached_more len o o' ->
     Q (Z.of_nat (length data), data) (at_node v o' x len f')) ->
  wp (s5_read_file pos n) Q (at_node v o x len f).
Proof.
  intros data Hnode Hno Hp Hn Hov HQ. pose proof (no_size _ _ _ _ _ _ _ _ _ _ _ _ Hnode) as [Hsz Hmax].
  unfold s5_read_file. wp_use wp_get_node. wp_steps. change (vn_vno (at_node v o x len f).1) with (vn_vno v).
  change (vn_len (at_node v o x len f).1) with len.
  wp_use wp_kassert; [by rewrite Hno, Z.eqb_refl|]. wp_use wp_kassert; [by rewrite Hsz, Z.eqb_refl|].
  assert (Hl : length (file_data pg len) = Z.to_nat len) by apply length_bytes_at.
  destruct (Z.leb_spec len pos).
  { wp_steps. assert (data = []) as Hd by (unfold data, slice; by rewrite drop_ge, take_nil by lia).
    rewrite Hd in HQ. by apply HQ; [|apply cached_more_refl]. }
  rewrite u64_id by lia. set (m := if len <? pos + n then len - pos else n).
  assert (Hm : m = Z.min n (len - pos)) by (unfold m; destruct (Z.ltb_spec len (pos + n)); lia).
  assert (Hd : data = bytes_at pg pos m).
  { unfold data. rewrite <- (file_data_slice pg len) by lia. unfold slice.
    rewrite Hm. destruct (Z.le_gt_cases n (len - pos)); [by rewrite Z.min_l by lia|].
    rewrite Z.min_r by lia. rewrite !take_ge by (rewrite length_drop; lia). done. }
  wp_steps. eapply wp_read_loop; [done|lia..|by apply block_fuel_enough; lia|]. intros o' f' Hnode' Hc'. wp_steps.
  cbn [app]. rewrite <- Hd. replace m with (Z.of_nat (length data)); [by apply HQ|].
  rewrite Hd, length_bytes_at. lia.
Qed.

(** The loop stops at the largest file size. *)
Lemma write_loop_clamp fuel pos buf n st :
  pos < S5_MAX_FILE_SIZE -> 0 <= pos -> 0 <= n -> pos + n < 2 ^ 64 ->
  write_loop fuel pos buf n 0 st = write_loop fuel pos buf (Z.min n (S5_MAX_FILE_SIZE - pos)) 0 st.
Proof.
  intros Hp H0 Hn Hov. set (n' := Z.min n (S5_MAX_FILE_SIZE - pos)).
  assert (Hc : (if S5_MAX_FILE_SIZE <? u64 (pos + n) then S5_MAX_FILE_SIZE - pos else n)
               = (if S5_MAX_FILE_SIZE <? u64 (pos + n') then S5_MAX_FILE_SIZE - pos else n')).
  { rewrite !u64_id by lia. destruct (Z.ltb_spec S5_MAX_FILE_SIZE (pos + n)), (Z.ltb_spec S5_MAX_FILE_SIZE (pos + n')); lia. }
  destruct fuel; cbn [write_loop]; cbv zeta; by rewrite Hc.
Qed.

Lemma wp_write_file pos buf o x len c s ks l D pg f Q :
  let n := Z.min (Z.of_nat (length buf)) (S5_MAX_FILE_SIZE - pos) in
  node_ok d None o x len c s ks l D pg f -> 0 <= pos < S5_MAX_FILE_SIZE -> buf <> [] -> Forall byte buf ->
  pos + Z.of_nat (length buf) < 2 ^ 64 -> no_cached_hole c (inode x) o pos n ->
  write_post n pos buf 0 o x len c l D pg Q ->
  wp (s5_write_file pos buf) Q (at_node v o x len f).
Proof.
  intros n Hnode Hp Hne Hb Hov Hh HQ. unfold s5_write_file. wp_steps.
  assert (Hlen : (0 < length buf)%nat) by (destruct buf; [done|cbn; lia]).
  unfold wp at 1. rewrite write_loop_clamp by lia. fold n.
  eapply wp_write_loop; [done|lia|lia|lia|done| |done|].
  { etransitivity; [apply block_fuel_enough; lia|].
    pose proof (block_fuel_mono (Z.of_nat (length buf)) n ltac:(lia)). unfold S5_BLOCK_SIZE. lia. }
  intros r k o1 x1 c1 s1 ks1 l1 D1 pg1 f1 Hres Hnode1 Hw Hgr Hmm.
  destruct (Z.ltb_spec r 0); [wp_steps; by eapply HQ|].
  wp_use wp_get_node. wp_use wp_vn_length.
  wp_use wp_kassert; [by rewrite (proj1 (no_size _ _ _ _ _ _ _ _ _ _ _ _ Hnode1)), Z.eqb_refl|].
  wp_steps. by eapply HQ.
Qed.

(** The contents a write leaves, and its bounds. *)
Lemma written_data pg pg' pos buf len k n :
  written pg pg' pos (take (Z.to_nat k) buf) -> 0 <= k <= n -> n <= Z.of_nat (length buf) -> 0 <= pos -> 0 <= len ->
  extend len pos k <= S5_MAX_FILE_SIZE ->
  file_data pg' (extend len pos k)
  = if k =? 0 then file_data pg len
    else splice (file_data pg (Z.max len pos)) (Z.to_nat pos) (take (Z.to_nat k) buf).
Proof.
  intros Hw Hk Hn Hp Hl Hmax. unfold extend in *. destruct (Z.eqb_spec k 0) as [->|E].
  - cbn [Z.eqb] in Hmax. unfold file_data, bytes_at. apply list_fmap_ext. intros j y Hy. apply lookup_seqZ in Hy as [-> ?].
    rewrite Hw by lia. rewrite decide_False; [done|]. change (Z.to_nat 0) with 0%nat. rewrite take_0. cbn [length]. lia.
  - assert (Hlen : length (take (Z.to_nat k) buf) = Z.to_nat k) by (rewrite length_take; lia).
    pose proof (file_data_written pg pg' pos (take (Z.to_nat k) buf) len Hw Hp Hl) as Hd.
    rewrite Hlen, Z2Nat.id in Hd by lia. apply Hd; [|done]. intros Heq. rewrite Heq in Hlen. cbn in Hlen. lia.
Qed.

(** C3: reading [n] bytes at [pos] of a file returns exactly the bytes of the file
    there, up to its end, whichever of its pages are cached, on the disk or
    holes.  It never faults or fails an assertion, and the file, its block map
    and the metadata are unchanged. *)
Theorem s5_read_file_correct pos n o x len c s ks l D pg f :
  node_ok d None o x len c s ks l D pg f -> s5_number (inode x) = vn_vno v ->
  0 <= pos -> 0 <= n -> pos + n < 2 ^ 64 ->
  let data := slice (file_data pg len) (Z.to_nat pos) (Z.to_nat n) in
  exists o' f', s5_read_file pos n (at_node v o x len f)
                = Done (Z.of_nat (length data), data) (at_node v o' x len f')
    /\ node_ok d None o' x len c s ks l D pg f'.
Proof.
  intros Hnode Hno Hp Hn Hov data.
  assert (Hwp : wp (s5_read_file pos n) (fun r st => r = (Z.of_nat (length data), data) /\ exists o' f',
            st = at_node v o' x len f' /\ node_ok d None o' x len c s ks l D pg f') (at_node v o x len f)).
  { eapply wp_read_file; [done..|]. eauto. }
  apply wp_result in Hwp as (st & Hrun & o' & f' & -> & ?). eauto.
Qed.

(** C2: writing bytes at [pos] puts them in the file and changes no other byte: a
    write within the file replaces bytes, a write past its end extends it, and
    what lies between is what the pages held.  Bytes past the largest file size
    are dropped, and a write that starts there returns [-EFBIG] and changes
    nothing.  The result is the number of bytes written, or [-ENOSPC] once no
    block is free, in which case the bytes of the earlier blocks are in the file.
    The pages written must not be holes that a read left in the cache. *)
Theorem s5_write_file_correct pos buf o x len c s ks l D pg f :
  node_ok d None o x len c s ks l D pg f -> 0 <= pos -> buf <> [] -> Forall byte buf ->
  pos + Z.of_nat (length buf) < 2 ^ 64 ->
  let n := Z.min (Z.of_nat (length buf)) (S5_MAX_FILE_SIZE - pos) in
  no_cached_hole c (inode x) o pos n ->
  if S5_MAX_FILE_SIZE <=? pos then
    s5_write_file pos buf (at_node v o x len f) = Done (- EFBIG) (at_node v o x len f)
  else
    exists r k o' x' c' s' ks' l' D' pg' f', let len' := extend len pos k in
      s5_write_file pos buf (at_node v o x len f) = Done r (at_node v o' x' len' f')
      /\ write_result c (inode x) pos n 0 k r l'
      /\ node_ok d None o' x' len' c' s' ks' l' D' pg' f'
      /\ file_data pg' len'
         = (if k =? 0 then file_data pg len
            else splice (file_data pg (Z.max len pos)) (Z.to_nat pos) (take (Z.to_nat k) buf))
      /\ grown c (inode x) l D c' (inode x') l' D'.
Proof.
  intros Hnode Hp Hne Hb Hov n Hh. destruct (Z.leb_spec S5_MAX_FILE_SIZE pos) as [Hbig|Hlt].
  { unfold s5_write_file, bind. destruct (block_fuel _); cbn [write_loop]; by rewrite (proj2 (Z.leb_le _ _)). }
  assert (Hwp : wp (s5_write_file pos buf) (fun r st => exists k o' x' c' s' ks' l' D' pg' f',
            let len' := extend len pos k in st = at_node v o' x' len' f' /\ write_result c (inode x) pos n 0 k r l'
            /\ node_ok d None o' x' len' c' s' ks' l' D' pg' f' /\ written pg pg' pos (take (Z.to_nat k) buf)
            /\ grown c (inode x) l D c' (inode x') l' D') (at_node v o x len f)).
  { eapply wp_write_file; [done|lia|done..|]. intros r k o1 x1 c1 s1 ks1 l1 D1 pg1 f1 ? ? ? ? ?.
    eexists _, _, _, _, _, _, _, _, _, _. cbn zeta. split_and!; [reflexivity|done..]. }
  apply wp_run in Hwp as (r & st & Hrun & k & o1 & x1 & c1 & s1 & ks1 & l1 & D1 & pg1 & f1 & -> & Hres & Hnode1 & Hw & Hgr).
  exists r, k, o1, x1, c1, s1, ks1, l1, D1, pg1, f1. cbn zeta. split_and!; [done..| |done].
  pose proof (no_size _ _ _ _ _ _ _ _ _ _ _ _ Hnode) as [_ ?].
  pose proof (no_size _ _ _ _ _ _ _ _ _ _ _ _ Hnode1) as [_ ?].
  eapply (written_data _ _ _ _ _ _ n); [done|destruct Hres as [[? _]|[? _]]; lia|lia|done|lia|lia].
Qed.
End rw.

(** ** Witnesses: a file with the bytes "hello" in block 9; block 7 is free *)

Definition hello_blocks (n : Z) : list Z := if n =? 9 then pad_block (str "hello") else pad_block [].
Definition hello_dev : @bdev array_dev := hello_blocks.
Definition hello_fs : @s5fs array_dev := fresh_fs hello_blocks ex_super.
Definition hello_node : s5_node := S5Node ex_inode false.
Definition hello_vnode : vnode s5_node := Vnode VopsFile mobj_init 0 S_IFREG 5 (Some hello_node) 0 VNODE_LOADED None.
Definition hello_page (k : Z) : list Z := if k =? 0 then pad_block (str "hello") else zero_block.
Definition locked_mobj : mobj := set_mo_mutex true mobj_init.

Lemma hello_disk_block c n : 0 <= n -> disk_block c ex_inode n = if decide (n = 0) then 9 else 0.
Proof.
  intros Hn. unfold disk_block. cbn [s5_direct_blocks s5_indirect_block ex_inode Z.eqb].
  case_decide; [by subst|]. destruct (n <? _); [|done].
  replace (Z.to_nat n) with (S (Z.to_nat (n - 1))) by lia. cbn [lookup list_lookup].
  change (list_lookup (Z.to_nat (n - 1)) (replicate 27 0)) with (replicate 27 0 !! Z.to_nat (n - 1)).
  destruct (replicate 27 0 !! Z.to_nat (n - 1)) as [y|] eqn:Hy; [|done].
  apply lookup_replicate in Hy as [-> _]. done.
Qed.

(** A node of [len] bytes in block 9 of the given blocks. *)
Lemma example_node_ok (blocks : @bdev array_dev) len o pg :
  block_okb (blocks 9) = true -> block_okb (blocks 7) = true -> 0 <= len <= S5_MAX_FILE_SIZE ->
  let f := fresh_fs blocks ex_super in let i := set_s5_size len ex_inode in
  pages_ok blocks (disk_block (meta_content f) i) None o pg ->
  node_ok blocks None o (S5Node i false) len (meta_content f) ex_super [] [7] [9] pg f.
Proof.
  intros H9 H7 Hlen f i Hp.
  assert (Hr : forall n, block_okb (blocks n) = true -> is_Some (read_block (BlockDev := array_dev) blocks n)).
  { intros n Hn. unfold read_block. cbn. rewrite Hn. by eexists. }
  assert (Hbm : forall c n, 0 <= n -> disk_block c i n = if decide (n = 0) then 9 else 0).
  { intros c n Hn. rewrite <- (hello_disk_block c n Hn). by apply disk_block_same. }
  split; [split|split|exact Hp|].
  - unfold S5_MAX_FILE_SIZE, S5_MAX_FILE_BLOCKS, S5_BLOCK_SIZE in Hlen.
    split; cbn; unfold word, S5_TYPE_DATA; try lia. split; [done|]. repeat constructor; lia.
  - apply NoDup_singleton.
  - intros b ->%list_elem_of_singleton. split; [split; [lia|by apply Hr]|]. set_solver.
  - by intros k ?%not_elem_of_nil.
  - done.
  - intros n Hn. cbn [inode]. rewrite Hbm by lia. case_decide; [|done]. intros _.
    split; [split; [lia|by apply Hr]|left].
  - intros n m Hn Hm. cbn [inode]. rewrite !Hbm by lia. do 2 case_decide; congruence.
  - split; [apply fresh_fs_ok|done..].
  - split; cbn; [lia| |].
    + split; [done|]. repeat constructor; unfold word, minus1_32; lia.
    + exists minus1_32, []. split_and!; [done|constructor|done].
  - by split.
Qed.

Lemma hello_node_ok o pg :
  pages_ok hello_dev (disk_block (meta_content hello_fs) ex_inode) None o pg ->
  node_ok hello_dev None o hello_node 5 (meta_content hello_fs) ex_super [] [7] [9] pg hello_fs.
Proof.
  intros Hp. apply (example_node_ok hello_blocks 5); [reflexivity..| |exact Hp].
  unfold S5_MAX_FILE_SIZE, S5_MAX_FILE_BLOCKS, S5_BLOCK_SIZE. lia.
Qed.

Lemma hello_ok :
  node_ok hello_dev None locked_mobj hello_node 5 (meta_content hello_fs) ex_super [] [7] [9] hello_page hello_fs.
Proof.
  apply hello_node_ok. split; [apply set_mutex_ok, mobj_init_ok|done|done|done|].
  intros n Hn. unfold page_content, hello_page. cbn [frame_of]. rewrite hello_disk_block by lia.
  case_decide; [by subst|]. by rewrite (proj2 (Z.eqb_neq n 0)).
Qed.

Lemma s5_read_file_correct_witness :
  exists o' f', s5_read_file (mem := false) (pages := []) 1 100 (at_node hello_vnode locked_mobj hello_node 5 hello_fs)
    = Done (4, str "ello") (at_node hello_vnode o' hello_node 5 f').
Proof.
  destruct (s5_read_file_correct (mem := false) (pages := []) eq_refl hello_vnode hello_dev (or_introl eq_refl)
    1 100 locked_mobj hello_node 5 _ _ _ _ _ _ _ hello_ok eq_refl) as (o' & f' & Hrun & _); [lia..|].
  exists o', f'. exact Hrun.
Defined.

Lemma s5_write_file_correct_witness :
  exists o' x' pg' f', s5_write_file (mem := false) (pages := []) 3 (str "p me!")
      (at_node hello_vnode locked_mobj hello_node 5 hello_fs) = Done 5 (at_node hello_vnode o' x' 8 f')
    /\ file_data pg' 8 = str "help me!".
Proof.
  destruct (s5_write_file_correct (mem := false) (pages := []) eq_refl hello_vnode hello_dev (or_introl eq_refl)
    3 (str "p me!") locked_mobj hello_node 5 _ _ _ _ _ _ _ hello_ok)
    as (r & k & o' & x' & c' & s' & ks' & l' & D' & pg' & f' & Hrun & Hres & _ & Hd & _).
  - lia.
  - discriminate.
  - repeat constructor; unfold byte; lia.
  - cbn. lia.
  - intros m _ [pf Hpf]. discriminate.
  - assert (k = 5 /\ r = 5) as [-> ->].
    { destruct Hres as [[-> ->]|(Hk & _ & _ & _ & Hz)]; [done|]. exfalso.
      change (Z.min _ _) with 5 in Hk. rewrite Z.div_small in Hz by (unfold S5_BLOCK_SIZE; lia). discriminate Hz. }
    exists o', x', pg', f'. split; [exact Hrun|]. etransitivity; [exact Hd|]. vm_compute. reflexivity.
Defined.
