(* ===== verification/S5SyncProofs.v ===== *)
(** Writing S5FS back to its device: flushing the frames of a file puts its pages
    in the blocks of its map ([s5fs_flush_pframe] with [mobj_flush]), and flushing
    the metadata object does so for the cached metadata blocks ([s5fs_sync]). *)

From S2P Require Import Prelude CString Btree BtreeProofs Mobj MobjProofs Vnode S5Disk.
From S2P Require Import S5DiskProofs S5MetaProofs S5AllocProofs S5File S5fs S5MapProofs.
From S2P Require Import S5PageProofs S5RwProofs.

Section sync.
Context {mem : Memory} {pages : Pages} {bd : BlockDev} `{laws : !BlockDevLaws bd}.
Implicit Types (f : s5fs) (n k : Z) (i : s5_inode) (c : Z -> option (list Z)) (d : bdev) (s : s5_super)
  (v : vnode s5_node) (x : s5_node) (o : mobj) (ks l D : list Z) (m : Z -> Z) (pg : Z -> list Z)
  (pf : pframe) (fr : list pframe).

(** ** The device after a list of frames is written back *)

Definition dev_wr (loc : Z) (b : list Z) d : Z * bdev := write_block d (u32 loc) b.

(** Frames whose dirty pages are blocks. *)
Definition writable pf : Prop := pf_dirty pf = true -> exists b, pf_addr pf = Some b /\ block_ok b.

(** The locations of the dirty frames. *)
Definition dirty_locs fr : list Z := (fun pf => u32 (pf_loc pf)) <$> filter (fun pf => pf_dirty pf = true) fr.

Lemma dirty_locs_elem fr n : n ∈ dirty_locs fr <-> exists pf, pf ∈ fr /\ pf_dirty pf = true /\ u32 (pf_loc pf) = n.
Proof. unfold dirty_locs. rewrite list_elem_of_fmap. setoid_rewrite list_elem_of_filter. naive_solver. Qed.

Lemma dirty_locs_cons pf fr :
  dirty_locs (pf :: fr) = if pf_dirty pf then u32 (pf_loc pf) :: dirty_locs fr else dirty_locs fr.
Proof. unfold dirty_locs. rewrite filter_cons. destruct (pf_dirty pf); [by rewrite decide_True|by rewrite decide_False]. Qed.

Lemma back_other pf d n : (pf_dirty pf = true -> u32 (pf_loc pf) <> n) -> read_block (write_back dev_wr pf d).2 n = read_block d n.
Proof.
  intros Hn. unfold write_back, dev_wr. destruct (pf_addr pf) as [b|]; [|done]. destruct (pf_dirty pf); [|done].
  destruct (write_block d _ b) as [r d'] eqn:E. cbn. eapply write_block_other; [exact E|]. intros ->. by apply Hn.
Qed.

Lemma dev_all_other fr acc d n : n ∉ dirty_locs fr -> read_block (w_state (write_all dev_wr fr acc d)) n = read_block d n.
Proof.
  revert acc d. induction fr as [|pf fr IH]; intros acc d Hn; [done|]. cbn [write_all w_state]. rewrite dirty_locs_cons in Hn.
  rewrite IH; [|destruct (pf_dirty pf); set_solver]. apply back_other. intros Hd Heq. rewrite Hd, Heq in Hn. set_solver.
Qed.

(** A frame after the flush: a page that became clean is on the device. *)
Definition settled d pf pf' : Prop :=
  exists r, pf' = settle r pf /\ (pf_dirty pf = true -> pf_dirty pf' = false -> read_block d (u32 (pf_loc pf)) = pf_addr pf).

Lemma settle_dirty pf d : writable pf -> let r := (write_back dev_wr pf d).1 in pf_dirty (settle r pf) = false <-> r = 0.
Proof.
  intros Hw r. subst r. unfold settle, clean, write_back. destruct (pf_dirty pf) eqn:Hd.
  - destruct (Hw Hd) as (b & -> & _). destruct (Z.eqb_spec (dev_wr (pf_loc pf) b d).1 0) as [E|E]; [done|]. rewrite Hd. by split.
  - destruct (pf_addr pf); cbn; [done|]. by rewrite Hd.
Qed.

Lemma dev_all_settled fr acc d :
  Forall writable fr -> NoDup (dirty_locs fr) ->
  let w := write_all dev_wr fr acc d in Forall2 (settled (w_state w)) fr (w_frames w).
Proof.
  intros Hw. revert acc d. induction Hw as [|pf fr Hpf Hw IH]; intros acc d Hnd; [by constructor|]. cbn. rewrite dirty_locs_cons in Hnd.
  constructor; [|apply IH; destruct (pf_dirty pf); [by apply NoDup_cons in Hnd as [_ ?]|done]].
  eexists. split; [done|]. intros Hd Hc%settle_dirty; [|done]. rewrite Hd in Hnd. apply NoDup_cons in Hnd as [Hnot _].
  rewrite dev_all_other by done. destruct (Hpf Hd) as (b & Ha & Hb). unfold write_back, dev_wr in *. rewrite Ha, Hd in *.
  destruct (write_block d _ b) as [r d'] eqn:E. cbn in Hc |- *. subst r. by rewrite (read_write_block _ _ _ _ _ Hb E), decide_True.
Qed.

Lemma dev_all_result fr acc d :
  Forall writable fr -> let w := write_all dev_wr fr acc d in
  w_result w = 0 <-> acc = 0 /\ Forall (fun pf => pf_dirty pf = false) (w_frames w).
Proof.
  intros Hw. revert acc d. induction Hw as [|pf fr Hpf Hw IH]; intros acc d; cbn.
  - rewrite Forall_nil. tauto.
  - rewrite IH, Forall_cons, Z.lor_eq_0_iff, settle_dirty by done. tauto.
Qed.

Lemma dev_all_succeeds fr d :
  (forall d n b, (write_block d n b).1 = 0) -> w_result (write_all dev_wr fr 0 d) = 0.
Proof.
  intros Hwrite. revert d. induction fr as [|pf fr IH]; intros d; [done|]. cbn.
  assert ((write_back dev_wr pf d).1 = 0) as ->; [|apply IH]. unfold write_back, dev_wr. destruct (pf_addr pf); [|done]. destruct (pf_dirty pf); [apply Hwrite|done].
Qed.

Lemma find_settled d fr fr' n :
  Forall2 (settled d) fr fr' ->
  match find_pf n fr' with Some pf' => exists pf, find_pf n fr = Some pf /\ settled d pf pf' | None => find_pf n fr = None end.
Proof.
  induction 1 as [|pf pf' fr fr' Hs _ IH]; [done|]. rewrite !find_pf_cons. pose proof Hs as (r & -> & _). rewrite settle_pagenum.
  case_decide; [by exists pf|exact IH].
Qed.

(** ** A file *)




Lemma frame_of_in o pf : mobj_ok o -> pf ∈ mo_pframes o -> frame_of o (pf_pagenum pf) = Some pf.
Proof.
  intros [Hnd _ _] Hin. apply list_elem_of_split in Hin as (l1 & l2 & Hl). unfold frame_of. rewrite Hl in Hnd |- *.
  by apply find_pf_middle.
Qed.

Lemma nodup_frames o : mobj_ok o -> NoDup (mo_pframes o).
Proof. intros [Hnd _ _]. by eapply NoDup_fmap_1. Qed.

(** Dirty frames with different pages have different locations. *)
Lemma dirty_locs_nodup o :
  mobj_ok o ->
  (forall pf pf', pf ∈ mo_pframes o -> pf' ∈ mo_pframes o -> pf_dirty pf = true -> pf_dirty pf' = true ->
     u32 (pf_loc pf) = u32 (pf_loc pf') -> pf_pagenum pf = pf_pagenum pf') ->
  NoDup (dirty_locs (mo_pframes o)).
Proof.
  intros Hok Hinj. apply NoDup_fmap_2_strong; [|by apply NoDup_filter, nodup_frames].
  intros pf pf' [Hd Hin]%list_elem_of_filter [Hd' Hin']%list_elem_of_filter Heq. specialize (Hinj _ _ Hin Hin' Hd Hd' Heq).
  apply frame_of_in in Hin, Hin'; [|done..]. rewrite Hinj in Hin. congruence.
Qed.


(** ** The metadata beside it *)






(** ** The metadata *)

Definition meta_wr (loc : Z) (b : list Z) f : Z * s5fs :=
  let w := dev_wr loc b (s5f_bdev f) in (w.1, set_s5f_bdev w.2 f).

Lemma meta_flush_wr n pf b f :
  frame_of (lget s5f_mobj_lens f) n = Some pf -> pf_addr pf = Some b ->
  meta_flush_pframe n f = Done (meta_wr (pf_loc pf) b f).1 (meta_wr (pf_loc pf) b f).2.
Proof.
  intros Hf Ha. unfold meta_flush_pframe, pf_get, bind, get. unfold frame_of in Hf. rewrite Hf. cbn. rewrite Ha. cbn.
  unfold meta_wr, dev_wr. by destruct (write_block _ _ _) as [r d].
Qed.

Lemma meta_write_all fr acc f :
  let w := write_all dev_wr fr acc (s5f_bdev f) in
  write_all meta_wr fr acc f = Written (w_result w) (w_frames w) (set_s5f_bdev (w_state w) f).
Proof.
  revert acc f. induction fr as [|pf fr IH]; intros acc f; [by destruct f|]. cbn.
  assert (write_back meta_wr pf f = ((write_back dev_wr pf (s5f_bdev f)).1, set_s5f_bdev (write_back dev_wr pf (s5f_bdev f)).2 f)) as ->.
  { unfold write_back, meta_wr. destruct (pf_addr pf); [|by destruct f]. destruct (pf_dirty pf); [done|by destruct f]. }
  cbn. by rewrite IH.
Qed.

(** The metadata after the cached blocks are written back: each frame is as it
    was, or clean and on the device, and readers see what they saw. *)
Lemma flushed_meta f n :
  meta_ok ∅ f -> 0 <= n < 2 ^ 31 ->
  let w := write_all dev_wr (mo_pframes (s5f_mobj f)) 0 (s5f_bdev f) in
  match find_pf n (w_frames w) with
  | Some pf => pf_addr pf = meta_content f n /\ pf_mutex pf = false /\ (pf_dirty pf = false -> read_block (w_state w) n = meta_content f n)
  | None => read_block (w_state w) n = meta_content f n
  end.
Proof.
  intros [Hobj _ Hfr _] Hn w. set (fr := mo_pframes (s5f_mobj f)) in *.
  assert (Hin : forall pf, pf ∈ fr -> 0 <= pf_pagenum pf < 2 ^ 31 /\ frame_ok ∅ (s5f_bdev f) (pf_pagenum pf) pf).
  { intros pf Hpf. split; [|by apply Hfr, frame_of_in].
    eapply (Forall_forall (fun n => 0 <= n < 2 ^ 31)); [apply Hobj|]. by apply list_elem_of_fmap_2. }
  assert (Hloc : forall pf, pf ∈ fr -> u32 (pf_loc pf) = pf_pagenum pf).
  { intros pf Hpf. destruct (Hin pf Hpf) as [Hr [Hl _ _ _ _]]. rewrite Hl, u32_id; lia. }
  assert (Hset : Forall2 (settled (w_state w)) fr (w_frames w)).
  { apply dev_all_settled; [apply Forall_forall; intros pf Hpf _; apply (Hin pf Hpf)|]. apply dirty_locs_nodup; [done|].
    intros pf pf' Hpf Hpf' _ _. by rewrite !Hloc. }
  assert (Hsame : (forall pf, frame_of (s5f_mobj f) n = Some pf -> pf_dirty pf = false) -> read_block (w_state w) n = read_block (s5f_bdev f) n).
  { intros Hc. apply dev_all_other. intros (pf & Hpf & Hd & Heq)%dirty_locs_elem. rewrite Hloc in Heq by done. subst n.
    specialize (Hc pf (frame_of_in _ _ Hobj Hpf)). congruence. }
  pose proof (find_settled _ _ _ n Hset) as Hs. unfold meta_content, frame_of in *. fold fr in Hsame |- *. destruct (find_pf n (w_frames w)) as [pf'|].
  - destruct Hs as (pf & Hf & r & -> & Hc). rewrite Hf, settle_addr. destruct (Hfr n pf Hf) as [Hl (a & Ha & _) Hm _ Hcl]. rewrite u32_id in Hcl by lia.
    split; [done|]. split; [unfold settle, clean; rewrite Ha; destruct (r =? 0); cbn; rewrite Hm; by apply bool_decide_eq_false|].
    intros Hd'. destruct (pf_dirty pf) eqn:Hd; [rewrite <- (Hc eq_refl Hd'), Hl, u32_id by lia; done|]. rewrite <- Hcl by done. apply Hsame. intros pf2 Hf2. congruence.
  - rewrite Hs, u32_id by lia. apply Hsame. intros pf Hf. congruence.
Qed.

Lemma encode_super_ok s b :
  super_fits s -> block_ok b ->
  block_ok (splice b 0 (encode_super s)) /\ decode_super (splice b 0 (encode_super s)) = s.
Proof.
  intros Hs [Hl Hb]. pose proof Hs as [_ [Hfl _]].
  assert (Hlen : length (encode_super s) = 144%nat).
  { unfold encode_super. rewrite length_bytes_of_words, !length_app, Hfl. done. }
  split; [split|].
  - rewrite length_splice; lia.
  - apply Forall_splice; [done|]. unfold encode_super. apply bytes_of_words_bytes.
  - unfold splice. cbn [take app]. by apply decode_encode_super.
Qed.

(** C35: [s5fs_sync], on a device whose writes may fail, puts the super block of
    memory in block 0 of the metadata (a mount decodes it to the same super
    block) and writes the cached blocks.  Readers see every other block as
    before; a block reads on the device as they see it, unless its write failed
    and its frame is still dirty; when every write succeeds no frame is dirty.
    The result of the writes is not reported. *)
Theorem s5fs_sync_correct f b :
  oom = false -> meta_ok ∅ f -> super_fits (s5f_super f) -> meta_content f S5_SUPER_BLOCK = Some b ->
  let b0 := splice b 0 (encode_super (s5f_super f)) in
  let seen n := if decide (n = S5_SUPER_BLOCK) then Some b0 else meta_content f n in
  exists f', s5fs_sync f = Done tt f'
    /\ decode_super b0 = s5f_super f' /\ s5f_super f' = s5f_super f /\ s5f_mutex f' = s5f_mutex f
    /\ mobj_ok (s5f_mobj f') /\ mo_mutex (s5f_mobj f') = false
    /\ (forall n pf, 0 <= n < 2 ^ 31 -> frame_of (s5f_mobj f') n = Some pf -> pf_mutex pf = false)
    /\ (forall n, 0 <= n < 2 ^ 31 -> meta_content f' n = seen n
         /\ ((exists pf, frame_of (s5f_mobj f') n = Some pf /\ pf_dirty pf = true) \/ read_block (s5f_bdev f') n = seen n))
    /\ ((forall d n b, (write_block d n b).1 = 0) -> forall n pf, frame_of (s5f_mobj f') n = Some pf -> pf_dirty pf = false).
Proof.
  intros Hoom Hok Hs Hb b0 seen. pose proof (fs_view_self _ _ Hok) as Hv. apply wp_result. unfold s5fs_sync.
  destruct (encode_super_ok _ _ Hs (meta_content_ok _ _ _ _ Hok Hb)) as [Hb0 Hdec]. fold b0 in Hb0, Hdec.
  wp_use view_get; [done|done|done|by apply not_elem_of_nil|done|done|]. intros f1 Hv1.
  wp_use view_page; [done|apply lookup_insert_eq|done|]. wp_use view_super; [done|]. fold b0.
  wp_use view_set_page; [done|apply lookup_insert_eq|done|]. intros f2 Hv2.
  wp_use view_release; [done|apply lookup_insert_eq|]. rewrite delete_insert_id by done. intros f3 [Hok3 Hd3 Hs3 Hx3 Hc3 _].
  wp_steps. apply wp_mobj_lock; [apply Hok3|]. wp_steps.
  eapply (wp_mobj_flush s5f_mobj_lens _ meta_wr); [done|done|exact meta_flush_wr|by apply set_mutex_ok, Hok3|done| |].
  { apply Forall_forall. intros pf Hpf. cbn in Hpf. destruct Hok3 as [Hobj _ Hfr _].
    destruct (Hfr _ _ (frame_of_in _ _ Hobj Hpf)) as [_ _ -> _ _]. by apply bool_decide_eq_false. }
  wp_steps. apply wp_mobj_unlock; [done|]. rewrite meta_write_all. cbn [lget lset s5f_mobj_lens].
  cbn [s5f_mobj s5f_bdev s5f_super s5f_mutex set_s5f_mobj set_s5f_bdev set_mo_mutex set_mo_pframes mo_pframes
       mo_refcount mo_mutex mo_btree w_result w_frames w_state].
  set (w := write_all dev_wr (mo_pframes (s5f_mobj f3)) 0 (s5f_bdev f3)).
  assert (Hfo : forall n, frame_of (set_mo_mutex false (set_mo_pframes (w_frames w) (set_mo_mutex true (s5f_mobj f3)))) n = find_pf n (w_frames w)) by done.
  assert (Hmeta : forall n, 0 <= n < 2 ^ 31 -> meta_content f3 n = seen n).
  { intros n Hn. rewrite Hc3. unfold set_content, seen. by repeat case_decide. }
  split; [done|]. split; [by rewrite Hs3|]. split; [done|]. split; [done|]. split.
  { change (mobj_ok (set_mo_mutex false (set_mo_pframes (w_frames w) (s5f_mobj f3)))). by apply set_mutex_ok, write_all_ok, Hok3. }
  split; [done|]. split; [|split].
  - intros n pf Hn. rewrite Hfo. intros Hf. pose proof (flushed_meta f3 n Hok3 Hn) as Hfl. cbv zeta in Hfl. fold w in Hfl. rewrite Hf in Hfl. apply Hfl.
  - intros n Hn. pose proof (flushed_meta f3 n Hok3 Hn) as Hfl. cbv zeta in Hfl. fold w in Hfl. rewrite <- Hmeta by done. unfold meta_content at 1. cbn [s5f_mobj s5f_bdev set_s5f_mobj set_s5f_bdev]. rewrite Hfo.
    destruct (find_pf n (w_frames w)) as [pf|].
    + destruct Hfl as (Ha & _ & Hcl). split; [done|]. destruct (pf_dirty pf) eqn:Hd; [left; by exists pf|right; by apply Hcl].
    + rewrite u32_id by lia. split; [done|by right].
  - intros Hwrite n pf. rewrite Hfo. intros Hf. pose proof (dev_all_succeeds (mo_pframes (s5f_mobj f3)) (s5f_bdev f3) Hwrite) as Hr. apply dev_all_result in Hr as [_ Hall].
    + fold w in Hall. apply find_pf_Some in Hf as [_ Hpf]. by eapply (Forall_forall (fun pf => pf_dirty pf = false)).
    + apply Forall_forall. intros pf' Hpf' _. destruct Hok3 as [Hobj _ Hfr _]. apply (Hfr _ _ (frame_of_in _ _ Hobj Hpf')).
Qed.
End sync.

(** ** Witnesses: page 0 of the file is "HELLO" in a dirty frame *)





(** A file system on the device whose block 0 cannot be written. *)
Definition broken_fs : @s5fs (faulty_dev 0) := S5fs (faulty_dev 0) hello_blocks ex_super false mobj_init.

Lemma broken_fs_ok : meta_ok (bd := faulty_dev 0) ∅ broken_fs.
Proof. split; cbn; [apply mobj_init_ok|done..|]. intros n [? Hn]. by rewrite lookup_empty in Hn. Qed.

Lemma ex_super_fits : super_fits ex_super.
Proof.
  split; [|split; [done|]]; cbn; repeat (apply Forall_cons_2; [unfold word, minus1_32, S5_MAGIC, S5_CURRENT_VERSION; lia|]);
    apply Forall_nil_2.
Qed.

(** The super block is written; when its write fails its frame has it. *)
Lemma s5fs_sync_correct_witness :
  (exists f', s5fs_sync (mem := false) (pages := []) hello_fs = Done tt f'
    /\ decode_super (splice (pad_block []) 0 (encode_super ex_super)) = s5f_super f'
    /\ (forall n pf, frame_of (s5f_mobj f') n = Some pf -> pf_dirty pf = false))
  /\ exists f', s5fs_sync (mem := false) (pages := []) broken_fs = Done tt f'
    /\ meta_content f' 0 = Some (splice (pad_block []) 0 (encode_super ex_super)).
Proof.
  split.
  - destruct (s5fs_sync_correct (mem := false) (pages := []) (bd := array_dev) hello_fs (pad_block []))
      as (f' & Hrun & Hs & _ & _ & _ & _ & _ & _ & Hw).
    + reflexivity.
    + apply fresh_fs_ok.
    + exact ex_super_fits.
    + vm_compute. reflexivity.
    + exists f'. split; [exact Hrun|]. split; [exact Hs|]. exact (Hw (fun _ _ _ => eq_refl)).
  - destruct (s5fs_sync_correct (mem := false) (pages := []) (bd := faulty_dev 0) broken_fs (pad_block []))
      as (f' & Hrun & _ & _ & _ & _ & _ & _ & Hn & _).
    + reflexivity.
    + exact broken_fs_ok.
    + exact ex_super_fits.
    + vm_compute. reflexivity.
    + exists f'. split; [exact Hrun|]. exact (proj1 (Hn 0 ltac:(lia))).
Defined.

(** ** A hole that was read and then written

    The frame a read leaves for a hole has no block; a later write of the page
    finds it and allocates none, so flushing the file writes it to block 0, the
    super block. *)

Definition hole_inode : s5_inode := S5Inode 5 0 S5_TYPE_DATA 1 zero_direct 0.

Definition read_write_flush : M (vnode s5_node * @s5fs array_dev) Z :=
  let! _ := s5_read_file (mem := false) (pages := []) 0 5 in
  let! _ := s5_write_file (mem := false) (pages := []) 0 (str "oops!") in
  mobj_flush node_mobj s5fs_flush_pframe.

(** Reading a hole of a file, writing five bytes there and flushing the file
    succeeds and overwrites the super block on the device with the bytes, while
    the file still has no block. *)
Example hole_write_hits_super_block :
  exists v f', read_write_flush (at_node hello_vnode locked_mobj (S5Node hole_inode false) 5 hello_fs) = Done 0 (v, f')
    /\ read_block (s5f_bdev f') S5_SUPER_BLOCK = Some (pad_block (str "oops!"))
    /\ (s5_direct_blocks ∘ inode) <$> vn_i v = Some zero_direct.
Proof. eexists _, _. split_and!; vm_compute; reflexivity. Qed.
