(* ===== verification/S5DirProofs.v ===== *)
(** S5FS directories ([s5_find_dirent], [s5_link], [s5_remove_dirent] of
    [fs/s5fs/s5fs_subr.c]): a directory is a list of named inode numbers kept in
    the bytes of a file. *)

From S2P Require Import Prelude CString Btree BtreeProofs Mobj MobjProofs Vnode S5Disk.
From S2P Require Import S5DiskProofs S5MetaProofs S5AllocProofs S5File S5MapProofs S5PageProofs.
From S2P Require Import S5RwProofs.

(** * Entries *)

(** An entry whose name has its terminator, and the name. *)
Record entry_ok (e : s5_dirent) : Prop := {
  en_fits : dirent_fits e;
  en_bytes : Forall byte (s5d_name e);
  en_nul : 0 ∈ s5d_name e;
}.

Definition entry_name (e : s5_dirent) : list Z := cstr (s5d_name e).

Definition dir_data (es : list s5_dirent) : list Z := concat (encode_dirent <$> es).

Lemma name_split nm :
  Forall byte nm -> 0 ∈ nm -> exists w p, nm = w ++ 0 :: p /\ nonul w.
Proof.
  induction 1 as [|c nm Hc _ IH]; intros Hin; [by apply not_elem_of_nil in Hin|].
  destruct (decide (c = 0)) as [->|E]; [by exists [], nm; split; [|constructor]|].
  apply elem_of_cons in Hin as [?|Hin]; [done|]. destruct (IH Hin) as (w & p & -> & Hw).
  exists (c :: w), p. split; [done|]. apply nonul_cons. unfold byte in Hc. split; [lia|done].
Qed.

Lemma nonul_byte w : nonul w -> Forall byte w.
Proof. intros Hw. eapply Forall_impl; [exact Hw|]. unfold byte. cbn. lia. Qed.

(** A name in an array and a name of the caller. *)
Lemma name_match_entry e name namelen :
  entry_ok e -> nonul name -> 0 <= namelen <= Z.of_nat (length name) ->
  name_match (s5d_name e) name namelen = bool_decide (entry_name e = take (Z.to_nat namelen) name).
Proof.
  intros [_ Hb Hz] Hn Hlen. destruct (name_split _ Hb Hz) as (w & p & Hw & Hnw).
  unfold entry_name. rewrite Hw. by apply name_match_array.
Qed.

Lemma length_encode_dirent e : dirent_fits e -> length (encode_dirent e) = sizeof_s5_dirent.
Proof. intros [_ Hl]. unfold encode_dirent. rewrite length_app, length_le_of_Z, Hl. done. Qed.

Lemma length_dir_data es : Forall entry_ok es -> length (dir_data es) = (32 * length es)%nat.
Proof.
  induction 1 as [|e es He _ IH]; [done|]. unfold dir_data in *. cbn [fmap list_fmap concat].
  rewrite length_app, length_encode_dirent by apply He. unfold sizeof_s5_dirent. cbn [length]. lia.
Qed.

Lemma dir_data_app es es' : dir_data (es ++ es') = dir_data es ++ dir_data es'.
Proof. unfold dir_data. by rewrite fmap_app, concat_app. Qed.

(** Reading entry [j]. *)
Lemma dir_data_slice es j e :
  Forall entry_ok es -> es !! j = Some e -> slice (dir_data es) (32 * j) 32 = encode_dirent e.
Proof.
  intros Hes Hj. destruct (list_elem_of_split_length es j e Hj) as (l1 & l2 & -> & ->).
  apply Forall_app in Hes as [H1 H2]. apply Forall_cons_iff in H2 as [He _].
  rewrite dir_data_app. change (dir_data (e :: l2)) with (encode_dirent e ++ dir_data l2).
  apply slice_mid; [by rewrite length_dir_data|by rewrite length_encode_dirent by apply He].
Qed.

(** Replacing an entry, and appending one. *)
Lemma dir_data_insert es j e :
  Forall entry_ok es -> entry_ok e -> (j < length es)%nat ->
  splice (dir_data es) (32 * j) (encode_dirent e) = dir_data (<[j := e]> es).
Proof.
  intros Hes He Hj. destruct (lookup_lt_is_Some_2 es j Hj) as [y Hy].
  destruct (list_elem_of_split_length es j y Hy) as (l1 & l2 & -> & ->).
  apply Forall_app in Hes as [H1 H2]. apply Forall_cons_iff in H2 as [Hy' _].
  rewrite insert_app_r_alt, Nat.sub_diag by lia. cbn [list_insert insert]. rewrite !dir_data_app.
  change (dir_data (?z :: l2)) with (encode_dirent z ++ dir_data l2).
  unfold splice. rewrite length_encode_dirent by apply He. rewrite <- (length_dir_data l1) by done.
  rewrite take_app_length, drop_app_add, drop_app_length' by (by rewrite length_encode_dirent by apply Hy'). done.
Qed.

Lemma dir_data_snoc es e :
  Forall entry_ok es -> splice (dir_data es) (32 * length es) (encode_dirent e) = dir_data (es ++ [e]).
Proof.
  intros Hes. unfold splice. rewrite dir_data_app, take_ge, drop_ge by (rewrite length_dir_data by done; lia).
  done.
Qed.


(** * The routines *)

Section dir.
Context {mem : Memory} {pages : Pages} {bd : BlockDev} `{laws : !BlockDevLaws bd}.
Context (Hoom : oom = false).
Context (v : vnode s5_node) (d : bdev) (Hops : vn_ops v = VopsFile \/ vn_ops v = VopsDir)
        (Hdir : S_ISDIR (vn_mode v) = true).
Implicit Types (f : s5fs) (c : Z -> option (list Z)) (s : s5_super) (x : s5_node) (o : mobj)
  (ks l D name : list Z) (pg : Z -> list Z) (es : list s5_dirent) (e : s5_dirent).

(** A node whose bytes are the entries [es]; it has no holes. *)
Record dir_ok o x len c s ks l D pg es f : Prop := {
  dk_node : node_ok d None o x len c s ks l D pg f;
  dk_number : s5_number (inode x) = vn_vno v;
  dk_data : file_data pg len = dir_data es;
  dk_entries : Forall entry_ok es;
  dk_solid : forall n, 0 <= n -> n * S5_BLOCK_SIZE < len -> disk_block c (inode x) n <> 0;
  dk_cached : forall n, is_Some (frame_of o n) -> disk_block c (inode x) n <> 0;
}.

Lemma dir_ok_read o o' x len c s ks l D pg es f f' :
  dir_ok o x len c s ks l D pg es f -> node_ok d None o' x len c s ks l D pg f' -> cached_more len o o' ->
  dir_ok o' x len c s ks l D pg es f'.
Proof.
  intros [] Hnode Hc. split; try done. intros n [Hn|[? ?]]%Hc; auto.
Qed.

Lemma dir_len o x len c s ks l D pg es f :
  dir_ok o x len c s ks l D pg es f -> len = 32 * Z.of_nat (length es) /\ s5_size (inode x) = len /\ len <= S5_MAX_FILE_SIZE.
Proof.
  intros [Hnode _ Hd Hes _ _]. pose proof (no_size _ _ _ _ _ _ _ _ _ _ _ _ Hnode) as [? ?].
  apply (f_equal length) in Hd. rewrite length_dir_data in Hd by done. unfold file_data in Hd.
  rewrite length_bytes_at in Hd. split_and!; [lia|done|lia].
Qed.

(** The entry with a name, and where it is. *)
Definition find_entry (w : list Z) es : option (nat * s5_dirent) := list_find (fun e => entry_name e = w) es.

Definition found (r : option (nat * s5_dirent)) (j : nat) : Z * Z :=
  match r with
  | Some (k, e) => (s5d_inode e, 32 * Z.of_nat (j + k))
  | None => (- ENOENT, 0)
  end.

Lemma wp_dirent_match e name namelen Q st :
  entry_ok e -> nonul name -> 0 <= namelen <= Z.of_nat (length name) ->
  Q (bool_decide (entry_name e = take (Z.to_nat namelen) name)) st -> wp (dirent_match e name namelen) Q st.
Proof.
  intros He Hn Hl HQ. unfold dirent_match.
  assert (Hz : existsb (fun y => y =? 0) (s5d_name e) = true).
  { apply existsb_exists. exists 0. split; [apply list_elem_of_In, He|done]. }
  rewrite Hz. wp_steps. by rewrite name_match_entry.
Qed.

Lemma decode_dir_entry e : entry_ok e -> decode_dirent (encode_dirent e) = e.
Proof. intros He. apply decode_encode_dirent, He. Qed.

Lemma wp_read_entry o x len c s ks l D pg es f j e Q :
  dir_ok o x len c s ks l D pg es f -> es !! j = Some e ->
  (forall o' f', dir_ok o' x len c s ks l D pg es f' -> Q (32, encode_dirent e) (at_node v o' x len f')) ->
  wp (s5_read_file (32 * Z.of_nat j) 32) Q (at_node v o x len f).
Proof.
  intros Hd Hj HQ. destruct (dir_len _ _ _ _ _ _ _ _ _ _ _ Hd) as (Hlen & _ & Hmax). pose proof Hd as [Hnode Hno Hdata Hes Hsol Hcac].
  pose proof (lookup_lt_Some _ _ _ Hj). unfold S5_MAX_FILE_SIZE, S5_MAX_FILE_BLOCKS, S5_BLOCK_SIZE in Hmax.
  assert (Hsl : slice (file_data pg len) (Z.to_nat (32 * Z.of_nat j)) (Z.to_nat 32) = encode_dirent e).
  { rewrite Hdata. replace (Z.to_nat (32 * Z.of_nat j)) with (32 * j)%nat by lia. by apply dir_data_slice. }
  eapply wp_read_file; [done..|lia|lia|lia|]. intros o' f' Hnode' Hc'. rewrite Hsl.
  rewrite length_encode_dirent by (eapply Forall_lookup_1 in Hes; [|done]; apply Hes).
  apply HQ. by eapply dir_ok_read.
Qed.

Lemma find_entry_drop w es j e :
  es !! j = Some e -> entry_name e <> w -> found (find_entry w (drop j es)) j = found (find_entry w (drop (S j) es)) (S j).
Proof.
  intros Hj Hne. rewrite (drop_S es e j) by done. unfold find_entry. cbn [list_find]. rewrite decide_False by done.
  destruct (list_find _ (drop (S j) es)) as [[k y]|]; cbn; [|done]. do 2 f_equal. lia.
Qed.

Lemma wp_find_loop fuel j name namelen o x len c s ks l D pg es f Q :
  dir_ok o x len c s ks l D pg es f -> nonul name -> 0 <= namelen <= Z.of_nat (length name) ->
  (j <= length es)%nat -> (length es - j <= fuel)%nat ->
  (forall o' f', dir_ok o' x len c s ks l D pg es f' ->
     Q (found (find_entry (take (Z.to_nat namelen) name) (drop j es)) j) (at_node v o' x len f')) ->
  wp (find_dirent_loop fuel (32 * Z.of_nat j) name namelen) Q (at_node v o x len f).
Proof.
  revert j o f. induction fuel as [|fuel IH]; intros j o f Hd Hn Hl Hj Hfuel HQ;
    destruct (dir_len _ _ _ _ _ _ _ _ _ _ _ Hd) as (Hlen & Hsz & _); cbn [find_dirent_loop].
  - assert (j = length es) as -> by lia. wp_use wp_get_node. rewrite Hsz, (proj2 (Z.ltb_ge _ _)) by lia. wp_steps.
    rewrite drop_all in HQ. by apply HQ.
  - wp_use wp_get_node. rewrite Hsz. destruct (Z.ltb_spec (32 * Z.of_nat j) len).
    + destruct (lookup_lt_is_Some_2 es j) as [e He]; [lia|].
      change (Z.of_nat sizeof_s5_dirent) with 32. wp_use wp_read_entry; [done..|]. intros o1 f1 Hd1.
      cbn [fst snd]. change (32 <? 0) with false. wp_use wp_kassert; [done|].
      assert (Hok : entry_ok e) by (by eapply Forall_lookup_1; [apply Hd|]).
      rewrite decode_dir_entry by done. wp_use wp_dirent_match; [done..|].
      case_bool_decide as Hname.
      * wp_steps. rewrite (drop_S es e j) in HQ by done. unfold find_entry in HQ. cbn [list_find] in HQ.
        rewrite decide_True in HQ by done. cbn [found] in HQ. rewrite Nat.add_0_r in HQ. by apply HQ.
      * rewrite (find_entry_drop _ _ _ _ He Hname) in HQ.
        replace (32 * Z.of_nat j + 32) with (32 * Z.of_nat (S j)) by lia. eapply IH; [done..|lia|lia|done].
    + assert (j = length es) as -> by lia. wp_steps. rewrite drop_all in HQ. by apply HQ.
Qed.

Lemma wp_find_dirent name namelen o x len c s ks l D pg es f Q :
  dir_ok o x len c s ks l D pg es f -> nonul name -> 0 <= namelen <= Z.of_nat (length name) ->
  (forall o' f', dir_ok o' x len c s ks l D pg es f' ->
     Q (found (find_entry (take (Z.to_nat namelen) name) es) 0) (at_node v o' x len f')) ->
  wp (s5_find_dirent name namelen) Q (at_node v o x len f).
Proof.
  intros Hd Hn Hl HQ. destruct (dir_len _ _ _ _ _ _ _ _ _ _ _ Hd) as (Hlen & Hsz & _).
  unfold s5_find_dirent. wp_steps. change (vn_mode (at_node v o x len f).1) with (vn_mode v).
  wp_use wp_kassert; [done|]. wp_use wp_get_node. change (vn_len (at_node v o x len f).1) with len.
  wp_use wp_kassert; [by rewrite Hsz, Z.eqb_refl|]. eapply (wp_find_loop _ 0); [done..|lia| |exact HQ].
  rewrite Hsz, Hlen. unfold sizeof_s5_dirent. replace (32 * _) with (Z.of_nat (length es) * 32) by lia.
  rewrite Z.div_mul by lia. lia.
Qed.

(** Writing an entry at [j]: it is there, or there is no block for its page and
    nothing changed. *)
Lemma wp_write_entry o x len c s ks l D pg es f j e Q :
  let pos := 32 * Z.of_nat j in
  dir_ok o x len c s ks l D pg es f -> (j <= length es)%nat -> entry_ok e -> pos < S5_MAX_FILE_SIZE ->
  (forall o' x' c' s' ks' l' D' pg' f', let es' := if decide (j = length es) then es ++ [e] else <[j := e]> es in
     let len' := Z.max len (pos + 32) in
     dir_ok o' x' len' c' s' ks' l' D' pg' es' f' -> grown c (inode x) l D c' (inode x') l' D' ->
     Q 32 (at_node v o' x' len' f')) ->
  (forall o' x' c' s' ks' D' pg' f', dir_ok o' x' len c' s' ks' [] D' pg' es f' ->
     grown c (inode x) l D c' (inode x') [] D' -> disk_block c (inode x) (pos / S5_BLOCK_SIZE) = 0 ->
     Q (- ENOSPC) (at_node v o' x' len f')) ->
  wp (s5_write_file pos (encode_dirent e)) Q (at_node v o x len f).
Proof.
  intros pos Hd Hj He Hlt HQ HE. destruct (dir_len _ _ _ _ _ _ _ _ _ _ _ Hd) as (Hlen & Hsz & Hmax).
  pose proof Hd as [Hnode Hno Hdata Hes Hsol Hcac]. pose proof (length_encode_dirent e (en_fits _ He)) as Hle.
  unfold sizeof_s5_dirent in Hle.
  assert (Hend : pos + 32 <= S5_MAX_FILE_SIZE).
  { unfold S5_MAX_FILE_SIZE, S5_MAX_FILE_BLOCKS, S5_BLOCK_SIZE, pos in *. lia. }
  assert (Hmin : Z.min (Z.of_nat (length (encode_dirent e))) (S5_MAX_FILE_SIZE - pos) = 32) by lia.
  eapply wp_write_file; [done|done|done|lia| | | |intros m _; apply Hcac|].
  { by intros E; rewrite E in Hle. }
  { unfold encode_dirent. apply Forall_app. split; [apply le_of_Z_bytes|apply He]. }
  { unfold S5_MAX_FILE_SIZE, S5_MAX_FILE_BLOCKS, S5_BLOCK_SIZE in *. lia. }
  rewrite Hmin. intros r k o1 x1 c1 s1 ks1 l1 D1 pg1 f1 Hres Hnode1 Hw Hgr Hmm.
  assert (Hno1 : s5_number (inode x1) = vn_vno v) by (by rewrite (gr_number _ _ _ _ _ _ _ _ Hgr)).
  pose proof (no_size _ _ _ _ _ _ _ _ _ _ _ _ Hnode1) as [_ Hmax1].
  assert (Hd1 : 0 <= k <= 32 -> file_data pg1 (extend len pos k)
            = if k =? 0 then dir_data es else splice (dir_data es) (32 * j) (take (Z.to_nat k) (encode_dirent e))).
  { intros Hk. rewrite (written_data pg pg1 pos (encode_dirent e) len k 32 Hw) by lia.
    rewrite Z.max_l, Hdata by lia. replace (Z.to_nat pos) with (32 * j)%nat by lia. done. }
  assert (Hcac1 : forall n, is_Some (frame_of o1 n) -> disk_block c1 (inode x1) n <> 0).
  { intros n Hn. destruct (mm_frames _ _ _ _ _ _ _ _ Hmm n Hn) as [Hn0|]; [|done].
    rewrite (mm_keep _ _ _ _ _ _ _ _ Hmm); [by apply Hcac| |by apply Hcac].
    destruct Hn0 as [pf Hpf]. by eapply pg_range, (po_frames _ _ _ _ _ (no_pages _ _ _ _ _ _ _ _ _ _ _ _ Hnode)). }
  assert (Hsol1 : forall n, 0 <= n -> n * S5_BLOCK_SIZE < extend len pos k -> disk_block c1 (inode x1) n <> 0).
  { intros n Hn0 Hn. destruct (Z.lt_ge_cases (n * S5_BLOCK_SIZE) len) as [Hlo|Hhi].
    - rewrite (mm_keep _ _ _ _ _ _ _ _ Hmm); [by apply Hsol| |by apply Hsol].
      unfold S5_MAX_FILE_SIZE, S5_BLOCK_SIZE in *. lia.
    - rewrite <- (Z.div_mul n S5_BLOCK_SIZE) by done. apply (mm_written _ _ _ _ _ _ _ _ Hmm).
      unfold extend in Hn. destruct (k =? 0); lia. }
  destruct Hres as [[-> ->]|(Hk & -> & -> & Hal & Hz)].
  - change (extend len pos 32) with (Z.max len (pos + 32)) in *. eapply HQ; [|done]. split; [done|done| | |done|done].
    + rewrite Hd1 by lia. cbn [Z.eqb]. rewrite take_ge by lia. case_decide as E.
      * subst j. by apply dir_data_snoc.
      * apply dir_data_insert; [done..|lia].
    + case_decide; [by apply Forall_app; auto|]. by apply Forall_insert.
  - assert (k = 0) as ->.
    { destruct Hal as [?|Hal]; [done|]. unfold S5_BLOCK_SIZE in Hal. apply Z.mod_divide in Hal as [q Hq]; lia. }
    change (extend len pos 0) with len in *. rewrite Z.add_0_r in Hz. eapply HE; [|done..].
    split; [done|done| |done|done|done]. by rewrite Hd1.
Qed.

(** ** Adding an entry *)

Definition new_entry (w : list Z) (ino : Z) : s5_dirent := S5Dirent ino (w ++ replicate (S5_NAME_LEN - length w) 0).

Lemma new_entry_ok w ino :
  nonul w -> (length w < S5_NAME_LEN)%nat -> word ino ->
  entry_ok (new_entry w ino) /\ entry_name (new_entry w ino) = w.
Proof.
  intros Hw Hl Hi. unfold new_entry, entry_name. cbn [s5d_name].
  replace (S5_NAME_LEN - length w)%nat with (S (S5_NAME_LEN - length w - 1)) by lia. cbn [replicate].
  split; [|by apply cstr_nul]. split; cbn [s5d_name s5d_inode].
  - split; [done|]. cbn [s5d_name]. rewrite length_app. cbn [length]. rewrite length_replicate. lia.
  - apply Forall_app. split; [by apply nonul_byte|]. constructor; [unfold byte; lia|].
    apply Forall_replicate. unfold byte. lia.
  - apply elem_of_app. right. left.
Qed.

(** The name the code builds in the entry. *)
Lemma entry_name_built name (n : nat) :
  nonul name -> (n <= length name)%nat -> (n < S5_NAME_LEN)%nat ->
  exists nm, strncpy (replicate S5_NAME_LEN 0) name n = Some nm
    /\ <[n := 0]> nm = take n name ++ replicate (S5_NAME_LEN - length (take n name)) 0.
Proof.
  intros Hn Hl Hlt. rewrite strncpy_spec by (done || rewrite length_replicate; lia).
  eexists. split; [done|]. rewrite take_app_le, drop_replicate by done.
  assert (Ht : length (take n name) = n) by (rewrite length_take; lia).
  rewrite Ht. replace (S5_NAME_LEN - n)%nat with (S (S5_NAME_LEN - n - 1)) by lia. cbn [replicate].
  rewrite insert_app_r_alt by lia. rewrite Ht, Nat.sub_diag. done.
Qed.


(** The part of [link_entry] after the lookup. *)
Lemma wp_add_entry name namelen ino o x len c s ks l D pg es f Q :
  let w := take (Z.to_nat namelen) name in
  dir_ok o x len c s ks l D pg es f -> nonul name -> 0 <= namelen <= Z.of_nat (length name) ->
  namelen < Z.of_nat S5_NAME_LEN -> word ino -> len < S5_MAX_FILE_SIZE ->
  (forall o' x' c' s' ks' l' D' pg' f', dir_ok o' x' (len + 32) c' s' ks' l' D' pg' (es ++ [new_entry w ino]) f' ->
     grown c (inode x) l D c' (inode x') l' D' -> Q 0 (at_node v o' x' (len + 32) f')) ->
  (forall o' x' c' s' ks' D' pg' f', dir_ok o' x' len c' s' ks' [] D' pg' es f' ->
     grown c (inode x) l D c' (inode x') [] D' -> disk_block c (inode x) (len / S5_BLOCK_SIZE) = 0 ->
     Q (- ENOSPC) (at_node v o' x' len f')) ->
  wp (let! nm := deref (strncpy (replicate S5_NAME_LEN 0) name (Z.to_nat namelen)) in
      let! nm := (if namelen <? Z.of_nat S5_NAME_LEN then ret (<[Z.to_nat namelen := 0]> nm) else fail Fault) in
      let! len := vn_length in
      let! x := get_node in
      do! kassert (len =? s5_size (inode x));
      let! r := s5_write_file len (encode_dirent (S5Dirent ino nm)) in
      let! x := get_node in
      let! len' := vn_length in
      do! kassert (len' =? s5_size (inode x));
      if r <? 0 then ret r else do! kassert (r + len =? len'); do! dirty_inode id; ret 0) Q (at_node v o x len f).
Proof.
  intros w Hd Hn Hl Hlt Hi Hmax HQ HE. destruct (dir_len _ _ _ _ _ _ _ _ _ _ _ Hd) as (Hlen & Hsz & _).
  destruct (entry_name_built name (Z.to_nat namelen) Hn) as (nm & Hcpy & Hnm); [lia..|].
  wp_use wp_deref; [done|]. rewrite (proj2 (Z.ltb_lt _ _)) by done. wp_use wp_vn_length. wp_use wp_get_node.
  wp_use wp_kassert; [by rewrite Hsz, Z.eqb_refl|]. rewrite Hnm. fold w. fold (new_entry w ino).
  destruct (new_entry_ok w ino) as [Hok _]; [by apply nonul_take|unfold w; rewrite length_take; lia|done|].
  rewrite Hlen. wp_steps. eapply (wp_write_entry _ _ _ _ _ _ _ _ _ es _ (length es)); [rewrite <- Hlen; done|done|done|lia|..].
  - intros o1 x1 c1 s1 ks1 l1 D1 pg1 f1. cbn zeta. rewrite decide_True, Z.max_r by lia. rewrite <- Hlen. intros Hd1 Hgr. wp_red.
    destruct (dir_len _ _ _ _ _ _ _ _ _ _ _ Hd1) as (_ & Hsz1 & _).
    wp_use wp_get_node. wp_use wp_vn_length. wp_use wp_kassert; [by rewrite Hsz1, Z.eqb_refl|].
    change (32 <? 0) with false. wp_use wp_kassert; [apply Z.eqb_eq; lia|].
    wp_use wp_dirty_inode. wp_steps. eapply HQ; [|done]. destruct Hd1. split; try done. by apply node_ok_dirty.
  - intros o1 x1 c1 s1 ks1 D1 pg1 f1. rewrite <- Hlen. intros Hd1 Hgr Hz. wp_red.
    destruct (dir_len _ _ _ _ _ _ _ _ _ _ _ Hd1) as (_ & Hsz1 & _).
    wp_use wp_get_node. wp_use wp_vn_length. wp_use wp_kassert; [by rewrite Hsz1, Z.eqb_refl|].
    change (- ENOSPC <? 0) with true. wp_steps. by eapply HE.
Qed.

Lemma find_dirent_run name namelen o x len c s ks l D pg es f :
  dir_ok o x len c s ks l D pg es f -> nonul name -> 0 <= namelen <= Z.of_nat (length name) ->
  exists o' f', s5_find_dirent name namelen (at_node v o x len f)
      = Done (found (find_entry (take (Z.to_nat namelen) name) es) 0) (at_node v o' x len f')
    /\ dir_ok o' x len c s ks l D pg es f'.
Proof.
  intros Hd Hn Hl. set (r := found _ _).
  assert (Hwp : wp (s5_find_dirent name namelen) (fun a st => a = r /\ exists o' f',
            st = at_node v o' x len f' /\ dir_ok o' x len c s ks l D pg es f') (at_node v o x len f)).
  { eapply wp_find_dirent; [done..|]. eauto. }
  apply wp_result in Hwp as (st & Hrun & o' & f' & -> & ?). eauto.
Qed.

(** looking a name up in a directory returns the inode number and the position
    of the first entry with that name, or [-ENOENT]; only the first [namelen]
    bytes of the string count.  The directory is unchanged. *)
Theorem s5_find_dirent_correct name namelen o x len c s ks l D pg es f :
  dir_ok o x len c s ks l D pg es f -> nonul name -> 0 <= namelen <= Z.of_nat (length name) ->
  exists o' f', s5_find_dirent name namelen (at_node v o x len f)
      = Done (found (find_entry (take (Z.to_nat namelen) name) es) 0) (at_node v o' x len f')
    /\ dir_ok o' x len c s ks l D pg es f'.
Proof. apply find_dirent_run. Qed.

(** Linking a name that is not there. *)
Lemma wp_link_new name namelen ino o x len c s ks l D pg es f :
  let w := take (Z.to_nat namelen) name in
  dir_ok o x len c s ks l D pg es f -> nonul name -> 0 <= namelen <= Z.of_nat (length name) ->
  namelen < Z.of_nat S5_NAME_LEN -> word ino -> len < S5_MAX_FILE_SIZE -> find_entry w es = None ->
  wp (link_entry name namelen ino) (fun r st' => exists o' x' c' s' ks' l' D' pg' f',
    grown c (inode x) l D c' (inode x') l' D' /\
    ((r = 0 /\ st' = at_node v o' x' (len + 32) f'
      /\ dir_ok o' x' (len + 32) c' s' ks' l' D' pg' (es ++ [new_entry w ino]) f')
     \/ (r = - ENOSPC /\ st' = at_node v o' x' len f' /\ dir_ok o' x' len c' s' ks' l' D' pg' es f'
         /\ l' = [] /\ disk_block c (inode x) (len / S5_BLOCK_SIZE) = 0))) (at_node v o x len f).
Proof.
  intros w Hd Hn Hl Hlt Hi Hmax Hf.
  destruct (find_dirent_run name namelen _ _ _ _ _ _ _ _ _ _ _ Hd Hn Hl) as (o1 & f1 & Hrun & Hd1). fold w in Hrun. rewrite Hf in Hrun.
  unfold link_entry. wp_steps. unfold wp at 1. rewrite Hrun. cbn [found fst]. change (0 <? - ENOENT) with false.
  wp_use wp_kassert; [done|]. eapply wp_add_entry; [done..| |].
  - intros o2 x2 c2 s2 ks2 l2 D2 pg2 f2 Hd2 Hgr. do 9 eexists. split; [done|]. left. eauto.
  - intros o2 x2 c2 s2 ks2 D2 pg2 f2 Hd2 Hgr Hz. do 9 eexists. split; [done|]. right. eauto 10.
Qed.

(** C36: [s5_link] on the directory refuses a name that is there with [-EEXIST]
    (and panics when that entry is inode 0), and otherwise appends the entry,
    so that the directory has the old entries and the new one; when the
    directory needs a block and none is free it returns [-ENOSPC] and the
    entries are unchanged. *)
Theorem link_entry_correct name namelen ino o x len c s ks l D pg es f :
  let w := take (Z.to_nat namelen) name in let st := at_node v o x len f in
  dir_ok o x len c s ks l D pg es f -> nonul name -> 0 <= namelen <= Z.of_nat (length name) ->
  namelen < Z.of_nat S5_NAME_LEN -> word ino -> len < S5_MAX_FILE_SIZE ->
  match find_entry w es with
  | Some (_, e) =>
      if s5d_inode e =? 0 then link_entry name namelen ino st = Failed Assert
      else exists o' f', link_entry name namelen ino st = Done (- EEXIST) (at_node v o' x len f')
             /\ dir_ok o' x len c s ks l D pg es f'
  | None =>
      exists o' x' c' s' ks' l' D' pg' f', grown c (inode x) l D c' (inode x') l' D' /\
        ((link_entry name namelen ino st = Done 0 (at_node v o' x' (len + 32) f')
          /\ dir_ok o' x' (len + 32) c' s' ks' l' D' pg' (es ++ [new_entry w ino]) f')
         \/ (link_entry name namelen ino st = Done (- ENOSPC) (at_node v o' x' len f')
             /\ dir_ok o' x' len c' s' ks' l' D' pg' es f' /\ l' = []
             /\ disk_block c (inode x) (len / S5_BLOCK_SIZE) = 0))
  end.
Proof.
  intros w st Hd Hn Hl Hlt Hi Hmax.
  destruct (find_dirent_run name namelen _ _ _ _ _ _ _ _ _ _ _ Hd Hn Hl) as (o1 & f1 & Hrun & Hd1). fold w st in Hrun.
  destruct (find_entry w es) as [[j e]|] eqn:Hf.
  - assert (He : entry_ok e).
    { apply list_find_Some in Hf as (Hj & _ & _). eapply Forall_lookup_1; [apply Hd|done]. }
    destruct (en_fits _ He) as [[Hw _] _].
    destruct (Z.eqb_spec (s5d_inode e) 0) as [E|E]; unfold link_entry, bind; rewrite Hrun; cbn [found fst].
    + by rewrite E.
    + rewrite (proj2 (Z.ltb_lt 0 _)) by lia. eauto.
  - pose proof (wp_link_new name namelen ino _ _ _ _ _ _ _ _ _ _ _ Hd Hn Hl Hlt Hi Hmax Hf) as Hwp.
    apply wp_run in Hwp as (r & st' & Hlink & o' & x' & c' & s' & ks' & l' & D' & pg' & f' & Hgr & Hcase).
    exists o', x', c', s', ks', l', D', pg', f'. split; [done|].
    destruct Hcase as [(-> & -> & ?)|(-> & -> & ? & ? & ?)]; [left|right]; auto.
Qed.

(** ** Removing an entry *)





End dir.

(** ** Witnesses: a directory with two entries *)

Definition ex_entries : list s5_dirent := [new_entry (str ".") 4; new_entry (str "a") 6].
Definition dir_blocks : @bdev array_dev := fun n => if n =? 9 then pad_block (dir_data ex_entries) else pad_block [].
Definition dir_fs : @s5fs array_dev := fresh_fs dir_blocks ex_super.
Definition dir_node : s5_node := S5Node (set_s5_size 64 ex_inode) false.
Definition dir_vnode : vnode s5_node := Vnode VopsDir mobj_init 0 S_IFDIR 64 (Some dir_node) 0 VNODE_LOADED None.
Definition dir_page (k : Z) : list Z := if k =? 0 then pad_block (dir_data ex_entries) else zero_block.

Lemma ex_dir_ok :
  dir_ok dir_vnode dir_blocks locked_mobj dir_node 64 (meta_content dir_fs) ex_super [] [7] [9] dir_page ex_entries dir_fs.
Proof.
  split.
  - apply (example_node_ok dir_blocks 64); [reflexivity..| |].
    { unfold S5_MAX_FILE_SIZE, S5_MAX_FILE_BLOCKS, S5_BLOCK_SIZE. lia. }
    split; [apply set_mutex_ok, mobj_init_ok|done|done|done|].
    intros n Hn. unfold page_content, dir_page. cbn [frame_of].
    rewrite (disk_block_same _ ex_inode), hello_disk_block by (done || lia).
    case_decide; [by subst|]. by rewrite (proj2 (Z.eqb_neq n 0)).
  - done.
  - vm_compute. reflexivity.
  - repeat apply Forall_cons_2; [apply new_entry_ok..|apply Forall_nil_2]; try (unfold word; lia);
      (repeat constructor; lia) || (unfold S5_NAME_LEN; cbn; lia).
  - intros n Hn0 Hn. unfold S5_BLOCK_SIZE in Hn. assert (n = 0) as -> by lia. done.
  - intros n [pf Hpf]. discriminate.
Qed.

Lemma str_a_ok : nonul (str "a") /\ 0 <= 1 <= Z.of_nat (length (str "a")).
Proof. split; [repeat constructor; lia|cbn; lia]. Qed.

Lemma str_new_ok : nonul (str "new/x") /\ 0 <= 3 <= Z.of_nat (length (str "new/x")).
Proof. split; [repeat constructor; lia|cbn; lia]. Qed.

Lemma s5_find_dirent_correct_witness :
  exists o' f', s5_find_dirent (mem := false) (pages := []) (str "a") 1 (at_node dir_vnode locked_mobj dir_node 64 dir_fs)
    = Done (6, 32) (at_node dir_vnode o' dir_node 64 f').
Proof.
  destruct (s5_find_dirent_correct (mem := false) (pages := []) eq_refl dir_vnode dir_blocks (or_intror eq_refl) eq_refl
    (str "a") 1 _ _ _ _ _ _ _ _ _ _ _ ex_dir_ok (proj1 str_a_ok) (proj2 str_a_ok)) as (o' & f' & Hrun & _).
  exists o', f'. exact Hrun.
Defined.

Lemma link_entry_correct_witness :
  exists o' x' f', link_entry (mem := false) (pages := []) (str "new/x") 3 11 (at_node dir_vnode locked_mobj dir_node 64 dir_fs)
    = Done 0 (at_node dir_vnode o' x' 96 f').
Proof.
  destruct (link_entry_correct (mem := false) (pages := []) eq_refl dir_vnode dir_blocks (or_intror eq_refl) eq_refl
    (str "new/x") 3 11 _ _ _ _ _ _ _ _ _ _ _ ex_dir_ok (proj1 str_new_ok) (proj2 str_new_ok))
    as (o' & x' & c' & s' & ks' & l' & D' & pg' & f' & _ & Hcase).
  - unfold S5_NAME_LEN. lia.
  - unfold word. lia.
  - unfold S5_MAX_FILE_SIZE, S5_MAX_FILE_BLOCKS, S5_BLOCK_SIZE. lia.
  - destruct Hcase as [[Hrun _]|(_ & _ & _ & Hz)]; [|discriminate Hz]. exists o', x', f'. exact Hrun.
Defined.

