(* ===== verification/FsmakerTheorems.v ===== *)
(** Disks made by the tool as the kernel sees them: a freshly formatted disk
    passes the mount checks, its free lists are the ones the kernel's
    allocators work on, and its root is a directory in the sense of the
    directory operations. *)
From S2P Require Import Prelude CString KMem Fsmaker FsmakerProofs FsmakerFormat FsmakerRoot.
From S2P Require Import Mobj Vnode S5Disk S5File S5fs MobjProofs S5DiskProofs S5MetaProofs S5AllocProofs S5MapProofs S5PageProofs S5RwProofs S5DirProofs.

(** * The blocks of the simulated disk *)

Definition disk_of (blocks : Z) (s : simfile) (n : Z) : list Z :=
  if (0 <=? n) && (n <? blocks) then load_bytes (f_mem s) (4096 * n) 4096 else [].

Lemma slice_load_bytes m a n off k : (off + k <= n)%nat -> slice (load_bytes m a n) off k = load_bytes m (a + Z.of_nat off) k.
Proof.
  intros H. unfold slice. replace n with (off + (k + (n - off - k)))%nat by lia. rewrite !load_bytes_app.
  rewrite drop_app_length' by (by rewrite length_load_bytes). by rewrite take_app_length' by (by rewrite length_load_bytes).
Qed.

Lemma get32_load s a n i : (4 * i + 4 <= n)%nat -> get32 (load_bytes (f_mem s) a n) i = fword s (a + 4 * Z.of_nat i).
Proof. intros H. unfold get32, fword. rewrite slice_load_bytes by lia. do 2 f_equal. lia. Qed.

Lemma words_of_load s a n i k : (4 * (i + k) <= n)%nat ->
  words_of (load_bytes (f_mem s) a n) i k = map (fun j => fword s (a + 4 * Z.of_nat i + 4 * j)) (seqZ 0 (Z.of_nat k)).
Proof.
  intros H. apply list_eq. intros j. unfold words_of. rewrite !list_lookup_fmap. destruct (decide (j < k)%nat) as [Hj|Hj].
  - rewrite lookup_seq_lt, lookup_seqZ_lt by lia. cbn [fmap option_fmap option_map]. rewrite get32_load by lia. do 2 f_equal. lia.
  - by rewrite lookup_seq_ge, lookup_seqZ_ge by lia.
Qed.


(** * A formatted disk in the kernel *)

Section formatted.
Context (inodes first blocks : Z) (Hi : 1 <= inodes < 2 ^ 31) (Hfirst : first = (inodes - 1) / 32 + 2) (Hb : first < blocks < 2 ^ 31).
Context (ks l : list Z) (s : simfile) (Hf : formatted inodes first blocks ks l root_entries s).

Abbreviation disk := (disk_of blocks s).
Abbreviation super := (decode_super (disk 0)).
Abbreviation fs := (fresh_fs disk super).
Abbreviation content := (meta_content (bd := array_dev) fs).

Lemma disk_in n : 0 <= n < blocks -> disk n = load_bytes (f_mem s) (4096 * n) 4096.
Proof using Type. intros H. unfold disk_of. rewrite (proj2 (Z.leb_le 0 n)), (proj2 (Z.ltb_lt n blocks)) by lia. done. Qed.

Lemma disk_read n : 0 <= n < blocks -> read_block (BlockDev := array_dev) disk n = Some (disk n).
Proof using Hf.
  intros H. cbn. rewrite disk_in by done. replace (block_okb _) with true; [done|]. symmetry. unfold block_okb.
  rewrite length_load_bytes, andb_true_iff, forallb_forall. split; [done|].
  intros x [k Hk]%list_elem_of_In%list_elem_of_lookup. pose proof (lookup_lt_Some _ _ _ Hk) as Hlt. rewrite length_load_bytes in Hlt.
  rewrite load_bytes_lookup in Hk by done. injection Hk as <-. pose proof (fm_ok _ _ _ _ _ _ _ Hf (4096 * n + Z.of_nat k)). lia.
Qed.

Lemma content_in n : 0 <= n < blocks -> content n = Some (load_bytes (f_mem s) (4096 * n) 4096).
Proof using Hf Hb.
  intros H. unfold meta_content, fresh_fs. cbn [s5f_mobj s5f_bdev frame_of mobj_init]. change (frame_of mobj_init n) with (@None pframe).
  rewrite u32_id by lia. by rewrite disk_read, disk_in.
Qed.

Lemma fm_super_eq :
  super = S5Super S5_MAGIC (next_inode inodes 0) (fword s 8) (map (fun j => fword s (12 + 4 * j)) (seqZ 0 30)) 0 inodes S5_CURRENT_VERSION.
Proof using All.
  destruct (fm_super _ _ _ _ _ _ _ Hf) as (E1 & E2 & E3 & E4 & E5). pose proof (Z.div_pos (inodes - 1) 32).
  rewrite disk_in by lia. unfold decode_super. rewrite !get32_load, words_of_load by (unfold S5_NBLKS_PER_FNODE; lia).
  f_equal; first [exact E1|exact E2|exact E3|exact E4|exact E5].
Qed.

Lemma free_block_range b : b ∈ ks ++ l -> 0 < b < blocks - 1.
Proof using All.
  intros H. rewrite (fm_blocks _ _ _ _ _ _ _ Hf) in H. apply elem_of_seqZ in H. pose proof (Z.div_pos (inodes - 1) 32). lia.
Qed.

Lemma chain_of_file k ks' l' : (forall n, n ∈ ks' -> 0 < n < blocks) -> fchain s k ks' l' -> chain content k ks' l'.
Proof using Hf Hb.
  intros Hr Hc. induction Hc as [|k ks' l' H1 H2 Hc IH]; [constructor|]. assert (0 < k < blocks) as Hk by (apply Hr; left).
  replace (node_words s k) with (take 29 (words_of (load_bytes (f_mem s) (4096 * k) 4096) 0 S5_NBLKS_PER_FNODE)).
  - econstructor; [unfold minus1_32; lia|lia|apply content_in; lia| |apply IH; intros; apply Hr; by right].
    rewrite words_of_load by (unfold S5_NBLKS_PER_FNODE; lia). rewrite list_lookup_fmap, lookup_seqZ_lt by (unfold S5_NBLKS_PER_FNODE; lia).
    cbn -[fword]. do 2 f_equal. lia.
  - rewrite words_of_load by (unfold S5_NBLKS_PER_FNODE; lia). unfold node_words, S5_NBLKS_PER_FNODE. rewrite <- fmap_take.
    change (take 29 (seqZ 0 (Z.of_nat 30))) with (seqZ 0 29). apply map_ext. intros j. f_equal. lia.
Qed.

Lemma free_list_file : free_list content super ks l.
Proof using All.
  rewrite fm_super_eq. destruct (fm_free _ _ _ _ _ _ _ Hf) as [Hc (rest & Hch & Hl)]. split; cbn [s5s_nfree s5s_free_blocks]; [done| |].
  - rewrite length_map, length_seqZ. split; [done|]. apply Forall_fmap, Forall_true. intros j. apply fword_range, (fm_ok _ _ _ _ _ _ _ Hf).
  - exists (fword s 128), rest. split; [by rewrite list_lookup_fmap|]. split.
    + apply chain_of_file; [|done]. intros n Hn. enough (0 < n < blocks - 1) by lia. apply free_block_range, elem_of_app. by left.
    + rewrite Hl. do 2 f_equal. rewrite <- fmap_take. f_equal. apply list_eq. intros j. destruct (decide (j < Z.to_nat (fword s 8))%nat).
      * by rewrite lookup_take_lt, !lookup_seqZ_lt by lia.
      * by rewrite lookup_take_ge, lookup_seqZ_ge by lia.
Qed.

(** ** Inodes *)

Lemma decode_load a :
  decode_inode (load_bytes (f_mem s) a 128)
  = S5Inode (fword s a) (fword s (a + 4)) (fhalf s (a + 8)) (s16 (fhalf s (a + 10))) (map (fun j => fword s (a + 12 + 4 * j)) (seqZ 0 28)) (fword s (a + 124)).
Proof using Type.
  unfold decode_inode. rewrite !get32_load, words_of_load, !slice_load_bytes by (unfold S5_NDIRECT_BLOCKS; lia).
  f_equal; try (f_equal; lia).
Qed.

Lemma inode_at_file j : 0 <= j < inodes -> inode_at content j = Some (decode_inode (load_bytes (f_mem s) (4096 + 128 * j) 128)).
Proof using All.
  intros Hj. unfold inode_at, S5_INODE_BLOCK. change S5_INODES_PER_BLOCK with 32. pose proof (Z.div_mod j 32).
  assert (j / 32 <= (inodes - 1) / 32) by (apply Z.div_le_mono; lia). assert (0 <= j / 32) by (apply Z.div_pos; lia).
  pose proof (Z.mod_pos_bound j 32). rewrite content_in by lia.
  cbn [fmap option_fmap option_map]. unfold inode_in, S5_INODE_OFFSET. change sizeof_s5_inode with 128%nat. change S5_INODES_PER_BLOCK with 32.
  rewrite slice_load_bytes by lia. do 3 f_equal. lia.
Qed.

Lemma inode_list_file n j : n = Z.to_nat (inodes - j) -> 1 <= j <= inodes ->
  inode_list content (if j =? inodes then NONE else j) (seqZ j (inodes - j)).
Proof using All.
  revert j. induction n as [|n IH]; intros j Hn Hj.
  - assert (j = inodes) as -> by lia. rewrite Z.eqb_refl, Z.sub_diag. constructor.
  - rewrite (proj2 (Z.eqb_neq j inodes)) by lia. rewrite seqZ_cons by lia. destruct (fm_ino _ _ _ _ _ _ _ Hf j) as (H1 & H2 & _); [lia|].
    eapply il_cons; [unfold minus1_32; lia|apply inode_at_file; lia| | |]; rewrite ?decode_load; cbn [s5_number s5_size]; [done|rewrite elem_of_seqZ; lia|].
    rewrite H1. specialize (IH (j + 1)). replace (inodes - (j + 1)) with (Z.pred (inodes - j)) in IH by lia. unfold Z.succ.
    unfold next_inode. replace (j =? inodes - 1) with (j + 1 =? inodes) by lia. destruct (Z.eqb_spec (j + 1) inodes); apply IH; lia.
Qed.

Lemma free_inodes_file : inode_list content (s5s_free_inode super) (seqZ 1 (inodes - 1)).
Proof using All.
  rewrite fm_super_eq. cbn [s5s_free_inode]. unfold next_inode. pose proof (inode_list_file _ 1 eq_refl ltac:(lia)) as H.
  replace (0 =? inodes - 1) with (1 =? inodes) by lia. by destruct (1 =? inodes).
Qed.

Definition root_inode : s5_inode := S5Inode 64 0 S5_TYPE_DIR 2 ((blocks - 1) :: replicate 27 0) 0.

Lemma root_inode_file : inode_at content 0 = Some root_inode.
Proof using All.
  rewrite inode_at_file by lia. rewrite decode_load. unfold root_inode. destruct (fm_inode _ _ _ _ _ _ _ Hf) as (E1 & E2 & E3 & E4 & E5).
  pose proof (fm_map _ _ _ _ _ _ _ Hf) as Hm. change (4096 + 128 * 0) with 4096. f_equal. f_equal; [exact E1|exact E2|exact E3| | |].
  - change (4096 + 10) with 4106. by rewrite E4.
  - rewrite seqZ_cons by lia. cbn [map]. f_equal; [done|]. apply list_eq. intros j. rewrite list_lookup_fmap. destruct (decide (j < 27)%nat).
    + rewrite lookup_seqZ_lt, lookup_replicate_2 by lia. cbn [fmap option_fmap option_map]. f_equal. etrans; [|apply (Hm (Z.of_nat j + 1)); lia]. f_equal. lia.
    + rewrite lookup_seqZ_ge by lia. symmetry. apply lookup_replicate_None. lia.
  - apply (Hm 28). lia.
Qed.

(** ** The root directory *)

Definition root_node : s5_node := S5Node root_inode false.
Definition root_vnode : vnode s5_node := Vnode VopsDir mobj_init 0 S_IFDIR 64 (Some root_node) 0 VNODE_LOADED None.
Definition root_page (n : Z) : list Z := if n =? 0 then disk (blocks - 1) else zero_block.
Definition root_dirents : list s5_dirent := [new_entry (str ".") 0; new_entry (str "..") 0].

Lemma root_block c n : 0 <= n -> disk_block c root_inode n = if decide (n = 0) then blocks - 1 else 0.
Proof using Type.
  intros Hn. clear -Hn. unfold disk_block, S5_NDIRECT_BLOCKS. cbn [s5_direct_blocks s5_indirect_block root_inode]. destruct (Z.ltb_spec n (Z.of_nat 28)).
  - case_decide as E; [by subst|]. replace (Z.to_nat n) with (S (Z.to_nat (n - 1))) by lia.
    rewrite <- lookup_tail. change (tail (_ :: _)) with (replicate 27 0). rewrite lookup_replicate_2 by lia. done.
  - by rewrite decide_False by lia.
Qed.

Lemma root_map : map_ok (bd := array_dev) disk content root_inode ks l [blocks - 1].
Proof using All.
  pose proof (Z.div_pos (inodes - 1) 32). assert (NoDup (ks ++ l)) as Hnd by (rewrite (fm_blocks _ _ _ _ _ _ _ Hf); apply NoDup_seqZ).
  apply NoDup_app in Hnd as (_ & Hdis & Hnd). split.
  - split; cbn; unfold word, S5_TYPE_DIR; try lia. split; [done|]. repeat constructor; lia.
  - done.
  - intros b Hbl. destruct (free_block_range b) as [? ?]; [apply elem_of_app; by right|]. split.
    + split; [lia|]. rewrite disk_read by lia. by eexists.
    + split; [intros Hk; by apply (Hdis b)|rewrite list_elem_of_singleton; lia].
  - intros k Hk. destruct (free_block_range k) as [? ?]; [apply elem_of_app; by left|]. rewrite list_elem_of_singleton. lia.
  - done.
  - intros n Hn. rewrite root_block by lia. case_decide; [|done]. intros _. split; [split; [lia|]|left]. rewrite disk_read by lia. by eexists.
  - intros n m Hn Hm. rewrite !root_block by lia. do 2 case_decide; lia.
Qed.

Lemma root_pages : pages_ok (bd := array_dev) disk (disk_block content root_inode) None locked_mobj root_page.
Proof using All.
  pose proof (Z.div_pos (inodes - 1) 32). split; [apply set_mutex_ok, mobj_init_ok|done|done|done|]. intros n Hn. unfold page_content, root_page.
  change (frame_of locked_mobj n) with (@None pframe). rewrite root_block by lia. case_decide as E.
  - subst n. unfold disk_page. rewrite (proj2 (Z.eqb_neq (blocks - 1) 0)) by lia. rewrite u32_id by lia. apply disk_read. lia.
  - by rewrite (proj2 (Z.eqb_neq n 0)).
Qed.

Lemma root_data : file_data root_page 64 = dir_data root_dirents.
Proof using All.
  pose proof (Z.div_pos (inodes - 1) 32). etrans; [|exact (fm_entries _ _ _ _ _ _ _ Hf)]. apply list_eq. intros j. unfold file_data, bytes_at.
  rewrite list_lookup_fmap. change (32 * length root_entries)%nat with 64%nat. destruct (decide (j < 64)%nat) as [Hj|Hj].
  - rewrite lookup_seqZ_lt, load_bytes_lookup by lia. cbn [fmap option_fmap option_map]. f_equal. unfold file_byte, root_page, S5_BLOCK_SIZE.
    rewrite Z.div_small, Z.mod_small by lia. change (0 =? 0) with true. cbv iota. apply nth_lookup_Some. rewrite disk_in by lia.
    rewrite load_bytes_lookup by lia. do 2 f_equal. lia.
  - rewrite lookup_seqZ_ge, lookup_ge_None_2 by (rewrite ?length_load_bytes; lia). done.
Qed.

Lemma root_dir_ok :
  dir_ok (bd := array_dev) root_vnode disk locked_mobj root_node 64 content super ks l [blocks - 1] root_page root_dirents fs.
Proof using All.
  pose proof (Z.div_pos (inodes - 1) 32). split.
  - split; [apply root_map|split; [split; [apply fresh_fs_ok|done..]|apply free_list_file]|apply root_pages|].
    cbn. unfold S5_MAX_FILE_SIZE, S5_MAX_FILE_BLOCKS, S5_BLOCK_SIZE. lia.
  - done.
  - apply root_data.
  - repeat apply Forall_cons_2; [apply new_entry_ok..|apply Forall_nil_2]; try (unfold word; lia);
      (repeat constructor; lia) || (unfold S5_NAME_LEN; cbn; lia).
  - intros n Hn0 Hn. unfold S5_BLOCK_SIZE in Hn. assert (n = 0) as -> by lia. cbn [root_node inode]. rewrite root_block by lia. rewrite decide_True by done. lia.
  - intros n [pf Hpf]. discriminate.
Qed.
End formatted.

Lemma format_run inodes blocks s :
  1 <= inodes < 2 ^ 31 -> (inodes - 1) / 32 + 2 < blocks < 2 ^ 31 -> byte_file s ->
  exists s' ks l, format 0 inodes (4096 * blocks) s = Done (Ok tt) s' /\ formatted inodes ((inodes - 1) / 32 + 2) blocks ks l root_entries s'.
Proof.
  intros Hi Hb Hs. assert (pwp (format 0 inodes (4096 * blocks)) (fun _ s' => exists ks l, formatted inodes ((inodes - 1) / 32 + 2) blocks ks l root_entries s') s) as H
    by (apply pwp_format; eauto). unfold pwp, wp in H. destruct (format _ _ _ s) as [[[]|e] s'|]; [|done..]. destruct H as (ks & l & H). eauto.
Qed.

Lemma check_super_new inodes nfree l : 1 <= inodes -> s5_check_super (S5Super S5_MAGIC (next_inode inodes 0) nfree l 0 inodes S5_CURRENT_VERSION) = 0.
Proof.
  intros Hi. unfold s5_check_super, next_inode. cbn [s5s_magic s5s_free_inode s5s_num_inodes s5s_root_inode s5s_version]. rewrite !Z.eqb_refl.
  destruct (Z.eqb_spec 0 (inodes - 1)).
  - change (NONE =? minus1_32) with true. rewrite orb_true_r, (proj2 (Z.ltb_lt 0 inodes)) by lia. done.
  - rewrite (proj2 (Z.ltb_lt (0 + 1) inodes)), (proj2 (Z.ltb_lt 0 inodes)) by lia. done.
Qed.

Lemma find_root name : name <> str "." -> name <> str ".." -> find_entry name root_dirents = None.
Proof.
  intros H1 H2. apply list_find_None. repeat apply Forall_cons_2; [..|apply Forall_nil_2]; intros E; [apply H1|apply H2]; by rewrite <- E.
Qed.

(** C12: formatting a disk of [blocks] blocks with [inodes] inodes always
    succeeds when the inode table leaves room for the root directory, and gives
    a disk the kernel accepts: the super block passes the checks of
    [s5_check_super], the blocks after the inode table but the last are exactly
    the blocks of the free list, its nodes included, the inodes other than the
    root are exactly the free-inode list, and the root inode is a directory of
    the last block whose entries are "." and "..", in the sense of the kernel's
    directory operations. *)
Theorem format_mountable inodes blocks s :
  let first := (inodes - 1) / 32 + 2 in
  1 <= inodes < 2 ^ 31 -> first < blocks < 2 ^ 31 -> byte_file s ->
  exists s' ks l, format 0 inodes (4096 * blocks) s = Done (Ok tt) s' /\
    let d := disk_of blocks s' in let sb := decode_super (d 0) in let f := fresh_fs d sb in
    let c := meta_content (bd := array_dev) f in
    s5_check_super sb = 0 /\ s5s_root_inode sb = 0 /\ s5s_num_inodes sb = inodes
    /\ ks ++ l ≡ₚ seqZ first (blocks - 1 - first)
    /\ inode_list c (s5s_free_inode sb) (seqZ 1 (inodes - 1))
    /\ inode_at c 0 = Some (root_inode blocks)
    /\ dir_ok (bd := array_dev) (root_vnode blocks) d locked_mobj (root_node blocks) 64 c sb ks l [blocks - 1] (root_page blocks s') root_dirents f.
Proof.
  intros first Hi Hb Hs. destruct (format_run inodes blocks s Hi Hb Hs) as (s' & ks & l & Hrun & Hf).
  exists s', ks, l. split; [done|]. cbn zeta. pose proof (fm_super_eq _ _ _ Hi eq_refl Hb _ _ _ Hf) as Hsb.
  split_and!; [|by rewrite Hsb..|apply Hf|by eapply free_inodes_file|by eapply root_inode_file|by eapply root_dir_ok].
  rewrite Hsb. apply check_super_new. lia.
Qed.

(** C13: after formatting a disk, the kernel can link any new name in the root
    directory, and looking the name up finds the inode linked. *)
Theorem format_link_find {mem : Memory} {pages : Pages} inodes blocks s name ino :
  let n := Z.of_nat (length name) in
  oom = false -> 1 <= inodes < 2 ^ 31 -> (inodes - 1) / 32 + 2 < blocks < 2 ^ 31 -> byte_file s ->
  nonul name -> n < Z.of_nat S5_NAME_LEN -> name <> str "." -> name <> str ".." -> word ino ->
  exists s' st1 st2, format 0 inodes (4096 * blocks) s = Done (Ok tt) s' /\
    let d := disk_of blocks s' in let f := fresh_fs d (decode_super (d 0)) in
    link_entry (bd := array_dev) name n ino (at_node (root_vnode blocks) locked_mobj (root_node blocks) 64 f) = Done 0 st1
    /\ s5_find_dirent (bd := array_dev) name n st1 = Done (ino, 64) st2.
Proof.
  intros n Hoom Hi Hb Hs Hn Hlen Hdot Hdots Hino. destruct (format_run inodes blocks s Hi Hb Hs) as (s' & ks & l & Hrun & Hf).
  pose proof (root_dir_ok _ _ _ Hi eq_refl Hb _ _ _ Hf) as Hd. assert (0 <= n <= n) as Hnn by lia.
  assert (find_entry (take (Z.to_nat n) name) root_dirents = None) as Hnew by (unfold n; rewrite Nat2Z.id, firstn_all; by apply find_root).
  pose proof (wp_link_new Hoom (root_vnode blocks) _ (or_intror eq_refl) eq_refl _ n ino _ _ _ _ _ _ _ _ _ _ _ Hd Hn Hnn Hlen Hino ltac:(done) Hnew) as Hwp.
  apply wp_run in Hwp as (r & st & Hlink & o1 & x1 & c1 & s1 & ks1 & l1 & D1 & pg1 & f1 & _ & [(-> & -> & Hd1)|(_ & _ & _ & _ & Hz)]).
  - destruct (find_dirent_run Hoom (root_vnode blocks) _ (or_intror eq_refl) eq_refl name n _ _ _ _ _ _ _ _ _ _ _ Hd1 Hn Hnn) as (o2 & f2 & Hfind & _).
    do 3 eexists. split; [done|]. split; [exact Hlink|]. rewrite Hfind. do 2 f_equal.
    unfold find_entry in *. rewrite list_find_app_r by done. unfold n. rewrite Nat2Z.id, firstn_all. cbn [list_find].
    rewrite decide_True by (apply new_entry_ok; [done|lia|done]). done.
  - exfalso. cbn [root_node inode] in Hz. rewrite root_block in Hz by done. change (64 / S5_BLOCK_SIZE) with 0 in Hz. rewrite decide_True in Hz by done.
    pose proof (Z.div_pos (inodes - 1) 32). lia.
Qed.

(** ** Witnesses: an empty file formatted as a disk of 64 blocks *)

Definition no_file : simfile := Simfile ∅ 0.

Lemma no_file_ok : byte_file no_file.
Proof. intros x. unfold load8. cbn. by rewrite lookup_empty. Qed.

Lemma format_mountable_witness :
  exists s', format 0 240 (4096 * 64) no_file = Done (Ok tt) s' /\ s5_check_super (decode_super (disk_of 64 s' 0)) = 0.
Proof.
  destruct (format_mountable 240 64 no_file) as (s' & ks & l & Hrun & Hok & _); [lia|by split|exact no_file_ok|].
  exists s'. split; [exact Hrun|exact Hok].
Defined.

Lemma format_link_find_witness :
  exists s' st1 st2, format 0 240 (4096 * 64) no_file = Done (Ok tt) s' /\
    let d := disk_of 64 s' in
    link_entry (mem := false) (pages := []) (bd := array_dev) (str "hello") 5 7
      (at_node (root_vnode 64) locked_mobj (root_node 64) 64 (fresh_fs d (decode_super (d 0)))) = Done 0 st1
    /\ s5_find_dirent (mem := false) (pages := []) (bd := array_dev) (str "hello") 5 st1 = Done (7, 64) st2.
Proof.
  apply (format_link_find (mem := false) (pages := []) 240 64 no_file (str "hello") 7);
    [done|lia|by split|exact no_file_ok|repeat constructor; lia|unfold S5_NAME_LEN; cbn; lia|done|done|unfold word; lia].
Defined.
